(* ===== verification/_CoqProject ===== *)
-Q . S2P
Prelude.v
JsNumber.v
ExactDecimal.v
Json.v
Ledger.v
LedgerFacts.v
LedgerHash.v
LedgerProps.v
Idempotency.v
IdempotencyProps.v
Restricted.v
RestrictedProps.v
ProviderAttempt.v
ProviderProps.v
Invoice.v
Payroll.v
Escrow.v
EscrowFacts.v
EscrowProps.v
WalletProps.v
EscrowTheorems.v
Booking.v
BookingFacts.v
Reservation.v
BookingProps.v
BookingTheorems.v
Transit.v
Penalty.v
TransitProps.v
TransitTheorems.v
Chat.v
ChatProps.v
ChatTheorems.v
Expiry.v
ExpiryTheorems.v
Vault.v
VaultProps.v
VaultTheorems.v
RoundUp.v
Susu.v
SusuProps.v
SusuTheorems.v
Azm.v
AzmProps.v
Auction.v
AuctionProps.v
AzmTheorems.v
Convert.v
ConvertTheorems.v
OrderBook.v
OrderBookTheorems.v
