(* ===== verification/Prelude.v ===== *)
(** * Azaman backend: a verification library

    ** The program

    The repository is the backend of a payments and commerce platform: Express
    routes and controllers over services that keep customers' money in a
    PostgreSQL database through Prisma.  This library verifies the part that
    carries the money: the double-entry ledger, the idempotency authority in
    front of every financial request, the escrow services, the reservation and
    transit booking lifecycles and the conversation money on top of them, the
    savings vaults and savings groups, the loyalty points (AZM) with their
    spending, stakes, gifts, auctions, sale for USDC and order book, the
    obligations and provider attempts of withdrawals, and the exact arithmetic of invoices and
    payrolls.

    The parts interact as follows.  A financial request claims its identity in
    the idempotency table (middleware/idempotency.js) before its handler runs.
    The handler calls a service, which opens a transaction, claims the row it
    is about to change with a conditional update, moves balances between the
    buckets of users, posts the same movement to the ledger
    (services/ledgerService.js), writes a history row and, where it is wired,
    commits the idempotency claim in the same transaction.  Smart escrow
    (services/escrowService.js), booking escrow
    (services/bookingEscrowService.js), the reservation lifecycle
    (services/reservationLifecycleService.js), the transit services with their
    no-show sweep and trip cancellation, and the business penalties
    (services/penaltyPolicyService.js) share one escrow table, one set of
    buckets and one ledger.  Conversation money
    (services/conversationMoneyService.js) keeps its own tickets on the same
    balances and ledger, and so do the savings vaults
    (services/vaultService.js) with their worker and the AZM reward credit.
    Savings groups (services/susuService.js) pool contributions in the locked
    balances of their members and pay each pool out to one of them.  AZM points
    are a balance of their own with two logs, one of rewards and one of spends;
    rewards, spends, gifts and bids go through one credit and one debit, whose
    identities make a retry harmless, while stakes, card skins, the conversion
    and the order book update the balance themselves.  Points become money in
    the conversion (controllers/azmConversionController.js), which pays from the
    fee pool, and in the order book (controllers/orderBookController.js), where
    users trade them with each other.

    ** The files

    - Prelude: results and transactions ([res], [M], [transaction]), string,
      list and integer lemmas, the tactics and hint databases.
    - JsNumber: JavaScript numbers as rationals with round to nearest even
      ([fl]), [toFixed], [_round6], with the error bounds that make 8-decimal
      round trips exact.
    - ExactDecimal: Decimal(20,8) quantities as integers of 1e-8 units, their
      text, and [toExactDecimal] of services/ledgerService.js.
    - Json: [JSON.stringify] of strings, [Array.prototype.sort] and the
      canonical rendering of middleware/idempotency.js.
    - Ledger, LedgerFacts, LedgerHash, LedgerProps:
      services/ledgerService.js.  State [ldb]: accounts, transactions, journal
      lines.  Operations [ensureAccount], [post], [accountBalance],
      [userLiabilityBalance], [exactResidual].
    - Idempotency, IdempotencyProps: middleware/idempotency.js.  State: the
      operation table and where each request stands between two database
      calls; a step relation.
    - Restricted, RestrictedProps: services/restrictedObligationService.js.
    - ProviderAttempt, ProviderProps:
      services/providerSettlementAttemptService.js, one step per SQL
      statement.
    - Invoice, Payroll: utils/exactInvoiceMath.js and utils/payrollMath.js.
    - Escrow: services/escrowService.js and utils/securityCheck.js.  State
      [edb]: users' buckets, escrows, disputes, fees, history, profit log,
      ledger and idempotency claims.  One definition per service function
      ([createEscrow], [fundEscrow], [markSatisfied], [raiseDispute],
      [resolveDispute], [cancelEscrow], [assignDisputeToAdmin]) and per
      transaction primitive ([_releaseEscrowTx], [_refundEscrowTx],
      [_claimEscrowStatusTx], [split_tx]).
    - EscrowFacts, EscrowProps, EscrowTheorems: what each transaction does as
      exact integers ([effect]), the operations as steps ([escrow_step]), the
      shapes of the steps, and the theorems.
    - WalletProps: what a service that keeps its own rows beside [edb] needs of
      it: the class of the ledger accounts it owns ([OwnCode]), of its posting
      keys ([OwnKeys]), and the effect of a posting on the wallet
      ([wallet_effect]); the audit of a changed balance.
    - Booking, BookingFacts: services/bookingEscrowService.js over [bdb], which
      adds the reservation and transit tables to [edb].
    - Reservation: services/reservationLifecycleService.js; a terminal operation
      takes the reservation as it read it ([seen]) beside the database it runs
      on.
    - BookingProps, BookingTheorems: the three services interleaved
      ([booking_step]), and the theorems.
    - Transit: services/transitBookingService.js,
      services/transitTripCancellationService.js,
      workers/reservationNoShowWorker.js and the parts of
      controllers/transitController.js, controllers/marketplaceController.js
      and services/qrCheckInService.js that write trips and bookings.  State
      [tdb]: trips, seat maps, seat rows and vehicles beside [bdb].
    - Penalty: services/penaltyPolicyService.js.
    - TransitProps, TransitTheorems: all of them interleaved, each on whatever
      database it read ([tstep]); the steps in which the writes
      without a condition write on the row they read ([ordered_step]); and the
      theorems.
    - Expiry, ExpiryTheorems: workers/escrowExpiryWorker.js and
      workers/transitBookingExpiryWorker.js.  State [xdb]: workspaces, system
      messages and warnings beside [tdb]; the treatment of single rows
      interleaved with the transit services ([xstep]).
    - Chat, ChatProps, ChatTheorems: services/conversationMoneyService.js.
      State [cdb]: tickets, messages and contacts beside [edb]; the service's
      calls interleaved with smart escrow ([cstep]).
    - Vault, VaultProps, VaultTheorems: services/vaultService.js,
      workers/vaultWorker.js, the auto-rule handlers of
      controllers/vaultController.js and the credit of
      services/azmRewardService.js.  State [vdb]: vaults, deposits, profiles,
      rewards and round-up settings beside [edb]; the transactions interleaved
      with smart escrow ([vstep]).
    - RoundUp: controllers/roundUpController.js and
      controllers/vaultYieldController.js over the same state, and the books of
      all writers of vaults together ([savings_run]).
    - Susu, SusuProps, SusuTheorems: services/susuService.js and
      workers/susuWorker.js.  State [sdb]: groups, members, cycles,
      contributions, chats, vouches and the standing of users beside [vdb];
      every transaction of the service and of a tick interleaved with the
      vaults and smart escrow ([sstep]).
    - Azm, AzmProps: services/azmSpendService.js, services/azmStakeService.js,
      services/nitroPolicy.js, services/azmGiftService.js and the rewards of
      services/azmRewardService.js.  State [adb]: spend log, stakes, gifts, ads
      and card skins beside [vdb], which has balances and reward log.
    - Auction, AuctionProps: services/azmAuctionService.js and
      workers/azmAuctionWorker.js, on the auctions and bids of [adb].
    - AzmTheorems: the calls of both interleaved ([astep]), and the theorems.
    - Convert, ConvertTheorems: controllers/azmConversionController.js.  State
      [kdb]: the conversion log and the age of accounts beside [adb];
      conversions interleaved with the calls of AzmTheorems ([kstep]).
    - OrderBook, OrderBookTheorems: controllers/orderBookController.js.  State
      [odb]: orders and trades beside [adb]; placements and cancellations
      interleaved ([ostep]).

    ** What the theorems show

    - Ledger: a committed posting balances exactly within each asset, although
      the decimal library rounds; every reachable ledger has balanced books,
      known accounts and unique identities; a key once posted keeps its
      content for ever and a replay changes nothing; a balance moves by
      exactly the lines posted; a refusal leaves no trace; the posting hash
      identifies entry type, lines up to order and conversion.
    - Idempotency: for every interleaving of requests, crashes and database
      failures an identity carries at most one economic effect; a committed
      claim answers every later request; the fingerprint identifies the
      payload; a released claim can be used again exactly when the
      disposition says so.
    - Escrow: no interleaving creates or destroys value; ledger accounts,
      locked and disputed buckets and the history agree with the balances;
      rows only move forward and terminal states are final; an escrow has at
      most one settlement posting; funding is all or nothing; a ruling pays
      out exactly the principal.  Three theorems state where the code falls
      short of its intent: a zero fee cannot be funded, a release that fails
      after both parties consented is not retried, and a cancellation that
      read the row before a dispute refunds past the dispute.
    - Bookings and reservations: the same books for the three services
      together; a reservation that is no longer open has no money left in
      escrow, as long as the operation that closed it found the link to the
      escrow it had read; cancellation, check-in and no-show settle the deposit
      exactly, with the percentage penalty capped at half.  One theorem states
      the shortfall: the claim does not repeat the link, so a cancellation that
      read the reservation before its escrow was linked closes it and leaves the
      deposit locked.
    - Transit: every run is a run of the platform below it, which is therefore
      the specification of what transit does to money; free and sold seats add
      up to the layout and no seat is sold twice, as long as the controller's
      status update and the boarding write on the row they read; a
      cancellation, a trip cancellation and a business no-show each settle
      exactly.  Three theorems state shortfalls: a status update that read the
      booking before its cancellation confirms it again, and a second
      cancellation then oversells the trip; the controller's NO_SHOW update
      without a penalty policy strands the deposit; and a seat of an ended
      booking is offered and refused.
    - Expiry workers: every tick refines the transit services; expiry and
      funding of a draft exclude each other; an uninterrupted sweep leaves no
      overdue draft.  Two theorems state shortfalls of stale scans: the refund
      of an inactive escrow overrides a dispute, and the transit worker cancels
      a booking that was paid in time.
    - Conversation money: one set of books with smart escrow, in which the
      history accounts for a balance up to the principal that the user has put
      into tickets; a client request
      has one effect under every race; a ticket keeps its terms and follows
      its state machine; payments are exact.  Two theorems state shortfalls: a
      funded ticket that is disputed keeps its principal for ever, and funding
      a ticket makes the pre-flight audit refuse the funder's escrows.
    - Vaults: one set of books with smart escrow for all writers of vaults, in
      which the account of a vault holds its balance less the round-ups and the
      yield, which nobody pays; every call and tick is a run of the vault
      transactions; a vault ends once, and after that only round-ups and yield
      still credit it; a deposit key carries one deposit; a
      break and a completion pay exactly, the completion with its reward; the
      intensity reward is accurate to the cent.  The shortfalls: a penalty of
      half a unit makes a vault unbreakable, an empty vault never completes, a
      deposit makes the audit refuse the depositor's escrows, a deposit that
      ends in half a unit creates a unit, and round-ups and simulated yield
      credit vaults that nobody pays for.
    - Savings groups: one set of books with vaults and smart escrow, in which
      the account of a member in a cycle holds what the member has in the open
      pool; processing a cycle and a worker tick are runs of the transactions;
      a cycle collects from a member once and pays out once; a tick owns the
      cycle it claimed, and no cycle strands: a cycle that is due is in the
      scan of the worker, unless the scan is full with cycles due no later, and
      the tick that scanned it claims it; collections and payouts are
      exact; a new group ranks every member once; a group starts when everybody
      has signed.  The shortfalls: signing twice at once starts the group
      without another's signature, a default is punished again in every later
      cycle, and a payout makes the audit refuse the recipient's escrows.
    - AZM points: balances agree with the two logs and stay values of their
      column along every run, conversions included and the order book not, and
      what a user holds counts the stakes; a gift moves its points once, and
      what it takes and gives differ by at most one unit and only for an amount
      half-way between two units; a settlement burns the three highest
      bids exactly and is final; no two auctions are open at one instant; a
      stake whose cooldown has passed comes back once; a conversion is an
      exchange with the fee pool, exact up to a unit for amounts half-way
      between two units, and its daily limit holds for requests one after
      another.  The shortfalls: a bid of zero units or of a vendor who has
      spent the points blocks the settlement, a win shortens a longer boost, an
      auction left in SETTLING is never retried, stakes are summed as doubles,
      gifts and conversions that end in half a unit create one, and two
      conversions at once pass the daily limit.
    - Order book: an order keeps its terms, only shrinks and is final when it is
      filled or cancelled.  The shortfalls: the cancellation of a BUY refunds at
      the rounded price, which for every price that rounds up is more than its
      reserve by the quantity times the rounding; a market BUY that
      is not filled cannot be cancelled; one that is quoted an empty book takes
      an ask for nothing; a match whose rounded lines do not add up is refused.
    - Obligations settle once and move the reserve denominator by exactly their
      amount; a provider attempt never leaves a terminal status and never
      changes its binding; invoice and payroll totals are exact.

    ** Parameters

    Code outside the repository is an argument with its documented behaviour
    as a law: the decimal library ([DecimalLib]: 20 significant digits,
    monotone; [DecimalDiv] for quotients), the database client's conversion of
    a double to a Decimal(20,8) column ([PrismaNumber]: a double nearest to a
    value of 8 decimals is stored as that value, and the sign is kept;
    [PrismaSend] for the shortest decimal that a double goes out as, which
    reads back as the double), SHA-256 ([sha256]; theorems
    that identify contents by a hash assume that the two texts at hand do not
    collide) and the JSON text of an escrow row ([wire]), of
    a vault ([wire_vault]), of a reward breakdown ([wire_breakdown]), of a gift
    ([wire_gift]), of a conversion ([wire_conversion]) and of a placement
    ([wire_placed]).  The
    hook that a caller of a vault deposit may pass is an argument that only
    reads ([only_reads]), and whether the reward service is wired is a flag.
    Each class has a
    concrete instance, with which the witnesses run.  Random identifiers and
    clocks are arguments of the operations.

    ** Bounds

    [SAFE_UNITS] is the range in which an 8-decimal amount survives the passage
    through a double.  [ESCROW_MAX], one million USDC, bounds the principal and
    fee of an escrow in the invariants: sums, products with a percentage and
    their 6-decimal roundings stay inside [SAFE_UNITS].
    [VAULT_MAX], ten million USDC, bounds the balance of a vault where the
    products with a percentage have to fit 20 significant digits.
    An amount of a request may have more than 8 decimals.  One that is half-way
    between two units is rounded up where it is added and, the rest of the
    balance being rounded up too, down where it is subtracted, so a unit
    appears ([tie_deposit_mints], [half_unit_gift_mints]).  The steps of vaults,
    savings groups and points come in two versions ([HalfUnits]): with all
    amounts, where the books are kept up to one unit per recorded deposit or
    spend ([slack] is 1), and without the half-way amounts, where they are kept
    exactly ([slack] is 0).  The theorems are proved for both at once.
    [POOL_MAX], ten million USDC, bounds the pool of a cycle for the same
    reason, and the percentage of the fee is between 0 and 100.
    A bid is within [SAFE_UNITS]; three winners of an auction then add up within
    20 significant digits.  The price and the reserve of the order whose
    cancellation is measured are within it too.
    [DECIMAL_20_8_LIMIT] is the range of the money columns, kept as a check of
    every write.  A provider call run alone executes at most five statements,
    the fuel of [run_call]; [record_alone] shows it is enough.

    ** Transactions

    A [$transaction] is one atomic step and a thrown error rolls it back.  What
    a function reads before it opens its transaction comes from an earlier
    database, so stale decisions are part of the model ([earlier] and its
    transit counterpart; conversation money, vaults and the expiry workers decide on
    an arbitrary database).  A vault deposit is up to three transactions (the
    deposit, the record of a failure, the reward), each a step of its own.
    The transactions of one susu tick are steps of their own, and the members it
    collects from come from an earlier database; the acceptance of a contract
    reads the member in one too, since its writes do not repeat the status.
    A bid, a settlement, a boost and a skin work on rows that they lock in their
    transaction; the tests before it use an arbitrary database, and so do the
    quota of a conversion and, of a placed order, the quote and the orders it
    finds, whose quantities it then claims.
    The controller's status update and the boarding of a passenger read in an
    arbitrary earlier database and write by id.  The seat map of a vehicle is
    fixed.  Inside a transaction reads are taken to agree with the writes that
    follow, because for the services verified here each write repeats its
    precondition in its own condition; the claim of the reservation lifecycle
    does not repeat the link to the escrow, so its operations take the
    reservation they read as an argument of its own.

    ** Not modelled

    Socket events, notifications, order synchronization, trust scores and
    statistics after a commit; descriptive columns and message texts; the HTTP
    layer; trip deletion and seat-map edits; and the other services: custody
    and fiat settlement, payment requests, smart routes, the second version of
    the savings groups (services/susu), P2P trading, loyalty
    levels, the shadow journal, reconciliation, content, message
    transport and authentication.  The next
    extensions are the shadow journal, settlement over the ledger, obligations
    and provider attempts, the second version of the savings groups and smart
    routes. *)

From stdpp Require Import base gmap strings list fin_maps numbers.
From Stdlib Require Import ZArith Lia.
From stdpp Require Import list.

Local Open Scope Z_scope.

(** ** Results: a thrown JavaScript [Error] is a value *)

(** [Err code] stands for a thrown error; [code] is the error's [code] field
    or, for errors without one, the fixed part of its message. *)
Inductive res (A : Type) : Type :=
| Ok (a : A)
| Err (code : string).

Arguments Ok {A} _.
Arguments Err {A} _.

#[export] Instance res_ret : MRet res := fun A a => Ok a.
#[export] Instance res_bind : MBind res :=
  fun A B f m => match m with Ok a => f a | Err e => Err e end.

Definition is_ok {A} (r : res A) : bool :=
  match r with Ok _ => true | Err _ => false end.

(** [throw_if c e]: [if (c) throw new Error(e)]. *)
Definition throw_if (c : bool) (e : string) : res unit :=
  if c then Err e else Ok tt.

Definition of_option {A} (o : option A) (e : string) : res A :=
  match o with Some a => Ok a | None => Err e end.

(** [catch r h]: [try { r } catch (e) { h(e) }]. *)
Definition catch {A} (r : res A) (h : string -> res A) : res A :=
  match r with Ok a => Ok a | Err e => h e end.

Fixpoint mapR {A B} (f : A -> res B) (l : list A) : res (list B) :=
  match l with
  | [] => Ok []
  | x :: xs => y ← f x; ys ← mapR f xs; mret (y :: ys)
  end.

(** ** Database transactions: state passing with rollback *)

(** A computation on the caller's transaction client: it reads and writes the
    database state [S] and may throw. *)
Definition M (S A : Type) : Type := S -> res (A * S).

#[export] Instance M_ret {S} : MRet (M S) := fun A a s => Ok (a, s).
#[export] Instance M_bind {S} : MBind (M S) :=
  fun A B f m s => match m s with Ok (a, s') => f a s' | Err e => Err e end.

Definition throw {S A} (e : string) : M S A := fun _ => Err e.
Definition get {S} : M S S := fun s => Ok (s, s).
Definition put {S} (s : S) : M S unit := fun _ => Ok (tt, s).
Definition reads {S A} (f : S -> A) : M S A := fun s => Ok (f s, s).
Definition modify {S} (f : S -> S) : M S unit := fun s => Ok (tt, f s).
Definition check {S} (c : bool) (e : string) : M S unit :=
  fun s => if c then Ok (tt, s) else Err e.
Definition lift {S A} (r : res A) : M S A :=
  fun s => match r with Ok a => Ok (a, s) | Err e => Err e end.

(** [prisma.$transaction(work)]: the writes of [work] are kept only when it
    returns; a throw rolls every one of them back. *)
Definition transaction {S A} (work : M S A) (s : S) : res A * S :=
  match work s with
  | Ok (a, s') => (Ok a, s')
  | Err e => (Err e, s)
  end.

(** An optional string as a JavaScript condition sees it: the empty string is
    falsy, like an absent value. *)
Definition truthy (o : option string) : option string :=
  match o with Some EmptyString => None | _ => o end.

(** ** Sums *)

Definition sumZ {A} (f : A -> Z) (l : list A) : Z := foldr (fun x acc => f x + acc) 0 l.

(** ** Lemmas on results *)

Section Results.
Context {A B : Type}.

Lemma bind_Ok (m : res A) (f : A -> res B) b :
  m ≫= f = Ok b <-> exists a, m = Ok a /\ f a = Ok b.
Proof.
  split; [| intros (a & -> & H); exact H].
  destruct m as [a | e]; simpl; [eauto | discriminate].
Qed.

Lemma throw_if_Ok c e u : throw_if c e = Ok u <-> c = false.
Proof. destruct c, u; unfold throw_if; split; congruence. Qed.

Lemma of_option_Ok (o : option A) e a : of_option o e = Ok a <-> o = Some a.
Proof. destruct o; simpl; split; congruence. Qed.

Lemma catch_Ok (r : res A) h a :
  catch r h = Ok a -> r = Ok a \/ exists e, r = Err e /\ h e = Ok a.
Proof. destruct r; simpl; eauto. Qed.
End Results.

Lemma mapR_length {A B} (f : A -> res B) l ys :
  mapR f l = Ok ys -> length ys = length l.
Proof.
  revert ys; induction l as [| x xs IH]; simpl; intros ys H; [by injection H as <- |].
  apply bind_Ok in H as (y & _ & H). apply bind_Ok in H as (ys' & Hys & H).
  injection H as <-. simpl. by rewrite (IH _ Hys).
Qed.

Lemma mapR_Forall2 {A B} (f : A -> res B) l ys :
  mapR f l = Ok ys <-> Forall2 (fun x y => f x = Ok y) l ys.
Proof.
  revert ys; induction l as [| x xs IH]; intros ys; simpl.
  - split; intros H; [injection H as <-; constructor | by inversion H].
  - split; intros H.
    + apply bind_Ok in H as (y & Hy & H). apply bind_Ok in H as (ys' & Hys & H).
      injection H as <-. constructor; [done | by apply IH].
    + inversion H as [| ? y ? ys' Hy Hys]; subst. rewrite Hy. simpl.
      apply IH in Hys. by rewrite Hys.
Qed.

(** ** Lemmas on transactions *)

Section Transactions.
Context {S A B : Type}.

Lemma Mbind_Ok (m : M S A) (f : A -> M S B) s b s' :
  (m ≫= f) s = Ok (b, s') <-> exists a s1, m s = Ok (a, s1) /\ f a s1 = Ok (b, s').
Proof.
  unfold mbind, M_bind. split.
  - destruct (m s) as [[a s1] | e]; [eauto | discriminate].
  - intros (a & s1 & -> & H). exact H.
Qed.

Lemma Mret_Ok (a b : A) (s s' : S) : (mret a : M S A) s = Ok (b, s') <-> b = a /\ s' = s.
Proof. unfold mret, M_ret. split; [by intros [= -> ->] | by intros [-> ->]]. Qed.

Lemma check_Ok c e (s s' : S) u : check c e s = Ok (u, s') <-> c = true /\ s' = s.
Proof. unfold check. destruct c, u; split; [by intros [= ->] | by intros [_ ->] | done | by intros []]. Qed.

Lemma reads_Ok (f : S -> A) s a s' : reads f s = Ok (a, s') <-> a = f s /\ s' = s.
Proof. unfold reads. split; [by intros [= <- <-] | by intros [-> ->]]. Qed.

Lemma modify_Ok (f : S -> S) s u s' : modify f s = Ok (u, s') <-> s' = f s.
Proof. unfold modify. destruct u. split; [by intros [= <-] | by intros ->]. Qed.

Lemma get_Ok (s a s' : S) : get s = Ok (a, s') <-> a = s /\ s' = s.
Proof. unfold get. split; [by intros [= <- <-] | by intros [-> ->]]. Qed.

Lemma put_Ok (s1 s s' : S) u : put s1 s = Ok (u, s') <-> s' = s1.
Proof. unfold put. destruct u. split; [by intros [= <-] | by intros ->]. Qed.

Lemma lift_Ok (r : res A) (s : S) a s' : lift r s = Ok (a, s') <-> r = Ok a /\ s' = s.
Proof. unfold lift. destruct r; split; [by intros [= <- <-] | by intros [[= ->] ->] | done | by intros []]. Qed.

Lemma throw_Ok e (s : S) (a : A) s' : ~ throw e s = Ok (a, s').
Proof. discriminate. Qed.

(** A transaction that throws leaves the database as it found it. *)
Lemma transaction_rollback (work : M S A) s e :
  work s = Err e -> transaction work s = (Err e, s).
Proof. unfold transaction. by intros ->. Qed.

(** Whatever state a transaction leaves is the old one or the one its work
    committed. *)
Lemma transaction_cases (work : M S A) s :
  snd (transaction work s) = s \/
  exists a s', work s = Ok (a, s') /\ transaction work s = (Ok a, s').
Proof.
  unfold transaction. destruct (work s) as [[a s'] | e]; eauto.
Qed.
End Transactions.

(** A transaction commits its result or leaves the state as it was. *)
Lemma tx_cases {S A} (m : M S A) s r s' : transaction m s = (r, s') -> (exists x, r = Ok x /\ m s = Ok (x, s')) \/ (exists e, r = Err e /\ s' = s).
Proof. unfold transaction. destruct (m s) as [[x s1] | e]; intros [= <- <-]; eauto. Qed.

Lemma get_bind {S A} (f : S -> M S A) s : (get ≫= f) s = f s s.
Proof. reflexivity. Qed.

Lemma bind_run {S A B} (m : M S A) (f : A -> M S B) s x s1 : m s = Ok (x, s1) -> (m ≫= f) s = f x s1.
Proof. intros Hm. unfold mbind, M_bind. by rewrite Hm. Qed.

(** [run_inv H] decomposes a successful transaction [H : prog s = Ok (a, s')]
    into the success of each of its statements. *)
Ltac run_inv_step H :=
  lazymatch type of H with
  | (_ ≫= _) _ = Ok _ =>
      let a := fresh "v" in let s := fresh "st" in let H1 := fresh "Hrun" in
      apply Mbind_Ok in H as (a & s & H1 & H); run_inv_step H1; try run_inv_step H
  | (mret _) _ = Ok _ =>
      let H1 := fresh "Hret" in apply Mret_Ok in H as [H1 H]; try subst
  | check _ _ _ = Ok _ => apply check_Ok in H as [H ?]; try subst
  | reads _ _ = Ok _ =>
      let H1 := fresh "Hread" in apply reads_Ok in H as [H1 H]; try subst
  | modify _ _ = Ok _ => apply modify_Ok in H; try subst
  | get _ = Ok _ =>
      let H1 := fresh "Hget" in apply get_Ok in H as [H1 H]; try subst
  | put _ _ = Ok _ => apply put_Ok in H; try subst
  | lift _ _ = Ok _ =>
      let H1 := fresh "Hst" in apply lift_Ok in H as [H H1]; try subst
  | throw _ _ = Ok _ => by apply throw_Ok in H
  | _ => idtac
  end.

Ltac run_inv H := run_inv_step H.

(** [res_inv H] does the same for the pure result monad. *)
Ltac res_inv H :=
  lazymatch type of H with
  | _ ≫= _ = Ok _ =>
      let a := fresh "v" in let H1 := fresh "Hres" in
      apply bind_Ok in H as (a & H1 & H); res_inv H1; try res_inv H
  | throw_if _ _ = Ok _ => apply throw_if_Ok in H
  | of_option _ _ = Ok _ => apply of_option_Ok in H
  | mret _ = Ok _ => injection H as H; try subst
  | Ok _ = Ok _ => injection H as H; try subst
  | Err _ = Ok _ => discriminate H
  | _ => idtac
  end.

(** ** Lemmas on sums *)

Section Sums.
Context {A : Type}.
Implicit Types (f g : A -> Z) (l : list A).

Lemma sumZ_nil f : sumZ f [] = 0.
Proof. done. Qed.
Lemma sumZ_cons f x l : sumZ f (x :: l) = f x + sumZ f l.
Proof. done. Qed.
Lemma sumZ_app f l k : sumZ f (l ++ k) = sumZ f l + sumZ f k.
Proof. induction l as [| x l IH]; simpl; [done |]. rewrite IH. lia. Qed.
Lemma sumZ_perm f l k : l ≡ₚ k -> sumZ f l = sumZ f k.
Proof. induction 1; simpl in *; lia. Qed.
Lemma sumZ_ext f g l : (forall x, x ∈ l -> f x = g x) -> sumZ f l = sumZ g l.
Proof.
  induction l as [| x l IH]; intros H; simpl; [done |].
  rewrite H by left. rewrite IH; [done |]. intros y Hy. apply H. by right.
Qed.
Lemma sumZ_nonneg f l : (forall x, x ∈ l -> 0 <= f x) -> 0 <= sumZ f l.
Proof.
  induction l as [| x l IH]; intros H; simpl; [done |].
  pose proof (H x ltac:(left)). pose proof (IH ltac:(intros y Hy; apply H; by right)). lia.
Qed.
Lemma sumZ_add f g l : sumZ (fun x => f x + g x) l = sumZ f l + sumZ g l.
Proof. induction l as [| x l IH]; simpl; [done |]. rewrite IH. lia. Qed.
Lemma sumZ_sub f g l : sumZ (fun x => f x - g x) l = sumZ f l - sumZ g l.
Proof. induction l as [| x l IH]; simpl; [done |]. rewrite IH. lia. Qed.
Lemma sumZ_0 l : sumZ (fun _ => 0) l = 0.
Proof. induction l as [| x l IH]; simpl; [done |]. rewrite IH. lia. Qed.
End Sums.

Lemma sumZ_map {A B} (g : A -> B) (f : B -> Z) l : sumZ f (map g l) = sumZ (fun x => f (g x)) l.
Proof. induction l as [| x l IH]; simpl; [done |]. by rewrite IH. Qed.

(** ** Lists *)

(** In a list without duplicate images, an image has one preimage. *)
Lemma nodup_map_inj {A B} (f : A -> B) (l : list A) x y :
  NoDup (map f l) -> x ∈ l -> y ∈ l -> f x = f y -> x = y.
Proof.
  induction l as [| z l IH]; simpl; intros Hn Hx Hy Hf; [by apply not_elem_of_nil in Hx |].
  apply NoDup_cons in Hn as [Hz Hn].
  assert (Hin : forall w, w ∈ l -> f w ∈ map f l) by (intros w Hw; by apply list_elem_of_fmap_2).
  apply elem_of_cons in Hx as [-> | Hx], Hy as [-> | Hy]; try done.
  - exfalso. apply Hz. rewrite Hf. auto.
  - exfalso. apply Hz. rewrite <- Hf. auto.
  - auto.
Qed.

(** ** Strings *)

Lemma str_app_cons c (a b : string) : (String c a +:+ b = String c (a +:+ b))%string.
Proof. reflexivity. Qed.

Lemma str_app_nil_l (a : string) : ("" +:+ a = a)%string.
Proof. reflexivity. Qed.

Lemma str_app_assoc (a b c : string) : (a +:+ (b +:+ c) = (a +:+ b) +:+ c)%string.
Proof. induction a as [| x a IH]; [done |]. by rewrite !str_app_cons, IH. Qed.

Lemma str_app_nil_r (a : string) : (a +:+ "" = a)%string.
Proof. induction a as [| x a IH]; [done |]. by rewrite str_app_cons, IH. Qed.

Lemma str_app_length (a b : string) :
  String.length (a +:+ b) = (String.length a + String.length b)%nat.
Proof. induction a as [| x a IH]; [done |]. rewrite str_app_cons. simpl. by rewrite IH. Qed.

(** Equal concatenations with first parts of equal length have equal parts. *)
Lemma str_app_inj_length (a b c d : string) :
  String.length a = String.length c -> (a +:+ b = c +:+ d)%string -> a = c /\ b = d.
Proof.
  revert c. induction a as [| x a IH]; intros [| y c]; simpl; intros Hl H; try done.
  rewrite !str_app_cons in H.
  injection H as -> H. injection Hl as Hl. by destruct (IH c Hl H) as [-> ->].
Qed.

Create HintDb azm.
Create Rewrite HintDb azm.
#[export] Hint Resolve sumZ_nonneg Z.add_nonneg_nonneg : azm.
#[export] Hint Rewrite str_app_cons str_app_nil_l str_app_nil_r : azm.
#[export] Hint Rewrite @sumZ_nil @sumZ_cons @sumZ_app @sumZ_map : azm.
