(* ===== verification/JsNumber.v ===== *)
(** * JavaScript numbers

    The escrow services compute on JavaScript numbers: [Number(decimal)],
    [+], [-], [*], [toFixed], [parseFloat] and [Math.min].  A finite double is
    represented by the rational it denotes; [fl] is IEEE-754 round to nearest,
    ties to even, at 53 significant bits.  The exponent range is not bounded:
    the amounts of the program are between 1e-8 and 1e12.  [Num.num] adds
    [NaN] and the infinities, which only reach the code through request
    bodies.  The error bound [fl_error] is what makes the 8-decimal round
    trips of the services exact below ten million USDC. *)

From stdpp Require Import base numbers.
From Stdlib Require Import ZArith QArith Qabs Qround Lia Lqa.
From S2P Require Import Prelude.

Local Open Scope Z_scope.

(** Nearest integer to [a / b], ties to even ([0 < b]). *)
Definition rne (a b : Z) : Z :=
  let q := a / b in
  let r := a mod b in
  if 2 * r <? b then q
  else if b <? 2 * r then q + 1
  else if Z.even q then q else q + 1.

(** Nearest integer to [a / b], ties upwards ([0 < b]). *)
Definition rhu (a b : Z) : Z := (2 * a + b) / (2 * b).

(** [2^e] as a rational, for any sign of [e]. *)
Definition pow2Q (e : Z) : Q :=
  if 0 <=? e then inject_Z (2 ^ e) else 1 # Z.to_pos (2 ^ (- e)).

(** The exponent of the least significant bit of the double nearest to
    [n / d]. *)
Definition ulp_exp (n d : Z) : Z :=
  let k := Z.log2 n - Z.log2 d in
  if n * 2 ^ Z.max 0 (- k) <? d * 2 ^ Z.max 0 k then k - 53 else k - 52.

(** The double nearest to [n / d], [0 < n]. *)
Definition fl_pos (n : Z) (d : positive) : Q :=
  let e := ulp_exp n (Zpos d) in
  if 0 <=? e then inject_Z (rne n (Zpos d * 2 ^ e) * 2 ^ e)
  else rne (n * 2 ^ (- e)) (Zpos d) # Z.to_pos (2 ^ (- e)).

(** Rounding of an exact result to the nearest double. *)
Definition fl (q : Q) : Q :=
  match Qnum q with
  | Z0 => 0%Q
  | Zpos p => fl_pos (Zpos p) (Qden q)
  | Zneg p => (- fl_pos (Zpos p) (Qden q))%Q
  end.

(** [x.toFixed(f)] as the integer [n] of the specification: the [n] for which
    [n / 10^f] is closest to [x], the larger one of two; the sign is handled
    apart. *)
Definition toFixed_pos (f : Z) (n : Z) (d : positive) : Z := rhu (n * 10 ^ f) (Zpos d).
Definition toFixedZ (f : Z) (x : Q) : Z :=
  if Qnum x <? 0 then - toFixed_pos f (- Qnum x) (Qden x)
  else toFixed_pos f (Qnum x) (Qden x).

(** The decimal [n / 10^f] read back by [parseFloat] or [Number]. *)
Definition parseDec (f : Z) (n : Z) : Q := fl (n # Z.to_pos (10 ^ f)).

(** [parseFloat(Number(x).toFixed(6))], the services' [_round6]. *)
Definition round6 (x : Q) : Q := parseDec 6 (toFixedZ 6 x).

(** [Number(d)] of a stored Decimal(20,8) of [u] units of 1e-8. *)
Definition Number_of_units (u : Z) : Q := parseDec 8 u.

Definition js_add (x y : Q) : Q := fl (x + y).
Definition js_sub (x y : Q) : Q := fl (x - y).
Definition js_mul (x y : Q) : Q := fl (x * y).
Definition js_div (x y : Q) : Q := fl (x / y).
Definition js_min (x y : Q) : Q := if Qle_bool x y then x else y.
Definition js_max (x y : Q) : Q := if Qle_bool x y then y else x.
Definition js_lt (x y : Q) : bool := negb (Qle_bool y x).

(** Any JavaScript number, as a request body can carry it. *)
Module Num.
Inductive num : Type :=
| Fin (q : Q)
| Inf (negative : bool)
| NaN.

(** [Number.isFinite]. *)
Definition isFinite (x : num) : bool := match x with Fin _ => true | _ => false end.
End Num.

(** ** Rounding to an integer *)

Lemma rne_spec a b : 0 < b -> 2 * Z.abs (rne a b * b - a) <= b.
Proof.
  intros Hb. unfold rne.
  pose proof (Z.div_mod a b ltac:(lia)). pose proof (Z.mod_pos_bound a b Hb).
  destruct (Z.ltb_spec (2 * (a mod b)) b); [nia |].
  destruct (Z.ltb_spec b (2 * (a mod b))); [nia |].
  destruct (Z.even (a / b)); nia.
Qed.

Lemma rhu_near a b k : 0 < b -> - b <= 2 * (a - k * b) < b -> rhu a b = k.
Proof.
  intros Hb H. unfold rhu.
  symmetry. apply (Z.div_unique _ _ _ (2 * a + b - 2 * b * k)); lia.
Qed.

Lemma rhu_spec a b : 0 < b -> - b <= 2 * (a - rhu a b * b) < b.
Proof.
  intros Hb. unfold rhu.
  pose proof (Z.div_mod (2 * a + b) (2 * b) ltac:(lia)).
  pose proof (Z.mod_pos_bound (2 * a + b) (2 * b) ltac:(lia)). nia.
Qed.

Lemma rhu_mono a a' b : 0 < b -> a <= a' -> rhu a b <= rhu a' b.
Proof. intros. unfold rhu. apply Z.div_le_mono; lia. Qed.

Lemma rhu_nonneg a b : 0 < b -> 0 <= a -> 0 <= rhu a b.
Proof. intros. unfold rhu. apply Z.div_pos; lia. Qed.

(** ** The relative error of one rounding *)

Lemma pow2_pos e : 0 <= e -> 0 < 2 ^ e.
Proof. intros. apply Z.pow_pos_nonneg; lia. Qed.

(** [n / d] is more than half of [2^(log2 n - log2 d)]. *)
Lemma log2_quotient n d (k := Z.log2 n - Z.log2 d) :
  0 < n -> 0 < d -> d * 2 ^ Z.max 0 k <= 2 * (n * 2 ^ Z.max 0 (- k)).
Proof.
  intros Hn Hd.
  pose proof (Z.log2_spec n Hn) as [Hn1 _]. pose proof (Z.log2_spec d Hd) as [_ Hd2].
  pose proof (Z.log2_nonneg n). pose proof (Z.log2_nonneg d).
  rewrite Z.pow_succ_r in Hd2 by lia. subst k.
  destruct (Z.le_ge_cases 0 (Z.log2 n - Z.log2 d)) as [Hk | Hk].
  - rewrite Z.max_r, Z.max_l, Z.pow_0_r by lia.
    assert (Hs : 2 ^ Z.log2 n = 2 ^ Z.log2 d * 2 ^ (Z.log2 n - Z.log2 d))
      by (rewrite <- Z.pow_add_r by lia; f_equal; lia).
    pose proof (pow2_pos _ Hk). nia.
  - rewrite Z.max_l, Z.max_r, Z.pow_0_r by lia.
    assert (Hs : 2 ^ Z.log2 d = 2 ^ Z.log2 n * 2 ^ (- (Z.log2 n - Z.log2 d)))
      by (rewrite <- Z.pow_add_r by lia; f_equal; lia).
    pose proof (pow2_pos (- (Z.log2 n - Z.log2 d)) ltac:(lia)). nia.
Qed.

(** Lowering an exponent [k] by [p] multiplies the scaled quotient by [2^p]. *)
Lemma scale_down n d k p c :
  0 <= p -> 0 < n -> 0 < d ->
  d * 2 ^ Z.max 0 k <= c * (n * 2 ^ Z.max 0 (- k)) ->
  d * 2 ^ Z.max 0 (k - p) * 2 ^ p <= c * (n * 2 ^ Z.max 0 (- (k - p))).
Proof.
  intros Hp Hn Hd H.
  destruct (Z.le_ge_cases p k).
  - rewrite (Z.max_r 0 (k - p)), (Z.max_l 0 (- (k - p))) by lia.
    rewrite (Z.max_r 0 k), (Z.max_l 0 (- k)) in H by lia.
    rewrite <- Z.mul_assoc, <- Z.pow_add_r by lia.
    by replace (k - p + p) with k by lia.
  - rewrite (Z.max_l 0 (k - p)), (Z.max_r 0 (- (k - p))) by lia.
    replace (- (k - p)) with (Z.max 0 (- k) + (p - Z.max 0 k)) by lia.
    rewrite Z.pow_add_r, Z.pow_0_r by lia.
    assert (Hs : 2 ^ Z.max 0 k * 2 ^ (p - Z.max 0 k) = 2 ^ p)
      by (rewrite <- Z.pow_add_r by lia; f_equal; lia).
    rewrite <- Hs. pose proof (pow2_pos (p - Z.max 0 k) ltac:(lia)). nia.
Qed.

(** The scaled significand has at least 53 bits. *)
Lemma ulp_exp_scaled n d :
  0 < n -> 0 < d ->
  d * 2 ^ Z.max 0 (ulp_exp n d) * 2 ^ 52 <= n * 2 ^ Z.max 0 (- ulp_exp n d).
Proof.
  intros Hn Hd. unfold ulp_exp. set (k := Z.log2 n - Z.log2 d).
  destruct (Z.ltb_spec (n * 2 ^ Z.max 0 (- k)) (d * 2 ^ Z.max 0 k)) as [Hlt | Hge].
  - pose proof (scale_down n d k 53 2 ltac:(lia) Hn Hd (log2_quotient n d Hn Hd)) as H.
    change (2 ^ 53) with (2 * 2 ^ 52) in H. lia.
  - pose proof (scale_down n d k 52 1 ltac:(lia) Hn Hd ltac:(lia)). lia.
Qed.

(** Closeness of two fractions, cross-multiplied. *)
Lemma frac_close r E n d P :
  Z.abs (r * Zpos d - n * Zpos E) * Zpos P <= n * Zpos E ->
  (Qabs ((r # E) - (n # d)) <= (n # d) * (1 # P))%Q.
Proof.
  intros H. unfold Qle, Qabs, Qminus, Qplus, Qopp, Qmult, Qnum, Qden.
  rewrite !Pos2Z.inj_mul.
  replace (r * Zpos d + - n * Zpos E) with (r * Zpos d - n * Zpos E) by lia.
  set (A := Z.abs _) in *. clearbody A. nia.
Qed.

(** The relative error of rounding a positive quotient to a double. *)
Lemma fl_pos_error n d :
  0 < n -> (Qabs (fl_pos n d - (n # d)) <= (n # d) * (1 # 2 ^ 53))%Q.
Proof.
  intros Hn. unfold fl_pos.
  pose proof (ulp_exp_scaled n (Zpos d) Hn ltac:(lia)) as He.
  set (e := ulp_exp n (Zpos d)) in *.
  destruct (Z.leb_spec 0 e) as [Hpos | Hneg].
  - rewrite (Z.max_r 0 e), (Z.max_l 0 (- e)), Z.pow_0_r, Z.mul_1_r in He by lia.
    pose proof (pow2_pos e Hpos).
    pose proof (rne_spec n (Zpos d * 2 ^ e) ltac:(nia)) as Hr.
    set (r := rne _ _) in *. apply frac_close. change (Zpos (2 ^ 53)) with (2 * 2 ^ 52).
    replace (r * (Zpos d * 2 ^ e)) with (r * 2 ^ e * Zpos d) in Hr by ring.
    rewrite Z.mul_1_r. set (A := Z.abs _) in *. clearbody A. nia.
  - rewrite (Z.max_l 0 e), (Z.max_r 0 (- e)), Z.pow_0_r, Z.mul_1_r in He by lia.
    pose proof (pow2_pos (- e) ltac:(lia)).
    pose proof (rne_spec (n * 2 ^ (- e)) (Zpos d) ltac:(lia)) as Hr.
    set (r := rne _ _) in *. apply frac_close. change (Zpos (2 ^ 53)) with (2 * 2 ^ 52).
    rewrite Z2Pos.id by done. set (A := Z.abs _) in *. clearbody A. nia.
Qed.

(** Round to nearest has relative error at most [2^-53]. *)
Lemma fl_error q : (Qabs (fl q - q) <= Qabs q * (1 # 2 ^ 53))%Q.
Proof.
  destruct q as [[| n | n] d]; unfold fl; simpl Qnum; simpl Qden.
  - discriminate.
  - apply fl_pos_error. lia.
  - assert ((- fl_pos (Zpos n) d - (Zneg n # d)) == - (fl_pos (Zpos n) d - (Zpos n # d)))%Q as ->
      by (change (Zneg n # d) with (- (Zpos n # d))%Q; ring).
    rewrite Qabs_opp. apply fl_pos_error. lia.
Qed.

(** ** [toFixed] *)

(** [toFixed(f)] returns the integer that is less than half a unit away. *)
Lemma toFixedZ_near f x k :
  0 <= f -> (Qabs (x * inject_Z (10 ^ f) - inject_Z k) < 1 # 2)%Q -> toFixedZ f x = k.
Proof.
  intros Hf. destruct x as [n d]. unfold toFixedZ, toFixed_pos; simpl Qnum; simpl Qden.
  unfold Qlt, Qabs, Qminus, Qplus, Qopp, Qmult, inject_Z, Qnum, Qden.
  rewrite ?Pos2Z.inj_mul, ?Z.mul_1_r. intros H.
  destruct (Z.ltb_spec n 0).
  - enough (rhu (- n * 10 ^ f) (Zpos d) = - k) by lia. apply rhu_near; lia.
  - apply rhu_near; lia.
Qed.

Lemma pow10_pos f : 0 <= f -> 0 < 10 ^ f.
Proof. intros. apply Z.pow_pos_nonneg; lia. Qed.

(** ** Amounts: doubles close to a number of 1e-8 units

    [close e x u]: the double [x] is within [e] units of [u] units of 1e-8. *)
Definition close (e : Q) (x : Q) (u : Z) : Prop :=
  (Qabs (x * 100000000 - inject_Z u) <= e)%Q.

(** The bound below which an amount keeps its 8 decimals as a double: ten
    million USDC, in units of 1e-8. *)
Definition SAFE_UNITS : Z := 10 ^ 15.

Lemma close_weaken e e' x u : close e x u -> (e <= e')%Q -> close e' x u.
Proof. unfold close. intros H He. lra. Qed.

Lemma fl_error' q : (Qabs (fl q - q) <= Qabs q * (1 # 9007199254740992))%Q.
Proof. exact (fl_error q). Qed.

(** One rounding of an amount close to [u] adds at most an eighth of a unit. *)
Lemma close_fl e q u :
  close e q u -> (e <= 100)%Q -> Z.abs u <= SAFE_UNITS ->
  close (e + (1 # 8)) (fl q) u.
Proof.
  unfold close, SAFE_UNITS. intros H He Hu.
  pose proof (fl_error' q) as Hf.
  assert (Hub : (Qabs (inject_Z u) <= 1000000000000000)%Q).
  { unfold Qle, Qabs, inject_Z; simpl. lia. }
  apply Qabs_Qle_condition in H, Hub. apply Qabs_Qle_condition in Hf.
  apply Qabs_Qle_condition.
  assert (Hq : (Qabs q <= 10000001)%Q) by (apply Qabs_Qle_condition; lra).
  assert (0 <= Qabs q)%Q by apply Qabs_nonneg. lra.
Qed.

Lemma close_exact q u : (q == u # 100000000)%Q -> close 0 q u.
Proof.
  intros Hq. unfold close. rewrite Hq. unfold Qle, Qabs, Qminus, Qplus, Qopp, Qmult, inject_Z; simpl. lia.
Qed.

(** [Number(decimal)] is within an eighth of a unit. *)
Lemma close_Number u : Z.abs u <= SAFE_UNITS -> close (1 # 8) (Number_of_units u) u.
Proof.
  intros Hu. apply close_weaken with (0 + (1 # 8))%Q; [| lra].
  apply close_fl; [| lra | done]. by apply close_exact.
Qed.

(** A 6-decimal amount read back by [parseFloat]. *)
Lemma close_parse6 k : Z.abs (100 * k) <= SAFE_UNITS -> close (1 # 8) (parseDec 6 k) (100 * k).
Proof.
  intros Hu. apply close_weaken with (0 + (1 # 8))%Q; [| lra].
  apply close_fl; [| lra | done]. apply close_exact.
  unfold Qeq; simpl. lia.
Qed.

Lemma close_add e1 e2 x y u v :
  close e1 x u -> close e2 y v -> (e1 + e2 <= 100)%Q -> Z.abs (u + v) <= SAFE_UNITS ->
  close (e1 + e2 + (1 # 8)) (js_add x y) (u + v).
Proof.
  intros Hx Hy He Huv. apply close_fl; [| done | done].
  unfold close in *. apply Qabs_Qle_condition in Hx, Hy. apply Qabs_Qle_condition.
  rewrite inject_Z_plus. lra.
Qed.

Lemma close_sub e1 e2 x y u v :
  close e1 x u -> close e2 y v -> (e1 + e2 <= 100)%Q -> Z.abs (u - v) <= SAFE_UNITS ->
  close (e1 + e2 + (1 # 8)) (js_sub x y) (u - v).
Proof.
  intros Hx Hy He Huv. apply close_fl; [| done | done].
  unfold close in *. apply Qabs_Qle_condition in Hx, Hy. apply Qabs_Qle_condition.
  unfold Z.sub. rewrite inject_Z_plus, inject_Z_opp. lra.
Qed.

(** [toFixed(8)] recovers the units of a close double. *)
Lemma toFixed8_close e x u : close e x u -> (e < 1 # 2)%Q -> toFixedZ 8 x = u.
Proof.
  intros H He. apply toFixedZ_near; [done |]. unfold close in H.
  change (10 ^ 8) with 100000000. change (inject_Z 100000000) with 100000000%Q. lra.
Qed.

(** [toFixed(6)] recovers a 6-decimal amount from a close double. *)
Lemma toFixed6_close e x k : close e x (100 * k) -> (e < 50)%Q -> toFixedZ 6 x = k.
Proof.
  intros H He. apply toFixedZ_near; [done |]. unfold close in H.
  apply Qabs_Qle_condition in H. rewrite inject_Z_mult in H.
  change (10 ^ 6) with 1000000. change (inject_Z 1000000) with 1000000%Q.
  change (inject_Z 100) with 100%Q in H.
  set (kq := inject_Z k) in *.
  apply Qabs_case; intros; lra.
Qed.

(** A double close to a positive (negative) number of units is positive
    (negative). *)
Lemma close_pos e x u : close e x u -> (e < 1 # 2)%Q -> 0 < u -> js_lt 0 x = true.
Proof.
  intros H He Hu. unfold close in H. apply Qabs_Qle_condition in H. unfold js_lt.
  destruct (Qle_bool x 0) eqn:Hx; [| done]. apply Qle_bool_iff in Hx.
  assert (1 <= inject_Z u)%Q by (unfold Qle; simpl; lia). lra.
Qed.

Lemma close_neg e x u : close e x u -> (e < 1 # 2)%Q -> u < 0 -> js_lt 0 x = false.
Proof.
  intros H He Hu. unfold close in H. apply Qabs_Qle_condition in H. unfold js_lt.
  destruct (Qle_bool x 0) eqn:Hx; [done |].
  assert (inject_Z u <= -1)%Q by (unfold Qle; simpl; lia).
  enough (Qle_bool x 0 = true) by congruence. apply Qle_bool_iff. lra.
Qed.

(** [x > 0] on a parsed 6-decimal amount. *)
Lemma parse6_positive k : Z.abs (100 * k) <= SAFE_UNITS -> js_lt 0 (parseDec 6 k) = (0 <? k).
Proof.
  intros Hk. pose proof (close_parse6 k Hk) as Hc.
  destruct (Z.ltb_spec 0 k); [eapply close_pos; [done | reflexivity | lia] |].
  destruct (Z.eq_dec k 0) as [-> |]; [done |].
  eapply close_neg; [done | reflexivity | lia].
Qed.

(** The 8-decimal round trip of the services' [_exact(Number(d))]. *)
Lemma toFixed8_Number u : Z.abs u <= SAFE_UNITS -> toFixedZ 8 (Number_of_units u) = u.
Proof. intros. eapply toFixed8_close; [by apply close_Number | reflexivity]. Qed.

Lemma toFixed8_parse6 k : Z.abs (100 * k) <= SAFE_UNITS -> toFixedZ 8 (parseDec 6 k) = 100 * k.
Proof. intros. eapply toFixed8_close; [by apply close_parse6 | reflexivity]. Qed.

(** [_round6(Number(a) + Number(f))] on 6-decimal amounts is their exact sum. *)
Lemma round6_add a f :
  Z.abs (100 * a) <= SAFE_UNITS -> Z.abs (100 * f) <= SAFE_UNITS ->
  Z.abs (100 * (a + f)) <= SAFE_UNITS ->
  round6 (js_add (Number_of_units (100 * a)) (Number_of_units (100 * f))) = parseDec 6 (a + f).
Proof.
  intros Ha Hf Haf. unfold round6. f_equal.
  eapply toFixed6_close.
  - replace (100 * (a + f)) with (100 * a + 100 * f) in * by lia.
    eapply close_add; [by apply close_Number | by apply close_Number | discriminate | done].
  - reflexivity.
Qed.

(** [_round6(Number(a) - p)], [p] a 6-decimal amount not above it. *)
Lemma round6_sub a p :
  0 <= p <= a -> 100 * a <= SAFE_UNITS ->
  round6 (js_sub (Number_of_units (100 * a)) (parseDec 6 p)) = parseDec 6 (a - p).
Proof.
  intros Hp Ha. unfold round6. f_equal.
  eapply toFixed6_close.
  - replace (100 * (a - p)) with (100 * a - 100 * p) by lia.
    eapply close_sub; [apply close_Number; lia | apply close_parse6; lia | discriminate | lia].
  - reflexivity.
Qed.

(** ** Signs and magnitudes *)

Lemma rne_nonneg a b : 0 < b -> 0 <= a -> 0 <= rne a b.
Proof.
  intros Hb Ha. unfold rne. pose proof (Z.div_pos a b Ha Hb). repeat case_match; lia.
Qed.

Lemma fl_nonneg q : 0 <= Qnum q -> 0 <= Qnum (fl q).
Proof.
  intros Hq. unfold fl. destruct (Qnum q) as [| p | p]; [done | | lia]. unfold fl_pos.
  destruct (0 <=? _) eqn:E; simpl.
  - apply Z.leb_le in E. pose proof (pow2_pos _ E) as Hp.
    pose proof (rne_nonneg (Zpos p) (Zpos (Qden q) * 2 ^ ulp_exp (Zpos p) (Zpos (Qden q))) ltac:(lia) ltac:(lia)). nia.
  - apply Z.leb_gt in E.
    assert (Hp : 0 < 2 ^ (- ulp_exp (Zpos p) (Zpos (Qden q)))) by (apply pow2_pos; lia).
    apply rne_nonneg; [lia |]. apply Z.mul_nonneg_nonneg; lia.
Qed.

Lemma fl_magnitude q : (Qabs (fl q) <= Qabs q * (9 # 8))%Q.
Proof.
  pose proof (fl_error' q) as He. pose proof (Qabs_triangle_reverse (fl q) q) as Ht. pose proof (Qabs_nonneg q). lra.
Qed.

(** [toFixed(f)] is within half a unit. *)
Lemma toFixedZ_spec f x : 0 <= f -> (Qabs (x * inject_Z (10 ^ f) - inject_Z (toFixedZ f x)) <= 1 # 2)%Q.
Proof.
  intros Hf. pose proof (pow10_pos f Hf). destruct x as [n d]. unfold toFixedZ, toFixed_pos; simpl Qnum; simpl Qden.
  unfold Qle, Qabs, Qminus, Qplus, Qopp, Qmult, inject_Z, Qnum, Qden. rewrite ?Pos2Z.inj_mul, ?Z.mul_1_r.
  destruct (Z.ltb_spec n 0).
  - pose proof (rhu_spec (- n * 10 ^ f) (Zpos d) ltac:(lia)). lia.
  - pose proof (rhu_spec (n * 10 ^ f) (Zpos d) ltac:(lia)). lia.
Qed.

Lemma toFixedZ_nonneg f x : 0 <= f -> 0 <= Qnum x -> 0 <= toFixedZ f x.
Proof.
  intros Hf Hx. pose proof (pow10_pos f Hf). unfold toFixedZ, toFixed_pos. destruct (Z.ltb_spec (Qnum x) 0); [lia |].
  apply rhu_nonneg; [lia | nia].
Qed.

(** Concrete doubles, checked against an IEEE-754 implementation. *)
Example fl_tenth : Qeq_bool (fl (1 # 10)) (3602879701896397 # 36028797018963968) = true.
Proof. reflexivity. Qed.
Example js_tenths : Qeq_bool (js_add (parseDec 1 1) (parseDec 1 2)) (parseDec 1 3) = false.
Proof. reflexivity. Qed.
