(* ===== verification/ExactDecimal.v ===== *)
(** * Exact decimal quantities

    The quantities of the ledger and of the commerce math are Decimal(20,8)
    values.  They are modelled as integers of 1e-8 units.  This file has
    - [DecimalLib], the interface of the decimal library behind
      [Prisma.Decimal]: each arithmetic operation returns the exact result
      rounded to the library's precision in significant digits;
    - the decimal strings: [toFixed(8)] and the parser of
      services/ledgerService.js ([toExactDecimal]);
    - the round trip between the two. *)

From stdpp Require Import base strings list numbers.
From Stdlib Require Import ZArith QArith Lia Ascii.
From S2P Require Import Prelude JsNumber.

Local Open Scope Z_scope.

(** ** The decimal library behind Prisma.Decimal

    [dround z] is the coefficient [z] rounded to the configured number of
    significant digits (decimal.js: precision 20 by default, so at least 20
    here).  [plus], [minus] and [times] round the exact result this way; a
    value is a coefficient at a fixed scale, and rounding to significant
    digits does not depend on the scale. *)
Class DecimalLib : Type := {
  dround : Z -> Z;
  (** a result of at most 20 significant digits is not rounded *)
  dround_sig : forall c k, 0 <= k -> Z.abs c < 10 ^ 20 -> dround (c * 10 ^ k) = c * 10 ^ k;
  dround_mono : forall a b, a <= b -> dround a <= dround b;
}.

Definition d_plus `{DecimalLib} (a b : Z) : Z := dround (a + b).
Definition d_minus `{DecimalLib} (a b : Z) : Z := dround (a - b).
(** Product of two coefficients; the scales add up. *)
Definition d_times `{DecimalLib} (a b : Z) : Z := dround (a * b).

(** ** Values as JavaScript passes them *)

(** A decimal.js value: [± c / 10^dp], or NaN / ±Infinity. *)
Inductive decimal : Type :=
| DFin (neg : bool) (c : Z) (dp : nat)
| DNonFinite.

Inductive jsval : Type :=
| VUndefined
| VNull
| VBool (b : bool)
| VNum (x : Num.num)
| VStr (s : string)
| VBigInt (z : Z)
| VDec (d : decimal)
| VObj.

(** [d.decimalPlaces()]: trailing zeros do not count. *)
Fixpoint decimalPlaces (c : Z) (dp : nat) : nat :=
  match dp with
  | O => O
  | S k => if c mod 10 =? 0 then decimalPlaces (c / 10) k else S k
  end.

(** The value of a finite decimal with at most 8 places, in 1e-8 units. *)
Definition dec_units (c : Z) (dp : nat) : Z := c * 10 ^ 8 / 10 ^ Z.of_nat dp.

(** ** Decimal digits *)

Definition digit_char (d : Z) : ascii := ascii_of_nat (48 + Z.to_nat d).
Definition char_code (c : ascii) : Z := Z.of_nat (nat_of_ascii c).
Definition is_digit (c : ascii) : bool := (48 <=? char_code c) && (char_code c <=? 57).
Definition digit_val (c : ascii) : Z := char_code c - 48.

Arguments digit_char : simpl never.
Arguments char_code : simpl never.
Arguments is_digit : simpl never.
Arguments digit_val : simpl never.

(** The [k] least significant digits of [z], most significant first. *)
Fixpoint fixed_digits (k : nat) (z : Z) : string :=
  match k with
  | O => EmptyString
  | S k' => String (digit_char (z / 10 ^ Z.of_nat k' mod 10)) (fixed_digits k' z)
  end.
Arguments fixed_digits : simpl never.

Fixpoint count_digits (fuel : nat) (z : Z) : nat :=
  match fuel with
  | O => 1%nat
  | S f => if z <? 10 then 1%nat else S (count_digits f (z / 10))
  end.

(** The decimal digits of [z >= 0], without leading zeros. *)
Definition Z_digits (z : Z) : string :=
  fixed_digits (count_digits (Z.to_nat (Z.log2 z)) z) z.

(** [d.toFixed(8)] of a non-negative value of [u] units of 1e-8. *)
Definition toFixed8 (u : Z) : string :=
  (Z_digits (u / 10 ^ 8) +:+ "." +:+ fixed_digits 8 u)%string.

(** Longest prefix of digits, and the rest. *)
Fixpoint span_digits (s : string) : string * string :=
  match s with
  | EmptyString => (EmptyString, EmptyString)
  | String c s' =>
      if is_digit c then let '(a, b) := span_digits s' in (String c a, b)
      else (EmptyString, s)
  end.

Fixpoint digits_val (acc : Z) (s : string) : Z :=
  match s with
  | EmptyString => acc
  | String c s' => digits_val (acc * 10 + digit_val c) s'
  end.

(** [/^\d+(\.\d{1,8})?$/] on [s]; the value in 1e-8 units when it matches. *)
Definition EXACT_DECIMAL_RE (s : string) : option Z :=
  let '(ip, rest) := span_digits s in
  if (String.length ip =? 0)%nat then None
  else match rest with
  | EmptyString => Some (digits_val 0 ip * 10 ^ 8)
  | String "." fs =>
      let '(fp, rest') := span_digits fs in
      let n := String.length fp in
      match rest' with
      | EmptyString =>
          if ((1 <=? n) && (n <=? 8))%nat then
            Some (digits_val 0 ip * 10 ^ 8 + digits_val 0 fp * 10 ^ (8 - Z.of_nat n))
          else None
      | _ => None
      end
  | _ => None
  end.

(** White space of [String.prototype.trim], ASCII part. *)
Definition is_space (c : ascii) : bool :=
  (char_code c =? 32) || ((9 <=? char_code c) && (char_code c <=? 13)).

Fixpoint trim_start (s : string) : string :=
  match s with
  | String c s' => if is_space c then trim_start s' else s
  | EmptyString => EmptyString
  end.

Fixpoint str_rev (acc s : string) : string :=
  match s with EmptyString => acc | String c s' => str_rev (String c acc) s' end.

Definition trim (s : string) : string :=
  str_rev EmptyString (trim_start (str_rev EmptyString (trim_start s))).

(** [String.prototype.toUpperCase], ASCII part. *)
Definition upper_char (c : ascii) : ascii :=
  let n := nat_of_ascii c in if ((97 <=? n) && (n <=? 122))%nat then ascii_of_nat (n - 32) else c.
Fixpoint toUpperCase (s : string) : string :=
  match s with EmptyString => EmptyString | String c s' => String (upper_char c) (toUpperCase s') end.

(** ** [String(x)] of a number *)

(** Position of the decimal point: the [n] with [10^(n-1) <= q < 10^n]. *)
Fixpoint dec_exp_up (fuel : nat) (num den : Z) (n : Z) : Z :=
  match fuel with
  | O => n
  | S f => if num <? den then n else dec_exp_up f num (den * 10) (n + 1)
  end.
Fixpoint dec_exp_down (fuel : nat) (num den : Z) (n : Z) : Z :=
  match fuel with
  | O => n
  | S f => if den <=? num * 10 then n else dec_exp_down f (num * 10) den (n - 1)
  end.
Definition dec_exp (q : Q) : Z :=
  if Qnum q <? Zpos (Qden q) then dec_exp_down 400 (Qnum q) (Zpos (Qden q)) 0
  else dec_exp_up 400 (Qnum q) (Zpos (Qden q)) 0.

(** [s * 10^e] as a rational. *)
Definition dec_q (s e : Z) : Q :=
  if 0 <=? e then inject_Z (s * 10 ^ e) else s # Z.to_pos (10 ^ (- e)).

(** A [k]-digit decimal that reads back as [q], the closest one. *)
Definition digits_candidate (q : Q) (n k : Z) : option Z :=
  let scaled := (q * dec_q 1 (k - n))%Q in
  let lo := Qnum scaled / Zpos (Qden scaled) in
  let ok s := Qeq_bool (fl (dec_q s (n - k))) q in
  let near := rhu (Qnum scaled) (Zpos (Qden scaled)) in
  if ok near then Some near
  else if ok lo then Some lo
  else if ok (lo + 1) then Some (lo + 1)
  else None.

Fixpoint shortest_digits (fuel : nat) (q : Q) (n k : Z) : option (Z * Z) :=
  match fuel with
  | O => None
  | S f => match digits_candidate q n k with
           | Some s => Some (s, k)
           | None => shortest_digits f q n (k + 1)
           end
  end.

(** [String(x)] of a positive double, when it is in plain notation: the
    digits and the number of decimals. *)
Definition String_of_number (q : Q) : option (Z * Z) :=
  let n := dec_exp q in
  if (n <=? -6) || (21 <? n) then None
  else match shortest_digits 17 q n 1 with
       | Some (s, k) => Some (s, k - n)
       | None => None
       end.

Definition is_integer (q : Q) : bool := Qnum q mod Zpos (Qden q) =? 0.
(** [Number.isSafeInteger]. *)
Definition isSafeInteger (q : Q) : bool :=
  is_integer q && (Z.abs (Qnum q) <=? (2 ^ 53 - 1) * Zpos (Qden q)).

(** ** services/ledgerService.js: [toExactDecimal] *)

Definition toExactDecimal (value : jsval) : res Z :=
  match value with
  | VDec DNonFinite => Err "LEDGER_INEXACT_QUANTITY"
  | VDec (DFin neg c dp) =>
      if neg then Err "LEDGER_NEGATIVE_QUANTITY"
      else if (8 <? decimalPlaces c dp)%nat then Err "LEDGER_INEXACT_QUANTITY"
      else Ok (dec_units c dp)
  | VStr s => of_option (EXACT_DECIMAL_RE (trim s)) "LEDGER_INEXACT_QUANTITY"
  | VNum (Num.Fin q) =>
      if Qnum q <? 0 then Err "LEDGER_NEGATIVE_QUANTITY"
      else if isSafeInteger q then Ok (Qnum q / Zpos (Qden q) * 10 ^ 8)
      else match String_of_number q with
           | Some (s, decimals) =>
               if decimals <=? 8 then Ok (s * 10 ^ (8 - decimals)) else Err "LEDGER_INEXACT_QUANTITY"
           | None => Err "LEDGER_INEXACT_QUANTITY"
           end
  | VNum _ => Err "LEDGER_INEXACT_QUANTITY"
  | VBigInt z => if z <? 0 then Err "LEDGER_NEGATIVE_QUANTITY" else Ok (z * 10 ^ 8)
  | _ => Err "LEDGER_INEXACT_QUANTITY"
  end.

Example exact_string : toExactDecimal (VStr " 12.5 ") = Ok 1250000000.
Proof. reflexivity. Qed.
Example exact_exponent : toExactDecimal (VStr "1e2") = Err "LEDGER_INEXACT_QUANTITY".
Proof. reflexivity. Qed.
Example exact_float : toExactDecimal (VNum (Num.Fin (parseDec 8 12345678))) = Ok 12345678.
Proof. vm_compute. reflexivity. Qed.
Example exact_float_sum :
  toExactDecimal (VNum (Num.Fin (js_add (parseDec 1 1) (parseDec 1 2)))) = Err "LEDGER_INEXACT_QUANTITY".
Proof. vm_compute. reflexivity. Qed.

(** ** Strings of characters of one class *)

Fixpoint str_forall (P : ascii -> bool) (s : string) : bool :=
  match s with EmptyString => true | String c s' => P c && str_forall P s' end.

Lemma str_forall_app P a b : str_forall P (a +:+ b) = str_forall P a && str_forall P b.
Proof. induction a as [| c a IH]; [done |]. rewrite str_app_cons. simpl. rewrite IH. by destruct (P c). Qed.

Lemma str_forall_impl (P Q : ascii -> bool) s :
  (forall c, P c = true -> Q c = true) -> str_forall P s = true -> str_forall Q s = true.
Proof.
  intros HPQ. induction s as [| c s IH]; simpl; [done |].
  intros H. apply andb_true_iff in H as [Hc Hs]. by rewrite (HPQ c Hc), (IH Hs).
Qed.

Lemma str_rev_app acc s : str_rev acc s = (str_rev EmptyString s +:+ acc)%string.
Proof.
  revert acc. induction s as [| c s IH]; intros acc; simpl; [done |].
  rewrite IH, (IH (String c EmptyString)). by rewrite <- str_app_assoc.
Qed.

Lemma str_rev_involutive s : str_rev EmptyString (str_rev EmptyString s) = s.
Proof.
  assert (H : forall a b, str_rev EmptyString (str_rev b a) = (str_rev EmptyString b +:+ a)%string).
  { induction a as [| c a IH]; intros b; simpl.
    - by rewrite str_app_nil_r.
    - rewrite IH. simpl. rewrite str_rev_app. by rewrite <- str_app_assoc. }
  by rewrite H.
Qed.

Lemma str_forall_rev P s : str_forall P (str_rev EmptyString s) = str_forall P s.
Proof.
  induction s as [| c s IH]; simpl; [done |].
  rewrite str_rev_app, str_forall_app, IH. simpl. destruct (P c), (str_forall P s); done.
Qed.

Lemma trim_start_id s : str_forall (fun c => negb (is_space c)) s = true -> trim_start s = s.
Proof.
  destruct s as [| c s]; simpl; [done |]. intros H. apply andb_true_iff in H as [Hc _].
  by destruct (is_space c).
Qed.

(** A string without white space is its own trim. *)
Lemma trim_id s : str_forall (fun c => negb (is_space c)) s = true -> trim s = s.
Proof.
  intros H. unfold trim. rewrite (trim_start_id s H).
  rewrite trim_start_id by (by rewrite str_forall_rev). apply str_rev_involutive.
Qed.

(** ** Digits *)

Lemma char_code_digit d : 0 <= d < 10 -> char_code (digit_char d) = 48 + d.
Proof. intros. unfold char_code, digit_char. rewrite nat_ascii_embedding by lia. lia. Qed.

Lemma is_digit_char d : 0 <= d < 10 -> is_digit (digit_char d) = true.
Proof. intros. unfold is_digit. rewrite char_code_digit by done. lia. Qed.

Lemma digit_val_char d : 0 <= d < 10 -> digit_val (digit_char d) = d.
Proof. intros. unfold digit_val. rewrite char_code_digit by done. lia. Qed.

Lemma digit_not_space c : is_digit c = true -> negb (is_space c) = true.
Proof. unfold is_digit, is_space. intros. lia. Qed.

Lemma fixed_digits_S k z :
  fixed_digits (S k) z = String (digit_char (z / 10 ^ Z.of_nat k mod 10)) (fixed_digits k z).
Proof. reflexivity. Qed.

Lemma fixed_digits_length k z : String.length (fixed_digits k z) = k.
Proof. induction k as [| k IH]; [done |]. rewrite fixed_digits_S. cbn [String.length]. by rewrite IH. Qed.

Lemma fixed_digits_digits k z : str_forall is_digit (fixed_digits k z) = true.
Proof.
  induction k as [| k IH]; [reflexivity |]. rewrite fixed_digits_S. cbn [str_forall].
  rewrite IH, is_digit_char; [reflexivity |]. apply Z.mod_pos_bound. lia.
Qed.

Lemma digits_val_fixed k z acc :
  digits_val acc (fixed_digits k z) = acc * 10 ^ Z.of_nat k + z mod 10 ^ Z.of_nat k.
Proof.
  revert acc. induction k as [| k IH]; intros acc; [| rewrite fixed_digits_S; cbn [digits_val]].
  - change (digits_val acc (fixed_digits 0 z)) with acc. change (10 ^ Z.of_nat 0) with 1. rewrite Z.mod_1_r. lia.
  - rewrite IH, digit_val_char by (apply Z.mod_pos_bound; lia).
    rewrite Nat2Z.inj_succ, Z.pow_succ_r by lia.
    pose proof (pow10_pos (Z.of_nat k) ltac:(lia)).
    rewrite (Z.mul_comm 10), (Z.rem_mul_r z (10 ^ Z.of_nat k) 10) by lia. ring.
Qed.

Lemma count_digits_bound fuel z :
  0 <= z < 2 ^ (Z.of_nat fuel + 1) -> z < 10 ^ Z.of_nat (count_digits fuel z).
Proof.
  revert z. induction fuel as [| fuel IH]; intros z Hz; simpl count_digits.
  - change (2 ^ (Z.of_nat 0 + 1)) with 2 in Hz. change (10 ^ Z.of_nat 1) with 10. lia.
  - destruct (Z.ltb_spec z 10); [change (10 ^ Z.of_nat 1) with 10; lia |].
    rewrite Nat2Z.inj_succ, Z.pow_succ_r by lia.
    assert (Hd : z / 10 < 10 ^ Z.of_nat (count_digits fuel (z / 10))).
    { apply IH. split; [apply Z.div_pos; lia |].
      rewrite Nat2Z.inj_succ in Hz. replace (Z.succ (Z.of_nat fuel) + 1) with (Z.succ (Z.of_nat fuel + 1)) in Hz by lia.
      rewrite Z.pow_succ_r in Hz by lia. apply Z.div_lt_upper_bound; lia. }
    pose proof (Z.div_mod z 10 ltac:(lia)). pose proof (Z.mod_pos_bound z 10 ltac:(lia)). lia.
Qed.

Lemma Z_digits_val z : 0 <= z -> digits_val 0 (Z_digits z) = z.
Proof.
  intros Hz. unfold Z_digits. rewrite digits_val_fixed, Z.mul_0_l.
  rewrite Z.mod_small; [lia |]. split; [done |]. apply count_digits_bound. split; [done |].
  rewrite Z2Nat.id by apply Z.log2_nonneg.
  destruct (Z.eq_dec z 0) as [-> |]; [done |]. pose proof (Z.log2_spec z ltac:(lia)).
  change (Z.log2 z + 1) with (Z.succ (Z.log2 z)). lia.
Qed.

Lemma Z_digits_digits z : str_forall is_digit (Z_digits z) = true.
Proof. apply fixed_digits_digits. Qed.

Lemma Z_digits_nonempty z : String.length (Z_digits z) <> 0%nat.
Proof.
  unfold Z_digits. rewrite fixed_digits_length.
  destruct (Z.to_nat (Z.log2 z)) as [| f]; cbn [count_digits]; [lia |]. destruct (z <? 10); lia.
Qed.

Lemma Z_digits_inj a b : 0 <= a -> 0 <= b -> Z_digits a = Z_digits b -> a = b.
Proof. intros Ha Hb H. rewrite <- (Z_digits_val a Ha), <- (Z_digits_val b Hb). by rewrite H. Qed.

Lemma span_digits_stop a c b :
  str_forall is_digit a = true -> is_digit c = false ->
  span_digits (a +:+ String c b) = (a, String c b).
Proof.
  intros Ha Hc. induction a as [| x a IH]; [rewrite str_app_nil_l; simpl; by rewrite Hc |].
  rewrite str_app_cons. simpl in *. apply andb_true_iff in Ha as [Hx Ha]. by rewrite Hx, (IH Ha).
Qed.

Lemma span_digits_all a : str_forall is_digit a = true -> span_digits a = (a, EmptyString).
Proof.
  induction a as [| x a IH]; simpl; [done |]. intros H. apply andb_true_iff in H as [Hx Ha].
  by rewrite Hx, (IH Ha).
Qed.

(** ** [toFixed(8)] and the exact-decimal parser are inverse *)

Lemma EXACT_DECIMAL_RE_toFixed8 u : 0 <= u -> EXACT_DECIMAL_RE (toFixed8 u) = Some u.
Proof.
  intros Hu. unfold EXACT_DECIMAL_RE, toFixed8.
  change ("." +:+ fixed_digits 8 u)%string with (String "." (fixed_digits 8 u)).
  rewrite span_digits_stop by (apply Z_digits_digits || done).
  destruct (Nat.eqb_spec (String.length (Z_digits (u / 10 ^ 8))) 0) as [H |]; [by apply Z_digits_nonempty in H |].
  rewrite span_digits_all by apply fixed_digits_digits.
  rewrite fixed_digits_length. simpl andb.
  rewrite Z_digits_val by (apply Z.div_pos; lia). rewrite digits_val_fixed.
  change (10 ^ (8 - Z.of_nat 8)) with 1. change (Z.of_nat 8) with 8.
  pose proof (Z.div_mod u (10 ^ 8) ltac:(lia)). f_equal. lia.
Qed.

(** The parser reads back every quantity that [toFixed(8)] prints. *)
Lemma toExactDecimal_toFixed8 u : 0 <= u -> toExactDecimal (VStr (toFixed8 u)) = Ok u.
Proof.
  intros Hu. simpl. rewrite trim_id; [by rewrite EXACT_DECIMAL_RE_toFixed8 |].
  unfold toFixed8. rewrite str_forall_app. apply andb_true_iff. split.
  - eapply str_forall_impl; [apply digit_not_space | apply Z_digits_digits].
  - change ("." +:+ fixed_digits 8 u)%string with (String "." (fixed_digits 8 u)).
    cbn [str_forall]. rewrite andb_true_l.
    apply (str_forall_impl _ _ _ digit_not_space (fixed_digits_digits 8 u)).
Qed.

Lemma toFixed8_inj u v : 0 <= u -> 0 <= v -> toFixed8 u = toFixed8 v -> u = v.
Proof.
  intros Hu Hv H. pose proof (EXACT_DECIMAL_RE_toFixed8 u Hu) as Eu.
  rewrite H, EXACT_DECIMAL_RE_toFixed8 in Eu by done. congruence.
Qed.

(** ** Accepted quantities are non-negative *)

Lemma digits_val_nonneg s acc : 0 <= acc -> str_forall is_digit s = true -> 0 <= digits_val acc s.
Proof.
  revert acc. induction s as [| c s IH]; simpl; intros acc Ha H; [done |].
  apply andb_true_iff in H as [Hc Hs]. apply IH; [| done].
  unfold is_digit, digit_val in *. lia.
Qed.

Lemma span_digits_fst s : str_forall is_digit (fst (span_digits s)) = true.
Proof.
  induction s as [| c s IH]; simpl; [done |]. destruct (is_digit c) eqn:Hc; [| done].
  destruct (span_digits s). simpl in *. by rewrite Hc, IH.
Qed.

Lemma EXACT_DECIMAL_RE_nonneg s u : EXACT_DECIMAL_RE s = Some u -> 0 <= u.
Proof.
  unfold EXACT_DECIMAL_RE. pose proof (span_digits_fst s) as Hs.
  destruct (span_digits s) as [ip rest]; simpl in Hs.
  destruct (Nat.eqb_spec (String.length ip) 0); [done |].
  pose proof (digits_val_nonneg ip 0 ltac:(lia) Hs).
  destruct rest as [| c fs]; [intros [= <-]; lia |].
  destruct (decide (c = "."%char)) as [-> | Hc].
  - pose proof (span_digits_fst fs) as Hf. destruct (span_digits fs) as [fp rest']; simpl in Hf.
    pose proof (digits_val_nonneg fp 0 ltac:(lia) Hf).
    destruct rest'; [| done]. destruct (_ && _)%nat; [| done].
    intros [= <-]. pose proof (Z.pow_nonneg 10 (8 - Z.of_nat (String.length fp)) ltac:(lia)). nia.
  - destruct c as [[] [] [] [] [] [] [] []]; try done; by destruct Hc.
Qed.

(** The concrete numbers a decimal value can be: its coefficient is not
    negative. *)
Definition jsval_wf (v : jsval) : Prop :=
  match v with VDec (DFin _ c _) => 0 <= c | _ => True end.

Lemma rhu_pos_scaled q n k s : 0 <= Qnum q -> digits_candidate q n k = Some s -> 0 <= s.
Proof.
  intros Hq. unfold digits_candidate.
  assert (Hs : 0 <= Qnum (q * dec_q 1 (k - n))%Q).
  { unfold dec_q. destruct (Z.leb_spec 0 (k - n)); simpl; [| lia].
    pose proof (Z.pow_nonneg 10 (k - n) ltac:(lia)). nia. }
  pose proof (rhu_nonneg _ (Zpos (Qden (q * dec_q 1 (k - n))%Q)) ltac:(lia) Hs).
  pose proof (Z.div_pos _ (Zpos (Qden (q * dec_q 1 (k - n))%Q)) Hs ltac:(lia)).
  repeat case_match; intros; simplify_eq; lia.
Qed.

Lemma shortest_digits_nonneg fuel q n k s k' :
  0 <= Qnum q -> shortest_digits fuel q n k = Some (s, k') -> 0 <= s.
Proof.
  intros Hq. revert k. induction fuel as [| fuel IH]; intros k; simpl; [done |].
  destruct (digits_candidate q n k) eqn:E; [| apply IH].
  intros [= <- <-]. by eapply rhu_pos_scaled.
Qed.

(** [toExactDecimal] never returns a negative quantity. *)
Lemma toExactDecimal_nonneg v u : jsval_wf v -> toExactDecimal v = Ok u -> 0 <= u.
Proof.
  intros Hwf. destruct v as [| | | x | s | z | d |]; simpl; try done.
  - destruct x as [q | |]; try done.
    destruct (Z.ltb_spec (Qnum q) 0); [done |].
    destruct (isSafeInteger q). { intros [= <-]. pose proof (Z.div_pos (Qnum q) (Zpos (Qden q))). lia. }
    unfold String_of_number. destruct (_ || _); [done |].
    destruct (shortest_digits 17 q (dec_exp q) 1) as [[s k] |] eqn:E; [| done].
    apply shortest_digits_nonneg in E; [| done].
    destruct (Z.leb_spec (k - dec_exp q) 8); [| done]. intros [= <-].
    pose proof (Z.pow_nonneg 10 (8 - (k - dec_exp q)) ltac:(lia)). nia.
  - intros H. apply of_option_Ok in H. by eapply EXACT_DECIMAL_RE_nonneg.
  - destruct (Z.ltb_spec z 0); [done |]. intros [= <-]. lia.
  - destruct d as [neg c dp |]; [| done]. destruct neg; [done |].
    destruct (_ <? _)%nat; [done |]. intros [= <-]. unfold dec_units.
    apply Z.div_pos; [simpl in Hwf; lia |]. apply pow10_pos. lia.
Qed.

(** ** An implementation of the interface: 20 significant digits, half up *)

Definition ndigits (z : Z) : Z := Z.of_nat (count_digits (Z.to_nat (Z.log2 z)) z).

Definition round_sig20 (z : Z) : Z :=
  let k := ndigits z in
  if k <=? 20 then z else rhu z (10 ^ (k - 20)) * 10 ^ (k - 20).

Definition dec20 (z : Z) : Z := if z <? 0 then - round_sig20 (- z) else round_sig20 z.

Lemma count_digits_lower fuel z : 1 <= z -> 10 ^ (Z.of_nat (count_digits fuel z) - 1) <= z.
Proof.
  revert z. induction fuel as [| fuel IH]; intros z Hz; cbn [count_digits]; [simpl; lia |].
  destruct (Z.ltb_spec z 10); [simpl; lia |].
  rewrite Nat2Z.inj_succ. specialize (IH (z / 10) ltac:(apply Z.div_le_lower_bound; lia)).
  replace (Z.succ (Z.of_nat (count_digits fuel (z / 10))) - 1)
    with (Z.succ (Z.of_nat (count_digits fuel (z / 10)) - 1)) by lia.
  rewrite Z.pow_succ_r.
  - pose proof (Z.div_mod z 10 ltac:(lia)). pose proof (Z.mod_pos_bound z 10 ltac:(lia)). lia.
  - destruct fuel; cbn [count_digits]; [lia |]. destruct (_ <? _); lia.
Qed.

Lemma ndigits_bounds z : 1 <= z -> 1 <= ndigits z /\ 10 ^ (ndigits z - 1) <= z < 10 ^ ndigits z.
Proof.
  intros Hz. unfold ndigits. split; [| split].
  - destruct (Z.to_nat (Z.log2 z)); cbn [count_digits]; [lia |]. destruct (_ <? _); lia.
  - by apply count_digits_lower.
  - apply count_digits_bound. split; [lia |]. rewrite Z2Nat.id by apply Z.log2_nonneg.
    pose proof (Z.log2_spec z ltac:(lia)). change (Z.log2 z + 1) with (Z.succ (Z.log2 z)). lia.
Qed.

Lemma ndigits_mono a b : 1 <= a -> a <= b -> ndigits a <= ndigits b.
Proof.
  intros Ha Hab. destruct (ndigits_bounds a Ha) as (Ha1 & Ha2 & _).
  destruct (ndigits_bounds b ltac:(lia)) as (Hb1 & _ & Hb2).
  destruct (Z.le_gt_cases (ndigits a) (ndigits b)); [done |].
  pose proof (Z.pow_le_mono_r 10 (ndigits b) (ndigits a - 1) ltac:(lia) ltac:(lia)). lia.
Qed.

(** Rounding a multiple of the step changes nothing. *)
Lemma rhu_multiple k m : 0 < m -> rhu (k * m) m = k.
Proof. intros. apply rhu_near; lia. Qed.

Lemma round_sig20_bounds z :
  1 <= z -> 10 ^ (ndigits z - 1) <= round_sig20 z <= 10 ^ ndigits z.
Proof.
  intros Hz. destruct (ndigits_bounds z Hz) as (Hk & Hlo & Hhi). unfold round_sig20.
  set (k := ndigits z) in *. destruct (Z.leb_spec k 20); [lia |].
  pose proof (pow10_pos (k - 20) ltac:(lia)) as Hm. set (m := 10 ^ (k - 20)) in *.
  assert (H10 : 10 ^ k = 10 ^ 20 * m) by (unfold m; rewrite <- Z.pow_add_r by lia; f_equal; lia).
  assert (H10' : 10 ^ (k - 1) = 10 ^ 19 * m) by (unfold m; rewrite <- Z.pow_add_r by lia; f_equal; lia).
  rewrite H10, H10' in *.
  pose proof (rhu_mono (10 ^ 19 * m) z m Hm Hlo) as H1.
  pose proof (rhu_mono z (10 ^ 20 * m) m Hm ltac:(lia)) as H2.
  rewrite rhu_multiple in H1, H2 by done. nia.
Qed.

Lemma round_sig20_mono a b : 1 <= a -> a <= b -> round_sig20 a <= round_sig20 b.
Proof.
  intros Ha Hab. pose proof (ndigits_mono a b Ha Hab) as Hn.
  destruct (Z.eq_dec (ndigits a) (ndigits b)) as [He |].
  - unfold round_sig20. rewrite <- He. destruct (Z.leb_spec (ndigits a) 20); [done |].
    pose proof (pow10_pos (ndigits a - 20) ltac:(lia)).
    apply Z.mul_le_mono_nonneg_r; [lia |]. by apply rhu_mono.
  - pose proof (round_sig20_bounds a Ha). pose proof (round_sig20_bounds b ltac:(lia)).
    pose proof (Z.pow_le_mono_r 10 (ndigits a) (ndigits b - 1) ltac:(lia) ltac:(lia)). lia.
Qed.

Lemma round_sig20_exact z : 0 <= z < 10 ^ 20 -> round_sig20 z = z.
Proof.
  intros Hz. unfold round_sig20. destruct (Z.leb_spec (ndigits z) 20); [done |].
  destruct (Z.eq_dec z 0) as [-> |]; [done |].
  destruct (ndigits_bounds z ltac:(lia)) as (_ & Hlo & _).
  pose proof (Z.pow_le_mono_r 10 20 (ndigits z - 1) ltac:(lia) ltac:(lia)). lia.
Qed.

Lemma round_sig20_sig c k : 0 <= k -> 0 <= c < 10 ^ 20 -> round_sig20 (c * 10 ^ k) = c * 10 ^ k.
Proof.
  intros Hk Hc. pose proof (pow10_pos k Hk).
  destruct (Z.eq_dec c 0) as [-> | Hc0]; [by rewrite Z.mul_0_l |].
  unfold round_sig20. set (n := ndigits (c * 10 ^ k)) in *. destruct (Z.leb_spec n 20); [done |].
  assert (Hn : n - 20 <= k).
  { destruct (ndigits_bounds (c * 10 ^ k) ltac:(nia)) as (_ & Hlo & _). fold n in Hlo.
    destruct (Z.le_gt_cases (n - 20) k); [done |].
    pose proof (Z.pow_le_mono_r 10 (20 + k) (n - 1) ltac:(lia) ltac:(lia)) as Hp.
    rewrite Z.pow_add_r in Hp by lia. nia. }
  replace k with ((k - (n - 20)) + (n - 20)) by lia. rewrite Z.pow_add_r by lia.
  rewrite Z.mul_assoc, rhu_multiple; [done |]. apply pow10_pos. lia.
Qed.

Lemma round_sig20_pos z : 0 <= z -> 0 <= round_sig20 z.
Proof.
  intros Hz. destruct (Z.eq_dec z 0) as [-> |]; [done |].
  pose proof (round_sig20_mono 1 z ltac:(lia) ltac:(lia)) as H.
  rewrite round_sig20_exact in H by lia. lia.
Qed.

(** decimal.js at its default precision satisfies the interface.  It is not a
    global instance: the components stay generic in the library. *)
#[refine] Definition Decimal20 : DecimalLib := {| dround := dec20 |}.
Proof.
  - intros c k Hk Hc. unfold dec20. pose proof (pow10_pos k Hk).
    destruct (Z.ltb_spec (c * 10 ^ k) 0).
    + rewrite <- Z.mul_opp_l, round_sig20_sig by nia. lia.
    + apply round_sig20_sig; nia.
  - intros a b Hab. unfold dec20.
    destruct (Z.ltb_spec a 0), (Z.ltb_spec b 0); try lia.
    + pose proof (round_sig20_mono (- b) (- a) ltac:(lia) ltac:(lia)). lia.
    + pose proof (round_sig20_pos (- a) ltac:(lia)). pose proof (round_sig20_pos b ltac:(lia)). lia.
    + destruct (Z.eq_dec a 0) as [-> |]; [| by apply round_sig20_mono; lia].
      change (round_sig20 0) with 0. apply round_sig20_pos. lia.
Defined.

(** ** Consequences of the interface *)

Section DecimalLaws.
Context `{DecimalLib}.

Lemma dround_exact z : Z.abs z < 10 ^ 20 -> dround z = z.
Proof.
  intros Hz. pose proof (dround_sig z 0 ltac:(lia) Hz) as Hs.
  by rewrite Z.pow_0_r, Z.mul_1_r in Hs.
Qed.

Lemma dround_0 : dround 0 = 0.
Proof. by apply dround_exact. Qed.

Lemma dround_pos z : 0 < z -> 0 < dround z.
Proof.
  intros Hz. pose proof (dround_mono 1 z ltac:(lia)) as Hm.
  rewrite (dround_exact 1) in Hm by lia. lia.
Qed.

Lemma dround_nonneg z : 0 <= z -> 0 <= dround z.
Proof.
  intros Hz. destruct (Z.eq_dec z 0) as [-> |]; [by rewrite dround_0 |].
  pose proof (dround_pos z ltac:(lia)). lia.
Qed.

(** A rounded coefficient below [10^20] was not rounded. *)
Lemma dround_small z : 0 <= z -> dround z < 10 ^ 20 -> dround z = z.
Proof.
  intros Hz Hlt. apply dround_exact.
  destruct (Z.lt_ge_cases z (10 ^ 20)); [lia |]. exfalso.
  pose proof (dround_mono (10 ^ 20) z ltac:(lia)) as Hm.
  pose proof (dround_sig 1 20 ltac:(lia) ltac:(lia)) as Hs.
  rewrite Z.mul_1_l in Hs. lia.
Qed.
End DecimalLaws.
