(* ===== verification/Json.v ===== *)
(** * Canonical JSON text

    middleware/idempotency.js identifies a request by the SHA-256 of a
    canonical rendering of its JSON body; services/ledgerService.js renders
    the conversion record of a posting with [JSON.stringify].  This file
    models both renderings: the string literal of [JSON.stringify], the
    sorting of [Array.prototype.sort] on strings, and [canonical], and proves
    that the canonical text determines the value up to the order of keys. *)

From stdpp Require Import base strings list sorting.
From Stdlib Require Import ZArith Lia Ascii.
From S2P Require Import Prelude.

(** ** String literals *)

Definition hex_digit (n : nat) : ascii :=
  ascii_of_nat (if (n <? 10)%nat then 48 + n else 87 + n)%nat.

(** One character of [JSON.stringify(s)]. *)
Definition json_escape_char (c : ascii) : string :=
  let n := nat_of_ascii c in
  match n with
  | 8 => "\b"
  | 9 => "\t"
  | 10 => "\n"
  | 12 => "\f"
  | 13 => "\r"
  | 34 => String "\" (String c EmptyString)
  | 92 => "\\"
  | _ => if (n <? 32)%nat
         then ("\u00" +:+ String (hex_digit (n / 16)) (String (hex_digit (n mod 16)) EmptyString))%string
         else String c EmptyString
  end.

Fixpoint json_escape (s : string) : string :=
  match s with
  | EmptyString => EmptyString
  | String c s' => (json_escape_char c +:+ json_escape s')%string
  end.

Definition dquote : ascii := ascii_of_nat 34.

(** [JSON.stringify(s)] of a string. *)
Definition json_string (s : string) : string :=
  String dquote (json_escape s +:+ String dquote EmptyString)%string.

(** ** [Array.prototype.sort] *)

Section InsertionSort.
Context {A : Type} (leb : A -> A -> bool).

Fixpoint sort_insert (x : A) (l : list A) : list A :=
  match l with
  | [] => [x]
  | y :: l' => if leb x y then x :: l else y :: sort_insert x l'
  end.

Fixpoint js_sort (l : list A) : list A :=
  match l with [] => [] | x :: l' => sort_insert x (js_sort l') end.
End InsertionSort.

(** [parts.join(sep)]. *)
Fixpoint join (sep : string) (l : list string) : string :=
  match l with
  | [] => EmptyString
  | [x] => x
  | x :: l' => (x +:+ sep +:+ join sep l')%string
  end.

(** ** JSON values

    A number is represented by its text: the shortest decimal that reads back
    as the double, which is what [JSON.stringify] prints. *)
#[warnings="-register-all"]
Inductive json : Type :=
| JUndefined
| JNull
| JBool (b : bool)
| JNum (text : string)
| JStr (s : string)
| JArr (l : list json)
| JObj (kvs : list (string * json)).

Definition key_leb {B} (p q : string * B) : bool := String.leb p.1 q.1.

Definition canonical_member (p : string * string) : string :=
  (json_string p.1 +:+ ":" +:+ p.2)%string.

(** middleware/idempotency.js [canonical]. *)
Fixpoint canonical (v : json) : string :=
  match v with
  | JUndefined | JNull => "null"
  | JBool true => "true"
  | JBool false => "false"
  | JNum text => text
  | JStr s => json_string s
  | JArr l => ("[" +:+ join "," (map canonical l) +:+ "]")%string
  | JObj kvs =>
      ("{" +:+ join "," (map canonical_member
                 (js_sort key_leb (map (fun p => (p.1, canonical p.2)) kvs))) +:+ "}")%string
  end.

(** [JSON.stringify] of an object with the given member texts, in order. *)
Definition canonical_record (members : list (string * string)) : string :=
  ("{" +:+ join "," (map canonical_member members) +:+ "}")%string.

Example canonical_sorted :
  canonical (JObj [("b", JNum "2"); ("a", JArr [JNull; JStr "x"])]) =
  canonical (JObj [("a", JArr [JUndefined; JStr "x"]); ("b", JNum "2")]).
Proof. reflexivity. Qed.

(** ** The literal of a string is a prefix code *)

Fixpoint is_prefix (s t : string) : bool :=
  match s, t with
  | EmptyString, _ => true
  | String c s', String d t' => Ascii.eqb c d && is_prefix s' t'
  | _, _ => false
  end.

Lemma app_eq_prefix a b c d :
  (a +:+ b = c +:+ d)%string -> is_prefix a c || is_prefix c a = true.
Proof.
  revert c. induction a as [| x a IH]; intros [| y c]; try done.
  rewrite !str_app_cons. intros [= -> H]. simpl.
  rewrite Ascii.eqb_refl. exact (IH c H).
Qed.

Definition all_chars : list ascii := map ascii_of_nat (seq 0 256).

Lemma all_chars_elem c : c ∈ all_chars.
Proof.
  unfold all_chars. apply list_elem_of_In, in_map_iff. exists (nat_of_ascii c). split.
  - apply ascii_nat_embedding.
  - apply in_seq. pose proof (nat_ascii_bounded c). lia.
Qed.

Lemma all_chars_forallb (P : ascii -> bool) : forallb P all_chars = true -> forall c, P c = true.
Proof. intros H c. eapply forallb_forall; [exact H |]. apply list_elem_of_In, all_chars_elem. Qed.

Lemma escape_char_prefix_free c d :
  is_prefix (json_escape_char c) (json_escape_char d) = Ascii.eqb c d.
Proof.
  assert (H : forallb (fun c => forallb (fun d =>
      Bool.eqb (is_prefix (json_escape_char c) (json_escape_char d)) (Ascii.eqb c d))
      all_chars) all_chars = true) by (vm_compute; reflexivity).
  pose proof (all_chars_forallb _ (all_chars_forallb _ H c) d) as Hcd.
  by apply Bool.eqb_prop.
Qed.

Lemma escape_char_not_quote c : is_prefix (String dquote EmptyString) (json_escape_char c) = false.
Proof.
  assert (H : forallb (fun c => negb (is_prefix (String dquote EmptyString) (json_escape_char c)))
      all_chars = true) by (vm_compute; reflexivity).
  pose proof (all_chars_forallb _ H c) as Hc. by apply negb_true_iff in Hc.
Qed.

Lemma escape_char_nonempty c : json_escape_char c <> EmptyString.
Proof. intros H. pose proof (escape_char_not_quote c) as Hc. pose proof (escape_char_prefix_free c "a") as Ha.
  pose proof (escape_char_prefix_free c "b") as Hb. rewrite H in Ha, Hb. simpl in Ha, Hb.
  symmetry in Ha, Hb. apply Ascii.eqb_eq in Ha, Hb. congruence.
Qed.

Lemma escape_char_inj c d r1 r2 :
  (json_escape_char c +:+ r1 = json_escape_char d +:+ r2)%string -> c = d /\ r1 = r2.
Proof.
  intros H. pose proof (app_eq_prefix _ _ _ _ H) as Hp.
  rewrite !escape_char_prefix_free in Hp. apply orb_true_iff in Hp.
  assert (c = d) as -> by (destruct Hp as [Hp | Hp]; apply Ascii.eqb_eq in Hp; congruence).
  split; [done |]. by apply (inj (String.append (json_escape_char d))).
Qed.

Lemma escape_char_quote c r1 r2 : (json_escape_char c +:+ r1 <> String dquote r2)%string.
Proof.
  intros H. pose proof (escape_char_not_quote c) as Hn. pose proof (escape_char_nonempty c).
  destruct (json_escape_char c) as [| x s]; [done |]. rewrite str_app_cons in H.
  injection H as -> H. cbn [is_prefix] in Hn. rewrite Ascii.eqb_refl in Hn. done.
Qed.

Lemma json_escape_prefix a b r1 r2 :
  (json_escape a +:+ String dquote r1 = json_escape b +:+ String dquote r2)%string -> a = b /\ r1 = r2.
Proof.
  revert b. induction a as [| x a IH]; intros [| y b]; cbn [json_escape];
    rewrite ?str_app_nil_l, <- ?str_app_assoc; intros H.
  - by injection H as ->.
  - symmetry in H. by apply escape_char_quote in H.
  - by apply escape_char_quote in H.
  - apply escape_char_inj in H as [-> H]. by destruct (IH b H) as [-> ->].
Qed.

(** Two string literals followed by anything: equal texts, equal strings. *)
Lemma json_string_prefix a b r1 r2 :
  (json_string a +:+ r1 = json_string b +:+ r2)%string -> a = b /\ r1 = r2.
Proof.
  unfold json_string. rewrite !str_app_cons, <- !str_app_assoc, !str_app_cons, !str_app_nil_l.
  intros [= H]. by apply json_escape_prefix.
Qed.

(** ** Sorting *)

Section SortFacts.
Context {A : Type} (leb : A -> A -> bool).

Lemma sort_insert_perm x l : sort_insert leb x l ≡ₚ x :: l.
Proof.
  induction l as [| y l IH]; simpl; [done |].
  destruct (leb x y); [done |]. rewrite IH. apply Permutation_swap.
Qed.

Lemma js_sort_perm l : js_sort leb l ≡ₚ l.
Proof. induction l as [| x l IH]; simpl; [done |]. by rewrite sort_insert_perm, IH. Qed.

Context (leb_total : forall x y, leb x y = true \/ leb y x = true).
Context (leb_trans : forall x y z, leb x y = true -> leb y z = true -> leb x z = true).

Let R x y := leb x y = true.

Lemma sort_insert_sorted x l : StronglySorted R l -> StronglySorted R (sort_insert leb x l).
Proof.
  induction 1 as [| y l Hl IH Hy]; simpl; [repeat constructor |].
  destruct (leb x y) eqn:Hxy.
  - constructor; [by constructor |]. constructor; [done |].
    eapply Forall_impl; [exact Hy |]. intros z Hz. by eapply leb_trans.
  - constructor; [done |]. rewrite sort_insert_perm. constructor; [| done].
    destruct (leb_total x y); [congruence | done].
Qed.

Lemma js_sort_sorted l : StronglySorted R (js_sort leb l).
Proof. induction l; simpl; [constructor | by apply sort_insert_sorted]. Qed.

(** Nothing behind a cut of the sorted list is ahead of what is before it. *)
Lemma js_sort_split k l p q : p ∈ take k (js_sort leb l) -> q ∈ drop k (js_sort leb l) -> leb p q = true.
Proof.
  intros Hp Hq. pose proof (js_sort_sorted l) as Hs. rewrite <- (take_drop k (js_sort leb l)) in Hs. apply StronglySorted_app in Hs as [Hs _]. by apply Hs.
Qed.

(** The sorted list does not depend on the order of the input, as long as
    elements of equal rank are equal. *)
Lemma js_sort_unique l k :
  (forall x y, x ∈ l -> y ∈ l -> leb x y = true -> leb y x = true -> x = y) ->
  l ≡ₚ k -> js_sort leb l = js_sort leb k.
Proof.
  intros Hanti Hp. eapply (StronglySorted_unique_strong R); try apply js_sort_sorted.
  - intros x y Hx Hy. rewrite js_sort_perm in Hx, Hy. rewrite <- Hp in Hy. by apply Hanti.
  - by rewrite !js_sort_perm.
Qed.
End SortFacts.

Lemma filter_NoDup_fst {K V} (f : K * V -> bool) (l : list (K * V)) : NoDup (map fst l) -> NoDup (map fst (List.filter f l)).
Proof.
  induction l as [| p l IH]; cbn; [done |]. intros Hn. apply NoDup_cons in Hn as [Hp Hn]. destruct (f p); [| auto]. cbn. apply NoDup_cons. split; [| auto].
  intros Hi. apply Hp. apply list_elem_of_fmap in Hi as (q & Hq & Hi). rewrite list_elem_of_In, filter_In, <- list_elem_of_In in Hi. apply list_elem_of_fmap. exists q. tauto.
Qed.

Lemma js_sort_map {A B} (f : A -> B) lebA lebB l :
  (forall x y, lebB (f x) (f y) = lebA x y) ->
  js_sort lebB (map f l) = map f (js_sort lebA l).
Proof.
  intros Hf. induction l as [| x l IH]; simpl; [done |]. rewrite IH.
  generalize (js_sort lebA l). intros k. induction k as [| y k IHk]; simpl; [done |].
  rewrite Hf. destruct (lebA x y); simpl; [done |]. by rewrite IHk.
Qed.

Lemma string_leb_trans a b c :
  String.leb a b = true -> String.leb b c = true -> String.leb a c = true.
Proof.
  intros H1 H2. apply Is_true_true.
  apply (transitivity (R := String.le) (y := b)); by apply Is_true_true.
Qed.

(** ** Normal forms: keys sorted, [undefined] read as [null] *)

Fixpoint norm (v : json) : json :=
  match v with
  | JUndefined => JNull
  | JArr l => JArr (map norm l)
  | JObj kvs => JObj (js_sort key_leb (map (fun p => (p.1, norm p.2)) kvs))
  | v => v
  end.

(** The same text without sorting. *)
Fixpoint render (v : json) : string :=
  match v with
  | JUndefined | JNull => "null"
  | JBool true => "true"
  | JBool false => "false"
  | JNum text => text
  | JStr s => json_string s
  | JArr l => ("[" +:+ join "," (map render l) +:+ "]")%string
  | JObj kvs =>
      ("{" +:+ join "," (map (fun p => json_string p.1 +:+ ":" +:+ render p.2) kvs) +:+ "}")%string
  end.

(** Characters of a number's text. *)
Definition num_char (c : ascii) : bool :=
  let n := nat_of_ascii c in
  ((48 <=? n) && (n <=? 57))%nat || (n =? 43)%nat || (n =? 45)%nat || (n =? 46)%nat || (n =? 101)%nat.

Definition num_text (s : string) : bool :=
  match s with
  | EmptyString => false
  | _ => (fix all s := match s with EmptyString => true | String c s' => num_char c && all s' end) s
  end.

Section JsonInd.
Context (P : json -> Prop).
Context (Hundef : P JUndefined) (Hnull : P JNull) (Hbool : forall b, P (JBool b)).
Context (Hnum : forall t, P (JNum t)) (Hstr : forall s, P (JStr s)).
Context (Harr : forall l, Forall P l -> P (JArr l)).
Context (Hobj : forall kvs, Forall (fun p => P p.2) kvs -> P (JObj kvs)).

Fixpoint json_nested_ind (v : json) : P v :=
  match v with
  | JUndefined => Hundef
  | JNull => Hnull
  | JBool b => Hbool b
  | JNum t => Hnum t
  | JStr s => Hstr s
  | JArr l =>
      Harr l ((fix go (l : list json) : Forall P l :=
                match l with
                | [] => Forall_nil_2 P
                | x :: l' => Forall_cons_2 P x l' (json_nested_ind x) (go l')
                end) l)
  | JObj kvs =>
      Hobj kvs ((fix go (l : list (string * json)) : Forall (fun p => P p.2) l :=
                match l with
                | [] => Forall_nil_2 (fun p => P p.2)
                | x :: l' => Forall_cons_2 (fun p => P p.2) x l' (json_nested_ind x.2) (go l')
                end) kvs)
  end.
End JsonInd.

(** Well-formed values: number texts are number texts, the keys of an object
    are distinct. *)
#[warnings="-register-all"]
Inductive json_wf : json -> Prop :=
| wf_undefined : json_wf JUndefined
| wf_null : json_wf JNull
| wf_bool b : json_wf (JBool b)
| wf_num t : num_text t = true -> json_wf (JNum t)
| wf_str s : json_wf (JStr s)
| wf_arr l : Forall json_wf l -> json_wf (JArr l)
| wf_obj kvs : NoDup (map fst kvs) -> Forall (fun p => json_wf p.2) kvs -> json_wf (JObj kvs).

Lemma canonical_render v : canonical v = render (norm v).
Proof.
  induction v as [| | b | t | s | l IH | kvs IH] using json_nested_ind; try done.
  - cbn [canonical norm render]. do 3 f_equal. rewrite map_map.
    apply map_ext_Forall. exact IH.
  - cbn [canonical norm render]. do 3 f_equal.
    assert (Hm : map (fun p => (p.1, canonical p.2)) kvs =
                 map (fun p => (p.1, render p.2)) (map (fun p => (p.1, norm p.2)) kvs)).
    { rewrite map_map. apply map_ext_Forall. eapply Forall_impl; [exact IH |].
      intros [k v] Hv. simpl in *. by rewrite Hv. }
    rewrite Hm, (js_sort_map (fun p => (p.1, render p.2)) key_leb key_leb) by done.
    by rewrite map_map.
Qed.

(** ** The rendering is a prefix code *)

(** What may follow a value: nothing, or a character no number contains. *)
Definition stop (r : string) : Prop :=
  match r with EmptyString => True | String c _ => num_char c = false end.

Definition head_is (P : ascii -> bool) (s : string) : Prop :=
  match s with EmptyString => False | String c _ => P c = true end.

Section ListCode.
Context {X : Type} (rend : X -> string) (close : ascii).
Context (Hsep : close <> ","%char) (Hstopc : num_char close = false).

(** [x] is decoded uniquely among the elements that satisfy [Q]. *)
Definition decodes (Q : X -> Prop) (x : X) : Prop :=
  forall y r1 r2, Q y -> stop r1 -> stop r2 ->
    (rend x +:+ r1 = rend y +:+ r2)%string -> x = y /\ r1 = r2.

Definition opens (x : X) : Prop := head_is (fun c => negb (Ascii.eqb c close)) (rend x).

Fixpoint tail_text (l : list X) : string :=
  match l with [] => EmptyString | x :: l' => ("," +:+ rend x +:+ tail_text l')%string end.

Lemma join_cons x l : join "," (map rend (x :: l)) = (rend x +:+ tail_text l)%string.
Proof.
  revert x. induction l as [| y l IH]; intros x; [by rewrite str_app_nil_r |].
  cbn [map join tail_text]. cbn [map] in IH. by rewrite <- IH.
Qed.

Lemma tail_stop l r : stop (tail_text l +:+ String close r).
Proof. destruct l; [done |]. cbn [tail_text]. by rewrite <- !str_app_assoc. Qed.

Lemma tail_decodes Q l k r1 r2 :
  Forall (decodes Q) l -> Forall Q k ->
  (tail_text l +:+ String close r1 = tail_text k +:+ String close r2)%string -> l = k /\ r1 = r2.
Proof.
  intros Hl. revert k. induction Hl as [| x l Hx Hl IH]; intros [| y k] Hk; cbn [tail_text];
    rewrite ?str_app_nil_l, <- ?str_app_assoc; intros H.
  - by injection H as ->.
  - exfalso. injection H as H _. congruence.
  - exfalso. injection H as H _. congruence.
  - rewrite !str_app_cons, !str_app_nil_l in H. injection H as H. inversion Hk; subst.
    apply Hx in H as [-> H]; [| done | apply tail_stop | apply tail_stop].
    by destruct (IH k ltac:(done) H) as [-> ->].
Qed.

Lemma join_decodes Q l k r1 r2 :
  Forall (decodes Q) l -> Forall opens l -> Forall opens k -> Forall Q k ->
  (join "," (map rend l) +:+ String close r1 = join "," (map rend k) +:+ String close r2)%string ->
  l = k /\ r1 = r2.
Proof.
  intros Hl Hol Hok Hk.
  assert (Hempty : forall x l s r, opens x ->
    (rend x +:+ tail_text l +:+ s)%string <> String close r).
  { intros x l' s r Ho He. unfold opens in Ho. destruct (rend x) as [| c t]; [done |].
    rewrite str_app_cons in He. injection He as -> _. simpl in Ho. by rewrite Ascii.eqb_refl in Ho. }
  destruct l as [| x l], k as [| y k]; rewrite ?join_cons, <- ?str_app_assoc; intros H.
  - by injection H as ->.
  - symmetry in H. inversion Hok; subst. by apply Hempty in H.
  - inversion Hol; subst. by apply Hempty in H.
  - inversion Hl as [| ? ? Hx Hl']; subst. inversion Hk; subst.
    apply Hx in H as [-> H]; [| done | apply tail_stop | apply tail_stop].
    by destruct (tail_decodes Q l k r1 r2 Hl' ltac:(done) H) as [-> ->].
Qed.
End ListCode.

(** Values without [undefined]. *)
#[warnings="-register-all"]
Inductive plain : json -> Prop :=
| plain_null : plain JNull
| plain_bool b : plain (JBool b)
| plain_num t : num_text t = true -> plain (JNum t)
| plain_str s : plain (JStr s)
| plain_arr l : Forall plain l -> plain (JArr l)
| plain_obj kvs : Forall (fun p => plain p.2) kvs -> plain (JObj kvs).

Lemma num_text_head t : num_text t = true -> exists c t', t = String c t' /\ num_char c = true.
Proof. destruct t as [| c t]; [done |]. simpl. intros H. apply andb_true_iff in H as [H _]. eauto. Qed.

Lemma num_text_decodes t u r1 r2 :
  num_text t = true -> num_text u = true -> stop r1 -> stop r2 ->
  (t +:+ r1 = u +:+ r2)%string -> t = u /\ r1 = r2.
Proof.
  unfold num_text. intros Ht Hu Hr1 Hr2.
  set (all := fix all s := match s with EmptyString => true | String c s' => num_char c && all s' end) in *.
  assert (Ht' : all t = true) by (by destruct t). assert (Hu' : all u = true) by (by destruct u).
  clear Ht Hu. revert u Hu'. induction t as [| c t IH]; intros [| d u] Hu'; rewrite ?str_app_nil_l, ?str_app_cons; intros H.
  - done.
  - rewrite H in Hr1. simpl in Hr1, Hu'. by rewrite Hr1 in Hu'.
  - rewrite <- H in Hr2. simpl in Hr2, Ht'. by rewrite Hr2 in Ht'.
  - injection H as -> H. simpl in Ht', Hu'. apply andb_true_iff in Ht' as [_ Ht'], Hu' as [_ Hu'].
    by destruct (IH Ht' u Hu' H) as [-> ->].
Qed.

Lemma plain_opens v close : plain v -> num_char close = false -> close = "]"%char \/ close = "}"%char ->
  head_is (fun c => negb (Ascii.eqb c close)) (render v).
Proof.
  intros Hp Hn Hcl.
  destruct Hp as [| [] | t Ht | s | l _ | kvs _]; try (by destruct Hcl as [-> | ->]).
  apply num_text_head in Ht as (c & t' & -> & Hc'). simpl.
  destruct (Ascii.eqb_spec c close); [congruence | done].
Qed.

Lemma member_decodes p :
  decodes render plain p.2 ->
  decodes (fun p => json_string p.1 +:+ ":" +:+ render p.2)%string (fun q => plain q.2) p.
Proof.
  intros Hp q r1 r2 Hq Hr1 Hr2. rewrite <- !str_app_assoc. intros H.
  apply json_string_prefix in H as [Hk H]. rewrite !str_app_cons, !str_app_nil_l in H.
  injection H as H. apply Hp in H as [Hv ->]; [| done..].
  destruct p, q; simpl in *. by subst.
Qed.

Ltac kill_heads :=
  repeat match goal with
  | H : num_text ?t = true |- _ =>
      let c := fresh "c" in let t' := fresh "t" in let Hc := fresh "Hc" in
      apply num_text_head in H as (c & t' & -> & Hc)
  end;
  match goal with H : (_ +:+ _)%string = _ |- _ =>
    first [ discriminate H
          | rewrite ?str_app_cons in H; injection H as H; subst; discriminate ]
  end.

(** The rendering of a plain value, followed by anything that cannot extend a
    number, determines the value. *)
Lemma render_decodes v : plain v -> decodes render plain v.
Proof.
  induction v as [| | b | t | s | l IH | kvs IH] using json_nested_ind; intros Hv y r1 r2 Hy Hr1 Hr2;
    inversion Hv as [| b' | t' Ht | s' | l' Hl | kvs' Hkvs]; subst.
  - inversion Hy as [| [] | u Hu | s2 | l2 Hl2 | kvs2 Hk2]; subst; cbn [render]; intros H;
      try kill_heads. by apply (inj _) in H as ->.
  - inversion Hy as [| b2 | u Hu | s2 | l2 Hl2 | kvs2 Hk2]; subst; cbn [render]; intros H;
      destruct b; try destruct b2; try kill_heads; by apply (inj _) in H as ->.
  - inversion Hy as [| [] | u Hu | s2 | l2 Hl2 | kvs2 Hk2]; subst; cbn [render]; intros H;
      try kill_heads.
    by destruct (num_text_decodes t u r1 r2 Ht Hu Hr1 Hr2 H) as [-> ->].
  - inversion Hy as [| [] | u Hu | s2 | l2 Hl2 | kvs2 Hk2]; subst; cbn [render]; intros H;
      try kill_heads.
    by destruct (json_string_prefix _ _ _ _ H) as [-> ->].
  - inversion Hy as [| [] | u Hu | s2 | l2 Hl2 | kvs2 Hk2]; subst; cbn [render]; intros H;
      try kill_heads.
    rewrite <- !str_app_assoc, !str_app_cons, !str_app_nil_l in H. injection H as H.
    apply (join_decodes render "]"%char) with (Q := plain) in H as [-> ->]; try done.
    + rewrite Forall_forall in IH, Hl |- *. intros x Hx. by apply IH, Hl.
    + eapply Forall_impl; [exact Hl |]. intros x Hx. apply plain_opens; [done | done | by left].
    + eapply Forall_impl; [exact Hl2 |]. intros x Hx. apply plain_opens; [done | done | by left].
  - inversion Hy as [| [] | u Hu | s2 | l2 Hl2 | kvs2 Hk2]; subst; cbn [render]; intros H;
      try kill_heads.
    rewrite <- !str_app_assoc, !str_app_cons, !str_app_nil_l in H. injection H as H.
    apply (join_decodes _ "}"%char) with (Q := fun p => plain p.2) in H as [-> ->]; try done.
    + rewrite Forall_forall in IH, Hkvs |- *. intros x Hx. apply member_decodes, IH; [done |]. by apply Hkvs.
    + apply Forall_forall. intros x _. done.
    + apply Forall_forall. intros x _. done.
Qed.

(** ** Canonical texts and values *)

Lemma norm_plain v : json_wf v -> plain (norm v).
Proof.
  induction v as [| | b | t | s | l IH | kvs IH] using json_nested_ind; intros Hw;
    inversion Hw; subst; cbn [norm]; try by constructor.
  - constructor. apply Forall_map. rewrite Forall_forall in *. intros x Hx. by apply IH; [| eauto].
  - constructor. rewrite js_sort_perm. apply Forall_map. rewrite Forall_forall in *.
    intros x Hx. simpl. by apply IH; eauto.
Qed.

(** Two bodies have the same canonical text exactly when they are the same
    value up to the order of keys and [undefined] for [null]. *)
Lemma canonical_iff a b : json_wf a -> json_wf b -> canonical a = canonical b <-> norm a = norm b.
Proof.
  intros Ha Hb. rewrite !canonical_render. split; [| by intros ->].
  intros H. pose proof (render_decodes _ (norm_plain a Ha) (norm b) "" "" (norm_plain b Hb) I I) as Hd.
  rewrite !str_app_nil_r in Hd. by apply Hd.
Qed.

(** Reordering the members of an object does not change its normal form. *)
Lemma norm_obj_perm kvs kvs' :
  NoDup (map fst kvs) -> kvs ≡ₚ kvs' -> norm (JObj kvs) = norm (JObj kvs').
Proof.
  intros Hnd Hp. cbn [norm]. f_equal. apply js_sort_unique.
  - intros x y. apply String.leb_total.
  - intros x y z. apply string_leb_trans.
  - intros x y Hx Hy Hxy Hyx.
    assert (Hk : x.1 = y.1) by (by apply String.leb_antisym).
    apply list_elem_of_In, in_map_iff in Hx as (p & <- & Hp1), Hy as (q & <- & Hq1). simpl in *.
    assert (p = q) as ->; [| done].
    apply list_elem_of_In in Hp1, Hq1.
    apply list_elem_of_lookup in Hp1 as [i Hi], Hq1 as [j Hj].
    assert (i = j) as ->; [| congruence].
    eapply NoDup_lookup; [exact Hnd | rewrite list_lookup_fmap, Hi | rewrite list_lookup_fmap, Hj]; simpl; [done |].
    by rewrite Hk.
  - by rewrite Hp.
Qed.
