(* ===== verification/Ledger.v ===== *)
(** * The authoritative liability ledger (services/ledgerService.js)

    State: the LedgerAccount, LedgerTransaction and JournalEntry tables
    ([ldb]).  Operations: account classification, [ensureAccount], the posting
    primitive [post] with its validation, conversion, balance, replay and
    write phases, and the balance reads.  Quantities are 1e-8 units; the
    decimal library is the [DecimalLib] interface and SHA-256 is a parameter.

    The theorems: a posting that commits balances exactly within each asset;
    every database reached by postings has balanced books and unique economic
    identities; replaying a posting returns the committed one and writes
    nothing; a balance moves by exactly the lines of the posting; the posting
    hash identifies the entry type, the lines up to order and the conversion
    record. *)

From stdpp Require Import base gmap strings list sorting.
From Stdlib Require Import ZArith Lia Ascii.
From S2P Require Import Prelude JsNumber ExactDecimal Json.

Local Open Scope Z_scope.

(** ** Chart of accounts *)

Inductive account_class : Type :=
| ASSET | LIABILITY | RESTRICTED | CLEARING | REVENUE | EXPENSE | EQUITY.
Inductive side : Type := DEBIT | CREDIT.

#[export] Instance account_class_eq_dec : EqDecision account_class.
Proof. solve_decision. Defined.
#[export] Instance side_eq_dec : EqDecision side.
Proof. solve_decision. Defined.

Record account_spec : Type := AccountSpec {
  accountClass : account_class;
  normalSide : side;
  asset : string;
  network : option string;
}.

#[export] Instance account_spec_eq_dec : EqDecision account_spec.
Proof. solve_decision. Defined.

Inductive account_kind : Type :=
| USER_LIABILITY (userId : Z)
| ESCROW_LOCKED (key : string)
| USER_DISPUTE (userId : Z)
| USER_UNALLOCATED (userId : Z)
| CANONICAL.

Record classification : Type := Classification { kind : account_kind; spec : account_spec }.

Definition user_spec : account_spec := AccountSpec LIABILITY CREDIT "USDC" None.

Definition CANONICAL_ACCOUNTS : list (string * account_spec) := [
  ("custody:deposit:usdc", AccountSpec ASSET DEBIT "USDC" (Some "POLYGON"));
  ("custody:hot:usdc", AccountSpec ASSET DEBIT "USDC" (Some "POLYGON"));
  ("custody:cold:usdc", AccountSpec ASSET DEBIT "USDC" (Some "POLYGON"));
  ("custody:exchange:usdc", AccountSpec ASSET DEBIT "USDC" (Some "POLYGON"));
  ("custody:provider:usdc", AccountSpec ASSET DEBIT "USDC" None);
  ("clearing:custody:unverified:usdc", AccountSpec CLEARING DEBIT "USDC" (Some "POLYGON"));
  ("clearing:custody:rejected:usdc", AccountSpec CLEARING DEBIT "USDC" (Some "POLYGON"));
  ("clearing:fiat:offramp:usdc", AccountSpec CLEARING CREDIT "USDC" None);
  ("fiat:momo:ghs", AccountSpec ASSET DEBIT "GHS" None);
  ("inventory:usdc:lots", AccountSpec ASSET DEBIT "USDC" None);
  ("restricted:reserves", AccountSpec RESTRICTED CREDIT "USDC" None);
  ("clearing:conversion", AccountSpec CLEARING DEBIT "USDC" None);
  ("clearing:orderbook:usdc", AccountSpec CLEARING DEBIT "USDC" None);
  ("revenue:fees", AccountSpec REVENUE CREDIT "USDC" None);
  ("revenue:spread", AccountSpec REVENUE CREDIT "USDC" None);
  ("expense:gas", AccountSpec EXPENSE DEBIT "USDC" None);
  ("expense:provider", AccountSpec EXPENSE DEBIT "USDC" None);
  ("pnl:inventory", AccountSpec REVENUE CREDIT "USDC" None);
  ("expense:cogs:usdc", AccountSpec EXPENSE DEBIT "USDC" None);
  ("pnl:arbitrage", AccountSpec REVENUE CREDIT "USDC" None);
  ("equity:treasury", AccountSpec EQUITY CREDIT "USDC" None);
  ("equity:treasury:ghs", AccountSpec EQUITY CREDIT "GHS" None)
]%string.

Definition ENTRY_TYPES : list string := [
  "DEPOSIT"; "WITHDRAWAL"; "TRADE"; "TRANSFER"; "ESCROW_LOCK"; "ESCROW_RELEASE";
  "ESCROW_REFUND"; "VAULT_DEPOSIT"; "VAULT_RELEASE"; "SUSU_CONTRIBUTION";
  "SUSU_PAYOUT"; "FEE"; "REWARD"; "ADJUSTMENT"; "BUSINESS_PAYMENT";
  "CUSTODY_DEPOSIT"; "CUSTODY_SWEEP"; "CUSTODY_WITHDRAWAL";
  "SHARED_VAULT_DEPOSIT"; "SHARED_VAULT_REFUND";
  "ESCROW_DISPUTE"; "SUSU_SEIZURE"; "SUSU_REFUND";
  "VENDOR_TOPUP"; "VENDOR_ALLOCATE";
  "CUSTODY_VERIFICATION"; "CUSTODY_REJECTION";
  "ASSET_CONVERSION"; "INVENTORY_ACQUISITION" ]%string.

Fixpoint assoc {B} (k : string) (l : list (string * B)) : option B :=
  match l with
  | [] => None
  | (k', v) :: l' => if String.eqb k k' then Some v else assoc k l'
  end.

(** What follows [p] in [s]. *)
Fixpoint strip_prefix (p s : string) : option string :=
  match p, s with
  | EmptyString, _ => Some s
  | String c p', String d s' => if Ascii.eqb c d then strip_prefix p' s' else None
  | _, EmptyString => None
  end.

(** [/^user:(\d+):suffix$/]: the user id when [code] matches. *)
Definition match_user (suffix : string) (code : string) : option Z :=
  match strip_prefix "user:" code with
  | Some rest =>
      let '(ds, tl) := span_digits rest in
      if (String.length ds =? 0)%nat then None
      else if String.eqb tl suffix then Some (digits_val 0 ds) else None
  | None => None
  end.

Definition is_alnum (c : ascii) : bool :=
  let n := char_code c in
  is_digit c || ((65 <=? n) && (n <=? 90)) || ((97 <=? n) && (n <=? 122)).
(** [[A-Za-z0-9_.-]]. *)
Definition is_key_char (c : ascii) : bool :=
  let n := char_code c in is_alnum c || (n =? 95) || (n =? 46) || (n =? 45).

Fixpoint span_key (s : string) : string * string :=
  match s with
  | EmptyString => (EmptyString, EmptyString)
  | String c s' =>
      if is_key_char c then let '(a, b) := span_key s' in (String c a, b)
      else (EmptyString, s)
  end.

(** [ESCROW_LOCKED_RE]: [escrow:], one alphanumeric, any key characters, [:locked]. *)
Definition match_escrow (code : string) : option string :=
  match strip_prefix "escrow:" code with
  | Some rest =>
      match span_key rest with
      | (String c key', tl) =>
          if is_alnum c && String.eqb tl ":locked" then Some (String c key') else None
      | _ => None
      end
  | None => None
  end.

(** [classifyAccountCode].  A code that is not a string fails the same way as
    the empty one, and is represented by it. *)
Definition classifyAccountCode (code : string) : res classification :=
  if ((String.length code =? 0) || (80 <? String.length code))%nat then Err "LEDGER_UNKNOWN_ACCOUNT"
  else match match_user ":liability" code with
  | Some u => Ok (Classification (USER_LIABILITY u) user_spec)
  | None =>
  match match_escrow code with
  | Some k => Ok (Classification (ESCROW_LOCKED k) user_spec)
  | None =>
  match match_user ":dispute" code with
  | Some u => Ok (Classification (USER_DISPUTE u) user_spec)
  | None =>
  match match_user ":unallocated" code with
  | Some u => Ok (Classification (USER_UNALLOCATED u) user_spec)
  | None =>
  match assoc code CANONICAL_ACCOUNTS with
  | Some sp => Ok (Classification CANONICAL sp)
  | None => Err "LEDGER_UNKNOWN_ACCOUNT"
  end end end end end.

(** ** Tables *)

Record account_row : Type := AccountRow { row_spec : account_spec; row_userId : option Z }.

Record conversion_record : Type := ConversionRecord {
  conv_identity : string;
  conv_rate : string;
  conv_quoteReference : option string;
  conv_assets : list string;
}.

Record ledger_tx : Type := LedgerTx {
  lt_id : nat;
  lt_idempotencyKey : string;
  lt_entryType : string;
  lt_description : string;
  lt_reference : option string;
  lt_userId : option Z;
  lt_relatedEntity : option string;
  lt_relatedEntityId : option string;
  lt_postingHash : string;
  lt_conversionIdentity : option string;
  lt_conversion : option conversion_record;
}.

Record journal_entry : Type := JournalEntry {
  je_transactionId : string;
  je_entryType : string;
  je_account : string;
  je_debit : Z;
  je_credit : Z;
  je_description : string;
  je_reference : option string;
  je_userId : option Z;
  je_relatedEntity : option string;
  je_relatedEntityId : option string;
  je_ledgerTransactionId : option nat;
  je_lineNumber : Z;
}.

Record ldb : Type := LDB {
  accounts : gmap string account_row;
  ltxs : list ledger_tx;
  entries : list journal_entry;
}.

Definition set_accounts (a : gmap string account_row) (s : ldb) : ldb := LDB a (ltxs s) (entries s).
Definition empty_ldb : ldb := LDB ∅ [] [].

(** Decimal(20,8) holds at most 999999999999.99999999. *)
Definition DECIMAL_20_8_LIMIT : Z := 10 ^ 20.

(** ** [ensureAccount] *)

Definition account_owner (k : account_kind) (userId : option Z) : option Z :=
  match k with
  | USER_LIABILITY u | USER_DISPUTE u | USER_UNALLOCATED u => Some u
  | _ => userId
  end.

(** Upsert on the code, then the persisted row must agree with the chart.  The
    concurrent first use that loses the unique index aborts the enclosing
    transaction and is not a transition of this model. *)
Definition ensureAccount (code : string) (userId : option Z) : M ldb classification :=
  cls ← lift (classifyAccountCode code);
  s ← get;
  let row := match accounts s !! code with
             | Some r => r
             | None => AccountRow (spec cls) (account_owner (kind cls) userId)
             end in
  put (set_accounts (<[code := row]> (accounts s)) s);;
  check (bool_decide (row_spec row = spec cls)) "LEDGER_ACCOUNT_IDENTITY_CONFLICT";;
  mret cls.

(** ** [post]: parameters *)

Record line_in : Type := Line { l_account : string; l_debit : jsval; l_credit : jsval }.
Record nline : Type := NLine { n_account : string; n_debit : Z; n_credit : Z }.

#[export] Instance nline_eq_dec : EqDecision nline.
Proof. solve_decision. Defined.

(** [typeof conversion.quoteReference]. *)
Inductive quote_ref : Type := QRUndefined | QRString (s : string) | QROther.

(** The [conversion] argument; an identity that is not a string fails as the
    empty one does. *)
Inductive conversion_arg : Type :=
| ConvAbsent
| ConvNotObject
| ConvContext (convIdentity : string) (rate : jsval) (quoteReference : quote_ref).

Record post_params : Type := PostParams {
  idempotencyKey : string;
  entryType : string;
  description : string;
  lines : list line_in;
  conversion : conversion_arg;
  reference : option string;
  userId : option Z;
  relatedEntity : option string;
  relatedEntityId : option string;
}.

Record post_result : Type := PostResult {
  p_transaction : ledger_tx;
  p_entries : list journal_entry;
  replayed : bool;
}.

Definition str_mem (s : string) (l : list string) : bool := existsb (String.eqb s) l.

(** Required parameters. *)
Definition post_validate (p : post_params) : res unit :=
  let n := String.length (idempotencyKey p) in
  throw_if ((n =? 0) || (140 <? n))%nat "LEDGER_IDEMPOTENCY_KEY_REQUIRED";;
  throw_if (negb (str_mem (entryType p) ENTRY_TYPES)) "LEDGER_INVALID_ENTRY_TYPE";;
  throw_if (String.length (trim (description p)) =? 0)%nat "LEDGER_DESCRIPTION_REQUIRED";;
  throw_if (length (lines p) <? 2)%nat "LEDGER_MIN_LINES".

(** An absent side is zero. *)
Definition line_side (v : jsval) : res Z :=
  match v with VUndefined | VNull => Ok 0 | _ => toExactDecimal v end.

(** Exact normalization and per-line validation. *)
Definition normalize_line (l : line_in) : res nline :=
  debit ← line_side (l_debit l);
  credit ← line_side (l_credit l);
  throw_if ((debit =? 0) && (credit =? 0)) "LEDGER_ZERO_LINE";;
  throw_if (negb (debit =? 0) && negb (credit =? 0)) "LEDGER_BOTH_SIDES";;
  mret (NLine (l_account l) debit credit).

(** The conversion context: required for, and only for, ASSET_CONVERSION. *)
Definition conversion_context (p : post_params) : res (option conversion_record) :=
  let is_conv := String.eqb (entryType p) "ASSET_CONVERSION" in
  match conversion p with
  | ConvAbsent => if is_conv then Err "LEDGER_CONVERSION_CONTEXT_REQUIRED" else Ok None
  | c =>
      throw_if (negb is_conv) "LEDGER_CONVERSION_ENTRY_TYPE_REQUIRED";;
      match c with
      | ConvContext cid rate qr =>
          let n := String.length cid in
          throw_if ((n =? 0) || (140 <? n))%nat "LEDGER_CONVERSION_INVALID";;
          r ← catch (toExactDecimal rate) (fun _ => Err "LEDGER_CONVERSION_INVALID");
          throw_if (r =? 0) "LEDGER_CONVERSION_INVALID";;
          match qr with
          | QRUndefined => mret (Some (ConversionRecord cid (toFixed8 r) None []))
          | QRString s =>
              throw_if (140 <? String.length s)%nat "LEDGER_CONVERSION_INVALID";;
              mret (Some (ConversionRecord cid (toFixed8 r) (Some s) []))
          | QROther => Err "LEDGER_CONVERSION_INVALID"
          end
      | _ => Err "LEDGER_CONVERSION_INVALID"
      end
  end.

Section Post.
Context `{DecimalLib} (sha256 : string -> string).

(** [perAsset]: a Map from asset to its debit and credit sums, in insertion
    order. *)
Definition asset_sums : Type := list (string * (Z * Z)).

Fixpoint add_asset (a : string) (d c : Z) (m : asset_sums) : asset_sums :=
  match m with
  | [] => [(a, (d_plus 0 d, d_plus 0 c))]
  | (a', (d', c')) :: m' =>
      if String.eqb a a' then (a', (d_plus d' d, d_plus c' c)) :: m' else (a', (d', c')) :: add_asset a d c m'
  end.

Fixpoint per_asset (ls : list nline) (m : asset_sums) : res asset_sums :=
  match ls with
  | [] => Ok m
  | l :: ls' =>
      cls ← classifyAccountCode (n_account l);
      per_asset ls' (add_asset (asset (spec cls)) (n_debit l) (n_credit l) m)
  end.

(** Asset identity precedes arithmetic: a posting lives in one asset, a
    conversion balances every leg within its own. *)
Definition asset_identity (ls : list nline) (conv : option conversion_record)
  : res (option conversion_record) :=
  m ← per_asset ls [];
  match conv with
  | None => throw_if (1 <? length m)%nat "LEDGER_CROSS_ASSET_BALANCE";; mret None
  | Some cr =>
      throw_if (length m <? 2)%nat "LEDGER_CONVERSION_SINGLE_ASSET";;
      throw_if (existsb (fun p => negb (p.2.1 =? p.2.2)) m) "LEDGER_CONVERSION_LEG_UNBALANCED";;
      mret (Some (ConversionRecord (conv_identity cr) (conv_rate cr) (conv_quoteReference cr)
                    (js_sort String.leb (map fst m))))
  end.

Definition total_debit (ls : list nline) : Z := foldl (fun acc l => d_plus acc (n_debit l)) 0 ls.
Definition total_credit (ls : list nline) : Z := foldl (fun acc l => d_plus acc (n_credit l)) 0 ls.

(** Debits equal credits, no epsilon. *)
Definition exact_balance (ls : list nline) : res unit :=
  throw_if (total_debit ls =? 0) "LEDGER_ZERO_POSTING";;
  throw_if (negb (total_debit ls =? total_credit ls)) "LEDGER_UNBALANCED".

Definition quoted (o : option string) : string :=
  match o with Some s => json_string s | None => "null" end.

Definition line_text (l : nline) : string :=
  (n_account l +:+ ":" +:+ toFixed8 (n_debit l) +:+ ":" +:+ toFixed8 (n_credit l))%string.

(** The text of [JSON.stringify({ identity, rate, quoteReference })]. *)
Definition conv_text (cr : conversion_record) : string :=
  canonical_record [("identity", json_string (conv_identity cr));
                    ("rate", json_string (conv_rate cr));
                    ("quoteReference", quoted (conv_quoteReference cr))].

(** The text whose SHA-256 is the posting hash. *)
Definition posting_identity (ty : string) (ls : list nline) (conv : option conversion_record) : string :=
  let canonical_lines := join "|" (js_sort String.leb (map line_text ls)) in
  let text := (ty +:+ "#" +:+ canonical_lines)%string in
  match conv with
  | None => text
  | Some cr => (text +:+ "#conv:" +:+ conv_text cr)%string
  end.

Definition computePostingHash (ty : string) (ls : list nline) (conv : option conversion_record) : string :=
  sha256 (posting_identity ty ls conv).

(** [[...new Set(l)]]: first occurrences. *)
Fixpoint dedup (seen : list string) (l : list string) : list string :=
  match l with
  | [] => []
  | x :: l' => if str_mem x seen then dedup seen l' else x :: dedup (x :: seen) l'
  end.

Fixpoint ensureAccounts (codes : list string) (uid : option Z) : M ldb unit :=
  match codes with
  | [] => mret tt
  | c :: cs => ensureAccount c uid;; ensureAccounts cs uid
  end.

Definition find_key (k : string) (s : ldb) : option ledger_tx :=
  List.find (fun t => String.eqb (lt_idempotencyKey t) k) (ltxs s).

Definition find_conversion (i : string) (s : ldb) : option ledger_tx :=
  List.find (fun t => match lt_conversionIdentity t with Some j => String.eqb j i | None => false end) (ltxs s).

Definition entries_of (id : nat) (s : ldb) : list journal_entry :=
  List.filter (fun e => match je_ledgerTransactionId e with Some j => (j =? id)%nat | None => false end) (entries s).

(** A conversion identity already used by another posting is refused. *)
Definition conversion_unused (key : string) (conv : option conversion_record) : M ldb unit :=
  match conv with
  | None => mret tt
  | Some cr =>
      prior ← reads (find_conversion (conv_identity cr));
      match prior with
      | Some t => check (String.eqb (lt_idempotencyKey t) key) "LEDGER_CONVERSION_IDENTITY_CONFLICT"
      | None => mret tt
      end
  end.

(** INSERT of the posting group; [idempotencyKey] and [conversionIdentity]
    are unique columns. *)
Definition create_ltx (t : ledger_tx) : M ldb ledger_tx :=
  s ← get;
  check (match find_key (lt_idempotencyKey t) s with None => true | _ => false end) "P2002";;
  check (match lt_conversionIdentity t with
         | Some i => match find_conversion i s with None => true | _ => false end
         | None => true
         end) "LEDGER_CONVERSION_IDENTITY_CONFLICT";;
  put (LDB (accounts s) (ltxs s ++ [t]) (entries s));;
  mret t.

(** INSERT of one line; the columns are Decimal(20,8). *)
Definition create_entry (e : journal_entry) : M ldb journal_entry :=
  check ((je_debit e <? DECIMAL_20_8_LIMIT) && (je_credit e <? DECIMAL_20_8_LIMIT)) "NUMERIC_OVERFLOW";;
  s ← get;
  put (LDB (accounts s) (ltxs s) (entries s ++ [e]));;
  mret e.

Fixpoint create_entries (p : post_params) (id : nat) (n : Z) (ls : list nline) : M ldb (list journal_entry) :=
  match ls with
  | [] => mret []
  | l :: ls' =>
      e ← create_entry (JournalEntry (idempotencyKey p) (entryType p) (n_account l) (n_debit l) (n_credit l)
             (description p) (reference p) (userId p) (relatedEntity p) (relatedEntityId p) (Some id) n);
      es ← create_entries p id (n + 1) ls';
      mret (e :: es)
  end.

(** Everything before the database is touched. *)
Definition post_prepare (p : post_params) : res (list nline * option conversion_record) :=
  post_validate p;;
  ls ← mapR normalize_line (lines p);
  conv0 ← conversion_context p;
  conv ← asset_identity ls conv0;
  exact_balance ls;;
  mret (ls, conv).

(** Exactly-once: a committed key is replayed when its hash agrees and
    refused otherwise; a new key is written. *)
Definition post_commit (p : post_params) (ls : list nline) (conv : option conversion_record) : M ldb post_result :=
  let postingHash := computePostingHash (entryType p) ls conv in
  s ← get;
  match find_key (idempotencyKey p) s with
  | Some existing =>
      check (String.eqb (lt_postingHash existing) postingHash) "LEDGER_IDEMPOTENCY_CONFLICT";;
      mret (PostResult existing (entries_of (lt_id existing) s) true)
  | None =>
      t ← create_ltx (LedgerTx (length (ltxs s)) (idempotencyKey p) (entryType p) (description p)
             (reference p) (userId p) (relatedEntity p) (relatedEntityId p) postingHash
             (conv_identity <$> conv) conv);
      es ← create_entries p (lt_id t) 1 ls;
      mret (PostResult t es false)
  end.

(** [post(tx, params)]. *)
Definition post (p : post_params) : M ldb post_result :=
  prep ← lift (post_prepare p);
  let '(ls, conv) := prep in
  ensureAccounts (dedup [] (map n_account ls)) (userId p);;
  conversion_unused (idempotencyKey p) conv;;
  post_commit p ls conv.

(** [accountBalance]: exact column sums of the linked lines, then the normal
    side of the persisted account, or of the chart. *)
Definition linked (code : string) (e : journal_entry) : bool :=
  String.eqb (je_account e) code && match je_ledgerTransactionId e with Some _ => true | None => false end.

Definition sum_debit (code : string) (s : ldb) : Z := sumZ je_debit (List.filter (linked code) (entries s)).
Definition sum_credit (code : string) (s : ldb) : Z := sumZ je_credit (List.filter (linked code) (entries s)).

Definition normal_side_of (code : string) (s : ldb) : res side :=
  match accounts s !! code with
  | Some r => Ok (normalSide (row_spec r))
  | None => cls ← classifyAccountCode code; mret (normalSide (spec cls))
  end.

Definition accountBalance (code : string) (s : ldb) : res Z :=
  sd ← normal_side_of code s;
  let net := d_minus (sum_debit code s) (sum_credit code s) in
  mret (match sd with DEBIT => net | CREDIT => - net end).

Definition liability_code (u : Z) : string := ("user:" +:+ Z_digits u +:+ ":liability")%string.

(** [userLiabilityBalance]. *)
Definition userLiabilityBalance (u : Z) (s : ldb) : res Z := accountBalance (liability_code u) s.

Fixpoint residual_sum (parts : list jsval) (acc : Z) : res Z :=
  match parts with
  | [] => Ok acc
  | x :: xs => v ← toExactDecimal x; residual_sum xs (d_plus acc v)
  end.

(** [exactResidual]. *)
Definition exactResidual (total : jsval) (parts : list jsval) : res Z :=
  t ← toExactDecimal total;
  sum ← residual_sum parts 0;
  mret (d_minus t sum).
End Post.

(** [susuEscrowCode]: each id without dashes, cut to 12 characters. *)
Fixpoint remove_dashes (s : string) : string :=
  match s with
  | EmptyString => EmptyString
  | String c s' => if Ascii.eqb c "-" then remove_dashes s' else String c (remove_dashes s')
  end.
Fixpoint str_take (n : nat) (s : string) : string :=
  match n, s with
  | S n', String c s' => String c (str_take n' s')
  | _, _ => EmptyString
  end.
Definition compact (id : string) : string := str_take 12 (remove_dashes id).
Definition susuEscrowCode (cycleId memberId : string) : string :=
  ("escrow:susu-" +:+ compact cycleId +:+ "-" +:+ compact memberId +:+ ":locked")%string.

(** A funding posting of 100.5 USDC: principal 100, fee 0.5. *)
Definition example_fund : post_params :=
  PostParams "ledger:escrow:fund:e1" "ESCROW_LOCK" "funded"
    [Line "user:7:liability" (VStr "100.50000000") VUndefined;
     Line "escrow:escrow-e1:locked" VUndefined (VStr "100.00000000");
     Line "revenue:fees" VUndefined (VStr "0.50000000")]
    ConvAbsent None (Some 7) None None.

Example post_fund_ok : is_ok (@post Decimal20 (fun x => x) example_fund empty_ldb) = true.
Proof. vm_compute. reflexivity. Qed.
