(* ===== verification/LedgerFacts.v ===== *)
(** * Properties of the authoritative ledger

    Balance within each asset, the invariant of the tables, replay,
    exactly-once identities and the effect of a posting on a balance. *)

From stdpp Require Import base gmap strings list sorting.
From Stdlib Require Import ZArith Lia Ascii.
From S2P Require Import Prelude JsNumber ExactDecimal Json Ledger.

Local Open Scope Z_scope.

(** ** Exact sums under the decimal library *)

Section ExactSums.
Context `{DecimalLib} {A : Type} (f : A -> Z).

Definition dsum (acc : Z) (l : list A) : Z := foldl (fun a x => d_plus a (f x)) acc l.

Context (Hf : forall x, 0 <= f x).

Lemma dsum_large acc l : 10 ^ 20 <= acc -> 10 ^ 20 <= dsum acc l.
Proof.
  revert acc. induction l as [| x l IH]; intros acc Ha; [done |].
  apply IH. unfold d_plus. pose proof (Hf x).
  pose proof (dround_mono (10 ^ 20) (acc + f x) ltac:(lia)) as Hm.
  pose proof (dround_sig 1 20 ltac:(lia) ltac:(lia)) as Hs. rewrite Z.mul_1_l in Hs. lia.
Qed.

(** A decimal sum below [10^20] units is the exact sum. *)
Lemma dsum_small acc l : 0 <= acc -> dsum acc l < 10 ^ 20 -> dsum acc l = acc + sumZ f l.
Proof.
  revert acc. induction l as [| x l IH]; intros acc Ha Hd; [simpl; lia |].
  rewrite sumZ_cons. change (dsum acc (x :: l)) with (dsum (d_plus acc (f x)) l) in *.
  pose proof (Hf x).
  assert (Hx : d_plus acc (f x) = acc + f x).
  { unfold d_plus in *. apply dround_small; [lia |].
    destruct (Z.lt_ge_cases (dround (acc + f x)) (10 ^ 20)); [done |].
    pose proof (dsum_large (dround (acc + f x)) l) as Hl. lia. }
  rewrite IH; [rewrite Hx; lia | rewrite Hx; lia | done].
Qed.

Lemma sum_nonneg' l : 0 <= sumZ f l.
Proof. apply sumZ_nonneg. auto. Qed.

Lemma dsum_exact acc l : 0 <= acc -> acc + sumZ f l < 10 ^ 20 -> dsum acc l = acc + sumZ f l.
Proof.
  revert acc. induction l as [| x l IH]; intros acc Ha Hs; [simpl; lia |].
  rewrite sumZ_cons in *. change (dsum acc (x :: l)) with (dsum (d_plus acc (f x)) l).
  pose proof (Hf x). pose proof (sum_nonneg' l).
  unfold d_plus. rewrite dround_exact by lia. rewrite IH; lia.
Qed.
End ExactSums.

(** ** Assets of accounts *)

Definition asset_of (code : string) : option string :=
  match classifyAccountCode code with Ok c => Some (asset (spec c)) | Err _ => None end.

(** Sum of [f] over the lines of asset [a]. *)
Definition asset_sum {A} (acct : A -> string) (f : A -> Z) (a : string) (l : list A) : Z :=
  sumZ (fun x => if bool_decide (asset_of (acct x) = Some a) then f x else 0) l.

Lemma asset_sum_app {A} (acct : A -> string) f a l k :
  asset_sum acct f a (l ++ k) = asset_sum acct f a l + asset_sum acct f a k.
Proof. apply sumZ_app. Qed.

Lemma asset_sum_all {A} (acct : A -> string) f a (l : list A) :
  (forall x, x ∈ l -> asset_of (acct x) = Some a) -> asset_sum acct f a l = sumZ f l.
Proof. intros Hall. apply sumZ_ext. intros x Hx. rewrite bool_decide_true; auto. Qed.

Lemma asset_sum_none {A} (acct : A -> string) f a (l : list A) :
  (forall x, x ∈ l -> asset_of (acct x) <> Some a) -> asset_sum acct f a l = 0.
Proof.
  intros Hall. transitivity (sumZ (fun _ : A => 0) l); [| apply sumZ_0].
  apply sumZ_ext. intros x Hx. rewrite bool_decide_false; auto.
Qed.

Lemma asset_sum_le {A} (acct : A -> string) f a (l : list A) :
  (forall x, 0 <= f x) -> 0 <= asset_sum acct f a l <= sumZ f l.
Proof.
  intros Hf. unfold asset_sum. induction l as [| x l IH]; simpl; [lia |].
  pose proof (Hf x). case_bool_decide; lia.
Qed.

(** ** The per-asset sums of a posting *)

Section PerAsset.
Context `{DecimalLib}.

Definition nline_nonneg (l : nline) : Prop := 0 <= n_debit l /\ 0 <= n_credit l.

Definition look (a : string) (m : asset_sums) : Z * Z := default (0, 0) (assoc a m).

Lemma look_add_eq a d c m :
  look a (add_asset a d c m) = (d_plus (look a m).1 d, d_plus (look a m).2 c).
Proof.
  unfold look. induction m as [| [a' [d' c']] m IH]; simpl.
  - by rewrite String.eqb_refl.
  - destruct (String.eqb_spec a a') as [-> | Hne]; simpl; [by rewrite String.eqb_refl |].
    destruct (String.eqb_spec a a'); [done |]. exact IH.
Qed.

Lemma look_add_ne a b d c m : a <> b -> look b (add_asset a d c m) = look b m.
Proof.
  intros Hab. unfold look. induction m as [| [a' [d' c']] m IH]; simpl.
  - destruct (String.eqb_spec b a); [congruence | done].
  - destruct (String.eqb_spec a a') as [-> | Hne]; simpl;
      destruct (String.eqb_spec b a'); try congruence; done.
Qed.

Lemma keys_add a d c m x : x ∈ map fst (add_asset a d c m) <-> x = a \/ x ∈ map fst m.
Proof.
  induction m as [| [a' [d' c']] m IH]; simpl; [by rewrite elem_of_cons |].
  destruct (String.eqb_spec a a') as [-> | Hne]; simpl; rewrite ?elem_of_cons, ?IH; tauto.
Qed.

Lemma keys_nodup a d c m : NoDup (map fst m) -> NoDup (map fst (add_asset a d c m)).
Proof.
  induction m as [| [a' [d' c']] m IH]; simpl; intros Hn; [apply NoDup_singleton |].
  inversion Hn as [| ? ? Hnot Hn']; subst.
  destruct (String.eqb_spec a a') as [-> | Hne]; simpl; [by constructor |].
  constructor; [| by apply IH]. rewrite keys_add. intros [-> | ?]; [congruence | done].
Qed.

Lemma assoc_nodup (m : asset_sums) p : NoDup (map fst m) -> p ∈ m -> assoc p.1 m = Some p.2.
Proof.
  intros Hn Hp. induction m as [| q m IH]; [by apply not_elem_of_nil in Hp |].
  inversion Hn as [| ? ? Hnot Hn']; subst. destruct q as [a v]. simpl in *.
  apply elem_of_cons in Hp as [-> | Hp]; simpl; [by rewrite String.eqb_refl |].
  destruct (String.eqb_spec p.1 a) as [Heq | _]; [| by apply IH].
  exfalso. apply Hnot. rewrite <- Heq. apply list_elem_of_In, in_map_iff.
  exists p. split; [done |]. by apply list_elem_of_In.
Qed.

Lemma per_asset_keys ls m m' :
  per_asset ls m = Ok m' -> NoDup (map fst m) ->
  NoDup (map fst m') /\
  (forall x, x ∈ map fst m -> x ∈ map fst m') /\
  Forall (fun l => exists a, asset_of (n_account l) = Some a /\ a ∈ map fst m') ls /\
  (forall x, x ∈ map fst m' -> x ∈ map fst m \/ exists l, l ∈ ls /\ asset_of (n_account l) = Some x).
Proof.
  revert m. induction ls as [| l ls IH]; intros m Hp Hn; simpl in Hp; [injection Hp as ->; naive_solver |].
  apply bind_Ok in Hp as (cls & Hc & Hp).
  assert (Ha : asset_of (n_account l) = Some (asset (spec cls))) by (unfold asset_of; by rewrite Hc).
  apply IH in Hp as (Hn' & Hsub & Hall & Hconv); [| by apply keys_nodup].
  split; [done |]. split; [intros x Hx; apply Hsub, keys_add; by right |]. split.
  - constructor; [| done]. eexists. split; [done |]. apply Hsub, keys_add. by left.
  - intros x Hx. apply Hconv in Hx as [Hx | (l' & Hl' & Hx)].
    + apply keys_add in Hx as [-> | Hx]; [right; exists l; split; [left | done] | by left].
    + right. exists l'. split; [by right | done].
Qed.

(** With totals below [10^20] the sums are exact. *)
Lemma per_asset_sums ls m m' a :
  per_asset ls m = Ok m' -> Forall nline_nonneg ls ->
  0 <= (look a m).1 -> 0 <= (look a m).2 ->
  (look a m).1 + sumZ n_debit ls < 10 ^ 20 -> (look a m).2 + sumZ n_credit ls < 10 ^ 20 ->
  look a m' = ((look a m).1 + asset_sum n_account n_debit a ls,
               (look a m).2 + asset_sum n_account n_credit a ls).
Proof.
  intros Hp Hnn. revert m Hp. induction Hnn as [| l ls [Hd Hc] Hnn IH]; intros m Hp H1 H2 H3 H4;
    simpl in Hp; [injection Hp as ->; unfold asset_sum; simpl; rewrite !Z.add_0_r; by destruct (look a m') |].
  apply bind_Ok in Hp as (cls & Hcls & Hp).
  assert (Ha : asset_of (n_account l) = Some (asset (spec cls))) by (unfold asset_of; by rewrite Hcls).
  rewrite !sumZ_cons in *. unfold asset_sum in *. rewrite !sumZ_cons, Ha.
  assert (Hd' : 0 <= sumZ n_debit ls) by (apply sumZ_nonneg; intros x Hx; by eapply Forall_forall in Hnn as [? _]).
  assert (Hc' : 0 <= sumZ n_credit ls) by (apply sumZ_nonneg; intros x Hx; by eapply Forall_forall in Hnn as [_ ?]).
  destruct (decide (a = asset (spec cls))) as [-> | Hne].
  - rewrite !bool_decide_true by done.
    pose proof (look_add_eq (asset (spec cls)) (n_debit l) (n_credit l) m) as Hl.
    unfold d_plus in Hl. rewrite !dround_exact in Hl by lia.
    apply IH in Hp; rewrite ?Hl; simpl; try lia.
    rewrite Hp, Hl. simpl. f_equal; lia.
  - rewrite !bool_decide_false by congruence.
    pose proof (look_add_ne (asset (spec cls)) a (n_debit l) (n_credit l) m ltac:(congruence)) as Hl.
    apply IH in Hp; rewrite ?Hl; try lia. by rewrite Hp, Hl.
Qed.
End PerAsset.

(** ** A prepared posting balances *)

(** The lines of a request carry well-formed values. *)
Definition params_wf (p : post_params) : Prop :=
  Forall (fun l => jsval_wf (l_debit l) /\ jsval_wf (l_credit l)) (lines p).

Lemma line_side_nonneg v u : jsval_wf v -> line_side v = Ok u -> 0 <= u.
Proof.
  intros Hw Hv. destruct v; try (by eapply toExactDecimal_nonneg); simpl in Hv; simplify_eq; lia.
Qed.

(** A normalized line has exactly one positive side. *)
Lemma normalize_line_spec l n :
  jsval_wf (l_debit l) -> jsval_wf (l_credit l) -> normalize_line l = Ok n ->
  n_account n = l_account l /\
  ((0 < n_debit n /\ n_credit n = 0) \/ (n_debit n = 0 /\ 0 < n_credit n)).
Proof.
  intros Hd Hc H. unfold normalize_line in H. res_inv H. subst. simpl.
  apply line_side_nonneg in Hres, Hres0; [| done | done]. split; [done | lia].
Qed.

Lemma normalized_lines p ls :
  params_wf p -> mapR normalize_line (lines p) = Ok ls ->
  Forall (fun n => (0 < n_debit n /\ n_credit n = 0) \/ (n_debit n = 0 /\ 0 < n_credit n)) ls.
Proof.
  unfold params_wf. intros Hw H. apply mapR_Forall2 in H.
  induction H as [| l n ls' ns Hn Hns IH]; [constructor |].
  inversion Hw as [| ? ? [Hd Hc] Hw']; subst. constructor; [| auto].
  by destruct (normalize_line_spec l n Hd Hc Hn).
Qed.

Lemma normalized_nonneg ls :
  Forall (fun n => (0 < n_debit n /\ n_credit n = 0) \/ (n_debit n = 0 /\ 0 < n_credit n)) ls ->
  Forall nline_nonneg ls.
Proof. intros H. eapply Forall_impl; [exact H |]. unfold nline_nonneg. simpl. lia. Qed.

Section Posting.
Context `{DecimalLib}.

Lemma total_debit_dsum ls : total_debit ls = dsum n_debit 0 ls.
Proof. done. Qed.

(** [dsum] only looks at the values of the list. *)
Lemma dsum_pos_ext {A} (f g : A -> Z) acc l :
  Forall (fun x => f x = g x) l -> dsum f acc l = dsum g acc l.
Proof.
  intros Hl. revert acc. induction Hl as [| x l Hx Hl IH]; intros acc; [done |].
  unfold dsum in *. simpl. by rewrite Hx, IH.
Qed.

Lemma dsum_lines (f : nline -> Z) ls :
  Forall (fun l => 0 <= f l) ls ->
  (sumZ f ls < 10 ^ 20 -> dsum f 0 ls = sumZ f ls) /\
  (dsum f 0 ls < 10 ^ 20 -> dsum f 0 ls = sumZ f ls).
Proof.
  intros Hf.
  assert (He : Forall (fun l => f l = Z.max 0 (f l)) ls) by (eapply Forall_impl; [exact Hf |]; simpl; lia).
  assert (Hs : sumZ f ls = sumZ (fun l => Z.max 0 (f l)) ls).
  { apply sumZ_ext. intros x Hx. by eapply Forall_forall in He. }
  rewrite Hs, (dsum_pos_ext _ _ _ _ He). split; intros Hlt.
  - rewrite dsum_exact; lia.
  - rewrite dsum_small; lia.
Qed.

(** Total debits and credits of a prepared posting agree exactly. *)
Lemma prepared_total p ls conv :
  params_wf p -> post_prepare p = Ok (ls, conv) -> sumZ n_debit ls < DECIMAL_20_8_LIMIT ->
  Forall nline_nonneg ls /\ sumZ n_debit ls = sumZ n_credit ls /\ 0 < sumZ n_debit ls.
Proof.
  unfold DECIMAL_20_8_LIMIT. intros Hw Hp Hlt. unfold post_prepare, exact_balance in Hp. res_inv Hp. simplify_eq.
  apply normalized_lines in Hres0; [| done]. apply normalized_nonneg in Hres0.
  assert (Hd : Forall (fun l => 0 <= n_debit l) ls) by (eapply Forall_impl; [exact Hres0 |]; by intros ? [? _]).
  assert (Hc : Forall (fun l => 0 <= n_credit l) ls) by (eapply Forall_impl; [exact Hres0 |]; by intros ? [_ ?]).
  destruct (dsum_lines n_debit ls Hd) as [Hd1 _]. destruct (dsum_lines n_credit ls Hc) as [_ Hc2].
  change (total_debit ls) with (dsum n_debit 0 ls) in *. change (total_credit ls) with (dsum n_credit 0 ls) in *.
  rewrite Hd1 in * by done.
  assert (0 <= sumZ n_debit ls) by (apply sumZ_nonneg; intros x Hx; by eapply Forall_forall in Hd).
  split; [done |]. split; [rewrite <- Hc2; lia | lia].
Qed.

(** A prepared posting balances within every asset. *)
Lemma prepared_balanced p ls conv a :
  params_wf p -> post_prepare p = Ok (ls, conv) -> sumZ n_debit ls < DECIMAL_20_8_LIMIT ->
  asset_sum n_account n_debit a ls = asset_sum n_account n_credit a ls.
Proof.
  intros Hw Hp Hlt. destruct (prepared_total p ls conv Hw Hp Hlt) as (Hnn & Htot & _).
  unfold post_prepare, asset_identity in Hp. apply bind_Ok in Hp as (u & _ & Hp).
  apply bind_Ok in Hp as (ls' & Hls & Hp). apply bind_Ok in Hp as (c0 & _ & Hp).
  apply bind_Ok in Hp as (c1 & Hid & Hp). apply bind_Ok in Hp as (u' & _ & Hp).
  injection Hp as -> ->. apply bind_Ok in Hid as (m & Hm & Hid).
  destruct (per_asset_keys ls [] m Hm (NoDup_nil_2)) as (Hnd & _ & Hall & _).
  unfold DECIMAL_20_8_LIMIT in Hlt.
  pose proof (per_asset_sums ls [] m a Hm Hnn) as Hsum. simpl in Hsum.
  specialize (Hsum ltac:(lia) ltac:(lia) ltac:(lia) ltac:(lia)).
  destruct c0 as [cr |].
  - (* a conversion: every leg balances *)
    apply bind_Ok in Hid as (u1 & _ & Hid). apply bind_Ok in Hid as (u2 & Hleg & _).
    apply throw_if_Ok in Hleg.
    destruct (assoc a m) as [[d c] |] eqn:Ha; unfold look in Hsum; rewrite Ha in Hsum; simpl in Hsum.
    + assert (Hdc : (d =? c) = true); [| injection Hsum; lia].
      destruct (d =? c) eqn:E; [done |]. exfalso.
      assert (existsb (fun p => negb (p.2.1 =? p.2.2)) m = true); [| congruence].
      apply existsb_exists. exists (a, (d, c)). split; [| simpl; by rewrite E].
      clear - Ha. induction m as [| [k v] m IH]; [done |]. simpl in Ha.
      destruct (String.eqb_spec a k) as [-> |]; [simplify_eq; by left | right; auto].
    + injection Hsum. lia.
  - (* one asset *)
    apply bind_Ok in Hid as (u1 & Hlen & _). apply throw_if_Ok, Nat.ltb_ge in Hlen.
    destruct (decide (Forall (fun l => asset_of (n_account l) = Some a) ls)) as [Hyes | Hno].
    + rewrite !asset_sum_all by (intros x Hx; by eapply Forall_forall in Hyes). done.
    + assert (Hnone : forall x, x ∈ ls -> asset_of (n_account x) <> Some a).
      { intros x Hx Hax. apply Hno. apply Forall_forall. intros y Hy.
        pose proof (proj1 (Forall_forall _ _) Hall x Hx) as (ax & Hax' & Hin).
        pose proof (proj1 (Forall_forall _ _) Hall y Hy) as (ay & -> & Hiny).
        rewrite Hax in Hax'. injection Hax' as <-. f_equal.
        destruct m as [| q [| q' m']]; simpl in *; [by apply not_elem_of_nil in Hin | | lia].
        apply list_elem_of_singleton in Hin, Hiny. congruence. }
      by rewrite !asset_sum_none.
Qed.
End Posting.

(** ** Accounts *)

(** The catalog row of [c] exists and agrees with the chart. *)
Definition ensured (s : ldb) (c : string) : Prop :=
  exists cls r, classifyAccountCode c = Ok cls /\ accounts s !! c = Some r /\ row_spec r = spec cls.

(** [s'] is [s] with more account rows, each agreeing with the chart. *)
Definition acc_ext (s s' : ldb) : Prop :=
  ltxs s' = ltxs s /\ entries s' = entries s /\
  (forall c r, accounts s !! c = Some r -> accounts s' !! c = Some r) /\
  (forall c r, accounts s' !! c = Some r -> accounts s !! c = Some r \/ ensured s' c).

#[export] Instance acc_ext_refl : Reflexive acc_ext.
Proof. intros s. repeat split; auto. Qed.

Lemma ensured_ext s s' c : acc_ext s s' -> ensured s c -> ensured s' c.
Proof. intros (_ & _ & Hm & _) (cls & r & Hc & Hr & He). exists cls, r. auto. Qed.

#[export] Instance acc_ext_trans : Transitive acc_ext.
Proof.
  intros s1 s2 s3 H12 H23.
  destruct H12 as (Ht & He & Hm & Hn). pose proof H23 as (Ht' & He' & Hm' & Hn').
  split; [congruence |]. split; [congruence |]. split; [auto |].
  intros c r Hr. apply Hn' in Hr as [Hr | Hr]; [| by right].
  apply Hn in Hr as [Hr | Hr]; [by left | right]. by eapply ensured_ext.
Qed.

Lemma ensureAccount_spec code uid s cls s' :
  ensureAccount code uid s = Ok (cls, s') -> acc_ext s s' /\ ensured s' code.
Proof.
  unfold ensureAccount. intros Hrun. apply Mbind_Ok in Hrun as (c & s1 & Hc & Hrun).
  apply lift_Ok in Hc as [Hc ->]. apply Mbind_Ok in Hrun as (s2 & s3 & Hg & Hrun).
  apply get_Ok in Hg as [-> ->]. set (row := match accounts s !! code with Some r => r | None => _ end) in *.
  apply Mbind_Ok in Hrun as ([] & s4 & Hput & Hrun). apply put_Ok in Hput as ->.
  apply Mbind_Ok in Hrun as ([] & s5 & Hchk & Hrun). apply check_Ok in Hchk as [Hrow ->].
  apply Mret_Ok in Hrun as [-> ->]. apply bool_decide_eq_true in Hrow.
  assert (Hens : ensured (set_accounts (<[code:=row]> (accounts s)) s) code).
  { exists c, row. split; [done |]. split; [apply lookup_insert_eq | done]. }
  split; [| done]. split; [done |]. split; [done |]. split.
  - intros c' r Hr. simpl. destruct (decide (c' = code)) as [-> | Hne].
    + rewrite lookup_insert_eq. unfold row. by rewrite Hr.
    + by rewrite lookup_insert_ne.
  - intros c' r Hr. simpl in Hr. destruct (decide (c' = code)) as [-> | Hne]; [by right |].
    rewrite lookup_insert_ne in Hr by done. by left.
Qed.

Lemma ensureAccount_idem code uid s :
  ensured s code -> exists cls, ensureAccount code uid s = Ok (cls, s).
Proof.
  intros (cls & r & Hc & Hr & He). exists cls. unfold ensureAccount, lift, mbind, M_bind, get, put, check, mret, M_ret.
  rewrite Hc. cbn. rewrite Hr, He, bool_decide_true by done.
  rewrite insert_id by done. by destruct s.
Qed.

Lemma ensureAccounts_spec codes uid s u s' :
  ensureAccounts codes uid s = Ok (u, s') -> acc_ext s s' /\ Forall (ensured s') codes.
Proof.
  revert s. induction codes as [| c codes IH]; intros s Hrun; simpl in Hrun.
  - apply Mret_Ok in Hrun as [_ ->]. split; [reflexivity | constructor].
  - apply Mbind_Ok in Hrun as (cls & s1 & Hc & Hrun).
    apply ensureAccount_spec in Hc as [He1 Hc]. apply IH in Hrun as [He2 Hcs].
    split; [by etrans |]. constructor; [by eapply ensured_ext | done].
Qed.

Lemma ensureAccounts_idem codes uid s :
  Forall (ensured s) codes -> ensureAccounts codes uid s = Ok (tt, s).
Proof.
  induction 1 as [| c codes Hc Hcs IH]; [done |]. simpl.
  destruct (ensureAccount_idem c uid s Hc) as [cls Hrun].
  unfold mbind, M_bind. by rewrite Hrun.
Qed.

Lemma str_mem_elem x l : str_mem x l = true <-> x ∈ l.
Proof.
  unfold str_mem. rewrite existsb_exists. split.
  - intros (y & Hy & Heq). apply String.eqb_eq in Heq as ->. by apply list_elem_of_In.
  - intros Hx. exists x. split; [by apply list_elem_of_In | apply String.eqb_refl].
Qed.

Lemma dedup_elem seen l x : x ∈ l -> x ∈ seen \/ x ∈ dedup seen l.
Proof.
  revert seen. induction l as [| y l IH]; intros seen Hx; [by apply not_elem_of_nil in Hx |].
  simpl. apply elem_of_cons in Hx as [-> | Hx]; destruct (str_mem y seen) eqn:Hy.
  - left. by apply str_mem_elem.
  - right. by left.
  - by apply IH.
  - destruct (IH (y :: seen) Hx) as [Hs | Hd]; [| right; by right].
    apply elem_of_cons in Hs as [-> | Hs]; [right; by left | by left].
Qed.

(** ** The written lines *)

Definition mk_entry (p : post_params) (id : nat) (n : Z) (l : nline) : journal_entry :=
  JournalEntry (idempotencyKey p) (entryType p) (n_account l) (n_debit l) (n_credit l)
    (description p) (reference p) (userId p) (relatedEntity p) (relatedEntityId p) (Some id) n.

Fixpoint mk_entries (p : post_params) (id : nat) (n : Z) (ls : list nline) : list journal_entry :=
  match ls with [] => [] | l :: ls' => mk_entry p id n l :: mk_entries p id (n + 1) ls' end.

Lemma create_entries_spec p id n ls s es s' :
  create_entries p id n ls s = Ok (es, s') ->
  es = mk_entries p id n ls /\ s' = LDB (accounts s) (ltxs s) (entries s ++ es).
Proof.
  revert n s es. induction ls as [| l ls IH]; intros n s es Hrun; simpl in Hrun.
  - apply Mret_Ok in Hrun as [-> ->]. rewrite app_nil_r. by destruct s.
  - apply Mbind_Ok in Hrun as (e & s1 & Hc & Hrun). unfold create_entry in Hc. run_inv Hc.
    apply Mbind_Ok in Hrun as (es' & s6 & Hes & Hrun).
    apply Mret_Ok in Hrun as [-> ->]. apply IH in Hes as [-> ->]. simpl.
    split; [done |]. by rewrite <- app_assoc.
Qed.

Lemma mk_entries_linked p id n ls e : e ∈ mk_entries p id n ls -> je_ledgerTransactionId e = Some id.
Proof.
  revert n. induction ls as [| l ls IH]; intros n He; simpl in He; [by apply not_elem_of_nil in He |].
  apply elem_of_cons in He as [-> | He]; [done | by eapply IH].
Qed.

Lemma mk_entries_debit p id n ls a :
  asset_sum je_account je_debit a (mk_entries p id n ls) = asset_sum n_account n_debit a ls.
Proof.
  unfold asset_sum. revert n. induction ls as [| l ls IH]; intros n; simpl; [done |]. by rewrite IH.
Qed.

Lemma mk_entries_credit p id n ls a :
  asset_sum je_account je_credit a (mk_entries p id n ls) = asset_sum n_account n_credit a ls.
Proof.
  unfold asset_sum. revert n. induction ls as [| l ls IH]; intros n; simpl; [done |]. by rewrite IH.
Qed.

Lemma mk_entries_accounts p id n ls : map je_account (mk_entries p id n ls) = map n_account ls.
Proof. revert n. induction ls as [| l ls IH]; intros n; simpl; [done |]. by rewrite IH. Qed.

Lemma create_ltx_Ok t s t' s' :
  create_ltx t s = Ok (t', s') ->
  t' = t /\ s' = LDB (accounts s) (ltxs s ++ [t]) (entries s) /\
  (forall i, lt_conversionIdentity t = Some i -> find_conversion i s = None).
Proof.
  unfold create_ltx. intros H. apply Mbind_Ok in H as (s1 & s2 & Hg & H). apply get_Ok in Hg as [-> ->].
  apply Mbind_Ok in H as (u & s1 & Hk & H). apply check_Ok in Hk as [_ ->].
  apply Mbind_Ok in H as (u' & s1 & Hc & H). apply check_Ok in Hc as [Hc ->]. run_inv H.
  split; [done |]. split; [done |]. intros i Hi. rewrite Hi in Hc. by destruct (find_conversion i s).
Qed.

(** ** What [post] does *)

Section PostFacts.
Context `{DecimalLib} (sha256 : string -> string).
Let post := post sha256.

(** The row a new posting writes. *)
Definition new_ltx (p : post_params) (ls : list nline) (conv : option conversion_record) (s : ldb) : ledger_tx :=
  LedgerTx (length (ltxs s)) (idempotencyKey p) (entryType p) (description p)
    (reference p) (userId p) (relatedEntity p) (relatedEntityId p)
    (computePostingHash sha256 (entryType p) ls conv) (conv_identity <$> conv) conv.

(** The two ways a posting succeeds: it replays a committed key whose hash
    agrees, or it writes a new group and its lines. *)
Inductive post_outcome (p : post_params) (ls : list nline) (conv : option conversion_record)
    (s1 : ldb) : post_result -> ldb -> Prop :=
| outcome_replay t :
    find_key (idempotencyKey p) s1 = Some t ->
    lt_postingHash t = computePostingHash sha256 (entryType p) ls conv ->
    post_outcome p ls conv s1 (PostResult t (entries_of (lt_id t) s1) true) s1
| outcome_new (t := new_ltx p ls conv s1) (es := mk_entries p (length (ltxs s1)) 1 ls) :
    find_key (idempotencyKey p) s1 = None ->
    (forall i, lt_conversionIdentity t = Some i -> find_conversion i s1 = None) ->
    post_outcome p ls conv s1 (PostResult t es false)
      (LDB (accounts s1) (ltxs s1 ++ [t]) (entries s1 ++ es)).

Lemma post_inv p s r s' :
  post p s = Ok (r, s') ->
  exists ls conv s1,
    post_prepare p = Ok (ls, conv) /\
    acc_ext s s1 /\ Forall (fun l => ensured s1 (n_account l)) ls /\
    post_outcome p ls conv s1 r s'.
Proof.
  unfold post, Ledger.post. intros Hrun. apply Mbind_Ok in Hrun as ([ls conv] & s0 & Hp & Hrun).
  apply lift_Ok in Hp as [Hp ->]. apply Mbind_Ok in Hrun as (u & s1 & Hacc & Hrun).
  apply ensureAccounts_spec in Hacc as [Hext Hens].
  apply Mbind_Ok in Hrun as (u' & s2 & Hconv & Hrun).
  assert (s2 = s1) as ->.
  { unfold conversion_unused in Hconv. destruct conv as [cr |]; [| by run_inv Hconv].
    run_inv Hconv. destruct (find_conversion _ s1); by run_inv Hconv. }
  exists ls, conv, s1. split; [done |]. split; [done |]. split.
  { apply Forall_forall. intros l Hl. eapply Forall_forall; [exact Hens |].
    destruct (dedup_elem [] (map n_account ls) (n_account l)) as [Hn | Hd]; [| by apply not_elem_of_nil in Hn | done].
    apply list_elem_of_In, in_map_iff. exists l. split; [done |]. by apply list_elem_of_In. }
  unfold post_commit in Hrun. apply Mbind_Ok in Hrun as (s2 & s3 & Hg & Hrun).
  apply get_Ok in Hg as [-> ->]. destruct (find_key (idempotencyKey p) s1) as [t |] eqn:Hk.
  - run_inv Hrun. apply String.eqb_eq in Hrun0. by constructor.
  - apply Mbind_Ok in Hrun as (t & s2 & Ht & Hrun). apply create_ltx_Ok in Ht as (-> & -> & Hc).
    apply Mbind_Ok in Hrun as (es & s3 & Hes & Hrun). apply create_entries_spec in Hes as [-> ->].
    apply Mret_Ok in Hrun as [-> ->]. by apply (outcome_new p ls conv s1).
Qed.
End PostFacts.

(** ** The invariant of the tables *)

Definition is_linked (e : journal_entry) : bool :=
  match je_ledgerTransactionId e with Some _ => true | None => false end.
Definition linked_entries (s : ldb) : list journal_entry := List.filter is_linked (entries s).

(** Debits equal credits on asset [a]. *)
Definition balanced (a : string) (es : list journal_entry) : Prop :=
  asset_sum je_account je_debit a es = asset_sum je_account je_credit a es.

Record ledger_inv (s : ldb) : Prop := {
  inv_ids : forall i t, ltxs s !! i = Some t -> lt_id t = i;
  inv_keys : NoDup (map lt_idempotencyKey (ltxs s));
  inv_conv : NoDup (omap lt_conversionIdentity (ltxs s));
  inv_linked : forall e id, e ∈ entries s -> je_ledgerTransactionId e = Some id ->
                 (id < length (ltxs s))%nat /\ ensured s (je_account e);
  inv_group : forall id a, balanced a (entries_of id s);
  inv_trial : forall a, balanced a (linked_entries s);
}.

(** Postings, and the unlinked rows of the legacy journal. *)
Inductive ledger_step `{DecimalLib} (sha256 : string -> string) : ldb -> ldb -> Prop :=
| step_post p ls conv r s s' :
    params_wf p -> post_prepare p = Ok (ls, conv) -> sumZ n_debit ls < DECIMAL_20_8_LIMIT ->
    post sha256 p s = Ok (r, s') -> ledger_step sha256 s s'
| step_legacy e s :
    je_ledgerTransactionId e = None ->
    ledger_step sha256 s (LDB (accounts s) (ltxs s) (entries s ++ [e])).

Lemma filter_app' {A} (f : A -> bool) l k : List.filter f (l ++ k) = List.filter f l ++ List.filter f k.
Proof. induction l as [| x l IH]; simpl; [done |]. rewrite IH. by destruct (f x). Qed.

Lemma filter_none {A} (f : A -> bool) l : (forall x, x ∈ l -> f x = false) -> List.filter f l = [].
Proof.
  induction l as [| x l IH]; intros Hf; simpl; [done |]. rewrite Hf by left.
  apply IH. intros y Hy. apply Hf. by right.
Qed.

Lemma filter_all {A} (f : A -> bool) l : (forall x, x ∈ l -> f x = true) -> List.filter f l = l.
Proof.
  induction l as [| x l IH]; intros Hf; simpl; [done |]. rewrite Hf by left. f_equal.
  apply IH. intros y Hy. apply Hf. by right.
Qed.

Lemma balanced_app a l k : balanced a l -> balanced a k -> balanced a (l ++ k).
Proof. unfold balanced. rewrite !asset_sum_app. lia. Qed.

Lemma balanced_nil a : balanced a [].
Proof. done. Qed.

Lemma empty_ldb_inv : ledger_inv empty_ldb.
Proof.
  split; simpl; try done; try apply NoDup_nil_2. intros e id He. by apply not_elem_of_nil in He.
Qed.

Lemma ledger_inv_ext s s' : acc_ext s s' -> ledger_inv s -> ledger_inv s'.
Proof.
  intros Hext [H1 H2 H3 H4 H5 H6]. pose proof Hext as (Ht & He & _ & _).
  unfold entries_of, linked_entries in *.
  split; unfold entries_of, linked_entries; rewrite ?Ht, ?He; try done.
  intros e id Hin Hid. destruct (H4 e id Hin Hid) as [Hlt Hens]. split; [done |].
  by eapply ensured_ext.
Qed.

Lemma find_key_None k s : find_key k s = None -> k ∉ map lt_idempotencyKey (ltxs s).
Proof.
  intros Hf Hin. apply list_elem_of_In, in_map_iff in Hin as (t & <- & Ht).
  eapply find_none in Hf; [| exact Ht]. simpl in Hf. by rewrite String.eqb_refl in Hf.
Qed.

Lemma find_key_Some k s t : find_key k s = Some t -> t ∈ ltxs s /\ lt_idempotencyKey t = k.
Proof.
  intros Hf. apply find_some in Hf as [Hin Hk]. split; [by apply list_elem_of_In |].
  by apply String.eqb_eq.
Qed.

Lemma find_conversion_None i s : find_conversion i s = None -> i ∉ omap lt_conversionIdentity (ltxs s).
Proof.
  intros Hf Hin. apply list_elem_of_omap in Hin as (t & Ht & Hi).
  apply list_elem_of_In in Ht. eapply find_none in Hf; [| exact Ht]. simpl in Hf.
  rewrite Hi in Hf. by rewrite String.eqb_refl in Hf.
Qed.

Section InvariantFacts.
Context `{DecimalLib} (sha256 : string -> string).

Lemma new_entries_of p ls s id (n := length (ltxs s)) (es := mk_entries p n 1 ls) t :
  ledger_inv s ->
  entries_of id (LDB (accounts s) (ltxs s ++ [t]) (entries s ++ es)) =
  if decide (id = n) then es else entries_of id s.
Proof.
  intros Hinv. unfold entries_of. simpl. rewrite filter_app'. case_decide as Hid.
  - subst id. rewrite (filter_none _ (entries s)), app_nil_l.
    + apply filter_all. intros e He. rewrite (mk_entries_linked _ _ _ _ _ He). apply Nat.eqb_refl.
    + intros e He. destruct (je_ledgerTransactionId e) as [j |] eqn:Hj; [| done].
      destruct (inv_linked s Hinv e j He Hj) as [Hlt _]. apply Nat.eqb_neq. unfold n. lia.
  - rewrite (filter_none _ es), app_nil_r; [done |].
    intros e He. rewrite (mk_entries_linked _ _ _ _ _ He). by apply Nat.eqb_neq.
Qed.

Lemma mk_entries_balanced p id n ls conv a :
  params_wf p -> post_prepare p = Ok (ls, conv) -> sumZ n_debit ls < DECIMAL_20_8_LIMIT ->
  balanced a (mk_entries p id n ls).
Proof.
  intros Hw Hp Hlt. unfold balanced. rewrite mk_entries_debit, mk_entries_credit.
  exact (prepared_balanced p ls conv a Hw Hp Hlt).
Qed.

Lemma mk_entries_elem_account p id n ls e :
  e ∈ mk_entries p id n ls -> exists l, l ∈ ls /\ n_account l = je_account e.
Proof.
  revert n. induction ls as [| l ls IH]; intros n He; simpl in He; [by apply not_elem_of_nil in He |].
  apply elem_of_cons in He as [-> | He]; [exists l; split; [left | done] |].
  destruct (IH _ He) as (l' & Hl' & Hacc). exists l'. split; [by right | done].
Qed.

Lemma ledger_inv_post p ls conv r s s' :
  params_wf p -> post_prepare p = Ok (ls, conv) -> sumZ n_debit ls < DECIMAL_20_8_LIMIT ->
  ledger_inv s -> post sha256 p s = Ok (r, s') -> ledger_inv s'.
Proof.
  intros Hw Hp Hlt Hinv Hpost.
  apply post_inv in Hpost as (ls' & conv' & s1 & Hp' & Hext & Hens & Hout).
  rewrite Hp in Hp'. simplify_eq. apply (ledger_inv_ext s s1 Hext) in Hinv.
  destruct Hout as [t Hk Hh | t es Hk Hc]; [done |].
  split; simpl.
  - intros i t' Hi. apply lookup_app_Some in Hi as [Hi | [Hge Hi]]; [by apply (inv_ids s1 Hinv) |].
    apply list_lookup_singleton_Some in Hi as [Hi <-]. simpl. lia.
  - rewrite map_app. apply NoDup_app. split; [apply (inv_keys s1 Hinv) |]. split.
    + intros k Hin. simpl. rewrite list_elem_of_singleton. intros ->. by apply find_key_None in Hk.
    + apply NoDup_singleton.
  - rewrite omap_app. apply NoDup_app. split; [apply (inv_conv s1 Hinv) |]. simpl.
    destruct (conv_identity <$> conv') as [i |] eqn:Hi; simpl; [| split; [by intros ? _ ?%not_elem_of_nil | constructor]].
    split; [| apply NoDup_singleton]. intros k Hin. rewrite list_elem_of_singleton. intros ->.
    specialize (Hc i Hi). by apply find_conversion_None in Hc.
  - intros e id He Hid. rewrite length_app. simpl.
    apply elem_of_app in He as [He | He].
    + destruct (inv_linked s1 Hinv e id He Hid) as [Hl He']. split; [lia | exact He'].
    + pose proof (mk_entries_linked _ _ _ _ _ He) as Hid'. rewrite Hid in Hid'. simplify_eq.
      split; [lia |]. apply mk_entries_elem_account in He as (l & Hl & <-).
      by eapply Forall_forall in Hens.
  - intros id a. unfold es. rewrite new_entries_of by done. case_decide; [| apply (inv_group s1 Hinv)].
    by eapply mk_entries_balanced.
  - intros a. unfold linked_entries. simpl. rewrite filter_app'. apply balanced_app.
    + apply (inv_trial s1 Hinv).
    + rewrite filter_all; [by eapply mk_entries_balanced |].
      intros e He. unfold is_linked. by rewrite (mk_entries_linked _ _ _ _ _ He).
Qed.

Lemma ledger_inv_legacy e s :
  je_ledgerTransactionId e = None -> ledger_inv s ->
  ledger_inv (LDB (accounts s) (ltxs s) (entries s ++ [e])).
Proof.
  intros He [H1 H2 H3 H4 H5 H6]. split; simpl; try done.
  - intros e' id Hin Hid. apply elem_of_app in Hin as [Hin | Hin]; [by apply H4 |].
    apply list_elem_of_singleton in Hin as ->. congruence.
  - intros id a. unfold entries_of. simpl. rewrite filter_app'. simpl. rewrite He, app_nil_r. apply H5.
  - intros a. unfold linked_entries, is_linked. simpl. rewrite filter_app'. simpl. rewrite He, app_nil_r. apply H6.
Qed.

Lemma reachable_inv s : rtc (ledger_step sha256) empty_ldb s -> ledger_inv s.
Proof.
  intros Hr. apply (rtc_ind_r (R := ledger_step sha256) (fun s => ledger_inv s) empty_ldb); [apply empty_ldb_inv | | done].
  intros s1 s2 _ Hstep Hinv. destruct Hstep; [by eapply ledger_inv_post | by apply ledger_inv_legacy].
Qed.
End InvariantFacts.
