(* ===== verification/LedgerHash.v ===== *)
(** * The posting hash identifies the economic content

    [computePostingHash] hashes a text built from the entry type, the sorted
    lines and the conversion record.  The text is shown to determine the entry
    type, the lines up to order and the conversion record, and not to depend
    on the order of the lines. *)

From stdpp Require Import base gmap strings list sorting.
From Stdlib Require Import ZArith Lia Ascii.
From S2P Require Import Prelude JsNumber ExactDecimal Json Ledger LedgerFacts.

Local Open Scope Z_scope.

Definition no_char (c : ascii) (s : string) : Prop :=
  str_forall (fun x => negb (Ascii.eqb x c)) s = true.

Lemma no_char_app c a b : no_char c (a +:+ b) <-> no_char c a /\ no_char c b.
Proof. unfold no_char. by rewrite str_forall_app, andb_true_iff. Qed.

Lemma no_char_cons c x s : no_char c (String x s) <-> x <> c /\ no_char c s.
Proof.
  unfold no_char. cbn [str_forall]. rewrite andb_true_iff, negb_true_iff, Ascii.eqb_neq. done.
Qed.

Lemma no_char_class (P : ascii -> bool) c s :
  P c = false -> str_forall P s = true -> no_char c s.
Proof.
  intros Hc. apply str_forall_impl. intros x Hx. destruct (Ascii.eqb_spec x c); [congruence | done].
Qed.

(** Splitting at the first separator. *)
Lemma split_first c a b x y :
  no_char c a -> no_char c b -> (a +:+ String c x = b +:+ String c y)%string -> a = b /\ x = y.
Proof.
  revert b. induction a as [| d a IH]; intros [| e b] Ha Hb; rewrite ?str_app_nil_l, ?str_app_cons; intros H.
  - by injection H as ->.
  - injection H as <- H. apply no_char_cons in Hb as [Hb _]. done.
  - injection H as -> H. apply no_char_cons in Ha as [Ha _]. done.
  - injection H as -> H. apply no_char_cons in Ha as [_ Ha], Hb as [_ Hb].
    by destruct (IH b Ha Hb H) as [-> ->].
Qed.

Lemma split_first_none c a b y :
  no_char c a -> (a = b +:+ String c y)%string -> False.
Proof.
  intros Ha ->. apply no_char_app in Ha as [_ Ha]. apply no_char_cons in Ha as [Ha _]. done.
Qed.

(** Splitting at the last separator. *)
Lemma split_last c a b x y :
  no_char c x -> no_char c y -> (a +:+ String c x = b +:+ String c y)%string -> a = b /\ x = y.
Proof.
  intros Hx Hy. revert b. induction a as [| d a IH]; intros [| e b]; rewrite ?str_app_nil_l, ?str_app_cons; intros H.
  - by injection H as ->.
  - exfalso. injection H as <- H. by eapply split_first_none in H.
  - exfalso. injection H as -> H. symmetry in H. by eapply split_first_none in H.
  - injection H as -> H. by destruct (IH b H) as [-> ->].
Qed.

(** Joining parts that do not contain the separator is injective. *)
Lemma join_inj c (l k : list string) :
  l <> [] -> k <> [] -> Forall (no_char c) l -> Forall (no_char c) k ->
  join (String c EmptyString) l = join (String c EmptyString) k -> l = k.
Proof.
  intros Hl Hk Fl. revert k Hk. induction Fl as [| x l Hx Fl IH]; intros k Hk Fk H; [done |].
  destruct Fk as [| y k Hy Fk]; [done |].
  destruct l as [| x' l], k as [| y' k].
  - simpl in H. by subst.
  - exfalso. change (join (String c EmptyString) (y :: y' :: k)) with
      (y +:+ String c EmptyString +:+ join (String c EmptyString) (y' :: k))%string in H.
    rewrite str_app_cons, str_app_nil_l in H. by eapply split_first_none in H.
  - exfalso. change (join (String c EmptyString) (x :: x' :: l)) with
      (x +:+ String c EmptyString +:+ join (String c EmptyString) (x' :: l))%string in H.
    rewrite str_app_cons, str_app_nil_l in H. symmetry in H. by eapply split_first_none in H.
  - change (join (String c EmptyString) (x :: x' :: l)) with
      (x +:+ String c EmptyString +:+ join (String c EmptyString) (x' :: l))%string in H.
    change (join (String c EmptyString) (y :: y' :: k)) with
      (y +:+ String c EmptyString +:+ join (String c EmptyString) (y' :: k))%string in H.
    rewrite !str_app_cons, !str_app_nil_l in H. apply split_first in H as [-> H]; [| done | done].
    f_equal. by apply IH.
Qed.

(** ** Characters of account codes *)

Lemma strip_prefix_Some p s r : strip_prefix p s = Some r -> (s = p +:+ r)%string.
Proof.
  revert s. induction p as [| c p IH]; intros s; simpl; [by intros [= ->] |].
  destruct s as [| d s]; [done |]. destruct (Ascii.eqb_spec c d) as [-> |]; [| done].
  intros H. rewrite str_app_cons. f_equal. by apply IH.
Qed.

Lemma strip_prefix_app p r : strip_prefix p (p +:+ r) = Some r.
Proof. induction p as [| c p IH]; [done |]. rewrite str_app_cons. simpl. by rewrite Ascii.eqb_refl. Qed.

Lemma span_digits_app s : (s = (span_digits s).1 +:+ (span_digits s).2)%string.
Proof.
  induction s as [| c s IH]; simpl; [done |]. destruct (is_digit c); [| done].
  destruct (span_digits s). simpl in *. rewrite str_app_cons. by f_equal.
Qed.

Lemma span_key_app s : (s = (span_key s).1 +:+ (span_key s).2)%string /\ str_forall is_key_char (span_key s).1 = true.
Proof.
  induction s as [| c s IH]; simpl; [done |]. destruct (is_key_char c) eqn:Hc; [| done].
  destruct (span_key s). simpl in *. destruct IH as [IH1 IH2]. rewrite Hc, IH2, str_app_cons. by rewrite <- IH1.
Qed.

Lemma match_user_Some suffix code u :
  match_user suffix code = Some u ->
  exists ds, str_forall is_digit ds = true /\ code = ("user:" +:+ ds +:+ suffix)%string /\ u = digits_val 0 ds.
Proof.
  unfold match_user. destruct (strip_prefix "user:" code) as [rest |] eqn:Hp; [| done].
  apply strip_prefix_Some in Hp. pose proof (span_digits_app rest) as Happ. pose proof (span_digits_fst rest) as Hd.
  destruct (span_digits rest) as [ds tl]. simpl in *.
  destruct (Nat.eqb _ _); [done |]. destruct (String.eqb_spec tl suffix) as [-> |]; [| done].
  intros [= <-]. exists ds. split; [done |]. split; [by rewrite Hp, Happ | done].
Qed.

Lemma match_escrow_Some code k :
  match_escrow code = Some k -> str_forall is_key_char k = true /\ code = ("escrow:" +:+ k +:+ ":locked")%string.
Proof.
  unfold match_escrow. destruct (strip_prefix "escrow:" code) as [rest |] eqn:Hp; [| done].
  apply strip_prefix_Some in Hp. destruct (span_key_app rest) as [Happ Hk].
  destruct (span_key rest) as [[| c key'] tl]; simpl in *; [done |].
  destruct (is_alnum c && String.eqb tl ":locked") eqn:Hc; [| done].
  apply andb_true_iff in Hc as [_ Ht]. apply String.eqb_eq in Ht as ->.
  intros [= <-]. split; [done |]. by rewrite Hp, Happ.
Qed.

Lemma assoc_elem {B} k (l : list (string * B)) v : assoc k l = Some v -> (k, v) ∈ l.
Proof.
  induction l as [| [k' v'] l IH]; simpl; [done |].
  destruct (String.eqb_spec k k') as [-> |]; [intros [= ->]; left | intros; right; auto].
Qed.

(** No account code contains the separators of the posting text. *)
Lemma classified_no_char code cls c :
  classifyAccountCode code = Ok cls -> c = "|"%char \/ c = "#"%char -> no_char c code.
Proof.
  intros Hcls Hc. unfold classifyAccountCode in Hcls.
  assert (Huser : forall suffix u, match_user suffix code = Some u -> no_char c suffix -> no_char c code).
  { intros suffix u Hu Hsuf. apply match_user_Some in Hu as (ds & Hd & -> & _).
    rewrite !no_char_app. split; [by destruct Hc as [-> | ->] |]. split; [| done].
    apply (no_char_class is_digit); [by destruct Hc as [-> | ->] | done]. }
  destruct (_ || _)%nat; [done |].
  destruct (match_user ":liability" code) eqn:E1; [eapply Huser; [done | by destruct Hc as [-> | ->]] |].
  destruct (match_escrow code) eqn:E2.
  { apply match_escrow_Some in E2 as [Hk ->]. rewrite !no_char_app.
    split; [by destruct Hc as [-> | ->] |]. split; [| by destruct Hc as [-> | ->]].
    apply (no_char_class is_key_char); [by destruct Hc as [-> | ->] | done]. }
  destruct (match_user ":dispute" code) eqn:E3; [eapply Huser; [done | by destruct Hc as [-> | ->]] |].
  destruct (match_user ":unallocated" code) eqn:E4; [eapply Huser; [done | by destruct Hc as [-> | ->]] |].
  destruct (assoc code CANONICAL_ACCOUNTS) eqn:E5; [| done]. apply assoc_elem in E5.
  assert (Hall : Forall (fun p => no_char "|" p.1 /\ no_char "#" p.1) CANONICAL_ACCOUNTS)
    by (repeat constructor).
  eapply Forall_forall in Hall; [| exact E5]. by destruct Hc as [-> | ->], Hall.
Qed.

(** ** One line *)

Definition is_dec_char (c : ascii) : bool := is_digit c || Ascii.eqb c ".".

Lemma toFixed8_chars u : str_forall is_dec_char (toFixed8 u) = true.
Proof.
  assert (Hd : forall s, str_forall is_digit s = true -> str_forall is_dec_char s = true).
  { intros s. apply str_forall_impl. unfold is_dec_char. by intros c ->. }
  unfold toFixed8. rewrite !str_forall_app, (Hd _ (Z_digits_digits _)), (Hd _ (fixed_digits_digits 8 u)). done.
Qed.

Lemma toFixed8_no_char c u : is_dec_char c = false -> no_char c (toFixed8 u).
Proof. intros Hc. by apply (no_char_class is_dec_char), toFixed8_chars. Qed.

Lemma line_text_inj l k :
  nline_nonneg l -> nline_nonneg k -> line_text l = line_text k -> l = k.
Proof.
  intros [Hd Hc] [Hd' Hc']. unfold line_text. intros H.
  change (":" +:+ toFixed8 (n_debit l) +:+ ":" +:+ toFixed8 (n_credit l))%string
    with (String ":" (toFixed8 (n_debit l) +:+ String ":" (toFixed8 (n_credit l)))) in H.
  change (":" +:+ toFixed8 (n_debit k) +:+ ":" +:+ toFixed8 (n_credit k))%string
    with (String ":" (toFixed8 (n_debit k) +:+ String ":" (toFixed8 (n_credit k)))) in H.
  rewrite <- !str_app_cons, !str_app_assoc in H.
  apply split_last in H as [H Hcr]; [| by apply toFixed8_no_char..].
  apply split_last in H as [Hac Hde]; [| by apply toFixed8_no_char..].
  apply toFixed8_inj in Hde, Hcr; [| done..]. destruct l, k; simpl in *. by subst.
Qed.

Definition line_valid (l : nline) : Prop :=
  nline_nonneg l /\ exists cls, classifyAccountCode (n_account l) = Ok cls.

Lemma line_text_no_char l c :
  line_valid l -> c = "|"%char \/ c = "#"%char -> no_char c (line_text l).
Proof.
  intros [_ [cls Hcls]] Hc. unfold line_text. rewrite !no_char_app.
  repeat split; try (by destruct Hc as [-> | ->]).
  - by eapply classified_no_char.
  - apply toFixed8_no_char. by destruct Hc as [-> | ->].
  - apply toFixed8_no_char. by destruct Hc as [-> | ->].
Qed.

(** ** The whole text *)

Lemma join_no_char c sep l : no_char c sep -> Forall (no_char c) l -> no_char c (join sep l).
Proof.
  intros Hs. induction 1 as [| x l Hx Hl IH]; [done |].
  destruct l as [| y l]; [done |].
  change (join sep (x :: y :: l)) with (x +:+ sep +:+ join sep (y :: l))%string.
  rewrite !no_char_app. done.
Qed.

(** The part of the conversion record that enters the hash. *)
Definition conv_key (cr : conversion_record) : string * string * option string :=
  (conv_identity cr, conv_rate cr, conv_quoteReference cr).

Lemma conv_text_inj c d : conv_text c = conv_text d -> conv_key c = conv_key d.
Proof.
  destruct c as [i r q a], d as [i' r' q' a']. unfold conv_text, canonical_record, canonical_member, conv_key.
  cbn [map join fst snd conv_identity conv_rate conv_quoteReference]. intros H.
  rewrite <- !str_app_assoc in H.
  apply (inj (String.append _)) in H. apply (inj (String.append _)) in H. apply (inj (String.append _)) in H.
  apply json_string_prefix in H as [-> H].
  do 3 apply (inj (String.append _)) in H. apply json_string_prefix in H as [-> H].
  do 3 apply (inj (String.append _)) in H.
  destruct q as [q |], q' as [q' |]; cbn [quoted] in H; [| done | done | done].
  by apply json_string_prefix in H as [-> _].
Qed.

Lemma entry_type_no_hash ty : str_mem ty ENTRY_TYPES = true -> no_char "#" ty.
Proof.
  intros Hty. apply str_mem_elem in Hty.
  assert (Hall : Forall (no_char "#") ENTRY_TYPES) by (repeat constructor).
  by eapply Forall_forall in Hall.
Qed.

Lemma lines_text_inj ls ks :
  Forall line_valid ls -> Forall line_valid ks -> ls <> [] -> ks <> [] ->
  join "|" (js_sort String.leb (map line_text ls)) = join "|" (js_sort String.leb (map line_text ks)) ->
  ls ≡ₚ ks.
Proof.
  intros Hls Hks Nl Nk H.
  assert (Hne : forall l, l <> [] -> js_sort String.leb (map line_text l) <> []).
  { intros l Hl He. apply (f_equal length) in He. rewrite (Permutation_length (js_sort_perm _ _)), length_map in He.
    destruct l; [done | simpl in He; lia]. }
  assert (Hno : forall l, Forall line_valid l -> Forall (no_char "|") (js_sort String.leb (map line_text l))).
  { intros l Hl. rewrite js_sort_perm. apply Forall_map. eapply Forall_impl; [exact Hl |].
    intros x Hx. apply line_text_no_char; [done | by left]. }
  apply (join_inj "|"%char) in H; auto.
  assert (Hp : map line_text ls ≡ₚ map line_text ks).
  { rewrite <- (js_sort_perm String.leb (map line_text ls)), H. apply js_sort_perm. }
  apply Permutation_map_inv in Hp as (k3 & Heq & Hp). rewrite Hp.
  assert (Hk3 : Forall line_valid k3) by (by rewrite <- Hp). enough (k3 = ls) as -> by reflexivity.
  clear - Heq Hk3 Hls. revert ls Heq Hls.
  induction Hk3 as [| x k3 [Hx _] Hk3 IH]; intros [| y ls] Heq Hls; simpl in Heq; try done.
  injection Heq as Hxy Heq. inversion Hls as [| ? ? [Hy _] Hls']; subst.
  f_equal; [by apply line_text_inj | by apply IH].
Qed.

(** Equal texts have equal economic content. *)
Lemma posting_identity_inj ty ls conv ty' ls' conv' :
  str_mem ty ENTRY_TYPES = true -> str_mem ty' ENTRY_TYPES = true ->
  Forall line_valid ls -> Forall line_valid ls' -> ls <> [] -> ls' <> [] ->
  posting_identity ty ls conv = posting_identity ty' ls' conv' ->
  ty = ty' /\ ls ≡ₚ ls' /\ conv_key <$> conv = conv_key <$> conv'.
Proof.
  intros Hty Hty' Hls Hls' Nl Nl' H. apply entry_type_no_hash in Hty, Hty'.
  set (J := fun l => join "|" (js_sort String.leb (map line_text l))).
  assert (Hj : forall l, Forall line_valid l -> no_char "#" (J l)).
  { intros l Hl. apply join_no_char; [done |]. rewrite js_sort_perm. apply Forall_map.
    eapply Forall_impl; [exact Hl |]. intros x Hx. apply line_text_no_char; [done | by right]. }
  assert (Hshape : forall t l (o : option conversion_record), posting_identity t l o =
    (t +:+ String "#" (J l +:+ match o with None => "" | Some cr => String "#" ("conv:" +:+ conv_text cr) end))%string).
  { intros t l o. unfold posting_identity. fold (J l). destruct o as [cr |].
    - change ("#" +:+ J l)%string with (String "#" (J l)).
      change ("#conv:" +:+ conv_text cr)%string with (String "#" ("conv:" +:+ conv_text cr)).
      by rewrite <- str_app_assoc, str_app_cons.
    - by rewrite str_app_nil_r. }
  rewrite !Hshape in H. apply split_first in H as [-> H]; [| done | done]. split; [done |].
  destruct conv as [c |], conv' as [c' |].
  - apply split_first in H as [HJ H]; [| by apply Hj..]. split; [by apply lines_text_inj |].
    apply (inj (String.append _)), conv_text_inj in H. cbn. by f_equal.
  - exfalso. symmetry in H. rewrite str_app_nil_r in H. eapply split_first_none; [| exact H]. by apply Hj.
  - exfalso. rewrite str_app_nil_r in H. eapply split_first_none; [| exact H]. by apply Hj.
  - rewrite !str_app_nil_r in H. split; [by apply lines_text_inj | done].
Qed.

(** The text does not depend on the order of the lines. *)
Lemma posting_identity_perm ty ls ls' conv :
  ls ≡ₚ ls' -> posting_identity ty ls conv = posting_identity ty ls' conv.
Proof.
  intros Hp. unfold posting_identity. rewrite (js_sort_unique String.leb) with (k := map line_text ls'); [done | ..].
  - apply String.leb_total.
  - apply string_leb_trans.
  - intros x y _ _. apply String.leb_antisym.
  - by rewrite Hp.
Qed.
