(* ===== verification/LedgerProps.v ===== *)
(** * Correctness of the authoritative ledger

    The theorems on [post]: balance within each asset, the invariant of every
    reachable ledger, the permanence of an idempotency key, the movement of a
    balance, refusals that leave no trace, and the account-code round trip. *)

From stdpp Require Import base gmap strings list sorting.
From Stdlib Require Import ZArith QArith Lia Ascii.
From S2P Require Import Prelude JsNumber ExactDecimal Json Ledger LedgerFacts LedgerHash.

Local Open Scope Z_scope.

(** ** Growth of the ledger *)

(** Later states keep the groups, their lines and the account rows. *)
Definition ledger_le (s s' : ldb) : Prop :=
  (exists k, ltxs s' = ltxs s ++ k) /\
  (forall id, (id < length (ltxs s))%nat -> entries_of id s' = entries_of id s) /\
  (forall c, ensured s c -> ensured s' c).

#[export] Instance ledger_le_refl : Reflexive ledger_le.
Proof. intros s. repeat split; auto. exists []. by rewrite app_nil_r. Qed.

#[export] Instance ledger_le_trans : Transitive ledger_le.
Proof.
  intros s1 s2 s3 ([k Hk] & He & Ha) ([k' Hk'] & He' & Ha'). split.
  - exists (k ++ k'). by rewrite Hk', Hk, app_assoc.
  - split; [| auto]. intros id Hid. rewrite He'; [auto |]. rewrite Hk, length_app. lia.
Qed.

Lemma acc_ext_le s s' : acc_ext s s' -> ledger_le s s'.
Proof.
  intros Hext. pose proof Hext as (Ht & He & _ & _). split; [exists []; by rewrite app_nil_r |].
  split; [intros; unfold entries_of; by rewrite He | intros; by eapply ensured_ext].
Qed.

Lemma find_key_le s s' k t : ledger_le s s' -> find_key k s = Some t -> find_key k s' = Some t.
Proof.
  intros ([ts Ht] & _) Hf. unfold find_key in *. rewrite Ht. clear Ht. revert Hf.
  induction (ltxs s) as [| x l IH]; simpl; [done |]. destruct (String.eqb _ _); auto.
Qed.

Lemma find_key_new s k t : find_key k s = None -> lt_idempotencyKey t = k ->
  find_key k (LDB (accounts s) (ltxs s ++ [t]) (entries s)) = Some t.
Proof.
  unfold find_key. simpl. intros Hf Hk. revert Hf. induction (ltxs s) as [| x l IH]; simpl.
  - by rewrite Hk, String.eqb_refl.
  - destruct (String.eqb _ _); [done | auto].
Qed.

(** The economic content of a posting. *)
Definition same_content (ty : string) (ls : list nline) (conv : option conversion_record)
    (ty' : string) (ls' : list nline) (conv' : option conversion_record) : Prop :=
  ty = ty' /\ ls ≡ₚ ls' /\ conv_key <$> conv = conv_key <$> conv'.

Lemma posting_identity_content ty ls conv ty' ls' conv' :
  same_content ty ls conv ty' ls' conv' ->
  posting_identity ty ls conv = posting_identity ty' ls' conv'.
Proof.
  intros (-> & Hp & Hc). rewrite (posting_identity_perm _ _ _ _ Hp).
  destruct conv as [c |], conv' as [c' |]; simpl in Hc; try done.
  injection Hc as Hi Hr Hq. unfold posting_identity, conv_text. by rewrite Hi, Hr, Hq.
Qed.

Section Growth.
Context `{DecimalLib} (sha256 : string -> string).

Lemma outcome_le p ls conv s r s' :
  ledger_inv s -> post_outcome sha256 p ls conv s r s' -> ledger_le s s'.
Proof.
  intros Hinv Hout. destruct Hout as [t Hk Hh | t es Hk Hc]; [reflexivity |].
  split; [by eexists |]. split; [| done].
  intros id Hid. unfold es. rewrite new_entries_of by done. by rewrite decide_False by lia.
Qed.

Lemma step_le s s' : ledger_inv s -> ledger_step sha256 s s' -> ledger_le s s'.
Proof.
  intros Hinv Hstep. destruct Hstep as [p ls conv r s s' Hw Hp Hlt Hpost | e s He].
  - apply post_inv in Hpost as (ls' & conv' & s1 & Hp' & Hext & _ & Hout).
    etrans; [by apply acc_ext_le |]. eapply outcome_le; [| exact Hout]. by eapply ledger_inv_ext.
  - split; [exists []; by rewrite app_nil_r |]. split; [| done]. intros id Hid.
    unfold entries_of. simpl. rewrite filter_app'. simpl. by rewrite He, app_nil_r.
Qed.

Lemma steps_le s s' :
  ledger_inv s -> rtc (ledger_step sha256) s s' -> ledger_le s s' /\ ledger_inv s'.
Proof.
  intros Hinv Hr. revert Hinv. induction Hr as [s | s1 s2 s3 Hstep _ IH]; intros Hinv; [by split; [reflexivity |] |].
  assert (Hinv2 : ledger_inv s2) by (destruct Hstep; [by eapply ledger_inv_post | by apply ledger_inv_legacy]).
  destruct (IH Hinv2) as [Hle Hi]. split; [| done]. etrans; [by apply step_le | done].
Qed.

(** A committed posting is found under its key, with its lines. *)
Lemma outcome_found p ls conv s r s' :
  ledger_inv s -> post_outcome sha256 p ls conv s r s' ->
  find_key (idempotencyKey p) s' = Some (p_transaction r) /\
  entries_of (lt_id (p_transaction r)) s' = p_entries r /\
  lt_postingHash (p_transaction r) = computePostingHash sha256 (entryType p) ls conv /\
  (lt_id (p_transaction r) < length (ltxs s'))%nat.
Proof.
  intros Hinv Hout. destruct Hout as [t Hk Hh | t es Hk Hc]; simpl.
  - split; [done |]. split; [done |]. split; [done |].
    apply find_key_Some in Hk as [Hin _]. apply list_elem_of_lookup in Hin as [i Hi].
    rewrite (inv_ids s Hinv i t Hi). by eapply lookup_lt_Some.
  - split; [exact (find_key_new s _ t Hk eq_refl) |]. split.
    + unfold es. rewrite new_entries_of by done. by rewrite decide_True by done.
    + split; [done |]. rewrite length_app. simpl. lia.
Qed.
End Growth.

(** ** A prepared posting is valid *)

Lemma per_asset_classified `{DecimalLib} ls m m' :
  per_asset ls m = Ok m' -> Forall (fun l => exists cls, classifyAccountCode (n_account l) = Ok cls) ls.
Proof.
  revert m. induction ls as [| l ls IH]; intros m Hp; [constructor |].
  simpl in Hp. apply bind_Ok in Hp as (cls & Hc & Hp). constructor; [by exists cls | by eapply IH].
Qed.

Lemma prepared_valid `{DecimalLib} p ls conv :
  params_wf p -> post_prepare p = Ok (ls, conv) ->
  str_mem (entryType p) ENTRY_TYPES = true /\ Forall line_valid ls /\ ls <> [].
Proof.
  intros Hw Hp. unfold post_prepare, post_validate, asset_identity in Hp.
  apply bind_Ok in Hp as (u & Hv & Hp). apply bind_Ok in Hp as (ls' & Hls & Hp).
  apply bind_Ok in Hp as (c0 & _ & Hp). apply bind_Ok in Hp as (c1 & Hid & Hp).
  apply bind_Ok in Hp as (u' & _ & Hp). injection Hp as -> ->.
  apply bind_Ok in Hid as (m & Hm & _). apply per_asset_classified in Hm. res_inv Hv.
  split; [by apply negb_false_iff |]. split.
  - unfold line_valid. apply Forall_and. split; [| done].
    by eapply normalized_nonneg, normalized_lines.
  - intros ->. apply mapR_length in Hls. apply Nat.ltb_ge in Hv. simpl in Hls. lia.
Qed.

Lemma normalized_accounts l ls : mapR normalize_line l = Ok ls -> map n_account ls = map l_account l.
Proof.
  intros Hls. apply mapR_Forall2 in Hls. induction Hls as [| x n k ks Hn Hks IH]; simpl; [done |].
  rewrite IH. f_equal. unfold normalize_line in Hn. res_inv Hn. by subst.
Qed.

Lemma dedup_sub seen l x : x ∈ dedup seen l -> x ∈ l.
Proof.
  revert seen. induction l as [| y l IH]; intros seen Hx; simpl in Hx; [done |].
  destruct (str_mem y seen); [right; by eapply IH |].
  apply elem_of_cons in Hx as [-> | Hx]; [left | right; by eapply IH].
Qed.

Section Keys.
Context `{DecimalLib} (sha256 : string -> string).

Lemma post_replays p ls conv t s :
  post_prepare p = Ok (ls, conv) -> Forall (fun l => ensured s (n_account l)) ls ->
  find_key (idempotencyKey p) s = Some t ->
  lt_postingHash t = computePostingHash sha256 (entryType p) ls conv ->
  (forall cr t', conv = Some cr -> find_conversion (conv_identity cr) s = Some t' -> t' = t) ->
  post sha256 p s = Ok (PostResult t (entries_of (lt_id t) s) true, s).
Proof.
  intros Hp Hens Hk Hh Hc. unfold post. apply Mbind_Ok. exists (ls, conv), s.
  split; [by apply lift_Ok |]. apply Mbind_Ok. exists tt, s. split.
  { apply ensureAccounts_idem, Forall_forall. intros c Hcin. apply dedup_sub in Hcin.
    apply list_elem_of_In, in_map_iff in Hcin as (l & <- & Hl). apply list_elem_of_In in Hl.
    by eapply Forall_forall in Hens. }
  apply Mbind_Ok. exists tt, s. apply find_key_Some in Hk as Hk'. destruct Hk' as [_ Hkey]. split.
  { unfold conversion_unused. destruct conv as [cr |]; [| done].
    apply Mbind_Ok. exists (find_conversion (conv_identity cr) s), s. split; [done |].
    destruct (find_conversion _ s) as [t' |] eqn:Hf; [| done].
    apply check_Ok. split; [| done]. rewrite (Hc cr t' eq_refl Hf), Hkey. apply String.eqb_refl. }
  unfold post_commit. apply Mbind_Ok. exists s, s. split; [done |]. rewrite Hk.
  apply Mbind_Ok. exists tt, s. split; [| done]. apply check_Ok. split; [| done].
  rewrite Hh. apply String.eqb_refl.
Qed.
End Keys.

Lemma omap_nodup_unique {A B} (f : A -> option B) (l : list A) x y b :
  NoDup (omap f l) -> x ∈ l -> y ∈ l -> f x = Some b -> f y = Some b -> x = y.
Proof.
  induction l as [| z l IH]; simpl; intros Hn Hx Hy Fx Fy; [by apply not_elem_of_nil in Hx |].
  assert (Hsub : forall w, w ∈ l -> f w = Some b -> f z = Some b -> False).
  { intros w Hw Fw Fz. rewrite Fz in Hn. apply NoDup_cons in Hn as [Hn _]. apply Hn.
    apply list_elem_of_omap. by exists w. }
  apply elem_of_cons in Hx as [-> | Hx], Hy as [-> | Hy]; try done.
  - exfalso. by eapply Hsub.
  - exfalso. by eapply Hsub.
  - apply IH; auto. destruct (f z); [by apply NoDup_cons in Hn as [_ Hn] | done].
Qed.

Lemma find_conversion_Some i s t : find_conversion i s = Some t -> t ∈ ltxs s /\ lt_conversionIdentity t = Some i.
Proof.
  intros Hf. apply find_some in Hf as [Hin Hk]. split; [by apply list_elem_of_In |].
  destruct (lt_conversionIdentity t) as [j |]; [| done]. f_equal. by apply String.eqb_eq.
Qed.

Lemma conversion_owner s t i t' :
  ledger_inv s -> t ∈ ltxs s -> lt_conversionIdentity t = Some i -> find_conversion i s = Some t' -> t' = t.
Proof.
  intros Hinv Hin Hi Hf. apply find_conversion_Some in Hf as [Hin' Hi'].
  eapply omap_nodup_unique; [apply (inv_conv s Hinv) | done..].
Qed.

(** ** Movement of a balance *)

Definition net (code : string) (s : ldb) : Z := sum_debit code s - sum_credit code s.

(** The movement of [code] in its normal direction by the lines [ls]. *)
Definition line_movement (code : string) (ls : list nline) : Z :=
  sumZ (fun l => if String.eqb (n_account l) code then n_debit l - n_credit l else 0) ls.
Definition signed (sd : side) (z : Z) : Z := match sd with DEBIT => z | CREDIT => - z end.

Lemma sum_filter {A} (f : A -> Z) (b : A -> bool) l :
  sumZ f (List.filter b l) = sumZ (fun x => if b x then f x else 0) l.
Proof. induction l as [| x l IH]; simpl; [done |]. destruct (b x); simpl; lia. Qed.

Lemma net_entries code s :
  net code s = sumZ (fun e => if linked code e then je_debit e - je_credit e else 0) (entries s).
Proof.
  unfold net, sum_debit, sum_credit. rewrite !sum_filter, <- sumZ_sub. apply sumZ_ext.
  intros e _. destruct (linked code e); lia.
Qed.

Lemma net_mk_entries code p id n ls :
  sumZ (fun e => if linked code e then je_debit e - je_credit e else 0) (mk_entries p id n ls) =
  line_movement code ls.
Proof.
  unfold line_movement. revert n. induction ls as [| l ls IH]; intros n; simpl; [done |].
  rewrite IH. unfold linked. simpl. by rewrite andb_true_r.
Qed.

Lemma normal_side_ext code s s' sd :
  acc_ext s s' -> normal_side_of code s = Ok sd -> normal_side_of code s' = Ok sd.
Proof.
  intros (_ & _ & Hm & Hn) Hs. unfold normal_side_of in *.
  destruct (accounts s !! code) as [r |] eqn:Hr; [by rewrite (Hm _ _ Hr) |].
  destruct (accounts s' !! code) as [r' |] eqn:Hr'; [| done].
  apply Hn in Hr' as Hr''. destruct Hr'' as [? | (cls & r2 & Hc & Hr2 & He)]; [congruence |].
  rewrite Hr' in Hr2. injection Hr2 as <-. rewrite Hc in Hs. simpl in Hs. by rewrite He.
Qed.

Section Movement.
Context `{DecimalLib}.

Lemma accountBalance_net code s :
  Z.abs (net code s) < DECIMAL_20_8_LIMIT ->
  accountBalance code s = (sd ← normal_side_of code s; mret (signed sd (net code s))).
Proof.
  intros Hlt. unfold accountBalance, d_minus. fold (net code s).
  rewrite dround_exact by exact Hlt. done.
Qed.
End Movement.

(** ** Theorems *)

Definition collision (h : string -> string) : Prop := exists x y, x <> y /\ h x = h y.

(** The postings of the examples. *)
Definition example_transfer : post_params :=
  PostParams "ledger:transfer:1" "TRANSFER" "transfer"
    [Line "user:8:liability" VUndefined (VStr "2.5"); Line "user:7:liability" (VStr "2.5") VUndefined]
    ConvAbsent None (Some 7) None None.
Definition example_transfer_reordered : post_params :=
  PostParams "ledger:transfer:1" "TRANSFER" "retry"
    [Line "user:7:liability" (VNum (Num.Fin (Qmake 5 2))) VUndefined; Line "user:8:liability" VUndefined (VStr "2.50")]
    ConvAbsent None (Some 7) None None.
Definition example_result : post_result * ldb :=
  match @post Decimal20 (fun x => x) example_fund empty_ldb with
  | Ok x => x
  | Err _ => (PostResult (LedgerTx 0 "" "" "" None None None None "" None None) [] true, empty_ldb)
  end.

Section Theorems.
Context `{DecimalLib} (sha256 : string -> string).

(** C1: the lines of every posting that [post] returns, new or replayed,
    balance exactly within each asset, for a posting whose debits stay in
    the Decimal(20,8) column range. *)
Theorem post_balanced p ls conv r s s' a :
  rtc (ledger_step sha256) empty_ldb s -> params_wf p -> post_prepare p = Ok (ls, conv) ->
  sumZ n_debit ls < DECIMAL_20_8_LIMIT -> post sha256 p s = Ok (r, s') ->
  balanced a (p_entries r).
Proof.
  intros Hr Hw Hp Hlt Hpost. apply reachable_inv in Hr.
  pose proof (ledger_inv_post sha256 p ls conv r s s' Hw Hp Hlt Hr Hpost) as Hinv'.
  apply post_inv in Hpost as (ls' & conv' & s1 & _ & Hext & _ & Hout).
  apply (outcome_found sha256) in Hout as (_ & <- & _); [| by eapply ledger_inv_ext].
  apply (inv_group s' Hinv').
Qed.

(** C2: in every ledger reached by postings and legacy journal rows, the
    trial balance of each asset is zero, each posting group balances within
    each asset, no idempotency key and no conversion identity names two
    groups, and every linked line belongs to an existing group and to a
    catalogued account that agrees with the chart. *)
Theorem ledger_reachable_invariant s :
  rtc (ledger_step sha256) empty_ldb s ->
  (forall a, balanced a (linked_entries s)) /\
  (forall id a, balanced a (entries_of id s)) /\
  NoDup (map lt_idempotencyKey (ltxs s)) /\
  NoDup (omap lt_conversionIdentity (ltxs s)) /\
  (forall e id, e ∈ entries s -> je_ledgerTransactionId e = Some id ->
     (exists t, ltxs s !! id = Some t /\ lt_id t = id) /\ ensured s (je_account e)).
Proof.
  intros Hr. apply reachable_inv in Hr as Hinv. destruct Hinv as [H1 H2 H3 H4 H5 H6].
  repeat (split; [done |]). intros e id He Hid. destruct (H4 e id He Hid) as [Hlt Hens].
  split; [| done]. apply lookup_lt_is_Some in Hlt as [t Ht]. exists t. split; [done | by apply H1].
Qed.

(** C3: an idempotency key is permanent.  Once a posting commits, at every
    later state a valid request with the same key and the same economic
    content (entry type, lines in any order, conversion) returns the
    committed group and lines and changes nothing, and one with other
    content is refused, unless it exhibits a SHA-256 collision. *)
Theorem post_key_permanent p ls conv r s s1 s2 p' ls' conv' :
  rtc (ledger_step sha256) empty_ldb s -> params_wf p -> params_wf p' ->
  post_prepare p = Ok (ls, conv) -> sumZ n_debit ls < DECIMAL_20_8_LIMIT ->
  post sha256 p s = Ok (r, s1) -> replayed r = false ->
  rtc (ledger_step sha256) s1 s2 ->
  idempotencyKey p' = idempotencyKey p -> post_prepare p' = Ok (ls', conv') ->
  let same := same_content (entryType p) ls conv (entryType p') ls' conv' in
  (same -> post sha256 p' s2 = Ok (PostResult (p_transaction r) (p_entries r) true, s2)) /\
  (~ same -> is_ok (post sha256 p' s2) = true -> collision sha256).
Proof.
  intros Hr Hw Hw' Hp Hlt Hpost Hnew Hsteps Hkey Hp' same. apply reachable_inv in Hr.
  pose proof (ledger_inv_post sha256 p ls conv r s s1 Hw Hp Hlt Hr Hpost) as Hinv1.
  destruct (steps_le sha256 s1 s2 Hinv1 Hsteps) as [Hle Hinv2].
  apply post_inv in Hpost as (ls0 & conv0 & s0 & Hp0 & Hext & Hens & Hout). rewrite Hp in Hp0. simplify_eq.
  pose proof (ledger_inv_ext s s0 Hext Hr) as Hinv0.
  destruct (outcome_found sha256 p _ _ s0 r s1 Hinv0 Hout) as (Hf & He & Hh & Hid).
  apply (find_key_le s1 s2) in Hf as Hf2; [| done].
  assert (Hconv : lt_conversionIdentity (p_transaction r) = conv_identity <$> conv0) by (by destruct Hout).
  assert (Hens2 : Forall (fun l => ensured s2 (n_account l)) ls0).
  { destruct Hle as (_ & _ & Ha). eapply Forall_impl; [exact Hens |]. intros l Hl. apply Ha.
    destruct (outcome_le sha256 p ls0 conv0 s0 r s1 Hinv0 Hout) as (_ & _ & Ha'). auto. }
  split.
  - intros Hsame. rewrite <- He. destruct Hle as (_ & Hes & _). rewrite <- (Hes _ Hid).
    apply (post_replays sha256 p' ls' conv'); [done | | by rewrite Hkey | |].
    + destruct Hsame as (_ & <- & _). done.
    + rewrite Hh. unfold computePostingHash. by rewrite (posting_identity_content _ _ _ _ _ _ Hsame).
    + intros cr t' -> Hfc. destruct Hsame as (_ & _ & Hc). destruct conv0 as [c0 |]; [| done].
      simpl in Hc, Hconv. injection Hc as Hi _ _. rewrite Hi in Hconv.
      eapply (conversion_owner s2); [exact Hinv2 | | exact Hconv | exact Hfc]. by apply find_key_Some in Hf2 as [? _].
  - intros Hdiff Hok. destruct (post sha256 p' s2) as [[r' s3] | e] eqn:Hpost'; [| done].
    apply post_inv in Hpost' as (ls3 & conv3 & s3' & Hp3 & Hext3 & _ & Hout3). rewrite Hp' in Hp3. simplify_eq.
    apply (find_key_le _ s3') in Hf2; [| by apply acc_ext_le].
    destruct Hout3 as [t Hk3 Hh3 | t es Hk3 _]; rewrite Hkey, Hf2 in Hk3; [| done]. injection Hk3 as <-.
    rewrite Hh in Hh3. exists (posting_identity (entryType p) ls0 conv0), (posting_identity (entryType p') ls3 conv3).
    split; [| done]. intros Heq. apply Hdiff.
    destruct (prepared_valid p ls0 conv0 Hw Hp) as (? & ? & ?), (prepared_valid p' ls3 conv3 Hw' Hp') as (? & ? & ?).
    by apply posting_identity_inj.
Qed.

(** A new posting moves the balance of every account by exactly the
    debits minus the credits of its lines on that account, in the account's
    normal direction; accounts without a line do not move. *)
Theorem post_moves_balance p ls conv r s s' code b sd :
  post_prepare p = Ok (ls, conv) -> post sha256 p s = Ok (r, s') -> replayed r = false ->
  normal_side_of code s = Ok sd -> accountBalance code s = Ok b ->
  Z.abs (net code s) < DECIMAL_20_8_LIMIT -> Z.abs (net code s') < DECIMAL_20_8_LIMIT ->
  accountBalance code s' = Ok (b + signed sd (line_movement code ls)).
Proof.
  intros Hp Hpost Hnew Hsd Hb Hlt Hlt'.
  apply post_inv in Hpost as (ls0 & conv0 & s0 & Hp0 & Hext & _ & Hout). rewrite Hp in Hp0. simplify_eq.
  pose proof (normal_side_ext code s s0 sd Hext Hsd) as Hsd0.
  destruct Hout as [t Hk Hh | t es Hk Hc]; [done |].
  rewrite accountBalance_net in Hb by done. rewrite accountBalance_net by done.
  rewrite Hsd in Hb. injection Hb as <-.
  change (normal_side_of code (LDB _ _ _)) with (normal_side_of code s0). rewrite Hsd0. simpl. f_equal.
  rewrite !net_entries. simpl. destruct Hext as (_ & -> & _). rewrite sumZ_app. unfold es. rewrite net_mk_entries.
  destruct sd; simpl; lia.
Qed.

(** A posting that throws, run in the caller's transaction, leaves the
    ledger as it was; one that returns either replayed a committed group or
    appended exactly one group and its numbered lines, and never edits or
    removes a group or a line. *)
Theorem post_append_only p s :
  (exists e, transaction (post sha256 p) s = (Err e, s)) \/
  (exists r s', transaction (post sha256 p) s = (Ok r, s') /\ find_key (idempotencyKey p) s = Some (p_transaction r) /\
     replayed r = true /\ ltxs s' = ltxs s /\ entries s' = entries s) \/
  (exists r s', transaction (post sha256 p) s = (Ok r, s') /\ replayed r = false /\
     ltxs s' = ltxs s ++ [p_transaction r] /\ entries s' = entries s ++ p_entries r /\
     map je_account (p_entries r) = map l_account (lines p)).
Proof.
  unfold transaction. destruct (post sha256 p s) as [[r s'] | e] eqn:Hpost; [| left; by exists e]. right.
  apply post_inv in Hpost as (ls & conv & s0 & Hp & (Ht & He & _) & _ & Hout).
  destruct Hout as [t Hk Hh | t es Hk Hc]; [left | right]; eexists _, _; (split; [done |]); simpl.
  - unfold find_key in *. rewrite <- Ht. by repeat split.
  - rewrite Ht, He. repeat split. unfold es. rewrite mk_entries_accounts.
    unfold post_prepare in Hp. apply bind_Ok in Hp as (u & _ & Hp). apply bind_Ok in Hp as (ls' & Hls & Hp).
    assert (ls' = ls) as -> by (res_inv Hp; by simplify_eq). by apply normalized_accounts.
Qed.
End Theorems.

(** ** Account codes and residuals *)

Lemma count_digits_le fuel z n : 0 <= z < 10 ^ Z.of_nat n -> (1 <= n)%nat -> (count_digits fuel z <= n)%nat.
Proof.
  revert z n. induction fuel as [| f IH]; intros z n Hz Hn; simpl; [lia |].
  destruct (Z.ltb_spec z 10); [lia |].
  destruct n as [| [| n]]; [lia | change (10 ^ Z.of_nat 1) with 10 in Hz; lia |].
  apply le_n_S, IH; [| lia]. split; [apply Z.div_pos; lia |].
  apply Z.div_lt_upper_bound; [lia |]. rewrite Nat2Z.inj_succ, Z.pow_succ_r in Hz by lia. lia.
Qed.

Lemma match_user_code suffix u c t :
  suffix = String c t -> is_digit c = false -> 0 <= u ->
  match_user suffix ("user:" +:+ Z_digits u +:+ suffix) = Some u.
Proof.
  intros -> Hc Hu. unfold match_user. rewrite strip_prefix_app, span_digits_stop; [| apply Z_digits_digits | done].
  pose proof (Z_digits_nonempty u). destruct (Nat.eqb_spec (String.length (Z_digits u)) 0); [done |].
  by rewrite String.eqb_refl, Z_digits_val.
Qed.

Lemma exact_parts_nonneg parts us :
  Forall jsval_wf parts -> mapR toExactDecimal parts = Ok us -> 0 <= sumZ id us.
Proof.
  intros Hw Hus. apply mapR_Forall2 in Hus. revert Hw.
  induction Hus as [| x u xs us Hx Hxs IH]; intros Hw; [done |].
  apply Forall_cons in Hw as [Hwx Hw]. pose proof (toExactDecimal_nonneg x u Hwx Hx).
  specialize (IH Hw). rewrite sumZ_cons. change (id u) with u. lia.
Qed.

Lemma residual_sum_spec `{DecimalLib} parts acc sum us :
  Forall jsval_wf parts -> mapR toExactDecimal parts = Ok us ->
  0 <= acc -> acc + sumZ id us < 10 ^ 20 -> residual_sum parts acc = Ok sum -> sum = acc + sumZ id us.
Proof.
  intros Hw Hus. revert acc us Hus. induction Hw as [| x xs Hx Hxs IH]; intros acc us Hus Ha Hlt Hr; simpl in Hr, Hus.
  - injection Hr as <-. injection Hus as <-. simpl. lia.
  - apply bind_Ok in Hr as (v & Hv & Hr). rewrite Hv in Hus. simpl in Hus.
    apply bind_Ok in Hus as (us' & Hus & Hu). injection Hu as <-. rewrite sumZ_cons in *. change (id v) with v in *.
    pose proof (toExactDecimal_nonneg x v Hx Hv). pose proof (exact_parts_nonneg xs us' Hxs Hus).
    unfold d_plus in Hr. rewrite dround_exact in Hr by lia.
    apply (IH _ us') in Hr; [| done | lia | lia]. lia.
Qed.

(** C40: the liability account code of a user is always classified back to
    that user's liability account, so no two users share an account. *)
Theorem liability_code_classified u :
  0 <= u < 2 ^ 31 -> classifyAccountCode (liability_code u) = Ok (Classification (USER_LIABILITY u) user_spec).
Proof.
  intros Hu. unfold classifyAccountCode, liability_code.
  rewrite (match_user_code ":liability" u ":" "liability") by (done || lia).
  rewrite !str_app_length. cbn [String.length].
  assert (Hl : (String.length (Z_digits u) <= 10)%nat).
  { unfold Z_digits. rewrite fixed_digits_length. apply count_digits_le; simpl; lia. }
  destruct (Nat.eqb_spec (5 + (String.length (Z_digits u) + 10)) 0); [lia |].
  destruct (Nat.ltb_spec 80 (5 + (String.length (Z_digits u) + 10))); [lia | done].
Qed.

Lemma liability_code_classified_witness :
  classifyAccountCode (liability_code 2147483647) = Ok (Classification (USER_LIABILITY 2147483647) user_spec).
Proof. apply liability_code_classified. lia. Defined.

(** [exactResidual] is exact: the parts and the residual add up to the
    total, with no rounding, for parts in the Decimal(20,8) range. *)
Theorem exactResidual_exact `{DecimalLib} total parts r t us :
  jsval_wf total -> Forall jsval_wf parts ->
  toExactDecimal total = Ok t -> mapR toExactDecimal parts = Ok us ->
  t < DECIMAL_20_8_LIMIT -> sumZ id us < DECIMAL_20_8_LIMIT ->
  exactResidual total parts = Ok r -> sumZ id us + r = t.
Proof.
  unfold DECIMAL_20_8_LIMIT. intros Hw Hws Ht Hus Htl Hul Hr. unfold exactResidual in Hr.
  rewrite Ht in Hr. simpl in Hr. apply bind_Ok in Hr as (sum & Hs & Hr). injection Hr as <-.
  pose proof (toExactDecimal_nonneg total t Hw Ht). pose proof (exact_parts_nonneg parts us Hws Hus).
  apply (residual_sum_spec _ _ _ us) in Hs; [| done | done | lia | lia].
  unfold d_minus. rewrite dround_exact; lia.
Qed.

Lemma exactResidual_exact_witness :
  @exactResidual Decimal20 (VStr "10") [VStr "3.33333333"; VNum (Num.Fin (Qmake 1 2))] = Ok 616666667 /\
  sumZ id [333333333; 50000000] + 616666667 = 1000000000.
Proof.
  split; [vm_compute; reflexivity |].
  apply (@exactResidual_exact Decimal20 (VStr "10") [VStr "3.33333333"; VNum (Num.Fin (Qmake 1 2))]).
  - exact I.
  - repeat constructor.
  - vm_compute. reflexivity.
  - vm_compute. reflexivity.
  - vm_compute. reflexivity.
  - vm_compute. reflexivity.
  - vm_compute. reflexivity.
Defined.

(** ** Witnesses *)

Lemma example_step : ledger_step (H:=Decimal20) (fun x => x) empty_ldb example_result.2.
Proof.
  eapply (step_post (H:=Decimal20) _ example_fund).
  - unfold params_wf, example_fund; simpl. repeat constructor.
  - vm_compute. reflexivity.
  - vm_compute. reflexivity.
  - vm_compute. reflexivity.
Qed.

Lemma example_reachable : rtc (ledger_step (H:=Decimal20) (fun x => x)) empty_ldb example_result.2.
Proof. apply rtc_once, example_step. Qed.

Lemma post_balanced_witness :
  exists r s', @post Decimal20 (fun x => x) example_transfer example_result.2 = Ok (r, s') /\ balanced "USDC" (p_entries r).
Proof.
  eexists _, _. split; [vm_compute; reflexivity |].
  eapply (post_balanced (H:=Decimal20) (fun x => x) example_transfer).
  - apply example_reachable.
  - unfold params_wf; simpl. repeat constructor.
  - vm_compute. reflexivity.
  - vm_compute. reflexivity.
  - vm_compute. reflexivity.
Defined.

Lemma ledger_reachable_invariant_witness : balanced "USDC" (linked_entries example_result.2) /\ length (entries example_result.2) = 3%nat.
Proof.
  split; [| vm_compute; reflexivity].
  exact (proj1 (ledger_reachable_invariant (H:=Decimal20) (fun x => x) _ example_reachable) "USDC"%string).
Defined.

Lemma post_key_permanent_witness :
  exists r s1, @post Decimal20 (fun x => x) example_transfer empty_ldb = Ok (r, s1) /\ replayed r = false /\
    @post Decimal20 (fun x => x) example_transfer_reordered s1 = Ok (PostResult (p_transaction r) (p_entries r) true, s1).
Proof.
  eexists _, _. split; [vm_compute; reflexivity |]. split; [reflexivity |].
  eapply (post_key_permanent (H:=Decimal20) (fun x => x) example_transfer _ _ _ empty_ldb _ _ example_transfer_reordered).
  - apply rtc_refl.
  - unfold params_wf; simpl. repeat constructor.
  - unfold params_wf; simpl. repeat constructor.
  - vm_compute. reflexivity.
  - vm_compute. reflexivity.
  - vm_compute. reflexivity.
  - reflexivity.
  - apply rtc_refl.
  - reflexivity.
  - vm_compute. reflexivity.
  - split; [reflexivity |]. split; [apply perm_swap | reflexivity].
Defined.

Definition example_lines : list nline :=
  [NLine "user:7:liability" 10050000000 0; NLine "escrow:escrow-e1:locked" 0 10000000000; NLine "revenue:fees" 0 50000000].

Lemma post_moves_balance_witness :
  signed CREDIT (line_movement "revenue:fees" example_lines) = 50000000 /\
  @accountBalance Decimal20 "revenue:fees" example_result.2 =
    Ok (0 + signed CREDIT (line_movement "revenue:fees" example_lines)).
Proof.
  split; [reflexivity |].
  eapply (post_moves_balance (H:=Decimal20) (fun x => x) example_fund example_lines None example_result.1 empty_ldb).
  - vm_compute. reflexivity.
  - vm_compute. reflexivity.
  - vm_compute. reflexivity.
  - vm_compute. reflexivity.
  - vm_compute. reflexivity.
  - vm_compute. reflexivity.
  - vm_compute. reflexivity.
Defined.
