(* ===== verification/Idempotency.v ===== *)
(** * The shared financial idempotency authority (middleware/idempotency.js)

    State: the FinancialOperation table and, per request, where it stands
    between two database calls.  Operations: the request identity
    ([endpointOf], [fingerprintOf]), the claim INSERT and what a duplicate is
    answered, the disposition of the claim when the handler responds, and
    [commitOperation].  Requests interleave at every database call; a crash is
    a request that takes no further step.

    Handlers are not modelled: they may commit one economic effect per
    execution, either in the transaction that commits the claim (wired) or
    not, and must honour the contract the middleware states for the
    dispositions that release a claim ([handler_contract]).

    A JSON body is represented by its wire text; [None] stands for a body that
    serializes to nothing. *)

From stdpp Require Import base gmap strings list relations.
From Stdlib Require Import ZArith Lia Ascii.
From S2P Require Import Prelude JsNumber ExactDecimal Json.

Local Open Scope Z_scope.

Inductive op_status : Type := IN_PROGRESS | COMMITTED.
Inductive failure_policy : Type := RETAIN | RELEASE.

#[export] Instance op_status_eq_dec : EqDecision op_status.
Proof. solve_decision. Defined.
#[export] Instance failure_policy_eq_dec : EqDecision failure_policy.
Proof. solve_decision. Defined.

(** ** Requests *)

(** The arguments of [idempotency(options)]. *)
Record options : Type := Options {
  opt_failurePolicy : option string;
  opt_required : option bool;
  opt_releaseOn4xx : option bool;
  opt_identity : option string;
}.

Definition failurePolicy (o : options) : failure_policy :=
  match opt_failurePolicy o with
  | Some p => if String.eqb p "RELEASE" then RELEASE else RETAIN
  | None => RETAIN
  end.
Definition required (o : options) : bool := match opt_required o with Some false => false | _ => true end.
Definition releaseOn4xx (o : options) : bool := match opt_releaseOn4xx o with Some true => true | _ => false end.
Definition identity (o : options) : option string :=
  match opt_identity o with
  | Some s => if (String.length (trim s) =? 0)%nat then None else Some (trim s)
  | None => None
  end.

Record request : Type := Request {
  method : string;
  baseUrl : string;
  routePath : option string;
  path : string;
  idempotency_key : option string;
  user : option Z;
  req_params : json;
  req_body : json;
  store_available : bool;
}.

Definition endpointOf (r : request) : string :=
  (method r +:+ " " +:+ baseUrl r +:+ match truthy (routePath r) with Some p => p | None => path r end)%string.

(** The object whose canonical text is hashed. *)
Definition payload (r : request) : json := JObj [("params", req_params r); ("body", req_body r)].

Definition fingerprintOf (sha256 : string -> string) (r : request) : string := sha256 (canonical (payload r)).

(** ** The table *)

Record op_row : Type := OpRow {
  op_id : nat;
  op_key : Z * string * string;
  op_stat : op_status;
  op_fingerprint : string;
  op_failurePolicy : failure_policy;
  op_statusCode : option Z;
  op_responseBody : option string;
}.

Definition table : Type := list op_row.

Definition find_op (k : Z * string * string) (t : table) : option op_row :=
  List.find (fun r => bool_decide (op_key r = k)) t.

(** INSERT under the unique constraint. *)
Definition create_claim (id : nat) (k : Z * string * string) (fp : string) (fpol : failure_policy) (t : table) : option table :=
  match find_op k t with
  | Some _ => None
  | None => Some (t ++ [OpRow id k IN_PROGRESS fp fpol None None])
  end.

Definition in_progress_row (id : nat) (r : op_row) : bool :=
  (op_id r =? id)%nat && bool_decide (op_stat r = IN_PROGRESS).

(** [deleteMany where id, status IN_PROGRESS]. *)
Definition releaseClaim (id : nat) (t : table) : table := List.filter (fun r => negb (in_progress_row id r)) t.

Definition commit_row (sc : Z) (body : option string) (r : op_row) : op_row :=
  OpRow (op_id r) (op_key r) COMMITTED (op_fingerprint r) (op_failurePolicy r) (Some sc) body.

(** [updateMany where id, status IN_PROGRESS] to COMMITTED. *)
Definition commit_claim (id : nat) (sc : Z) (body : option string) (t : table) : table :=
  map (fun r => if in_progress_row id r then commit_row sc body r else r) t.

(** [commitOperation]: a lost compare-and-set aborts the transaction. *)
Definition commitOperation (operation : option nat) (sc : Z) (body : option string) : M table unit :=
  match operation with
  | None => mret tt
  | Some id =>
      t ← get;
      let count := length (List.filter (in_progress_row id) t) in
      put (commit_claim id sc body t);;
      check (count =? 1)%nat "IDEMPOTENCY_STATE_CONFLICT"
  end.

(** ** Replies *)

Inductive reply : Type :=
| Refused (status : Z) (code : string) (operationId : option nat)
| Replayed (status : option Z) (body : option string)
| Answered (status : Z) (body : option string).

(** The checks before the claim. *)
Inductive admission : Type := Refuse (r : reply) | PassThrough | Claim (k : Z * string * string).

Definition admit_request (o : options) (r : request) : admission :=
  match truthy (idempotency_key r) with
  | None => if required o then Refuse (Refused 400 "IDEMPOTENCY_KEY_REQUIRED" None) else PassThrough
  | Some key =>
      match user r with
      | None => Refuse (Refused 401 "IDEMPOTENCY_CONTEXT_MISSING" None)
      | Some u =>
          if u =? 0 then Refuse (Refused 401 "IDEMPOTENCY_CONTEXT_MISSING" None)
          else if negb (store_available r) then Refuse (Refused 503 "IDEMPOTENCY_UNAVAILABLE" None)
          else Claim (u, match identity o with Some i => i | None => endpointOf r end, key)
      end
  end.

(** The unique key a request claims: user, endpoint, client key. *)
Definition op_key_of (o : options) (r : request) : option (Z * string * string) :=
  match admit_request o r with Claim k => Some k | _ => None end.

(** What the caller that lost the INSERT is answered. *)
Definition answer_duplicate (fingerprint : string) (existing : option op_row) : reply :=
  match existing with
  | None => Refused 503 "IDEMPOTENCY_UNAVAILABLE" None
  | Some e =>
      match op_stat e with
      | COMMITTED =>
          if String.eqb (op_fingerprint e) fingerprint
          then Replayed (op_statusCode e) (op_responseBody e)
          else Refused 409 "IDEMPOTENCY_PAYLOAD_CONFLICT" None
      | IN_PROGRESS => Refused 409 "IDEMPOTENCY_IN_PROGRESS" (Some (op_id e))
      end
  end.

(** What [res.json] does with the claim. *)
Inductive disposition : Type := ReleaseThenSend | SendThenCommit | SendOnly.

Definition dispose (o : options) (statusCode : Z) (financialClaimRelease : bool) : disposition :=
  if (400 <=? statusCode) && (statusCode <? 500) then
    if financialClaimRelease || releaseOn4xx o then ReleaseThenSend else SendOnly
  else if 500 <=? statusCode then
    match failurePolicy o with RELEASE => ReleaseThenSend | RETAIN => SendOnly end
  else if (200 <=? statusCode) && (statusCode <? 300) then SendThenCommit
  else SendOnly.

(** ** Interleaved requests *)

(** Where a request stands between two database calls. *)
Inductive phase : Type :=
| Arrived
| Duplicate (k : Z * string * string)
| Handling (claim : nat) (done : bool)
| Releasing (claim : nat) (r : reply)
| Booking (claim : nat) (status : Z) (body : option string)
| PassedThrough
| Finished (r : reply).

Record thread : Type := Thread {
  th_opts : options;
  th_req : request;
  th_wired : bool;
  th_phase : phase;
}.
Definition at_phase (p : phase) (t : thread) : thread := Thread (th_opts t) (th_req t) (th_wired t) p.

(** An economic effect committed by the handler that owns a claim. *)
Record effect : Type := Effect { e_claim : nat; e_key : Z * string * string }.

Record system : Type := System {
  ops : table;
  next_id : nat;
  effects : list effect;
  threads : list thread;
}.

Definition init_system : system := System [] 0 [] [].
Definition set_thread (i : nat) (t : thread) (s : system) : system :=
  System (ops s) (next_id s) (effects s) (<[i := t]> (threads s)).
Definition set_ops (t : table) (s : system) : system := System t (next_id s) (effects s) (threads s).

(** The middleware's conditions on a response: an explicit release marks a
    failure before any economics; [releaseOn4xx] is declared only on wired
    routes; a RELEASE route answers 5xx only when nothing was committed
    outside a wired transaction. *)
Definition handler_contract (o : options) (wired done : bool) (statusCode : Z) (release : bool) : Prop :=
  (release = true -> done = false) /\
  (releaseOn4xx o = true -> wired = true) /\
  (failurePolicy o = RELEASE -> 500 <= statusCode -> wired = true \/ done = false).

Section Steps.
Context (sha256 : string -> string).

(** A request's next move once it arrived; [inserted] is [None] when the
    database fails. *)
Definition claim_step (i : nat) (t : thread) (available : bool) (s : system) : system :=
  match admit_request (th_opts t) (th_req t) with
  | Refuse r => set_thread i (at_phase (Finished r) t) s
  | PassThrough => set_thread i (at_phase PassedThrough t) s
  | Claim k =>
      if negb available then set_thread i (at_phase (Finished (Refused 503 "IDEMPOTENCY_UNAVAILABLE" None)) t) s
      else match create_claim (next_id s) k (fingerprintOf sha256 (th_req t)) (failurePolicy (th_opts t)) (ops s) with
      | Some ops' =>
          System ops' (S (next_id s)) (effects s) (<[i := at_phase (Handling (next_id s) false) t]> (threads s))
      | None => set_thread i (at_phase (Duplicate k) t) s
      end
  end.

Definition read_step (i : nat) (t : thread) (k : Z * string * string) (available : bool) (s : system) : system :=
  let r := if available then answer_duplicate (fingerprintOf sha256 (th_req t)) (find_op k (ops s))
           else Refused 503 "IDEMPOTENCY_UNAVAILABLE" None in
  set_thread i (at_phase (Finished r) t) s.

(** The handler calls [res.json]. *)
Definition respond_step (i : nat) (t : thread) (claim : nat) (statusCode : Z) (body : option string) (release : bool)
    (s : system) : system :=
  set_thread i (at_phase (match dispose (th_opts t) statusCode release with
                          | ReleaseThenSend => Releasing claim (Answered statusCode body)
                          | SendThenCommit => Booking claim statusCode body
                          | SendOnly => Finished (Answered statusCode body)
                          end) t) s.

Inductive idem_step : system -> system -> Prop :=
| step_arrive t s :
    th_phase t = Arrived ->
    idem_step s (System (ops s) (next_id s) (effects s) (threads s ++ [t]))
| step_claim i t available s :
    threads s !! i = Some t -> th_phase t = Arrived ->
    idem_step s (claim_step i t available s)
| step_read i t k available s :
    threads s !! i = Some t -> th_phase t = Duplicate k ->
    idem_step s (read_step i t k available s)
| step_effect i t claim k s :
    (** an unwired handler commits its economics *)
    threads s !! i = Some t -> th_phase t = Handling claim false -> th_wired t = false ->
    op_key_of (th_opts t) (th_req t) = Some k ->
    idem_step s (System (ops s) (next_id s) (effects s ++ [Effect claim k])
                   (<[i := at_phase (Handling claim true) t]> (threads s)))
| step_wired i t claim k sc body ops' s :
    (** a wired handler commits its economics and the claim together *)
    threads s !! i = Some t -> th_phase t = Handling claim false -> th_wired t = true ->
    op_key_of (th_opts t) (th_req t) = Some k ->
    commitOperation (Some claim) sc body (ops s) = Ok (tt, ops') ->
    idem_step s (System ops' (next_id s) (effects s ++ [Effect claim k])
                   (<[i := at_phase (Handling claim true) t]> (threads s)))
| step_respond i t claim done sc body release s :
    threads s !! i = Some t -> th_phase t = Handling claim done ->
    handler_contract (th_opts t) (th_wired t) done sc release ->
    idem_step s (respond_step i t claim sc body release s)
| step_release i t claim r available s :
    threads s !! i = Some t -> th_phase t = Releasing claim r ->
    idem_step s (set_ops (if available : bool then releaseClaim claim (ops s) else ops s)
                   (set_thread i (at_phase (Finished r) t) s))
| step_book i t claim sc body available s :
    threads s !! i = Some t -> th_phase t = Booking claim sc body ->
    idem_step s (set_ops (if available : bool then commit_claim claim sc body (ops s) else ops s)
                   (set_thread i (at_phase (Finished (Answered sc body)) t) s)).
End Steps.
