(* ===== verification/IdempotencyProps.v ===== *)
(** * Exactly-once economics under the idempotency authority

    For every interleaving of requests, crashes and database failures: an
    identity (user, endpoint, key) carries at most one economic effect; a
    committed claim is permanent and answers every later request of its
    identity with the committed response or a conflict; two requests have the
    same fingerprint exactly when their payloads agree. *)

From stdpp Require Import base gmap strings list relations.
From Stdlib Require Import ZArith Lia Ascii.
From S2P Require Import Prelude JsNumber ExactDecimal Json Idempotency.

Local Open Scope Z_scope.

Definition owner (p : phase) : option nat :=
  match p with
  | Handling c _ | Releasing c _ | Booking c _ _ => Some c
  | _ => None
  end.

Definition row_of (c : nat) (t : table) (P : op_row -> Prop) : Prop := exists r, r ∈ t /\ op_id r = c /\ P r.
Definition has_effect (c : nat) (es : list effect) : Prop := c ∈ map e_claim es.

(** What the table and the effects say of a request's claim. *)
Definition thread_ok (rows : table) (es : list effect) (t : thread) : Prop :=
  match th_phase t with
  | Handling c false =>
      ~ has_effect c es /\
      row_of c rows (fun r => op_stat r = IN_PROGRESS /\ op_key_of (th_opts t) (th_req t) = Some (op_key r))
  | Handling c true => th_wired t = true -> row_of c rows (fun r => op_stat r = COMMITTED)
  | Releasing c _ => ~ has_effect c es \/ row_of c rows (fun r => op_stat r = COMMITTED)
  | _ => True
  end.

Record idem_inv (s : system) : Prop := {
  ii_ids : NoDup (map op_id (ops s));
  ii_keys : NoDup (map op_key (ops s));
  ii_fresh : forall r, r ∈ ops s -> (op_id r < next_id s)%nat;
  ii_effects : forall e, e ∈ effects s -> row_of (e_claim e) (ops s) (fun r => op_key r = e_key e);
  ii_once : NoDup (map e_claim (effects s));
  ii_owner : forall i t c, threads s !! i = Some t -> owner (th_phase t) = Some c -> (c < next_id s)%nat;
  ii_distinct : forall i j t u c, threads s !! i = Some t -> threads s !! j = Some u ->
                  owner (th_phase t) = Some c -> owner (th_phase u) = Some c -> i = j;
  ii_threads : forall i t, threads s !! i = Some t -> thread_ok (ops s) (effects s) t;
}.

(** ** Tables *)

Lemma commit_claim_id id sc body t : map op_id (commit_claim id sc body t) = map op_id t.
Proof. unfold commit_claim. rewrite map_map. apply map_ext. intros r. by destruct (in_progress_row id r). Qed.

Lemma commit_claim_key id sc body t : map op_key (commit_claim id sc body t) = map op_key t.
Proof. unfold commit_claim. rewrite map_map. apply map_ext. intros r. by destruct (in_progress_row id r). Qed.

Lemma commit_claim_elem id sc body t r :
  r ∈ commit_claim id sc body t <->
  exists r0, r0 ∈ t /\ r = if in_progress_row id r0 then commit_row sc body r0 else r0.
Proof.
  unfold commit_claim. rewrite list_elem_of_In, in_map_iff. split.
  - intros (r0 & <- & Hr). exists r0. by rewrite list_elem_of_In.
  - intros (r0 & Hr & ->). exists r0. by rewrite <- list_elem_of_In.
Qed.

Lemma release_elem id t r : r ∈ releaseClaim id t <-> r ∈ t /\ in_progress_row id r = false.
Proof.
  unfold releaseClaim. rewrite !list_elem_of_In, filter_In, negb_true_iff. done.
Qed.

Lemma filter_map_nodup {A B} (f : A -> B) (b : A -> bool) l : NoDup (map f l) -> NoDup (map f (List.filter b l)).
Proof.
  induction l as [| x l IH]; simpl; intros Hn; [done |]. apply NoDup_cons in Hn as [Hx Hn].
  destruct (b x); simpl; [| auto]. constructor; [| auto]. intros Hin. apply Hx.
  apply list_elem_of_In, in_map_iff in Hin as (y & <- & Hy). apply filter_In in Hy as [Hy _].
  by apply list_elem_of_fmap_2, list_elem_of_In.
Qed.

Lemma in_progress_row_true id r : in_progress_row id r = true <-> op_id r = id /\ op_stat r = IN_PROGRESS.
Proof. unfold in_progress_row. rewrite andb_true_iff, Nat.eqb_eq, bool_decide_eq_true. done. Qed.

Lemma in_progress_row_other id r : op_id r <> id -> in_progress_row id r = false.
Proof.
  intros Hne. destruct (in_progress_row id r) eqn:E; [| done]. by apply in_progress_row_true in E as [? _].
Qed.

Lemma find_op_Some k t r : find_op k t = Some r -> r ∈ t /\ op_key r = k.
Proof.
  intros Hf. apply find_some in Hf as [Hin Hk]. apply bool_decide_eq_true in Hk.
  by rewrite list_elem_of_In.
Qed.

Lemma find_op_None k t : find_op k t = None -> k ∉ map op_key t.
Proof.
  intros Hf Hin. apply list_elem_of_In, in_map_iff in Hin as (r & <- & Hr).
  eapply find_none in Hf; [| exact Hr]. by apply bool_decide_eq_false in Hf.
Qed.

Lemma find_op_elem t r : NoDup (map op_key t) -> r ∈ t -> find_op (op_key r) t = Some r.
Proof.
  intros Hn Hr. destruct (find_op (op_key r) t) as [r' |] eqn:Hf.
  - apply find_op_Some in Hf as [Hr' Hk]. f_equal. by eapply nodup_map_inj.
  - exfalso. apply (find_op_None _ _ Hf). by apply list_elem_of_fmap_2.
Qed.

Lemma commitOperation_Ok c sc body t u t' :
  commitOperation (Some c) sc body t = Ok (u, t') ->
  t' = commit_claim c sc body t /\ length (List.filter (in_progress_row c) t) = 1%nat.
Proof. unfold commitOperation. intros H. run_inv H. by apply Nat.eqb_eq in H. Qed.

(** ** Preservation *)

Lemma thread_ok_free rows es t : owner (th_phase t) = None -> thread_ok rows es t.
Proof. unfold thread_ok. by destruct (th_phase t) as [| | ? [] | | | |]. Qed.

(** A change confined to the claim [c] does not disturb the other requests. *)
Lemma thread_ok_frame c rows rows' es es' t :
  owner (th_phase t) <> Some c ->
  (forall r, op_id r <> c -> r ∈ rows -> r ∈ rows') ->
  (forall d, d <> c -> has_effect d es' -> has_effect d es) ->
  thread_ok rows es t -> thread_ok rows' es' t.
Proof.
  intros Ho Hr He. assert (Hrow : forall d P, d <> c -> row_of d rows P -> row_of d rows' P).
  { intros d P Hd (r & Hin & Hid & HP). exists r. split; [apply Hr; congruence | done]. }
  unfold thread_ok. destruct (th_phase t) as [| | d [] | d ? | | |]; simpl in Ho; try done.
  - intros H Hw. apply Hrow; [congruence | auto].
  - intros [Hn H]. split; [| apply Hrow; [congruence | done]]. intros Hd. apply Hn, He; [congruence | done].
  - intros [Hn | H]; [left | right; apply Hrow; [congruence | done]].
    intros Hd. apply Hn, He; [congruence | done].
Qed.

Lemma lookup_insert_cases {A} (l : list A) i j x y :
  <[i := x]> l !! j = Some y -> (j = i /\ y = x) \/ (j <> i /\ l !! j = Some y).
Proof.
  intros H. destruct (decide (j = i)) as [-> | Hne].
  - left. split; [done |]. pose proof (lookup_lt_Some _ _ _ H) as Hlt. rewrite length_insert in Hlt.
    rewrite list_lookup_insert_eq in H by done. congruence.
  - right. by rewrite list_lookup_insert_ne in H.
Qed.

Lemma inv_owned s i t t' c rows es :
  idem_inv s -> threads s !! i = Some t -> owner (th_phase t) = Some c ->
  owner (th_phase t') = Some c \/ owner (th_phase t') = None ->
  NoDup (map op_id rows) -> NoDup (map op_key rows) -> (forall r, r ∈ rows -> (op_id r < next_id s)%nat) ->
  (forall r, op_id r <> c -> r ∈ ops s -> r ∈ rows) ->
  (forall d, d <> c -> has_effect d es -> has_effect d (effects s)) ->
  (forall e, e ∈ es -> row_of (e_claim e) rows (fun r => op_key r = e_key e)) -> NoDup (map e_claim es) ->
  thread_ok rows es t' ->
  idem_inv (System rows (next_id s) es (<[i := t']> (threads s))).
Proof.
  intros [H1 H2 H3 H4 H5 H6 H7 H8] Hi Ho Ho' Hids Hkeys Hfresh Hrows Heff Heffs Honce Hok.
  split; simpl; try done.
  - intros j u d Hj Hu. apply lookup_insert_cases in Hj as [[-> ->] | [_ Hj]]; [| by eapply H6].
    destruct Ho' as [Ho' | Ho']; rewrite Hu in Ho'; [| done]. injection Ho' as ->. by eapply H6.
  - intros j k u v d Hj Hk Hu Hv.
    apply lookup_insert_cases in Hj as [[-> ->] | [Hji Hj]], Hk as [[-> ->] | [Hki Hk]]; try done.
    + destruct Ho' as [Ho' | Ho']; rewrite Hu in Ho'; [injection Ho' as -> | done]. by eapply H7.
    + destruct Ho' as [Ho' | Ho']; rewrite Hv in Ho'; [injection Ho' as -> | done]. by eapply H7.
    + by eapply H7.
  - intros j u Hj. apply lookup_insert_cases in Hj as [[-> ->] | [Hji Hj]]; [done |].
    apply (thread_ok_frame c (ops s) rows (effects s)); [| done | done | by eapply H8].
    intros Hu. apply Hji. by eapply H7.
Qed.

Lemma inv_free s i t t' :
  idem_inv s -> threads s !! i = Some t -> owner (th_phase t') = None -> idem_inv (set_thread i t' s).
Proof.
  intros [H1 H2 H3 H4 H5 H6 H7 H8] Hi Ho. split; simpl; try done.
  - intros j u d Hj Hu. apply lookup_insert_cases in Hj as [[-> ->] | [_ Hj]]; [congruence | by eapply H6].
  - intros j k u v d Hj Hk Hu Hv.
    apply lookup_insert_cases in Hj as [[-> ->] | [Hji Hj]], Hk as [[-> ->] | [Hki Hk]]; try congruence.
    by eapply H7.
  - intros j u Hj. apply lookup_insert_cases in Hj as [[-> ->] | [Hji Hj]]; [by apply thread_ok_free | by eapply H8].
Qed.

(** Rows survive a commit, with their id and key. *)
Lemma row_of_commit c id sc body t P :
  row_of c t P -> (forall r, P r -> P (commit_row sc body r)) -> row_of c (commit_claim id sc body t) P.
Proof.
  intros (r & Hr & Hid & HP) Hc. eexists. split; [apply commit_claim_elem; exists r; split; [exact Hr | reflexivity] |].
  destruct (in_progress_row id r); simpl; auto.
Qed.

Lemma row_committed c sc body t P :
  row_of c t P -> row_of c (commit_claim c sc body t) (fun r => op_stat r = COMMITTED).
Proof.
  intros (r & Hr & Hid & _). eexists. split; [apply commit_claim_elem; exists r; split; [exact Hr | reflexivity] |].
  destruct (in_progress_row c r) eqn:E; simpl; [done |]. split; [done |].
  destruct (op_stat r) eqn:Es; [| done]. exfalso. enough (in_progress_row c r = true) by congruence.
  by apply in_progress_row_true.
Qed.

Lemma commit_other c sc body t r : op_id r <> c -> r ∈ t -> r ∈ commit_claim c sc body t.
Proof. intros Hne Hr. apply commit_claim_elem. exists r. by rewrite in_progress_row_other. Qed.

Lemma commit_fresh c sc body t n :
  (forall r, r ∈ t -> (op_id r < n)%nat) -> forall r, r ∈ commit_claim c sc body t -> (op_id r < n)%nat.
Proof. intros Hf r Hr. apply commit_claim_elem in Hr as (r0 & Hr0 & ->). destruct (in_progress_row c r0); exact (Hf r0 Hr0). Qed.

Lemma has_effect_app d es c k : has_effect d (es ++ [Effect c k]) <-> has_effect d es \/ d = c.
Proof. unfold has_effect. rewrite map_app, elem_of_app. simpl. by rewrite list_elem_of_singleton. Qed.

Lemma once_app es c k : ~ has_effect c es -> NoDup (map e_claim es) -> NoDup (map e_claim (es ++ [Effect c k])).
Proof.
  intros Hn Ho. rewrite map_app. apply NoDup_app. split; [done |]. split; [| apply NoDup_singleton].
  intros d Hd. simpl. rewrite list_elem_of_singleton. by intros ->.
Qed.

(** A release is only reached when nothing was committed outside the claim. *)
Lemma release_safe o wired done sc release :
  handler_contract o wired done sc release -> dispose o sc release = ReleaseThenSend -> done = false \/ wired = true.
Proof.
  intros (H1 & H2 & H3) Hd. unfold dispose in Hd.
  destruct ((400 <=? sc) && (sc <? 500)).
  - destruct release; [left; by apply H1 |]. destruct (releaseOn4xx o); [right; by apply H2 | done].
  - destruct (Z.leb_spec 500 sc); [| by destruct ((200 <=? sc) && (sc <? 300))].
    destruct (failurePolicy o); [done |]. destruct H3 as [-> | ->]; auto.
Qed.

Section Preservation.
Context (sha256 : string -> string).

Lemma inv_claim i t available s :
  idem_inv s -> threads s !! i = Some t -> th_phase t = Arrived -> idem_inv (claim_step sha256 i t available s).
Proof.
  intros Hinv Hi Hp. unfold claim_step.
  destruct (admit_request (th_opts t) (th_req t)) as [r | | k] eqn:Hadm; [by eapply inv_free | by eapply inv_free |].
  destruct available; simpl; [| by eapply inv_free].
  unfold create_claim. destruct (find_op k (ops s)) as [r |] eqn:Hf; [by eapply inv_free |].
  pose proof (find_op_None _ _ Hf) as Hk. destruct Hinv as [H1 H2 H3 H4 H5 H6 H7 H8].
  assert (Hfresh : forall d P, row_of d (ops s) P -> (d < next_id s)%nat) by (intros d P (r & Hr & <- & _); auto).
  split; simpl.
  - rewrite map_app. apply NoDup_app. split; [done |]. split; [| apply NoDup_singleton].
    intros d Hd. simpl. rewrite list_elem_of_singleton. intros ->.
    apply list_elem_of_In, in_map_iff in Hd as (r & Hid & Hr). apply list_elem_of_In, H3 in Hr. lia.
  - rewrite map_app. apply NoDup_app. split; [done |]. split; [| apply NoDup_singleton].
    intros d Hd. simpl. rewrite list_elem_of_singleton. by intros ->.
  - intros r Hr. apply elem_of_app in Hr as [Hr | Hr]; [apply H3 in Hr; lia |].
    apply list_elem_of_singleton in Hr as ->. simpl. lia.
  - intros e He. destruct (H4 e He) as (r & Hr & Hid & HP). exists r. split; [apply elem_of_app; by left | done].
  - done.
  - intros j u d Hj Hu. apply lookup_insert_cases in Hj as [[-> ->] | [_ Hj]].
    + simpl in Hu. injection Hu as <-. lia.
    + pose proof (H6 j u d Hj Hu). lia.
  - intros j l u v d Hj Hl Hu Hv.
    apply lookup_insert_cases in Hj as [[-> ->] | [Hji Hj]], Hl as [[-> ->] | [Hli Hl]]; try done.
    + simpl in Hu. injection Hu as <-. pose proof (H6 l v _ Hl Hv). lia.
    + simpl in Hv. injection Hv as <-. pose proof (H6 j u _ Hj Hu). lia.
    + by eapply H7.
  - intros j u Hj. apply lookup_insert_cases in Hj as [[-> ->] | [Hji Hj]].
    + unfold thread_ok. simpl. split.
      * intros He. apply list_elem_of_In, in_map_iff in He as (e & He & Hin). apply list_elem_of_In, H4, Hfresh in Hin. lia.
      * eexists. split; [apply elem_of_app; right; by left |]. split; [done |]. split; [done |].
        unfold op_key_of. by rewrite Hadm.
    + apply (thread_ok_frame (next_id s) (ops s) _ (effects s)); [| | done | by eapply H8].
      * intros Hu. pose proof (H6 j u _ Hj Hu). lia.
      * intros r _ Hr. apply elem_of_app. by left.
Qed.

Lemma inv_effect i t c k s :
  idem_inv s -> threads s !! i = Some t -> th_phase t = Handling c false -> th_wired t = false ->
  op_key_of (th_opts t) (th_req t) = Some k ->
  idem_inv (System (ops s) (next_id s) (effects s ++ [Effect c k]) (<[i := at_phase (Handling c true) t]> (threads s))).
Proof.
  intros Hinv Hi Hp Hw Hk. pose proof (ii_threads s Hinv i t Hi) as Hok. unfold thread_ok in Hok. rewrite Hp in Hok.
  destruct Hok as [Hne (r & Hr & Hid & _ & Hkey)]. rewrite Hk in Hkey. injection Hkey as ->.
  eapply (inv_owned s i t _ c); try apply Hinv; try done; [by rewrite Hp | by left | | | |].
  - intros d Hd He. apply has_effect_app in He as [He | ->]; done.
  - intros e He. apply elem_of_app in He as [He | He]; [by apply Hinv |].
    apply list_elem_of_singleton in He as ->. simpl. by exists r.
  - apply once_app; [done | apply Hinv].
  - unfold thread_ok. simpl. rewrite Hw. done.
Qed.

Lemma inv_wired i t c k sc body s :
  idem_inv s -> threads s !! i = Some t -> th_phase t = Handling c false ->
  op_key_of (th_opts t) (th_req t) = Some k ->
  idem_inv (System (commit_claim c sc body (ops s)) (next_id s) (effects s ++ [Effect c k])
              (<[i := at_phase (Handling c true) t]> (threads s))).
Proof.
  intros Hinv Hi Hp Hk. pose proof (ii_threads s Hinv i t Hi) as Hok. unfold thread_ok in Hok. rewrite Hp in Hok.
  destruct Hok as [Hne Hrow].
  assert (Hrow' : row_of c (ops s) (fun r => op_key r = k)).
  { destruct Hrow as (r & Hr & Hid & _ & Hkey). exists r. rewrite Hk in Hkey. by injection Hkey as ->. }
  eapply (inv_owned s i t _ c); try done.
  - by rewrite Hp.
  - by left.
  - rewrite commit_claim_id. apply Hinv.
  - rewrite commit_claim_key. apply Hinv.
  - apply commit_fresh, Hinv.
  - intros r Hne' Hr. by apply commit_other.
  - intros d Hd He. apply has_effect_app in He as [He | ->]; done.
  - intros e He. apply elem_of_app in He as [He | He]; [by apply row_of_commit; [apply Hinv |] |].
    apply list_elem_of_singleton in He as ->. simpl. by apply row_of_commit.
  - apply once_app; [done | apply Hinv].
  - unfold thread_ok. simpl. intros _. by eapply row_committed.
Qed.

Lemma inv_respond i t c d sc body release s :
  idem_inv s -> threads s !! i = Some t -> th_phase t = Handling c d ->
  handler_contract (th_opts t) (th_wired t) d sc release -> idem_inv (respond_step i t c sc body release s).
Proof.
  intros Hinv Hi Hp Hc. pose proof (ii_threads s Hinv i t Hi) as Hok. unfold thread_ok in Hok. rewrite Hp in Hok.
  unfold respond_step, set_thread. eapply (inv_owned s i t _ c); try apply Hinv; try done.
  - by rewrite Hp.
  - destruct (dispose _ _ _); simpl; auto.
  - destruct (dispose (th_opts t) sc release) eqn:Hd; try done. unfold thread_ok. simpl.
    destruct (release_safe _ _ _ _ _ Hc Hd) as [-> | Hw]; [left; by destruct Hok |].
    destruct d; [right; auto | left; by destruct Hok].
Qed.

Lemma inv_release i t c r available s :
  idem_inv s -> threads s !! i = Some t -> th_phase t = Releasing c r ->
  idem_inv (set_ops (if available : bool then releaseClaim c (ops s) else ops s) (set_thread i (at_phase (Finished r) t) s)).
Proof.
  intros Hinv Hi Hp. pose proof (ii_threads s Hinv i t Hi) as Hok. unfold thread_ok in Hok. rewrite Hp in Hok.
  destruct available; [| by apply (inv_free s i t (at_phase (Finished _) t) Hinv Hi)].
  unfold set_ops, set_thread. simpl. eapply (inv_owned s i t _ c); try apply Hinv; try done.
  - by rewrite Hp.
  - by right.
  - apply filter_map_nodup, Hinv.
  - apply filter_map_nodup, Hinv.
  - intros r0 Hr. apply release_elem in Hr as [Hr _]. by apply Hinv.
  - intros r0 Hne Hr. apply release_elem. split; [done | by apply in_progress_row_other].
  - intros e He. destruct (ii_effects s Hinv e He) as (r0 & Hr & Hid & Hk). exists r0. split; [| done].
    apply release_elem. split; [done |]. destruct (in_progress_row c r0) eqn:E; [exfalso | done].
    apply in_progress_row_true in E as [Hc Hst]. destruct Hok as [Hn | (r1 & Hr1 & Hid1 & Hst1)].
    + apply Hn. rewrite <- Hc, Hid. by apply list_elem_of_fmap_2.
    + rewrite <- Hc in Hid1. pose proof (nodup_map_inj op_id _ r1 r0 (ii_ids s Hinv) Hr1 Hr Hid1). subst. congruence.
Qed.

Lemma inv_book i t c sc body available s :
  idem_inv s -> threads s !! i = Some t -> th_phase t = Booking c sc body ->
  idem_inv (set_ops (if available : bool then commit_claim c sc body (ops s) else ops s)
              (set_thread i (at_phase (Finished (Answered sc body)) t) s)).
Proof.
  intros Hinv Hi Hp. destruct available; [| by apply (inv_free s i t (at_phase (Finished _) t) Hinv Hi)].
  unfold set_ops, set_thread. simpl. eapply (inv_owned s i t _ c); try apply Hinv; try done.
  - by rewrite Hp.
  - by right.
  - rewrite commit_claim_id. apply Hinv.
  - rewrite commit_claim_key. apply Hinv.
  - apply commit_fresh, Hinv.
  - intros r Hne' Hr. by apply commit_other.
  - intros e He. apply row_of_commit; [by apply Hinv | done].
Qed.

Lemma inv_arrive t s :
  idem_inv s -> th_phase t = Arrived -> idem_inv (System (ops s) (next_id s) (effects s) (threads s ++ [t])).
Proof.
  intros [H1 H2 H3 H4 H5 H6 H7 H8] Hp.
  assert (Hcase : forall j u, (threads s ++ [t]) !! j = Some u -> threads s !! j = Some u \/ u = t).
  { intros j u Hj. apply lookup_app_Some in Hj as [Hj | [_ Hj]]; [by left |].
    apply list_lookup_singleton_Some in Hj as [_ ->]. by right. }
  split; simpl; try done.
  - intros j u c Hj Hu. apply Hcase in Hj as [Hj | ->]; [by eapply H6 | by rewrite Hp in Hu].
  - intros j k u v c Hj Hk Hu Hv. apply Hcase in Hj as [Hj | ->], Hk as [Hk | ->];
      try (rewrite Hp in Hu; done); try (rewrite Hp in Hv; done). by eapply H7.
  - intros j u Hj. apply Hcase in Hj as [Hj | ->]; [by eapply H8 | apply thread_ok_free; by rewrite Hp].
Qed.

Lemma inv_step s s' : idem_inv s -> idem_step sha256 s s' -> idem_inv s'.
Proof.
  intros Hinv Hs. destruct Hs as [t s Hp | i t a s Hi Hp | i t k a s Hi Hp | i t c k s Hi Hp Hw Hk
    | i t c k sc body ops' s Hi Hp Hw Hk Hc | i t c d sc body rel s Hi Hp Hc | i t c r a s Hi Hp | i t c sc body a s Hi Hp].
  - by apply inv_arrive.
  - by apply inv_claim.
  - by eapply inv_free.
  - by apply inv_effect.
  - apply commitOperation_Ok in Hc as [-> _]. by apply inv_wired.
  - by eapply inv_respond.
  - by eapply inv_release.
  - by eapply inv_book.
Qed.

Lemma inv_init : idem_inv init_system.
Proof. split; simpl; try done; try constructor; intros; try by apply not_elem_of_nil in H. Qed.

Lemma inv_reachable s : rtc (idem_step sha256) init_system s -> idem_inv s.
Proof.
  intros Hr. apply (rtc_ind_r (R := idem_step sha256) (fun s => idem_inv s) init_system); [apply inv_init | | done].
  intros s1 s2 _ Hs Hi. by eapply inv_step.
Qed.
End Preservation.

(** ** Permanence of a committed claim *)

Lemma committed_step sha256 s s' r :
  idem_step sha256 s s' -> r ∈ ops s -> op_stat r = COMMITTED -> r ∈ ops s'.
Proof.
  intros Hs Hr Hc. assert (Hnot : forall c, in_progress_row c r = false).
  { intros c. destruct (in_progress_row c r) eqn:E; [| done]. apply in_progress_row_true in E as [_ E]. congruence. }
  assert (Hcom : forall c sc body, r ∈ commit_claim c sc body (ops s)).
  { intros c sc body. apply commit_claim_elem. exists r. by rewrite Hnot. }
  destruct Hs as [t s Hp | i t a s Hi Hp | i t k a s Hi Hp | i t c k s Hi Hp Hw Hk
    | i t c k sc body ops' s Hi Hp Hw Hk Hcm | i t c d sc body rel s Hi Hp Hcm | i t c r' a s Hi Hp | i t c sc body a s Hi Hp]; simpl; try done.
  - unfold claim_step. repeat case_match; simpl; try done. unfold create_claim in *. case_match; simplify_eq.
    apply elem_of_app. by left.
  - apply commitOperation_Ok in Hcm as [-> _]. done.
  - destruct a; [apply release_elem; auto | done].
  - destruct a; done.
Qed.

Lemma committed_steps sha256 s s' r :
  rtc (idem_step sha256) s s' -> r ∈ ops s -> op_stat r = COMMITTED -> r ∈ ops s'.
Proof. induction 1; intros; [done |]. eauto using committed_step. Qed.

(** What a request of a committed identity is answered. *)
Definition committed_reply (fp : string) (r : op_row) : reply :=
  if String.eqb (op_fingerprint r) fp then Replayed (op_statusCode r) (op_responseBody r)
  else Refused 409 "IDEMPOTENCY_PAYLOAD_CONFLICT" None.

(** The phases a request of a committed identity can be in. *)
Definition settled (sha256 : string -> string) (r : op_row) (t : thread) : Prop :=
  op_key_of (th_opts t) (th_req t) = Some (op_key r) /\
  (th_phase t = Arrived \/ th_phase t = Duplicate (op_key r) \/
   th_phase t = Finished (Refused 503 "IDEMPOTENCY_UNAVAILABLE" None) \/
   th_phase t = Finished (committed_reply (fingerprintOf sha256 (th_req t)) r)).

Lemma admit_key o r k : op_key_of o r = Some k <-> admit_request o r = Claim k.
Proof. unfold op_key_of. destruct (admit_request o r); split; congruence. Qed.

Lemma answer_committed fp r : op_stat r = COMMITTED -> answer_duplicate fp (Some r) = committed_reply fp r.
Proof. unfold answer_duplicate, committed_reply. by intros ->. Qed.

Section Settled.
Context (sha256 : string -> string).

Lemma claim_settled i t a s r :
  idem_inv s -> r ∈ ops s -> op_key_of (th_opts t) (th_req t) = Some (op_key r) ->
  claim_step sha256 i t a s =
  set_thread i (at_phase (if a then Duplicate (op_key r) else Finished (Refused 503 "IDEMPOTENCY_UNAVAILABLE" None)) t) s.
Proof.
  intros Hinv Hr Hk. apply admit_key in Hk. unfold claim_step. rewrite Hk. destruct a; [| done]. simpl.
  unfold create_claim. by rewrite (find_op_elem _ _ (ii_keys s Hinv) Hr).
Qed.

Lemma read_settled i t a s r :
  idem_inv s -> r ∈ ops s -> op_stat r = COMMITTED ->
  read_step sha256 i t (op_key r) a s =
  set_thread i (at_phase (Finished (if a then committed_reply (fingerprintOf sha256 (th_req t)) r
                                    else Refused 503 "IDEMPOTENCY_UNAVAILABLE" None)) t) s.
Proof.
  intros Hinv Hr Hc. unfold read_step. rewrite (find_op_elem _ _ (ii_keys s Hinv) Hr).
  destruct a; [by rewrite answer_committed | done].
Qed.

Lemma settled_step s s' r i t :
  idem_inv s -> r ∈ ops s -> op_stat r = COMMITTED -> threads s !! i = Some t -> settled sha256 r t ->
  idem_step sha256 s s' ->
  exists t', threads s' !! i = Some t' /\ th_req t' = th_req t /\ settled sha256 r t'.
Proof.
  intros Hinv Hr Hc Hi Hset Hs. pose proof (lookup_lt_Some _ _ _ Hi) as Hlt.
  assert (Hkeep : forall j u rows n es, j <> i -> exists t', threads (System rows n es (<[j := u]> (threads s))) !! i = Some t' /\
    th_req t' = th_req t /\ settled sha256 r t').
  { intros j u rows n es Hj. exists t. simpl. by rewrite list_lookup_insert_ne. }
  assert (Hself : forall j u, threads s !! j = Some u -> j = i -> u = t) by (intros; congruence).
  destruct Hset as [Hk Hph].
  assert (Hforeign : forall j u, threads s !! j = Some u -> owner (th_phase u) <> None -> j <> i).
  { intros j u Hj Hu ->. apply Hu. rewrite (Hself _ _ Hj eq_refl). by destruct Hph as [-> | [-> | [-> | ->]]]. }
  destruct Hs as [u s Hp | j u a s Hj Hp | j u k a s Hj Hp | j u c k s Hj Hp Hw Hk'
    | j u c k sc body ops' s Hj Hp Hw Hk' Hcm | j u c d sc body rel s Hj Hp Hcm | j u c r' a s Hj Hp | j u c sc body a s Hj Hp].
  - exists t. simpl. split; [by apply lookup_app_l_Some |]. by repeat split.
  - destruct (decide (j = i)) as [-> | Hne].
    + pose proof (Hself _ _ Hj eq_refl) as ->. rewrite (claim_settled i t a s r Hinv Hr Hk). simpl.
      eexists. rewrite list_lookup_insert_eq by done. split; [done |]. split; [done |]. split; [done |].
      destruct a; simpl; auto.
    + unfold claim_step. repeat case_match; by apply Hkeep.
  - destruct (decide (j = i)) as [-> | Hne]; [| by apply Hkeep].
    pose proof (Hself _ _ Hj eq_refl) as ->. destruct Hph as [Hph | [Hph | [Hph | Hph]]]; rewrite Hp in Hph; try done.
    injection Hph as ->. rewrite (read_settled i t a s r Hinv Hr Hc). simpl.
    eexists. rewrite list_lookup_insert_eq by done. split; [done |]. split; [done |]. split; [done |].
    destruct a; simpl; auto.
  - apply Hkeep, (Hforeign _ _ Hj). by rewrite Hp.
  - apply Hkeep, (Hforeign _ _ Hj). by rewrite Hp.
  - apply Hkeep, (Hforeign _ _ Hj). by rewrite Hp.
  - apply Hkeep, (Hforeign _ _ Hj). by rewrite Hp.
  - apply Hkeep, (Hforeign _ _ Hj). by rewrite Hp.
Qed.

Lemma settled_steps s s' r i t :
  rtc (idem_step sha256) s s' -> idem_inv s -> r ∈ ops s -> op_stat r = COMMITTED ->
  threads s !! i = Some t -> settled sha256 r t ->
  exists t', threads s' !! i = Some t' /\ th_req t' = th_req t /\ settled sha256 r t'.
Proof.
  intros Hs. revert t. induction Hs as [s | s1 s2 s3 Hs1 _ IH]; intros t Hinv Hr Hc Hi Hset; [eauto |].
  destruct (settled_step s1 s2 r i t Hinv Hr Hc Hi Hset Hs1) as (t2 & Hi2 & Hreq & Hset2).
  destruct (IH t2 (inv_step _ _ _ Hinv Hs1) (committed_step _ _ _ _ Hs1 Hr Hc) Hc Hi2 Hset2) as (t3 & Hi3 & Hreq3 & Hset3).
  exists t3. split; [done |]. split; [congruence | done].
Qed.
End Settled.

(** ** Theorems *)

Section Theorems.
Context (sha256 : string -> string).

(** C4: in every interleaving of requests, handler executions, crashes and
    database failures, an identity (user, endpoint, key) carries at most one
    economic effect, provided handlers honour the release contract. *)
Theorem idempotency_exactly_once s :
  rtc (idem_step sha256) init_system s -> NoDup (map e_key (effects s)).
Proof.
  intros Hr. apply inv_reachable in Hr as [_ Hkeys _ Heff Honce _ _ _]. revert Heff Honce.
  induction (effects s) as [| e es IH]; intros Heff Honce; simpl; [constructor |].
  simpl in Honce. apply NoDup_cons in Honce as [Hne Honce].
  constructor; [| apply IH; [intros e' He'; apply Heff; by right | done]].
  intros Hin. apply Hne. apply list_elem_of_In, in_map_iff in Hin as (e' & Hk & He'). apply list_elem_of_In in He'.
  destruct (Heff e) as (r & Hr & <- & Hkr); [by left |].
  destruct (Heff e') as (r' & Hr' & Hid' & Hkr'); [by right |].
  rewrite <- Hk, <- Hkr' in Hkr. pose proof (nodup_map_inj op_key _ r r' Hkeys Hr Hr' Hkr) as ->.
  rewrite Hid'. by apply list_elem_of_fmap_2.
Qed.

(** A committed claim is permanent, and from then on a request of its
    identity never executes: at every later state it is waiting, was refused
    because the store failed, or was answered with the committed status and
    body (same fingerprint) or a payload conflict (another one); and two
    successful database calls bring it to that answer. *)
Theorem committed_claim_answers s r i t :
  rtc (idem_step sha256) init_system s -> r ∈ ops s -> op_stat r = COMMITTED ->
  threads s !! i = Some t -> th_phase t = Arrived -> op_key_of (th_opts t) (th_req t) = Some (op_key r) ->
  (forall s', rtc (idem_step sha256) s s' ->
     r ∈ ops s' /\ exists t', threads s' !! i = Some t' /\ th_req t' = th_req t /\ settled sha256 r t') /\
  (exists s', rtc (idem_step sha256) s s' /\
     th_phase <$> threads s' !! i = Some (Finished (committed_reply (fingerprintOf sha256 (th_req t)) r))).
Proof.
  intros Hreach Hr Hc Hi Hp Hk. apply inv_reachable in Hreach as Hinv.
  assert (Hset : settled sha256 r t) by (split; auto). split.
  { intros s' Hs. split; [by eapply committed_steps | by eapply settled_steps]. }
  pose proof (lookup_lt_Some _ _ _ Hi) as Hlt.
  set (s1 := set_thread i (at_phase (Duplicate (op_key r)) t) s).
  assert (H1 : idem_step sha256 s s1).
  { unfold s1. rewrite <- (claim_settled sha256 i t true s r Hinv Hr Hk). by apply step_claim. }
  set (t1 := at_phase (Duplicate (op_key r)) t).
  assert (Hi1 : threads s1 !! i = Some t1) by (by apply list_lookup_insert_eq).
  eexists. split; [eapply rtc_l; [exact H1 | apply rtc_once, (step_read _ i t1 (op_key r) true); done] |].
  rewrite (read_settled sha256 i t1 true s1 r (inv_step _ _ _ Hinv H1) Hr Hc). simpl.
  by rewrite list_lookup_insert_eq by (by rewrite length_insert).
Qed.

(** C37: two requests have the same fingerprint exactly when their params and
    bodies agree up to the order of object members (and null for absent
    values), unless SHA-256 collides on them. *)
Theorem fingerprint_identifies_payload a b :
  json_wf (payload a) -> json_wf (payload b) ->
  (norm (payload a) = norm (payload b) -> fingerprintOf sha256 a = fingerprintOf sha256 b) /\
  (fingerprintOf sha256 a = fingerprintOf sha256 b ->
     norm (payload a) = norm (payload b) \/
     (canonical (payload a) <> canonical (payload b) /\ sha256 (canonical (payload a)) = sha256 (canonical (payload b)))).
Proof.
  intros Ha Hb. pose proof (canonical_iff _ _ Ha Hb) as Hiff. unfold fingerprintOf. split.
  - intros Hn. f_equal. by apply Hiff.
  - intros He. destruct (decide (canonical (payload a) = canonical (payload b))) as [Heq | Hne]; [left; by apply Hiff | by right].
Qed.

(** A released key is not poisoned: once the handler's response releases
    the claim, the next request of the identity inserts a fresh claim and
    executes; a claim that is not released (RETAIN) keeps refusing it. *)
Theorem release_decides_reuse s i t j u c k r :
  rtc (idem_step sha256) init_system s -> threads s !! i = Some t -> th_phase t = Releasing c r ->
  row_of c (ops s) (fun row => op_stat row = IN_PROGRESS /\ op_key row = k) ->
  threads s !! j = Some u -> th_phase u = Arrived -> op_key_of (th_opts u) (th_req u) = Some k ->
  let freed := set_ops (releaseClaim c (ops s)) (set_thread i (at_phase (Finished r) t) s) in
  th_phase <$> threads (claim_step sha256 j u true freed) !! j = Some (Handling (next_id s) false) /\
  th_phase <$> threads (claim_step sha256 j u true s) !! j = Some (Duplicate k).
Proof.
  intros Hreach Hi Hp (row & Hrow & Hid & Hst & Hkey) Hj Hu Hk freed. apply inv_reachable in Hreach as Hinv.
  pose proof (lookup_lt_Some _ _ _ Hj) as Hlt. split.
  - apply admit_key in Hk. unfold claim_step. rewrite Hk. simpl. unfold create_claim.
    destruct (find_op k (releaseClaim c (ops s))) as [row' |] eqn:Hf.
    + exfalso. apply find_op_Some in Hf as [Hin Hk']. apply release_elem in Hin as [Hin Hnot].
      assert (row' = row) as -> by (eapply (nodup_map_inj op_key); [apply Hinv | done | done | congruence]).
      enough (in_progress_row c row = true) by congruence. by apply in_progress_row_true.
    + simpl. by rewrite list_lookup_insert_eq by (by rewrite length_insert).
  - subst k. rewrite (claim_settled sha256 j u true s row Hinv Hrow Hk). simpl. by rewrite list_lookup_insert_eq.
Qed.
End Theorems.

(** ** Witnesses: three requests race on one key *)

Definition ex_opts : options := Options None None (Some true) None.
Definition ex_request : request :=
  Request "POST" "/api/multi-currency" (Some "/convert") "/convert" (Some "k1") (Some 7)
    (JObj []) (JObj [("amount", JStr "50"); ("to", JStr "GHS")]) true.
Definition ex_request_reordered : request :=
  Request "POST" "/api/multi-currency" (Some "/convert") "/convert" (Some "k1") (Some 7)
    (JObj []) (JObj [("to", JStr "GHS"); ("amount", JStr "50")]) true.
Definition ex_thread : thread := Thread ex_opts ex_request true Arrived.
Definition ex_key : Z * string * string := (7, "POST /api/multi-currency/convert"%string, "k1"%string).
Definition ex_row : op_row :=
  OpRow 0 ex_key COMMITTED (canonical (payload ex_request)) RETAIN (Some 200) (Some "{}"%string).

(** Three requests arrived, the first claimed the key, the second lost. *)
Definition ex_claimed : system :=
  claim_step (fun x => x) 1 ex_thread true
    (claim_step (fun x => x) 0 ex_thread true (System [] 0 [] [ex_thread; ex_thread; ex_thread])).
(** The winner committed its economics with the claim. *)
Definition ex_committed : system :=
  System (commit_claim 0 200 (Some "{}"%string) (ops ex_claimed)) (next_id ex_claimed) (effects ex_claimed ++ [Effect 0 ex_key])
    (<[0%nat := at_phase (Handling 0 true) ex_thread]> (threads ex_claimed)).
(** Or it answered 400 and releases the claim. *)
Definition ex_releasing : system :=
  respond_step 0 (at_phase (Handling 0 false) ex_thread) 0 400 None false ex_claimed.

Lemma ex_claimed_reachable : rtc (idem_step (fun x => x)) init_system ex_claimed.
Proof.
  do 3 (eapply rtc_l; [by apply (step_arrive _ ex_thread) |]).
  eapply rtc_l; [by apply (step_claim _ 0 ex_thread true) |].
  eapply rtc_l; [by apply (step_claim _ 1 ex_thread true) |]. apply rtc_refl.
Qed.

Lemma ex_committed_reachable : rtc (idem_step (fun x => x)) init_system ex_committed.
Proof.
  eapply rtc_r; [apply ex_claimed_reachable |].
  by apply (step_wired _ 0 (at_phase (Handling 0 false) ex_thread) 0 ex_key 200 (Some "{}"%string)).
Qed.

Lemma ex_releasing_reachable : rtc (idem_step (fun x => x)) init_system ex_releasing.
Proof.
  eapply rtc_r; [apply ex_claimed_reachable |].
  by apply (step_respond _ 0 (at_phase (Handling 0 false) ex_thread) 0 false 400 None false).
Qed.

Lemma idempotency_exactly_once_witness :
  effects ex_committed = [Effect 0 ex_key] /\ NoDup (map e_key (effects ex_committed)).
Proof.
  split; [reflexivity |]. apply (idempotency_exactly_once (fun x => x)), ex_committed_reachable.
Defined.

Lemma committed_claim_answers_witness :
  exists s', rtc (idem_step (fun x => x)) ex_committed s' /\
    th_phase <$> threads s' !! 2%nat = Some (Finished (Replayed (Some 200) (Some "{}"%string))).
Proof.
  apply (committed_claim_answers (fun x => x) ex_committed ex_row 2 ex_thread).
  - apply ex_committed_reachable.
  - by left.
  - reflexivity.
  - reflexivity.
  - reflexivity.
  - reflexivity.
Defined.

Lemma fingerprint_identifies_payload_witness :
  fingerprintOf (fun x => x) ex_request = fingerprintOf (fun x => x) ex_request_reordered.
Proof.
  apply (fingerprint_identifies_payload (fun x => x) ex_request ex_request_reordered).
  - repeat (constructor; try set_solver).
  - repeat (constructor; try set_solver).
  - reflexivity.
Defined.

Lemma release_decides_reuse_witness :
  th_phase <$> threads (claim_step (fun x => x) 2 ex_thread true ex_releasing) !! 2%nat = Some (Duplicate ex_key).
Proof.
  apply (release_decides_reuse (fun x => x) ex_releasing 0
           (at_phase (Releasing 0 (Answered 400 None)) ex_thread) 2 ex_thread 0 ex_key (Answered 400 None)).
  - apply ex_releasing_reachable.
  - reflexivity.
  - reflexivity.
  - exists (OpRow 0 ex_key IN_PROGRESS (canonical (payload ex_request)) RETAIN None None).
    split; [by left |]. by repeat split.
  - reflexivity.
  - reflexivity.
  - reflexivity.
Defined.
