(* ===== verification/Restricted.v ===== *)
(** * Restricted obligations (services/restrictedObligationService.js)

    State: the RestrictedObligation table, in creation order, with its unique
    reference column; the ledger is read for the reclassification totals.
    Operations: [createForPendingWithdrawal], [releaseOnSettlement],
    [cancelOnReversal], [authoritativeTotals] and [findActiveForSource].  The
    free-form columns [domainStateRef] and [metadata] are not modelled.

    Theorems: an obligation settles exactly once, to RELEASED or CANCELLED and
    never both; the reserve denominator is the sum of the obligations still
    active and moves by exactly the amount created, released or cancelled; the
    ledger total of a family is the net of its linked lines. *)

From stdpp Require Import base gmap strings list relations.
From Stdlib Require Import ZArith Lia Ascii.
From S2P Require Import Prelude JsNumber ExactDecimal Json Ledger LedgerFacts LedgerProps.

Local Open Scope Z_scope.

Inductive obligation_status : Type := ACTIVE | RELEASED | CANCELLED.
Inductive inclusion_policy : Type := INCLUDED_IN_RESERVE_DENOMINATOR | EXCLUDED_FROM_RESERVE_DENOMINATOR.

#[export] Instance obligation_status_eq_dec : EqDecision obligation_status.
Proof. solve_decision. Defined.
#[export] Instance inclusion_policy_eq_dec : EqDecision inclusion_policy.
Proof. solve_decision. Defined.

Inductive representation : Type := RESTRICTED_OBLIGATION_ROW | LEDGER_RECLASSIFICATION (pattern : string -> bool).
Record family_def : Type := FamilyDef { authoritative : bool; repr : representation }.

Definition matches_user (suffix code : string) : bool :=
  match match_user suffix code with Some _ => true | None => false end.
Definition matches_escrow (code : string) : bool := match match_escrow code with Some _ => true | None => false end.

Definition SOURCE_FAMILIES : list (string * family_def) := [
  ("PENDING_FIAT_WITHDRAWAL", FamilyDef true RESTRICTED_OBLIGATION_ROW);
  ("PENDING_CRYPTO_WITHDRAWAL", FamilyDef true RESTRICTED_OBLIGATION_ROW);
  ("ESCROW_LOCK", FamilyDef true (LEDGER_RECLASSIFICATION matches_escrow));
  ("DISPUTE_ESCROW", FamilyDef true (LEDGER_RECLASSIFICATION (matches_user ":dispute")));
  ("VENDOR_UNALLOCATED", FamilyDef true (LEDGER_RECLASSIFICATION (matches_user ":unallocated")))
]%string.

Record obligation : Type := Obligation {
  ob_reference : string;
  ob_sourceType : string;
  ob_sourceEntity : option string;
  ob_sourceEntityId : option string;
  ob_userId : option Z;
  ob_asset : string;
  ob_network : option string;
  ob_amount : Z;
  ob_status : obligation_status;
  ob_policy : inclusion_policy;
  ob_ledgerTransactionId : option string;
  ob_releaseLedgerTransactionId : option string;
  ob_releasedAt : option Z;
}.

Definition obligations : Type := list obligation.

Definition find_reference (r : string) (t : obligations) : option obligation :=
  List.find (fun o => String.eqb (ob_reference o) r) t.

Definition assertKnownSource (sourceType : string) : res unit :=
  match assoc sourceType SOURCE_FAMILIES with Some _ => Ok tt | None => Err "unknown source family" end.

Record create_params : Type := CreateParams {
  c_sourceType : string;
  c_reference : string;
  c_userId : option Z;
  c_amount : jsval;
  c_asset : string;
  c_network : option string;
  c_sourceEntity : option string;
  c_sourceEntityId : option string;
  c_ledgerTransactionId : option string;
}.

(** INSERT; [reference] is unique and [amount] is Decimal(20,8). *)
Definition insert_obligation (o : obligation) : M obligations obligation :=
  t ← get;
  check (match find_reference (ob_reference o) t with None => true | _ => false end) "P2002";;
  check (ob_amount o <? DECIMAL_20_8_LIMIT) "NUMERIC_OVERFLOW";;
  put (t ++ [o]);;
  mret o.

(** Returns the obligation and [isNew]. *)
Definition createForPendingWithdrawal (p : create_params) : M obligations (obligation * bool) :=
  lift (assertKnownSource (c_sourceType p));;
  amountExact ← lift (toExactDecimal (c_amount p));
  check (negb (amountExact =? 0)) "zero-value obligation rejected";;
  existing ← reads (find_reference (c_reference p));
  match existing with
  | Some e =>
      check (bool_decide (ob_status e = ACTIVE) && (ob_amount e =? amountExact)) "already exists with conflicting state";;
      mret (e, false)
  | None =>
      o ← insert_obligation (Obligation (c_reference p) (c_sourceType p) (c_sourceEntity p) (c_sourceEntityId p)
             (c_userId p) (c_asset p) (c_network p) amountExact ACTIVE INCLUDED_IN_RESERVE_DENOMINATOR
             (c_ledgerTransactionId p) None None);
      mret (o, true)
  end.

(** [updateMany where reference, status ACTIVE]. *)
Definition is_claimable (r : string) (o : obligation) : bool :=
  String.eqb (ob_reference o) r && bool_decide (ob_status o = ACTIVE).

Definition settle_row (st : obligation_status) (rel : option string) (now : Z) (o : obligation) : obligation :=
  Obligation (ob_reference o) (ob_sourceType o) (ob_sourceEntity o) (ob_sourceEntityId o) (ob_userId o)
    (ob_asset o) (ob_network o) (ob_amount o) st (ob_policy o) (ob_ledgerTransactionId o) rel (Some now).

Definition claim_settlement (r : string) (st : obligation_status) (rel : option string) (now : Z) : M obligations nat :=
  t ← get;
  put (map (fun o => if is_claimable r o then settle_row st rel now o else o) t);;
  mret (length (List.filter (is_claimable r) t)).

(** An already settled reference is a success only in the same status. *)
Definition already_settled (r : string) (st : obligation_status) : M obligations bool :=
  existing ← reads (find_reference r);
  match existing with
  | None => throw "unknown reference"
  | Some e => check (bool_decide (ob_status e = st)) "cannot settle in status";; mret false
  end.

(** Returns [released]; [false] means already released. *)
Definition releaseOnSettlement (r : string) (rel : option string) (settledAmount : jsval) (now : Z) : M obligations bool :=
  count ← claim_settlement r RELEASED rel now;
  if (count =? 1)%nat then
    match settledAmount with
    | VUndefined | VNull => mret true
    | v =>
        row ← reads (find_reference r);
        settled ← lift (toExactDecimal v);
        match row with
        | Some o => check (ob_amount o =? settled) "settled amount != reserved";; mret true
        | None => throw "TypeError"
        end
    end
  else already_settled r RELEASED.

Definition cancelOnReversal (r : string) (rel : option string) (now : Z) : M obligations bool :=
  count ← claim_settlement r CANCELLED rel now;
  if (count =? 1)%nat then mret true else already_settled r CANCELLED.

(** ** Totals *)

(** Column sums by account, [groupBy] in first-occurrence order. *)
Definition add_group (a : string) (d c : Z) : list (string * (Z * Z)) -> list (string * (Z * Z)) :=
  fix go (m : list (string * (Z * Z))) :=
    match m with
    | [] => [(a, (d, c))]
    | (a', (d', c')) :: m' => if String.eqb a a' then (a', (d' + d, c' + c)) :: m' else (a', (d', c')) :: go m'
    end.

Definition account_groups (s : ldb) : list (string * (Z * Z)) :=
  foldl (fun m e => add_group (je_account e) (je_debit e) (je_credit e) m) [] (linked_entries s).

Section Totals.
Context `{DecimalLib}.

Definition _ledgerReclassificationTotal (pattern : string -> bool) (s : ldb) : Z :=
  foldl (fun total g => if pattern g.1 then d_plus total (d_minus g.2.2 g.2.1) else total) 0 (account_groups s).

Definition is_active (asset : string) (o : obligation) : bool :=
  bool_decide (ob_status o = ACTIVE) && String.eqb (ob_asset o) asset.
Definition in_denominator (asset : string) (o : obligation) : bool :=
  is_active asset o && bool_decide (ob_policy o = INCLUDED_IN_RESERVE_DENOMINATOR).

Record family_total : Type := FamilyTotal {
  f_authoritative : bool;
  f_activeTotal : Z;
  f_ledgerReclassificationTotal : option Z;
  f_includedInDenominator : bool;
}.
Record totals : Type := Totals { t_total : Z; t_complete : bool; t_families : list (string * family_total) }.

Definition family_totals (asset : string) (t : obligations) (s : ldb) (fd : string * family_def) : string * family_total :=
  let activeTotal := sumZ ob_amount (List.filter (fun o => is_active asset o && String.eqb (ob_sourceType o) fd.1) t) in
  match repr fd.2 with
  | LEDGER_RECLASSIFICATION pattern =>
      (fd.1, FamilyTotal (authoritative fd.2) activeTotal
               (if authoritative fd.2 then Some (_ledgerReclassificationTotal pattern s) else None) false)
  | RESTRICTED_OBLIGATION_ROW => (fd.1, FamilyTotal (authoritative fd.2) activeTotal None true)
  end.

Definition authoritativeTotals (asset : string) (t : obligations) (s : ldb) : totals :=
  Totals (sumZ ob_amount (List.filter (in_denominator asset) t))
    (forallb (fun fd => authoritative fd.2) SOURCE_FAMILIES)
    (map (family_totals asset t s) SOURCE_FAMILIES).
End Totals.

(** The oldest active obligation of a source entity; the legacy alias applies
    to withdrawals only. *)
Definition findActiveForSource (sourceEntity : string) (sourceEntityId : option string) (t : obligations) : option obligation :=
  match sourceEntityId with
  | None => None
  | Some id =>
      List.find (fun o => bool_decide (ob_status o = ACTIVE) &&
        ((bool_decide (ob_sourceEntity o = Some sourceEntity) && bool_decide (ob_sourceEntityId o = Some id))
         || (String.eqb sourceEntity "withdrawal" && String.eqb (ob_reference o) ("withdrawal:wallet:" +:+ id)%string))) t
  end.

(** The calls other components make, each in its own transaction. *)
Inductive restricted_step : obligations -> obligations -> Prop :=
| step_create p r t t' : jsval_wf (c_amount p) -> createForPendingWithdrawal p t = Ok (r, t') -> restricted_step t t'
| step_released r rel v now b t t' : releaseOnSettlement r rel v now t = Ok (b, t') -> restricted_step t t'
| step_cancelled r rel now b t t' : cancelOnReversal r rel now t = Ok (b, t') -> restricted_step t t'.
