(* ===== verification/RestrictedProps.v ===== *)
(** * Properties of the restricted obligations

    Exactly-once settlement, the movement of the reserve denominator and the
    exactness of the ledger reclassification totals. *)

From stdpp Require Import base gmap strings list relations.
From Stdlib Require Import ZArith Lia Ascii.
From S2P Require Import Prelude JsNumber ExactDecimal Json Ledger LedgerFacts LedgerProps Restricted.

Local Open Scope Z_scope.

Record ob_inv (t : obligations) : Prop := {
  oi_refs : NoDup (map ob_reference t);
  oi_amounts : forall o, o ∈ t -> 0 < ob_amount o < DECIMAL_20_8_LIMIT;
}.

(** ** Lookup by reference *)

Lemma find_reference_Some r t o : find_reference r t = Some o -> o ∈ t /\ ob_reference o = r.
Proof.
  intros Hf. apply find_some in Hf as [Hin Hk]. apply String.eqb_eq in Hk. by rewrite list_elem_of_In.
Qed.

Lemma find_reference_None r t : find_reference r t = None -> r ∉ map ob_reference t.
Proof.
  intros Hf Hin. apply list_elem_of_In, in_map_iff in Hin as (o & <- & Ho).
  eapply find_none in Hf; [| exact Ho]. simpl in Hf. by rewrite String.eqb_refl in Hf.
Qed.

(** ** Settlement of a unique reference *)

Definition settle_all (r : string) (st : obligation_status) (rel : option string) (now : Z) (t : obligations) : obligations :=
  map (fun o => if is_claimable r o then settle_row st rel now o else o) t.

Lemma claimable_iff r o : is_claimable r o = true <-> ob_reference o = r /\ ob_status o = ACTIVE.
Proof. unfold is_claimable. rewrite andb_true_iff, String.eqb_eq, bool_decide_eq_true. done. Qed.

Lemma settle_all_refs r st rel now t : map ob_reference (settle_all r st rel now t) = map ob_reference t.
Proof. unfold settle_all. rewrite map_map. apply map_ext. intros o. by destruct (is_claimable r o). Qed.

Lemma settle_all_elem r st rel now t o :
  o ∈ settle_all r st rel now t <-> exists o0, o0 ∈ t /\ o = if is_claimable r o0 then settle_row st rel now o0 else o0.
Proof.
  unfold settle_all. rewrite list_elem_of_In, in_map_iff. split.
  - intros (o0 & <- & Ho). exists o0. by rewrite list_elem_of_In.
  - intros (o0 & Ho & ->). exists o0. by rewrite <- list_elem_of_In.
Qed.

(** Without a claimable row nothing changes. *)
Lemma settle_all_none r st rel now t : List.filter (is_claimable r) t = [] -> settle_all r st rel now t = t.
Proof.
  induction t as [| o t IH]; simpl; [done |]. destruct (is_claimable r o); [done |]. intros Hf. by rewrite IH.
Qed.

(** At most one row carries a reference. *)
Lemma claimable_count r t :
  NoDup (map ob_reference t) ->
  List.filter (is_claimable r) t = [] \/ exists o, List.filter (is_claimable r) t = [o] /\ o ∈ t /\ is_claimable r o = true.
Proof.
  induction t as [| o t IH]; simpl; intros Hn; [by left |]. apply NoDup_cons in Hn as [Ho Hn].
  destruct (is_claimable r o) eqn:Hc.
  - right. exists o. split; [| split; [by left | done]]. f_equal. apply filter_none. intros o' Ho'.
    destruct (is_claimable r o') eqn:Hc'; [| done]. exfalso.
    apply claimable_iff in Hc as [Hr _], Hc' as [Hr' _]. apply Ho. rewrite Hr, <- Hr'. by apply list_elem_of_fmap_2.
  - destruct (IH Hn) as [Hf | (o' & Hf & Hin & Hc')]; [by left | right]. exists o'. split; [done |]. split; [by right | done].
Qed.

(** The outcomes of a settlement call that returns. *)
Inductive settled_to (st : obligation_status) (r : string) (t : obligations) : bool -> obligations -> Prop :=
| settled_now o rel now :
    o ∈ t -> ob_reference o = r -> ob_status o = ACTIVE ->
    settled_to st r t true (settle_all r st rel now t)
| settled_before o :
    find_reference r t = Some o -> ob_status o = st ->
    settled_to st r t false t.

Lemma already_settled_Ok r st t b t' :
  already_settled r st t = Ok (b, t') ->
  b = false /\ t' = t /\ exists o, find_reference r t = Some o /\ ob_status o = st.
Proof.
  unfold already_settled. intros H. apply Mbind_Ok in H as (e & s1 & He & H). apply reads_Ok in He as [-> ->].
  destruct (find_reference r t) as [o |] eqn:Hf; [| by apply throw_Ok in H].
  run_inv H. apply bool_decide_eq_true in Hrun. eauto.
Qed.

Lemma claim_settlement_Ok r st rel now t n t' :
  claim_settlement r st rel now t = Ok (n, t') ->
  n = length (List.filter (is_claimable r) t) /\ t' = settle_all r st rel now t.
Proof. unfold claim_settlement. intros H. by run_inv H. Qed.

Lemma settle_find r st rel now t o :
  NoDup (map ob_reference t) -> find_reference r (settle_all r st rel now t) = Some o ->
  exists o0, o0 ∈ t /\ ob_reference o0 = r /\ ob_amount o0 = ob_amount o.
Proof.
  intros Hn Hf. apply find_reference_Some in Hf as [Hin Hr]. apply settle_all_elem in Hin as (o0 & Ho0 & ->).
  exists o0. destruct (is_claimable r o0); by repeat split.
Qed.

Lemma unsettled_reference r t : NoDup (map ob_reference t) ->
  length (List.filter (is_claimable r) t) <> 1%nat -> List.filter (is_claimable r) t = [].
Proof. intros Hn Hl. destruct (claimable_count r t Hn) as [? | (o & Hf & _)]; [done |]. by rewrite Hf in Hl. Qed.

Lemma settle_claimed r t :
  NoDup (map ob_reference t) -> length (List.filter (is_claimable r) t) = 1%nat ->
  exists o, o ∈ t /\ ob_reference o = r /\ ob_status o = ACTIVE.
Proof.
  intros Hn Hl. destruct (claimable_count r t Hn) as [Hf | (o & _ & Hin & Hc)]; [by rewrite Hf in Hl |].
  apply claimable_iff in Hc as [? ?]. eauto.
Qed.

Lemma release_inv r rel v now t b t' :
  NoDup (map ob_reference t) -> releaseOnSettlement r rel v now t = Ok (b, t') -> settled_to RELEASED r t b t'.
Proof.
  intros Hn H. unfold releaseOnSettlement in H. apply Mbind_Ok in H as (n & t1 & Hc & H).
  apply claim_settlement_Ok in Hc as [-> ->].
  destruct (Nat.eqb_spec (length (List.filter (is_claimable r) t)) 1) as [Hl | Hl].
  - destruct (settle_claimed r t Hn Hl) as (o & Ho & Hr & Hs).
    assert (b = true /\ t' = settle_all r RELEASED rel now t) as [-> ->]; [| by eapply settled_now].
    destruct v; try (run_inv H; done); apply Mbind_Ok in H as (row & t2 & Hrow & H); apply reads_Ok in Hrow as [-> ->];
      apply Mbind_Ok in H as (u & t3 & Hu & H); apply lift_Ok in Hu as [_ ->];
      destruct (find_reference r _); try (by apply throw_Ok in H); run_inv H; done.
  - rewrite settle_all_none in H by (by eapply unsettled_reference).
    apply already_settled_Ok in H as (-> & -> & o & Hf & Hs). by eapply settled_before.
Qed.

Lemma cancel_inv r rel now t b t' :
  NoDup (map ob_reference t) -> cancelOnReversal r rel now t = Ok (b, t') -> settled_to CANCELLED r t b t'.
Proof.
  intros Hn H. unfold cancelOnReversal in H. apply Mbind_Ok in H as (n & t1 & Hc & H).
  apply claim_settlement_Ok in Hc as [-> ->].
  destruct (Nat.eqb_spec (length (List.filter (is_claimable r) t)) 1) as [Hl | Hl].
  - destruct (settle_claimed r t Hn Hl) as (o & Ho & Hr & Hs). run_inv H. by eapply settled_now.
  - rewrite settle_all_none in H by (by eapply unsettled_reference).
    apply already_settled_Ok in H as (-> & -> & o & Hf & Hs). by eapply settled_before.
Qed.

(** The outcomes of a creation that returns. *)
Inductive created (p : create_params) (t : obligations) : obligation * bool -> obligations -> Prop :=
| created_new o :
    find_reference (c_reference p) t = None -> toExactDecimal (c_amount p) = Ok (ob_amount o) ->
    ob_amount o <> 0 -> ob_amount o < DECIMAL_20_8_LIMIT ->
    ob_reference o = c_reference p -> ob_asset o = c_asset p -> ob_status o = ACTIVE ->
    ob_policy o = INCLUDED_IN_RESERVE_DENOMINATOR ->
    created p t (o, true) (t ++ [o])
| created_before o :
    find_reference (c_reference p) t = Some o -> ob_status o = ACTIVE -> toExactDecimal (c_amount p) = Ok (ob_amount o) ->
    created p t (o, false) t.

Lemma create_inv p t r t' : createForPendingWithdrawal p t = Ok (r, t') -> created p t r t'.
Proof.
  unfold createForPendingWithdrawal, insert_obligation. intros H.
  apply Mbind_Ok in H as (u & t1 & Hu & H). apply lift_Ok in Hu as [_ ->].
  apply Mbind_Ok in H as (a & t1 & Ha & H). apply lift_Ok in Ha as [Ha ->].
  apply Mbind_Ok in H as (u' & t1 & Hz & H). apply check_Ok in Hz as [Hz ->]. apply negb_true_iff, Z.eqb_neq in Hz.
  apply Mbind_Ok in H as (e & t1 & He & H). apply reads_Ok in He as [-> ->].
  destruct (find_reference (c_reference p) t) as [o |] eqn:Hf.
  - run_inv H. apply andb_true_iff in Hrun as [Hs Ham]. apply bool_decide_eq_true in Hs. apply Z.eqb_eq in Ham as <-.
    by apply created_before.
  - run_inv H. apply Z.ltb_lt in Hrun1. by apply created_new.
Qed.

(** ** Invariant and history *)

(** [o'] is [o], or [o] settled once. *)
Definition evolves (o o' : obligation) : Prop :=
  ob_reference o' = ob_reference o /\ ob_amount o' = ob_amount o /\ ob_asset o' = ob_asset o /\
  ob_sourceType o' = ob_sourceType o /\ ob_userId o' = ob_userId o /\ (ob_status o <> ACTIVE -> o' = o).

Lemma evolves_refl o : evolves o o.
Proof. by repeat split. Qed.

Lemma evolves_settle r st rel now t o :
  o ∈ t -> exists o', o' ∈ settle_all r st rel now t /\ evolves o o'.
Proof.
  intros Ho. eexists. split; [apply settle_all_elem; exists o; split; [exact Ho | reflexivity] |].
  destruct (is_claimable r o) eqn:Hc; [| apply evolves_refl]. apply claimable_iff in Hc as [_ Hs].
  repeat split; try done.
Qed.

Lemma settled_to_inv st r t b t' :
  settled_to st r t b t' -> ob_inv t -> ob_inv t' /\ forall o, o ∈ t -> exists o', o' ∈ t' /\ evolves o o'.
Proof.
  intros [o rel now Ho Hr Hs | o Hf Hs] [Hn Ha]; [| split; [by split |]; eauto using evolves_refl].
  split; [split |].
  - by rewrite settle_all_refs.
  - intros o' Ho'. apply settle_all_elem in Ho' as (o0 & Ho0 & ->). destruct (is_claimable r o0); exact (Ha o0 Ho0).
  - intros o' Ho'. by apply evolves_settle.
Qed.

Lemma created_inv p t r t' :
  jsval_wf (c_amount p) -> created p t r t' -> ob_inv t ->
  ob_inv t' /\ forall o, o ∈ t -> exists o', o' ∈ t' /\ evolves o o'.
Proof.
  intros Hw [o Hf Ha Hnz Hlim Hr _ _ _ | o Hf Hs Ha] [Hn Hams]; [| split; [by split |]; eauto using evolves_refl].
  apply find_reference_None in Hf. pose proof (toExactDecimal_nonneg _ _ Hw Ha).
  split; [split |].
  - rewrite map_app. apply NoDup_app. split; [done |]. split; [| apply NoDup_singleton].
    intros x Hx. simpl. rewrite list_elem_of_singleton, Hr. by intros ->.
  - intros o' Ho'. apply elem_of_app in Ho' as [Ho' | Ho']; [by apply Hams |].
    apply list_elem_of_singleton in Ho' as ->. lia.
  - intros o' Ho'. exists o'. split; [apply elem_of_app; by left | apply evolves_refl].
Qed.

Lemma restricted_step_inv t t' :
  restricted_step t t' -> ob_inv t -> ob_inv t' /\ forall o, o ∈ t -> exists o', o' ∈ t' /\ evolves o o'.
Proof.
  intros [p r t1 t1' Hw Hc | r rel v now b t1 t1' Hc | r rel now b t1 t1' Hc] Hinv.
  - apply create_inv in Hc. by eapply created_inv.
  - apply release_inv in Hc; [| apply Hinv]. by eapply settled_to_inv.
  - apply cancel_inv in Hc; [| apply Hinv]. by eapply settled_to_inv.
Qed.

Lemma evolves_trans o1 o2 o3 : evolves o1 o2 -> evolves o2 o3 -> evolves o1 o3.
Proof.
  intros (H1 & H2 & H3 & H4 & H5 & H6) (K1 & K2 & K3 & K4 & K5 & K6).
  repeat split; try congruence. intros Hs. specialize (H6 Hs) as ->. auto.
Qed.

Lemma restricted_steps_inv t t' :
  rtc restricted_step t t' -> ob_inv t -> ob_inv t' /\ forall o, o ∈ t -> exists o', o' ∈ t' /\ evolves o o'.
Proof.
  induction 1 as [t | t1 t2 t3 Hs _ IH]; intros Hinv; [split; [done |]; eauto using evolves_refl |].
  destruct (restricted_step_inv t1 t2 Hs Hinv) as [Hinv2 He2]. destruct (IH Hinv2) as [Hinv3 He3].
  split; [done |]. intros o Ho. destruct (He2 o Ho) as (o2 & Ho2 & Ev2). destruct (He3 o2 Ho2) as (o3 & Ho3 & Ev3).
  exists o3. split; [done |]. by eapply evolves_trans.
Qed.

Lemma ob_inv_nil : ob_inv [].
Proof. split; [constructor |]. intros o Ho. by apply not_elem_of_nil in Ho. Qed.

(** A settled row keeps its reference for ever. *)
Lemma settled_kept t t' o :
  rtc restricted_step t t' -> ob_inv t -> o ∈ t -> ob_status o <> ACTIVE ->
  ob_inv t' /\ find_reference (ob_reference o) t' = Some o.
Proof.
  intros Hr Hinv Ho Hs. destruct (restricted_steps_inv t t' Hr Hinv) as [Hinv' He]. split; [done |].
  destruct (He o Ho) as (o' & Ho' & Ev). assert (o' = o) as -> by (by apply Ev).
  destruct (find_reference (ob_reference o) t') as [o2 |] eqn:Hf.
  - apply find_reference_Some in Hf as [Ho2 Hr2]. f_equal. by eapply (nodup_map_inj ob_reference); [apply Hinv' | ..].
  - exfalso. apply (find_reference_None _ _ Hf). by apply list_elem_of_fmap_2.
Qed.

(** ** The denominator *)

Definition denominator (asset : string) (t : obligations) : Z := sumZ ob_amount (List.filter (in_denominator asset) t).
Definition share (asset : string) (o : obligation) : Z := if in_denominator asset o then ob_amount o else 0.

Lemma denominator_share asset t : denominator asset t = sumZ (share asset) t.
Proof. apply sum_filter. Qed.

Lemma share_settled asset st rel now o : st <> ACTIVE -> share asset (settle_row st rel now o) = 0.
Proof. intros Hst. unfold share, in_denominator, is_active. simpl. by rewrite bool_decide_false by done. Qed.

Lemma denominator_settle asset r st rel now t o :
  NoDup (map ob_reference t) -> st <> ACTIVE -> o ∈ t -> ob_reference o = r -> ob_status o = ACTIVE ->
  denominator asset (settle_all r st rel now t) = denominator asset t - share asset o.
Proof.
  intros Hn Hst Ho Hr Hs. rewrite !denominator_share. unfold settle_all. rewrite sumZ_map.
  assert (Hc : is_claimable r o = true) by (by apply claimable_iff).
  assert (Hsum : sumZ (fun x => if is_claimable r x then share asset x else 0) t = share asset o).
  { rewrite <- (sum_filter (share asset) (is_claimable r) t).
    destruct (claimable_count r t Hn) as [Hf | (o' & Hf & Ho' & Hc')].
    - exfalso. assert (Hin : In o (List.filter (is_claimable r) t)) by (apply filter_In; by rewrite <- list_elem_of_In).
      by rewrite Hf in Hin.
    - rewrite Hf. apply claimable_iff in Hc' as [Hr' _].
      assert (o' = o) as -> by (eapply (nodup_map_inj ob_reference); [done.. | congruence]). simpl. lia. }
  rewrite <- Hsum, <- sumZ_sub. apply sumZ_ext. intros x Hx. destruct (is_claimable r x) eqn:Hcx; [| lia].
  rewrite share_settled by done. lia.
Qed.

(** ** Ledger totals by group *)

Section Groups.
Context (pattern : string -> bool).

Definition group_net (g : string * (Z * Z)) : Z := if pattern g.1 then g.2.2 - g.2.1 else 0.
Definition entry_net (e : journal_entry) : Z := if pattern (je_account e) then je_credit e - je_debit e else 0.

Lemma add_group_net a d c m :
  sumZ group_net (add_group a d c m) = sumZ group_net m + (if pattern a then c - d else 0).
Proof.
  induction m as [| [a' [d' c']] m IH]; [simpl; unfold group_net; simpl; lia |].
  simpl. destruct (String.eqb_spec a a') as [-> |]; simpl; [| simpl in IH; lia].
  unfold group_net at 1 3. simpl. destruct (pattern a'); lia.
Qed.

Lemma add_group_volume a d c m :
  sumZ (fun g : string * (Z * Z) => g.2.1 + g.2.2) (add_group a d c m) = sumZ (fun g => g.2.1 + g.2.2) m + (d + c).
Proof.
  induction m as [| [a' [d' c']] m IH]; [simpl; lia |].
  simpl. destruct (String.eqb_spec a a') as [-> |]; simpl; lia.
Qed.

Lemma add_group_nonneg a d c m :
  0 <= d -> 0 <= c -> Forall (fun g : string * (Z * Z) => 0 <= g.2.1 /\ 0 <= g.2.2) m ->
  Forall (fun g => 0 <= g.2.1 /\ 0 <= g.2.2) (add_group a d c m).
Proof.
  intros Hd Hc Hm. induction Hm as [| [a' [d' c']] m [Hd' Hc'] Hm IH]; simpl in *; [by repeat constructor |].
  destruct (String.eqb a a'); constructor; simpl; auto; lia.
Qed.

Lemma groups_fold es m :
  (forall e, e ∈ es -> 0 <= je_debit e /\ 0 <= je_credit e) ->
  Forall (fun g : string * (Z * Z) => 0 <= g.2.1 /\ 0 <= g.2.2) m ->
  let m' := foldl (fun m e => add_group (je_account e) (je_debit e) (je_credit e) m) m es in
  Forall (fun g => 0 <= g.2.1 /\ 0 <= g.2.2) m' /\
  sumZ group_net m' = sumZ group_net m + sumZ entry_net es /\
  sumZ (fun g => g.2.1 + g.2.2) m' = sumZ (fun g => g.2.1 + g.2.2) m + sumZ (fun e => je_debit e + je_credit e) es.
Proof.
  revert m. induction es as [| e es IH]; intros m He Hm; simpl; [split; [done |]; lia |].
  destruct (He e) as [Hd Hc]; [by left |].
  destruct (IH (add_group (je_account e) (je_debit e) (je_credit e) m)) as (H1 & H2 & H3).
  - intros e' He'. apply He. by right.
  - by apply add_group_nonneg.
  - split; [done |]. simpl in H2, H3. rewrite H2, H3, add_group_net, add_group_volume. unfold entry_net at 2. lia.
Qed.

Lemma reclass_fold `{DecimalLib} m acc :
  Forall (fun g : string * (Z * Z) => 0 <= g.2.1 /\ 0 <= g.2.2) m ->
  Z.abs acc + sumZ (fun g => g.2.1 + g.2.2) m < 10 ^ 20 ->
  foldl (fun total g => if pattern g.1 then d_plus total (d_minus g.2.2 g.2.1) else total) acc m = acc + sumZ group_net m.
Proof.
  intros Hm. revert acc. induction Hm as [| g m [Hd Hc] Hm IH]; intros acc Hb; simpl; [lia |].
  rewrite sumZ_cons in Hb. unfold group_net at 1.
  assert (Hnn : 0 <= sumZ (fun g : string * (Z * Z) => g.2.1 + g.2.2) m).
  { apply sumZ_nonneg. intros x Hx. pose proof (proj1 (Forall_forall _ _) Hm x Hx) as [? ?]. lia. }
  destruct (pattern g.1); [| rewrite IH; lia].
  unfold d_plus, d_minus. rewrite (dround_exact (g.2.2 - g.2.1)) by lia. rewrite dround_exact by lia. rewrite IH; lia.
Qed.
End Groups.

(** ** Theorems *)

(** [r] is settled to [st] in [t] and no row of it can be claimed. *)
Record closed (st : obligation_status) (r : string) (t : obligations) : Prop := {
  cl_inv : ob_inv t;
  cl_row : exists o, find_reference r t = Some o /\ ob_status o = st;
  cl_rest : List.filter (is_claimable r) t = [];
}.

Lemma settled_closed st r t0 b t t' : st <> ACTIVE -> ob_inv t0 -> settled_to st r t0 b t -> rtc restricted_step t t' -> closed st r t'.
Proof.
  intros Hst Hinv0 Hset Hlater. destruct (settled_to_inv _ _ _ _ _ Hset Hinv0) as [Hinv _].
  assert (Hdone : exists o, o ∈ t /\ ob_reference o = r /\ ob_status o = st).
  { destruct Hset as [o rel' now' Ho Hor Hs | o Hf Hs].
    - eexists. split; [apply settle_all_elem; exists o; split; [exact Ho | reflexivity] |].
      rewrite (proj2 (claimable_iff r o)) by done. done.
    - apply find_reference_Some in Hf as [Ho Hor]. eauto. }
  destruct Hdone as (o & Ho & Hor & Hs).
  destruct (settled_kept t t' o Hlater Hinv Ho ltac:(congruence)) as [Hinv' Hf]. rewrite Hor in Hf. split; [done | eauto |].
  apply filter_none. intros x Hx. destruct (is_claimable r x) eqn:Hc; [| done]. exfalso.
  apply claimable_iff in Hc as [Hxr Hxs]. apply find_reference_Some in Hf as [Ho' _].
  assert (x = o) as -> by (eapply (nodup_map_inj ob_reference); [apply Hinv' | done | done | congruence]). congruence.
Qed.

(** The other settlement cannot return, *)
Lemma closed_refuses st st' r t b t' : closed st r t -> st' <> st -> settled_to st' r t b t' -> False.
Proof.
  intros [_ (o & Hf & Hs) Hrest] Hne [x rel now Hx Hxr Hxs | x Hfx Hxs]; [| rewrite Hf in Hfx; congruence].
  assert (Hin : In x (List.filter (is_claimable r) t)) by (apply filter_In; rewrite <- list_elem_of_In; split; [done | by apply claimable_iff]).
  by rewrite Hrest in Hin.
Qed.

(** the same one finds the row settled, *)
Lemma closed_claim st r t rel now : closed st r t -> claim_settlement r st rel now t = Ok (0%nat, t) /\ already_settled r st t = Ok (false, t).
Proof.
  intros [_ (o & Hf & Hs) Hrest]. split.
  - unfold claim_settlement. rewrite get_bind. apply Mbind_Ok. exists tt, t. split; [| by rewrite Hrest]. apply put_Ok.
    symmetry. by apply (settle_all_none r st rel now).
  - unfold already_settled. apply Mbind_Ok. exists (Some o), t. split; [by apply reads_Ok |].
    apply Mbind_Ok. exists tt, t. split; [| done]. apply check_Ok. by rewrite bool_decide_true.
Qed.

(** and no obligation is created under the reference. *)
Lemma closed_uncreated st r t p : st <> ACTIVE -> closed st r t -> c_reference p = r -> is_ok (createForPendingWithdrawal p t) = false.
Proof.
  intros Hst [_ (o & Hf & Hs) _] Hp. destruct (createForPendingWithdrawal p t) as [[x t2] |] eqn:E; [| done]. exfalso.
  apply create_inv in E. destruct E as [o' Hfo | o' Hfo Hso _]; rewrite Hp, Hf in Hfo; congruence.
Qed.

(** C31: an obligation is settled exactly once.  When a release returns, then
    at every later state the row is RELEASED, a cancellation of the reference is
    refused and a release is a no-op; when a cancellation returns, then at every
    later state the row is CANCELLED, a release is refused and a cancellation is
    a no-op; and in both cases a new obligation cannot take the reference. *)
Theorem obligation_settles_once t0 t t' r :
  rtc restricted_step [] t0 -> rtc restricted_step t t' ->
  (forall rel v now b, releaseOnSettlement r rel v now t0 = Ok (b, t) ->
     (exists o, find_reference r t' = Some o /\ ob_status o = RELEASED) /\
     (forall rel' now', is_ok (cancelOnReversal r rel' now' t') = false) /\
     (forall rel' v' now', releaseOnSettlement r rel' v' now' t' = Ok (false, t')) /\
     (forall p, c_reference p = r -> is_ok (createForPendingWithdrawal p t') = false)) /\
  (forall rel now b, cancelOnReversal r rel now t0 = Ok (b, t) ->
     (exists o, find_reference r t' = Some o /\ ob_status o = CANCELLED) /\
     (forall rel' v' now', is_ok (releaseOnSettlement r rel' v' now' t') = false) /\
     (forall rel' now', cancelOnReversal r rel' now' t' = Ok (false, t')) /\
     (forall p, c_reference p = r -> is_ok (createForPendingWithdrawal p t') = false)).
Proof.
  intros Hr Hlater. destruct (restricted_steps_inv _ _ Hr ob_inv_nil) as [Hinv0 _]. split.
  - intros rel v now b Hrel. apply release_inv in Hrel; [| apply Hinv0]. pose proof (settled_closed RELEASED _ _ _ _ _ ltac:(done) Hinv0 Hrel Hlater) as Hcl.
    split_and!; [apply Hcl | | | intros p; by apply (closed_uncreated RELEASED)].
    + intros rel' now'. destruct (cancelOnReversal r rel' now' t') as [[b' t2] |] eqn:E; [exfalso | done]. apply cancel_inv in E; [| apply Hcl]. by eapply closed_refuses in E.
    + intros rel' v' now'. destruct (closed_claim RELEASED r t' rel' now' Hcl) as [H1 H2]. unfold releaseOnSettlement. apply Mbind_Ok. by exists 0%nat, t'.
  - intros rel now b Hrel. apply cancel_inv in Hrel; [| apply Hinv0]. pose proof (settled_closed CANCELLED _ _ _ _ _ ltac:(done) Hinv0 Hrel Hlater) as Hcl.
    split_and!; [apply Hcl | | | intros p; by apply (closed_uncreated CANCELLED)].
    + intros rel' v' now'. destruct (releaseOnSettlement r rel' v' now' t') as [[b' t2] |] eqn:E; [exfalso | done]. apply release_inv in E; [| apply Hcl]. by eapply closed_refuses in E.
    + intros rel' now'. destruct (closed_claim CANCELLED r t' rel' now' Hcl) as [H1 H2]. unfold cancelOnReversal. apply Mbind_Ok. by exists 0%nat, t'.
Qed.

(** The reserve denominator reported by [authoritativeTotals] moves by
    exactly the amount of the obligation: up when it is created, down when it
    is released or cancelled, and not at all when a call is repeated. *)
Theorem denominator_moves `{DecimalLib} t s s' asset :
  rtc restricted_step [] t ->
  (forall p o b t', createForPendingWithdrawal p t = Ok ((o, b), t') ->
     t_total (authoritativeTotals asset t' s') =
     t_total (authoritativeTotals asset t s) + (if b && String.eqb (c_asset p) asset then ob_amount o else 0)) /\
  (forall r rel v now b t', releaseOnSettlement r rel v now t = Ok (b, t') -> exists o, o ∈ t /\ ob_reference o = r /\
     t_total (authoritativeTotals asset t' s') = t_total (authoritativeTotals asset t s) - (if b then share asset o else 0)) /\
  (forall r rel now b t', cancelOnReversal r rel now t = Ok (b, t') -> exists o, o ∈ t /\ ob_reference o = r /\
     t_total (authoritativeTotals asset t' s') = t_total (authoritativeTotals asset t s) - (if b then share asset o else 0)).
Proof.
  intros Hr. destruct (restricted_steps_inv _ _ Hr ob_inv_nil) as [Hinv _]. simpl.
  assert (Hsettle : forall st r b t', st <> ACTIVE -> settled_to st r t b t' -> exists o, o ∈ t /\ ob_reference o = r /\
    denominator asset t' = denominator asset t - (if b then share asset o else 0)).
  { intros st r b t' Hst [o rel now Ho Hor Hs | o Hf Hs].
    - exists o. split; [done |]. split; [done |]. by apply denominator_settle; [apply Hinv | ..].
    - apply find_reference_Some in Hf as [Ho Hor]. exists o. split; [done |]. split; [done |]. lia. }
  split; [| split].
  - intros p o b t' Hc. apply create_inv in Hc.
    inversion Hc as [o' Hf Ha Hnz Hlim Hor Has Hst Hpol | o' Hf Hst Ha]; subst; simpl; [| lia].
    change (denominator asset (t ++ [o]) = denominator asset t + (if String.eqb (c_asset p) asset then ob_amount o else 0)).
    rewrite !denominator_share, sumZ_app. simpl. unfold share, in_denominator, is_active.
    rewrite Hst, Hpol, Has, !bool_decide_true by done. simpl. rewrite andb_true_r. destruct (String.eqb _ _); lia.
  - intros r rel v now b t' Hc. apply release_inv in Hc; [| apply Hinv]. by apply (Hsettle RELEASED).
  - intros r rel now b t' Hc. apply cancel_inv in Hc; [| apply Hinv]. by apply (Hsettle CANCELLED).
Qed.

(** The ledger total of a reclassification family is exactly the credits
    minus the debits of every linked line on an account of the family: summing
    by account and rounding to 20 digits loses nothing while the traffic fits
    a Decimal(20,8). *)
Theorem reclassification_total_exact `{DecimalLib} pattern s :
  (forall e, e ∈ linked_entries s -> 0 <= je_debit e /\ 0 <= je_credit e) ->
  sumZ (fun e => je_debit e + je_credit e) (linked_entries s) < DECIMAL_20_8_LIMIT ->
  _ledgerReclassificationTotal pattern s =
  sumZ (fun e => if pattern (je_account e) then je_credit e - je_debit e else 0) (linked_entries s).
Proof.
  unfold DECIMAL_20_8_LIMIT. intros Hnn Hlt. unfold _ledgerReclassificationTotal, account_groups.
  destruct (groups_fold pattern (linked_entries s) [] Hnn (Forall_nil_2 _)) as (H1 & H2 & H3). simpl in H2, H3.
  rewrite reclass_fold; [| done | rewrite H3; simpl; lia]. rewrite H2. done.
Qed.

(** ** Witnesses *)

Definition ex_create : create_params :=
  CreateParams "PENDING_FIAT_WITHDRAWAL" "withdrawal:fiat:tx1" (Some 7) (VStr "25.5") "USDC" None
    (Some "transactionHistory"%string) (Some "tx1"%string) None.
Definition ex_obligation : obligation :=
  Obligation "withdrawal:fiat:tx1" "PENDING_FIAT_WITHDRAWAL" (Some "transactionHistory"%string) (Some "tx1"%string)
    (Some 7) "USDC" None 2550000000 ACTIVE INCLUDED_IN_RESERVE_DENOMINATOR None None None.

Lemma ex_created : rtc restricted_step [] [ex_obligation].
Proof. apply rtc_once. by apply (step_create ex_create (ex_obligation, true)). Qed.

Lemma obligation_settles_once_witness :
  is_ok (cancelOnReversal "withdrawal:fiat:tx1" None 2 [settle_row RELEASED None 1 ex_obligation]) = false /\
  is_ok (releaseOnSettlement "withdrawal:fiat:tx1" None (VStr "25.50") 2 [settle_row CANCELLED None 1 ex_obligation]) = false.
Proof.
  split.
  - refine (proj1 (proj2 (proj1 (obligation_settles_once [ex_obligation] [settle_row RELEASED None 1 ex_obligation] [settle_row RELEASED None 1 ex_obligation]
      "withdrawal:fiat:tx1" ex_created (rtc_refl _ _)) None (VStr "25.50") 1 true _)) None 2). vm_compute. reflexivity.
  - refine (proj1 (proj2 (proj2 (obligation_settles_once [ex_obligation] [settle_row CANCELLED None 1 ex_obligation] [settle_row CANCELLED None 1 ex_obligation]
      "withdrawal:fiat:tx1" ex_created (rtc_refl _ _)) None 1 true _)) None (VStr "25.50") 2). vm_compute. reflexivity.
Defined.

Lemma denominator_moves_witness :
  t_total (@authoritativeTotals Decimal20 "USDC" [settle_row RELEASED None 1 ex_obligation] empty_ldb) = 0 /\
  exists o, o ∈ [ex_obligation] /\ ob_reference o = "withdrawal:fiat:tx1"%string /\
  t_total (@authoritativeTotals Decimal20 "USDC" [settle_row RELEASED None 1 ex_obligation] empty_ldb) =
  t_total (@authoritativeTotals Decimal20 "USDC" [ex_obligation] empty_ldb) - share "USDC" o.
Proof.
  split; [reflexivity |].
  refine (proj1 (proj2 (@denominator_moves Decimal20 [ex_obligation] empty_ldb empty_ldb "USDC" ex_created))
            "withdrawal:fiat:tx1"%string None (VStr "25.50") 1 true _ _).
  vm_compute. reflexivity.
Defined.

Lemma reclassification_total_exact_witness :
  @_ledgerReclassificationTotal Decimal20 matches_escrow example_result.2 = 10000000000.
Proof.
  rewrite (@reclassification_total_exact Decimal20 matches_escrow example_result.2).
  - vm_compute. reflexivity.
  - intros e He. change (linked_entries example_result.2) with (entries example_result.2) in He. revert e He.
    apply Forall_forall. vm_compute. repeat constructor; discriminate.
  - vm_compute. reflexivity.
Defined.
