(* ===== verification/ProviderProps.v ===== *)
(** * Properties of the provider settlement attempts

    Monotone terminal evidence and fixed bindings under any interleaving of
    callbacks, and the result of a call run alone. *)

From stdpp Require Import base gmap strings list relations.
From Stdlib Require Import ZArith Lia Ascii.
From S2P Require Import Prelude JsNumber ExactDecimal ProviderAttempt.

Local Open Scope Z_scope.

(** [r'] is a later version of [r]: same identity and link; a terminal status
    and its time are kept, and so is the failure reason of a completed one. *)
Record evolves (r r' : attempt) : Prop := {
  ev_id : at_id r' = at_id r;
  ev_tx : at_tx r' = at_tx r;
  ev_key : (at_provider r', at_ref r') = (at_provider r, at_ref r);
  ev_first : at_firstSeen r' = at_firstSeen r;
  ev_term : terminalStatus (at_status r) = true -> at_status r' = at_status r;
  ev_time : terminalStatus (at_status r) = true -> is_Some (at_settledAt r) -> at_settledAt r' = at_settledAt r;
  ev_reason : at_status r = COMPLETED -> at_failureReason r' = at_failureReason r;
}.

#[export] Instance evolves_refl : Reflexive evolves.
Proof. intros r. by split. Qed.

#[export] Instance evolves_trans : Transitive evolves.
Proof.
  intros r1 r2 r3 [] [ev_id1 ev_tx1 ev_key1 ev_first1 ev_term1 ev_time1 ev_reason1]. split; try congruence.
  - intros Ht. rewrite ev_term1; [auto |]. by rewrite ev_term0.
  - intros Ht Hs. rewrite ev_time1; [auto | by rewrite ev_term0 | by rewrite ev_time0].
  - intros Hc. rewrite ev_reason1; [auto |]. rewrite ev_term0; [done |]. by rewrite Hc.
Qed.

Definition row_ok (r : attempt) : Prop := terminalStatus (at_status r) = true <-> is_Some (at_settledAt r).

Lemma merge_evolves now e r : evolves r (merge now e r).
Proof.
  split; simpl; try done.
  - by intros ->.
  - intros -> [x Hx]. by rewrite Hx.
  - by intros ->.
Qed.

Lemma merge_ok now e r : row_ok r -> row_ok (merge now e r).
Proof.
  unfold row_ok. simpl. destruct (terminalStatus (at_status r)) eqn:Ht; intros [H1 H2].
  - rewrite Ht. destruct H1 as [x ->]; [done |]. simpl. done.
  - destruct (terminalStatus (ev_status e)) eqn:He; [done |]. split; [done | auto].
Qed.

(** ** Tables *)

Definition att_key (r : attempt) : string * string := (at_provider r, at_ref r).

Record table_ok (t : list attempt) : Prop := {
  tk_ids : forall i r, t !! i = Some r -> at_id r = i;
  tk_keys : NoDup (map att_key t);
  tk_rows : forall i r, t !! i = Some r -> row_ok r;
}.

Definition table_le (t t' : list attempt) : Prop :=
  forall i r, t !! i = Some r -> exists r', t' !! i = Some r' /\ evolves r r'.

#[export] Instance table_le_refl : Reflexive table_le.
Proof. intros t i r Hr. exists r. by split; [| reflexivity]. Qed.

#[export] Instance table_le_trans : Transitive table_le.
Proof.
  intros t1 t2 t3 H12 H23 i r Hr. destruct (H12 i r Hr) as (r2 & Hr2 & He2).
  destruct (H23 i r2 Hr2) as (r3 & Hr3 & He3). exists r3. split; [done | by etrans].
Qed.

Lemma find_attempt_Some p ref t r :
  find_attempt p ref t = Some r -> r ∈ t /\ at_provider r = p /\ at_ref r = ref.
Proof.
  intros Hf. apply find_some in Hf as [Hin Hk]. apply andb_true_iff in Hk as [Hp Hr].
  apply String.eqb_eq in Hp, Hr. by rewrite list_elem_of_In.
Qed.

Lemma find_attempt_None p ref t : find_attempt p ref t = None -> (p, ref) ∉ map att_key t.
Proof.
  intros Hf Hin. apply list_elem_of_In, in_map_iff in Hin as (r & Hk & Hr). injection Hk as <- <-.
  eapply find_none in Hf; [| exact Hr]. simpl in Hf. by rewrite !String.eqb_refl in Hf.
Qed.

Lemma find_id t i r : table_ok t -> t !! i = Some r -> List.find (fun x => (at_id x =? i)%nat) t = Some r.
Proof.
  intros Ht Hi. destruct (List.find _ t) as [x |] eqn:Hf.
  - apply find_some in Hf as [Hin Hx]. apply Nat.eqb_eq in Hx. apply list_elem_of_In, list_elem_of_lookup in Hin as [j Hj].
    pose proof (tk_ids t Ht j x Hj). congruence.
  - exfalso. eapply find_none in Hf; [| by apply list_elem_of_In, list_elem_of_lookup; exists i].
    simpl in Hf. rewrite (tk_ids t Ht i r Hi) in Hf. by rewrite Nat.eqb_refl in Hf.
Qed.

Lemma update_spec now e i r t :
  table_ok t -> t !! i = Some r ->
  update_attempt now e i t = (Some (merge now e r), <[i := merge now e r]> t).
Proof.
  intros Ht Hi. unfold update_attempt. rewrite (find_id t i r Ht Hi). simpl. f_equal.
  apply list_eq. intros j. rewrite list_lookup_fmap. destruct (decide (j = i)) as [-> | Hne].
  - rewrite list_lookup_insert_eq by (by eapply lookup_lt_Some). rewrite Hi. simpl.
    by rewrite (tk_ids t Ht i r Hi), Nat.eqb_refl.
  - rewrite list_lookup_insert_ne by done. destruct (t !! j) as [x |] eqn:Hj; [| done]. simpl.
    rewrite (tk_ids t Ht j x Hj). by destruct (Nat.eqb_spec j i).
Qed.

Lemma insert_merge_ok now e i r t :
  table_ok t -> t !! i = Some r -> table_ok (<[i := merge now e r]> t) /\ table_le t (<[i := merge now e r]> t).
Proof.
  intros Ht Hi. pose proof (lookup_lt_Some _ _ _ Hi) as Hlt.
  assert (Hcase : forall j x, <[i := merge now e r]> t !! j = Some x ->
    (j = i /\ x = merge now e r) \/ (j <> i /\ t !! j = Some x)).
  { intros j x Hj. destruct (decide (j = i)) as [-> | Hne].
    - rewrite list_lookup_insert_eq in Hj by done. left. by simplify_eq.
    - rewrite list_lookup_insert_ne in Hj by done. by right. }
  split; [split |].
  - intros j x Hj. apply Hcase in Hj as [[-> ->] | [_ Hj]]; [exact (tk_ids t Ht i r Hi) | exact (tk_ids t Ht j x Hj)].
  - replace (map att_key (<[i := merge now e r]> t)) with (map att_key t); [apply Ht |].
    apply list_eq. intros j. rewrite !list_lookup_fmap. destruct (decide (j = i)) as [-> | Hne].
    + rewrite list_lookup_insert_eq by done. by rewrite Hi.
    + by rewrite list_lookup_insert_ne.
  - intros j x Hj. apply Hcase in Hj as [[-> ->] | [_ Hj]]; [apply merge_ok, (tk_rows t Ht i r Hi) | exact (tk_rows t Ht j x Hj)].
  - intros j x Hj. destruct (decide (j = i)) as [-> | Hne].
    + exists (merge now e r). rewrite list_lookup_insert_eq by done. split; [done |].
      assert (x = r) as -> by congruence. apply merge_evolves.
    + exists x. rewrite list_lookup_insert_ne by done. by split; [| reflexivity].
Qed.

Lemma append_ok now e tx p ref t (r := new_attempt now e tx p ref t) :
  table_ok t -> find_attempt p ref t = None -> table_ok (t ++ [r]) /\ table_le t (t ++ [r]).
Proof.
  intros Ht Hf. assert (Hcase : forall j x, (t ++ [r]) !! j = Some x -> t !! j = Some x \/ (j = length t /\ x = r)).
  { intros j x Hj. apply lookup_app_Some in Hj as [Hj | [Hge Hj]]; [by left |].
    apply list_lookup_singleton_Some in Hj as [Hj ->]. right. split; [lia | done]. }
  split; [split |].
  - intros j x Hj. apply Hcase in Hj as [Hj | [-> ->]]; [exact (tk_ids t Ht j x Hj) | done].
  - rewrite map_app. apply NoDup_app. split; [apply Ht |]. split; [| apply NoDup_singleton].
    intros k Hk. simpl. rewrite list_elem_of_singleton. intros ->. by apply (find_attempt_None _ _ _ Hf).
  - intros j x Hj. apply Hcase in Hj as [Hj | [-> ->]]; [exact (tk_rows t Ht j x Hj) |].
    unfold row_ok. simpl. destruct (terminalStatus (ev_status e)); [done |]. split; [done | by intros [? ?]].
  - intros j x Hj. exists x. split; [by apply lookup_app_l_Some | reflexivity].
Qed.

(** ** Calls *)

(** [row] is a version of the attempt of [g], linked to the transaction of
    [g]'s reference. *)
Definition linked_row (hist : gmap string Z) (t : list attempt) (g : target) (row : attempt) : Prop :=
  hist !! tg_reference g = Some (at_tx row) /\ att_key row = (tg_provider g, tg_ref g) /\
  exists r, t !! at_id row = Some r /\ evolves row r.

Definition phase_ok (hist : gmap string Z) (t : list attempt) (ph : call_phase) : Prop :=
  match ph with
  | Looking g tx | Inserting g tx | Rereading g tx => hist !! tg_reference g = Some tx
  | Updating g row | Returned g row _ => linked_row hist t g row
  | _ => True
  end.

Lemma linked_row_le hist hist' t t' g row :
  hist ⊆ hist' -> table_le t t' -> linked_row hist t g row -> linked_row hist' t' g row.
Proof.
  intros Hh Ht (Hx & Hk & r & Hr & He). destruct (Ht _ _ Hr) as (r' & Hr' & He').
  split; [by eapply lookup_weaken |]. split; [done |]. exists r'. split; [done | by etrans].
Qed.

Lemma phase_ok_le hist hist' t t' ph :
  hist ⊆ hist' -> table_le t t' -> phase_ok hist t ph -> phase_ok hist' t' ph.
Proof.
  intros Hh Ht. destruct ph; simpl; eauto using linked_row_le, lookup_weaken.
Qed.

Lemma found_index p ref t r : table_ok t -> find_attempt p ref t = Some r -> t !! at_id r = Some r.
Proof.
  intros Ht Hf. apply find_attempt_Some in Hf as [Hin _]. apply list_elem_of_lookup in Hin as [i Hi].
  by rewrite (tk_ids t Ht i r Hi).
Qed.

Lemma found_linked hist g tx t r :
  table_ok t -> hist !! tg_reference g = Some tx -> find_attempt (tg_provider g) (tg_ref g) t = Some r ->
  at_tx r = tx -> linked_row hist t g r.
Proof.
  intros Ht Hh Hf <-. split; [done |]. pose proof (found_index _ _ _ _ Ht Hf) as Hi.
  apply find_attempt_Some in Hf as (_ & Hp & Hr). split; [unfold att_key; by rewrite Hp, Hr |].
  exists r. by split; [| reflexivity].
Qed.

Lemma merged_linked hist g now e row r t :
  linked_row hist t g row -> t !! at_id row = Some r -> evolves row r ->
  linked_row hist (<[at_id row := merge now e r]> t) g (merge now e r).
Proof.
  intros (Hx & Hk & _) Hr He. pose proof (merge_evolves now e r) as Hm.
  assert (Hm' : evolves row (merge now e r)) by (by etrans).
  split; [by rewrite (ev_tx _ _ Hm') |]. split; [unfold att_key in *; by rewrite (ev_key _ _ Hm') |].
  exists (merge now e r). split; [| reflexivity]. rewrite (ev_id _ _ Hm').
  apply list_lookup_insert_eq. by eapply lookup_lt_Some.
Qed.

Lemma call_step_inv hist now c ph t ph' t' :
  table_ok t -> phase_ok hist t ph -> call_step hist now c ph t = (ph', t') ->
  table_ok t' /\ table_le t t' /\ phase_ok hist t' ph'.
Proof.
  intros Ht Hok Hstep. assert (Hrefl : table_le t t) by reflexivity.
  destruct ph as [| g | g tx | g row | g tx | g tx | g row b | e]; unfold call_step in Hstep; simpl in Hok.
  - injection Hstep as <- <-. destruct (validate_call c); by split_and!.
  - injection Hstep as <- <-. destruct (hist !! tg_reference g) eqn:Hh; by split_and!.
  - injection Hstep as <- <-. destruct (find_attempt _ _ t) as [r |] eqn:Hf; [| by split_and!].
    destruct (Z.eqb_spec (at_tx r) tx); [| by split_and!]. split; [done |]. split; [done |]. by eapply found_linked.
  - pose proof Hok as (_ & _ & r & Hr & He).
    rewrite (update_spec now (tg_evidence g) (at_id row) r t Ht Hr) in Hstep. injection Hstep as <- <-.
    destruct (insert_merge_ok now (tg_evidence g) (at_id row) r t Ht Hr) as [Ht' Hle].
    split; [done |]. split; [done |]. by apply merged_linked.
  - unfold upsert_attempt in Hstep. destruct (find_attempt _ _ t) as [r |] eqn:Hf.
    + destruct (Z.eqb_spec (at_tx r) tx) as [Htx | Htx]; [| injection Hstep as <- <-; by split_and!].
      pose proof (found_index _ _ _ _ Ht Hf) as Hi. rewrite (update_spec now (tg_evidence g) (at_id r) r t Ht Hi) in Hstep.
      injection Hstep as <- <-. destruct (insert_merge_ok now (tg_evidence g) (at_id r) r t Ht Hi) as [Ht' Hle].
      split; [done |]. split; [done |]. simpl.
      apply (merged_linked hist g now (tg_evidence g) r r); [by eapply found_linked | done | reflexivity].
    + injection Hstep as <- <-. destruct (append_ok now (tg_evidence g) tx _ _ t Ht Hf) as [Ht' Hle].
      split; [done |]. split; [done |]. split; [done |]. split; [done |]. simpl.
      eexists. split; [by apply list_lookup_middle | reflexivity].
  - injection Hstep as <- <-. destruct (find_attempt _ _ t) as [r |] eqn:Hf; [| by split_and!].
    destruct (Z.eqb_spec (at_tx r) tx); [| by split_and!]. split; [done |]. split; [done |]. by eapply found_linked.
  - injection Hstep as <- <-. by split_and!.
  - injection Hstep as <- <-. by split_and!.
Qed.

(** ** Systems *)

Record provider_inv (s : psystem) : Prop := {
  pi_table : table_ok (attempts s);
  pi_calls : forall i c ph, calls s !! i = Some (c, ph) -> phase_ok (history s) (attempts s) ph;
}.

Lemma provider_step_inv s s' :
  provider_step s s' -> provider_inv s ->
  provider_inv s' /\ history s ⊆ history s' /\ table_le (attempts s) (attempts s').
Proof.
  intros [h tx s1 Hh | c s1 | i c ph now ph' t' s1 Hi Hstep] [Ht Hc].
  - assert (Hsub : history s1 ⊆ <[h := tx]> (history s1)) by (by apply insert_subseteq).
    split; [| split; [done | reflexivity]]. split; [done |]. intros j c ph Hj.
    eapply phase_ok_le; [exact Hsub | reflexivity | by eapply Hc].
  - split; [| split; [done | reflexivity]]. split; [done |]. intros j c' ph Hj. simpl in Hj.
    apply lookup_app_Some in Hj as [Hj | [_ Hj]]; [by eapply Hc |].
    apply list_lookup_singleton_Some in Hj as [_ [= <- <-]]. done.
  - destruct (call_step_inv _ _ _ _ _ _ _ Ht (Hc i c ph Hi) Hstep) as (Ht' & Hle & Hok).
    split; [| by split]. split; [done |]. intros j c' ph0 Hj. simpl in Hj.
    destruct (decide (j = i)) as [-> | Hne].
    + rewrite list_lookup_insert_eq in Hj by (by eapply lookup_lt_Some). injection Hj as <- <-. done.
    + rewrite list_lookup_insert_ne in Hj by done. eapply phase_ok_le; [done | exact Hle | by eapply Hc].
Qed.

Lemma provider_steps_inv s s' :
  rtc provider_step s s' -> provider_inv s ->
  provider_inv s' /\ history s ⊆ history s' /\ table_le (attempts s) (attempts s').
Proof.
  induction 1 as [s | s1 s2 s3 Hs _ IH]; intros Hinv; [split; [done |]; split; [done | reflexivity] |].
  destruct (provider_step_inv _ _ Hs Hinv) as (Hinv2 & Hh & Hle). destruct (IH Hinv2) as (Hinv3 & Hh' & Hle').
  split; [done |]. split; [by etrans | by etrans].
Qed.

Lemma init_provider_inv : provider_inv init_psystem.
Proof. split; [split; [done | constructor | done] | done]. Qed.

Lemma table_le_elem t t' r : table_le t t' -> r ∈ t -> exists r', r' ∈ t' /\ evolves r r'.
Proof.
  intros Hle Hr. apply list_elem_of_lookup in Hr as [i Hi]. destruct (Hle i r Hi) as (r' & Hr' & He).
  exists r'. split; [by apply list_elem_of_lookup; exists i | done].
Qed.

(** ** Theorems *)

(** C34: provider evidence is monotone.  Whatever callbacks follow, in any
    interleaving, an attempt keeps its row, its provider identity and its link
    to the financial transaction; a COMPLETED or FAILED status and its
    settlement time never change again, and a completed attempt never
    acquires another failure reason; one identity never has two rows. *)
Theorem attempt_never_regresses s s' r :
  rtc provider_step init_psystem s -> rtc provider_step s s' -> r ∈ attempts s ->
  NoDup (map att_key (attempts s')) /\
  exists r', r' ∈ attempts s' /\ at_id r' = at_id r /\ at_tx r' = at_tx r /\ att_key r' = att_key r /\
    (terminalStatus (at_status r) = true -> at_status r' = at_status r /\ at_settledAt r' = at_settledAt r) /\
    (at_status r = COMPLETED -> at_failureReason r' = at_failureReason r).
Proof.
  intros H0 Hs Hr. destruct (provider_steps_inv _ _ H0 init_provider_inv) as (Hinv & _ & _).
  destruct (provider_steps_inv _ _ Hs Hinv) as (Hinv' & _ & Hle). split; [apply Hinv' |].
  destruct (table_le_elem _ _ _ Hle Hr) as (r' & Hr' & He). exists r'. destruct He.
  do 4 (split; [done |]). split; [| done]. intros Ht. split; [auto |]. apply ev_time0; [done |].
  apply list_elem_of_lookup in Hr as [i Hi]. by apply (tk_rows _ (pi_table s Hinv) i r Hi).
Qed.

(** A call never returns an attempt of another transaction: the row it
    returns carries the call's provider identity and is linked to the
    transaction its reference names, and that attempt is in the table. *)
Theorem attempt_binding_safe s i c g row changed :
  rtc provider_step init_psystem s -> calls s !! i = Some (c, Returned g row changed) ->
  history s !! tg_reference g = Some (at_tx row) /\ att_key row = (tg_provider g, tg_ref g) /\
  exists r, r ∈ attempts s /\ at_id r = at_id row /\ at_tx r = at_tx row.
Proof.
  intros H0 Hi. destruct (provider_steps_inv _ _ H0 init_provider_inv) as (Hinv & _ & _).
  pose proof (pi_calls s Hinv i c _ Hi) as (Hx & Hk & r & Hr & He). split; [done |]. split; [done |].
  exists r. split; [by apply list_elem_of_lookup; eexists | by destruct He].
Qed.

(** A call that runs alone always ends: with the argument error, with
    UNKNOWN_REFERENCE, with PROVIDER_REFERENCE_CONFLICT and an untouched table
    when the identity belongs to another transaction, with the merged row, or
    with a new row. *)
Theorem record_alone s now c :
  rtc provider_step init_psystem s ->
  recordProviderSettlementAttempt (history s) now c (attempts s) =
  match validate_call c with
  | Err e => (Failed e, attempts s)
  | Ok g =>
      match history s !! tg_reference g with
      | None => (Failed "UNKNOWN_REFERENCE", attempts s)
      | Some tx =>
          match find_attempt (tg_provider g) (tg_ref g) (attempts s) with
          | None =>
              let r := new_attempt now (tg_evidence g) tx (tg_provider g) (tg_ref g) (attempts s) in
              (Returned g r true, attempts s ++ [r])
          | Some row =>
              if at_tx row =? tx then
                let r := merge now (tg_evidence g) row in
                (Returned g r (negb (bool_decide (at_status row = at_status r))), <[at_id row := r]> (attempts s))
              else (Failed "PROVIDER_REFERENCE_CONFLICT", attempts s)
          end
      end
  end.
Proof.
  intros H0. destruct (provider_steps_inv _ _ H0 init_provider_inv) as ([Ht _] & _ & _).
  unfold recordProviderSettlementAttempt, run_call, call_step.
  destruct (validate_call c) as [g | e]; [| done].
  destruct (history s !! tg_reference g) as [tx |]; [| done].
  destruct (find_attempt (tg_provider g) (tg_ref g) (attempts s)) as [row |] eqn:Hf.
  - destruct (at_tx row =? tx); [| done].
    by rewrite (update_spec now (tg_evidence g) (at_id row) row _ Ht (found_index _ _ _ _ Ht Hf)).
  - unfold upsert_attempt. by rewrite Hf.
Qed.

(** ** Witnesses: a late contradictory callback *)

Definition ex_call (st : string) : call_params :=
  CallParams (Some "tx-1"%string) (Some "moolre"%string) None None (Some st) (Some "timeout"%string) None.
Definition ex_target (st : attempt_status) : target :=
  Target "tx-1" "MOOLRE" "tx-1" (Evidence None st (Some "timeout"%string) None).
Definition ex_done : attempt :=
  Attempt 0 9 "MOOLRE" "tx-1" None COMPLETED 1 1 (Some 1) (Some "timeout"%string) None.
Definition ex_psystem : psystem :=
  PSystem {["tx-1"%string := 9]} [ex_done] [(ex_call "completed", Returned (ex_target COMPLETED) ex_done true)].

Lemma ex_psystem_reachable : rtc provider_step init_psystem ex_psystem.
Proof.
  eapply rtc_l; [apply (step_history "tx-1" 9); reflexivity |].
  eapply rtc_l; [apply (step_call (ex_call "completed")) |].
  do 3 (eapply rtc_l; [by eapply (step_run 0 (ex_call "completed") _ 1) |]).
  eapply rtc_l; [by eapply (step_run 0 (ex_call "completed") _ 1) |]. apply rtc_refl.
Qed.

(** A FAILED callback arrives after completion. *)
Definition ex_late : psystem :=
  PSystem {["tx-1"%string := 9]} [merge 2 (Evidence None FAILED (Some "timeout"%string) None) ex_done]
    (calls ex_psystem ++ [(ex_call "failed", Returned (ex_target FAILED)
       (merge 2 (Evidence None FAILED (Some "timeout"%string) None) ex_done) false)]).

Lemma ex_late_reachable : rtc provider_step ex_psystem ex_late.
Proof.
  eapply rtc_l; [apply (step_call (ex_call "failed")) |].
  do 4 (eapply rtc_l; [by eapply (step_run 1 (ex_call "failed") _ 2) |]). apply rtc_refl.
Qed.

Lemma attempt_never_regresses_witness :
  exists r', r' ∈ attempts ex_late /\ at_status r' = COMPLETED.
Proof.
  destruct (attempt_never_regresses ex_psystem ex_late ex_done) as (_ & r' & Hr' & _ & _ & _ & Ht & _).
  - apply ex_psystem_reachable.
  - apply ex_late_reachable.
  - by left.
  - exists r'. split; [done |]. by apply Ht.
Defined.

Lemma attempt_binding_safe_witness : history ex_psystem !! "tx-1"%string = Some 9.
Proof.
  exact (proj1 (attempt_binding_safe ex_psystem 0 (ex_call "completed") (ex_target COMPLETED) ex_done true
                  ex_psystem_reachable eq_refl)).
Defined.

Lemma record_alone_witness :
  recordProviderSettlementAttempt (history ex_psystem) 2 (ex_call "FAILED") (attempts ex_psystem) =
  (Returned (ex_target FAILED) (merge 2 (Evidence None FAILED (Some "timeout"%string) None) ex_done) false, attempts ex_late).
Proof.
  rewrite (record_alone ex_psystem 2 (ex_call "FAILED") ex_psystem_reachable). reflexivity.
Defined.
