(* ===== verification/Invoice.v ===== *)
(** * Exact invoice arithmetic (utils/exactInvoiceMath.js)

    Quantities of money are 1e-8 units.  The decimal library rounds every
    result to 20 significant digits ([DecimalLib]); the product of a subtotal
    and a percentage carries 16 decimals before it is divided by 100, which
    only moves the point, and quantized.

    Theorems: an invoice that is accepted has exact line totals, subtotal, tax
    total and bill total inside the Decimal(20,8) envelope; lines whose exact
    totals fit are accepted; a tax line is the half-up quantization of the
    exact tax while the product has at most 20 digits and within 1.5 units of
    it always; quantities parse exactly and within bounds. *)

From stdpp Require Import base gmap strings list.
From Stdlib Require Import ZArith QArith Lia Ascii.
From S2P Require Import Prelude JsNumber ExactDecimal Json Ledger LedgerFacts LedgerProps.

Local Open Scope Z_scope.

Definition parseExactDecimal (v : jsval) : res Z := toExactDecimal v.

Definition MAX_REASONABLE_QUANTITY : Z := 1000000000.

Definition str_is_digits (s : string) : bool := negb (String.length s =? 0)%nat && str_forall is_digit s.

Definition parseStrictQuantity (value : jsval) : res Z :=
  n ← match value with
      | VUndefined | VNull => Err "quantity is required"
      | VBool _ | VObj | VDec _ => Err "quantity must be a positive integer"
      | VNum (Num.Fin q) =>
          throw_if (negb (isSafeInteger q)) "quantity must be an integer";;
          let n := Qnum q / Zpos (Qden q) in
          throw_if (n <? 1) "quantity must be at least 1";; mret n
      | VNum _ => Err "non-finite quantity"
      | VStr s =>
          let t := trim s in
          throw_if (negb (str_is_digits t)) "not a canonical non-negative integer string";;
          let n := digits_val 0 t in
          throw_if (2 ^ 53 - 1 <? n) "quantity exceeds the safe integer range";;
          throw_if (n <? 1) "quantity must be at least 1";; mret n
      | VBigInt _ => Err "unsupported quantity type"
      end;
  throw_if (MAX_REASONABLE_QUANTITY <? n) "unreasonably large";;
  mret n.

(** 999999999999.99999999. *)
Definition MAX_PERSISTABLE : Z := 10 ^ 20 - 1.

Definition assertPersistableExact (dec : Z) : res Z :=
  throw_if (MAX_PERSISTABLE <? dec) "exceeds the Decimal(20,8) persistence envelope";; mret dec.

(** [quantize8] of a value with [k] further decimals. *)
Definition quantize8 (coefficient : Z) (k : Z) : Z := rhu coefficient (10 ^ k).

Record item_in : Type := ItemIn { it_description : option string; it_quantity : jsval; it_unitPrice : jsval }.
Record line_item : Type := LineItem { li_description : string; li_quantity : Z; li_unitPrice : Z; li_lineTotal : Z }.

Inductive tax_type : Type := FLAT | PERCENTAGE.
Record tax_in : Type := TaxIn { tx_name : option string; tx_type : string; tx_value : jsval }.
Record tax_line : Type := TaxLine { tl_name : string; tl_type : tax_type; tl_value : Z; tl_computedAmount : Z }.

Record invoice : Type := Invoice {
  inv_subtotal : Z;
  inv_taxTotal : Z;
  inv_billTotal : Z;
  inv_lineItems : list line_item;
  inv_taxLines : list tax_line;
}.

Definition clean_text (n : nat) (o : option string) : string := str_take n (trim (default EmptyString o)).

Section Math.
Context `{DecimalLib}.

(** One item.  A product of 1e-8 units and an integer has at most 8 decimals,
    so the decimal-places check of the code never fires. *)
Definition compute_item (item : item_in) : res line_item :=
  qty ← parseStrictQuantity (it_quantity item);
  unit ← parseExactDecimal (it_unitPrice item);
  lineTotal ← assertPersistableExact (d_times unit qty);
  mret (LineItem (clean_text 200 (it_description item)) qty unit lineTotal).

Fixpoint compute_items (items : list item_in) (subtotal : Z) : res (Z * list line_item) :=
  match items with
  | [] => Ok (subtotal, [])
  | item :: rest =>
      li ← compute_item item;
      r ← compute_items rest (d_plus subtotal (li_lineTotal li));
      mret (r.1, li :: r.2)
  end.

Definition computeLineItemsExact (items : list item_in) : res (Z * list line_item) :=
  throw_if (length items =? 0)%nat "At least one line item is required.";;
  throw_if (50 <? length items)%nat "Maximum 50 line items per invoice.";;
  r ← compute_items items 0;
  assertPersistableExact r.1;;
  mret r.

Definition parse_tax_type (s : string) : option tax_type :=
  if String.eqb s "FLAT" then Some FLAT else if String.eqb s "PERCENTAGE" then Some PERCENTAGE else None.

Definition tax_amount (ty : tax_type) (subtotal value : Z) : Z :=
  match ty with
  | PERCENTAGE => quantize8 (d_times subtotal value) 10
  | FLAT => quantize8 value 0
  end.

Definition compute_tax (subtotal : Z) (t : tax_in) : res tax_line :=
  let name := clean_text 100 (tx_name t) in
  throw_if (String.length name =? 0)%nat "Tax line name is required.";;
  ty ← of_option (parse_tax_type (tx_type t)) "Unsupported tax line type";
  value ← parseExactDecimal (tx_value t);
  computedAmount ← assertPersistableExact (tax_amount ty subtotal value);
  mret (TaxLine name ty value computedAmount).

Fixpoint compute_taxes (subtotal : Z) (specs : list tax_in) (taxTotal : Z) : res (Z * list tax_line) :=
  match specs with
  | [] => Ok (taxTotal, [])
  | t :: rest =>
      tl ← compute_tax subtotal t;
      r ← compute_taxes subtotal rest (d_plus taxTotal (tl_computedAmount tl));
      mret (r.1, tl :: r.2)
  end.

Definition computeTaxLinesExact (specs : list tax_in) (subtotalDec : Z) : res (Z * list tax_line) :=
  r ← compute_taxes (quantize8 subtotalDec 0) specs 0;
  assertPersistableExact r.1;;
  mret r.

Definition computeInvoiceTotalsExact (items : list item_in) (specs : list tax_in) : res invoice :=
  r ← computeLineItemsExact items;
  t ← computeTaxLinesExact specs r.1;
  billTotal ← assertPersistableExact (d_plus r.1 t.1);
  mret (Invoice r.1 t.1 billTotal r.2 t.2).

(** ** Lemmas *)

Lemma persistable_Ok d r : assertPersistableExact d = Ok r -> r = d /\ d < 10 ^ 20.
Proof.
  unfold assertPersistableExact, MAX_PERSISTABLE. intros H1. res_inv H1. apply Z.ltb_ge in Hres. split; [done | lia].
Qed.

Lemma quantize8_0 z : quantize8 z 0 = z.
Proof. unfold quantize8. apply rhu_near; simpl; lia. Qed.

Lemma quantity_bounds v n : parseStrictQuantity v = Ok n -> 1 <= n <= MAX_REASONABLE_QUANTITY.
Proof.
  unfold parseStrictQuantity. intros H1. apply bind_Ok in H1 as (m & Hm & H1). res_inv H1. subst.
  apply Z.ltb_ge in Hres. split; [| done].
  destruct v as [| | | x | s | z | d |]; try done; [destruct x; try done |]; res_inv Hm; subst; lia.
Qed.

(** A line item is exact. *)
Definition item_exact (li : line_item) : Prop :=
  li_lineTotal li = li_unitPrice li * li_quantity li /\ 0 <= li_unitPrice li /\
  1 <= li_quantity li <= MAX_REASONABLE_QUANTITY /\ 0 <= li_lineTotal li < 10 ^ 20.

Lemma compute_item_exact item li :
  jsval_wf (it_unitPrice item) -> compute_item item = Ok li -> item_exact li.
Proof.
  intros Hw Hc. unfold compute_item in Hc. apply bind_Ok in Hc as (q & Hq & Hc). apply bind_Ok in Hc as (u & Hu & Hc).
  apply bind_Ok in Hc as (lt & Hlt & Hc). injection Hc as <-. apply persistable_Ok in Hlt as [-> Hb].
  apply quantity_bounds in Hq. apply toExactDecimal_nonneg in Hu; [| done]. unfold item_exact. simpl.
  unfold d_times in *. assert (Hnn : 0 <= u * q) by nia. rewrite dround_small in * by done. lia.
Qed.

Lemma compute_items_exact items acc r :
  Forall (fun i => jsval_wf (it_unitPrice i)) items -> 0 <= acc -> compute_items items acc = Ok r -> r.1 < 10 ^ 20 ->
  Forall item_exact r.2 /\ acc <= r.1 /\ r.1 = acc + sumZ li_lineTotal r.2.
Proof.
  intros Hw. revert acc r. induction Hw as [| item items Hi Hw IH]; intros acc r Ha Hc Hb; simpl in Hc.
  - injection Hc as <-. simpl. split; [constructor |]. lia.
  - apply bind_Ok in Hc as (li & Hli & Hc). apply bind_Ok in Hc as (r' & Hr & Hc). injection Hc as <-. simpl in *.
    apply compute_item_exact in Hli; [| done]. pose proof Hli as (_ & _ & _ & Hl).
    unfold d_plus in Hr. destruct (IH _ _ (dround_nonneg (acc + li_lineTotal li) ltac:(lia)) Hr Hb) as (H1 & H2 & H3).
    rewrite (dround_small (acc + li_lineTotal li)) in * by lia. split; [by constructor |]. lia.
Qed.

Lemma tax_amount_nonneg ty s v : 0 <= s -> 0 <= v -> 0 <= tax_amount ty s v.
Proof.
  intros Hs Hv. destruct ty; simpl; [by rewrite quantize8_0 |].
  apply rhu_nonneg; [lia |]. apply dround_nonneg. nia.
Qed.

Lemma compute_taxes_exact s specs acc r :
  Forall (fun t => jsval_wf (tx_value t)) specs -> 0 <= s -> 0 <= acc -> compute_taxes s specs acc = Ok r -> r.1 < 10 ^ 20 ->
  Forall (fun tl => tl_computedAmount tl = tax_amount (tl_type tl) s (tl_value tl) /\ 0 <= tl_value tl /\
            0 <= tl_computedAmount tl < 10 ^ 20) r.2 /\
  acc <= r.1 /\ r.1 = acc + sumZ tl_computedAmount r.2.
Proof.
  intros Hw Hs. revert acc r. induction Hw as [| t specs Ht Hw IH]; intros acc r Ha Hc Hb; simpl in Hc.
  - injection Hc as <-. simpl. split; [constructor |]. lia.
  - apply bind_Ok in Hc as (tl & Htl & Hc). apply bind_Ok in Hc as (r' & Hr & Hc). injection Hc as <-. simpl in *.
    unfold compute_tax in Htl. apply bind_Ok in Htl as (u & _ & Htl). apply bind_Ok in Htl as (ty & _ & Htl).
    apply bind_Ok in Htl as (v & Hv & Htl). apply bind_Ok in Htl as (a & Hca & Htl). injection Htl as <-.
    apply persistable_Ok in Hca as [-> Hlim]. apply toExactDecimal_nonneg in Hv; [| done].
    pose proof (tax_amount_nonneg ty s v Hs Hv) as Hnn. simpl in Hr. unfold d_plus in Hr.
    destruct (IH _ _ (dround_nonneg (acc + tax_amount ty s v) ltac:(lia)) Hr Hb) as (H1 & H2 & H3).
    rewrite (dround_small (acc + tax_amount ty s v)) in * by lia. simpl. split; [by constructor |]. lia.
Qed.
End Math.

(** The error of one decimal rounding. *)
Lemma dround_error `{DecimalLib} z k : 0 <= k -> 0 <= z < 10 ^ (20 + k) -> Z.abs (dround z - z) < 10 ^ k.
Proof.
  intros Hk Hz. assert (Hp : 0 < 10 ^ k) by (apply Z.pow_pos_nonneg; lia).
  set (c := z / 10 ^ k). pose proof (Z.div_mod z (10 ^ k) ltac:(lia)) as Hdm. fold c in Hdm.
  pose proof (Z.mod_pos_bound z (10 ^ k) Hp) as Hm.
  assert (Hc : 0 <= c < 10 ^ 20).
  { unfold c. split; [apply Z.div_pos; lia |]. apply Z.div_lt_upper_bound; [lia |].
    rewrite Z.mul_comm, <- Z.pow_add_r by lia. lia. }
  assert (Hlow : c * 10 ^ k <= dround z).
  { rewrite <- (dround_sig c k Hk) by lia. apply dround_mono. nia. }
  assert (Hup : dround z <= (c + 1) * 10 ^ k).
  { transitivity (dround ((c + 1) * 10 ^ k)); [apply dround_mono; nia |].
    destruct (Z.eq_dec (c + 1) (10 ^ 20)) as [-> | Hne].
    - rewrite <- Z.pow_add_r by lia. pose proof (dround_sig 1 (20 + k) ltac:(lia) ltac:(lia)) as Hs.
      rewrite Z.mul_1_l in Hs. by rewrite Hs.
    - rewrite dround_sig by lia. lia. }
  destruct (Z.eq_dec (z mod 10 ^ k) 0) as [Hz0 | Hz0]; [| nia].
  assert (Hexact : z = c * 10 ^ k) by lia. rewrite Hexact. rewrite dround_sig by lia. lia.
Qed.

(** The exact total of parsed prices and quantities. *)
Definition parsed_total (us qs : list Z) : Z := sumZ (fun p => p.1 * p.2) (zip us qs).

Lemma mapR_cons {A B} (f : A -> res B) x l ys :
  mapR f (x :: l) = Ok ys -> exists y ys', f x = Ok y /\ mapR f l = Ok ys' /\ ys = y :: ys'.
Proof.
  simpl. intros H. apply bind_Ok in H as (y & Hy & H). apply bind_Ok in H as (ys' & Hys & H). injection H as <-. eauto.
Qed.

Lemma parsed_total_nonneg items us qs :
  Forall (fun i => jsval_wf (it_unitPrice i)) items ->
  mapR (fun i => parseExactDecimal (it_unitPrice i)) items = Ok us ->
  mapR (fun i => parseStrictQuantity (it_quantity i)) items = Ok qs -> 0 <= parsed_total us qs.
Proof.
  intros Hw. revert us qs. induction Hw as [| i items Hi Hw IH]; intros us qs Hus Hqs; [by injection Hus as <- |].
  apply mapR_cons in Hus as (u & us' & Hu & Hus & ->). apply mapR_cons in Hqs as (q & qs' & Hq & Hqs & ->).
  pose proof (toExactDecimal_nonneg _ _ Hi Hu). pose proof (quantity_bounds _ _ Hq). specialize (IH us' qs' Hus Hqs).
  unfold parsed_total in *. simpl. nia.
Qed.

Lemma compute_items_accept `{DecimalLib} items us qs acc :
  Forall (fun i => jsval_wf (it_unitPrice i)) items ->
  mapR (fun i => parseExactDecimal (it_unitPrice i)) items = Ok us ->
  mapR (fun i => parseStrictQuantity (it_quantity i)) items = Ok qs ->
  0 <= acc -> acc + parsed_total us qs < 10 ^ 20 ->
  exists lis, compute_items items acc = Ok (acc + parsed_total us qs, lis) /\
    map li_unitPrice lis = us /\ map li_quantity lis = qs.
Proof.
  intros Hw. revert us qs acc. induction Hw as [| i items Hi Hw IH]; intros us qs acc Hus Hqs Ha Hb.
  - injection Hus as <-. injection Hqs as <-. exists []. unfold parsed_total. simpl. by rewrite Z.add_0_r.
  - apply mapR_cons in Hus as (u & us' & Hu & Hus & ->). apply mapR_cons in Hqs as (q & qs' & Hq & Hqs & ->).
    pose proof (toExactDecimal_nonneg _ _ Hi Hu) as Hu0. pose proof (quantity_bounds _ _ Hq) as Hq0.
    pose proof (parsed_total_nonneg items us' qs' Hw Hus Hqs) as Hrest. assert (Hprod : 0 <= u * q) by nia.
    assert (Hsplit : parsed_total (u :: us') (q :: qs') = u * q + parsed_total us' qs') by done.
    rewrite Hsplit in *.
    destruct (IH us' qs' (acc + u * q) Hus Hqs ltac:(lia) ltac:(lia)) as (lis & Hlis & <- & <-).
    exists (LineItem (clean_text 200 (it_description i)) q u (u * q) :: lis). split; [| done].
    simpl. unfold compute_item. rewrite Hq. simpl. rewrite Hu. simpl.
    unfold d_times, d_plus, assertPersistableExact, MAX_PERSISTABLE.
    rewrite (dround_exact (u * q)) by lia. destruct (Z.ltb_spec (10 ^ 20 - 1) (u * q)); [lia |]. simpl.
    rewrite (dround_exact (acc + u * q)) by lia. rewrite Hlis. simpl. by rewrite Z.add_assoc.
Qed.

Lemma compute_items_length `{DecimalLib} items acc r : compute_items items acc = Ok r -> length r.2 = length items.
Proof.
  revert acc r. induction items as [| i items IH]; intros acc r Hr; simpl in Hr; [by injection Hr as <- |].
  apply bind_Ok in Hr as (li & _ & Hr). apply bind_Ok in Hr as (r' & Hr' & Hr). injection Hr as <-.
  simpl. f_equal. by eapply IH.
Qed.

(** ** Theorems *)

Section Theorems.
Context `{DecimalLib}.

(** C36: an accepted invoice is exact: every line total is unit price times
    quantity, the subtotal is the sum of the lines, the tax total the sum of
    the stored tax lines and the bill total their sum, with no rounding, and
    every stored amount fits the Decimal(20,8) column. *)
Theorem invoice_exact items specs inv :
  Forall (fun i => jsval_wf (it_unitPrice i)) items -> Forall (fun t => jsval_wf (tx_value t)) specs ->
  computeInvoiceTotalsExact items specs = Ok inv ->
  Forall item_exact (inv_lineItems inv) /\ (1 <= length (inv_lineItems inv) <= 50)%nat /\
  inv_subtotal inv = sumZ li_lineTotal (inv_lineItems inv) /\
  inv_taxTotal inv = sumZ tl_computedAmount (inv_taxLines inv) /\
  inv_billTotal inv = inv_subtotal inv + inv_taxTotal inv /\
  0 <= inv_subtotal inv /\ 0 <= inv_taxTotal inv /\ inv_billTotal inv < DECIMAL_20_8_LIMIT.
Proof.
  intros Hwi Hwt Hc. unfold computeInvoiceTotalsExact in Hc. apply bind_Ok in Hc as (r & Hr & Hc).
  apply bind_Ok in Hc as (t & Ht & Hc). apply bind_Ok in Hc as (b & Hb & Hc). injection Hc as <-. simpl.
  unfold computeLineItemsExact in Hr. apply bind_Ok in Hr as (u & Hne & Hr). apply bind_Ok in Hr as (u' & Hmax & Hr).
  apply bind_Ok in Hr as (r0 & Hr0 & Hr). apply bind_Ok in Hr as (p & Hp & Hr). injection Hr as ->.
  apply persistable_Ok in Hp as [_ Hp]. apply throw_if_Ok, Nat.eqb_neq in Hne. apply throw_if_Ok, Nat.ltb_ge in Hmax.
  pose proof (compute_items_length _ _ _ Hr0) as Hlen.
  destruct (compute_items_exact items 0 r Hwi ltac:(lia) Hr0 Hp) as (Hitems & Hle & Hsum).
  unfold computeTaxLinesExact in Ht. rewrite quantize8_0 in Ht. apply bind_Ok in Ht as (t0 & Ht0 & Ht).
  apply bind_Ok in Ht as (p' & Hp' & Ht). injection Ht as ->. apply persistable_Ok in Hp' as [_ Hp'].
  destruct (compute_taxes_exact r.1 specs 0 t Hwt Hle ltac:(lia) Ht0 Hp') as (_ & Hle' & Hsum').
  apply persistable_Ok in Hb as [-> Hb]. unfold d_plus in *.
  rewrite (dround_small (r.1 + t.1)) in * by lia. unfold DECIMAL_20_8_LIMIT. rewrite Hlen. split_and!; try done; lia.
Qed.

(** A percentage tax line is the half-up quantization of the exact tax
    whenever the product of subtotal and rate has at most 20 digits, and it is
    within 1.5 units (1.5e-8) of the exact tax whenever it can be stored. *)
Theorem percentage_tax_accurate subtotal value :
  0 <= subtotal -> 0 <= value ->
  let tax := tax_amount PERCENTAGE subtotal value in
  (subtotal * value < 10 ^ 20 -> tax = rhu (subtotal * value) (10 ^ 10)) /\
  (tax < DECIMAL_20_8_LIMIT -> 2 * Z.abs (tax * 10 ^ 10 - subtotal * value) < 3 * 10 ^ 10).
Proof.
  intros Hs Hv tax. assert (Hnn : 0 <= subtotal * value) by nia. unfold tax, tax_amount, quantize8, d_times. split.
  - intros Hlt. by rewrite dround_exact by lia.
  - unfold DECIMAL_20_8_LIMIT. intros Hlt. pose proof (rhu_spec (dround (subtotal * value)) (10 ^ 10) ltac:(lia)) as Hr.
    assert (Hlim : subtotal * value < 10 ^ 30).
    { destruct (Z.lt_ge_cases (subtotal * value) (10 ^ 30)) as [? | Hge]; [done | exfalso].
      pose proof (dround_mono _ _ Hge) as Hm. pose proof (dround_sig 1 30 ltac:(lia) ltac:(lia)) as H1.
      rewrite Z.mul_1_l in H1. rewrite H1 in Hm. lia. }
    pose proof (dround_error (subtotal * value) 10 ltac:(lia) ltac:(lia)) as He. lia.
Qed.

(** Line items whose prices and quantities parse and whose exact totals
    fit the envelope are accepted, with exactly those totals. *)
Theorem line_items_accepted items us qs :
  Forall (fun i => jsval_wf (it_unitPrice i)) items -> (1 <= length items <= 50)%nat ->
  mapR (fun i => parseExactDecimal (it_unitPrice i)) items = Ok us ->
  mapR (fun i => parseStrictQuantity (it_quantity i)) items = Ok qs ->
  parsed_total us qs < 10 ^ 20 ->
  exists lis, computeLineItemsExact items = Ok (parsed_total us qs, lis) /\
    map li_unitPrice lis = us /\ map li_quantity lis = qs.
Proof.
  intros Hw Hlen Hus Hqs Hsum. unfold computeLineItemsExact.
  destruct (Nat.eqb_spec (length items) 0); [lia |]. destruct (Nat.ltb_spec 50 (length items)); [lia |].
  destruct (compute_items_accept items us qs 0 Hw Hus Hqs ltac:(lia) Hsum) as (lis & Hlis & Hu & Hq).
  rewrite Z.add_0_l in Hlis. exists lis. simpl. rewrite Hlis. simpl. unfold assertPersistableExact, MAX_PERSISTABLE.
  destruct (Z.ltb_spec (10 ^ 20 - 1) (parsed_total us qs)); [lia | done].
Qed.
End Theorems.

(** An accepted quantity lies between 1 and 10^9, and every such integer
    written in decimal is accepted as itself. *)
Theorem quantity_parse :
  (forall v n, parseStrictQuantity v = Ok n -> 1 <= n <= MAX_REASONABLE_QUANTITY) /\
  (forall n, 1 <= n <= MAX_REASONABLE_QUANTITY -> parseStrictQuantity (VStr (Z_digits n)) = Ok n).
Proof.
  split; [apply quantity_bounds |]. unfold MAX_REASONABLE_QUANTITY. intros n Hn. unfold parseStrictQuantity.
  rewrite trim_id by (eapply str_forall_impl; [apply digit_not_space | apply Z_digits_digits]).
  unfold str_is_digits. rewrite Z_digits_digits. pose proof (Z_digits_nonempty n).
  destruct (Nat.eqb_spec (String.length (Z_digits n)) 0); [done |]. rewrite Z_digits_val by lia.
  destruct (Z.ltb_spec (2 ^ 53 - 1) n); [lia |]. destruct (Z.ltb_spec n 1); [lia |]. simpl.
  unfold MAX_REASONABLE_QUANTITY. by destruct (Z.ltb_spec 1000000000 n); [lia |].
Qed.

(** ** Examples and witnesses *)

(** The rounding of the product to 20 digits precedes the quantization, so a
    tax can be half a unit off the half-up rounding of the exact tax: subtotal
    8000062.49999999 at 12.50000001 %. *)
Theorem tax_rounds_twice :
  @tax_amount Decimal20 PERCENTAGE 800006249999999 1250000001 = 100000781330001 /\
  rhu (800006249999999 * 1250000001) (10 ^ 10) = 100000781330000.
Proof. split; vm_compute; reflexivity. Qed.

Definition ex_items : list item_in :=
  [ItemIn (Some " coffee "%string) (VStr "3") (VStr "0.04115226"); ItemIn None (VNum (Num.Fin (inject_Z 2))) (VNum (Num.Fin (1 # 2)))].
Definition ex_taxes : list tax_in := [TaxIn (Some "VAT"%string) "PERCENTAGE" (VStr "5"); TaxIn (Some "levy"%string) "FLAT" (VStr "0.1")].
Definition ex_invoice : invoice :=
  Invoice 112345678 15617284 127962962
    [LineItem "coffee" 3 4115226 12345678; LineItem "" 2 50000000 100000000]
    [TaxLine "VAT" PERCENTAGE 500000000 5617284; TaxLine "levy" FLAT 10000000 10000000].

Lemma invoice_exact_witness :
  @computeInvoiceTotalsExact Decimal20 ex_items ex_taxes = Ok ex_invoice /\
  inv_billTotal ex_invoice = inv_subtotal ex_invoice + inv_taxTotal ex_invoice.
Proof.
  assert (Hc : @computeInvoiceTotalsExact Decimal20 ex_items ex_taxes = Ok ex_invoice) by (vm_compute; reflexivity).
  split; [exact Hc |].
  apply (@invoice_exact Decimal20 ex_items ex_taxes ex_invoice); [repeat constructor | repeat constructor | exact Hc].
Defined.

Lemma percentage_tax_accurate_witness :
  @tax_amount Decimal20 PERCENTAGE 12345678 500000000 = rhu (12345678 * 500000000) (10 ^ 10) /\
  @tax_amount Decimal20 PERCENTAGE 12345678 500000000 = 617284.
Proof.
  split; [| vm_compute; reflexivity].
  apply (@percentage_tax_accurate Decimal20 12345678 500000000); lia.
Defined.

Lemma line_items_accepted_witness :
  exists lis, @computeLineItemsExact Decimal20 ex_items = Ok (parsed_total [4115226; 50000000] [3; 2], lis) /\
    map li_unitPrice lis = [4115226; 50000000] /\ map li_quantity lis = [3; 2].
Proof.
  apply (@line_items_accepted Decimal20 ex_items).
  - repeat constructor.
  - simpl. lia.
  - vm_compute. reflexivity.
  - vm_compute. reflexivity.
  - vm_compute. reflexivity.
Defined.
