(* ===== verification/Payroll.v ===== *)
(** * Payroll arithmetic (utils/payrollMath.js)

    Money is in 1e-8 units, as the Decimal(20,8) columns hold it; an absent
    amount is zero.  Division of the decimal library, to 20 significant digits,
    is the parameter [DecimalDiv]: it is monotone and does not change a
    quotient of at most 20 digits.

    Theorems: base and overtime pay are the exact quotients rounded half up
    once, although the library rounds twice; gross and net add up. *)

From stdpp Require Import base gmap strings list.
From Stdlib Require Import ZArith QArith Lia Lqa.
From S2P Require Import Prelude JsNumber ExactDecimal Ledger.

Local Open Scope Z_scope.

Class DecimalDiv : Type := {
  dquot : Z -> Z -> Q;
  dquot_exact : forall x y c k, 0 < y -> 0 <= k -> Z.abs c < 10 ^ 20 -> x * 10 ^ k = c * y ->
    Qeq (dquot x y) (c # Z.to_pos (10 ^ k));
  dquot_mono : forall x1 y1 x2 y2, 0 < y1 -> 0 < y2 -> x1 * y2 <= x2 * y1 -> Qle (dquot x1 y1) (dquot x2 y2);
}.

Definition OVERTIME_THRESHOLD_MINUTES : Z := 480.

Definition toDecimal (v : option Z) : Z := default 0 v.

(** [toDecimalPlaces(_, ROUND_HALF_UP)] of a non-negative value. *)
Definition half_up (q : Q) : Z := rhu (Qnum q) (Zpos (Qden q)).
Definition money (q : Q) : Z := half_up q.
(** Hundredths of an hour. *)
Definition hours (q : Q) : Z := half_up (inject_Z 100 * q).

Inductive payroll_type : Type := SALARY | HOURLY | OTHER.
Record employee : Type := Employee {
  payrollType : payroll_type;
  salaryAmount : option Z;
  hourlyRate : option Z;
  withdrawnEarly : option Z;
}.
Record shift : Type := Shift { actualMinutes : option Z; breakMinutes : option Z }.

Record payroll : Type := PayrollResult {
  grossAmount : Z;
  netAmount : Z;
  baseAmount : Z;
  overtimeAmount : Z;
  ewaDeduction : Z;
  taxAmount : Z;
  deductionAmount : Z;
  totalHours : Z;
  overtimeHours : Z;
  regularHours : Z;
  shiftCount : nat;
}.

Definition workedMinutesOf (s : shift) : Z :=
  Z.max 0 (default 0 (actualMinutes s) - default 0 (breakMinutes s)).
Definition overtimeOf (s : shift) : Z := Z.max 0 (workedMinutesOf s - OVERTIME_THRESHOLD_MINUTES).

Section Payroll.
Context `{DecimalLib} `{DecimalDiv}.

Definition base_amount (e : employee) (minutes : Z) : Z :=
  match payrollType e with
  | SALARY => money (inject_Z (toDecimal (salaryAmount e)))
  | HOURLY => money (dquot (d_times (toDecimal (hourlyRate e)) minutes) 60)
  | OTHER => 0
  end.

Definition overtime_amount (e : employee) (minutes : Z) : Z :=
  match payrollType e with
  | HOURLY => money (dquot (d_times (toDecimal (hourlyRate e)) minutes) 120)
  | _ => 0
  end.

Definition calculatePayroll (e : employee) (shifts : list shift) : payroll :=
  let sumWorkedMinutes := foldl (fun sum s => sum + workedMinutesOf s) 0 shifts in
  let overtimeMinutes := foldl (fun sum s => sum + overtimeOf s) 0 shifts in
  let ewa := toDecimal (withdrawnEarly e) in
  let base := base_amount e sumWorkedMinutes in
  let overtime := overtime_amount e overtimeMinutes in
  let gross := d_plus base overtime in
  let net := d_minus (d_minus (d_minus gross ewa) 0) 0 in
  let total := hours (dquot sumWorkedMinutes 60) in
  let ot := hours (dquot overtimeMinutes 60) in
  PayrollResult gross net base overtime ewa 0 0 total ot (d_minus total ot) (length shifts).

(** ** Rounding twice is rounding once *)

Lemma half_up_unique q n : Qle ((2 * n - 1) # 2) q -> Qlt q ((2 * n + 1) # 2) -> half_up q = n.
Proof.
  intros Hl Hu. unfold half_up. destruct q as [a b]. unfold Qle, Qlt in *. simpl in *. apply rhu_near; lia.
Qed.

(** A quotient by a divisor of 120 that is not a tie stays at a distance of
    one hundred-and-twentieth from the tie above it. *)
Lemma half_up_quotient x y n :
  0 < y -> y <= 120 -> 0 <= x -> n = rhu x y -> 0 <= n < 10 ^ 17 -> half_up (dquot x y) = n.
Proof.
  intros Hy Hy' Hx Hn Hb. pose proof (rhu_spec x y Hy) as Hr. rewrite <- Hn in Hr.
  apply half_up_unique.
  - pose proof (dquot_exact (10 * n - 5) 10 (10 * n - 5) 1 ltac:(lia) ltac:(lia) ltac:(lia) ltac:(lia)) as He.
    change (Z.to_pos (10 ^ 1)) with 10%positive in He.
    pose proof (dquot_mono (10 * n - 5) 10 x y ltac:(lia) Hy ltac:(nia)) as Hm. rewrite He in Hm.
    eapply Qle_trans; [| exact Hm]. unfold Qle. simpl. lia.
  - pose proof (dquot_exact (1000 * n + 496) 1000 (1000 * n + 496) 3 ltac:(lia) ltac:(lia) ltac:(lia) ltac:(lia)) as He.
    change (Z.to_pos (10 ^ 3)) with 1000%positive in He.
    pose proof (dquot_mono x y (1000 * n + 496) 1000 Hy ltac:(lia) ltac:(nia)) as Hm. rewrite He in Hm.
    eapply Qle_lt_trans; [exact Hm |]. unfold Qlt. simpl. lia.
Qed.

Lemma fold_minutes (f : shift -> Z) acc l : foldl (fun sum s => sum + f s) acc l = acc + sumZ f l.
Proof. revert acc. induction l as [| s l IH]; intros acc; simpl; [lia |]. rewrite IH. lia. Qed.

Lemma minutes_nonneg l : 0 <= sumZ overtimeOf l <= sumZ workedMinutesOf l.
Proof.
  induction l as [| s l IH]; simpl; [lia |].
  assert (Hs : 0 <= overtimeOf s <= workedMinutesOf s) by (unfold overtimeOf, workedMinutesOf, OVERTIME_THRESHOLD_MINUTES; lia).
  lia.
Qed.

(** C38: payroll money is exact.  For an hourly employee, base pay is the rate
    times the worked minutes over 60, and overtime half the rate on the minutes
    beyond eight hours of each shift, each rounded half up once to 8 decimals;
    a salary is paid as stored.  Gross is their sum and net is gross minus the
    early withdrawal. *)
Theorem payroll_exact e shifts rate :
  toDecimal (hourlyRate e) = rate -> 0 <= rate ->
  rate * sumZ workedMinutesOf shifts < 10 ^ 17 -> 0 <= toDecimal (salaryAmount e) < 10 ^ 17 ->
  Z.abs (toDecimal (withdrawnEarly e)) < 10 ^ 17 ->
  let r := calculatePayroll e shifts in
  baseAmount r = match payrollType e with
                 | HOURLY => rhu (rate * sumZ workedMinutesOf shifts) 60
                 | SALARY => toDecimal (salaryAmount e)
                 | OTHER => 0
                 end /\
  overtimeAmount r = match payrollType e with HOURLY => rhu (rate * sumZ overtimeOf shifts) 120 | _ => 0 end /\
  grossAmount r = baseAmount r + overtimeAmount r /\
  netAmount r = grossAmount r - toDecimal (withdrawnEarly e).
Proof.
  intros Hrate Hr0 Hlim Hsal Hewa r. pose proof (minutes_nonneg shifts) as Hmin.
  set (W := sumZ workedMinutesOf shifts) in *. set (O := sumZ overtimeOf shifts) in *.
  assert (HO : 0 <= rate * O <= rate * W) by nia.
  assert (Hq : forall x y, 0 < y -> y <= 120 -> 0 <= x < 10 ^ 17 -> half_up (dquot x y) = rhu x y /\ 0 <= rhu x y < 10 ^ 17).
  { intros x y Hy Hy' Hx. pose proof (rhu_nonneg x y Hy (proj1 Hx)). pose proof (rhu_spec x y Hy).
    assert (rhu x y <= x) by nia. split; [| lia]. apply half_up_quotient; lia. }
  assert (Hb : baseAmount r = match payrollType e with HOURLY => rhu (rate * W) 60 | SALARY => toDecimal (salaryAmount e) | OTHER => 0 end).
  { unfold r, calculatePayroll, base_amount. simpl. rewrite fold_minutes, Z.add_0_l. fold W.
    destruct (payrollType e); [| | done].
    - unfold money, half_up, inject_Z. simpl. apply rhu_near; lia.
    - rewrite Hrate. unfold d_times. rewrite dround_exact by lia. apply Hq; lia. }
  assert (Ho : overtimeAmount r = match payrollType e with HOURLY => rhu (rate * O) 120 | _ => 0 end).
  { unfold r, calculatePayroll, overtime_amount. simpl. rewrite fold_minutes, Z.add_0_l. fold O.
    destruct (payrollType e); [done | | done].
    rewrite Hrate. unfold d_times. rewrite dround_exact by lia. apply Hq; lia. }
  pose proof (Hq (rate * W) 60 ltac:(lia) ltac:(lia) ltac:(lia)) as [_ HW].
  pose proof (Hq (rate * O) 120 ltac:(lia) ltac:(lia) ltac:(lia)) as [_ HO'].
  assert (Hbb : 0 <= baseAmount r < 10 ^ 17) by (rewrite Hb; destruct (payrollType e); lia).
  assert (Hoo : 0 <= overtimeAmount r < 10 ^ 17) by (rewrite Ho; destruct (payrollType e); lia).
  assert (Hg : grossAmount r = baseAmount r + overtimeAmount r).
  { change (grossAmount r) with (d_plus (baseAmount r) (overtimeAmount r)). unfold d_plus. apply dround_exact. lia. }
  split_and!; try done.
  change (netAmount r) with (d_minus (d_minus (d_minus (grossAmount r) (toDecimal (withdrawnEarly e))) 0) 0).
  unfold d_minus. rewrite !Z.sub_0_r. rewrite !(dround_exact (grossAmount r - _)) by lia. done.
Qed.
End Payroll.

(** ** Witness *)

(** Exact division satisfies the interface. *)
Definition ExactDiv : DecimalDiv.
Proof.
  refine {| dquot x y := x # Z.to_pos y |}.
  - intros x y c k Hy Hk _ Heq. unfold Qeq. simpl. rewrite (Z2Pos.id y) by done. rewrite Z2Pos.id by (apply Z.pow_pos_nonneg; lia). done.
  - intros x1 y1 x2 y2 H1 H2 Hle. unfold Qle. simpl. rewrite !Z2Pos.id by lia. done.
Defined.

Definition ex_employee : employee := Employee HOURLY None (Some 1234567891) (Some 100000000).
Definition ex_shifts : list shift := [Shift (Some 545) (Some 30); Shift (Some 431) None].

Lemma payroll_exact_witness :
  baseAmount (@calculatePayroll Decimal20 ExactDiv ex_employee ex_shifts) = rhu (1234567891 * 946) 60 /\
  rhu (1234567891 * 946) 60 = 19465020415.
Proof.
  split; [| reflexivity].
  apply (@payroll_exact Decimal20 ExactDiv ex_employee ex_shifts 1234567891); vm_compute; (reflexivity || (split; (reflexivity || discriminate)) || discriminate).
Defined.
