(* ===== verification/Escrow.v ===== *)
(** * Smart escrow (services/escrowService.js)

    State: users' three balance buckets, escrows, disputes, the platform fee
    balance, the transaction history, the profit log, the authoritative ledger
    and the idempotency claims ([edb]).  Operations: one definition per service
    function and per transaction primitive; a function that reads before it
    opens its transaction is split into the check of what it read and the
    transaction, so that the read may be stale.

    Amounts are Decimal(20,8) columns in 1e-8 units.  The service reads them
    with [Number()], computes in doubles and hands doubles to the database
    client; what the client stores for a double is the parameter
    [PrismaNumber].  Random ids and clocks are arguments.  Socket events,
    notifications, order synchronization and business statistics run after
    the commit and touch no money; they are not modelled, and neither are the
    descriptive columns (delivery terms, due date, evidence, the percentages of
    a ruling, posting metadata). *)

From stdpp Require Import base gmap strings list.
From Stdlib Require Import ZArith QArith Lia Ascii.
From S2P Require Import Prelude JsNumber ExactDecimal Json Ledger Idempotency.

Local Open Scope Z_scope.

(** The value a Decimal(20,8) column receives for a double: a double that came
    from a decimal of at most 15 digits goes back to that decimal, and rounding
    keeps the sign. *)
Class PrismaNumber : Type := {
  num_to_col : Q -> Z;
  num_to_col_units : forall u q, Z.abs u <= SAFE_UNITS -> Qeq q (u # 100000000) -> num_to_col (fl q) = u;
  num_to_col_nonneg : forall x, 0 <= Qnum x -> 0 <= num_to_col x;
}.

(** ** Rows *)

Inductive escrow_status : Type :=
| DRAFT | FUNDED | IN_PROGRESS_ | PENDING_SETTLEMENT | SETTLED | DISPUTED | ADMIN_REVIEW | RELEASED | REFUNDED | EXPIRED.
Inductive dispute_status : Type := D_PENDING | D_ASSIGNED | D_UNDER_REVIEW | D_RESOLVED.
Inductive ruling : Type := FULL_RELEASE | FULL_REFUND | SPLIT.
Inductive hist_type : Type := TICKET_ESCROW_FUND | TICKET_ESCROW_RELEASE | TICKET_ESCROW_REFUND | OTHER_TYPE (name : string).

#[export] Instance escrow_status_eq_dec : EqDecision escrow_status.
Proof. solve_decision. Defined.
#[export] Instance dispute_status_eq_dec : EqDecision dispute_status.
Proof. solve_decision. Defined.
#[export] Instance ruling_eq_dec : EqDecision ruling.
Proof. solve_decision. Defined.

Record user_row : Type := UserRow {
  availableBalance : Z;
  escrowLockedBalance : Z;
  disputeEscrowBalance : Z;
  isAdmin : bool;
}.

Record escrow_row : Type := EscrowRow {
  es_ticketId : string;
  es_payerId : Z;
  es_payeeId : Z;
  es_amountUsdc : Z;
  es_feeUsdc : Z;
  es_status : escrow_status;
  es_payerSatisfied : bool;
  es_payeeSatisfied : bool;
  es_fundedAt : option Z;
  es_settledAt : option Z;
  es_refundedAt : option Z;
  es_expiresAt : Z;
  es_fundTxHash : option string;
  es_releaseTxHash : option string;
  es_refundTxHash : option string;
}.

Record dispute_row : Type := DisputeRow {
  ds_raisedById : Z;
  ds_reason : string;
  ds_status : dispute_status;
  ds_assignedToId : option Z;
  ds_ruling : option ruling;
  ds_rulingNotes : option string;
  ds_resolvedAt : option Z;
}.

Record hist_row : Type := HistRow {
  hs_userId : Z;
  hs_type : hist_type;
  hs_amountUsdc : Z;
  hs_feeUsdc : Z;
  hs_txHash : option string;
  hs_completed : bool;
}.

Record settings : Type := Settings {
  smartEscrowFeePct : option Q;
  escrowDraftExpiryHours : option Z;
  escrowFundedExpiryDays : option Z;
}.

Record edb : Type := EDB {
  users : gmap Z user_row;
  escrows : gmap string escrow_row;
  disputes : gmap string dispute_row;
  profitFees : Z;
  hist : list hist_row;
  profitLog : list (Z * string);
  ledger : ldb;
  operations : table;
  globalSettings : settings;
}.

Definition set_users (x : gmap Z user_row) (s : edb) : edb :=
  EDB x (escrows s) (disputes s) (profitFees s) (hist s) (profitLog s) (ledger s) (operations s) (globalSettings s).
Definition set_escrows (x : gmap string escrow_row) (s : edb) : edb :=
  EDB (users s) x (disputes s) (profitFees s) (hist s) (profitLog s) (ledger s) (operations s) (globalSettings s).
Definition set_disputes (x : gmap string dispute_row) (s : edb) : edb :=
  EDB (users s) (escrows s) x (profitFees s) (hist s) (profitLog s) (ledger s) (operations s) (globalSettings s).
Definition set_profitFees (x : Z) (s : edb) : edb :=
  EDB (users s) (escrows s) (disputes s) x (hist s) (profitLog s) (ledger s) (operations s) (globalSettings s).
Definition add_hist (h : hist_row) (s : edb) : edb :=
  EDB (users s) (escrows s) (disputes s) (profitFees s) (hist s ++ [h]) (profitLog s) (ledger s) (operations s) (globalSettings s).
Definition add_profitLog (x : Z * string) (s : edb) : edb :=
  EDB (users s) (escrows s) (disputes s) (profitFees s) (hist s) (profitLog s ++ [x]) (ledger s) (operations s) (globalSettings s).
Definition set_ledger (x : ldb) (s : edb) : edb :=
  EDB (users s) (escrows s) (disputes s) (profitFees s) (hist s) (profitLog s) x (operations s) (globalSettings s).
Definition set_operations (x : table) (s : edb) : edb :=
  EDB (users s) (escrows s) (disputes s) (profitFees s) (hist s) (profitLog s) (ledger s) x (globalSettings s).

(** ** Statements *)

(** A change of the three buckets. *)
Record delta : Type := Delta { da : Z; dl : Z; dd : Z }.
Definition apply_delta (d : delta) (u : user_row) : user_row :=
  UserRow (availableBalance u + da d) (escrowLockedBalance u + dl d) (disputeEscrowBalance u + dd d) (isAdmin u).

(** The columns are Decimal(20,8) with a CHECK that they are not negative. *)
Definition column_ok (z : Z) : bool := (0 <=? z) && (z <? DECIMAL_20_8_LIMIT).
Definition user_ok (u : user_row) : bool :=
  column_ok (availableBalance u) && column_ok (escrowLockedBalance u) && column_ok (disputeEscrowBalance u).

(** [tx.user.update]: a missing row is P2025. *)
Definition user_update (id : Z) (d : delta) : M edb unit :=
  s ← get;
  match users s !! id with
  | None => throw "P2025"
  | Some u =>
      let u' := apply_delta d u in
      check (user_ok u') "CHECK_VIOLATION";;
      put (set_users (<[id := u']> (users s)) s)
  end.

(** [tx.user.updateMany] with a condition on the row: the count. *)
Definition user_updateMany (id : Z) (cond : user_row -> bool) (d : delta) : M edb nat :=
  s ← get;
  match users s !! id with
  | Some u => if cond u then user_update id d;; mret 1%nat else mret 0%nat
  | None => mret 0%nat
  end.

(** [tx.smartEscrow.updateMany] with a condition on the row. *)
Definition escrow_updateMany (id : string) (cond : escrow_row -> bool) (f : escrow_row -> escrow_row) : M edb nat :=
  s ← get;
  match escrows s !! id with
  | Some e => if cond e then put (set_escrows (<[id := f e]> (escrows s)) s);; mret 1%nat else mret 0%nat
  | None => mret 0%nat
  end.

Definition escrow_find (id : string) : M edb (option escrow_row) := reads (fun s => escrows s !! id).

(** INSERT of a history row; [txHash] is unique where it is set. *)
Definition history_create (h : hist_row) : M edb unit :=
  s ← get;
  check (negb (existsb (fun x => bool_decide (is_Some (hs_txHash h)) && bool_decide (hs_txHash x = hs_txHash h)) (hist s))) "P2002";;
  check (column_ok (Z.abs (hs_amountUsdc h)) && column_ok (hs_feeUsdc h)) "CHECK_VIOLATION";;
  put (add_hist h s).

(** [tx.escrowDispute.update where status is not RESOLVED]. *)
Definition dispute_update (id : string) (f : dispute_row -> dispute_row) : M edb dispute_row :=
  s ← get;
  match disputes s !! id with
  | Some d =>
      if bool_decide (ds_status d = D_RESOLVED) then throw "P2025"
      else put (set_disputes (<[id := f d]> (disputes s)) s);; mret (f d)
  | None => throw "P2025"
  end.

Definition with_status (st : escrow_status) (e : escrow_row) : escrow_row :=
  EscrowRow (es_ticketId e) (es_payerId e) (es_payeeId e) (es_amountUsdc e) (es_feeUsdc e) st
    (es_payerSatisfied e) (es_payeeSatisfied e) (es_fundedAt e) (es_settledAt e) (es_refundedAt e) (es_expiresAt e)
    (es_fundTxHash e) (es_releaseTxHash e) (es_refundTxHash e).

Definition LIVE : list escrow_status := [FUNDED; IN_PROGRESS_; PENDING_SETTLEMENT].
Definition IN_DISPUTE : list escrow_status := [DISPUTED; ADMIN_REVIEW].
Definition in_status (l : list escrow_status) (e : escrow_row) : bool := existsb (fun st => bool_decide (es_status e = st)) l.

(** ** Account codes and keys *)

Definition locked_code (id : string) : string := ("escrow:escrow-" +:+ id +:+ ":locked")%string.
Definition dispute_code (u : Z) : string := ("user:" +:+ Z_digits u +:+ ":dispute")%string.

Definition status_text (st : escrow_status) : string :=
  match st with
  | DRAFT => "DRAFT" | FUNDED => "FUNDED" | IN_PROGRESS_ => "IN_PROGRESS" | PENDING_SETTLEMENT => "PENDING_SETTLEMENT"
  | SETTLED => "SETTLED" | DISPUTED => "DISPUTED" | ADMIN_REVIEW => "ADMIN_REVIEW" | RELEASED => "RELEASED"
  | REFUNDED => "REFUNDED" | EXPIRED => "EXPIRED"
  end.

Definition fund_key (id : string) : string := ("ledger:escrow:fund:" +:+ id)%string.
Definition dispute_key (id : string) : string := ("ledger:escrow:dispute:" +:+ id)%string.
Definition settle_key (id : string) : string := ("ledger:escrow:dispute:settle:" +:+ id)%string.
Definition release_key (id : string) (st : escrow_status) : string :=
  ("ledger:escrow:release:" +:+ id +:+ ":" +:+ status_text st)%string.
Definition refund_key (id : string) (st : escrow_status) : string :=
  ("ledger:escrow:refund:" +:+ id +:+ ":" +:+ status_text st)%string.

(** The key of the booking service's no-show split of the same rows. *)
Definition split_release_key (id : string) : string := ("ledger:escrow:split-release:" +:+ id)%string.

(** [_exact] of a Decimal and of a number. *)
Definition exact_dec (u : Z) : jsval := VStr (toFixed8 u).
Definition exact_num (q : Q) : jsval :=
  VStr (if Qnum q <? 0 then ("-" +:+ toFixed8 (- toFixedZ 8 q))%string else toFixed8 (toFixedZ 8 q)).

Definition debit_line (code : string) (v : jsval) : line_in := Line code v VUndefined.
Definition credit_line (code : string) (v : jsval) : line_in := Line code VUndefined v.

Section Service.
Context `{DecimalLib} `{PrismaNumber} (sha256 : string -> string) (wire : escrow_row -> string).

(** [ledger.post(tx, ...)] on the escrow database. *)
Definition post_ledger (p : post_params) : M edb post_result :=
  s ← get;
  r ← lift (post sha256 p (ledger s));
  put (set_ledger r.2 s);;
  mret r.1.

(** The parameters of a posting.  The description's interpolated text is cut
    short and the metadata are left out: the ledger stores them and reads only
    that the description is not blank. *)
Definition escrow_posting (key ty desc : string) (ref : option string) (uid : Z) (id : string) (ls : list line_in) : post_params :=
  PostParams key ty desc ls ConvAbsent ref (Some uid) (Some "smartEscrow"%string) (Some id).

(** ** [createEscrow] *)

Definition SMART_ESCROW_FEE_PCT_DEFAULT : Q := fl (5 # 1000).
Definition HOUR_MS : Z := 3600000.
Definition DAY_MS : Z := 24 * HOUR_MS.

Definition createEscrow (newId ticketId : string) (payerId payeeId : Z) (amountUsdc : Num.num) (now : Z) : M edb escrow_row :=
  check (negb (String.length ticketId =? 0)%nat) "ticketId is required.";;
  check (negb (payerId =? 0) && negb (payeeId =? 0)) "payerId and payeeId are required.";;
  amount ← match amountUsdc with
           | Num.Fin q => if js_lt 0 q then mret q else throw "amountUsdc must be a positive number."
           | _ => throw "amountUsdc must be a positive number."
           end;
  check (negb (payerId =? payeeId)) "Payer and payee cannot be the same user.";;
  s ← get;
  check (negb (existsb (fun p => String.eqb (es_ticketId p.2) ticketId) (map_to_list (escrows s)))) "An escrow already exists for this ticket.";;
  let feePct := default SMART_ESCROW_FEE_PCT_DEFAULT (smartEscrowFeePct (globalSettings s)) in
  let draftExpiryHours := default 24 (escrowDraftExpiryHours (globalSettings s)) in
  let feeUsdc := round6 (js_mul amount feePct) in
  let row := EscrowRow ticketId payerId payeeId (num_to_col amount) (num_to_col feeUsdc) DRAFT false false None None None
               (now + draftExpiryHours * HOUR_MS) None None None in
  (* the INSERT: fresh primary key, foreign keys, column range *)
  check (match escrows s !! newId with None => true | _ => false end) "P2002";;
  check (match users s !! payerId, users s !! payeeId with Some _, Some _ => true | _, _ => false end) "P2003";;
  check (column_ok (es_amountUsdc row) && column_ok (es_feeUsdc row)) "NUMERIC_OVERFLOW";;
  put (set_escrows (<[newId := row]> (escrows s)) s);;
  mret row.

(** ** utils/securityCheck.js [runDoubleCheck] *)

Definition is_withdrawal (t : hist_type) : bool :=
  match t with
  | OTHER_TYPE n => String.eqb n "WITHDRAWAL_FIAT" || String.eqb n "WITHDRAWAL_CRYPTO"
  | _ => false
  end.

Definition TOLERANCE : Q := fl (1 # 1000000).

Definition audit_add (sum : Q) (h : hist_row) : Q :=
  let rawAmount := Number_of_units (hs_amountUsdc h) in
  let principal := if is_withdrawal (hs_type h) then (- Qabs.Qabs rawAmount)%Q else rawAmount in
  js_sub (js_add sum principal) (Number_of_units (hs_feeUsdc h)).

Definition runDoubleCheck (userId : Z) (s : edb) : res unit :=
  match users s !! userId with
  | None => Err "[DoubleCheck] User not found"
  | Some u =>
      let settledTxs := List.filter (fun h => (hs_userId h =? userId) && hs_completed h) (hist s) in
      let computedBalance := foldl audit_add 0%Q settledTxs in
      let d := Qabs.Qabs (js_sub computedBalance (Number_of_units (availableBalance u))) in
      throw_if (js_lt TOLERANCE d) "[DoubleCheck] LEDGER INCONSISTENCY DETECTED"
  end.

(** ** [fundEscrow] *)

(** The checks on what was read before the transaction. *)
Definition fund_read (escrowId : string) (payerId : Z) (s : edb) : res escrow_row :=
  escrow ← of_option (escrows s !! escrowId) "Escrow not found.";
  throw_if (negb (bool_decide (es_status escrow = DRAFT))) "Escrow cannot be funded";;
  throw_if (negb (es_payerId escrow =? payerId)) "Only the payer can fund this escrow.";;
  runDoubleCheck payerId s;;
  mret escrow.

Definition funded_row (now days : Z) (reference : string) (e : escrow_row) : escrow_row :=
  EscrowRow (es_ticketId e) (es_payerId e) (es_payeeId e) (es_amountUsdc e) (es_feeUsdc e) FUNDED
    (es_payerSatisfied e) (es_payeeSatisfied e) (Some now) (es_settledAt e) (es_refundedAt e) (now + days * DAY_MS)
    (Some reference) (es_releaseTxHash e) (es_refundTxHash e).

Definition commit_op (op : option nat) (sc : Z) (body : option string) : M edb unit :=
  s ← get;
  r ← lift (commitOperation op sc body (operations s));
  put (set_operations r.2 s).

(** The transaction; [escrow] is the row read before it. *)
Definition fund_tx (escrowId : string) (payerId : Z) (escrow : escrow_row) (days now : Z) (reference : string)
    (financialOperation : option nat) : M edb escrow_row :=
  let amount := es_amountUsdc escrow in
  let fee := es_feeUsdc escrow in
  let total := d_plus amount fee in
  count ← escrow_updateMany escrowId
            (fun e => bool_decide (es_status e = DRAFT) && (es_payerId e =? payerId)) (funded_row now days reference);
  current ← escrow_find escrowId;
  check (count =? 1)%nat
    (if bool_decide (es_status <$> current = Some FUNDED) then "ESCROW_ALREADY_FUNDED" else "ESCROW_STATE_CHANGED");;
  debit ← user_updateMany payerId (fun u => total <=? availableBalance u) (Delta (- total) 0 0);
  check (debit =? 1)%nat "INSUFFICIENT_BALANCE";;
  user_update payerId (Delta 0 amount 0);;
  s ← get;
  check (column_ok (profitFees s + fee)) "CHECK_VIOLATION";;
  put (set_profitFees (profitFees s + fee) s);;
  posting ← post_ledger (escrow_posting (fund_key escrowId) "ESCROW_LOCK"
    "SmartEscrow funded — principal locked, fee realized" (Some reference) payerId escrowId
    [debit_line (liability_code payerId) (exact_dec total);
     credit_line (locked_code escrowId) (exact_dec amount);
     credit_line "revenue:fees" (exact_dec fee)]);
  check (negb (replayed posting)) "LEDGER_REPLAY_IN_CLAIMED_OPERATION";;
  updated ← escrow_find escrowId;
  history_create (HistRow payerId TICKET_ESCROW_FUND (- amount) fee (Some reference) true);;
  (if js_lt 0 (Number_of_units fee)
   then modify (add_profitLog (fee, ("escrow_fee_" +:+ es_ticketId escrow +:+ "_" +:+ reference)%string))
   else mret tt);;
  row ← lift (of_option updated "TypeError");
  commit_op financialOperation 200 (Some (wire row));;
  mret row.

(** The whole function: the read at one state, the transaction at another. *)
Definition fundEscrow (escrowId : string) (payerId : Z) (now : Z) (reference : string) (op : option nat)
    (before s : edb) : res escrow_row * edb :=
  match fund_read escrowId payerId before with
  | Err e => (Err e, s)
  | Ok escrow =>
      transaction (fund_tx escrowId payerId escrow
        (default 30 (escrowFundedExpiryDays (globalSettings before))) now reference op) s
  end.

(** ** Transaction primitives *)

Definition _claimEscrowStatusTx (escrowId : string) (claimable : list escrow_status) (f : escrow_row -> escrow_row) : M edb escrow_row :=
  count ← escrow_updateMany escrowId (in_status claimable) f;
  check (negb (count =? 0)%nat) "ESCROW_ALREADY_FINALIZED";;
  r ← escrow_find escrowId;
  lift (of_option r "TypeError").

Definition from_dispute (e : escrow_row) : bool := in_status IN_DISPUTE e.
Definition source_statuses (fromDispute : bool) : list escrow_status := if fromDispute then IN_DISPUTE else LIVE.
Definition source_balance (fromDispute : bool) (u : user_row) : Z :=
  if fromDispute then disputeEscrowBalance u else escrowLockedBalance u.
(** [{ [sourceColumn]: { decrement }, availableBalance: { increment } }]. *)
Definition source_delta (fromDispute : bool) (out back : Z) : delta :=
  if fromDispute then Delta back 0 (- out) else Delta back (- out) 0.
Definition source_code (fromDispute : bool) (payerId : Z) (id : string) : string :=
  if fromDispute then dispute_code payerId else locked_code id.

Definition settled_row (st : escrow_status) (now : Z) (reference : string) (e : escrow_row) : escrow_row :=
  EscrowRow (es_ticketId e) (es_payerId e) (es_payeeId e) (es_amountUsdc e) (es_feeUsdc e) st
    (es_payerSatisfied e) (es_payeeSatisfied e) (es_fundedAt e) (Some now) (es_refundedAt e) (es_expiresAt e)
    (es_fundTxHash e) (Some reference) (es_refundTxHash e).
Definition refunded_row (st : escrow_status) (now : Z) (reference : string) (e : escrow_row) : escrow_row :=
  EscrowRow (es_ticketId e) (es_payerId e) (es_payeeId e) (es_amountUsdc e) (es_feeUsdc e) st
    (es_payerSatisfied e) (es_payeeSatisfied e) (es_fundedAt e) (es_settledAt e) (Some now) (es_expiresAt e)
    (es_fundTxHash e) (es_releaseTxHash e) (Some reference).

Definition _releaseEscrowTx (id : string) (escrow : escrow_row) (finalStatus : escrow_status) (now : Z) (reference : string) : M edb escrow_row :=
  let amount := Number_of_units (es_amountUsdc escrow) in
  let fromDispute := from_dispute escrow in
  _claimEscrowStatusTx id (source_statuses fromDispute) (settled_row finalStatus now reference);;
  drained ← user_updateMany (es_payerId escrow) (fun u => num_to_col amount <=? source_balance fromDispute u)
              (source_delta fromDispute (num_to_col amount) 0);
  check (negb (drained =? 0)%nat) "ESCROW_BUCKET_INSUFFICIENT";;
  user_update (es_payeeId escrow) (Delta (num_to_col amount) 0 0);;
  post_ledger (escrow_posting (release_key id finalStatus) "ESCROW_RELEASE" "Escrow principal released to payee"
    (Some reference) (es_payeeId escrow) id
    [debit_line (source_code fromDispute (es_payerId escrow) id) (exact_num amount);
     credit_line (liability_code (es_payeeId escrow)) (exact_num amount)]);;
  history_create (HistRow (es_payeeId escrow) TICKET_ESCROW_RELEASE (num_to_col amount) 0 (Some reference) true);;
  r ← escrow_find id;
  lift (of_option r "TypeError").

Definition _refundEscrowTx (id : string) (escrow : escrow_row) (finalStatus : escrow_status) (now : Z) (reference : string) : M edb escrow_row :=
  let amount := Number_of_units (es_amountUsdc escrow) in
  let fromDispute := from_dispute escrow in
  _claimEscrowStatusTx id (source_statuses fromDispute) (refunded_row finalStatus now reference);;
  refunded ← user_updateMany (es_payerId escrow) (fun u => num_to_col amount <=? source_balance fromDispute u)
               (source_delta fromDispute (num_to_col amount) (num_to_col amount));
  check (negb (refunded =? 0)%nat) "ESCROW_BUCKET_INSUFFICIENT";;
  post_ledger (escrow_posting (refund_key id finalStatus) "ESCROW_REFUND" "Escrow principal refunded to payer"
    (Some reference) (es_payerId escrow) id
    [debit_line (source_code fromDispute (es_payerId escrow) id) (exact_num amount);
     credit_line (liability_code (es_payerId escrow)) (exact_num amount)]);;
  history_create (HistRow (es_payerId escrow) TICKET_ESCROW_REFUND (num_to_col amount) 0 (Some reference) true);;
  r ← escrow_find id;
  lift (of_option r "TypeError").

(** [_releaseEscrow], [_refundEscrow]: the row is read in the transaction. *)
Definition _releaseEscrow (id : string) (finalStatus : escrow_status) (now : Z) (reference : string) : M edb escrow_row :=
  r ← escrow_find id;
  escrow ← lift (of_option r "Escrow not found.");
  _releaseEscrowTx id escrow finalStatus now reference.
Definition _refundEscrow (id : string) (finalStatus : escrow_status) (now : Z) (reference : string) : M edb escrow_row :=
  r ← escrow_find id;
  escrow ← lift (of_option r "Escrow not found.");
  _refundEscrowTx id escrow finalStatus now reference.

(** ** [markSatisfied]: three separate statements *)

Definition is_party (userId : Z) (e : escrow_row) : bool := (es_payerId e =? userId) || (es_payeeId e =? userId).

Definition flag_row (isPayer : bool) (e : escrow_row) : escrow_row :=
  EscrowRow (es_ticketId e) (es_payerId e) (es_payeeId e) (es_amountUsdc e) (es_feeUsdc e) (es_status e)
    (if isPayer then true else es_payerSatisfied e) (if isPayer then es_payeeSatisfied e else true)
    (es_fundedAt e) (es_settledAt e) (es_refundedAt e) (es_expiresAt e)
    (es_fundTxHash e) (es_releaseTxHash e) (es_refundTxHash e).

Inductive satisfied_result : Type := Settled (already : bool) (e : escrow_row) | Pending (e : escrow_row).

(** The checks on the row read first: settled already, or whether the caller
    is the payer. *)
Definition satisfied_read (escrowId : string) (userId : Z) (s : edb) : res (option bool) :=
  escrow ← of_option (escrows s !! escrowId) "Escrow not found.";
  if bool_decide (es_status escrow = SETTLED) then mret None
  else
    throw_if (negb (in_status LIVE escrow)) "ESCROW_STATE_CHANGED";;
    throw_if (negb (is_party userId escrow)) "Only a participant can mark this escrow satisfied.";;
    mret (Some (es_payerId escrow =? userId)).

(** The conditional claim of the caller's flag. *)
Definition satisfied_claim (escrowId : string) (isPayer : bool) : M edb nat :=
  escrow_updateMany escrowId
    (fun e => negb (if isPayer then es_payerSatisfied e else es_payeeSatisfied e) && in_status LIVE e) (flag_row isPayer).

(** The conditional transition to PENDING_SETTLEMENT. *)
Definition satisfied_pending (escrowId : string) : M edb nat :=
  escrow_updateMany escrowId (in_status LIVE) (with_status PENDING_SETTLEMENT).

(** A settled row is converged to; otherwise the error stands. *)
Definition converge (escrowId : string) (e : string) (s : edb) : res satisfied_result :=
  match escrows s !! escrowId with
  | Some c => if bool_decide (es_status c = SETTLED) then Ok (Settled true c) else Err e
  | None => Err e
  end.

(** The whole function with no other writer in between.  It is not a
    transaction: the claimed flag stays when the release fails. *)
Definition markSatisfied (escrowId : string) (userId : Z) (now : Z) (reference : string) (s : edb)
    : res satisfied_result * edb :=
  match satisfied_read escrowId userId s with
  | Err e => (Err e, s)
  | Ok None => (converge escrowId "Escrow not found." s, s)
  | Ok (Some isPayer) =>
      match satisfied_claim escrowId isPayer s with
      | Err e => (Err e, s)
      | Ok (O, s1) =>
          (converge escrowId
             (match escrows s1 !! escrowId with
              | Some c => if in_status LIVE c then "You have already marked this escrow as satisfied." else "ESCROW_STATE_CHANGED"
              | None => "ESCROW_STATE_CHANGED"
              end) s1, s1)
      | Ok (S _, s1) =>
          match escrows s1 !! escrowId with
          | None => (Err "TypeError", s1)
          | Some u =>
              if es_payerSatisfied u && es_payeeSatisfied u then
                match transaction (_releaseEscrow escrowId SETTLED now reference) s1 with
                | (Ok settled, s2) => (Ok (Settled false settled), s2)
                | (Err e, s2) =>
                    if String.eqb e "ESCROW_ALREADY_FINALIZED" then (converge escrowId e s2, s2) else (Err e, s2)
                end
              else
                match satisfied_pending escrowId s1 with
                | Ok (S _, s2) => (match escrows s2 !! escrowId with Some p => Ok (Pending p) | None => Err "TypeError" end, s2)
                | _ => (converge escrowId "ESCROW_STATE_CHANGED" s1, s1)
                end
          end
      end
  end.

(** ** [raiseDispute] *)

Definition raiseDispute (escrowId : string) (raisedById : Z) (reason : string) : M edb (escrow_row * dispute_row) :=
  r ← escrow_find escrowId;
  escrow ← lift (of_option r "Escrow not found.");
  dsp ← reads (fun s => disputes s !! escrowId);
  check (match dsp with None => true | _ => false end) "ESCROW_ALREADY_DISPUTED";;
  check (in_status LIVE escrow) "Cannot dispute an escrow in this status";;
  check (is_party raisedById escrow) "Only a participant can dispute this escrow.";;
  let amount := Number_of_units (es_amountUsdc escrow) in
  claimed ← escrow_updateMany escrowId (in_status LIVE) (with_status DISPUTED);
  check (negb (claimed =? 0)%nat) "Cannot dispute an escrow in this status";;
  moved ← user_updateMany (es_payerId escrow) (fun u => num_to_col amount <=? escrowLockedBalance u)
            (Delta 0 (- num_to_col amount) (num_to_col amount));
  check (negb (moved =? 0)%nat) "ESCROW_BUCKET_INSUFFICIENT";;
  post_ledger (escrow_posting (dispute_key escrowId) "ESCROW_DISPUTE"
    "Escrow disputed — principal reclassified from escrow holding into dispute restriction" None (es_payerId escrow) escrowId
    [debit_line (locked_code escrowId) (exact_num amount);
     credit_line (dispute_code (es_payerId escrow)) (exact_num amount)]);;
  s ← get;
  check (match disputes s !! escrowId with None => true | _ => false end) "P2002";;
  let d := DisputeRow raisedById reason D_PENDING None None None None in
  put (set_disputes (<[escrowId := d]> (disputes s)) s);;
  u ← escrow_find escrowId;
  row ← lift (of_option u "TypeError");
  mret (row, d).

(** ** [resolveDispute] *)

(** Validation of the SPLIT percentages, after [Number()]. *)
Definition split_args (payerPct payeePct : Num.num) : res (Q * Q) :=
  match payerPct, payeePct with
  | Num.Fin p, Num.Fin q =>
      throw_if (js_lt (fl (1 # 1000)) (Qabs.Qabs (js_sub (js_add p q) 100))) "payerPct + payeePct must equal 100.";;
      throw_if (js_lt p 0 || js_lt q 0 || js_lt 100 p || js_lt 100 q) "must be between 0 and 100.";;
      mret (p, q)
  | _, _ => Err "payerPct + payeePct must equal 100."
  end.

Definition resolved_row (ru : ruling) (notes : option string) (now : Z) (adminId : Z) (d : dispute_row) : dispute_row :=
  DisputeRow (ds_raisedById d) (ds_reason d) D_RESOLVED
    (match ds_assignedToId d with Some 0 | None => Some adminId | x => x end) (Some ru) (truthy notes) (Some now).

Definition split_row (now : Z) (releaseRef refundRef : string) (e : escrow_row) : escrow_row :=
  EscrowRow (es_ticketId e) (es_payerId e) (es_payeeId e) (es_amountUsdc e) (es_feeUsdc e) RELEASED
    (es_payerSatisfied e) (es_payeeSatisfied e) (es_fundedAt e) (Some now) (es_refundedAt e) (es_expiresAt e)
    (es_fundTxHash e) (Some releaseRef) (Some refundRef).

(** The payer's share and the remainder. *)
Definition split_shares (amount pPct : Q) : Q * Q :=
  let payerAmount := round6 (js_mul amount (js_div pPct 100)) in
  (payerAmount, round6 (js_sub amount payerAmount)).

(** Credit of one share, skipped when it is not positive. *)
Definition pay_share (userId : Z) (ty : hist_type) (share : Q) (reference : string) : M edb unit :=
  if js_lt 0 share then
    user_update userId (Delta (num_to_col share) 0 0);;
    history_create (HistRow userId ty (num_to_col share) 0 (Some reference) true)
  else mret tt.

Definition split_tx (id : string) (escrow : escrow_row) (pPct : Q) (now : Z) (releaseRef refundRef : string) : M edb escrow_row :=
  let amount := Number_of_units (es_amountUsdc escrow) in
  let '(payerAmount, payeeAmount) := split_shares amount pPct in
  updated ← _claimEscrowStatusTx id IN_DISPUTE (split_row now releaseRef refundRef);
  drained ← user_updateMany (es_payerId escrow) (fun u => num_to_col amount <=? disputeEscrowBalance u)
              (Delta 0 0 (- num_to_col amount));
  check (negb (drained =? 0)%nat) "ESCROW_BUCKET_INSUFFICIENT";;
  pay_share (es_payerId escrow) TICKET_ESCROW_REFUND payerAmount refundRef;;
  pay_share (es_payeeId escrow) TICKET_ESCROW_RELEASE payeeAmount releaseRef;;
  post_ledger (escrow_posting (settle_key id) "ESCROW_RELEASE" "Dispute resolved SPLIT" (Some releaseRef) (es_payerId escrow) id
    [debit_line (dispute_code (es_payerId escrow)) (exact_num amount);
     credit_line (liability_code (es_payerId escrow)) (exact_num payerAmount);
     credit_line (liability_code (es_payeeId escrow)) (exact_num payeeAmount)]);;
  mret updated.

(** The flag of the result is [alreadyResolved].  A ruling outside the three is
    refused before anything is read and has no representation here. *)
Definition resolveDispute (escrowId : string) (adminId : Z) (ru : ruling) (notes : option string) (payerPct payeePct : Num.num)
    (now : Z) (releaseRef refundRef : string) : M edb (escrow_row * dispute_row * bool) :=
  pcts ← (match ru with SPLIT => lift (split_args payerPct payeePct) | _ => mret (0%Q, 0%Q) end : M edb (Q * Q));
  r ← escrow_find escrowId;
  escrow ← lift (of_option r "Escrow not found.");
  dsp ← reads (fun s => disputes s !! escrowId);
  dispute ← lift (of_option dsp "No dispute exists for this escrow.");
  if in_status [RELEASED; REFUNDED] escrow && bool_decide (ds_status dispute = D_RESOLVED)
  then mret (escrow, dispute, true)
  else
    check (in_status IN_DISPUTE escrow) "Escrow is not in a resolvable state";;
    updated ← match ru with
              | FULL_RELEASE => _releaseEscrowTx escrowId escrow RELEASED now releaseRef
              | FULL_REFUND => _refundEscrowTx escrowId escrow REFUNDED now refundRef
              | SPLIT => split_tx escrowId escrow pcts.1 now releaseRef refundRef
              end;
    d ← dispute_update escrowId (resolved_row ru notes now adminId);
    mret (updated, d, false).

(** ** [assignDisputeToAdmin] *)

Definition assign_read (escrowId : string) (assignedToId : Z) (s : edb) : res unit :=
  escrow ← of_option (escrows s !! escrowId) "Escrow not found.";
  throw_if (negb (in_status IN_DISPUTE escrow)) "ESCROW_ALREADY_FINALIZED";;
  of_option (disputes s !! escrowId) "No dispute exists for this escrow.";;
  assignee ← of_option (users s !! assignedToId) "assignedToId must reference a user with the ADMIN role.";
  throw_if (negb (isAdmin assignee)) "assignedToId must reference a user with the ADMIN role.".

Definition assigned_row (assignedToId : Z) (d : dispute_row) : dispute_row :=
  DisputeRow (ds_raisedById d) (ds_reason d) D_ASSIGNED (Some assignedToId) (ds_ruling d) (ds_rulingNotes d) (ds_resolvedAt d).

Definition assign_tx (escrowId : string) (assignedToId : Z) : M edb (escrow_row * dispute_row) :=
  count ← escrow_updateMany escrowId (in_status IN_DISPUTE) (with_status ADMIN_REVIEW);
  check (negb (count =? 0)%nat) "ESCROW_ALREADY_FINALIZED";;
  d ← dispute_update escrowId (assigned_row assignedToId);
  r ← escrow_find escrowId;
  row ← lift (of_option r "TypeError");
  mret (row, d).

Definition assignDisputeToAdmin (escrowId : string) (assignedToId : Z) (before s : edb) : res (escrow_row * dispute_row) * edb :=
  match assign_read escrowId assignedToId before with
  | Err e => (Err e, s)
  | Ok _ => transaction (assign_tx escrowId assignedToId) s
  end.

(** ** [cancelEscrow] *)

(** The checks on the row read first: [true] for a draft. *)
Definition cancel_read (escrowId : string) (userId : Z) (s : edb) : res bool :=
  escrow ← of_option (escrows s !! escrowId) "Escrow not found.";
  throw_if (negb (es_payerId escrow =? userId)) "Only the payer can cancel this escrow.";;
  if bool_decide (es_status escrow = DRAFT) then mret true
  else throw_if (negb (in_status LIVE escrow)) "Escrow cannot be cancelled";; mret false.

Definition cancel_draft (escrowId : string) : M edb escrow_row :=
  count ← escrow_updateMany escrowId (fun e => bool_decide (es_status e = DRAFT)) (with_status EXPIRED);
  check (negb (count =? 0)%nat) "Escrow cannot be cancelled";;
  r ← escrow_find escrowId;
  lift (of_option r "TypeError").

Definition cancelEscrow (escrowId : string) (userId : Z) (now : Z) (reference : string) (before s : edb) : res escrow_row * edb :=
  match cancel_read escrowId userId before with
  | Err e => (Err e, s)
  | Ok true => transaction (cancel_draft escrowId) s
  | Ok false => transaction (_refundEscrow escrowId REFUNDED now reference) s
  end.

(** [getEscrowForTicket], without the participants' profiles. *)
Definition getEscrowForTicket (ticketId : string) (s : edb) : option (string * escrow_row * option dispute_row) :=
  match List.find (fun p => String.eqb (es_ticketId p.2) ticketId) (map_to_list (escrows s)) with
  | Some (id, e) => Some (id, e, disputes s !! id)
  | None => None
  end.
End Service.
