(* ===== verification/EscrowFacts.v ===== *)
(** * What the escrow transactions do

    Each transaction primitive that succeeds is reduced to an [effect]: the
    escrow row it replaced, the changes of user buckets, the history rows, the
    fee and the ledger lines it posted, as exact integers. *)

From stdpp Require Import base gmap strings list relations.
From Stdlib Require Import ZArith QArith Qabs Lqa Lia Ascii.
From S2P Require Import Prelude JsNumber ExactDecimal Json Ledger LedgerFacts LedgerHash LedgerProps Idempotency Escrow.

Local Open Scope Z_scope.

(** Formatting to 8 decimals is a correct [PrismaNumber]. *)
Definition ToFixedColumn : PrismaNumber.
Proof.
  refine {| num_to_col := toFixedZ 8 |}.
  - intros u q Hu Hq. eapply toFixed8_close; [apply close_fl; [by apply close_exact | | done] | ]; [lra | reflexivity].
  - intros x Hx. by apply toFixedZ_nonneg.
Defined.

(** Principals up to a million USDC. *)
Definition ESCROW_MAX : Z := 10 ^ 14.

(** ** User buckets *)

Inductive moves : list (Z * delta) -> gmap Z user_row -> gmap Z user_row -> Prop :=
| moves_nil m : moves [] m m
| moves_cons id d u ds m m' :
    m !! id = Some u -> user_ok (apply_delta d u) = true ->
    moves ds (<[id := apply_delta d u]> m) m' -> moves ((id, d) :: ds) m m'.

Lemma moves_app ds ds' m m1 m' : moves ds m m1 -> moves ds' m1 m' -> moves (ds ++ ds') m m'.
Proof. induction 1; intros; [done |]. simpl. econstructor; eauto. Qed.

Lemma moves_one id d u m : m !! id = Some u -> user_ok (apply_delta d u) = true -> moves [(id, d)] m (<[id := apply_delta d u]> m).
Proof. intros. econstructor; [done | done | constructor]. Qed.

(** ** Statements *)

Lemma user_update_Ok id d s x s' :
  user_update id d s = Ok (x, s') -> exists u, s' = set_users (<[id := apply_delta d u]> (users s)) s /\
    users s !! id = Some u /\ user_ok (apply_delta d u) = true.
Proof.
  unfold user_update. intros Hr. apply Mbind_Ok in Hr as (s1 & s2 & Hg & Hr). apply get_Ok in Hg as [-> ->].
  destruct (users s !! id) as [u |]; [| by apply throw_Ok in Hr]. run_inv Hr. eauto.
Qed.

Lemma user_updateMany_Ok id cond d s n s' :
  user_updateMany id cond d s = Ok (n, s') ->
  (n = 0%nat /\ s' = s) \/
  (n = 1%nat /\ exists u, users s !! id = Some u /\ cond u = true /\ user_ok (apply_delta d u) = true /\
     s' = set_users (<[id := apply_delta d u]> (users s)) s).
Proof.
  unfold user_updateMany. intros Hr. apply Mbind_Ok in Hr as (s1 & s2 & Hg & Hr). apply get_Ok in Hg as [-> ->].
  destruct (users s !! id) as [u |] eqn:Hu; [| run_inv Hr; auto].
  destruct (cond u) eqn:Hc; [| run_inv Hr; auto]. apply Mbind_Ok in Hr as (x & s1 & Hup & Hr).
  apply user_update_Ok in Hup as (u' & -> & Hu' & Hok). run_inv Hr. rewrite Hu in Hu'. injection Hu' as <-.
  right. split; [done |]. by exists u.
Qed.

Lemma escrow_updateMany_Ok id cond f s n s' :
  escrow_updateMany id cond f s = Ok (n, s') ->
  (n = 0%nat /\ s' = s /\ (forall e, escrows s !! id = Some e -> cond e = false)) \/
  (n = 1%nat /\ exists e, escrows s !! id = Some e /\ cond e = true /\ s' = set_escrows (<[id := f e]> (escrows s)) s).
Proof.
  unfold escrow_updateMany. intros Hr. apply Mbind_Ok in Hr as (s1 & s2 & Hg & Hr). apply get_Ok in Hg as [-> ->].
  destruct (escrows s !! id) as [e |] eqn:He; [| run_inv Hr; left; by split_and!].
  destruct (cond e) eqn:Hc; run_inv Hr; [right; split; [done |]; by exists e |].
  left. split_and!; [done | done |]. intros e' [= <-]. done.
Qed.

Lemma escrow_find_Ok id s r s' : escrow_find id s = Ok (r, s') <-> r = escrows s !! id /\ s' = s.
Proof. exact (reads_Ok (fun s => escrows s !! id) s r s'). Qed.

Lemma history_create_Ok h s x s' : history_create h s = Ok (x, s') -> s' = add_hist h s.
Proof. unfold history_create. intros Hr. run_inv Hr. done. Qed.

Lemma dispute_update_Ok id f s d s' :
  dispute_update id f s = Ok (d, s') ->
  exists d0, disputes s !! id = Some d0 /\ ds_status d0 <> D_RESOLVED /\ d = f d0 /\
    s' = set_disputes (<[id := f d0]> (disputes s)) s.
Proof.
  unfold dispute_update. intros Hr. apply Mbind_Ok in Hr as (s1 & s2 & Hg & Hr). apply get_Ok in Hg as [-> ->].
  destruct (disputes s !! id) as [d0 |]; [| by apply throw_Ok in Hr].
  case_bool_decide as Hd; [by apply throw_Ok in Hr |]. run_inv Hr. by exists d0.
Qed.

Section Posted.
Context `{DecimalLib} (sha256 : string -> string).

(** A posting under [key] with the lines [ls] succeeded. *)
Definition posted (key : string) (ls : list nline) (l l' : ldb) : Prop :=
  exists p r, idempotencyKey p = key /\ params_wf p /\ post_prepare p = Ok (ls, None) /\ post sha256 p l = Ok (r, l').

Lemma post_ledger_Ok p s r s' :
  post_ledger sha256 p s = Ok (r, s') -> exists l', post sha256 p (ledger s) = Ok (r, l') /\ s' = set_ledger l' s.
Proof.
  unfold post_ledger. intros Hr. apply Mbind_Ok in Hr as (s1 & s2 & Hg & Hr). apply get_Ok in Hg as [-> ->].
  apply Mbind_Ok in Hr as ([r0 l'] & s2 & Hp & Hr). apply lift_Ok in Hp as [Hp ->]. run_inv Hr. eauto.
Qed.

(** The lines of the escrow postings. *)
Lemma exact_num_exact_dec q : 0 <= Qnum q -> exact_num q = exact_dec (toFixedZ 8 q).
Proof. intros Hq. unfold exact_num. by destruct (Z.ltb_spec (Qnum q) 0); [lia |]. Qed.

(** A negative number is not an exact ledger quantity. *)
Lemma exact_num_negative q code n : Qnum q < 0 -> normalize_line (credit_line code (exact_num q)) <> Ok n.
Proof.
  intros Hq Hn. unfold normalize_line, credit_line, exact_num in Hn. cbn [l_debit l_credit l_account line_side] in Hn.
  destruct (Z.ltb_spec (Qnum q) 0); [| lia]. unfold toExactDecimal in Hn. rewrite trim_id in Hn.
  - rewrite str_app_cons in Hn. by apply bind_Ok in Hn as (d & _ & Hn).
  - rewrite str_forall_app. simpl. eapply str_forall_impl; [| apply toFixed8_chars].
    intros c Hc. unfold is_dec_char in Hc. apply orb_true_iff in Hc as [Hc | Hc]; [by apply digit_not_space |].
    by apply Ascii.eqb_eq in Hc as ->.
Qed.

Lemma normalize_debit code u n : 0 <= u -> normalize_line (debit_line code (exact_dec u)) = Ok n -> n = NLine code u 0 /\ u <> 0.
Proof.
  intros Hu Hn. unfold normalize_line, debit_line, exact_dec in Hn. cbn [l_debit l_credit l_account line_side] in Hn.
  rewrite toExactDecimal_toFixed8 in Hn by done. res_inv Hn. rewrite andb_true_r in Hres. apply Z.eqb_neq in Hres. by subst.
Qed.

Lemma normalize_credit code u n : 0 <= u -> normalize_line (credit_line code (exact_dec u)) = Ok n -> n = NLine code 0 u /\ u <> 0.
Proof.
  intros Hu Hn. unfold normalize_line, credit_line, exact_dec in Hn. cbn [l_debit l_credit l_account line_side] in Hn.
  rewrite toExactDecimal_toFixed8 in Hn by done. res_inv Hn. simpl in Hres. apply Z.eqb_neq in Hres. by subst.
Qed.

(** What a request describes, before parsing. *)
Inductive line_spec : Type := DebitOf (code : string) (u : Z) | CreditOf (code : string) (u : Z).
Definition to_line (l : line_spec) : line_in :=
  match l with DebitOf c u => debit_line c (exact_dec u) | CreditOf c u => credit_line c (exact_dec u) end.
Definition to_nline (l : line_spec) : nline := match l with DebitOf c u => NLine c u 0 | CreditOf c u => NLine c 0 u end.
Definition spec_amount (l : line_spec) : Z := match l with DebitOf _ u | CreditOf _ u => u end.

Lemma normalize_specs specs ns :
  Forall (fun l => 0 <= spec_amount l) specs -> mapR normalize_line (map to_line specs) = Ok ns ->
  ns = map to_nline specs /\ Forall (fun l => spec_amount l <> 0) specs.
Proof.
  intros Hs. revert ns. induction Hs as [| l specs Hl Hs IH]; intros ns Hn; simpl in Hn; [by injection Hn as <- |].
  apply bind_Ok in Hn as (n & Hn1 & Hn). apply bind_Ok in Hn as (ns' & Hns & Hn). injection Hn as <-.
  destruct (IH ns' Hns) as [-> Hnz].
  destruct l; simpl in *; [apply normalize_debit in Hn1 as [-> ?] | apply normalize_credit in Hn1 as [-> ?]]; try done;
    (split; [done | by constructor]).
Qed.

(** A posting in one asset, given by the lines it describes. *)
Lemma specs_posted p specs s r s' :
  lines p = map to_line specs -> conversion p = ConvAbsent -> entryType p <> "ASSET_CONVERSION"%string ->
  Forall (fun l => 0 <= spec_amount l) specs -> post_ledger sha256 p s = Ok (r, s') ->
  exists l', s' = set_ledger l' s /\ posted (idempotencyKey p) (map to_nline specs) (ledger s) l' /\
    Forall (fun l => 0 < spec_amount l) specs.
Proof.
  intros Hlines Hca Hty Hs Hp. apply post_ledger_Ok in Hp as (l' & Hp & ->). exists l'. split; [done |].
  pose proof Hp as Hp'. apply post_inv in Hp' as (ls & conv & s1 & Hprep & _ & _ & _).
  assert (Hconv : conv = None /\ ls = map to_nline specs /\ Forall (fun l => spec_amount l <> 0) specs).
  { pose proof Hprep as Hq. unfold post_prepare in Hq. apply bind_Ok in Hq as (u & _ & Hq).
    apply bind_Ok in Hq as (ls' & Hls & Hq). apply bind_Ok in Hq as (c0 & Hc0 & Hq).
    apply bind_Ok in Hq as (c1 & Hc1 & Hq). apply bind_Ok in Hq as (u' & _ & Hq). injection Hq as -> ->.
    rewrite Hlines in Hls. apply (normalize_specs specs ls Hs) in Hls as [-> Hnz]. unfold conversion_context in Hc0. rewrite Hca in Hc0.
    apply String.eqb_neq in Hty. rewrite Hty in Hc0. injection Hc0 as <-.
    unfold asset_identity in Hc1. apply bind_Ok in Hc1 as (m & _ & Hc1). apply bind_Ok in Hc1 as (u2 & _ & Hc1).
    by injection Hc1 as <-. }
  destruct Hconv as (-> & -> & Hnz). split.
  - exists p, r. split; [done |]. split; [| by split]. unfold params_wf. rewrite Hlines. apply Forall_map.
    apply Forall_true. by intros [].
  - rewrite Forall_forall in *. intros l Hl. specialize (Hs l Hl). specialize (Hnz l Hl). simpl in *. lia.
Qed.

Lemma escrow_posted key ty desc ref uid id specs s r s' :
  Forall (fun l => 0 <= spec_amount l) specs -> ty <> "ASSET_CONVERSION"%string ->
  post_ledger sha256 (escrow_posting key ty desc ref uid id (map to_line specs)) s = Ok (r, s') ->
  exists l', s' = set_ledger l' s /\ posted key (map to_nline specs) (ledger s) l' /\
    Forall (fun l => 0 < spec_amount l) specs.
Proof. intros Hs Hty Hp. by apply (specs_posted (escrow_posting key ty desc ref uid id (map to_line specs)) specs) in Hp. Qed.
End Posted.

(** ** Effects *)

Section Effects.
Context `{DecimalLib} `{PrismaNumber} (sha256 : string -> string) (wire : escrow_row -> string).

(** [s'] is [s] with the escrow [id] changed from [e] to [e'], the bucket
    changes [ds], the history rows [hs], the fee [f] and a posting of [ls]. *)
Record effect (id : string) (e e' : escrow_row) (ds : list (Z * delta)) (hs : list hist_row) (f : Z)
    (key : string) (ls : list nline) (s s' : edb) : Prop := {
  ef_escrow : escrows s !! id = Some e;
  ef_escrows : escrows s' = <[id := e']> (escrows s);
  ef_users : moves ds (users s) (users s');
  ef_hist : hist s' = hist s ++ hs;
  ef_fees : profitFees s' = profitFees s + f;
  ef_ledger : posted sha256 key ls (ledger s) (ledger s');
}.

Lemma col_amount u : 0 <= u <= ESCROW_MAX -> num_to_col (Number_of_units u) = u.
Proof. intros Hu. apply num_to_col_units; [unfold SAFE_UNITS, ESCROW_MAX in *; lia | reflexivity]. Qed.

Lemma fixed_amount u : 0 <= u <= ESCROW_MAX -> toFixedZ 8 (Number_of_units u) = u.
Proof. intros Hu. apply toFixed8_Number. unfold SAFE_UNITS, ESCROW_MAX in *. lia. Qed.

Lemma exact_amount u : 0 <= u <= ESCROW_MAX -> exact_num (Number_of_units u) = exact_dec u.
Proof. intros Hu. rewrite exact_num_exact_dec, fixed_amount by (done || apply fl_nonneg; simpl; lia). done. Qed.

Lemma in_status_spec l e : in_status l e = true <-> es_status e ∈ l.
Proof.
  unfold in_status. rewrite existsb_exists. split.
  - intros (st & Hin & Hst). apply bool_decide_eq_true in Hst as ->. by apply list_elem_of_In.
  - intros Hin. exists (es_status e). split; [by apply list_elem_of_In | by apply bool_decide_eq_true].
Qed.

Lemma claim_Ok id sts f s r s' :
  _claimEscrowStatusTx id sts f s = Ok (r, s') ->
  exists e, escrows s !! id = Some e /\ es_status e ∈ sts /\ r = f e /\ s' = set_escrows (<[id := f e]> (escrows s)) s.
Proof.
  unfold _claimEscrowStatusTx. intros Hr. apply Mbind_Ok in Hr as (n & s1 & Hu & Hr).
  apply Mbind_Ok in Hr as (x & s2 & Hc & Hr). apply check_Ok in Hc as [Hn ->].
  apply Mbind_Ok in Hr as (r0 & s2 & Hf & Hr). apply escrow_find_Ok in Hf as [-> ->].
  apply lift_Ok in Hr as [Hr ->]. apply of_option_Ok in Hr.
  apply escrow_updateMany_Ok in Hu as [(-> & _) | (_ & e & He & Hc & ->)]; [done |].
  exists e. apply in_status_spec in Hc. simpl in Hr. rewrite lookup_insert_eq in Hr. by injection Hr as ->.
Qed.

Lemma fund_effect id payer e0 days now ref op s r s' :
  0 <= es_amountUsdc e0 <= ESCROW_MAX -> 0 <= es_feeUsdc e0 <= ESCROW_MAX ->
  fund_tx sha256 wire id payer e0 days now ref op s = Ok (r, s') ->
  let amount := es_amountUsdc e0 in let fee := es_feeUsdc e0 in
  exists e, es_status e = DRAFT /\ es_payerId e = payer /\ 0 < amount /\ 0 < fee /\
    effect id e (funded_row now days ref e)
      [(payer, Delta (- (amount + fee)) 0 0); (payer, Delta 0 amount 0)]
      [HistRow payer TICKET_ESCROW_FUND (- amount) fee (Some ref) true] fee (fund_key id)
      [NLine (liability_code payer) (amount + fee) 0; NLine (locked_code id) 0 amount; NLine "revenue:fees" 0 fee] s s' /\
    disputes s' = disputes s /\ find_key (fund_key id) (ledger s) = None.
Proof.
  intros Ha Hf Hr amount fee. unfold fund_tx in Hr. fold amount fee in Hr.
  assert (Htot : d_plus amount fee = amount + fee).
  { unfold d_plus. apply dround_exact. unfold ESCROW_MAX in *. lia. }
  rewrite Htot in Hr.
  apply Mbind_Ok in Hr as (n & s1 & Hc & Hr).
  apply Mbind_Ok in Hr as (cur & s1' & Hfind & Hr). apply escrow_find_Ok in Hfind as [_ ->].
  apply Mbind_Ok in Hr as (x & s1' & Hchk & Hr). apply check_Ok in Hchk as [Hn ->]. apply Nat.eqb_eq in Hn as ->.
  apply escrow_updateMany_Ok in Hc as [(? & _) | (_ & e & He & Hcond & ->)]; [done |].
  apply andb_true_iff in Hcond as [Hst Hpay]. apply bool_decide_eq_true in Hst. apply Z.eqb_eq in Hpay.
  apply Mbind_Ok in Hr as (nd & s2 & Hd & Hr). apply Mbind_Ok in Hr as (x1 & s2' & Hchk & Hr).
  apply check_Ok in Hchk as [Hn ->]. apply Nat.eqb_eq in Hn as ->.
  apply user_updateMany_Ok in Hd as [[? _] | (_ & u & Hu & Hge & Hok & ->)]; [done |].
  apply Mbind_Ok in Hr as (x2 & s3 & Hup & Hr). apply user_update_Ok in Hup as (u2 & -> & Hu2 & Hok2).
  apply Mbind_Ok in Hr as (s4 & s4' & Hg & Hr). apply get_Ok in Hg as [-> ->].
  apply Mbind_Ok in Hr as (x3 & s4 & Hchk & Hr). apply check_Ok in Hchk as [_ ->].
  apply Mbind_Ok in Hr as (x4 & s4 & Hput & Hr). apply put_Ok in Hput as ->.
  apply Mbind_Ok in Hr as (pr & s5 & Hpost & Hr).
  pose proof Hpost as Hpost'. apply post_ledger_Ok in Hpost' as (l' & Hl' & _).
  apply (escrow_posted sha256 (fund_key id) "ESCROW_LOCK" _ _ _ _
    [DebitOf (liability_code payer) (amount + fee); CreditOf (locked_code id) amount; CreditOf "revenue:fees" fee])
    in Hpost as (l2 & -> & Hposted & Hpos); [| repeat constructor; simpl; lia | done].
  apply Mbind_Ok in Hr as (x5 & s6 & Hchk & Hr). apply check_Ok in Hchk as [Hnew ->].
  apply Mbind_Ok in Hr as (upd & s6 & Hfind & Hr). apply escrow_find_Ok in Hfind as [-> ->].
  apply Mbind_Ok in Hr as (x6 & s6 & Hh & Hr). apply history_create_Ok in Hh as ->.
  apply Mbind_Ok in Hr as (x7 & s6 & Hlog & Hr).
  assert (Hs6 : exists pl, s6 = EDB (<[payer := apply_delta (Delta 0 amount 0) u2]> (<[payer := apply_delta (Delta (- (amount + fee)) 0 0) u]> (users s)))
    (<[id := funded_row now days ref e]> (escrows s)) (disputes s) (profitFees s + fee)
    (hist s ++ [HistRow payer TICKET_ESCROW_FUND (- amount) fee (Some ref) true]) pl l2 (operations s) (globalSettings s)).
  { destruct (js_lt 0 (Number_of_units fee)); run_inv Hlog; eexists; reflexivity. }
  destruct Hs6 as (pl & ->). clear Hlog.
  apply Mbind_Ok in Hr as (row & s7 & Hrow & Hr). apply lift_Ok in Hrow as [_ ->].
  apply Mbind_Ok in Hr as (x8 & s7 & Hop & Hr). apply Mret_Ok in Hr as [_ ->].
  unfold commit_op in Hop. apply Mbind_Ok in Hop as (s8 & s8' & Hg & Hop). apply get_Ok in Hg as [-> ->].
  apply Mbind_Ok in Hop as (cm & s8' & Hcm & Hop). apply lift_Ok in Hcm as [_ ->]. apply put_Ok in Hop as ->.
  inversion Hpos as [| ? ? _ Hpos1]; inversion Hpos1 as [| ? ? Hpa Hpos2]; inversion Hpos2 as [| ? ? Hpf _]; subst. simpl in Hpa, Hpf.
  exists e. split; [done |]. split; [done |]. split; [done |]. split; [done |]. split; [| split; [done |]].
  - split; try done. simpl. eapply (moves_app [_] [_]); apply moves_one; done.
  - apply post_inv in Hl' as (ls & conv & l1 & _ & (Ht & _) & _ & Hout). unfold find_key in *. simpl in Ht.
    destruct Hout as [t Hk Hh | t es Hk Hc]; [by simpl in Hnew |]. rewrite <- Ht. exact Hk.
Qed.

(** A drain followed by its check, as the transactions write it. *)
Lemma drain_step {B} id cond d msg (k : M edb B) s r s' :
  (drained ← user_updateMany id cond d; check (negb (drained =? 0)%nat) msg;; k) s = Ok (r, s') ->
  exists u, users s !! id = Some u /\ cond u = true /\ user_ok (apply_delta d u) = true /\
    k (set_users (<[id := apply_delta d u]> (users s)) s) = Ok (r, s').
Proof.
  intros Hr. apply Mbind_Ok in Hr as (n & s1 & Hu & Hr). apply Mbind_Ok in Hr as (x & s2 & Hc & Hr).
  apply check_Ok in Hc as [Hn ->].
  apply user_updateMany_Ok in Hu as [[-> ->] | (-> & u & Hu & Hc & Hok & ->)]; [done |]. eauto.
Qed.

Lemma release_effect id e0 st now ref s r s' :
  0 <= es_amountUsdc e0 <= ESCROW_MAX ->
  _releaseEscrowTx sha256 id e0 st now ref s = Ok (r, s') ->
  let amount := es_amountUsdc e0 in let fd := from_dispute e0 in
  exists e, es_status e ∈ source_statuses fd /\ 0 < amount /\
    effect id e (settled_row st now ref e)
      [(es_payerId e0, source_delta fd amount 0); (es_payeeId e0, Delta amount 0 0)]
      [HistRow (es_payeeId e0) TICKET_ESCROW_RELEASE amount 0 (Some ref) true] 0 (release_key id st)
      [NLine (source_code fd (es_payerId e0) id) amount 0; NLine (liability_code (es_payeeId e0)) 0 amount] s s' /\
    disputes s' = disputes s.
Proof.
  intros Ha Hr amount fd. unfold _releaseEscrowTx in Hr. rewrite (col_amount _ Ha), (exact_amount _ Ha) in Hr.
  fold amount fd in Hr. apply Mbind_Ok in Hr as (x & s1 & Hc & Hr). apply claim_Ok in Hc as (e & He & Hst & _ & ->).
  apply drain_step in Hr as (u & Hu & _ & Hok & Hr).
  apply Mbind_Ok in Hr as (x2 & s3 & Hup & Hr). apply user_update_Ok in Hup as (u2 & -> & Hu2 & Hok2).
  apply Mbind_Ok in Hr as (pr & s5 & Hpost & Hr).
  apply (escrow_posted sha256 (release_key id st) "ESCROW_RELEASE" _ _ _ _
    [DebitOf (source_code fd (es_payerId e0) id) amount; CreditOf (liability_code (es_payeeId e0)) amount])
    in Hpost as (l2 & -> & Hposted & Hpos); [| repeat constructor; simpl; lia | done].
  apply Mbind_Ok in Hr as (x6 & s6 & Hh & Hr). apply history_create_Ok in Hh as ->.
  apply Mbind_Ok in Hr as (x7 & s7 & Hfind & Hr). apply escrow_find_Ok in Hfind as [_ ->]. apply lift_Ok in Hr as [_ ->].
  inversion Hpos as [| ? ? Hpa _]; subst. simpl in Hpa.
  exists e. split; [done |]. split; [done |]. split; [| done]. split; try done; simpl; [| lia].
  eapply (moves_app [_] [_]); apply moves_one; done.
Qed.

Lemma refund_effect id e0 st now ref s r s' :
  0 <= es_amountUsdc e0 <= ESCROW_MAX ->
  _refundEscrowTx sha256 id e0 st now ref s = Ok (r, s') ->
  let amount := es_amountUsdc e0 in let fd := from_dispute e0 in
  exists e, es_status e ∈ source_statuses fd /\ 0 < amount /\
    effect id e (refunded_row st now ref e) [(es_payerId e0, source_delta fd amount amount)]
      [HistRow (es_payerId e0) TICKET_ESCROW_REFUND amount 0 (Some ref) true] 0 (refund_key id st)
      [NLine (source_code fd (es_payerId e0) id) amount 0; NLine (liability_code (es_payerId e0)) 0 amount] s s' /\
    disputes s' = disputes s.
Proof.
  intros Ha Hr amount fd. unfold _refundEscrowTx in Hr. rewrite (col_amount _ Ha), (exact_amount _ Ha) in Hr.
  fold amount fd in Hr. apply Mbind_Ok in Hr as (x & s1 & Hc & Hr). apply claim_Ok in Hc as (e & He & Hst & _ & ->).
  apply drain_step in Hr as (u & Hu & _ & Hok & Hr).
  apply Mbind_Ok in Hr as (pr & s5 & Hpost & Hr).
  apply (escrow_posted sha256 (refund_key id st) "ESCROW_REFUND" _ _ _ _
    [DebitOf (source_code fd (es_payerId e0) id) amount; CreditOf (liability_code (es_payerId e0)) amount])
    in Hpost as (l2 & -> & Hposted & Hpos); [| repeat constructor; simpl; lia | done].
  apply Mbind_Ok in Hr as (x6 & s6 & Hh & Hr). apply history_create_Ok in Hh as ->.
  apply Mbind_Ok in Hr as (x7 & s7 & Hfind & Hr). apply escrow_find_Ok in Hfind as [_ ->]. apply lift_Ok in Hr as [_ ->].
  inversion Hpos as [| ? ? Hpa _]; subst. simpl in Hpa.
  exists e. split; [done |]. split; [done |]. split; [| done]. split; try done; simpl; [| lia].
  by apply moves_one.
Qed.

Lemma dispute_effect id by_ reason s r s' :
  (forall e, escrows s !! id = Some e -> 0 <= es_amountUsdc e <= ESCROW_MAX) ->
  raiseDispute sha256 id by_ reason s = Ok (r, s') ->
  exists e, let amount := es_amountUsdc e in es_status e ∈ LIVE /\ 0 < amount /\ disputes s !! id = None /\
    is_party by_ e = true /\
    effect id e (with_status DISPUTED e) [(es_payerId e, Delta 0 (- amount) amount)] [] 0 (dispute_key id)
      [NLine (locked_code id) amount 0; NLine (dispute_code (es_payerId e)) 0 amount] s s' /\
    disputes s' = <[id := DisputeRow by_ reason D_PENDING None None None None]> (disputes s).
Proof.
  intros Hterms Hr. unfold raiseDispute in Hr. apply Mbind_Ok in Hr as (r0 & s1 & Hf & Hr). apply escrow_find_Ok in Hf as [-> ->].
  apply Mbind_Ok in Hr as (e & s1 & He & Hr). apply lift_Ok in He as [He ->]. apply of_option_Ok in He.
  pose proof (Hterms e He) as Ha. rewrite (col_amount _ Ha), (exact_amount _ Ha) in Hr.
  apply Mbind_Ok in Hr as (dsp & s1 & Hd & Hr). apply reads_Ok in Hd as [-> ->].
  apply Mbind_Ok in Hr as (x & s1 & Hc & Hr). apply check_Ok in Hc as [Hnod ->].
  apply Mbind_Ok in Hr as (x1 & s1 & Hc & Hr). apply check_Ok in Hc as [_ ->].
  apply Mbind_Ok in Hr as (x2 & s1 & Hc & Hr). apply check_Ok in Hc as [Hparty ->].
  apply Mbind_Ok in Hr as (n & s1 & Hu & Hr). apply Mbind_Ok in Hr as (x3 & s2 & Hc & Hr). apply check_Ok in Hc as [Hn ->].
  apply escrow_updateMany_Ok in Hu as [(-> & _) | (_ & e' & He' & Hst & ->)]; [done |].
  rewrite He in He'. injection He' as <-. apply in_status_spec in Hst.
  apply drain_step in Hr as (u & Hu & _ & Hok & Hr).
  apply Mbind_Ok in Hr as (pr & s5 & Hpost & Hr).
  apply (escrow_posted sha256 (dispute_key id) "ESCROW_DISPUTE" _ _ _ _
    [DebitOf (locked_code id) (es_amountUsdc e); CreditOf (dispute_code (es_payerId e)) (es_amountUsdc e)])
    in Hpost as (l2 & -> & Hposted & Hpos); [| repeat constructor; simpl; lia | done].
  apply Mbind_Ok in Hr as (s6 & s6' & Hg & Hr). apply get_Ok in Hg as [-> ->].
  apply Mbind_Ok in Hr as (x4 & s6 & Hc & Hr). apply check_Ok in Hc as [_ ->].
  apply Mbind_Ok in Hr as (x5 & s6 & Hp & Hr). apply put_Ok in Hp as ->.
  apply Mbind_Ok in Hr as (x6 & s7 & Hfind & Hr). apply escrow_find_Ok in Hfind as [_ ->].
  apply Mbind_Ok in Hr as (x7 & s7 & Hl & Hr). apply lift_Ok in Hl as [_ ->]. apply Mret_Ok in Hr as [_ ->].
  inversion Hpos as [| ? ? Hpa _]; subst. simpl in Hpa.
  exists e. split; [done |]. split; [done |]. split; [by destruct (disputes s !! id) |]. split; [done |]. split; [| done].
  split; try done; simpl; [by apply moves_one | by rewrite app_nil_r | lia].
Qed.

(** ** The shares of a SPLIT *)

Lemma round6_magnitude x B :
  (Qabs x * 100000000 <= inject_Z B)%Q -> Z.abs (100 * toFixedZ 6 x) <= B + 50.
Proof.
  intros Hx. pose proof (toFixedZ_spec 6 x ltac:(lia)) as Hs. change (10 ^ 6) with 1000000 in Hs.
  apply Qabs_Qle_condition in Hs. change (inject_Z 1000000) with 1000000%Q in Hs.
  assert (Hq : (Qabs (inject_Z (100 * toFixedZ 6 x)) <= inject_Z (B + 50))%Q).
  { rewrite inject_Z_mult, inject_Z_plus. change (inject_Z 100) with 100%Q. change (inject_Z 50) with 50%Q.
    pose proof (Qle_Qabs x). pose proof (Qle_Qabs (- x)) as Ho. rewrite Qabs_opp in Ho.
    apply Qabs_Qle_condition. split; lra. }
  unfold Qle, Qabs, inject_Z in Hq. simpl in Hq. lia.
Qed.

Lemma parse6_magnitude k : (Qabs (parseDec 6 k) * 100000000 <= inject_Z (Z.abs (100 * k)) * (9 # 8))%Q.
Proof.
  unfold parseDec. pose proof (fl_magnitude (k # Z.to_pos (10 ^ 6))) as Hm. change (Z.to_pos (10 ^ 6)) with 1000000%positive in *.
  assert (He : (Qabs (k # 1000000) * 100000000 == inject_Z (Z.abs (100 * k)))%Q).
  { unfold Qeq, Qabs, inject_Z, Qmult. simpl. lia. }
  rewrite <- He. lra.
Qed.

Lemma number_magnitude u : 0 <= u -> (0 <= Qnum (Number_of_units u)) /\ (Qabs (Number_of_units u) * 100000000 <= inject_Z u * (9 # 8))%Q.
Proof.
  intros Hu. split; [by apply fl_nonneg |]. unfold Number_of_units, parseDec.
  pose proof (fl_magnitude (u # Z.to_pos (10 ^ 8))) as Hm. change (Z.to_pos (10 ^ 8)) with 100000000%positive in *.
  assert (He : (Qabs (u # 100000000) * 100000000 == inject_Z u)%Q).
  { unfold Qeq, Qabs, inject_Z, Qmult. simpl. lia. }
  rewrite <- He. lra.
Qed.

Lemma Qnum_nonneg q : 0 <= Qnum q <-> (0 <= q)%Q.
Proof. unfold Qle. simpl. lia. Qed.

(** Both shares are 6-decimal amounts of moderate size; the payer's is not
    negative. *)
Lemma split_shares_grid u p :
  0 <= u <= ESCROW_MAX -> (0 <= p)%Q -> (p <= 100)%Q ->
  exists k1 k2, split_shares (Number_of_units u) p = (parseDec 6 k1, parseDec 6 k2) /\
    0 <= k1 /\ Z.abs (100 * k1) <= SAFE_UNITS /\ Z.abs (100 * k2) <= SAFE_UNITS.
Proof.
  intros Hu Hp0 Hp. destruct (number_magnitude u (proj1 Hu)) as [HN0 HN].
  set (N := Number_of_units u) in *. unfold split_shares, js_mul, js_div, js_sub, round6.
  set (x := (p / 100)%Q) in *. set (r := fl x). set (k1 := toFixedZ 6 (fl (N * r))).
  set (k2 := toFixedZ 6 (fl (N - parseDec 6 k1))).
  assert (Hp100 : (0 <= x /\ x <= 1)%Q) by (unfold x, Qdiv; change (/ 100)%Q with (1 # 100)%Q; lra).
  assert (Hr0 : (0 <= r)%Q) by (apply Qnum_nonneg, fl_nonneg, Qnum_nonneg, (proj1 Hp100)).
  assert (Hr : (r <= 9 # 8)%Q).
  { pose proof (fl_magnitude x) as Hm. fold r in Hm. rewrite (Qabs_pos r Hr0), (Qabs_pos _ (proj1 Hp100)) in Hm. lra. }
  assert (HNq : (0 <= N)%Q) by (by apply Qnum_nonneg). rewrite (Qabs_pos N HNq) in HN.
  assert (Hu' : (inject_Z u <= 100000000000000)%Q) by (unfold Qle, inject_Z; simpl; unfold ESCROW_MAX in Hu; lia).
  assert (Hmul0 : (0 <= N * r)%Q) by (by apply Qmult_le_0_compat).
  assert (Hmul : (N * r <= N * (9 # 8))%Q) by (rewrite (Qmult_comm N r), (Qmult_comm N); by apply Qmult_le_compat_r).
  assert (Hk1 : Z.abs (100 * k1) <= 200000000000000).
  { pose proof (round6_magnitude (fl (N * r)) (142382812500050)) as Hb. fold k1 in Hb.
    enough (Z.abs (100 * k1) <= 142382812500050 + 50) by lia. apply Hb.
    pose proof (fl_magnitude (N * r)) as Hm. rewrite (Qabs_pos _ Hmul0) in Hm.
    change (inject_Z 142382812500050) with 142382812500050%Q. lra. }
  assert (Hk1n : 0 <= k1) by (apply toFixedZ_nonneg; [lia | by apply fl_nonneg, Qnum_nonneg]).
  exists k1, k2. split; [done |]. split; [done |]. split; [unfold SAFE_UNITS; lia |].
  pose proof (parse6_magnitude k1) as Hpm. assert (Hpk : (Qabs (parseDec 6 k1) * 100000000 <= 225000000000000)%Q).
  { assert ((inject_Z (Z.abs (100 * k1)) <= 200000000000000)%Q) by (unfold Qle, inject_Z; simpl; lia). lra. }
  pose proof (round6_magnitude (fl (N - parseDec 6 k1)) 400000000000000) as Hb. fold k2 in Hb.
  enough (Z.abs (100 * k2) <= 400000000000000 + 50) by (unfold SAFE_UNITS; lia). apply Hb.
  pose proof (fl_magnitude (N - parseDec 6 k1)) as Hm. pose proof (Qabs_triangle N (- parseDec 6 k1)) as Ht.
  rewrite Qabs_opp, (Qabs_pos N HNq) in Ht. change (inject_Z 400000000000000) with 400000000000000%Q.
  change (N + - parseDec 6 k1)%Q with (N - parseDec 6 k1)%Q in Ht. lra.
Qed.

Lemma col_share k : Z.abs (100 * k) <= SAFE_UNITS -> num_to_col (parseDec 6 k) = 100 * k.
Proof. intros Hk. apply num_to_col_units; [done |]. unfold Qeq. simpl. lia. Qed.

Lemma pay_share_Ok uid ty k ref s x s' :
  Z.abs (100 * k) <= SAFE_UNITS -> 0 < k -> pay_share uid ty (parseDec 6 k) ref s = Ok (x, s') ->
  exists u, users s !! uid = Some u /\ user_ok (apply_delta (Delta (100 * k) 0 0) u) = true /\
    s' = add_hist (HistRow uid ty (100 * k) 0 (Some ref) true) (set_users (<[uid := apply_delta (Delta (100 * k) 0 0) u]> (users s)) s).
Proof.
  intros Hk Hpos Hr. unfold pay_share in Hr. rewrite parse6_positive, col_share in Hr by done.
  destruct (Z.ltb_spec 0 k); [| lia]. apply Mbind_Ok in Hr as (y & s1 & Hu & Hr).
  apply user_update_Ok in Hu as (u & -> & Hu & Hok). apply history_create_Ok in Hr as ->. eauto.
Qed.

(** The lines of a split that posts are positive and add up. *)
Lemma split_posted key ref uid id payer payee amount k1 k2 s r s' :
  0 <= amount -> 0 <= k1 -> Z.abs (100 * k1) <= SAFE_UNITS -> Z.abs (100 * k2) <= SAFE_UNITS -> amount <= ESCROW_MAX ->
  post_ledger sha256 (escrow_posting key "ESCROW_RELEASE" "Dispute resolved SPLIT" ref uid id
    [debit_line (dispute_code payer) (exact_dec amount); credit_line (liability_code payer) (exact_num (parseDec 6 k1));
     credit_line (liability_code payee) (exact_num (parseDec 6 k2))]) s = Ok (r, s') ->
  0 < k1 /\ 0 < k2 /\ amount = 100 * k1 + 100 * k2 /\
  exists l', s' = set_ledger l' s /\ posted sha256 key
    [NLine (dispute_code payer) amount 0; NLine (liability_code payer) 0 (100 * k1); NLine (liability_code payee) 0 (100 * k2)]
    (ledger s) l'.
Proof.
  intros Ha Hk1 Hs1 Hs2 Hmax Hp. unfold ESCROW_MAX, SAFE_UNITS in *.
  assert (Hn2 : 0 <= Qnum (parseDec 6 k2)).
  { destruct (Z.lt_ge_cases (Qnum (parseDec 6 k2)) 0) as [Hneg | ?]; [exfalso | done].
    apply post_ledger_Ok in Hp as (l' & Hp & _). apply post_inv in Hp as (ls & conv & s1 & Hprep & _).
    unfold post_prepare in Hprep. apply bind_Ok in Hprep as (u & _ & Hprep). apply bind_Ok in Hprep as (ls' & Hls & _).
    simpl in Hls. apply bind_Ok in Hls as (n1 & _ & Hls). apply bind_Ok in Hls as (r1 & Hls & _).
    apply bind_Ok in Hls as (n2 & _ & Hls). apply bind_Ok in Hls as (r2 & Hls & _). apply bind_Ok in Hls as (n3 & Hn3 & _).
    by apply exact_num_negative in Hn3. }
  rewrite !exact_num_exact_dec in Hp by (done || by apply fl_nonneg).
  rewrite !toFixed8_parse6 in Hp by (unfold SAFE_UNITS; lia).
  assert (Hk2 : 0 <= 100 * k2).
  { rewrite <- toFixed8_parse6 by (unfold SAFE_UNITS; lia). by apply toFixedZ_nonneg. }
  apply (escrow_posted sha256 key "ESCROW_RELEASE" _ _ _ _
    [DebitOf (dispute_code payer) amount; CreditOf (liability_code payer) (100 * k1); CreditOf (liability_code payee) (100 * k2)])
    in Hp as (l' & -> & Hposted & Hpos); [| repeat constructor; simpl; lia | done].
  inversion Hpos as [| ? ? _ Hpos1]; inversion Hpos1 as [| ? ? Hp1 Hpos2]; inversion Hpos2 as [| ? ? Hp2 _]; subst. simpl in Hp1, Hp2.
  split; [lia |]. split; [lia |]. split; [| by exists l'].
  destruct Hposted as (p & r0 & _ & Hw & Hprep & _).
  destruct (prepared_total p _ _ Hw Hprep) as (_ & Hbal & _); simpl in *; unfold DECIMAL_20_8_LIMIT; lia.
Qed.

Lemma split_effect id e0 p now relRef refRef s r s' :
  0 <= es_amountUsdc e0 <= ESCROW_MAX -> (0 <= p)%Q -> (p <= 100)%Q ->
  split_tx sha256 id e0 p now relRef refRef s = Ok (r, s') ->
  let amount := es_amountUsdc e0 in let payer := es_payerId e0 in let payee := es_payeeId e0 in
  exists e a b, es_status e ∈ IN_DISPUTE /\ 0 < a /\ 0 < b /\ amount = a + b /\
    effect id e (split_row now relRef refRef e)
      [(payer, Delta 0 0 (- amount)); (payer, Delta a 0 0); (payee, Delta b 0 0)]
      [HistRow payer TICKET_ESCROW_REFUND a 0 (Some refRef) true; HistRow payee TICKET_ESCROW_RELEASE b 0 (Some relRef) true] 0 (settle_key id)
      [NLine (dispute_code payer) amount 0; NLine (liability_code payer) 0 a; NLine (liability_code payee) 0 b] s s' /\
    disputes s' = disputes s.
Proof.
  intros Ha Hp0 Hp1 Hr amount payer payee. unfold split_tx in Hr.
  destruct (split_shares_grid (es_amountUsdc e0) p Ha Hp0 Hp1) as (k1 & k2 & Hsh & Hk1 & Hb1 & Hb2). rewrite Hsh in Hr.
  rewrite (col_amount _ Ha), (exact_amount _ Ha) in Hr. fold amount payer payee in Hr.
  apply Mbind_Ok in Hr as (x & s1 & Hc & Hr). apply claim_Ok in Hc as (e & He & Hst & _ & ->).
  apply drain_step in Hr as (u & Hu & _ & Hok & Hr).
  apply Mbind_Ok in Hr as (x1 & s2 & Hs1 & Hr). apply Mbind_Ok in Hr as (x2 & s3 & Hs2 & Hr).
  apply Mbind_Ok in Hr as (pr & s4 & Hpost & Hr). apply Mret_Ok in Hr as [_ ->].
  apply split_posted in Hpost as (Hpk1 & Hpk2 & Hsum & l' & -> & Hposted); [| lia | done | done | done | lia].
  apply pay_share_Ok in Hs1 as (u1 & Hu1 & Hok1 & ->); [| done | done].
  apply pay_share_Ok in Hs2 as (u2 & Hu2 & Hok2 & ->); [| done | done].
  exists e, (100 * k1), (100 * k2). split; [done |]. split; [lia |]. split; [lia |]. split; [done |]. split; [| done].
  split; try done; simpl; [| by rewrite <- app_assoc | lia].
  eapply (moves_app [_] [_; _]); [by apply moves_one |]. eapply (moves_app [_] [_]); by apply moves_one.
Qed.
End Effects.
