(* ===== verification/EscrowProps.v ===== *)
(** * Correctness of smart escrow

    The service's operations as steps over one database, with stale reads; the
    conservation of value, the backing of the escrow buckets, the agreement of
    the ledger and of the history with the balances, and the finality of a
    settlement, for every interleaving. *)

From stdpp Require Import base gmap strings list relations.
From Stdlib Require Import ZArith QArith Qabs Lia Ascii.
From S2P Require Import Prelude JsNumber ExactDecimal Json Ledger LedgerFacts LedgerHash LedgerProps Idempotency Escrow EscrowFacts.

Local Open Scope Z_scope.

(** ** Sums over tables *)

Definition sumM {K V} `{Countable K} (f : V -> Z) (m : gmap K V) : Z := sumZ (fun p => f p.2) (map_to_list m).

Lemma sumM_insert_new {K V} `{Countable K} (f : V -> Z) (m : gmap K V) k v :
  m !! k = None -> sumM f (<[k := v]> m) = f v + sumM f m.
Proof. intros Hk. unfold sumM. rewrite (sumZ_perm _ _ _ (map_to_list_insert m k v Hk)). done. Qed.

Lemma sumM_insert {K V} `{Countable K} (f : V -> Z) (m : gmap K V) k v0 v :
  m !! k = Some v0 -> sumM f (<[k := v]> m) = sumM f m - f v0 + f v.
Proof.
  intros Hk. rewrite <- (insert_delete_id m k v0 Hk) at 2. rewrite <- (insert_delete_eq m k v).
  rewrite !sumM_insert_new by apply lookup_delete_eq. lia.
Qed.

(** ** Balances *)

Definition bucket (f : user_row -> Z) (u : Z) (m : gmap Z user_row) : Z := default 0 (f <$> m !! u).
Definition delta_of (f : delta -> Z) (u : Z) (ds : list (Z * delta)) : Z :=
  sumZ (fun p => if p.1 =? u then f p.2 else 0) ds.

Section Moves.
Context (f : user_row -> Z) (g : delta -> Z) (Hfg : forall d u, f (apply_delta d u) = f u + g d).

Lemma moves_bucket ds m m' u : moves ds m m' -> bucket f u m' = bucket f u m + delta_of g u ds.
Proof using Hfg.
  intros Hm. induction Hm as [m | id d r ds m m' Hr Hok Hm IH]; [unfold delta_of; simpl; lia |].
  rewrite IH. unfold delta_of. rewrite sumZ_cons. simpl. unfold bucket.
  destruct (Z.eqb_spec id u) as [-> | Hne]; [rewrite lookup_insert_eq, Hr; simpl; rewrite Hfg; lia |].
  rewrite lookup_insert_ne by done. lia.
Qed.

Lemma moves_total ds m m' : moves ds m m' -> sumM f m' = sumM f m + sumZ (fun p => g p.2) ds.
Proof using Hfg.
  intros Hm. induction Hm as [m | id d r ds m m' Hr Hok Hm IH]; simpl; [lia |].
  rewrite IH, (sumM_insert f m id r) by done. rewrite Hfg. lia.
Qed.
End Moves.

Definition avail (u : Z) (s : edb) : Z := bucket availableBalance u (users s).
Definition locked (u : Z) (s : edb) : Z := bucket escrowLockedBalance u (users s).
Definition in_dispute (u : Z) (s : edb) : Z := bucket disputeEscrowBalance u (users s).

Definition user_total (r : user_row) : Z := availableBalance r + escrowLockedBalance r + disputeEscrowBalance r.
(** All the value the platform holds: customers' buckets and its own fees. *)
Definition total_value (s : edb) : Z := sumM user_total (users s) + profitFees s.

(** Principal of the escrows of payer [u] in one of the statuses [l]. *)
Definition principal_in (l : list escrow_status) (u : Z) (e : escrow_row) : Z :=
  if in_status l e && (es_payerId e =? u) then es_amountUsdc e else 0.
Definition held (l : list escrow_status) (u : Z) (s : edb) : Z := sumM (principal_in l u) (escrows s).

(** What the history says of a balance. *)
Definition hist_value (h : hist_row) : Z := hs_amountUsdc h - hs_feeUsdc h.
Definition hist_sum (u : Z) (s : edb) : Z :=
  sumZ (fun h => if (hs_userId h =? u) && hs_completed h then hist_value h else 0) (hist s).

(** ** Account codes *)

Lemma liability_eqb a b : 0 <= a -> 0 <= b -> String.eqb (liability_code a) (liability_code b) = (a =? b).
Proof.
  intros Ha Hb. unfold liability_code. destruct (Z.eqb_spec a b) as [-> | Hne]; [apply String.eqb_refl |].
  apply String.eqb_neq. intros He. apply (inj (String.append _)) in He.
  apply (split_first ":"%char) in He as [He _]; [| by apply (no_char_class is_digit), Z_digits_digits..].
  by apply Z_digits_inj in He.
Qed.

Lemma dispute_eqb a b : 0 <= a -> 0 <= b -> String.eqb (dispute_code a) (dispute_code b) = (a =? b).
Proof.
  intros Ha Hb. unfold dispute_code. destruct (Z.eqb_spec a b) as [-> | Hne]; [apply String.eqb_refl |].
  apply String.eqb_neq. intros He. apply (inj (String.append _)) in He.
  apply (split_first ":"%char) in He as [He _]; [| by apply (no_char_class is_digit), Z_digits_digits..].
  by apply Z_digits_inj in He.
Qed.

Lemma liability_dispute_eqb a b : String.eqb (liability_code a) (dispute_code b) = false.
Proof.
  apply String.eqb_neq. intros He. unfold liability_code, dispute_code in He. apply (inj (String.append _)) in He.
  apply (split_first ":"%char) in He as [_ He]; [done | by apply (no_char_class is_digit), Z_digits_digits..].
Qed.

Lemma dispute_liability_eqb a b : String.eqb (dispute_code a) (liability_code b) = false.
Proof. rewrite String.eqb_sym. apply liability_dispute_eqb. Qed.

Lemma str_app_inj_r (i j suf : string) : (i +:+ suf = j +:+ suf)%string -> i = j.
Proof.
  revert j. induction i as [| c i IH]; intros [| d j] He; try done.
  - rewrite str_app_nil_l, str_app_cons in He. exfalso. apply (f_equal String.length) in He.
    simpl in He. rewrite str_app_length in He. lia.
  - rewrite str_app_nil_l, str_app_cons in He. exfalso. apply (f_equal String.length) in He.
    simpl in He. rewrite str_app_length in He. lia.
  - rewrite !str_app_cons in He. injection He as -> He. f_equal. by apply IH.
Qed.

Lemma locked_eqb i j : String.eqb (locked_code i) (locked_code j) = String.eqb i j.
Proof.
  destruct (String.eqb_spec i j) as [-> | Hne]; [apply String.eqb_refl |].
  apply String.eqb_neq. intros He. apply (inj (String.append _)), str_app_inj_r in He. done.
Qed.

Lemma locked_liability_eqb i a : String.eqb (locked_code i) (liability_code a) = false.
Proof. reflexivity. Qed.
Lemma liability_locked_eqb a i : String.eqb (liability_code a) (locked_code i) = false.
Proof. reflexivity. Qed.
Lemma locked_dispute_eqb i a : String.eqb (locked_code i) (dispute_code a) = false.
Proof. reflexivity. Qed.
Lemma dispute_locked_eqb a i : String.eqb (dispute_code a) (locked_code i) = false.
Proof. reflexivity. Qed.
Lemma revenue_liability_eqb a : String.eqb "revenue:fees" (liability_code a) = false.
Proof. reflexivity. Qed.
Lemma revenue_dispute_eqb a : String.eqb "revenue:fees" (dispute_code a) = false.
Proof. reflexivity. Qed.
Lemma revenue_locked_eqb i : String.eqb "revenue:fees" (locked_code i) = false.
Proof. reflexivity. Qed.
Lemma liability_revenue_eqb a : String.eqb (liability_code a) "revenue:fees" = false.
Proof. reflexivity. Qed.
Lemma dispute_revenue_eqb a : String.eqb (dispute_code a) "revenue:fees" = false.
Proof. reflexivity. Qed.
Lemma locked_revenue_eqb i : String.eqb (locked_code i) "revenue:fees" = false.
Proof. reflexivity. Qed.

Create Rewrite HintDb codes.
#[export] Hint Rewrite liability_dispute_eqb dispute_liability_eqb locked_eqb locked_liability_eqb liability_locked_eqb
  locked_dispute_eqb dispute_locked_eqb revenue_liability_eqb revenue_dispute_eqb revenue_locked_eqb
  liability_revenue_eqb dispute_revenue_eqb locked_revenue_eqb : codes.
#[export] Hint Rewrite liability_eqb dispute_eqb using lia : codes.

(** ** Keys *)

Definition uuid_like (id : string) : Prop := no_char ":" id.

(** The keys of the postings that end an escrow. *)
Definition final_key (id k : string) : Prop :=
  k = settle_key id \/ (exists st, k = release_key id st) \/ (exists st, k = refund_key id st) \/ k = split_release_key id.

Definition DONE : list escrow_status := [SETTLED; RELEASED; REFUNDED; EXPIRED].

Lemma fund_not_dispute i j : fund_key i <> dispute_key j.
Proof. intros Hk. apply (f_equal (strip_prefix "ledger:escrow:fund:")) in Hk. by unfold fund_key in Hk; rewrite strip_prefix_app in Hk. Qed.

Lemma fund_not_final i j : ~ final_key j (fund_key i).
Proof.
  intros [Hk | [[st Hk] | [[st Hk] | Hk]]]; apply (f_equal (strip_prefix "ledger:escrow:fund:")) in Hk;
    unfold fund_key in Hk; by rewrite strip_prefix_app in Hk.
Qed.

Lemma dispute_key_inj i j : dispute_key i = dispute_key j -> i = j.
Proof. apply (inj (String.append _)). Qed.

Lemma dispute_not_final i j : uuid_like i -> ~ final_key j (dispute_key i).
Proof.
  intros Hi [Hk | [[st Hk] | [[st Hk] | Hk]]]; apply (f_equal (strip_prefix "ledger:escrow:dispute:")) in Hk;
    unfold dispute_key in Hk; rewrite strip_prefix_app in Hk; [| done..].
  change (strip_prefix "ledger:escrow:dispute:" (settle_key j)) with (Some ("settle:" +:+ j)%string) in Hk.
  injection Hk as ->. unfold uuid_like in Hi. rewrite no_char_app in Hi. by destruct Hi as [? _].
Qed.

Lemma final_not_dispute i j k : uuid_like j -> final_key i k -> k <> dispute_key j.
Proof. intros Hj Hf ->. by apply (dispute_not_final j i) in Hf. Qed.

Lemma final_key_inj i j k : uuid_like i -> uuid_like j -> final_key i k -> final_key j k -> i = j.
Proof.
  intros Hi Hj.
  assert (Hsplit : forall (i j st st' : string), uuid_like i -> uuid_like j -> (i +:+ ":" +:+ st = j +:+ ":" +:+ st')%string -> i = j).
  { intros i' j' st st' Hi' Hj' He. by apply (split_first ":"%char i' j' st st' Hi' Hj') in He as [? _]. }
  intros [-> | [[st ->] | [[st ->] | ->]]] [Hk | [[st' Hk] | [[st' Hk] | Hk]]].
  all: try (by apply (inj (String.append _)) in Hk).
  all: try (by apply (inj (String.append _)), Hsplit in Hk).
  all: exfalso.
  1-3: apply (f_equal (strip_prefix "ledger:escrow:dispute:settle:")) in Hk; unfold settle_key in Hk; by rewrite strip_prefix_app in Hk.
  1-3: apply (f_equal (strip_prefix "ledger:escrow:release:")) in Hk; unfold release_key at 1 in Hk; by rewrite strip_prefix_app in Hk.
  1-3: apply (f_equal (strip_prefix "ledger:escrow:refund:")) in Hk; unfold refund_key at 1 in Hk; by rewrite strip_prefix_app in Hk.
  all: apply (f_equal (strip_prefix "ledger:escrow:split-release:")) in Hk; unfold split_release_key at 1 in Hk; by rewrite strip_prefix_app in Hk.
Qed.

(** ** Steps *)

(** The statuses an escrow may move to. *)
Definition allowed (a b : escrow_status) : bool :=
  bool_decide (a = b) ||
  match a with
  | DRAFT => bool_decide (b ∈ [FUNDED; EXPIRED])
  | FUNDED | IN_PROGRESS_ | PENDING_SETTLEMENT => bool_decide (b ∈ [PENDING_SETTLEMENT; DISPUTED; SETTLED; RELEASED; REFUNDED; EXPIRED])
  | DISPUTED | ADMIN_REVIEW => bool_decide (b ∈ [ADMIN_REVIEW; RELEASED; SETTLED; REFUNDED; EXPIRED])
  | _ => false
  end.

(** [e'] is a later version of [e]. *)
Definition later (e e' : escrow_row) : Prop :=
  es_ticketId e' = es_ticketId e /\ es_payerId e' = es_payerId e /\ es_payeeId e' = es_payeeId e /\
  es_amountUsdc e' = es_amountUsdc e /\ es_feeUsdc e' = es_feeUsdc e /\
  (es_payerSatisfied e = true -> es_payerSatisfied e' = true) /\
  (es_payeeSatisfied e = true -> es_payeeSatisfied e' = true) /\
  allowed (es_status e) (es_status e') = true.

(** [s0] is an earlier database: each of its rows has a later version in [s]. *)
Definition earlier (s0 s : edb) : Prop :=
  forall id e, escrows s0 !! id = Some e -> exists e', escrows s !! id = Some e' /\ rtc later e e'.

(** Sums over a handful of explicit movements and lines, by cases. *)
Ltac pays_tac := intros; unfold delta_of, source_delta, from_dispute, hist_value;
  rewrite ?sumZ_cons, ?sumZ_nil; cbn [fst snd da dl dd hs_userId hs_completed hs_amountUsdc hs_feeUsdc];
  repeat match goal with |- context [in_status IN_DISPUTE ?e] => destruct (in_status IN_DISPUTE e) end;
  cbn [fst snd da dl dd]; repeat match goal with |- context [?a =? ?b] => destruct (a =? b) end; simpl; lia.
Ltac lines_tac := intros; unfold line_movement, from_dispute; rewrite ?sumZ_cons, ?sumZ_nil;
  cbn [n_account n_debit n_credit source_code];
  repeat match goal with |- context [String.eqb ?a ?b] => destruct (String.eqb a b) end; lia.

Section Steps.
Context `{DecimalLib} `{PrismaNumber} (sha256 : string -> string) (wire : escrow_row -> string).

(** The statements and transactions that other requests can observe.  A
    function that reads before its transaction may act at a later state than
    the one it read ([s0]), whichever services ran in between; the expiry
    worker refunds with EXPIRED. *)
Inductive escrow_step : edb -> edb -> Prop :=
| es_create newId ticket payer payee amount now e s s' :
    uuid_like newId -> 0 <= payer -> 0 <= payee ->
    createEscrow newId ticket payer payee amount now s = Ok (e, s') ->
    es_amountUsdc e <= ESCROW_MAX -> es_feeUsdc e <= ESCROW_MAX ->
    escrow_step s s'
| es_fund id payer now ref op s0 r s s' :
    earlier s0 s -> fundEscrow sha256 wire id payer now ref op s0 s = (Ok r, s') -> escrow_step s s'
| es_flag id user isPayer s0 n s s' :
    earlier s0 s -> satisfied_read id user s0 = Ok (Some isPayer) ->
    satisfied_claim id isPayer s = Ok (n, s') -> escrow_step s s'
| es_settle id u now ref s0 r s s' :
    earlier s0 s -> escrows s0 !! id = Some u -> es_payerSatisfied u && es_payeeSatisfied u = true ->
    _releaseEscrow sha256 id SETTLED now ref s = Ok (r, s') -> escrow_step s s'
| es_pending id n s s' : satisfied_pending id s = Ok (n, s') -> escrow_step s s'
| es_dispute id by_ reason r s s' : raiseDispute sha256 id by_ reason s = Ok (r, s') -> escrow_step s s'
| es_resolve id admin ru notes p q now relRef refRef r s s' :
    resolveDispute sha256 id admin ru notes p q now relRef refRef s = Ok (r, s') -> escrow_step s s'
| es_assign id admin s0 r s s' :
    earlier s0 s -> assignDisputeToAdmin id admin s0 s = (Ok r, s') -> escrow_step s s'
| es_cancel id user now ref s0 r s s' :
    earlier s0 s -> cancelEscrow sha256 id user now ref s0 s = (Ok r, s') -> escrow_step s s'
| es_expire id now ref r s s' : _refundEscrow sha256 id EXPIRED now ref s = Ok (r, s') -> escrow_step s s'.

(** ** The shape of every step *)

(** The bucket changes [ds], history rows [hs] and lines [ls] that pay [a] of
    the principal of [e] back to the payer and [b] to the payee. *)
Record pays (id : string) (e : escrow_row) (a b : Z) (ds : list (Z * delta)) (hs : list hist_row) (ls : list nline) : Prop := {
  py_a : 0 <= a;
  py_b : 0 <= b;
  py_sum : es_amountUsdc e = a + b;
  py_avail : forall u, delta_of da u ds = (if es_payerId e =? u then a else 0) + (if es_payeeId e =? u then b else 0);
  py_locked : forall u, delta_of dl u ds = if (es_payerId e =? u) && negb (in_status IN_DISPUTE e) then - es_amountUsdc e else 0;
  py_dispute : forall u, delta_of dd u ds = if (es_payerId e =? u) && in_status IN_DISPUTE e then - es_amountUsdc e else 0;
  py_total : sumZ (fun p => da p.2 + dl p.2 + dd p.2) ds = 0;
  py_hist : forall u, sumZ (fun h => if (hs_userId h =? u) && hs_completed h then hist_value h else 0) hs =
              (if es_payerId e =? u then a else 0) + (if es_payeeId e =? u then b else 0);
  py_lines : forall c, line_movement c ls = line_movement c
              [NLine (source_code (in_status IN_DISPUTE e) (es_payerId e) id) (es_amountUsdc e) 0;
               NLine (liability_code (es_payerId e)) 0 a; NLine (liability_code (es_payeeId e)) 0 b];
}.

(** Either a new draft, a change of one row without money, or an effect. *)
Inductive step_shape (s s' : edb) : Prop :=
| shape_new id e :
    escrows s !! id = None -> uuid_like id -> 0 <= es_payerId e -> 0 <= es_payeeId e ->
    0 <= es_amountUsdc e <= ESCROW_MAX -> 0 <= es_feeUsdc e <= ESCROW_MAX -> es_status e = DRAFT ->
    s' = set_escrows (<[id := e]> (escrows s)) s -> step_shape s s'
| shape_quiet id e e' ds :
    escrows s !! id = Some e -> later e e' ->
    in_status LIVE e = in_status LIVE e' -> in_status IN_DISPUTE e = in_status IN_DISPUTE e' ->
    (forall i, is_Some (disputes s !! i) -> is_Some (ds !! i)) ->
    s' = set_disputes ds (set_escrows (<[id := e']> (escrows s)) s) -> step_shape s s'
| shape_ops ops : s' = set_operations ops s -> step_shape s s'
| shape_fund id e e' now days ref :
    es_status e = DRAFT -> e' = funded_row now days ref e ->
    effect sha256 id e e' [(es_payerId e, Delta (- (es_amountUsdc e + es_feeUsdc e)) 0 0); (es_payerId e, Delta 0 (es_amountUsdc e) 0)]
      [HistRow (es_payerId e) TICKET_ESCROW_FUND (- es_amountUsdc e) (es_feeUsdc e) (Some ref) true] (es_feeUsdc e) (fund_key id)
      [NLine (liability_code (es_payerId e)) (es_amountUsdc e + es_feeUsdc e) 0; NLine (locked_code id) 0 (es_amountUsdc e);
       NLine "revenue:fees" 0 (es_feeUsdc e)] s s' ->
    disputes s' = disputes s -> find_key (fund_key id) (ledger s) = None -> step_shape s s'
| shape_dispute id e :
    es_status e ∈ LIVE -> disputes s !! id = None ->
    effect sha256 id e (with_status DISPUTED e) [(es_payerId e, Delta 0 (- es_amountUsdc e) (es_amountUsdc e))] [] 0 (dispute_key id)
      [NLine (locked_code id) (es_amountUsdc e) 0; NLine (dispute_code (es_payerId e)) 0 (es_amountUsdc e)] s s' ->
    (exists d, disputes s' = <[id := d]> (disputes s)) -> step_shape s s'
| shape_final id e e' ds hs key ls a b :
    es_status e ∈ LIVE ++ IN_DISPUTE -> es_status e' ∈ DONE -> later e e' -> final_key id key ->
    pays id e a b ds hs ls -> effect sha256 id e e' ds hs 0 key ls s s' ->
    (forall i, is_Some (disputes s !! i) -> is_Some (disputes s' !! i)) -> step_shape s s'.

Lemma shape_none s s' : s' = s -> step_shape s s'.
Proof. intros ->. apply (shape_ops _ _ (operations s)). by destruct s. Qed.

(** ** Rows only move forward *)

(** [m] does not touch [f] when it succeeds. *)
Definition keeps {A B} (f : edb -> B) (m : M edb A) : Prop := forall s x s', m s = Ok (x, s') -> f s' = f s.

Lemma keeps_bind {A B C} (f : edb -> C) (m : M edb A) (k : A -> M edb B) :
  keeps f m -> (forall x, keeps f (k x)) -> keeps f (m ≫= k).
Proof.
  intros Hm Hk s x s' Hr. apply Mbind_Ok in Hr as (y & s1 & Hy & Hr). rewrite (Hk y s1 x s' Hr). by eapply Hm.
Qed.
Lemma keeps_check {C} (f : edb -> C) c e : keeps f (check c e).
Proof. intros s x s' Hr. by apply check_Ok in Hr as [_ ->]. Qed.
Lemma keeps_ret {A C} (f : edb -> C) (a : A) : keeps f (mret a).
Proof. intros s x s' Hr. by apply Mret_Ok in Hr as [_ ->]. Qed.
Lemma keeps_lift {A C} (f : edb -> C) (r : res A) : keeps f (lift r).
Proof. intros s x s' Hr. by apply lift_Ok in Hr as [_ ->]. Qed.
Lemma keeps_find {C} (f : edb -> C) id : keeps f (escrow_find id).
Proof. intros s x s' Hr. by apply escrow_find_Ok in Hr as [_ ->]. Qed.
Lemma keeps_reads {A C} (f : edb -> C) (g : edb -> A) : keeps f (reads g).
Proof. intros s x s' Hr. by apply reads_Ok in Hr as [_ ->]. Qed.
Lemma keeps_user_update id d : keeps escrows (user_update id d).
Proof. intros s x s' Hr. by apply user_update_Ok in Hr as (u & -> & _). Qed.
Lemma keeps_user_updateMany id c d : keeps escrows (user_updateMany id c d).
Proof. intros s x s' Hr. by apply user_updateMany_Ok in Hr as [[_ ->] | (_ & u & _ & _ & _ & ->)]. Qed.
Lemma keeps_post p : keeps escrows (post_ledger sha256 p).
Proof. intros s x s' Hr. by apply post_ledger_Ok in Hr as (l & _ & ->). Qed.
Lemma keeps_history h : keeps escrows (history_create h).
Proof. intros s x s' Hr. by apply history_create_Ok in Hr as ->. Qed.
Lemma keeps_dispute id f : keeps escrows (dispute_update id f).
Proof. intros s x s' Hr. by apply dispute_update_Ok in Hr as (d & _ & _ & _ & ->). Qed.
Lemma keeps_commit op sc body : keeps escrows (commit_op op sc body).
Proof. intros s x s' Hr. unfold commit_op in Hr. by run_inv Hr. Qed.
Lemma keeps_share u ty q r : keeps escrows (pay_share u ty q r).
Proof.
  unfold pay_share. destruct (js_lt 0 q); [| apply keeps_ret].
  apply keeps_bind; [apply keeps_user_update | intros; apply keeps_history].
Qed.

Lemma keeps_modify {C} (f : edb -> C) g : (forall s, f (g s) = f s) -> keeps f (modify g).
Proof. intros Hg s x s' Hr. by apply modify_Ok in Hr as ->. Qed.
Lemma keeps_put {B C} (f : edb -> C) (c : edb -> bool) e (g : edb -> edb) (k : edb -> M edb B) :
  (forall s, f (g s) = f s) -> (forall s, keeps f (k s)) -> keeps f (s ← get; check (c s) e;; put (g s);; k s).
Proof.
  intros Hg Hk s x s' Hr. apply Mbind_Ok in Hr as (s1 & s2 & Hget & Hr). apply get_Ok in Hget as [-> ->].
  apply Mbind_Ok in Hr as (y & s1 & Hc & Hr). apply check_Ok in Hc as [_ ->].
  apply Mbind_Ok in Hr as (z & s1 & Hp & Hr). apply put_Ok in Hp as ->. by rewrite (Hk s _ _ _ Hr).
Qed.

Ltac keeps_tac := repeat first
  [ apply keeps_check | apply keeps_ret | apply keeps_lift | apply keeps_find | apply keeps_reads | apply keeps_user_update
  | apply keeps_user_updateMany | apply keeps_post | apply keeps_history | apply keeps_dispute | apply keeps_commit
  | apply keeps_share | apply keeps_modify; done | apply keeps_put; [done | intros ?] | apply keeps_bind; [| intros ?]
  | case_match ].

(** [m] changes at most the row [id], by [f], and only where [cond] holds. *)
Definition changes {A} (id : string) (cond : escrow_row -> bool) (f : escrow_row -> escrow_row) (m : M edb A) : Prop :=
  forall s x s', m s = Ok (x, s') ->
  escrows s' = escrows s \/ exists e, escrows s !! id = Some e /\ cond e = true /\ escrows s' = <[id := f e]> (escrows s).

Lemma changes_update id cond f : changes id cond f (escrow_updateMany id cond f).
Proof.
  intros s x s' Hr. apply escrow_updateMany_Ok in Hr as [(_ & -> & _) | (_ & e & He & Hc & ->)]; [by left |]. right. by exists e.
Qed.

Lemma changes_then {A B} id cond f (m : M edb A) (k : A -> M edb B) :
  changes id cond f m -> (forall x, keeps escrows (k x)) -> changes id cond f (m ≫= k).
Proof.
  intros Hm Hk s x s' Hr. apply Mbind_Ok in Hr as (y & s1 & Hy & Hr). rewrite (Hk y _ _ _ Hr). by eapply Hm.
Qed.

Lemma changes_after {A B} id cond f (m : M edb A) (k : A -> M edb B) :
  keeps escrows m -> (forall x, changes id cond f (k x)) -> changes id cond f (m ≫= k).
Proof.
  intros Hm Hk s x s' Hr. apply Mbind_Ok in Hr as (y & s1 & Hy & Hr). apply Hm in Hy. rewrite <- Hy. by eapply Hk.
Qed.

Lemma claim_changes id sts f : changes id (in_status sts) f (_claimEscrowStatusTx id sts f).
Proof. apply changes_then; [apply changes_update | intros ?; keeps_tac]. Qed.

Lemma fund_changes id payer e0 days now ref op :
  changes id (fun e => bool_decide (es_status e = DRAFT) && (es_payerId e =? payer)) (funded_row now days ref)
    (fund_tx sha256 wire id payer e0 days now ref op).
Proof. apply changes_then; [apply changes_update | intros ?; keeps_tac]. Qed.

Lemma releaseTx_changes id e0 st now ref :
  changes id (in_status (source_statuses (from_dispute e0))) (settled_row st now ref) (_releaseEscrowTx sha256 id e0 st now ref).
Proof. apply changes_then; [apply claim_changes | intros ?; keeps_tac]. Qed.

Lemma refundTx_changes id e0 st now ref :
  changes id (in_status (source_statuses (from_dispute e0))) (refunded_row st now ref) (_refundEscrowTx sha256 id e0 st now ref).
Proof. apply changes_then; [apply claim_changes | intros ?; keeps_tac]. Qed.

Lemma splitTx_changes id e0 p now r1 r2 :
  changes id (in_status IN_DISPUTE) (split_row now r1 r2) (split_tx sha256 id e0 p now r1 r2).
Proof. unfold split_tx. destruct (split_shares _ p). apply changes_then; [apply claim_changes | intros ?; keeps_tac]. Qed.

Lemma raise_changes id by_ reason : changes id (in_status LIVE) (with_status DISPUTED) (raiseDispute sha256 id by_ reason).
Proof.
  unfold raiseDispute. do 6 (apply changes_after; [keeps_tac | intros ?]).
  apply changes_then; [apply changes_update | intros ?; keeps_tac].
Qed.

Lemma assign_changes id admin : changes id (in_status IN_DISPUTE) (with_status ADMIN_REVIEW) (assign_tx id admin).
Proof. apply changes_then; [apply changes_update | intros ?; keeps_tac]. Qed.

Lemma cancel_draft_changes id : changes id (fun e => bool_decide (es_status e = DRAFT)) (with_status EXPIRED) (cancel_draft id).
Proof. apply changes_then; [apply changes_update | intros ?; keeps_tac]. Qed.

(** What a step does to the table of escrows. *)
Inductive row_change (s s' : edb) : Prop :=
| rc_same : escrows s' = escrows s -> row_change s s'
| rc_one id e e' : escrows s !! id = Some e -> later e e' -> escrows s' = <[id := e']> (escrows s) -> row_change s s'
| rc_new id e : escrows s !! id = None -> es_status e = DRAFT -> escrows s' = <[id := e]> (escrows s) -> row_change s s'.

Lemma changes_later {A} id cond f (m : M edb A) s x s' :
  changes id cond f m -> (forall e, cond e = true -> later e (f e)) -> m s = Ok (x, s') -> row_change s s'.
Proof.
  intros Hm Hf Hr. apply Hm in Hr as [He | (e & He & Hc & Hs)]; [by apply rc_same |]. eapply rc_one; eauto.
Qed.

Ltac later_tac := intros e Hc; try apply andb_true_iff in Hc as [Hc _]; try apply bool_decide_eq_true in Hc;
  try apply in_status_spec in Hc; unfold later; simpl; split_and!; try done;
  unfold LIVE, IN_DISPUTE in *; set_unfold; repeat match goal with H : _ \/ _ |- _ => destruct H as [H | H] end;
  try done; by rewrite Hc.

Lemma later_fund now days ref payer e :
  bool_decide (es_status e = DRAFT) && (es_payerId e =? payer) = true -> later e (funded_row now days ref e).
Proof. revert e. later_tac. Qed.
Lemma later_settled b st now ref e :
  st = SETTLED \/ st = RELEASED /\ b = true -> in_status (source_statuses b) e = true -> later e (settled_row st now ref e).
Proof. intros [-> | [-> ->]]; [destruct b |]; revert e; unfold source_statuses; later_tac. Qed.
Lemma later_refunded b st now ref e :
  st = REFUNDED \/ st = EXPIRED -> in_status (source_statuses b) e = true -> later e (refunded_row st now ref e).
Proof. intros [-> | ->]; destruct b; revert e; unfold source_statuses; later_tac. Qed.
Lemma later_split now r1 r2 e : in_status IN_DISPUTE e = true -> later e (split_row now r1 r2 e).
Proof. revert e. later_tac. Qed.
Lemma later_pending e : in_status LIVE e = true -> later e (with_status PENDING_SETTLEMENT e).
Proof. revert e. later_tac. Qed.
Lemma later_disputed e : in_status LIVE e = true -> later e (with_status DISPUTED e).
Proof. revert e. later_tac. Qed.
Lemma later_review e : in_status IN_DISPUTE e = true -> later e (with_status ADMIN_REVIEW e).
Proof. revert e. later_tac. Qed.
Lemma later_cancelled e : bool_decide (es_status e = DRAFT) = true -> later e (with_status EXPIRED e).
Proof. revert e. later_tac. Qed.
Lemma allowed_refl st : allowed st st = true.
Proof. unfold allowed. by rewrite bool_decide_true. Qed.
Lemma later_flag isPayer e : later e (flag_row isPayer e).
Proof. unfold later. simpl. split_and!; try done; try (by destruct isPayer). apply allowed_refl. Qed.

Lemma transaction_Ok {S A} (m : M S A) s x s' : transaction m s = (Ok x, s') -> m s = Ok (x, s').
Proof. unfold transaction. destruct (m s) as [[y s1] | e]; intros Ht; by simplify_eq. Qed.

(** The reading of the row inside the transaction. *)
Lemma find_then {A} id (k : escrow_row -> M edb A) s x s' :
  (r ← escrow_find id; e ← lift (of_option r "Escrow not found."); k e) s = Ok (x, s') ->
  exists e, escrows s !! id = Some e /\ k e s = Ok (x, s').
Proof.
  intros Hr. apply Mbind_Ok in Hr as (r0 & s1 & Hf & Hr). apply escrow_find_Ok in Hf as [-> ->].
  apply Mbind_Ok in Hr as (e & s1 & He & Hr). apply lift_Ok in He as [He ->]. apply of_option_Ok in He. eauto.
Qed.

Lemma release_row id now ref s r s' : _releaseEscrow sha256 id SETTLED now ref s = Ok (r, s') -> row_change s s'.
Proof.
  intros Hr. apply find_then in Hr as (e & _ & Hr).
  eapply changes_later; [apply releaseTx_changes | | exact Hr]. intros e' Hc. by eapply later_settled; [left |].
Qed.

Lemma refund_row id st now ref s r s' :
  st = REFUNDED \/ st = EXPIRED -> _refundEscrow sha256 id st now ref s = Ok (r, s') -> row_change s s'.
Proof.
  intros Hst Hr. apply find_then in Hr as (e & _ & Hr).
  eapply changes_later; [apply refundTx_changes | | exact Hr]. intros e' Hc. by eapply later_refunded.
Qed.

Lemma create_row newId ticket payer payee amount now s e s' :
  createEscrow newId ticket payer payee amount now s = Ok (e, s') ->
  escrows s !! newId = None /\ es_status e = DRAFT /\ es_payerId e = payer /\ es_payeeId e = payee /\
  0 <= es_amountUsdc e /\ 0 <= es_feeUsdc e /\ s' = set_escrows (<[newId := e]> (escrows s)) s.
Proof.
  intros Hr. unfold createEscrow in Hr. run_inv Hr.
  match goal with Hm : match amount with _ => _ end s = Ok _ |- _ =>
    destruct amount as [q | |]; [destruct (js_lt 0 q) |..]; run_inv Hm end.
  match goal with Hc : column_ok _ && column_ok _ = true |- _ => rename Hc into Hcol end.
  unfold column_ok in Hcol. rewrite !andb_true_iff, !Z.leb_le in Hcol. destruct Hcol as [[? _] [? _]].
  destruct (escrows s !! newId); [done |]. by split_and!.
Qed.

(** A resolution either converges or runs one settlement on a disputed row and
    then resolves the dispute. *)
Definition ruled (ru : ruling) (id : string) (e : escrow_row) (p : Q) (now : Z) (relRef refRef : string) : M edb escrow_row :=
  match ru with
  | FULL_RELEASE => _releaseEscrowTx sha256 id e RELEASED now relRef
  | FULL_REFUND => _refundEscrowTx sha256 id e REFUNDED now refRef
  | SPLIT => split_tx sha256 id e p now relRef refRef
  end.

Lemma split_args_range p q r : split_args p q = Ok r -> (0 <= r.1)%Q /\ (r.1 <= 100)%Q.
Proof.
  unfold split_args. destruct p as [p | |], q as [q | |]; try done. intros Hr. res_inv Hr.
  rewrite !orb_false_iff in Hres0. destruct Hres0 as [[[Hp _] Hp'] _]. unfold js_lt in *. simpl.
  apply negb_false_iff, Qle_bool_iff in Hp, Hp'. done.
Qed.

Lemma resolve_inv id admin ru notes p q now relRef refRef s r s' :
  resolveDispute sha256 id admin ru notes p q now relRef refRef s = Ok (r, s') ->
  s' = s /\ r.2 = true \/
  exists e pc r1 s1 d, escrows s !! id = Some e /\ in_status IN_DISPUTE e = true /\ (0 <= pc)%Q /\ (pc <= 100)%Q /\
    ruled ru id e pc now relRef refRef s = Ok (r1, s1) /\ disputes s1 !! id = Some d /\ ds_status d <> D_RESOLVED /\
    s' = set_disputes (<[id := resolved_row ru notes now admin d]> (disputes s1)) s1.
Proof.
  intros Hr. unfold resolveDispute in Hr. apply Mbind_Ok in Hr as (pc & s1 & Hp & Hr).
  assert (Hpc : s1 = s /\ (0 <= pc.1)%Q /\ (pc.1 <= 100)%Q).
  { destruct ru; [apply Mret_Ok in Hp as [-> ->]; done.. |]. apply lift_Ok in Hp as [Hp ->]. by apply split_args_range in Hp. }
  destruct Hpc as (-> & Hp0 & Hp1). apply find_then in Hr as (e & He & Hr).
  apply Mbind_Ok in Hr as (dsp & s1 & Hd & Hr). apply reads_Ok in Hd as [-> ->].
  apply Mbind_Ok in Hr as (d0 & s1 & Hd & Hr). apply lift_Ok in Hd as [Hd ->].
  destruct (in_status [RELEASED; REFUNDED] e && _); [apply Mret_Ok in Hr as [-> ->]; by left |]. right.
  apply Mbind_Ok in Hr as (x & s1 & Hc & Hr). apply check_Ok in Hc as [Hc ->].
  apply Mbind_Ok in Hr as (r1 & s1 & Ht & Hr). apply Mbind_Ok in Hr as (d & s2 & Hu & Hr). apply Mret_Ok in Hr as [_ ->].
  apply dispute_update_Ok in Hu as (d1 & Hd1 & Hs & _ & ->).
  exists e, pc.1, r1, s1, d1. by split_and!.
Qed.

Lemma ruled_row ru id e pc now relRef refRef s r s' :
  in_status IN_DISPUTE e = true -> ruled ru id e pc now relRef refRef s = Ok (r, s') -> row_change s s'.
Proof.
  intros He Hr. unfold ruled in Hr. destruct ru.
  - eapply changes_later; [apply releaseTx_changes | | exact Hr]. intros e' Hc. eapply later_settled; [| exact Hc]. by right.
  - eapply changes_later; [apply refundTx_changes | | exact Hr]. intros e' Hc. eapply later_refunded; [| exact Hc]. by left.
  - eapply changes_later; [apply splitTx_changes | | exact Hr]. intros e' Hc. by apply later_split.
Qed.

Lemma step_row s s' : escrow_step s s' -> row_change s s'.
Proof.
  intros Hs. destruct Hs as
    [newId tk payer payee amount now e s s' _ _ _ Hr _ _ | id payer now ref op s0 r s s' _ Hr | id user isPayer s0 n s s' _ _ Hr
    | id u now ref s0 r s s' _ _ _ Hr | id n s s' Hr | id by_ reason r s s' Hr | id admin ru notes p q now r1 r2 r s s' Hr
    | id admin s0 r s s' _ Hr | id user now ref s0 r s s' _ Hr | id now ref r s s' Hr].
  - apply create_row in Hr as (Hn & Hd & _ & _ & _ & _ & ->). by eapply rc_new.
  - unfold fundEscrow in Hr. destruct (fund_read _ _ _); [| done]. apply transaction_Ok in Hr.
    eapply changes_later; [apply fund_changes | | exact Hr]. intros e. apply later_fund.
  - eapply changes_later; [apply changes_update | | exact Hr]. intros e _. apply later_flag.
  - by eapply release_row.
  - eapply changes_later; [apply changes_update | | exact Hr]. apply later_pending.
  - eapply changes_later; [apply raise_changes | | exact Hr]. apply later_disputed.
  - apply resolve_inv in Hr as [[-> _] | (e & pc & r1' & s1 & d & _ & He & _ & _ & Hr & _ & _ & ->)]; [by apply rc_same |].
    apply ruled_row in Hr; [| done]. destruct Hr; [by apply rc_same | by eapply rc_one | by eapply rc_new].
  - unfold assignDisputeToAdmin in Hr. destruct (assign_read _ _ _); [| done]. apply transaction_Ok in Hr.
    eapply changes_later; [apply assign_changes | | exact Hr]. apply later_review.
  - unfold cancelEscrow in Hr. destruct (cancel_read _ _ _) as [[] |]; [..| done]; apply transaction_Ok in Hr.
    + eapply changes_later; [apply cancel_draft_changes | | exact Hr]. apply later_cancelled.
    + eapply refund_row; [| exact Hr]. by left.
  - eapply refund_row; [| exact Hr]. by right.
Qed.

Lemma later_refl e : later e e.
Proof. unfold later. split_and!; try done. apply allowed_refl. Qed.

(** A row is followed by later versions of itself only. *)
Lemma earlier_refl s : earlier s s.
Proof. intros id e He. by exists e. Qed.

Lemma earlier_trans s1 s2 s3 : earlier s1 s2 -> earlier s2 s3 -> earlier s1 s3.
Proof.
  intros H12 H23 id e He. destruct (H12 id e He) as (e2 & He2 & Hl). destruct (H23 id e2 He2) as (e3 & He3 & Hl').
  exists e3. split; [done |]. by etrans.
Qed.

Lemma row_earlier s s' : row_change s s' -> earlier s s'.
Proof.
  intros Hc id e He. destruct Hc as [Hr | i a b Ha Hl Hr | i a Ha _ Hr]; rewrite Hr.
  - by exists e.
  - destruct (decide (i = id)) as [-> | Hne].
    + rewrite lookup_insert_eq. rewrite He in Ha. injection Ha as <-. exists b. split; [done | by apply rtc_once].
    + rewrite lookup_insert_ne by done. by exists e.
  - rewrite lookup_insert_ne by congruence. by exists e.
Qed.

Lemma steps_rows s s' : rtc escrow_step s s' -> earlier s s'.
Proof.
  induction 1 as [s | s1 s2 s3 Hs _ IH]; [apply earlier_refl |].
  eapply earlier_trans; [by apply row_earlier, step_row | done].
Qed.

Definition same_terms (e e' : escrow_row) : Prop :=
  es_ticketId e' = es_ticketId e /\ es_payerId e' = es_payerId e /\ es_payeeId e' = es_payeeId e /\
  es_amountUsdc e' = es_amountUsdc e /\ es_feeUsdc e' = es_feeUsdc e.

Lemma laters_terms e e' : rtc later e e' -> same_terms e e'.
Proof.
  induction 1 as [| e1 e2 e3 (? & ? & ? & ? & ? & _) _ (? & ? & ? & ? & ?)]; unfold same_terms; [done |]. split_and!; congruence.
Qed.

(** ** The invariant the shapes rest on *)

Record einv (s : edb) : Prop := {
  ei_id : forall id e, escrows s !! id = Some e -> uuid_like id;
  ei_parties : forall id e, escrows s !! id = Some e -> 0 <= es_payerId e /\ 0 <= es_payeeId e;
  ei_terms : forall id e, escrows s !! id = Some e -> 0 <= es_amountUsdc e <= ESCROW_MAX /\ 0 <= es_feeUsdc e <= ESCROW_MAX;
  ei_dispute_key : forall id t, uuid_like id -> find_key (dispute_key id) (ledger s) = Some t -> is_Some (disputes s !! id);
  ei_final_key : forall id k t, uuid_like id -> final_key id k -> find_key k (ledger s) = Some t ->
    exists e, escrows s !! id = Some e /\ es_status e ∈ DONE;
}.

(** ** The three settlements pay the principal *)

Lemma pays_release id e ref :
  0 <= es_amountUsdc e -> pays id e 0 (es_amountUsdc e)
    [(es_payerId e, source_delta (from_dispute e) (es_amountUsdc e) 0); (es_payeeId e, Delta (es_amountUsdc e) 0 0)]
    [HistRow (es_payeeId e) TICKET_ESCROW_RELEASE (es_amountUsdc e) 0 (Some ref) true]
    [NLine (source_code (from_dispute e) (es_payerId e) id) (es_amountUsdc e) 0; NLine (liability_code (es_payeeId e)) 0 (es_amountUsdc e)].
Proof. intros Ha. split; [pays_tac.. | lines_tac]. Qed.

Lemma pays_refund id e ref :
  0 <= es_amountUsdc e -> pays id e (es_amountUsdc e) 0
    [(es_payerId e, source_delta (from_dispute e) (es_amountUsdc e) (es_amountUsdc e))]
    [HistRow (es_payerId e) TICKET_ESCROW_REFUND (es_amountUsdc e) 0 (Some ref) true]
    [NLine (source_code (from_dispute e) (es_payerId e) id) (es_amountUsdc e) 0; NLine (liability_code (es_payerId e)) 0 (es_amountUsdc e)].
Proof. intros Ha. split; [pays_tac.. | lines_tac]. Qed.

Lemma pays_split id e a b r1 r2 :
  0 < a -> 0 < b -> es_amountUsdc e = a + b -> in_status IN_DISPUTE e = true -> pays id e a b
    [(es_payerId e, Delta 0 0 (- es_amountUsdc e)); (es_payerId e, Delta a 0 0); (es_payeeId e, Delta b 0 0)]
    [HistRow (es_payerId e) TICKET_ESCROW_REFUND a 0 (Some r1) true; HistRow (es_payeeId e) TICKET_ESCROW_RELEASE b 0 (Some r2) true]
    [NLine (dispute_code (es_payerId e)) (es_amountUsdc e) 0; NLine (liability_code (es_payerId e)) 0 a; NLine (liability_code (es_payeeId e)) 0 b].
Proof. intros Ha Hb Hs Hd. split; rewrite ?Hd; [pays_tac.. | lines_tac]. Qed.

(** ** Every step has a shape *)

Lemma effect_disputes id e e' ds hs f key ls s s' x :
  effect sha256 id e e' ds hs f key ls s s' -> effect sha256 id e e' ds hs f key ls s (set_disputes x s').
Proof. intros [? ? ? ? ? ?]. by split. Qed.

Lemma effect_row id e0 e e' ds hs f key ls s s' :
  escrows s !! id = Some e0 -> effect sha256 id e e' ds hs f key ls s s' -> e = e0.
Proof. intros He [He' _ _ _ _ _]. congruence. Qed.

Lemma source_live e e0 :
  es_status e ∈ source_statuses (from_dispute e0) -> es_status e ∈ LIVE ++ IN_DISPUTE.
Proof. unfold source_statuses. destruct (from_dispute e0); intros Hin; apply elem_of_app; auto. Qed.

(** Where the disputes end up after a settlement: as they were, or with a row
    replaced. *)
Definition covers (x y : gmap string dispute_row) : Prop := forall i, is_Some (x !! i) -> is_Some (y !! i).
Lemma covers_refl x : covers x x.
Proof. by intros i. Qed.
Lemma covers_insert x i d : covers x (<[i := d]> x).
Proof. intros j Hj. destruct (decide (i = j)) as [-> | ?]; [by rewrite lookup_insert_eq | by rewrite lookup_insert_ne]. Qed.

Lemma release_shape id e st now ref s r s1 x :
  einv s -> escrows s !! id = Some e -> st = SETTLED \/ st = RELEASED /\ from_dispute e = true -> covers (disputes s) x ->
  _releaseEscrowTx sha256 id e st now ref s = Ok (r, s1) -> step_shape s (set_disputes x s1).
Proof.
  intros Hi He Hst Hx Hr. destruct (ei_terms s Hi id e He) as [Ha _].
  apply release_effect in Hr as (e' & Hsrc & Hpos & Hef & Hd); [| done].
  pose proof (effect_row _ _ _ _ _ _ _ _ _ _ _ He Hef) as ->.
  eapply (shape_final _ _ id e (settled_row st now ref e) _ _ (release_key id st)); [by eapply source_live | | | | | by apply effect_disputes | done].
  - destruct Hst as [-> | [-> _]]; by apply in_status_spec.
  - eapply later_settled; [exact Hst | by apply in_status_spec].
  - right. left. by exists st.
  - apply pays_release. lia.
Qed.

Lemma refund_shape id e st now ref s r s1 x :
  einv s -> escrows s !! id = Some e -> st = REFUNDED \/ st = EXPIRED -> covers (disputes s) x ->
  _refundEscrowTx sha256 id e st now ref s = Ok (r, s1) -> step_shape s (set_disputes x s1).
Proof.
  intros Hi He Hst Hx Hr. destruct (ei_terms s Hi id e He) as [Ha _].
  apply refund_effect in Hr as (e' & Hsrc & Hpos & Hef & Hd); [| done].
  pose proof (effect_row _ _ _ _ _ _ _ _ _ _ _ He Hef) as ->.
  eapply (shape_final _ _ id e (refunded_row st now ref e) _ _ (refund_key id st)); [by eapply source_live | | | | | by apply effect_disputes | done].
  - destruct Hst as [-> | ->]; by apply in_status_spec.
  - eapply later_refunded; [exact Hst | by apply in_status_spec].
  - right. right. left. by exists st.
  - apply pays_refund. lia.
Qed.

Lemma split_shape id e p now r1 r2 s r s1 x :
  einv s -> escrows s !! id = Some e -> (0 <= p)%Q -> (p <= 100)%Q -> covers (disputes s) x ->
  split_tx sha256 id e p now r1 r2 s = Ok (r, s1) -> step_shape s (set_disputes x s1).
Proof.
  intros Hi He Hp0 Hp1 Hx Hr. destruct (ei_terms s Hi id e He) as [Ha _].
  apply split_effect in Hr as (e' & a & b & Hsrc & Hpa & Hpb & Hsum & Hef & Hd); [| done..].
  pose proof (effect_row _ _ _ _ _ _ _ _ _ _ _ He Hef) as ->.
  eapply (shape_final _ _ id e (split_row now r1 r2 e) _ _ (settle_key id)); [| | | | | by apply effect_disputes | done].
  - apply elem_of_app. by right.
  - by apply in_status_spec.
  - by apply later_split, in_status_spec.
  - by left.
  - apply pays_split; try done. by apply in_status_spec.
Qed.

(** A transaction primitive leaves the disputes alone. *)
Lemma ruled_disputes ru id e pc now relRef refRef s r s1 :
  einv s -> escrows s !! id = Some e -> (0 <= pc)%Q -> (pc <= 100)%Q ->
  ruled ru id e pc now relRef refRef s = Ok (r, s1) -> disputes s1 = disputes s.
Proof.
  intros Hi He Hp0 Hp1 Hr. destruct (ei_terms s Hi id e He) as [Ha _]. destruct ru; simpl in Hr.
  - by apply release_effect in Hr as (e' & _ & _ & _ & Hd).
  - by apply refund_effect in Hr as (e' & _ & _ & _ & Hd).
  - by apply split_effect in Hr as (e' & a & b & _ & _ & _ & _ & _ & Hd).
Qed.

Lemma ruled_shape ru id e pc now relRef refRef s r s1 x :
  einv s -> escrows s !! id = Some e -> in_status IN_DISPUTE e = true -> (0 <= pc)%Q -> (pc <= 100)%Q ->
  covers (disputes s) x -> ruled ru id e pc now relRef refRef s = Ok (r, s1) -> step_shape s (set_disputes x s1).
Proof.
  intros Hi He Hd Hp0 Hp1 Hx Hr. destruct ru; simpl in Hr.
  - eapply release_shape; [done.. | | done | exact Hr]. by right.
  - eapply refund_shape; [done.. | | done | exact Hr]. by left.
  - eapply split_shape; eauto.
Qed.

Lemma set_disputes_id s : set_disputes (disputes s) s = s.
Proof. by destruct s. Qed.

(** A change of one row without money. *)
Lemma quiet_update id cond f s n s' :
  (forall e, cond e = true -> later e (f e) /\ in_status LIVE (f e) = in_status LIVE e /\
     in_status IN_DISPUTE (f e) = in_status IN_DISPUTE e) ->
  escrow_updateMany id cond f s = Ok (n, s') -> step_shape s s'.
Proof.
  intros Hf Hr. apply escrow_updateMany_Ok in Hr as [(_ & -> & _) | (_ & e & He & Hc & ->)]; [by apply shape_none |].
  destruct (Hf e Hc) as (Hl & H1 & H2). by eapply (shape_quiet _ _ id e (f e) (disputes s)).
Qed.

Lemma live_not_dispute e : in_status LIVE e = true -> in_status IN_DISPUTE e = false.
Proof.
  unfold in_status, LIVE, IN_DISPUTE. simpl. destruct (es_status e); simpl; done.
Qed.
Lemma dispute_not_live e : in_status IN_DISPUTE e = true -> in_status LIVE e = false.
Proof.
  unfold in_status, LIVE, IN_DISPUTE. simpl. destruct (es_status e); simpl; done.
Qed.

Lemma assign_shape id admin s r s' : assign_tx id admin s = Ok (r, s') -> step_shape s s'.
Proof.
  intros Hr. unfold assign_tx in Hr. apply Mbind_Ok in Hr as (n & s1 & Hu & Hr).
  apply Mbind_Ok in Hr as (x & s2 & Hc & Hr). apply check_Ok in Hc as [Hn ->].
  apply escrow_updateMany_Ok in Hu as [(-> & _) | (_ & e & He & Hc & ->)]; [done |].
  apply Mbind_Ok in Hr as (d & s2 & Hd & Hr). apply dispute_update_Ok in Hd as (d0 & Hd0 & _ & _ & ->).
  apply Mbind_Ok in Hr as (r0 & s2 & Hf & Hr). apply escrow_find_Ok in Hf as [_ ->].
  apply Mbind_Ok in Hr as (row & s2 & Hl & Hr). apply lift_Ok in Hl as [_ ->]. apply Mret_Ok in Hr as [_ ->].
  eapply (shape_quiet _ _ id e (with_status ADMIN_REVIEW e)); [done | by apply later_review | | | | done].
  - by rewrite (dispute_not_live e Hc).
  - by rewrite Hc.
  - apply covers_insert.
Qed.

Lemma cancel_draft_shape id s r s' : cancel_draft id s = Ok (r, s') -> step_shape s s'.
Proof.
  intros Hr. unfold cancel_draft in Hr. apply Mbind_Ok in Hr as (n & s1 & Hu & Hr).
  apply Mbind_Ok in Hr as (x & s2 & Hc & Hr). apply check_Ok in Hc as [_ ->].
  apply Mbind_Ok in Hr as (r0 & s2 & Hf & Hr). apply escrow_find_Ok in Hf as [_ ->]. apply lift_Ok in Hr as [_ ->].
  eapply quiet_update; [| exact Hu]. intros e He. split; [by apply later_cancelled |].
  apply bool_decide_eq_true in He. unfold in_status. simpl. by rewrite He.
Qed.

Lemma fund_shape id payer s0 now ref op r s s' :
  einv s -> earlier s0 s -> fundEscrow sha256 wire id payer now ref op s0 s = (Ok r, s') -> step_shape s s'.
Proof.
  intros Hi Hr Hf. unfold fundEscrow in Hf. destruct (fund_read id payer s0) as [e0 |] eqn:Hread; [| done].
  apply transaction_Ok in Hf. unfold fund_read in Hread. apply bind_Ok in Hread as (e1 & He1 & Hread).
  apply of_option_Ok in He1. res_inv Hread. destruct (Hr id e0 He1) as (e & He & Hl).
  apply laters_terms in Hl as (_ & _ & _ & Ha & Hfee). destruct (ei_terms s Hi id e He) as [Hba Hbf].
  apply fund_effect in Hf as (e2 & Hst & Hp & _ & _ & Hef & Hd & Hk); [| lia..].
  pose proof (effect_row _ _ _ _ _ _ _ _ _ _ _ He Hef) as ->. rewrite <- Ha, <- Hfee, <- Hp in Hef.
  by eapply shape_fund.
Qed.

Lemma shape_set_disputes s s' : step_shape s (set_disputes (disputes s') s') -> step_shape s s'.
Proof. by rewrite set_disputes_id. Qed.

Lemma refund_whole id st now ref s r s' :
  einv s -> st = REFUNDED \/ st = EXPIRED -> _refundEscrow sha256 id st now ref s = Ok (r, s') -> step_shape s s'.
Proof.
  intros Hi Hst Hr. apply find_then in Hr as (e & He & Hr). apply shape_set_disputes. destruct (ei_terms s Hi id e He) as [Ha _].
  pose proof Hr as Hr'. apply refund_effect in Hr' as (_ & _ & _ & _ & Hd); [| done].
  eapply refund_shape; [done.. | rewrite Hd; apply covers_refl | exact Hr].
Qed.

Lemma step_shaped s s' : einv s -> escrow_step s s' -> step_shape s s'.
Proof.
  intros Hi Hs. destruct Hs as
    [newId tk payer payee amount now e s s' Hid Hp Hq Hr Ha Hf | id payer now ref op s0 r s s' Hst Hr | id user isPayer s0 n s s' _ _ Hr
    | id u now ref s0 r s s' _ _ _ Hr | id n s s' Hr | id by_ reason r s s' Hr | id admin ru notes p q now r1 r2 r s s' Hr
    | id admin s0 r s s' _ Hr | id user now ref s0 r s s' _ Hr | id now ref r s s' Hr].
  - apply create_row in Hr as (Hn & Hd & <- & <- & Ha0 & Hf0 & ->). by eapply shape_new.
  - by eapply fund_shape.
  - eapply quiet_update; [| exact Hr]. intros e _. by split; [apply later_flag |].
  - apply find_then in Hr as (e & He & Hr). apply shape_set_disputes. destruct (ei_terms s Hi id e He) as [Ha _].
    pose proof Hr as Hr'. apply release_effect in Hr' as (_ & _ & _ & _ & Hd); [| done].
    eapply release_shape; [done.. | by left | rewrite Hd; apply covers_refl | exact Hr].
  - eapply quiet_update; [| exact Hr]. intros e He. split; [by apply later_pending |].
    by rewrite He, (live_not_dispute e He).
  - apply dispute_effect in Hr as (e & Hst & Hpos & Hnd & _ & Hef & Hd).
    + eapply shape_dispute; try done. by eexists.
    + intros e He. by apply (ei_terms s Hi id e He).
  - apply resolve_inv in Hr as [[-> _] | (e & pc & r1' & s1 & d & He & Hd & Hp0 & Hp1 & Hr & Hd1 & _ & ->)]; [by apply shape_none |].
    pose proof (ruled_disputes _ _ _ _ _ _ _ _ _ _ Hi He Hp0 Hp1 Hr) as Heq.
    eapply ruled_shape; [done.. | | exact Hr]. rewrite Heq. apply covers_insert.
  - unfold assignDisputeToAdmin in Hr. destruct (assign_read _ _ _); [| done]. apply transaction_Ok in Hr. by eapply assign_shape.
  - unfold cancelEscrow in Hr. destruct (cancel_read _ _ _) as [[] |]; [..| done]; apply transaction_Ok in Hr; [by eapply cancel_draft_shape |].
    eapply refund_whole; [done | by left | exact Hr].
  - eapply refund_whole; [done | by right | exact Hr].
Qed.

(** ** Postings of a step are new *)

Lemma list_find_app {A} (f : A -> bool) l k :
  List.find f (l ++ k) = match List.find f l with Some x => Some x | None => List.find f k end.
Proof. induction l as [| x l IH]; simpl; [done |]. by destruct (f x). Qed.

Lemma posted_cases key ls l l' :
  posted sha256 key ls l l' ->
  (forall k t, find_key k l' = Some t -> k = key \/ find_key k l = Some t) /\
  (find_key key l = None -> forall c, net c l' = net c l + line_movement c ls).
Proof.
  intros (p & r & <- & Hw & Hprep & Hpost). apply post_inv in Hpost as (ls' & conv & l1 & Hprep' & Hext & _ & Hout).
  rewrite Hprep in Hprep'. injection Hprep' as <- <-. pose proof Hext as (Ht & He & _).
  destruct Hout as [t Hk Hh | t es Hk Hc].
  - unfold find_key in *. rewrite Ht in *. split; [by right | intros Hn; congruence].
  - split.
    + intros k t' Hf. unfold find_key in *. simpl in Hf. rewrite Ht, list_find_app in Hf.
      destruct (List.find _ (ltxs l)); [by right |]. left. simpl in Hf. case_match eqn:Heq; [| done]. by apply String.eqb_eq in Heq.
    + intros _ c. rewrite !net_entries. simpl. rewrite sumZ_app, He. unfold es. by rewrite net_mk_entries.
Qed.

(** What a posting adds to the keys, and the accounts it leaves alone. *)
Lemma posted_keys key ls l l' : posted sha256 key ls l l' -> forall k, is_Some (find_key k l') <-> k = key \/ is_Some (find_key k l).
Proof.
  intros (p & r & <- & Hw & Hprep & Hpost) k. apply post_inv in Hpost as (ls' & conv & l1 & Hprep' & Hext & _ & Hout). destruct Hext as (Ht & _).
  destruct Hout as [t Hk Hh | t es Hk Hc]; unfold find_key in *; simpl; rewrite Ht in *.
  - split; [by right | intros [-> | ?]; [by eexists | done]].
  - rewrite list_find_app. destruct (List.find (fun x => String.eqb (lt_idempotencyKey x) k) (ltxs l)) eqn:Hf; [split; eauto |].
    simpl. destruct (String.eqb_spec (idempotencyKey p) k) as [-> | Hne]; [split; eauto | split; [by intros [] | intros [-> | []]; done]].
Qed.

Lemma posted_other key ls l l' c : posted sha256 key ls l l' -> line_movement c ls = 0 -> net c l' = net c l.
Proof.
  intros (p & r & <- & Hw & Hprep & Hpost) Hm. apply post_inv in Hpost as (ls' & conv & l1 & Hprep' & Hext & _ & Hout).
  rewrite Hprep in Hprep'. injection Hprep' as <- <-. destruct Hext as (_ & He & _).
  destruct Hout as [t Hk Hh | t es Hk Hc]; rewrite !net_entries; simpl; rewrite ?He; [done |]. rewrite sumZ_app. unfold es. rewrite net_mk_entries. lia.
Qed.

(** ** The books *)

(** The principal the escrow [id] has locked. *)
Definition live_amount (e : escrow_row) : Z := if in_status LIVE e then es_amountUsdc e else 0.
Definition live_principal (id : string) (s : edb) : Z := default 0 (live_amount <$> escrows s !! id).

(** The quantities that every operation moves together. *)
Record same_books (s s' : edb) : Prop := {
  sb_total : total_value s' = total_value s;
  sb_locked : forall u, locked u s' - held LIVE u s' = locked u s - held LIVE u s;
  sb_dispute : forall u, in_dispute u s' - held IN_DISPUTE u s' = in_dispute u s - held IN_DISPUTE u s;
  sb_hist : forall u, avail u s' - hist_sum u s' = avail u s - hist_sum u s;
  sb_liability : forall u, 0 <= u ->
    avail u s' + net (liability_code u) (ledger s') = avail u s + net (liability_code u) (ledger s);
  sb_restricted : forall u, 0 <= u ->
    in_dispute u s' + net (dispute_code u) (ledger s') = in_dispute u s + net (dispute_code u) (ledger s);
  sb_revenue : profitFees s' + net "revenue:fees" (ledger s') = profitFees s + net "revenue:fees" (ledger s);
  sb_holding : forall id,
    live_principal id s' + net (locked_code id) (ledger s') = live_principal id s + net (locked_code id) (ledger s);
}.

#[local] Instance same_books_refl : Reflexive same_books.
Proof. by split. Qed.
#[local] Instance same_books_trans : Transitive same_books.
Proof.
  intros s1 s2 s3 [A1 A2 A3 A4 A5 A6 A7 A8] [B1 B2 B3 B4 B5 B6 B7 B8].
  split; intros; rewrite ?B1, ?B2, ?B3, ?B4, ?B7, ?B8 by done; rewrite ?B5, ?B6 by done; auto.
Qed.

(** A change of the rows only, that keeps what is live and what is in dispute. *)
Lemma rows_books s s' id e' :
  users s' = users s -> profitFees s' = profitFees s -> hist s' = hist s -> ledger s' = ledger s ->
  escrows s' = <[id := e']> (escrows s) ->
  match escrows s !! id with
  | Some e => in_status LIVE e = in_status LIVE e' /\ in_status IN_DISPUTE e = in_status IN_DISPUTE e' /\
      es_amountUsdc e = es_amountUsdc e' /\ es_payerId e = es_payerId e'
  | None => es_status e' = DRAFT
  end -> same_books s s'.
Proof.
  intros Hu Hp Hh Hl He Hrow.
  assert (Hheld : forall l u, l = LIVE \/ l = IN_DISPUTE -> held l u s' = held l u s).
  { intros l u Hcase. unfold held. rewrite He. destruct (escrows s !! id) as [e |] eqn:Hid.
    - rewrite (sumM_insert _ _ _ e) by done. destruct Hrow as (H1 & H2 & H3 & H4).
      enough (principal_in l u e = principal_in l u e') by lia. unfold principal_in. rewrite H3, H4.
      destruct Hcase as [-> | ->]; [by rewrite H1 | by rewrite H2].
    - rewrite sumM_insert_new by done. enough (principal_in l u e' = 0) by lia.
      unfold principal_in, in_status. rewrite Hrow. by destruct Hcase as [-> | ->]. }
  assert (Hlive : forall i, live_principal i s' = live_principal i s).
  { intros i. unfold live_principal. rewrite He. destruct (decide (id = i)) as [<- | ?]; [| by rewrite lookup_insert_ne].
    rewrite lookup_insert_eq. destruct (escrows s !! id) as [e |]; simpl; unfold live_amount.
    - by destruct Hrow as (-> & _ & -> & _).
    - unfold in_status. by rewrite Hrow. }
  split; unfold total_value, avail, locked, in_dispute, hist_sum; intros; rewrite ?Hu, ?Hp, ?Hh, ?Hl, ?Hheld, ?Hlive; auto.
Qed.

Lemma effect_books id e e' ds hs f key ls s s' :
  effect sha256 id e e' ds hs f key ls s s' -> find_key key (ledger s) = None ->
  sumZ (fun p => da p.2 + dl p.2 + dd p.2) ds + f = 0 ->
  (forall u, delta_of dl u ds = principal_in LIVE u e' - principal_in LIVE u e) ->
  (forall u, delta_of dd u ds = principal_in IN_DISPUTE u e' - principal_in IN_DISPUTE u e) ->
  (forall u, delta_of da u ds = sumZ (fun h => if (hs_userId h =? u) && hs_completed h then hist_value h else 0) hs) ->
  (forall u, 0 <= u -> delta_of da u ds + line_movement (liability_code u) ls = 0) ->
  (forall u, 0 <= u -> delta_of dd u ds + line_movement (dispute_code u) ls = 0) ->
  f + line_movement "revenue:fees" ls = 0 ->
  (forall i, line_movement (locked_code i) ls + (if String.eqb id i then live_amount e' - live_amount e else 0) = 0) ->
  same_books s s'.
Proof.
  intros Hef Hk Ht Hl Hd Hh Hli Hre Hrv Hho. destruct Hef as [Hrow Hrows Hmv Hhist Hfee Hpost].
  apply posted_cases in Hpost as [_ Hnet]. specialize (Hnet Hk).
  assert (Hheld : forall l u, held l u s' = held l u s - principal_in l u e + principal_in l u e').
  { intros l u. unfold held. rewrite Hrows. by apply sumM_insert. }
  assert (Hbk : forall g h, (forall d r, g (apply_delta d r) = g r + h d) -> forall u, bucket g u (users s') = bucket g u (users s) + delta_of h u ds).
  { intros g h Hgh u. by apply (moves_bucket g h Hgh). }
  assert (Hlp : forall i, live_principal i s' = live_principal i s + (if String.eqb id i then live_amount e' - live_amount e else 0)).
  { intros i. unfold live_principal. rewrite Hrows. destruct (String.eqb_spec id i) as [<- | ?].
    - rewrite lookup_insert_eq, Hrow. simpl. lia.
    - rewrite lookup_insert_ne by done. lia. }
  split.
  - unfold total_value. rewrite Hfee, (moves_total user_total (fun d => da d + dl d + dd d) ltac:(intros; unfold user_total; simpl; lia) _ _ _ Hmv). lia.
  - intros u. unfold locked. rewrite (Hbk _ dl), Hheld, Hl by done. lia.
  - intros u. unfold in_dispute. rewrite (Hbk _ dd), Hheld, Hd by done. lia.
  - intros u. unfold avail, hist_sum. rewrite (Hbk _ da), Hhist, sumZ_app, <- Hh by done. lia.
  - intros u Hu. unfold avail. rewrite (Hbk _ da), Hnet by done. specialize (Hli u Hu). lia.
  - intros u Hu. unfold in_dispute. rewrite (Hbk _ dd), Hnet by done. specialize (Hre u Hu). lia.
  - rewrite Hfee, Hnet. lia.
  - intros i. rewrite Hlp, Hnet. specialize (Hho i). lia.
Qed.

Ltac sum_tac := intros; unfold delta_of, line_movement, principal_in, live_amount, hist_value;
  rewrite ?sumZ_cons, ?sumZ_nil;
  cbn [fst snd da dl dd hs_userId hs_completed hs_amountUsdc hs_feeUsdc n_account n_debit n_credit].
Ltac cases_tac e id := cbn [funded_row with_status es_payerId es_amountUsdc andb negb]; autorewrite with codes; rewrite ?String.eqb_refl;
  repeat match goal with |- context [es_payerId e =? ?b] => destruct (es_payerId e =? b) end;
  repeat match goal with |- context [es_payeeId e =? ?b] => destruct (es_payeeId e =? b) end;
  repeat match goal with |- context [String.eqb id ?i] => destruct (String.eqb id i) end; cbn [andb negb]; lia.

Lemma fund_books id e now days ref s s' :
  einv s -> es_status e = DRAFT -> find_key (fund_key id) (ledger s) = None ->
  effect sha256 id e (funded_row now days ref e)
    [(es_payerId e, Delta (- (es_amountUsdc e + es_feeUsdc e)) 0 0); (es_payerId e, Delta 0 (es_amountUsdc e) 0)]
    [HistRow (es_payerId e) TICKET_ESCROW_FUND (- es_amountUsdc e) (es_feeUsdc e) (Some ref) true] (es_feeUsdc e) (fund_key id)
    [NLine (liability_code (es_payerId e)) (es_amountUsdc e + es_feeUsdc e) 0; NLine (locked_code id) 0 (es_amountUsdc e);
     NLine "revenue:fees" 0 (es_feeUsdc e)] s s' ->
  same_books s s'.
Proof.
  intros Hi Hst Hk Hef. destruct (ei_parties s Hi id e (ef_escrow _ _ _ _ _ _ _ _ _ _ _ Hef)) as [Hp _].
  assert (Hl : in_status LIVE e = false /\ in_status IN_DISPUTE e = false) by (unfold in_status; by rewrite Hst).
  destruct Hl as [Hl Hd]. assert (Hl' : in_status LIVE (funded_row now days ref e) = true) by done.
  assert (Hd' : in_status IN_DISPUTE (funded_row now days ref e) = false) by done.
  eapply effect_books; [exact Hef | done |..]; sum_tac; rewrite ?Hl, ?Hd, ?Hl', ?Hd'; cases_tac e id.
Qed.

Lemma dispute_books id e s s' :
  einv s -> es_status e ∈ LIVE -> disputes s !! id = None ->
  effect sha256 id e (with_status DISPUTED e) [(es_payerId e, Delta 0 (- es_amountUsdc e) (es_amountUsdc e))] [] 0 (dispute_key id)
    [NLine (locked_code id) (es_amountUsdc e) 0; NLine (dispute_code (es_payerId e)) 0 (es_amountUsdc e)] s s' ->
  same_books s s'.
Proof.
  intros Hi Hst Hnd Hef. pose proof (ef_escrow _ _ _ _ _ _ _ _ _ _ _ Hef) as He.
  destruct (ei_parties s Hi id e He) as [Hp _]. apply in_status_spec in Hst as Hl. pose proof (live_not_dispute e Hl) as Hd.
  assert (Hk : find_key (dispute_key id) (ledger s) = None).
  { destruct (find_key _ _) as [t |] eqn:Hf; [| done]. apply (ei_dispute_key s Hi) in Hf as [d Hf]; [congruence |].
    by eapply ei_id. }
  assert (Hl' : in_status LIVE (with_status DISPUTED e) = false) by done.
  assert (Hd' : in_status IN_DISPUTE (with_status DISPUTED e) = true) by done.
  eapply effect_books; [exact Hef | done |..]; sum_tac; rewrite ?Hl, ?Hd, ?Hl', ?Hd'; cases_tac e id.
Qed.

Lemma done_status e : es_status e ∈ DONE -> in_status LIVE e = false /\ in_status IN_DISPUTE e = false.
Proof.
  intros Hd. apply in_status_spec in Hd. revert Hd. unfold in_status, DONE, LIVE, IN_DISPUTE. simpl.
  destruct (es_status e); simpl; done.
Qed.

Lemma final_books id e e' ds hs key ls a b s s' :
  einv s -> es_status e ∈ LIVE ++ IN_DISPUTE -> es_status e' ∈ DONE -> final_key id key ->
  pays id e a b ds hs ls -> effect sha256 id e e' ds hs 0 key ls s s' -> same_books s s'.
Proof.
  intros Hi Hst Hdone Hfk [Ha Hb Hsum Hav Hlo Hdi Htot Hhi Hli] Hef. pose proof (ef_escrow _ _ _ _ _ _ _ _ _ _ _ Hef) as He.
  destruct (ei_parties s Hi id e He) as [Hp Hq]. destruct (done_status e' Hdone) as [Hl' Hd'].
  assert (Hk : find_key key (ledger s) = None).
  { destruct (find_key _ _) as [t |] eqn:Hf; [| done]. apply (ei_final_key s Hi id) in Hf as (e1 & He1 & Hd); [| by eapply ei_id | done].
    rewrite He in He1. injection He1 as <-. apply done_status in Hd as [Hd1 Hd2].
    rewrite elem_of_app, <- !in_status_spec, Hd1, Hd2 in Hst. by destruct Hst. }
  assert (Hcase : in_status LIVE e = negb (in_status IN_DISPUTE e)).
  { rewrite elem_of_app, <- !in_status_spec in Hst. destruct Hst as [Hl | Hd];
      [by rewrite Hl, (live_not_dispute e Hl) | by rewrite Hd, (dispute_not_live e Hd)]. }
  eapply effect_books; [exact Hef | done | by rewrite Htot | ..]; intros;
    rewrite ?Hlo, ?Hdi, ?Hav, ?Hhi, ?Hli; sum_tac; rewrite ?Hl', ?Hd', ?Hcase;
    destruct (in_status IN_DISPUTE e); cbn [source_code]; cases_tac e id.
Qed.

Lemma shape_books s s' : einv s -> step_shape s s' -> same_books s s'.
Proof.
  intros Hi Hs. destruct Hs as [id e Hn _ _ _ _ _ Hd -> | id e e' ds He Hl H1 H2 _ -> | ops -> | id e e' now days ref Hst -> Hef _ Hk
    | id e Hst Hnd Hef _ | id e e' ds hs key ls a b Hst Hd _ Hfk Hp Hef _].
  - eapply (rows_books _ _ id e); try done. by rewrite Hn.
  - eapply (rows_books _ _ id e'); try done. rewrite He. destruct Hl as (_ & -> & _ & -> & _). done.
  - by split.
  - by eapply fund_books.
  - by eapply dispute_books.
  - by eapply final_books.
Qed.

Lemma later_done e e' : later e e' -> es_status e ∈ DONE -> es_status e' = es_status e.
Proof.
  intros (_ & _ & _ & _ & _ & _ & _ & Hal) Hd. apply in_status_spec in Hd. revert Hd Hal. unfold in_status, allowed, DONE. simpl.
  destruct (es_status e), (es_status e'); simpl; done.
Qed.

(** The parts of the invariant that speak of rows survive a row change. *)
Lemma einv_row s s' id e e' :
  einv s -> escrows s !! id = Some e -> later e e' -> escrows s' = <[id := e']> (escrows s) ->
  covers (disputes s) (disputes s') ->
  (forall i t, uuid_like i -> find_key (dispute_key i) (ledger s') = Some t ->
     find_key (dispute_key i) (ledger s) = Some t \/ is_Some (disputes s' !! i)) ->
  (forall i k t, uuid_like i -> final_key i k -> find_key k (ledger s') = Some t ->
     find_key k (ledger s) = Some t \/ i = id /\ es_status e' ∈ DONE) ->
  einv s'.
Proof.
  intros [I1 I2 I3 I4 I5] He Hl Hrows Hcov Hdk Hfk.
  assert (Hlook : forall i x, escrows s' !! i = Some x -> exists y, escrows s !! i = Some y /\ later y x).
  { intros i x Hx. rewrite Hrows in Hx. destruct (decide (id = i)) as [<- | ?].
    - rewrite lookup_insert_eq in Hx. injection Hx as <-. eauto.
    - rewrite lookup_insert_ne in Hx by done. exists x. split; [done | apply later_refl]. }
  split.
  - intros i x (y & Hy & _)%Hlook. eauto.
  - intros i x (y & Hy & _ & -> & -> & _)%Hlook. eauto.
  - intros i x (y & Hy & _ & _ & _ & -> & -> & _)%Hlook. eauto.
  - intros i t Hu Hf. apply Hdk in Hf as [Hf | Hf]; [| done | done]. apply Hcov. eauto.
  - intros i k t Hu Hk Hf. rewrite Hrows. apply (Hfk i) in Hf as [Hf | [-> Hd]]; [| | done | done].
    + apply (I5 i) in Hf as (x & Hx & Hd); [| done | done]. destruct (decide (id = i)) as [<- | ?].
      * rewrite lookup_insert_eq. exists e'. split; [done |]. rewrite He in Hx. injection Hx as <-.
        by rewrite (later_done e e' Hl Hd).
      * rewrite lookup_insert_ne by done. eauto.
    + rewrite lookup_insert_eq. eauto.
Qed.

Lemma shape_einv s s' : einv s -> step_shape s s' -> einv s'.
Proof.
  intros Hi Hs. destruct Hs as [id e Hn Hid Hp Hq Ha Hf Hd -> | id e e' ds He Hl H1 H2 Hc -> | ops -> | id e e' now days ref Hst -> Hef Hdisp Hk
    | id e Hst Hnd Hef [d Hdisp] | id e e' ds hs key ls a b Hst Hd Hl Hfk Hp Hef Hc].
  - destruct Hi as [I1 I2 I3 I4 I5]. split; simpl; try done.
    1-3: intros i x Hx; destruct (decide (id = i)) as [<- | ?];
      [rewrite lookup_insert_eq in Hx; by injection Hx as <- | rewrite lookup_insert_ne in Hx by done; by eauto].
    intros i k t Hu Hk Hf'. apply (I5 i) in Hf' as (x & Hx & Hdx); [| done | done].
    exists x. split; [| done]. rewrite lookup_insert_ne by congruence. done.
  - eapply (einv_row s _ id e e'); try done; simpl; eauto.
  - by destruct Hi; split.
  - destruct Hef as [He Hrows _ _ _ Hpost]. apply posted_cases in Hpost as [Hkeys _].
    eapply (einv_row s s' id e); try done.
    + apply (later_fund _ _ _ (es_payerId e)). by rewrite bool_decide_true, Z.eqb_refl.
    + rewrite Hdisp. apply covers_refl.
    + intros i t _ [Hx | ?]%Hkeys; [| by left]. by apply eq_sym, fund_not_dispute in Hx.
    + intros i k t _ Hfk [-> | ?]%Hkeys; [| by left]. by apply fund_not_final in Hfk.
  - destruct Hef as [He Hrows _ _ _ Hpost]. apply posted_cases in Hpost as [Hkeys _].
    eapply (einv_row s s' id e); try done.
    + by apply later_disputed, in_status_spec.
    + rewrite Hdisp. apply covers_insert.
    + intros i t _ [Hx | ?]%Hkeys; [| by left]. right. apply dispute_key_inj in Hx as ->. by rewrite Hdisp, lookup_insert_eq.
    + intros i k t _ Hfk [-> | ?]%Hkeys; [| by left]. apply dispute_not_final in Hfk; [done |]. by eapply ei_id.
  - destruct Hef as [He Hrows _ _ _ Hpost]. apply posted_cases in Hpost as [Hkeys _].
    eapply (einv_row s s' id e); try done.
    + intros i t Hu [Hx | ?]%Hkeys; [| by left]. symmetry in Hx. by apply (final_not_dispute id i key Hu Hfk) in Hx.
    + intros i k t Hu Hfk' [-> | ?]%Hkeys; [| by left]. right. split; [| done].
      eapply final_key_inj; [done | | done | done]. by eapply ei_id.
Qed.

(** Every run keeps the invariant and the books. *)
Lemma steps_books s s' : einv s -> rtc escrow_step s s' -> einv s' /\ same_books s s'.
Proof.
  intros Hi Hr. revert Hi. induction Hr as [s | s1 s2 s3 Hs _ IH]; intros Hi; [by split |].
  apply step_shaped in Hs; [| done]. destruct (IH (shape_einv _ _ Hi Hs)) as [Hi' Hb]. split; [done |].
  etrans; [by apply shape_books | done].
Qed.
End Steps.
