(* ===== verification/WalletProps.v ===== *)
(** * Services beside smart escrow

    Conversation money and vaults keep their own rows and share balances,
    history and ledger with smart escrow.  This file has what they have in
    common: the effect of one of their transactions on the shared part
    ([wallet_effect]), the classes of idempotency keys and account codes that
    belong to such a service and not to smart escrow ([OwnKeys], [OwnCode]),
    and what follows for both sides; and the pre-flight audit when history and
    balance part. *)

From stdpp Require Import base gmap strings list relations.
From Stdlib Require Import ZArith QArith Qabs Lqa Lia Ascii.
From S2P Require Import Prelude JsNumber ExactDecimal Json Ledger LedgerFacts LedgerHash LedgerProps Idempotency Escrow EscrowFacts EscrowProps.

Local Open Scope Z_scope.

(** ** Sums over a table *)

Lemma sumM_ext {K V} `{Countable K} (f g : V -> Z) (m : gmap K V) : (forall k v, m !! k = Some v -> g v = f v) -> sumM g m = sumM f m.
Proof.
  intros He. unfold sumM. assert (Hl : forall p, p ∈ map_to_list m -> g p.2 = f p.2) by (intros [k v] Hp; by eapply He, elem_of_map_to_list).
  induction (map_to_list m) as [| p l IH]; [done |]. rewrite !sumZ_cons. rewrite IH by (intros q Hq; apply Hl; by right). rewrite (Hl p) by left. done.
Qed.

(** One row is written, whether or not it was there; the summand of the
    others does not change. *)
Lemma sumM_write {K V} `{Countable K} (f g : V -> Z) (m : gmap K V) k v :
  (forall j x, j <> k -> m !! j = Some x -> g x = f x) -> sumM g (<[k := v]> m) = sumM f m - default 0 (f <$> m !! k) + g v.
Proof.
  intros Hg. rewrite <- insert_delete_eq, sumM_insert_new by apply lookup_delete_eq. rewrite (sumM_ext f g).
  - destruct (m !! k) as [x |] eqn:Hk; simpl; [| rewrite delete_id by done; lia].
    rewrite <- (insert_delete_id m k x Hk) at 2. rewrite sumM_insert_new by apply lookup_delete_eq. lia.
  - intros j x Hx. apply lookup_delete_Some in Hx as [Hne Hx]. by eapply Hg.
Qed.

(** ** Buckets *)

Lemma moves_one_inv u d m m' : moves [(u, d)] m m' -> exists r, m !! u = Some r /\ user_ok (apply_delta d r) = true /\ m' = <[u := apply_delta d r]> m.
Proof. intros Hm. inversion Hm as [| ? ? r ? ? ? Hr Hok Hn]; subst. inversion Hn; subst. eauto. Qed.

Lemma moves_avail ds w w' u : moves ds (users w) (users w') -> avail u w' = avail u w + delta_of da u ds.
Proof. intros Hm. unfold avail. by rewrite (moves_bucket availableBalance da ltac:(done) _ _ _ u Hm). Qed.

(** ** Columns *)

(** Writes to the balance columns stay within the columns. *)
Definition columns_ok (c : edb) : Prop := forall u row, users c !! u = Some row -> user_ok row = true.

Lemma moves_ok ds m m' : moves ds m m' -> (forall u row, m !! u = Some row -> user_ok row = true) -> forall u row, m' !! u = Some row -> user_ok row = true.
Proof.
  induction 1 as [| id d u ds m m' Hu Hok _ IH]; [done |]. intros Hm. apply IH. intros v row Hv.
  destruct (decide (v = id)) as [-> | Hne]; [rewrite lookup_insert_eq in Hv; by injection Hv as <- | rewrite lookup_insert_ne in Hv by done; eauto].
Qed.

Lemma columns_avail w u row : columns_ok w -> users w !! u = Some row -> 0 <= availableBalance row.
Proof. intros Hc Hu. apply Hc in Hu. unfold user_ok, column_ok in Hu. repeat (apply andb_true_iff in Hu as [Hu ?]). lia. Qed.

(** ** Keys *)

(** [keys_apart p]: two keys differ, one of them having the prefix [p]. *)
Ltac keys_apart p :=
  let Hk := fresh "Hk" in intros Hk; apply (f_equal (strip_prefix p)) in Hk; rewrite ?strip_prefix_app in Hk; discriminate Hk.

(** A service's own idempotency keys and account codes. *)
Class OwnKeys (K : string -> Prop) : Prop := {
  own_not_fund : forall k i, K k -> k <> fund_key i;
  own_not_dispute : forall k i, K k -> k <> dispute_key i;
  own_not_final : forall k i, K k -> ~ final_key i k;
}.
Class OwnCode (c : string) : Prop := {
  own_liability : forall u, String.eqb (liability_code u) c = false;
  own_locked : forall i, String.eqb (locked_code i) c = false;
  own_dispute : forall u, String.eqb (dispute_code u) c = false;
  own_revenue : String.eqb "revenue:fees" c = false;
}.

Section Effects.
Context `{DecimalLib} (sha256 : string -> string).

(** The shared part after bucket changes [ds], history rows [hs] and a
    posting. *)
Record wallet_effect (ds : list (Z * delta)) (hs : list hist_row) (key : string) (ls : list nline) (w w' : edb) : Prop := {
  we_users : moves ds (users w) (users w');
  we_hist : hist w' = hist w ++ hs;
  we_fees : profitFees w' = profitFees w;
  we_ledger : posted sha256 key ls (ledger w) (ledger w');
  we_escrows : escrows w' = escrows w;
  we_disputes : disputes w' = disputes w;
}.

Lemma effect_wallet ds hs key ls w w' :
  wallet_effect ds hs key ls w w' -> find_key key (ledger w) = None ->
  total_value w' = total_value w + sumZ (fun p => da p.2 + dl p.2 + dd p.2) ds /\
  (forall u, avail u w' = avail u w + delta_of da u ds) /\
  (forall u, hist_sum u w' = hist_sum u w + sumZ (fun h => if (hs_userId h =? u) && hs_completed h then hist_value h else 0) hs) /\
  (forall c, net c (ledger w') = net c (ledger w) + line_movement c ls).
Proof.
  intros [Hmv Hh Hf Hp _ _] Hk. destruct (posted_cases _ _ _ _ _ Hp) as [_ Hnet]. split_and!.
  - unfold total_value. rewrite Hf, (moves_total user_total (fun d => da d + dl d + dd d) ltac:(intros; unfold user_total; simpl; lia) _ _ _ Hmv). lia.
  - intros u. by apply moves_avail.
  - intros u. unfold hist_sum. by rewrite Hh, sumZ_app.
  - by apply Hnet.
Qed.

Lemma effect_columns ds hs key ls w w' : wallet_effect ds hs key ls w w' -> columns_ok w -> columns_ok w'.
Proof. intros Hef Hc u row Hu. exact (moves_ok _ _ _ (we_users _ _ _ _ _ _ Hef) Hc u row Hu). Qed.

(** Smart escrow's invariant survives a transaction of another service. *)
Lemma effect_einv K `{!OwnKeys K} ds hs key ls w w' : K key -> wallet_effect ds hs key ls w w' -> einv w -> einv w'.
Proof.
  intros Hck [_ _ _ Hp He Hd] [I1 I2 I3 I4 I5]. destruct (posted_cases _ _ _ _ _ Hp) as [Hk _]. split; rewrite ?He, ?Hd; try done.
  - intros i t Hu Hf. apply Hk in Hf as [Hx | Hf]; [by destruct (own_not_dispute key i Hck) | by eapply I4].
  - intros i k t Hu Hfk Hf. apply Hk in Hf as [-> | Hf]; [by destruct (own_not_final key i Hck) | by eapply I5].
Qed.

(** And a step of smart escrow leaves the keys and the accounts of another
    service alone. *)
Definition keeps_own (K C : string -> Prop) (l l' : ldb) : Prop :=
  (forall k, K k -> is_Some (find_key k l') <-> is_Some (find_key k l)) /\ (forall c, C c -> net c l' = net c l).

Lemma foreign_posting K C key ls l l' :
  posted sha256 key ls l l' -> (forall k, K k -> k <> key) -> (forall c, C c -> line_movement c ls = 0) -> keeps_own K C l l'.
Proof.
  intros Hp Hk Hm. split; [| intros c Hc; by eapply posted_other; [| apply Hm]]. intros k Hck. rewrite (posted_keys _ _ _ _ _ Hp). specialize (Hk k Hck). naive_solver.
Qed.

Lemma foreign_shape K C `{!OwnKeys K} w w' : (forall c, C c -> OwnCode c) -> step_shape sha256 w w' -> keeps_own K C (ledger w) (ledger w').
Proof.
  intros HC Hs. destruct Hs as [id e _ _ _ _ _ _ _ -> | id e e' ds _ _ _ _ _ -> | ops -> | id e e' now days ref _ _ Hef _ _
    | id e _ _ Hef _ | id e e' ds hs key ls a b _ _ _ Hfk Hp Hef _]; try done.
  - eapply foreign_posting; [exact (ef_ledger _ _ _ _ _ _ _ _ _ _ _ Hef) | intros k Hk; by apply own_not_fund |].
    intros c Hc. destruct (HC c Hc) as [C1 C2 C3 C4]. unfold line_movement. rewrite !sumZ_cons, sumZ_nil. cbn [n_account]. by rewrite C1, C2, C4.
  - eapply foreign_posting; [exact (ef_ledger _ _ _ _ _ _ _ _ _ _ _ Hef) | intros k Hk; by apply own_not_dispute |].
    intros c Hc. destruct (HC c Hc) as [C1 C2 C3 C4]. unfold line_movement. rewrite !sumZ_cons, sumZ_nil. cbn [n_account]. by rewrite C2, C3.
  - eapply foreign_posting; [exact (ef_ledger _ _ _ _ _ _ _ _ _ _ _ Hef) | intros k Hk ->; by apply (own_not_final _ _ Hk) in Hfk |].
    intros c Hc. destruct (HC c Hc) as [C1 C2 C3 C4]. rewrite (py_lines _ _ _ _ _ _ _ Hp). unfold line_movement. rewrite !sumZ_cons, sumZ_nil.
    cbn [n_account n_debit n_credit]. destruct (in_status IN_DISPUTE e); cbn [source_code]; rewrite ?C1, ?C2, ?C3; lia.
Qed.

Lemma shape_columns c c' : step_shape sha256 c c' -> columns_ok c -> columns_ok c'.
Proof.
  intros Hs Hc. destruct Hs as [id e _ _ _ _ _ _ _ -> | id e e' ds _ _ _ _ _ -> | ops -> | id e e' now days ref _ _ Hef _ _
    | id e _ _ Hef _ | id e e' ds hs key ls a b _ _ _ _ _ Hef _]; try exact Hc;
    intros u row Hu; exact (moves_ok _ _ _ (ef_users _ _ _ _ _ _ _ _ _ _ _ Hef) Hc u row Hu).
Qed.

(** ** The pre-flight audit *)

(** What the audit tolerates. *)
Lemma tolerated_close C a : 0 <= a <= SAFE_UNITS -> js_lt TOLERANCE (Qabs (js_sub C (Number_of_units a))) = false ->
  (Qabs (C - inject_Z a * (1 # 100000000)) <= 115 # 100000000)%Q.
Proof.
  intros Ha Hb. unfold js_lt in Hb. apply negb_false_iff, Qle_bool_iff in Hb.
  assert (Htol : (TOLERANCE <= 1001 # 1000000000)%Q) by (vm_compute; discriminate).
  pose proof (close_Number a ltac:(lia)) as Hca. unfold close in Hca. unfold js_sub in *. set (N := Number_of_units a) in *.
  pose proof (fl_error' (C - N)) as E. set (F := fl (C - N)) in *. apply Qabs_Qle_condition in Hca.
  assert (Habs : (Qabs (C - N) <= Qabs F + Qabs (F - (C - N)))%Q).
  { pose proof (Qabs_triangle_reverse (C - N) F) as Hrev. rewrite (Qabs_Qminus (C - N) F) in Hrev. lra. }
  pose proof (Qabs_nonneg (C - N)) as Hn. assert (HD : (Qabs (C - N) <= 102 # 100000000)%Q) by lra.
  apply Qabs_Qle_condition in HD. apply Qabs_Qle_condition. lra.
Qed.

(** A difference between history and balance that the audit tolerated is no
    longer tolerated when one of the two moves by 300 units, 3e-6 USDC, against
    the other. *)
Lemma gap_detected C C' a a' :
  0 <= a <= SAFE_UNITS -> 0 <= a' <= SAFE_UNITS ->
  (299 # 100000000 <= Qabs ((C' - C) - (inject_Z a' - inject_Z a) * (1 # 100000000)))%Q ->
  js_lt TOLERANCE (Qabs (js_sub C (Number_of_units a))) = false -> js_lt TOLERANCE (Qabs (js_sub C' (Number_of_units a'))) = true.
Proof.
  intros Ha Ha' Hgap Hb. destruct (js_lt _ (Qabs (js_sub C' _))) eqn:Hb'; [done | exfalso]. apply tolerated_close in Hb, Hb'; [| done..].
  apply Qabs_Qle_condition in Hb, Hb'.
  assert (Hsmall : (Qabs ((C' - C) - (inject_Z a' - inject_Z a) * (1 # 100000000)) <= 230 # 100000000)%Q) by (apply Qabs_Qle_condition; lra).
  lra.
Qed.

Lemma inject_sub a b : (inject_Z (a - b) == inject_Z a - inject_Z b)%Q.
Proof. unfold Z.sub. rewrite inject_Z_plus, inject_Z_opp. lra. Qed.

Lemma audit_gap C a x : 0 <= a <= SAFE_UNITS -> 300 <= x <= a ->
  js_lt TOLERANCE (Qabs (js_sub C (Number_of_units a))) = false -> js_lt TOLERANCE (Qabs (js_sub C (Number_of_units (a - x)))) = true.
Proof.
  intros Ha Hx. apply gap_detected; [done | lia |]. assert (Hix : (300 <= inject_Z x)%Q) by (change 300%Q with (inject_Z 300); rewrite <- Zle_Qle; lia).
  rewrite inject_sub. eapply Qle_trans; [| apply Qle_Qabs]. lra.
Qed.

(** The same when the history row has the sign of a receipt. *)
Lemma audit_opposite C a x : 0 <= a <= SAFE_UNITS -> 300 <= x <= a ->
  js_lt TOLERANCE (Qabs (js_sub C (Number_of_units a))) = false ->
  js_lt TOLERANCE (Qabs (js_sub (js_sub (js_add C (Number_of_units x)) (Number_of_units 0)) (Number_of_units (a - x)))) = true.
Proof.
  intros Ha Hx Hb. pose proof (tolerated_close C a Ha Hb) as Hc. revert Hb. apply gap_detected; [done | lia |].
  assert (Hix : (300 <= inject_Z x)%Q) by (change 300%Q with (inject_Z 300); rewrite <- Zle_Qle; lia).
  assert (Hia : (inject_Z x <= inject_Z a <= 1000000000000000)%Q).
  { change 1000000000000000%Q with (inject_Z 1000000000000000). rewrite <- !Zle_Qle. unfold SAFE_UNITS in Ha. lia. }
  assert (Hx0 : 0 <= x <= SAFE_UNITS) by lia. pose proof (close_Number x ltac:(lia)) as Hn. unfold close in Hn. set (N := Number_of_units x) in *.
  change (Number_of_units 0) with 0%Q. unfold js_add, js_sub. set (F := fl (C + N)). pose proof (fl_error' (C + N)) as E1. fold F in E1.
  pose proof (fl_error' (F - 0)) as E2. set (G := fl (F - 0)) in *. rewrite inject_sub.
  apply Qabs_Qle_condition in Hc, Hn. assert (B1 : (Qabs (C + N) <= 20000001)%Q) by (apply Qabs_Qle_condition; lra).
  assert (E1' : (Qabs (F - (C + N)) <= 1 # 400000000)%Q) by lra. apply Qabs_Qle_condition in E1', B1.
  assert (B2 : (Qabs (F - 0) <= 20000002)%Q) by (apply Qabs_Qle_condition; lra).
  assert (E2' : (Qabs (G - (F - 0)) <= 1 # 400000000)%Q) by lra. apply Qabs_Qle_condition in E2'.
  eapply Qle_trans; [| apply Qle_Qabs]. lra.
Qed.

(** An inconsistent audit refuses every funding of a smart escrow. *)
Lemma audit_refuses `{PrismaNumber} wire user s :
  runDoubleCheck user s = Err "[DoubleCheck] LEDGER INCONSISTENCY DETECTED" ->
  forall id now ref op w, exists e, fundEscrow sha256 wire id user now ref op s w = (Err e, w).
Proof.
  intros Hcheck id now ref op w. unfold fundEscrow, fund_read.
  destruct (of_option (escrows s !! id) _) as [e |]; [simpl | by eexists]. destruct (throw_if (negb (bool_decide _)) _); [simpl | by eexists].
  destruct (throw_if (negb (es_payerId e =? _)) _); [simpl | by eexists]. rewrite Hcheck. by eexists.
Qed.
End Effects.
