(* ===== verification/EscrowTheorems.v ===== *)
(** * Theorems on smart escrow

    The properties of every interleaving of the service's operations, from any
    database that meets the key discipline [einv]: conservation, backing of the
    buckets, agreement of ledger and history, single settlement, and the
    outcomes of the individual operations. *)

From stdpp Require Import base gmap strings list relations.
From Stdlib Require Import ZArith QArith Lia Ascii.
From S2P Require Import Prelude JsNumber ExactDecimal Json Ledger LedgerFacts LedgerHash LedgerProps Idempotency Escrow EscrowFacts EscrowProps.

Local Open Scope Z_scope.

(** ** A run of the service *)

Definition run_db : edb :=
  EDB {[ 1 := UserRow 10000000000 0 0 false; 2 := UserRow 500000000 0 0 false; 9 := UserRow 0 0 0 true ]} ∅ ∅ 0 []
    [] empty_ldb [] (Settings None None None).

Definition after {A} (r : res (A * edb)) : edb := match r with Ok (_, s) => s | Err _ => run_db end.
Definition run_sha (x : string) : string := x.
Definition run_wire (e : escrow_row) : string := es_ticketId e.

(** The history of the examples opens with the deposits. *)
Definition run_open : edb :=
  add_hist (HistRow 2 (OTHER_TYPE "DEPOSIT") 500000000 0 (Some "d2") true) (add_hist (HistRow 1 (OTHER_TYPE "DEPOSIT") 10000000000 0 (Some "d1") true) run_db).
Definition run_created : edb := after (@createEscrow ToFixedColumn "e1" "t1" 1 2 (Num.Fin 25) 1000 run_open).
Definition run_funded : edb := (@fundEscrow Decimal20 run_sha run_wire "e1" 1 2000 "f1" None run_created run_created).2.
Definition run_payer_flag : edb := after (satisfied_claim "e1" true run_funded).
Definition run_both_flags : edb := after (satisfied_claim "e1" false run_payer_flag).
Definition run_settled : edb := after (@_releaseEscrow Decimal20 ToFixedColumn run_sha "e1" SETTLED 3000 "r1" run_both_flags).
Definition run_disputed : edb := after (@raiseDispute Decimal20 ToFixedColumn run_sha "e1" 2 "late" run_funded).
Definition run_split : edb :=
  after (@resolveDispute Decimal20 ToFixedColumn run_sha "e1" 9 SPLIT None (Num.Fin 40) (Num.Fin 60) 4000 "r1" "f2" run_disputed).
Definition run_cancelled : edb := (@cancelEscrow Decimal20 ToFixedColumn run_sha "e1" 1 4000 "c1" run_funded run_disputed).2.

Example run_statuses :
  (es_status <$> escrows run_created !! "e1"%string, es_status <$> escrows run_funded !! "e1"%string,
   es_status <$> escrows run_settled !! "e1"%string, es_status <$> escrows run_disputed !! "e1"%string,
   es_status <$> escrows run_split !! "e1"%string, es_status <$> escrows run_cancelled !! "e1"%string) =
  (Some DRAFT, Some FUNDED, Some SETTLED, Some DISPUTED, Some RELEASED, Some REFUNDED).
Proof. vm_compute. reflexivity. Qed.

(** ** One settlement per escrow *)

Section Once.
Context `{DecimalLib} `{PrismaNumber} (sha256 : string -> string) (wire : escrow_row -> string).

(** No two settlement postings of one escrow. *)
Definition final_unique (s : edb) : Prop := forall id k k' t t',
  uuid_like id -> final_key id k -> final_key id k' ->
  find_key k (ledger s) = Some t -> find_key k' (ledger s) = Some t' -> k = k'.

Lemma shape_final_unique s s' : einv s -> final_unique s -> step_shape sha256 s s' -> final_unique s'.
Proof.
  intros Hi Hu Hs.
  enough (Hkeys : (forall id k t, uuid_like id -> final_key id k -> find_key k (ledger s') = Some t -> find_key k (ledger s) = Some t) \/
    exists id key, (forall k t, find_key k (ledger s) = Some t -> ~ final_key id k) /\ uuid_like id /\ final_key id key /\
      forall k t, find_key k (ledger s') = Some t -> k = key \/ find_key k (ledger s) = Some t).
  { intros id k k' t t' Hid Hk Hk' Hf Hf'. destruct Hkeys as [Hold | (i & key & Hnone & Hi' & Hkey & Hnew)]; [eauto |].
    assert (Hback : forall x y, final_key id x -> find_key x (ledger s') = Some y -> x = key \/ id <> i /\ find_key x (ledger s) = Some y).
    { intros x y Hx Hy. destruct (Hnew x y Hy) as [-> | Hs']; [by left |]. right. split; [| done]. intros ->. by apply (Hnone x y). }
    destruct (Hback k t Hk Hf) as [-> | [Hne Hs1]], (Hback k' t' Hk' Hf') as [-> | [Hne' Hs2]]; [done | | | by eapply Hu].
    - exfalso. apply Hne'. by apply (final_key_inj id i key).
    - exfalso. apply Hne. by apply (final_key_inj id i key). }
  destruct Hs as [id e _ _ _ _ _ _ _ -> | id e e' ds _ _ _ _ _ -> | ops -> | id e e' now days ref _ -> Hef _ _
    | id e _ _ Hef _ | id e e' ds hs key ls a b Hst Hd Hl Hfk Hp Hef Hc]; [by left.. | | |].
  - left. intros i k t _ Hk. pose proof (ef_ledger _ _ _ _ _ _ _ _ _ _ _ Hef) as Hpost. apply posted_cases in Hpost as [Hkeys _].
    intros [-> | ?]%Hkeys; [by apply fund_not_final in Hk | done].
  - left. intros i k t _ Hk. pose proof (ef_ledger _ _ _ _ _ _ _ _ _ _ _ Hef) as Hpost. apply posted_cases in Hpost as [Hkeys _].
    intros [-> | ?]%Hkeys; [| done]. apply dispute_not_final in Hk; [done |]. eapply ei_id; [done |]. apply Hef.
  - right. exists id, key. pose proof (ef_escrow _ _ _ _ _ _ _ _ _ _ _ Hef) as He. assert (Hid : uuid_like id) by (by eapply ei_id).
    split; [| split; [done | split; [done |]]].
    + intros k t Hf Hk. apply (ei_final_key s Hi id k t Hid Hk) in Hf as (e0 & He0 & Hdone). rewrite He in He0. injection He0 as <-.
      apply done_status in Hdone as [H1 H2]. rewrite elem_of_app, <- !in_status_spec, H1, H2 in Hst. by destruct Hst.
    + pose proof (ef_ledger _ _ _ _ _ _ _ _ _ _ _ Hef) as Hpost. by apply posted_cases in Hpost as [Hkeys _].
Qed.

Lemma steps_final_unique s s' :
  einv s -> final_unique s -> rtc (escrow_step sha256 wire) s s' -> final_unique s'.
Proof.
  intros Hi Hu Hr. revert Hi Hu. induction Hr as [s | s1 s2 s3 Hs _ IH]; intros Hi Hu; [done |].
  apply step_shaped in Hs; [| done]. apply IH; [by eapply shape_einv | by eapply shape_final_unique].
Qed.

Lemma laters_done e e' : rtc later e e' -> es_status e ∈ DONE -> es_status e' = es_status e.
Proof.
  induction 1 as [| e1 e2 e3 Hl _ IH]; intros Hd; [done |].
  rewrite (later_done e1 e2 Hl Hd) in IH. auto.
Qed.

Lemma laters_flags e e' : rtc later e e' ->
  (es_payerSatisfied e = true -> es_payerSatisfied e' = true) /\ (es_payeeSatisfied e = true -> es_payeeSatisfied e' = true).
Proof. induction 1 as [| e1 e2 e3 (_ & _ & _ & _ & _ & F1 & F2 & _) _ [IH1 IH2]]; auto. Qed.
End Once.

Section Theorems.
Context `{DecimalLib} `{PrismaNumber} (sha256 : string -> string) (wire : escrow_row -> string).
Let reaches := rtc (escrow_step sha256 wire).

(** The settlement of a ruling, as amounts. *)
Lemma ruled_pays ru id e pc now relRef refRef s r s1 :
  einv s -> escrows s !! id = Some e -> in_status IN_DISPUTE e = true -> (0 <= pc)%Q -> (pc <= 100)%Q ->
  ruled sha256 ru id e pc now relRef refRef s = Ok (r, s1) ->
  exists e' a b ds hs key ls, pays id e a b ds hs ls /\ effect sha256 id e e' ds hs 0 key ls s s1 /\
    es_status e' = (match ru with FULL_REFUND => REFUNDED | _ => RELEASED end) /\
    match ru with FULL_RELEASE => a = 0 | FULL_REFUND => b = 0 | SPLIT => 0 < a /\ 0 < b end.
Proof.
  intros Hi He Hd Hp0 Hp1 Hr. destruct (ei_terms s Hi id e He) as [Ha _]. destruct ru; simpl in Hr.
  - apply release_effect in Hr as (e' & _ & _ & Hef & _); [| done].
    pose proof (effect_row _ _ _ _ _ _ _ _ _ _ _ _ He Hef) as ->. do 7 eexists.
    split; [apply pays_release; lia |]. by split; [exact Hef |].
  - apply refund_effect in Hr as (e' & _ & _ & Hef & _); [| done].
    pose proof (effect_row _ _ _ _ _ _ _ _ _ _ _ _ He Hef) as ->. do 7 eexists.
    split; [apply pays_refund; lia |]. by split; [exact Hef |].
  - apply split_effect in Hr as (e' & a & b & _ & Hpa & Hpb & Hsum & Hef & _); [| done..].
    pose proof (effect_row _ _ _ _ _ _ _ _ _ _ _ _ He Hef) as ->. do 7 eexists.
    split; [by apply (pays_split id e a b refRef relRef) |]. by split; [exact Hef |].
Qed.

(** No interleaving of escrow operations creates or destroys value: the sum
    of all customers' available, locked and disputed balances and of the
    platform's fee balance never changes, whatever stale rows the requests
    acted on. *)
Theorem escrow_value_conserved s0 s : einv s0 -> reaches s0 s -> total_value s = total_value s0.
Proof. intros Hi Hr. by apply (steps_books sha256 wire) in Hr as [_ []]. Qed.

(** The restricted buckets are exactly backed: a customer's locked balance
    moves with the principal of the customer's live escrows, and the disputed
    balance with the principal of the disputed ones, in every reachable
    database. *)
Theorem escrow_buckets_backed s0 s u : einv s0 -> reaches s0 s ->
  locked u s = locked u s0 + (held LIVE u s - held LIVE u s0) /\
  in_dispute u s = in_dispute u s0 + (held IN_DISPUTE u s - held IN_DISPUTE u s0).
Proof.
  intros Hi Hr. apply (steps_books sha256 wire) in Hr as [_ Hb]; [| done].
  pose proof (sb_locked _ _ Hb u). pose proof (sb_dispute _ _ Hb u). lia.
Qed.

(** The authoritative ledger agrees with the operational tables in every
    reachable database: the credit balance of a customer's liability account
    moves exactly with the available balance, that of the dispute account with
    the disputed balance, that of an escrow's holding account with its live
    principal, and that of fee revenue with the platform's fees. *)
Theorem escrow_ledger_agrees s0 s u id : einv s0 -> reaches s0 s -> 0 <= u ->
  let moved c := net c (ledger s0) - net c (ledger s) in
  moved (liability_code u) = avail u s - avail u s0 /\
  moved (dispute_code u) = in_dispute u s - in_dispute u s0 /\
  moved (locked_code id) = live_principal id s - live_principal id s0 /\
  moved "revenue:fees"%string = profitFees s - profitFees s0.
Proof.
  intros Hi Hr Hu moved. apply (steps_books sha256 wire) in Hr as [_ Hb]; [| done]. unfold moved.
  pose proof (sb_liability _ _ Hb u Hu). pose proof (sb_restricted _ _ Hb u Hu). pose proof (sb_holding _ _ Hb id).
  pose proof (sb_revenue _ _ Hb). lia.
Qed.

(** The customer-facing history explains the available balance: completed
    history rows, amount less fee, add up to exactly the change of the
    available balance in every reachable database. *)
Theorem escrow_history_reconciles s0 s u : einv s0 -> reaches s0 s ->
  avail u s - avail u s0 = hist_sum u s - hist_sum u s0.
Proof.
  intros Hi Hr. apply (steps_books sha256 wire) in Hr as [_ Hb]; [| done]. pose proof (sb_hist _ _ Hb u). lia.
Qed.

(** An escrow row only moves forward: its parties, principal, fee and ticket
    never change, a satisfaction flag never falls, every single change of
    status is one the state machine allows, and a terminal status (SETTLED,
    RELEASED, REFUNDED, EXPIRED) is final. *)
Theorem escrow_moves_forward s s' id e : reaches s s' -> escrows s !! id = Some e ->
  exists e', escrows s' !! id = Some e' /\ rtc later e e' /\ same_terms e e' /\
    (es_payerSatisfied e = true -> es_payerSatisfied e' = true) /\
    (es_payeeSatisfied e = true -> es_payeeSatisfied e' = true) /\
    (es_status e ∈ DONE -> es_status e' = es_status e).
Proof.
  intros Hr He. destruct (steps_rows sha256 wire s s' Hr id e He) as (e' & He' & Hl). exists e'.
  split; [done |]. split; [done |]. split; [by apply laters_terms |].
  destruct (laters_flags e e' Hl). by split_and!; [| | apply laters_done].
Qed.

(** The principal of an escrow leaves it at most once: in every reachable
    database the ledger holds at most one settlement posting (release, refund,
    expiry or split) of an escrow, and only for an escrow whose status is
    terminal. *)
Theorem escrow_settles_once s0 s id k k' t t' :
  einv s0 -> final_unique s0 -> reaches s0 s -> uuid_like id -> final_key id k -> final_key id k' ->
  find_key k (ledger s) = Some t -> find_key k' (ledger s) = Some t' ->
  k = k' /\ exists e, escrows s !! id = Some e /\ es_status e ∈ DONE.
Proof.
  intros Hi Hu Hr Hid Hk Hk' Hf Hf'. split.
  - by eapply (steps_final_unique sha256 wire s0 s Hi Hu Hr).
  - apply (steps_books sha256 wire) in Hr as [Hi' _]; [| done]. by eapply ei_final_key.
Qed.

(** A ruling pays out exactly the disputed principal: an admin resolution
    that settles credits [a] to the payer and [b] to the payee with [a + b]
    the principal to the last unit (all to the payee for FULL_RELEASE, all to
    the payer for FULL_REFUND, two positive shares for SPLIT, although the
    shares are computed in doubles), drains exactly the principal from the
    disputed balance, touches no locked balance and ends the dispute. *)
Theorem resolve_pays_principal s id e admin ru notes p q now relRef refRef r d s' :
  einv s -> escrows s !! id = Some e -> es_payerId e <> es_payeeId e ->
  resolveDispute sha256 id admin ru notes p q now relRef refRef s = Ok (r, d, false, s') ->
  exists a b, 0 <= a /\ 0 <= b /\ a + b = es_amountUsdc e /\
    match ru with FULL_RELEASE => a = 0 | FULL_REFUND => b = 0 | SPLIT => 0 < a /\ 0 < b end /\
    avail (es_payerId e) s' = avail (es_payerId e) s + a /\ avail (es_payeeId e) s' = avail (es_payeeId e) s + b /\
    in_dispute (es_payerId e) s' = in_dispute (es_payerId e) s - es_amountUsdc e /\
    (forall u, locked u s' = locked u s) /\
    es_status <$> escrows s' !! id = Some (match ru with FULL_REFUND => REFUNDED | _ => RELEASED end) /\
    ds_status <$> disputes s' !! id = Some D_RESOLVED.
Proof.
  intros Hi He Hne Hr. apply resolve_inv in Hr as [[_ Hf] | (e0 & pc & r1 & s1 & d0 & He0 & Hd & Hp0 & Hp1 & Hr & Hd1 & _ & ->)]; [done |].
  rewrite He in He0. injection He0 as <-.
  apply ruled_pays in Hr as (e' & a & b & ds & hs & key & ls & Hpay & Hef & Hst & Hru); [| done..].
  destruct Hpay as [Ha Hb Hsum Hav Hlo Hdi _ _ _]. destruct Hef as [_ Hrows Hmv _ _ _].
  exists a, b. unfold avail, in_dispute, locked. simpl. rewrite Hrows, !lookup_insert_eq. simpl. rewrite Hst.
  rewrite !(moves_bucket availableBalance da (fun _ _ => eq_refl) _ _ _ _ Hmv), (moves_bucket disputeEscrowBalance dd (fun _ _ => eq_refl) _ _ _ _ Hmv).
  rewrite !Hav, Hdi, Hd, !Z.eqb_refl, (proj2 (Z.eqb_neq _ _) Hne), (proj2 (Z.eqb_neq _ _) (not_eq_sym Hne)). simpl.
  split_and!; try done; try lia. intros u.
  rewrite (moves_bucket escrowLockedBalance dl (fun _ _ => eq_refl) _ _ _ _ Hmv), Hlo, Hd, andb_false_r. lia.
Qed.

(** Funding is all or nothing.  [fundEscrow], acting on a row it read
    earlier, either fails and leaves the database as it was, or moves a DRAFT
    escrow to FUNDED and takes exactly principal plus fee from the payer's
    available balance, locks the principal, books the fee and records them in
    the history; the fee is then positive. *)
Theorem fund_all_or_nothing s0 s id payer now ref op res s' :
  einv s -> earlier s0 s -> fundEscrow sha256 wire id payer now ref op s0 s = (res, s') ->
  match res with
  | Err _ => s' = s
  | Ok _ => exists e e', escrows s !! id = Some e /\ escrows s' !! id = Some e' /\ same_terms e e' /\
      es_status e = DRAFT /\ es_status e' = FUNDED /\ es_payerId e = payer /\ 0 < es_amountUsdc e /\ 0 < es_feeUsdc e /\
      avail payer s' = avail payer s - (es_amountUsdc e + es_feeUsdc e) /\
      locked payer s' = locked payer s + es_amountUsdc e /\ profitFees s' = profitFees s + es_feeUsdc e /\
      hist s' = hist s ++ [HistRow payer TICKET_ESCROW_FUND (- es_amountUsdc e) (es_feeUsdc e) (Some ref) true]
  end.
Proof.
  intros Hi Hr Hf. unfold fundEscrow in Hf. destruct (fund_read id payer s0) as [e0 |] eqn:Hread; [| by injection Hf as <- <-].
  destruct res as [row | err].
  2: { unfold transaction in Hf. case_match; [by case_match |]. by injection Hf as _ <-. }
  apply transaction_Ok in Hf. unfold fund_read in Hread. apply bind_Ok in Hread as (e1 & He1 & Hread).
  apply of_option_Ok in He1. res_inv Hread. destruct (Hr id e0 He1) as (e & He & Hl).
  apply laters_terms in Hl as (_ & _ & _ & Ha & Hfee). destruct (ei_terms s Hi id e He) as [Hba Hbf].
  apply fund_effect in Hf as (e2 & Hst & Hp & Hpa & Hpf & Hef & _); [| lia..].
  pose proof (effect_row _ _ _ _ _ _ _ _ _ _ _ _ He Hef) as ->. rewrite <- Ha, <- Hfee in *.
  destruct Hef as [_ Hrows Hmv Hh Hfees _]. exists e. eexists. rewrite Hrows, lookup_insert_eq. split; [done |]. split; [done |].
  unfold avail, locked.
  rewrite (moves_bucket availableBalance da (fun _ _ => eq_refl) _ _ _ _ Hmv), (moves_bucket escrowLockedBalance dl (fun _ _ => eq_refl) _ _ _ _ Hmv).
  unfold delta_of. rewrite !sumZ_cons, !sumZ_nil. simpl. rewrite Z.eqb_refl. split_and!; try done; lia.
Qed.

(** An escrow whose fee column is zero can never be funded, although
    [fundEscrow] has a branch for it: the posting always carries a fee line
    and the ledger refuses a zero line. *)
Theorem zero_fee_unfundable s0 s id e payer now ref op :
  einv s -> earlier s0 s -> escrows s !! id = Some e -> es_feeUsdc e = 0 ->
  is_ok (fundEscrow sha256 wire id payer now ref op s0 s).1 = false /\
  (fundEscrow sha256 wire id payer now ref op s0 s).2 = s.
Proof.
  intros Hi Hr He Hfee. destruct (fundEscrow sha256 wire id payer now ref op s0 s) as [res s'] eqn:Hf. simpl.
  unfold fundEscrow in Hf. destruct (fund_read id payer s0) as [e0 |] eqn:Hread; [| by injection Hf as <- <-].
  destruct res as [row | err].
  2: { unfold transaction in Hf. case_match; [by case_match |]. by injection Hf as _ <-. }
  apply transaction_Ok in Hf. unfold fund_read in Hread. apply bind_Ok in Hread as (e1 & He1 & Hread).
  apply of_option_Ok in He1. res_inv Hread. destruct (Hr id e0 He1) as (e' & He' & Hl).
  rewrite He in He'. injection He' as <-. apply laters_terms in Hl as (_ & _ & _ & Ha & Hfe). destruct (ei_terms s Hi id e He) as [Hba Hbf].
  apply fund_effect in Hf as (_ & _ & _ & _ & Hpf & _); lia.
Qed.

(** [markSatisfied] releases only with both consents: when it reports a
    fresh settlement, the escrow was live, the caller is a party, the other
    party had already consented, and exactly the principal moved from the
    payer's locked balance to the payee's available balance. *)
Theorem satisfaction_releases id user now ref s r s' :
  einv s -> markSatisfied sha256 id user now ref s = (Ok (Settled false r), s') ->
  exists e, escrows s !! id = Some e /\ in_status LIVE e = true /\ is_party user e = true /\
    (if es_payerId e =? user then es_payeeSatisfied e else es_payerSatisfied e) = true /\
    es_status <$> escrows s' !! id = Some SETTLED /\
    (es_payerId e <> es_payeeId e -> avail (es_payeeId e) s' = avail (es_payeeId e) s + es_amountUsdc e) /\
    locked (es_payerId e) s' = locked (es_payerId e) s - es_amountUsdc e.
Proof.
  intros Hi Hm. unfold markSatisfied in Hm. destruct (satisfied_read id user s) as [[isPayer |] | err] eqn:Hread;
    [| unfold converge in Hm; repeat case_match; by simplify_eq | done].
  unfold satisfied_read in Hread. apply bind_Ok in Hread as (e & He & Hread). apply of_option_Ok in He.
  destruct (bool_decide _); [done |]. res_inv Hread. apply negb_false_iff in Hres, Hres0.
  destruct (satisfied_claim id _ s) as [[n s1] |] eqn:Hc; [| done]. destruct n as [| n].
  { unfold converge in Hm. repeat case_match; by simplify_eq. }
  apply escrow_updateMany_Ok in Hc as [(? & _) | (_ & e0 & He0 & Hcond & ->)]; [done |].
  rewrite He in He0. injection He0 as <-. simpl in Hm. rewrite lookup_insert_eq in Hm.
  destruct (es_payerSatisfied _ && es_payeeSatisfied _) eqn:Hboth.
  2: { unfold satisfied_pending, converge in Hm. repeat case_match; by simplify_eq. }
  destruct (transaction _ _) as [[settled | err] s2] eqn:Ht; [| unfold converge in Hm; repeat case_match; by simplify_eq].
  injection Hm as <- <-. apply transaction_Ok, find_then in Ht as (f & Hf & Ht). simpl in Hf. rewrite lookup_insert_eq in Hf.
  injection Hf as <-. destruct (ei_terms s Hi id e He) as [Ha _].
  set (f := flag_row (es_payerId e =? user) e) in *. apply release_effect in Ht as (f' & Hsrc & Hpos & Hef & _); [| done].
  assert (f' = f) as -> by (pose proof (ef_escrow _ _ _ _ _ _ _ _ _ _ _ Hef) as Hx; simpl in Hx; rewrite lookup_insert_eq in Hx; congruence).
  exists e. split; [done |]. split; [done |]. split; [done |].
  split. { apply andb_true_iff in Hboth. subst f. simpl in Hboth. by destruct (es_payerId e =? user), Hboth. }
  assert (Hfd : from_dispute f = false) by exact (live_not_dispute e Hres).
  destruct Hef as [_ Hrows Hmv _ _ _]. simpl in Hrows, Hmv. rewrite Hrows, lookup_insert_eq, Hfd in *. split; [done |].
  unfold avail, locked. rewrite !(moves_bucket availableBalance da (fun _ _ => eq_refl) _ _ _ _ Hmv),
    (moves_bucket escrowLockedBalance dl (fun _ _ => eq_refl) _ _ _ _ Hmv).
  unfold delta_of. rewrite !sumZ_cons, !sumZ_nil. simpl. rewrite !Z.eqb_refl. split.
  - intros Hne. destruct (Z.eqb_spec (es_payerId e) (es_payeeId e)); lia.
  - destruct (es_payeeId e =? es_payerId e); lia.
Qed.

(** The consent of a party is spent when it is recorded.  Once both flags
    of a live escrow are set without the settlement that should have followed,
    [markSatisfied] by either party always fails and changes nothing, so no
    retry settles it. *)
Theorem satisfaction_not_retryable id user now ref s e :
  escrows s !! id = Some e -> in_status LIVE e = true -> es_payerSatisfied e = true -> es_payeeSatisfied e = true ->
  exists err, markSatisfied sha256 id user now ref s = (Err err, s).
Proof.
  intros He Hl H1 H2. unfold markSatisfied. destruct (satisfied_read id user s) as [[isPayer |] | err] eqn:Hread.
  - assert (Hc : satisfied_claim id isPayer s = Ok (0%nat, s)).
    { unfold satisfied_claim, escrow_updateMany, get. unfold mbind, M_bind. simpl. rewrite He.
      rewrite H1, H2. by destruct isPayer. }
    rewrite Hc. unfold converge. rewrite He. rewrite bool_decide_false; [by eexists |].
    intros Hst. unfold in_status in Hl. by rewrite Hst in Hl.
  - unfold satisfied_read in Hread. rewrite He in Hread. simpl in Hread. case_bool_decide as Hst; [| by res_inv Hread].
    unfold in_status in Hl. by rewrite Hst in Hl.
  - by eexists.
Qed.

(** A dispute left open on a finished escrow can no longer be resolved. *)
Lemma stranded_dispute id admin ru notes p q now r1 r2 s e d :
  escrows s !! id = Some e -> es_status e ∈ DONE -> disputes s !! id = Some d -> ds_status d <> D_RESOLVED ->
  is_ok (resolveDispute sha256 id admin ru notes p q now r1 r2 s) = false.
Proof.
  intros He Hd Hdis Hst. destruct (resolveDispute _ _ _ _ _ _ _ _ _ _ _) as [[r s'] | err] eqn:Hr; [| done]. exfalso.
  pose proof Hr as Hr0.
  apply resolve_inv in Hr as [[-> Hf] | (e0 & pc & x & s1 & d0 & He0 & Hin & _)].
  2: { rewrite He in He0. injection He0 as <-. apply done_status in Hd as [_ Hd]. congruence. }
  unfold resolveDispute in Hr0. apply Mbind_Ok in Hr0 as (pc & s1 & Hp & Hr0).
  assert (s1 = s) as -> by (destruct ru; [by apply Mret_Ok in Hp as [_ ->].. | by apply lift_Ok in Hp as [_ ->]]).
  apply find_then in Hr0 as (e0 & He0 & Hr0). apply Mbind_Ok in Hr0 as (dsp & s1 & Hd0 & Hr0). apply reads_Ok in Hd0 as [-> ->].
  rewrite Hdis in Hr0. apply Mbind_Ok in Hr0 as (d0 & s1 & Hd0 & Hr0). apply lift_Ok in Hd0 as [[= <-] ->].
  rewrite (bool_decide_false _ Hst), andb_false_r in Hr0. apply Mbind_Ok in Hr0 as (u & s1 & Hc & _). apply check_Ok in Hc as [Hc _].
  rewrite He in He0. injection He0 as <-. apply done_status in Hd as [_ Hd]. congruence.
Qed.
End Theorems.

(** ** The run is a run *)

#[local] Abbreviation run_step := (@escrow_step Decimal20 ToFixedColumn run_sha run_wire).

Lemma run_open_einv : einv run_open.
Proof. split; intros *; cbn; try discriminate; rewrite lookup_empty; discriminate. Qed.

Lemma run_open_unique : final_unique run_open.
Proof. intros id k k' t t' _ _ _. cbn. discriminate. Qed.

Lemma run_create_step : run_step run_open run_created.
Proof.
  assert (Hr : exists e, @createEscrow ToFixedColumn "e1" "t1" 1 2 (Num.Fin 25) 1000 run_open = Ok (e, run_created) /\
    es_amountUsdc e <= ESCROW_MAX /\ es_feeUsdc e <= ESCROW_MAX).
  { eexists. split; [vm_compute; reflexivity | split; vm_compute; discriminate]. }
  destruct Hr as (e & Hr & Ha & Hf). apply (es_create _ _ "e1" "t1" 1 2 (Num.Fin 25) 1000 e); try done; lia.
Qed.

Lemma run_fund_step : run_step run_created run_funded.
Proof.
  assert (Hr : exists r, @fundEscrow Decimal20 run_sha run_wire "e1" 1 2000 "f1" None run_created run_created = (Ok r, run_funded)).
  { eexists. vm_compute. reflexivity. }
  destruct Hr as (r & Hr). apply (es_fund _ _ "e1" 1 2000 "f1" None run_created r); [apply earlier_refl | done].
Qed.

Lemma run_flag_step : run_step run_funded run_payer_flag.
Proof.
  apply (es_flag _ _ "e1" 1 true run_funded 1%nat); [apply earlier_refl | vm_compute; reflexivity | vm_compute; reflexivity].
Qed.

Lemma run_flags_step : run_step run_payer_flag run_both_flags.
Proof.
  apply (es_flag _ _ "e1" 2 false run_payer_flag 1%nat); [apply earlier_refl | vm_compute; reflexivity | vm_compute; reflexivity].
Qed.

Lemma run_settle_step : run_step run_both_flags run_settled.
Proof.
  assert (Hr : exists u r, escrows run_both_flags !! "e1"%string = Some u /\ es_payerSatisfied u && es_payeeSatisfied u = true /\
    @_releaseEscrow Decimal20 ToFixedColumn run_sha "e1" SETTLED 3000 "r1" run_both_flags = Ok (r, run_settled)).
  { do 2 eexists. split; [vm_compute; reflexivity |]. split; vm_compute; reflexivity. }
  destruct Hr as (u & r & Hu & Hb & Hr). apply (es_settle _ _ "e1" u 3000 "r1" run_both_flags r); [apply earlier_refl | done..].
Qed.

Lemma run_dispute_step : run_step run_funded run_disputed.
Proof.
  assert (Hr : exists r, @raiseDispute Decimal20 ToFixedColumn run_sha "e1" 2 "late" run_funded = Ok (r, run_disputed)).
  { eexists. vm_compute. reflexivity. }
  destruct Hr as (r & Hr). by apply (es_dispute _ _ "e1" 2 "late" r).
Qed.

Lemma run_cancel_step : run_step run_disputed run_cancelled.
Proof.
  assert (Hr : exists r, @cancelEscrow Decimal20 ToFixedColumn run_sha "e1" 1 4000 "c1" run_funded run_disputed = (Ok r, run_cancelled)).
  { eexists. vm_compute. reflexivity. }
  destruct Hr as (r & Hr). apply (es_cancel _ _ "e1" 1 4000 "c1" run_funded r); [| done].
  apply (steps_rows (H:=Decimal20) (H0:=ToFixedColumn) run_sha run_wire), rtc_once, run_dispute_step.
Qed.

Lemma run_reach_funded : rtc run_step run_open run_funded.
Proof. eapply rtc_l; [apply run_create_step |]. apply rtc_once, run_fund_step. Qed.

Lemma run_reach_disputed : rtc run_step run_open run_disputed.
Proof. eapply rtc_r; [apply run_reach_funded | apply run_dispute_step]. Qed.

Lemma run_reach_settled : rtc run_step run_open run_settled.
Proof.
  etrans; [apply run_reach_funded |]. eapply rtc_l; [apply run_flag_step |]. eapply rtc_l; [apply run_flags_step |].
  apply rtc_once, run_settle_step.
Qed.

Lemma run_disputed_einv : einv run_disputed.
Proof. eapply (steps_books (H:=Decimal20) (H0:=ToFixedColumn) run_sha run_wire); [apply run_open_einv | apply run_reach_disputed]. Qed.

(** A cancellation that read the escrow before a dispute was raised refunds
    the payer past the dispute: a reachable database has the disputed escrow
    REFUNDED with its dispute still PENDING, and from then on no ruling of any
    admin resolves that dispute. *)
Theorem stale_cancel_bypasses_dispute :
  rtc run_step run_open run_disputed /\ run_step run_disputed run_cancelled /\
  es_status <$> escrows run_disputed !! "e1"%string = Some DISPUTED /\
  es_status <$> escrows run_cancelled !! "e1"%string = Some REFUNDED /\
  ds_status <$> disputes run_cancelled !! "e1"%string = Some D_PENDING /\
  (forall admin ru notes p q now r1 r2,
     is_ok (@resolveDispute Decimal20 ToFixedColumn run_sha "e1" admin ru notes p q now r1 r2 run_cancelled) = false).
Proof.
  split; [apply run_reach_disputed |]. split; [apply run_cancel_step |].
  split; [vm_compute; reflexivity |]. split; [vm_compute; reflexivity |]. split; [vm_compute; reflexivity |].
  assert (Hx : exists e d, escrows run_cancelled !! "e1"%string = Some e /\ es_status e = REFUNDED /\
    disputes run_cancelled !! "e1"%string = Some d /\ ds_status d = D_PENDING).
  { do 2 eexists. vm_compute. repeat split; reflexivity. }
  destruct Hx as (e & d & He & Hst & Hd & Hds). intros. eapply stranded_dispute; [exact He | | exact Hd | by rewrite Hds].
  by apply in_status_spec; unfold in_status; rewrite Hst.
Qed.

(** ** Witnesses *)

Lemma escrow_value_conserved_witness : total_value run_settled = 10500000000.
Proof.
  rewrite (@escrow_value_conserved Decimal20 ToFixedColumn run_sha run_wire run_open run_settled run_open_einv run_reach_settled).
  vm_compute. reflexivity.
Defined.

Lemma escrow_buckets_backed_witness : locked 1 run_funded = 2500000000 /\ in_dispute 1 run_funded = 0.
Proof.
  destruct (@escrow_buckets_backed Decimal20 ToFixedColumn run_sha run_wire run_open run_funded 1 run_open_einv run_reach_funded) as [-> ->].
  vm_compute. split; reflexivity.
Defined.

Lemma escrow_ledger_agrees_witness :
  net (locked_code "e1") (ledger run_open) - net (locked_code "e1") (ledger run_funded) = 2500000000.
Proof.
  destruct (@escrow_ledger_agrees Decimal20 ToFixedColumn run_sha run_wire run_open run_funded 1 "e1" run_open_einv run_reach_funded ltac:(lia))
    as (_ & _ & -> & _). vm_compute. reflexivity.
Defined.

Lemma escrow_history_reconciles_witness : avail 2 run_settled - avail 2 run_open = 2500000000.
Proof.
  rewrite (@escrow_history_reconciles Decimal20 ToFixedColumn run_sha run_wire run_open run_settled 2 run_open_einv run_reach_settled).
  vm_compute. reflexivity.
Defined.

Lemma escrow_moves_forward_witness : exists e e', escrows run_funded !! "e1"%string = Some e /\
  escrows run_disputed !! "e1"%string = Some e' /\ same_terms e e' /\ es_status e' = DISPUTED.
Proof.
  assert (He : exists e, escrows run_funded !! "e1"%string = Some e) by (eexists; vm_compute; reflexivity).
  destruct He as (e & He).
  destruct (@escrow_moves_forward Decimal20 ToFixedColumn run_sha run_wire run_funded run_disputed "e1" e
    (rtc_once _ _ run_dispute_step) He) as (e' & He' & _ & Hs & _).
  exists e, e'. repeat (split; [assumption |]).
  assert (Hst : es_status <$> escrows run_disputed !! "e1"%string = Some DISPUTED) by (vm_compute; reflexivity).
  rewrite He' in Hst. by injection Hst.
Defined.

Lemma escrow_settles_once_witness : exists e, escrows run_settled !! "e1"%string = Some e /\ es_status e ∈ DONE.
Proof.
  assert (Hf : exists t, find_key (release_key "e1" SETTLED) (ledger run_settled) = Some t) by (eexists; vm_compute; reflexivity).
  destruct Hf as (t & Hf).
  refine (proj2 (@escrow_settles_once Decimal20 ToFixedColumn run_sha run_wire run_open run_settled "e1"
    (release_key "e1" SETTLED) (release_key "e1" SETTLED) t t run_open_einv run_open_unique run_reach_settled _ _ _ Hf Hf)).
  - by vm_compute.
  - right. left. by exists SETTLED.
  - right. left. by exists SETTLED.
Defined.

Lemma resolve_pays_principal_witness :
  exists a b, a + b = 2500000000 /\ 0 < a /\ 0 < b /\ avail 1 run_split = avail 1 run_disputed + a /\ avail 2 run_split = avail 2 run_disputed + b.
Proof.
  assert (Hx : exists e r d, escrows run_disputed !! "e1"%string = Some e /\ es_payerId e = 1 /\ es_payeeId e = 2 /\ es_amountUsdc e = 2500000000 /\
    @resolveDispute Decimal20 ToFixedColumn run_sha "e1" 9 SPLIT None (Num.Fin 40) (Num.Fin 60) 4000 "r1" "f2" run_disputed = Ok (r, d, false, run_split)).
  { do 3 eexists. split; [vm_compute; reflexivity |]. do 3 (split; [reflexivity |]). vm_compute. reflexivity. }
  destruct Hx as (e & r & d & He & H1 & H2 & Ha & Hr).
  destruct (@resolve_pays_principal Decimal20 ToFixedColumn run_sha run_disputed "e1" e 9 SPLIT None (Num.Fin 40) (Num.Fin 60) 4000 "r1" "f2" r d run_split
    run_disputed_einv He ltac:(rewrite H1, H2; discriminate) Hr) as (a & b & _ & _ & Hsum & [Hpa Hpb] & Hav1 & Hav2 & _).
  rewrite H1 in Hav1. rewrite H2 in Hav2. rewrite Ha in Hsum. exists a, b. split; [exact Hsum |]. repeat (split; [assumption |]). assumption.
Defined.

Lemma run_created_einv : einv run_created.
Proof. eapply (steps_books (H:=Decimal20) (H0:=ToFixedColumn) run_sha run_wire); [apply run_open_einv | apply rtc_once, run_create_step]. Qed.

Lemma fund_all_or_nothing_witness : exists e, escrows run_created !! "e1"%string = Some e /\
  avail 1 run_funded = avail 1 run_created - (es_amountUsdc e + es_feeUsdc e).
Proof.
  assert (Hr : exists r, @fundEscrow Decimal20 run_sha run_wire "e1" 1 2000 "f1" None run_created run_created = (Ok r, run_funded))
    by (eexists; vm_compute; reflexivity).
  destruct Hr as (r & Hr).
  destruct (@fund_all_or_nothing Decimal20 run_sha run_wire run_created run_created "e1" 1 2000 "f1" None (Ok r) run_funded
    run_created_einv (earlier_refl _) Hr) as (e & e' & He & _ & _ & _ & _ & _ & _ & _ & Hav & _).
  exists e. split; assumption.
Defined.

(** A draft whose fee rounds to nothing: the platform fee is set to zero. *)
Definition free_open : edb :=
  EDB (users run_open) ∅ ∅ 0 (hist run_open) [] empty_ldb [] (Settings (Some 0%Q) None None).
Definition free_created : edb := after (@createEscrow ToFixedColumn "e2" "t2" 1 2 (Num.Fin 25) 1000 free_open).

Lemma free_created_einv : einv free_created.
Proof.
  apply (shape_einv (H:=Decimal20) run_sha free_open); [split; intros *; cbn; try discriminate; rewrite lookup_empty; discriminate |].
  assert (Hr : exists e, @createEscrow ToFixedColumn "e2" "t2" 1 2 (Num.Fin 25) 1000 free_open = Ok (e, free_created) /\
    es_amountUsdc e <= ESCROW_MAX /\ es_feeUsdc e <= ESCROW_MAX).
  { eexists. split; [vm_compute; reflexivity | split; vm_compute; discriminate]. }
  destruct Hr as (e & Hr & Ha & Hf). apply create_row in Hr as (Hn & Hd & Hp & Hq & Ha0 & Hf0 & ->).
  eapply (shape_new _ _ _ "e2" e); try done; lia.
Qed.

Lemma zero_fee_unfundable_witness :
  is_ok (@fundEscrow Decimal20 run_sha run_wire "e2" 1 2000 "f1" None free_created free_created).1 = false.
Proof.
  assert (He : exists e, escrows free_created !! "e2"%string = Some e /\ es_feeUsdc e = 0) by (eexists; split; vm_compute; reflexivity).
  destruct He as (e & He & Hfee).
  exact (proj1 (@zero_fee_unfundable Decimal20 run_sha run_wire free_created free_created "e2" e 1 2000 "f1" None
    free_created_einv (earlier_refl _) He Hfee)).
Defined.

Lemma run_payer_flag_einv : einv run_payer_flag.
Proof.
  eapply (steps_books (H:=Decimal20) (H0:=ToFixedColumn) run_sha run_wire run_open); [apply run_open_einv |].
  eapply rtc_r; [apply run_reach_funded | apply run_flag_step].
Qed.

Lemma satisfaction_releases_witness : exists e, escrows run_payer_flag !! "e1"%string = Some e /\ es_payerSatisfied e = true.
Proof.
  assert (Hm : exists r, @markSatisfied Decimal20 ToFixedColumn run_sha "e1" 2 3000 "r1" run_payer_flag = (Ok (Settled false r), run_settled))
    by (eexists; vm_compute; reflexivity).
  destruct Hm as (r & Hm).
  destruct (@satisfaction_releases Decimal20 ToFixedColumn run_sha "e1" 2 3000 "r1" run_payer_flag r run_settled run_payer_flag_einv Hm)
    as (e & He & _ & _ & Hflag & _).
  exists e. split; [exact He |].
  assert (Hp : es_payerId <$> escrows run_payer_flag !! "e1"%string = Some 1) by (vm_compute; reflexivity).
  rewrite He in Hp. injection Hp as Hp. rewrite Hp in Hflag. exact Hflag.
Defined.

Lemma satisfaction_not_retryable_witness :
  exists err, @markSatisfied Decimal20 ToFixedColumn run_sha "e1" 2 5000 "r2" run_both_flags = (Err err, run_both_flags).
Proof.
  assert (He : exists e, escrows run_both_flags !! "e1"%string = Some e /\ in_status LIVE e = true /\ es_payerSatisfied e = true /\ es_payeeSatisfied e = true)
    by (eexists; vm_compute; repeat split; reflexivity).
  destruct He as (e & He & Hl & H1 & H2).
  exact (@satisfaction_not_retryable Decimal20 ToFixedColumn run_sha "e1" 2 5000 "r2" run_both_flags e He Hl H1 H2).
Defined.
