(* ===== verification/Booking.v ===== *)
(** * Booking escrow (services/bookingEscrowService.js)

    Reservations and transit bookings hold their deposit in the same escrow
    table, buckets and ledger as smart escrow.  State: the escrow database and
    the two booking tables ([bdb]).  Operations: the funding claims on the
    booking, creation, funding, release, refund and the no-show split, each as
    one transaction; [fundBookingEscrow] reads the audit and the settings
    before its transaction.

    The chat ticket a booking escrow creates is represented by its id.
    Notifications and messages after the commit are not modelled, and neither
    is [processBusinessNoShow], which only forwards to another service. *)

From stdpp Require Import base gmap strings list.
From Stdlib Require Import ZArith QArith Lia Ascii.
From S2P Require Import Prelude JsNumber ExactDecimal Json Ledger Idempotency Escrow.

Local Open Scope Z_scope.

(** ** Rows *)

Inductive reservation_status : Type :=
| R_PENDING | R_CONFIRMED | R_CHECKED_IN | R_CHECKED_OUT | R_COMPLETED | R_CANCELLED_CUSTOMER | R_CANCELLED_BUSINESS | R_NO_SHOW.
Inductive transit_status : Type := T_PENDING | T_CONFIRMED | T_IN_PROGRESS | T_COMPLETED | T_CANCELLED | T_NO_SHOW.
Inductive booking_type : Type := RESERVATION | TRANSIT.

#[export] Instance reservation_status_eq_dec : EqDecision reservation_status.
Proof. solve_decision. Defined.
#[export] Instance transit_status_eq_dec : EqDecision transit_status.
Proof. solve_decision. Defined.
#[export] Instance booking_type_eq_dec : EqDecision booking_type.
Proof. solve_decision. Defined.

(** [rv_businessUserId] is the owner of the row's business profile; the penalty
    percentage is a Decimal(5,4) in 1e-4 units. *)
Record resv_row : Type := ResvRow {
  rv_businessProfileId : string;
  rv_businessUserId : Z;
  rv_customerId : Z;
  rv_status : reservation_status;
  rv_endDatetime : Z;
  rv_confirmedAt : option Z;
  rv_cancelledAt : option Z;
  rv_checkedInAt : option Z;
  rv_checkedOutAt : option Z;
  rv_escrowId : option string;
  rv_ticketId : option string;
  rv_noShowPenaltyPct : option Z;
  rv_noShowPenaltyUsdc : option Z;
  rv_penaltyAmountUsdc : option Z;
  rv_penaltyChargedAt : option Z;
}.

(** Addresses, notes, coordinates and ratings are not carried. *)
Record transit_row : Type := TransitRow {
  tb_businessProfileId : string;
  tb_customerId : Z;
  tb_tripId : option string;
  tb_status : transit_status;
  tb_scheduledAt : option Z;
  tb_amountUsdc : Z;
  tb_bookingRef : string;
  tb_createdAt : Z;
  tb_checkedInAt : option Z;
  tb_escrowId : option string;
  tb_ticketId : option string;
  tb_noShowPenaltyPct : option Z;
  tb_noShowPenaltyUsdc : option Z;
  tb_penaltyAmountUsdc : option Z;
  tb_penaltyChargedAt : option Z;
}.

Record bdb : Type := BDB {
  core : edb;
  reservations : gmap string resv_row;
  transits : gmap string transit_row;
}.

Definition set_core (c : edb) (s : bdb) : bdb := BDB c (reservations s) (transits s).
Definition set_reservations (m : gmap string resv_row) (s : bdb) : bdb := BDB (core s) m (transits s).
Definition set_transits (m : gmap string transit_row) (s : bdb) : bdb := BDB (core s) (reservations s) m.

(** A statement or transaction primitive on the escrow tables. *)
Definition on_core {A} (m : M edb A) : M bdb A := fun s =>
  match m (core s) with Ok (a, c) => Ok (a, set_core c s) | Err e => Err e end.

(** ** Statements on the booking tables *)

Definition resv_in (l : list reservation_status) (r : resv_row) : bool := existsb (fun st => bool_decide (rv_status r = st)) l.
Definition transit_in (l : list transit_status) (r : transit_row) : bool := existsb (fun st => bool_decide (tb_status r = st)) l.

Definition resv_updateMany (id : string) (cond : resv_row -> bool) (f : resv_row -> resv_row) : M bdb nat :=
  s ← get;
  match reservations s !! id with
  | Some r => if cond r then put (set_reservations (<[id := f r]> (reservations s)) s);; mret 1%nat else mret 0%nat
  | None => mret 0%nat
  end.
Definition transit_updateMany (id : string) (cond : transit_row -> bool) (f : transit_row -> transit_row) : M bdb nat :=
  s ← get;
  match transits s !! id with
  | Some r => if cond r then put (set_transits (<[id := f r]> (transits s)) s);; mret 1%nat else mret 0%nat
  | None => mret 0%nat
  end.
Definition resv_find (id : string) : M bdb (option resv_row) := reads (fun s => reservations s !! id).
Definition transit_find (id : string) : M bdb (option transit_row) := reads (fun s => transits s !! id).
(** [findFirst] by the linked escrow. *)
Definition transit_of_escrow (escrowId : string) : M bdb (option (string * transit_row)) :=
  reads (fun s => List.find (fun p => bool_decide (tb_escrowId p.2 = Some escrowId)) (map_to_list (transits s))).

(** The data clauses. *)
Definition confirmed_resv (now : Z) (r : resv_row) : resv_row :=
  ResvRow (rv_businessProfileId r) (rv_businessUserId r) (rv_customerId r) R_CONFIRMED (rv_endDatetime r) (Some now)
    (rv_cancelledAt r) (rv_checkedInAt r) (rv_checkedOutAt r) (rv_escrowId r) (rv_ticketId r)
    (rv_noShowPenaltyPct r) (rv_noShowPenaltyUsdc r) (rv_penaltyAmountUsdc r) (rv_penaltyChargedAt r).
Definition linked_resv (escrowId ticketId : string) (r : resv_row) : resv_row :=
  ResvRow (rv_businessProfileId r) (rv_businessUserId r) (rv_customerId r) (rv_status r) (rv_endDatetime r) (rv_confirmedAt r)
    (rv_cancelledAt r) (rv_checkedInAt r) (rv_checkedOutAt r) (Some escrowId) (Some ticketId)
    (rv_noShowPenaltyPct r) (rv_noShowPenaltyUsdc r) (rv_penaltyAmountUsdc r) (rv_penaltyChargedAt r).
Definition no_show_resv (amount charged : option Z) (r : resv_row) : resv_row :=
  ResvRow (rv_businessProfileId r) (rv_businessUserId r) (rv_customerId r) R_NO_SHOW (rv_endDatetime r) (rv_confirmedAt r)
    (rv_cancelledAt r) (rv_checkedInAt r) (rv_checkedOutAt r) (rv_escrowId r) (rv_ticketId r)
    (rv_noShowPenaltyPct r) (rv_noShowPenaltyUsdc r) amount charged.
(** The business defaults (penaltyPolicyService). *)
Definition business_cancelled_resv (amount now : Z) (r : resv_row) : resv_row :=
  ResvRow (rv_businessProfileId r) (rv_businessUserId r) (rv_customerId r) R_CANCELLED_BUSINESS (rv_endDatetime r) (rv_confirmedAt r)
    (Some now) (rv_checkedInAt r) (rv_checkedOutAt r) (rv_escrowId r) (rv_ticketId r)
    (rv_noShowPenaltyPct r) (rv_noShowPenaltyUsdc r) (Some amount) (Some now).
(** A transit row with the columns its lifecycle writes replaced. *)
Definition transit_with (st : transit_status) (checkedIn : option Z) (escrowId ticketId : option string) (amount charged : option Z)
    (r : transit_row) : transit_row :=
  TransitRow (tb_businessProfileId r) (tb_customerId r) (tb_tripId r) st (tb_scheduledAt r) (tb_amountUsdc r) (tb_bookingRef r) (tb_createdAt r)
    checkedIn escrowId ticketId (tb_noShowPenaltyPct r) (tb_noShowPenaltyUsdc r) amount charged.
Definition transit_status_to (st : transit_status) (r : transit_row) : transit_row :=
  transit_with st (tb_checkedInAt r) (tb_escrowId r) (tb_ticketId r) (tb_penaltyAmountUsdc r) (tb_penaltyChargedAt r) r.
Definition confirmed_transit (r : transit_row) : transit_row := transit_status_to T_CONFIRMED r.
Definition linked_transit (escrowId ticketId : string) (r : transit_row) : transit_row :=
  transit_with (tb_status r) (tb_checkedInAt r) (Some escrowId) (Some ticketId) (tb_penaltyAmountUsdc r) (tb_penaltyChargedAt r) r.
Definition no_show_transit (amount now : Z) (r : transit_row) : transit_row :=
  transit_with T_NO_SHOW (tb_checkedInAt r) (tb_escrowId r) (tb_ticketId r) (Some amount) (Some now) r.

(** ** Funding claims on the booking *)

Definition _claimReservationForFundingTx (bookingId escrowId : string) (now : Z) : M bdb unit :=
  claimed ← resv_updateMany bookingId (fun r => bool_decide (rv_escrowId r = Some escrowId) && resv_in [R_PENDING] r) (confirmed_resv now);
  if (claimed =? 1)%nat then mret tt
  else
    current ← resv_find bookingId;
    check (match current with
           | Some r => resv_in [R_CONFIRMED] r && bool_decide (rv_escrowId r = Some escrowId)
           | None => false
           end) "RESERVATION_FUNDING_CONFLICT".

Definition TRANSIT_FUNDABLE_PRE_TERMINAL : list transit_status := [T_PENDING; T_CONFIRMED; T_IN_PROGRESS].

Definition _claimTransitBookingForFundingTx (bookingId escrowId : string) : M bdb unit :=
  found ← transit_of_escrow escrowId;
  match found with
  | None => throw "TRANSIT_FUNDING_CONFLICT"
  | Some (lid, linked) =>
      check (String.eqb lid bookingId) "TRANSIT_FUNDING_CONFLICT";;
      if transit_in [T_PENDING] linked then
        claimed ← transit_updateMany bookingId (fun r => bool_decide (tb_escrowId r = Some escrowId) && transit_in [T_PENDING] r) confirmed_transit;
        if (claimed =? 1)%nat then mret tt
        else
          current ← transit_find bookingId;
          check (match current with Some r => transit_in TRANSIT_FUNDABLE_PRE_TERMINAL r | None => false end) "TRANSIT_FUNDING_CONFLICT"
      else check (transit_in [T_CONFIRMED; T_IN_PROGRESS] linked) "TRANSIT_FUNDING_CONFLICT"
  end.

Section Service.
Context `{DecimalLib} `{PrismaNumber} (sha256 : string -> string).

(** ** [createBookingEscrow] *)

Definition BOOKING_ESCROW_FEE_PCT : Q := fl (5 # 1000).

(** The INSERT of the escrow row. *)
Definition insert_escrow (id : string) (row : escrow_row) : M edb unit :=
  s ← get;
  check (match escrows s !! id with None => true | _ => false end) "P2002";;
  check (negb (existsb (fun p => String.eqb (es_ticketId p.2) (es_ticketId row)) (map_to_list (escrows s)))) "P2002";;
  check (match users s !! es_payerId row, users s !! es_payeeId row with Some _, Some _ => true | _, _ => false end) "P2003";;
  check (column_ok (es_amountUsdc row) && column_ok (es_feeUsdc row)) "NUMERIC_OVERFLOW";;
  put (set_escrows (<[id := row]> (escrows s)) s).

Definition createBookingEscrow (bookingType : booking_type) (bookingId : string) (payerId payeeId : Z) (amountUsdc : Num.num)
    (newTicket newEscrow : string) (now : Z) : M bdb escrow_row :=
  check (negb (String.length bookingId =? 0)%nat) "bookingId is required.";;
  check (negb (payerId =? 0) && negb (payeeId =? 0)) "payerId and payeeId are required.";;
  amount ← match amountUsdc with
           | Num.Fin q => if js_lt 0 q then mret q else throw "amountUsdc must be a positive number."
           | _ => throw "amountUsdc must be a positive number."
           end;
  check (negb (payerId =? payeeId)) "Payer and payee cannot be the same user.";;
  s ← get;
  let feePct := default BOOKING_ESCROW_FEE_PCT (smartEscrowFeePct (globalSettings (core s))) in
  let feeUsdc := round6 (js_mul amount feePct) in
  let row := EscrowRow newTicket payerId payeeId (num_to_col amount) (num_to_col feeUsdc) DRAFT false false None None None
               (now + 24 * HOUR_MS) None None None in
  on_core (insert_escrow newEscrow row);;
  linked ← match bookingType with
           | RESERVATION =>
               resv_updateMany bookingId (fun r => bool_decide (rv_escrowId r = None) && resv_in [R_PENDING; R_CONFIRMED] r)
                 (linked_resv newEscrow newTicket)
           | TRANSIT =>
               transit_updateMany bookingId (fun r => bool_decide (tb_escrowId r = None) && transit_in TRANSIT_FUNDABLE_PRE_TERMINAL r)
                 (linked_transit newEscrow newTicket)
           end;
  check (linked =? 1)%nat "BOOKING_ESCROW_LINK_CONFLICT";;
  mret row.

(** ** [fundBookingEscrow] *)

(** The money of a funding: debit, lock, fee, posting, history, profit log. *)
Definition fund_money (escrowId : string) (payerId : Z) (escrow : escrow_row) (reference : string) : M edb unit :=
  let amount := Number_of_units (es_amountUsdc escrow) in
  let fee := Number_of_units (es_feeUsdc escrow) in
  let total := round6 (js_add amount fee) in
  payer ← reads (fun s => users s !! payerId);
  check (match payer with Some _ => true | None => false end) "Payer not found.";;
  debit ← user_updateMany payerId (fun u => num_to_col total <=? availableBalance u) (Delta (- num_to_col total) 0 0);
  check (debit =? 1)%nat "INSUFFICIENT_BALANCE";;
  user_update payerId (Delta 0 (num_to_col amount) 0);;
  s ← get;
  check (column_ok (profitFees s + num_to_col fee)) "CHECK_VIOLATION";;
  put (set_profitFees (profitFees s + num_to_col fee) s);;
  posting ← post_ledger sha256 (escrow_posting (fund_key escrowId) "ESCROW_LOCK"
    "Booking escrow funded — principal locked, fee realized" (Some reference) payerId escrowId
    [debit_line (liability_code payerId) (exact_num total);
     credit_line (locked_code escrowId) (exact_num amount);
     credit_line "revenue:fees" (exact_num fee)]);
  check (negb (replayed posting)) "LEDGER_REPLAY_IN_CLAIMED_OPERATION";;
  history_create (HistRow payerId TICKET_ESCROW_FUND (num_to_col (- amount)) (num_to_col fee) (Some reference) true);;
  (if js_lt 0 fee
   then modify (add_profitLog (num_to_col fee, ("booking_fee_" +:+ es_ticketId escrow +:+ "_" +:+ reference)%string))
   else mret tt).

(** The claim of the DRAFT row. *)
Definition fund_claim (escrowId : string) (payerId days now : Z) (reference : string) : M edb escrow_row :=
  r ← escrow_find escrowId;
  escrow ← lift (of_option r "Escrow not found.");
  check (es_payerId escrow =? payerId) "Only the payer can fund this escrow.";;
  check (in_status [DRAFT] escrow) "Escrow cannot be funded";;
  count ← escrow_updateMany escrowId (fun e => in_status [DRAFT] e && (es_payerId e =? payerId)) (funded_row now days reference);
  current ← escrow_find escrowId;
  check (count =? 1)%nat
    (if bool_decide (es_status <$> current = Some FUNDED) then "ESCROW_ALREADY_FUNDED" else "ESCROW_STATE_CHANGED");;
  mret escrow.

(** The claim of the booking, for a call that names one. *)
Definition booking_claim (bookingType : option booking_type) (bookingId : option string) (escrowId : string) (now : Z) : M bdb unit :=
  match bookingType, truthy bookingId with
  | Some RESERVATION, Some b => _claimReservationForFundingTx b escrowId now
  | Some TRANSIT, Some b => _claimTransitBookingForFundingTx b escrowId
  | _, _ => mret tt
  end.

Definition fund_booking_tx (escrowId : string) (payerId : Z) (bookingType : option booking_type) (bookingId : option string)
    (days now : Z) (reference : string) : M bdb escrow_row :=
  escrow ← on_core (fund_claim escrowId payerId days now reference);
  booking_claim bookingType bookingId escrowId now;;
  on_core (fund_money escrowId payerId escrow reference);;
  r ← on_core (escrow_find escrowId);
  lift (of_option r "TypeError").

Definition fundBookingEscrow (escrowId : string) (payerId : Z) (bookingType : option booking_type) (bookingId : option string)
    (now : Z) (reference : string) (before s : bdb) : res escrow_row * bdb :=
  match runDoubleCheck payerId (core before) with
  | Err e => (Err e, s)
  | Ok _ =>
      transaction (fund_booking_tx escrowId payerId bookingType bookingId
        (default 30 (escrowFundedExpiryDays (globalSettings (core before)))) now reference) s
  end.

(** ** Release and refund *)

Definition _releaseBookingEscrowTx (escrowId : string) (now : Z) (reference : string) : M edb escrow_row :=
  r ← escrow_find escrowId;
  escrow ← lift (of_option r "Escrow not found.");
  let amount := Number_of_units (es_amountUsdc escrow) in
  count ← escrow_updateMany escrowId (in_status LIVE) (settled_row SETTLED now reference);
  check (negb (count =? 0)%nat) "ESCROW_ALREADY_FINALIZED";;
  debit ← user_updateMany (es_payerId escrow) (fun u => num_to_col amount <=? escrowLockedBalance u) (Delta 0 (- num_to_col amount) 0);
  check (debit =? 1)%nat "ESCROW_BALANCE_INSUFFICIENT";;
  user_update (es_payeeId escrow) (Delta (num_to_col amount) 0 0);;
  post_ledger sha256 (escrow_posting (release_key escrowId SETTLED) "ESCROW_RELEASE" "Booking escrow released to payee on settlement"
    (Some reference) (es_payeeId escrow) escrowId
    [debit_line (locked_code escrowId) (exact_num amount); credit_line (liability_code (es_payeeId escrow)) (exact_num amount)]);;
  history_create (HistRow (es_payeeId escrow) TICKET_ESCROW_RELEASE (num_to_col amount) 0 (Some reference) true);;
  u ← escrow_find escrowId;
  lift (of_option u "TypeError").

Definition releaseBookingEscrow (escrowId : string) (now : Z) (reference : string) (s : bdb) : res escrow_row * bdb :=
  transaction (on_core (_releaseBookingEscrowTx escrowId now reference)) s.

Definition _refundBookingEscrowTx (escrowId : string) (now : Z) (reference : string) : M edb escrow_row :=
  r ← escrow_find escrowId;
  escrow ← lift (of_option r "Escrow not found.");
  let amount := Number_of_units (es_amountUsdc escrow) in
  count ← escrow_updateMany escrowId (in_status LIVE) (refunded_row REFUNDED now reference);
  check (negb (count =? 0)%nat) "ESCROW_ALREADY_FINALIZED";;
  debit ← user_updateMany (es_payerId escrow) (fun u => num_to_col amount <=? escrowLockedBalance u)
            (Delta (num_to_col amount) (- num_to_col amount) 0);
  check (debit =? 1)%nat "ESCROW_BALANCE_INSUFFICIENT";;
  post_ledger sha256 (escrow_posting (refund_key escrowId REFUNDED) "ESCROW_REFUND" "Booking escrow refunded to payer on cancellation"
    (Some reference) (es_payerId escrow) escrowId
    [debit_line (locked_code escrowId) (exact_num amount); credit_line (liability_code (es_payerId escrow)) (exact_num amount)]);;
  history_create (HistRow (es_payerId escrow) TICKET_ESCROW_REFUND (num_to_col amount) 0 (Some reference) true);;
  u ← escrow_find escrowId;
  lift (of_option u "TypeError").

Definition refundBookingEscrow (escrowId : string) (now : Z) (reference : string) (s : bdb) : res escrow_row * bdb :=
  transaction (on_core (_refundBookingEscrowTx escrowId now reference)) s.

(** ** The no-show split *)

Definition MAX_PENALTY_PCT : Q := fl (1 # 2).

Inductive penalty : Type := Flat (value : Q) | Pct (value : Q).

Definition positive (x : option Q) : bool := match x with Some q => js_lt 0 q | None => false end.

Definition penaltyConfig (penaltyPct penaltyFlatUsdc : option Q) : res penalty :=
  match penaltyFlatUsdc, penaltyPct with
  | Some f, p =>
      if js_lt 0 f then Ok (Flat f)
      else match p with
           | Some q => if js_lt 0 q then Ok (Pct (js_min q MAX_PENALTY_PCT)) else Err "Either penaltyPct or penaltyFlatUsdc must be a positive value."
           | None => Err "Either penaltyPct or penaltyFlatUsdc must be a positive value."
           end
  | None, Some q => if js_lt 0 q then Ok (Pct (js_min q MAX_PENALTY_PCT)) else Err "Either penaltyPct or penaltyFlatUsdc must be a positive value."
  | None, None => Err "Either penaltyPct or penaltyFlatUsdc must be a positive value."
  end.

Definition penalty_shares (principal : Q) (config : penalty) : Q * Q :=
  let raw := match config with Flat v => js_min v principal | Pct v => round6 (js_mul principal v) end in
  let penaltyAmount := js_min (round6 raw) principal in
  (penaltyAmount, round6 (js_sub principal penaltyAmount)).

(** A credit line for a positive share only. *)
Definition share_line (userId : Z) (share : Q) : list line_in :=
  if js_lt 0 share then [credit_line (liability_code userId) (exact_num share)] else [].

(** The money of the split, up to the booking claim. *)
Definition split_money (escrowId : string) (escrow : escrow_row) (penaltyAmount refundAmount : Q) (now : Z) (releaseRef refundRef : string) : M edb unit :=
  let principal := Number_of_units (es_amountUsdc escrow) in
  count ← escrow_updateMany escrowId (in_status LIVE) (split_row now releaseRef refundRef);
  check (negb (count =? 0)%nat) "ESCROW_ALREADY_FINALIZED";;
  debit ← user_updateMany (es_payerId escrow) (fun u => num_to_col principal <=? escrowLockedBalance u) (Delta 0 (- num_to_col principal) 0);
  check (debit =? 1)%nat "ESCROW_BALANCE_INSUFFICIENT";;
  post_ledger sha256 (escrow_posting (split_release_key escrowId) "ESCROW_RELEASE" "No-show penalty split" (Some releaseRef) (es_payerId escrow) escrowId
    (debit_line (locked_code escrowId) (exact_num principal) ::
     share_line (es_payeeId escrow) penaltyAmount ++ share_line (es_payerId escrow) refundAmount));;
  pay_share (es_payeeId escrow) TICKET_ESCROW_RELEASE penaltyAmount releaseRef;;
  pay_share (es_payerId escrow) TICKET_ESCROW_REFUND refundAmount refundRef.

(** [claimWhere] is the caller's extra condition on the reservation. *)
Definition _splitReleaseFundedEscrowTx (escrowId : string) (penaltyPct penaltyFlatUsdc : option Q) (bookingType : option booking_type)
    (bookingId : option string) (now : Z) (releaseRef refundRef : string) (claimWhere : resv_row -> bool) : M bdb (escrow_row * Q * Q) :=
  config ← lift (penaltyConfig penaltyPct penaltyFlatUsdc);
  r ← on_core (escrow_find escrowId);
  escrow ← lift (of_option r "Escrow not found.");
  let '(penaltyAmount, refundAmount) := penalty_shares (Number_of_units (es_amountUsdc escrow)) config in
  on_core (split_money escrowId escrow penaltyAmount refundAmount now releaseRef refundRef);;
  match bookingType, truthy bookingId with
  | Some RESERVATION, Some b =>
      count ← resv_updateMany b (fun r => claimWhere r && resv_in [R_CONFIRMED] r) (no_show_resv (Some (num_to_col penaltyAmount)) (Some now));
      check (negb (count =? 0)%nat) "BOOKING_NO_LONGER_CONFIRMED"
  | Some TRANSIT, Some b =>
      count ← transit_updateMany b (transit_in [T_CONFIRMED]) (no_show_transit (num_to_col penaltyAmount) now);
      check (negb (count =? 0)%nat) "BOOKING_NO_LONGER_CONFIRMED"
  | _, _ => mret tt
  end;;
  u ← on_core (escrow_find escrowId);
  row ← lift (of_option u "TypeError");
  mret (row, penaltyAmount, refundAmount).

Definition splitReleaseFundedEscrow (escrowId : string) (penaltyPct penaltyFlatUsdc : option Q) (bookingType : option booking_type)
    (bookingId : option string) (now : Z) (releaseRef refundRef : string) (s : bdb) : res (escrow_row * Q * Q) * bdb :=
  transaction (_splitReleaseFundedEscrowTx escrowId penaltyPct penaltyFlatUsdc bookingType bookingId now releaseRef refundRef (fun _ => true)) s.
End Service.
