(* ===== verification/BookingFacts.v ===== *)
(** * What the booking transactions do

    The booking service moves money through the same buckets, keys and ledger
    lines as smart escrow: each of its transactions has one of the shapes of
    EscrowProps, so the books of the whole platform follow from the lemmas
    proved there. *)

From stdpp Require Import base gmap strings list relations.
From Stdlib Require Import ZArith QArith Qabs Lqa Lia Ascii.
From S2P Require Import Prelude JsNumber ExactDecimal Json Ledger LedgerFacts LedgerHash LedgerProps Idempotency Escrow EscrowFacts EscrowProps Booking.

Local Open Scope Z_scope.

(** ** Statements *)

Lemma on_core_Ok {A} (m : M edb A) s a s' :
  on_core m s = Ok (a, s') <-> exists c, m (core s) = Ok (a, c) /\ s' = set_core c s.
Proof.
  unfold on_core. destruct (m (core s)) as [[b c] | e]; split.
  - intros [= -> <-]. eauto.
  - by intros (c' & [= -> ->] & ->).
  - done.
  - by intros (c' & ? & _).
Qed.

Lemma resv_updateMany_Ok id cond f s n s' :
  resv_updateMany id cond f s = Ok (n, s') ->
  (n = 0%nat /\ s' = s) \/
  (n = 1%nat /\ exists r, reservations s !! id = Some r /\ cond r = true /\ s' = set_reservations (<[id := f r]> (reservations s)) s).
Proof.
  unfold resv_updateMany. intros Hr. apply Mbind_Ok in Hr as (s1 & s2 & Hg & Hr). apply get_Ok in Hg as [-> ->].
  destruct (reservations s !! id) as [r |] eqn:He; [| run_inv Hr; by left].
  destruct (cond r) eqn:Hc; run_inv Hr; [right; split; [done |]; by exists r | by left].
Qed.

Lemma transit_updateMany_Ok id cond f s n s' :
  transit_updateMany id cond f s = Ok (n, s') -> core s' = core s /\ reservations s' = reservations s.
Proof.
  unfold transit_updateMany. intros Hr. apply Mbind_Ok in Hr as (s1 & s2 & Hg & Hr). apply get_Ok in Hg as [-> ->].
  destruct (transits s !! id) as [r |]; [| by run_inv Hr]. destruct (cond r); by run_inv Hr.
Qed.

(** A drain whose count must be one. *)
Lemma drain_one {B} id cond d msg (k : M edb B) s r s' :
  (debit ← user_updateMany id cond d; check (debit =? 1)%nat msg;; k) s = Ok (r, s') ->
  exists u, users s !! id = Some u /\ cond u = true /\ user_ok (apply_delta d u) = true /\
    k (set_users (<[id := apply_delta d u]> (users s)) s) = Ok (r, s').
Proof.
  intros Hr. apply Mbind_Ok in Hr as (n & s1 & Hu & Hr). apply Mbind_Ok in Hr as (x & s2 & Hc & Hr).
  apply check_Ok in Hc as [Hn ->].
  apply user_updateMany_Ok in Hu as [[-> ->] | (-> & u & Hu & Hc & Hok & ->)]; [done |]. eauto.
Qed.

(** A row read and then claimed in the same transaction. *)
Lemma claim_live {B} id f msg (k : M edb B) s e r s' :
  escrows s !! id = Some e ->
  (count ← escrow_updateMany id (in_status LIVE) f; check (negb (count =? 0)%nat) msg;; k) s = Ok (r, s') ->
  in_status LIVE e = true /\ k (set_escrows (<[id := f e]> (escrows s)) s) = Ok (r, s').
Proof.
  intros He Hr. apply Mbind_Ok in Hr as (n & s1 & Hu & Hr). apply Mbind_Ok in Hr as (x & s2 & Hc & Hr).
  apply check_Ok in Hc as [Hn ->].
  apply escrow_updateMany_Ok in Hu as [(-> & _) | (_ & e' & He' & Hc & ->)]; [done |]. rewrite He in He'. by injection He' as <-.
Qed.

Lemma Number_opp u : 0 <= u -> (- Number_of_units u)%Q = Number_of_units (- u).
Proof. intros Hu. unfold Number_of_units, parseDec. destruct u; [done | done | lia]. Qed.

Section Money.
Context `{DecimalLib} `{PrismaNumber} (sha256 : string -> string).

(** ** Settlements *)

(** A live escrow [e] became the ended [e'], paying [a] of its principal back
    to the payer and [b] to the payee. *)
Record settlement (id : string) (e e' : escrow_row) (a b : Z) (s s' : edb) : Prop := {
  st_row : escrows s !! id = Some e;
  st_live : in_status LIVE e = true;
  st_done : es_status e' ∈ DONE;
  st_later : later e e';
  st_disputes : disputes s' = disputes s;
  st_money : exists ds hs key ls, final_key id key /\ pays id e a b ds hs ls /\ effect sha256 id e e' ds hs 0 key ls s s';
}.

Lemma settlement_shape id e e' a b s s' : settlement id e e' a b s s' -> step_shape sha256 s s'.
Proof.
  intros [Hrow Hl Hd Hlat Hdis (ds & hs & key & ls & Hk & Hp & Hef)].
  eapply (shape_final _ _ _ id e e'); try done; [| by rewrite Hdis]. apply elem_of_app. left. by apply in_status_spec.
Qed.

Lemma settlement_ended id e e' a b s s' : settlement id e e' a b s s' -> escrows s' !! id = Some e'.
Proof. intros [Hrow Hl Hd Hlat Hdis (ds & hs & key & ls & Hk & Hp & [])]. by rewrite ef_escrows, lookup_insert_eq. Qed.

Lemma settlement_moves id e e' a b s s' : settlement id e e' a b s s' ->
  0 <= a /\ 0 <= b /\ es_amountUsdc e = a + b /\
  (forall u, avail u s' = avail u s + (if es_payerId e =? u then a else 0) + (if es_payeeId e =? u then b else 0)) /\
  (forall u, locked u s' = locked u s - (if es_payerId e =? u then es_amountUsdc e else 0)) /\
  (forall u, in_dispute u s' = in_dispute u s).
Proof.
  intros [Hrow Hl Hd Hlat Hdis (ds & hs & key & ls & Hk & [Ha Hb Hs Hav Hlo Hdi _ _ _] & [_ _ Hmv _ _ _])].
  pose proof (live_not_dispute e Hl) as Hnd. rewrite Hnd in *. split_and!; try done; intros u.
  - unfold avail. rewrite (moves_bucket availableBalance da (fun _ _ => eq_refl) _ _ _ _ Hmv), Hav. lia.
  - unfold locked. rewrite (moves_bucket escrowLockedBalance dl (fun _ _ => eq_refl) _ _ _ _ Hmv), Hlo. rewrite andb_true_r. destruct (_ =? u); lia.
  - unfold in_dispute. rewrite (moves_bucket disputeEscrowBalance dd (fun _ _ => eq_refl) _ _ _ _ Hmv), Hdi. rewrite andb_false_r. lia.
Qed.

(** ** Release and refund *)

Lemma booking_release_effect id now ref s r s' :
  einv s -> _releaseBookingEscrowTx sha256 id now ref s = Ok (r, s') ->
  exists e, settlement id e (settled_row SETTLED now ref e) 0 (es_amountUsdc e) s s'.
Proof.
  intros Hi Hr. apply find_then in Hr as (e & He & Hr). destruct (ei_terms s Hi id e He) as [Ha _].
  rewrite (col_amount _ Ha), (exact_amount _ Ha) in Hr.
  apply (claim_live id _ _ _ s e) in Hr as [Hl Hr]; [| done]. pose proof (live_not_dispute e Hl) as Hnd.
  apply drain_one in Hr as (u & Hu & _ & Hok & Hr).
  apply Mbind_Ok in Hr as (x2 & s3 & Hup & Hr). apply user_update_Ok in Hup as (u2 & -> & Hu2 & Hok2).
  apply Mbind_Ok in Hr as (pr & s5 & Hpost & Hr).
  apply (escrow_posted sha256 (release_key id SETTLED) "ESCROW_RELEASE" _ _ _ _
    [DebitOf (locked_code id) (es_amountUsdc e); CreditOf (liability_code (es_payeeId e)) (es_amountUsdc e)])
    in Hpost as (l2 & -> & Hposted & Hpos); [| repeat constructor; simpl; lia | done].
  apply Mbind_Ok in Hr as (x6 & s6 & Hh & Hr). apply history_create_Ok in Hh as ->.
  apply Mbind_Ok in Hr as (x7 & s7 & Hfind & Hr). apply escrow_find_Ok in Hfind as [_ ->]. apply lift_Ok in Hr as [_ ->].
  pose proof (pays_release id e ref ltac:(lia)) as Hp. unfold from_dispute in Hp. rewrite Hnd in Hp.
  exists e. split; [done | done | by apply in_status_spec | by apply (later_settled false); [left |] | done |].
  do 2 eexists. exists (release_key id SETTLED). eexists. split; [right; left; by exists SETTLED |]. split; [exact Hp |].
  split; try done; simpl; [| lia]. eapply (moves_app [_] [_]); apply moves_one; done.
Qed.

Lemma booking_refund_effect id now ref s r s' :
  einv s -> _refundBookingEscrowTx sha256 id now ref s = Ok (r, s') ->
  exists e, settlement id e (refunded_row REFUNDED now ref e) (es_amountUsdc e) 0 s s'.
Proof.
  intros Hi Hr. apply find_then in Hr as (e & He & Hr). destruct (ei_terms s Hi id e He) as [Ha _].
  rewrite (col_amount _ Ha), (exact_amount _ Ha) in Hr.
  apply (claim_live id _ _ _ s e) in Hr as [Hl Hr]; [| done]. pose proof (live_not_dispute e Hl) as Hnd.
  apply drain_one in Hr as (u & Hu & _ & Hok & Hr).
  apply Mbind_Ok in Hr as (pr & s5 & Hpost & Hr).
  apply (escrow_posted sha256 (refund_key id REFUNDED) "ESCROW_REFUND" _ _ _ _
    [DebitOf (locked_code id) (es_amountUsdc e); CreditOf (liability_code (es_payerId e)) (es_amountUsdc e)])
    in Hpost as (l2 & -> & Hposted & Hpos); [| repeat constructor; simpl; lia | done].
  apply Mbind_Ok in Hr as (x6 & s6 & Hh & Hr). apply history_create_Ok in Hh as ->.
  apply Mbind_Ok in Hr as (x7 & s7 & Hfind & Hr). apply escrow_find_Ok in Hfind as [_ ->]. apply lift_Ok in Hr as [_ ->].
  pose proof (pays_refund id e ref ltac:(lia)) as Hp. unfold from_dispute in Hp. rewrite Hnd in Hp.
  exists e. split; [done | done | by apply in_status_spec | by apply (later_refunded false); [left |] | done |].
  do 2 eexists. exists (refund_key id REFUNDED). eexists. split; [right; right; left; by exists REFUNDED |]. split; [exact Hp |].
  split; try done; simpl; [| lia]. by apply moves_one.
Qed.

(** ** Shares *)

(** A double that stands for [u] units in every use the split makes of it. *)
Record share_val (q : Q) (u : Z) : Prop := {
  sv_nonneg : 0 <= u;
  sv_col : num_to_col q = u;
  sv_exact : exact_num q = exact_dec u;
  sv_positive : js_lt 0 q = (0 <? u);
}.

Lemma share_grid k : 0 <= k -> Z.abs (100 * k) <= SAFE_UNITS -> share_val (parseDec 6 k) (100 * k).
Proof.
  intros Hk Hs. split; [lia | by apply col_share | |].
  - rewrite exact_num_exact_dec by (by apply fl_nonneg). by rewrite toFixed8_parse6.
  - rewrite parse6_positive by done. destruct (Z.ltb_spec 0 k), (Z.ltb_spec 0 (100 * k)); try done; lia.
Qed.

Lemma share_principal u : 0 <= u <= ESCROW_MAX -> share_val (Number_of_units u) u.
Proof.
  intros Hu. split; [lia | by apply col_amount | by apply exact_amount |].
  assert (Hs : Z.abs u <= SAFE_UNITS) by (unfold ESCROW_MAX, SAFE_UNITS in *; lia).
  pose proof (close_Number u Hs) as Hc. destruct (Z.ltb_spec 0 u) as [Hpos | Hn].
  - eapply close_pos; [exact Hc | lra | done].
  - assert (u = 0) as -> by lia. reflexivity.
Qed.

Lemma Qle_bool_false x y : Qle_bool x y = false -> (y <= x)%Q.
Proof. intros Hf. apply Qlt_le_weak, Qnot_le_lt. intros Hle. apply Qle_bool_iff in Hle. congruence. Qed.

Lemma js_min_spec x y : (js_min x y <= x)%Q /\ (js_min x y <= y)%Q /\ (js_min x y = x \/ js_min x y = y).
Proof.
  unfold js_min. destruct (Qle_bool x y) eqn:Hle.
  - apply Qle_bool_iff in Hle. split_and!; [apply Qle_refl | done | by left].
  - apply Qle_bool_false in Hle. split_and!; [done | apply Qle_refl | by right].
Qed.

(** Rounding to 6 decimals of a non-negative number of moderate size. *)
Lemma round6_share x :
  (0 <= x)%Q -> (x * 100000000 <= 500000000000000)%Q -> exists k, 0 <= k /\ round6 x = parseDec 6 k /\ Z.abs (100 * k) <= SAFE_UNITS.
Proof.
  intros Hx Hm. exists (toFixedZ 6 x). split; [apply toFixedZ_nonneg; [lia | by apply Qnum_nonneg] |]. split; [done |].
  pose proof (round6_magnitude x 500000000000000) as Hb. enough (Z.abs (100 * toFixedZ 6 x) <= 500000000000000 + 50) by (unfold SAFE_UNITS; lia).
  apply Hb. rewrite (Qabs_pos x Hx). exact Hm.
Qed.

Lemma number_bound u : 0 <= u <= ESCROW_MAX -> (0 <= Number_of_units u)%Q /\ (Number_of_units u * 100000000 <= 112500000000000)%Q.
Proof.
  intros Hu. destruct (number_magnitude u (proj1 Hu)) as [HN0 HN]. apply Qnum_nonneg in HN0. split; [done |].
  rewrite (Qabs_pos _ HN0) in HN.
  assert ((inject_Z u <= 100000000000000)%Q) by (unfold Qle, inject_Z; simpl; unfold ESCROW_MAX in Hu; lia). lra.
Qed.

(** The penalty configured by a call. *)
Definition penalty_value (c : penalty) : Q := match c with Flat v | Pct v => v end.

Lemma config_positive p f c : penaltyConfig p f = Ok c ->
  (0 <= penalty_value c)%Q /\ match c with Pct v => (v <= 1 # 2)%Q | Flat _ => True end.
Proof.
  assert (Hlt : forall q, js_lt 0 q = true -> (0 <= q)%Q).
  { intros q Hq. unfold js_lt in Hq. apply negb_true_iff in Hq. by apply Qle_bool_false. }
  assert (Hpct : forall q, js_lt 0 q = true -> (0 <= js_min q MAX_PENALTY_PCT)%Q /\ (js_min q MAX_PENALTY_PCT <= 1 # 2)%Q).
  { intros q Hq. apply Hlt in Hq. destruct (js_min_spec q MAX_PENALTY_PCT) as (_ & Hm & Hor).
    split; [| eapply Qle_trans; [exact Hm | by vm_compute]]. destruct Hor as [-> | ->]; [done | by vm_compute]. }
  unfold penaltyConfig. destruct f as [f |], p as [p |]; repeat case_match; intros Hc; simplify_eq; simpl; auto.
Qed.

Lemma round6_grows x : (0 <= x)%Q -> (0 <= round6 x)%Q /\ (round6 x * 100000000 <= (x * 100000000 + 50) * (9 # 8))%Q.
Proof.
  intros Hx. assert (Hk : 0 <= toFixedZ 6 x) by (apply toFixedZ_nonneg; [lia | by apply Qnum_nonneg]).
  assert (Hr : (0 <= round6 x)%Q) by (apply Qnum_nonneg, fl_nonneg; done). split; [done |].
  pose proof (parse6_magnitude (toFixedZ 6 x)) as Hp. fold (round6 x) in Hp. rewrite (Qabs_pos _ Hr), Z.abs_eq in Hp by lia.
  pose proof (toFixedZ_spec 6 x ltac:(lia)) as Hs. change (10 ^ 6) with 1000000 in Hs. change (inject_Z 1000000) with 1000000%Q in Hs.
  apply Qabs_Qle_condition in Hs as [Hs1 Hs2].
  assert (He : (inject_Z (100 * toFixedZ 6 x) == 100 * inject_Z (toFixedZ 6 x))%Q) by (unfold Qeq, inject_Z, Qmult; simpl; lia).
  rewrite He in Hp. lra.
Qed.

Lemma fl_nonneg_le x : (0 <= x)%Q -> (0 <= fl x)%Q /\ (fl x <= x * (9 # 8))%Q.
Proof.
  intros Hx. assert (Hf : (0 <= fl x)%Q) by (apply Qnum_nonneg, fl_nonneg, Qnum_nonneg; done). split; [done |].
  pose proof (fl_magnitude x) as Hm. by rewrite (Qabs_pos _ Hf), (Qabs_pos _ Hx) in Hm.
Qed.

Lemma penalty_shares_val u p f c :
  0 <= u <= ESCROW_MAX -> penaltyConfig p f = Ok c ->
  exists a b, share_val (penalty_shares (Number_of_units u) c).1 a /\ share_val (penalty_shares (Number_of_units u) c).2 b.
Proof.
  intros Hu Hc. destruct (number_bound u Hu) as [HN0 HN]. apply config_positive in Hc as [Hv0 Hv].
  set (N := Number_of_units u) in *. unfold penalty_shares.
  set (raw := match c with Flat v => js_min v N | Pct v => round6 (js_mul N v) end). cbn [fst snd].
  assert (Hraw : (0 <= raw)%Q /\ (raw * 100000000 <= 150000000000000)%Q).
  { unfold raw. destruct c as [v | v]; simpl in Hv0.
    - destruct (js_min_spec v N) as (_ & Hm & Hor). split; [destruct Hor as [-> | ->]; done | lra].
    - assert (Hmul : (0 <= N * v)%Q) by (by apply Qmult_le_0_compat).
      assert (Hmul' : (N * v <= N * (1 # 2))%Q) by (rewrite (Qmult_comm N v), (Qmult_comm N); by apply Qmult_le_compat_r).
      unfold js_mul. destruct (fl_nonneg_le (N * v) Hmul) as [Hf0 Hf]. destruct (round6_grows (fl (N * v)) Hf0) as [Hr0 Hr]. split; [done | lra]. }
  destruct Hraw as [Hraw0 Hraw]. destruct (round6_share raw Hraw0 ltac:(lra)) as (k & Hk & Hrk & Hks).
  destruct (round6_grows raw Hraw0) as [Hg0 Hg]. destruct (js_min_spec (round6 raw) N) as (Hm1 & Hm2 & Hor).
  assert (Hpen : (0 <= js_min (round6 raw) N)%Q) by (destruct Hor as [-> | ->]; done).
  destruct (fl_nonneg_le (N - js_min (round6 raw) N) ltac:(lra)) as [Hd0 Hd].
  destruct (round6_share (js_sub N (js_min (round6 raw) N)) Hd0) as (k2 & Hk2 & Hrk2 & Hks2); [unfold js_sub; lra |].
  assert (Ha : exists a, share_val (js_min (round6 raw) N) a).
  { destruct Hor as [-> | ->]; [rewrite Hrk; exists (100 * k); by apply share_grid | exists u; by apply share_principal]. }
  destruct Ha as [a Ha]. exists a, (100 * k2). split; [done |]. rewrite Hrk2. by apply share_grid.
Qed.

(** ** The split *)

Definition credit_of (u a : Z) : list line_spec := if 0 <? a then [CreditOf (liability_code u) a] else [].
Definition paid (u a : Z) : list (Z * delta) := if 0 <? a then [(u, Delta a 0 0)] else [].
Definition paid_row (u a : Z) (ty : hist_type) (ref : string) : list hist_row := if 0 <? a then [HistRow u ty a 0 (Some ref) true] else [].

Lemma share_lines u q a : share_val q a -> share_line u q = map to_line (credit_of u a).
Proof.
  intros [Hn Hcol Hex Hpos]. unfold share_line, credit_of. rewrite Hpos. destruct (0 <? a); [| done]. simpl. by rewrite Hex.
Qed.

Lemma pay_share_val uid ty q a ref s x s' :
  share_val q a -> pay_share uid ty q ref s = Ok (x, s') ->
  moves (paid uid a) (users s) (users s') /\ hist s' = hist s ++ paid_row uid a ty ref /\
  escrows s' = escrows s /\ disputes s' = disputes s /\ profitFees s' = profitFees s /\ ledger s' = ledger s.
Proof.
  intros [Hn Hcol Hex Hpos] Hr. unfold pay_share in Hr. rewrite Hpos, Hcol in Hr. unfold paid, paid_row. destruct (0 <? a).
  - apply Mbind_Ok in Hr as (y & s1 & Hu & Hr). apply user_update_Ok in Hu as (w & -> & Hw & Hok). apply history_create_Ok in Hr as ->.
    split_and!; try done. by apply moves_one.
  - apply Mret_Ok in Hr as [_ ->]. rewrite app_nil_r. split_and!; try done. constructor.
Qed.

Lemma pays_penalty id e a b r1 r2 :
  0 <= a -> 0 <= b -> es_amountUsdc e = a + b -> in_status IN_DISPUTE e = false -> pays id e b a
    ((es_payerId e, Delta 0 (- es_amountUsdc e) 0) :: paid (es_payeeId e) a ++ paid (es_payerId e) b)
    (paid_row (es_payeeId e) a TICKET_ESCROW_RELEASE r1 ++ paid_row (es_payerId e) b TICKET_ESCROW_REFUND r2)
    (map to_nline (DebitOf (locked_code id) (es_amountUsdc e) :: credit_of (es_payeeId e) a ++ credit_of (es_payerId e) b)).
Proof.
  intros Ha Hb Hs Hd. unfold paid, paid_row, credit_of.
  destruct (Z.ltb_spec 0 a), (Z.ltb_spec 0 b); cbn [map app to_nline]; (split; rewrite ?Hd; [pays_tac.. | lines_tac]).
Qed.

Lemma split_live_later now r1 r2 e : in_status LIVE e = true -> later e (split_row now r1 r2 e).
Proof.
  intros Hl. apply in_status_spec in Hl. unfold later. simpl. split_and!; try done. unfold LIVE in Hl. set_unfold in Hl.
  destruct Hl as [-> | [-> | [-> | []]]]; done.
Qed.

Lemma split_money_settles id e pen ref a b now r1 r2 s x s' :
  einv s -> escrows s !! id = Some e -> share_val pen a -> share_val ref b ->
  split_money sha256 id e pen ref now r1 r2 s = Ok (x, s') -> settlement id e (split_row now r1 r2 e) b a s s'.
Proof.
  intros Hi He Hpa Hpb Hr. destruct (ei_terms s Hi id e He) as [Ha _]. unfold split_money in Hr.
  rewrite (col_amount _ Ha), (exact_amount _ Ha), (share_lines _ _ _ Hpa), (share_lines _ _ _ Hpb) in Hr.
  apply (claim_live id _ _ _ s e) in Hr as [Hl Hr]; [| done]. apply drain_one in Hr as (u & Hu & _ & Hok & Hr).
  apply Mbind_Ok in Hr as (pr & s5 & Hpost & Hr). rewrite <- map_app in Hpost.
  apply (escrow_posted sha256 (split_release_key id) "ESCROW_RELEASE" _ _ _ _
    (DebitOf (locked_code id) (es_amountUsdc e) :: credit_of (es_payeeId e) a ++ credit_of (es_payerId e) b))
    in Hpost as (l2 & -> & Hposted & Hpos); [| | done].
  2: { destruct Hpa, Hpb. unfold credit_of. destruct (0 <? a), (0 <? b); repeat constructor; simpl; lia. }
  apply Mbind_Ok in Hr as (x1 & s6 & Hs1 & Hs2).
  destruct (pay_share_val _ _ _ _ _ _ _ _ Hpa Hs1) as (Hm1 & Hh1 & He1 & Hd1 & Hf1 & Hl1).
  destruct (pay_share_val _ _ _ _ _ _ _ _ Hpb Hs2) as (Hm2 & Hh2 & He2 & Hd2 & Hf2 & Hl2). simpl in *.
  assert (Hsum : es_amountUsdc e = a + b).
  { destruct Hposted as (p & r0 & _ & Hw & Hprep & _). destruct Hpa as [Hna _ _ _], Hpb as [Hnb _ _ _]. unfold ESCROW_MAX in Ha.
    destruct (prepared_total p _ _ Hw Hprep) as (_ & Hbal & _);
      unfold credit_of in *; destruct (Z.ltb_spec 0 a), (Z.ltb_spec 0 b); simpl in *; unfold DECIMAL_20_8_LIMIT; lia. }
  split; [done | done | by apply in_status_spec | by apply split_live_later | congruence |].
  destruct Hpa as [Hna _ _ _], Hpb as [Hnb _ _ _]. do 2 eexists. exists (split_release_key id). eexists. split; [by right; right; right |].
  split; [apply (pays_penalty id e a b r1 r2); [done.. | by apply live_not_dispute] |]. split; try congruence.
  - eapply (moves_app [_]); [by apply moves_one |]. eapply moves_app; [exact Hm1 | exact Hm2].
  - by rewrite Hh2, Hh1, <- app_assoc.
  - rewrite Hf2, Hf1. lia.
  - by rewrite Hl2, Hl1.
Qed.

(** ** Funding *)

Lemma fund_claim_Ok id payer days now ref s r s' :
  fund_claim id payer days now ref s = Ok (r, s') ->
  escrows s !! id = Some r /\ es_payerId r = payer /\ es_status r = DRAFT /\
  s' = set_escrows (<[id := funded_row now days ref r]> (escrows s)) s.
Proof.
  intros Hr. apply find_then in Hr as (e & He & Hr). run_inv Hr.
  match goal with Hf : escrow_find _ _ = Ok _ |- _ => apply escrow_find_Ok in Hf as [-> ->] end.
  match goal with Hu : escrow_updateMany _ _ _ _ = Ok _ |- _ => apply escrow_updateMany_Ok in Hu as [(-> & _) | (_ & e' & He' & _ & ->)] end; [done |].
  rewrite He in He'. injection He' as <-.
  repeat match goal with Hp : (_ =? _) = true |- _ => apply Z.eqb_eq in Hp end.
  match goal with Hs : in_status [DRAFT] _ = true |- _ => apply in_status_spec, list_elem_of_singleton in Hs end.
  by split_and!.
Qed.

(** What the audit total of a funding is worth. *)
Lemma fund_total_share u f :
  0 <= u <= ESCROW_MAX -> 0 <= f <= ESCROW_MAX ->
  exists k, 0 <= k /\ 100 * k <= SAFE_UNITS /\ share_val (round6 (js_add (Number_of_units u) (Number_of_units f))) (100 * k).
Proof.
  intros Hu Hf. destruct (number_bound u Hu) as [HN0 HN]. destruct (number_bound f Hf) as [HF0 HF].
  destruct (fl_nonneg_le (Number_of_units u + Number_of_units f) ltac:(lra)) as [Hs0 Hs].
  destruct (round6_share (js_add (Number_of_units u) (Number_of_units f)) Hs0) as (k & Hk & Hrk & Hks); [unfold js_add; lra |].
  exists k. split; [done |]. split; [lia |]. rewrite Hrk. by apply share_grid.
Qed.

Lemma fund_money_shape id e now days ref s x s' :
  einv s -> escrows s !! id = Some e -> es_status e = DRAFT ->
  fund_money sha256 id (es_payerId e) e ref (set_escrows (<[id := funded_row now days ref e]> (escrows s)) s) = Ok (x, s') ->
  step_shape sha256 s s'.
Proof.
  intros Hi He Hst Hr. destruct (ei_terms s Hi id e He) as [Ha Hf]. unfold fund_money in Hr.
  destruct (fund_total_share _ _ Ha Hf) as (k & Hk & Hkm & [Hn Hcol Hex Hpos]).
  rewrite Hcol, Hex, (col_amount _ Ha), (exact_amount _ Ha), (col_amount _ Hf), (exact_amount _ Hf), Number_opp in Hr by lia.
  assert (Hneg : num_to_col (Number_of_units (- es_amountUsdc e)) = - es_amountUsdc e).
  { apply num_to_col_units; [unfold SAFE_UNITS, ESCROW_MAX in *; lia | reflexivity]. }
  rewrite Hneg in Hr. apply Mbind_Ok in Hr as (py & s1 & Hpy & Hr). apply reads_Ok in Hpy as [_ ->].
  apply Mbind_Ok in Hr as (x0 & s1 & Hc & Hr). apply check_Ok in Hc as [_ ->].
  apply drain_one in Hr as (u & Hu & _ & Hok & Hr).
  apply Mbind_Ok in Hr as (x2 & s3 & Hup & Hr). apply user_update_Ok in Hup as (u2 & -> & Hu2 & Hok2).
  apply Mbind_Ok in Hr as (s4 & s4' & Hg & Hr). apply get_Ok in Hg as [-> ->].
  apply Mbind_Ok in Hr as (x3 & s4 & Hchk & Hr). apply check_Ok in Hchk as [_ ->].
  apply Mbind_Ok in Hr as (x4 & s4 & Hput & Hr). apply put_Ok in Hput as ->.
  apply Mbind_Ok in Hr as (pr & s5 & Hpost & Hr). pose proof Hpost as Hpost'. apply post_ledger_Ok in Hpost' as (l' & Hl' & _).
  apply (escrow_posted sha256 (fund_key id) "ESCROW_LOCK" _ _ _ _
    [DebitOf (liability_code (es_payerId e)) (100 * k); CreditOf (locked_code id) (es_amountUsdc e); CreditOf "revenue:fees" (es_feeUsdc e)])
    in Hpost as (l2 & -> & Hposted & _); [| repeat constructor; simpl; lia | done].
  assert (Hsum : 100 * k = es_amountUsdc e + es_feeUsdc e).
  { destruct Hposted as (p & r0 & _ & Hw & Hprep & _). unfold ESCROW_MAX, SAFE_UNITS in *.
    destruct (prepared_total p _ _ Hw Hprep) as (_ & Hbal & _); simpl in *; unfold DECIMAL_20_8_LIMIT; lia. }
  rewrite Hsum in *. apply Mbind_Ok in Hr as (x5 & s6 & Hchk & Hr). apply check_Ok in Hchk as [Hnew ->].
  apply Mbind_Ok in Hr as (x6 & s6 & Hh & Hlog). apply history_create_Ok in Hh as ->.
  assert (Hs' : exists pl, s' = EDB (<[es_payerId e := apply_delta (Delta 0 (es_amountUsdc e) 0) u2]>
      (<[es_payerId e := apply_delta (Delta (- (es_amountUsdc e + es_feeUsdc e)) 0 0) u]> (users s)))
    (<[id := funded_row now days ref e]> (escrows s)) (disputes s) (profitFees s + es_feeUsdc e)
    (hist s ++ [HistRow (es_payerId e) TICKET_ESCROW_FUND (- es_amountUsdc e) (es_feeUsdc e) (Some ref) true]) pl l2 (operations s) (globalSettings s)).
  { destruct (js_lt 0 (Number_of_units (es_feeUsdc e))); run_inv Hlog; eexists; reflexivity. }
  destruct Hs' as (pl & ->). eapply (shape_fund _ _ _ id e _ now days ref); [done | done | | done |].
  - split; try done. simpl. eapply (moves_app [_] [_]); apply moves_one; done.
  - apply post_inv in Hl' as (ls & conv & l1 & _ & (Ht & _) & _ & Hout). unfold find_key in *. simpl in Ht.
    destruct Hout as [t Hkk Hh | t es Hkk Hc]; [by simpl in Hnew |]. rewrite <- Ht. exact Hkk.
Qed.

Lemma insert_shape id row s x s' :
  uuid_like id -> 0 <= es_payerId row -> 0 <= es_payeeId row -> es_amountUsdc row <= ESCROW_MAX -> es_feeUsdc row <= ESCROW_MAX ->
  es_status row = DRAFT -> insert_escrow id row s = Ok (x, s') -> step_shape sha256 s s'.
Proof.
  intros Hid Hp Hq Ha Hf Hd Hr. unfold insert_escrow in Hr. run_inv Hr.
  match goal with Hc : column_ok _ && column_ok _ = true |- _ => rename Hc into Hcol end.
  unfold column_ok in Hcol. rewrite !andb_true_iff, !Z.leb_le in Hcol. destruct Hcol as [[? _] [? _]].
  eapply (shape_new _ _ _ id row); try done. by destruct (escrows s !! id).
Qed.

(** A percentage penalty is at most half the principal, up to the 6-decimal
    rounding. *)
Lemma penalty_capped u v a :
  0 <= u <= ESCROW_MAX -> (0 <= v)%Q -> (v <= 1 # 2)%Q -> share_val (penalty_shares (Number_of_units u) (Pct v)).1 a -> 2 * a <= u + 100.
Proof.
  intros Hu Hv0 Hv Ha. destruct (number_bound u Hu) as [HN0 HN].
  assert (Hsafe : Z.abs u <= SAFE_UNITS) by (unfold ESCROW_MAX, SAFE_UNITS in *; lia).
  pose proof (close_Number u Hsafe) as HcN. unfold penalty_shares in Ha. cbn [fst] in Ha.
  pose proof (sv_col _ _ Ha) as Hcol. pose proof (col_amount u Hu) as HcolN.
  set (N := Number_of_units u) in *.
  assert (Hmul : (0 <= N * v)%Q) by (by apply Qmult_le_0_compat).
  assert (Hmul' : (N * v <= N * (1 # 2))%Q) by (rewrite (Qmult_comm N v), (Qmult_comm N); by apply Qmult_le_compat_r).
  destruct (fl_nonneg_le (N * v) Hmul) as [Hf0 Hf]. set (k := toFixedZ 6 (fl (N * v))).
  assert (Hks : Z.abs (100 * k) <= SAFE_UNITS).
  { pose proof (round6_magnitude (fl (N * v)) 500000000000000) as Hb. fold k in Hb. rewrite (Qabs_pos _ Hf0) in Hb.
    change (inject_Z 500000000000000) with 500000000000000%Q in Hb. unfold SAFE_UNITS. specialize (Hb ltac:(lra)). lia. }
  pose proof (close_parse6 k Hks) as Hck.
  assert (Htwice : round6 (round6 (js_mul N v)) = parseDec 6 k).
  { unfold round6, js_mul. fold k. f_equal. eapply toFixed6_close; [exact Hck | reflexivity]. }
  rewrite Htwice in Hcol.
  assert (Hk : 2 * (100 * k) <= u + 100).
  { pose proof (toFixedZ_spec 6 (fl (N * v)) ltac:(lia)) as Hs. fold k in Hs. change (10 ^ 6) with 1000000 in Hs.
    change (inject_Z 1000000) with 1000000%Q in Hs. apply Qabs_Qle_condition in Hs as [Hs1 Hs2].
    pose proof (fl_error' (N * v)) as He. rewrite (Qabs_pos _ Hmul) in He. apply Qabs_Qle_condition in He as [_ He].
    unfold close in HcN. apply Qabs_Qle_condition in HcN as [_ HcN].
    assert (Hq : (inject_Z (2 * (100 * k)) <= inject_Z (u + 100) + (1 # 2))%Q).
    { rewrite inject_Z_plus, !inject_Z_mult. change (inject_Z 2) with 2%Q. change (inject_Z 100) with 100%Q. lra. }
    unfold Qle, Qplus, inject_Z in Hq. simpl in Hq. lia. }
  destruct (js_min_spec (parseDec 6 k) N) as (Hm1 & _ & Hor).
  destruct Hor as [Hmin | Hmin]; rewrite Hmin in Hcol, Hm1.
  - rewrite (col_share k Hks) in Hcol. lia.
  - rewrite HcolN in Hcol. subst a. unfold close in HcN, Hck. apply Qabs_Qle_condition in HcN as [HcN _], Hck as [_ Hck].
    assert (Hq : (inject_Z u <= inject_Z (100 * k) + (1 # 4))%Q) by lra. unfold Qle, Qplus, inject_Z in Hq. simpl in Hq. lia.
Qed.
End Money.
