(* ===== verification/Reservation.v ===== *)
(** * Reservation lifecycle (services/reservationLifecycleService.js)

    The terminal operations on a reservation, each one transaction that settles
    the linked escrow first and claims the reservation second, and the
    convergence of a repeated operation.  State: [bdb] of Booking. *)

From stdpp Require Import base gmap strings list relations.
From Stdlib Require Import ZArith QArith Lia Ascii.
From S2P Require Import Prelude JsNumber ExactDecimal Json Ledger Idempotency Escrow Booking.

Local Open Scope Z_scope.

(** [loadAggregate]: the reservation and its linked escrow.  The transaction
    runs at the default isolation, so what it reads first, [seen], may be older
    than what its claims find. *)
Definition loadAggregate (reservationId : string) (seen : bdb) : M bdb (option (resv_row * option (string * escrow_row))) :=
  mret (
    r ← reservations seen !! reservationId;
    Some (r, id ← rv_escrowId r; e ← escrows (core seen) !! id; Some (id, e))).

Definition claimReservation (reservationId : string) (from : list reservation_status) (where_ : resv_row -> bool)
    (f : resv_row -> resv_row) : M bdb resv_row :=
  count ← resv_updateMany reservationId (fun r => resv_in from r && where_ r) f;
  check (count =? 1)%nat "RESERVATION_STATE_CONFLICT";;
  r ← resv_find reservationId;
  lift (of_option r "TypeError").

Definition expireDraftEscrow (escrow : option (string * escrow_row)) : M bdb unit :=
  match escrow with
  | Some (id, e) =>
      if in_status [DRAFT] e then
        count ← on_core (escrow_updateMany id (in_status [DRAFT]) (with_status EXPIRED));
        check (count =? 1)%nat "ESCROW_STATE_CONFLICT"
      else mret tt
  | None => mret tt
  end.

Definition CONVERGENT_CODES : list string := ["ESCROW_ALREADY_FINALIZED"; "ESCROW_STATE_CONFLICT"; "RESERVATION_STATE_CONFLICT"]%string.

Definition runConvergent (reservationId : string) (target : reservation_status) (work : M bdb resv_row) (s : bdb) : res resv_row * bdb :=
  match transaction work s with
  | (Ok r, s') => (Ok r, s')
  | (Err e, s') =>
      if str_mem e CONVERGENT_CODES then
        match reservations s' !! reservationId with
        | Some r => if bool_decide (rv_status r = target) then (Ok r, s') else (Err e, s')
        | None => (Err e, s')
        end
      else (Err e, s')
  end.

(** ** Data clauses *)

Definition cancelled_resv (now : Z) (r : resv_row) : resv_row :=
  ResvRow (rv_businessProfileId r) (rv_businessUserId r) (rv_customerId r) R_CANCELLED_CUSTOMER (rv_endDatetime r) (rv_confirmedAt r)
    (Some now) (rv_checkedInAt r) (rv_checkedOutAt r) (rv_escrowId r) (rv_ticketId r)
    (rv_noShowPenaltyPct r) (rv_noShowPenaltyUsdc r) (rv_penaltyAmountUsdc r) (rv_penaltyChargedAt r).
Definition checked_in_resv (now : Z) (r : resv_row) : resv_row :=
  ResvRow (rv_businessProfileId r) (rv_businessUserId r) (rv_customerId r) R_CHECKED_IN (rv_endDatetime r) (rv_confirmedAt r)
    (rv_cancelledAt r) (Some now) (rv_checkedOutAt r) (rv_escrowId r) (rv_ticketId r)
    (rv_noShowPenaltyPct r) (rv_noShowPenaltyUsdc r) (rv_penaltyAmountUsdc r) (rv_penaltyChargedAt r).
Definition checked_out_resv (now : Z) (r : resv_row) : resv_row :=
  ResvRow (rv_businessProfileId r) (rv_businessUserId r) (rv_customerId r) R_CHECKED_OUT (rv_endDatetime r) (rv_confirmedAt r)
    (rv_cancelledAt r) (rv_checkedInAt r) (Some now) (rv_escrowId r) (rv_ticketId r)
    (rv_noShowPenaltyPct r) (rv_noShowPenaltyUsdc r) (rv_penaltyAmountUsdc r) (rv_penaltyChargedAt r).

Definition OPEN : list reservation_status := [R_PENDING; R_CONFIRMED].

(** ** [confirmReservation] (the business notes are not modelled) *)

Definition confirmReservation (reservationId businessProfileId : string) (now : Z) : M bdb resv_row :=
  count ← resv_updateMany reservationId
            (fun r => String.eqb (rv_businessProfileId r) businessProfileId && resv_in [R_PENDING] r) (confirmed_resv now);
  r ← resv_find reservationId;
  if (count =? 1)%nat then lift (of_option r "TypeError")
  else
    match r with
    | Some c => if String.eqb (rv_businessProfileId c) businessProfileId then throw "RESERVATION_CONFIRM_CONFLICT" else throw "RESERVATION_NOT_FOUND"
    | None => throw "RESERVATION_NOT_FOUND"
    end.

Section Service.
Context `{DecimalLib} `{PrismaNumber} (sha256 : string -> string).

(** How a terminal operation disposes of the linked escrow: [settle] for live
    funds, expiry of a draft, nothing for an escrow already in [settled]. *)
Definition dispose_escrow (escrow : option (string * escrow_row)) (settle : string -> M bdb unit) (settled : list escrow_status) : M bdb unit :=
  match escrow with
  | None => mret tt
  | Some (id, e) =>
      if in_status LIVE e then settle id
      else if in_status [DRAFT] e then expireDraftEscrow escrow
      else check (in_status settled e) "ESCROW_ECONOMIC_CONFLICT"
  end.

(** Funds in dispute custody are not touched. *)
Definition in_custody (escrow : option (string * escrow_row)) : bool :=
  match escrow with Some (_, e) => in_status IN_DISPUTE e | None => false end.

Definition refund_step (now : Z) (reference id : string) : M bdb unit := on_core (_refundBookingEscrowTx sha256 id now reference);; mret tt.
Definition release_step (now : Z) (reference id : string) : M bdb unit := on_core (_releaseBookingEscrowTx sha256 id now reference);; mret tt.

(** ** [cancelReservation] *)

Definition cancel_work (reservationId : string) (customerId now : Z) (reference : string) (seen : bdb) : M bdb resv_row :=
  agg ← loadAggregate reservationId seen;
  a ← lift (of_option agg "RESERVATION_NOT_FOUND");
  let '(reservation, escrow) := a in
  check (rv_customerId reservation =? customerId) "RESERVATION_NOT_FOUND";;
  if resv_in [R_CANCELLED_CUSTOMER] reservation then mret reservation
  else
    check (resv_in OPEN reservation) "RESERVATION_NOT_CANCELLABLE";;
    check (negb (in_custody escrow)) "ESCROW_IN_DISPUTE";;
    dispose_escrow escrow (refund_step now reference) [REFUNDED; EXPIRED];;
    claimReservation reservationId OPEN (fun _ => true) (cancelled_resv now).

Definition cancelReservation (reservationId : string) (customerId now : Z) (reference : string) (seen : bdb) : bdb -> res resv_row * bdb :=
  runConvergent reservationId R_CANCELLED_CUSTOMER (cancel_work reservationId customerId now reference seen).

(** ** [checkInReservation] *)

Definition check_in_work (reservationId : string) (businessUserId now : Z) (reference : string) (seen : bdb) : M bdb resv_row :=
  agg ← loadAggregate reservationId seen;
  a ← lift (of_option agg "RESERVATION_NOT_FOUND");
  let '(reservation, escrow) := a in
  check (rv_businessUserId reservation =? businessUserId) "RESERVATION_NOT_FOUND";;
  if resv_in [R_CHECKED_IN] reservation then mret reservation
  else
    check (resv_in [R_CONFIRMED] reservation) "RESERVATION_NOT_CHECKIN_READY";;
    check (negb (in_custody escrow)) "ESCROW_IN_DISPUTE";;
    dispose_escrow escrow (release_step now reference) [SETTLED; EXPIRED];;
    claimReservation reservationId [R_CONFIRMED] (fun _ => true) (checked_in_resv now).

Definition checkInReservation (reservationId : string) (businessUserId now : Z) (reference : string) (seen : bdb) : bdb -> res resv_row * bdb :=
  runConvergent reservationId R_CHECKED_IN (check_in_work reservationId businessUserId now reference seen).

(** ** [markNoShowReservation] *)

(** [checkedInAt: null, endDatetime: lt now]. *)
Definition no_show_ready (now : Z) (r : resv_row) : bool :=
  match rv_checkedInAt r with Some _ => false | None => rv_endDatetime r <? now end.

Definition penalty_pct (r : resv_row) : option Q := parseDec 4 <$> rv_noShowPenaltyPct r.
Definition penalty_flat (r : resv_row) : option Q := Number_of_units <$> rv_noShowPenaltyUsdc r.
Definition has_penalty (r : resv_row) : bool := positive (penalty_pct r) || positive (penalty_flat r).

(** [businessUserId = None] is the worker. *)
Definition no_show_work (reservationId : string) (businessUserId : option Z) (now : Z) (reference releaseRef refundRef : string) (seen : bdb) : M bdb resv_row :=
  agg ← loadAggregate reservationId seen;
  a ← lift (of_option agg "RESERVATION_NOT_FOUND");
  let '(reservation, escrow) := a in
  check (match businessUserId with Some u => rv_businessUserId reservation =? u | None => true end) "RESERVATION_NOT_FOUND";;
  if resv_in [R_NO_SHOW] reservation then mret reservation
  else
    check (resv_in [R_CONFIRMED] reservation) "RESERVATION_NOT_NO_SHOW_READY";;
    check (no_show_ready now reservation) "RESERVATION_NOT_NO_SHOW_READY";;
    check (negb (in_custody escrow)) "ESCROW_IN_DISPUTE";;
    let claim := claimReservation reservationId [R_CONFIRMED] (no_show_ready now)
                   (if has_penalty reservation then no_show_resv (Some 0) (Some now) else no_show_resv None None) in
    match escrow with
    | Some (id, e) =>
        if in_status LIVE e && has_penalty reservation then
          _splitReleaseFundedEscrowTx sha256 id (penalty_pct reservation) (penalty_flat reservation) (Some RESERVATION) (Some reservationId)
            now releaseRef refundRef (no_show_ready now);;
          r ← resv_find reservationId;
          lift (of_option r "TypeError")
        else dispose_escrow escrow (refund_step now reference) [REFUNDED; EXPIRED];; claim
    | None => claim
    end.

Definition markNoShowReservation (reservationId : string) (businessUserId : option Z) (now : Z) (reference releaseRef refundRef : string)
    (seen : bdb) : bdb -> res resv_row * bdb :=
  runConvergent reservationId R_NO_SHOW (no_show_work reservationId businessUserId now reference releaseRef refundRef seen).

(** ** [checkOutReservation] *)

Definition check_out_work (reservationId : string) (businessUserId now : Z) (seen : bdb) : M bdb resv_row :=
  agg ← loadAggregate reservationId seen;
  a ← lift (of_option agg "RESERVATION_NOT_FOUND");
  let '(reservation, escrow) := a in
  check (rv_businessUserId reservation =? businessUserId) "RESERVATION_NOT_FOUND";;
  if resv_in [R_CHECKED_OUT] reservation then mret reservation
  else
    check (resv_in [R_CHECKED_IN] reservation) "RESERVATION_NOT_CHECKOUT_READY";;
    claimReservation reservationId [R_CHECKED_IN] (fun _ => true) (checked_out_resv now).

Definition checkOutReservation (reservationId : string) (businessUserId now : Z) (seen : bdb) : bdb -> res resv_row * bdb :=
  runConvergent reservationId R_CHECKED_OUT (check_out_work reservationId businessUserId now seen).
End Service.
