(* ===== verification/BookingProps.v ===== *)
(** * Correctness of booking escrow and the reservation lifecycle

    Smart escrow, booking escrow and the reservation lifecycle as one system of
    interleaved transactions on one database: the books of the platform, single
    settlement across the services, and the agreement between a reservation's
    state and the fate of its deposit. *)

From stdpp Require Import base gmap strings list relations.
From Stdlib Require Import ZArith QArith Qabs Lqa Lia Ascii.
From S2P Require Import Prelude JsNumber ExactDecimal Json Ledger LedgerFacts LedgerHash LedgerProps Idempotency Escrow EscrowFacts EscrowProps EscrowTheorems Booking BookingFacts Reservation.

Local Open Scope Z_scope.

Section Platform.
Context `{DecimalLib} `{PrismaNumber} (sha256 : string -> string) (wire : escrow_row -> string).

(** Reservations are created elsewhere, open and unlinked; the transit table
    also has its own lifecycle, which may change it in any way.  The standalone
    split is called for transit bookings only.  A defaulting business refunds
    the escrow and closes the reservation in one transaction, which is two
    steps here.  Sweeps expire drafts, and other services commit their
    idempotency claims.

    A terminal operation on a reservation decides on the row and the escrow it
    read first ([seen]).  They may be older than its claims; the one thing taken
    for granted is that the reservation is still linked to the escrow it was
    read with ([link_kept]), which the claim does not test. *)
Record link_kept (id : string) (seen s : bdb) : Prop := {
  lk_escrows : earlier (core seen) (core s);
  lk_link : forall r0, reservations seen !! id = Some r0 -> exists r, reservations s !! id = Some r /\ rv_escrowId r = rv_escrowId r0 /\
    forall i, rv_escrowId r0 = Some i -> escrows (core seen) !! i = None -> escrows (core s) !! i = None;
}.

Inductive booking_step : bdb -> bdb -> Prop :=
| bs_escrow c s : escrow_step sha256 wire (core s) c -> booking_step s (set_core c s)
| bs_reserve id r s :
    reservations s !! id = None -> rv_status r = R_PENDING -> rv_escrowId r = None ->
    booking_step s (set_reservations (<[id := r]> (reservations s)) s)
| bs_transit m s : booking_step s (set_transits m s)
| bs_create bt bid payer payee amount newTicket newEscrow now e s s' :
    uuid_like newEscrow -> 0 <= payer -> 0 <= payee ->
    createBookingEscrow bt bid payer payee amount newTicket newEscrow now s = Ok (e, s') ->
    es_amountUsdc e <= ESCROW_MAX -> es_feeUsdc e <= ESCROW_MAX -> booking_step s s'
| bs_fund id payer bt bid now ref s0 r s s' :
    fundBookingEscrow sha256 id payer bt bid now ref s0 s = (Ok r, s') -> booking_step s s'
| bs_release id now ref r s s' : releaseBookingEscrow sha256 id now ref s = (Ok r, s') -> booking_step s s'
| bs_refund id now ref r s s' : refundBookingEscrow sha256 id now ref s = (Ok r, s') -> booking_step s s'
| bs_split id p f bid now r1 r2 r s s' :
    splitReleaseFundedEscrow sha256 id p f (Some TRANSIT) bid now r1 r2 s = (Ok r, s') -> booking_step s s'
| bs_confirm id profile now r s s' : confirmReservation id profile now s = Ok (r, s') -> booking_step s s'
| bs_cancel id customer now ref seen r s s' : link_kept id seen s -> cancelReservation sha256 id customer now ref seen s = (Ok r, s') -> booking_step s s'
| bs_check_in id owner now ref seen r s s' : link_kept id seen s -> checkInReservation sha256 id owner now ref seen s = (Ok r, s') -> booking_step s s'
| bs_no_show id owner now ref r1 r2 seen r s s' : link_kept id seen s -> markNoShowReservation sha256 id owner now ref r1 r2 seen s = (Ok r, s') -> booking_step s s'
| bs_check_out id owner now seen r s s' : checkOutReservation id owner now seen s = (Ok r, s') -> booking_step s s'
| bs_business_refund id now ref r c s : _refundEscrow sha256 id REFUNDED now ref (core s) = Ok (r, c) -> booking_step s (set_core c s)
| bs_expire_draft id n c s : escrow_updateMany id (in_status [DRAFT]) (with_status EXPIRED) (core s) = Ok (n, c) -> booking_step s (set_core c s)
| bs_commit op sc body x c s : commit_op op sc body (core s) = Ok (x, c) -> booking_step s (set_core c s)
| bs_business_close id r i e amount now s :
    reservations s !! id = Some r -> resv_in OPEN r = true -> rv_escrowId r = Some i ->
    escrows (core s) !! i = Some e -> es_status e ∈ DONE ->
    booking_step s (set_reservations (<[id := business_cancelled_resv amount now r]> (reservations s)) s).

(** ** What a step does to the reservations *)

(** The moves of a reservation's status. *)
Definition resv_allowed (a b : reservation_status) : bool :=
  bool_decide (a = b) ||
  match a with
  | R_PENDING => bool_decide (b ∈ [R_CONFIRMED; R_CANCELLED_CUSTOMER; R_CANCELLED_BUSINESS])
  | R_CONFIRMED => bool_decide (b ∈ [R_CHECKED_IN; R_NO_SHOW; R_CANCELLED_CUSTOMER; R_CANCELLED_BUSINESS])
  | R_CHECKED_IN => bool_decide (b = R_CHECKED_OUT)
  | _ => false
  end.

Definition resv_later (r r' : resv_row) : Prop :=
  rv_customerId r' = rv_customerId r /\ rv_businessProfileId r' = rv_businessProfileId r /\
  resv_allowed (rv_status r) (rv_status r') = true /\
  (rv_escrowId r' = rv_escrowId r \/ rv_escrowId r = None /\ rv_status r' = rv_status r /\ resv_in OPEN r = true).

(** The linked escrow exists and has ended. *)
Definition escrow_ended (c : edb) (i : string) : Prop := exists e, escrows c !! i = Some e /\ es_status e ∈ DONE.

(** A step changes the escrow tables as EscrowProps describes and at most one
    reservation, which moves forward; one that leaves the open statuses leaves
    an ended escrow behind. *)
Inductive platform_shape (s s' : bdb) : Prop :=
| ps_same : step_shape sha256 (core s) (core s') -> reservations s' = reservations s -> platform_shape s s'
| ps_new id r :
    core s' = core s -> reservations s !! id = None -> rv_status r = R_PENDING -> rv_escrowId r = None ->
    reservations s' = <[id := r]> (reservations s) -> platform_shape s s'
| ps_move id r r' :
    step_shape sha256 (core s) (core s') -> reservations s !! id = Some r -> resv_later r r' ->
    reservations s' = <[id := r']> (reservations s) ->
    (forall i, rv_escrowId r' = Some i -> rv_escrowId r <> Some i -> is_Some (escrows (core s') !! i)) ->
    (resv_in OPEN r' = false -> resv_in OPEN r = true -> forall i, rv_escrowId r' = Some i -> is_Some (escrows (core s) !! i) ->
       escrow_ended (core s') i) ->
    platform_shape s s'.

Lemma resv_in_spec l r : resv_in l r = true <-> rv_status r ∈ l.
Proof.
  unfold resv_in. rewrite existsb_exists. split.
  - intros (st & Hin & Hst). apply bool_decide_eq_true in Hst as ->. by apply list_elem_of_In.
  - intros Hin. exists (rv_status r). split; [by apply list_elem_of_In | by apply bool_decide_eq_true].
Qed.

Lemma resv_allowed_refl st : resv_allowed st st = true.
Proof. unfold resv_allowed. by rewrite bool_decide_true. Qed.

Lemma confirmed_later now r : resv_in [R_PENDING] r = true -> resv_later r (confirmed_resv now r).
Proof. intros Hr. apply resv_in_spec, list_elem_of_singleton in Hr. unfold resv_later. simpl. rewrite Hr. split_and!; try done. by left. Qed.

Lemma shape_refl c : step_shape sha256 c c.
Proof. by apply shape_none. Qed.

(** ** Creation and funding *)

Lemma resv_update_shape id cond f s n s' :
  (forall r, cond r = true -> resv_later r (f r) /\ resv_in OPEN (f r) = true /\ rv_escrowId (f r) = rv_escrowId r) ->
  resv_updateMany id cond f s = Ok (n, s') -> platform_shape s s'.
Proof.
  intros Hf Hr. apply resv_updateMany_Ok in Hr as [[_ ->] | (_ & r & Hrow & Hc & ->)]; [by apply ps_same; [apply shape_refl |] |].
  destruct (Hf r Hc) as (Hl & Ho & He). eapply (ps_move _ _ id r (f r)); [apply shape_refl | done | done | done | |].
  - intros i Hi Hn. congruence.
  - intros Hn. congruence.
Qed.

Lemma create_shape bt bid payer payee amount nt ne now s e s' :
  uuid_like ne -> 0 <= payer -> 0 <= payee -> createBookingEscrow bt bid payer payee amount nt ne now s = Ok (e, s') ->
  es_amountUsdc e <= ESCROW_MAX -> es_feeUsdc e <= ESCROW_MAX -> platform_shape s s'.
Proof.
  intros Hid Hp Hq Hr Ha Hf. unfold createBookingEscrow in Hr.
  apply Mbind_Ok in Hr as (x1 & s1 & Hc & Hr). apply check_Ok in Hc as [_ ->].
  apply Mbind_Ok in Hr as (x2 & s1 & Hc & Hr). apply check_Ok in Hc as [_ ->].
  apply Mbind_Ok in Hr as (q & s1 & Hm & Hr).
  assert (s1 = s) as -> by (destruct amount as [a | |]; [destruct (js_lt 0 a) |..]; by run_inv Hm).
  apply Mbind_Ok in Hr as (x3 & s1 & Hc & Hr). apply check_Ok in Hc as [_ ->].
  apply Mbind_Ok in Hr as (s0 & s1 & Hg & Hr). apply get_Ok in Hg as [-> ->].
  apply Mbind_Ok in Hr as (x4 & s1 & Hins & Hr). apply on_core_Ok in Hins as (c & Hins & ->).
  apply Mbind_Ok in Hr as (n & s1 & Hlink & Hr). apply Mbind_Ok in Hr as (x5 & s2 & Hc & Hr). apply check_Ok in Hc as [Hn ->].
  apply Mret_Ok in Hr as [-> ->]. pose proof Hins as Hins'.
  apply (insert_shape sha256) in Hins; [| done..].
  destruct bt.
  - apply resv_updateMany_Ok in Hlink as [[-> _] | (_ & r & Hrow & Hcond & ->)]; [done |]. simpl in Hrow.
    apply andb_true_iff in Hcond as [Hnone Hopen]. apply bool_decide_eq_true in Hnone.
    eapply (ps_move _ _ bid r (linked_resv ne nt r)); [done | done | | done | |].
    + unfold resv_later. simpl. split_and!; try done; [apply resv_allowed_refl | right; by split_and!].
    + simpl. intros i [= <-] _. unfold insert_escrow in Hins'. run_inv Hins'. simpl. by rewrite lookup_insert_eq.
    + intros Hno. change (resv_in [R_PENDING; R_CONFIRMED] r = false) in Hno. congruence.
  - apply transit_updateMany_Ok in Hlink as [Hc Hr]. apply ps_same; [by rewrite Hc | by rewrite Hr].
Qed.

(** What the booking claim of a funding changes. *)
Inductive claim_effect (escrowId : string) (s s' : bdb) : Prop :=
| ce_same : core s' = core s -> reservations s' = reservations s -> claim_effect escrowId s s'
| ce_confirm id r now :
    core s' = core s -> reservations s !! id = Some r -> resv_in [R_PENDING] r = true ->
    reservations s' = <[id := confirmed_resv now r]> (reservations s) -> claim_effect escrowId s s'.

Lemma booking_claim_Ok bt bid id now s x s' : booking_claim bt bid id now s = Ok (x, s') -> claim_effect id s s'.
Proof.
  intros Hr. unfold booking_claim in Hr.
  destruct bt as [[] |]; [destruct (truthy bid) as [b |] | destruct (truthy bid) as [b |] |]; try (apply Mret_Ok in Hr as [_ ->]; by apply ce_same).
  - unfold _claimReservationForFundingTx in Hr. apply Mbind_Ok in Hr as (n & s1 & Hu & Hr).
    apply resv_updateMany_Ok in Hu as [[-> ->] | (-> & r & Hrow & Hc & ->)]; simpl in Hr.
    + apply Mbind_Ok in Hr as (cur & s1 & Hf & Hr). apply reads_Ok in Hf as [_ ->]. apply check_Ok in Hr as [_ ->]. by apply ce_same.
    + apply Mret_Ok in Hr as [_ ->]. apply andb_true_iff in Hc as [_ Hp]. by eapply ce_confirm.
  - unfold _claimTransitBookingForFundingTx in Hr. apply Mbind_Ok in Hr as (fd & s1 & Hf & Hr). apply reads_Ok in Hf as [_ ->].
    destruct fd as [[lid linked] |]; [| by apply throw_Ok in Hr].
    apply Mbind_Ok in Hr as (x1 & s1 & Hc & Hr). apply check_Ok in Hc as [_ ->].
    destruct (transit_in [T_PENDING] linked); [| apply check_Ok in Hr as [_ ->]; by apply ce_same].
    apply Mbind_Ok in Hr as (n & s1 & Hu & Hr). apply transit_updateMany_Ok in Hu as [Hcore Hres].
    destruct (n =? 1)%nat; [apply Mret_Ok in Hr as [_ ->]; by apply ce_same |].
    apply Mbind_Ok in Hr as (cur & s2 & Hf & Hr). apply reads_Ok in Hf as [_ ->]. apply check_Ok in Hr as [_ ->]. by apply ce_same.
Qed.

Lemma fund_booking_shape id payer bt bid now ref s0 r s s' :
  einv (core s) -> fundBookingEscrow sha256 id payer bt bid now ref s0 s = (Ok r, s') -> platform_shape s s'.
Proof.
  intros Hi Hr. unfold fundBookingEscrow in Hr. destruct (runDoubleCheck _ _); [| done]. apply transaction_Ok in Hr.
  unfold fund_booking_tx in Hr. apply Mbind_Ok in Hr as (e & s1 & Hc & Hr). apply on_core_Ok in Hc as (c & Hc & ->).
  apply fund_claim_Ok in Hc as (He & <- & Hst & ->).
  apply Mbind_Ok in Hr as (x & s2 & Hb & Hr). apply Mbind_Ok in Hr as (x1 & s3 & Hm & Hr). apply on_core_Ok in Hm as (c2 & Hm & ->).
  apply Mbind_Ok in Hr as (x2 & s4 & Hf & Hr). apply on_core_Ok in Hf as (c3 & Hf & ->). apply escrow_find_Ok in Hf as [_ ->].
  apply lift_Ok in Hr as [_ ->].
  assert (Hcore : core s2 = set_escrows (<[id := funded_row now (default 30 (escrowFundedExpiryDays (globalSettings (core s0)))) ref e]> (escrows (core s))) (core s))
    by (by destruct (booking_claim_Ok _ _ _ _ _ _ _ Hb)).
  rewrite Hcore in Hm. apply fund_money_shape in Hm; [| done..].
  apply booking_claim_Ok in Hb as [_ Hres | bid' row now' _ Hrow Hp Hres]; simpl in *.
  - by apply ps_same.
  - eapply (ps_move _ _ bid' row (confirmed_resv now' row)); [done | done | by apply confirmed_later | done | |].
    + simpl. intros i Hi1 Hi2. congruence.
    + by intros Hno.
Qed.

(** ** The lifecycle operations *)

(** How a terminal operation treats live funds. *)
Definition settles_with (settle : string -> M bdb unit) : Prop := forall id s x s',
  einv (core s) -> settle id s = Ok (x, s') ->
  reservations s' = reservations s /\ exists e e' a b, settlement sha256 id e e' a b (core s) (core s').

Lemma refund_settles now ref : settles_with (refund_step sha256 now ref).
Proof.
  intros id s x s' Hi Hr. unfold refund_step in Hr. apply Mbind_Ok in Hr as (r & s1 & Hm & Hr). apply Mret_Ok in Hr as [_ ->].
  apply on_core_Ok in Hm as (c & Hm & ->). apply booking_refund_effect in Hm as (e & Hs); [| done]. split; [done |]. eauto.
Qed.

Lemma release_settles now ref : settles_with (release_step sha256 now ref).
Proof.
  intros id s x s' Hi Hr. unfold release_step in Hr. apply Mbind_Ok in Hr as (r & s1 & Hm & Hr). apply Mret_Ok in Hr as [_ ->].
  apply on_core_Ok in Hm as (c & Hm & ->). apply booking_release_effect in Hm as (e & Hs); [| done]. split; [done |]. eauto.
Qed.

Lemma draft_expired_shape id e c :
  escrows c !! id = Some e -> in_status [DRAFT] e = true ->
  step_shape sha256 c (set_escrows (<[id := with_status EXPIRED e]> (escrows c)) c).
Proof.
  intros He Hd. apply in_status_spec, list_elem_of_singleton in Hd as Hst.
  eapply (shape_quiet _ _ _ id e (with_status EXPIRED e) (disputes c)); try done.
  - apply later_cancelled. by rewrite bool_decide_true.
  - unfold in_status. by rewrite Hst.
  - unfold in_status. by rewrite Hst.
Qed.

(** The linked escrow of a reservation, as [loadAggregate] finds it. *)
Definition linked_escrow (r : resv_row) (c : edb) : option (string * escrow_row) :=
  id ← rv_escrowId r; e ← escrows c !! id; Some (id, e).

Lemma link_kept_refl id s : link_kept id s s.
Proof. split; [apply earlier_refl |]. intros r Hr. exists r. by split_and!. Qed.

(** The escrow read before is the one that is disposed of, unless another
    operation has ended it since. *)
Lemma dispose_Ok seen r settle l s x s' :
  einv (core s) -> settles_with settle -> in_custody (linked_escrow r (core seen)) = false ->
  (forall st, st ∈ l -> st ∈ DONE) -> earlier (core seen) (core s) ->
  (forall i, rv_escrowId r = Some i -> escrows (core seen) !! i = None -> escrows (core s) !! i = None) ->
  dispose_escrow (linked_escrow r (core seen)) settle l s = Ok (x, s') ->
  step_shape sha256 (core s) (core s') /\ reservations s' = reservations s /\
  (forall i, rv_escrowId r = Some i -> is_Some (escrows (core s) !! i) -> escrow_ended (core s') i).
Proof.
  intros Hi Hset Hcust Hl Hear Hmiss Hr. unfold linked_escrow in *. destruct (rv_escrowId r) as [id |]; cbn [mbind option_bind dispose_escrow] in *.
  2: { apply Mret_Ok in Hr as [_ ->]. split; [apply shape_refl |]. by split. }
  destruct (escrows (core seen) !! id) as [e |] eqn:He; cbn [mbind option_bind dispose_escrow] in *.
  2: { apply Mret_Ok in Hr as [_ ->]. split; [apply shape_refl |]. split; [done |]. intros i [= <-] [y Hy]. rewrite (Hmiss id) in Hy; done. }
  destruct (in_status LIVE e) eqn:Hlive.
  - apply Hset in Hr as (Hres & e1 & e' & a & b & Hs); [| done]. split; [by eapply settlement_shape |]. split; [done |].
    intros i [= <-] _. exists e'. split; [by eapply settlement_ended | apply Hs].
  - destruct (in_status [DRAFT] e) eqn:Hd.
    + unfold expireDraftEscrow in Hr. rewrite Hd in Hr. apply Mbind_Ok in Hr as (n & s1 & Hu & Hr). apply check_Ok in Hr as [Hn ->].
      apply on_core_Ok in Hu as (c & Hu & ->). apply escrow_updateMany_Ok in Hu as [(-> & _) | (_ & e0 & He0 & Hd0 & ->)]; [done |].
      split; [by apply draft_expired_shape |]. split; [done |].
      intros i [= <-] _. exists (with_status EXPIRED e0). split; [apply lookup_insert_eq | by apply (in_status_spec DONE (with_status EXPIRED e0))].
    + apply check_Ok in Hr as [Hin ->]. split; [apply shape_refl |]. split; [done |].
      intros i [= <-] _. destruct (Hear id e He) as (e' & He' & Hlat). exists e'. split; [done |]. rewrite (laters_done e e' Hlat); by apply Hl, in_status_spec.
Qed.

Lemma claimReservation_Ok id from w f s x s' :
  claimReservation id from w f s = Ok (x, s') ->
  exists r, reservations s !! id = Some r /\ resv_in from r = true /\ w r = true /\
    s' = set_reservations (<[id := f r]> (reservations s)) s.
Proof.
  intros Hr. unfold claimReservation in Hr. apply Mbind_Ok in Hr as (n & s1 & Hu & Hr).
  apply Mbind_Ok in Hr as (y & s2 & Hc & Hr). apply check_Ok in Hc as [Hn ->].
  apply Mbind_Ok in Hr as (y2 & s2 & Hf & Hr). apply reads_Ok in Hf as [_ ->]. apply lift_Ok in Hr as [_ ->].
  apply resv_updateMany_Ok in Hu as [[-> _] | (_ & r & Hrow & Hc & ->)]; [done |]. apply andb_true_iff in Hc as [? ?]. eauto 6.
Qed.

Lemma convergent_Ok id target work s r s' :
  runConvergent id target work s = (Ok r, s') -> s' = s \/ work s = Ok (r, s').
Proof.
  intros Hr. unfold runConvergent in Hr. destruct (transaction work s) as [[x | e] s1] eqn:Ht.
  - injection Hr as -> ->. right. by apply transaction_Ok.
  - assert (s1 = s) as -> by (unfold transaction in Ht; destruct (work s) as [[] |]; by simplify_eq).
    left. repeat case_match; by simplify_eq.
Qed.

(** The start of every lifecycle operation. *)
Lemma aggregate_then {A} id seen (k : resv_row * option (string * escrow_row) -> M bdb A) s x s' :
  (agg ← loadAggregate id seen; a ← lift (of_option agg "RESERVATION_NOT_FOUND"); k a) s = Ok (x, s') ->
  exists r, reservations seen !! id = Some r /\ k (r, linked_escrow r (core seen)) s = Ok (x, s').
Proof.
  intros Hr. apply Mbind_Ok in Hr as (agg & s1 & Hl & Hr). apply Mret_Ok in Hl as [-> ->].
  apply Mbind_Ok in Hr as (a & s1 & Ha & Hr). apply lift_Ok in Ha as [Ha ->]. apply of_option_Ok in Ha.
  destruct (reservations seen !! id) as [r |] eqn:He; [| done]. injection Ha as <-. eauto.
Qed.

(** The end of every terminal operation: the escrow is disposed of and the
    reservation claimed. *)
Lemma dispose_claim_shape id seen r0 settle l from w f s y s1 x s' :
  einv (core s) -> settles_with settle -> in_custody (linked_escrow r0 (core seen)) = false -> (forall st, st ∈ l -> st ∈ DONE) ->
  link_kept id seen s -> reservations seen !! id = Some r0 ->
  (forall r, resv_in from r = true -> resv_later r (f r) /\ rv_escrowId (f r) = rv_escrowId r) ->
  dispose_escrow (linked_escrow r0 (core seen)) settle l s = Ok (y, s1) -> claimReservation id from w f s1 = Ok (x, s') ->
  platform_shape s s'.
Proof.
  intros Hi Hset Hcust Hl [Hear Hlink] Hr0 Hf Hd Hc. destruct (Hlink r0 Hr0) as (r & Hrow & Hsame & Hmiss).
  apply dispose_Ok in Hd as (Hsh & Hres & Hend); [| done..].
  apply claimReservation_Ok in Hc as (r1 & Hr1 & Hin & _ & ->). rewrite Hres, Hrow in Hr1. injection Hr1 as <-. destruct (Hf r Hin) as [Hlat Hesc].
  eapply (ps_move _ _ id r (f r)); simpl; [done | done | done | by rewrite Hres | |].
  - intros i Hi1 Hi2. congruence.
  - intros _ _ i Hi1. rewrite Hesc, Hsame in Hi1. by apply Hend.
Qed.

Lemma ended_list l : (forall st, st ∈ l -> st ∈ DONE) <-> Forall (fun st => st ∈ DONE) l.
Proof. by rewrite Forall_forall. Qed.

Ltac resv_later_tac Hin := apply resv_in_spec in Hin; unfold resv_later; simpl; split_and!; try done; try (by left);
  unfold OPEN in Hin; set_unfold in Hin; repeat match goal with H : _ \/ _ |- _ => destruct H as [H | H] end; try done; by rewrite Hin.

Lemma cancelled_later now r : resv_in OPEN r = true -> resv_later r (cancelled_resv now r).
Proof. intros Hin. resv_later_tac Hin. Qed.
Lemma business_later a now r : resv_in OPEN r = true -> resv_later r (business_cancelled_resv a now r).
Proof. intros Hin. resv_later_tac Hin. Qed.
Lemma checked_in_later now r : resv_in [R_CONFIRMED] r = true -> resv_later r (checked_in_resv now r).
Proof. intros Hin. resv_later_tac Hin. Qed.
Lemma checked_out_later now r : resv_in [R_CHECKED_IN] r = true -> resv_later r (checked_out_resv now r).
Proof. intros Hin. resv_later_tac Hin. Qed.
Lemma no_show_later a b r : resv_in [R_CONFIRMED] r = true -> resv_later r (no_show_resv a b r).
Proof. intros Hin. resv_later_tac Hin. Qed.

Lemma cancel_shape id customer now ref seen s x s' :
  einv (core s) -> link_kept id seen s -> cancel_work sha256 id customer now ref seen s = Ok (x, s') -> platform_shape s s'.
Proof.
  intros Hi Hk Hr. apply aggregate_then in Hr as (r & Hrow & Hr). apply Mbind_Ok in Hr as (x1 & s1 & Hc & Hr). apply check_Ok in Hc as [_ ->].
  destruct (resv_in [R_CANCELLED_CUSTOMER] r); [apply Mret_Ok in Hr as [_ ->]; by apply ps_same; [apply shape_refl |] |].
  apply Mbind_Ok in Hr as (x2 & s1 & Hc & Hr). apply check_Ok in Hc as [Hopen ->].
  apply Mbind_Ok in Hr as (x3 & s1 & Hc & Hr). apply check_Ok in Hc as [Hcust ->]. apply negb_true_iff in Hcust.
  apply Mbind_Ok in Hr as (y & s1 & Hd & Hr).
  eapply dispose_claim_shape; [done | apply refund_settles | done | | done | done | intros r1 H1'; split; [by apply cancelled_later | done] | exact Hd | exact Hr].
  apply ended_list. unfold DONE. repeat constructor; set_solver.
Qed.

Lemma check_in_shape id owner now ref seen s x s' :
  einv (core s) -> link_kept id seen s -> check_in_work sha256 id owner now ref seen s = Ok (x, s') -> platform_shape s s'.
Proof.
  intros Hi Hk Hr. apply aggregate_then in Hr as (r & Hrow & Hr). apply Mbind_Ok in Hr as (x1 & s1 & Hc & Hr). apply check_Ok in Hc as [_ ->].
  destruct (resv_in [R_CHECKED_IN] r); [apply Mret_Ok in Hr as [_ ->]; by apply ps_same; [apply shape_refl |] |].
  apply Mbind_Ok in Hr as (x2 & s1 & Hc & Hr). apply check_Ok in Hc as [Hopen ->].
  apply Mbind_Ok in Hr as (x3 & s1 & Hc & Hr). apply check_Ok in Hc as [Hcust ->]. apply negb_true_iff in Hcust.
  apply Mbind_Ok in Hr as (y & s1 & Hd & Hr).
  eapply dispose_claim_shape; [done | apply release_settles | done | | done | done | intros r1 H1'; split; [by apply checked_in_later | done] | exact Hd | exact Hr].
  apply ended_list. unfold DONE. repeat constructor; set_solver.
Qed.

Lemma check_out_shape id owner now seen s x s' : check_out_work id owner now seen s = Ok (x, s') -> platform_shape s s'.
Proof.
  intros Hr. apply aggregate_then in Hr as (r & Hrow & Hr). apply Mbind_Ok in Hr as (x1 & s1 & Hc & Hr). apply check_Ok in Hc as [_ ->].
  destruct (resv_in [R_CHECKED_OUT] r); [apply Mret_Ok in Hr as [_ ->]; by apply ps_same; [apply shape_refl |] |].
  apply Mbind_Ok in Hr as (x2 & s1 & Hc & Hr). apply check_Ok in Hc as [_ ->].
  apply claimReservation_Ok in Hr as (r1 & Hr1 & Hin & _ & ->).
  eapply (ps_move _ _ id r1 (checked_out_resv now r1)); [apply shape_refl | done | by apply checked_out_later | done | |].
  - simpl. intros i Hi1 Hi2. congruence.
  - intros _ Hopen. apply resv_in_spec in Hin, Hopen. apply list_elem_of_singleton in Hin. rewrite Hin in Hopen. unfold OPEN in Hopen.
    rewrite !elem_of_cons in Hopen. by destruct Hopen as [? | [? | ?%not_elem_of_nil]].
Qed.

Lemma config_pct p f c : penaltyConfig p f = Ok c -> positive f = false -> exists v, c = Pct v.
Proof.
  unfold penaltyConfig, positive. intros Hc Hf. destruct f as [f |], p as [p |]; rewrite ?Hf in Hc; repeat case_match; simplify_eq; eauto.
Qed.

(** The no-show split: a settlement of the principal into the two shares, and
    at most the named reservation moved to NO_SHOW with the penalty paid. *)
Lemma splitTx_Ok id p f bt bid now r1 r2 w s x s' :
  einv (core s) -> _splitReleaseFundedEscrowTx sha256 id p f bt bid now r1 r2 w s = Ok (x, s') ->
  exists e a b, settlement sha256 id e (split_row now r1 r2 e) b a (core s) (core s') /\
    (positive f = false -> 2 * a <= es_amountUsdc e + 100) /\
    match bt, truthy bid with
    | Some RESERVATION, Some rid => exists r, reservations s !! rid = Some r /\ w r = true /\ resv_in [R_CONFIRMED] r = true /\
        reservations s' = <[rid := no_show_resv (Some a) (Some now) r]> (reservations s)
    | _, _ => reservations s' = reservations s
    end.
Proof.
  intros Hi Hr. unfold _splitReleaseFundedEscrowTx in Hr.
  apply Mbind_Ok in Hr as (c & s1 & Hc & Hr). apply lift_Ok in Hc as [Hc ->].
  apply Mbind_Ok in Hr as (o & s1 & Hf & Hr). apply on_core_Ok in Hf as (c1 & Hf & ->). apply escrow_find_Ok in Hf as [-> ->].
  apply Mbind_Ok in Hr as (e & s1 & He & Hr). apply lift_Ok in He as [He ->]. apply of_option_Ok in He. simpl in He.
  destruct (ei_terms _ Hi id e He) as [Ha _].
  destruct (penalty_shares_val _ _ _ _ Ha Hc) as (a & b & Hpa & Hpb).
  assert (Hcap : positive f = false -> 2 * a <= es_amountUsdc e + 100).
  { intros Hpf. pose proof (config_positive _ _ _ Hc) as [Hv0 Hv]. destruct (config_pct _ _ _ Hc Hpf) as (v & ->).
    by apply (penalty_capped _ v). }
  destruct (penalty_shares (Number_of_units (es_amountUsdc e)) c) as [pen ref]. cbn [fst snd] in *.
  apply Mbind_Ok in Hr as (y & s1 & Hm & Hr). apply on_core_Ok in Hm as (c2 & Hm & ->).
  apply (split_money_settles sha256 _ _ _ _ a b) in Hm; [| done..].
  apply Mbind_Ok in Hr as (z & s2 & Hb & Hr).
  apply Mbind_Ok in Hr as (u & s3 & Hf & Hr). apply on_core_Ok in Hf as (c3 & Hf & ->). apply escrow_find_Ok in Hf as [_ ->].
  apply Mbind_Ok in Hr as (row & s3 & Hl & Hr). apply lift_Ok in Hl as [_ ->]. apply Mret_Ok in Hr as [_ ->].
  rewrite (sv_col _ _ Hpa) in Hb. exists e, a, b.
  destruct bt as [[] |]; [destruct (truthy bid) as [rid |] | destruct (truthy bid) as [rid |] |];
    try (apply Mret_Ok in Hb as [_ ->]; by split_and!).
  - apply Mbind_Ok in Hb as (n & s3 & Hu & Hb). apply check_Ok in Hb as [Hn ->].
    apply resv_updateMany_Ok in Hu as [[-> _] | (_ & r & Hrow & Hcond & ->)]; [done |].
    apply andb_true_iff in Hcond as [Hw Hin]. split; [done |]. split; [done |]. by exists r.
  - apply Mbind_Ok in Hb as (n & s3 & Hu & Hb). apply check_Ok in Hb as [Hn ->].
    apply transit_updateMany_Ok in Hu as [Hcore Hres]. simpl in *. rewrite Hcore. by split_and!.
Qed.

Lemma no_show_shape id owner now ref r1 r2 seen s x s' :
  einv (core s) -> link_kept id seen s -> no_show_work sha256 id owner now ref r1 r2 seen s = Ok (x, s') -> platform_shape s s'.
Proof.
  intros Hi Hk Hr. apply aggregate_then in Hr as (r & Hrow & Hr). apply Mbind_Ok in Hr as (x1 & s1 & Hc & Hr). apply check_Ok in Hc as [_ ->].
  destruct (resv_in [R_NO_SHOW] r); [apply Mret_Ok in Hr as [_ ->]; by apply ps_same; [apply shape_refl |] |].
  apply Mbind_Ok in Hr as (x2 & s1 & Hc & Hr). apply check_Ok in Hc as [_ ->].
  apply Mbind_Ok in Hr as (x3 & s1 & Hc & Hr). apply check_Ok in Hc as [_ ->].
  apply Mbind_Ok in Hr as (x4 & s1 & Hc & Hr). apply check_Ok in Hc as [Hcust ->]. apply negb_true_iff in Hcust.
  set (f := if has_penalty r then no_show_resv (Some 0) (Some now) else no_show_resv None None) in *.
  assert (Hf : forall q, resv_in [R_CONFIRMED] q = true -> resv_later q (f q) /\ rv_escrowId (f q) = rv_escrowId q).
  { intros q Hq. unfold f. destruct (has_penalty r); split; try done; by apply no_show_later. }
  assert (Hdisp : forall y s1, dispose_escrow (linked_escrow r (core seen)) (refund_step sha256 now ref) [REFUNDED; EXPIRED] s = Ok (y, s1) ->
    claimReservation id [R_CONFIRMED] (no_show_ready now) f s1 = Ok (x, s') -> platform_shape s s').
  { intros y s1 Hd Hcl. eapply dispose_claim_shape; [done | apply refund_settles | done | | done | done | done | exact Hd | exact Hcl].
    apply ended_list. unfold DONE. repeat constructor; set_solver. }
  destruct (linked_escrow r (core seen)) as [[eid e] |] eqn:Hlink.
  2: { eapply (Hdisp tt s); [done | exact Hr]. }
  destruct (in_status LIVE e && has_penalty r).
  2: { apply Mbind_Ok in Hr as (y & s1 & Hd & Hr). by eapply Hdisp. }
  apply Mbind_Ok in Hr as (y & s1 & Hsp & Hr). apply Mbind_Ok in Hr as (o & s2 & Hfd & Hr). apply reads_Ok in Hfd as [_ ->].
  apply lift_Ok in Hr as [_ ->]. apply splitTx_Ok in Hsp as (e1 & a & b & Hs & _ & Hres); [| done].
  unfold truthy in Hres. destruct id as [| ch id']; [by apply ps_same; [eapply settlement_shape |] |].
  destruct Hres as (q & Hq & _ & Hin & Hres). destruct (lk_link _ _ _ Hk r Hrow) as (q' & Hq' & Hsame & _). assert (q' = q) as -> by congruence.
  eapply (ps_move _ _ _ q (no_show_resv (Some a) (Some now) q)); [by eapply settlement_shape | done | by apply no_show_later | done | |].
  - simpl. intros i Hi1 Hi2. congruence.
  - simpl. intros _ _ i Hi1 _. unfold linked_escrow in Hlink. rewrite Hsame in Hi1. rewrite Hi1 in Hlink. simpl in Hlink.
    destruct (escrows (core seen) !! i); simpl in Hlink; [| done]. injection Hlink as <- _.
    eexists. split; [by eapply settlement_ended | apply Hs].
Qed.

Lemma platform_shaped s s' : einv (core s) -> booking_step s s' -> platform_shape s s'.
Proof.
  intros Hi Hs. destruct Hs as
    [c s Hr | id r s Hn Hp He | m s | bt bid payer payee amount nt ne now e s s' Hid Hp Hq Hr Ha Hf | id payer bt bid now ref s0 r s s' Hr
    | id now ref r s s' Hr | id now ref r s s' Hr | id p f bid now r1 r2 r s s' Hr | id profile now r s s' Hr | id customer now ref seen r s s' Hk Hr
    | id owner now ref seen r s s' Hk Hr | id owner now ref r1 r2 seen r s s' Hk Hr | id owner now seen r s s' Hr
    | id now ref r c s Hr | id n c s Hr | op sc body x c s Hr | id r i e amount now s Hrow Ho Hl He Hd].
  - apply ps_same; [by eapply step_shaped | done].
  - by eapply (ps_new _ _ id r).
  - apply ps_same; [apply shape_refl | done].
  - exact (create_shape _ _ _ _ _ _ _ _ _ _ _ Hid Hp Hq Hr Ha Hf).
  - by eapply fund_booking_shape.
  - apply transaction_Ok, on_core_Ok in Hr as (c & Hr & ->). apply booking_release_effect in Hr as (e & Hs); [| done].
    apply ps_same; [by eapply settlement_shape | done].
  - apply transaction_Ok, on_core_Ok in Hr as (c & Hr & ->). apply booking_refund_effect in Hr as (e & Hs); [| done].
    apply ps_same; [by eapply settlement_shape | done].
  - apply transaction_Ok, splitTx_Ok in Hr as (e & a & b & Hs & _ & Hres); [| done]. apply ps_same; [by eapply settlement_shape | by destruct (truthy bid)].
  - unfold confirmReservation in Hr. apply Mbind_Ok in Hr as (n & s1 & Hu & Hr). apply Mbind_Ok in Hr as (o & s2 & Hf & Hr).
    apply reads_Ok in Hf as [-> ->].
    assert (s' = s1) as -> by (destruct (n =? 1)%nat; [by apply lift_Ok in Hr as [_ ->] | repeat case_match; by apply throw_Ok in Hr]).
    eapply resv_update_shape; [| exact Hu]. intros r0 Hc. apply andb_true_iff in Hc as [_ Hc].
    split; [by apply confirmed_later |]. by split.
  - apply convergent_Ok in Hr as [-> | Hr]; [apply ps_same; [apply shape_refl | done] | by eapply cancel_shape].
  - apply convergent_Ok in Hr as [-> | Hr]; [apply ps_same; [apply shape_refl | done] | by eapply check_in_shape].
  - apply convergent_Ok in Hr as [-> | Hr]; [apply ps_same; [apply shape_refl | done] | by eapply no_show_shape].
  - apply convergent_Ok in Hr as [-> | Hr]; [apply ps_same; [apply shape_refl | done] | by eapply check_out_shape].
  - apply ps_same; [| done]. eapply (refund_whole sha256); [done | by left | exact Hr].
  - apply ps_same; [| done]. apply escrow_updateMany_Ok in Hr as [(_ & -> & _) | (_ & e & He & Hc & ->)]; [apply shape_refl | by apply draft_expired_shape].
  - apply ps_same; [| done]. unfold commit_op in Hr. apply Mbind_Ok in Hr as (y & s1 & Hg & Hr). apply get_Ok in Hg as [-> ->].
    apply Mbind_Ok in Hr as (z & s2 & Hl & Hr). apply lift_Ok in Hl as [_ ->]. apply put_Ok in Hr as ->. by eapply shape_ops.
  - eapply (ps_move _ _ id r (business_cancelled_resv amount now r)); [apply shape_refl | done | by apply business_later | done | |].
    + intros j Hj Hn. by simpl in Hj.
    + intros _ _ j Hj _. simpl in Hj. assert (j = i) as -> by congruence. by exists e.
Qed.

(** ** The invariant of the platform *)

Lemma shape_earlier c c' : step_shape sha256 c c' -> earlier c c'.
Proof.
  intros Hs. apply row_earlier. destruct Hs as [id e Hn _ _ _ _ _ Hd -> | id e e' ds He Hl _ _ _ -> | ops -> | id e e' now days ref Hst -> Hef _ _
    | id e Hst _ Hef _ | id e e' ds hs key ls a b _ _ Hl _ _ Hef _].
  - by eapply rc_new.
  - by eapply rc_one.
  - by apply rc_same.
  - eapply rc_one; [apply Hef | | apply Hef]. apply (later_fund _ _ _ (es_payerId e)). by rewrite bool_decide_true, Z.eqb_refl.
  - eapply rc_one; [apply Hef | | apply Hef]. by apply later_disputed, in_status_spec.
  - eapply rc_one; [apply Hef | done | apply Hef].
Qed.

Lemma ended_earlier c c' i : earlier c c' -> escrow_ended c i -> escrow_ended c' i.
Proof.
  intros He (e & Hrow & Hd). destruct (He i e Hrow) as (e' & Hrow' & Hl). exists e'. split; [done |].
  by rewrite (laters_done e e' Hl Hd).
Qed.

Record pinv (s : bdb) : Prop := {
  pi_core : einv (core s);
  pi_final : final_unique (core s);
  pi_linked : forall id r i, reservations s !! id = Some r -> rv_escrowId r = Some i -> is_Some (escrows (core s) !! i);
  pi_closed : forall id r i, reservations s !! id = Some r -> resv_in OPEN r = false -> rv_escrowId r = Some i -> escrow_ended (core s) i;
}.

Lemma platform_core s s' : platform_shape s s' -> step_shape sha256 (core s) (core s').
Proof. intros []; [done | | done]. by apply shape_none. Qed.

Lemma some_earlier c c' i : earlier c c' -> is_Some (escrows c !! i) -> is_Some (escrows c' !! i).
Proof. intros He [e Hrow]. destruct (He i e Hrow) as (e' & Hrow' & _). eauto. Qed.

Lemma closed_stays r r' : resv_later r r' -> resv_in OPEN r = false -> resv_in OPEN r' = false.
Proof.
  intros (_ & _ & Hal & _). unfold resv_in, resv_allowed, OPEN in *. simpl. destruct (rv_status r), (rv_status r'); simpl in *; done.
Qed.

Lemma platform_pinv s s' : pinv s -> platform_shape s s' -> pinv s'.
Proof.
  intros [Hc Hf Hl Hcl] Hs. pose proof (platform_core s s' Hs) as Hsh. pose proof (shape_earlier _ _ Hsh) as Hear.
  split; [by eapply shape_einv | by eapply shape_final_unique | |].
  - intros id r i Hrow Hi. destruct Hs as [_ Hres | id0 r0 Hco Hn Hst He Hres | id0 r0 r1 _ Hr0 Hlat Hres Hnew _]; rewrite Hres in Hrow.
    + eapply some_earlier; eauto.
    + rewrite Hco. destruct (decide (id0 = id)) as [<- | ?]; [rewrite lookup_insert_eq in Hrow; congruence |].
      rewrite lookup_insert_ne in Hrow by done. eauto.
    + destruct (decide (id0 = id)) as [<- | ?]; [| rewrite lookup_insert_ne in Hrow by done; eapply some_earlier; eauto].
      rewrite lookup_insert_eq in Hrow. injection Hrow as <-. destruct (decide (rv_escrowId r0 = Some i)) as [Hsame | Hne]; [| by apply Hnew].
      eapply some_earlier; eauto.
  - intros id r i Hrow Hno Hi. destruct Hs as [_ Hres | id0 r0 Hco Hn Hst He Hres | id0 r0 r1 _ Hr0 Hlat Hres Hnew Hend]; rewrite Hres in Hrow.
    + eapply ended_earlier; eauto.
    + rewrite Hco. destruct (decide (id0 = id)) as [<- | ?]; [rewrite lookup_insert_eq in Hrow; congruence |].
      rewrite lookup_insert_ne in Hrow by done. eauto.
    + destruct (decide (id0 = id)) as [<- | ?]; [| rewrite lookup_insert_ne in Hrow by done; eapply ended_earlier; eauto].
      rewrite lookup_insert_eq in Hrow. injection Hrow as <-. destruct (resv_in OPEN r0) eqn:Hop.
      * apply Hend; [done | done | done |]. destruct Hlat as (_ & _ & _ & [Hsame | (_ & Hstat & _)]); [rewrite Hsame in Hi; eauto |].
        unfold resv_in in Hno, Hop. rewrite Hstat in Hno. congruence.
      * destruct Hlat as (_ & _ & _ & [Hsame | (_ & _ & Ho)]); [| congruence]. rewrite Hsame in Hi. eapply ended_earlier; eauto.
Qed.
End Platform.
