(* ===== verification/BookingTheorems.v ===== *)
(** * Theorems on bookings

    The properties of every interleaving of smart escrow, booking escrow and the
    reservation lifecycle, and the outcomes of the lifecycle operations. *)

From stdpp Require Import base gmap strings list relations.
From Stdlib Require Import ZArith QArith Lia Ascii.
From S2P Require Import Prelude JsNumber ExactDecimal Json Ledger LedgerFacts LedgerHash LedgerProps Idempotency Escrow EscrowFacts EscrowProps EscrowTheorems Booking BookingFacts Reservation BookingProps.

Local Open Scope Z_scope.

Definition TERMINAL : list reservation_status :=
  [R_CHECKED_OUT; R_COMPLETED; R_CANCELLED_CUSTOMER; R_CANCELLED_BUSINESS; R_NO_SHOW].

Lemma resv_laters r r' : rtc resv_later r r' ->
  rv_customerId r' = rv_customerId r /\ (forall i, rv_escrowId r = Some i -> rv_escrowId r' = Some i) /\
  (rv_status r ∈ TERMINAL -> rv_status r' = rv_status r) /\
  (rv_status r = R_CHECKED_IN -> rv_status r' = R_CHECKED_IN \/ rv_status r' = R_CHECKED_OUT).
Proof.
  assert (Hout : forall a b, rtc resv_later a b -> rv_status a ∈ TERMINAL -> rv_status b = rv_status a).
  { induction 1 as [| a b c (_ & _ & Hal & _) _ IH]; intros Ht; [done |].
    assert (Hab : rv_status b = rv_status a).
    { apply (resv_in_spec TERMINAL) in Ht. unfold resv_in, resv_allowed, TERMINAL in *. simpl in *.
      destruct (rv_status a), (rv_status b); simpl in *; done. }
    rewrite IH; [done | by rewrite Hab]. }
  intros Hr. split; [by induction Hr as [| a b c (? & _) _ IH]; [| congruence] |]. split; [| split; [by apply Hout |]].
  - induction Hr as [| a b c (_ & _ & _ & Hl) _ IH]; [done |]. intros i Hi. apply IH. destruct Hl as [-> | (Hn & _)]; [done | congruence].
  - induction Hr as [| a b c (_ & _ & Hal & _) Hr IH]; intros Hin; [by left |].
    unfold resv_allowed in Hal. rewrite Hin in Hal. apply orb_true_iff in Hal as [Hal | Hal]; apply bool_decide_eq_true in Hal; [auto |].
    right. rewrite <- Hal. apply Hout; [done |]. rewrite Hal. by apply (resv_in_spec TERMINAL (ResvRow "" 0 0 R_CHECKED_OUT 0 None None None None None None None None None None)).
Qed.

Section Theorems.
Context `{DecimalLib} `{PrismaNumber} (sha256 : string -> string) (wire : escrow_row -> string).
Let reaches := rtc (booking_step sha256 wire).

Lemma reaches_pinv s0 s : pinv s0 -> reaches s0 s -> pinv s /\ same_books (core s0) (core s).
Proof.
  intros Hi Hr. revert Hi. induction Hr as [s | s1 s2 s3 Hs _ IH]; intros Hi; [split; [done | apply same_books_refl] |].
  apply platform_shaped in Hs; [| apply Hi]. destruct (IH (platform_pinv _ _ _ Hi Hs)) as [Hi3 Hb]. split; [done |].
  eapply same_books_trans; [| exact Hb]. eapply shape_books; [apply Hi | by apply platform_core].
Qed.

(** C5: the books of the whole platform hold under every interleaving of smart
    escrow, booking escrow and reservation operations: value is conserved,
    locked and disputed balances move with the principals of live and disputed
    escrows, the ledger's accounts move with the operational balances, and the
    history explains the available balances. *)
Theorem platform_books_kept s0 s : pinv s0 -> reaches s0 s ->
  total_value (core s) = total_value (core s0) /\
  (forall u, locked u (core s) - locked u (core s0) = held LIVE u (core s) - held LIVE u (core s0)) /\
  (forall u, in_dispute u (core s) - in_dispute u (core s0) = held IN_DISPUTE u (core s) - held IN_DISPUTE u (core s0)) /\
  (forall u, avail u (core s) - avail u (core s0) = hist_sum u (core s) - hist_sum u (core s0)) /\
  (forall u, 0 <= u -> avail u (core s) - avail u (core s0) = net (liability_code u) (ledger (core s0)) - net (liability_code u) (ledger (core s))) /\
  (forall i, live_principal i (core s) - live_principal i (core s0) = net (locked_code i) (ledger (core s0)) - net (locked_code i) (ledger (core s))).
Proof.
  intros Hi Hr. apply reaches_pinv in Hr as [_ [H1 H2 H3 H4 H5 H6 H7 H8]]; [| done]. split; [done |]. split_and!; intros x.
  - specialize (H2 x). lia.
  - specialize (H3 x). lia.
  - specialize (H4 x). lia.
  - intros Hx. specialize (H5 x Hx). lia.
  - specialize (H8 x). lia.
Qed.

(** C12: across the services the principal of an escrow leaves it once: whatever
    mix of releases, refunds, rulings, expiries and no-show splits runs, the
    ledger never holds two settlement postings of one escrow. *)
Theorem platform_settles_once s0 s id k k' t t' :
  pinv s0 -> reaches s0 s -> uuid_like id -> final_key id k -> final_key id k' ->
  find_key k (ledger (core s)) = Some t -> find_key k' (ledger (core s)) = Some t' -> k = k'.
Proof. intros Hi Hr. apply reaches_pinv in Hr as [Hi' _]; [| done]. apply (pi_final s Hi'). Qed.

(** C21: no deposit is stranded while links stand still: if every terminal
    operation finds the reservation linked to the escrow it read (the rest of
    what it read may be stale), then in every reachable database a reservation
    that is no longer pending or confirmed (cancelled, checked in, checked out,
    no-show) has no escrow or one in a terminal status, so no funds stay locked
    behind it.  [stale_link_strands] has the case the condition leaves out. *)
Theorem closed_reservation_settled s0 s id r i :
  pinv s0 -> reaches s0 s -> reservations s !! id = Some r -> resv_in OPEN r = false -> rv_escrowId r = Some i ->
  exists e, escrows (core s) !! i = Some e /\ es_status e ∈ DONE /\ live_principal i (core s) = 0.
Proof.
  intros Hi Hr Hrow Hno He. apply reaches_pinv in Hr as [Hi' _]; [| done].
  destruct (pi_closed s Hi' id r i Hrow Hno He) as (e & Hrow' & Hd). exists e. split; [done |]. split; [done |].
  unfold live_principal. rewrite Hrow'. simpl. unfold live_amount. by destruct (done_status e Hd) as [-> _].
Qed.

(** C29: the condition is needed, and the code does not test it: a cancellation
    that read the reservation before an escrow was linked to it, and claims it
    after the escrow was funded, succeeds, closes the reservation and leaves the
    deposit locked, with the escrow as it was.  The status is all the claim
    repeats. *)
Theorem stale_link_strands s seen id r0 r i e customer now ref :
  reservations seen !! id = Some r0 -> rv_customerId r0 = customer -> resv_in OPEN r0 = true -> rv_escrowId r0 = None ->
  reservations s !! id = Some r -> resv_in OPEN r = true -> rv_escrowId r = Some i -> escrows (core s) !! i = Some e -> in_status LIVE e = true ->
  exists x s', cancelReservation sha256 id customer now ref seen s = (Ok x, s') /\ core s' = core s /\ live_principal i (core s') = es_amountUsdc e /\
    exists r', reservations s' !! id = Some r' /\ rv_status r' = R_CANCELLED_CUSTOMER /\ rv_escrowId r' = Some i.
Proof.
  intros Hr0 Hc Ho0 Hn Hr Ho Hi He Hl. set (s' := set_reservations (<[id := cancelled_resv now r]> (reservations s)) s).
  assert (Hnot : resv_in [R_CANCELLED_CUSTOMER] r0 = false) by (unfold resv_in in *; destruct (rv_status r0); done).
  assert (Hclaim : claimReservation id OPEN (fun _ => true) (cancelled_resv now) s = Ok (cancelled_resv now r, s')).
  { unfold claimReservation. assert (Hu : resv_updateMany id (fun q => resv_in OPEN q && true) (cancelled_resv now) s = Ok (1%nat, s')).
    { unfold resv_updateMany. rewrite get_bind, Hr, Ho. reflexivity. }
    rewrite (bind_run _ _ _ _ _ Hu). unfold resv_find. change ((of_option (reservations s' !! id) "TypeError" ≫= fun y => Ok (y, s')) = Ok (cancelled_resv now r, s')).
    unfold s'. cbn [reservations set_reservations]. by rewrite lookup_insert_eq. }
  exists (cancelled_resv now r), s'. split_and!; [| done | | exists (cancelled_resv now r); split_and!; [apply lookup_insert_eq | done | done]].
  - assert (Hw : cancel_work sha256 id customer now ref seen s = Ok (cancelled_resv now r, s')).
    { unfold cancel_work. erewrite bind_run by reflexivity. rewrite Hr0. erewrite bind_run by reflexivity. cbv beta iota. rewrite Hc, Z.eqb_refl, Hnot, Ho0, Hn. exact Hclaim. }
    unfold cancelReservation, runConvergent, transaction. by rewrite Hw.
  - change (core s') with (core s). unfold live_principal. rewrite He. simpl. unfold live_amount. by rewrite Hl.
Qed.

(** A reservation only moves forward: it keeps its customer and its escrow
    link, checked-out, cancelled and no-show are final, and a checked-in
    reservation can only check out; so at most one of cancellation, check-in and
    no-show ever happens to it. *)
Theorem reservation_moves_forward s0 s id r :
  pinv s0 -> reaches s0 s -> reservations s0 !! id = Some r ->
  exists r', reservations s !! id = Some r' /\ rtc resv_later r r' /\
    rv_customerId r' = rv_customerId r /\ (forall i, rv_escrowId r = Some i -> rv_escrowId r' = Some i) /\
    (rv_status r ∈ TERMINAL -> rv_status r' = rv_status r) /\
    (rv_status r = R_CHECKED_IN -> rv_status r' = R_CHECKED_IN \/ rv_status r' = R_CHECKED_OUT).
Proof.
  intros Hi Hr Hrow. enough (exists r', reservations s !! id = Some r' /\ rtc resv_later r r') as (r' & Hr' & Hl).
  { exists r'. split; [done |]. split; [done |]. by apply resv_laters. }
  revert r Hi Hrow. induction Hr as [s | s1 s2 s3 Hs _ IH]; intros r Hi Hrow; [by exists r |].
  apply platform_shaped in Hs; [| apply Hi]. pose proof (platform_pinv _ _ _ Hi Hs) as Hi2.
  destruct Hs as [_ Hres | id0 r0 _ Hn _ _ Hres | id0 r0 r1 _ Hr0 Hlat Hres _ _].
  - apply (IH r Hi2). by rewrite Hres.
  - apply (IH r Hi2). rewrite Hres. by rewrite lookup_insert_ne by congruence.
  - destruct (decide (id0 = id)) as [<- | Hne].
    + rewrite Hrow in Hr0. injection Hr0 as <-. destruct (IH r1 Hi2) as (r' & Hr' & Hl); [by rewrite Hres, lookup_insert_eq |].
      exists r'. split; [done |]. by eapply rtc_l.
    + apply (IH r Hi2). by rewrite Hres, lookup_insert_ne.
Qed.

(** A lifecycle operation that succeeds on a reservation which has not reached
    its target did its work. *)
Lemma convergent_work id target work s x s' r :
  reservations s !! id = Some r -> rv_status r <> target -> runConvergent id target work s = (Ok x, s') -> work s = Ok (x, s').
Proof.
  intros Hrow Hne Hr. unfold runConvergent in Hr. destruct (transaction work s) as [[y | e] s1] eqn:Ht.
  - injection Hr as -> ->. by apply transaction_Ok.
  - assert (s1 = s) as -> by (unfold transaction in Ht; destruct (work s) as [[] |]; by simplify_eq).
    rewrite Hrow, bool_decide_false in Hr by done. repeat case_match; by simplify_eq.
Qed.

Lemma linked_live r i e c : rv_escrowId r = Some i -> escrows c !! i = Some e -> linked_escrow r c = Some (i, e).
Proof. intros Hi He. unfold linked_escrow. rewrite Hi. simpl. by rewrite He. Qed.

Lemma resv_is st r : rv_status r = st -> resv_in [st] r = true.
Proof. intros Hst. apply resv_in_spec. rewrite Hst. by apply list_elem_of_singleton. Qed.
Lemma resv_is_not st r : rv_status r <> st -> resv_in [st] r = false.
Proof.
  intros Hst. destruct (resv_in [st] r) eqn:Hr; [| done]. by apply resv_in_spec, list_elem_of_singleton in Hr.
Qed.

(** A no-show charges the guest at most what the policy allows, to the last
    unit: marking a confirmed, funded reservation with a penalty policy as
    no-show pays a penalty [a] to the business and refunds [b] to the guest with
    [a + b] the deposit, a percentage penalty is at most half of the deposit (up
    to the 1e-6 rounding), the whole deposit leaves the locked balance, and the
    reservation records exactly the penalty that was paid. *)
Theorem no_show_charges_exactly s id r i e owner now ref r1 r2 x s' :
  pinv s -> reservations s !! id = Some r -> rv_status r = R_CONFIRMED -> id <> EmptyString ->
  rv_escrowId r = Some i -> escrows (core s) !! i = Some e -> in_status LIVE e = true -> has_penalty r = true ->
  es_payerId e <> es_payeeId e -> markNoShowReservation sha256 id owner now ref r1 r2 s s = (Ok x, s') ->
  exists a b, 0 <= a /\ 0 <= b /\ a + b = es_amountUsdc e /\
    (positive (penalty_flat r) = false -> 2 * a <= es_amountUsdc e + 100) /\
    avail (es_payeeId e) (core s') = avail (es_payeeId e) (core s) + a /\
    avail (es_payerId e) (core s') = avail (es_payerId e) (core s) + b /\
    locked (es_payerId e) (core s') = locked (es_payerId e) (core s) - es_amountUsdc e /\
    es_status <$> escrows (core s') !! i = Some Escrow.RELEASED /\
    exists r', reservations s' !! id = Some r' /\ rv_status r' = R_NO_SHOW /\ rv_penaltyAmountUsdc r' = Some a.
Proof.
  intros Hi Hrow Hst Hid Hlink He Hl Hpen Hne Hr. apply (convergent_work _ _ _ _ _ _ r) in Hr; [| done | by rewrite Hst].
  apply aggregate_then in Hr as (r0 & Hr0 & Hr). rewrite Hrow in Hr0. injection Hr0 as <-.
  rewrite (linked_live r i e _ Hlink He) in Hr. apply Mbind_Ok in Hr as (x1 & s1 & Hc & Hr). apply check_Ok in Hc as [_ ->].
  rewrite resv_is_not in Hr by (by rewrite Hst). apply Mbind_Ok in Hr as (x2 & s1 & Hc & Hr). apply check_Ok in Hc as [_ ->].
  apply Mbind_Ok in Hr as (x3 & s1 & Hc & Hr). apply check_Ok in Hc as [_ ->].
  apply Mbind_Ok in Hr as (x4 & s1 & Hc & Hr). apply check_Ok in Hc as [_ ->]. rewrite Hl, Hpen in Hr. cbn [andb] in Hr.
  apply Mbind_Ok in Hr as (y & s1 & Hsp & Hr). apply Mbind_Ok in Hr as (o & s2 & Hfd & Hr). apply reads_Ok in Hfd as [_ ->].
  apply lift_Ok in Hr as [_ ->]. apply splitTx_Ok in Hsp as (e1 & a & b & Hs & Hcap & Hres); [| apply Hi].
  assert (e1 = e) as -> by (pose proof (st_row _ _ _ _ _ _ _ _ Hs); congruence).
  unfold truthy in Hres. destruct id as [| ch id']; [done |]. destruct Hres as (r0 & Hr0 & _ & _ & Hres). rewrite Hrow in Hr0. injection Hr0 as <-.
  destruct (settlement_moves _ _ _ _ _ _ _ _ Hs) as (Hb0 & Ha0 & Hsum & Hav & Hlo & _).
  exists a, b. rewrite !Hav, Hlo, (settlement_ended _ _ _ _ _ _ _ _ Hs), Hres, lookup_insert_eq, !Z.eqb_refl.
  rewrite (proj2 (Z.eqb_neq _ _) Hne), (proj2 (Z.eqb_neq _ _) (not_eq_sym Hne)).
  split_and!; try done; try lia. by eexists.
Qed.

(** A disposed live escrow is settled by the given primitive. *)
Lemma dispose_live i e settle l s x s' :
  in_status LIVE e = true -> dispose_escrow (Some (i, e)) settle l s = Ok (x, s') -> settle i s = Ok (x, s').
Proof. intros Hl Hr. unfold dispose_escrow in Hr. by rewrite Hl in Hr. Qed.

(** Cancellation and check-in settle the deposit in full: cancelling an
    open, funded reservation returns exactly the principal to the guest, and
    checking in a confirmed one pays exactly the principal to the business;
    either way the principal leaves the locked balance and both rows reach
    their terminal states in the same transaction. *)
Theorem lifecycle_settles_deposit s id r i e :
  pinv s -> reservations s !! id = Some r -> rv_escrowId r = Some i -> escrows (core s) !! i = Some e -> in_status LIVE e = true ->
  es_payerId e <> es_payeeId e ->
  (forall customer now ref x s', resv_in OPEN r = true -> cancelReservation sha256 id customer now ref s s = (Ok x, s') ->
     rv_status <$> reservations s' !! id = Some R_CANCELLED_CUSTOMER /\ es_status <$> escrows (core s') !! i = Some Escrow.REFUNDED /\
     avail (es_payerId e) (core s') = avail (es_payerId e) (core s) + es_amountUsdc e /\
     avail (es_payeeId e) (core s') = avail (es_payeeId e) (core s) /\
     locked (es_payerId e) (core s') = locked (es_payerId e) (core s) - es_amountUsdc e) /\
  (forall owner now ref x s', rv_status r = R_CONFIRMED -> checkInReservation sha256 id owner now ref s s = (Ok x, s') ->
     rv_status <$> reservations s' !! id = Some R_CHECKED_IN /\ es_status <$> escrows (core s') !! i = Some SETTLED /\
     avail (es_payeeId e) (core s') = avail (es_payeeId e) (core s) + es_amountUsdc e /\
     avail (es_payerId e) (core s') = avail (es_payerId e) (core s) /\
     locked (es_payerId e) (core s') = locked (es_payerId e) (core s) - es_amountUsdc e).
Proof.
  intros Hi Hrow Hlink He Hl Hne. pose proof (proj2 (Z.eqb_neq _ _) Hne) as N1. pose proof (proj2 (Z.eqb_neq _ _) (not_eq_sym Hne)) as N2. split.
  - intros customer now ref x s' Hopen Hr. apply resv_in_spec in Hopen as Hst.
    assert (Hnot : rv_status r <> R_CANCELLED_CUSTOMER) by (intros Heq; unfold resv_in in Hopen; by rewrite Heq in Hopen).
    apply (convergent_work _ _ _ _ _ _ r) in Hr; [| done | done].
    apply aggregate_then in Hr as (r0 & Hr0 & Hr). rewrite Hrow in Hr0. injection Hr0 as <-. rewrite (linked_live r i e _ Hlink He) in Hr.
    apply Mbind_Ok in Hr as (x1 & s1 & Hc & Hr). apply check_Ok in Hc as [_ ->]. rewrite resv_is_not in Hr by done.
    apply Mbind_Ok in Hr as (x2 & s1 & Hc & Hr). apply check_Ok in Hc as [_ ->].
    apply Mbind_Ok in Hr as (x3 & s1 & Hc & Hr). apply check_Ok in Hc as [_ ->].
    apply Mbind_Ok in Hr as (y & s1 & Hd & Hr). apply dispose_live in Hd; [| done].
    unfold refund_step in Hd. apply Mbind_Ok in Hd as (z & s2 & Hd & Hz). apply Mret_Ok in Hz as [_ ->]. apply on_core_Ok in Hd as (c & Hd & ->).
    apply booking_refund_effect in Hd as (e1 & Hs); [| apply Hi]. assert (e1 = e) as -> by (pose proof (st_row _ _ _ _ _ _ _ _ Hs); congruence).
    apply claimReservation_Ok in Hr as (r0 & Hr0 & _ & _ & ->). cbn [core set_core set_reservations reservations] in *.
    destruct (settlement_moves _ _ _ _ _ _ _ _ Hs) as (_ & _ & _ & Hav & Hlo & _).
    rewrite lookup_insert_eq, (settlement_ended _ _ _ _ _ _ _ _ Hs), !Hav, Hlo, !Z.eqb_refl, N1, N2. split_and!; try done; lia.
  - intros owner now ref x s' Hst Hr. apply (convergent_work _ _ _ _ _ _ r) in Hr; [| done | by rewrite Hst].
    apply aggregate_then in Hr as (r0 & Hr0 & Hr). rewrite Hrow in Hr0. injection Hr0 as <-. rewrite (linked_live r i e _ Hlink He) in Hr.
    apply Mbind_Ok in Hr as (x1 & s1 & Hc & Hr). apply check_Ok in Hc as [_ ->]. rewrite resv_is_not in Hr by (by rewrite Hst).
    apply Mbind_Ok in Hr as (x2 & s1 & Hc & Hr). apply check_Ok in Hc as [_ ->].
    apply Mbind_Ok in Hr as (x3 & s1 & Hc & Hr). apply check_Ok in Hc as [_ ->].
    apply Mbind_Ok in Hr as (y & s1 & Hd & Hr). apply dispose_live in Hd; [| done].
    unfold release_step in Hd. apply Mbind_Ok in Hd as (z & s2 & Hd & Hz). apply Mret_Ok in Hz as [_ ->]. apply on_core_Ok in Hd as (c & Hd & ->).
    apply booking_release_effect in Hd as (e1 & Hs); [| apply Hi]. assert (e1 = e) as -> by (pose proof (st_row _ _ _ _ _ _ _ _ Hs); congruence).
    apply claimReservation_Ok in Hr as (r0 & Hr0 & _ & _ & ->). cbn [core set_core set_reservations reservations] in *.
    destruct (settlement_moves _ _ _ _ _ _ _ _ Hs) as (_ & _ & _ & Hav & Hlo & _).
    rewrite lookup_insert_eq, (settlement_ended _ _ _ _ _ _ _ _ Hs), !Hav, Hlo, !Z.eqb_refl, N1, N2. split_and!; try done; lia.
Qed.
End Theorems.

(** ** A run of the platform *)

Definition bk_row : resv_row :=
  ResvRow "biz" 2 1 R_PENDING 5000 None None None None None None (Some 3000) None None None.
Definition bk_open : bdb := BDB run_open {[ "r1"%string := bk_row ]} ∅.
Definition bk_after {A} (r : res (A * bdb)) : bdb := match r with Ok (_, s) => s | Err _ => bk_open end.
Definition bk_created : bdb := bk_after (@createBookingEscrow ToFixedColumn RESERVATION "r1" 1 2 (Num.Fin 40) "t9" "e9" 1000 bk_open).
Definition bk_funded : bdb :=
  (@fundBookingEscrow Decimal20 ToFixedColumn run_sha "e9" 1 (Some RESERVATION) (Some "r1"%string) 2000 "f9" bk_created bk_created).2.
Definition bk_no_show : bdb := (@markNoShowReservation Decimal20 ToFixedColumn run_sha "r1" None 6000 "n1" "n2" "n3" bk_funded bk_funded).2.
Definition bk_cancelled : bdb := (@cancelReservation Decimal20 ToFixedColumn run_sha "r1" 1 3000 "c9" bk_funded bk_funded).2.

Example bk_statuses :
  (rv_status <$> reservations bk_funded !! "r1"%string, rv_status <$> reservations bk_no_show !! "r1"%string,
   rv_status <$> reservations bk_cancelled !! "r1"%string, es_status <$> escrows (core bk_no_show) !! "e9"%string,
   rv_penaltyAmountUsdc <$> reservations bk_no_show !! "r1"%string) =
  (Some R_CONFIRMED, Some R_NO_SHOW, Some R_CANCELLED_CUSTOMER, Some Escrow.RELEASED, Some (Some 1200000000)).
Proof. vm_compute. reflexivity. Qed.

#[local] Abbreviation bk_step := (@booking_step Decimal20 ToFixedColumn run_sha run_wire).

Lemma bk_open_pinv : pinv bk_open.
Proof.
  split; [apply run_open_einv | apply run_open_unique | |]; intros id r i Hrow;
    change (({[ "r1"%string := bk_row ]} : gmap string resv_row) !! id = Some r) in Hrow;
    apply lookup_singleton_Some in Hrow as [_ <-]; discriminate.
Qed.

Lemma bk_create_step : bk_step bk_open bk_created.
Proof.
  assert (Hr : exists e, @createBookingEscrow ToFixedColumn RESERVATION "r1" 1 2 (Num.Fin 40) "t9" "e9" 1000 bk_open = Ok (e, bk_created) /\
    es_amountUsdc e <= ESCROW_MAX /\ es_feeUsdc e <= ESCROW_MAX).
  { eexists. split; [vm_compute; reflexivity | split; vm_compute; discriminate]. }
  destruct Hr as (e & Hr & Ha & Hf). apply (bs_create _ _ RESERVATION "r1" 1 2 (Num.Fin 40) "t9" "e9" 1000 e); try done; lia.
Qed.

Lemma bk_fund_step : bk_step bk_created bk_funded.
Proof.
  assert (Hr : exists r, @fundBookingEscrow Decimal20 ToFixedColumn run_sha "e9" 1 (Some RESERVATION) (Some "r1"%string) 2000 "f9" bk_created bk_created
    = (Ok r, bk_funded)) by (eexists; vm_compute; reflexivity).
  destruct Hr as (r & Hr). exact (bs_fund _ _ _ _ _ _ _ _ _ _ _ _ Hr).
Qed.

Lemma bk_no_show_step : bk_step bk_funded bk_no_show.
Proof.
  assert (Hr : exists r, @markNoShowReservation Decimal20 ToFixedColumn run_sha "r1" None 6000 "n1" "n2" "n3" bk_funded bk_funded = (Ok r, bk_no_show))
    by (eexists; vm_compute; reflexivity).
  destruct Hr as (r & Hr). exact (bs_no_show _ _ _ _ _ _ _ _ _ _ _ _ (link_kept_refl _ _) Hr).
Qed.

Lemma bk_reach_funded : rtc bk_step bk_open bk_funded.
Proof. eapply rtc_l; [apply bk_create_step |]. apply rtc_once, bk_fund_step. Qed.
Lemma bk_reach_no_show : rtc bk_step bk_open bk_no_show.
Proof. eapply rtc_r; [apply bk_reach_funded | apply bk_no_show_step]. Qed.
Lemma bk_funded_pinv : pinv bk_funded.
Proof. exact (proj1 (reaches_pinv _ _ _ _ bk_open_pinv bk_reach_funded)). Qed.

(** ** Witnesses *)

Lemma platform_books_kept_witness : total_value (core bk_no_show) = 10500000000.
Proof.
  rewrite (proj1 (@platform_books_kept Decimal20 ToFixedColumn run_sha run_wire bk_open bk_no_show bk_open_pinv bk_reach_no_show)).
  vm_compute. reflexivity.
Defined.

(** After the no-show the split is the only settlement of the escrow: there is
    no release and no refund posting beside it. *)
Lemma platform_settles_once_witness : is_Some (find_key (split_release_key "e9") (ledger (core bk_no_show))) /\
  forall k t, final_key "e9" k -> find_key k (ledger (core bk_no_show)) = Some t -> k = split_release_key "e9".
Proof.
  assert (Hf : exists t, find_key (split_release_key "e9") (ledger (core bk_no_show)) = Some t) by (eexists; vm_compute; reflexivity).
  destruct Hf as (t & Hf). split; [by exists t |]. intros k t' Hk Hf'.
  refine (@platform_settles_once Decimal20 ToFixedColumn run_sha run_wire bk_open bk_no_show "e9" k _ t' t bk_open_pinv bk_reach_no_show _ Hk _ Hf' Hf).
  - by vm_compute.
  - by right; right; right.
Defined.

Lemma closed_reservation_settled_witness : exists e, escrows (core bk_no_show) !! "e9"%string = Some e /\ es_status e ∈ DONE /\
  live_principal "e9" (core bk_no_show) = 0.
Proof.
  assert (Hr : exists r, reservations bk_no_show !! "r1"%string = Some r /\ resv_in OPEN r = false /\ rv_escrowId r = Some "e9"%string)
    by (eexists; vm_compute; repeat split; reflexivity).
  destruct Hr as (r & Hr & Ho & He).
  exact (@closed_reservation_settled Decimal20 ToFixedColumn run_sha run_wire bk_open bk_no_show "r1" r "e9" bk_open_pinv bk_reach_no_show Hr Ho He).
Defined.

Lemma reservation_moves_forward_witness : exists r', reservations bk_no_show !! "r1"%string = Some r' /\ rv_customerId r' = 1.
Proof.
  assert (Hr : reservations bk_open !! "r1"%string = Some bk_row) by (vm_compute; reflexivity).
  destruct (@reservation_moves_forward Decimal20 ToFixedColumn run_sha run_wire bk_open bk_no_show "r1" bk_row bk_open_pinv bk_reach_no_show Hr)
    as (r' & Hr' & _ & Hc & _).
  exists r'. split; [exact Hr' | exact Hc].
Defined.

(** The funded reservation and its escrow. *)
Lemma bk_funded_rows : exists r e, reservations bk_funded !! "r1"%string = Some r /\ rv_status r = R_CONFIRMED /\ rv_escrowId r = Some "e9"%string /\
  has_penalty r = true /\ positive (penalty_flat r) = false /\
  escrows (core bk_funded) !! "e9"%string = Some e /\ in_status LIVE e = true /\ es_payerId e = 1 /\ es_payeeId e = 2 /\ es_amountUsdc e = 4000000000.
Proof. do 2 eexists. split; [vm_compute; reflexivity |]. do 4 (split; [vm_compute; reflexivity |]). split; [vm_compute; reflexivity |]. vm_compute. repeat split; reflexivity. Qed.

Lemma no_show_charges_exactly_witness : exists a b, a + b = 4000000000 /\ 2 * a <= 4000000100 /\ avail 2 (core bk_no_show) = avail 2 (core bk_funded) + a.
Proof.
  destruct bk_funded_rows as (r & e & Hr & Hst & Hlink & Hpen & Hflat & He & Hl & H1 & H2 & Ha).
  assert (Hrun : exists x, @markNoShowReservation Decimal20 ToFixedColumn run_sha "r1" None 6000 "n1" "n2" "n3" bk_funded bk_funded = (Ok x, bk_no_show))
    by (eexists; vm_compute; reflexivity).
  destruct Hrun as (x & Hrun).
  destruct (@no_show_charges_exactly Decimal20 ToFixedColumn run_sha bk_funded "r1" r "e9" e None 6000 "n1" "n2" "n3" x bk_no_show
    bk_funded_pinv Hr Hst ltac:(discriminate) Hlink He Hl Hpen ltac:(rewrite H1, H2; discriminate) Hrun)
    as (a & b & _ & _ & Hsum & Hcap & Hav & _).
  specialize (Hcap Hflat). rewrite Ha in Hsum, Hcap. rewrite H2 in Hav. exists a, b. split; [exact Hsum |]. split; [exact Hcap | exact Hav].
Defined.

Lemma lifecycle_settles_deposit_witness : avail 1 (core bk_cancelled) = avail 1 (core bk_funded) + 4000000000.
Proof.
  destruct bk_funded_rows as (r & e & Hr & Hst & Hlink & _ & _ & He & Hl & H1 & H2 & Ha).
  assert (Hrun : exists x, @cancelReservation Decimal20 ToFixedColumn run_sha "r1" 1 3000 "c9" bk_funded bk_funded = (Ok x, bk_cancelled))
    by (eexists; vm_compute; reflexivity).
  destruct Hrun as (x & Hrun). assert (Ho : resv_in OPEN r = true) by (unfold resv_in; rewrite Hst; reflexivity).
  destruct (proj1 (@lifecycle_settles_deposit Decimal20 ToFixedColumn run_sha bk_funded "r1" r "e9" e bk_funded_pinv Hr Hlink He Hl
    ltac:(rewrite H1, H2; discriminate)) 1 3000 "c9"%string x bk_cancelled Ho Hrun) as (_ & _ & Hav & _).
  rewrite H1, Ha in Hav. exact Hav.
Defined.

(** The guest's cancellation reads the reservation before the escrow is linked
    and funded, and claims it afterwards: 40 USDC stay locked. *)
Lemma stale_link_strands_witness : rtc bk_step bk_open bk_funded /\
  exists x s', @cancelReservation Decimal20 ToFixedColumn run_sha "r1" 1 3000 "c9" bk_open bk_funded = (Ok x, s') /\ live_principal "e9" (core s') = 4000000000.
Proof.
  destruct bk_funded_rows as (r & e & Hr & Hst & Hlink & _ & _ & He & Hl & _ & _ & Ha). split; [exact bk_reach_funded |].
  assert (Ho : resv_in OPEN r = true) by (unfold resv_in; rewrite Hst; reflexivity).
  destruct (@stale_link_strands Decimal20 ToFixedColumn run_sha bk_funded bk_open "r1" bk_row r "e9" e 1 3000 "c9" ltac:(vm_compute; reflexivity)
    eq_refl eq_refl eq_refl Hr Ho Hlink He Hl) as (x & s' & Hrun & _ & Hp & _).
  exists x, s'. split; [exact Hrun |]. rewrite Hp. exact Ha.
Defined.
