(* ===== verification/Transit.v ===== *)
(** * Transit bookings (services/transitBookingService.js,
    services/transitTripCancellationService.js, controllers/transitController.js,
    controllers/marketplaceController.js, workers/reservationNoShowWorker.js)

    State: the booking database, businesses, vehicles with their seat maps,
    trips, and the seat assignments, whose unique index on (trip, seat) is the
    key of the map ([tdb]).  Operations: seat booking, seat availability,
    cancellation of a booking and of a trip, the no-show sweep, the status
    update of the controller, boarding and trip creation.

    Reads before a transaction come from an argument [before].  A transaction
    is atomic, so the linkage of a booking cannot change between the pinning
    read of a cancellation or sweep and its claim; the retry loops are kept as
    the code has them.  Identifiers and clocks are arguments.  A seat map is
    configured before its vehicle's trips are sold and does not change here. *)

From stdpp Require Import base gmap strings list.
From Stdlib Require Import ZArith QArith Lia Ascii.
From S2P Require Import Prelude JsNumber ExactDecimal Json Ledger Idempotency Escrow Booking Reservation.

Local Open Scope Z_scope.

(** ** Rows *)

Record biz_row : Type := BizRow { bz_userId : Z; bz_isSuspended : bool; bz_stakeBalance : Z }.

Record seat : Type := Seat { seatId : string; tier : option string }.
Record vehicle_row : Type := VehicleRow { vh_businessProfileId : string; vh_capacity : Z; vh_isActive : bool; vh_seatMap : option (list seat) }.

(** [tr_tierFares] holds [Number(tierFares[tier])] of the tiers priced in the
    metadata of the trip. *)
Record trip_row : Type := TripRow {
  tr_businessProfileId : string;
  tr_vehicleId : string;
  tr_departureAt : Z;
  tr_fareUsdc : Z;
  tr_availableSeats : Z;
  tr_status : string;
  tr_tierFares : gmap string Num.num;
}.

Record seat_row : Type := SeatRow { bs_bookingId : string; bs_passengerName : option string }.

(** The audit rows of the business no-shows. *)
Record audit_row : Type := AuditRow {
  au_targetType : booking_type;
  au_targetId : string;
  au_businessProfileId : option string;
  au_escrowId : string;
  au_refundAmount : Q;
  au_penaltyAmount : Q;
  au_penaltyApplied : bool;
}.

Record tdb : Type := TDB {
  base : bdb;
  businesses : gmap string biz_row;
  vehicles : gmap string vehicle_row;
  trips : gmap string trip_row;
  seats : gmap (string * string) seat_row;
  audits : list audit_row;
}.

Definition set_base (b : bdb) (s : tdb) : tdb := TDB b (businesses s) (vehicles s) (trips s) (seats s) (audits s).
Definition set_businesses (m : gmap string biz_row) (s : tdb) : tdb := TDB (base s) m (vehicles s) (trips s) (seats s) (audits s).
Definition set_trips (m : gmap string trip_row) (s : tdb) : tdb := TDB (base s) (businesses s) (vehicles s) m (seats s) (audits s).
Definition set_seats (m : gmap (string * string) seat_row) (s : tdb) : tdb := TDB (base s) (businesses s) (vehicles s) (trips s) m (audits s).
Definition add_audit (a : audit_row) (s : tdb) : tdb := TDB (base s) (businesses s) (vehicles s) (trips s) (seats s) (audits s ++ [a]).

(** A statement on the booking tables, and one on the escrow tables. *)
Definition on_base {A} (m : M bdb A) : M tdb A := fun s =>
  match m (base s) with Ok (a, b) => Ok (a, set_base b s) | Err e => Err e end.
Definition on_escrow {A} (m : M edb A) : M tdb A := on_base (on_core m).

Definition transit_of (id : string) (s : tdb) : option transit_row := transits (base s) !! id.
(** [include: { seats: true }]. *)
Definition seats_of (bookingId : string) (s : tdb) : gmap (string * string) seat_row :=
  filter (fun p => bs_bookingId p.2 = bookingId) (seats s).
Definition seats_of_trip (tripId : string) (s : tdb) : gmap (string * string) seat_row :=
  filter (fun p => p.1.1 = tripId) (seats s).

(** ** Statements *)

Definition trip_update (tripId : string) (f : trip_row -> trip_row) : M tdb unit :=
  s ← get;
  match trips s !! tripId with
  | Some r => put (set_trips (<[tripId := f r]> (trips s)) s)
  | None => throw "P2025"
  end.

(** [availableSeats: { increment: n }]. *)
Definition trip_add_seats (n : Z) (r : trip_row) : trip_row :=
  TripRow (tr_businessProfileId r) (tr_vehicleId r) (tr_departureAt r) (tr_fareUsdc r) (tr_availableSeats r + n) (tr_status r) (tr_tierFares r).
Definition trip_status_to (st : string) (r : trip_row) : trip_row :=
  TripRow (tr_businessProfileId r) (tr_vehicleId r) (tr_departureAt r) (tr_fareUsdc r) (tr_availableSeats r) st (tr_tierFares r).

(** INSERT of a booking; [bookingRef] is a unique column. *)
Definition transit_create (id : string) (r : transit_row) : M tdb unit :=
  s ← get;
  check (match transit_of id s with None => true | _ => false end) "P2002";;
  check (negb (existsb (fun p => String.eqb (tb_bookingRef p.2) (tb_bookingRef r)) (map_to_list (transits (base s))))) "P2002";;
  check (match users (core (base s)) !! tb_customerId r with Some _ => true | None => false end) "P2003";;
  check (match businesses s !! tb_businessProfileId r with Some _ => true | None => false end) "P2003";;
  check (match tb_tripId r with
         | Some t => match trips s !! t with Some _ => true | None => false end
         | None => true
         end) "P2003";;
  check (Z.abs (tb_amountUsdc r) <? DECIMAL_20_8_LIMIT) "NUMERIC_OVERFLOW";;
  put (set_base (set_transits (<[id := r]> (transits (base s))) (base s)) s).

(** [transitBookingSeat.createMany]: a taken seat violates the unique index. *)
Fixpoint seat_createMany (tripId bookingId : string) (rows : list (string * option string)) : M tdb unit :=
  match rows with
  | [] => mret tt
  | (seat, name) :: rows' =>
      s ← get;
      check (match seats s !! (tripId, seat) with None => true | _ => false end) "P2002";;
      put (set_seats (<[(tripId, seat) := SeatRow bookingId name]> (seats s)) s);;
      seat_createMany tripId bookingId rows'
  end.

(** [transitBookingSeat.deleteMany({ where: { bookingId } })]. *)
Definition seat_deleteMany (bookingId : string) : M tdb unit :=
  modify (fun s => set_seats (filter (fun p => bs_bookingId p.2 <> bookingId) (seats s)) s).

(** ** Fares *)

(** JavaScript addition and [_round6] on numbers that may be [NaN]. *)
Definition num_add (a b : Num.num) : Num.num :=
  match a, b with
  | Num.Fin x, Num.Fin y => Num.Fin (js_add x y)
  | Num.NaN, _ | _, Num.NaN => Num.NaN
  | Num.Inf n, Num.Inf m => if Bool.eqb n m then Num.Inf n else Num.NaN
  | Num.Inf n, Num.Fin _ | Num.Fin _, Num.Inf n => Num.Inf n
  end.
Definition num_round6 (a : Num.num) : Num.num := match a with Num.Fin x => Num.Fin (round6 x) | _ => a end.

(** [new Map(layout.map(s => [s.seatId, s])).get(seatId)]: the last entry wins. *)
Definition seat_by_id (layout : list seat) (id : string) : option seat :=
  List.find (fun s => String.eqb (seatId s) id) (rev layout).

(** The fare of a seat: that of its tier, or the flat fare of the trip. *)
Definition seat_fare (trip : trip_row) (s : option seat) : Num.num :=
  match (x ← s; t ← truthy (tier x); tr_tierFares trip !! t) with
  | Some f => f
  | None => Num.Fin (Number_of_units (tr_fareUsdc trip))
  end.

Definition total_fare (trip : trip_row) (layout : list seat) (seatIds : list string) : Num.num :=
  num_round6 (fold_left num_add (map (fun id => seat_fare trip (seat_by_id layout id)) seatIds) (Num.Fin 0)).

Section Service.
Context `{DecimalLib} `{PrismaNumber} (sha256 : string -> string) (wire : string -> transit_row -> list string -> Q -> string).

(** ** [bookSeats] *)

(** The layout of the trip's vehicle. *)
Definition trip_layout (trip : trip_row) (s : tdb) : option (list seat) := v ← vehicles s !! tr_vehicleId trip; vh_seatMap v.

(** Everything before the transaction: the trip and the total fare. *)
Definition book_read (tripId : string) (customerId : Z) (seatIds : list string) (s : tdb) : res (trip_row * Num.num) :=
  throw_if (String.length tripId =? 0)%nat "tripId is required.";;
  throw_if (customerId =? 0) "customerId is required.";;
  throw_if (match seatIds with [] => true | _ => false end) "seatIds must be a non-empty array.";;
  trip ← of_option (trips s !! tripId) "Trip not found.";
  throw_if (String.eqb (tr_status trip) "CANCELLED") "This trip has been cancelled.";;
  throw_if (String.eqb (tr_status trip) "DEPARTED" || String.eqb (tr_status trip) "COMPLETED") "This trip has already departed.";;
  biz ← of_option (businesses s !! tr_businessProfileId trip) "TypeError";
  throw_if (bz_isSuspended biz) "Business is suspended.";;
  layout ← of_option (trip_layout trip s) "This vehicle has no seat map configured.";
  throw_if (negb (forallb (fun id => str_mem id (map seatId layout)) seatIds)) "Invalid seat IDs";;
  throw_if (existsb (fun id => match seats s !! (tripId, id) with Some _ => true | None => false end) seatIds) "Seats already booked";;
  throw_if (tr_availableSeats trip <? Z.of_nat (length seatIds)) "Not enough seats available";;
  mret (trip, total_fare trip layout seatIds).

(** [passengerNames?.[i] || null]. *)
Definition seat_data (seatIds passengerNames : list string) : list (string * option string) :=
  imap (fun i id => (id, truthy (passengerNames !! i))) seatIds.

(** The booking, its seats, the capacity and the idempotency claim. *)
Definition book_tx (tripId : string) (customerId : Z) (seatIds passengerNames : list string) (trip : trip_row) (totalFare : Num.num)
    (financialOperation : option nat) (newId bookingRef : string) (now : Z) : M tdb (transit_row * Q) :=
  fare ← match totalFare with Num.Fin q => mret q | _ => throw "PrismaClientValidationError" end;
  let b := TransitRow (tr_businessProfileId trip) customerId (Some tripId) T_PENDING (Some (tr_departureAt trip)) (num_to_col fare) bookingRef now
             None None None None None None None in
  transit_create newId b;;
  seat_createMany tripId newId (seat_data seatIds passengerNames);;
  trip_update tripId (trip_add_seats (- Z.of_nat (length seatIds)));;
  on_escrow (commit_op financialOperation 201 (Some (wire newId b seatIds fare)));;
  mret (b, fare).

Definition bookSeats (tripId : string) (customerId : Z) (seatIds passengerNames : list string) (financialOperation : option nat)
    (newId bookingRef : string) (now : Z) (before s : tdb) : res (transit_row * Q) * tdb :=
  match book_read tripId customerId seatIds before with
  | Err e => (Err e, s)
  | Ok (trip, totalFare) =>
      match transaction (book_tx tripId customerId seatIds passengerNames trip totalFare financialOperation newId bookingRef now) s with
      | (Err e, s') => (Err (if String.eqb e "P2002" then "One or more seats were just booked by another customer." else e), s')
      | r => r
      end
  end.

(** ** [getTripSeatAvailability] *)

(** Seats of bookings that are not cancelled and not no-shows. *)
Definition occupied (tripId : string) (s : tdb) (id : string) : bool :=
  match seats s !! (tripId, id) with
  | Some r => match transit_of (bs_bookingId r) s with Some b => negb (transit_in [T_CANCELLED; T_NO_SHOW] b) | None => false end
  | None => false
  end.

Record availability : Type := Availability {
  av_seats : list (seat * bool * Num.num);
  av_availableCount : nat;
  av_totalSeats : nat;
}.

Definition getTripSeatAvailability (tripId : string) (s : tdb) : res availability :=
  trip ← of_option (trips s !! tripId) "Trip not found.";
  match trip_layout trip s with
  | None => Ok (Availability [] 0 0)
  | Some layout =>
      let rows := map (fun x => (x, occupied tripId s (seatId x), seat_fare trip (Some x))) layout in
      Ok (Availability rows (length (List.filter (fun r => negb r.1.2) rows)) (length layout))
  end.

(** ** [cancelTransitBooking] *)

Definition CANCELLABLE_STATUSES : list transit_status := [T_PENDING; T_CONFIRMED].
Definition ALREADY_FINALIZED_ESCROWS : list escrow_status := [REFUNDED; RELEASED; EXPIRED].
Definition MAX_LINKAGE_PIN_ATTEMPTS : nat := 3.

Definition link_of (r : option transit_row) : option string := x ← r; tb_escrowId x.

(** The pin-and-claim loop.  [Some link] is the winner's pinned escrow, [None]
    the convergence on a booking already cancelled. *)
Fixpoint cancel_claim (attempts : nat) (bookingId : string) : M tdb (option (option string)) :=
  freshLink ← on_base (transit_find bookingId);
  let escrowId := link_of freshLink in
  count ← on_base (transit_updateMany bookingId
            (fun r => transit_in CANCELLABLE_STATUSES r && bool_decide (tb_escrowId r = escrowId)) (transit_status_to T_CANCELLED));
  if (count =? 1)%nat then mret (Some escrowId)
  else
    current ← on_base (transit_find bookingId);
    if bool_decide (tb_status <$> current = Some T_CANCELLED) then mret None
    else
      let linkageRaced := match current with Some r => transit_in CANCELLABLE_STATUSES r | None => false end
                          && negb (bool_decide (link_of current = escrowId)) in
      if linkageRaced then
        match attempts with
        | S (S _ as n) => cancel_claim n bookingId
        | _ => throw "LINKAGE_CONFLICT"
        end
      else throw "NOT_CANCELLABLE".

Inductive refund_outcome : Type :=
| OUT_REFUNDED (amount : Z) | OUT_DISPUTED | OUT_FINALIZED (st : escrow_status) | OUT_NO_FUNDS (st : escrow_status).

(** The escrow of a cancelled booking. *)
Definition resolve_escrow (escrowId : option string) (now : Z) (reference : string) : M tdb (option refund_outcome) :=
  match truthy escrowId with
  | None => mret None
  | Some id =>
      r ← on_escrow (escrow_find id);
      match r with
      | None => mret None
      | Some escrow =>
          if in_status LIVE escrow then
            on_escrow (_refundBookingEscrowTx sha256 id now reference);; mret (Some (OUT_REFUNDED (es_amountUsdc escrow)))
          else if in_status [DISPUTED] escrow then mret (Some OUT_DISPUTED)
          else if in_status ALREADY_FINALIZED_ESCROWS escrow then mret (Some (OUT_FINALIZED (es_status escrow)))
          else mret (Some (OUT_NO_FUNDS (es_status escrow)))
      end
  end.

(** [n] seats of the booking, on the trip it was read with, go back. *)
Definition release_seats (bookingId : string) (n : nat) (tripId : option string) : M tdb unit :=
  if (0 <? n)%nat then
    seat_deleteMany bookingId;;
    match truthy tripId with
    | Some t => trip_update t (trip_add_seats (Z.of_nat n))
    | None => mret tt
    end
  else mret tt.

(** The flag of the result is [alreadyCancelled]. *)
Definition cancel_tx (bookingId : string) (n : nat) (tripId : option string) (now : Z) (reference : string) : M tdb (bool * option refund_outcome) :=
  claim ← cancel_claim MAX_LINKAGE_PIN_ATTEMPTS bookingId;
  match claim with
  | None => mret (true, None)
  | Some escrowId =>
      release_seats bookingId n tripId;;
      refund ← resolve_escrow escrowId now reference;
      mret (false, refund)
  end.

(** Authorization, with what the transaction uses of the booking read. *)
Definition cancel_auth (bookingId : string) (cancelledBy : Z) (s : tdb) : res (nat * option string) :=
  throw_if (String.length bookingId =? 0)%nat "BAD_REQUEST";;
  booking ← of_option (transit_of bookingId s) "NOT_FOUND";
  let isOwner := match businesses s !! tb_businessProfileId booking with Some b => bz_userId b =? cancelledBy | None => false end in
  throw_if (negb isOwner && negb (tb_customerId booking =? cancelledBy)) "FORBIDDEN";;
  mret (size (seats_of bookingId s), tb_tripId booking).

Definition cancelTransitBooking (bookingId : string) (cancelledBy now : Z) (reference : string) (before s : tdb) : res (bool * option refund_outcome) * tdb :=
  match cancel_auth bookingId cancelledBy before with
  | Err e => (Err e, s)
  | Ok (n, tripId) => transaction (cancel_tx bookingId n tripId now reference) s
  end.

(** ** [cancelTripWithRefunds] *)

Definition ACTIVE_BOOKING_STATUSES : list transit_status := [T_PENDING; T_CONFIRMED].

Inductive trip_outcome : Type :=
| TRIP_REFUNDED | TRIP_CANCELLED_NO_ESCROW | TRIP_ESCROW_FINALIZED | TRIP_ESCROW_DISPUTED | TRIP_ALREADY_RESOLVED | TRIP_FAILED (error : string).

(** The bookings the trip is loaded with. *)
Definition eligible (tripId : string) (s : tdb) (r : transit_row) : bool :=
  bool_decide (tb_tripId r = Some tripId) &&
  (transit_in ACTIVE_BOOKING_STATUSES r ||
   transit_in [T_CANCELLED] r &&
   match (i ← tb_escrowId r; escrows (core (base s)) !! i) with Some e => in_status LIVE e | None => false end).
Definition trip_bookings (tripId : string) (s : tdb) : list (string * option string) :=
  map (fun p => (p.1, tb_escrowId p.2)) (List.filter (fun p => eligible tripId s p.2) (map_to_list (transits (base s)))).

(** The transaction of one booking; [link] is the escrow it was loaded with. *)
Definition trip_booking_tx (bookingId : string) (link : option string) (now : Z) (reference : string) : M tdb trip_outcome :=
  count ← on_base (transit_updateMany bookingId (transit_in ACTIVE_BOOKING_STATUSES) (transit_status_to T_CANCELLED));
  match truthy link with
  | Some id =>
      r ← on_escrow (escrow_find id);
      match r with
      | Some escrow =>
          if in_status LIVE escrow then on_escrow (_refundBookingEscrowTx sha256 id now reference);; mret TRIP_REFUNDED
          else if in_status [DISPUTED] escrow then mret TRIP_ESCROW_DISPUTED
          else if in_status ALREADY_FINALIZED_ESCROWS escrow then mret (if (count =? 1)%nat then TRIP_ESCROW_FINALIZED else TRIP_ALREADY_RESOLVED)
          else mret TRIP_CANCELLED_NO_ESCROW
      | None => mret TRIP_CANCELLED_NO_ESCROW
      end
  | None => mret (if (count =? 1)%nat then TRIP_CANCELLED_NO_ESCROW else TRIP_ALREADY_RESOLVED)
  end.

(** Each booking in its own transaction; a failed one is recorded. *)
Fixpoint cancel_bookings (bookings : list (string * option string)) (now : Z) (reference : string -> string) (s : tdb)
    : list (string * trip_outcome) * tdb :=
  match bookings with
  | [] => ([], s)
  | (id, link) :: rest =>
      let '(o, s1) := match transaction (trip_booking_tx id link now (reference id)) s with
                      | (Ok o, s1) => (o, s1)
                      | (Err e, s1) => (TRIP_FAILED e, s1)
                      end in
      let '(os, s2) := cancel_bookings rest now reference s1 in
      ((id, o) :: os, s2)
  end.

Definition failed (o : trip_outcome) : bool := match o with TRIP_FAILED _ => true | _ => false end.

(** [updateMany where id, status not CANCELLED]. *)
Definition cancel_trip_row (tripId : string) (s : tdb) : tdb :=
  match trips s !! tripId with
  | Some r => if String.eqb (tr_status r) "CANCELLED" then s else set_trips (<[tripId := trip_status_to "CANCELLED" r]> (trips s)) s
  | None => s
  end.

(** [None] is [notFound]; the flag of the result is [cancelled]. *)
Definition cancelTripWithRefunds (tripId businessProfileId : string) (now : Z) (reference : string -> string) (before s : tdb)
    : option (bool * list (string * trip_outcome)) * tdb :=
  match trips before !! tripId with
  | Some trip =>
      if String.eqb (tr_businessProfileId trip) businessProfileId then
        let '(outcomes, s1) := cancel_bookings (trip_bookings tripId before) now reference s in
        let s2 := if existsb (fun p => failed p.2) outcomes then s1 else cancel_trip_row tripId s1 in
        (Some (bool_decide (tr_status <$> trips s2 !! tripId = Some "CANCELLED"%string), outcomes), s2)
      else (None, s)
  | None => (None, s)
  end.

(** ** The no-show sweep *)

Definition GRACE_PERIOD_MINS : Z := 30.

Inductive sweep_action : Type :=
| SKIPPED_GONE | ALREADY_NO_SHOW | SKIPPED_STATUS (st : option transit_status) | ESCROW_IN_DISPUTE | PENALTY_CHARGED (penaltyAmount refundAmount : Q)
| ESCROW_STATE_CONFLICT | ESCROW_ECONOMIC_CONFLICT | RETRY_LINKAGE | CLAIM_LOST | NO_SHOW_NO_PENALTY | SWEEP_ERROR (error : string).

Definition tb_penalty_pct (r : transit_row) : option Q := parseDec 4 <$> tb_noShowPenaltyPct r.
Definition tb_penalty_flat (r : transit_row) : option Q := Number_of_units <$> tb_noShowPenaltyUsdc r.
Definition tb_has_penalty (r : transit_row) : bool := positive (tb_penalty_pct r) || positive (tb_penalty_flat r).

(** The linked escrow, as [include: { escrow: true }] loads it. *)
Definition escrow_of (r : transit_row) (s : tdb) : option (string * escrow_row) :=
  i ← tb_escrowId r; e ← escrows (core (base s)) !! i; Some (i, e).

(** The sweep's disposition of the escrow: an early return, or whether it
    executed escrow economics. *)
Definition sweep_escrow (bookingId : string) (fresh : transit_row) (escrow : option (string * escrow_row)) (now : Z)
    (reference releaseRef refundRef : string) : M tdb (sweep_action + bool) :=
  match escrow with
  | None => mret (inr false)
  | Some (id, e) =>
      if in_status IN_DISPUTE e then mret (inl ESCROW_IN_DISPUTE)
      else if in_status LIVE e then
        if tb_has_penalty fresh then
          split ← on_base (_splitReleaseFundedEscrowTx sha256 id (tb_penalty_pct fresh) (tb_penalty_flat fresh) (Some TRANSIT) (Some bookingId)
                    now releaseRef refundRef (fun _ => true));
          let '(_, penaltyAmount, refundAmount) := split in
          mret (inl (PENALTY_CHARGED penaltyAmount refundAmount))
        else on_escrow (_refundBookingEscrowTx sha256 id now reference);; mret (inr true)
      else if in_status [DRAFT] e then
        count ← on_escrow (escrow_updateMany id (in_status [DRAFT]) (with_status EXPIRED));
        mret (if (count =? 1)%nat then inr true else inl ESCROW_STATE_CONFLICT)
      else mret (if in_status [REFUNDED; EXPIRED] e then inr false else inl ESCROW_ECONOMIC_CONFLICT)
  end.

Definition swept_transit (hasPenalty : bool) (now : Z) (r : transit_row) : transit_row :=
  transit_with T_NO_SHOW (tb_checkedInAt r) (tb_escrowId r) (tb_ticketId r)
    (if hasPenalty then Some 0 else None) (if hasPenalty then Some now else None) r.

(** The linkage-pinned claim. *)
Definition sweep_where (graceThreshold : Z) (link : option string) (r : transit_row) : bool :=
  transit_in [T_CONFIRMED] r && bool_decide (tb_checkedInAt r = None) &&
  match tb_scheduledAt r with Some t => t <? graceThreshold | None => false end && bool_decide (tb_escrowId r = link).

Definition sweep_tx (bookingId : string) (graceThreshold now : Z) (reference releaseRef refundRef : string) : M tdb sweep_action :=
  found ← on_base (transit_find bookingId);
  match found with
  | None => mret SKIPPED_GONE
  | Some fresh =>
      if transit_in [T_NO_SHOW] fresh then mret ALREADY_NO_SHOW
      else if negb (transit_in [T_CONFIRMED] fresh) then mret (SKIPPED_STATUS (Some (tb_status fresh)))
      else
        escrow ← reads (escrow_of fresh);
        r ← sweep_escrow bookingId fresh escrow now reference releaseRef refundRef;
        match r with
        | inl action => mret action
        | inr executed =>
            count ← on_base (transit_updateMany bookingId (sweep_where graceThreshold (tb_escrowId fresh)) (swept_transit (tb_has_penalty fresh) now));
            if (count =? 1)%nat then mret NO_SHOW_NO_PENALTY
            else
              now2 ← on_base (transit_find bookingId);
              let linkageRaced := bool_decide (tb_status <$> now2 = Some T_CONFIRMED) && negb (bool_decide (link_of now2 = tb_escrowId fresh)) in
              if linkageRaced then mret RETRY_LINKAGE
              else if (executed : bool) then throw "SWEEP_CLAIM_LOST_ROLLED_BACK"
              else mret CLAIM_LOST
        end
  end.

(** One booking of the sweep: at most two transactions, and the convergence of
    their errors. *)
Definition sweep_booking (bookingId : string) (graceThreshold now : Z) (reference releaseRef refundRef : string) (s : tdb) : sweep_action * tdb :=
  let attempt := transaction (sweep_tx bookingId graceThreshold now reference releaseRef refundRef) in
  let r := match attempt s with (Ok RETRY_LINKAGE, s1) => attempt s1 | r => r end in
  match r with
  | (Ok a, s1) => (a, s1)
  | (Err e, s1) =>
      if String.eqb e "SWEEP_CLAIM_LOST_ROLLED_BACK" then (CLAIM_LOST, s1)
      else if str_mem e ["ESCROW_ALREADY_FINALIZED"; "ESCROW_STATE_CONFLICT"]%string then
        let st := tb_status <$> transit_of bookingId s1 in
        (if bool_decide (st = Some T_NO_SHOW) then ALREADY_NO_SHOW else SKIPPED_STATUS st, s1)
      else (SWEEP_ERROR e, s1)
  end.

(** The candidates of the scan. *)
Definition overdue (now : Z) (s : tdb) : list string :=
  map fst (List.filter (fun p => transit_in [T_CONFIRMED] p.2 && bool_decide (tb_checkedInAt p.2 = None) &&
             match tb_scheduledAt p.2 with Some t => t <? now - GRACE_PERIOD_MINS * 60 * 1000 | None => false end)
           (map_to_list (transits (base s)))).

Fixpoint sweep_bookings (ids : list string) (now : Z) (reference : string -> string * string * string) (s : tdb)
    : list (string * sweep_action) * tdb :=
  match ids with
  | [] => ([], s)
  | id :: rest =>
      let '(r, rel, ref) := reference id in
      let '(a, s1) := sweep_booking id (now - GRACE_PERIOD_MINS * 60 * 1000) now r rel ref s in
      let '(acts, s2) := sweep_bookings rest now reference s1 in
      ((id, a) :: acts, s2)
  end.

Definition sweepNoShowTransitBookings (now : Z) (reference : string -> string * string * string) (before s : tdb) : list (string * sweep_action) * tdb :=
  sweep_bookings (overdue now before) now reference s.

(** The reservation sweep: candidates, and per candidate the penalty and the
    refund reported, or the error. *)
Inductive resv_detail : Type := RESV_SWEPT (penaltyAmount refundAmount : Q) | RESV_ERROR (error : string).

Definition overdue_resv (now : Z) (s : bdb) : list (string * option escrow_row) :=
  map (fun p => (p.1, i ← rv_escrowId p.2; escrows (core s) !! i))
    (List.filter (fun p => resv_in [R_CONFIRMED] p.2 && bool_decide (rv_checkedInAt p.2 = None) && (rv_endDatetime p.2 <? now))
       (map_to_list (reservations s))).

Definition swept_resv (escrow : option escrow_row) (updated : resv_row) : resv_detail :=
  let penaltyAmount := Number_of_units (default 0 (rv_penaltyAmountUsdc updated)) in
  RESV_SWEPT penaltyAmount (match escrow with Some e => js_sub (Number_of_units (es_amountUsdc e)) penaltyAmount | None => 0%Q end).

Fixpoint sweep_resvs (overdue : list (string * option escrow_row)) (now : Z) (reference : string -> string * string * string) (s : bdb)
    : list (string * resv_detail) * bdb :=
  match overdue with
  | [] => ([], s)
  | (id, escrow) :: rest =>
      let '(r, rel, ref) := reference id in
      let '(d, s1) := match markNoShowReservation sha256 id None now r rel ref s s with
                      | (Ok updated, s1) => (swept_resv escrow updated, s1)
                      | (Err e, s1) => (RESV_ERROR e, s1)
                      end in
      let '(ds, s2) := sweep_resvs rest now reference s1 in
      ((id, d) :: ds, s2)
  end.

Definition sweepNoShowReservations (now : Z) (reference : string -> string * string * string) (before s : tdb) : list (string * resv_detail) * tdb :=
  let '(ds, b) := sweep_resvs (overdue_resv now (base before)) now reference (base s) in (ds, set_base b s).

(** ** The transit controller *)

(** [String(Date.now()).slice(-6)] and [padStart(4, '0')]. *)
Definition booking_reference (now : Z) (count : nat) : string :=
  ("TRN-" +:+ fixed_digits 6 now +:+ "-" +:+ fixed_digits 4 (Z.of_nat (count + 1) mod 10000))%string.

(** An order without a trip; [amountUsdc] is [parseFloat(amountUsdc)]. *)
Definition createBooking (userId : Z) (businessProfileId : string) (vehicleId : option string) (scheduledAt : option Z) (amountUsdc : Num.num)
    (newId : string) (now : Z) (before s : tdb) : res transit_row * tdb :=
  match throw_if (String.length businessProfileId =? 0)%nat "400";;
        biz ← of_option (businesses before !! businessProfileId) "404";
        throw_if (bz_isSuspended biz) "403";;
        match truthy vehicleId with
        | Some v =>
            vehicle ← of_option (vehicles before !! v) "400";
            throw_if (negb (String.eqb (vh_businessProfileId vehicle) businessProfileId)) "400";;
            throw_if (negb (vh_isActive vehicle)) "409"
        | None => mret tt
        end;;
        match amountUsdc with Num.Fin q => mret q | _ => Err "500" end
  with
  | Err e => (Err e, s)
  | Ok amount =>
      let b := TransitRow businessProfileId userId None T_PENDING scheduledAt (num_to_col amount) (booking_reference now (size (transits (base before)))) now
                 None None None None None None None in
      transaction (transit_create newId b;; mret b) s
  end.

Definition _isValidTransition (current next : transit_status) : bool :=
  match current with
  | T_PENDING => bool_decide (next ∈ [T_CONFIRMED; T_CANCELLED])
  | T_CONFIRMED => bool_decide (next ∈ [T_IN_PROGRESS; T_CANCELLED; T_NO_SHOW])
  | T_IN_PROGRESS => bool_decide (next = T_COMPLETED)
  | T_COMPLETED | T_CANCELLED | T_NO_SHOW => false
  end.

(** [transitBooking.update] by id, without a condition on the row. *)
Definition transit_put (id : string) (f : transit_row -> transit_row) : M tdb unit :=
  count ← on_base (transit_updateMany id (fun _ => true) f);
  check (count =? 1)%nat "P2025".

Definition nonzero (x : option Q) : bool := match x with Some q => negb (Qeq_bool q 0) | None => false end.

(** [before] is what the controller read, [mid] what the cancellation service
    reads when it is called. *)
Definition updateBookingStatus (userId : Z) (id : string) (nextStatus : transit_status) (now : Z) (reference releaseRef refundRef : string)
    (before mid s : tdb) : res unit * tdb :=
  match transit_of id before with
  | None => (Err "404", s)
  | Some booking =>
      let isOwner := match businesses before !! tb_businessProfileId booking with Some b => bz_userId b =? userId | None => false end in
      if negb (tb_customerId booking =? userId) && negb isOwner then (Err "403", s)
      else if negb isOwner && negb (bool_decide (nextStatus = T_CANCELLED)) then (Err "403", s)
      else if negb (_isValidTransition (tb_status booking) nextStatus) then (Err "409", s)
      else if bool_decide (nextStatus = T_CANCELLED) then
        match cancelTransitBooking id userId now reference mid s with (Ok _, s') => (Ok tt, s') | (Err e, s') => (Err e, s') end
      else
        let live := match escrow_of booking before with Some (i, e) => if in_status LIVE e then Some i else None | None => None end in
        let penalized := nonzero (tb_penalty_pct booking) || nonzero (tb_penalty_flat booking) in
        match (if bool_decide (nextStatus = T_NO_SHOW) && penalized then live else None) with
        | Some i =>
            match transaction (on_base (_splitReleaseFundedEscrowTx sha256 i (tb_penalty_pct booking) (tb_penalty_flat booking)
                    (Some TRANSIT) (Some id) now releaseRef refundRef (fun _ => true))) s with
            | (Ok _, s') => (Ok tt, s')
            | (Err e, s') => (Err e, s')
            end
        | None => transaction (transit_put id (transit_status_to nextStatus)) s
        end
  end.

(** [transitCheckIn] of services/qrCheckInService.js. *)
Definition boarded_transit (now : Z) (r : transit_row) : transit_row :=
  transit_with T_IN_PROGRESS (Some now) (tb_escrowId r) (tb_ticketId r) (tb_penaltyAmountUsdc r) (tb_penaltyChargedAt r) r.
Definition transitCheckIn (bookingId : string) (businessUserId now : Z) (before s : tdb) : res unit * tdb :=
  if (String.length bookingId =? 0)%nat then (Err "bookingId is required.", s) else
  match transit_of bookingId before with
  | None => (Err "Transit booking not found.", s)
  | Some booking =>
      match businesses before !! tb_businessProfileId booking with
      | None => (Err "TypeError", s)
      | Some b =>
          if negb (bz_userId b =? businessUserId) then (Err "This booking does not belong to your business.", s)
          else if negb (transit_in [T_CONFIRMED] booking) then (Err "Booking cannot check in.", s)
          else transaction (transit_put bookingId (boarded_transit now)) s
      end
  end.

(** ** Trips of the business portal *)

(** The caller's profile and vehicle checks are reads; [fare] is
    [parseFloat(fareUsdc)] of a truthy fare. *)
Definition createTransitTrip (userId : Z) (vehicleId : string) (departureAt : Z) (fare : Q) (newId : string) : M tdb unit :=
  s ← get;
  profile ← lift (of_option (List.find (fun p => bz_userId p.2 =? userId) (map_to_list (businesses s))) "404");
  vehicle ← lift (of_option (vehicles s !! vehicleId) "403");
  check (String.eqb (vh_businessProfileId vehicle) profile.1) "403";;
  check (match trips s !! newId with None => true | _ => false end) "P2002";;
  check (Z.abs (num_to_col fare) <? DECIMAL_20_8_LIMIT) "NUMERIC_OVERFLOW";;
  let availableSeats := match vh_seatMap vehicle with Some l => Z.of_nat (length l) | None => vh_capacity vehicle end in
  put (set_trips (<[newId := TripRow profile.1 vehicleId departureAt (num_to_col fare) availableSeats "SCHEDULED" ∅]> (trips s)) s).

(** An absent field is left as it is. *)
Definition updateTransitTrip (userId : Z) (id : string) (departureAt : option Z) (fare : option Q) (status : option string) : M tdb unit :=
  s ← get;
  profile ← lift (of_option (List.find (fun p => bz_userId p.2 =? userId) (map_to_list (businesses s))) "404");
  trip ← lift (of_option (trips s !! id) "404");
  check (String.eqb (tr_businessProfileId trip) profile.1) "403";;
  trip_update id (fun r => TripRow (tr_businessProfileId r) (tr_vehicleId r) (default (tr_departureAt r) departureAt)
                             (match fare with Some q => num_to_col q | None => tr_fareUsdc r end) (tr_availableSeats r)
                             (default (tr_status r) status) (tr_tierFares r)).
End Service.
