(* ===== verification/Penalty.v ===== *)
(** * Business no-shows (services/penaltyPolicyService.js)

    The settlement when a business defaults: one transaction refunds the
    escrow, claims a penalty from the business stake where the stake covers
    it, closes the booking and writes the audit row.  State: [tdb] of Transit. *)

From stdpp Require Import base gmap strings list.
From Stdlib Require Import ZArith QArith Lia Ascii.
From S2P Require Import Prelude JsNumber ExactDecimal Json Ledger Idempotency Escrow Booking Reservation Transit.

Local Open Scope Z_scope.

Definition BUSINESS_PENALTY_PCT : Q := fl (1 # 10).

Definition _calculateBusinessPenalty (amountUsdc : Z) : Q :=
  let principal := Number_of_units amountUsdc in
  if js_lt 0 principal then round6 (js_mul principal BUSINESS_PENALTY_PCT) else 0%Q.

Definition RESERVATION_PRE_TERMINAL : list reservation_status := [R_PENDING; R_CONFIRMED; R_CHECKED_IN].
Definition TRANSIT_PRE_TERMINAL : list transit_status := [T_PENDING; T_CONFIRMED; T_IN_PROGRESS].

Inductive no_show_result : Type :=
| AlreadyProcessed (escrow : escrow_row)
| Processed (escrow : escrow_row) (penaltyApplied : bool) (penaltyAmount : Q).

(** What the service uses of the booking of either table. *)
Record booking_view : Type := BookingView { bv_escrowId : option string; bv_businessProfileId : string; bv_terminal : bool }.

Section Service.
Context `{DecimalLib} `{PrismaNumber} (sha256 : string -> string).

Definition view_booking (type : booking_type) (bookingId : string) (s : tdb) : option booking_view :=
  match type with
  | RESERVATION =>
      r ← reservations (base s) !! bookingId;
      Some (BookingView (rv_escrowId r) (rv_businessProfileId r) (resv_in [R_CANCELLED_BUSINESS] r))
  | TRANSIT =>
      r ← transit_of bookingId s;
      Some (BookingView (tb_escrowId r) (tb_businessProfileId r) (transit_in [T_CANCELLED] r))
  end.

(** The booking named by the caller must be the escrow's and the business's. *)
Definition owned_booking (type : booking_type) (bookingId businessProfileId : option string) (escrowId : string) : M tdb (option (string * booking_view)) :=
  match truthy bookingId with
  | None => mret None
  | Some b =>
      v ← reads (view_booking type b);
      booking ← lift (of_option v "booking not found.");
      check (bool_decide (bv_escrowId booking = Some escrowId)) "BOOKING_ESCROW_MISMATCH";;
      check (match truthy businessProfileId with Some p => String.eqb (bv_businessProfileId booking) p | None => true end) "BUSINESS_MISMATCH";;
      mret (Some (b, booking))
  end.

(** [businessProfile.updateMany where stakeBalance gte penalty]. *)
Definition stake_claim (businessProfileId : option string) (penalty : Q) : M tdb bool :=
  match truthy businessProfileId with
  | Some p =>
      if js_lt 0 penalty then
        s ← get;
        match businesses s !! p with
        | Some b =>
            if num_to_col penalty <=? bz_stakeBalance b then
              put (set_businesses (<[p := BizRow (bz_userId b) (bz_isSuspended b) (bz_stakeBalance b - num_to_col penalty)]> (businesses s)) s);;
              mret true
            else mret false
        | None => mret false
        end
      else mret false
  | None => mret false
  end.

Definition business_cancelled_transit (amount now : Z) (r : transit_row) : transit_row :=
  transit_with T_CANCELLED (tb_checkedInAt r) (tb_escrowId r) (tb_ticketId r) (Some amount) (Some now) r.

Definition close_booking (type : booking_type) (b : string) (booking : booking_view) (charged now : Z) : M tdb unit :=
  count ← match type with
          | RESERVATION => on_base (resv_updateMany b (resv_in RESERVATION_PRE_TERMINAL) (business_cancelled_resv charged now))
          | TRANSIT => on_base (transit_updateMany b (transit_in TRANSIT_PRE_TERMINAL) (business_cancelled_transit charged now))
          end;
  check (negb ((count =? 0)%nat && negb (bv_terminal booking))) "BOOKING_NOT_TRANSITIONABLE".

Definition no_show_tx (escrowId : string) (type : booking_type) (bookingId businessProfileId : option string) (now : Z) (reference : string)
    : M tdb no_show_result :=
  r ← on_escrow (escrow_find escrowId);
  escrow ← lift (of_option r "Escrow not found.");
  if negb (in_status LIVE escrow) then
    if in_status [REFUNDED] escrow then mret (AlreadyProcessed escrow) else throw "Escrow cannot be processed for business no-show"
  else
    booking ← owned_booking type bookingId businessProfileId escrowId;
    let businessPenalty := _calculateBusinessPenalty (es_amountUsdc escrow) in
    refundedEscrow ← on_escrow (_refundEscrowTx sha256 escrowId escrow REFUNDED now reference);
    penaltyApplied ← stake_claim businessProfileId businessPenalty;
    match booking with
    | Some (b, v) => close_booking type b v (if (penaltyApplied : bool) then num_to_col businessPenalty else 0) now
    | None => mret tt
    end;;
    modify (add_audit (AuditRow type (default escrowId (truthy bookingId)) businessProfileId escrowId
      (Number_of_units (es_amountUsdc escrow)) businessPenalty penaltyApplied));;
    mret (Processed refundedEscrow penaltyApplied businessPenalty).

Definition processBusinessNoShow (escrowId : string) (type : booking_type) (bookingId businessProfileId : option string) (now : Z) (reference : string)
    (s : tdb) : res no_show_result * tdb :=
  transaction (no_show_tx escrowId type bookingId businessProfileId now reference) s.
End Service.
