(* ===== verification/TransitProps.v ===== *)
(** * Correctness of transit bookings: seats

    The transit operations as steps over one database, with stale reads
    ([tstep]).  Each step in which the controllers write on the row they read
    ([ordered_step]) is a [tmove]: bookings move forward and keep their seats while they
    can still be cancelled, and a trip's free seats and seat assignments add up
    to the same number. *)

From stdpp Require Import base gmap strings list relations.
From Stdlib Require Import ZArith QArith Lia Ascii.
From S2P Require Import Prelude JsNumber ExactDecimal Json Ledger LedgerFacts Idempotency Escrow EscrowFacts EscrowProps Booking BookingFacts Reservation BookingProps Transit Penalty.

Local Open Scope Z_scope.

(** ** Counting seats *)

Section Count.
Context {K A : Type} `{Countable K}.
Implicit Types (m : gmap K A) (P : K * A -> Prop).

Lemma size_filter_insert P `{!forall x, Decision (P x)} m k a :
  m !! k = None -> size (filter P (<[k := a]> m)) = (size (filter P m) + if bool_decide (P (k, a)) then 1 else 0)%nat.
Proof.
  intros Hk. case_bool_decide as HP.
  - rewrite map_filter_insert_True by done. rewrite map_size_insert_None; [lia |]. by apply map_lookup_filter_None_2; left.
  - rewrite map_filter_insert_False by done. rewrite delete_id by done. lia.
Qed.

Lemma size_filter_split P Q `{!forall x, Decision (P x), !forall x, Decision (Q x)} m :
  (forall k a, m !! k = Some a -> Q (k, a) -> P (k, a)) ->
  size (filter P m) = (size (filter P (filter (fun x => ~ Q x) m)) + size (filter Q m))%nat.
Proof.
  intros HQP.
  assert (Hu : filter P m = filter P (filter (fun x => ~ Q x) m) ∪ filter Q m).
  { apply map_eq. intros k. apply option_eq. intros a. rewrite lookup_union_Some.
    - rewrite !map_lookup_filter_Some. destruct (decide (Q (k, a))); naive_solver.
    - apply map_disjoint_spec. intros i x y Hx Hy. rewrite !map_lookup_filter_Some in Hx. rewrite map_lookup_filter_Some in Hy.
      destruct Hx as [[Hx Hn] _], Hy as [Hy Hq]. congruence. }
  rewrite Hu at 1. apply map_size_disj_union. apply map_disjoint_spec. intros i x y Hx Hy.
  rewrite !map_lookup_filter_Some in Hx. rewrite map_lookup_filter_Some in Hy. destruct Hx as [[Hx Hn] _], Hy as [Hy Hq]. congruence.
Qed.
End Count.

(** ** Bookings *)

(** The moves of a booking's status. *)
Definition transit_allowed (a b : transit_status) : bool :=
  bool_decide (a = b) ||
  match a with
  | T_PENDING => bool_decide (b ∈ [T_CONFIRMED; T_CANCELLED])
  | T_CONFIRMED => bool_decide (b ∈ [T_IN_PROGRESS; T_CANCELLED; T_NO_SHOW])
  | T_IN_PROGRESS => bool_decide (b ∈ [T_COMPLETED; T_CANCELLED])
  | T_COMPLETED | T_CANCELLED | T_NO_SHOW => false
  end.

Record transit_later (r r' : transit_row) : Prop := {
  tl_trip : tb_tripId r' = tb_tripId r;
  tl_customer : tb_customerId r' = tb_customerId r;
  tl_amount : tb_amountUsdc r' = tb_amountUsdc r;
  tl_allowed : rtc (fun a b => transit_allowed a b = true) (tb_status r) (tb_status r');
}.

Lemma transit_allowed_refl st : transit_allowed st st = true.
Proof. unfold transit_allowed. by rewrite bool_decide_true. Qed.

#[export] Instance transit_later_po : PreOrder transit_later.
Proof.
  split.
  - intros r. by split.
  - intros x y z [] []. split; [congruence.. |]. by etrans.
Qed.

Lemma transit_in_spec l r : transit_in l r = true <-> tb_status r ∈ l.
Proof.
  unfold transit_in. rewrite existsb_exists. split.
  - intros (st & Hin & Hst). apply bool_decide_eq_true in Hst as ->. by apply list_elem_of_In.
  - intros Hin. exists (tb_status r). split; [by apply list_elem_of_In | by apply bool_decide_eq_true].
Qed.

(** A booking that can be cancelled could always be cancelled. *)
Lemma cancellable_back r r' : transit_later r r' -> transit_in CANCELLABLE_STATUSES r' = true -> transit_in CANCELLABLE_STATUSES r = true.
Proof.
  intros [_ _ _ Hal]. unfold transit_in. induction Hal as [| a b c Hab _ IH]; [done |]. intros Hc. specialize (IH Hc).
  by destruct a, b.
Qed.

(** ** The invariant and the moves *)

Record tinv (s : tdb) : Prop := {
  ti_seat : forall t x r, seats s !! (t, x) = Some r ->
    t <> ""%string /\ exists b, transit_of (bs_bookingId r) s = Some b /\ tb_tripId b = Some t;
}.

Definition trip_total (t : string) (s : tdb) : Z := Z.of_nat (size (seats_of_trip t s)).

Record tmove (s s' : tdb) : Prop := {
  tm_vehicles : vehicles s' = vehicles s;
  tm_rows : forall id r, transit_of id s = Some r -> exists r', transit_of id s' = Some r' /\ transit_later r r';
  tm_seats : forall id r', is_Some (transit_of id s) -> transit_of id s' = Some r' -> transit_in CANCELLABLE_STATUSES r' = true ->
    seats_of id s' = seats_of id s;
  tm_trips : forall t tr, trips s !! t = Some tr -> exists tr', trips s' !! t = Some tr' /\ tr_vehicleId tr' = tr_vehicleId tr /\
    tr_availableSeats tr' + trip_total t s' = tr_availableSeats tr + trip_total t s;
  tm_layout : forall t x, is_Some (seats s' !! (t, x)) -> is_Some (seats s !! (t, x)) \/
    exists tr layout, trips s' !! t = Some tr /\ trip_layout tr s' = Some layout /\ x ∈ map seatId layout;
}.

#[export] Instance tmove_po : PreOrder tmove.
Proof.
  split.
  - intros s. split; [done | intros id r Hr; by exists r | done | intros t tr Htr; by exists tr | by left].
  - intros s1 s2 s3 H1 H2. split.
    + by rewrite (tm_vehicles _ _ H2), (tm_vehicles _ _ H1).
    + intros id r Hr. destruct (tm_rows _ _ H1 id r Hr) as (r1 & Hr1 & Hl1). destruct (tm_rows _ _ H2 id r1 Hr1) as (r2 & Hr2 & Hl2).
      exists r2. split; [done | by etrans].
    + intros id r' Hs Hr' Hc. destruct Hs as [r Hr]. destruct (tm_rows _ _ H1 id r Hr) as (r1 & Hr1 & Hl1).
      destruct (tm_rows _ _ H2 id r1 Hr1) as (r2 & Hr2 & Hl2). assert (r2 = r') as -> by congruence.
      rewrite (tm_seats _ _ H2 id r') by (by eexists || done). apply (tm_seats _ _ H1 id r1); [by eexists | done |].
      by eapply cancellable_back.
    + intros t tr Htr. destruct (tm_trips _ _ H1 t tr Htr) as (tr1 & Htr1 & Hv1 & He1).
      destruct (tm_trips _ _ H2 t tr1 Htr1) as (tr2 & Htr2 & Hv2 & He2). exists tr2. split_and!; [done | congruence | lia].
    + intros t x Hx. destruct (tm_layout _ _ H2 t x Hx) as [Hx2 | Hx2]; [| by right].
      destruct (tm_layout _ _ H1 t x Hx2) as [Hx1 | (tr & layout & Htr & Hlay & Hin)]; [by left | right].
      destruct (tm_trips _ _ H2 t tr Htr) as (tr2 & Htr2 & Hv2 & _). exists tr2, layout. split_and!; [done | | done].
      unfold trip_layout in *. by rewrite Hv2, (tm_vehicles _ _ H2).
Qed.

(** Rows of the booking table only move forward, and may be added. *)
Definition rows_later (b b' : bdb) : Prop :=
  forall id r, transits b !! id = Some r -> exists r', transits b' !! id = Some r' /\ transit_later r r'.

#[export] Instance rows_later_po : PreOrder rows_later.
Proof.
  split.
  - intros b id r Hr. by exists r.
  - intros b1 b2 b3 H1 H2 id r Hr. destruct (H1 id r Hr) as (r1 & Hr1 & Hl1). destruct (H2 id r1 Hr1) as (r2 & Hr2 & Hl2).
    exists r2. split; [done | by etrans].
Qed.

Lemma rows_same b b' : transits b' = transits b -> rows_later b b'.
Proof. intros He id r Hr. exists r. by rewrite He. Qed.

(** A step that writes neither seats nor trips. *)
Lemma move_rows s s' :
  seats s' = seats s -> trips s' = trips s -> vehicles s' = vehicles s -> rows_later (base s) (base s') -> tmove s s' /\ (tinv s -> tinv s').
Proof.
  intros Hs Ht Hv Hr. split; [split |].
  - done.
  - exact Hr.
  - intros. unfold seats_of. by rewrite Hs.
  - intros t tr Htr. exists tr. unfold trip_total, seats_of_trip. by rewrite Ht, Hs.
  - intros t x. rewrite Hs. by left.
  - intros Hi. split. intros t x r Hx. rewrite Hs in Hx. destruct (ti_seat s Hi t x r Hx) as (Hne & b & Hb & Hbt).
    destruct (Hr _ b Hb) as (b' & Hb' & Hl). split; [done |]. exists b'. split; [done |]. by rewrite (tl_trip _ _ Hl).
Qed.

(** A step that only writes trips, and leaves vehicle and capacity alone. *)
Lemma move_trips s s' m :
  s' = set_trips m s ->
  (forall t tr, trips s !! t = Some tr -> exists tr', m !! t = Some tr' /\ tr_vehicleId tr' = tr_vehicleId tr /\ tr_availableSeats tr' = tr_availableSeats tr) ->
  tmove s s' /\ (tinv s -> tinv s').
Proof.
  intros -> Hm. split; [split; simpl |].
  - done.
  - intros id r Hr. by exists r.
  - done.
  - intros t tr Htr. destruct (Hm t tr Htr) as (tr' & Htr' & Hv & Ha). exists tr'. unfold trip_total. by rewrite Ha.
  - by left.
  - intros Hi. split. exact (ti_seat s Hi).
Qed.

(** ** Statements *)

Lemma on_base_Ok {A} (m : M bdb A) s a s' : on_base m s = Ok (a, s') <-> exists b, m (base s) = Ok (a, b) /\ s' = set_base b s.
Proof.
  unfold on_base. destruct (m (base s)) as [[x b] | e]; split.
  - intros [= -> <-]. eauto.
  - by intros (c & [= -> ->] & ->).
  - done.
  - by intros (c & ? & _).
Qed.

Lemma on_escrow_Ok {A} (m : M edb A) s a s' :
  on_escrow m s = Ok (a, s') <-> exists c, m (core (base s)) = Ok (a, c) /\ s' = set_base (set_core c (base s)) s.
Proof.
  unfold on_escrow. rewrite on_base_Ok. setoid_rewrite on_core_Ok. split.
  - intros (b & (c & Hc & ->) & ->). eauto.
  - intros (c & Hc & ->). eauto.
Qed.

Lemma transit_update_Ok id cond f b n b' :
  transit_updateMany id cond f b = Ok (n, b') ->
  (n = 0%nat /\ b' = b /\ (forall r, transits b !! id = Some r -> cond r = false)) \/
  (n = 1%nat /\ exists r, transits b !! id = Some r /\ cond r = true /\ b' = set_transits (<[id := f r]> (transits b)) b).
Proof.
  unfold transit_updateMany. intros Hr. apply Mbind_Ok in Hr as (s1 & s2 & Hg & Hr). apply get_Ok in Hg as [-> ->].
  destruct (transits b !! id) as [r |] eqn:He; [| run_inv Hr; by left].
  destruct (cond r) eqn:Hc; run_inv Hr; [right; split; [done |]; by exists r | left].
  split_and!; try done. intros r0 [= <-]. done.
Qed.

Lemma rows_insert b id r r' : transits b !! id = Some r -> transit_later r r' -> rows_later b (set_transits (<[id := r']> (transits b)) b).
Proof.
  intros Hr Hl i x Hx. simpl. destruct (decide (i = id)) as [-> | Hne].
  - rewrite lookup_insert_eq. assert (x = r) as -> by congruence. eauto.
  - rewrite lookup_insert_ne by done. by exists x.
Qed.

Lemma rows_update id cond f b n b' :
  (forall r, cond r = true -> transit_later r (f r)) -> transit_updateMany id cond f b = Ok (n, b') -> rows_later b b'.
Proof.
  intros Hf Hr. apply transit_update_Ok in Hr as [(_ & -> & _) | (_ & r & Hr & Hc & ->)]; [done |]. by eapply rows_insert; [| apply Hf].
Qed.

(** A row whose trip, customer and amount are kept, one allowed status on. *)
Lemma later_with st ci e t a c r : transit_allowed (tb_status r) st = true -> transit_later r (transit_with st ci e t a c r).
Proof. intros Hal. split; try done. by apply rtc_once. Qed.

Lemma in_one st r : transit_in [st] r = true -> tb_status r = st.
Proof. intros Hin. by apply transit_in_spec, list_elem_of_singleton in Hin. Qed.

Ltac later_tac Hin := apply later_with; first [apply in_one in Hin; by rewrite Hin | unfold transit_in in Hin; by destruct (tb_status _)].

Lemma rows_on_core {A} (m : M edb A) b a b' : on_core m b = Ok (a, b') -> rows_later b b'.
Proof. intros Hr. apply on_core_Ok in Hr as (c & _ & ->). by apply rows_same. Qed.

Lemma rows_resv id cond f b n b' : resv_updateMany id cond f b = Ok (n, b') -> rows_later b b'.
Proof. intros Hr. apply resv_updateMany_Ok in Hr as [[_ ->] | (_ & r & _ & _ & ->)]; by apply rows_same. Qed.

Lemma rows_booking_claim bt bid id now b x b' : booking_claim bt bid id now b = Ok (x, b') -> rows_later b b'.
Proof.
  intros Hr. unfold booking_claim in Hr.
  destruct bt as [[] |], (truthy bid) as [k |]; try (apply Mret_Ok in Hr as [_ ->]; done).
  - unfold _claimReservationForFundingTx in Hr. apply Mbind_Ok in Hr as (n & s1 & Hu & Hr). apply rows_resv in Hu.
    destruct (n =? 1)%nat; [by apply Mret_Ok in Hr as [_ ->] |]. apply Mbind_Ok in Hr as (r & s2 & Hf & Hr). apply reads_Ok in Hf as [_ ->].
    by apply check_Ok in Hr as [_ ->].
  - unfold _claimTransitBookingForFundingTx in Hr. apply Mbind_Ok in Hr as (fd & s1 & Hf & Hr). apply reads_Ok in Hf as [_ ->].
    destruct fd as [[lid l] |]; [| by apply throw_Ok in Hr]. apply Mbind_Ok in Hr as (y & s1 & Hc & Hr). apply check_Ok in Hc as [_ ->].
    destruct (transit_in [T_PENDING] l); [| by apply check_Ok in Hr as [_ ->]].
    apply Mbind_Ok in Hr as (n & s1 & Hu & Hr). apply rows_update in Hu; last (intros r Hc; apply andb_true_iff in Hc as [_ Hc]; later_tac Hc).
    destruct (n =? 1)%nat; [by apply Mret_Ok in Hr as [_ ->] |]. apply Mbind_Ok in Hr as (r & s2 & Hf & Hr). apply reads_Ok in Hf as [_ ->].
    by apply check_Ok in Hr as [_ ->].
Qed.

Section Rows.
Context `{DecimalLib} `{PrismaNumber} (sha256 : string -> string).

Lemma rows_fund id payer bt bid now ref b0 b r b' : fundBookingEscrow sha256 id payer bt bid now ref b0 b = (Ok r, b') -> rows_later b b'.
Proof.
  unfold fundBookingEscrow. destruct (runDoubleCheck payer (core b0)); [| done]. intros Hr. apply transaction_Ok in Hr.
  unfold fund_booking_tx in Hr. apply Mbind_Ok in Hr as (e & b1 & H1 & Hr). apply Mbind_Ok in Hr as (x & b2 & H2 & Hr).
  apply Mbind_Ok in Hr as (y & b3 & H3 & Hr). apply Mbind_Ok in Hr as (z & b4 & H4 & Hr). apply lift_Ok in Hr as [_ ->].
  etrans; [by eapply rows_on_core |]. etrans; [by eapply rows_booking_claim |]. etrans; by eapply rows_on_core.
Qed.

Lemma rows_create bt bid payer payee amount nt ne now b e b' :
  createBookingEscrow bt bid payer payee amount nt ne now b = Ok (e, b') -> rows_later b b'.
Proof.
  intros Hr. unfold createBookingEscrow in Hr.
  apply Mbind_Ok in Hr as (x1 & s1 & Hc & Hr). apply check_Ok in Hc as [_ ->].
  apply Mbind_Ok in Hr as (x2 & s1 & Hc & Hr). apply check_Ok in Hc as [_ ->].
  apply Mbind_Ok in Hr as (a & s1 & Hc & Hr). assert (s1 = b) as ->.
  { destruct amount as [q | |]; [| by apply throw_Ok in Hc..]. destruct (js_lt 0 q); [by apply Mret_Ok in Hc as [_ ->] | by apply throw_Ok in Hc]. }
  apply Mbind_Ok in Hr as (x3 & s1 & Hc2 & Hr). apply check_Ok in Hc2 as [_ ->].
  apply Mbind_Ok in Hr as (x4 & s1 & Hg & Hr). apply get_Ok in Hg as [-> ->].
  apply Mbind_Ok in Hr as (x5 & s1 & Hins & Hr). apply rows_on_core in Hins.
  apply Mbind_Ok in Hr as (n & s2 & Hl & Hr). apply Mbind_Ok in Hr as (x6 & s3 & Hc3 & Hr). apply check_Ok in Hc3 as [_ ->].
  apply Mret_Ok in Hr as [_ ->]. etrans; [exact Hins |]. destruct bt; [by eapply rows_resv |].
  eapply rows_update; [| exact Hl]. intros r _. apply later_with, transit_allowed_refl.
Qed.

Lemma rows_split id p f bid now r1 r2 w b x b' :
  _splitReleaseFundedEscrowTx sha256 id p f (Some TRANSIT) bid now r1 r2 w b = Ok (x, b') -> rows_later b b'.
Proof.
  intros Hr. unfold _splitReleaseFundedEscrowTx in Hr. apply Mbind_Ok in Hr as (c & s1 & Hc & Hr). apply lift_Ok in Hc as [_ ->].
  apply Mbind_Ok in Hr as (o & s1 & H1 & Hr). apply Mbind_Ok in Hr as (e & s2 & H2 & Hr). apply lift_Ok in H2 as [_ ->].
  destruct (penalty_shares _ _) as [pa ra]. apply Mbind_Ok in Hr as (y & s2 & H2 & Hr). apply Mbind_Ok in Hr as (z & s3 & H3 & Hr).
  apply Mbind_Ok in Hr as (u & s4 & H4 & Hr). apply Mbind_Ok in Hr as (v & s5 & H5 & Hr). apply lift_Ok in H5 as [_ ->]. apply Mret_Ok in Hr as [_ ->].
  etrans; [by eapply rows_on_core |]. etrans; [by eapply rows_on_core |]. etrans; [| by eapply rows_on_core].
  destruct (truthy bid) as [k |]; [| by apply Mret_Ok in H3 as [_ ->]].
  apply Mbind_Ok in H3 as (n & s6 & Hu & Hc). apply check_Ok in Hc as [_ ->]. eapply rows_update; [| exact Hu]. intros r Hc. later_tac Hc.
Qed.
End Rows.

(** ** Booking seats *)

Record seats_added (trip bid : string) (rows : list (string * option string)) (s s' : tdb) : Prop := {
  sa_state : s' = set_seats (seats s') s;
  sa_from : forall t x r, seats s' !! (t, x) = Some r -> seats s !! (t, x) = Some r \/ t = trip /\ x ∈ map fst rows /\ bs_bookingId r = bid;
  sa_count : forall t, size (seats_of_trip t s') = (size (seats_of_trip t s) + if bool_decide (t = trip) then length rows else 0)%nat;
  sa_others : forall id, id <> bid -> seats_of id s' = seats_of id s;
}.

Lemma seat_createMany_Ok trip bid rows s x s' : seat_createMany trip bid rows s = Ok (x, s') -> seats_added trip bid rows s s'.
Proof.
  revert s. induction rows as [| [seat name] rows IH]; intros s Hr; simpl in Hr.
  { apply Mret_Ok in Hr as [_ ->]. split; [by destruct s | by left | | done]. intros t. case_bool_decide; simpl; lia. }
  apply Mbind_Ok in Hr as (y & s1 & Hg & Hr). apply get_Ok in Hg as [-> ->].
  apply Mbind_Ok in Hr as (y & s1 & Hc & Hr). apply check_Ok in Hc as [Hc ->].
  apply Mbind_Ok in Hr as (y2 & s1 & Hp & Hr). apply put_Ok in Hp as ->.
  assert (Hn : seats s !! (trip, seat) = None) by (by destruct (seats s !! (trip, seat))).
  destruct (IH _ Hr) as [Hst Hfrom Hcnt Hoth]. cbn [seats set_seats] in *. split.
  - rewrite Hst. by destruct s.
  - intros t z r Hz. destruct (Hfrom t z r Hz) as [Hz' | (-> & Hin & <-)].
    + destruct (decide ((trip, seat) = (t, z))) as [[= <- <-] | Hne].
      * rewrite lookup_insert_eq in Hz'. injection Hz' as <-. right. split_and!; [done | by left | done].
      * rewrite lookup_insert_ne in Hz' by done. by left.
    + right. split_and!; [done | by right | done].
  - intros t. rewrite Hcnt. unfold seats_of_trip. cbn [seats set_seats]. rewrite size_filter_insert by done. cbn [fst length].
    repeat case_bool_decide; naive_solver lia.
  - intros id Hne. rewrite Hoth by done. unfold seats_of. cbn [seats set_seats]. rewrite map_filter_insert_False by (simpl; congruence).
    by rewrite delete_id.
Qed.

Lemma seat_data_ids ids names : map fst (seat_data ids names) = ids.
Proof.
  apply list_eq. intros i. unfold seat_data. change (map fst) with (fmap (M := list) (@fst string (option string))).
  rewrite list_lookup_fmap, list_lookup_imap. by destruct (ids !! i).
Qed.

Lemma transit_create_Ok id r s x s' :
  transit_create id r s = Ok (x, s') -> transit_of id s = None /\ s' = set_base (set_transits (<[id := r]> (transits (base s))) (base s)) s.
Proof.
  unfold transit_create. intros Hr. apply Mbind_Ok in Hr as (z & s5 & Hg & Hr). apply get_Ok in Hg as [-> ->].
  apply Mbind_Ok in Hr as (y & s5 & Hfree & Hr). apply check_Ok in Hfree as [Hfree ->]. run_inv Hr. split; [by destruct (transit_of id s) | done].
Qed.

Section Book.
Context `{DecimalLib} `{PrismaNumber} (sha256 : string -> string) (wire : string -> transit_row -> list string -> Q -> string).

(** The stale reads: [s0] is an earlier database. *)
Definition t_earlier (s0 s : tdb) : Prop := tmove s0 s.

Lemma book_read_Ok tripId customer seatIds s trip fare :
  book_read tripId customer seatIds s = Ok (trip, fare) ->
  tripId <> ""%string /\ trips s !! tripId = Some trip /\ seatIds <> [] /\
  exists layout, trip_layout trip s = Some layout /\ fare = total_fare trip layout seatIds /\ forall x, x ∈ seatIds -> x ∈ map seatId layout.
Proof.
  intros Hr. unfold book_read in Hr. res_inv Hr. split_and!; [by intros -> | done | by intros -> |].
  exists v7. split_and!; [done | done |]. intros x Hx. apply negb_false_iff, forallb_forall with (x := x) in Hres8; [| by apply list_elem_of_In].
  unfold str_mem in Hres8. apply existsb_exists in Hres8 as (y & Hy & He). apply String.eqb_eq in He as ->. by apply list_elem_of_In.
Qed.

(** What the booking transaction leaves. *)
Lemma book_tx_Ok tripId customer seatIds names trip fare op newId ref now s x s' :
  book_tx wire tripId customer seatIds names trip fare op newId ref now s = Ok (x, s') ->
  exists tr s1 c, transit_of newId s = None /\ tb_tripId x.1 = Some tripId /\
    seats_added tripId newId (seat_data seatIds names) (set_base (set_transits (<[newId := x.1]> (transits (base s))) (base s)) s) s1 /\
    trips s !! tripId = Some tr /\ s' = set_base (set_core c (base s1)) (set_trips (<[tripId := trip_add_seats (- Z.of_nat (length seatIds)) tr]> (trips s)) s1) /\
    commit_op op 201 (Some (wire newId x.1 seatIds x.2)) (core (base s)) = Ok (tt, c).
Proof.
  unfold book_tx. intros Hr. apply Mbind_Ok in Hr as (q & s1 & Hq & Hr).
  assert (s1 = s) as -> by (destruct fare; [by apply Mret_Ok in Hq as [_ ->] | by apply throw_Ok in Hq..]).
  apply Mbind_Ok in Hr as (y & s1 & Hcr & Hr). apply Mbind_Ok in Hr as (y2 & s2 & Hse & Hr). apply Mbind_Ok in Hr as (y3 & s3 & Htr & Hr).
  apply Mbind_Ok in Hr as (y4 & s4 & Hco & Hr). apply Mret_Ok in Hr as [-> ->]. apply on_escrow_Ok in Hco as (c & Hco & ->). clear Hq.
  apply transit_create_Ok in Hcr as [Hfree ->].
  apply seat_createMany_Ok in Hse. unfold trip_update in Htr. apply Mbind_Ok in Htr as (z2 & s5 & Hg & Htr). apply get_Ok in Hg as [-> ->].
  pose proof (sa_state _ _ _ _ _ Hse) as Hst. assert (trips s2 = trips s) as Ht by (by rewrite Hst). rewrite Ht in Htr.
  destruct (trips s !! tripId) as [tr |] eqn:Hrow; [| by apply throw_Ok in Htr]. apply put_Ok in Htr as ->.
  cbn [base set_trips] in Hco. assert (core (base s2) = core (base s)) as Hcore by (by rewrite Hst). rewrite Hcore in Hco. destruct y4.
  exists tr, s2, c. by split_and!.
Qed.

Lemma book_tinv tripId customer seatIds names op newId ref now s0 s x s' :
  tinv s -> bookSeats wire tripId customer seatIds names op newId ref now s0 s = (Ok x, s') -> tinv s'.
Proof.
  unfold bookSeats. intros Hi Hr. destruct (book_read tripId customer seatIds s0) as [[trip fare] | e] eqn:Hread; [| done].
  destruct (transaction _ s) as [[y | e] s1] eqn:Htx; [| done]. injection Hr as -> ->. apply transaction_Ok in Htx.
  apply book_tx_Ok in Htx as (tr & s1 & c & Hfree & Htrip & Hadd & Hrow & -> & _). destruct Hadd as [Hs1 Hfrom Hcnt Hoth].
  set (sb := set_base (set_transits (<[newId := x.1]> (transits (base s))) (base s)) s) in *.
  assert (Hb : base s1 = base sb) by (by rewrite Hs1). apply book_read_Ok in Hread as (Hne & _).
  split. cbn [seats set_base set_trips]. intros t z r Hz. unfold transit_of. cbn [base set_base set_core transits]. rewrite Hb.
  subst sb. cbn [base set_base set_transits transits]. destruct (Hfrom t z r Hz) as [Hz' | (-> & _ & Hbk)].
  - destruct (ti_seat s Hi t z r Hz') as (Hne' & b & Hb' & Hbt). split; [done |]. exists b. split; [| done].
    rewrite lookup_insert_ne; [done |]. intros Heq. unfold transit_of in *. congruence.
  - split; [done |]. exists x.1. by rewrite Hbk, lookup_insert_eq.
Qed.

Lemma book_move tripId customer seatIds names op newId ref now s0 s x s' :
  t_earlier s0 s -> bookSeats wire tripId customer seatIds names op newId ref now s0 s = (Ok x, s') -> tmove s s' /\ (tinv s -> tinv s').
Proof.
  intros Hst Hr0. pose proof Hr0 as Hr. unfold bookSeats in Hr. destruct (book_read tripId customer seatIds s0) as [[trip fare] | e] eqn:Hread; [| done].
  destruct (transaction _ s) as [[y | e] s1] eqn:Htx; [| done]. injection Hr as -> ->. apply transaction_Ok in Htx.
  apply book_tx_Ok in Htx as (tr & s1 & c & Hfree & Htrip & Hadd & Hrow & -> & _). destruct Hadd as [Hs1 Hfrom Hcnt Hoth].
  set (sb := set_base (set_transits (<[newId := x.1]> (transits (base s))) (base s)) s) in *.
  assert (Hb : base s1 = base sb) by (by rewrite Hs1). assert (Hv : vehicles s1 = vehicles s) by (by rewrite Hs1).
  assert (Hlen : length (seat_data seatIds names) = length seatIds) by apply length_imap.
  pose proof (seat_data_ids seatIds names) as Hids.
  apply book_read_Ok in Hread as (Hne & Htrip0 & _ & layout & Hlay & _ & Hin_lay).
  split; [split; cbn [vehicles trips seats set_base set_trips] in * |].
  - by rewrite Hv.
  - intros id r Hr. unfold transit_of. cbn [base set_base transits set_core]. rewrite Hb. subst sb. cbn [base set_base set_transits transits].
    rewrite lookup_insert_ne by (intros <-; congruence). by exists r.
  - intros id r' [r Hr] _ _. unfold seats_of. cbn [seats set_base set_trips]. fold (seats_of id s1). rewrite Hoth; [done | congruence].
  - intros t tr0 Htr0. unfold trip_total, seats_of_trip. cbn [seats set_base set_trips]. fold (seats_of_trip t s1). rewrite Hcnt, Hlen.
    unfold seats_of_trip. subst sb. cbn [seats set_base]. case_bool_decide as Ht.
    + subst t. rewrite lookup_insert_eq. eexists. split; [done |]. assert (tr0 = tr) as -> by congruence. simpl. split; [done | lia].
    + rewrite lookup_insert_ne by done. exists tr0. split_and!; [done | done | lia].
  - intros t z [r Hz]. destruct (Hfrom t z r Hz) as [Hz' | (-> & Hin & _)]; [left; by eexists | right].
    rewrite Hids in Hin. rewrite lookup_insert_eq. eexists _, layout. split_and!; [done | | by apply Hin_lay].
    destruct (tm_trips _ _ Hst tripId trip Htrip0) as (tr1 & Htr1 & Hveh & _). assert (tr1 = tr) as -> by congruence.
    unfold trip_layout in *. simpl. by rewrite Hv, (tm_vehicles _ _ Hst), Hveh.
  - intros Hi. by eapply book_tinv.
Qed.
End Book.

(** ** Cancelling a booking *)

(** The claim sees one linkage, so the loop runs once. *)
Lemma cancel_claim_Ok n id s c s' :
  cancel_claim n id s = Ok (c, s') ->
  (c = None /\ s' = s /\ tb_status <$> transit_of id s = Some T_CANCELLED) \/
  exists r, transit_of id s = Some r /\ transit_in CANCELLABLE_STATUSES r = true /\ c = Some (tb_escrowId r) /\
    s' = set_base (set_transits (<[id := transit_status_to T_CANCELLED r]> (transits (base s))) (base s)) s.
Proof.
  assert (Hs : set_base (base s) s = s) by (by destruct s).
  assert (Hunf : forall n, cancel_claim n id s = Ok (c, s') ->
    (freshLink ← on_base (transit_find id);
     count ← on_base (transit_updateMany id (fun r => transit_in CANCELLABLE_STATUSES r && bool_decide (tb_escrowId r = link_of freshLink))
               (transit_status_to T_CANCELLED));
     if (count =? 1)%nat then mret (Some (link_of freshLink))
     else current ← on_base (transit_find id);
          if bool_decide (tb_status <$> current = Some T_CANCELLED) then mret None
          else if match current with Some r => transit_in CANCELLABLE_STATUSES r | None => false end && negb (bool_decide (link_of current = link_of freshLink))
          then match n with S (S _ as m) => cancel_claim m id | _ => throw "LINKAGE_CONFLICT" end else throw "NOT_CANCELLABLE") s = Ok (c, s')).
  { intros k Hk. by destruct k. }
  intros Hr. apply Hunf in Hr. clear Hunf. apply Mbind_Ok in Hr as (f & s1 & Hf & Hr).
  apply on_base_Ok in Hf as (b & Hf & ->). apply reads_Ok in Hf as [-> ->]. rewrite Hs in Hr.
  apply Mbind_Ok in Hr as (k & s1 & Hu & Hr). apply on_base_Ok in Hu as (b & Hu & ->).
  apply transit_update_Ok in Hu as [(-> & -> & Hno) | (-> & r & Hrow & Hc & ->)]; simpl in Hr.
  - rewrite Hs in Hr. apply Mbind_Ok in Hr as (f & s1 & Hf & Hr). apply on_base_Ok in Hf as (b & Hf & ->). apply reads_Ok in Hf as [-> ->].
    rewrite Hs in Hr. case_bool_decide as Hst; [apply Mret_Ok in Hr as [-> ->]; by left |].
    rewrite (bool_decide_true (link_of _ = link_of _)) in Hr by done. rewrite andb_false_r in Hr. by apply throw_Ok in Hr.
  - apply Mret_Ok in Hr as [-> ->]. right. exists r. apply andb_true_iff in Hc as [Hc _]. split_and!; try done.
    by rewrite Hrow.
Qed.

(** Taking the seats of booking [id] off trip [t], to which they all belong. *)
Lemma release_total id t s :
  tinv s -> (forall b, transit_of id s = Some b -> tb_tripId b = Some t) ->
  forall t', trip_total t' s = trip_total t' (set_seats (filter (fun p => bs_bookingId p.2 <> id) (seats s)) s) +
    if bool_decide (t' = t) then Z.of_nat (size (seats_of id s)) else 0.
Proof.
  intros Hi Hb t'. unfold trip_total, seats_of_trip, seats_of. cbn [seats set_seats]. case_bool_decide as Ht.
  - subst t'. rewrite (size_filter_split (fun p => p.1.1 = t) (fun p => bs_bookingId p.2 = id)); [lia |].
    intros [t0 x] r Hx Hid. simpl in *. destruct (ti_seat s Hi t0 x r Hx) as (_ & b & Hrow & Htr). rewrite Hid in Hrow.
    rewrite (Hb b Hrow) in Htr. congruence.
  - enough (Hf : filter (fun p => p.1.1 = t') (filter (fun p => bs_bookingId p.2 <> id) (seats s)) = filter (fun p => p.1.1 = t') (seats s))
      by (rewrite Hf; lia).
    apply map_eq. intros [t0 x]. apply option_eq. intros r. rewrite !map_lookup_filter_Some. simpl. split; [naive_solver |].
    intros [Hx ->]. split_and!; try done. intros Hid. destruct (ti_seat s Hi t' x r Hx) as (_ & b & Hrow & Htr). rewrite Hid in Hrow.
    rewrite (Hb b Hrow) in Htr. congruence.
Qed.

Lemma release_seats_Ok id n tr s x s' :
  release_seats id n tr s = Ok (x, s') ->
  n = 0%nat /\ s' = s \/
  (0 < n)%nat /\ let sd := set_seats (filter (fun p => bs_bookingId p.2 <> id) (seats s)) s in
    match truthy tr with
    | Some t => exists row, trips s !! t = Some row /\ s' = set_trips (<[t := trip_add_seats (Z.of_nat n) row]> (trips s)) sd
    | None => s' = sd
    end.
Proof.
  unfold release_seats. destruct (Nat.ltb_spec 0 n) as [Hn | Hn]; intros Hr; [right; split; [done |] | left; split; [lia | by apply Mret_Ok in Hr as [_ ->]]].
  apply Mbind_Ok in Hr as (y & s1 & Hd & Hr). unfold seat_deleteMany in Hd. apply modify_Ok in Hd as ->.
  destruct (truthy tr) as [t |]; [| by apply Mret_Ok in Hr as [_ ->]].
  unfold trip_update in Hr. apply Mbind_Ok in Hr as (z & s1 & Hg & Hr). apply get_Ok in Hg as [-> ->]. cbn [trips set_seats] in Hr.
  destruct (trips s !! t) as [row |]; [| by apply throw_Ok in Hr]. apply put_Ok in Hr as ->. by exists row.
Qed.

Lemma release_tinv id s m :
  tinv s -> tinv (set_trips m (set_seats (filter (fun p => bs_bookingId p.2 <> id) (seats s)) s)).
Proof.
  intros Hi. split. cbn [seats set_seats set_trips]. intros t x r Hx. apply map_lookup_filter_Some in Hx as [Hx _]. exact (ti_seat s Hi t x r Hx).
Qed.

Lemma release_move id n r t s x s' :
  tinv s -> transit_of id s = Some r -> transit_in CANCELLABLE_STATUSES r = false -> n = size (seats_of id s) ->
  (seats_of id s <> ∅ -> tb_tripId r = t) ->
  release_seats id n t s = Ok (x, s') -> tmove s s' /\ tinv s' /\ seats_of id s' = ∅ /\
  forall t1 tr, tb_tripId r = Some t1 -> trips s !! t1 = Some tr ->
    exists tr', trips s' !! t1 = Some tr' /\ tr_availableSeats tr' = tr_availableSeats tr + Z.of_nat n.
Proof.
  intros Hi Hrow Hst -> Htrip Hr. apply release_seats_Ok in Hr as [[Hz ->] | [Hpos Hr]].
  { split_and!; [done | done | by apply map_size_empty_inv |]. intros t1 tr _ Htr. exists tr. split; [done | lia]. }
  assert (Hne : seats_of id s <> ∅) by (intros He; rewrite He, map_size_empty in Hpos; lia).
  destruct (map_choose _ Hne) as ([t0 z] & sr & Hz). apply map_lookup_filter_Some in Hz as [Hz Hid]. simpl in Hid.
  destruct (ti_seat s Hi t0 z sr Hz) as (Ht0 & b & Hb & Hbt). rewrite Hid in Hb. assert (b = r) as -> by congruence.
  rewrite <- (Htrip Hne), Hbt in Hr. assert (Htr : truthy (Some t0) = Some t0) by (by destruct t0). rewrite Htr in Hr.
  destruct Hr as (row & Htrow & ->).
  pose proof (release_total id t0 s Hi (fun b' Hb' => ltac:(congruence))) as Htot.
  set (sd := set_seats (filter (fun p => bs_bookingId p.2 <> id) (seats s)) s) in *.
  split_and!; [split | by apply release_tinv | |].
  - done.
  - intros i q Hq. by exists q.
  - intros i r' [q Hq] Hr' Hc. unfold transit_of in *. cbn [base set_trips set_seats sd] in *. apply map_eq. intros k. apply option_eq. intros a.
    unfold seats_of. cbn [seats set_trips set_seats sd]. rewrite !map_lookup_filter_Some. simpl.
    assert (i <> id) by (intros ->; congruence). naive_solver.
  - intros t1 tr Ht1. specialize (Htot t1). change (trip_total t1 (set_trips _ sd)) with (trip_total t1 sd).
    cbn [trips set_trips]. case_bool_decide as He.
    + subst t1. rewrite lookup_insert_eq. eexists. split; [done |]. assert (tr = row) as -> by congruence. simpl. split; [done | lia].
    + rewrite lookup_insert_ne by done. exists tr. split_and!; [done | done | lia].
  - intros t1 y [a Ha]. left. unfold sd in Ha. cbn [seats set_trips set_seats] in Ha. apply map_lookup_filter_Some in Ha as [Ha _]. by eexists.
  - apply map_eq. intros k. rewrite lookup_empty. apply eq_None_not_Some. intros [a Ha]. apply map_lookup_filter_Some in Ha as [Ha Hk].
    unfold sd in Ha. cbn [seats set_trips set_seats] in Ha. apply map_lookup_filter_Some in Ha as [_ Hn]. by apply Hn.
  - intros t1 tr Ht1 Htr1. assert (t1 = t0) as -> by congruence. assert (tr = row) as -> by congruence. cbn [trips set_trips].
    rewrite lookup_insert_eq. eexists. split; [done |]. simpl. lia.
Qed.

(** ** The operations as steps *)

Section Steps.
Context `{DecimalLib} `{PrismaNumber} (sha256 : string -> string) (wire : escrow_row -> string)
  (wireT : string -> transit_row -> list string -> Q -> string).

(** [P] relates the database that bookings and cancellations were decided on to
    the one they commit on, [D] the same for the status update and the boarding
    of the controllers, which overwrite the row by its id without a condition. *)
Inductive tstep_on (P D : tdb -> tdb -> Prop) : tdb -> tdb -> Prop :=
| ts_book tripId customer seatIds names op newId ref now s0 x s s' :
    P s0 s -> bookSeats wireT tripId customer seatIds names op newId ref now s0 s = (Ok x, s') -> tstep_on P D s s'
| ts_cancel id user now ref s0 x s s' :
    P s0 s -> cancelTransitBooking sha256 id user now ref s0 s = (Ok x, s') -> tstep_on P D s s'
| ts_trip_booking id link now ref o s s' : trip_booking_tx sha256 id link now ref s = Ok (o, s') -> tstep_on P D s s'
| ts_trip_cancel tripId s : tstep_on P D s (cancel_trip_row tripId s)
| ts_sweep id grace now ref rel1 ref1 a s s' : sweep_tx sha256 id grace now ref rel1 ref1 s = Ok (a, s') -> tstep_on P D s s'
| ts_status user id st now ref rel1 ref1 before mid x s s' :
    D before s -> P mid s -> updateBookingStatus sha256 user id st now ref rel1 ref1 before mid s = (Ok x, s') -> tstep_on P D s s'
| ts_order user profile vehicle at_ amount newId now s0 x s s' : createBooking user profile vehicle at_ amount newId now s0 s = (Ok x, s') -> tstep_on P D s s'
| ts_resv_sweep now ref s0 d s s' : sweepNoShowReservations sha256 now ref s0 s = (d, s') -> tstep_on P D s s'
| ts_board id user now before x s s' : D before s -> transitCheckIn id user now before s = (Ok x, s') -> tstep_on P D s s'
| ts_trip_new user vehicle dep fare newId x s s' : createTransitTrip user vehicle dep fare newId s = Ok (x, s') -> tstep_on P D s s'
| ts_trip_edit user id dep fare st x s s' : updateTransitTrip user id dep fare st s = Ok (x, s') -> tstep_on P D s s'
| ts_business escrowId ty bid profile now ref x s s' : processBusinessNoShow sha256 escrowId ty bid profile now ref s = (Ok x, s') -> tstep_on P D s s'
| ts_profiles m s : tstep_on P D s (set_businesses m s)
| ts_link bt bid payer payee amount nt ne now e s b' :
    uuid_like ne -> 0 <= payer -> 0 <= payee -> createBookingEscrow bt bid payer payee amount nt ne now (base s) = Ok (e, b') ->
    es_amountUsdc e <= ESCROW_MAX -> es_feeUsdc e <= ESCROW_MAX -> tstep_on P D s (set_base b' s)
| ts_fund id payer bt bid now ref b0 r s b' :
    fundBookingEscrow sha256 id payer bt bid now ref b0 (base s) = (Ok r, b') -> tstep_on P D s (set_base b' s)
| ts_platform s b' : booking_step sha256 wire (base s) b' -> transits b' = transits (base s) -> tstep_on P D s (set_base b' s).

(** Any database may have been read: the steps of the service. *)
Definition tstep : tdb -> tdb -> Prop := tstep_on (fun _ _ => True) (fun _ _ => True).
(** The steps in which bookings and cancellations were decided on an earlier
    database and nothing comes between the read and the write of the
    controllers. *)
Definition ordered_step : tdb -> tdb -> Prop := tstep_on t_earlier eq.

Lemma ordered_any s s' : ordered_step s s' -> tstep s s'.
Proof.
  intros Hs. destruct Hs; [eapply ts_book | eapply ts_cancel | eapply ts_trip_booking | apply ts_trip_cancel | eapply ts_sweep | eapply ts_status | eapply ts_order
    | eapply ts_resv_sweep | eapply ts_board | eapply ts_trip_new | eapply ts_trip_edit | eapply ts_business | apply ts_profiles | apply (ts_link _ _ bt bid payer payee amount nt ne now e) | eapply ts_fund | apply ts_platform];
    first [exact I | eassumption].
Qed.
Lemma ordered_runs s s' : rtc ordered_step s s' -> rtc tstep s s'.
Proof. apply rtc_subrel. exact ordered_any. Qed.

(** The escrow of a cancelled booking: nothing, or the canonical refund. *)
Lemma resolve_Ok link now ref s o s' :
  resolve_escrow sha256 link now ref s = Ok (o, s') ->
  (s' = s /\ (forall amount, o <> Some (OUT_REFUNDED amount)) /\
     forall i e, truthy link = Some i -> escrows (core (base s)) !! i = Some e -> in_status LIVE e = false) \/
  exists i e r c, truthy link = Some i /\ escrows (core (base s)) !! i = Some e /\ in_status LIVE e = true /\ o = Some (OUT_REFUNDED (es_amountUsdc e)) /\
    _refundBookingEscrowTx sha256 i now ref (core (base s)) = Ok (r, c) /\ s' = set_base (set_core c (base s)) s.
Proof.
  unfold resolve_escrow. destruct (truthy link) as [i |]; [| intros Hr; apply Mret_Ok in Hr as [-> ->]; by left].
  intros Hr. apply Mbind_Ok in Hr as (r & s1 & Hf & Hr). apply on_escrow_Ok in Hf as (c & Hf & ->). apply reads_Ok in Hf as [-> ->].
  assert (Hs : set_base (set_core (core (base s)) (base s)) s = s) by (destruct s as [[] ? ? ? ? ?]; done). rewrite Hs in Hr.
  destruct (escrows (core (base s)) !! i) as [e |] eqn:He; [| apply Mret_Ok in Hr as [-> ->]; left; split_and!; [done.. | congruence]].
  destruct (in_status LIVE e) eqn:Hl.
  - right. apply Mbind_Ok in Hr as (r & s1 & Hr1 & Hr). apply Mret_Ok in Hr as [-> ->]. apply on_escrow_Ok in Hr1 as (c & Hr1 & ->).
    exists i, e, r, c. by split_and!.
  - left. assert (s' = s /\ forall amount, o <> Some (OUT_REFUNDED amount)) as [-> Ho].
    { repeat case_match; apply Mret_Ok in Hr as [-> ->]; split; (done || intros; discriminate). }
    split_and!; [done | done |]. congruence.
Qed.

(** What a cancellation leaves: nothing, or a claimed row, its seats released
    and its escrow resolved. *)
Lemma cancel_tx_Ok id n t now ref s x s' :
  cancel_tx sha256 id n t now ref s = Ok (x, s') ->
  s' = s /\ x = (true, None) /\ tb_status <$> transit_of id s = Some T_CANCELLED \/
  exists r y s1 o, transit_of id s = Some r /\ transit_in CANCELLABLE_STATUSES r = true /\ x = (false, o) /\
    release_seats id n t (set_base (set_transits (<[id := transit_status_to T_CANCELLED r]> (transits (base s))) (base s)) s) = Ok (y, s1) /\
    resolve_escrow sha256 (tb_escrowId r) now ref s1 = Ok (o, s').
Proof.
  unfold cancel_tx. intros Hr. apply Mbind_Ok in Hr as (c & s1 & Hc & Hr).
  apply cancel_claim_Ok in Hc as [(-> & -> & Hst) | (r & Hrow & Hin & -> & ->)].
  - apply Mret_Ok in Hr as [-> ->]. by left.
  - right. apply Mbind_Ok in Hr as (y & s1 & Hs & Hr). apply Mbind_Ok in Hr as (o & s2 & Ho & Hr). apply Mret_Ok in Hr as [-> ->].
    exists r, y, s1, o. by split_and!.
Qed.

Lemma move_core s c : tmove s (set_base (set_core c (base s)) s) /\ (tinv s -> tinv (set_base (set_core c (base s)) s)).
Proof. apply move_rows; try done. by apply rows_same. Qed.

Lemma cancel_move id user now ref s0 s x s' :
  t_earlier s0 s -> tinv s -> cancelTransitBooking sha256 id user now ref s0 s = (Ok x, s') -> tmove s s' /\ tinv s'.
Proof.
  unfold cancelTransitBooking. intros Hst Hi Hr. destruct (cancel_auth id user s0) as [[n t] | e] eqn:Ha; [| done].
  apply transaction_Ok in Hr. apply cancel_tx_Ok in Hr as [(-> & _ & _) | (r & y & s1 & o & Hrow & Hc & -> & Hrel & Hres)]; [done |].
  set (sA := set_base (set_transits (<[id := transit_status_to T_CANCELLED r]> (transits (base s))) (base s)) s) in *.
  destruct (move_rows s sA) as [HmA HiA]; [done.. | | specialize (HiA Hi)].
  { eapply rows_insert; [done |]. later_tac Hc. }
  unfold cancel_auth in Ha. res_inv Ha. destruct (tm_rows _ _ Hst id v0 Hres1) as (r1 & Hr1 & Hl1).
  assert (r1 = r) as -> by congruence. pose proof (tm_seats _ _ Hst id r ltac:(by eexists) Hrow Hc) as Hseats.
  apply (release_move id _ (transit_status_to T_CANCELLED r)) in Hrel as (HmB & HiB & _ & _).
  - apply resolve_Ok in Hres as [(-> & _) | (i & e & r2 & c & _ & _ & _ & _ & _ & ->)]; [split; [by etrans | done] |].
    destruct (move_core s1 c) as [HmC HiC]. split; [etrans; [exact HmA |]; by etrans | by apply HiC].
  - done.
  - unfold transit_of, sA. simpl. by rewrite lookup_insert_eq.
  - by vm_compute.
  - change (seats_of id sA) with (seats_of id s). by rewrite Hseats.
  - intros _. simpl. apply (tl_trip _ _ Hl1).
Qed.

(** Steps that write neither seats nor trips. *)
Record keeps (s s' : tdb) : Prop := {
  kp_seats : seats s' = seats s;
  kp_trips : trips s' = trips s;
  kp_vehicles : vehicles s' = vehicles s;
  kp_rows : rows_later (base s) (base s');
}.

#[local] Instance keeps_po : PreOrder keeps.
Proof.
  split; [by intros s; split |]. intros x y z [] []. split; [congruence.. | by etrans].
Qed.

Lemma keeps_move s s' : keeps s s' -> tmove s s' /\ (tinv s -> tinv s').
Proof. intros []. by apply move_rows. Qed.

Lemma keeps_on_escrow {A} (m : M edb A) s a s' : on_escrow m s = Ok (a, s') -> keeps s s'.
Proof. intros Hr. apply on_escrow_Ok in Hr as (c & _ & ->). split; try done. by apply rows_same. Qed.

Lemma keeps_update id cond f s n s' :
  (forall r, cond r = true -> transit_later r (f r)) -> on_base (transit_updateMany id cond f) s = Ok (n, s') -> keeps s s'.
Proof. intros Hf Hr. apply on_base_Ok in Hr as (b & Hr & ->). split; try done. by eapply rows_update. Qed.

Lemma kept_find id s r s' : on_base (transit_find id) s = Ok (r, s') -> r = transit_of id s /\ s' = s.
Proof. intros Hr. apply on_base_Ok in Hr as (b & Hr & ->). apply reads_Ok in Hr as [-> ->]. split; [done | by destruct s]. Qed.

Lemma keeps_split id p f bid now r1 r2 w s x s' :
  on_base (_splitReleaseFundedEscrowTx sha256 id p f (Some TRANSIT) bid now r1 r2 w) s = Ok (x, s') -> keeps s s'.
Proof. intros Hr. apply on_base_Ok in Hr as (b & Hr & ->). split; try done. by eapply rows_split. Qed.

Lemma keeps_trip_booking id link now ref s o s' : trip_booking_tx sha256 id link now ref s = Ok (o, s') -> keeps s s'.
Proof.
  unfold trip_booking_tx. intros Hr. apply Mbind_Ok in Hr as (n & s1 & Hu & Hr).
  apply keeps_update in Hu; last (intros r Hc; later_tac Hc).
  destruct (truthy link) as [i |]; [| by apply Mret_Ok in Hr as [_ ->]].
  apply Mbind_Ok in Hr as (r & s2 & Hf & Hr). apply keeps_on_escrow in Hf. destruct r as [e |]; [| apply Mret_Ok in Hr as [_ ->]; by etrans].
  destruct (in_status LIVE e); [| repeat case_match; apply Mret_Ok in Hr as [_ ->]; by etrans].
  apply Mbind_Ok in Hr as (y & s3 & Hf2 & Hr). apply keeps_on_escrow in Hf2. apply Mret_Ok in Hr as [_ ->]. etrans; [| exact Hf2]. by etrans.
Qed.

Lemma keeps_sweep_escrow id r e now ref rel1 ref1 s a s' : sweep_escrow sha256 id r e now ref rel1 ref1 s = Ok (a, s') -> keeps s s'.
Proof.
  unfold sweep_escrow. destruct e as [[i e] |]; [| intros Hr; by apply Mret_Ok in Hr as [_ ->]].
  destruct (in_status IN_DISPUTE e); [intros Hr; by apply Mret_Ok in Hr as [_ ->] |].
  destruct (in_status LIVE e); [destruct (tb_has_penalty r) |].
  - intros Hr. apply Mbind_Ok in Hr as ([[? ?] ?] & s1 & Hs & Hr). apply keeps_split in Hs. by apply Mret_Ok in Hr as [_ ->].
  - intros Hr. apply Mbind_Ok in Hr as (y & s1 & Hs & Hr). apply keeps_on_escrow in Hs. by apply Mret_Ok in Hr as [_ ->].
  - destruct (in_status [DRAFT] e); intros Hr; [| by apply Mret_Ok in Hr as [_ ->]].
    apply Mbind_Ok in Hr as (y & s1 & Hs & Hr). apply keeps_on_escrow in Hs. by apply Mret_Ok in Hr as [_ ->].
Qed.

Lemma swept_later grace link p now r : sweep_where grace link r = true -> transit_later r (swept_transit p now r).
Proof. unfold sweep_where. intros Hc. do 3 apply andb_true_iff in Hc as [Hc _]. later_tac Hc. Qed.

Lemma keeps_sweep id grace now ref rel1 ref1 s a s' : sweep_tx sha256 id grace now ref rel1 ref1 s = Ok (a, s') -> keeps s s'.
Proof.
  unfold sweep_tx. intros Hr. apply Mbind_Ok in Hr as (f & s1 & Hf & Hr). apply kept_find in Hf as [-> ->].
  destruct (transit_of id s) as [r |]; [| by apply Mret_Ok in Hr as [_ ->]].
  destruct (transit_in [T_NO_SHOW] r); [by apply Mret_Ok in Hr as [_ ->] |]. destruct (negb _); [by apply Mret_Ok in Hr as [_ ->] |].
  apply Mbind_Ok in Hr as (e & s1 & Hf & Hr). apply reads_Ok in Hf as [-> ->].
  apply Mbind_Ok in Hr as (o & s1 & Hs & Hr). apply keeps_sweep_escrow in Hs. destruct o as [act | ex]; [by apply Mret_Ok in Hr as [_ ->] |].
  apply Mbind_Ok in Hr as (n & s2 & Hu & Hr). apply keeps_update in Hu; last (intros x Hx; by eapply swept_later).
  etrans; [exact Hs |]. etrans; [exact Hu |]. destruct (n =? 1)%nat; [by apply Mret_Ok in Hr as [_ ->] |].
  apply Mbind_Ok in Hr as (f & s3 & Hf & Hr). apply kept_find in Hf as [-> ->].
  repeat case_match; first [by apply Mret_Ok in Hr as [_ ->] | by apply throw_Ok in Hr].
Qed.

Lemma kept_put id f s r x s' :
  transit_of id s = Some r -> transit_later r (f r) -> transaction (transit_put id f) s = (Ok x, s') -> keeps s s'.
Proof.
  intros Hrow Hl Hr. apply transaction_Ok in Hr. unfold transit_put in Hr. apply Mbind_Ok in Hr as (n & s1 & Hu & Hr). apply check_Ok in Hr as [_ ->].
  apply on_base_Ok in Hu as (b & Hu & ->). split; try done.
  apply transit_update_Ok in Hu as [(_ & -> & _) | (_ & r' & Hr' & _ & ->)]; [done |]. assert (r' = r) as -> by (unfold transit_of in Hrow; congruence).
  by eapply rows_insert.
Qed.

Lemma valid_allowed a b : _isValidTransition a b = true -> transit_allowed a b = true.
Proof. by destruct a, b. Qed.

Lemma status_move user id st now ref rel1 ref1 s0 s x s' :
  t_earlier s0 s -> tinv s -> updateBookingStatus sha256 user id st now ref rel1 ref1 s s0 s = (Ok x, s') -> tmove s s' /\ tinv s'.
Proof.
  intros Hst Hi Hr. unfold updateBookingStatus in Hr. destruct (transit_of id s) as [r |] eqn:Hrow; [| done].
  destruct (negb (tb_customerId r =? user) && _); [done |]. destruct (negb _ && _); [done |].
  destruct (_isValidTransition (tb_status r) st) eqn:Hv; simpl in Hr; [| done]. apply valid_allowed in Hv.
  case_bool_decide.
  - destruct (cancelTransitBooking sha256 id user now ref s0 s) as [[y | e] s1] eqn:Hc; [| done]. injection Hr as _ <-. by eapply cancel_move.
  - assert (Hk : keeps s s'); [| destruct (keeps_move _ _ Hk) as [Hm Hti]; auto].
    destruct (if _ && _ then _ else None) as [i |].
    + destruct (transaction _ s) as [[y | e] s1] eqn:Hc; [| done]. injection Hr as _ <-. apply transaction_Ok in Hc. by eapply keeps_split.
    + eapply kept_put; [done | | exact Hr]. by apply later_with.
Qed.

Lemma keeps_board id user now s x s' : transitCheckIn id user now s s = (Ok x, s') -> keeps s s'.
Proof.
  unfold transitCheckIn. intros Hr. destruct (String.length id =? 0)%nat; [done |]. destruct (transit_of id s) as [r |] eqn:Hrow; [| done]. destruct (businesses s !! _) as [b |]; [| done].
  destruct (negb _); [done |]. destruct (transit_in [T_CONFIRMED] r) eqn:Hc; simpl in Hr; [| done].
  eapply kept_put; [done | | exact Hr]. later_tac Hc.
Qed.

Lemma order_Ok user profile vehicle at_ amount newId now s0 s x s' :
  createBooking user profile vehicle at_ amount newId now s0 s = (Ok x, s') ->
  transit_of newId s = None /\ s' = set_base (set_transits (<[newId := x]> (transits (base s))) (base s)) s.
Proof.
  unfold createBooking. case_match; [| done]. intros Hr. apply transaction_Ok in Hr. apply Mbind_Ok in Hr as (y & s1 & Hc & Hr).
  apply Mret_Ok in Hr as [-> ->]. by eapply transit_create_Ok.
Qed.

Lemma keeps_order user profile vehicle at_ amount newId now s0 s x s' :
  createBooking user profile vehicle at_ amount newId now s0 s = (Ok x, s') -> keeps s s'.
Proof.
  intros Hr. apply order_Ok in Hr as [Hfree ->]. split; try done. intros id r Hr. exists r. split; [| done]. simpl.
  rewrite lookup_insert_ne; [done |]. intros ->. unfold transit_of in Hfree. congruence.
Qed.

(** Programs that do not touch the transit table. *)
Definition silent {A} (m : M bdb A) : Prop := forall b a b', m b = Ok (a, b') -> transits b' = transits b.

Lemma silent_bind {A B} (m : M bdb A) (f : A -> M bdb B) : silent m -> (forall a, silent (f a)) -> silent (m ≫= f).
Proof. intros Hm Hf b a b' Hr. apply Mbind_Ok in Hr as (x & b1 & H1 & H2). rewrite (Hf _ _ _ _ H2). by eapply Hm. Qed.
Lemma silent_ret {A} (a : A) : silent (mret a).
Proof. intros b x b' Hr. by apply Mret_Ok in Hr as [_ ->]. Qed.
Lemma silent_lift {A} (r : res A) : silent (lift r).
Proof. intros b x b' Hr. by apply lift_Ok in Hr as [_ ->]. Qed.
Lemma silent_check c e : silent (check c e).
Proof. intros b x b' Hr. by apply check_Ok in Hr as [_ ->]. Qed.
Lemma silent_reads {A} (f : bdb -> A) : silent (reads f).
Proof. intros b x b' Hr. by apply reads_Ok in Hr as [_ ->]. Qed.
Lemma silent_on_core {A} (m : M edb A) : silent (on_core m).
Proof. intros b x b' Hr. by apply on_core_Ok in Hr as (c & _ & ->). Qed.
Lemma silent_resv id c f : silent (resv_updateMany id c f).
Proof. intros b x b' Hr. apply resv_updateMany_Ok in Hr as [[_ ->] | (_ & r & _ & _ & ->)]; done. Qed.

#[local] Hint Resolve silent_ret silent_lift silent_check silent_reads silent_on_core silent_resv : silent.
Ltac silent_tac := repeat first [solve [eauto with silent] | apply silent_bind; [| intros ?] | case_match].


Lemma silent_no_show id owner now ref r1 r2 seen : silent (no_show_work sha256 id owner now ref r1 r2 seen).
Proof.
  unfold no_show_work, loadAggregate, claimReservation, dispose_escrow, expireDraftEscrow, refund_step, _splitReleaseFundedEscrowTx, resv_find, escrow_find.
  silent_tac.
Qed.

Lemma convergent_state id target work b r b' :
  runConvergent id target work b = (r, b') -> b' = b \/ exists x, work b = Ok (x, b').
Proof.
  unfold runConvergent, transaction. destruct (work b) as [[x b1] | e].
  - intros [= <- <-]. right. by exists x.
  - intros Hr. left. repeat case_match; by injection Hr as _ <-.
Qed.

Lemma keeps_resv_sweep now ref s0 s d s' : sweepNoShowReservations sha256 now ref s0 s = (d, s') -> keeps s s'.
Proof.
  unfold sweepNoShowReservations. destruct (sweep_resvs sha256 _ now ref (base s)) as [ds b] eqn:Hr. intros [= <- <-].
  split; try done. apply rows_same. simpl. revert ds b Hr. generalize (base s) as b0, (overdue_resv now (base s0)) as l.
  intros b0 l. revert b0. induction l as [| [id e] l IH]; intros b0 ds b Hr; simpl in Hr; [by injection Hr as _ <- |].
  destruct (ref id) as [[r1 r2] r3].
  destruct (markNoShowReservation sha256 id None now r1 r2 r3 b0 b0) as [o b1] eqn:Hm.
  assert (H1 : transits b1 = transits b0)
    by (apply convergent_state in Hm as [-> | (x & Hm)]; [done | by apply silent_no_show in Hm]).
  destruct o; destruct (sweep_resvs sha256 l now ref b1) as [ds1 b2] eqn:Hl; injection Hr as _ <-; by rewrite (IH _ _ _ Hl).
Qed.

Lemma new_trip_move user vehicle dep fare newId s x s' :
  createTransitTrip user vehicle dep fare newId s = Ok (x, s') -> tmove s s' /\ (tinv s -> tinv s').
Proof.
  unfold createTransitTrip. intros Hr. apply Mbind_Ok in Hr as (y & s1 & Hg & Hr). apply get_Ok in Hg as [-> ->].
  apply Mbind_Ok in Hr as (p & s1 & Hp & Hr). apply lift_Ok in Hp as [_ ->]. apply Mbind_Ok in Hr as (v & s1 & Hv & Hr). apply lift_Ok in Hv as [_ ->].
  apply Mbind_Ok in Hr as (y & s1 & Hc & Hr). apply check_Ok in Hc as [_ ->]. apply Mbind_Ok in Hr as (y2 & s1 & Hc & Hr). apply check_Ok in Hc as [Hc ->].
  apply Mbind_Ok in Hr as (y3 & s1 & Hc2 & Hr). apply check_Ok in Hc2 as [_ ->]. apply put_Ok in Hr. eapply move_trips; [exact Hr |].
  intros t tr Htr. exists tr. rewrite lookup_insert_ne; [done |]. intros ->. by rewrite Htr in Hc.
Qed.

Lemma trip_update_move id f s x s' :
  (forall r, tr_vehicleId (f r) = tr_vehicleId r /\ tr_availableSeats (f r) = tr_availableSeats r) ->
  trip_update id f s = Ok (x, s') -> tmove s s' /\ (tinv s -> tinv s').
Proof.
  intros Hf Hr. unfold trip_update in Hr. apply Mbind_Ok in Hr as (y & s1 & Hg & Hr). apply get_Ok in Hg as [-> ->].
  destruct (trips s !! id) as [row |] eqn:Hrow; [| by apply throw_Ok in Hr]. apply put_Ok in Hr. eapply move_trips; [exact Hr |].
  intros t tr Htr. destruct (decide (t = id)) as [-> | Hne].
  - rewrite lookup_insert_eq. eexists. split; [done |]. assert (tr = row) as -> by congruence. apply Hf.
  - rewrite lookup_insert_ne by done. by exists tr.
Qed.

Lemma keeps_stake p q s x s' : stake_claim p q s = Ok (x, s') -> keeps s s' /\ base s' = base s.
Proof.
  unfold stake_claim. intros Hr. destruct (truthy p) as [k |]; [| by apply Mret_Ok in Hr as [_ ->]].
  destruct (js_lt 0 q); [| by apply Mret_Ok in Hr as [_ ->]]. apply Mbind_Ok in Hr as (y & s1 & Hg & Hr). apply get_Ok in Hg as [-> ->].
  destruct (businesses s !! k) as [b |]; [| by apply Mret_Ok in Hr as [_ ->]]. destruct (_ <=? _); [| by apply Mret_Ok in Hr as [_ ->]].
  apply Mbind_Ok in Hr as (y & s1 & Hp & Hr). apply put_Ok in Hp as ->. by apply Mret_Ok in Hr as [_ ->].
Qed.

(** The decomposition of a business no-show that settled. *)
Lemma no_show_tx_Ok escrowId ty bid profile now ref s x s' :
  no_show_tx sha256 escrowId ty bid profile now ref s = Ok (x, s') ->
  s' = s /\ (exists e, x = AlreadyProcessed e) \/
  exists e r c s1 p s2 b u, escrows (core (base s)) !! escrowId = Some e /\ in_status LIVE e = true /\
    owned_booking ty bid profile escrowId s = Ok (b, s) /\
    _refundEscrowTx sha256 escrowId e REFUNDED now ref (core (base s)) = Ok (r, c) /\
    stake_claim profile (_calculateBusinessPenalty (es_amountUsdc e)) (set_base (set_core c (base s)) s) = Ok (p, s1) /\
    match b with
    | Some (k, v) => close_booking ty k v (if p : bool then num_to_col (_calculateBusinessPenalty (es_amountUsdc e)) else 0) now
    | None => mret tt
    end s1 = Ok (u, s2) /\
    s' = add_audit (AuditRow ty (default escrowId (truthy bid)) profile escrowId (Number_of_units (es_amountUsdc e))
           (_calculateBusinessPenalty (es_amountUsdc e)) p) s2 /\
    x = Processed r p (_calculateBusinessPenalty (es_amountUsdc e)).
Proof.
  assert (Hs : set_base (set_core (core (base s)) (base s)) s = s) by (destruct s as [[] ? ? ? ? ?]; done).
  unfold no_show_tx. intros Hr. apply Mbind_Ok in Hr as (f & s1 & Hf & Hr). apply on_escrow_Ok in Hf as (c & Hf & ->).
  apply reads_Ok in Hf as [-> ->]. rewrite Hs in Hr. apply Mbind_Ok in Hr as (e & s1 & He & Hr). apply lift_Ok in He as [He ->].
  apply of_option_Ok in He. destruct (in_status LIVE e) eqn:Hl; cbn [negb] in Hr.
  2:{ left. destruct (in_status [REFUNDED] e); [apply Mret_Ok in Hr as [-> ->]; split; [done | by exists e] | by apply throw_Ok in Hr]. }
  right. apply Mbind_Ok in Hr as (b & s1 & Hb & Hr). assert (s1 = s) as ->.
  { unfold owned_booking in Hb. destruct (truthy bid); run_inv Hb; done. }
  apply Mbind_Ok in Hr as (r & s1 & Hre & Hr). apply on_escrow_Ok in Hre as (c & Hre & ->).
  apply Mbind_Ok in Hr as (p & s1 & Hp & Hr). apply Mbind_Ok in Hr as (u & s2 & Hc & Hr).
  apply Mbind_Ok in Hr as (y & s3 & Hm & Hr). apply modify_Ok in Hm as ->. apply Mret_Ok in Hr as [-> ->].
  exists e, r, c, s1, p, s2, b, u. by split_and!.
Qed.

Lemma keeps_close ty k v a now s x s' : close_booking ty k v a now s = Ok (x, s') -> keeps s s'.
Proof.
  unfold close_booking. intros Hr. apply Mbind_Ok in Hr as (n & s1 & Hu & Hr). apply check_Ok in Hr as [_ ->].
  destruct ty; [| eapply keeps_update; [| exact Hu]; intros r Hc; later_tac Hc].
  apply on_base_Ok in Hu as (b & Hu & ->). split; try done. by eapply rows_resv.
Qed.

Lemma keeps_business escrowId ty bid profile now ref s x s' :
  processBusinessNoShow sha256 escrowId ty bid profile now ref s = (Ok x, s') -> keeps s s'.
Proof.
  intros Hr. apply transaction_Ok, no_show_tx_Ok in Hr as [[-> _] | (e & r & c & s1 & p & s2 & b & u & _ & _ & _ & _ & Hp & Hc & -> & _)]; [done |].
  apply keeps_stake in Hp as [Hp _]. assert (H2 : keeps s1 s2) by (destruct b as [[k v] |]; [by eapply keeps_close | by apply Mret_Ok in Hc as [_ ->]]).
  etrans; [| etrans; [exact Hp |]; etrans; [exact H2 | by split]]. split; try done. by apply rows_same.
Qed.

Lemma step_move s s' : tinv s -> ordered_step s s' -> tmove s s' /\ tinv s'.
Proof.
  intros Hi Hs. assert (Hk : keeps s s' \/ (tmove s s' /\ tinv s')); [| destruct Hk as [Hk | Hk]; [destruct (keeps_move _ _ Hk); auto | done]].
  destruct Hs.
  - right. edestruct book_move as [Hm Hti]; [done.. |]. auto.
  - right. by eapply cancel_move.
  - left. by eapply keeps_trip_booking.
  - right. unfold cancel_trip_row. destruct (trips s !! tripId) as [row |] eqn:Hrow; [| done]. destruct (String.eqb _ _); [done |].
    edestruct (move_trips s) as [Hm Hti]; [done | | split; [exact Hm | by apply Hti]]. intros t tr Htr. destruct (decide (t = tripId)) as [-> | Hne].
    + rewrite lookup_insert_eq. eexists. split; [done |]. by assert (tr = row) as -> by congruence.
    + rewrite lookup_insert_ne by done. by exists tr.
  - left. by eapply keeps_sweep.
  - right. subst. by eapply status_move.
  - left. by eapply keeps_order.
  - left. by eapply keeps_resv_sweep.
  - left. subst. by eapply keeps_board.
  - right. edestruct new_trip_move as [Hm Hti]; [done |]. auto.
  - right. unfold updateTransitTrip in H1. do 4 (apply Mbind_Ok in H1 as (? & ? & ? & H1)).
    repeat match goal with
      | H : get _ = Ok _ |- _ => apply get_Ok in H as [-> ->]
      | H : lift _ _ = Ok _ |- _ => apply lift_Ok in H as [_ ->]
      | H : check _ _ _ = Ok _ |- _ => apply check_Ok in H as [_ ->]
      end. edestruct trip_update_move as [Hm Hti]; [| exact H1 |]; [done |]. auto.
  - left. by eapply keeps_business.
  - left. by split.
  - left. split; try done. by eapply rows_create.
  - left. split; try done. by eapply rows_fund.
  - left. split; try done. by apply rows_same.
Qed.

(** *** Whatever was read *)

(** Seats only go and bookings keep their trip. *)
Record thinned (s s' : tdb) : Prop := {
  th_rows : forall id r, transit_of id s = Some r -> exists r', transit_of id s' = Some r' /\ tb_tripId r' = tb_tripId r;
  th_seats : forall k r, seats s' !! k = Some r -> seats s !! k = Some r;
}.

Lemma thinned_tinv s s' : thinned s s' -> tinv s -> tinv s'.
Proof.
  intros [Hrows Hse] [Hi]. split. intros t x r Hx. destruct (Hi t x r (Hse _ _ Hx)) as (Hne & b & Hb & Ht). split; [done |].
  destruct (Hrows _ b Hb) as (b' & Hb' & Ht'). exists b'. split; [done | congruence].
Qed.

Lemma thinned_write id r r' s : transit_of id s = Some r -> tb_tripId r' = tb_tripId r -> thinned s (set_base (set_transits (<[id := r']> (transits (base s))) (base s)) s).
Proof.
  intros Hr Ht. split; [| done]. intros j q Hj. unfold transit_of in *. simpl. destruct (decide (j = id)) as [-> | Hne].
  - rewrite lookup_insert_eq. exists r'. split; [done | congruence].
  - rewrite lookup_insert_ne by done. by exists q.
Qed.

Lemma put_tinv id f s x s' : (forall r, tb_tripId (f r) = tb_tripId r) -> tinv s -> transaction (transit_put id f) s = (Ok x, s') -> tinv s'.
Proof.
  intros Hf Hi Hr. apply transaction_Ok in Hr. unfold transit_put in Hr. apply Mbind_Ok in Hr as (n & s1 & Hu & Hr). apply check_Ok in Hr as [Hn ->].
  apply on_base_Ok in Hu as (b & Hu & ->). apply transit_update_Ok in Hu as [(-> & _ & _) | (_ & r & Hr & _ & ->)]; [done |].
  eapply thinned_tinv; [by apply (thinned_write id r) | done].
Qed.

Lemma cancel_tinv id user now ref s0 s x s' : tinv s -> cancelTransitBooking sha256 id user now ref s0 s = (Ok x, s') -> tinv s'.
Proof.
  unfold cancelTransitBooking. intros Hi Hr. destruct (cancel_auth id user s0) as [[n t] | e] eqn:Ha; [| done].
  apply transaction_Ok in Hr. apply cancel_tx_Ok in Hr as [(-> & _ & _) | (r & y & s1 & o & Hrow & Hc & -> & Hrel & Hres)]; [done |].
  set (sA := set_base (set_transits (<[id := transit_status_to T_CANCELLED r]> (transits (base s))) (base s)) s) in *.
  assert (HiA : tinv sA) by (eapply thinned_tinv; [by apply (thinned_write id r) | done]).
  assert (Hi1 : tinv s1).
  { apply release_seats_Ok in Hrel as [[_ ->] | [_ Hrel]]; [done |]. eapply (thinned_tinv sA); [| done]. destruct (truthy t) as [t0 |].
    - destruct Hrel as (row & _ & ->). split; [intros j q Hj; by exists q |]. intros k q Hk. by apply map_lookup_filter_Some in Hk as [Hk _].
    - rewrite Hrel. split; [intros j q Hj; by exists q |]. intros k q Hk. by apply map_lookup_filter_Some in Hk as [Hk _]. }
  apply resolve_Ok in Hres as [(-> & _) | (i & e & r2 & c & _ & _ & _ & _ & _ & ->)]; [done |]. by apply (move_core s1 c).
Qed.

Lemma status_tinv user id st now ref rel1 ref1 before mid s x s' : tinv s -> updateBookingStatus sha256 user id st now ref rel1 ref1 before mid s = (Ok x, s') -> tinv s'.
Proof.
  intros Hi Hr. unfold updateBookingStatus in Hr. destruct (transit_of id before) as [r |]; [| done].
  destruct (negb (tb_customerId r =? user) && _); [done |]. destruct (negb _ && _); [done |]. destruct (negb _); [done |]. case_bool_decide.
  - destruct (cancelTransitBooking sha256 id user now ref mid s) as [[y | e] s1] eqn:Hc; [| done]. injection Hr as _ <-. by eapply cancel_tinv.
  - destruct (if _ && _ then _ else None) as [i |]; [| by eapply put_tinv; [| | exact Hr]].
    destruct (transaction _ s) as [[y | e] s1] eqn:Hc; [| done]. injection Hr as _ <-. apply transaction_Ok, keeps_split in Hc. by apply (keeps_move _ _ Hc).
Qed.

Lemma step_tinv s s' : tinv s -> tstep s s' -> tinv s'.
Proof.
  intros Hi Hs. assert (Hord : ordered_step s s' -> tinv s') by (intros Ho; by eapply step_move).
  destruct Hs; [by eapply book_tinv | by eapply cancel_tinv | apply Hord; by eapply ts_trip_booking | apply Hord, ts_trip_cancel | apply Hord; by eapply ts_sweep
    | by eapply status_tinv | apply Hord; by eapply ts_order | apply Hord; by eapply ts_resv_sweep | | apply Hord; by eapply ts_trip_new | apply Hord; by eapply ts_trip_edit
    | apply Hord; by eapply ts_business | apply Hord, ts_profiles | apply Hord; by apply (ts_link _ _ bt bid payer payee amount nt ne now e) | apply Hord; by eapply ts_fund
    | apply Hord; by apply ts_platform].
  unfold transitCheckIn in *. repeat case_match; try done. by eapply put_tinv; [| | eassumption].
Qed.

Lemma steps_tinv s s' : tinv s -> rtc tstep s s' -> tinv s'.
Proof. intros Hi Hr. revert Hi. induction Hr as [s | s s1 s' Hs _ IH]; intros Hi; [done |]. apply IH. by eapply step_tinv. Qed.

Lemma steps_move s s' : tinv s -> rtc ordered_step s s' -> tmove s s' /\ tinv s'.
Proof.
  intros Hi Hr. revert Hi. induction Hr as [s | s s1 s' Hs Hr IH]; intros Hi; [done |].
  destruct (step_move _ _ Hi Hs) as [Hm Hi1]. destruct (IH Hi1) as [Hm2 Hi2]. split; [by etrans | done].
Qed.
End Steps.
