(* ===== verification/TransitTheorems.v ===== *)
(** * Theorems on transit bookings

    The transit services refine the platform of BookingProps, so its theorems
    hold of them; seats are conserved and never sold twice or beyond the
    layout while the writes without a condition write on the row they read, and
    what a status update on an older row does; and the outcomes of cancellation,
    sweep and business no-show. *)

From stdpp Require Import base gmap strings list relations.
From Stdlib Require Import ZArith QArith Qabs Lqa Lia Ascii.
From S2P Require Import Prelude JsNumber ExactDecimal Json Ledger LedgerFacts LedgerHash LedgerProps Idempotency Escrow EscrowFacts EscrowProps WalletProps EscrowTheorems Booking BookingFacts Reservation BookingProps BookingTheorems Transit Penalty TransitProps.

Local Open Scope Z_scope.

Section Refinement.
Context `{DecimalLib} `{PrismaNumber} (sha256 : string -> string) (wire : escrow_row -> string)
  (wireT : string -> transit_row -> list string -> Q -> string).

#[local] Notation bstep := (booking_step sha256 wire).
#[local] Notation bsteps := (rtc (booking_step sha256 wire)).

(** ** Platform steps *)

Lemma b_transits b m : bsteps b (set_transits m b).
Proof. apply rtc_once. by constructor. Qed.

Lemma b_update id cond f b n b' : transit_updateMany id cond f b = Ok (n, b') -> bsteps b b'.
Proof. intros Hr. apply transit_update_Ok in Hr as [(_ & -> & _) | (_ & r & _ & _ & ->)]; [done | apply b_transits]. Qed.

Lemma b_refund id now ref b r c : _refundBookingEscrowTx sha256 id now ref (core b) = Ok (r, c) -> bsteps b (set_core c b).
Proof.
  intros Hr. apply rtc_once. apply (bs_refund _ _ id now ref r). unfold refundBookingEscrow, transaction, on_core. by rewrite Hr.
Qed.

Lemma b_split id p f bid now r1 r2 b x b' :
  _splitReleaseFundedEscrowTx sha256 id p f (Some TRANSIT) bid now r1 r2 (fun _ => true) b = Ok (x, b') -> bsteps b b'.
Proof. intros Hr. apply rtc_once. apply (bs_split _ _ id p f bid now r1 r2 x). unfold splitReleaseFundedEscrow, transaction. by rewrite Hr. Qed.

Lemma core_same b : set_core (core b) b = b.
Proof. by destruct b. Qed.
Lemma base_same s : set_base (base s) s = s.
Proof. by destruct s. Qed.

Lemma resolve_steps link now ref s o s' : resolve_escrow sha256 link now ref s = Ok (o, s') -> bsteps (base s) (base s').
Proof. intros Hr. apply resolve_Ok in Hr as [(-> & _) | (i & e & r & c & _ & _ & _ & _ & Hr & ->)]; [done | by eapply b_refund]. Qed.

Lemma release_base id n t s x s' : release_seats id n t s = Ok (x, s') -> base s' = base s.
Proof. intros Hr. apply release_seats_Ok in Hr as [[_ ->] | [_ Hr]]; [done |]. destruct (truthy t); [by destruct Hr as (row & _ & ->) | by rewrite Hr]. Qed.

Lemma cancel_steps id n t now ref s x s' : cancel_tx sha256 id n t now ref s = Ok (x, s') -> bsteps (base s) (base s').
Proof.
  intros Hr. apply cancel_tx_Ok in Hr as [(-> & _) | (r & y & s1 & o & _ & _ & _ & Hrel & Hres)]; [done |].
  apply release_base in Hrel. apply resolve_steps in Hres. rewrite Hrel in Hres. etrans; [apply b_transits | exact Hres].
Qed.

Lemma cancel_op_steps id user now ref s0 s x s' : cancelTransitBooking sha256 id user now ref s0 s = (Ok x, s') -> bsteps (base s) (base s').
Proof. unfold cancelTransitBooking. destruct (cancel_auth id user s0) as [[n t] | e]; [| done]. intros Hr. apply transaction_Ok in Hr. by eapply cancel_steps. Qed.

Lemma trip_booking_steps id link now ref s o s' : trip_booking_tx sha256 id link now ref s = Ok (o, s') -> bsteps (base s) (base s').
Proof.
  unfold trip_booking_tx. intros Hr. apply Mbind_Ok in Hr as (n & s1 & Hu & Hr). apply on_base_Ok in Hu as (b & Hu & ->). apply b_update in Hu.
  etrans; [exact Hu |]. destruct (truthy link) as [i |]; [| by apply Mret_Ok in Hr as [_ ->]].
  apply Mbind_Ok in Hr as (r & s2 & Hf & Hr). apply on_escrow_Ok in Hf as (c & Hf & ->). apply reads_Ok in Hf as [-> ->].
  cbn [base set_base] in *. rewrite core_same in Hr. destruct (escrows (core b) !! i) as [e |]; [| by apply Mret_Ok in Hr as [_ ->]].
  destruct (in_status LIVE e); [| repeat case_match; by apply Mret_Ok in Hr as [_ ->]].
  apply Mbind_Ok in Hr as (y & s3 & Hf2 & Hr). apply Mret_Ok in Hr as [_ ->]. apply on_escrow_Ok in Hf2 as (c & Hf2 & ->). by eapply b_refund.
Qed.

Lemma sweep_escrow_steps id r e now ref rel1 ref1 s a s' : sweep_escrow sha256 id r e now ref rel1 ref1 s = Ok (a, s') -> bsteps (base s) (base s').
Proof.
  unfold sweep_escrow. destruct e as [[i e] |]; [| intros Hr; by apply Mret_Ok in Hr as [_ ->]].
  destruct (in_status IN_DISPUTE e); [intros Hr; by apply Mret_Ok in Hr as [_ ->] |].
  destruct (in_status LIVE e); [destruct (tb_has_penalty r) |].
  - intros Hr. apply Mbind_Ok in Hr as ([[? ?] ?] & s1 & Hs & Hr). apply Mret_Ok in Hr as [_ ->]. apply on_base_Ok in Hs as (b & Hs & ->). by eapply b_split.
  - intros Hr. apply Mbind_Ok in Hr as (y & s1 & Hs & Hr). apply Mret_Ok in Hr as [_ ->]. apply on_escrow_Ok in Hs as (c & Hs & ->). by eapply b_refund.
  - destruct (in_status [DRAFT] e); intros Hr; [| by apply Mret_Ok in Hr as [_ ->]].
    apply Mbind_Ok in Hr as (y & s1 & Hs & Hr). apply Mret_Ok in Hr as [_ ->]. apply on_escrow_Ok in Hs as (c & Hs & ->).
    apply rtc_once. by eapply bs_expire_draft.
Qed.

Lemma sweep_steps id grace now ref rel1 ref1 s a s' : sweep_tx sha256 id grace now ref rel1 ref1 s = Ok (a, s') -> bsteps (base s) (base s').
Proof.
  unfold sweep_tx. intros Hr. apply Mbind_Ok in Hr as (f & s1 & Hf & Hr). apply kept_find in Hf as [-> ->].
  destruct (transit_of id s) as [r |]; [| by apply Mret_Ok in Hr as [_ ->]].
  destruct (transit_in [T_NO_SHOW] r); [by apply Mret_Ok in Hr as [_ ->] |]. destruct (negb _); [by apply Mret_Ok in Hr as [_ ->] |].
  apply Mbind_Ok in Hr as (e & s1 & Hf & Hr). apply reads_Ok in Hf as [-> ->].
  apply Mbind_Ok in Hr as (o & s1 & Hs & Hr). apply sweep_escrow_steps in Hs. destruct o as [act | ex]; [by apply Mret_Ok in Hr as [_ ->] |].
  apply Mbind_Ok in Hr as (n & s2 & Hu & Hr). apply on_base_Ok in Hu as (b & Hu & ->). apply b_update in Hu. etrans; [exact Hs |].
  assert (base s' = b) as ->; [| exact Hu]. destruct (n =? 1)%nat; [by apply Mret_Ok in Hr as [_ ->] |].
  apply Mbind_Ok in Hr as (f & s3 & Hf & Hr). apply kept_find in Hf as [-> ->].
  repeat case_match; first [by apply Mret_Ok in Hr as [_ ->] | by apply throw_Ok in Hr].
Qed.

Lemma put_steps id f s x s' : transaction (transit_put id f) s = (Ok x, s') -> bsteps (base s) (base s').
Proof.
  intros Hr. apply transaction_Ok in Hr. unfold transit_put in Hr. apply Mbind_Ok in Hr as (n & s1 & Hu & Hr). apply check_Ok in Hr as [_ ->].
  apply on_base_Ok in Hu as (b & Hu & ->). by eapply b_update.
Qed.

Lemma status_steps user id st now ref rel1 ref1 s0 s1 s x s' :
  updateBookingStatus sha256 user id st now ref rel1 ref1 s0 s1 s = (Ok x, s') -> bsteps (base s) (base s').
Proof.
  intros Hr. unfold updateBookingStatus in Hr. destruct (transit_of id s0) as [r |]; [| done].
  destruct (negb (tb_customerId r =? user) && _); [done |]. destruct (negb _ && _); [done |]. destruct (negb _); [done |].
  case_bool_decide.
  - destruct (cancelTransitBooking sha256 id user now ref s1 s) as [[y | e] s2] eqn:Hc; [| done]. injection Hr as _ <-. by eapply cancel_op_steps.
  - destruct (if _ && _ then _ else None) as [i |]; [| by eapply put_steps].
    destruct (transaction _ s) as [[y | e] s2] eqn:Hc; [| done]. injection Hr as _ <-. apply transaction_Ok, on_base_Ok in Hc as (b & Hc & ->).
    by eapply b_split.
Qed.

(** ** The business no-show *)

Lemma close_steps ty k v a now s x s' :
  (forall r, ty = RESERVATION -> reservations (base s) !! k = Some r -> resv_in RESERVATION_PRE_TERMINAL r = true ->
     resv_in OPEN r = true /\ exists i e, rv_escrowId r = Some i /\ escrows (core (base s)) !! i = Some e /\ es_status e ∈ DONE) ->
  close_booking ty k v a now s = Ok (x, s') -> bsteps (base s) (base s').
Proof.
  intros Hopen Hr. unfold close_booking in Hr. apply Mbind_Ok in Hr as (n & s1 & Hu & Hr). apply check_Ok in Hr as [_ ->].
  destruct ty; apply on_base_Ok in Hu as (b & Hu & ->); [| by eapply b_update].
  apply resv_updateMany_Ok in Hu as [[_ ->] | (_ & r & Hrow & Hc & ->)]; [done |].
  destruct (Hopen r eq_refl Hrow Hc) as (Ho & i & e & Hl & He & Hd). apply rtc_once. by eapply bs_business_close.
Qed.

Lemma business_refund_ends id e now ref c0 r c :
  einv c0 -> escrows c0 !! id = Some e -> _refundEscrowTx sha256 id e REFUNDED now ref c0 = Ok (r, c) ->
  escrows c = <[id := refunded_row REFUNDED now ref e]> (escrows c0).
Proof.
  intros Hi He Hr. apply refund_effect in Hr as (e1 & _ & _ & Hef & _); [| by apply (ei_terms c0 Hi id e He)].
  pose proof (ef_escrow _ _ _ _ _ _ _ _ _ _ _ Hef) as He1. assert (e1 = e) as -> by congruence. apply (ef_escrows _ _ _ _ _ _ _ _ _ _ _ Hef).
Qed.

Lemma business_steps escrowId ty bid profile now ref s x s' :
  pinv (base s) -> processBusinessNoShow sha256 escrowId ty bid profile now ref s = (Ok x, s') -> bsteps (base s) (base s').
Proof.
  intros Hi Hr. apply transaction_Ok, no_show_tx_Ok in Hr
    as [[-> _] | (e & r & c & s1 & p & s2 & b & u & He & Hl & Hown & Hre & Hp & Hc & -> & _)]; [done |].
  apply keeps_stake in Hp as [_ Hb1]. cbn [base set_base] in Hb1. change (base (add_audit _ s2)) with (base s2).
  assert (H1 : bsteps (base s) (base s1)).
  { rewrite Hb1. apply rtc_once. apply (bs_business_refund _ _ escrowId now ref r). unfold _refundEscrow.
    apply Mbind_Ok. exists (Some e), (core (base s)). split; [unfold escrow_find; apply reads_Ok; by rewrite He |].
    apply Mbind_Ok. exists e, (core (base s)). by split; [apply lift_Ok |]. }
  etrans; [exact H1 |]. destruct b as [[k v] |]; [| by apply Mret_Ok in Hc as [_ ->]].
  eapply close_steps; [| exact Hc]. intros rr -> Hrow Hpre. rewrite Hb1 in Hrow. cbn [reservations set_core] in Hrow.
  unfold owned_booking in Hown. destruct (truthy bid) as [k' |]; [| by apply Mret_Ok in Hown as []].
  apply Mbind_Ok in Hown as (w & s3 & Hw & Hown). apply reads_Ok in Hw as [-> ->]. apply Mbind_Ok in Hown as (bk & s3 & Hbk & Hown).
  apply lift_Ok in Hbk as [Hbk ->]. apply of_option_Ok in Hbk. apply Mbind_Ok in Hown as (y1 & s3 & Hc1 & Hown). apply check_Ok in Hc1 as [Hlink ->].
  apply Mbind_Ok in Hown as (y2 & s3 & Hc2 & Hown). apply check_Ok in Hc2 as [_ ->]. apply Mret_Ok in Hown as [[= -> ->] _].
  cbn [view_booking] in Hbk. rewrite Hrow in Hbk. simpl in Hbk. injection Hbk as <-. apply bool_decide_eq_true in Hlink. simpl in Hlink.
  pose proof (business_refund_ends _ _ _ _ _ _ _ (pi_core _ Hi) He Hre) as Hesc.
  split; [| exists escrowId, (refunded_row REFUNDED now ref e); rewrite Hb1; simpl; rewrite Hesc, lookup_insert_eq; split_and!; [done | done |]].
  - destruct (resv_in OPEN rr) eqn:Ho; [done |]. destruct (pi_closed _ Hi k' rr escrowId Hrow Ho Hlink) as (e' & He' & Hd).
    assert (e' = e) as -> by congruence. apply done_status in Hd as [Hd _]. congruence.
  - by apply (in_status_spec DONE (refunded_row REFUNDED now ref e)).
Qed.

(** ** The refinement *)

Lemma book_steps tripId customer seatIds names op newId ref now s0 s x s' :
  bookSeats wireT tripId customer seatIds names op newId ref now s0 s = (Ok x, s') -> bsteps (base s) (base s').
Proof.
  unfold bookSeats. intros Hr. destruct (book_read tripId customer seatIds s0) as [[trip fare] | e]; [| done].
  destruct (transaction _ s) as [[y | e] s1] eqn:Htx; [| done]. injection Hr as -> ->. apply transaction_Ok in Htx.
  apply book_tx_Ok in Htx as (tr & s1 & c & _ & _ & Hadd & _ & -> & Hco). pose proof (sa_state _ _ _ _ _ Hadd) as Hs1.
  cbn [base set_base set_trips]. rewrite Hs1. cbn [base set_base set_seats]. etrans; [apply b_transits |]. apply rtc_once.
  by apply (bs_commit _ _ op 201 (Some (wireT newId x.1 seatIds x.2)) tt).
Qed.

Lemma trip_update_base id f s x s' : trip_update id f s = Ok (x, s') -> base s' = base s.
Proof. unfold trip_update. intros Hr. run_inv Hr. case_match; by run_inv Hr. Qed.

Lemma resv_sweep_steps now ref s0 s d s' : sweepNoShowReservations sha256 now ref s0 s = (d, s') -> bsteps (base s) (base s').
Proof.
  unfold sweepNoShowReservations. destruct (sweep_resvs sha256 _ now ref (base s)) as [ds b] eqn:Hr. intros [= <- <-]. simpl.
  revert ds b Hr. generalize (base s) as b0, (overdue_resv now (base s0)) as l.
  intros b0 l. revert b0. induction l as [| [id e] l IH]; intros b0 ds b Hr; simpl in Hr; [by injection Hr as _ <- |].
  destruct (ref id) as [[r1 r2] r3].
  destruct (markNoShowReservation sha256 id None now r1 r2 r3 b0 b0) as [[o | err] b1] eqn:Hm;
    destruct (sweep_resvs sha256 l now ref b1) as [ds1 b2] eqn:Hl; injection Hr as _ <-.
  - etrans; [apply rtc_once; eapply bs_no_show; [apply link_kept_refl | exact Hm] | by eapply IH].
  - assert (b1 = b0) as ->; [| by eapply IH]. revert Hm. unfold markNoShowReservation, runConvergent, transaction.
    destruct (no_show_work _ _ _ _ _ _ _ b0) as [[y b3] | e1]; [done |]. intros Hm. repeat case_match; by injection Hm.
Qed.

Lemma step_refines s s' : pinv (base s) -> tstep sha256 wire wireT s s' -> bsteps (base s) (base s').
Proof.
  intros Hi Hs. destruct Hs.
  - by eapply book_steps.
  - by eapply cancel_op_steps.
  - by eapply trip_booking_steps.
  - unfold cancel_trip_row. repeat case_match; done.
  - by eapply sweep_steps.
  - by eapply status_steps.
  - apply order_Ok in H1 as [_ ->]. simpl. apply b_transits.
  - by eapply resv_sweep_steps.
  - unfold transitCheckIn in *. repeat case_match; try done. by eapply put_steps.
  - unfold createTransitTrip in *. run_inv H1. done.
  - unfold updateTransitTrip in *. run_inv H1. apply trip_update_base in H1. by rewrite H1.
  - by eapply business_steps.
  - done.
  - apply rtc_once. by apply (bs_create _ _ bt bid payer payee amount nt ne now e).
  - apply rtc_once. by apply (bs_fund _ _ id payer bt bid now ref b0 r).
  - by apply rtc_once.
Qed.

Lemma steps_refine s s' : pinv (base s) -> rtc (tstep sha256 wire wireT) s s' -> bsteps (base s) (base s').
Proof.
  intros Hi Hr. induction Hr as [s | s s1 s' Hs Hr IH]; [done |]. apply step_refines in Hs; [| done].
  etrans; [exact Hs |]. apply IH. by eapply reaches_pinv.
Qed.

(** ** Theorems *)

(** C6: every run of the transit services, on whatever databases they read, is a run of the
    platform of smart escrow, booking escrow and reservations: bookings,
    cancellations, trip cancellations, sweeps, controller updates and business
    no-shows do nothing to money, ledger or reservations that the platform's
    operations would not do, and the platform's invariant holds after them. *)
Theorem transit_refines_platform s s' :
  pinv (base s) -> rtc (tstep sha256 wire wireT) s s' -> rtc (booking_step sha256 wire) (base s) (base s') /\ pinv (base s').
Proof.
  intros Hi Hr. pose proof (steps_refine _ _ Hi Hr) as Hb. split; [exact Hb | by eapply reaches_pinv].
Qed.



(** The forward runs of an unconditional update and of a cancellation whose
    escrow holds no live funds. *)
Lemma put_runs id f r s : transit_of id s = Some r ->
  transaction (transit_put id f) s = (Ok tt, set_base (set_transits (<[id := f r]> (transits (base s))) (base s)) s).
Proof.
  intros Hrow. unfold transaction, transit_put, mbind, M_bind, on_base, transit_updateMany, mbind, M_bind, get. unfold transit_of in Hrow. by rewrite Hrow.
Qed.

Lemma claim_runs id r s : transit_of id s = Some r -> transit_in CANCELLABLE_STATUSES r = true ->
  cancel_claim MAX_LINKAGE_PIN_ATTEMPTS id s = Ok (Some (tb_escrowId r), set_base (set_transits (<[id := transit_status_to T_CANCELLED r]> (transits (base s))) (base s)) s).
Proof.
  intros Hrow Hc. unfold MAX_LINKAGE_PIN_ATTEMPTS. cbn [cancel_claim]. unfold transit_of in Hrow.
  assert (Hfind : on_base (transit_find id) s = Ok (Some r, s)).
  { unfold on_base, transit_find, reads. rewrite Hrow, base_same. done. }
  rewrite (bind_run _ _ _ _ _ Hfind). cbv zeta. change (link_of (Some r)) with (tb_escrowId r).
  assert (Hu : on_base (transit_updateMany id (fun x => transit_in CANCELLABLE_STATUSES x && bool_decide (tb_escrowId x = tb_escrowId r)) (transit_status_to T_CANCELLED)) s
    = Ok (1%nat, set_base (set_transits (<[id := transit_status_to T_CANCELLED r]> (transits (base s))) (base s)) s)).
  { unfold on_base, transit_updateMany. rewrite get_bind, Hrow, Hc, bool_decide_true by done. reflexivity. }
  rewrite (bind_run _ _ _ _ _ Hu). done.
Qed.

Lemma resolve_runs link now ref s : (forall i e, truthy link = Some i -> escrows (core (base s)) !! i = Some e -> in_status LIVE e = false) ->
  exists o, resolve_escrow sha256 link now ref s = Ok (o, s).
Proof.
  intros Hno. unfold resolve_escrow. destruct (truthy link) as [i |]; [| by eexists].
  assert (Hfind : on_escrow (escrow_find i) s = Ok (escrows (core (base s)) !! i, s)).
  { unfold on_escrow, on_base, on_core, escrow_find, reads. by rewrite core_same, base_same. }
  rewrite (bind_run _ _ _ _ _ Hfind). destruct (escrows (core (base s)) !! i) as [e |] eqn:He; [| by eexists]. rewrite (Hno i e eq_refl He). repeat case_match; by eexists.
Qed.

(** C30: the condition on the controller is needed.  A booking is cancelled and
    its seats are free again; a business whose status update read the booking
    while it was pending then confirms it, by its id; and a second cancellation
    that read the booking with its [n] seats wins its claim on the confirmed
    row.  Both calls succeed, the trip offers [n] seats more than it has, and no
    seat was freed for them. *)
Theorem stale_confirm_oversells s before mid s0 id r rb b n t tr user now ref rel1 ref1 now2 ref2 :
  transit_of id s = Some r -> tb_status r = T_CANCELLED -> seats_of id s = ∅ -> trips s !! t = Some tr ->
  (forall i e, truthy (tb_escrowId r) = Some i -> escrows (core (base s)) !! i = Some e -> in_status LIVE e = false) ->
  transit_of id before = Some rb -> tb_status rb = T_PENDING -> businesses before !! tb_businessProfileId rb = Some b ->
  cancel_auth id user s0 = Ok (n, Some t) -> (0 < n)%nat -> t <> EmptyString ->
  exists s1 s2 o tr', updateBookingStatus sha256 (bz_userId b) id T_CONFIRMED now ref rel1 ref1 before mid s = (Ok tt, s1) /\
    cancelTransitBooking sha256 id user now2 ref2 s0 s1 = (Ok (false, o), s2) /\ trips s2 !! t = Some tr' /\
    tr_availableSeats tr' + trip_total t s2 = tr_availableSeats tr + trip_total t s + Z.of_nat n.
Proof.
  intros Hrow Hst Hseats Htr Hno Hrb Hpend Hb Ha Hn Ht. set (s1 := set_base (set_transits (<[id := transit_status_to T_CONFIRMED r]> (transits (base s))) (base s)) s).
  assert (Hrow1 : transit_of id s1 = Some (transit_status_to T_CONFIRMED r)) by (unfold transit_of, s1; simpl; by rewrite lookup_insert_eq).
  pose proof (claim_runs id _ s1 Hrow1 eq_refl) as Hclaim. set (s2 := set_base _ s1) in Hclaim.
  assert (Hkeep : filter (fun p : (string * string) * seat_row => bs_bookingId p.2 <> id) (seats s2) = seats s).
  { apply map_filter_id. intros k x Hk Heq. change (seats s2) with (seats s) in Hk. assert (Hin : seats_of id s !! k = Some x) by (unfold seats_of; by apply map_lookup_filter_Some). by rewrite Hseats, lookup_empty in Hin. }
  set (s3 := set_trips (<[t := trip_add_seats (Z.of_nat n) tr]> (trips s)) s2).
  assert (Hrel : release_seats id n (Some t) s2 = Ok (tt, s3)).
  { unfold release_seats. apply Nat.ltb_lt in Hn. rewrite Hn. unfold seat_deleteMany. erewrite bind_run by reflexivity. rewrite Hkeep.
    unfold truthy. destruct t; [done |]. unfold trip_update. rewrite get_bind. change (trips (set_seats _ s2)) with (trips s). rewrite Htr. reflexivity. }
  destruct (resolve_runs (tb_escrowId r) now2 ref2 s3 Hno) as (o & Hres).
  exists s1, s3, o, (trip_add_seats (Z.of_nat n) tr). split_and!; [| | apply lookup_insert_eq | unfold trip_total, seats_of_trip; simpl; lia].
  - unfold updateBookingStatus. rewrite Hrb, Hb, Z.eqb_refl, andb_false_r, andb_false_l, Hpend. cbn [_isValidTransition negb]. rewrite bool_decide_true by left.
    cbn [negb]. rewrite bool_decide_false by done. rewrite bool_decide_false by done. by apply put_runs.
  - unfold cancelTransitBooking. rewrite Ha. unfold transaction, cancel_tx. rewrite (bind_run _ _ _ _ _ Hclaim), (bind_run _ _ _ _ _ Hrel).
    change (tb_escrowId (transit_status_to T_CONFIRMED r)) with (tb_escrowId r). by rewrite (bind_run _ _ _ _ _ Hres).
Qed.

Lemma booking_refund_moves id now ref c r c' e :
  einv c -> escrows c !! id = Some e -> _refundBookingEscrowTx sha256 id now ref c = Ok (r, c') ->
  escrows c' = <[id := refunded_row REFUNDED now ref e]> (escrows c) /\
  avail (es_payerId e) c' = avail (es_payerId e) c + es_amountUsdc e /\ locked (es_payerId e) c' = locked (es_payerId e) c - es_amountUsdc e.
Proof.
  intros Hi He Hr. apply booking_refund_effect in Hr as (e1 & Hs); [| done]. assert (e1 = e) as -> by (pose proof (st_row _ _ _ _ _ _ _ _ Hs); congruence).
  destruct (settlement_moves _ _ _ _ _ _ _ _ Hs) as (_ & _ & _ & Hav & Hlo & _). rewrite Hav, Hlo, Z.eqb_refl.
  destruct (st_money _ _ _ _ _ _ _ _ Hs) as (ds & hs & key & ls & _ & _ & Hef). split_and!; [apply (ef_escrows _ _ _ _ _ _ _ _ _ _ _ Hef) | | done].
  destruct (_ =? _); lia.
Qed.

Lemma cancel_settles s0 s id user now ref o s' :
  tinv s -> pinv (base s) -> t_earlier s0 s -> cancelTransitBooking sha256 id user now ref s0 s = (Ok (false, o), s') ->
  exists r, transit_of id s = Some r /\ transit_in CANCELLABLE_STATUSES r = true /\
    tb_status <$> transit_of id s' = Some T_CANCELLED /\ seats_of id s' = ∅ /\
    (forall t tr, tb_tripId r = Some t -> trips s !! t = Some tr ->
       exists tr', trips s' !! t = Some tr' /\ tr_availableSeats tr' = tr_availableSeats tr + Z.of_nat (size (seats_of id s))) /\
    (forall i e, truthy (tb_escrowId r) = Some i -> escrows (core (base s)) !! i = Some e -> in_status LIVE e = true ->
       o = Some (OUT_REFUNDED (es_amountUsdc e)) /\ es_status <$> escrows (core (base s')) !! i = Some REFUNDED /\
       avail (es_payerId e) (core (base s')) = avail (es_payerId e) (core (base s)) + es_amountUsdc e /\
       locked (es_payerId e) (core (base s')) = locked (es_payerId e) (core (base s)) - es_amountUsdc e).
Proof.
  intros Hi Hp Hst Hr. unfold cancelTransitBooking in Hr. destruct (cancel_auth id user s0) as [[n t] | err] eqn:Ha; [| done].
  apply transaction_Ok, cancel_tx_Ok in Hr as [(_ & [=] & _) | (r & y & s1 & o' & Hrow & Hc & [= <-] & Hrel & Hres)].
  exists r. set (sA := set_base (set_transits (<[id := transit_status_to T_CANCELLED r]> (transits (base s))) (base s)) s) in *.
  assert (HiA : tinv sA).
  { apply (move_rows s sA); try done. eapply rows_insert; [done |]. later_tac Hc. }
  unfold cancel_auth in Ha. res_inv Ha. destruct (tm_rows _ _ Hst id v0 Hres1) as (r1 & Hr1 & Hl1).
  assert (r1 = r) as -> by congruence. pose proof (tm_seats _ _ Hst id r ltac:(by eexists) Hrow Hc) as Hseats.
  pose proof (release_base _ _ _ _ _ _ Hrel) as Hbase.
  apply (release_move id _ (transit_status_to T_CANCELLED r)) in Hrel as (_ & _ & Hempty & Htrips);
    [| done | unfold transit_of, sA; simpl; by rewrite lookup_insert_eq | by vm_compute | by rewrite <- Hseats | intros _; apply (tl_trip _ _ Hl1)].
  rewrite <- Hseats in Htrips.
  assert (Hsame : seats s' = seats s1 /\ trips s' = trips s1 /\ transits (base s') = transits (base s1)).
  { apply resolve_Ok in Hres as [(-> & _) | (i & e & r2 & c & _ & _ & _ & _ & _ & ->)]; done. }
  destruct Hsame as (Hs1 & Hs2 & Hs3). split_and!; [done | done | | | |].
  - unfold transit_of. rewrite Hs3, Hbase. simpl. by rewrite lookup_insert_eq.
  - unfold seats_of in *. by rewrite Hs1.
  - intros t tr Ht Htr. rewrite Hs2. by apply (Htrips t tr).
  - intros i e Hlink He Hl. apply resolve_Ok in Hres as [(_ & _ & Hno) | (i' & e' & r2 & c & Hlink' & He' & _ & -> & Hre & ->)].
    + rewrite Hbase in Hno. specialize (Hno i e Hlink He). congruence.
    + rewrite Hbase in *. assert (i' = i) as -> by congruence. assert (e' = e) as -> by (simpl in He'; congruence).
      cbn [core set_core set_transits base sA set_base] in *. destruct (booking_refund_moves _ _ _ _ _ _ _ (pi_core _ Hp) He Hre) as (Hesc & Hav & Hlo).
      rewrite Hesc, lookup_insert_eq. by split_and!.
Qed.

(** A cancellation that wins the booking, although it was authorized on a
    stale read, takes a cancellable booking to CANCELLED, frees exactly the
    seats it holds and gives them back to its trip, and refunds the whole
    deposit of a live escrow to the payer in the same transaction. *)
Theorem transit_cancel_settles s0 s id user now ref o s' :
  tinv s -> pinv (base s) -> t_earlier s0 s -> cancelTransitBooking sha256 id user now ref s0 s = (Ok (false, o), s') ->
  exists r, transit_of id s = Some r /\ transit_in CANCELLABLE_STATUSES r = true /\
    tb_status <$> transit_of id s' = Some T_CANCELLED /\ seats_of id s' = ∅ /\
    (forall t tr, tb_tripId r = Some t -> trips s !! t = Some tr ->
       exists tr', trips s' !! t = Some tr' /\ tr_availableSeats tr' = tr_availableSeats tr + Z.of_nat (size (seats_of id s))) /\
    (forall i e, truthy (tb_escrowId r) = Some i -> escrows (core (base s)) !! i = Some e -> in_status LIVE e = true ->
       o = Some (OUT_REFUNDED (es_amountUsdc e)) /\ es_status <$> escrows (core (base s')) !! i = Some REFUNDED /\
       avail (es_payerId e) (core (base s')) = avail (es_payerId e) (core (base s)) + es_amountUsdc e /\
       locked (es_payerId e) (core (base s')) = locked (es_payerId e) (core (base s)) - es_amountUsdc e).
Proof. apply cancel_settles. Qed.

(** Marking a no-show from the controller strands the deposit of a booking
    without a penalty: the booking becomes NO_SHOW, the escrow and every balance
    stay as they were with the funds locked, and from then on no cancellation
    and no sweep of the booking does anything. *)
Theorem no_show_update_strands_deposit s id now ref rel1 ref1 r b i e :
  transit_of id s = Some r -> tb_status r = T_CONFIRMED -> businesses s !! tb_businessProfileId r = Some b ->
  tb_noShowPenaltyPct r = None -> tb_noShowPenaltyUsdc r = None ->
  tb_escrowId r = Some i -> escrows (core (base s)) !! i = Some e -> in_status LIVE e = true ->
  exists s', updateBookingStatus sha256 (bz_userId b) id T_NO_SHOW now ref rel1 ref1 s s s = (Ok tt, s') /\
    tb_status <$> transit_of id s' = Some T_NO_SHOW /\ core (base s') = core (base s) /\
    (forall user now' ref' s0, exists err, cancelTransitBooking sha256 id user now' ref' s0 s' = (Err err, s')) /\
    (forall grace now' a1 a2 a3, sweep_tx sha256 id grace now' a1 a2 a3 s' = Ok (ALREADY_NO_SHOW, s')).
Proof.
  intros Hrow Hst Hb Hp Hf Hlink He Hl.
  set (s' := set_base (set_transits (<[id := transit_status_to T_NO_SHOW r]> (transits (base s))) (base s)) s).
  assert (Hrow' : transit_of id s' = Some (transit_status_to T_NO_SHOW r)) by (unfold transit_of, s'; simpl; by rewrite lookup_insert_eq).
  exists s'. split_and!; [| by rewrite Hrow' | done | |].
  - unfold updateBookingStatus. rewrite Hrow, Hb, Z.eqb_refl, andb_false_r, andb_false_l, Hst. cbn [_isValidTransition]. rewrite bool_decide_true by (right; right; left).
    cbn [negb]. rewrite bool_decide_false by done. unfold tb_penalty_pct, tb_penalty_flat. rewrite Hp, Hf. simpl.
    unfold transaction, transit_put. unfold mbind, M_bind, on_base, transit_updateMany, mbind, M_bind, get. unfold transit_of in Hrow. by rewrite Hrow.
  - intros user now' ref' s0. unfold cancelTransitBooking. destruct (cancel_auth id user s0) as [[n t] | err]; [| by exists err].
    destruct (cancel_tx sha256 id n t now' ref' s') as [[x s2] | err] eqn:Hc; [| exists err; by apply transaction_rollback].
    apply cancel_tx_Ok in Hc as [(_ & _ & Hx) | (r' & y & s3 & o & Hr' & Hin & _)]; rewrite Hrow' in *; [done |].
    injection Hr' as <-. done.
  - intros grace now' a1 a2 a3. unfold sweep_tx. apply Mbind_Ok. exists (Some (transit_status_to T_NO_SHOW r)), s'.
    split; [| by apply Mret_Ok]. apply on_base_Ok. exists (base s'). split; [| by rewrite base_same]. unfold transit_find. apply reads_Ok.
    by rewrite <- Hrow'.
Qed.

Lemma seat_createMany_free trip bid rows s x s' : seat_createMany trip bid rows s = Ok (x, s') -> forall seat, seat ∈ map fst rows -> seats s !! (trip, seat) = None.
Proof.
  revert s. induction rows as [| [k name] rows IH]; intros s Hr seat Hin; [by apply not_elem_of_nil in Hin |]. simpl in Hr.
  apply Mbind_Ok in Hr as (y & s1 & Hg & Hr). apply get_Ok in Hg as [-> ->].
  apply Mbind_Ok in Hr as (y & s1 & Hc & Hr). apply check_Ok in Hc as [Hc ->].
  apply Mbind_Ok in Hr as (y2 & s1 & Hp & Hr). apply put_Ok in Hp as ->.
  apply elem_of_cons in Hin as [-> | Hin]; [simpl; by destruct (seats s !! (trip, k)) |].
  specialize (IH _ Hr seat Hin). cbn [seats set_seats] in IH. destruct (decide ((trip, k) = (trip, seat))) as [Heq | Hne];
    [rewrite Heq, lookup_insert_eq in IH; done | by rewrite lookup_insert_ne in IH].
Qed.

(** A seat whose booking ended without releasing it (a no-show, or a booking
    cancelled with its trip) is offered as available and can never be booked:
    every request that names it fails and changes nothing. *)
Theorem ended_booking_blocks_seat s t tr layout x sr b :
  trips s !! t = Some tr -> trip_layout tr s = Some layout -> x ∈ layout ->
  seats s !! (t, seatId x) = Some sr -> transit_of (bs_bookingId sr) s = Some b -> transit_in [T_CANCELLED; T_NO_SHOW] b = true ->
  (exists a, getTripSeatAvailability t s = Ok a /\ (x, false, seat_fare tr (Some x)) ∈ av_seats a) /\
  (forall customer seatIds names op newId ref now s0, seatId x ∈ seatIds ->
     exists err, bookSeats wireT t customer seatIds names op newId ref now s0 s = (Err err, s)).
Proof.
  intros Htr Hlay Hx Hs Hb Hend. split.
  - unfold getTripSeatAvailability. rewrite Htr. simpl. rewrite Hlay. eexists. split; [done |]. simpl.
    apply list_elem_of_fmap. exists x. split; [| done]. unfold occupied. by rewrite Hs, Hb, Hend.
  - intros customer seatIds names op newId ref now s0 Hin. unfold bookSeats.
    destruct (book_read t customer seatIds s0) as [[trip fare] | err]; [| by exists err].
    destruct (book_tx wireT t customer seatIds names trip fare op newId ref now s) as [[y s1] | err] eqn:Htx;
      [| unfold transaction; rewrite Htx; eexists; done].
    exfalso. unfold book_tx in Htx. apply Mbind_Ok in Htx as (q & s2 & Hq & Htx).
    assert (s2 = s) as -> by (destruct fare; [by apply Mret_Ok in Hq as [_ ->] | by apply throw_Ok in Hq..]).
    apply Mbind_Ok in Htx as (y1 & s2 & Hcr & Htx). apply Mbind_Ok in Htx as (y2 & s3 & Hse & Htx).
    assert (seats s2 = seats s) as Heq by (unfold transit_create in Hcr; run_inv Hcr; done).
    apply seat_createMany_free with (seat := seatId x) in Hse; [rewrite Heq in Hse; congruence | by rewrite seat_data_ids].
Qed.

(** ** The business penalty *)

Lemma tenth_near : (Qabs (BUSINESS_PENALTY_PCT - (1 # 10)) <= 1 # 90000000000000000)%Q.
Proof. by vm_compute. Qed.

(** A tenth of the principal, rounded to 6 decimals. *)
Lemma business_penalty_val u :
  0 < u <= ESCROW_MAX ->
  exists a, share_val (_calculateBusinessPenalty u) a /\ Z.abs (10 * a - u) <= 501.
Proof.
  intros Hu. assert (Hu' : 0 <= u <= ESCROW_MAX) by lia. destruct (number_bound u Hu') as [HN0 HN].
  assert (Hsafe : Z.abs u <= SAFE_UNITS) by (unfold ESCROW_MAX, SAFE_UNITS in *; lia). pose proof (close_Number u Hsafe) as HcN.
  unfold _calculateBusinessPenalty. rewrite (sv_positive _ _ (share_principal u Hu')). destruct (Z.ltb_spec 0 u); [| lia].
  set (N := Number_of_units u) in *. pose proof tenth_near as Ht. set (v := BUSINESS_PENALTY_PCT) in *. apply Qabs_Qle_condition in Ht as [Ht1 Ht2].
  assert (Hhi : (N * v <= N * (1 # 10) + (1 # 10000000000))%Q) by nra. assert (Hlo : (N * (1 # 10) - (1 # 10000000000) <= N * v)%Q) by nra.
  assert (Hmul : (0 <= N * v)%Q) by (apply Qmult_le_0_compat; [done | lra]).
  unfold js_mul. destruct (fl_nonneg_le (N * v) Hmul) as [Hf0 Hf].
  pose proof (toFixedZ_spec 6 (fl (N * v)) ltac:(lia)) as Hs. change (10 ^ 6) with 1000000 in Hs. change (inject_Z 1000000) with 1000000%Q in Hs.
  apply Qabs_Qle_condition in Hs as [Hs1 Hs2].
  assert (Hk0 : 0 <= toFixedZ 6 (fl (N * v))) by (apply toFixedZ_nonneg; [lia | by apply Qnum_nonneg]).
  pose proof (round6_magnitude (fl (N * v)) 500000000000000) as Hb. rewrite (Qabs_pos _ Hf0) in Hb.
  change (inject_Z 500000000000000) with 500000000000000%Q in Hb. specialize (Hb ltac:(lra)).
  unfold round6. set (k := toFixedZ 6 (fl (N * v))) in *. exists (100 * k). split; [apply share_grid; [done | unfold SAFE_UNITS; lia] |].
  pose proof (fl_error' (N * v)) as He. rewrite (Qabs_pos _ Hmul) in He. apply Qabs_Qle_condition in He as [He1 He2].
  unfold close in HcN. apply Qabs_Qle_condition in HcN as [HcN1 HcN2].
  assert (Hq : (inject_Z (10 * (100 * k)) <= inject_Z (u + 501) + (1 # 2))%Q /\ (inject_Z (u - 501) - (1 # 2) <= inject_Z (10 * (100 * k)))%Q).
  { unfold Zminus. rewrite !inject_Z_plus, !inject_Z_mult. change (inject_Z 10) with 10%Q. change (inject_Z 100) with 100%Q.
    change (inject_Z 501) with 501%Q. change (inject_Z (- (501))) with (-501)%Q. split; lra. }
  unfold Qle, Qplus, Qminus, Qopp, inject_Z in Hq. simpl in Hq. lia.
Qed.

Lemma business_refund_moves id e now ref c0 r c :
  einv c0 -> escrows c0 !! id = Some e -> in_status LIVE e = true -> _refundEscrowTx sha256 id e REFUNDED now ref c0 = Ok (r, c) ->
  0 < es_amountUsdc e /\ avail (es_payerId e) c = avail (es_payerId e) c0 + es_amountUsdc e /\
  locked (es_payerId e) c = locked (es_payerId e) c0 - es_amountUsdc e.
Proof.
  intros Hi He Hl Hr. apply refund_effect in Hr as (e1 & _ & Hpos & Hef & _); [| by apply (ei_terms c0 Hi id e He)].
  pose proof (ef_users _ _ _ _ _ _ _ _ _ _ _ Hef) as Hmv. unfold from_dispute in Hmv. rewrite (live_not_dispute e Hl) in Hmv. split; [done |].
  unfold avail, locked. rewrite (moves_bucket availableBalance da (fun _ _ => eq_refl) _ _ _ _ Hmv), (moves_bucket escrowLockedBalance dl (fun _ _ => eq_refl) _ _ _ _ Hmv).
  unfold delta_of. simpl. rewrite Z.eqb_refl. simpl. lia.
Qed.

Lemma stake_claim_Ok profile q a s p s' :
  share_val q a -> stake_claim profile q s = Ok (p, s') ->
  forall k b, businesses s !! k = Some b -> exists b', businesses s' !! k = Some b' /\
    bz_stakeBalance b' = bz_stakeBalance b - (if p && bool_decide (truthy profile = Some k) then a else 0) /\
    (0 <= bz_stakeBalance b -> 0 <= bz_stakeBalance b').
Proof.
  intros Hv Hr k b Hb. unfold stake_claim in Hr.
  assert (Hno : p = false -> s' = s -> exists b', businesses s' !! k = Some b' /\
    bz_stakeBalance b' = bz_stakeBalance b - (if p && bool_decide (truthy profile = Some k) then a else 0) /\ (0 <= bz_stakeBalance b -> 0 <= bz_stakeBalance b')).
  { intros -> ->. exists b. simpl. split_and!; [done | lia | done]. }
  destruct (truthy profile) as [t |] eqn:Ht; [| apply Mret_Ok in Hr as [-> ->]; auto].
  destruct (js_lt 0 q); [| apply Mret_Ok in Hr as [-> ->]; auto]. apply Mbind_Ok in Hr as (y & s1 & Hg & Hr). apply get_Ok in Hg as [-> ->].
  destruct (businesses s !! t) as [b0 |] eqn:Hb0; [| apply Mret_Ok in Hr as [-> ->]; auto].
  destruct (Z.leb_spec (num_to_col q) (bz_stakeBalance b0)) as [Hle |]; [| apply Mret_Ok in Hr as [-> ->]; auto].
  apply Mbind_Ok in Hr as (y & s1 & Hp & Hr). apply put_Ok in Hp as ->. apply Mret_Ok in Hr as [-> ->]. cbn [businesses set_businesses andb].
  rewrite (sv_col _ _ Hv) in *. pose proof (sv_nonneg _ _ Hv). destruct (decide (t = k)) as [-> | Hne].
  - rewrite lookup_insert_eq, bool_decide_true by done. assert (b0 = b) as -> by congruence. eexists. split; [done |]. simpl. lia.
  - rewrite lookup_insert_ne, bool_decide_false by congruence. exists b. split_and!; [done | lia | done].
Qed.

(** The booking named in a successful call reaches its terminal status. *)
Lemma close_Ok ty k v a now s x s' :
  view_booking ty k s = Some v -> close_booking ty k v a now s = Ok (x, s') ->
  match ty with
  | RESERVATION => rv_status <$> reservations (base s') !! k = Some R_CANCELLED_BUSINESS
  | TRANSIT => tb_status <$> transit_of k s' = Some T_CANCELLED
  end.
Proof.
  intros Hv Hr. unfold close_booking in Hr. apply Mbind_Ok in Hr as (n & s1 & Hu & Hr). apply check_Ok in Hr as [Hc ->].
  destruct ty; apply on_base_Ok in Hu as (b & Hu & ->); cbn [view_booking] in Hv.
  - apply resv_updateMany_Ok in Hu as [[-> ->] | (_ & r & Hrow & _ & ->)]; [| simpl; by rewrite lookup_insert_eq].
    simpl in Hc. destruct (reservations (base s) !! k) as [r |] eqn:Hrow; [| done]. simpl in Hv. injection Hv as <-. simpl in Hc.
    apply negb_true_iff, negb_false_iff, orb_true_iff in Hc as [Hc | Hc]; [| done]. apply bool_decide_eq_true in Hc. cbn [base set_base].
    rewrite Hrow. simpl. by rewrite Hc.
  - apply transit_update_Ok in Hu as [(-> & -> & _) | (_ & r & Hrow & _ & ->)]; [| unfold transit_of; simpl; by rewrite lookup_insert_eq].
    simpl in Hc. rewrite base_same. destruct (transit_of k s) as [r |] eqn:Hrow; [| done]. simpl in Hv. injection Hv as <-. simpl in Hc.
    apply negb_true_iff, negb_false_iff, orb_true_iff in Hc as [Hc | Hc]; [| done]. apply bool_decide_eq_true in Hc. simpl. by rewrite Hc.
Qed.

(** A business no-show settles in one transaction: the payer gets the whole
    principal back, the escrow and the booking are terminal, and the business
    pays a tenth of the principal (to the nearest 6 decimals) from its stake
    when the stake covers it and nothing otherwise, so no stake becomes
    negative. *)
Theorem business_no_show_settles s escrowId ty bid profile now ref r applied pen s' :
  pinv (base s) -> processBusinessNoShow sha256 escrowId ty bid profile now ref s = (Ok (Processed r applied pen), s') ->
  exists e a, escrows (core (base s)) !! escrowId = Some e /\ in_status LIVE e = true /\
    es_status <$> escrows (core (base s')) !! escrowId = Some REFUNDED /\
    avail (es_payerId e) (core (base s')) = avail (es_payerId e) (core (base s)) + es_amountUsdc e /\
    locked (es_payerId e) (core (base s')) = locked (es_payerId e) (core (base s)) - es_amountUsdc e /\
    0 <= a /\ Z.abs (10 * a - es_amountUsdc e) <= 501 /\
    (forall k b, businesses s !! k = Some b -> exists b', businesses s' !! k = Some b' /\
       bz_stakeBalance b' = bz_stakeBalance b - (if applied && bool_decide (truthy profile = Some k) then a else 0) /\
       (0 <= bz_stakeBalance b -> 0 <= bz_stakeBalance b')) /\
    (forall k, truthy bid = Some k ->
       match ty with
       | RESERVATION => rv_status <$> reservations (base s') !! k = Some R_CANCELLED_BUSINESS
       | TRANSIT => tb_status <$> transit_of k s' = Some T_CANCELLED
       end).
Proof.
  intros Hi Hr. apply transaction_Ok, no_show_tx_Ok in Hr
    as [(_ & e & [=]) | (e & r1 & c & s1 & p & s2 & b & u & He & Hl & Hown & Hre & Hp & Hc & -> & [= <- <- ->])].
  destruct (business_refund_moves _ _ _ _ _ _ _ (pi_core _ Hi) He Hl Hre) as (Hpos & Hav & Hlo).
  pose proof (business_refund_ends _ _ _ _ _ _ _ (pi_core _ Hi) He Hre) as Hesc. destruct (ei_terms _ (pi_core _ Hi) _ _ He) as [Hterms _].
  destruct (business_penalty_val (es_amountUsdc e) ltac:(lia)) as (a & Hval & Hnear).
  pose proof (stake_claim_Ok _ _ _ _ _ _ Hval Hp) as Hstake. apply keeps_stake in Hp as [_ Hb1]. cbn [base set_base] in Hb1.
  assert (Hs2 : core (base s2) = c /\ businesses s2 = businesses s1).
  { destruct b as [[k v] |]; [| apply Mret_Ok in Hc as [_ ->]; by rewrite Hb1]. unfold close_booking in Hc.
    apply Mbind_Ok in Hc as (n & s3 & Hu & Hc). apply check_Ok in Hc as [_ ->].
    destruct ty; apply on_base_Ok in Hu as (b' & Hu & ->); cbn [base businesses set_base]; split; try done.
    - apply resv_updateMany_Ok in Hu as [[_ ->] | (_ & rr & _ & _ & ->)]; by rewrite Hb1.
    - apply transit_update_Ok in Hu as [(_ & -> & _) | (_ & rr & _ & _ & ->)]; by rewrite Hb1. }
  destruct Hs2 as [Hcore Hbiz]. exists e, a. cbn [base businesses add_audit]. rewrite Hcore, Hbiz, Hesc, lookup_insert_eq.
  split_and!; [done.. | apply (sv_nonneg _ _ Hval) | done | exact Hstake |].
  intros k Hk. unfold owned_booking in Hown. rewrite Hk in Hown. apply Mbind_Ok in Hown as (w & s3 & Hw & Hown). apply reads_Ok in Hw as [-> ->].
  apply Mbind_Ok in Hown as (bk & s3 & Hbk & Hown). apply lift_Ok in Hbk as [Hbk ->]. apply of_option_Ok in Hbk. run_inv Hown.
  apply (close_Ok ty k bk) in Hc; [exact Hc |]. rewrite <- Hbk. unfold view_booking, transit_of. by rewrite Hb1.
Qed.

(** ** Cancelling a trip *)

Definition cancelled (id : string) (s : tdb) : Prop := tb_status <$> transit_of id s = Some T_CANCELLED.
Definition cancellable_or_cancelled (id : string) (s : tdb) : Prop :=
  exists r, transit_of id s = Some r /\ transit_in [T_PENDING; T_CONFIRMED; T_CANCELLED] r = true.
(** No funds are live in [i] that were not live before. *)
Definition live_in (i : string) (s : tdb) : Prop := exists e, escrows (core (base s)) !! i = Some e /\ in_status LIVE e = true.

(** What the transaction of one booking guarantees. *)
Record booking_closed (id : string) (link : option string) (s s' : tdb) : Prop := {
  bc_trips : trips s' = trips s;
  bc_row : cancellable_or_cancelled id s -> cancelled id s';
  bc_rows : forall j, j <> id -> transit_of j s' = transit_of j s;
  bc_live : forall i, live_in i s' -> live_in i s;
  bc_link : forall i, truthy link = Some i -> ~ live_in i s';
}.

Lemma claim_row id s n s1 :
  on_base (transit_updateMany id (transit_in ACTIVE_BOOKING_STATUSES) (transit_status_to T_CANCELLED)) s = Ok (n, s1) ->
  trips s1 = trips s /\ core (base s1) = core (base s) /\ (cancellable_or_cancelled id s -> cancelled id s1) /\
  (forall j, j <> id -> transit_of j s1 = transit_of j s).
Proof.
  intros Hu. apply on_base_Ok in Hu as (b & Hu & ->). unfold cancelled, transit_of.
  apply transit_update_Ok in Hu as [(_ & -> & Hno) | (_ & r & Hrow & _ & ->)]; simpl; split_and!; try done.
  - intros (r & Hr & Hin). unfold transit_of in Hr. rewrite Hr. specialize (Hno r Hr). simpl. f_equal.
    unfold transit_in in *. by destruct (tb_status r).
  - intros _. by rewrite lookup_insert_eq.
  - intros j Hj. by rewrite lookup_insert_ne.
Qed.

Lemma trip_booking_Ok id link now ref s o s' :
  pinv (base s) -> trip_booking_tx sha256 id link now ref s = Ok (o, s') -> booking_closed id link s s'.
Proof.
  intros Hi Hr. unfold trip_booking_tx in Hr. apply Mbind_Ok in Hr as (n & s1 & Hu & Hr). apply claim_row in Hu as (Ht & Hc & Hcan & Hoth).
  assert (Hlv : forall i, live_in i s1 -> live_in i s) by (unfold live_in; by rewrite Hc).
  destruct (truthy link) as [i |] eqn:Hlink; [| apply Mret_Ok in Hr as [_ ->]; by split; rewrite ?Hlink].
  apply Mbind_Ok in Hr as (r & s2 & Hf & Hr). apply on_escrow_Ok in Hf as (c & Hf & ->). apply reads_Ok in Hf as [-> ->].
  rewrite core_same, base_same in Hr.
  destruct (escrows (core (base s1)) !! i) as [e |] eqn:He.
  2:{ apply Mret_Ok in Hr as [_ ->]. split; try done. intros i' Hi' (e' & He' & _). congruence. }
  destruct (in_status LIVE e) eqn:Hl.
  - apply Mbind_Ok in Hr as (y & s3 & Hf2 & Hr). apply Mret_Ok in Hr as [_ ->]. apply on_escrow_Ok in Hf2 as (c & Hf2 & ->).
    rewrite Hc in He. rewrite Hc in Hf2. destruct (booking_refund_moves _ _ _ _ _ _ _ (pi_core _ Hi) He Hf2) as (Hesc & _ & _).
    assert (Hcase : forall j, live_in j (set_base (set_core c (base s1)) s1) -> j <> i /\ live_in j s).
    { intros j (e' & He' & Hl'). cbn [base set_base core set_core] in He'. rewrite Hesc in He'. destruct (decide (j = i)) as [-> | Hne].
      - rewrite lookup_insert_eq in He'. by injection He' as <-.
      - rewrite lookup_insert_ne in He' by done. split; [done | by exists e']. }
    split; try done.
    + intros j Hj. by apply Hcase in Hj as [_ Hj].
    + intros j [= <-]%(eq_trans (eq_sym Hlink)) Hj. by apply Hcase in Hj as [Hj _].
  - assert (s' = s1) as -> by (repeat case_match; by apply Mret_Ok in Hr as [_ ->]). split; try done.
    intros j Hj (e' & He' & Hl'). rewrite Hlink in Hj. injection Hj as <-. congruence.
Qed.

(** The loop over the bookings. *)
Record bookings_closed (l : list (string * option string)) (outs : list (string * trip_outcome)) (s s' : tdb) : Prop := {
  bsc_ids : map fst outs = map fst l;
  bsc_steps : rtc (tstep sha256 wire wireT) s s';
  bsc_trips : trips s' = trips s;
  bsc_keep : forall j, (cancelled j s -> cancelled j s') /\ (cancellable_or_cancelled j s -> cancellable_or_cancelled j s');
  bsc_live : forall i, live_in i s' -> live_in i s;
  bsc_done : forallb (fun p => negb (failed p.2)) outs = true -> forall id link, (id, link) ∈ l -> cancellable_or_cancelled id s ->
    cancelled id s' /\ forall i, truthy link = Some i -> ~ live_in i s';
}.

Lemma closed_keep id link s s' j : booking_closed id link s s' ->
  (cancelled j s -> cancelled j s') /\ (cancellable_or_cancelled j s -> cancellable_or_cancelled j s').
Proof.
  intros Hb. destruct (decide (j = id)) as [-> | Hne].
  - assert (Hc : cancellable_or_cancelled id s -> cancelled id s') by apply (bc_row _ _ _ _ Hb). split.
    + intros Hcan. apply Hc. unfold cancelled in Hcan. destruct (transit_of id s) as [r |] eqn:Hr; [| done]. injection Hcan as Hst. exists r. split; [done |].
      unfold transit_in. by rewrite Hst.
    + intros Hcan. apply Hc in Hcan. unfold cancelled in Hcan. destruct (transit_of id s') as [r |] eqn:Hr; [| done]. injection Hcan as Hst. exists r. split; [done |].
      unfold transit_in. by rewrite Hst.
  - unfold cancelled, cancellable_or_cancelled. by rewrite (bc_rows _ _ _ _ Hb j Hne).
Qed.

Lemma cancel_bookings_Ok l now ref s outs s' :
  pinv (base s) -> cancel_bookings sha256 l now ref s = (outs, s') -> bookings_closed l outs s s'.
Proof.
  revert s outs. induction l as [| [id link] l IH]; intros s outs Hi Hr; simpl in Hr.
  { injection Hr as <- <-. split; try done. intros _ i k Hin. by apply not_elem_of_nil in Hin. }
  destruct (trip_booking_tx sha256 id link now (ref id) s) as [[o s1] | err] eqn:Htx; unfold transaction in Hr; rewrite Htx in Hr.
  - destruct (cancel_bookings sha256 l now ref s1) as [os s2] eqn:Hl. injection Hr as <- <-.
    pose proof (trip_booking_Ok _ _ _ _ _ _ _ Hi Htx) as Hb.
    assert (Hstep : tstep sha256 wire wireT s s1) by (by eapply ts_trip_booking).
    assert (Hi1 : pinv (base s1)) by (eapply reaches_pinv; [exact Hi | by eapply step_refines]).
    destruct (IH s1 os Hi1 Hl) as [Hids Hsteps Htrips Hkeep Hlive Hdone]. split.
    + simpl. by rewrite Hids.
    + by eapply rtc_l.
    + by rewrite Htrips, (bc_trips _ _ _ _ Hb).
    + intros j. pose proof (closed_keep _ _ _ _ j Hb). pose proof (Hkeep j). naive_solver.
    + intros i Hli. by apply (bc_live _ _ _ _ Hb), Hlive.
    + simpl. intros [_ Hok]%andb_true_iff id' link' Hin Hcan. apply elem_of_cons in Hin as [[= -> ->] | Hin].
      * split; [by apply Hkeep, (bc_row _ _ _ _ Hb) |]. intros i Hti Hli. by apply (bc_link _ _ _ _ Hb i Hti), Hlive.
      * apply Hdone; [done | done |]. by apply (closed_keep _ _ _ _ id' Hb).
  - destruct (cancel_bookings sha256 l now ref s) as [os s2] eqn:Hl. injection Hr as <- <-.
    destruct (IH s os Hi Hl) as [Hids Hsteps Htrips Hkeep Hlive Hdone]. split; try done. simpl. by rewrite Hids.
Qed.

(** Cancelling a trip without interference resolves every booking or says
    so: each eligible booking is reported once; if none failed, the trip is
    CANCELLED, every booking that was active or stranded is CANCELLED and no
    escrow of theirs holds live funds; if one failed, the trip's row is left
    as it was, so that the call can be repeated. *)
Theorem trip_cancellation_complete s tripId profile tr now ref flag outs s' :
  pinv (base s) -> trips s !! tripId = Some tr -> tr_businessProfileId tr = profile ->
  cancelTripWithRefunds sha256 tripId profile now ref s s = (Some (flag, outs), s') ->
  rtc (tstep sha256 wire wireT) s s' /\ map fst outs = map fst (trip_bookings tripId s) /\
  (forallb (fun p => negb (failed p.2)) outs = true -> flag = true /\
     forall id r, transit_of id s = Some r -> eligible tripId s r = true ->
       tb_status <$> transit_of id s' = Some T_CANCELLED /\
       forall i e, truthy (tb_escrowId r) = Some i -> escrows (core (base s')) !! i = Some e -> in_status LIVE e = false) /\
  (forallb (fun p => negb (failed p.2)) outs = false -> trips s' = trips s).
Proof.
  intros Hi Htr <- Hr. unfold cancelTripWithRefunds in Hr. rewrite Htr, String.eqb_refl in Hr.
  destruct (cancel_bookings sha256 (trip_bookings tripId s) now ref s) as [os s1] eqn:Hl. injection Hr as <- <- <-.
  destruct (cancel_bookings_Ok _ _ _ _ _ _ Hi Hl) as [Hids Hsteps Htrips Hkeep Hlive Hdone].
  assert (Hneg : existsb (fun p : string * trip_outcome => failed p.2) os = negb (forallb (fun p => negb (failed p.2)) os)).
  { clear. induction os as [| [] os IH]; [done |]. simpl. rewrite IH. by destruct (failed _). }
  rewrite Hneg. destruct (forallb (fun p => negb (failed p.2)) os) eqn:Hok; simpl; split_and!; try done.
  - eapply rtc_r; [exact Hsteps | constructor].
  - intros _. assert (Hrow : trips s1 !! tripId = Some tr) by (by rewrite Htrips). split.
    + apply bool_decide_eq_true. unfold cancel_trip_row. rewrite Hrow. destruct (String.eqb_spec (tr_status tr) "CANCELLED") as [He | _];
        [rewrite Hrow; simpl; by rewrite He | simpl; by rewrite lookup_insert_eq].
    + intros id r Hrr Hel.
      assert (Hbase : base (cancel_trip_row tripId s1) = base s1) by (unfold cancel_trip_row; repeat case_match; done).
      unfold transit_of. rewrite Hbase. fold (transit_of id s1).
      assert (Hin : (id, tb_escrowId r) ∈ trip_bookings tripId s).
      { unfold trip_bookings. apply list_elem_of_fmap. exists (id, r). split; [done |]. apply list_elem_of_In, filter_In. split; [| done].
        by apply list_elem_of_In, elem_of_map_to_list. }
      destruct (Hdone eq_refl id (tb_escrowId r) Hin) as [Hcan Hno].
      { exists r. split; [done |]. unfold eligible in Hel. apply andb_true_iff in Hel as [_ Hel].
        apply orb_true_iff in Hel as [Hel | [Hel _]%andb_true_iff]; unfold transit_in in *; by destruct (tb_status r). }
      split; [exact Hcan |]. intros i e Hti He. destruct (in_status LIVE e) eqn:Hle; [| done]. exfalso. apply (Hno i Hti). by exists e.
Qed.
End Refinement.

(** ** A run of the transit services *)

Definition tt_wire (id : string) (r : transit_row) (ids : list string) (fare : Q) : string := id.
Definition tt_trip : trip_row := TripRow "biz" "v1" 100000 4000000000 2 "SCHEDULED" {[ "VIP"%string := Num.Fin 60 ]}.
Definition tt_open : tdb :=
  TDB bk_open {[ "biz"%string := BizRow 2 false 5000000000 ]} {[ "v1"%string := VehicleRow "biz" 4 true (Some [Seat "1A" None; Seat "1B" (Some "VIP"%string)]) ]}
    {[ "t1"%string := tt_trip ]} ∅ [].
Definition tt_booked : tdb := (@bookSeats ToFixedColumn tt_wire "t1" 1 ["1A"; "1B"]%string [] None "b1" "TRN-1" 1000 tt_open tt_open).2.
Definition tt_linked : tdb :=
  match @createBookingEscrow ToFixedColumn TRANSIT "b1" 1 2 (Num.Fin 40) "t9" "e9" 1000 (base tt_booked) with
  | Ok (_, b) => set_base b tt_booked
  | Err _ => tt_booked
  end.
Definition tt_funded : tdb :=
  set_base (@fundBookingEscrow Decimal20 ToFixedColumn run_sha "e9" 1 (Some TRANSIT) (Some "b1"%string) 2000 "f9" (base tt_linked) (base tt_linked)).2 tt_linked.
Definition tt_cancelled : tdb := (@cancelTransitBooking Decimal20 ToFixedColumn run_sha "b1" 1 3000 "c9" tt_booked tt_funded).2.
Definition tt_trip_cancelled : tdb :=
  (@cancelTripWithRefunds Decimal20 ToFixedColumn run_sha "t1" "biz" 3000 (fun id => id) tt_funded tt_funded).2.
Definition tt_defaulted : tdb :=
  (@processBusinessNoShow Decimal20 ToFixedColumn run_sha "e9" TRANSIT (Some "b1"%string) (Some "biz"%string) 3000 "n9" tt_funded).2.
Definition tt_no_show : tdb := (@updateBookingStatus Decimal20 ToFixedColumn run_sha 2 "b1" T_NO_SHOW 3000 "x1" "x2" "x3" tt_funded tt_funded tt_funded).2.

Definition statuses (s : tdb) := (tb_status <$> transit_of "b1" s, es_status <$> escrows (core (base s)) !! "e9"%string, size (seats s),
  tr_availableSeats <$> trips s !! "t1"%string, tb_amountUsdc <$> transit_of "b1" s).
Example tt_statuses :
  (statuses tt_funded, statuses tt_cancelled, statuses tt_trip_cancelled, statuses tt_defaulted, statuses tt_no_show) =
  ((Some T_CONFIRMED, Some FUNDED, 2%nat, Some 0, Some 10000000000), (Some T_CANCELLED, Some REFUNDED, 0%nat, Some 2, Some 10000000000),
   (Some T_CANCELLED, Some REFUNDED, 2%nat, Some 0, Some 10000000000), (Some T_CANCELLED, Some REFUNDED, 2%nat, Some 0, Some 10000000000),
   (Some T_NO_SHOW, Some FUNDED, 2%nat, Some 0, Some 10000000000)).
Proof. vm_compute. reflexivity. Qed.

#[local] Abbreviation tt_step := (@ordered_step Decimal20 ToFixedColumn run_sha run_wire tt_wire).

Lemma tt_open_tinv : tinv tt_open.
Proof. split. intros t x r Hx. change ((∅ : gmap (string * string) seat_row) !! (t, x) = Some r) in Hx. by rewrite lookup_empty in Hx. Qed.

Lemma tt_book_step : tt_step tt_open tt_booked.
Proof.
  assert (Hr : exists x, @bookSeats ToFixedColumn tt_wire "t1" 1 ["1A"; "1B"]%string [] None "b1" "TRN-1" 1000 tt_open tt_open = (Ok x, tt_booked))
    by (eexists; vm_compute; reflexivity).
  destruct Hr as (x & Hr). refine (ts_book _ _ _ _ _ _ _ _ _ _ _ _ _ _ _ _ _ _ Hr). unfold t_earlier. reflexivity.
Qed.

Lemma tt_link_step : tt_step tt_booked tt_linked.
Proof.
  assert (Hr : exists e b, @createBookingEscrow ToFixedColumn TRANSIT "b1" 1 2 (Num.Fin 40) "t9" "e9" 1000 (base tt_booked) = Ok (e, b) /\
    tt_linked = set_base b tt_booked /\ es_amountUsdc e <= ESCROW_MAX /\ es_feeUsdc e <= ESCROW_MAX).
  { do 2 eexists. split; [vm_compute; reflexivity |]. split; [vm_compute; reflexivity | split; vm_compute; discriminate]. }
  destruct Hr as (e & b & Hr & -> & Ha & Hf). by apply (ts_link _ _ _ _ _ TRANSIT "b1" 1 2 (Num.Fin 40) "t9" "e9" 1000 e).
Qed.

Lemma tt_fund_step : tt_step tt_linked tt_funded.
Proof.
  assert (Hr : exists r, @fundBookingEscrow Decimal20 ToFixedColumn run_sha "e9" 1 (Some TRANSIT) (Some "b1"%string) 2000 "f9" (base tt_linked) (base tt_linked)
    = (Ok r, base tt_funded)) by (eexists; vm_compute; reflexivity).
  destruct Hr as (r & Hr). exact (ts_fund _ _ _ _ _ _ _ _ _ _ _ _ _ _ _ Hr).
Qed.

Lemma tt_reach_funded : rtc tt_step tt_open tt_funded.
Proof. eapply rtc_l; [apply tt_book_step |]. eapply rtc_l; [apply tt_link_step |]. apply rtc_once, tt_fund_step. Qed.
Lemma tt_funded_tinv : tinv tt_funded.
Proof. exact (proj2 (steps_move _ _ _ _ _ tt_open_tinv tt_reach_funded)). Qed.
Lemma tt_funded_pinv : pinv (base tt_funded).
Proof. eapply reaches_pinv; [exact bk_open_pinv |]. exact (steps_refine _ _ _ tt_open tt_funded bk_open_pinv (ordered_runs _ _ _ _ _ tt_reach_funded)). Qed.
(** The cancellation was authorized when the seats had just been booked. *)
Lemma tt_stale : t_earlier tt_booked tt_funded.
Proof.
  destruct (@steps_move Decimal20 ToFixedColumn run_sha run_wire tt_wire tt_booked tt_funded) as [Hm _]; [| | exact Hm].
  - exact (proj2 (step_move _ _ _ _ _ tt_open_tinv tt_book_step)).
  - eapply rtc_l; [apply tt_link_step |]. apply rtc_once, tt_fund_step.
Qed.
Lemma tt_cancel_run : exists o, @cancelTransitBooking Decimal20 ToFixedColumn run_sha "b1" 1 3000 "c9" tt_booked tt_funded = (Ok (false, o), tt_cancelled).
Proof. eexists. vm_compute. reflexivity. Qed.
Lemma tt_cancel_step : tt_step tt_funded tt_cancelled.
Proof. destruct tt_cancel_run as (o & Hr). exact (ts_cancel _ _ _ _ _ _ _ _ _ _ _ _ _ tt_stale Hr). Qed.

(** ** Witnesses *)

Lemma transit_refines_platform_witness : rtc (@booking_step Decimal20 ToFixedColumn run_sha run_wire) bk_open (base tt_cancelled).
Proof.
  refine (proj1 (@transit_refines_platform Decimal20 ToFixedColumn run_sha run_wire tt_wire tt_open tt_cancelled bk_open_pinv _)).
  apply ordered_runs. eapply rtc_r; [exact tt_reach_funded | exact tt_cancel_step].
Defined.


Lemma transit_cancel_settles_witness : exists r, transit_of "b1" tt_funded = Some r /\ tb_status <$> transit_of "b1" tt_cancelled = Some T_CANCELLED /\
  seats_of "b1" tt_cancelled = ∅.
Proof.
  destruct tt_cancel_run as (o & Hr).
  destruct (@transit_cancel_settles Decimal20 ToFixedColumn run_sha tt_booked tt_funded "b1" 1 3000 "c9" o tt_cancelled tt_funded_tinv tt_funded_pinv tt_stale Hr)
    as (r & Hrow & _ & Hst & Hse & _).
  exists r. split; [exact Hrow | split; [exact Hst | exact Hse]].
Defined.

Lemma no_show_update_strands_deposit_witness : exists s', core (base s') = core (base tt_funded) /\ tb_status <$> transit_of "b1" s' = Some T_NO_SHOW.
Proof.
  assert (Hrow : exists r e, transit_of "b1" tt_funded = Some r /\ tb_status r = T_CONFIRMED /\ businesses tt_funded !! tb_businessProfileId r = Some (BizRow 2 false 5000000000) /\
    tb_noShowPenaltyPct r = None /\ tb_noShowPenaltyUsdc r = None /\ tb_escrowId r = Some "e9"%string /\
    escrows (core (base tt_funded)) !! "e9"%string = Some e /\ in_status LIVE e = true)
    by (do 2 eexists; split; [vm_compute; reflexivity |]; do 5 (split; [vm_compute; reflexivity |]); split; vm_compute; reflexivity).
  destruct Hrow as (r & e & Hr & Hst & Hb & Hp & Hf & Hl & He & Hlive).
  destruct (@no_show_update_strands_deposit Decimal20 ToFixedColumn run_sha tt_funded "b1" 3000 "x1" "x2" "x3" r _ "e9" e Hr Hst Hb Hp Hf Hl He Hlive)
    as (s' & _ & Hst' & Hc & _).
  exists s'. split; [exact Hc | exact Hst'].
Defined.

Lemma ended_booking_blocks_seat_witness : exists err,
  @bookSeats ToFixedColumn tt_wire "t1" 7 ["1A"%string] [] None "b2" "TRN-2" 5000 tt_no_show tt_no_show = (Err err, tt_no_show).
Proof.
  assert (Hrow : exists tr sr b, trips tt_no_show !! "t1"%string = Some tr /\
    trip_layout tr tt_no_show = Some [Seat "1A" None; Seat "1B" (Some "VIP"%string)] /\ seats tt_no_show !! ("t1", "1A")%string = Some sr /\
    transit_of (bs_bookingId sr) tt_no_show = Some b /\ transit_in [T_CANCELLED; T_NO_SHOW] b = true)
    by (do 3 eexists; do 4 (split; [vm_compute; reflexivity |]); vm_compute; reflexivity).
  destruct Hrow as (tr & sr & b & Htr & Hlay & Hs & Hb & Hend).
  refine (proj2 (@ended_booking_blocks_seat ToFixedColumn tt_wire tt_no_show "t1" tr _ (Seat "1A" None) sr b Htr Hlay _ Hs Hb Hend)
    7 ["1A"%string] [] None "b2"%string "TRN-2"%string 5000 tt_no_show _); left.
Defined.

Lemma business_no_show_settles_witness : exists e a, escrows (core (base tt_funded)) !! "e9"%string = Some e /\ Z.abs (10 * a - es_amountUsdc e) <= 501 /\
  es_status <$> escrows (core (base tt_defaulted)) !! "e9"%string = Some REFUNDED.
Proof.
  assert (Hr : exists r p q, @processBusinessNoShow Decimal20 ToFixedColumn run_sha "e9" TRANSIT (Some "b1"%string) (Some "biz"%string) 3000 "n9" tt_funded =
    (Ok (Processed r p q), tt_defaulted)) by (do 3 eexists; vm_compute; reflexivity).
  destruct Hr as (r & p & q & Hr).
  destruct (@business_no_show_settles Decimal20 ToFixedColumn run_sha tt_funded "e9" TRANSIT (Some "b1"%string) (Some "biz"%string) 3000 "n9" r p q
    tt_defaulted tt_funded_pinv Hr) as (e & a & He & _ & Hst & _ & _ & _ & Ha & _).
  exists e, a. split; [exact He | split; [exact Ha | exact Hst]].
Defined.

Lemma trip_cancellation_complete_witness : exists flag outs,
  @cancelTripWithRefunds Decimal20 ToFixedColumn run_sha "t1" "biz" 3000 (fun id => id) tt_funded tt_funded = (Some (flag, outs), tt_trip_cancelled) /\
  rtc (@tstep Decimal20 ToFixedColumn run_sha run_wire tt_wire) tt_funded tt_trip_cancelled.
Proof.
  assert (Hr : exists flag outs tr, trips tt_funded !! "t1"%string = Some tr /\ tr_businessProfileId tr = "biz"%string /\
    @cancelTripWithRefunds Decimal20 ToFixedColumn run_sha "t1" "biz" 3000 (fun id => id) tt_funded tt_funded = (Some (flag, outs), tt_trip_cancelled))
    by (do 3 eexists; split; [vm_compute; reflexivity |]; split; vm_compute; reflexivity).
  destruct Hr as (flag & outs & tr & Htr & Hp & Hr). exists flag, outs. split; [exact Hr |].
  exact (proj1 (@trip_cancellation_complete Decimal20 ToFixedColumn run_sha run_wire tt_wire tt_funded "t1" "biz" tr 3000 (fun id => id) flag outs
    tt_trip_cancelled tt_funded_pinv Htr Hp Hr)).
Defined.

(** The customer sends the cancellation twice while the business confirms: the
    trip of two seats ends with four free ones. *)
Definition tt_freed : tdb := (@cancelTransitBooking Decimal20 ToFixedColumn run_sha "b1" 1 3000 "c9" tt_booked tt_booked).2.
Lemma stale_confirm_oversells_witness : exists s1 s2 o tr',
  @updateBookingStatus Decimal20 ToFixedColumn run_sha 2 "b1" T_CONFIRMED 3100 "x1" "x2" "x3" tt_booked tt_booked tt_freed = (Ok tt, s1) /\
  @cancelTransitBooking Decimal20 ToFixedColumn run_sha "b1" 1 3200 "c8" tt_booked s1 = (Ok (false, o), s2) /\ trips s2 !! "t1"%string = Some tr' /\
  tr_availableSeats tr' + trip_total "t1" s2 = 4.
Proof.
  assert (Hrow : exists r rb tr, transit_of "b1" tt_freed = Some r /\ tb_status r = T_CANCELLED /\ tb_escrowId r = None /\ trips tt_freed !! "t1"%string = Some tr /\
    tr_availableSeats tr + trip_total "t1" tt_freed + 2 = 4 /\ transit_of "b1" tt_booked = Some rb /\ tb_status rb = T_PENDING /\
    businesses tt_booked !! tb_businessProfileId rb = Some (BizRow 2 false 5000000000))
    by (do 3 eexists; do 7 (split; [vm_compute; reflexivity |]); vm_compute; reflexivity).
  destruct Hrow as (r & rb & tr & Hr & Hst & Hl & Htr & Hsum & Hrb & Hp & Hb).
  assert (Hse : seats_of "b1" tt_freed = ∅) by (vm_compute; reflexivity).
  assert (Hauth : cancel_auth "b1" 1 tt_booked = Ok (2%nat, Some "t1"%string)) by (vm_compute; reflexivity).
  assert (Hno : forall i e, truthy (tb_escrowId r) = Some i -> escrows (core (base tt_freed)) !! i = Some e -> in_status LIVE e = false) by (intros i e Hti; rewrite Hl in Hti; discriminate Hti).
  destruct (@stale_confirm_oversells Decimal20 ToFixedColumn run_sha tt_freed tt_booked tt_booked tt_booked "b1" r rb (BizRow 2 false 5000000000) 2 "t1" tr 1
    3100 "x1" "x2" "x3" 3200 "c8" Hr Hst Hse Htr Hno Hrb Hp Hb Hauth ltac:(lia) ltac:(discriminate)) as (s1 & s2 & o & tr' & H1 & H2 & H3 & H4).
  exists s1, s2, o, tr'. split; [exact H1 |]. split; [exact H2 |]. split; [exact H3 |]. rewrite H4. exact Hsum.
Defined.
