(* ===== verification/Chat.v ===== *)
(** * Conversation money (services/conversationMoneyService.js)

    State: the escrow database for balances, history and ledger, the tickets
    that carry the money of a conversation, the messages and the contacts
    ([cdb]).  Operations: money sends, money requests, escrow tickets, and the
    five actions on a ticket.  What a function reads before its transaction
    comes from an argument [before]; identifiers are arguments.

    A conversation reaches the service with its participants, already verified
    by the route.  The text of a message is not carried.  Client fields appear
    as the code first sees them: [recipientId], [fromUserId] and
    [counterpartyId] after [Number.parseInt] ([None] is NaN), a
    [clientRequestId] that is not a string as [None]. *)

From stdpp Require Import base gmap strings list.
From Stdlib Require Import ZArith QArith Lia Ascii.
From S2P Require Import Prelude JsNumber ExactDecimal Json Ledger Idempotency Escrow.

Local Open Scope Z_scope.

(** ** Rows *)

Inductive ticket_kind : Type := MONEY_SEND | MONEY_REQUEST | ESCROW_TICKET.
Inductive ticket_status : Type := SENT | ACCEPTED | DECLINED | ESCROW_FUNDED | ESCROW_RELEASED | ESCROW_DISPUTED.

#[export] Instance ticket_kind_eq_dec : EqDecision ticket_kind.
Proof. solve_decision. Defined.
#[export] Instance ticket_status_eq_dec : EqDecision ticket_status.
Proof. solve_decision. Defined.

Record ticket_row : Type := TicketRow {
  tk_messageId : string;
  tk_conversationId : string;
  tk_kind : ticket_kind;
  tk_amount : Z;
  tk_currency : string;
  tk_requesterId : Z;
  tk_counterpartyId : Z;
  tk_status : ticket_status;
  tk_resultMessageId : option string;
  tk_clientRequestId : option string;
}.

Record message_row : Type := MessageRow { ms_conversationId : string; ms_senderId : Z; ms_messageType : string; ms_status : ticket_status }.

Record conversation : Type := Conversation { cv_id : string; cv_type : string; cv_participants : list Z }.

Record cdb : Type := CDB {
  wallet : edb;
  tickets : gmap string ticket_row;
  messages : gmap string message_row;
  contacts : gset (Z * Z);
}.

Definition set_wallet (w : edb) (s : cdb) : cdb := CDB w (tickets s) (messages s) (contacts s).
Definition set_tickets (m : gmap string ticket_row) (s : cdb) : cdb := CDB (wallet s) m (messages s) (contacts s).
Definition set_messages (m : gmap string message_row) (s : cdb) : cdb := CDB (wallet s) (tickets s) m (contacts s).
Definition set_contacts (c : gset (Z * Z)) (s : cdb) : cdb := CDB (wallet s) (tickets s) (messages s) c.

Definition with_ticket_status (st : ticket_status) (t : ticket_row) : ticket_row :=
  TicketRow (tk_messageId t) (tk_conversationId t) (tk_kind t) (tk_amount t) (tk_currency t) (tk_requesterId t) (tk_counterpartyId t) st
    (tk_resultMessageId t) (tk_clientRequestId t).
Definition with_result (st : ticket_status) (m : string) (t : ticket_row) : ticket_row :=
  TicketRow (tk_messageId t) (tk_conversationId t) (tk_kind t) (tk_amount t) (tk_currency t) (tk_requesterId t) (tk_counterpartyId t) st
    (Some m) (tk_clientRequestId t).

(** ** Statements *)

Definition on_wallet {A} (m : M edb A) : M cdb A := fun s =>
  match m (wallet s) with Ok (a, w) => Ok (a, set_wallet w s) | Err e => Err e end.

Definition find_ticket (P : ticket_row -> bool) (s : cdb) : option (string * ticket_row) :=
  List.find (fun p => P p.2) (map_to_list (tickets s)).

(** [findUnique({ where: { clientRequestId } })]. *)
Definition ticket_of_request (requestId : string) : cdb -> option (string * ticket_row) :=
  find_ticket (fun t => bool_decide (tk_clientRequestId t = Some requestId)).

Definition message_create (id : string) (m : message_row) : M cdb unit :=
  s ← get;
  check (match messages s !! id with None => true | Some _ => false end) "P2002";;
  put (set_messages (<[id := m]> (messages s)) s).

Definition message_status (id : string) (st : ticket_status) : M cdb unit :=
  s ← get;
  match messages s !! id with
  | Some m => put (set_messages (<[id := MessageRow (ms_conversationId m) (ms_senderId m) (ms_messageType m) st]> (messages s)) s)
  | None => throw "P2025"
  end.

(** INSERT of a ticket; a unique column taken, P2002, is reported as
    [DUPLICATE_REQUEST]. *)
Definition ticket_create (id : string) (t : ticket_row) : M cdb unit :=
  s ← get;
  check (match tickets s !! id with None => true | Some _ => false end &&
         match find_ticket (fun x => String.eqb (tk_messageId x) (tk_messageId t)) s with None => true | Some _ => false end &&
         match tk_clientRequestId t with
         | Some r => match ticket_of_request r s with None => true | Some _ => false end
         | None => true
         end) "DUPLICATE_REQUEST";;
  check (column_ok (tk_amount t)) "NUMERIC_OVERFLOW";;
  put (set_tickets (<[id := t]> (tickets s)) s).

(** [conversationMoneyTicket.updateMany] and [update], by id. *)
Definition ticket_updateMany (id : string) (cond : ticket_row -> bool) (f : ticket_row -> ticket_row) : M cdb nat :=
  s ← get;
  match tickets s !! id with
  | Some t => if cond t then put (set_tickets (<[id := f t]> (tickets s)) s);; mret 1%nat else mret 0%nat
  | None => mret 0%nat
  end.
Definition ticket_update (id : string) (f : ticket_row -> ticket_row) : M cdb ticket_row :=
  s ← get;
  match tickets s !! id with
  | Some t => put (set_tickets (<[id := f t]> (tickets s)) s);; mret (f t)
  | None => throw "P2025"
  end.

Definition user_find (id : Z) : M cdb (option user_row) := reads (fun s => users (wallet s) !! id).
Definition contact_upsert (a b : Z) : M cdb unit := modify (fun s => set_contacts (contacts s ∪ {[ (a, b) ]}) s).

(** ** Validation *)

Definition parsePositiveAmount (value : jsval) : res Z :=
  dec ← catch (toExactDecimal value) (fun _ => Err "INVALID_AMOUNT");
  throw_if (dec =? 0) "INVALID_AMOUNT";;
  throw_if (1000000000000 * 10 ^ 8 <=? dec) "INVALID_AMOUNT";;
  mret dec.

Definition CHAT_MONEY_ASSET : string := "USDC".
Definition MAX_CLIENT_REQUEST_ID : nat := 199.

Definition normalizeAsset (currency : option string) : res string :=
  match currency with
  | None => Ok CHAT_MONEY_ASSET
  | Some c0 =>
      let c := trim c0 in
      if String.eqb c "" then Ok CHAT_MONEY_ASSET
      else if String.eqb (toUpperCase c) CHAT_MONEY_ASSET then Ok CHAT_MONEY_ASSET
      else Err "UNSUPPORTED_CURRENCY"
  end.

Definition normalizeClientRequestId (raw : option string) : res string :=
  key ← of_option (truthy (trim <$> raw)) "IDEMPOTENCY_REQUIRED";
  throw_if (MAX_CLIENT_REQUEST_ID <? String.length key)%nat "IDEMPOTENCY_KEY_TOO_LONG";;
  mret key.

Definition _requireTwoParty (conv : conversation) (userId : Z) : res Z :=
  throw_if (negb (String.eqb (cv_type conv) "PERSONAL")) "UNSUPPORTED_CONVERSATION_TYPE";;
  match cv_participants conv, List.filter (fun p => negb (p =? userId)) (cv_participants conv) with
  | [_; _], [other] => Ok other
  | _, _ => Err "NOT_TWO_PARTY"
  end.

(** The parameters a request is identified by. *)
Definition same_request (kind : ticket_kind) (conversationId : string) (requesterId counterpartyId : Z) (currency : string) (amount : Z) (t : ticket_row)
    : bool :=
  bool_decide (tk_kind t = kind) && String.eqb (tk_conversationId t) conversationId && (tk_requesterId t =? requesterId) &&
  (tk_counterpartyId t =? counterpartyId) && String.eqb (tk_currency t) currency && String.eqb (toFixed8 (tk_amount t)) (toFixed8 amount).

(** ** Keys and accounts *)

Definition send_key (m : string) : string := ("ledger:transfer:conv-send:" +:+ m)%string.
Definition request_key (m : string) : string := ("ledger:transfer:money-request:" +:+ m)%string.
Definition chat_fund_key (m : string) : string := ("ledger:escrow:chat-fund:" +:+ m)%string.
Definition chat_release_key (m : string) : string := ("ledger:escrow:chat-release:" +:+ m)%string.
Definition chat_code (m : string) : string := ("escrow:chatmsg-" +:+ m +:+ ":locked")%string.

(** The outcome of a call: the message shown, the ticket, and the replay flag. *)
Record chat_result : Type := ChatResult { cr_message : option message_row; cr_ticketId : string; cr_ticket : ticket_row; cr_replay : bool }.

Section Service.
Context `{DecimalLib} (sha256 : string -> string).

(** The parameters of a posting; the metadata, which the ledger only stores,
    are left out. *)
Definition chat_posting (key ty desc : string) (uid : option Z) (messageId : string) (ls : list line_in) : post_params :=
  PostParams key ty desc ls ConvAbsent None uid (Some "message"%string) (Some messageId).

(** The conditional decrement that authorizes a payment. *)
Definition balance_claim (userId amount : Z) : M cdb unit :=
  count ← on_wallet (user_updateMany userId (fun u => amount <=? availableBalance u) (Delta (- amount) 0 0));
  check (count =? 1)%nat "INSUFFICIENT_BALANCE".

Definition transfer_history (from to amount : Z) : M cdb unit :=
  on_wallet (history_create (HistRow from (OTHER_TYPE "INTERNAL_TRANSFER") (- amount) 0 None true));;
  on_wallet (history_create (HistRow to (OTHER_TYPE "INTERNAL_TRANSFER") amount 0 None true)).

(** ** Creation *)

Definition _sendMoneyTransaction (userId : Z) (conv : conversation) (amt receiverId : Z) (asset requestId : string) (newMessage newTicket : string)
    : M cdb (message_row * ticket_row) :=
  sender ← user_find userId;
  lift (of_option sender "SENDER_NOT_FOUND");;
  receiver ← user_find receiverId;
  lift (of_option receiver "RECEIVER_NOT_FOUND");;
  balance_claim userId amt;;
  on_wallet (user_update receiverId (Delta amt 0 0));;
  contact_upsert userId receiverId;;
  contact_upsert receiverId userId;;
  let message := MessageRow (cv_id conv) userId "PAYMENT_TRANSFER" ACCEPTED in
  message_create newMessage message;;
  let ticket := TicketRow newMessage (cv_id conv) MONEY_SEND amt asset userId receiverId ACCEPTED None (Some requestId) in
  ticket_create newTicket ticket;;
  on_wallet (post_ledger sha256 (chat_posting (send_key newMessage) "TRANSFER" "Chat money transfer — liability moved sender→receiver" (Some userId) newMessage
    [debit_line (liability_code userId) (exact_dec amt); credit_line (liability_code receiverId) (exact_dec amt)]));;
  transfer_history userId receiverId amt;;
  mret (message, ticket).

(** The answer to a request whose identity is taken: the original outcome, or a
    conflict. *)
Definition replay_outcome (matches : ticket_row -> bool) (p : string * ticket_row) (s : cdb) : res chat_result :=
  throw_if (negb (matches p.2)) "IDEMPOTENCY_CONFLICT";;
  mret (ChatResult (messages s !! tk_messageId p.2) p.1 p.2 true).

Definition _convergeToCommittedOutcome (requestId : string) (matches : ticket_row -> bool) (s : cdb) : res chat_result :=
  committed ← of_option (ticket_of_request requestId s) "DUPLICATE_REQUEST";
  replay_outcome matches committed s.

(** A creation keyed by a client request: replay, or the transaction, whose
    concurrent loser converges. *)
Definition keyed (requestId : string) (matches : ticket_row -> bool) (newTicket : string) (work : M cdb (message_row * ticket_row)) (before s : cdb)
    : res chat_result * cdb :=
  match ticket_of_request requestId before with
  | Some existing => (replay_outcome matches existing before, s)
  | None =>
      match transaction work s with
      | (Ok (m, t), s') => (Ok (ChatResult (Some m) newTicket t false), s')
      | (Err e, s') =>
          if String.eqb e "DUPLICATE_REQUEST" then (_convergeToCommittedOutcome requestId matches s', s') else (Err e, s')
      end
  end.

Definition send_args (userId : Z) (moneyAmount : jsval) (recipientId : option Z) (clientRequestId : option string) : res (Z * Z * string) :=
  amt ← parsePositiveAmount moneyAmount;
  receiverId ← of_option recipientId "INVALID_INPUT";
  throw_if (receiverId <? 1) "INVALID_INPUT";;
  throw_if (userId =? receiverId) "INVALID_INPUT";;
  requestId ← normalizeClientRequestId clientRequestId;
  mret (amt, receiverId, requestId).

Definition _sendMoney (userId : Z) (conv : conversation) (moneyAmount : jsval) (recipientId : option Z) (asset : string) (clientRequestId : option string)
    (newMessage newTicket : string) (before s : cdb) : res chat_result * cdb :=
  match send_args userId moneyAmount recipientId clientRequestId with
  | Err e => (Err e, s)
  | Ok (amt, receiverId, requestId) =>
      keyed requestId (same_request MONEY_SEND (cv_id conv) userId receiverId asset amt) newTicket
        (_sendMoneyTransaction userId conv amt receiverId asset requestId newMessage newTicket) before s
  end.

(** A money request or an escrow ticket: a message and its ticket, no money. *)
Definition ticketed_tx (conv : conversation) (userId : Z) (kind : ticket_kind) (amt : Z) (asset requestId : string) (counterparty : Z)
    (messageType : string) (newMessage newTicket : string) : M cdb (message_row * ticket_row) :=
  let message := MessageRow (cv_id conv) userId messageType SENT in
  message_create newMessage message;;
  let ticket := TicketRow newMessage (cv_id conv) kind amt asset userId counterparty SENT None (Some requestId) in
  ticket_create newTicket ticket;;
  mret (message, ticket).

Definition _createTicketedMessage (conv : conversation) (userId : Z) (kind : ticket_kind) (amt : Z) (asset : string) (clientRequestId : option string)
    (counterparty : Z) (messageType : string) (newMessage newTicket : string) (before s : cdb) : res chat_result * cdb :=
  match normalizeClientRequestId clientRequestId with
  | Err e => (Err e, s)
  | Ok requestId =>
      keyed requestId (same_request kind (cv_id conv) userId counterparty asset amt) newTicket
        (ticketed_tx conv userId kind amt asset requestId counterparty messageType newMessage newTicket) before s
  end.

(** The counterparty named by the client must be the other participant. *)
Definition agrees (named : option (option Z)) (other : Z) : bool :=
  match named with None => true | Some None => false | Some (Some i) => i =? other end.

Definition _createMoneyRequest (userId : Z) (conv : conversation) (moneyAmount : jsval) (fromUserId : option (option Z)) (asset : string)
    (clientRequestId : option string) (newMessage newTicket : string) (before s : cdb) : res chat_result * cdb :=
  match other ← _requireTwoParty conv userId;
        amt ← parsePositiveAmount moneyAmount;
        throw_if (negb (agrees fromUserId other)) "INVALID_INPUT";;
        mret (other, amt)
  with
  | Err e => (Err e, s)
  | Ok (other, amt) => _createTicketedMessage conv userId MONEY_REQUEST amt asset clientRequestId other "MONEY_REQUEST" newMessage newTicket before s
  end.

(** [itemName]: [None] when it is not a string. *)
Definition _createEscrowTicket (userId : Z) (conv : conversation) (amount : jsval) (asset : string) (itemName : option string)
    (counterpartyId : option (option Z)) (clientRequestId : option string) (newMessage newTicket : string) (before s : cdb) : res chat_result * cdb :=
  match other ← _requireTwoParty conv userId;
        amt ← parsePositiveAmount amount;
        throw_if (negb (agrees counterpartyId other)) "INVALID_INPUT";;
        throw_if (match truthy (trim <$> itemName) with Some _ => false | None => true end) "INVALID_INPUT";;
        mret (other, amt)
  with
  | Err e => (Err e, s)
  | Ok (other, amt) => _createTicketedMessage conv userId ESCROW_TICKET amt asset clientRequestId other "ESCROW_TICKET" newMessage newTicket before s
  end.

(** The body of POST /:conversationId/messages for the money types. *)
Inductive money_body : Type :=
| SendBody (moneyAmount : jsval) (recipientId : option Z)
| RequestBody (moneyAmount : jsval) (fromUserId : option (option Z))
| EscrowBody (amount : jsval) (itemName : option string) (counterpartyId : option (option Z))
| OtherBody.

Definition sendMoney (userId : Z) (conv : conversation) (body : money_body) (currency clientRequestId : option string) (newMessage newTicket : string)
    (before s : cdb) : res chat_result * cdb :=
  match normalizeAsset currency with
  | Err e => (Err e, s)
  | Ok asset =>
      match body with
      | SendBody a r => _sendMoney userId conv a r asset clientRequestId newMessage newTicket before s
      | RequestBody a f => _createMoneyRequest userId conv a f asset clientRequestId newMessage newTicket before s
      | EscrowBody a i c => _createEscrowTicket userId conv a asset i c clientRequestId newMessage newTicket before s
      | OtherBody => (Err "UNKNOWN_TYPE", s)
      end
  end.

(** ** Actions *)

Definition _resolveTicket (conversationId messageId : string) (kind : ticket_kind) : M cdb (string * ticket_row) :=
  r ← reads (find_ticket (fun t => String.eqb (tk_messageId t) messageId && String.eqb (tk_conversationId t) conversationId && bool_decide (tk_kind t = kind)));
  lift (of_option r "TICKET_NOT_FOUND").

(** The durable outcome of a call that found its work done. *)
Definition _outcomeMessage (ticketId : string) (s : cdb) : res chat_result :=
  match (t ← tickets s !! ticketId; m ← truthy (tk_resultMessageId t); row ← messages s !! m; Some (t, row)) with
  | Some (t, row) => Ok (ChatResult (Some row) ticketId t true)
  | None => Err "ALREADY_PROCESSED"
  end.

(** [inl] is a replay of the ticket named. *)
Definition action (work : M cdb (string + string * message_row * ticket_row)) (s : cdb) : res chat_result * cdb :=
  match transaction work s with
  | (Err e, s') => (Err e, s')
  | (Ok (inl id), s') => (_outcomeMessage id s', s')
  | (Ok (inr (id, m, t)), s') => (Ok (ChatResult (Some m) id t false), s')
  end.

(** The request message, the outcome message and the ticket, in lockstep. *)
Definition record_outcome (id conversationId messageId : string) (userId : Z) (messageType : string) (st : ticket_status) (newMessage : string)
    : M cdb (string + string * message_row * ticket_row) :=
  let msg := MessageRow conversationId userId messageType SENT in
  message_status messageId st;;
  message_create newMessage msg;;
  t ← ticket_update id (with_result st newMessage);
  mret (inr (id, msg, t)).

(** The claim of a ticket: kind, conversation, expected statuses, actor. *)
Definition ticket_claim (id conversationId : string) (kind : ticket_kind) (from : list ticket_status) (actor : ticket_row -> bool) (to : ticket_status)
    : M cdb unit :=
  count ← ticket_updateMany id
    (fun t => String.eqb (tk_conversationId t) conversationId && bool_decide (tk_kind t = kind) && bool_decide (tk_status t ∈ from) && actor t)
    (with_ticket_status to);
  check (count =? 1)%nat "CLAIM_LOST".

Definition accept_work (userId : Z) (conversationId messageId newMessage : string) : M cdb (string + string * message_row * ticket_row) :=
  p ← _resolveTicket conversationId messageId MONEY_REQUEST;
  let '(id, ticket) := p in
  match tk_status ticket with
  | SENT =>
      check (negb (tk_requesterId ticket =? userId)) "OWN_REQUEST";;
      ticket_claim id conversationId MONEY_REQUEST [SENT] (fun t => tk_counterpartyId t =? userId) ACCEPTED;;
      let amount := tk_amount ticket in
      payer ← user_find userId;
      lift (of_option payer "PAYER_NOT_FOUND");;
      balance_claim userId amount;;
      on_wallet (user_update (tk_requesterId ticket) (Delta amount 0 0));;
      on_wallet (post_ledger sha256 (chat_posting (request_key messageId) "TRANSFER" "Money request accepted — liability moved payer→payee" (Some userId) messageId
        [debit_line (liability_code userId) (exact_dec amount); credit_line (liability_code (tk_requesterId ticket)) (exact_dec amount)]));;
      let msg := MessageRow conversationId userId "PAYMENT_TRANSFER" SENT in
      message_create newMessage msg;;
      transfer_history userId (tk_requesterId ticket) amount;;
      message_status messageId ACCEPTED;;
      t ← ticket_update id (with_result ACCEPTED newMessage);
      mret (inr (id, msg, t))
  | ACCEPTED => mret (inl id)
  | DECLINED => throw "ALREADY_DECLINED"
  | _ => throw "ALREADY_PROCESSED"
  end.
Definition acceptMoney (userId : Z) (conversationId messageId newMessage : string) : cdb -> res chat_result * cdb :=
  action (accept_work userId conversationId messageId newMessage).

Definition decline_work (userId : Z) (conversationId messageId newMessage : string) : M cdb (string + string * message_row * ticket_row) :=
  p ← _resolveTicket conversationId messageId MONEY_REQUEST;
  let '(id, ticket) := p in
  match tk_status ticket with
  | SENT =>
      check (negb (tk_requesterId ticket =? userId)) "OWN_REQUEST";;
      ticket_claim id conversationId MONEY_REQUEST [SENT] (fun t => tk_counterpartyId t =? userId) DECLINED;;
      record_outcome id conversationId messageId userId "TEXT" DECLINED newMessage
  | DECLINED => mret (inl id)
  | ACCEPTED => throw "ALREADY_ACCEPTED"
  | _ => throw "ALREADY_PROCESSED"
  end.
Definition declineMoney (userId : Z) (conversationId messageId newMessage : string) : cdb -> res chat_result * cdb :=
  action (decline_work userId conversationId messageId newMessage).

Definition fund_work (userId : Z) (conversationId messageId newMessage : string) : M cdb (string + string * message_row * ticket_row) :=
  p ← _resolveTicket conversationId messageId ESCROW_TICKET;
  let '(id, ticket) := p in
  check (tk_requesterId ticket =? userId) "NOT_TICKET_OWNER";;
  match tk_status ticket with
  | ESCROW_FUNDED => mret (inl id)
  | ESCROW_RELEASED => throw "ALREADY_RELEASED"
  | ESCROW_DISPUTED => throw "ALREADY_DISPUTED"
  | SENT =>
      ticket_claim id conversationId ESCROW_TICKET [SENT] (fun t => tk_requesterId t =? userId) ESCROW_FUNDED;;
      let amount := tk_amount ticket in
      funder ← user_find userId;
      lift (of_option funder "FUNDER_NOT_FOUND");;
      balance_claim userId amount;;
      on_wallet (history_create (HistRow userId (OTHER_TYPE "ESCROW_FUNDING") (- amount) 0 None false));;
      on_wallet (post_ledger sha256 (chat_posting (chat_fund_key messageId) "ESCROW_LOCK" "Chat escrow ticket funded — funds locked pending release" None messageId
        [debit_line (liability_code userId) (exact_dec amount); credit_line (chat_code messageId) (exact_dec amount)]));;
      record_outcome id conversationId messageId userId "TEXT" ESCROW_FUNDED newMessage
  | _ => throw "ALREADY_PROCESSED"
  end.
Definition fundTicket (userId : Z) (conversationId messageId newMessage : string) : cdb -> res chat_result * cdb :=
  action (fund_work userId conversationId messageId newMessage).

Definition release_work (userId : Z) (conversationId messageId newMessage : string) : M cdb (string + string * message_row * ticket_row) :=
  p ← _resolveTicket conversationId messageId ESCROW_TICKET;
  let '(id, ticket) := p in
  check (tk_requesterId ticket =? userId) "NOT_TICKET_OWNER";;
  match tk_status ticket with
  | ESCROW_RELEASED => mret (inl id)
  | ESCROW_DISPUTED => throw "ALREADY_DISPUTED"
  | ESCROW_FUNDED =>
      ticket_claim id conversationId ESCROW_TICKET [ESCROW_FUNDED] (fun t => tk_requesterId t =? userId) ESCROW_RELEASED;;
      let amount := tk_amount ticket in
      let recipientId := tk_counterpartyId ticket in
      on_wallet (user_update recipientId (Delta amount 0 0));;
      on_wallet (post_ledger sha256 (chat_posting (chat_release_key messageId) "ESCROW_RELEASE" "Chat escrow released — ticket pool paid to recipient" None messageId
        [debit_line (chat_code messageId) (exact_dec amount); credit_line (liability_code recipientId) (exact_dec amount)]));;
      on_wallet (history_create (HistRow recipientId (OTHER_TYPE "ESCROW_RELEASE") amount 0 None true));;
      record_outcome id conversationId messageId userId "TEXT" ESCROW_RELEASED newMessage
  | _ => throw "NOT_FUNDED"
  end.
Definition releaseTicket (userId : Z) (conversationId messageId newMessage : string) : cdb -> res chat_result * cdb :=
  action (release_work userId conversationId messageId newMessage).

Definition dispute_work (userId : Z) (conversationId messageId newMessage : string) : M cdb (string + string * message_row * ticket_row) :=
  p ← _resolveTicket conversationId messageId ESCROW_TICKET;
  let '(id, ticket) := p in
  let participant := fun t => (tk_requesterId t =? userId) || (tk_counterpartyId t =? userId) in
  check (participant ticket) "NOT_PARTICIPANT";;
  match tk_status ticket with
  | ESCROW_DISPUTED => mret (inl id)
  | ESCROW_RELEASED => throw "ALREADY_RELEASED"
  | SENT | ESCROW_FUNDED =>
      ticket_claim id conversationId ESCROW_TICKET [SENT; ESCROW_FUNDED] participant ESCROW_DISPUTED;;
      record_outcome id conversationId messageId userId "TEXT" ESCROW_DISPUTED newMessage
  | _ => throw "NOT_DISPUTABLE"
  end.
Definition disputeTicket (userId : Z) (conversationId messageId newMessage : string) : cdb -> res chat_result * cdb :=
  action (dispute_work userId conversationId messageId newMessage).
End Service.
