(* ===== verification/ChatProps.v ===== *)
(** * Conversation money: what each operation does

    Each operation's transaction as a change of one ticket with an exact effect
    on balances, history and ledger ([chat_shape]); the operations as steps,
    interleaved with smart escrow; the invariant and the books. *)

From stdpp Require Import base gmap strings list relations.
From Stdlib Require Import ZArith QArith Lia Ascii.
From S2P Require Import Prelude JsNumber ExactDecimal Json Ledger LedgerFacts LedgerHash LedgerProps Idempotency Escrow EscrowFacts EscrowProps WalletProps Chat.

Local Open Scope Z_scope.

(** ** Statements *)

Lemma on_wallet_Ok {A} (m : M edb A) s a s' :
  on_wallet m s = Ok (a, s') <-> exists w, m (wallet s) = Ok (a, w) /\ s' = set_wallet w s.
Proof.
  unfold on_wallet. destruct (m (wallet s)) as [[x w] | e]; split.
  - intros [= -> <-]. eauto.
  - by intros (w' & [= -> ->] & ->).
  - done.
  - by intros (w' & ? & _).
Qed.

Lemma find_ticket_Some P s id t : find_ticket P s = Some (id, t) -> tickets s !! id = Some t /\ P t = true.
Proof. intros Hf. apply List.find_some in Hf as [Hin Hp]. split; [by apply elem_of_map_to_list, list_elem_of_In | done]. Qed.

Lemma find_ticket_None P s id t : find_ticket P s = None -> tickets s !! id = Some t -> P t = false.
Proof.
  intros Hf Ht. eapply (List.find_none _ _ Hf (id, t)). by apply list_elem_of_In, elem_of_map_to_list.
Qed.

Lemma message_create_Ok id m s x s' :
  message_create id m s = Ok (x, s') -> messages s !! id = None /\ s' = set_messages (<[id := m]> (messages s)) s.
Proof.
  unfold message_create. intros Hr. run_inv Hr. split; [| done]. by destruct (messages s !! id).
Qed.

Lemma message_status_Ok id st s x s' :
  message_status id st s = Ok (x, s') -> exists m m', messages s !! id = Some m /\ s' = set_messages (<[id := m']> (messages s)) s.
Proof.
  unfold message_status. intros Hr. apply Mbind_Ok in Hr as (s1 & s2 & Hg & Hr). apply get_Ok in Hg as [-> ->].
  destruct (messages s !! id) as [m |]; [| by apply throw_Ok in Hr]. apply put_Ok in Hr. eauto.
Qed.

(** A ticket with these unique columns can be inserted. *)
Definition fresh_ticket (id : string) (t : ticket_row) (s : cdb) : Prop :=
  tickets s !! id = None /\
  forall j x, tickets s !! j = Some x -> tk_messageId x <> tk_messageId t /\ (tk_clientRequestId x = tk_clientRequestId t -> tk_clientRequestId t = None).

Lemma ticket_create_Ok id t s x s' :
  ticket_create id t s = Ok (x, s') -> fresh_ticket id t s /\ s' = set_tickets (<[id := t]> (tickets s)) s.
Proof.
  unfold ticket_create. intros Hr. apply Mbind_Ok in Hr as (s1 & s2 & Hg & Hr). apply get_Ok in Hg as [-> ->].
  apply Mbind_Ok in Hr as (y & s2 & Hc & Hr). apply check_Ok in Hc as [Hc ->]. apply Mbind_Ok in Hr as (y2 & s2 & Hc2 & Hr).
  apply check_Ok in Hc2 as [_ ->]. apply put_Ok in Hr. split; [| done]. apply andb_true_iff in Hc as [Hc Hreq]. apply andb_true_iff in Hc as [Hid Hmsg].
  split; [by destruct (tickets s !! id) |]. intros j z Hz. split.
  - intros He. destruct (find_ticket _ s) eqn:Hf; [done |]. apply (find_ticket_None _ _ j z Hf) in Hz. by rewrite He, String.eqb_refl in Hz.
  - intros He. destruct (tk_clientRequestId t) as [r |]; [| done]. unfold ticket_of_request in Hreq. destruct (find_ticket _ s) eqn:Hf in Hreq; [done |].
    apply (find_ticket_None _ _ j z Hf) in Hz. by apply bool_decide_eq_false in Hz.
Qed.

Lemma ticket_claim_Ok id conv kind from actor to s x s' :
  ticket_claim id conv kind from actor to s = Ok (x, s') ->
  exists t, tickets s !! id = Some t /\ tk_conversationId t = conv /\ tk_kind t = kind /\ tk_status t ∈ from /\ actor t = true /\
    s' = set_tickets (<[id := with_ticket_status to t]> (tickets s)) s.
Proof.
  unfold ticket_claim, ticket_updateMany. intros Hr. apply Mbind_Ok in Hr as (n & s1 & Hu & Hr). apply check_Ok in Hr as [Hn ->].
  apply Mbind_Ok in Hu as (s2 & s3 & Hg & Hu). apply get_Ok in Hg as [-> ->].
  destruct (tickets s !! id) as [t |]; [| apply Mret_Ok in Hu as [-> ->]; done].
  match goal with H : (if ?c then _ else _) _ = _ |- _ => destruct c eqn:Hc end; [| apply Mret_Ok in Hu as [-> ->]; done].
  apply Mbind_Ok in Hu as (y & s4 & Hp & Hu). apply put_Ok in Hp as ->. apply Mret_Ok in Hu as [_ ->].
  apply andb_true_iff in Hc as [Hc Ha]. apply andb_true_iff in Hc as [Hc Hs]. apply andb_true_iff in Hc as [Hcv Hk].
  apply String.eqb_eq in Hcv. apply bool_decide_eq_true in Hk, Hs. exists t. by split_and!.
Qed.

Lemma ticket_update_Ok id f s r s' :
  ticket_update id f s = Ok (r, s') -> exists t, tickets s !! id = Some t /\ r = f t /\ s' = set_tickets (<[id := f t]> (tickets s)) s.
Proof.
  unfold ticket_update. intros Hr. apply Mbind_Ok in Hr as (s1 & s2 & Hg & Hr). apply get_Ok in Hg as [-> ->].
  destruct (tickets s !! id) as [t |]; [| by apply throw_Ok in Hr]. run_inv Hr. eauto.
Qed.

Lemma balance_claim_Ok u a s x s' :
  balance_claim u a s = Ok (x, s') -> exists r, users (wallet s) !! u = Some r /\ a <= availableBalance r /\
    user_ok (apply_delta (Delta (- a) 0 0) r) = true /\ s' = set_wallet (set_users (<[u := apply_delta (Delta (- a) 0 0) r]> (users (wallet s))) (wallet s)) s.
Proof.
  unfold balance_claim. intros Hr. apply Mbind_Ok in Hr as (n & s1 & Hu & Hr). apply check_Ok in Hr as [Hn ->].
  apply on_wallet_Ok in Hu as (w & Hu & ->). apply user_updateMany_Ok in Hu as [[-> _] | (_ & r & Hr & Hge & Hok & ->)]; [done |].
  exists r. split_and!; try done. by apply Z.leb_le.
Qed.

Lemma resolve_ticket_Ok conv m kind s p s' :
  _resolveTicket conv m kind s = Ok (p, s') ->
  s' = s /\ tickets s !! p.1 = Some p.2 /\ tk_messageId p.2 = m /\ tk_conversationId p.2 = conv /\ tk_kind p.2 = kind.
Proof.
  unfold _resolveTicket. intros Hr. apply Mbind_Ok in Hr as (o & s1 & Hf & Hr). apply reads_Ok in Hf as [-> ->].
  apply lift_Ok in Hr as [Hr ->]. apply of_option_Ok in Hr. destruct p as [id t]. apply find_ticket_Some in Hr as [Ht Hp].
  apply andb_true_iff in Hp as [Hp Hk]. apply andb_true_iff in Hp as [Hm Hc]. apply String.eqb_eq in Hm, Hc. apply bool_decide_eq_true in Hk. by split_and!.
Qed.

(** ** Shapes *)

Section Shapes.
Context `{DecimalLib} (sha256 : string -> string).

Definition internal_row (u x : Z) : hist_row := HistRow u (OTHER_TYPE "INTERNAL_TRANSFER") x 0 None true.
Definition transfer (key : string) (a b x : Z) : edb -> edb -> Prop :=
  wallet_effect sha256 [(a, Delta (- x) 0 0); (b, Delta x 0 0)] [internal_row a (- x); internal_row b x] key
    [NLine (liability_code a) x 0; NLine (liability_code b) 0 x].
Definition funding (m : string) (u x : Z) : edb -> edb -> Prop :=
  wallet_effect sha256 [(u, Delta (- x) 0 0)] [HistRow u (OTHER_TYPE "ESCROW_FUNDING") (- x) 0 None false] (chat_fund_key m)
    [NLine (liability_code u) x 0; NLine (chat_code m) 0 x].
Definition payout (m : string) (u x : Z) : edb -> edb -> Prop :=
  wallet_effect sha256 [(u, Delta x 0 0)] [HistRow u (OTHER_TYPE "ESCROW_RELEASE") x 0 None true] (chat_release_key m)
    [NLine (chat_code m) x 0; NLine (liability_code u) 0 x].

(** Messages are only added. *)
Definition messages_grow (s s' : cdb) : Prop := forall m, is_Some (messages s !! m) -> is_Some (messages s' !! m).

#[local] Instance messages_grow_po : PreOrder messages_grow.
Proof. split; [by intros s m | intros s1 s2 s3 H1 H2 m Hm; by apply H2, H1]. Qed.

(** The terms of a new ticket. *)
Record ticket_terms (t : ticket_row) : Prop := {
  tt_amount : 0 < tk_amount t;
  tt_requester : 0 <= tk_requesterId t;
  tt_counterparty : 0 <= tk_counterpartyId t;
}.

Inductive chat_shape (s s' : cdb) : Prop :=
| csh_none : s' = s -> chat_shape s s'
| csh_new id t :
    fresh_ticket id t s -> messages s !! tk_messageId t = None -> ticket_terms t -> tk_status t = SENT ->
    tickets s' = <[id := t]> (tickets s) -> wallet s' = wallet s -> messages_grow s s' -> chat_shape s s'
| csh_send id t :
    fresh_ticket id t s -> messages s !! tk_messageId t = None -> is_Some (messages s' !! tk_messageId t) -> ticket_terms t ->
    tk_status t = ACCEPTED -> tk_kind t = MONEY_SEND -> tickets s' = <[id := t]> (tickets s) ->
    transfer (send_key (tk_messageId t)) (tk_requesterId t) (tk_counterpartyId t) (tk_amount t) (wallet s) (wallet s') ->
    messages_grow s s' -> chat_shape s s'
| csh_accept id t m :
    tickets s !! id = Some t -> tk_kind t = MONEY_REQUEST -> tk_status t = SENT -> tickets s' = <[id := with_result ACCEPTED m t]> (tickets s) ->
    transfer (request_key (tk_messageId t)) (tk_counterpartyId t) (tk_requesterId t) (tk_amount t) (wallet s) (wallet s') ->
    messages_grow s s' -> chat_shape s s'
| csh_fund id t m :
    tickets s !! id = Some t -> tk_kind t = ESCROW_TICKET -> tk_status t = SENT -> tickets s' = <[id := with_result ESCROW_FUNDED m t]> (tickets s) ->
    funding (tk_messageId t) (tk_requesterId t) (tk_amount t) (wallet s) (wallet s') -> messages_grow s s' -> chat_shape s s'
| csh_release id t m :
    tickets s !! id = Some t -> tk_kind t = ESCROW_TICKET -> tk_status t = ESCROW_FUNDED ->
    tickets s' = <[id := with_result ESCROW_RELEASED m t]> (tickets s) ->
    payout (tk_messageId t) (tk_counterpartyId t) (tk_amount t) (wallet s) (wallet s') -> messages_grow s s' -> chat_shape s s'
| csh_quiet id t st m :
    tickets s !! id = Some t ->
    (tk_kind t = MONEY_REQUEST /\ tk_status t = SENT /\ st = DECLINED \/
     tk_kind t = ESCROW_TICKET /\ tk_status t ∈ [SENT; ESCROW_FUNDED] /\ st = ESCROW_DISPUTED) ->
    tickets s' = <[id := with_result st m t]> (tickets s) -> wallet s' = wallet s -> messages_grow s s' -> chat_shape s s'.

Lemma grow_insert s s' m x : messages s' = <[m := x]> (messages s) -> messages_grow s s'.
Proof. intros He k Hk. rewrite He. destruct (decide (m = k)) as [-> | Hne]; [by rewrite lookup_insert_eq | by rewrite lookup_insert_ne]. Qed.

Lemma transfer_history_Ok a b x s y s' :
  transfer_history a b x s = Ok (y, s') -> s' = set_wallet (add_hist (internal_row b x) (add_hist (internal_row a (- x)) (wallet s))) s.
Proof.
  unfold transfer_history. intros Hr. apply Mbind_Ok in Hr as (z & s1 & H1 & Hr). apply on_wallet_Ok in H1 as (w & H1 & ->).
  apply history_create_Ok in H1 as ->. apply on_wallet_Ok in Hr as (w & H2 & ->). by apply history_create_Ok in H2 as ->.
Qed.

Lemma chat_posted key ty desc uid m specs s r s' :
  Forall (fun l => 0 <= spec_amount l) specs -> ty <> "ASSET_CONVERSION"%string ->
  on_wallet (post_ledger sha256 (chat_posting key ty desc uid m (map to_line specs))) s = Ok (r, s') ->
  exists l', s' = set_wallet (set_ledger l' (wallet s)) s /\ posted sha256 key (map to_nline specs) (ledger (wallet s)) l'.
Proof.
  intros Hs Hty Hr. apply on_wallet_Ok in Hr as (w & Hr & ->).
  apply (specs_posted sha256 (chat_posting key ty desc uid m (map to_line specs)) specs) in Hr as (l' & -> & Hp & _); [eauto | done..].
Qed.

Lemma user_find_Ok u s r s' : user_find u s = Ok (r, s') -> r = users (wallet s) !! u /\ s' = s.
Proof. intros Hr. by apply reads_Ok in Hr as [-> ->]. Qed.

Lemma pair_moves a b x m ra rb :
  m !! a = Some ra -> user_ok (apply_delta (Delta (- x) 0 0) ra) = true ->
  <[a := apply_delta (Delta (- x) 0 0) ra]> m !! b = Some rb -> user_ok (apply_delta (Delta x 0 0) rb) = true ->
  moves [(a, Delta (- x) 0 0); (b, Delta x 0 0)] m
    (<[b := apply_delta (Delta x 0 0) rb]> (<[a := apply_delta (Delta (- x) 0 0) ra]> m)).
Proof. intros Ha Hoa Hb Hob. eapply (moves_app [_] [_]); by apply moves_one. Qed.

Lemma send_shape u conv a r asset req m id s x s' :
  0 < a -> 0 <= u -> 0 <= r -> _sendMoneyTransaction sha256 u conv a r asset req m id s = Ok (x, s') -> chat_shape s s'.
Proof.
  intros Ha Hu Hr0 Hr. unfold _sendMoneyTransaction in Hr.
  apply Mbind_Ok in Hr as (f & s1 & Hf & Hr). apply user_find_Ok in Hf as [_ ->]. apply Mbind_Ok in Hr as (y & s1 & Hf & Hr). apply lift_Ok in Hf as [_ ->].
  apply Mbind_Ok in Hr as (f2 & s1 & Hf & Hr). apply user_find_Ok in Hf as [_ ->]. apply Mbind_Ok in Hr as (y2 & s1 & Hf & Hr). apply lift_Ok in Hf as [_ ->].
  apply Mbind_Ok in Hr as (y3 & s1 & Hb & Hr). apply balance_claim_Ok in Hb as (ra & Hra & Hge & Hoka & ->).
  apply Mbind_Ok in Hr as (y4 & s1 & Hup & Hr). apply on_wallet_Ok in Hup as (w & Hup & ->). apply user_update_Ok in Hup as (rb & -> & Hrb & Hokb).
  apply Mbind_Ok in Hr as (y5 & s1 & Hc & Hr). apply modify_Ok in Hc as ->. apply Mbind_Ok in Hr as (y6 & s1 & Hc & Hr). apply modify_Ok in Hc as ->.
  apply Mbind_Ok in Hr as (y7 & s1 & Hm & Hr). apply message_create_Ok in Hm as [Hm ->].
  apply Mbind_Ok in Hr as (y8 & s1 & Ht & Hr). apply ticket_create_Ok in Ht as [Ht ->].
  apply Mbind_Ok in Hr as (y9 & s1 & Hp & Hr).
  apply (chat_posted _ _ _ _ _ [DebitOf (liability_code u) a; CreditOf (liability_code r) a]) in Hp as (l' & -> & Hp); [| repeat constructor; simpl; lia | done].
  apply Mbind_Ok in Hr as (y10 & s1 & Hh & Hr). apply transfer_history_Ok in Hh as ->. apply Mret_Ok in Hr as [_ ->].
  eapply (csh_send _ _ id (TicketRow m (cv_id conv) MONEY_SEND a asset u r ACCEPTED None (Some req))); try done.
  - simpl. by rewrite lookup_insert_eq.
  - split; try done; simpl; [by apply pair_moves | by rewrite <- app_assoc].
  - by eapply grow_insert.
Qed.

Lemma ticketed_shape conv u kind a asset req cp ty m id s x s' :
  0 < a -> 0 <= u -> 0 <= cp -> ticketed_tx conv u kind a asset req cp ty m id s = Ok (x, s') -> chat_shape s s'.
Proof.
  intros Ha Hu Hc Hr. unfold ticketed_tx in Hr. apply Mbind_Ok in Hr as (y & s1 & Hm & Hr). apply message_create_Ok in Hm as [Hm ->].
  apply Mbind_Ok in Hr as (y2 & s1 & Ht & Hr). apply ticket_create_Ok in Ht as [Ht ->]. apply Mret_Ok in Hr as [_ ->].
  eapply (csh_new _ _ id (TicketRow m (cv_id conv) kind a asset u cp SENT None (Some req))); try done. by eapply grow_insert.
Qed.

Lemma record_outcome_Ok id conv mid u ty st m s r s' :
  record_outcome id conv mid u ty st m s = Ok (r, s') -> exists t, tickets s !! id = Some t /\
    tickets s' = <[id := with_result st m t]> (tickets s) /\ wallet s' = wallet s /\ messages_grow s s' /\
    exists msg, r = inr (id, msg, with_result st m t).
Proof.
  unfold record_outcome. intros Hr. apply Mbind_Ok in Hr as (y & s1 & Hm & Hr). apply message_status_Ok in Hm as (m1 & m2 & Hm & ->).
  apply Mbind_Ok in Hr as (y2 & s1 & Hm2 & Hr). apply message_create_Ok in Hm2 as [Hm2 ->].
  apply Mbind_Ok in Hr as (t & s1 & Ht & Hr). apply ticket_update_Ok in Ht as (t0 & Ht & -> & ->). apply Mret_Ok in Hr as [-> ->].
  exists t0. split_and!; try done; [| by eexists]. eapply (messages_grow_po.(PreOrder_Transitive) _ (set_messages _ s)); by eapply grow_insert.
Qed.

(** A claimed ticket, then its outcome. *)
Lemma claimed_outcome id t st st' m (tks tks' : gmap string ticket_row) :
  tks !! id = Some t -> tks' = <[id := with_ticket_status st t]> tks ->
  forall t1, tks' !! id = Some t1 -> <[id := with_result st' m t1]> tks' = <[id := with_result st' m t]> tks.
Proof. intros Ht -> t1 Ht1. rewrite lookup_insert_eq in Ht1. injection Ht1 as <-. by rewrite insert_insert_eq. Qed.

(** What a call on a ticket of [kind] from [from] to [to] leaves: the ticket
    found in [to], or the ticket moved with the effect [P]. *)
Definition ticket_action (kind : ticket_kind) (from to : ticket_status) (actor : ticket_row -> Prop) (conv mid m : string)
    (P : ticket_row -> edb -> edb -> Prop) (s : cdb) (r : string + string * message_row * ticket_row) (s' : cdb) : Prop :=
  exists id t, tickets s !! id = Some t /\ tk_messageId t = mid /\ tk_conversationId t = conv /\ tk_kind t = kind /\
    (s' = s /\ r = inl id /\ tk_status t = to \/
     tk_status t = from /\ actor t /\ tickets s' = <[id := with_result to m t]> (tickets s) /\ P t (wallet s) (wallet s') /\ messages_grow s s' /\
     exists msg, r = inr (id, msg, with_result to m t)).

Lemma accept_Ok u conv mid m s r s' : (forall id t, tickets s !! id = Some t -> 0 < tk_amount t) ->
  accept_work sha256 u conv mid m s = Ok (r, s') ->
  ticket_action MONEY_REQUEST SENT ACCEPTED (fun t => tk_counterpartyId t = u) conv mid m
    (fun t => transfer (request_key (tk_messageId t)) (tk_counterpartyId t) (tk_requesterId t) (tk_amount t)) s r s'.
Proof.
  intros Hpos Hr. unfold accept_work in Hr. apply Mbind_Ok in Hr as ([id t] & s1 & Hp & Hr).
  apply resolve_ticket_Ok in Hp as (-> & Ht & Hmid & Hcv & Hk). simpl in *. exists id, t. split_and!; try done.
  destruct (tk_status t) eqn:Hst; try (by apply throw_Ok in Hr); [right | apply Mret_Ok in Hr as [-> ->]; by left].
  apply Mbind_Ok in Hr as (y & s1 & Hc & Hr). apply check_Ok in Hc as [_ ->].
  apply Mbind_Ok in Hr as (y1 & s1 & Hcl & Hr). apply ticket_claim_Ok in Hcl as (t' & Ht' & _ & _ & _ & Hact & ->).
  assert (t' = t) as -> by congruence. apply Z.eqb_eq in Hact.
  apply Mbind_Ok in Hr as (f & s1 & Hf & Hr). apply user_find_Ok in Hf as [_ ->]. apply Mbind_Ok in Hr as (y2 & s1 & Hf & Hr). apply lift_Ok in Hf as [_ ->].
  apply Mbind_Ok in Hr as (y3 & s1 & Hb & Hr). apply balance_claim_Ok in Hb as (ra & Hra & Hge & Hoka & ->).
  apply Mbind_Ok in Hr as (y4 & s1 & Hup & Hr). apply on_wallet_Ok in Hup as (w & Hup & ->). apply user_update_Ok in Hup as (rb & -> & Hrb & Hokb).
  specialize (Hpos id t Ht). apply Mbind_Ok in Hr as (y5 & s1 & Hp & Hr).
  apply (chat_posted _ _ _ _ _ [DebitOf (liability_code u) (tk_amount t); CreditOf (liability_code (tk_requesterId t)) (tk_amount t)]) in Hp
    as (l' & -> & Hp); [| repeat constructor; simpl; lia | done].
  apply Mbind_Ok in Hr as (y6 & s1 & Hm & Hr). apply message_create_Ok in Hm as [Hm ->].
  apply Mbind_Ok in Hr as (y7 & s1 & Hh & Hr). apply transfer_history_Ok in Hh as ->.
  apply Mbind_Ok in Hr as (y8 & s1 & Hm2 & Hr). apply message_status_Ok in Hm2 as (m1 & m2 & Hm2 & ->).
  apply Mbind_Ok in Hr as (t2 & s1 & Ht2 & Hr). apply ticket_update_Ok in Ht2 as (t3 & Ht3 & -> & ->). apply Mret_Ok in Hr as [-> ->].
  simpl in Ht3. rewrite lookup_insert_eq in Ht3. pose proof Ht3 as [= <-]. split_and!; try done; [| | | by eexists].
  - simpl. by rewrite insert_insert_eq.
  - rewrite Hact, Hmid. split; try done; simpl; [by apply pair_moves | by rewrite <- app_assoc].
  - eapply (messages_grow_po.(PreOrder_Transitive) _ (set_messages (<[m := MessageRow conv u "PAYMENT_TRANSFER" SENT]> (messages s)) s)); by eapply grow_insert.
Qed.

Lemma decline_shape u conv mid m s r s' : decline_work u conv mid m s = Ok (r, s') -> chat_shape s s'.
Proof.
  intros Hr. unfold decline_work in Hr. apply Mbind_Ok in Hr as ([id t] & s1 & Hp & Hr).
  apply resolve_ticket_Ok in Hp as (-> & Ht & Hmid & Hcv & Hk). simpl in *.
  destruct (tk_status t) eqn:Hst; try (by apply throw_Ok in Hr); [| apply Mret_Ok in Hr as [_ ->]; by apply csh_none].
  apply Mbind_Ok in Hr as (y & s1 & Hc & Hr). apply check_Ok in Hc as [_ ->].
  apply Mbind_Ok in Hr as (y1 & s1 & Hcl & Hr). apply ticket_claim_Ok in Hcl as (t' & Ht' & _ & _ & _ & Hact & ->).
  assert (t' = t) as -> by congruence. apply record_outcome_Ok in Hr as (t1 & Ht1 & Htk & Hw & Hg & _).
  eapply (csh_quiet _ _ id t DECLINED m); try done; [by left |]. rewrite Htk. by eapply claimed_outcome.
Qed.

Lemma fund_Ok u conv mid m s r s' : (forall id t, tickets s !! id = Some t -> 0 < tk_amount t) ->
  fund_work sha256 u conv mid m s = Ok (r, s') ->
  ticket_action ESCROW_TICKET SENT ESCROW_FUNDED (fun t => tk_requesterId t = u) conv mid m
    (fun t => funding (tk_messageId t) (tk_requesterId t) (tk_amount t)) s r s'.
Proof.
  intros Hpos Hr. unfold fund_work in Hr. apply Mbind_Ok in Hr as ([id t] & s1 & Hp & Hr).
  apply resolve_ticket_Ok in Hp as (-> & Ht & Hmid & Hcv & Hk). simpl in *. apply Mbind_Ok in Hr as (y & s1 & Hc & Hr). apply check_Ok in Hc as [Hown ->].
  apply Z.eqb_eq in Hown. exists id, t. split_and!; try done.
  destruct (tk_status t) eqn:Hst; try (by apply throw_Ok in Hr); [right | apply Mret_Ok in Hr as [-> ->]; by left].
  apply Mbind_Ok in Hr as (y1 & s1 & Hcl & Hr). apply ticket_claim_Ok in Hcl as (t' & Ht' & _ & _ & _ & _ & ->).
  assert (t' = t) as -> by congruence.
  apply Mbind_Ok in Hr as (f & s1 & Hf & Hr). apply user_find_Ok in Hf as [_ ->]. apply Mbind_Ok in Hr as (y2 & s1 & Hf & Hr). apply lift_Ok in Hf as [_ ->].
  apply Mbind_Ok in Hr as (y3 & s1 & Hb & Hr). apply balance_claim_Ok in Hb as (ra & Hra & Hge & Hoka & ->).
  apply Mbind_Ok in Hr as (y4 & s1 & Hh & Hr). apply on_wallet_Ok in Hh as (w & Hh & ->). apply history_create_Ok in Hh as ->.
  specialize (Hpos id t Ht). apply Mbind_Ok in Hr as (y5 & s1 & Hp & Hr).
  apply (chat_posted _ _ _ _ _ [DebitOf (liability_code u) (tk_amount t); CreditOf (chat_code mid) (tk_amount t)]) in Hp
    as (l' & -> & Hp); [| repeat constructor; simpl; lia | done].
  apply record_outcome_Ok in Hr as (t1 & Ht1 & Htk & Hw & Hg & msg & ->).
  pose proof Ht1 as Ht2. simpl in Ht2. rewrite lookup_insert_eq in Ht2. injection Ht2 as <-.
  split_and!; try done; [rewrite Htk; by eapply claimed_outcome | | by eexists].
  rewrite Hw, Hown, Hmid. split; try done. by apply moves_one.
Qed.

Lemma release_Ok u conv mid m s r s' : (forall id t, tickets s !! id = Some t -> 0 < tk_amount t) ->
  release_work sha256 u conv mid m s = Ok (r, s') ->
  ticket_action ESCROW_TICKET ESCROW_FUNDED ESCROW_RELEASED (fun t => tk_requesterId t = u) conv mid m
    (fun t => payout (tk_messageId t) (tk_counterpartyId t) (tk_amount t)) s r s'.
Proof.
  intros Hpos Hr. unfold release_work in Hr. apply Mbind_Ok in Hr as ([id t] & s1 & Hp & Hr).
  apply resolve_ticket_Ok in Hp as (-> & Ht & Hmid & Hcv & Hk). simpl in *. apply Mbind_Ok in Hr as (y & s1 & Hc & Hr). apply check_Ok in Hc as [Hown ->].
  apply Z.eqb_eq in Hown. exists id, t. split_and!; try done.
  destruct (tk_status t) eqn:Hst; try (by apply throw_Ok in Hr); [right | apply Mret_Ok in Hr as [-> ->]; by left].
  apply Mbind_Ok in Hr as (y1 & s1 & Hcl & Hr). apply ticket_claim_Ok in Hcl as (t' & Ht' & _ & _ & _ & _ & ->).
  assert (t' = t) as -> by congruence.
  apply Mbind_Ok in Hr as (y4 & s1 & Hup & Hr). apply on_wallet_Ok in Hup as (w & Hup & ->). apply user_update_Ok in Hup as (rb & -> & Hrb & Hokb).
  specialize (Hpos id t Ht). apply Mbind_Ok in Hr as (y5 & s1 & Hp & Hr).
  apply (chat_posted _ _ _ _ _ [DebitOf (chat_code mid) (tk_amount t); CreditOf (liability_code (tk_counterpartyId t)) (tk_amount t)]) in Hp
    as (l' & -> & Hp); [| repeat constructor; simpl; lia | done].
  apply Mbind_Ok in Hr as (y6 & s1 & Hh & Hr). apply on_wallet_Ok in Hh as (w & Hh & ->). apply history_create_Ok in Hh as ->.
  apply record_outcome_Ok in Hr as (t1 & Ht1 & Htk & Hw & Hg & msg & ->).
  pose proof Ht1 as Ht2. simpl in Ht2. rewrite lookup_insert_eq in Ht2. injection Ht2 as <-.
  split_and!; try done; [rewrite Htk; by eapply claimed_outcome | | by eexists].
  rewrite Hw, Hmid. split; try done. by apply moves_one.
Qed.

Lemma action_shape kind from to actor conv mid m P s r s' :
  ticket_action kind from to actor conv mid m P s r s' ->
  (forall id t, tickets s !! id = Some t -> tk_kind t = kind -> tk_status t = from -> actor t -> tickets s' = <[id := with_result to m t]> (tickets s) ->
     P t (wallet s) (wallet s') -> messages_grow s s' -> chat_shape s s') -> chat_shape s s'.
Proof. intros (id & t & Ht & _ & _ & Hk & [(-> & _) | (Hst & Ha & Htk & HP & Hg & _)]) Hgo; [by apply csh_none | by eapply Hgo]. Qed.

Lemma dispute_shape_chat u conv mid m s r s' : dispute_work u conv mid m s = Ok (r, s') -> chat_shape s s'.
Proof.
  intros Hr. unfold dispute_work in Hr. apply Mbind_Ok in Hr as ([id t] & s1 & Hp & Hr).
  apply resolve_ticket_Ok in Hp as (-> & Ht & Hmid & Hcv & Hk). simpl in *. apply Mbind_Ok in Hr as (y & s1 & Hc & Hr). apply check_Ok in Hc as [_ ->].
  assert (Hgo : (ticket_claim id conv ESCROW_TICKET [SENT; ESCROW_FUNDED] (fun t => (tk_requesterId t =? u) || (tk_counterpartyId t =? u)) ESCROW_DISPUTED;;
    record_outcome id conv mid u "TEXT" ESCROW_DISPUTED m) s = Ok (r, s') -> chat_shape s s').
  { clear Hr. intros Hr. apply Mbind_Ok in Hr as (y1 & s1 & Hcl & Hr). apply ticket_claim_Ok in Hcl as (t' & Ht' & _ & _ & Hin & _ & ->).
    assert (t' = t) as -> by congruence. apply record_outcome_Ok in Hr as (t1 & Ht1 & Htk & Hw & Hg & _).
    eapply (csh_quiet _ _ id t ESCROW_DISPUTED m); try done; [by right |]. rewrite Htk. by eapply claimed_outcome. }
  destruct (tk_status t) eqn:Hst; try (by apply throw_Ok in Hr); try (by apply Hgo). apply Mret_Ok in Hr as [_ ->]. by apply csh_none.
Qed.

(** ** Keys *)

Ltac key_neq := first [keys_apart "ledger:transfer:conv-send:"%string | keys_apart "ledger:transfer:money-request:"%string
  | keys_apart "ledger:escrow:chat-fund:"%string | keys_apart "ledger:escrow:chat-release:"%string].

(** The keys of this service. *)
Inductive chat_key : string -> Prop :=
| ck_send m : chat_key (send_key m)
| ck_request m : chat_key (request_key m)
| ck_fund m : chat_key (chat_fund_key m)
| ck_release m : chat_key (chat_release_key m).
#[local] Hint Constructors chat_key : core.

#[export] Instance chat_own : OwnKeys chat_key.
Proof.
  split; [intros k i []; key_neq | intros k i []; key_neq |].
  intros k i Hc [Hk | [[st Hk] | [[st Hk] | Hk]]]; destruct Hc; revert Hk; key_neq.
Qed.

Lemma send_not_request m n : send_key m <> request_key n.
Proof. key_neq. Qed.
Lemma send_not_fund m n : send_key m <> chat_fund_key n.
Proof. key_neq. Qed.
Lemma send_not_release m n : send_key m <> chat_release_key n.
Proof. key_neq. Qed.
Lemma request_not_fund m n : request_key m <> chat_fund_key n.
Proof. key_neq. Qed.
Lemma request_not_release m n : request_key m <> chat_release_key n.
Proof. key_neq. Qed.
Lemma fund_not_release m n : chat_fund_key m <> chat_release_key n.
Proof. key_neq. Qed.

Lemma chat_eqb i j : String.eqb (chat_code i) (chat_code j) = String.eqb i j.
Proof.
  destruct (String.eqb_spec i j) as [-> | Hne]; [apply String.eqb_refl |].
  apply String.eqb_neq. intros He. apply (inj (String.append _)), str_app_inj_r in He. done.
Qed.
Lemma chat_liability_eqb m u : String.eqb (chat_code m) (liability_code u) = false.
Proof. reflexivity. Qed.
Lemma liability_chat_eqb m u : String.eqb (liability_code u) (chat_code m) = false.
Proof. reflexivity. Qed.
Lemma locked_chat_eqb m i : String.eqb (locked_code i) (chat_code m) = false.
Proof. reflexivity. Qed.
Lemma dispute_chat_eqb m u : String.eqb (dispute_code u) (chat_code m) = false.
Proof. reflexivity. Qed.
Lemma revenue_chat_eqb m : String.eqb "revenue:fees" (chat_code m) = false.
Proof. reflexivity. Qed.
#[local] Hint Rewrite chat_eqb chat_liability_eqb liability_chat_eqb locked_chat_eqb dispute_chat_eqb revenue_chat_eqb : codes.

(** ** The invariant *)

Definition posted_key (k : string) (s : cdb) : Prop := is_Some (find_key k (ledger (wallet s))).
Definition ticket_in (m : string) (l : list ticket_status) (s : cdb) : Prop :=
  exists id t, tickets s !! id = Some t /\ tk_messageId t = m /\ tk_status t ∈ l.
Definition FUNDED_ONCE : list ticket_status := [ESCROW_FUNDED; ESCROW_RELEASED; ESCROW_DISPUTED].

Record cinv (s : cdb) : Prop := {
  ci_core : einv (wallet s);
  ci_terms : forall id t, tickets s !! id = Some t -> ticket_terms t;
  ci_message : forall i j x y, tickets s !! i = Some x -> tickets s !! j = Some y -> tk_messageId x = tk_messageId y -> i = j;
  ci_request : forall i j x y r, tickets s !! i = Some x -> tickets s !! j = Some y -> tk_clientRequestId x = Some r -> tk_clientRequestId y = Some r -> i = j;
  ci_send_key : forall m, posted_key (send_key m) s -> is_Some (messages s !! m);
  ci_request_key : forall m, posted_key (request_key m) s -> ticket_in m [ACCEPTED] s;
  ci_fund_key : forall m, posted_key (chat_fund_key m) s -> ticket_in m FUNDED_ONCE s;
  ci_release_key : forall m, posted_key (chat_release_key m) s -> ticket_in m [ESCROW_RELEASED] s;
  ci_funded : forall id t, tickets s !! id = Some t -> tk_status t ∈ [ESCROW_FUNDED; ESCROW_RELEASED] -> posted_key (chat_fund_key (tk_messageId t)) s;
}.

(** The statuses a ticket may move to. *)
Definition ticket_allowed (a b : ticket_status) : bool :=
  bool_decide (a = b) ||
  match a, b with
  | SENT, (ACCEPTED | DECLINED | ESCROW_FUNDED | ESCROW_DISPUTED) | ESCROW_FUNDED, (ESCROW_RELEASED | ESCROW_DISPUTED) => true
  | _, _ => false
  end.

(** A later version of a ticket: its terms stay. *)
Record ticket_later (t t' : ticket_row) : Prop := {
  kl_message : tk_messageId t' = tk_messageId t;
  kl_conversation : tk_conversationId t' = tk_conversationId t;
  kl_kind : tk_kind t' = tk_kind t;
  kl_amount : tk_amount t' = tk_amount t;
  kl_requester : tk_requesterId t' = tk_requesterId t;
  kl_counterparty : tk_counterpartyId t' = tk_counterpartyId t;
  kl_request : tk_clientRequestId t' = tk_clientRequestId t;
  kl_status : ticket_allowed (tk_status t) (tk_status t') = true;
}.

Lemma later_result st m t : ticket_allowed (tk_status t) st = true -> ticket_later t (with_result st m t).
Proof. by split. Qed.

(** The row [id] of [s'] is new, or a later version of that of [s]. *)
Definition row_step (id : string) (t' : ticket_row) (s : cdb) : Prop :=
  match tickets s !! id with Some t => ticket_later t t' | None => fresh_ticket id t' s /\ ticket_terms t' end.

Lemma in_later m l s s' id t' :
  tickets s' = <[id := t']> (tickets s) -> row_step id t' s ->
  (forall t, ticket_later t t' -> tk_status t ∈ l -> tk_status t' ∈ l) -> ticket_in m l s -> ticket_in m l s'.
Proof.
  intros Ht Hrow Hkeep (j & x & Hx & Hm & Hin). unfold ticket_in. rewrite Ht. destruct (decide (id = j)) as [<- | Hne].
  - exists id, t'. unfold row_step in Hrow. rewrite Hx in Hrow. rewrite lookup_insert_eq, (kl_message _ _ Hrow). eauto.
  - exists j, x. by rewrite lookup_insert_ne.
Qed.

(** One row changes and at most one key is posted. *)
Lemma cinv_row s s' id t' key :
  cinv s -> tickets s' = <[id := t']> (tickets s) -> row_step id t' s -> einv (wallet s') -> messages_grow s s' ->
  (forall k, posted_key k s' <-> Some k = key \/ posted_key k s) ->
  (forall m, Some (send_key m) = key -> is_Some (messages s' !! m)) ->
  (forall m, Some (request_key m) = key -> m = tk_messageId t' /\ tk_status t' = ACCEPTED) ->
  (forall m, Some (chat_fund_key m) = key -> m = tk_messageId t' /\ tk_status t' = ESCROW_FUNDED) ->
  (forall m, Some (chat_release_key m) = key -> m = tk_messageId t' /\ tk_status t' = ESCROW_RELEASED) ->
  (tk_status t' ∈ [ESCROW_FUNDED; ESCROW_RELEASED] -> posted_key (chat_fund_key (tk_messageId t')) s') ->
  cinv s'.
Proof.
  intros Hi Ht Hrow Hcore Hgrow Hkeys Hsend Hreq Hfund Hrel Hfd.
  assert (Hthis : forall m l, m = tk_messageId t' -> tk_status t' ∈ l -> ticket_in m l s')
    by (intros m l -> Hin; exists id, t'; rewrite Ht, lookup_insert_eq; done).
  assert (Hkl : forall l m, l = [ACCEPTED] \/ l = FUNDED_ONCE \/ l = [ESCROW_RELEASED] -> ticket_in m l s -> ticket_in m l s').
  { intros l m Hl. eapply in_later; [done.. |]. intros t [_ _ _ _ _ _ _ Hal] Hin. revert Hal Hin.
    destruct Hl as [-> | [-> | ->]]; unfold FUNDED_ONCE; rewrite !elem_of_cons, elem_of_nil; destruct (tk_status t), (tk_status t'); simpl; naive_solver. }
  assert (Hcases : forall i x, tickets s' !! i = Some x -> i = id /\ x = t' \/ i <> id /\ tickets s !! i = Some x).
  { intros i x Hx. rewrite Ht in Hx. destruct (decide (i = id)) as [-> | Hne]; [rewrite lookup_insert_eq in Hx; left; by injection Hx |].
    rewrite lookup_insert_ne in Hx by done. by right. }
  (* two rows that agree on a unique column of the old database *)
  assert (Hother : forall i x, i <> id -> tickets s !! i = Some x ->
    tk_messageId x <> tk_messageId t' /\ forall r, tk_clientRequestId x = Some r -> tk_clientRequestId t' <> Some r).
  { intros i x Hne Hx. unfold row_step in Hrow. destruct (tickets s !! id) as [t |] eqn:Hold.
    - split; [rewrite (kl_message _ _ Hrow); intros He; by eapply Hne, (ci_message s Hi) |].
      intros r Hr Hr'. rewrite (kl_request _ _ Hrow) in Hr'. by eapply Hne, (ci_request s Hi).
    - destruct Hrow as [[_ Hf] _]. destruct (Hf i x Hx) as [Hm Hq]. split; [done |]. intros r Hr Hr'. rewrite Hr, Hr' in Hq. by specialize (Hq eq_refl). }
  split.
  - done.
  - intros i x [[-> ->] | [_ Hx]]%Hcases; [| by eapply ci_terms]. unfold row_step in Hrow. destruct (tickets s !! id) as [t |] eqn:Hold; [| by destruct Hrow].
    destruct (ci_terms s Hi id t Hold). destruct Hrow. split; congruence.
  - intros i j x y [[-> ->] | [Hni Hx]]%Hcases [[-> ->] | [Hnj Hy]]%Hcases He; [done | | | by eapply (ci_message s Hi)].
    + by destruct (Hother j y Hnj Hy) as [Hm _]; destruct Hm.
    + by destruct (Hother i x Hni Hx) as [Hm _]; destruct Hm.
  - intros i j x y r [[-> ->] | [Hni Hx]]%Hcases [[-> ->] | [Hnj Hy]]%Hcases Hr1 Hr2; [done | | | by eapply (ci_request s Hi)].
    + destruct (Hother j y Hnj Hy) as [_ Hm]. by destruct (Hm r Hr2).
    + destruct (Hother i x Hni Hx) as [_ Hm]. by destruct (Hm r Hr1).
  - intros m [Hk | Hk]%Hkeys; [by apply Hsend | by apply Hgrow, (ci_send_key s Hi)].
  - intros m [Hk | Hk]%Hkeys; [destruct (Hreq m Hk) as [He Hst]; apply Hthis; [done | rewrite Hst; by left] |].
    apply Hkl; [by left | by apply ci_request_key].
  - intros m [Hk | Hk]%Hkeys; [destruct (Hfund m Hk) as [He Hst]; apply Hthis; [done | rewrite Hst; by left] |].
    apply Hkl; [by right; left | by apply ci_fund_key].
  - intros m [Hk | Hk]%Hkeys; [destruct (Hrel m Hk) as [He Hst]; apply Hthis; [done | rewrite Hst; by left] |].
    apply Hkl; [by right; right | by apply ci_release_key].
  - intros i x [[-> ->] | [_ Hx]]%Hcases Hst; [by apply Hfd |]. apply Hkeys. right. by eapply ci_funded.
Qed.

Lemma effect_keys ds hs key ls s s' :
  wallet_effect sha256 ds hs key ls (wallet s) (wallet s') -> forall k, posted_key k s' <-> Some k = Some key \/ posted_key k s.
Proof. intros [_ _ _ Hp _ _] k. unfold posted_key. rewrite (posted_keys _ _ _ _ _ Hp k). naive_solver. Qed.

Lemma same_keys s s' : wallet s' = wallet s -> forall k, posted_key k s' <-> Some k = None \/ posted_key k s.
Proof. intros Hw k. unfold posted_key. rewrite Hw. naive_solver. Qed.

Lemma row_new id t s : fresh_ticket id t s -> ticket_terms t -> row_step id t s.
Proof. intros Hf Ht. unfold row_step. destruct (Hf) as [-> _]. done. Qed.
Lemma row_later id t st m s : tickets s !! id = Some t -> ticket_allowed (tk_status t) st = true -> row_step id (with_result st m t) s.
Proof. intros Hr Hal. unfold row_step. rewrite Hr. by apply later_result. Qed.

Ltac keys_tac := intros; repeat match goal with
  | Hk : Some _ = Some _ |- _ => apply (inj Some) in Hk
  | Hk : Some _ = None |- _ => discriminate
  end;
  first [ match goal with Hk : _ = _ |- _ => exfalso; revert Hk; first [apply send_not_request | apply send_not_fund | apply send_not_release
     | apply request_not_fund | apply request_not_release | apply fund_not_release
     | intros Hk; symmetry in Hk; revert Hk; first [apply send_not_request | apply send_not_fund | apply send_not_release
        | apply request_not_fund | apply request_not_release | apply fund_not_release]] end
    | match goal with Hk : _ = _ |- _ => apply (inj (String.append _)) in Hk; subst; done end ].

Lemma shape_cinv s s' : cinv s -> chat_shape s s' -> cinv s'.
Proof.
  intros Hi Hs. pose proof (ci_core s Hi) as Hc.
  destruct Hs as [-> | id t Hfr Hm Htm Hst Ht Hw Hg | id t Hfr Hm Hm' Htm Hst Hk Ht Hef Hg | id t m Hr Hk Hst Ht Hef Hg | id t m Hr Hk Hst Ht Hef Hg
    | id t m Hr Hk Hst Ht Hef Hg | id t st m Hr Hcase Ht Hw Hg].
  - done.
  - eapply (cinv_row s s' id t None); try done; [by apply row_new | by rewrite Hw | by apply same_keys |]. rewrite Hst. simpl; rewrite !elem_of_cons, elem_of_nil; naive_solver.
  - eapply (cinv_row s s' id t); [done | done | by apply row_new | by eapply (effect_einv _ chat_key); [| exact Hef | done] | done | by apply (effect_keys _ _ _ _ _ _ Hef) | keys_tac.. |].
    rewrite Hst. simpl; rewrite !elem_of_cons, elem_of_nil; naive_solver.
  - eapply (cinv_row s s' id (with_result ACCEPTED m t)); [done | done | apply row_later; [done | by rewrite Hst] | by eapply (effect_einv _ chat_key); [| exact Hef | done] | done
      | by apply (effect_keys _ _ _ _ _ _ Hef) | keys_tac.. |]. simpl; rewrite !elem_of_cons, elem_of_nil; naive_solver.
  - eapply (cinv_row s s' id (with_result ESCROW_FUNDED m t)); [done | done | apply row_later; [done | by rewrite Hst] | by eapply (effect_einv _ chat_key); [| exact Hef | done] | done
      | by apply (effect_keys _ _ _ _ _ _ Hef) | keys_tac.. |]. intros _. apply (effect_keys _ _ _ _ _ _ Hef). by left.
  - eapply (cinv_row s s' id (with_result ESCROW_RELEASED m t)); [done | done | apply row_later; [done | by rewrite Hst] | by eapply (effect_einv _ chat_key); [| exact Hef | done] | done
      | by apply (effect_keys _ _ _ _ _ _ Hef) | keys_tac.. |]. intros _. apply (effect_keys _ _ _ _ _ _ Hef). right. simpl.
    apply (ci_funded s Hi id t Hr). rewrite Hst. by left.
  - eapply (cinv_row s s' id (with_result st m t) None); try done; [| by rewrite Hw | by apply same_keys |].
    + apply row_later; [done |]. destruct Hcase as [(_ & -> & ->) | (_ & Hin & ->)]; [done |]. revert Hin. rewrite !elem_of_cons, elem_of_nil. destruct (tk_status t); naive_solver.
    + destruct Hcase as [(_ & _ & ->) | (_ & _ & ->)]; simpl; rewrite !elem_of_cons, elem_of_nil; naive_solver.
Qed.

(** ** The books *)

(** A ticket whose funding is in the ledger, and what it still holds. *)
Definition funded_ticket (l : ldb) (t : ticket_row) : bool := bool_decide (is_Some (find_key (chat_fund_key (tk_messageId t)) l)).
Definition ticket_held (l : ldb) (t : ticket_row) : Z :=
  if funded_ticket l t && negb (bool_decide (tk_status t = ESCROW_RELEASED)) then tk_amount t else 0.
Definition ticket_funding (u : Z) (l : ldb) (t : ticket_row) : Z := if funded_ticket l t && (tk_requesterId t =? u) then tk_amount t else 0.
Definition held_for (m : string) (l : ldb) (t : ticket_row) : Z := if String.eqb (tk_messageId t) m then ticket_held l t else 0.

Definition over_tickets (F : ldb -> ticket_row -> Z) (s : cdb) : Z := sumM (F (ledger (wallet s))) (tickets s).
(** All that conversations hold; the holding of one message; what a user has
    put into tickets. *)
Definition chat_held : cdb -> Z := over_tickets ticket_held.
Definition held_under (m : string) : cdb -> Z := over_tickets (held_for m).
Definition chat_funded (u : Z) : cdb -> Z := over_tickets (ticket_funding u).

Record chat_books (s s' : cdb) : Prop := {
  cb_total : total_value (wallet s') + chat_held s' = total_value (wallet s) + chat_held s;
  cb_liability : forall u, 0 <= u ->
    avail u (wallet s') + net (liability_code u) (ledger (wallet s')) = avail u (wallet s) + net (liability_code u) (ledger (wallet s));
  cb_holding : forall m, held_under m s' + net (chat_code m) (ledger (wallet s')) = held_under m s + net (chat_code m) (ledger (wallet s));
  cb_hist : forall u, avail u (wallet s') - hist_sum u (wallet s') + chat_funded u s' = avail u (wallet s) - hist_sum u (wallet s) + chat_funded u s;
}.

#[export] Instance chat_books_po : PreOrder chat_books.
Proof.
  split; [by intros s; split |]. intros s1 s2 s3 [A1 A2 A3 A4] [B1 B2 B3 B4].
  split; intros; rewrite ?B1, ?B3, ?B4 by done; rewrite ?B2 by done; auto.
Qed.

(** A function of a ticket that sees the ledger only through [funded_ticket]. *)
Class LedgerFlag (F : ldb -> ticket_row -> Z) : Prop := ledger_flag : forall l l' t, funded_ticket l' t = funded_ticket l t -> F l' t = F l t.
#[export] Instance held_flag : LedgerFlag ticket_held.
Proof. intros l l' t He. unfold ticket_held. by rewrite He. Qed.
#[export] Instance funding_flag u : LedgerFlag (ticket_funding u).
Proof. intros l l' t He. unfold ticket_funding. by rewrite He. Qed.
#[export] Instance held_for_flag m : LedgerFlag (held_for m).
Proof. intros l l' t He. unfold held_for. by rewrite (ledger_flag l l' t He). Qed.

(** One row changes; the flags of the others do not. *)
Lemma over_step F `{!LedgerFlag F} s s' id t' :
  tickets s' = <[id := t']> (tickets s) ->
  (forall j x, j <> id -> tickets s !! j = Some x -> funded_ticket (ledger (wallet s')) x = funded_ticket (ledger (wallet s)) x) ->
  over_tickets F s' = over_tickets F s - default 0 (F (ledger (wallet s)) <$> tickets s !! id) + F (ledger (wallet s')) t'.
Proof.
  intros Ht Hf. unfold over_tickets. rewrite Ht. apply sumM_write. intros j x Hne Hx. apply ledger_flag. by eapply Hf.
Qed.

Lemma flag_same key ls l l' x : posted sha256 key ls l l' -> chat_fund_key (tk_messageId x) <> key -> funded_ticket l' x = funded_ticket l x.
Proof.
  intros Hp Hne. unfold funded_ticket. apply bool_decide_ext. rewrite (posted_keys _ _ _ _ _ Hp). naive_solver.
Qed.

Lemma not_posted s k : ~ posted_key k s -> find_key k (ledger (wallet s)) = None.
Proof. intros Hn. destruct (find_key k (ledger (wallet s))) eqn:Hf; [exfalso; apply Hn; by eexists | done]. Qed.

(** A ticket under [m] is the one that has [m]. *)
Lemma ticket_in_row m l s id t : cinv s -> ticket_in m l s -> tickets s !! id = Some t -> tk_messageId t = m -> tk_status t ∈ l.
Proof.
  intros Hi (j & x & Hx & Hm & Hin) Ht He. assert (j = id) as -> by (eapply (ci_message s Hi); [done | done | congruence]). congruence.
Qed.

Lemma unfunded_new s id t : cinv s -> fresh_ticket id t s -> funded_ticket (ledger (wallet s)) t = false.
Proof.
  intros Hi [_ Hf]. apply bool_decide_eq_false. intros Hk. destruct (ci_fund_key s Hi _ Hk) as (j & x & Hx & Hm & _). by destruct (Hf j x Hx).
Qed.

Lemma unfunded_row s id t : cinv s -> tickets s !! id = Some t -> tk_status t ∉ FUNDED_ONCE -> funded_ticket (ledger (wallet s)) t = false.
Proof.
  intros Hi Ht Hn. apply bool_decide_eq_false. intros Hk. apply Hn. eapply (ticket_in_row _ _ s id t Hi); [by apply ci_fund_key | done | done].
Qed.

Lemma flags_zero l t : funded_ticket l t = false -> ticket_held l t = 0 /\ (forall m, held_for m l t = 0) /\ forall u, ticket_funding u l t = 0.
Proof. intros Hf. unfold held_for, ticket_held, ticket_funding. rewrite Hf. split_and!; [done | intros m; by destruct (String.eqb _ m) | done]. Qed.

(** The other tickets keep their flags when this ticket's message is posted. *)
Lemma flags_other s id t key ls l' :
  cinv s -> row_step id t s -> posted sha256 key ls (ledger (wallet s)) l' -> (forall m, chat_fund_key m = key -> m = tk_messageId t) ->
  forall j x, j <> id -> tickets s !! j = Some x -> funded_ticket l' x = funded_ticket (ledger (wallet s)) x.
Proof.
  intros Hi Hrow Hp Hkey j x Hne Hx. eapply flag_same; [exact Hp |]. intros He. apply Hkey in He. unfold row_step in Hrow.
  destruct (tickets s !! id) as [t0 |] eqn:Hid; [rewrite (kl_message _ _ Hrow) in He; by eapply Hne, (ci_message s Hi) |].
  destruct Hrow as [[_ Hf] _]. by destruct (Hf j x Hx).
Qed.

Ltac books_tac := intros; unfold delta_of, line_movement, hist_value, internal_row; rewrite ?sumZ_cons, ?sumZ_nil;
  cbn [fst snd da dl dd hs_userId hs_completed hs_amountUsdc hs_feeUsdc n_account n_debit n_credit with_result tk_amount tk_requesterId tk_messageId tk_counterpartyId];
  autorewrite with codes; rewrite ?String.eqb_refl;
  repeat match goal with |- context [?a =? ?b] => destruct (a =? b) end;
  repeat match goal with |- context [String.eqb ?a ?b] => destruct (String.eqb a b) end; cbn [andb]; lia.

(** A transfer between two users under a ticket that holds nothing. *)
Lemma transfer_books s s' id t key a b x :
  cinv s -> 0 <= a -> 0 <= b -> tickets s' = <[id := t]> (tickets s) -> row_step id t s ->
  funded_ticket (ledger (wallet s)) t = false -> (forall t0, tickets s !! id = Some t0 -> funded_ticket (ledger (wallet s)) t0 = false) ->
  (forall m, chat_fund_key m <> key) -> find_key key (ledger (wallet s)) = None -> transfer key a b x (wallet s) (wallet s') -> chat_books s s'.
Proof.
  intros Hi Ha Hb Ht Hrow Hun Hold Hkey Hnone Hef. destruct (effect_wallet _ _ _ _ _ _ _ Hef Hnone) as (H1 & H2 & H3 & H4).
  assert (Hun' : funded_ticket (ledger (wallet s')) t = false) by (rewrite (flag_same _ _ _ _ t (we_ledger _ _ _ _ _ _ _ Hef)); [done | by apply Hkey]).
  assert (Hover : forall F, LedgerFlag F -> (forall l y, funded_ticket l y = false -> F l y = 0) -> over_tickets F s' = over_tickets F s).
  { intros F HF Hz. rewrite (over_step F s s' id t Ht), (Hz _ t Hun').
    - destruct (tickets s !! id) as [t0 |] eqn:Hid; simpl; [rewrite (Hz _ t0) by (by apply Hold) |]; lia.
    - eapply flags_other; [done | done | exact (we_ledger _ _ _ _ _ _ _ Hef) |]. intros m Hm. by apply Hkey in Hm. }
  assert (Hz1 : chat_held s' = chat_held s) by (apply Hover; [apply _ |]; intros; by apply flags_zero).
  assert (Hz2 : forall m, held_under m s' = held_under m s) by (intros m; apply Hover; [apply _ |]; intros l y Hy; by apply (flags_zero l y Hy)).
  assert (Hz3 : forall u, chat_funded u s' = chat_funded u s) by (intros u; apply Hover; [apply _ |]; intros l y Hy; by apply (flags_zero l y Hy)).
  split.
  - rewrite H1, Hz1. books_tac.
  - intros u Hu. rewrite H2, H4. books_tac.
  - intros m. rewrite Hz2, H4. books_tac.
  - intros u. rewrite H2, H3, Hz3. books_tac.
Qed.

Lemma chat_fund_books s s' id t m : cinv s -> tickets s !! id = Some t -> tk_status t = SENT -> tickets s' = <[id := with_result ESCROW_FUNDED m t]> (tickets s) ->
  funding (tk_messageId t) (tk_requesterId t) (tk_amount t) (wallet s) (wallet s') -> chat_books s s'.
Proof.
  intros Hi Hr Hst Ht Hef.
  destruct (ci_terms s Hi id t Hr) as [Hpos Hu0 _]. assert (Hsent : tk_status t ∉ FUNDED_ONCE).
  { rewrite Hst. unfold FUNDED_ONCE. rewrite !elem_of_cons, elem_of_nil. naive_solver. }
  pose proof (unfunded_row s id t Hi Hr Hsent) as Hun. destruct (flags_zero _ _ Hun) as (Hz1 & Hz2 & Hz3).
  assert (Hnone : find_key (chat_fund_key (tk_messageId t)) (ledger (wallet s)) = None).
  { apply not_posted. intros Hp. apply (ci_fund_key s Hi) in Hp. by apply (ticket_in_row _ _ s id t) in Hp. }
  destruct (effect_wallet _ _ _ _ _ _ _ Hef Hnone) as (H1 & H2 & H3 & H4).
  assert (Hfd : funded_ticket (ledger (wallet s')) (with_result ESCROW_FUNDED m t) = true).
  { apply bool_decide_eq_true. apply (posted_keys _ _ _ _ _ (we_ledger _ _ _ _ _ _ _ Hef)). by left. }
  assert (Hover : forall F, LedgerFlag F -> F (ledger (wallet s)) t = 0 ->
    over_tickets F s' = over_tickets F s + F (ledger (wallet s')) (with_result ESCROW_FUNDED m t)).
  { intros F HF Hz. rewrite (over_step F s s' id _ Ht), Hr; [simpl; rewrite Hz; lia |].
    eapply (flags_other s id (with_result ESCROW_FUNDED m t)); [done | apply row_later; [done | by rewrite Hst] | exact (we_ledger _ _ _ _ _ _ _ Hef) |].
    intros m0 He. simpl. by apply (inj (String.append _)) in He. }
  split; unfold chat_held, held_under, chat_funded; intros; rewrite ?H1, ?H2, ?H3, ?H4, ?(Hover _ _ Hz1), ?(Hover _ _ (Hz2 _)), ?(Hover _ _ (Hz3 _));
    unfold ticket_held, held_for, ticket_held, ticket_funding; rewrite ?Hfd; cbn [with_result tk_status]; rewrite ?bool_decide_false by done; cbn [andb negb]; books_tac.
Qed.

Lemma chat_release_books s s' id t m : cinv s -> tickets s !! id = Some t -> tk_status t = ESCROW_FUNDED ->
  tickets s' = <[id := with_result ESCROW_RELEASED m t]> (tickets s) ->
  payout (tk_messageId t) (tk_counterpartyId t) (tk_amount t) (wallet s) (wallet s') -> chat_books s s'.
Proof.
  intros Hi Hr Hst Ht Hef.
  destruct (ci_terms s Hi id t Hr) as [Hpos _ Hc0].
  assert (Hfd : funded_ticket (ledger (wallet s)) t = true).
  { apply bool_decide_eq_true. apply (ci_funded s Hi id t Hr). rewrite Hst. by left. }
  assert (Hnone : find_key (chat_release_key (tk_messageId t)) (ledger (wallet s)) = None).
  { apply not_posted. intros Hp. apply (ci_release_key s Hi) in Hp. apply (ticket_in_row _ _ s id t) in Hp; [| done..].
    rewrite Hst in Hp. by apply list_elem_of_singleton in Hp. }
  destruct (effect_wallet _ _ _ _ _ _ _ Hef Hnone) as (H1 & H2 & H3 & H4). pose proof (we_ledger _ _ _ _ _ _ _ Hef) as Hp.
  assert (Hfd' : funded_ticket (ledger (wallet s')) (with_result ESCROW_RELEASED m t) = true).
  { rewrite (flag_same _ _ _ _ (with_result ESCROW_RELEASED m t) Hp) by apply fund_not_release. exact Hfd. }
  assert (Hover : forall F, LedgerFlag F -> over_tickets F s' =
    over_tickets F s - F (ledger (wallet s)) t + F (ledger (wallet s')) (with_result ESCROW_RELEASED m t)).
  { intros F HF. rewrite (over_step F s s' id _ Ht), Hr; [done |].
    eapply (flags_other s id (with_result ESCROW_RELEASED m t)); [done | apply row_later; [done | by rewrite Hst] | exact Hp |]. intros m0 He. by apply fund_not_release in He. }
  split; unfold chat_held, held_under, chat_funded; intros; rewrite ?H1, ?H2, ?H3, ?H4, ?(Hover _ _);
    unfold ticket_held, held_for, ticket_held, ticket_funding; rewrite ?Hfd, ?Hfd', ?Hst; cbn [with_result tk_status];
    rewrite ?(bool_decide_true (ESCROW_RELEASED = ESCROW_RELEASED)), ?(bool_decide_false (ESCROW_FUNDED = ESCROW_RELEASED)) by done; cbn [andb negb]; books_tac.
Qed.

(** A move that pays nobody, neither from nor to ESCROW_RELEASED. *)
Lemma chat_quiet_books s s' id t st m : tickets s !! id = Some t -> tk_status t <> ESCROW_RELEASED -> st <> ESCROW_RELEASED ->
  tickets s' = <[id := with_result st m t]> (tickets s) -> wallet s' = wallet s -> chat_books s s'.
Proof.
  intros Hr N1 N2 Ht Hw.
  assert (Hover : forall F, LedgerFlag F -> F (ledger (wallet s)) (with_result st m t) = F (ledger (wallet s)) t -> over_tickets F s' = over_tickets F s).
  { intros F HF He. rewrite (over_step F s s' id _ Ht), Hr by (intros; by rewrite Hw). rewrite Hw, He. simpl. lia. }
  apply (bool_decide_eq_false_2 _) in N1 as R1, N2 as R2.
  assert (Hz : ticket_held (ledger (wallet s)) (with_result st m t) = ticket_held (ledger (wallet s)) t)
    by (unfold ticket_held; cbn [with_result tk_status]; by rewrite R1, R2).
  split; unfold chat_held, held_under, chat_funded; intros; rewrite Hw; rewrite ?Hover; try done; try apply _. unfold held_for. by rewrite Hz.
Qed.

Lemma shape_chat_books s s' : cinv s -> chat_shape s s' -> chat_books s s'.
Proof.
  intros Hi Hs.
  destruct Hs as [-> | id t Hfr Hm Htm Hst Ht Hw Hg | id t Hfr Hm Hm' Htm Hst Hk Ht Hef Hg | id t m Hr Hk Hst Ht Hef Hg | id t m Hr Hk Hst Ht Hef Hg
    | id t m Hr Hk Hst Ht Hef Hg | id t st m Hr Hcase Ht Hw Hg].
  - done.
  - pose proof (unfunded_new s id t Hi Hfr) as Hun. destruct (flags_zero _ _ Hun) as (Hz1 & Hz2 & Hz3). destruct Hfr as [Hn _].
    assert (Hover : forall F, LedgerFlag F -> F (ledger (wallet s)) t = 0 -> over_tickets F s' = over_tickets F s).
    { intros F HF Hz. rewrite (over_step F s s' id t Ht), Hn by (intros; by rewrite Hw). rewrite Hw, Hz. simpl. lia. }
    split; unfold chat_held, held_under, chat_funded; intros; rewrite ?Hw, ?(Hover _ _ Hz1), ?(Hover _ _ (Hz2 _)), ?(Hover _ _ (Hz3 _)); done.
  - destruct Htm. eapply (transfer_books s s' id t (send_key (tk_messageId t)) (tk_requesterId t) (tk_counterpartyId t) (tk_amount t));
      [done.. | by apply row_new | by eapply unfunded_new | | | | done].
    + intros t0 Ht0. destruct Hfr as [Hn _]. congruence.
    + intros m. apply not_eq_sym, send_not_fund.
    + apply not_posted. intros Hp. apply (ci_send_key s Hi) in Hp as [z Hz]. congruence.
  - destruct (ci_terms s Hi id t Hr). assert (Hun : funded_ticket (ledger (wallet s)) t = false).
    { eapply unfunded_row; [done | done |]. rewrite Hst. unfold FUNDED_ONCE. rewrite !elem_of_cons, elem_of_nil. naive_solver. }
    eapply (transfer_books s s' id (with_result ACCEPTED m t) (request_key (tk_messageId t)) (tk_counterpartyId t) (tk_requesterId t) (tk_amount t)); [done.. | | done | | | | done].
    + apply row_later; [done | by rewrite Hst].
    + intros t0 Ht0. congruence.
    + intros m0. apply not_eq_sym, request_not_fund.
    + apply not_posted. intros Hp. apply (ci_request_key s Hi) in Hp. apply (ticket_in_row _ _ s id t) in Hp; [| done..].
      rewrite Hst in Hp. by apply list_elem_of_singleton in Hp.
  - by eapply chat_fund_books.
  - by eapply chat_release_books.
  - eapply chat_quiet_books; [done | | | done | done]; destruct Hcase as [(_ & Hs & ->) | (_ & Hin & ->)]; try done; [by rewrite Hs |].
    intros He. revert Hin. rewrite He, !elem_of_cons, elem_of_nil. naive_solver.
Qed.
End Shapes.

#[export] Hint Rewrite chat_eqb chat_liability_eqb liability_chat_eqb locked_chat_eqb dispute_chat_eqb revenue_chat_eqb : codes.

(** ** Steps *)

Section Steps.
Context `{DecimalLib} `{PrismaNumber} (sha256 : string -> string) (wire : escrow_row -> string).

(** A decimal argument has a mantissa and a sign, like every decimal. *)
Definition body_wf (body : money_body) : Prop :=
  match body with SendBody a _ | RequestBody a _ | EscrowBody a _ _ => jsval_wf a | OtherBody => True end.

(** The calls, with whatever database [s0] a creation read first, and the steps
    of smart escrow on the same wallet.  A call that fails is a step too. *)
Inductive cstep (s s' : cdb) : Prop :=
| cs_send user conv body currency req m id s0 r :
    0 <= user -> Forall (fun p => 0 <= p) (cv_participants conv) -> body_wf body ->
    sendMoney sha256 user conv body currency req m id s0 s = (r, s') -> cstep s s'
| cs_accept user conv mid m r : acceptMoney sha256 user conv mid m s = (r, s') -> cstep s s'
| cs_decline user conv mid m r : declineMoney user conv mid m s = (r, s') -> cstep s s'
| cs_fund user conv mid m r : fundTicket sha256 user conv mid m s = (r, s') -> cstep s s'
| cs_release user conv mid m r : releaseTicket sha256 user conv mid m s = (r, s') -> cstep s s'
| cs_dispute user conv mid m r : disputeTicket user conv mid m s = (r, s') -> cstep s s'
| cs_escrow w : escrow_step sha256 wire (wallet s) w -> s' = set_wallet w s -> cstep s s'.

Lemma parse_positive v a : jsval_wf v -> parsePositiveAmount v = Ok a -> 0 < a.
Proof.
  intros Hw Hr. unfold parsePositiveAmount in Hr. apply bind_Ok in Hr as (d & Hd & Hr). apply catch_Ok in Hd as [Hd | (e & _ & ?)]; [| done].
  apply toExactDecimal_nonneg in Hd; [| done]. res_inv Hr. apply Z.eqb_neq in Hres. lia.
Qed.

Lemma action_work work s r s' : action work s = (r, s') -> s' = s \/ exists x, work s = Ok (x, s').
Proof.
  unfold action, transaction. destruct (work s) as [[x s1] | e]; [| intros [= _ <-]; by left].
  destruct x as [id | [[id m] t]]; intros [= _ <-]; right; eauto.
Qed.

Lemma keyed_work req matches id work s0 s r s' : keyed req matches id work s0 s = (r, s') -> s' = s \/ exists x, work s = Ok (x, s').
Proof.
  unfold keyed, transaction. destruct (ticket_of_request req s0) as [p |]; [intros [= _ <-]; by left |].
  destruct (work s) as [[[m t] s1] | e]; [intros [= _ <-]; right; eauto |]. destruct (String.eqb e _); intros [= _ <-]; by left.
Qed.

Lemma two_party_nonneg conv user other : Forall (fun p => 0 <= p) (cv_participants conv) -> _requireTwoParty conv user = Ok other -> 0 <= other.
Proof.
  intros Hp Hr. unfold _requireTwoParty in Hr. apply bind_Ok in Hr as (x & _ & Hr).
  destruct (cv_participants conv) as [| a [| b [| c l]]] eqn:Hc; try done. destruct (List.filter _ _) as [| o [| o2 l2]] eqn:Hf; try done.
  injection Hr as <-. assert (Hin : In o (List.filter (fun p => negb (p =? user)) [a; b])) by (rewrite Hf; by left).
  apply filter_In in Hin as [Hin _]. rewrite Forall_forall in Hp. apply Hp. by apply list_elem_of_In.
Qed.

Lemma send_any_shape user conv body currency req m id s0 s r s' :
  0 <= user -> Forall (fun p => 0 <= p) (cv_participants conv) -> body_wf body ->
  sendMoney sha256 user conv body currency req m id s0 s = (r, s') -> chat_shape sha256 s s'.
Proof.
  intros Hu Hp Hw Hr. unfold sendMoney in Hr. destruct (normalizeAsset currency) as [asset |]; [| injection Hr as _ <-; by apply csh_none].
  assert (Htick : forall kind a cp ty, 0 < a -> 0 <= cp -> _createTicketedMessage conv user kind a asset req cp ty m id s0 s = (r, s') -> chat_shape sha256 s s').
  { intros kind a cp ty Ha Hcp Ht. unfold _createTicketedMessage in Ht. destruct (normalizeClientRequestId req) as [k |]; [| injection Ht as _ <-; by apply csh_none].
    apply keyed_work in Ht as [-> | (x & Ht)]; [by apply csh_none |]. eapply ticketed_shape; [exact Ha | exact Hu | exact Hcp | exact Ht]. }
  destruct body as [a rid | a f | a i c |]; [| | | injection Hr as _ <-; by apply csh_none].
  - unfold _sendMoney in Hr. destruct (send_args user a rid req) as [[[amt rcv] k] |] eqn:Ha; [| injection Hr as _ <-; by apply csh_none].
    unfold send_args in Ha. res_inv Ha. apply parse_positive in Hres; [| done].
    match goal with Hb : (_ <? 1) = false |- _ => apply Z.ltb_ge in Hb end.
    apply keyed_work in Hr as [-> | (x & Hr)]; [by apply csh_none |]. refine (send_shape _ _ _ _ _ _ _ _ _ _ _ _ _ Hu _ Hr); [done | lia].
  - unfold _createMoneyRequest in Hr. destruct (other ← _; _) as [[other amt] |] eqn:Ha; [| injection Hr as _ <-; by apply csh_none].
    res_inv Ha. eapply Htick; [by eapply parse_positive | by eapply two_party_nonneg | exact Hr].
  - unfold _createEscrowTicket in Hr. destruct (other ← _; _) as [[other amt] |] eqn:Ha; [| injection Hr as _ <-; by apply csh_none].
    res_inv Ha. eapply Htick; [by eapply parse_positive | by eapply two_party_nonneg | exact Hr].
Qed.

(** The accounts of this service. *)
Inductive chat_account : string -> Prop := chat_account_intro m : chat_account (chat_code m).
#[local] Hint Constructors chat_account : core.
Lemma chat_account_own c : chat_account c -> OwnCode c.
Proof. by intros []. Qed.

Lemma escrow_chat s w : cinv s -> escrow_step sha256 wire (wallet s) w -> cinv (set_wallet w s) /\ chat_books s (set_wallet w s).
Proof.
  intros Hi Hs. pose proof (ci_core s Hi) as Hc. apply step_shaped in Hs; [| done].
  destruct (foreign_shape _ chat_key chat_account _ _ chat_account_own Hs) as [Hk Hn]. destruct (shape_books _ _ _ Hc Hs) as [B1 _ _ B4 B5 _ _ _].
  assert (Hkeys : forall k, chat_key k -> posted_key k (set_wallet w s) <-> posted_key k s) by (intros k Hck; by apply Hk).
  assert (Hover : forall F, LedgerFlag F -> over_tickets F (set_wallet w s) = over_tickets F s).
  { intros F HF. apply sumM_ext. intros j x _. apply ledger_flag. apply bool_decide_ext. apply Hk. constructor. }
  split.
  - destruct Hi as [I1 I2 I3 I4 I5 I6 I7 I8 I9]. split; try done.
    + by eapply shape_einv.
    + intros m Hp. apply I5, Hkeys; [constructor | done].
    + intros m Hp. apply I6, Hkeys; [constructor | done].
    + intros m Hp. apply I7, Hkeys; [constructor | done].
    + intros m Hp. apply I8, Hkeys; [constructor | done].
    + intros i t Ht Hst. apply Hkeys; [constructor | by eapply I9].
  - split; unfold chat_held, held_under, chat_funded; intros; rewrite ?Hover by apply _; simpl.
    + by rewrite B1.
    + by apply B5.
    + by rewrite Hn.
    + by rewrite B4.
Qed.

Lemma step_chat_shape s s' : cinv s -> cstep s s' -> chat_shape sha256 s s' \/ exists w, escrow_step sha256 wire (wallet s) w /\ s' = set_wallet w s.
Proof.
  intros Hi Hs. assert (Hpos : forall id t, tickets s !! id = Some t -> 0 < tk_amount t) by (intros id t Ht; apply (ci_terms s Hi id t Ht)).
  destruct Hs as [user conv body cur req m id s0 r Hu Hp Hw Hr | user conv mid m r Hr | user conv mid m r Hr | user conv mid m r Hr | user conv mid m r Hr
    | user conv mid m r Hr | w Hw ->]; [left | left; apply action_work in Hr as [-> | (x & Hr)]; [by apply csh_none |].. | right; eauto].
  - by eapply send_any_shape.
  - apply accept_Ok in Hr; [| done]. apply (action_shape _ _ _ _ _ _ _ _ _ _ _ _ Hr). intros. by eapply csh_accept.
  - by eapply decline_shape.
  - apply fund_Ok in Hr; [| done]. apply (action_shape _ _ _ _ _ _ _ _ _ _ _ _ Hr). intros. by eapply csh_fund.
  - apply release_Ok in Hr; [| done]. apply (action_shape _ _ _ _ _ _ _ _ _ _ _ _ Hr). intros. by eapply csh_release.
  - by eapply dispute_shape_chat.
Qed.

Lemma step_chat s s' : cinv s -> cstep s s' -> cinv s' /\ chat_books s s'.
Proof.
  intros Hi Hs. apply step_chat_shape in Hs as [Hs | (w & Hw & ->)]; [| by apply escrow_chat | done].
  split; [by eapply shape_cinv | by eapply shape_chat_books].
Qed.

Lemma steps_chat s s' : cinv s -> rtc cstep s s' -> cinv s' /\ chat_books s s'.
Proof.
  intros Hi Hr. revert Hi. induction Hr as [s | s1 s2 s3 Hs _ IH]; intros Hi; [done |].
  destruct (step_chat _ _ Hi Hs) as [Hi2 Hb]. destruct (IH Hi2) as [Hi3 Hb3]. split; [done | by etrans].
Qed.
End Steps.
