(* ===== verification/ChatTheorems.v ===== *)
(** * Theorems on conversation money

    The books of conversations and smart escrow together; the identity of a
    client request; the life of a ticket; the exact payments; and where the
    chat escrow falls short of its intent. *)

From stdpp Require Import base gmap strings list relations.
From Stdlib Require Import ZArith QArith Qabs Lqa Lia Ascii.
From S2P Require Import Prelude JsNumber ExactDecimal Json Ledger LedgerFacts LedgerHash LedgerProps Idempotency Escrow EscrowFacts EscrowProps EscrowTheorems WalletProps Chat ChatProps.

Local Open Scope Z_scope.

Section Theorems.
Context `{DecimalLib} `{PrismaNumber} (sha256 : string -> string) (wire : escrow_row -> string).

#[local] Abbreviation steps := (rtc (cstep sha256 wire)).

(** C7: conversations and smart escrow on the same balances and ledger keep
    one set of books under every interleaving, whatever stale rows the
    creations read: customers' balances, fees and the money held by chat
    tickets add up to the same total, each user's liability account moves with
    the available balance, the account of a ticket holds exactly what the
    ticket holds, and the completed history explains every available balance
    up to the principal the user has put into chat tickets. *)
Theorem chat_books_kept s0 s : cinv s0 -> steps s0 s ->
  total_value (wallet s) + chat_held s = total_value (wallet s0) + chat_held s0 /\
  (forall u, 0 <= u -> avail u (wallet s) - avail u (wallet s0) = net (liability_code u) (ledger (wallet s0)) - net (liability_code u) (ledger (wallet s))) /\
  (forall m, held_under m s - held_under m s0 = net (chat_code m) (ledger (wallet s0)) - net (chat_code m) (ledger (wallet s))) /\
  (forall u, avail u (wallet s) - avail u (wallet s0) =
     hist_sum u (wallet s) - hist_sum u (wallet s0) - (chat_funded u s - chat_funded u s0)).
Proof.
  intros Hi Hr. apply steps_chat in Hr as [_ [H1 H2 H3 H4]]; [| done]. split_and!; [done | | |]; intros x.
  - intros Hx. specialize (H2 x Hx). lia.
  - specialize (H3 x). lia.
  - specialize (H4 x). lia.
Qed.

(** ** The life of a ticket *)

Lemma ticket_later_refl t : ticket_later t t.
Proof. split; try done. unfold ticket_allowed. by rewrite bool_decide_true. Qed.

Lemma step_tickets s s' id t : cinv s -> cstep sha256 wire s s' -> tickets s !! id = Some t -> exists t', tickets s' !! id = Some t' /\ ticket_later t t'.
Proof.
  intros Hi Hs Ht. assert (Hrow : forall j t', tickets s' = <[j := t']> (tickets s) -> row_step j t' s -> exists t', tickets s' !! id = Some t' /\ ticket_later t t').
  { intros j t' He Hrow. rewrite He. unfold row_step in Hrow. destruct (decide (j = id)) as [-> | Hne].
    - rewrite lookup_insert_eq. rewrite Ht in Hrow. eauto.
    - rewrite lookup_insert_ne by done. exists t. split; [done | apply ticket_later_refl]. }
  apply step_chat_shape in Hs as [Hs | (w & _ & ->)]; [| exists t; split; [done | apply ticket_later_refl] | done].
  destruct Hs as [-> | j x Hfr _ Htm _ He _ _ | j x Hfr _ _ Htm _ _ He _ _ | j x m Hr _ Hst He _ _ | j x m Hr _ Hst He _ _ | j x m Hr _ Hst He _ _
    | j x st m Hr Hcase He _ _].
  - exists t. split; [done | apply ticket_later_refl].
  - eapply Hrow; [exact He | by apply row_new].
  - eapply Hrow; [exact He | by apply row_new].
  - eapply Hrow; [exact He | apply row_later; [done | by rewrite Hst]].
  - eapply Hrow; [exact He | apply row_later; [done | by rewrite Hst]].
  - eapply Hrow; [exact He | apply row_later; [done | by rewrite Hst]].
  - eapply Hrow; [exact He | apply row_later; [done |]]. destruct Hcase as [(_ & -> & ->) | (_ & Hin & ->)]; [done |].
    revert Hin. rewrite !elem_of_cons, elem_of_nil. destruct (tk_status x); naive_solver.
Qed.

Lemma steps_tickets s s' id t : cinv s -> steps s s' -> tickets s !! id = Some t -> exists t', tickets s' !! id = Some t' /\ rtc ticket_later t t'.
Proof.
  intros Hi Hr. revert Hi t. induction Hr as [s | s1 s2 s3 Hs _ IH]; intros Hi t Ht; [eauto using rtc_refl |].
  destruct (step_tickets _ _ _ _ Hi Hs Ht) as (t1 & Ht1 & Hl). destruct (IH (proj1 (step_chat _ _ _ _ Hi Hs)) t1 Ht1) as (t2 & Ht2 & Hl2).
  exists t2. split; [done | by eapply rtc_l].
Qed.

(** The statuses no ticket leaves. *)
Definition FINAL : list ticket_status := [ACCEPTED; DECLINED; ESCROW_RELEASED; ESCROW_DISPUTED].

Lemma laters_facts t t' : rtc ticket_later t t' ->
  tk_messageId t' = tk_messageId t /\ tk_conversationId t' = tk_conversationId t /\ tk_kind t' = tk_kind t /\ tk_amount t' = tk_amount t /\
  tk_requesterId t' = tk_requesterId t /\ tk_counterpartyId t' = tk_counterpartyId t /\ tk_clientRequestId t' = tk_clientRequestId t /\
  (tk_status t ∈ FINAL -> tk_status t' = tk_status t).
Proof.
  induction 1 as [t | t t1 t2 [L1 L2 L3 L4 L5 L6 L7 L8] _ (I1 & I2 & I3 & I4 & I5 & I6 & I7 & I8)]; [done |].
  split_and!; try congruence. intros Hf. assert (Hs : tk_status t1 = tk_status t).
  { revert Hf L8. unfold FINAL. rewrite !elem_of_cons, elem_of_nil. destruct (tk_status t), (tk_status t1); simpl; naive_solver. }
  rewrite I8, Hs; [done |]. by rewrite Hs.
Qed.

(** A ticket never changes its message, conversation, kind, amount,
    parties or request identity; it moves from sent to accepted, declined,
    funded or disputed, from funded to released or disputed, and from none of
    the final statuses, under every interleaving of calls and escrow steps. *)
Theorem ticket_lifecycle s0 s id t : cinv s0 -> steps s0 s -> tickets s0 !! id = Some t ->
  exists t', tickets s !! id = Some t' /\
    tk_messageId t' = tk_messageId t /\ tk_conversationId t' = tk_conversationId t /\ tk_kind t' = tk_kind t /\ tk_amount t' = tk_amount t /\
    tk_requesterId t' = tk_requesterId t /\ tk_counterpartyId t' = tk_counterpartyId t /\ tk_clientRequestId t' = tk_clientRequestId t /\
    rtc (fun a b => ticket_allowed a b = true) (tk_status t) (tk_status t') /\ (tk_status t ∈ FINAL -> tk_status t' = tk_status t).
Proof.
  intros Hi Hr Ht. destruct (steps_tickets _ _ _ _ Hi Hr Ht) as (t' & Ht' & Hl). exists t'. split; [done |].
  destruct (laters_facts _ _ Hl) as (F1 & F2 & F3 & F4 & F5 & F6 & F7 & F8). split_and!; try done.
  clear - Hl. induction Hl as [t | t t1 t2 Hl _ IH]; [done |]. eapply rtc_l; [exact (kl_status _ _ Hl) | done].
Qed.

(** An escrow ticket that was funded and then disputed keeps its money for
    ever: no call of the service, and no step of smart escrow, moves it out of
    ESCROW_DISPUTED or pays its principal to anyone, so the funder's debit is
    never returned and the counterparty is never paid. *)
Theorem disputed_ticket_stranded s0 s id t : cinv s0 -> steps s0 s -> tickets s0 !! id = Some t ->
  tk_status t = ESCROW_DISPUTED -> posted_key (chat_fund_key (tk_messageId t)) s0 ->
  exists t', tickets s !! id = Some t' /\ tk_status t' = ESCROW_DISPUTED /\ ticket_held (ledger (wallet s)) t' = tk_amount t.
Proof.
  intros Hi Hr Ht Hst Hp. destruct (steps_tickets _ _ _ _ Hi Hr Ht) as (t' & Ht' & Hl). exists t'. split; [done |].
  destruct (laters_facts _ _ Hl) as (F1 & _ & _ & F4 & _ & _ & _ & F8). rewrite Hst in F8.
  assert (Hst' : tk_status t' = ESCROW_DISPUTED) by (apply F8; unfold FINAL; rewrite !elem_of_cons; naive_solver). split; [done |].
  unfold ticket_held. rewrite Hst', bool_decide_false, F4 by done. simpl. rewrite andb_true_r.
  assert (Hf : funded_ticket (ledger (wallet s)) t' = true); [| by rewrite Hf]. apply bool_decide_eq_true. rewrite F1. clear - Hr Hp Hi.
  revert Hi Hp. induction Hr as [s | s1 s2 s3 Hs _ IH]; intros Hi Hp; [done |]. apply IH; [by eapply step_chat |].
  apply step_chat_shape in Hs as [Hs | (w & Hw & ->)]; [| | done].
  - destruct Hs as [-> | ? ? _ _ _ _ _ Hw _ | ? ? _ _ _ _ _ _ _ Hef _ | ? ? ? _ _ _ _ Hef _ | ? ? ? _ _ _ _ Hef _ | ? ? ? _ _ _ _ Hef _ | ? ? ? ? _ _ _ Hw _];
      first [done | by unfold posted_key in *; rewrite Hw | apply (effect_keys _ _ _ _ _ _ _ Hef); by right].
  - apply step_shaped in Hw; [| by apply ci_core]. apply (proj1 (foreign_shape _ chat_key chat_account _ _ chat_account_own Hw)); [constructor | done].
Qed.

(** ** Request identity *)

Lemma send_fresh u conv a r asset req m id s x s' :
  _sendMoneyTransaction sha256 u conv a r asset req m id s = Ok (x, s') -> forall j t, tickets s !! j = Some t -> tk_clientRequestId t <> Some req.
Proof.
  intros Hr j t Ht. unfold _sendMoneyTransaction in Hr.
  apply Mbind_Ok in Hr as (f & s1 & Hf & Hr). apply user_find_Ok in Hf as [_ ->]. apply Mbind_Ok in Hr as (y & s1 & Hf & Hr). apply lift_Ok in Hf as [_ ->].
  apply Mbind_Ok in Hr as (f2 & s1 & Hf & Hr). apply user_find_Ok in Hf as [_ ->]. apply Mbind_Ok in Hr as (y2 & s1 & Hf & Hr). apply lift_Ok in Hf as [_ ->].
  apply Mbind_Ok in Hr as (y3 & s1 & Hb & Hr). apply balance_claim_Ok in Hb as (ra & _ & _ & _ & ->).
  apply Mbind_Ok in Hr as (y4 & s1 & Hup & Hr). apply on_wallet_Ok in Hup as (w & _ & ->).
  apply Mbind_Ok in Hr as (y5 & s1 & Hc & Hr). apply modify_Ok in Hc as ->. apply Mbind_Ok in Hr as (y6 & s1 & Hc & Hr). apply modify_Ok in Hc as ->.
  apply Mbind_Ok in Hr as (y7 & s1 & Hm & Hr). apply message_create_Ok in Hm as [_ ->].
  apply Mbind_Ok in Hr as (y8 & s1 & Hk & Hr). apply ticket_create_Ok in Hk as [[_ Hk] _]. intros He. by destruct (Hk j t Ht) as [_ Hn]; specialize (Hn He).
Qed.

Lemma ticketed_fresh conv u kind a asset req cp ty m id s x s' :
  ticketed_tx conv u kind a asset req cp ty m id s = Ok (x, s') -> forall j t, tickets s !! j = Some t -> tk_clientRequestId t <> Some req.
Proof.
  intros Hr j t Ht. unfold ticketed_tx in Hr. apply Mbind_Ok in Hr as (y & s1 & Hm & Hr). apply message_create_Ok in Hm as [_ ->].
  apply Mbind_Ok in Hr as (y8 & s1 & Hk & Hr). apply ticket_create_Ok in Hk as [[_ Hk] _]. intros He. by destruct (Hk j t Ht) as [_ Hn]; specialize (Hn He).
Qed.

Lemma same_request_amount kind conv req cp cur a t : 0 <= a -> 0 <= tk_amount t -> same_request kind conv req cp cur a t = true ->
  tk_kind t = kind /\ tk_conversationId t = conv /\ tk_requesterId t = req /\ tk_counterpartyId t = cp /\ tk_amount t = a.
Proof.
  intros Ha Ht Hs. unfold same_request in Hs. repeat (apply andb_true_iff in Hs as [Hs ?]).
  repeat match goal with
    | He : bool_decide _ = true |- _ => apply bool_decide_eq_true in He
    | He : String.eqb _ _ = true |- _ => apply String.eqb_eq in He
    | He : (_ =? _) = true |- _ => apply Z.eqb_eq in He
    end. split_and!; try done. by apply toFixed8_inj.
Qed.

Lemma replay_Ok matches p s c : replay_outcome matches p s = Ok c -> matches p.2 = true /\ cr_ticketId c = p.1 /\ cr_ticket c = p.2 /\ cr_replay c = true.
Proof. unfold replay_outcome. intros Hr. res_inv Hr. apply negb_false_iff in Hres. done. Qed.

Lemma request_find r s p : ticket_of_request r s = Some p -> tickets s !! p.1 = Some p.2 /\ tk_clientRequestId p.2 = Some r.
Proof. destruct p as [i t]. intros Hf. apply find_ticket_Some in Hf as [Ht He]. by apply bool_decide_eq_true in He. Qed.

(** A keyed creation whose identity is taken changes nothing and answers with
    the ticket that took it. *)
Lemma keyed_taken req matches newTicket work s0 s r s' id t :
  cinv s0 -> cinv s -> steps s0 s -> (forall x s1, work s = Ok (x, s1) -> forall j t, tickets s !! j = Some t -> tk_clientRequestId t <> Some req) ->
  tickets s !! id = Some t -> tk_clientRequestId t = Some req -> keyed req matches newTicket work s0 s = (r, s') ->
  s' = s /\ forall c, r = Ok c -> cr_ticketId c = id /\ cr_replay c = true /\ matches (cr_ticket c) = true /\ rtc ticket_later (cr_ticket c) t.
Proof.
  intros Hi0 Hi Hst Hfresh Ht Hreq Hr. split.
  - apply keyed_work in Hr as [-> | (x & Hw)]; [done |]. by destruct (Hfresh _ _ Hw id t Ht).
  - intros c ->. unfold keyed in Hr. destruct (ticket_of_request req s0) as [p |] eqn:Hf.
    + injection Hr as Hr _. apply replay_Ok in Hr as (Hm & -> & -> & ->). apply request_find in Hf as [Hp Hpr].
      destruct (steps_tickets _ _ _ _ Hi0 Hst Hp) as (t' & Ht' & Hl). destruct (laters_facts _ _ Hl) as (_ & _ & _ & _ & _ & _ & Hq & _).
      assert (p.1 = id) as Hid by (eapply (ci_request s Hi); [done | done | by rewrite Hq | done]). rewrite Hid in *.
      assert (t' = t) as -> by congruence. done.
    + unfold transaction in Hr. destruct (work s) as [[[m0 t0] s1] | e] eqn:Hw; [by destruct (Hfresh _ _ eq_refl id t Ht) |].
      destruct (String.eqb e _); [| done]. injection Hr as Hr _. unfold _convergeToCommittedOutcome in Hr. apply bind_Ok in Hr as (p & Hp & Hr).
      apply of_option_Ok, request_find in Hp as [Hp Hpr]. apply replay_Ok in Hr as (Hm & -> & -> & ->).
      assert (p.1 = id) as Hid by (by eapply (ci_request s Hi)). rewrite Hid in *. assert (p.2 = t) as <- by congruence. by split_and!.
Qed.

Definition body_kind (body : money_body) : ticket_kind :=
  match body with SendBody _ _ | OtherBody => MONEY_SEND | RequestBody _ _ => MONEY_REQUEST | EscrowBody _ _ _ => ESCROW_TICKET end.
Definition body_amount (body : money_body) : jsval :=
  match body with SendBody a _ | RequestBody a _ | EscrowBody a _ _ => a | OtherBody => VUndefined end.

(** The answer [c] is the ticket [id], for the same request. *)
Definition answered (user : Z) (conv : conversation) (body : money_body) (id : string) (t : ticket_row) (c : chat_result) : Prop :=
  cr_ticketId c = id /\ cr_replay c = true /\ tk_requesterId t = user /\ tk_conversationId t = cv_id conv /\ tk_kind t = body_kind body /\
  parsePositiveAmount (body_amount body) = Ok (tk_amount t) /\ rtc ticket_later (cr_ticket c) t.

(** C9: a client request has one effect.  Once a ticket carries a request
    identity, every later creation with that identity, of any kind, from any
    user, decided on any earlier database, leaves the database unchanged; and
    if it answers at all, it answers with that ticket, as a replay, and only
    to the same user, in the same conversation, for the same kind and amount. *)
Theorem request_once s0 s user conv body currency raw req m newId r s' id t :
  cinv s0 -> steps s0 s -> body_wf body -> tickets s !! id = Some t -> tk_clientRequestId t = Some req -> normalizeClientRequestId raw = Ok req ->
  sendMoney sha256 user conv body currency raw m newId s0 s = (r, s') -> s' = s /\ forall c, r = Ok c -> answered user conv body id t c.
Proof.
  intros Hi0 Hst Hbw Ht Hreq Hnorm Hr. pose proof (proj1 (steps_chat _ _ _ _ Hi0 Hst)) as Hi.
  assert (Hend : forall cp asset a work, parsePositiveAmount (body_amount body) = Ok a ->
    (forall x s1, work s = Ok (x, s1) -> forall j t, tickets s !! j = Some t -> tk_clientRequestId t <> Some req) ->
    keyed req (same_request (body_kind body) (cv_id conv) user cp asset a) newId work s0 s = (r, s') -> s' = s /\ forall c, r = Ok c -> answered user conv body id t c).
  { intros cp asset a work Ha Hfresh Hk. destruct (keyed_taken _ _ _ _ _ _ _ _ _ _ Hi0 Hi Hst Hfresh Ht Hreq Hk) as [-> Hc]. split; [done |].
    intros c Hok. destruct (Hc c Hok) as (E1 & E2 & Hm & Hl). destruct (laters_facts _ _ Hl) as (_ & L2 & L3 & L4 & L5 & _).
    pose proof (tt_amount _ (ci_terms s Hi id t Ht)) as Hpos. assert (Ha0 : 0 < a) by (eapply parse_positive; [| exact Ha]; by destruct body).
    apply same_request_amount in Hm as (M1 & M2 & M3 & M4 & M5); [| lia | lia]. unfold answered. rewrite Ha. split_and!; try congruence. }
  assert (Hnone : forall e, (Err e, s) = (r, s') -> s' = s /\ forall c, r = Ok c -> answered user conv body id t c) by (by intros e [= <- <-]).
  unfold sendMoney in Hr. destruct (normalizeAsset currency) as [asset |]; [| by eapply Hnone].
  assert (Htick : forall a cp ty, parsePositiveAmount (body_amount body) = Ok a ->
    _createTicketedMessage conv user (body_kind body) a asset raw cp ty m newId s0 s = (r, s') -> s' = s /\ forall c, r = Ok c -> answered user conv body id t c).
  { intros a cp ty Ha Htk. unfold _createTicketedMessage in Htk. rewrite Hnorm in Htk. eapply Hend; [exact Ha | | exact Htk].
    intros x s1 Hw. by eapply ticketed_fresh. }
  destruct body as [a rid | a f | a i c |]; [| | | by eapply Hnone].
  - unfold _sendMoney in Hr. destruct (send_args user a rid raw) as [[[amt rcv] k] |] eqn:Ha; [| by eapply Hnone].
    unfold send_args in Ha. res_inv Ha. assert (k = req) as -> by congruence. eapply Hend; [done | | exact Hr]. intros x s1 Hw. by eapply send_fresh.
  - unfold _createMoneyRequest in Hr. destruct (other ← _; _) as [[other amt] |] eqn:Ha; [| by eapply Hnone]. res_inv Ha. by eapply Htick.
  - unfold _createEscrowTicket in Hr. destruct (other ← _; _) as [[other amt] |] eqn:Ha; [| by eapply Hnone]. res_inv Ha. by eapply Htick.
Qed.

(** ** Exact payments *)

Lemma action_paid kind from to actor conv mid m P work s c s' :
  action work s = (Ok c, s') -> cr_replay c = false -> (forall r, work s = Ok (r, s') -> ticket_action kind from to actor conv mid m P s r s') ->
  exists t, tickets s !! cr_ticketId c = Some t /\ tk_messageId t = mid /\ tk_conversationId t = conv /\ tk_kind t = kind /\ tk_status t = from /\ actor t /\
    tickets s' !! cr_ticketId c = Some (cr_ticket c) /\ tk_status (cr_ticket c) = to /\ P t (wallet s) (wallet s').
Proof.
  intros Hr Hrep Hact. unfold action, transaction in Hr. destruct (work s) as [[x s1] | e] eqn:Hw; [| done].
  destruct x as [id | [[id msg] t0]].
  - injection Hr as Hr _. unfold _outcomeMessage in Hr. destruct (_ ← tickets s1 !! id; _) as [[t row] |]; [| done]. by injection Hr as <-.
  - injection Hr as <- <-. destruct (Hact _ eq_refl) as (i & t & Ht & Hm & Hcv & Hk & [(_ & ? & _) | (Hst & Ha & Htk & HP & _ & msg' & [= -> -> ->])]); [done |].
    exists t. simpl. split_and!; try done. by rewrite Htk, lookup_insert_eq.
Qed.

(** Money leaves a conversation ticket exactly once and to the penny.
    Accepting a request, which only its counterparty can do, takes exactly the
    amount from the payer and gives it to the requester; releasing a funded
    escrow ticket, which only its creator can do, gives exactly the amount to
    the counterparty; no other available balance changes, and the ticket is in
    its final status in the same transaction. *)
Theorem chat_settles_exactly s user conv mid m c s' : cinv s -> cr_replay c = false ->
  (acceptMoney sha256 user conv mid m s = (Ok c, s') ->
     exists t, tickets s !! cr_ticketId c = Some t /\ tk_messageId t = mid /\ tk_conversationId t = conv /\ tk_status t = SENT /\ tk_counterpartyId t = user /\
       tickets s' !! cr_ticketId c = Some (cr_ticket c) /\ tk_status (cr_ticket c) = ACCEPTED /\
       forall u, avail u (wallet s') = avail u (wallet s) + (if u =? tk_requesterId t then tk_amount t else 0) - (if u =? user then tk_amount t else 0)) /\
  (releaseTicket sha256 user conv mid m s = (Ok c, s') ->
     exists t, tickets s !! cr_ticketId c = Some t /\ tk_messageId t = mid /\ tk_conversationId t = conv /\ tk_status t = ESCROW_FUNDED /\ tk_requesterId t = user /\
       tickets s' !! cr_ticketId c = Some (cr_ticket c) /\ tk_status (cr_ticket c) = ESCROW_RELEASED /\
       forall u, avail u (wallet s') = avail u (wallet s) + (if u =? tk_counterpartyId t then tk_amount t else 0)).
Proof.
  intros Hi Hrep. assert (Hpos : forall id t, tickets s !! id = Some t -> 0 < tk_amount t) by (intros id t Ht; apply (ci_terms s Hi id t Ht)).
  split; intros Hr.
  - destruct (action_paid _ _ _ _ _ _ _ _ _ _ _ _ Hr Hrep (fun r => accept_Ok _ _ _ _ _ _ r _ Hpos)) as (t & Ht & Hm & Hcv & _ & Hst & Ha & Ht' & Hst' & HP).
    exists t. split_and!; try done. intros u. rewrite (moves_avail _ _ _ u (we_users _ _ _ _ _ _ _ HP)), Ha. unfold delta_of. rewrite !sumZ_cons, sumZ_nil. simpl.
    rewrite (Z.eqb_sym user u), (Z.eqb_sym (tk_requesterId t) u). destruct (u =? user), (u =? tk_requesterId t); lia.
  - destruct (action_paid _ _ _ _ _ _ _ _ _ _ _ _ Hr Hrep (fun r => release_Ok _ _ _ _ _ _ r _ Hpos)) as (t & Ht & Hm & Hcv & _ & Hst & Ha & Ht' & Hst' & HP).
    exists t. split_and!; try done. intros u. rewrite (moves_avail _ _ _ u (we_users _ _ _ _ _ _ _ HP)). unfold delta_of. rewrite !sumZ_cons, sumZ_nil. simpl.
    rewrite (Z.eqb_sym (tk_counterpartyId t) u). destruct (u =? tk_counterpartyId t); lia.
Qed.

(** ** The pre-flight audit after a chat escrow *)

(** Funding a chat escrow ticket shuts its funder out of smart escrow: the
    history row is written as PENDING and never completed, while the balance
    is debited, so the audit that runs before every escrow funding, if it
    passed before, reports an inconsistency afterwards, for every ticket of at
    least 3e-6 USDC and every balance within the exact range of doubles; and
    every funding of a smart escrow by that user is refused. *)
Theorem chat_funding_blocks_escrow s user conv mid m c s' row : cinv s ->
  runDoubleCheck user (wallet s) = Ok tt -> users (wallet s) !! user = Some row -> availableBalance row <= SAFE_UNITS ->
  fundTicket sha256 user conv mid m s = (Ok c, s') -> cr_replay c = false -> 300 <= tk_amount (cr_ticket c) ->
  runDoubleCheck user (wallet s') = Err "[DoubleCheck] LEDGER INCONSISTENCY DETECTED" /\
  forall id now ref op w, exists e, fundEscrow sha256 wire id user now ref op (wallet s') w = (Err e, w).
Proof.
  intros Hi Hck Hrow Hsafe Hr Hrep Hamt. assert (Hpos : forall id t, tickets s !! id = Some t -> 0 < tk_amount t) by (intros id t Ht; apply (ci_terms s Hi id t Ht)).
  pose proof Hr as Hr'. destruct (action_paid _ _ _ _ _ _ _ _ _ _ _ _ Hr Hrep (fun r => fund_Ok _ _ _ _ _ _ r _ Hpos)) as (t & Ht & Hm & Hcv & _ & Hst & Ha & Ht' & Hst' & HP).
  assert (Heq : tk_amount (cr_ticket c) = tk_amount t).
  { assert (Hs : cstep sha256 wire s s') by (by eapply cs_fund). destruct (step_tickets _ _ _ _ Hi Hs Ht) as (t2 & Ht2 & Hl).
    rewrite Ht' in Ht2. injection Ht2 as ->. apply (kl_amount _ _ Hl). }
  rewrite Heq in Hamt. rewrite Ha in HP. destruct HP as [Hmv Hh _ _ _ _].
  apply moves_one_inv in Hmv as (r0 & Hu0 & Hok & Hus). assert (r0 = row) as -> by congruence.
  assert (Hcheck : runDoubleCheck user (wallet s') = Err "[DoubleCheck] LEDGER INCONSISTENCY DETECTED").
  { unfold runDoubleCheck in *. rewrite Hus, lookup_insert_eq. rewrite Hrow in Hck. apply throw_if_Ok in Hck.
    rewrite Hh, filter_app'. simpl. rewrite Z.eqb_refl. simpl. rewrite app_nil_r. unfold throw_if. cbn [apply_delta availableBalance da].
    change (availableBalance row + - tk_amount t) with (availableBalance row - tk_amount t).
    assert (Hge : 0 <= availableBalance row - tk_amount t).
    { unfold user_ok, column_ok in Hok. cbn [apply_delta availableBalance da] in Hok. repeat (apply andb_true_iff in Hok as [Hok ?]). apply Z.leb_le in Hok. lia. }
    rewrite audit_gap; [done | lia | lia | exact Hck]. }
  split; [exact Hcheck | by apply audit_refuses].
Qed.
End Theorems.

(** ** A concrete conversation

    Users 1 and 2 hold 100 and 5 USDC.  User 2 asks for 10, which user 1 pays;
    user 1 opens two escrow tickets of 25 and funds both; the first is
    released and the second disputed. *)
Definition talk : conversation := Conversation "c1" "PERSONAL" [1; 2].
Definition talk_open : cdb := CDB run_open ∅ ∅ ∅.
#[local] Abbreviation say u body key m id s := (@sendMoney Decimal20 run_sha u talk body None (Some key) m id s s).2.
Definition talk_asked : cdb := say 2 (RequestBody (VNum (Num.Fin 10)) None) "k1"%string "m1"%string "t1"%string talk_open.
Definition talk_paid : cdb := (@acceptMoney Decimal20 run_sha 1 "c1" "m1" "o1" talk_asked).2.
Definition talk_first : cdb := say 1 (EscrowBody (VStr "25.5") (Some "Phone"%string) (Some (Some 2))) "k2"%string "m2"%string "t2"%string talk_paid.
Definition talk_tickets : cdb := say 1 (EscrowBody (VStr "20") (Some "Case"%string) None) "k3"%string "m3"%string "t3"%string talk_first.
Definition talk_fund1 : cdb := (@fundTicket Decimal20 run_sha 1 "c1" "m2" "o2" talk_tickets).2.
Definition talk_fund2 : cdb := (@fundTicket Decimal20 run_sha 1 "c1" "m3" "o3" talk_fund1).2.
Definition talk_released : cdb := (@releaseTicket Decimal20 run_sha 1 "c1" "m2" "o4" talk_fund2).2.
Definition talk_disputed : cdb := (@disputeTicket 2 "c1" "m3" "o5" talk_released).2.

Example talk_run :
  (tk_status <$> tickets talk_disputed !! "t1"%string, tk_status <$> tickets talk_disputed !! "t2"%string,
   tk_status <$> tickets talk_disputed !! "t3"%string, avail 1 (wallet talk_disputed), avail 2 (wallet talk_disputed), chat_held talk_disputed) =
  (Some ACCEPTED, Some ESCROW_RELEASED, Some ESCROW_DISPUTED, 4450000000, 4050000000, 2000000000).
Proof. vm_compute. reflexivity. Qed.

#[local] Abbreviation talk_step := (@cstep Decimal20 ToFixedColumn run_sha run_wire).

Lemma talk_open_cinv : cinv talk_open.
Proof. split; [apply run_open_einv | ..]; intros *; unfold posted_key; cbn; rewrite ?lookup_empty; (done || by intros []). Qed.

Lemma talk_say_step u body key m id s : 0 <= u -> body_wf body -> talk_step s (say u body key m id s).
Proof.
  intros Hu Hb. eapply (cs_send _ _ _ _ u talk body None (Some key) m id s); [done | | done | apply surjective_pairing].
  repeat constructor; lia.
Qed.

Lemma talk_reach_tickets : rtc talk_step talk_open talk_tickets.
Proof.
  apply (rtc_l _ _ talk_asked); [by apply talk_say_step |]. apply (rtc_l _ _ talk_paid); [eapply cs_accept, surjective_pairing |].
  apply (rtc_l _ _ talk_first); [by apply talk_say_step |]. apply rtc_once. by apply talk_say_step.
Qed.
Lemma talk_reach_funded : rtc talk_step talk_open talk_fund2.
Proof. apply (rtc_r _ talk_fund1); [apply (rtc_r _ talk_tickets); [apply talk_reach_tickets |] |]; eapply cs_fund, surjective_pairing. Qed.
Lemma talk_reach_disputed : rtc talk_step talk_open talk_disputed.
Proof.
  apply (rtc_r _ talk_released); [| eapply cs_dispute, surjective_pairing].
  apply (rtc_r _ talk_fund2); [apply talk_reach_funded | eapply cs_release, surjective_pairing].
Qed.

Lemma talk_cinv s : rtc talk_step talk_open s -> cinv s.
Proof. intros Hr. exact (proj1 (steps_chat _ _ _ _ talk_open_cinv Hr)). Qed.

Lemma chat_books_kept_witness :
  total_value (wallet talk_disputed) = 8500000000 /\ held_under "m3" talk_disputed = 2000000000 /\
  net (chat_code "m3") (ledger (wallet talk_open)) - net (chat_code "m3") (ledger (wallet talk_disputed)) = 2000000000.
Proof.
  destruct (@chat_books_kept Decimal20 ToFixedColumn run_sha run_wire talk_open talk_disputed talk_open_cinv talk_reach_disputed) as (Hv & _ & Hm & _).
  assert (H1 : chat_held talk_disputed = 2000000000) by (vm_compute; reflexivity).
  assert (H2 : total_value (wallet talk_open) + chat_held talk_open = 10500000000) by (vm_compute; reflexivity).
  assert (H3 : held_under "m3" talk_disputed - held_under "m3" talk_open = 2000000000) by (vm_compute; reflexivity).
  split; [lia |]. split; [vm_compute; reflexivity |]. rewrite <- (Hm "m3"%string). exact H3.
Defined.

Lemma ticket_lifecycle_witness : exists t t', tickets talk_fund2 !! "t3"%string = Some t /\ tickets talk_disputed !! "t3"%string = Some t' /\
  tk_amount t' = tk_amount t /\ tk_clientRequestId t' = Some "k3"%string.
Proof.
  assert (Ht : exists t, tickets talk_fund2 !! "t3"%string = Some t /\ tk_clientRequestId t = Some "k3"%string)
    by (eexists; split; vm_compute; reflexivity).
  destruct Ht as (t & Ht & Hk).
  assert (Hr : rtc talk_step talk_fund2 talk_disputed)
    by (apply (rtc_l _ _ talk_released); [eapply cs_release, surjective_pairing | eapply rtc_once, cs_dispute, surjective_pairing]).
  destruct (@ticket_lifecycle Decimal20 ToFixedColumn run_sha run_wire talk_fund2 talk_disputed "t3" t (talk_cinv _ talk_reach_funded) Hr Ht)
    as (t' & Ht' & _ & _ & _ & Ha & _ & _ & Hq & _).
  exists t, t'. split; [exact Ht |]. split; [exact Ht' |]. split; [exact Ha |]. rewrite Hq. exact Hk.
Defined.

Lemma disputed_ticket_stranded_witness : exists t, tickets talk_disputed !! "t3"%string = Some t /\ ticket_held (ledger (wallet talk_disputed)) t = 2000000000.
Proof.
  assert (Ht : exists t, tickets talk_disputed !! "t3"%string = Some t /\ tk_status t = ESCROW_DISPUTED /\ tk_messageId t = "m3"%string /\ tk_amount t = 2000000000)
    by (eexists; split; [vm_compute; reflexivity |]; split_and!; reflexivity).
  destruct Ht as (t & Ht & Hst & Hm & Ha).
  assert (Hp : posted_key (chat_fund_key (tk_messageId t)) talk_disputed) by (rewrite Hm; apply (bool_decide_unpack _); vm_compute; exact I).
  destruct (@disputed_ticket_stranded Decimal20 ToFixedColumn run_sha run_wire talk_disputed talk_disputed "t3" t (talk_cinv _ talk_reach_disputed)
    (rtc_refl _ _) Ht Hst Hp) as (t' & Ht' & _ & Hh). exists t'. split; [exact Ht' |]. rewrite Hh. exact Ha.
Defined.

(** A retry of the first request, by its author and by another user. *)
Definition talk_retry (u : Z) : res chat_result * cdb :=
  @sendMoney Decimal20 run_sha u talk (RequestBody (VNum (Num.Fin 10)) None) None (Some "k1"%string) "m9" "t9" talk_open talk_disputed.

Lemma request_once_witness :
  (talk_retry 2).2 = talk_disputed /\ (talk_retry 1).2 = talk_disputed /\ exists c, (talk_retry 2).1 = Ok c /\ cr_ticketId c = "t1"%string.
Proof.
  assert (Ht : exists t, tickets talk_disputed !! "t1"%string = Some t /\ tk_clientRequestId t = Some "k1"%string)
    by (eexists; split; vm_compute; reflexivity).
  destruct Ht as (t & Ht & Hk).
  assert (Hone : forall u, (talk_retry u).2 = talk_disputed /\
    forall c, (talk_retry u).1 = Ok c -> answered u talk (RequestBody (VNum (Num.Fin 10)) None) "t1" t c)
    by (intros u; exact (@request_once Decimal20 ToFixedColumn run_sha run_wire talk_open talk_disputed u talk (RequestBody (VNum (Num.Fin 10)) None) None
      (Some "k1"%string) "k1" "m9" "t9" (talk_retry u).1 (talk_retry u).2 "t1" t talk_open_cinv talk_reach_disputed I Ht Hk eq_refl
      (surjective_pairing (talk_retry u)))).
  split; [exact (proj1 (Hone 2)) |]. split; [exact (proj1 (Hone 1)) |].
  assert (Hc : exists c, (talk_retry 2).1 = Ok c) by (eexists; vm_compute; reflexivity). destruct Hc as (c & Hc). exists c. split; [exact Hc |].
  destruct (proj2 (Hone 2) c Hc) as [Hid _]. exact Hid.
Defined.

Lemma chat_settles_exactly_witness : avail 2 (wallet talk_released) = avail 2 (wallet talk_fund2) + 2550000000.
Proof.
  assert (Hr : exists c, @releaseTicket Decimal20 run_sha 1 "c1" "m2" "o4" talk_fund2 = (Ok c, talk_released) /\ cr_replay c = false /\ cr_ticketId c = "t2"%string)
    by (eexists; split; [vm_compute; reflexivity |]; split; reflexivity).
  destruct Hr as (c & Hr & Hrep & Hid).
  destruct (proj2 (@chat_settles_exactly Decimal20 run_sha talk_fund2 1 "c1" "m2" "o4" c talk_released (talk_cinv _ talk_reach_funded) Hrep) Hr)
    as (t & Ht & _ & _ & _ & _ & _ & _ & Hav).
  rewrite Hid in Ht. assert (Hx : (fun t => (tk_counterpartyId t, tk_amount t)) <$> tickets talk_fund2 !! "t2"%string = Some (2, 2550000000))
    by (vm_compute; reflexivity).
  rewrite Ht in Hx. injection Hx as Hcp Ha. rewrite Hav, Hcp, Ha. reflexivity.
Defined.

Lemma chat_funding_blocks_escrow_witness : runDoubleCheck 1 (wallet talk_tickets) = Ok tt /\
  runDoubleCheck 1 (wallet talk_fund1) = Err "[DoubleCheck] LEDGER INCONSISTENCY DETECTED"%string.
Proof.
  assert (Hr : exists c, @fundTicket Decimal20 run_sha 1 "c1" "m2" "o2" talk_tickets = (Ok c, talk_fund1) /\ cr_replay c = false /\ 300 <= tk_amount (cr_ticket c))
    by (eexists; split; [vm_compute; reflexivity |]; split; [reflexivity | vm_compute; discriminate]).
  destruct Hr as (c & Hr & Hrep & Ha).
  assert (Hu : exists row, users (wallet talk_tickets) !! 1 = Some row /\ availableBalance row <= SAFE_UNITS)
    by (eexists; split; [vm_compute; reflexivity | vm_compute; discriminate]).
  destruct Hu as (row & Hu & Hs).
  assert (Hck : runDoubleCheck 1 (wallet talk_tickets) = Ok tt) by (vm_compute; reflexivity). split; [exact Hck |].
  exact (proj1 (@chat_funding_blocks_escrow Decimal20 ToFixedColumn run_sha run_wire talk_tickets 1 "c1" "m2" "o2" c talk_fund1 row
    (talk_cinv _ talk_reach_tickets) Hck Hu Hs Hr Hrep Ha)).
Defined.
