(* ===== verification/Expiry.v ===== *)
(** * Expiry workers (workers/escrowExpiryWorker.js,
    workers/transitBookingExpiryWorker.js)

    State: the transit database, the workspace tickets of the escrows, the
    system messages posted to them and the expiry warnings ([xdb]).
    Operations: the three sweeps of the escrow worker and its tick, and the
    tick of the transit worker.

    A sweep scans a table and then treats the rows one by one, each in its own
    transaction and its own [try]; the scan comes from an argument [before], so
    a row may have changed when its turn comes.  [updatedAt], which the
    database client maintains, and the references of the refunds are
    arguments. *)

From stdpp Require Import base gmap strings list.
From Stdlib Require Import ZArith QArith Lia Ascii.
From S2P Require Import Prelude JsNumber ExactDecimal Json Ledger Idempotency Escrow Booking Reservation Transit.

Local Open Scope Z_scope.

(** ** Rows *)

Inductive workspace_status : Type := WS_OPEN | WS_CLOSED | WS_CANCELLED.
#[export] Instance workspace_status_eq_dec : EqDecision workspace_status.
Proof. solve_decision. Defined.

Record workspace_row : Type := WorkspaceRow {
  wk_creatorId : Z;
  wk_counterpartyId : Z;
  wk_status : workspace_status;
  wk_cancelledAt : option Z;
  wk_lastActivityAt : Z;
}.

(** A SYSTEM message: its sender and the metadata it carries. *)
Record notice : Type := Notice { nt_ticketId : string; nt_senderId : Z; nt_event : string; nt_escrowId : string }.

Record xdb : Type := XDB {
  plat : tdb;
  workspaces : gmap string workspace_row;
  notices : list notice;
  warnings : gmap string Z;
}.

Definition set_plat (t : tdb) (s : xdb) : xdb := XDB t (workspaces s) (notices s) (warnings s).
Definition set_workspaces (m : gmap string workspace_row) (s : xdb) : xdb := XDB (plat s) m (notices s) (warnings s).
Definition add_notice (n : notice) (s : xdb) : xdb := XDB (plat s) (workspaces s) (notices s ++ [n]) (warnings s).
Definition set_warnings (m : gmap string Z) (s : xdb) : xdb := XDB (plat s) (workspaces s) (notices s) m.

Definition escrows_of (s : xdb) : gmap string escrow_row := escrows (core (base (plat s))).

Definition on_plat {A} (m : M tdb A) : M xdb A := fun s =>
  match m (plat s) with Ok (a, t) => Ok (a, set_plat t s) | Err e => Err e end.

Definition cancelled_workspace (now : Z) (w : workspace_row) : workspace_row :=
  WorkspaceRow (wk_creatorId w) (wk_counterpartyId w) WS_CANCELLED (Some now) now.

(** [ticket.update] to CANCELLED. *)
Definition workspace_cancel (id : string) (now : Z) : M xdb unit :=
  s ← get;
  match workspaces s !! id with
  | Some w => put (set_workspaces (<[id := cancelled_workspace now w]> (workspaces s)) s)
  | None => throw "P2025"
  end.

(** [_injectSystem]: the message table refuses a ticket that does not exist, and
    the error is swallowed. *)
Definition _injectSystem (ticketId : string) (ticket : workspace_row) (event escrowId : string) (s : xdb) : xdb :=
  match workspaces s !! ticketId with
  | Some _ => add_notice (Notice ticketId (wk_creatorId ticket) event escrowId) s
  | None => s
  end.

(** ** The escrow worker *)

Definition WARN_BEFORE_DAYS : Z := 5.

(** A scanned escrow with its ticket. *)
Definition scanned : Type := string * escrow_row * option workspace_row.
Definition expired_in (st : escrow_status) (now : Z) (s : xdb) : list scanned :=
  map (fun p => (p.1, p.2, workspaces s !! es_ticketId p.2))
    (List.filter (fun p => in_status [st] p.2 && (es_expiresAt p.2 <? now)) (map_to_list (escrows_of s))).

Definition expire_draft_tx (now : Z) (p : scanned) : M xdb bool :=
  let '(id, escrow, ticket) := p in
  count ← on_plat (on_escrow (escrow_updateMany id (fun e => in_status [DRAFT] e && (es_expiresAt e <? now)) (with_status EXPIRED)));
  if (count =? 0)%nat then mret false
  else
    match ticket with
    | Some w => if bool_decide (wk_status w = WS_CANCELLED) then mret true else workspace_cancel (es_ticketId escrow) now;; mret true
    | None => mret true
    end.

Definition expire_draft (now : Z) (p : scanned) (s : xdb) : xdb :=
  let '(id, escrow, ticket) := p in
  match transaction (expire_draft_tx now p) s with
  | (Ok true, s') => match ticket with Some w => _injectSystem (es_ticketId escrow) w "ESCROW_EXPIRED_UNFUNDED" id s' | None => s' end
  | (_, s') => s'
  end.

Definition _expireUnfunded (now : Z) (before s : xdb) : xdb :=
  fold_left (fun s p => expire_draft now p s) (expired_in DRAFT now before) s.

Definition warn_due (now : Z) (updatedAt : string -> Z) (s : xdb) (p : string * escrow_row) : bool :=
  in_status [FUNDED] p.2 && match warnings s !! p.1 with None => true | Some _ => false end &&
  (es_expiresAt p.2 <? now + WARN_BEFORE_DAYS * DAY_MS) && (now <? es_expiresAt p.2) && (updatedAt p.1 <? now - WARN_BEFORE_DAYS * DAY_MS).

Definition warn_escrow (now : Z) (id : string) (s : xdb) : xdb :=
  match escrows_of s !! id with Some _ => set_warnings (<[id := now]> (warnings s)) s | None => s end.

Definition _warnInactiveFunded (now : Z) (updatedAt : string -> Z) (before s : xdb) : xdb :=
  fold_left (fun s p => warn_escrow now p.1 s) (List.filter (warn_due now updatedAt before) (map_to_list (escrows_of before))) s.

Section Workers.
Context `{DecimalLib} `{PrismaNumber} (sha256 : string -> string).

Definition expire_funded (now : Z) (reference : string) (p : scanned) (s : xdb) : xdb :=
  let '(id, escrow, ticket) := p in
  match transaction (on_plat (on_escrow (_refundEscrow sha256 id EXPIRED now reference))) s with
  | (Ok _, s1) =>
      match ticket with
      | Some w =>
          if bool_decide (wk_status w = WS_OPEN) then
            match transaction (workspace_cancel (es_ticketId escrow) now) s1 with
            | (Ok _, s2) => _injectSystem (es_ticketId escrow) w "ESCROW_EXPIRED_FUNDED" id s2
            | (Err _, s2) => s2
            end
          else _injectSystem (es_ticketId escrow) w "ESCROW_EXPIRED_FUNDED" id s1
      | None => s1
      end
  | (Err _, s1) => s1
  end.

Definition _expireInactiveFunded (now : Z) (reference : string -> string) (before s : xdb) : xdb :=
  fold_left (fun s p => expire_funded now (reference p.1.1) p s) (expired_in FUNDED now before) s.

(** [_tick], skipped while another one runs. *)
Definition _tick (running : bool) (now : Z) (updatedAt : string -> Z) (reference : string -> string) (s : xdb) : xdb :=
  if running then s
  else
    let s1 := _expireUnfunded now s s in
    let s2 := _warnInactiveFunded now updatedAt s1 s1 in
    _expireInactiveFunded now reference s2 s2.

(** ** The transit worker *)

Definition PENDING_TIMEOUT_MS : Z := 15 * 60 * 1000.

Definition stale_bookings (now : Z) (s : xdb) : list (string * transit_row) :=
  List.filter (fun p => transit_in [T_PENDING] p.2 && (tb_createdAt p.2 <? now - PENDING_TIMEOUT_MS)) (map_to_list (transits (base (plat s)))).

(** The canonical cancellation, by the customer; [read] is what its own checks
    read. *)
Definition expire_booking (now : Z) (reference : string) (booking : string * transit_row) (read : tdb) (s : xdb) : xdb :=
  set_plat (cancelTransitBooking sha256 booking.1 (tb_customerId booking.2) now reference read (plat s)).2 s.

Definition transit_tick (running : bool) (now : Z) (reference : string -> string) (before s : xdb) : xdb :=
  if running then s
  else fold_left (fun s b => expire_booking now (reference b.1) b (plat s) s) (stale_bookings now before) s.
End Workers.
