(* ===== verification/ExpiryTheorems.v ===== *)
(** * Theorems on the expiry workers

    The workers interleaved with the transit services ([xstep]); that they do
    nothing the platform would not do; the race of expiry with funding; what an
    uninterrupted sweep leaves; and two stale scans that override what happened
    since. *)

From stdpp Require Import base gmap strings list relations.
From Stdlib Require Import ZArith QArith Lia Ascii.
From S2P Require Import Prelude JsNumber ExactDecimal Json Ledger LedgerFacts LedgerHash LedgerProps Idempotency Escrow EscrowFacts EscrowProps EscrowTheorems Booking BookingFacts Reservation BookingProps BookingTheorems Transit Penalty TransitProps TransitTheorems Expiry.

Local Open Scope Z_scope.

(** The database with a draft expired. *)
Definition draft_expired (id : string) (e : escrow_row) (t : tdb) : tdb :=
  let c := core (base t) in set_base (set_core (set_escrows (<[id := with_status EXPIRED e]> (escrows c)) c) (base t)) t.

(** The draft [id] is past its expiry. *)
Definition overdue_draft (now : Z) (e : escrow_row) : bool := in_status [DRAFT] e && (es_expiresAt e <? now).

Lemma plat_same s : set_plat (plat s) s = s.
Proof. by destruct s. Qed.

Lemma update_none id cond f t : (forall e, escrows (core (base t)) !! id = Some e -> cond e = false) ->
  on_escrow (escrow_updateMany id cond f) t = Ok (0%nat, t).
Proof.
  intros Hn. unfold on_escrow, on_base, on_core, escrow_updateMany, mbind, M_bind, get, mret, M_ret. cbv beta iota. destruct (escrows (core (base t)) !! id) as [e |] eqn:He;
    [rewrite (Hn e eq_refl) |]; cbv beta iota; by rewrite core_same, base_same.
Qed.

Lemma update_row id cond f t e : escrows (core (base t)) !! id = Some e -> cond e = true ->
  on_escrow (escrow_updateMany id cond f) t =
  Ok (1%nat, let c := core (base t) in set_base (set_core (set_escrows (<[id := f e]> (escrows c)) c) (base t)) t).
Proof. intros He Hc. unfold on_escrow, on_base, on_core, escrow_updateMany, mbind, M_bind, get, mret, M_ret. cbv beta iota. by rewrite He, Hc. Qed.

Lemma workspace_cancel_run id now s : workspace_cancel id now s =
  match workspaces s !! id with
  | Some w => Ok (tt, set_workspaces (<[id := cancelled_workspace now w]> (workspaces s)) s)
  | None => Err "P2025"%string
  end.
Proof. unfold workspace_cancel, mbind, M_bind, get. cbv beta iota. by destruct (workspaces s !! id). Qed.

(** What the expiry of a draft does, on every branch. *)
Lemma expire_draft_none now id e0 w s : (forall e, escrows_of s !! id = Some e -> overdue_draft now e = false) -> expire_draft now (id, e0, w) s = s.
Proof.
  intros Hn. unfold expire_draft, transaction, expire_draft_tx, on_plat, mbind, M_bind. cbv beta iota. rewrite update_none by exact Hn. cbn. by rewrite plat_same.
Qed.

Lemma expire_draft_row now id e0 w e s : escrows_of s !! id = Some e -> overdue_draft now e = true ->
  expire_draft now (id, e0, w) s = s \/
  plat (expire_draft now (id, e0, w) s) = draft_expired id e (plat s) /\ warnings (expire_draft now (id, e0, w) s) = warnings s /\
    (workspaces (expire_draft now (id, e0, w) s) = workspaces s \/
     exists r, workspaces s !! es_ticketId e0 = Some r /\
       workspaces (expire_draft now (id, e0, w) s) = <[es_ticketId e0 := cancelled_workspace now r]> (workspaces s)).
Proof.
  intros He Ho. unfold expire_draft, transaction, expire_draft_tx, on_plat, mbind, M_bind. cbv beta iota. rewrite (update_row _ _ _ _ e) by done. cbn [Nat.eqb].
  change (let c := core (base (plat s)) in _) with (draft_expired id e (plat s)). destruct w as [r |]; [| by right; split_and!; [.. | left]].
  destruct (bool_decide (wk_status r = WS_CANCELLED)).
  - right. cbn. unfold _injectSystem. cbn. destruct (workspaces s !! es_ticketId e0); split_and!; auto.
  - rewrite workspace_cancel_run. cbn [workspaces set_plat]. destruct (workspaces s !! es_ticketId e0) as [r' |] eqn:Hw; [| by left]. right.
    unfold mret, M_ret, _injectSystem. cbn [workspaces set_workspaces]. rewrite lookup_insert_eq. split_and!; [done.. |]. right. by exists r'.
Qed.

Section Theorems.
Context `{DecimalLib} `{PrismaNumber} (sha256 : string -> string) (wire : escrow_row -> string) (wireT : string -> transit_row -> list string -> Q -> string).

#[local] Abbreviation tsteps := (rtc (tstep sha256 wire wireT)).

(** The workers' treatment of single rows, scanned on whatever database [s0],
    between the steps of the transit services.  Other services write the
    workspaces. *)
Inductive xstep (s : xdb) : xdb -> Prop :=
| xs_transit t : tstep sha256 wire wireT (plat s) t -> xstep s (set_plat t s)
| xs_workspaces m : xstep s (set_workspaces m s)
| xs_draft now p s0 : In p (expired_in DRAFT now s0) -> xstep s (expire_draft now p s)
| xs_warn now id : xstep s (warn_escrow now id s)
| xs_funded now ref p s0 : In p (expired_in FUNDED now s0) -> xstep s (expire_funded sha256 now ref p s)
| xs_booking now ref b s0 : In b (stale_bookings now s0) -> xstep s (expire_booking sha256 now ref b (plat s) s).

Lemma tmove_refl s : tmove s s.
Proof. by apply (move_rows s s); try done; apply rows_same. Qed.

Lemma draft_step id e t : escrows (core (base t)) !! id = Some e -> in_status [DRAFT] e = true -> tstep sha256 wire wireT t (draft_expired id e t).
Proof.
  intros He Hd. unfold draft_expired. apply ts_platform; [| done]. eapply (bs_expire_draft _ _ id 1%nat).
  unfold escrow_updateMany, mbind, M_bind, get. cbv beta iota. by rewrite He, Hd.
Qed.

(** The refund of a funded escrow: nothing, or the canonical refund. *)
Lemma expire_funded_cases now ref id e0 w s :
  expire_funded sha256 now ref (id, e0, w) s = s \/
  exists r c, _refundEscrow sha256 id EXPIRED now ref (core (base (plat s))) = Ok (r, c) /\
    plat (expire_funded sha256 now ref (id, e0, w) s) = set_base (set_core c (base (plat s))) (plat s).
Proof.
  unfold expire_funded, transaction, on_plat, on_escrow, on_base, on_core. destruct (_refundEscrow sha256 id EXPIRED now ref (core (base (plat s)))) as [[r c] | err]; [| by left].
  right. exists r, c. split; [done |]. destruct w as [w |]; [| done].
  assert (Hin : forall x, plat (_injectSystem (es_ticketId e0) w "ESCROW_EXPIRED_FUNDED" id x) = plat x)
    by (intros x; unfold _injectSystem; by destruct (workspaces x !! _)).
  destruct (bool_decide _); [| by rewrite Hin]. rewrite workspace_cancel_run. cbn [workspaces set_plat].
  destruct (workspaces s !! es_ticketId e0); cbv beta iota; by rewrite ?Hin.
Qed.

Lemma xstep_refines s s' : xstep s s' -> tsteps (plat s) (plat s').
Proof.
  intros [t Ht | m | now [[id e0] w] s0 _ | now id | now ref [[id e0] w] s0 _ | now ref b s0 _].
  - by apply rtc_once.
  - done.
  - destruct (escrows_of s !! id) as [e |] eqn:He; [| by rewrite expire_draft_none by congruence].
    destruct (overdue_draft now e) eqn:Ho; [| rewrite expire_draft_none; [done | congruence]].
    destruct (expire_draft_row now id e0 w e s He Ho) as [-> | (-> & _)]; [done |]. apply rtc_once, draft_step; [done |].
    unfold overdue_draft in Ho. by apply andb_true_iff in Ho as [Ho _].
  - unfold warn_escrow. by destruct (escrows_of s !! id).
  - destruct (expire_funded_cases now ref id e0 w s) as [-> | (r & c & Hr & ->)]; [done |]. apply rtc_once, ts_platform; [| done].
    apply bs_escrow. by eapply es_expire.
  - unfold expire_booking. cbn [plat set_plat]. destruct (cancelTransitBooking sha256 b.1 (tb_customerId b.2) now ref (plat s) (plat s)) as [[x | err] t] eqn:Hc; simpl.
    + apply rtc_once. by eapply ts_cancel; [exact I |].
    + unfold cancelTransitBooking in Hc. destruct (cancel_auth _ _ _) as [[n tr] |]; [| injection Hc as _ <-; done].
      unfold transaction in Hc. destruct (cancel_tx _ _ _ _ _ _ _) as [[y t'] |]; [done | injection Hc as _ <-; done].
Qed.

#[local] Abbreviation xsteps := (rtc xstep).

Lemma fold_steps {A} (f : xdb -> A -> xdb) l s : (forall x s, In x l -> xstep s (f s x)) -> xsteps s (fold_left f l s).
Proof.
  revert s. induction l as [| x l IH]; intros s Hf; [done |]. simpl. eapply rtc_l; [apply Hf; by left |]. apply IH. intros y s1 Hy. apply Hf. by right.
Qed.

Lemma unfunded_steps now s0 s : xsteps s (_expireUnfunded now s0 s).
Proof. apply fold_steps. intros p s1 Hp. by eapply xs_draft. Qed.
Lemma warn_steps now upd s0 s : xsteps s (_warnInactiveFunded now upd s0 s).
Proof. apply fold_steps. intros p s1 _. apply xs_warn. Qed.
Lemma funded_steps now ref s0 s : xsteps s (_expireInactiveFunded sha256 now ref s0 s).
Proof. apply (fold_steps (fun s p => expire_funded sha256 now (ref p.1.1) p s)). intros p s1 Hp. by eapply xs_funded. Qed.

(** C13: the expiry workers refine the platform: every tick of either worker,
    whatever databases its scans saw, is a run of single treatments, and every
    interleaving of such treatments with the transit services is a run of the
    transit services alone, so seats belong to bookings of their trip, books and
    settlement keep their invariants and the total of all balances is unchanged. *)
Theorem expiry_refines_platform s s' :
  (forall running now upd ref, xsteps s (_tick sha256 running now upd ref s)) /\
  (forall running now ref s0, xsteps s (transit_tick sha256 running now ref s0 s)) /\
  (xsteps s s' -> tsteps (plat s) (plat s') /\
     (tinv (plat s) -> tinv (plat s')) /\
     (pinv (base (plat s)) -> pinv (base (plat s')) /\ total_value (core (base (plat s'))) = total_value (core (base (plat s))))).
Proof.
  split_and!.
  - intros running now upd ref. unfold _tick. destruct running; [done |]. etrans; [apply unfunded_steps |]. etrans; [apply warn_steps | apply funded_steps].
  - intros running now ref s0. unfold transit_tick. destruct running; [done |]. apply (fold_steps (fun s b => expire_booking sha256 now (ref b.1) b (plat s) s)).
    intros b s1 Hb. by eapply xs_booking.
  - intros Hr. assert (Ht : tsteps (plat s) (plat s')) by (induction Hr as [| s1 s2 s3 Hs _ IH]; [done | etrans; [by apply xstep_refines | done]]).
    split_and!; [done | intros Hi; by apply (steps_tinv _ _ _ _ _ Hi Ht) |]. intros Hp.
    pose proof (steps_refine _ _ _ _ _ Hp Ht) as Hb. destruct (reaches_pinv _ _ _ _ Hp Hb) as [Hp' [Hv _ _ _ _ _ _ _]]. by split.
Qed.

(** ** Expiry against funding *)

(** No funding, of either service, of an escrow that is not a draft. *)
Lemma fund_refused id payer now ref op c0 c : (forall e, escrows c !! id = Some e -> es_status e <> DRAFT) ->
  exists err, fundEscrow sha256 wire id payer now ref op c0 c = (Err err, c).
Proof.
  intros Hn. unfold fundEscrow. destruct (fund_read id payer c0) as [e0 |]; [| by eexists]. unfold transaction.
  destruct (fund_tx _ _ _ _ _ _ _ _ _ _) as [[r c'] | err] eqn:Hr; [| by eexists]. exfalso. unfold fund_tx in Hr.
  apply Mbind_Ok in Hr as (n & c1 & Hu & Hr). apply escrow_updateMany_Ok in Hu as [(-> & -> & _) | (_ & e & He & Hc & _)].
  - apply Mbind_Ok in Hr as (x & c1 & Hf & Hr). apply reads_Ok in Hf as [_ ->]. apply Mbind_Ok in Hr as (y & c1 & Hf & _). by apply check_Ok in Hf as [? _].
  - apply andb_true_iff in Hc as [Hc _]. apply bool_decide_eq_true in Hc. by apply (Hn e).
Qed.

Lemma fund_booking_refused id payer bt bid now ref b0 b : (forall e, escrows (core b) !! id = Some e -> es_status e <> DRAFT) ->
  exists err, fundBookingEscrow sha256 id payer bt bid now ref b0 b = (Err err, b).
Proof.
  intros Hn. unfold fundBookingEscrow. destruct (runDoubleCheck payer (core b0)); [| by eexists]. unfold transaction.
  destruct (fund_booking_tx _ _ _ _ _ _ _ _ _) as [[r b'] | err] eqn:Hr; [| by eexists]. exfalso. unfold fund_booking_tx in Hr.
  apply Mbind_Ok in Hr as (e & b1 & Hf & _). apply on_core_Ok in Hf as (c & Hf & _). unfold fund_claim in Hf.
  apply Mbind_Ok in Hf as (x & c1 & Hx & Hf). apply reads_Ok in Hx as [-> ->]. apply Mbind_Ok in Hf as (e1 & c1 & Hx & Hf). apply lift_Ok in Hx as [He ->].
  apply of_option_Ok in He. apply Mbind_Ok in Hf as (y & c1 & Hx & Hf). apply check_Ok in Hx as [_ ->].
  apply Mbind_Ok in Hf as (z & c1 & Hx & _). apply check_Ok in Hx as [Hx _]. apply in_status_spec, list_elem_of_singleton in Hx. by apply (Hn e1).
Qed.

(** A workspace that exists stays, and a cancelled one stays cancelled. *)
Record workspaces_kept (s s' : xdb) : Prop := {
  wkp_exists : forall t, is_Some (workspaces s !! t) -> is_Some (workspaces s' !! t);
  wkp_cancelled : forall t, wk_status <$> workspaces s !! t = Some WS_CANCELLED -> wk_status <$> workspaces s' !! t = Some WS_CANCELLED;
}.

Lemma kept_insert s s' t r now : workspaces s' = <[t := cancelled_workspace now r]> (workspaces s) -> workspaces_kept s s'.
Proof. intros He. split; intros j Hj; rewrite He; destruct (decide (j = t)) as [-> | Hne]; rewrite ?lookup_insert_eq, ?lookup_insert_ne by done; done. Qed.

Lemma expire_draft_wins now id e0 w e s : escrows_of s !! id = Some e -> overdue_draft now e = true -> is_Some (workspaces s !! es_ticketId e0) ->
  let s' := expire_draft now (id, e0, w) s in
  plat s' = draft_expired id e (plat s) /\ workspaces_kept s s' /\
  forall r, w = Some r -> In (Notice (es_ticketId e0) (wk_creatorId r) "ESCROW_EXPIRED_UNFUNDED" id) (notices s') /\
    (wk_status r <> WS_CANCELLED -> wk_status <$> workspaces s' !! es_ticketId e0 = Some WS_CANCELLED).
Proof.
  intros He Ho [r' Hw]. unfold expire_draft, transaction, expire_draft_tx, on_plat, mbind, M_bind. cbv beta iota zeta. rewrite (update_row _ _ _ _ e) by done.
  cbn [Nat.eqb]. destruct w as [r |]; [| by split_and!].
  destruct (bool_decide (wk_status r = WS_CANCELLED)) eqn:Hc.
  - unfold mret, M_ret, _injectSystem. cbn [workspaces set_plat]. rewrite Hw. cbn. split_and!; [done | done |]. intros r0 [= <-].
    apply bool_decide_eq_true in Hc. split; [apply in_or_app; right; by left | done].
  - rewrite workspace_cancel_run. cbn [workspaces set_plat]. rewrite Hw. unfold mret, M_ret, _injectSystem. cbn [workspaces set_workspaces].
    rewrite lookup_insert_eq. split_and!; [done | by eapply kept_insert |]. intros r0 [= <-]. cbn. rewrite lookup_insert_eq.
    split; [apply in_or_app; right; by left | done].
Qed.

(** The race between expiry and funding strands no money.  If the escrow is
    no longer an overdue draft when its turn comes, because it was funded,
    cancelled or expired, the worker changes nothing at all; if it is, the
    worker expires it with no balance, history or ledger row touched, closes
    its workspace, and from then on no funding of either service, whatever it
    read before, moves anything. *)
Theorem expiry_funding_race now id e0 w s :
  ((forall e, escrows_of s !! id = Some e -> es_status e <> DRAFT \/ now <= es_expiresAt e) -> expire_draft now (id, e0, w) s = s) /\
  forall e, escrows_of s !! id = Some e -> es_status e = DRAFT -> es_expiresAt e < now -> is_Some (workspaces s !! es_ticketId e0) ->
  let s' := expire_draft now (id, e0, w) s in
  escrows_of s' = <[id := with_status EXPIRED e]> (escrows_of s) /\ users (core (base (plat s'))) = users (core (base (plat s))) /\
  hist (core (base (plat s'))) = hist (core (base (plat s))) /\ ledger (core (base (plat s'))) = ledger (core (base (plat s))) /\
  (forall r, w = Some r -> wk_status r <> WS_CANCELLED -> wk_status <$> workspaces s' !! es_ticketId e0 = Some WS_CANCELLED) /\
  (forall payer t ref op c0, exists err, fundEscrow sha256 wire id payer t ref op c0 (core (base (plat s'))) = (Err err, core (base (plat s')))) /\
  (forall payer bt bid t ref b0, exists err, fundBookingEscrow sha256 id payer bt bid t ref b0 (base (plat s')) = (Err err, base (plat s'))).
Proof.
  split.
  - intros Hn. apply expire_draft_none. intros e He. unfold overdue_draft. destruct (Hn e He) as [Hs | Hs].
    + destruct (in_status [DRAFT] e) eqn:Hd; [| done]. by apply in_status_spec, list_elem_of_singleton in Hd.
    + apply andb_false_iff. right. apply Z.ltb_ge. lia.
  - intros e He Hst Hexp Hw s'. assert (Ho : overdue_draft now e = true).
    { unfold overdue_draft, in_status. rewrite Hst. cbn. apply Z.ltb_lt. lia. }
    destruct (expire_draft_wins now id e0 w e s He Ho Hw) as (Hp & _ & Hn). fold s' in Hp, Hn. unfold escrows_of. rewrite Hp.
    assert (Hno : forall e', escrows (core (base (draft_expired id e (plat s)))) !! id = Some e' -> es_status e' <> DRAFT).
    { intros e'. cbn. rewrite lookup_insert_eq. by intros [= <-]. }
    split_and!; try done; [intros r Hr; by apply (Hn r) | |]; intros; [by apply fund_refused | by apply fund_booking_refused].
Qed.

(** ** An uninterrupted sweep *)

#[local] Instance workspaces_kept_po : PreOrder workspaces_kept.
Proof.
  split; [by intros s; split |]. intros s1 s2 s3 [A1 A2] [B1 B2]. split; intros t Ht; [by apply B1, A1 | by apply B2, A2].
Qed.

(** A scanned row that is still as it was scanned. *)
Record scan_fresh (now : Z) (p : scanned) (s : xdb) : Prop := {
  sf_row : escrows_of s !! p.1.1 = Some p.1.2;
  sf_overdue : overdue_draft now p.1.2 = true;
  sf_workspace : is_Some (workspaces s !! es_ticketId p.1.2);
  sf_cancelled : forall r, p.2 = Some r -> wk_status r = WS_CANCELLED -> wk_status <$> workspaces s !! es_ticketId p.1.2 = Some WS_CANCELLED;
}.

Lemma draft_item now p s : scan_fresh now p s -> let s' := expire_draft now p s in
  escrows_of s' = <[p.1.1 := with_status EXPIRED p.1.2]> (escrows_of s) /\ users (core (base (plat s'))) = users (core (base (plat s))) /\ workspaces_kept s s' /\
  (is_Some p.2 -> wk_status <$> workspaces s' !! es_ticketId p.1.2 = Some WS_CANCELLED).
Proof.
  destruct p as [[id e] w]. intros [H1 H2 H3 H4] s'. cbn [fst snd] in *. destruct (expire_draft_wins now id e w e s H1 H2 H3) as (Hp & Hk & Hn). fold s' in Hp, Hk, Hn.
  unfold escrows_of. rewrite Hp. split_and!; [done.. |]. intros [r Hr]. destruct (decide (wk_status r = WS_CANCELLED)) as [Hc | Hc].
  - apply (wkp_cancelled _ _ Hk). by apply (H4 r).
  - by apply (Hn r).
Qed.

Lemma sweep_drafts now l s : base.NoDup (map (fun p : scanned => p.1.1) l) -> (forall p, p ∈ l -> scan_fresh now p s) ->
  let s' := fold_left (fun s p => expire_draft now p s) l s in
  (forall p, p ∈ l -> escrows_of s' !! p.1.1 = Some (with_status EXPIRED p.1.2) /\
                      (is_Some p.2 -> wk_status <$> workspaces s' !! es_ticketId p.1.2 = Some WS_CANCELLED)) /\
  (forall i, i ∉ map (fun p : scanned => p.1.1) l -> escrows_of s' !! i = escrows_of s !! i) /\
  users (core (base (plat s'))) = users (core (base (plat s))) /\ workspaces_kept s s'.
Proof.
  revert s. induction l as [| p l IH]; intros s Hnd Hf; [split_and!; [by intros p Hp; apply elem_of_nil in Hp | done | done | done] |].
  cbn [map] in Hnd. apply NoDup_cons in Hnd as [Hni Hnd]. cbn [fold_left].
  destruct (draft_item now p s (Hf p ltac:(by left))) as (He & Hu & Hk & Hc). set (s1 := expire_draft now p s) in *.
  destruct (IH s1 Hnd) as (I1 & I2 & I3 & I4).
  { intros q Hq. destruct (Hf q ltac:(by right)) as [F1 F2 F3 F4]. split; [| done | by apply Hk | intros r Hr Hs; apply (wkp_cancelled _ _ Hk); by eapply F4].
    rewrite He, lookup_insert_ne; [done |]. intros Heq. apply Hni. rewrite Heq. by apply (list_elem_of_fmap_2 (fun p : scanned => p.1.1)). }
  split_and!; [| | by rewrite I3 | by etrans].
  - intros q Hq. apply elem_of_cons in Hq as [-> | Hq]; [| by apply I1]. split; [by rewrite I2, He, lookup_insert_eq | intros Hs; by apply (wkp_cancelled _ _ I4), Hc].
  - intros i Hi. cbn [map] in Hi. apply not_elem_of_cons in Hi as [Hn Hi]. by rewrite I2, He, lookup_insert_ne.
Qed.

Lemma scan_In st now s p : p ∈ expired_in st now s -> escrows_of s !! p.1.1 = Some p.1.2 /\ in_status [st] p.1.2 = true /\ es_expiresAt p.1.2 < now /\
  p.2 = workspaces s !! es_ticketId p.1.2.
Proof.
  intros Hp. apply list_elem_of_fmap in Hp as ([id e] & -> & Hin). apply list_elem_of_In, filter_In in Hin as [Hin Hc].
  apply list_elem_of_In, elem_of_map_to_list in Hin. apply andb_true_iff in Hc as [Hc Hx]. apply Z.ltb_lt in Hx. by split_and!.
Qed.

Lemma scan_all st now s id e : escrows_of s !! id = Some e -> in_status [st] e = true -> es_expiresAt e < now ->
  (id, e, workspaces s !! es_ticketId e) ∈ expired_in st now s.
Proof.
  intros He Hs Hx. apply list_elem_of_fmap. exists (id, e). split; [done |]. apply list_elem_of_In, filter_In. split; [by apply list_elem_of_In, elem_of_map_to_list |].
  cbn [snd]. rewrite Hs. by apply Z.ltb_lt.
Qed.

Lemma scan_NoDup st now s : base.NoDup (map (fun p : scanned => p.1.1) (expired_in st now s)).
Proof.
  unfold expired_in. rewrite map_map. cbn. pose proof (NoDup_fst_map_to_list (escrows_of s)) as Hnd. revert Hnd.
  induction (map_to_list (escrows_of s)) as [| [i e] l IH]; [done |]. cbn. intros Hnd. apply NoDup_cons in Hnd as [Hni Hnd].
  destruct (_ && _); [| by apply IH]. cbn. apply NoDup_cons. split; [| by apply IH]. intros Hin. apply Hni.
  apply list_elem_of_fmap in Hin as ([j e'] & -> & Hin). apply list_elem_of_In, filter_In in Hin as [Hin _].
  apply list_elem_of_In in Hin. by apply (list_elem_of_fmap_2 fst) in Hin.
Qed.

(** An uninterrupted sweep leaves no overdue draft: with the workspace of
    every escrow in its table, the sweep maps the escrow table row by row,
    EXPIRED for the overdue drafts and unchanged for every other escrow,
    cancels the workspace of each expired draft and changes no balance. *)
Theorem draft_sweep_complete now s :
  (forall id e, escrows_of s !! id = Some e -> is_Some (workspaces s !! es_ticketId e)) ->
  let s' := _expireUnfunded now s s in
  escrows_of s' = (fun e => if overdue_draft now e then with_status EXPIRED e else e) <$> escrows_of s /\
  (forall id e, escrows_of s !! id = Some e -> overdue_draft now e = true -> wk_status <$> workspaces s' !! es_ticketId e = Some WS_CANCELLED) /\
  users (core (base (plat s'))) = users (core (base (plat s))).
Proof.
  intros Hw s'. destruct (sweep_drafts now (expired_in DRAFT now s) s) as (S1 & S2 & S3 & _); [apply scan_NoDup | |].
  { intros p Hp. apply scan_In in Hp as (He & Hs & Hx & Ht). split; [done | | by eapply Hw |].
    - unfold overdue_draft. rewrite Hs. by apply Z.ltb_lt.
    - intros r Hr Hc. rewrite Ht in Hr. rewrite Hr. cbn. by rewrite Hc. }
  change (fold_left _ _ _) with s' in S1, S2, S3.
  assert (Hscan : forall id e, escrows_of s !! id = Some e -> overdue_draft now e = true -> (id, e, workspaces s !! es_ticketId e) ∈ expired_in DRAFT now s).
  { intros id e He Ho. apply andb_true_iff in Ho as [Hs Hx]. apply Z.ltb_lt in Hx. by apply scan_all. }
  split_and!; [| | done].
  - apply map_eq. intros id. rewrite lookup_fmap. destruct (escrows_of s !! id) as [e |] eqn:He; cbn.
    + destruct (overdue_draft now e) eqn:Ho; [by destruct (S1 _ (Hscan id e He Ho)) |]. rewrite S2, He; [done |]. intros Hin.
      apply list_elem_of_fmap in Hin as (p & -> & Hp). apply scan_In in Hp as (He' & Hs & Hx & _). rewrite He in He'. injection He' as ->.
      apply Z.ltb_lt in Hx. unfold overdue_draft in Ho. by rewrite Hs, Hx in Ho.
    + rewrite S2; [done |]. intros Hin. apply list_elem_of_fmap in Hin as (p & -> & Hp). apply scan_In in Hp as (He' & _). congruence.
  - intros id e He Ho. apply (S1 _ (Hscan id e He Ho)). cbn. by eapply Hw.
Qed.

(** ** Stale scans *)

(** The sweep of inactive escrows overrides a dispute raised after its
    scan: the refund does not ask again for FUNDED, so if it takes effect on an
    escrow that is by then in dispute, the payer gets back the whole disputed
    principal, the escrow is EXPIRED, the dispute stays as open as it was, and
    no ruling of any admin can resolve it any more. *)
Theorem expiry_overrides_dispute now ref id e0 w s0 s e d :
  (id, e0, w) ∈ expired_in FUNDED now s0 -> einv (core (base (plat s))) ->
  escrows_of s !! id = Some e -> in_status IN_DISPUTE e = true -> disputes (core (base (plat s))) !! id = Some d -> ds_status d <> D_RESOLVED ->
  expire_funded sha256 now ref (id, e0, w) s <> s ->
  let c := core (base (plat (expire_funded sha256 now ref (id, e0, w) s))) in
  es_status <$> escrows c !! id = Some EXPIRED /\ disputes c !! id = Some d /\
  avail (es_payerId e) c = avail (es_payerId e) (core (base (plat s))) + es_amountUsdc e /\
  in_dispute (es_payerId e) c = in_dispute (es_payerId e) (core (base (plat s))) - es_amountUsdc e /\
  forall admin ru notes p q t r1 r2, is_ok (resolveDispute sha256 id admin ru notes p q t r1 r2 c) = false.
Proof.
  intros _ Hi He Hd Hdis Hres Hne c. destruct (expire_funded_cases now ref id e0 w s) as [? | (r & c' & Hr & Hp)]; [done |].
  assert (c = c') as -> by (unfold c; by rewrite Hp). clear Hp Hne. unfold escrows_of in He. set (c := core (base (plat s))) in *.
  apply find_then in Hr as (e1 & He1 & Hr). assert (e1 = e) as -> by congruence.
  apply refund_effect in Hr as (e2 & _ & Hpos & Hef & Hds); [| by apply (ei_terms c Hi id e He)].
  pose proof (effect_row _ _ _ _ _ _ _ _ _ _ _ _ He Hef) as ->. pose proof (ef_users _ _ _ _ _ _ _ _ _ _ _ Hef) as Hmv.
  assert (Hrow : escrows c' !! id = Some (refunded_row EXPIRED now ref e)) by (rewrite (ef_escrows _ _ _ _ _ _ _ _ _ _ _ Hef); apply lookup_insert_eq).
  unfold from_dispute in Hmv. rewrite Hd in Hmv. split_and!.
  - by rewrite Hrow.
  - by rewrite Hds.
  - unfold avail. rewrite (moves_bucket availableBalance da (fun _ _ => eq_refl) _ _ _ _ Hmv). unfold delta_of. simpl. rewrite Z.eqb_refl. simpl. lia.
  - unfold in_dispute. rewrite (moves_bucket disputeEscrowBalance dd (fun _ _ => eq_refl) _ _ _ _ Hmv). unfold delta_of. simpl. rewrite Z.eqb_refl. simpl. lia.
  - intros. eapply stranded_dispute; [exact Hrow | | by rewrite Hds | done]. by apply in_status_spec.
Qed.

(** The transit worker cancels a booking that was paid in time: a booking
    scanned as PENDING and confirmed before its turn is not spared, because the
    cancellation accepts CONFIRMED bookings too; if the cancellation takes
    effect, the booking ends CANCELLED, its seats are freed and its live deposit
    goes back to the payer. *)
Theorem expiry_cancels_confirmed now ref id r0 s0 s r o t :
  (id, r0) ∈ stale_bookings now s0 -> tinv (plat s) -> pinv (base (plat s)) ->
  transit_of id (plat s) = Some r -> tb_status r = T_CONFIRMED ->
  cancelTransitBooking sha256 id (tb_customerId r0) now ref (plat s) (plat s) = (Ok (false, o), t) ->
  plat (expire_booking sha256 now ref (id, r0) (plat s) s) = t /\ tb_status <$> transit_of id t = Some T_CANCELLED /\ seats_of id t = ∅ /\
  forall i e, truthy (tb_escrowId r) = Some i -> escrows_of s !! i = Some e -> in_status LIVE e = true ->
    es_status <$> escrows (core (base t)) !! i = Some REFUNDED /\
    avail (es_payerId e) (core (base t)) = avail (es_payerId e) (core (base (plat s))) + es_amountUsdc e.
Proof.
  intros _ Hi Hp Hr Hst Hc. split; [unfold expire_booking; cbn [fst snd]; by rewrite Hc |].
  destruct (cancel_settles _ _ _ _ _ _ _ _ _ Hi Hp (tmove_refl (plat s)) Hc) as (r1 & Hr1 & _ & Hs & He & _ & Hm). assert (r1 = r) as -> by congruence.
  split_and!; [done | done |]. intros i e Hl Hrow Hlive. destruct (Hm i e Hl Hrow Hlive) as (_ & Hx & Ha & _). by split.
Qed.
End Theorems.

(** ** Concrete runs *)

Definition ex_room (st : workspace_status) : workspace_row := WorkspaceRow 1 2 st None 0.
(** The escrow database [c] with the workspace of its escrow open. *)
Definition ex_of (c : edb) : xdb := XDB (TDB (BDB c ∅ ∅) ∅ ∅ ∅ ∅ []) {[ "t1"%string := ex_room WS_OPEN ]} [] ∅.
Definition ex_late : Z := 100 * DAY_MS.

Example ex_tick_runs :
  let s := @_tick Decimal20 ToFixedColumn run_sha false ex_late (fun _ => 0) (fun i => ("x-" +:+ i)%string) in
  (es_status <$> escrows_of (s (ex_of run_created)) !! "e1"%string, es_status <$> escrows_of (s (ex_of run_funded)) !! "e1"%string,
   es_status <$> escrows_of (s (ex_of run_disputed)) !! "e1"%string, avail 1 (core (base (plat (s (ex_of run_funded))))),
   length (notices (s (ex_of run_funded)))) =
  (Some EXPIRED, Some EXPIRED, Some DISPUTED, 9987500000, 1%nat).
Proof. vm_compute. reflexivity. Qed.

(** ** Witnesses *)

Definition ex_transit (t : tdb) : xdb := XDB t ∅ [] ∅.
Definition ex_ticked : xdb := @transit_tick Decimal20 ToFixedColumn run_sha false ex_late (fun i => i) (ex_transit tt_booked) (ex_transit tt_funded).

Lemma expiry_refines_platform_witness : total_value (core (base (plat ex_ticked))) = total_value (core (base tt_funded)) /\ tinv (plat ex_ticked).
Proof.
  destruct (@expiry_refines_platform Decimal20 ToFixedColumn run_sha run_wire tt_wire (ex_transit tt_funded) ex_ticked) as (_ & Ht & Hr).
  destruct (Hr (Ht false ex_late (fun i => i) (ex_transit tt_booked))) as (_ & Hi & Hp).
  split; [exact (proj2 (Hp tt_funded_pinv)) | exact (Hi tt_funded_tinv)].
Defined.

Lemma expiry_funding_race_witness : exists e, escrows_of (ex_of run_created) !! "e1"%string = Some e /\
  escrows_of (expire_draft ex_late ("e1"%string, e, Some (ex_room WS_OPEN)) (ex_of run_created)) = <["e1"%string := with_status EXPIRED e]> (escrows run_created) /\
  expire_draft ex_late ("e1"%string, e, Some (ex_room WS_OPEN)) (ex_of run_funded) = ex_of run_funded.
Proof.
  assert (He : exists e, escrows_of (ex_of run_created) !! "e1"%string = Some e /\ es_status e = DRAFT /\ es_expiresAt e < ex_late /\ es_ticketId e = "t1"%string)
    by (eexists; split; [vm_compute; reflexivity |]; split_and!; reflexivity).
  destruct He as (e & He & Hst & Hx & Ht).
  assert (Hf : exists f, escrows run_funded !! "e1"%string = Some f /\ es_status f = FUNDED) by (eexists; split; vm_compute; reflexivity).
  destruct Hf as (f & Hf & Hfs).
  destruct (@expiry_funding_race Decimal20 ToFixedColumn run_sha run_wire ex_late "e1" e (Some (ex_room WS_OPEN)) (ex_of run_created)) as [_ H1].
  destruct (@expiry_funding_race Decimal20 ToFixedColumn run_sha run_wire ex_late "e1" e (Some (ex_room WS_OPEN)) (ex_of run_funded)) as [H2 _].
  exists e. split; [exact He |]. split.
  - exact (proj1 (H1 e He Hst Hx ltac:(rewrite Ht; vm_compute; eexists; reflexivity))).
  - apply H2. intros f' Hf'. left. unfold ex_of, escrows_of in Hf'. cbn [plat base core] in Hf'. rewrite Hf in Hf'. injection Hf' as <-. rewrite Hfs. discriminate.
Defined.

Lemma draft_sweep_complete_witness : escrows_of (_expireUnfunded ex_late (ex_of run_created) (ex_of run_created)) =
  (fun e => if overdue_draft ex_late e then with_status EXPIRED e else e) <$> escrows run_created.
Proof.
  apply (draft_sweep_complete ex_late (ex_of run_created)).
  apply (bool_decide_unpack (map_Forall (fun _ e => is_Some (workspaces (ex_of run_created) !! es_ticketId e)) (escrows_of (ex_of run_created)))).
  vm_compute. exact I.
Defined.

(** The escrow as the scan saw it, before the dispute. *)
Definition ex_row : escrow_row := default (EscrowRow "" 0 0 0 0 DRAFT false false None None None 0 None None None) (escrows run_funded !! "e1"%string).
Definition ex_swept : xdb := @expire_funded Decimal20 ToFixedColumn run_sha ex_late "x1" ("e1"%string, ex_row, Some (ex_room WS_OPEN)) (ex_of run_disputed).

Lemma expiry_overrides_dispute_witness : es_status <$> escrows_of ex_swept !! "e1"%string = Some EXPIRED.
Proof.
  assert (Hin : In ("e1"%string, ex_row, Some (ex_room WS_OPEN)) (expired_in FUNDED ex_late (ex_of run_funded))) by (vm_compute; left; reflexivity).
  assert (H2 : exists e d, escrows_of (ex_of run_disputed) !! "e1"%string = Some e /\ in_status IN_DISPUTE e = true /\
    disputes run_disputed !! "e1"%string = Some d /\ ds_status d = D_PENDING)
    by (do 2 eexists; split; [vm_compute; reflexivity |]; split; [vm_compute; reflexivity |]; split; vm_compute; reflexivity).
  destruct H2 as (e & d & He & Hd & Hdis & Hds).
  assert (Hav : avail 1 (core (base (plat ex_swept))) <> avail 1 run_disputed) by (vm_compute; discriminate).
  assert (Hne : ex_swept <> ex_of run_disputed) by (intros Heq; apply Hav; rewrite Heq; reflexivity).
  exact (proj1 (@expiry_overrides_dispute Decimal20 ToFixedColumn run_sha ex_late "x1" "e1" ex_row (Some (ex_room WS_OPEN)) (ex_of run_funded) (ex_of run_disputed) e d
    (proj2 (list_elem_of_In _ _) Hin) run_disputed_einv He Hd Hdis ltac:(rewrite Hds; discriminate) Hne)).
Defined.

Lemma expiry_cancels_confirmed_witness : exists r0, In ("b1"%string, r0) (stale_bookings ex_late (ex_transit tt_booked)) /\
  tb_status <$> transit_of "b1" tt_funded = Some T_CONFIRMED /\
  tb_status <$> transit_of "b1" (plat (@expire_booking Decimal20 ToFixedColumn run_sha ex_late "x1" ("b1"%string, r0) tt_funded (ex_transit tt_funded))) = Some T_CANCELLED.
Proof.
  assert (H1 : exists r0, In ("b1"%string, r0) (stale_bookings ex_late (ex_transit tt_booked)) /\ tb_customerId r0 = 1)
    by (eexists; split; [vm_compute; by left | reflexivity]).
  destruct H1 as (r0 & Hin & Hcust).
  assert (H2 : exists r, transit_of "b1" tt_funded = Some r /\ tb_status r = T_CONFIRMED) by (eexists; split; vm_compute; reflexivity).
  destruct H2 as (r & Hr & Hst).
  assert (H3 : exists o t, @cancelTransitBooking Decimal20 ToFixedColumn run_sha "b1" (tb_customerId r0) ex_late "x1" tt_funded tt_funded = (Ok (false, o), t))
    by (rewrite Hcust; do 2 eexists; vm_compute; reflexivity).
  destruct H3 as (o & t & Hc). exists r0. split; [exact Hin |]. split; [rewrite Hr; cbn [fmap option_fmap option_map]; rewrite Hst; reflexivity |].
  destruct (@expiry_cancels_confirmed Decimal20 ToFixedColumn run_sha ex_late "x1" "b1" r0 (ex_transit tt_booked) (ex_transit tt_funded) r o t
    (proj2 (list_elem_of_In _ _) Hin) tt_funded_tinv tt_funded_pinv Hr Hst Hc) as (Hp & Hs & _).
  rewrite <- Hp in Hs. exact Hs.
Defined.
