(* ===== verification/Vault.v ===== *)
(** * Vaults (services/vaultService.js)

    A vault is a locked savings wallet.  State ([vdb]): the escrow database for
    balances, history, profit log, ledger and claims; the vaults and their
    deposits; the users' ban state and AZM balance; the AZM reward log; the
    round-up settings.  Operations: the service, the worker that fires
    auto-deposit rules and releases matured vaults (workers/vaultWorker.js), the
    AZM credit (services/azmRewardService.js), and the other writers of vault
    rows: the auto-rule handlers, round-up savings and simulated yield
    (controllers/vaultController.js, roundUpController.js,
    vaultYieldController.js).

    An amount in a request is a finite decimal, a [Q] in USDC.  A Decimal(20,8)
    column keeps 1e-8 units and rounds halves away from zero, which on a decimal
    is also what [toFixed(8)] does: [toFixedZ 8].  What a function reads before
    its transaction comes from an earlier database, an argument; a row locked
    FOR UPDATE is read inside.  Identifiers and clocks are arguments.  Texts,
    notifications and socket events are left out, and the metadata of a posting
    or reward except for its dedup identity. *)

From stdpp Require Import base gmap strings list.
From Stdlib Require Import ZArith QArith Qround Lia Ascii.
From S2P Require Import Prelude JsNumber ExactDecimal Json Ledger Idempotency Escrow.

Local Open Scope Z_scope.

(** ** Rows *)

Inductive vault_status : Type := V_ACTIVE | V_COMPLETED | V_BROKEN_EARLY | V_CANCELLED.
Inductive frequency : Type := DAILY | WEEKLY | BIWEEKLY | MONTHLY.
Inductive deposit_type : Type := MANUAL | AUTO_RULE | BONUS | ROUND_UP.
Inductive deposit_status : Type := DEP_COMPLETED | FAILED_INSUFFICIENT | FAILED_OTHER | DEP_PENDING.
Inductive ban_status : Type := BAN_ACTIVE | BANNED_24H | BANNED_1W | BANNED_INDEF.

#[export] Instance vault_status_eq_dec : EqDecision vault_status.
Proof. solve_decision. Defined.
#[export] Instance deposit_type_eq_dec : EqDecision deposit_type.
Proof. solve_decision. Defined.
#[export] Instance deposit_status_eq_dec : EqDecision deposit_status.
Proof. solve_decision. Defined.
#[export] Instance ban_status_eq_dec : EqDecision ban_status.
Proof. solve_decision. Defined.

(** Columns of a vault, grouped: the auto-deposit rule, the streak statistics
    ([sk_consistency] in 1e-2, [sk_azm] in 1e-8), the yield ([yd_apr] in
    1e-4). *)
Record auto_rule : Type := AutoRule { ar_enabled : bool; ar_amount : option Z; ar_frequency : option frequency; ar_nextRun : option Z }.
Record streaks : Type := Streaks { sk_count : Z; sk_longest : Z; sk_missed : Z; sk_consistency : Z; sk_azm : Z }.
Record yield_state : Type := YieldState {
  yd_enabled : bool; yd_strategy : option string; yd_apr : Z; yd_earned : Z; yd_lastCompoundAt : option Z; yd_autoCompound : bool }.

(** The receipt written when a vault ends; its numbers are doubles. *)
Record receipt : Type := Receipt {
  rc_finalState : vault_status;
  rc_target : Q;
  rc_deposited : Q;
  rc_refundedToWallet : Q;
  rc_penalty : Q;
  rc_streak : Z * Z;
  rc_missed : Z;
  rc_consistencyScore : Q;
  rc_totalAzmEarned : Q;
  rc_generatedAt : Z;
}.

(** [v_penaltyPct] is in 1e-4. *)
Record vault_row : Type := VaultRow {
  v_userId : Z;
  v_name : string;
  v_target : Z;
  v_current : Z;
  v_status : vault_status;
  v_penaltyPct : Z;
  v_startDate : Z;
  v_maturityDate : Z;
  v_completedAt : option Z;
  v_brokenAt : option Z;
  v_auto : auto_rule;
  v_streaks : streaks;
  v_yield : yield_state;
  v_receipt : option receipt;
}.

Record deposit_row : Type := DepositRow {
  dp_vaultId : string;
  dp_userId : Z;
  dp_amount : Z;
  dp_type : deposit_type;
  dp_status : deposit_status;
  dp_azmAwarded : Z;
  dp_scheduledFor : option Z;
  dp_failureReason : option string;
  dp_idempotencyKey : option string;
}.

(** The columns of a user that the escrow services do not read. *)
Record profile : Type := Profile { pf_banStatus : ban_status; pf_isDeleted : bool; pf_azmBalance : Z }.

(** [rw_metadata] is the [dedupKey] field of the metadata. *)
Record reward_row : Type := RewardRow {
  rw_userId : Z; rw_amount : Z; rw_source : string; rw_dedupKey : option string; rw_metadata : option string; rw_balanceAfter : Z }.

Record roundup_row : Type := RoundUpRow { ru_enabled : bool; ru_targetVaultId : option string; ru_totalSaved : Q; ru_multiplier : Q }.

Record vdb : Type := VDB {
  bank : edb;
  vaults : gmap string vault_row;
  deposits : gmap string deposit_row;
  profiles : gmap Z profile;
  rewards : gmap string reward_row;
  roundUps : gmap Z roundup_row;
}.

Definition set_bank (w : edb) (s : vdb) : vdb := VDB w (vaults s) (deposits s) (profiles s) (rewards s) (roundUps s).
Definition set_vaults (m : gmap string vault_row) (s : vdb) : vdb := VDB (bank s) m (deposits s) (profiles s) (rewards s) (roundUps s).
Definition set_deposits (m : gmap string deposit_row) (s : vdb) : vdb := VDB (bank s) (vaults s) m (profiles s) (rewards s) (roundUps s).
Definition set_profiles (m : gmap Z profile) (s : vdb) : vdb := VDB (bank s) (vaults s) (deposits s) m (rewards s) (roundUps s).
Definition set_rewards (m : gmap string reward_row) (s : vdb) : vdb := VDB (bank s) (vaults s) (deposits s) (profiles s) m (roundUps s).
Definition set_roundUps (m : gmap Z roundup_row) (s : vdb) : vdb := VDB (bank s) (vaults s) (deposits s) (profiles s) (rewards s) m.

Definition with_auto (a : auto_rule) (v : vault_row) : vault_row :=
  VaultRow (v_userId v) (v_name v) (v_target v) (v_current v) (v_status v) (v_penaltyPct v) (v_startDate v) (v_maturityDate v)
    (v_completedAt v) (v_brokenAt v) a (v_streaks v) (v_yield v) (v_receipt v).
Definition with_streaks (k : streaks) (v : vault_row) : vault_row :=
  VaultRow (v_userId v) (v_name v) (v_target v) (v_current v) (v_status v) (v_penaltyPct v) (v_startDate v) (v_maturityDate v)
    (v_completedAt v) (v_brokenAt v) (v_auto v) k (v_yield v) (v_receipt v).
Definition with_current (c : Z) (v : vault_row) : vault_row :=
  VaultRow (v_userId v) (v_name v) (v_target v) c (v_status v) (v_penaltyPct v) (v_startDate v) (v_maturityDate v)
    (v_completedAt v) (v_brokenAt v) (v_auto v) (v_streaks v) (v_yield v) (v_receipt v).
Definition with_yield (y : yield_state) (v : vault_row) : vault_row :=
  VaultRow (v_userId v) (v_name v) (v_target v) (v_current v) (v_status v) (v_penaltyPct v) (v_startDate v) (v_maturityDate v)
    (v_completedAt v) (v_brokenAt v) (v_auto v) (v_streaks v) y (v_receipt v).
(** The end of a vault: the status, an empty balance and the receipt. *)
Definition with_end (st : vault_status) (now : Z) (broken : option Z) (k : streaks) (r : receipt) (v : vault_row) : vault_row :=
  VaultRow (v_userId v) (v_name v) (v_target v) 0 st (v_penaltyPct v) (v_startDate v) (v_maturityDate v)
    (Some now) broken (v_auto v) k (v_yield v) (Some r).

(** ** Statements *)

Definition on_bank {A} (m : M edb A) : M vdb A := fun s =>
  match m (bank s) with Ok (a, w) => Ok (a, set_bank w s) | Err e => Err e end.

(** A column of [u] units as a decimal. *)
Definition usdc (u : Z) : Q := u # 100000000.
(** [{ increment: q }] on a column of [u] units. *)
Definition col_add (u : Z) (q : Q) : Z := toFixedZ 8 (usdc u + q).

Definition numeric_ok (z : Z) : bool := Z.abs z <? DECIMAL_20_8_LIMIT.
Definition int4_ok (z : Z) : bool := (- 2 ^ 31 <=? z) && (z <? 2 ^ 31).
Definition vault_ok (v : vault_row) : bool :=
  numeric_ok (v_target v) && numeric_ok (v_current v) && numeric_ok (sk_azm (v_streaks v)) && numeric_ok (yd_earned (v_yield v)) &&
  match ar_amount (v_auto v) with Some a => numeric_ok a | None => true end &&
  int4_ok (sk_count (v_streaks v)) && int4_ok (sk_longest (v_streaks v)) && int4_ok (sk_missed (v_streaks v)).

(** [vault.update]: a missing row is P2025.  [vault.updateMany]: the count. *)
Definition vault_update (id : string) (f : vault_row -> vault_row) : M vdb vault_row :=
  s ← get;
  match vaults s !! id with
  | None => throw "P2025"
  | Some v => check (vault_ok (f v)) "NUMERIC_OVERFLOW";; put (set_vaults (<[id := f v]> (vaults s)) s);; mret (f v)
  end.
Definition vault_updateMany (id : string) (cond : vault_row -> bool) (f : vault_row -> vault_row) : M vdb nat :=
  s ← get;
  match vaults s !! id with
  | Some v => if cond v then vault_update id f;; mret 1%nat else mret 0%nat
  | None => mret 0%nat
  end.

(** INSERT of a deposit: foreign key, primary key and unique
    [idempotencyKey]. *)
Definition deposit_of_key (k : string) (s : vdb) : option (string * deposit_row) :=
  List.find (fun p => bool_decide (dp_idempotencyKey p.2 = Some k)) (map_to_list (deposits s)).
Definition deposit_create (id : string) (d : deposit_row) : M vdb unit :=
  s ← get;
  check (match vaults s !! dp_vaultId d with Some _ => true | None => false end) "P2003";;
  check (match deposits s !! id with None => true | Some _ => false end &&
         match dp_idempotencyKey d with
         | Some k => match deposit_of_key k s with None => true | Some _ => false end
         | None => true
         end) "P2002";;
  check (numeric_ok (dp_amount d) && numeric_ok (dp_azmAwarded d)) "NUMERIC_OVERFLOW";;
  put (set_deposits (<[id := d]> (deposits s)) s).

(** [user.update({ availableBalance: { increment: q } })], and the same
    condition on the row and the profile. *)
Definition balance_delta (q : Q) (u : user_row) : delta := Delta (col_add (availableBalance u) q - availableBalance u) 0 0.
Definition balance_update (userId : Z) (q : Q) : M vdb unit :=
  s ← get;
  match users (bank s) !! userId with
  | None => throw "P2025"
  | Some u => on_bank (user_update userId (balance_delta q u))
  end.
Definition balance_updateMany (userId : Z) (cond : user_row -> profile -> bool) (q : Q) : M vdb nat :=
  s ← get;
  match users (bank s) !! userId, profiles s !! userId with
  | Some u, Some p => if cond u p then balance_update userId q;; mret 1%nat else mret 0%nat
  | _, _ => mret 0%nat
  end.

(** ** Keys and accounts *)

Definition vault_deposit_key (depositId : string) : string := ("ledger:vault:deposit:" +:+ depositId)%string.
Definition break_key (vaultId : string) : string := ("ledger:vault:break-early:" +:+ vaultId)%string.
Definition complete_key (vaultId : string) : string := ("ledger:vault:complete:" +:+ vaultId)%string.
Definition vault_code (vaultId : string) : string := ("escrow:vault-" +:+ vaultId +:+ ":locked")%string.

Definition vault_posting (key ty desc : string) (uid : Z) (entity id : string) (ls : list line_in) : post_params :=
  PostParams key ty desc ls ConvAbsent None (Some uid) (Some entity) (Some id).

(** ** Constants *)

Definition FREQUENCY_MS (f : frequency) : Z :=
  match f with DAILY => DAY_MS | WEEKLY => 7 * DAY_MS | BIWEEKLY => 14 * DAY_MS | MONTHLY => 30 * DAY_MS end.
Definition FREQUENCY_AZM_MULT (f : frequency) : Q :=
  match f with DAILY => fl (3 # 2) | WEEKLY => 1 | BIWEEKLY => fl (8 # 10) | MONTHLY => fl (6 # 10) end.
Definition AZM_BASE_PER_USDC : Q := fl (1 # 10).
Definition AZM_STREAK_BONUS_STEP : Q := fl (5 # 100).
Definition AZM_STREAK_BONUS_CAP : Q := 1.
Definition EARLY_BREAK_PENALTY_DEFAULT : Z := 500.

(** ** Pure computations *)

Record azm_breakdown : Type := AzmBreakdown {
  az_base : Q; az_frequencyMultiplier : Q; az_afterFrequency : Q; az_streakMultiplier : Q; az_streakBonus : Q; az_totalAzm : Q; az_type : deposit_type }.

(** Every frequency the schema has is a key of the table, so its [|| 1.0] is
    never taken. *)
Definition computeAzmIntensity (amount : Q) (freq : frequency) (currentStreak : Z) (ty : deposit_type) : azm_breakdown :=
  let amt := Number_of_units (toFixedZ 8 amount) in
  let base := parseDec 4 (toFixedZ 4 (js_mul amt AZM_BASE_PER_USDC)) in
  let frequencyMultiplier := FREQUENCY_AZM_MULT freq in
  let afterFrequency := parseDec 4 (toFixedZ 4 (js_mul base frequencyMultiplier)) in
  let streakBonus := js_min (js_mul (inject_Z currentStreak) AZM_STREAK_BONUS_STEP) AZM_STREAK_BONUS_CAP in
  let streakMultiplier := parseDec 4 (toFixedZ 4 (js_add 1 streakBonus)) in
  let totalAzm := parseDec 2 (toFixedZ 2 (js_mul afterFrequency streakMultiplier)) in
  AzmBreakdown base frequencyMultiplier afterFrequency streakMultiplier streakBonus totalAzm ty.

(** [Math.round]. *)
Definition Math_round (x : Q) : Z := Qfloor (x + (1 # 2)).

Definition _computeConsistencyScore (v : vault_row) : Q :=
  let streakCount := sk_count (v_streaks v) in
  let expected := streakCount + sk_missed (v_streaks v) in
  if expected =? 0 then 100
  else js_div (inject_Z (Math_round (js_mul (js_mul (js_div (inject_Z streakCount) (inject_Z expected)) 100) 100))) 100.

(** [Number(d.toFixed(2))]. *)
Definition two_places (q : Q) : Q := parseDec 2 (toFixedZ 2 q).

Definition _buildReceipt (v : vault_row) (finalState : vault_status) (refund penalty : Q) (now : Z) : receipt :=
  Receipt finalState (two_places (usdc (v_target v))) (two_places (usdc (v_current v))) (two_places refund) (two_places penalty)
    (sk_count (v_streaks v), sk_longest (v_streaks v)) (sk_missed (v_streaks v)) (_computeConsistencyScore v)
    (two_places (usdc (sk_azm (v_streaks v)))) now.

(** Decimals of the service at a scale of 12 places. *)
Definition dec12 (z : Z) : Q := z # 1000000000000.

(** What a request gives for a date. *)
Inductive date_in : Type := NoDate | BadDate | DateAt (ms : Z).
(** An auto rule as the client sends it: a falsy amount is [None], a frequency
    the table does not have is [None]. *)
Record auto_in : Type := AutoIn { ai_enabled : bool; ai_amount : option Q; ai_frequency : option frequency }.

Definition new_auto (a : option auto_in) (now : Z) : res auto_rule :=
  match a with
  | Some a =>
      if ai_enabled a then
        amount ← match ai_amount a with
                 | Some q => if Qle_bool q 0 then Err "autoRule.amountUsdc must be > 0 when enabled" else Ok q
                 | None => Err "autoRule.amountUsdc must be > 0 when enabled"
                 end;
        freq ← of_option (ai_frequency a) "autoRule.frequency must be DAILY|WEEKLY|BIWEEKLY|MONTHLY";
        mret (AutoRule true (Some (toFixedZ 8 amount)) (Some freq) (Some (now + FREQUENCY_MS freq)))
      else mret (AutoRule false None None None)
  | None => mret (AutoRule false None None None)
  end.

Definition createVault (newId : string) (userId : Z) (name : option string) (targetAmountUsdc : option Q) (maturityDate : date_in)
    (autoRule : option auto_in) (now : Z) : M vdb vault_row :=
  '(n, target, mature) ← lift match truthy name, targetAmountUsdc, maturityDate with
      | Some n, Some t, DateAt d => Ok (n, t, Some d)
      | Some n, Some t, BadDate => Ok (n, t, None)
      | _, _, _ => Err "name, targetAmountUsdc, and maturityDate are required"
      end;
  check (negb (Qle_bool target 0)) "targetAmountUsdc must be > 0";;
  matureAt ← lift match mature with
      | Some d => if d <=? now then Err "maturityDate must be a future ISO date" else Ok d
      | None => Err "maturityDate must be a future ISO date"
      end;
  auto ← lift (new_auto autoRule now);
  let row := VaultRow userId (String.substring 0 60 n) (toFixedZ 8 target) 0 V_ACTIVE EARLY_BREAK_PENALTY_DEFAULT now matureAt None None auto
               (Streaks 0 0 0 0 0) (YieldState false None 0 0 None true) None in
  s ← get;
  check (match vaults s !! newId with None => true | _ => false end) "P2002";;
  check (match users (bank s) !! userId with Some _ => true | _ => false end) "P2003";;
  check (vault_ok row) "NUMERIC_OVERFLOW";;
  put (set_vaults (<[newId := row]> (vaults s)) s);;
  mret row.

(** ** AZM credits (services/azmRewardService.js) *)

Record credit_result : Type := CreditResult { cd_credited : bool; cd_newBalance : Z; cd_logId : option string }.
Definition NOT_CREDITED : credit_result := CreditResult false 0 None.

(** The row that carries a dedup identity, in its own column or in the
    metadata. *)
Definition reward_of (userId : Z) (source key : string) (s : vdb) : option (string * reward_row) :=
  List.find (fun p => (rw_userId p.2 =? userId) && String.eqb (rw_source p.2) source &&
                      (bool_decide (rw_dedupKey p.2 = Some key) || bool_decide (rw_metadata p.2 = Some key))) (map_to_list (rewards s)).

(** INSERT of a reward row; (userId, source, dedupKey) is unique where the key
    is set. *)
Definition reward_create (id : string) (r : reward_row) : M vdb unit :=
  s ← get;
  check (match rewards s !! id with None => true | Some _ => false end &&
         negb (existsb (fun p => bool_decide (is_Some (rw_dedupKey r)) && (rw_userId p.2 =? rw_userId r) && String.eqb (rw_source p.2) (rw_source r) &&
                                 bool_decide (rw_dedupKey p.2 = rw_dedupKey r)) (map_to_list (rewards s)))) "P2002";;
  put (set_rewards (<[id := r]> (rewards s)) s).

Section Service.
Context `{DecimalLib} `{PrismaNumber} (sha256 : string -> string) (wire_vault : vault_row -> string) (wire_breakdown : azm_breakdown -> string).
(** Whether the service was built with a reward service. *)
Context (azmRewardService : bool).

Definition bad_reward (userId : Z) (amount : Q) (source : string) : bool := (userId =? 0) || Qle_bool amount 0 || (String.length source =? 0)%nat.

Definition _creditAzmWithClient (newId : string) (userId : Z) (amount : Q) (source : string) (dedupKey : option string) : M vdb credit_result :=
  check (negb (bad_reward userId amount source)) "Invalid reward parameters.";;
  s ← get;
  match truthy dedupKey ≫= (fun k => reward_of userId source k s) with
  | Some (id, r) => mret (CreditResult false (rw_balanceAfter r) (Some id))
  | None =>
      match profiles s !! userId with
      | None => throw "P2025"
      | Some p =>
          let balance := pf_azmBalance p + num_to_col amount in
          check (numeric_ok balance) "NUMERIC_OVERFLOW";;
          put (set_profiles (<[userId := Profile (pf_banStatus p) (pf_isDeleted p) balance]> (profiles s)) s);;
          reward_create newId (RewardRow userId (num_to_col amount) source dedupKey (truthy dedupKey) balance);;
          mret (CreditResult true balance (Some newId))
      end
  end.

(** The standalone wrapper: its own transaction, and no error leaves it. *)
Definition creditAzm (newId : string) (userId : Z) (amount : Q) (source : string) (dedupKey : option string) (s : vdb) : credit_result * vdb :=
  if bad_reward userId amount source then (NOT_CREDITED, s)
  else match transaction (_creditAzmWithClient newId userId amount source dedupKey) s with
  | (Ok r, s') => (r, s')
  | (Err e, s') =>
      (match truthy dedupKey with
       | Some k => if String.eqb e "P2002" then
           match reward_of userId source k s' with
           | Some (id, r) => CreditResult false (rw_balanceAfter r) (Some id)
           | None => NOT_CREDITED
           end else NOT_CREDITED
       | None => NOT_CREDITED
       end, s')
  end.

(** ** Deposits *)

(** [if (financialOperation) { ... updateMany ... }]. *)
Definition commit_claim_tx (op : option nat) (body : string) : M vdb unit :=
  match op with None => mret tt | Some _ => on_bank (commit_op op 200 (Some body)) end.

Definition authorized (p : option profile) : bool :=
  match p with Some p => negb (pf_isDeleted p) && bool_decide (pf_banStatus p = BAN_ACTIVE) | None => false end.

(** The vault after the claim of a deposit.  [extra] is the next run of the
    auto rule, an invalid date when the rule has no frequency. *)
Definition deposited (amount : Q) (isOnTime : bool) (azm : Z) (extra : option Z) (v : vault_row) : vault_row :=
  let k := v_streaks v in
  let a := v_auto v in
  with_current (col_add (v_current v) amount)
    (with_streaks (Streaks (sk_count k + if isOnTime then 1 else 0) (sk_longest k) (sk_missed k) (sk_consistency k) (sk_azm k + azm))
      (with_auto (AutoRule (ar_enabled a) (ar_amount a) (ar_frequency a) (match extra with Some t => Some t | None => ar_nextRun a end)) v)).

Definition longest (v : vault_row) : vault_row :=
  let k := v_streaks v in with_streaks (Streaks (sk_count k) (sk_count k) (sk_missed k) (sk_consistency k) (sk_azm k)) v.

(** The transaction of a deposit; [vault] is the row the caller read. *)
Definition deposit_tx (vaultId : string) (vault : vault_row) (amount : Q) (ty : deposit_type) (scheduledFor : option Z)
    (extraVaultUpdate : option (option Z)) (idempotencyKey : option string) (financialOperation : option nat) (guard : M vdb unit)
    (breakdown : azm_breakdown) (newId : string) : M vdb unit :=
  let userId := v_userId vault in
  let isOnTime := bool_decide (ty = AUTO_RULE) in
  let azm := num_to_col (az_totalAzm breakdown) in
  guard;;
  authRow ← reads (fun s => profiles s !! userId);
  check (authorized authRow) "USER_AUTHORIZATION_LOST";;
  check (match extraVaultUpdate with Some None => false | _ => true end) "INVALID_DATE";;
  vaultClaim ← vault_updateMany vaultId (fun v => bool_decide (v_status v = V_ACTIVE)) (deposited amount isOnTime azm (mjoin extraVaultUpdate));
  check (vaultClaim =? 1)%nat "VAULT_TERMINALIZED";;
  userClaim ← balance_updateMany userId (fun u p => Qle_bool amount (usdc (availableBalance u)) && authorized (Some p)) (- amount);
  why ← reads (fun s => profiles s !! userId);
  check (userClaim =? 1)%nat
    (match why with Some p => if authorized (Some p) then "INSUFFICIENT_BALANCE" else "USER_AUTHORIZATION_LOST" | None => "INSUFFICIENT_BALANCE" end);;
  (if isOnTime then
     freshVault ← reads (fun s => vaults s !! vaultId);
     match freshVault with
     | Some v => if sk_longest (v_streaks v) <? sk_count (v_streaks v) then vault_update vaultId longest;; mret tt else mret tt
     | None => mret tt
     end
   else mret tt);;
  deposit_create newId (DepositRow vaultId userId (toFixedZ 8 amount) ty DEP_COMPLETED azm scheduledFor None (truthy idempotencyKey));;
  on_bank (history_create (HistRow userId (OTHER_TYPE "VAULT_DEPOSIT") (toFixedZ 8 amount) 0 None true));;
  on_bank (post_ledger sha256 (vault_posting (vault_deposit_key newId) "VAULT_DEPOSIT" "Vault deposit - savings locked" userId "vaultDeposit" newId
    [debit_line (liability_code userId) (exact_num amount); credit_line (vault_code vaultId) (exact_num amount)]));;
  commit_claim_tx financialOperation (wire_breakdown breakdown).

(** [catch (err)]: the failed attempt is recorded, and the record's own failure
    is ignored. *)
Definition deposit_failed (vaultId : string) (vault : vault_row) (amount : Q) (ty : deposit_type) (scheduledFor : option Z) (reason newId : string) (s : vdb)
    : vdb :=
  (transaction (deposit_create newId (DepositRow vaultId (v_userId vault) (toFixedZ 8 amount) ty FAILED_OTHER 0 scheduledFor (Some reason) None)) s).2.

Inductive deposit_outcome : Type := Converged (depositId : string) (d : deposit_row) | Deposited (b : azm_breakdown).

(** The new identifiers of one call: the deposit, the record of a failure, the
    reward row. *)
Record deposit_ids : Type := DepositIds { di_deposit : string; di_failed : string; di_reward : string }.

Definition vault_breakdown (vault : vault_row) (amount : Q) (ty : deposit_type) : azm_breakdown :=
  computeAzmIntensity amount (default WEEKLY (ar_frequency (v_auto vault))) (sk_count (v_streaks vault)) ty.
Definition reward_dedup (vaultId : string) (now : Z) : string := ("vault-deposit-" +:+ vaultId +:+ "-" +:+ Z_digits now)%string.

(** [before] is the database in which the idempotency key was looked up. *)
Definition _executeDeposit (vaultId : string) (vault : vault_row) (amount : Q) (ty : deposit_type) (scheduledFor : option Z)
    (extraVaultUpdate : option (option Z)) (idempotencyKey : option string) (financialOperation : option nat) (guard : M vdb unit)
    (ids : deposit_ids) (now : Z) (before s : vdb) : res deposit_outcome * vdb :=
  let breakdown := vault_breakdown vault amount ty in
  match truthy idempotencyKey ≫= (fun k => deposit_of_key k before) with
  | Some (id, d) => (Ok (Converged id d), s)
  | None =>
      match transaction (deposit_tx vaultId vault amount ty scheduledFor extraVaultUpdate idempotencyKey financialOperation guard breakdown (di_deposit ids)) s with
      | (Ok _, s1) =>
          (Ok (Deposited breakdown),
           if azmRewardService && js_lt 0 (az_totalAzm breakdown)
           then (creditAzm (di_reward ids) (v_userId vault) (az_totalAzm breakdown) "VAULT_INTENSITY" (Some (reward_dedup vaultId now)) s1).2
           else s1)
      | (Err e, s1) => (Err e, deposit_failed vaultId vault amount ty scheduledFor e (di_failed ids) s1)
      end
  end.

Definition depositManual (userId : Z) (vaultId : string) (amountUsdc : Q) (idempotencyKey : option string) (financialOperation : option nat)
    (guard : M vdb unit) (ids : deposit_ids) (now : Z) (before s : vdb) : res deposit_outcome * vdb :=
  match
    (throw_if (Qle_bool amountUsdc 0) "amountUsdc must be > 0";;
     vault ← of_option (vaults before !! vaultId) "Vault not found";
     throw_if (negb (v_userId vault =? userId)) "Vault not found";;
     throw_if (negb (bool_decide (v_status vault = V_ACTIVE))) "Vault is not active";;
     mret vault)
  with
  | Err e => (Err e, s)
  | Ok vault => _executeDeposit vaultId vault amountUsdc MANUAL None None idempotencyKey financialOperation guard ids now before s
  end.

(** ** The auto-deposit rule *)

Inductive auto_result : Type :=
| NO_RULE | INACTIVE | USER_GONE | BANNED | INSUFFICIENT (shortfall availableBalance required : Z) | AUTO_COMPLETED.

Definition missed_row (nextRun : Z) (v : vault_row) : vault_row :=
  let k := v_streaks v in
  let a := v_auto v in
  with_streaks (Streaks 0 (sk_longest k) (sk_missed k + 1) (sk_consistency k) (sk_azm k))
    (with_auto (AutoRule (ar_enabled a) (ar_amount a) (ar_frequency a) (Some nextRun)) v).

(** The transaction that records a miss. *)
Definition missed_tx (vaultId : string) (vault : vault_row) (required : Z) (nextRun : option Z) (newId : string) : M vdb unit :=
  deposit_create newId (DepositRow vaultId (v_userId vault) required AUTO_RULE FAILED_INSUFFICIENT 0 (ar_nextRun (v_auto vault))
    (Some "Insufficient balance"%string) None);;
  match nextRun with
  | Some t => vault_update vaultId (missed_row t);; mret tt
  | None => throw "INVALID_DATE"
  end.

(** [vault] is the row the worker scanned; the user's balance is read from
    [before]. *)
Definition runAutoRule (vaultId : string) (vault : vault_row) (ids : deposit_ids) (now : Z) (before s : vdb) : res auto_result * vdb :=
  match ar_enabled (v_auto vault), ar_amount (v_auto vault) with
  | true, Some required =>
      if negb (bool_decide (v_status vault = V_ACTIVE)) then (Ok INACTIVE, s)
      else match users (bank before) !! v_userId vault with
      | None => (Ok USER_GONE, s)
      | Some user =>
          let balance := availableBalance user in
          let nextRun := (fun f => now + FREQUENCY_MS f) <$> ar_frequency (v_auto vault) in
          if balance <? required then
            match transaction (missed_tx vaultId vault required nextRun (di_deposit ids)) s with
            | (Ok _, s') => (Ok (INSUFFICIENT (d_minus required balance) balance required), s')
            | (Err e, s') => (Err e, s')
            end
          else
            match _executeDeposit vaultId vault (usdc required) AUTO_RULE (ar_nextRun (v_auto vault)) (Some nextRun) None None (mret tt) ids now before s with
            | (Ok _, s') => (Ok AUTO_COMPLETED, s')
            | (Err e, s') =>
                if String.eqb e "VAULT_TERMINALIZED" then (Ok INACTIVE, s')
                else if String.eqb e "USER_AUTHORIZATION_LOST" then (Ok BANNED, s')
                else (Err e, s')
            end
      end
  | _, _ => (Ok NO_RULE, s)
  end.

(** ** The end of a vault *)

(** [SELECT ... FOR UPDATE] and the proof that the vault is active. *)
Definition locked_vault (vaultId : string) (owner : option Z) : M vdb vault_row :=
  rows ← reads (fun s => vaults s !! vaultId);
  fresh ← lift (of_option rows "Vault not found");
  check (match owner with Some u => v_userId fresh =? u | None => true end) "Vault not found";;
  check (bool_decide (v_status fresh = V_ACTIVE)) "VAULT_ALREADY_TERMINALIZED";;
  mret fresh.

(** Penalty and refund at 12 places. *)
Definition break_penalty (v : vault_row) : Q := dec12 (d_times (v_current v) (v_penaltyPct v)).
Definition break_refund (v : vault_row) : Q := dec12 (d_minus (v_current v * 10 ^ 4) (d_times (v_current v) (v_penaltyPct v))).

Definition break_tx (userId : Z) (vaultId : string) (financialOperation : option nat) (now : Z) : M vdb vault_row :=
  fresh ← locked_vault vaultId (Some userId);
  let balance := v_current fresh in
  let penalty := break_penalty fresh in
  let refund := break_refund fresh in
  balance_update userId refund;;
  vaultUpdate ← vault_update vaultId (with_end V_BROKEN_EARLY now (Some now) (v_streaks fresh) (_buildReceipt fresh V_BROKEN_EARLY refund penalty now));
  on_bank (modify (add_profitLog (toFixedZ 8 penalty, ("vault-break-" +:+ vaultId)%string)));;
  on_bank (history_create (HistRow userId (OTHER_TYPE "VAULT_RELEASE") (toFixedZ 8 refund) (toFixedZ 8 penalty) None true));;
  on_bank (post_ledger sha256 (vault_posting (break_key vaultId) "VAULT_RELEASE" "Vault broken early - refund to wallet, penalty realized" userId "vault" vaultId
    [debit_line (vault_code vaultId) (exact_num (usdc balance)); credit_line (liability_code userId) (exact_num refund); credit_line "revenue:fees" (exact_num penalty)]));;
  commit_claim_tx financialOperation (wire_vault vaultUpdate);;
  mret vaultUpdate.
Definition breakEarly (userId : Z) (vaultId : string) (financialOperation : option nat) (now : Z) : vdb -> res vault_row * vdb :=
  transaction (break_tx userId vaultId financialOperation now).

(** 25 AZM and 1.25% of the balance, to the cent. *)
Definition completionBonus (balance : Z) : Q := dec12 (d_plus (25 * 10 ^ 12) (d_times balance 125)).
Definition completion_dedup (vaultId : string) : string := ("vault-completion-" +:+ vaultId)%string.

Definition scored (v : vault_row) : streaks :=
  let k := v_streaks v in Streaks (sk_count k) (sk_longest k) (sk_missed k) (rhu (num_to_col (_computeConsistencyScore v)) (10 ^ 6)) (sk_azm k).

Definition complete_tx (vaultId : string) (rewardId : string) (now : Z) : M vdb credit_result :=
  fresh ← locked_vault vaultId None;
  let balance := v_current fresh in
  let userId := v_userId fresh in
  balance_update userId (usdc balance);;
  on_bank (post_ledger sha256 (vault_posting (complete_key vaultId) "VAULT_RELEASE" "Vault matured - full balance returned to wallet" userId "vault" vaultId
    [debit_line (vault_code vaultId) (exact_num (usdc balance)); credit_line (liability_code userId) (exact_num (usdc balance))]));;
  vault_update vaultId (with_end V_COMPLETED now (v_brokenAt fresh) (scored fresh) (_buildReceipt fresh V_COMPLETED (usdc balance) 0 now));;
  on_bank (history_create (HistRow userId (OTHER_TYPE "VAULT_RELEASE") balance 0 None true));;
  check azmRewardService "VAULT_REWARD_SERVICE_UNAVAILABLE";;
  _creditAzmWithClient rewardId userId (two_places (completionBonus balance)) "VAULT_COMPLETION" (Some (completion_dedup vaultId)).
Definition completeMatured (vaultId : string) (rewardId : string) (now : Z) : vdb -> res credit_result * vdb :=
  transaction (complete_tx vaultId rewardId now).

(** ** workers/vaultWorker.js *)

(** The first 50 rows of a scan, in the order the database returns them. *)
Definition TAKE : nat := 50.
Definition due_vaults (now : Z) (s : vdb) : list (string * vault_row) :=
  take TAKE (List.filter (fun p => bool_decide (v_status p.2 = V_ACTIVE) && ar_enabled (v_auto p.2) &&
    match ar_nextRun (v_auto p.2) with Some t => t <=? now | None => false end) (map_to_list (vaults s))).
Definition matured_vaults (now : Z) (s : vdb) : list (string * vault_row) :=
  take TAKE (List.filter (fun p => bool_decide (v_status p.2 = V_ACTIVE) && (v_maturityDate p.2 <=? now)) (map_to_list (vaults s))).

(** Errors of one vault are logged and the loop goes on. *)
Definition _fireAutoRules (ids : string -> deposit_ids) (now : Z) (s : vdb) : vdb :=
  foldl (fun s p => (runAutoRule p.1 p.2 (ids p.1) now s s).2) s (due_vaults now s).
Definition sweep (newIds : string -> string) (now : Z) (matured : list (string * vault_row)) (s : vdb) : vdb :=
  foldl (fun s p => (completeMatured p.1 (newIds p.1) now s).2) s matured.
Definition _sweepMatured (newIds : string -> string) (now : Z) (s : vdb) : vdb := sweep newIds now (matured_vaults now s) s.

(** [running] is the overlap guard. *)
Definition _tick (running : bool) (ids : string -> deposit_ids) (newIds : string -> string) (now : Z) (s : vdb) : vdb :=
  if running then s else _sweepMatured newIds now (_fireAutoRules ids now s).
End Service.

(** ** The auto-rule handlers (controllers/vaultController.js) *)

(** The owner's vault as the handler read it. *)
Definition own_vault (userId : Z) (vaultId : string) (before : vdb) : res vault_row :=
  vault ← of_option (vaults before !! vaultId) "Vault not found";
  throw_if (negb (v_userId vault =? userId)) "Vault not found";;
  mret vault.

Definition NO_AUTO : auto_rule := AutoRule false None None None.

Definition setAutoRule (userId : Z) (vaultId : string) (amountUsdc : option Q) (freq : option frequency) (enabled : bool) (now : Z) (before : vdb)
    : vdb -> res vault_row * vdb :=
  transaction (
    lift (own_vault userId vaultId before);;
    rule ← lift (if enabled then
        f ← of_option freq "Invalid frequency";
        q ← of_option amountUsdc "Invalid amountUsdc";
        throw_if (Qle_bool q 0) "Invalid amountUsdc";;
        mret (AutoRule true (Some (toFixedZ 8 q)) (Some f) (Some (now + FREQUENCY_MS f)))
      else mret NO_AUTO);
    vault_update vaultId (with_auto rule)).

Definition disableAutoRule (userId : Z) (vaultId : string) (before : vdb) : vdb -> res vault_row * vdb :=
  transaction (
    lift (own_vault userId vaultId before);;
    vault_update vaultId (with_auto NO_AUTO)).
