(* ===== verification/VaultProps.v ===== *)
(** * Vaults: what each operation does

    The rounding of the columns; each transaction of the service as a change of
    one vault with an exact effect on balances, history and ledger
    ([vault_shape]); the invariant; the books; and the calls of the service, of
    the worker and of the handlers as steps, interleaved with smart escrow. *)

From stdpp Require Import base gmap strings list relations.
From Stdlib Require Import ZArith QArith Qround Lia Ascii.
From S2P Require Import Prelude JsNumber ExactDecimal Json Ledger LedgerFacts LedgerHash LedgerProps Idempotency Escrow EscrowFacts EscrowProps WalletProps Vault.

Local Open Scope Z_scope.

(** ** Rounding to a column *)

Lemma rhu_scale a b k : 0 < b -> 0 < k -> rhu (a * k) (b * k) = rhu a b.
Proof. intros Hb Hk. unfold rhu. replace (2 * (a * k) + b * k) with ((2 * a + b) * k) by lia. replace (2 * (b * k)) with (2 * b * k) by lia. apply Z.div_mul_cancel_r; lia. Qed.
Lemma rhu_shift a b u : 0 < b -> rhu (a + u * b) b = rhu a b + u.
Proof. intros Hb. unfold rhu. replace (2 * (a + u * b) + b) with (2 * a + b + u * (2 * b)) by lia. apply Z.div_add. lia. Qed.
Lemma rhu_exact u b : 0 < b -> rhu (u * b) b = u.
Proof. intros Hb. apply rhu_near; lia. Qed.

(** [q] is not half-way between two units, so a column that gives [q] and one
    that takes [q] round to the same number of units. *)
Definition no_tie (q : Q) : Prop := (2 * (Qnum q * 10 ^ 8)) mod (2 * QDen q) <> QDen q.

Lemma rhu_opp a b : 0 < b -> (2 * a) mod (2 * b) <> b -> rhu (- a) b = - rhu a b.
Proof.
  intros Hb Ht. pose proof (rhu_spec a b Hb) as Hs. apply rhu_near; [done |].
  assert (2 * (a - rhu a b * b) <> - b); [| lia]. intros He. apply Ht.
  replace (2 * a) with (b + (rhu a b - 1) * (2 * b)) by lia. rewrite Z.mod_add by lia. apply Z.mod_small. lia.
Qed.

Lemma fixed8_usdc u : toFixedZ 8 (usdc u) = u.
Proof.
  unfold toFixedZ, toFixed_pos, usdc. cbn [Qnum Qden]. change (Zpos 100000000) with (10 ^ 8).
  destruct (Z.ltb_spec u 0); rewrite rhu_exact by lia; lia.
Qed.

Lemma fixed8_nonneg q : 0 <= Qnum q -> toFixedZ 8 q = rhu (Qnum q * 10 ^ 8) (QDen q) /\ 0 <= toFixedZ 8 q.
Proof.
  intros Hq. unfold toFixedZ, toFixed_pos. destruct (Z.ltb_spec (Qnum q) 0); [lia |]. split; [done |]. apply rhu_nonneg; lia.
Qed.

Lemma col_add_num u q : 0 <= u * QDen q + Qnum q * 10 ^ 8 -> col_add u q = rhu (Qnum q * 10 ^ 8) (QDen q) + u.
Proof.
  intros Hn. unfold col_add, usdc. set (p := (_ + _)%Q). assert (Hp : Qnum p = u * QDen q + Qnum q * 10 ^ 8 /\ QDen p = 10 ^ 8 * QDen q) by done.
  destruct Hp as [Hp1 Hp2]. unfold toFixedZ, toFixed_pos. destruct (Z.ltb_spec (Qnum p) 0); [lia |].
  rewrite Hp1, Hp2, (Z.mul_comm (10 ^ 8) (QDen q)), rhu_scale by lia. rewrite Z.add_comm. apply rhu_shift. lia.
Qed.

Lemma col_add_credit u q : 0 <= u -> 0 <= Qnum q -> col_add u q = u + toFixedZ 8 q.
Proof. intros Hu Hq. destruct (fixed8_nonneg q Hq) as [-> _]. rewrite col_add_num by lia. lia. Qed.

(** What a column loses that gives [q]. *)
Definition paid_units (q : Q) : Z := - rhu (- (Qnum q * 10 ^ 8)) (QDen q).

Lemma col_add_debit u q : 0 <= Qnum q -> Qle_bool q (usdc u) = true -> col_add u (- q) = u - paid_units q.
Proof.
  intros Hq Hle. apply Qle_bool_iff in Hle. unfold Qle, usdc in Hle. cbn [Qnum Qden] in Hle.
  unfold paid_units. rewrite col_add_num; cbn [Qopp Qnum Qden]; [| lia]. rewrite Z.mul_opp_l. lia.
Qed.

Lemma paid_no_tie q : 0 <= Qnum q -> no_tie q -> paid_units q = toFixedZ 8 q.
Proof. intros Hq Ht. destruct (fixed8_nonneg q Hq) as [-> _]. unfold paid_units. rewrite rhu_opp; [lia | lia | exact Ht]. Qed.
(** In general the column may keep the half of a unit. *)
Lemma paid_bounds q : 0 <= Qnum q -> toFixedZ 8 q - 1 <= paid_units q <= toFixedZ 8 q.
Proof.
  intros Hq. destruct (fixed8_nonneg q Hq) as [-> _]. unfold paid_units. pose proof (rhu_spec (Qnum q * 10 ^ 8) (QDen q) ltac:(lia)).
  pose proof (rhu_spec (- (Qnum q * 10 ^ 8)) (QDen q) ltac:(lia)). nia.
Qed.

(** Whether amounts that end in half a unit occur in the runs that are
    considered, and what one of them then costs the books. *)
Class HalfUnits : Type := half_units : bool.
Definition slack `{HalfUnits} : Z := if half_units then 1 else 0.
Definition whole_units `{HalfUnits} (q : Q) : Prop := half_units = false -> no_tie q.
(** [y] is [x], or more by at most the halves of [n] amounts. *)
Definition within `{HalfUnits} (x y n : Z) : Prop := 0 <= y - x <= slack * n.

Section HalfUnits.
Context `{HalfUnits}.

Lemma slack_nonneg : 0 <= slack.
Proof. unfold slack. by destruct half_units. Qed.
Lemma whole_units_paid q : 0 <= Qnum q -> whole_units q -> toFixedZ 8 q - slack <= paid_units q <= toFixedZ 8 q.
Proof.
  intros Hq Hw. pose proof (paid_bounds q Hq). unfold slack, whole_units in *. destruct half_units; [done |]. rewrite paid_no_tie by auto. lia.
Qed.
Lemma within_refl x : within x x 0.
Proof. unfold within. lia. Qed.
Lemma within_same x n : 0 <= n -> within x x n.
Proof. intros Hn. unfold within. pose proof slack_nonneg. nia. Qed.
Lemma within_trans x y z m n k : within x y (n - m) -> within y z (k - n) -> within x z (k - m).
Proof. unfold within, slack. destruct half_units; lia. Qed.
End HalfUnits.

(** ** Statements *)

Lemma on_bank_Ok {A} (m : M edb A) s a s' : on_bank m s = Ok (a, s') <-> exists w, m (bank s) = Ok (a, w) /\ s' = set_bank w s.
Proof.
  unfold on_bank. destruct (m (bank s)) as [[x w] | e]; split.
  - intros [= -> <-]. eauto.
  - by intros (w' & [= -> ->] & ->).
  - done.
  - by intros (w' & ? & _).
Qed.

Lemma vault_update_Ok id f s r s' : vault_update id f s = Ok (r, s') ->
  exists v, vaults s !! id = Some v /\ vault_ok (f v) = true /\ r = f v /\ s' = set_vaults (<[id := f v]> (vaults s)) s.
Proof.
  unfold vault_update. intros Hr. apply Mbind_Ok in Hr as (s1 & s2 & Hg & Hr). apply get_Ok in Hg as [-> ->].
  destruct (vaults s !! id) as [v |]; [| by apply throw_Ok in Hr]. run_inv Hr. eauto.
Qed.

Lemma vault_updateMany_Ok id cond f s n s' : vault_updateMany id cond f s = Ok (n, s') ->
  n = 0%nat /\ s' = s \/
  n = 1%nat /\ exists v, vaults s !! id = Some v /\ cond v = true /\ vault_ok (f v) = true /\ s' = set_vaults (<[id := f v]> (vaults s)) s.
Proof.
  unfold vault_updateMany. intros Hr. apply Mbind_Ok in Hr as (s1 & s2 & Hg & Hr). apply get_Ok in Hg as [-> ->].
  destruct (vaults s !! id) as [v |] eqn:Hv; [| run_inv Hr; auto]. destruct (cond v) eqn:Hc; [| run_inv Hr; auto].
  apply Mbind_Ok in Hr as (x & s1 & Hup & Hr). apply vault_update_Ok in Hup as (v' & Hv' & Hok & _ & ->). run_inv Hr.
  right. split; [done |]. exists v. split_and!; congruence.
Qed.

Lemma deposit_of_key_None k s : deposit_of_key k s = None -> forall id d, deposits s !! id = Some d -> dp_idempotencyKey d <> Some k.
Proof.
  intros Hf id d Hd He. pose proof (List.find_none _ _ Hf (id, d)) as Hn.
  assert (Hin : In (id, d) (map_to_list (deposits s))) by (by apply list_elem_of_In, elem_of_map_to_list).
  specialize (Hn Hin). simpl in Hn. by rewrite bool_decide_true in Hn.
Qed.

Lemma deposit_create_Ok id d s x s' : deposit_create id d s = Ok (x, s') ->
  deposits s !! id = None /\ (forall k j e, dp_idempotencyKey d = Some k -> deposits s !! j = Some e -> dp_idempotencyKey e <> Some k) /\
  s' = set_deposits (<[id := d]> (deposits s)) s.
Proof.
  unfold deposit_create. intros Hr. apply Mbind_Ok in Hr as (s1 & s2 & Hg & Hr). apply get_Ok in Hg as [-> ->].
  apply Mbind_Ok in Hr as (y & s2 & Hc & Hr). apply check_Ok in Hc as [_ ->].
  apply Mbind_Ok in Hr as (y1 & s2 & Hc & Hr). apply check_Ok in Hc as [Hc ->]. apply Mbind_Ok in Hr as (y2 & s2 & Hc2 & Hr).
  apply check_Ok in Hc2 as [_ ->]. apply put_Ok in Hr. apply andb_true_iff in Hc as [Hid Hk]. split_and!; [by destruct (deposits s !! id) | | done].
  intros k j e Hd He. rewrite Hd in Hk. destruct (deposit_of_key k s) eqn:Hf; [done |]. by eapply deposit_of_key_None.
Qed.

Lemma balance_update_Ok userId q s x s' : balance_update userId q s = Ok (x, s') ->
  exists u, users (bank s) !! userId = Some u /\ user_ok (apply_delta (balance_delta q u) u) = true /\
    s' = set_bank (set_users (<[userId := apply_delta (balance_delta q u) u]> (users (bank s))) (bank s)) s.
Proof.
  unfold balance_update. intros Hr. apply Mbind_Ok in Hr as (s1 & s2 & Hg & Hr). apply get_Ok in Hg as [-> ->].
  destruct (users (bank s) !! userId) as [u |] eqn:Hu; [| by apply throw_Ok in Hr]. apply on_bank_Ok in Hr as (w & Hr & ->).
  apply user_update_Ok in Hr as (u' & -> & Hu' & Hok). assert (u' = u) as -> by congruence. eauto.
Qed.

Lemma balance_updateMany_Ok userId cond q s n s' : balance_updateMany userId cond q s = Ok (n, s') ->
  n = 0%nat /\ s' = s \/
  n = 1%nat /\ exists u p, users (bank s) !! userId = Some u /\ profiles s !! userId = Some p /\ cond u p = true /\
    user_ok (apply_delta (balance_delta q u) u) = true /\
    s' = set_bank (set_users (<[userId := apply_delta (balance_delta q u) u]> (users (bank s))) (bank s)) s.
Proof.
  unfold balance_updateMany. intros Hr. apply Mbind_Ok in Hr as (s1 & s2 & Hg & Hr). apply get_Ok in Hg as [-> ->].
  destruct (users (bank s) !! userId) as [u |] eqn:Hu; [| run_inv Hr; auto]. destruct (profiles s !! userId) as [p |] eqn:Hp; [| run_inv Hr; auto].
  destruct (cond u p) eqn:Hc; [| run_inv Hr; auto]. apply Mbind_Ok in Hr as (x & s1 & Hup & Hr).
  apply balance_update_Ok in Hup as (u' & Hu' & Hok & ->). run_inv Hr. right. split; [done |]. assert (u' = u) as -> by congruence. by exists u, p.
Qed.

Lemma commit_claim_tx_Ok op body s x s' : commit_claim_tx op body s = Ok (x, s') -> exists ops, s' = set_bank (set_operations ops (bank s)) s.
Proof.
  unfold commit_claim_tx. destruct op as [o |]; intros Hr.
  - apply on_bank_Ok in Hr as (w & Hr & ->). unfold commit_op in Hr. apply Mbind_Ok in Hr as (s1 & s2 & Hg & Hr). apply get_Ok in Hg as [-> ->].
    apply Mbind_Ok in Hr as (y & s2 & Hl & Hr). apply lift_Ok in Hl as [_ ->]. apply put_Ok in Hr as ->. by eexists.
  - apply Mret_Ok in Hr as [_ ->]. exists (operations (bank s)). by destruct s as [[] ? ? ? ?].
Qed.

Lemma locked_vault_Ok id owner s v s' : locked_vault id owner s = Ok (v, s') ->
  s' = s /\ vaults s !! id = Some v /\ v_status v = V_ACTIVE /\ (forall u, owner = Some u -> v_userId v = u).
Proof.
  unfold locked_vault. intros Hr. apply Mbind_Ok in Hr as (o & s1 & Hf & Hr). apply reads_Ok in Hf as [-> ->].
  apply Mbind_Ok in Hr as (v' & s1 & Hl & Hr). apply lift_Ok in Hl as [Hl ->]. apply of_option_Ok in Hl.
  apply Mbind_Ok in Hr as (y & s1 & Hc & Hr). apply check_Ok in Hc as [Ho ->]. apply Mbind_Ok in Hr as (y1 & s1 & Hc & Hr). apply check_Ok in Hc as [Hs ->].
  apply Mret_Ok in Hr as [-> ->]. apply bool_decide_eq_true in Hs. split_and!; try done. intros u ->. by apply Z.eqb_eq in Ho.
Qed.

(** ** Keys and accounts *)

Ltac vkey_neq := first [keys_apart "ledger:vault:deposit:"%string | keys_apart "ledger:vault:break-early:"%string | keys_apart "ledger:vault:complete:"%string].

Inductive vault_key : string -> Prop :=
| vk_deposit d : vault_key (vault_deposit_key d)
| vk_break id : vault_key (break_key id)
| vk_complete id : vault_key (complete_key id).
#[export] Hint Constructors vault_key : azm.

#[export] Instance vault_own : OwnKeys vault_key.
Proof.
  split; [intros k i []; vkey_neq | intros k i []; vkey_neq |].
  intros k i Hc [Hk | [[st Hk] | [[st Hk] | Hk]]]; destruct Hc; revert Hk; vkey_neq.
Qed.

Inductive vault_account : string -> Prop := vault_account_intro id : vault_account (vault_code id).
#[export] Hint Constructors vault_account : azm.
Lemma vault_account_own c : vault_account c -> OwnCode c.
Proof. by intros []. Qed.

Lemma vault_eqb i j : String.eqb (vault_code i) (vault_code j) = String.eqb i j.
Proof.
  destruct (String.eqb_spec i j) as [-> | Hne]; [apply String.eqb_refl |].
  apply String.eqb_neq. intros He. apply (inj (String.append _)), str_app_inj_r in He. done.
Qed.
Lemma vault_liability_eqb i u : String.eqb (vault_code i) (liability_code u) = false.
Proof. reflexivity. Qed.
Lemma liability_vault_eqb i u : String.eqb (liability_code u) (vault_code i) = false.
Proof. reflexivity. Qed.
Lemma revenue_vault_eqb i : String.eqb "revenue:fees" (vault_code i) = false.
Proof. reflexivity. Qed.
Lemma vault_revenue_eqb i : String.eqb (vault_code i) "revenue:fees" = false.
Proof. reflexivity. Qed.
Lemma vault_locked_eqb i j : String.eqb (vault_code i) (locked_code j) = false.
Proof. reflexivity. Qed.
#[export] Hint Rewrite vault_locked_eqb vault_eqb vault_liability_eqb liability_vault_eqb revenue_vault_eqb vault_revenue_eqb : codes.

(** ** The transactions *)

(** The terms of a vault, which no operation changes. *)
Record same_vault (v v' : vault_row) : Prop := {
  sv_user : v_userId v' = v_userId v;
  sv_name : v_name v' = v_name v;
  sv_target : v_target v' = v_target v;
  sv_pct : v_penaltyPct v' = v_penaltyPct v;
  sv_start : v_startDate v' = v_startDate v;
  sv_maturity : v_maturityDate v' = v_maturityDate v;
}.

#[export] Instance same_vault_po : PreOrder same_vault.
Proof. split; [by intros v; split |]. intros v1 v2 v3 [] []. split; congruence. Qed.

Lemma same_end st now b k r v : same_vault v (with_end st now b k r v).
Proof. by split. Qed.

(** The tables beside the vaults and the wallet. *)
Definition same_side (s s' : vdb) : Prop := profiles s' = profiles s /\ rewards s' = rewards s /\ roundUps s' = roundUps s.

(** The hook a caller hands into the deposit's transaction only reads. *)
Definition only_reads (m : M vdb unit) : Prop := forall s x s', m s = Ok (x, s') -> s' = s.

Section Transactions.
Context `{DecimalLib} (sha256 : string -> string).

Lemma vault_posted key ty desc uid entity id specs s r s' :
  Forall (fun l => 0 <= spec_amount l) specs -> ty <> "ASSET_CONVERSION"%string ->
  on_bank (post_ledger sha256 (vault_posting key ty desc uid entity id (map to_line specs))) s = Ok (r, s') ->
  exists l', s' = set_bank (set_ledger l' (bank s)) s /\ posted sha256 key (map to_nline specs) (ledger (bank s)) l' /\ Forall (fun l => 0 < spec_amount l) specs.
Proof.
  intros Hs Hty Hr. apply on_bank_Ok in Hr as (w & Hr & ->).
  apply (specs_posted sha256 (vault_posting key ty desc uid entity id (map to_line specs)) specs) in Hr as (l' & -> & Hp & Hpos); [eauto | done..].
Qed.

Definition deposit_row_of (vaultId : string) (userId a : Z) (ty : deposit_type) (azm : Z) (sched : option Z) (k : option string) : deposit_row :=
  DepositRow vaultId userId a ty DEP_COMPLETED azm sched None (truthy k).

(** The effect on the wallet of a deposit of [a] units that costs [p], of the
    release of [r] units with the penalty [p], and of the release of
    everything. *)
Definition deposit_effect (vaultId newId : string) (u p a : Z) : edb -> edb -> Prop :=
  wallet_effect sha256 [(u, Delta (- p) 0 0)] [HistRow u (OTHER_TYPE "VAULT_DEPOSIT") a 0 None true] (vault_deposit_key newId)
    [NLine (liability_code u) a 0; NLine (vault_code vaultId) 0 a].
Definition break_effect (vaultId : string) (u r p : Z) : edb -> edb -> Prop :=
  wallet_effect sha256 [(u, Delta r 0 0)] [HistRow u (OTHER_TYPE "VAULT_RELEASE") r p None true] (break_key vaultId)
    [NLine (vault_code vaultId) (r + p) 0; NLine (liability_code u) 0 r; NLine "revenue:fees" 0 p].
Definition complete_effect (vaultId : string) (u b : Z) : edb -> edb -> Prop :=
  wallet_effect sha256 [(u, Delta b 0 0)] [HistRow u (OTHER_TYPE "VAULT_RELEASE") b 0 None true] (complete_key vaultId)
    [NLine (vault_code vaultId) b 0; NLine (liability_code u) 0 b].

(** A vault after a deposit of [a] units. *)
Record deposited_to (a : Z) (v v' : vault_row) : Prop := {
  dt_terms : same_vault v v';
  dt_status : v_status v' = v_status v;
  dt_current : v_current v' = v_current v + a;
  dt_auto : ar_amount (v_auto v') = ar_amount (v_auto v);
}.

Lemma deposited_spec a q onTime azm extra v : 0 <= v_current v -> 0 <= Qnum q -> a = toFixedZ 8 q -> deposited_to a v (deposited q onTime azm extra v).
Proof. intros Hc Hq ->. split; [by split | done | | done]. simpl. by apply col_add_credit. Qed.

(** The longest streak changes nothing else. *)
Lemma longest_step vaultId ty a v v1 s x s' : deposited_to a v v1 -> vault_ok v1 = true -> vaults s !! vaultId = Some v1 ->
  (if bool_decide (ty = AUTO_RULE) then
     freshVault ← reads (fun s => vaults s !! vaultId);
     match freshVault with
     | Some v => if sk_longest (v_streaks v) <? sk_count (v_streaks v) then vault_update vaultId longest;; mret tt else mret tt
     | None => mret tt
     end
   else mret tt : M vdb unit) s = Ok (x, s') ->
  exists v2, deposited_to a v v2 /\ vault_ok v2 = true /\ s' = set_vaults (<[vaultId := v2]> (vaults s)) s.
Proof.
  intros Hd Hok Hv Hr. assert (Hsame : s' = s -> exists v2, deposited_to a v v2 /\ vault_ok v2 = true /\ s' = set_vaults (<[vaultId := v2]> (vaults s)) s).
  { intros ->. exists v1. split_and!; [done | done |]. rewrite insert_id by done. by destruct s. }
  destruct (bool_decide _); [| apply Mret_Ok in Hr as [_ ->]; by apply Hsame].
  apply Mbind_Ok in Hr as (o & s1 & Hf & Hr). apply reads_Ok in Hf as [-> ->]. rewrite Hv in Hr.
  destruct (_ <? _); [| apply Mret_Ok in Hr as [_ ->]; by apply Hsame].
  apply Mbind_Ok in Hr as (y & s1 & Hup & Hr). apply vault_update_Ok in Hup as (v2 & Hv2 & Hok2 & _ & ->). apply Mret_Ok in Hr as [_ ->].
  assert (v2 = v1) as -> by congruence. exists (longest v1). split_and!; [| done | done]. by destruct Hd as [[] ? ? ?]; split; [split |..].
Qed.

Lemma deposit_tx_Ok `{PrismaNumber} wb vaultId vault amount ty sched extra key op guard b newId s x s' :
  only_reads guard -> 0 <= Qnum amount -> (forall v, vaults s !! vaultId = Some v -> 0 <= v_current v) ->
  deposit_tx sha256 wb vaultId vault amount ty sched extra key op guard b newId s = Ok (x, s') ->
  let a := toFixedZ 8 amount in
  exists v v', vaults s !! vaultId = Some v /\ v_status v = V_ACTIVE /\ deposited_to a v v' /\ vault_ok v' = true /\ vaults s' = <[vaultId := v']> (vaults s) /\ 0 < a /\
    authorized (profiles s !! v_userId vault) = true /\ deposits s !! newId = None /\
    (forall k j e, truthy key = Some k -> deposits s !! j = Some e -> dp_idempotencyKey e <> Some k) /\
    deposits s' = <[newId := deposit_row_of vaultId (v_userId vault) a ty (num_to_col (az_totalAzm b)) sched key]> (deposits s) /\
    deposit_effect vaultId newId (v_userId vault) (paid_units amount) a (bank s) (bank s') /\ same_side s s'.
Proof.
  intros Hg Hq Hcur Hr a. unfold deposit_tx in Hr. apply Mbind_Ok in Hr as (y & s1 & H1 & Hr). apply Hg in H1 as ->.
  apply Mbind_Ok in Hr as (p & s1 & H1 & Hr). apply reads_Ok in H1 as [-> ->]. apply Mbind_Ok in Hr as (y1 & s1 & H1 & Hr). apply check_Ok in H1 as [Hauth ->].
  apply Mbind_Ok in Hr as (y2 & s1 & H1 & Hr). apply check_Ok in H1 as [_ ->].
  apply Mbind_Ok in Hr as (n & s1 & Hv & Hr). apply Mbind_Ok in Hr as (y3 & s2 & H1 & Hr). apply check_Ok in H1 as [Hn ->].
  apply vault_updateMany_Ok in Hv as [[-> _] | (_ & v & Hv & Hst & Hvok & ->)]; [done |]. apply bool_decide_eq_true in Hst.
  apply Mbind_Ok in Hr as (n2 & s1 & Hu & Hr). apply Mbind_Ok in Hr as (why & s2 & H1 & Hr). apply reads_Ok in H1 as [_ ->].
  apply Mbind_Ok in Hr as (y4 & s2 & H1 & Hr). apply check_Ok in H1 as [Hn2 ->].
  apply balance_updateMany_Ok in Hu as [[-> _] | (_ & u & pf & Hu & Hp & Hc & Hok & ->)]; [done |]. apply andb_true_iff in Hc as [Hle _].
  pose proof (deposited_spec a amount (bool_decide (ty = AUTO_RULE)) (num_to_col (az_totalAzm b)) (mjoin extra) v (Hcur v Hv) Hq eq_refl) as Hd.
  apply Mbind_Ok in Hr as (y5 & s1 & Hl & Hr). eapply longest_step in Hl as (v' & Hd' & Hvok' & ->); [| exact Hd | exact Hvok | by simpl; rewrite lookup_insert_eq].
  apply Mbind_Ok in Hr as (y6 & s1 & Hdep & Hr). apply deposit_create_Ok in Hdep as (Hfresh & Hkey & ->).
  apply Mbind_Ok in Hr as (y7 & s1 & Hh & Hr). apply on_bank_Ok in Hh as (w & Hh & ->). apply history_create_Ok in Hh as ->.
  apply Mbind_Ok in Hr as (y8 & s1 & Hpost & Hr). rewrite !exact_num_exact_dec in Hpost by done.
  destruct (fixed8_nonneg amount Hq) as [_ Ha]. fold a in Ha, Hpost.
  apply (vault_posted _ _ _ _ _ _ [DebitOf (liability_code (v_userId vault)) a; CreditOf (vault_code vaultId) a]) in Hpost as (l' & -> & Hpost & Hpos);
    [| repeat constructor; done | done].
  apply commit_claim_tx_Ok in Hr as (ops & ->). inversion Hpos as [| ? ? Hpa _]; subst. simpl in Hpa.
  simpl in Hu. assert (Hdelta : balance_delta (- amount) u = Delta (- paid_units amount) 0 0).
  { unfold balance_delta. rewrite col_add_debit by done. f_equal. lia. } rewrite Hdelta in *.
  exists v, v'. split_and!; try done; simpl.
  - by rewrite insert_insert_eq.
  - split; try done. simpl. by apply moves_one.
Qed.

(** Penalty and refund are not negative. *)
Lemma break_shares v : 0 <= v_current v < DECIMAL_20_8_LIMIT -> 0 <= v_penaltyPct v <= 10000 ->
  0 <= Qnum (break_penalty v) /\ 0 <= Qnum (break_refund v).
Proof.
  unfold DECIMAL_20_8_LIMIT. intros Hb Hk. unfold break_penalty, break_refund, dec12, d_times, d_minus. cbn [Qnum].
  split; [apply dround_nonneg; nia |]. apply dround_nonneg. change (10 ^ 4) with 10000.
  enough (dround (v_current v * v_penaltyPct v) <= v_current v * 10000) by lia.
  replace (v_current v * 10000) with (dround (v_current v * 10 ^ 4)) by (rewrite dround_sig; lia). apply dround_mono. nia.
Qed.

Lemma usdc_num u : 0 <= u -> 0 <= Qnum (usdc u).
Proof. done. Qed.

Lemma break_tx_Ok wv userId vaultId op now s r s' :
  (forall v, vaults s !! vaultId = Some v -> 0 <= v_current v < DECIMAL_20_8_LIMIT /\ 0 <= v_penaltyPct v <= 10000) ->
  columns_ok (bank s) ->
  break_tx sha256 wv userId vaultId op now s = Ok (r, s') ->
  exists v rf pn, vaults s !! vaultId = Some v /\ v_status v = V_ACTIVE /\ v_userId v = userId /\
    rf = toFixedZ 8 (break_refund v) /\ pn = toFixedZ 8 (break_penalty v) /\ 0 < rf /\ 0 < pn /\ rf + pn = v_current v /\
    r = with_end V_BROKEN_EARLY now (Some now) (v_streaks v) (_buildReceipt v V_BROKEN_EARLY (break_refund v) (break_penalty v) now) v /\
    vaults s' = <[vaultId := r]> (vaults s) /\ deposits s' = deposits s /\ same_side s s' /\
    profitLog (bank s') = profitLog (bank s) ++ [(pn, ("vault-break-" +:+ vaultId)%string)] /\ break_effect vaultId userId rf pn (bank s) (bank s').
Proof.
  intros Hrow Hnn Hr. unfold break_tx in Hr. apply Mbind_Ok in Hr as (v & s1 & Hl & Hr). apply locked_vault_Ok in Hl as (-> & Hv & Hst & Hown).
  specialize (Hown userId eq_refl). destruct (Hrow v Hv) as [Hb Hk]. destruct (break_shares v Hb Hk) as [Hp0 Hr0].
  destruct (fixed8_nonneg _ Hp0) as [_ Hpn]. destruct (fixed8_nonneg _ Hr0) as [_ Hrf].
  apply Mbind_Ok in Hr as (y & s1 & Hu & Hr). apply balance_update_Ok in Hu as (u & Hu & Hok & ->).
  apply Mbind_Ok in Hr as (v1 & s1 & Hup & Hr). apply vault_update_Ok in Hup as (v2 & Hv2 & _ & -> & ->). simpl in Hv2. assert (v2 = v) as -> by congruence.
  apply Mbind_Ok in Hr as (y1 & s1 & Hm & Hr). apply on_bank_Ok in Hm as (w & Hm & ->). apply modify_Ok in Hm as ->.
  apply Mbind_Ok in Hr as (y2 & s1 & Hh & Hr). apply on_bank_Ok in Hh as (w & Hh & ->). apply history_create_Ok in Hh as ->.
  apply Mbind_Ok in Hr as (y3 & s1 & Hpost & Hr). rewrite (exact_num_exact_dec (usdc _)), (exact_num_exact_dec (break_refund v)), (exact_num_exact_dec (break_penalty v)), fixed8_usdc in Hpost by (done || (apply usdc_num; lia)).
  set (rf := toFixedZ 8 (break_refund v)) in *. set (pn := toFixedZ 8 (break_penalty v)) in *.
  apply (vault_posted _ _ _ _ _ _ [DebitOf (vault_code vaultId) (v_current v); CreditOf (liability_code userId) rf; CreditOf "revenue:fees" pn])
    in Hpost as (l' & -> & Hpost & Hpos); [| repeat constructor; simpl; lia | done].
  apply Mbind_Ok in Hr as (y4 & s1 & Hop & Hr). apply commit_claim_tx_Ok in Hop as (ops & ->). apply Mret_Ok in Hr as [-> ->].
  rewrite !Forall_cons in Hpos. destruct Hpos as (_ & Hrf0 & Hpn0 & _). simpl in Hrf0, Hpn0.
  assert (Hsum : rf + pn = v_current v).
  { destruct Hpost as (p & r0 & _ & Hw & Hprep & _). apply prepared_total in Hprep as (_ & Hsum & _); [| done | simpl; unfold DECIMAL_20_8_LIMIT in *; lia].
    simpl in Hsum. lia. }
  assert (Hdelta : balance_delta (break_refund v) u = Delta rf 0 0)
    by (unfold balance_delta; rewrite col_add_credit by (done || by eapply columns_avail); fold rf; f_equal; lia).
  rewrite Hdelta in *. exists v, rf, pn. split_and!; try done. split; try done; simpl.
  - by apply moves_one.
  - by rewrite Hsum.
Qed.

Lemma reward_of_Some u source k s id r : reward_of u source k s = Some (id, r) ->
  rewards s !! id = Some r /\ rw_userId r = u /\ rw_source r = source /\ (rw_dedupKey r = Some k \/ rw_metadata r = Some k).
Proof.
  intros Hf. apply List.find_some in Hf as [Hi Hk]. apply list_elem_of_In, elem_of_map_to_list in Hi. cbn in Hk.
  apply andb_true_iff in Hk as [Hk Ho]. apply andb_true_iff in Hk as [Hu Hs]. apply Z.eqb_eq in Hu. apply String.eqb_eq in Hs.
  apply orb_true_iff in Ho. rewrite !bool_decide_eq_true in Ho. done.
Qed.

Lemma credit_Ok `{PrismaNumber} newId userId amount source key s r s' : _creditAzmWithClient newId userId amount source key s = Ok (r, s') ->
  (s' = s /\ cd_credited r = false /\ exists k id row, truthy key = Some k /\ reward_of userId source k s = Some (id, row)) \/
  (cd_credited r = true /\ exists p, profiles s !! userId = Some p /\
     (forall k, truthy key = Some k -> reward_of userId source k s = None) /\ rewards s !! newId = None /\
     s' = set_rewards (<[newId := RewardRow userId (num_to_col amount) source key (truthy key) (pf_azmBalance p + num_to_col amount)]> (rewards s))
       (set_profiles (<[userId := Profile (pf_banStatus p) (pf_isDeleted p) (pf_azmBalance p + num_to_col amount)]> (profiles s)) s)).
Proof.
  unfold _creditAzmWithClient. intros Hr. apply Mbind_Ok in Hr as (y & s1 & Hc & Hr). apply check_Ok in Hc as [_ ->].
  apply Mbind_Ok in Hr as (s1 & s2 & Hg & Hr). apply get_Ok in Hg as [-> ->].
  destruct (truthy key ≫= _) as [[id row] |] eqn:Hex.
  - apply Mret_Ok in Hr as [-> ->]. left. destruct (truthy key) as [k |]; [| done]. simpl in Hex. split_and!; try done. by exists k, id, row.
  - destruct (profiles s !! userId) as [p |] eqn:Hp; [| by apply throw_Ok in Hr]. apply Mbind_Ok in Hr as (y1 & s2 & Hc & Hr). apply check_Ok in Hc as [_ ->].
    apply Mbind_Ok in Hr as (y2 & s2 & Hput & Hr). apply put_Ok in Hput as ->. apply Mbind_Ok in Hr as (y3 & s2 & Hrw & Hr). apply Mret_Ok in Hr as [-> ->].
    unfold reward_create in Hrw. apply Mbind_Ok in Hrw as (s3 & s4 & Hg & Hrw). apply get_Ok in Hg as [-> ->].
    apply Mbind_Ok in Hrw as (y4 & s4 & Hc & Hrw). apply check_Ok in Hc as [Hc ->]. apply put_Ok in Hrw as ->. apply andb_true_iff in Hc as [Hn _].
    right. split; [done |]. exists p. split_and!; try done; [| by simpl in Hn; destruct (rewards s !! newId)].
    intros k Hk. rewrite Hk in Hex. exact Hex.
Qed.

Lemma complete_tx_Ok `{PrismaNumber} on vaultId rewardId now s r s' :
  (forall v, vaults s !! vaultId = Some v -> 0 <= v_current v < DECIMAL_20_8_LIMIT) -> columns_ok (bank s) ->
  complete_tx sha256 on vaultId rewardId now s = Ok (r, s') ->
  exists v s1, vaults s !! vaultId = Some v /\ v_status v = V_ACTIVE /\ 0 < v_current v /\
    vaults s1 = <[vaultId := with_end V_COMPLETED now (v_brokenAt v) (scored v) (_buildReceipt v V_COMPLETED (usdc (v_current v)) 0 now) v]> (vaults s) /\
    deposits s1 = deposits s /\ same_side s s1 /\ profitLog (bank s1) = profitLog (bank s) /\ complete_effect vaultId (v_userId v) (v_current v) (bank s) (bank s1) /\
    _creditAzmWithClient rewardId (v_userId v) (two_places (completionBonus (v_current v))) "VAULT_COMPLETION" (Some (completion_dedup vaultId)) s1 = Ok (r, s').
Proof.
  intros Hrow Hnn Hr. unfold complete_tx in Hr. apply Mbind_Ok in Hr as (v & s1 & Hl & Hr). apply locked_vault_Ok in Hl as (-> & Hv & Hst & _).
  pose proof (Hrow v Hv) as Hb. apply Mbind_Ok in Hr as (y & s1 & Hu & Hr). apply balance_update_Ok in Hu as (u & Hu & Hok & ->).
  apply Mbind_Ok in Hr as (y3 & s1 & Hpost & Hr). rewrite !exact_num_exact_dec, fixed8_usdc in Hpost by (apply usdc_num; lia).
  apply (vault_posted _ _ _ _ _ _ [DebitOf (vault_code vaultId) (v_current v); CreditOf (liability_code (v_userId v)) (v_current v)])
    in Hpost as (l' & -> & Hpost & Hpos); [| repeat constructor; simpl; lia | done].
  apply Mbind_Ok in Hr as (v1 & s1 & Hup & Hr). apply vault_update_Ok in Hup as (v2 & Hv2 & _ & -> & ->). simpl in Hv2. assert (v2 = v) as -> by congruence.
  apply Mbind_Ok in Hr as (y2 & s1 & Hh & Hr). apply on_bank_Ok in Hh as (w & Hh & ->). apply history_create_Ok in Hh as ->.
  apply Mbind_Ok in Hr as (y4 & s1 & Hc & Hr). apply check_Ok in Hc as [_ ->]. inversion Hpos as [| ? ? Hb0 _]; subst. simpl in Hb0.
  pose proof (columns_avail _ _ _ Hnn Hu) as Hnneg.
  assert (Hdelta : balance_delta (usdc (v_current v)) u = Delta (v_current v) 0 0)
    by (unfold balance_delta; rewrite col_add_credit, fixed8_usdc by (done || (apply usdc_num; lia)); f_equal; lia).
  rewrite Hdelta in *. eexists v, _. split_and!; [done | done | done | | | | | | exact Hr]; try done. split; try done. simpl. by apply moves_one.
Qed.
End Transactions.

(** ** The invariant *)

Definition posted_key (k : string) (s : vdb) : Prop := is_Some (find_key k (ledger (bank s))).
Definition in_state (id : string) (st : vault_status) (s : vdb) : Prop := exists v, vaults s !! id = Some v /\ v_status v = st.

(** A completion reward of the vault [id]. *)
Definition reward_for (id : string) (row : reward_row) : Prop :=
  rw_source row = "VAULT_COMPLETION"%string /\ (rw_dedupKey row = Some (completion_dedup id) \/ rw_metadata row = Some (completion_dedup id)).

(** The amount of an auto rule is not negative. *)
Definition auto_ok (a : auto_rule) : Prop := forall x, ar_amount a = Some x -> 0 <= x.

Record vault_wf (v : vault_row) : Prop := {
  wf_user : 0 <= v_userId v;
  wf_current : 0 <= v_current v < DECIMAL_20_8_LIMIT;
  wf_pct : 0 <= v_penaltyPct v <= 10000;
  wf_auto : auto_ok (v_auto v);
}.

Record vinv (s : vdb) : Prop := {
  vi_core : einv (bank s);
  vi_columns : columns_ok (bank s);
  vi_rows : forall id v, vaults s !! id = Some v -> vault_wf v;
  vi_deposit_key : forall d, posted_key (vault_deposit_key d) s -> is_Some (deposits s !! d);
  vi_break_key : forall id, posted_key (break_key id) s -> in_state id V_BROKEN_EARLY s;
  vi_complete_key : forall id, posted_key (complete_key id) s -> in_state id V_COMPLETED s;
  vi_reward : forall r row id, rewards s !! r = Some row -> reward_for id row -> in_state id V_COMPLETED s;
  vi_idem : forall i j x y k, deposits s !! i = Some x -> deposits s !! j = Some y -> dp_idempotencyKey x = Some k -> dp_idempotencyKey y = Some k -> i = j;
}.

(** ** Shapes *)

(** A later version of a row that no money touches. *)
Definition quiet_row (o : option vault_row) (v' : vault_row) : Prop :=
  match o with
  | Some v => same_vault v v' /\ (auto_ok (v_auto v) -> auto_ok (v_auto v')) /\ v_status v' = v_status v /\ v_current v' = v_current v
  | None => 0 <= v_userId v' /\ v_current v' = 0 /\ v_status v' = V_ACTIVE /\ v_penaltyPct v' = EARLY_BREAK_PENALTY_DEFAULT /\ auto_ok (v_auto v')
  end.

(** At most one deposit row and one reward row are added; a completion reward
    only for a vault in [done]. *)
Definition deposits_step (s s' : vdb) : Prop :=
  deposits s' = deposits s \/
  exists id d, deposits s !! id = None /\ deposits s' = <[id := d]> (deposits s) /\
    forall k j e, dp_idempotencyKey d = Some k -> deposits s !! j = Some e -> dp_idempotencyKey e <> Some k.
Definition rewards_step (done : string -> Prop) (s s' : vdb) : Prop :=
  rewards s' = rewards s \/
  exists id row, rewards s !! id = None /\ rewards s' = <[id := row]> (rewards s) /\ forall i, reward_for i row -> done i.

Definition nobody (id : string) : Prop := False.

Inductive vault_shape (sha256 : string -> string) `{DecimalLib} `{HalfUnits} (s s' : vdb) : Prop :=
| vsh_side : vaults s' = vaults s -> bank s' = bank s -> deposits_step s s' -> rewards_step nobody s s' -> vault_shape sha256 s s'
| vsh_row id v' : vaults s' = <[id := v']> (vaults s) -> quiet_row (vaults s !! id) v' -> bank s' = bank s -> deposits_step s s' ->
    rewards_step nobody s s' -> vault_shape sha256 s s'
| vsh_deposit id v v' newId u a paid : vaults s !! id = Some v -> v_status v = V_ACTIVE -> deposited_to a v v' -> vault_ok v' = true ->
    vaults s' = <[id := v']> (vaults s) -> 0 <= u -> 0 < a -> within paid a 1 -> deposits s !! newId = None -> is_Some (deposits s' !! newId) ->
    deposits_step s s' -> rewards s' = rewards s -> deposit_effect sha256 id newId u paid a (bank s) (bank s') -> vault_shape sha256 s s'
| vsh_break id v v' r p : vaults s !! id = Some v -> v_status v = V_ACTIVE -> same_vault v v' -> v_auto v' = v_auto v -> v_status v' = V_BROKEN_EARLY -> v_current v' = 0 ->
    vaults s' = <[id := v']> (vaults s) -> 0 < r -> 0 < p -> r + p = v_current v -> deposits s' = deposits s -> rewards s' = rewards s ->
    break_effect sha256 id (v_userId v) r p (bank s) (bank s') -> vault_shape sha256 s s'
| vsh_complete id v v' : vaults s !! id = Some v -> v_status v = V_ACTIVE -> same_vault v v' -> v_auto v' = v_auto v -> v_status v' = V_COMPLETED -> v_current v' = 0 ->
    vaults s' = <[id := v']> (vaults s) -> 0 < v_current v -> deposits s' = deposits s -> rewards_step (eq id) s s' ->
    complete_effect sha256 id (v_userId v) (v_current v) (bank s) (bank s') -> vault_shape sha256 s s'.

Section Invariant.
Context `{DecimalLib} `{HalfUnits} (sha256 : string -> string).

(** What a step has to provide: the rows stay well formed, a vault that has
    ended stays so, and a key or reward that is added belongs to its vault. *)
Lemma vinv_step s s' key fin :
  vinv s -> (forall i v, vaults s' !! i = Some v -> vault_wf v) -> (forall i st, st <> V_ACTIVE -> in_state i st s -> in_state i st s') ->
  einv (bank s') -> columns_ok (bank s') -> (forall k, vault_key k -> posted_key k s' -> Some k = key \/ posted_key k s) ->
  (forall d, Some (vault_deposit_key d) = key -> is_Some (deposits s' !! d)) ->
  (forall i, Some (break_key i) = key -> in_state i V_BROKEN_EARLY s') ->
  (forall i, Some (complete_key i) = key -> in_state i V_COMPLETED s') ->
  deposits_step s s' -> rewards_step fin s s' -> (forall i, fin i -> in_state i V_COMPLETED s') -> vinv s'.
Proof.
  intros [I1 I2 I3 I4 I5 I6 I7 I8] Hrows Hstay Hc Hcol Hkeys Kd Kb Kc Hdep Hrew Hfin. split; try done.
  - intros d Hk. apply Hkeys in Hk as [Hk | Hk]; [by apply Kd | | constructor]. apply I4 in Hk as [x Hx].
    destruct Hdep as [-> | (i & e & Hn & -> & _)]; [by eexists |]. destruct (decide (i = d)) as [-> | Hne]; [congruence |]. rewrite lookup_insert_ne by done. by eexists.
  - intros i Hk. apply Hkeys in Hk as [Hk | Hk]; [by apply Kb | by apply Hstay, I5 | constructor].
  - intros i Hk. apply Hkeys in Hk as [Hk | Hk]; [by apply Kc | by apply Hstay, I6 | constructor].
  - intros r row i Hr Hfor. destruct Hrew as [Heq | (r0 & row0 & Hn & Heq & Hf)]; rewrite Heq in Hr; [by eapply Hstay, I7 |].
    destruct (decide (r0 = r)) as [-> | Hne]; [rewrite lookup_insert_eq in Hr; injection Hr as ->; by apply Hfin, Hf |].
    rewrite lookup_insert_ne in Hr by done. by eapply Hstay, I7.
  - intros i j x y k Hi Hj Hx Hy. destruct Hdep as [Heq | (d & e & Hn & Heq & Hf)]; rewrite Heq in Hi, Hj; [by eapply I8 |].
    apply lookup_insert_Some in Hi as [[<- <-] | [Hni Hi]], Hj as [[<- <-] | [Hnj Hj]]; [done | by destruct (Hf k j y) | by destruct (Hf k i x) | by eapply I8].
Qed.

(** One row is written. *)
Lemma row_states s s' id v' : vaults s' = <[id := v']> (vaults s) ->
  (forall v, vaults s !! id = Some v -> v_status v <> V_ACTIVE -> v_status v' = v_status v) ->
  forall i st, st <> V_ACTIVE -> in_state i st s -> in_state i st s'.
Proof.
  intros Hv Hkeep i st Hst (v & Hi & <-). unfold in_state. rewrite Hv. destruct (decide (id = i)) as [-> | Hne].
  - exists v'. rewrite lookup_insert_eq. auto.
  - exists v. by rewrite lookup_insert_ne.
Qed.
Lemma row_wf s s' id v' : vaults s' = <[id := v']> (vaults s) -> (forall i v, vaults s !! i = Some v -> vault_wf v) -> vault_wf v' ->
  forall i v, vaults s' !! i = Some v -> vault_wf v.
Proof.
  intros Hv Hall Hwf i v Hi. rewrite Hv in Hi. destruct (decide (id = i)) as [-> | Hne]; [rewrite lookup_insert_eq in Hi; by injection Hi as <- |].
  rewrite lookup_insert_ne in Hi by done. eauto.
Qed.
Lemma row_here s s' id v' : vaults s' = <[id := v']> (vaults s) -> in_state id (v_status v') s'.
Proof. intros Hv. exists v'. by rewrite Hv, lookup_insert_eq. Qed.

Lemma effect_posted ds hs key ls s s' :
  wallet_effect sha256 ds hs key ls (bank s) (bank s') -> forall k, posted_key k s' <-> Some k = Some key \/ posted_key k s.
Proof. intros Hef k. unfold posted_key. rewrite (posted_keys _ _ _ _ _ (we_ledger _ _ _ _ _ _ _ Hef) k). naive_solver. Qed.

Ltac same_key := intros; match goal with Hk : Some _ = Some _ |- _ => apply (inj Some), (inj (String.append _)) in Hk as -> end.

Lemma shape_vinv s s' : vinv s -> vault_shape sha256 s s' -> vinv s'.
Proof.
  intros Hi Hs. pose proof (vi_rows s Hi) as Hrows.
  destruct Hs as [Hv Hb Hd Hw | id v' Hv Hq Hb Hd Hw | id v v' newId u a paid Hid Hst [T1 T2 T3 T4] Hok Hv Hu Ha Hpd Hn Hd' Hd Hr Hef
    | id v v' r p Hid Hst T1 T0 T2 T3 Hv Hr Hp Hsum Hd Hw Hef | id v v' Hid Hst T1 T0 T2 T3 Hv Hpos Hd Hw Hef].
  - eapply (vinv_step s s' None nobody); try done; rewrite ?Hv, ?Hb; try done; [| by apply vi_core | by apply vi_columns |].
    + intros i st _ (v & H1 & H2). exists v. by rewrite Hv.
    + intros k _. unfold posted_key. rewrite Hb. by right.
  - eapply (vinv_step s s' None nobody); try done; rewrite ?Hb; try done; [| | by apply vi_core | by apply vi_columns |].
    + eapply row_wf; [done | done |]. unfold quiet_row in Hq. destruct (vaults s !! id) as [v |] eqn:Hid.
      * destruct Hq as ([] & Hau & Hst & Hc), (Hrows id v Hid). split; [congruence | lia | lia | auto].
      * destruct Hq as (Hu0 & Hc0 & Hs0 & Hp0 & Hau). unfold EARLY_BREAK_PENALTY_DEFAULT in Hp0. split; unfold DECIMAL_20_8_LIMIT; done || lia.
    + eapply row_states; [done |]. intros v Hid Hne. unfold quiet_row in Hq. rewrite Hid in Hq. by destruct Hq as (_ & _ & -> & _).
    + intros k _. unfold posted_key. rewrite Hb. by right.
  - eapply (vinv_step s s' (Some (vault_deposit_key newId)) nobody); try done.
    + eapply row_wf; [done | done |]. destruct (Hrows id v Hid). destruct T1. unfold vault_ok in Hok.
      repeat (apply andb_true_iff in Hok as [Hok ?]). assert (Hnum : numeric_ok (v_current v') = true) by done.
      unfold numeric_ok in Hnum. apply Z.ltb_lt in Hnum. split; [congruence | lia | lia |]. unfold auto_ok. by rewrite T4.
    + eapply row_states; [done |]. intros v0 Hid0 Hne. congruence.
    + eapply (effect_einv sha256 vault_key); [| exact Hef | by apply vi_core]. constructor.
    + eapply effect_columns; [exact Hef | by apply vi_columns].
    + intros k _. by apply (effect_posted _ _ _ _ _ _ Hef).
    + same_key. done.
    + by left.
  - eapply (vinv_step s s' (Some (break_key id)) nobody); try done.
    + eapply row_wf; [done | done |]. destruct (Hrows id v Hid). destruct T1. split; [congruence | rewrite T3; unfold DECIMAL_20_8_LIMIT; lia | lia | by rewrite T0].
    + eapply row_states; [done |]. intros v0 Hid0 Hne. congruence.
    + eapply (effect_einv sha256 vault_key); [| exact Hef | by apply vi_core]. constructor.
    + eapply effect_columns; [exact Hef | by apply vi_columns].
    + intros k _. by apply (effect_posted _ _ _ _ _ _ Hef).
    + same_key. rewrite <- T2. by eapply row_here.
    + by left.
    + by left.
  - eapply (vinv_step s s' (Some (complete_key id)) (eq id)); try done.
    + eapply row_wf; [done | done |]. destruct (Hrows id v Hid). destruct T1. split; [congruence | rewrite T3; unfold DECIMAL_20_8_LIMIT; lia | lia | by rewrite T0].
    + eapply row_states; [done |]. intros v0 Hid0 Hne. congruence.
    + eapply (effect_einv sha256 vault_key); [| exact Hef | by apply vi_core]. constructor.
    + eapply effect_columns; [exact Hef | by apply vi_columns].
    + intros k _. by apply (effect_posted _ _ _ _ _ _ Hef).
    + same_key. rewrite <- T2. by eapply row_here.
    + by left.
    + intros i <-. rewrite <- T2. by eapply row_here.
Qed.
End Invariant.

(** ** The books *)

Definition vault_total (s : vdb) : Z := sumM v_current (vaults s).
Definition saved (id : string) (s : vdb) : Z := default 0 (v_current <$> vaults s !! id).
(** What customers hold, in their buckets and in vaults, together with the
    revenue the ledger has recognized. *)
Definition customers (w : edb) : Z := total_value w - profitFees w.
Definition REVENUE : string := "revenue:fees".

Definition with_vaults (s : vdb) : Z := customers (bank s) + vault_total s - net REVENUE (ledger (bank s)).
Definition backing (u : Z) (s : vdb) : Z := avail u (bank s) + net (liability_code u) (ledger (bank s)).
(** The deposits recorded: each may have been charged half a unit less. *)
Definition charges (s : vdb) : Z := Z.of_nat (size (deposits s)).

Lemma charges_step s s' : deposits_step s s' -> 0 <= charges s' - charges s.
Proof. unfold charges. intros [-> | (id & d & Hn & -> & _)]; [lia |]. rewrite map_size_insert_None by done. lia. Qed.
Lemma charges_new s s' id : deposits_step s s' -> deposits s !! id = None -> is_Some (deposits s' !! id) -> charges s' - charges s = 1.
Proof.
  unfold charges. intros [He | (i & d & Hn & -> & _)] Hid [x Hx]; [rewrite He in Hx; congruence |]. rewrite map_size_insert_None by done. lia.
Qed.

Record vault_books `{HalfUnits} (s s' : vdb) : Prop := {
  vb_total : within (with_vaults s) (with_vaults s') (charges s' - charges s);
  vb_liability : forall u, 0 <= u -> within (backing u s) (backing u s') (charges s' - charges s);
  vb_vault : forall id, saved id s' + net (vault_code id) (ledger (bank s')) = saved id s + net (vault_code id) (ledger (bank s));
  vb_escrow : forall id, live_principal id (bank s') + net (locked_code id) (ledger (bank s')) = live_principal id (bank s) + net (locked_code id) (ledger (bank s));
}.

#[export] Instance vault_books_po `{HalfUnits} : PreOrder vault_books.
Proof.
  split; [intros s; split; intros; try done; rewrite Z.sub_diag; apply within_refl |]. intros s1 s2 s3 [A1 A2 A3 A4] [B1 B2 B3 B4].
  split; intros; [by eapply within_trans | eapply within_trans; eauto | by rewrite B3 | by rewrite B4].
Qed.

Lemma saved_write s s' id v' i : vaults s' = <[id := v']> (vaults s) -> saved i s' = if String.eqb id i then v_current v' else saved i s.
Proof.
  intros Hv. unfold saved. rewrite Hv. destruct (String.eqb_spec id i) as [-> | Hne]; [by rewrite lookup_insert_eq | by rewrite lookup_insert_ne].
Qed.
Lemma total_write s s' id v' : vaults s' = <[id := v']> (vaults s) -> vault_total s' = vault_total s - saved id s + v_current v'.
Proof. intros Hv. unfold vault_total. rewrite Hv. by apply sumM_write. Qed.

Section Books.
Context `{DecimalLib} `{HalfUnits} (sha256 : string -> string).

Lemma vault_not_posted s k : ~ posted_key k s -> find_key k (ledger (bank s)) = None.
Proof. intros Hn. destruct (find_key k (ledger (bank s))) eqn:Hf; [exfalso; apply Hn; by eexists | done]. Qed.

(** The books after a write of one vault with an effect on the wallet. *)
Lemma effect_vault_books ds hs key ls s s' id v' :
  wallet_effect sha256 ds hs key ls (bank s) (bank s') -> ~ posted_key key s -> vaults s' = <[id := v']> (vaults s) ->
  let n := charges s' - charges s in
  0 <= sumZ (fun p => da p.2 + dl p.2 + dd p.2) ds + v_current v' - saved id s - line_movement REVENUE ls <= slack * n ->
  (forall u, 0 <= u -> 0 <= delta_of da u ds + line_movement (liability_code u) ls <= slack * n) ->
  (forall i, line_movement (vault_code i) ls + (if String.eqb id i then v_current v' - saved id s else 0) = 0) ->
  (forall i, line_movement (locked_code i) ls = 0) -> vault_books s s'.
Proof.
  intros Hef Hnp Hv n Ht Hl Hva Hlo. destruct (effect_wallet _ _ _ _ _ _ _ Hef (vault_not_posted _ _ Hnp)) as (H1 & H2 & _ & H4). split.
  - unfold within, with_vaults, customers. rewrite H1, (we_fees _ _ _ _ _ _ _ Hef), (total_write _ _ _ _ Hv), H4. fold n. lia.
  - intros u Hu. unfold within, backing. rewrite H2, H4. specialize (Hl u Hu). fold n. lia.
  - intros i. rewrite (saved_write _ _ _ _ i Hv), H4. specialize (Hva i). destruct (String.eqb_spec id i) as [Heq | _]; [subst i |]; lia.
  - intros i. unfold live_principal. rewrite (we_escrows _ _ _ _ _ _ _ Hef), H4, Hlo. lia.
Qed.

Ltac vbooks_tac := intros; unfold delta_of, line_movement, REVENUE; rewrite ?sumZ_cons, ?sumZ_nil; cbn [fst snd da dl dd n_account n_debit n_credit];
  autorewrite with codes; rewrite ?String.eqb_refl;
  repeat match goal with |- context [?a =? ?b] => destruct (a =? b) end;
  repeat match goal with |- context [String.eqb ?a ?b] => destruct (String.eqb a b) end; lia.

Lemma shape_vault_books s s' : vinv s -> vault_shape sha256 s s' -> vault_books s s'.
Proof.
  intros Hi Hs.
  destruct Hs as [Hv Hb Hd Hw | id v' Hv Hq Hb Hd Hw | id v v' newId u a paid Hid Hst [T1 T2 T3 T4] Hok Hv Hu Ha Hpd Hn Hd' Hd Hr Hef
    | id v v' r p Hid Hst T1 T0 T2 T3 Hv Hr Hp Hsum Hd Hw Hef | id v v' Hid Hst T1 T0 T2 T3 Hv Hpos Hd Hw Hef].
  - pose proof (charges_step _ _ Hd) as Hn. split; intros; unfold with_vaults, backing, vault_total, saved; rewrite ?Hv, ?Hb; (by apply within_same) || done.
  - assert (Hc : v_current v' = saved id s).
    { unfold saved, quiet_row in *. destruct (vaults s !! id); simpl; [by destruct Hq as (_ & _ & _ & ->) | by destruct Hq as (_ & -> & _)]. }
    pose proof (charges_step _ _ Hd) as Hn.
    split; intros; unfold with_vaults, backing; rewrite ?(total_write _ _ _ _ Hv), ?(saved_write _ _ _ _ _ Hv), Hb, ?Hc; [| by apply within_same | | done].
    + rewrite Z.sub_add. by apply within_same.
    + by destruct (String.eqb_spec id id0) as [-> | _].
  - assert (Hs : saved id s = v_current v) by (unfold saved; by rewrite Hid). pose proof (charges_new _ _ _ Hd Hn Hd') as Hone. unfold within in Hpd.
    eapply effect_vault_books; [exact Hef | | exact Hv | rewrite T3, Hs, Hone; vbooks_tac | rewrite Hone; vbooks_tac | rewrite T3, Hs; vbooks_tac | vbooks_tac].
    intros Hk. apply (vi_deposit_key s Hi) in Hk as [x Hx]. congruence.
  - assert (Hs : saved id s = v_current v) by (unfold saved; by rewrite Hid). pose proof (wf_user _ (vi_rows s Hi id v Hid)) as Hu.
    assert (Hzero : charges s' - charges s = 0) by (unfold charges; rewrite Hd; lia).
    eapply effect_vault_books; [exact Hef | | exact Hv | rewrite T3, Hs, Hzero; vbooks_tac | rewrite Hzero; vbooks_tac | rewrite T3, Hs; vbooks_tac | vbooks_tac].
    intros Hk. apply (vi_break_key s Hi) in Hk as (x & Hx & Hxs). congruence.
  - assert (Hs : saved id s = v_current v) by (unfold saved; by rewrite Hid). pose proof (wf_user _ (vi_rows s Hi id v Hid)) as Hu.
    assert (Hzero : charges s' - charges s = 0) by (unfold charges; rewrite Hd; lia).
    eapply effect_vault_books; [exact Hef | | exact Hv | rewrite T3, Hs, Hzero; vbooks_tac | rewrite Hzero; vbooks_tac | rewrite T3, Hs; vbooks_tac | vbooks_tac].
    intros Hk. apply (vi_complete_key s Hi) in Hk as (x & Hx & Hxs). congruence.
Qed.
End Books.

(** ** Steps *)

Section Steps.
Context {half : HalfUnits} `{DecimalLib} `{PrismaNumber} (sha256 : string -> string) (wire : escrow_row -> string).
Context (wire_vault : vault_row -> string) (wire_breakdown : azm_breakdown -> string) (on : bool).

(** One database transaction of the service, of the worker or of a handler,
    with whatever rows its caller read before; a change of a user's standing;
    or a step of smart escrow on the same wallet.  The amounts deposited are any,
    or, where [half_units] is false, any that are not half-way between two units.
    A transaction that fails is a step too. *)
Inductive vstep (s s' : vdb) : Prop :=
| vs_create newId userId name target date auto now r : 0 <= userId -> transaction (createVault newId userId name target date auto now) s = (r, s') -> vstep s s'
| vs_deposit vaultId vault amount ty sched extra key op guard b newId r :
    only_reads guard -> 0 <= Qnum amount -> whole_units amount -> 0 <= v_userId vault ->
    transaction (deposit_tx sha256 wire_breakdown vaultId vault amount ty sched extra key op guard b newId) s = (r, s') -> vstep s s'
| vs_failed vaultId vault amount ty sched reason newId : s' = deposit_failed vaultId vault amount ty sched reason newId s -> vstep s s'
| vs_missed vaultId vault required next newId r : transaction (missed_tx vaultId vault required next newId) s = (r, s') -> vstep s s'
| vs_reward newId userId amount source key r : source <> "VAULT_COMPLETION"%string -> creditAzm newId userId amount source key s = (r, s') -> vstep s s'
| vs_break userId vaultId op now r : breakEarly sha256 wire_vault userId vaultId op now s = (r, s') -> vstep s s'
| vs_complete vaultId rewardId now r : completeMatured sha256 on vaultId rewardId now s = (r, s') -> vstep s s'
| vs_rule userId vaultId amount freq enabled now before r : setAutoRule userId vaultId amount freq enabled now before s = (r, s') -> vstep s s'
| vs_unrule userId vaultId before r : disableAutoRule userId vaultId before s = (r, s') -> vstep s s'
| vs_standing u p ban deleted : profiles s !! u = Some p -> s' = set_profiles (<[u := Profile ban deleted (pf_azmBalance p)]> (profiles s)) s -> vstep s s'
| vs_escrow w : escrow_step sha256 wire (bank s) w -> s' = set_bank w s -> vstep s s'.

Lemma side_refl s : vault_shape sha256 s s.
Proof. apply vsh_side; [done | done | by left | by left]. Qed.

Lemma tx_shape {A} (m : M vdb A) s r s' : transaction m s = (r, s') -> (forall x s1, m s = Ok (x, s1) -> vault_shape sha256 s s1) -> vault_shape sha256 s s'.
Proof. unfold transaction. destruct (m s) as [[x s1] | e]; intros [= _ <-] Hm; [by eapply Hm | apply side_refl]. Qed.

Lemma created_step id d s x s' : deposit_create id d s = Ok (x, s') -> deposits_step s s'.
Proof. intros Hr. apply deposit_create_Ok in Hr as (Hn & Hk & ->). right. exists id, d. by split_and!. Qed.

Lemma positive_units q : Qle_bool q 0 = false -> 0 <= Qnum q /\ 0 <= toFixedZ 8 q.
Proof.
  intros Hq. assert (Hn : 0 <= Qnum q).
  { destruct (Z.le_gt_cases 0 (Qnum q)) as [? | Hlt]; [done |]. exfalso. assert (Qle_bool q 0 = true); [| congruence]. apply Qle_bool_iff. unfold Qle. simpl. lia. }
  split; [done |]. by apply fixed8_nonneg.
Qed.

Lemma new_auto_ok a now r : new_auto a now = Ok r -> auto_ok r.
Proof.
  unfold new_auto. destruct a as [[en am fr] |]; simpl; [| by intros [= <-] x]. destruct en; [| by intros [= <-] x].
  intros Hr. apply bind_Ok in Hr as (q & Hq & Hr). apply bind_Ok in Hr as (f & _ & Hr). injection Hr as <-. intros x. simpl. intros [= <-].
  destruct am as [q' |]; [| done]. destruct (Qle_bool q' 0) eqn:Hle; [done |]. injection Hq as <-. by apply positive_units.
Qed.

Lemma vault_create_shape newId userId name target date auto now s x s' : 0 <= userId ->
  createVault newId userId name target date auto now s = Ok (x, s') -> vault_shape sha256 s s'.
Proof.
  intros Hu Hr. unfold createVault in Hr. apply Mbind_Ok in Hr as ([[n t] m] & s1 & Hl & Hr). apply lift_Ok in Hl as [_ ->].
  apply Mbind_Ok in Hr as (y & s1 & Hc & Hr). apply check_Ok in Hc as [_ ->]. apply Mbind_Ok in Hr as (at_ & s1 & Hl & Hr). apply lift_Ok in Hl as [_ ->].
  apply Mbind_Ok in Hr as (a & s1 & Hl & Hr). apply lift_Ok in Hl as [Ha ->]. apply new_auto_ok in Ha. apply Mbind_Ok in Hr as (s1 & s2 & Hg & Hr). apply get_Ok in Hg as [-> ->].
  apply Mbind_Ok in Hr as (y1 & s1 & Hc & Hr). apply check_Ok in Hc as [Hn ->]. apply Mbind_Ok in Hr as (y2 & s1 & Hc & Hr). apply check_Ok in Hc as [_ ->].
  apply Mbind_Ok in Hr as (y3 & s1 & Hc & Hr). apply check_Ok in Hc as [_ ->]. apply Mbind_Ok in Hr as (y4 & s1 & Hp & Hr). apply put_Ok in Hp as ->.
  apply Mret_Ok in Hr as [_ ->]. eapply (vsh_row _ _ _ newId); [done | | done | by left | by left]. by destruct (vaults s !! newId).
Qed.

Lemma update_shape vaultId f s r s' : (forall v, quiet_row (Some v) (f v)) -> vault_update vaultId f s = Ok (r, s') -> vault_shape sha256 s s'.
Proof.
  intros Hf Hr. apply vault_update_Ok in Hr as (v & Hv & _ & _ & ->). eapply (vsh_row _ _ _ vaultId); [done | | done | by left | by left].
  rewrite Hv. apply Hf.
Qed.

Lemma missed_shape vaultId vault required next newId s x s' : missed_tx vaultId vault required next newId s = Ok (x, s') -> vault_shape sha256 s s'.
Proof.
  unfold missed_tx. intros Hr. apply Mbind_Ok in Hr as (y & s1 & Hd & Hr). pose proof (created_step _ _ _ _ _ Hd) as Hstep.
  apply deposit_create_Ok in Hd as (_ & _ & ->). destruct next as [t |]; [| by apply throw_Ok in Hr].
  apply Mbind_Ok in Hr as (v1 & s1 & Hup & Hr). apply vault_update_Ok in Hup as (v & Hv & _ & _ & ->). apply Mret_Ok in Hr as [_ ->].
  eapply (vsh_row _ _ _ vaultId); [done | | done | exact Hstep | by left]. simpl in Hv. rewrite Hv. by split.
Qed.

Lemma reward_shape newId userId amount source key s r s' : source <> "VAULT_COMPLETION"%string ->
  creditAzm newId userId amount source key s = (r, s') -> vault_shape sha256 s s'.
Proof.
  intros Hsrc Hr. unfold creditAzm in Hr. destruct (bad_reward _ _ _); [injection Hr as _ <-; apply side_refl |].
  destruct (transaction _ s) as [o s1] eqn:Ht. assert (s' = s1) as -> by (destruct o; by injection Hr as _ <-). eapply tx_shape; [exact Ht |].
  intros x s2 Hc. apply credit_Ok in Hc as [(-> & _) | (_ & p & Hp & _ & Hn & ->)]; [apply side_refl |].
  apply vsh_side; [done | done | by left |]. right. eexists newId, _. split_and!; [done | done |]. by intros i [? _].
Qed.

Lemma break_shape userId vaultId op now s r s' : vinv s -> breakEarly sha256 wire_vault userId vaultId op now s = (r, s') -> vault_shape sha256 s s'.
Proof.
  intros Hi Hr. eapply tx_shape; [exact Hr |]. clear r Hr. intros r s1 Hr.
  apply break_tx_Ok in Hr as (v & rf & pn & Hv & Hst & Hown & _ & _ & Hr0 & Hp0 & Hsum & -> & Hvs & Hd & (_ & Hrw & _) & _ & Hef); [| | by apply vi_columns].
  - subst userId. by refine (vsh_break _ _ _ vaultId v _ rf pn Hv Hst (same_end _ _ _ _ _ _) eq_refl _ _ Hvs Hr0 Hp0 Hsum Hd Hrw Hef).
  - intros v Hv. by destruct (vi_rows s Hi _ _ Hv).
Qed.

Lemma complete_shape vaultId rewardId now s r s' : vinv s -> completeMatured sha256 on vaultId rewardId now s = (r, s') -> vault_shape sha256 s s'.
Proof.
  intros Hi Hr. eapply tx_shape; [exact Hr |]. clear r Hr. intros r s2 Hr.
  apply complete_tx_Ok in Hr as (v & s1 & Hv & Hst & Hpos & Hvs & Hd & (_ & Hrw & _) & _ & Hef & Hc); [| | by apply vi_columns].
  - apply credit_Ok in Hc as [(-> & _) | (_ & p & _ & _ & Hn & ->)].
    + by refine (vsh_complete _ _ _ vaultId v _ Hv Hst (same_end _ _ _ _ _ _) eq_refl _ _ Hvs Hpos Hd (or_introl Hrw) Hef).
    + eapply vsh_complete; [exact Hv | exact Hst | | | | | exact Hvs | exact Hpos | exact Hd | right | exact Hef]; [apply same_end | done | done | done |]. eexists rewardId, _. split_and!; [congruence | by rewrite <- Hrw |].
      intros i [_ [Hk | Hk]]; injection Hk as Hk; by apply (inj (String.append _)) in Hk.
  - intros v Hv. by destruct (vi_rows s Hi _ _ Hv).
Qed.

Lemma deposit_shape vaultId vault amount ty sched extra key op guard b newId s r s' : vinv s ->
  only_reads guard -> 0 <= Qnum amount -> whole_units amount -> 0 <= v_userId vault ->
  transaction (deposit_tx sha256 wire_breakdown vaultId vault amount ty sched extra key op guard b newId) s = (r, s') -> vault_shape sha256 s s'.
Proof.
  intros Hi Hg Hq Ht Hu Hr. eapply tx_shape; [exact Hr |]. clear r Hr. intros r s1 Hr.
  apply deposit_tx_Ok in Hr as (v & v' & Hv & Hst & Hdt & Hok & Hvs & Ha & _ & Hn & Hk & Hd & Hef & (_ & Hrw & _)); [| done.. |].
  - pose proof (whole_units_paid _ Hq Ht) as Hp. eapply (vsh_deposit _ _ _ vaultId v v' newId); try done; [unfold within; lia | by rewrite Hd, lookup_insert_eq |]. right. by eexists newId, _.
  - intros v Hv. by destruct (vi_rows s Hi _ _ Hv) as [_ [] _ _ _].
Qed.

Lemma step_vault_shape s s' : vinv s -> vstep s s' -> vault_shape sha256 s s' \/ exists w, escrow_step sha256 wire (bank s) w /\ s' = set_bank w s.
Proof.
  intros Hi Hs. destruct Hs as [newId userId name target date auto now r Hu Hr | vaultId vault amount ty sched extra key op guard b newId r Hg Hq Ht Hu Hr
    | vaultId vault amount ty sched reason newId -> | vaultId vault required next newId r Hr | newId userId amount source key r Hsrc Hr
    | userId vaultId op now r Hr | vaultId rewardId now r Hr | userId vaultId amount freq enabled now before r Hr | userId vaultId before r Hr
    | u p ban del Hp -> | w Hw ->]; [left.. | right; eauto].
  - eapply tx_shape; [exact Hr |]. intros x s1. by apply vault_create_shape.
  - by eapply deposit_shape.
  - unfold deposit_failed. destruct (transaction _ s) as [o s1] eqn:Ht. eapply tx_shape; [exact Ht |]. intros x s2 Hd.
    pose proof (created_step _ _ _ _ _ Hd) as Hstep. apply deposit_create_Ok in Hd as (_ & _ & ->). apply vsh_side; [done | done | exact Hstep | by left].
  - eapply tx_shape; [exact Hr |]. intros x s1. by apply missed_shape.
  - by eapply reward_shape.
  - by eapply break_shape.
  - by eapply complete_shape.
  - eapply tx_shape; [exact Hr |]. intros x s1 Hm. apply Mbind_Ok in Hm as (v & s2 & Hl & Hm). apply lift_Ok in Hl as [_ ->].
    apply Mbind_Ok in Hm as (rule & s2 & Hl & Hm). apply lift_Ok in Hl as [Hrule ->]. eapply update_shape; [| exact Hm]. intros v0. split_and!; try done. intros _ a. simpl.
    destruct enabled; [| injection Hrule as <-; done]. res_inv Hrule. simpl. intros [= <-]. by apply positive_units.
  - eapply tx_shape; [exact Hr |]. intros x s1 Hm. apply Mbind_Ok in Hm as (v & s2 & Hl & Hm). apply lift_Ok in Hl as [_ ->].
    eapply update_shape; [| exact Hm]. by intros v0; split.
  - apply vsh_side; [done | done | by left | by left].
Qed.

Lemma escrow_vault s w : vinv s -> escrow_step sha256 wire (bank s) w -> vinv (set_bank w s) /\ vault_books s (set_bank w s).
Proof.
  intros Hi Hs. pose proof (vi_core s Hi) as Hc. apply step_shaped in Hs; [| done].
  destruct (foreign_shape _ vault_key vault_account _ _ vault_account_own Hs) as [Hk Hn]. destruct (shape_books _ _ _ Hc Hs) as [B1 _ _ _ B5 _ B7 B8]. split.
  - eapply (vinv_step s (set_bank w s) None nobody); try done; [exact (vi_rows s Hi) | by eapply shape_einv | eapply shape_columns; [exact Hs | by apply vi_columns] | | by left | by left].
    intros k Hkey. unfold posted_key. simpl. rewrite (Hk k Hkey). by right.
  - split; intros; try (change (charges (set_bank w s)) with (charges s); rewrite Z.sub_diag); simpl;
      [unfold within, with_vaults, customers, REVENUE; change (vault_total (set_bank w s)) with (vault_total s); simpl; lia
      | unfold within, backing; simpl; pose proof (B5 u ltac:(done)); lia | | by apply B8].
    change (saved id (set_bank w s)) with (saved id s). rewrite Hn by constructor. done.
Qed.

Lemma step_vault s s' : vinv s -> vstep s s' -> vinv s' /\ vault_books s s'.
Proof.
  intros Hi Hs. apply step_vault_shape in Hs as [Hs | (w & Hw & ->)]; [| by apply escrow_vault | done].
  split; [by eapply shape_vinv | by eapply shape_vault_books].
Qed.

Lemma steps_vault s s' : vinv s -> rtc vstep s s' -> vinv s' /\ vault_books s s'.
Proof.
  intros Hi Hr. revert Hi. induction Hr as [s | s1 s2 s3 Hs _ IH]; intros Hi; [by split |].
  destruct (step_vault _ _ Hi Hs) as [Hi2 Hb]. destruct (IH Hi2) as [Hi3 Hb2]. split; [done | by etransitivity].
Qed.
End Steps.
