(* ===== verification/VaultTheorems.v ===== *)
(** * Theorems on vaults

    The calls and the worker's ticks as runs of transactions; exact payments and
    rewards; the identity of a deposit; and where the service falls short of its
    intent.  The books and the single end of a vault are in RoundUp, which has
    all writers of vaults. *)

From stdpp Require Import base gmap strings list relations.
From Stdlib Require Import ZArith QArith Qabs Qround Lqa Lia Ascii.
From S2P Require Import Prelude JsNumber ExactDecimal Json Ledger LedgerFacts LedgerHash LedgerProps Idempotency Escrow EscrowFacts EscrowProps WalletProps EscrowTheorems Vault VaultProps.

Local Open Scope Z_scope.

Section Theorems.
Context {half : HalfUnits} `{DecimalLib} `{PrismaNumber} (sha256 : string -> string) (wire : escrow_row -> string).
Context (wire_vault : vault_row -> string) (wire_breakdown : azm_breakdown -> string) (on : bool).

#[local] Opaque computeAzmIntensity.

#[local] Abbreviation step := (vstep sha256 wire wire_vault wire_breakdown on).
#[local] Abbreviation steps := (rtc step).

(** ** Calls as runs of transactions *)

Lemma no_tie_usdc u : no_tie (usdc u).
Proof. unfold no_tie, usdc. cbn [Qnum Qden]. replace (2 * (u * 10 ^ 8)) with (u * (2 * 10 ^ 8)) by lia. change (Zpos 100000000) with (10 ^ 8). rewrite Z.mod_mul by lia. lia. Qed.

Lemma execute_steps vaultId vault amount ty sched extra key op guard ids now before s r s' :
  only_reads guard -> 0 <= Qnum amount -> whole_units amount -> 0 <= v_userId vault ->
  _executeDeposit sha256 wire_breakdown on vaultId vault amount ty sched extra key op guard ids now before s = (r, s') -> steps s s'.
Proof.
  intros Hg Hq Ht Hu Hr. unfold _executeDeposit in Hr. destruct (truthy key ≫= _) as [[id d] |]; [injection Hr as _ <-; done |].
  destruct (transaction _ s) as [o s1] eqn:Htx.
  assert (H1 : step s s1) by (by eapply vs_deposit). destruct o as [x | e].
  - apply pair_eq in Hr as [_ <-]. destruct (on && _); [| by apply rtc_once]. eapply rtc_l; [exact H1 |]. apply rtc_once.
    destruct (creditAzm _ _ _ _ _ s1) as [c s2] eqn:Hc. by eapply vs_reward; [| exact Hc].
  - injection Hr as _ <-. eapply rtc_l; [exact H1 |]. apply rtc_once. by eapply vs_failed.
Qed.

Lemma manual_steps userId vaultId amount key op guard ids now before s r s' : vinv before -> only_reads guard -> whole_units amount ->
  depositManual sha256 wire_breakdown on userId vaultId amount key op guard ids now before s = (r, s') -> steps s s'.
Proof.
  intros Hi0 Hg Ht Hr. unfold depositManual in Hr.
  destruct (throw_if _ _;; _) as [vault | e] eqn:Hv; [| by injection Hr as _ <-]. res_inv Hv. apply positive_units in Hres as [Hq _].
  eapply execute_steps; [exact Hg | exact Hq | exact Ht | | exact Hr]. by eapply wf_user, vi_rows.
Qed.

Lemma auto_steps vaultId vault ids now before s r s' : vault_wf vault -> runAutoRule sha256 wire_breakdown on vaultId vault ids now before s = (r, s') -> steps s s'.
Proof.
  intros Hwf Hr. unfold runAutoRule in Hr. destruct (ar_enabled _); [| injection Hr as _ <-; done]. destruct (ar_amount _) as [a |] eqn:Ha; [| injection Hr as _ <-; done].
  destruct (negb _); [injection Hr as _ <-; done |]. destruct (users (bank before) !! _) as [u |]; [| injection Hr as _ <-; done].
  destruct (_ <? _).
  - destruct (transaction _ s) as [o s1] eqn:Ht. assert (s' = s1) as -> by (destruct o; by injection Hr as _ <-). apply rtc_once. by eapply vs_missed.
  - destruct (_executeDeposit _ _ _ _ _ _ _ _ _ _ _ _ _ _ _ s) as [o s1] eqn:Ht.
    assert (s' = s1) as -> by (destruct o; [| repeat destruct (String.eqb _ _)]; by injection Hr as _ <-).
    eapply execute_steps; [| | | | exact Ht]; [by intros s2 x s3 [_ ->]%Mret_Ok | by apply usdc_num, (wf_auto _ Hwf) | intros _; apply no_tie_usdc | apply Hwf].
Qed.

Lemma vault_fold_steps {A} (f : vdb -> A -> vdb) (l : list A) s : (forall x s, x ∈ l -> steps s (f s x)) -> steps s (foldl f s l).
Proof.
  revert s. induction l as [| x l IH]; intros s Hf; [done |]. simpl. etransitivity; [apply Hf; left |]. apply IH. intros y s1 Hy. apply Hf. by right.
Qed.

Lemma scanned P n s p : p ∈ take n (List.filter P (map_to_list (vaults s))) -> vinv s -> vault_wf p.2.
Proof.
  intros Hp Hi. apply elem_of_take in Hp as (i & Hp & _). apply list_elem_of_lookup_2, list_elem_of_In, filter_In in Hp as [Hp _].
  destruct p as [id v]. apply list_elem_of_In, elem_of_map_to_list in Hp. by eapply vi_rows.
Qed.

(** C14: every call of the service and every tick of its worker is a run of the
    transactions of the vault state machine, so its books, the single end of a
    vault and the other invariants hold for them: a manual deposit of any amount,
    decided on any earlier database, an auto rule fired on any scanned row, and a
    whole tick with its rules, rewards and completions, in every state they meet.
    In the machine without half units ([half_units] false) the manual deposit is
    of an amount that is not half-way between two units. *)
Theorem vault_calls_refine s s' before : vinv s -> vinv before ->
  (forall userId vaultId amount key op guard ids now r, only_reads guard -> whole_units amount ->
     depositManual sha256 wire_breakdown on userId vaultId amount key op guard ids now before s = (r, s') -> steps s s') /\
  (forall vaultId vault ids now r, vaults before !! vaultId = Some vault ->
     runAutoRule sha256 wire_breakdown on vaultId vault ids now before s = (r, s') -> steps s s') /\
  (forall running ids newIds now, _tick sha256 wire_breakdown on running ids newIds now s = s' -> steps s s' /\ vinv s').
Proof.
  intros Hi Hi0. split_and!.
  - intros userId vaultId amount key op guard ids now r Hg Ht Hr. by eapply manual_steps; [| | | exact Hr].
  - intros vaultId vault ids now r Hv Hr. eapply auto_steps; [by eapply vi_rows | exact Hr].
  - intros running ids newIds now <-. assert (Hs : steps s (_tick sha256 wire_breakdown on running ids newIds now s)).
    { unfold _tick. destruct running; [done |]. transitivity (_fireAutoRules sha256 wire_breakdown on ids now s).
      - unfold _fireAutoRules. apply vault_fold_steps. intros p s1 Hp. destruct (runAutoRule _ _ _ _ _ _ _ _ s1) as [o s2] eqn:Hr.
        eapply auto_steps; [by eapply scanned | exact Hr].
      - unfold _sweepMatured, sweep. apply vault_fold_steps. intros p s1 Hp. destruct (completeMatured _ _ _ _ _ s1) as [o s2] eqn:Hr. apply rtc_once. by eapply vs_complete. }
    split; [done |]. by destruct (steps_vault _ _ _ _ _ _ _ Hi Hs).
Qed.

(** ** The end of a vault *)

Definition ended_with (id : string) (st : vault_status) (c : Z) (s : vdb) : Prop := exists v, vaults s !! id = Some v /\ v_status v = st /\ v_current v = c.

Lemma row_ended s s' i v' id st c : vaults s' = <[i := v']> (vaults s) -> ended_with id st c s ->
  (forall v, i = id -> vaults s !! id = Some v -> v_status v = st -> v_status v' = st /\ v_current v' = v_current v) -> ended_with id st c s'.
Proof.
  intros Hv (v & Hid & Hst & Hc) Hw. unfold ended_with. rewrite Hv. destruct (decide (i = id)) as [-> | Hne].
  - destruct (Hw v eq_refl Hid Hst) as [H1' H2']. exists v'. rewrite lookup_insert_eq. split_and!; [done | done | congruence].
  - exists v. by rewrite lookup_insert_ne.
Qed.

Lemma shape_ended s s' id st c : vault_shape sha256 s s' -> st <> V_ACTIVE -> ended_with id st c s -> ended_with id st c s'.
Proof.
  intros Hs Hst Hin.
  destruct Hs as [Hv _ _ _ | i v' Hv Hq _ _ _ | i v v' newId u a paid Hid Ha [T1 T2 T3 T4] _ Hv _ _ _ _ _ _ _ _ | i v v' r p Hid Ha _ _ _ _ Hv _ _ _ _ _ _
    | i v v' Hid Ha _ _ _ _ Hv _ _ _ _].
  - destruct Hin as (v & H1' & H2'). exists v. by rewrite Hv.
  - eapply row_ended; [exact Hv | done |]. intros v -> Hid Hs0. unfold quiet_row in Hq. rewrite Hid in Hq. destruct Hq as (_ & _ & -> & ->). done.
  - eapply row_ended; [exact Hv | done |]. intros v0 -> Hid0 Hs0. congruence.
  - eapply row_ended; [exact Hv | done |]. intros v0 -> Hid0 Hs0. congruence.
  - eapply row_ended; [exact Hv | done |]. intros v0 -> Hid0 Hs0. congruence.
Qed.
Lemma step_ended s s' id st c : vinv s -> step s s' -> st <> V_ACTIVE -> ended_with id st c s -> ended_with id st c s'.
Proof. intros Hi Hs Hst Hin. apply step_vault_shape in Hs as [Hs | (w & _ & ->)]; [by eapply shape_ended | exact Hin | done]. Qed.

(** ** Exact payments *)

(** Balances up to 10 million USDC: products with a percentage have at most
    20 digits. *)
Definition VAULT_MAX : Z := 10 ^ 15.

Lemma fixed8_dec12 z : 0 <= z -> toFixedZ 8 (dec12 z) = rhu z 10000.
Proof.
  intros Hz. destruct (fixed8_nonneg (dec12 z) Hz) as [-> _]. cbn [dec12 Qnum Qden].
  change (Zpos 1000000000000) with (10000 * 10 ^ 8). apply rhu_scale; lia.
Qed.

Lemma break_amounts v : 0 <= v_current v <= VAULT_MAX -> 0 <= v_penaltyPct v <= 10000 ->
  toFixedZ 8 (break_penalty v) = rhu (v_current v * v_penaltyPct v) 10000 /\
  toFixedZ 8 (break_refund v) = rhu (v_current v * (10000 - v_penaltyPct v)) 10000.
Proof.
  unfold VAULT_MAX. intros Hb Hk. unfold break_penalty, break_refund, d_times, d_minus. change (10 ^ 4) with 10000.
  assert (0 <= v_current v * v_penaltyPct v <= v_current v * 10000) by nia.
  rewrite !(dround_exact (v_current v * v_penaltyPct v)) by lia. rewrite dround_exact by lia. rewrite !fixed8_dec12 by lia. split; [done |]. f_equal. lia.
Qed.

(** Breaking a vault early pays exactly what the contract says: the penalty
    is the vault's percentage of the balance and the refund the rest, each
    rounded to a unit; the two add up to the balance, the owner's available
    balance grows by the refund and nobody else's changes, the penalty is
    logged as profit and recognized as revenue, and the vault is empty and
    broken in the same transaction. *)
Theorem break_pays_exactly s userId vaultId op now r s' : vinv s -> saved vaultId s <= VAULT_MAX ->
  breakEarly sha256 wire_vault userId vaultId op now s = (Ok r, s') ->
  exists v refund penalty, vaults s !! vaultId = Some v /\ v_userId v = userId /\ v_status v = V_ACTIVE /\
    penalty = rhu (v_current v * v_penaltyPct v) 10000 /\ refund = rhu (v_current v * (10000 - v_penaltyPct v)) 10000 /\ refund + penalty = v_current v /\
    (forall u, avail u (bank s') = avail u (bank s) + if u =? userId then refund else 0) /\
    profitLog (bank s') = profitLog (bank s) ++ [(penalty, ("vault-break-" +:+ vaultId)%string)] /\
    net REVENUE (ledger (bank s)) - net REVENUE (ledger (bank s')) = penalty /\
    vaults s' !! vaultId = Some r /\ v_status r = V_BROKEN_EARLY /\ v_current r = 0.
Proof.
  intros Hi Hmax Hr. apply transaction_Ok in Hr. apply break_tx_Ok in Hr
    as (v & rf & pn & Hv & Hst & Hown & Hrf & Hpn & Hr0 & Hp0 & Hsum & Hrow & Hvs & _ & _ & Hlog & Hef); [| | by apply vi_columns].
  2: { intros v Hv. by destruct (vi_rows s Hi _ _ Hv). }
  destruct (vi_rows s Hi _ _ Hv) as [_ Hb Hk _ _]. unfold saved in Hmax. rewrite Hv in Hmax. simpl in Hmax.
  destruct (break_amounts v) as [E1 E2]; [lia | done |]. exists v, rf, pn. rewrite Hpn, Hrf, E1, E2 in *.
  split_and!; try done.
  - intros u. rewrite (moves_avail _ _ _ u (we_users _ _ _ _ _ _ _ Hef)). unfold delta_of. rewrite sumZ_cons, sumZ_nil. simpl.
    rewrite (Z.eqb_sym userId u). destruct (u =? userId); lia.
  - destruct (effect_wallet _ _ _ _ _ _ _ Hef) as (_ & _ & _ & Hnet).
    + apply vault_not_posted. intros Hp. apply (vi_break_key s Hi) in Hp as (x & Hx & Hxs). congruence.
    + rewrite Hnet. unfold line_movement, REVENUE. rewrite !sumZ_cons, sumZ_nil. cbn [n_account n_debit n_credit]. autorewrite with codes. rewrite String.eqb_refl. lia.
  - by rewrite Hvs, lookup_insert_eq.
  - by subst r.
  - by subst r.
Qed.

Lemma rhu_half a b : 0 < b -> (2 * a) mod (2 * b) = b -> 2 * rhu a b * b = 2 * a + b.
Proof.
  intros Hb Hm. unfold rhu. pose proof (Z.div_mod (2 * a) (2 * b) ltac:(lia)) as Hdm. rewrite Hm in Hdm.
  assert (Hq : (2 * a + b) / (2 * b) = (2 * a) / (2 * b) + 1); [| nia].
  symmetry. apply Z.div_unique with 0; lia.
Qed.

(** Refund and penalty are rounded apart, so when the penalty comes out at
    half a unit both round up and the posting does not balance: such a vault can
    never be broken early, whoever asks and whenever.  With the default 5% that
    is every balance that ends in 10 modulo 20 units. *)
Theorem half_unit_break_refused s userId vaultId op now v : vinv s -> vaults s !! vaultId = Some v -> v_current v <= VAULT_MAX ->
  (v_current v * v_penaltyPct v) mod 10000 = 5000 -> exists e, breakEarly sha256 wire_vault userId vaultId op now s = (Err e, s).
Proof.
  intros Hi Hv Hmax Hmod. unfold breakEarly, transaction. destruct (break_tx _ _ _ _ _ _ s) as [[r s'] | e] eqn:Hr; [exfalso | by exists e].
  apply break_tx_Ok in Hr as (v0 & rf & pn & Hv0 & _ & _ & Hrf & Hpn & _ & _ & Hsum & _); [| | by apply vi_columns].
  2: { intros v0 Hv0. by destruct (vi_rows s Hi _ _ Hv0). }
  assert (v0 = v) as -> by congruence. destruct (vi_rows s Hi _ _ Hv) as [_ Hb Hk _ _].
  destruct (break_amounts v) as [E1 E2]; [lia | done |]. rewrite Hrf, Hpn, E1, E2 in Hsum.
  set (b := v_current v) in *. set (k := v_penaltyPct v) in *.
  pose proof (Z.div_mod (b * k) 10000 ltac:(lia)) as Hdm. rewrite Hmod in Hdm.
  pose proof (rhu_half (b * k) 10000 ltac:(lia)) as H1. pose proof (rhu_half (b * (10000 - k)) 10000 ltac:(lia)) as H2.
  assert (M1 : (2 * (b * k)) mod (2 * 10000) = 10000) by (symmetry; apply Z.mod_unique with (b * k / 10000); lia).
  assert (M2 : (2 * (b * (10000 - k))) mod (2 * 10000) = 10000) by (symmetry; apply Z.mod_unique with (b - b * k / 10000 - 1); lia).
  specialize (H1 M1). specialize (H2 M2). lia.
Qed.

(** The completion reward in cents, and in the units of the AZM columns. *)
Definition bonus_cents (balance : Z) : Z := rhu (25 * 10 ^ 12 + 125 * balance) (10 ^ 10).

Lemma bonus_units balance : 0 <= balance <= VAULT_MAX -> num_to_col (two_places (completionBonus balance)) = 1000000 * bonus_cents balance.
Proof.
  unfold VAULT_MAX. intros Hb. unfold two_places, completionBonus, d_plus, d_times. rewrite (dround_exact (balance * 125)), dround_exact by lia.
  assert (Hc : toFixedZ 2 (dec12 (25 * 10 ^ 12 + balance * 125)) = bonus_cents balance).
  { unfold toFixedZ, dec12. cbn [Qnum Qden]. destruct (Z.ltb_spec (25 * 10 ^ 12 + balance * 125) 0); [lia |]. unfold toFixed_pos, bonus_cents.
    change (Zpos 1000000000000) with (10 ^ 10 * 10 ^ 2). rewrite rhu_scale by lia. f_equal. lia. }
  rewrite Hc. unfold parseDec. apply num_to_col_units.
  - unfold SAFE_UNITS. pose proof (rhu_spec (25 * 10 ^ 12 + 125 * balance) (10 ^ 10) ltac:(lia)) as Hs. unfold bonus_cents. lia.
  - unfold Qeq. cbn [Qnum Qden]. change (Zpos (Z.to_pos (10 ^ 2))) with 100. lia.
Qed.

(** Completing a vault releases the whole balance and pays the promised
    reward in the same transaction: the owner's available balance grows by
    exactly the vault's balance and nobody else's changes, the vault is empty
    and completed, and the owner's AZM balance grows by 25 AZM and 1.25% of the
    balance, rounded to the cent, with a reward row of that vault's identity; a
    completion is never answered by an earlier reward. *)
Theorem completion_releases_all s vaultId rewardId now r s' : vinv s -> saved vaultId s <= VAULT_MAX ->
  completeMatured sha256 on vaultId rewardId now s = (Ok r, s') ->
  exists v v' p p' row, vaults s !! vaultId = Some v /\ v_status v = V_ACTIVE /\ 0 < v_current v /\
    vaults s' !! vaultId = Some v' /\ v_status v' = V_COMPLETED /\ v_current v' = 0 /\
    (forall u, avail u (bank s') = avail u (bank s) + if u =? v_userId v then v_current v else 0) /\
    cd_credited r = true /\ profiles s !! v_userId v = Some p /\ profiles s' !! v_userId v = Some p' /\
    pf_azmBalance p' - pf_azmBalance p = 1000000 * bonus_cents (v_current v) /\ rewards s' !! rewardId = Some row /\ reward_for vaultId row.
Proof.
  intros Hi Hmax Hr. apply transaction_Ok in Hr.
  apply complete_tx_Ok in Hr as (v & s1 & Hv & Hst & Hpos & Hvs & Hd & (Hpf & Hrw & _) & _ & Hef & Hc); [| | by apply vi_columns].
  2: { intros v Hv. by destruct (vi_rows s Hi _ _ Hv). }
  unfold saved in Hmax. rewrite Hv in Hmax. simpl in Hmax.
  apply credit_Ok in Hc as [(_ & _ & k & id & row & [= <-] & Hf) | (Hcr & p & Hp & _ & _ & ->)].
  - exfalso. apply reward_of_Some in Hf as (Hrow & _ & Hsrc & Hk). rewrite Hrw in Hrow. destruct (vi_reward s Hi id row vaultId Hrow) as (x & Hx & Hxs); [by split | congruence].
  - rewrite bonus_units by lia. rewrite Hpf in Hp. eexists v, _, p, _, _. simpl. rewrite Hvs, !lookup_insert_eq. split_and!; try done.
    + intros u. rewrite (moves_avail _ _ _ u (we_users _ _ _ _ _ _ _ Hef)). unfold delta_of. rewrite sumZ_cons, sumZ_nil. simpl.
      rewrite (Z.eqb_sym (v_userId v) u). destruct (u =? v_userId v); lia.
    + simpl. lia.
    + split; [done |]. by left.
Qed.

(** An empty vault never completes: the zero line of its posting is
    refused, so the maturity sweep fails on it every time, leaves the database
    as it is and meets it again on the next tick.  The sweep takes 50 matured
    vaults; when those are empty, no vault is completed at all. *)
Theorem empty_vault_never_completes newIds now l s : vinv s -> (forall p, p ∈ l -> saved p.1 s = 0) ->
  (forall p, p ∈ l -> exists e, completeMatured sha256 on p.1 (newIds p.1) now s = (Err e, s)) /\ sweep sha256 on newIds now l s = s.
Proof.
  intros Hi Hl. assert (Hone : forall p, p ∈ l -> exists e, completeMatured sha256 on p.1 (newIds p.1) now s = (Err e, s)).
  { intros p Hp. unfold completeMatured, transaction. destruct (complete_tx _ _ _ _ _ s) as [[r s'] | e] eqn:Hr; [exfalso | by eexists].
    apply complete_tx_Ok in Hr as (v & s1 & Hv & _ & Hpos & _); [| | by apply vi_columns].
    - specialize (Hl p Hp). unfold saved in Hl. rewrite Hv in Hl. simpl in Hl. lia.
    - intros v Hv. by destruct (vi_rows s Hi _ _ Hv). }
  split; [done |]. clear Hl. unfold sweep. induction l as [| p l IH]; [done |]. simpl. destruct (Hone p) as [e ->]; [left |]. apply IH. intros q Hq. apply Hone. by right.
Qed.

(** ** The identity of a deposit *)

Lemma step_deposits s s' id d : vinv s -> step s s' -> deposits s !! id = Some d -> deposits s' !! id = Some d.
Proof.
  intros Hi Hs Hd. assert (Hstep : deposits_step s s' -> deposits s' !! id = Some d).
  { intros [-> | (i & e & Hn & -> & _)]; [done |]. rewrite lookup_insert_ne; [done |]. intros ->. congruence. }
  apply step_vault_shape in Hs as [Hs | (w & _ & ->)]; [| done | done].
  destruct Hs as [_ _ Hp _ | i v' _ _ _ Hp _ | i v v' newId u a paid _ _ _ _ _ _ _ _ _ _ Hp _ _ | i v v' r p _ _ _ _ _ _ _ _ _ _ Hp _ _ | i v v' _ _ _ _ _ _ _ _ Hp _ _];
    first [by apply Hstep | by rewrite Hp].
Qed.

Lemma longest_deposits vaultId (onTime : bool) s x s' :
  (if onTime then
     freshVault ← reads (fun s => vaults s !! vaultId);
     match freshVault with
     | Some v => if sk_longest (v_streaks v) <? sk_count (v_streaks v) then vault_update vaultId longest;; mret tt else mret tt
     | None => mret tt
     end
   else mret tt : M vdb unit) s = Ok (x, s') -> deposits s' = deposits s.
Proof.
  destruct onTime; intros Hl; [| by apply Mret_Ok in Hl as [_ ->]]. apply Mbind_Ok in Hl as (o & s3 & Hf & Hl). apply reads_Ok in Hf as [-> ->].
  destruct (vaults s !! vaultId) as [v1 |]; [| by apply Mret_Ok in Hl as [_ ->]]. destruct (_ <? _); [| by apply Mret_Ok in Hl as [_ ->]].
  apply Mbind_Ok in Hl as (z & s3 & Hup & Hl). apply vault_update_Ok in Hup as (v2 & _ & _ & _ & ->). by apply Mret_Ok in Hl as [_ ->].
Qed.

(** The transaction cannot commit under a taken key. *)
Lemma deposit_key_taken vaultId vault amount ty sched extra k op guard b newId s id d x s' :
  truthy (Some k) = Some k -> only_reads guard -> deposits s !! id = Some d -> dp_idempotencyKey d = Some k ->
  ~ deposit_tx sha256 wire_breakdown vaultId vault amount ty sched extra (Some k) op guard b newId s = Ok (x, s').
Proof.
  intros Hne Hg Hd Hk Hr. unfold deposit_tx in Hr. apply Mbind_Ok in Hr as (y & s1 & H1 & Hr). apply Hg in H1 as ->.
  apply Mbind_Ok in Hr as (p & s1 & H1 & Hr). apply reads_Ok in H1 as [-> ->]. apply Mbind_Ok in Hr as (y1 & s1 & H1 & Hr). apply check_Ok in H1 as [_ ->].
  apply Mbind_Ok in Hr as (y2 & s1 & H1 & Hr). apply check_Ok in H1 as [_ ->].
  apply Mbind_Ok in Hr as (n & s1 & Hv & Hr). apply Mbind_Ok in Hr as (y3 & s2 & H1 & Hr). apply check_Ok in H1 as [Hn ->].
  apply vault_updateMany_Ok in Hv as [[-> _] | (_ & v & Hv & _ & _ & ->)]; [done |].
  apply Mbind_Ok in Hr as (n2 & s1 & Hu & Hr). apply Mbind_Ok in Hr as (why & s2 & H1 & Hr). apply reads_Ok in H1 as [_ ->].
  apply Mbind_Ok in Hr as (y4 & s2 & H1 & Hr). apply check_Ok in H1 as [Hn2 ->].
  apply balance_updateMany_Ok in Hu as [[-> _] | (_ & u & pf & _ & _ & _ & _ & ->)]; [done |].
  apply Mbind_Ok in Hr as (y5 & s1 & Hl & Hr). apply Mbind_Ok in Hr as (y6 & s2 & Hdep & _). apply deposit_create_Ok in Hdep as (_ & Hkey & _).
  apply longest_deposits in Hl as Hsame. simpl in Hsame.
  rewrite Hsame in Hkey. by destruct (Hkey k id d Hne Hd).
Qed.

Lemma manual_cases userId vaultId amount key op guard ids now before s r s' :
  depositManual sha256 wire_breakdown on userId vaultId amount key op guard ids now before s = (r, s') ->
  s' = s /\ (forall b, r <> Ok (Deposited b)) \/ exists vault, vaults before !! vaultId = Some vault /\ v_userId vault = userId /\ 0 <= Qnum amount /\
    let b := vault_breakdown vault amount MANUAL in
    match transaction (deposit_tx sha256 wire_breakdown vaultId vault amount MANUAL None None key op guard b (di_deposit ids)) s with
    | (Ok _, s1) => r = Ok (Deposited b) /\ bank s' = bank s1 /\ vaults s' = vaults s1
    | (Err e, s1) => r = Err e /\ s' = deposit_failed vaultId vault amount MANUAL None e (di_failed ids) s1
    end.
Proof.
  unfold depositManual. destruct (throw_if _ _;; _) as [vault | e] eqn:Hv; [| intros [= <- <-]; by left]. res_inv Hv. apply positive_units in Hres as [Hq _].
  match goal with Hb : negb (_ =? _) = false |- _ => apply negb_false_iff, Z.eqb_eq in Hb end.
  unfold _executeDeposit. destruct (truthy key ≫= _) as [[id d] |]; [intros [= <- <-]; by left |]. intros Hr. right. exists vault. split_and!; try done.
  simpl. destruct (transaction _ s) as [[x | e] s1]; injection Hr as <- <-; [| done]. split; [done |]. destruct (on && _); [| done].
  unfold creditAzm. destruct (bad_reward _ _ _); [done |]. unfold transaction. destruct (_creditAzmWithClient _ _ _ _ _ s1) as [[c s2] | e] eqn:Hc; [| done].
  apply credit_Ok in Hc as [(-> & _) | (_ & p & _ & _ & _ & ->)]; done.
Qed.

Lemma failed_bank vaultId vault amount ty sched e newId s : let s' := deposit_failed vaultId vault amount ty sched e newId s in
  bank s' = bank s /\ vaults s' = vaults s /\ profiles s' = profiles s /\ rewards s' = rewards s.
Proof.
  unfold deposit_failed, transaction. destruct (deposit_create _ _ s) as [[x s1] | e'] eqn:Hd; [| done]. apply deposit_create_Ok in Hd as (_ & _ & ->). done.
Qed.

(** An idempotency key carries one deposit.  Once a deposit has the key, for
    ever after and under every interleaving, a deposit call with that key, from
    any user, for any vault and amount, decided on any earlier database, moves
    no money and changes no vault, profile or reward; it answers with the
    deposit it found or fails. *)
Theorem deposit_key_once s0 s id d k userId vaultId amount op guard ids now before r s' :
  vinv s0 -> steps s0 s -> deposits s0 !! id = Some d -> dp_idempotencyKey d = Some k -> truthy (Some k) = Some k -> only_reads guard ->
  depositManual sha256 wire_breakdown on userId vaultId amount (Some k) op guard ids now before s = (r, s') ->
  bank s' = bank s /\ vaults s' = vaults s /\ profiles s' = profiles s /\ rewards s' = rewards s /\ forall b, r <> Ok (Deposited b).
Proof.
  intros Hi Hst Hd Hk Hne Hg Hr. assert (Hs : vinv s /\ deposits s !! id = Some d).
  { clear Hr. revert Hi Hd. induction Hst as [s | s1 s2 s3 Hs _ IH]; intros Hi Hd; [done |]. apply IH; [by eapply step_vault | by eapply step_deposits]. }
  destruct Hs as [Hi' Hd']. apply manual_cases in Hr as [[-> Hcase] | (vault & _ & _ & Hq & Hcase)]; [by split_and! |].
  cbv zeta in Hcase. destruct (transaction _ s) as [[x | e] s1] eqn:Ht.
  - exfalso. apply transaction_Ok in Ht. eapply deposit_key_taken; [| | exact Hd' | exact Hk | exact Ht]; done.
  - destruct Hcase as [-> ->]. assert (s1 = s) as -> by (unfold transaction in Ht; case_match; [case_match |]; congruence).
    destruct (failed_bank vaultId vault amount MANUAL None e (di_failed ids) s) as (H1 & H2 & H3 & H4). by split_and!.
Qed.

(** ** Shortfalls of a deposit *)

(** A successful deposit, as its caller sees it. *)
Lemma manual_Ok userId vaultId amount key op guard ids now before s b s' : vinv s -> only_reads guard ->
  depositManual sha256 wire_breakdown on userId vaultId amount key op guard ids now before s = (Ok (Deposited b), s') ->
  0 < toFixedZ 8 amount /\ 0 <= Qnum amount /\ exists v v', vaults s !! vaultId = Some v /\ deposited_to (toFixedZ 8 amount) v v' /\
    vaults s' = <[vaultId := v']> (vaults s) /\ deposits s !! di_deposit ids = None /\
    deposit_effect sha256 vaultId (di_deposit ids) userId (paid_units amount) (toFixedZ 8 amount) (bank s) (bank s').
Proof.
  intros Hi Hg Hr. apply manual_cases in Hr as [[_ Hr] | (vault & _ & <- & Hq & Hr)]; [by destruct (Hr b) |]. cbv zeta in Hr.
  destruct (transaction _ s) as [[x | e] s1] eqn:Ht; [| by destruct Hr]. destruct Hr as (_ & Hb & Hv). apply transaction_Ok in Ht.
  apply deposit_tx_Ok in Ht as (v & v' & Hid & _ & Hdt & _ & Hvs & Ha & _ & Hn & _ & _ & Hef & _); [| done.. |].
  - split_and!; try done. exists v, v'. rewrite Hb, Hv. by split_and!.
  - intros v Hid. by destruct (vi_rows s Hi _ _ Hid) as [_ [] _ _ _].
Qed.

(** A vault deposit shuts its depositor out of smart escrow: the history row
    is written with the amount as a receipt while the balance is debited, so the
    audit that runs before every escrow funding, if it passed before, reports an
    inconsistency afterwards, for every deposit of at least 3e-6 USDC and every
    balance within the exact range of doubles; and every funding of a smart
    escrow by that user is refused. *)
Theorem vault_deposit_blocks_escrow s userId vaultId amount key op guard ids now before b s' row :
  vinv s -> only_reads guard -> no_tie amount -> 300 <= toFixedZ 8 amount ->
  runDoubleCheck userId (bank s) = Ok tt -> users (bank s) !! userId = Some row -> availableBalance row <= SAFE_UNITS ->
  depositManual sha256 wire_breakdown on userId vaultId amount key op guard ids now before s = (Ok (Deposited b), s') ->
  runDoubleCheck userId (bank s') = Err "[DoubleCheck] LEDGER INCONSISTENCY DETECTED" /\
  forall id now ref op w, exists e, fundEscrow sha256 wire id userId now ref op (bank s') w = (Err e, w).
Proof.
  intros Hi Hg Ht Hamt Hck Hrow Hsafe Hr. apply manual_Ok in Hr as (_ & Hq & v & v' & _ & _ & _ & _ & [Hmv Hh _ _ _ _]); [| done | done].
  rewrite paid_no_tie in Hmv by done. set (a := toFixedZ 8 amount) in *. apply moves_one_inv in Hmv as (r0 & Hu0 & Hok & Hus). assert (r0 = row) as -> by congruence.
  assert (Hcheck : runDoubleCheck userId (bank s') = Err "[DoubleCheck] LEDGER INCONSISTENCY DETECTED"); [| split; [exact Hcheck | by apply audit_refuses]].
  unfold runDoubleCheck in *. rewrite Hus, lookup_insert_eq. rewrite Hrow in Hck. apply throw_if_Ok in Hck.
  rewrite Hh, filter_app'. simpl. rewrite Z.eqb_refl. simpl. rewrite foldl_app. cbn [foldl]. unfold audit_add at 1. cbn [hs_amountUsdc hs_feeUsdc hs_type].
  change (is_withdrawal (OTHER_TYPE "VAULT_DEPOSIT")) with false. cbv beta iota zeta.
  cbn [apply_delta availableBalance da]. change (availableBalance row + - a) with (availableBalance row - a).
  assert (Hge : 0 <= availableBalance row - a).
  { unfold user_ok, column_ok in Hok. cbn [apply_delta availableBalance da] in Hok. repeat (apply andb_true_iff in Hok as [Hok ?]). apply Z.leb_le in Hok. lia. }
  unfold throw_if. rewrite audit_opposite; [done | lia | lia | exact Hck].
Qed.

(** A deposit of half a unit more than a whole number of units creates a
    unit: the vault and the ledger round the amount up, the balance that pays is
    rounded up as well, so customers hold 1e-8 USDC more than before with no
    revenue or liability to explain it. *)
Theorem tie_deposit_mints s userId vaultId amount key op guard ids now before b s' : vinv s -> only_reads guard ->
  ~ no_tie amount -> depositManual sha256 wire_breakdown on userId vaultId amount key op guard ids now before s = (Ok (Deposited b), s') ->
  customers (bank s') + vault_total s' = customers (bank s) + vault_total s + 1 /\
  avail userId (bank s') + net (liability_code userId) (ledger (bank s')) = avail userId (bank s) + net (liability_code userId) (ledger (bank s)) + 1.
Proof.
  intros Hi Hg Ht Hr. apply manual_Ok in Hr as (_ & Hq & v & v' & Hv & [_ _ Hc _] & Hvs & Hn & Hef); [| done | done].
  destruct (effect_wallet _ _ _ _ _ _ _ Hef) as (H1 & H2 & _ & H4).
  { apply vault_not_posted. intros Hp. apply (vi_deposit_key s Hi) in Hp as [x Hx]. congruence. }
  assert (Htie : paid_units amount = toFixedZ 8 amount - 1).
  { apply dec_stable in Ht. destruct (fixed8_nonneg amount Hq) as [-> _]. unfold paid_units. set (N := Qnum amount * 10 ^ 8) in *. set (D := QDen amount) in *.
    assert (HD : 0 < D) by (unfold D; lia). pose proof (rhu_half N D HD Ht) as Hh.
    assert (rhu (- N) D = - (rhu N D - 1)); [| lia]. apply rhu_near; [done | nia]. }
  rewrite Htie in *. split.
  - unfold customers. rewrite (we_fees _ _ _ _ _ _ _ Hef), H1, (total_write _ _ _ _ Hvs). unfold saved. rewrite Hv. simpl. rewrite Hc. lia.
  - rewrite H2, H4. unfold delta_of, line_movement. rewrite !sumZ_cons, !sumZ_nil. cbn [fst snd da n_account n_debit n_credit]. autorewrite with codes.
    rewrite Z.eqb_refl, String.eqb_refl. lia.
Qed.
End Theorems.

(** ** The intensity reward *)

Lemma parse_error f n : 0 <= f -> (Qabs (parseDec f n - (n # Z.to_pos (10 ^ f))) <= Qabs (n # Z.to_pos (10 ^ f)) * (1 # 9007199254740992))%Q.
Proof. intros _. apply fl_error'. Qed.

(** [+(x * y).toFixed(f)] for the two precisions the service uses. *)
Lemma rounded_mul f x y : f = 2 \/ f = 4 -> (Qabs (x * y) <= 20000000)%Q ->
  (Qabs (parseDec f (toFixedZ f (js_mul x y)) - x * y) <= (1 # 2) / inject_Z (10 ^ f) + (1 # 100000000))%Q.
Proof.
  intros Hf Hb. pose proof (fl_error' (x * y)) as E1. fold (js_mul x y) in E1. set (p := (x * y)%Q) in *. set (m := js_mul x y) in *.
  assert (E1' : (Qabs (m - p) <= 1 # 400000000)%Q) by lra. apply Qabs_Qle_condition in E1', Hb.
  destruct Hf as [-> | ->]; (match goal with |- context [toFixedZ ?f m] => pose proof (toFixedZ_spec f m ltac:(lia)) as E2; pose proof (parse_error f (toFixedZ f m) ltac:(lia)) as E3;
    set (n := toFixedZ f m) in *; set (r := parseDec f n) in * end); apply Qabs_Qle_condition in E2.
  - change (Z.to_pos (10 ^ 2)) with 100%positive in E3. change (inject_Z (10 ^ 2)) with 100%Q in *.
    assert (Hn : ((n # 100) == inject_Z n * (1 # 100))%Q) by (unfold Qeq, inject_Z, Qmult; cbn [Qnum Qden]; lia). rewrite Hn in E3.
    assert (B : (Qabs (inject_Z n * (1 # 100)) <= 20000002)%Q) by (apply Qabs_Qle_condition; lra).
    assert (E3' : (Qabs (r - inject_Z n * (1 # 100)) <= 1 # 400000000)%Q) by lra. apply Qabs_Qle_condition in E3'. apply Qabs_Qle_condition.
    change ((1 # 2) / 100)%Q with (1 # 200)%Q. lra.
  - change (Z.to_pos (10 ^ 4)) with 10000%positive in E3. change (inject_Z (10 ^ 4)) with 10000%Q in *.
    assert (Hn : ((n # 10000) == inject_Z n * (1 # 10000))%Q) by (unfold Qeq, inject_Z, Qmult; cbn [Qnum Qden]; lia). rewrite Hn in E3.
    assert (B : (Qabs (inject_Z n * (1 # 10000)) <= 20000002)%Q) by (apply Qabs_Qle_condition; lra).
    assert (E3' : (Qabs (r - inject_Z n * (1 # 10000)) <= 1 # 400000000)%Q) by lra. apply Qabs_Qle_condition in E3'. apply Qabs_Qle_condition.
    change ((1 # 2) / 10000)%Q with (1 # 20000)%Q. lra.
Qed.

(** The streak bonus grows by 5% per deposit on time and stops at 100%. *)
Definition streak_percent (streak : Z) : Z := 5 * Z.min streak 20.

Lemma long_streak n : 20 < n -> js_min (js_mul (inject_Z n) AZM_STREAK_BONUS_STEP) AZM_STREAK_BONUS_CAP = AZM_STREAK_BONUS_CAP.
Proof.
  intros Hn. unfold js_min. destruct (Qle_bool _ _) eqn:Hle; [| reflexivity]. apply Qle_bool_iff in Hle. unfold AZM_STREAK_BONUS_CAP in Hle.
  exfalso. unfold js_mul in Hle. pose proof (fl_error' (inject_Z n * AZM_STREAK_BONUS_STEP)) as E. set (x := (inject_Z n * AZM_STREAK_BONUS_STEP)%Q) in *.
  assert (Hx : (105 # 100 <= x)%Q).
  { assert (Hs : (5 # 100 <= AZM_STREAK_BONUS_STEP)%Q) by (vm_compute; discriminate).
    assert (H21 : (21 <= inject_Z n)%Q) by (change 21%Q with (inject_Z 21); rewrite <- Zle_Qle; lia). unfold x. nra. }
  rewrite (Qabs_pos x) in E by lra. apply Qabs_Qle_condition in E. lra.
Qed.

Definition same_rational (x y : Q) : bool := (Qnum x =? Qnum y) && (Qden x =? Qden y)%positive.
Lemma same_rational_eq x y : same_rational x y = true -> x = y.
Proof. destruct x, y. unfold same_rational. simpl. intros [H1 H2]%andb_true_iff. apply Z.eqb_eq in H1. apply Pos.eqb_eq in H2. by subst. Qed.

Lemma streak_multiplier amount freq streak ty : 0 <= streak ->
  az_streakMultiplier (computeAzmIntensity amount freq streak ty) = parseDec 4 (100 * (100 + streak_percent streak)).
Proof.
  intros Hs. unfold computeAzmIntensity. cbn [az_streakMultiplier]. destruct (Z.le_gt_cases streak 20) as [Hle | Hgt].
  - assert (Hall : forallb (fun n => same_rational (parseDec 4 (toFixedZ 4 (js_add 1 (js_min (js_mul (inject_Z n) AZM_STREAK_BONUS_STEP) AZM_STREAK_BONUS_CAP))))
      (parseDec 4 (100 * (100 + streak_percent n)))) (seqZ 0 21) = true) by (vm_compute; reflexivity).
    rewrite forallb_forall in Hall. apply same_rational_eq, Hall, list_elem_of_In, elem_of_seqZ. lia.
  - rewrite long_streak by lia. unfold streak_percent. rewrite Z.min_r by lia. vm_compute. reflexivity.
Qed.

(** The multipliers of the contract. *)
Definition contract_frequency (f : frequency) : Q := match f with DAILY => 3 # 2 | WEEKLY => 1 | BIWEEKLY => 4 # 5 | MONTHLY => 3 # 5 end.

Lemma frequency_close f : (Qabs (FREQUENCY_AZM_MULT f - contract_frequency f) <= 1 # 1000000000000000)%Q /\ (1 # 2 <= FREQUENCY_AZM_MULT f <= 2)%Q.
Proof. destruct f; vm_compute; repeat split; discriminate. Qed.

(** Errors of a product. *)
Lemma product_error (x y X Y e d bx by_ : Q) : (Qabs (x - X) <= e -> Qabs (y - Y) <= d -> Qabs X <= bx -> Qabs y <= by_ -> Qabs (x * y - X * Y) <= e * by_ + bx * d)%Q.
Proof.
  intros H1 H2 H3 H4. assert (He : (x * y - X * Y == (x - X) * y + X * (y - Y))%Q) by ring. rewrite He.
  eapply Qle_trans; [apply Qabs_triangle |]. rewrite !Qabs_Qmult. pose proof (Qabs_nonneg (x - X)). pose proof (Qabs_nonneg y). pose proof (Qabs_nonneg X). pose proof (Qabs_nonneg (y - Y)).
  nra.
Qed.

Lemma streak_close n : 0 <= n -> (Qabs (parseDec 4 (100 * (100 + streak_percent n)) - (1 + inject_Z (streak_percent n) * (1 # 100))) <= 1 # 1000000000000000)%Q /\
  (1 <= 1 + inject_Z (streak_percent n) * (1 # 100) <= 2)%Q.
Proof.
  intros Hn. assert (Hp : 0 <= streak_percent n <= 100) by (unfold streak_percent; lia). set (p := streak_percent n) in *.
  assert (Hq : (0 <= inject_Z p <= 100)%Q) by (change 0%Q with (inject_Z 0); change 100%Q with (inject_Z 100); rewrite <- !Zle_Qle; lia).
  split; [| lra]. pose proof (parse_error 4 (100 * (100 + p)) ltac:(lia)) as E. change (Z.to_pos (10 ^ 4)) with 10000%positive in E.
  assert (He : ((100 * (100 + p) # 10000) == 1 + inject_Z p * (1 # 100))%Q) by (unfold Qeq, inject_Z, Qmult, Qplus; cbn [Qnum Qden]; lia). rewrite He in E.
  rewrite (Qabs_pos (1 + inject_Z p * (1 # 100))) in E by lra. lra.
Qed.

(** C39: the intensity reward follows the published formula: the streak multiplier
    is exactly 1 plus 5% per deposit on time, capped at 2, and the total, which
    goes through three roundings of doubles, is within 0.006 AZM of
    amount x 0.1 x frequency multiplier x streak multiplier, for deposits up to
    10 million USDC. *)
Theorem azm_intensity_accurate amount freq streak ty (a := toFixedZ 8 amount) (b := computeAzmIntensity amount freq streak ty) :
  0 <= a <= SAFE_UNITS -> 0 <= streak ->
  az_streakMultiplier b = parseDec 4 (100 * (100 + streak_percent streak)) /\
  (Qabs (az_totalAzm b - inject_Z a * (1 # 1000000000) * contract_frequency freq * (1 + inject_Z (streak_percent streak) * (1 # 100))) <= 6 # 1000)%Q.
Proof.
  intros Ha Hs. pose proof (streak_multiplier amount freq streak ty Hs) as Hm. split; [exact Hm |]. fold b in Hm.
  assert (Hia : (0 <= inject_Z a <= 1000000000000000)%Q).
  { change 0%Q with (inject_Z 0). change 1000000000000000%Q with (inject_Z 1000000000000000). rewrite <- !Zle_Qle. unfold SAFE_UNITS in Ha. lia. }
  pose proof (close_Number a ltac:(lia)) as HN. unfold close in HN. set (N := Number_of_units a) in *. apply Qabs_Qle_condition in HN.
  assert (HB : (Qabs (AZM_BASE_PER_USDC - (1 # 10)) <= 1 # 100000000000000000)%Q /\ (Qabs AZM_BASE_PER_USDC <= 1)%Q) by (split; vm_compute; discriminate). destruct HB as [HB1 HB2].
  (* the base *)
  assert (P1 : (Qabs (N * AZM_BASE_PER_USDC - inject_Z a * (1 # 100000000) * (1 # 10)) <= 1 # 300000000)%Q).
  { eapply Qle_trans; [apply (product_error _ _ _ _ (1 # 800000000) (1 # 100000000000000000) 10000000 1) |]; try done; apply Qabs_Qle_condition; lra. }
  apply Qabs_Qle_condition in P1. pose proof (rounded_mul 4 N AZM_BASE_PER_USDC ltac:(by right) ltac:(apply Qabs_Qle_condition; lra)) as R1.
  set (base := parseDec 4 (toFixedZ 4 (js_mul N AZM_BASE_PER_USDC))) in *. change ((1 # 2) / inject_Z (10 ^ 4))%Q with (1 # 20000)%Q in R1. apply Qabs_Qle_condition in R1.
  assert (D1 : (Qabs (base - inject_Z a * (1 # 1000000000)) <= 51 # 1000000)%Q) by (apply Qabs_Qle_condition; lra).
  (* the frequency *)
  destruct (frequency_close freq) as [HF1 HF2]. set (F := FREQUENCY_AZM_MULT freq) in *. set (f := contract_frequency freq) in *.
  assert (P2 : (Qabs (base * F - inject_Z a * (1 # 1000000000) * f) <= 103 # 1000000)%Q).
  { eapply Qle_trans; [apply (product_error _ _ _ _ (51 # 1000000) (1 # 1000000000000000) 1000001 2 D1 HF1); apply Qabs_Qle_condition; lra | vm_compute; discriminate]. }
  apply Qabs_Qle_condition in P2. apply Qabs_Qle_condition in HF1.
  assert (Hf : (0 <= f <= 3)%Q) by lra.
  assert (Haf : (0 <= inject_Z a * (1 # 1000000000) * f <= 3000000)%Q) by nra.
  pose proof (rounded_mul 4 base F ltac:(by right) ltac:(apply Qabs_Qle_condition; lra)) as R2.
  set (after := parseDec 4 (toFixedZ 4 (js_mul base F))) in *. change ((1 # 2) / inject_Z (10 ^ 4))%Q with (1 # 20000)%Q in R2. apply Qabs_Qle_condition in R2.
  assert (D2 : (Qabs (after - inject_Z a * (1 # 1000000000) * f) <= 154 # 1000000)%Q) by (apply Qabs_Qle_condition; lra).
  (* the streak *)
  destruct (streak_close streak Hs) as [HM1 HM2]. rewrite <- Hm in HM1. set (M := az_streakMultiplier b) in *. set (m := (1 + inject_Z (streak_percent streak) * (1 # 100))%Q) in *.
  assert (HM3 : (Qabs M <= 3)%Q) by (apply Qabs_Qle_condition in HM1; apply Qabs_Qle_condition; lra).
  assert (P3 : (Qabs (after * M - inject_Z a * (1 # 1000000000) * f * m) <= 500 # 1000000)%Q).
  { eapply Qle_trans; [apply (product_error _ _ _ _ (154 # 1000000) (1 # 1000000000000000) 3000001 3 D2 HM1 ltac:(apply Qabs_Qle_condition; lra) HM3) | vm_compute; discriminate]. }
  apply Qabs_Qle_condition in P3. assert (Hafm : (0 <= inject_Z a * (1 # 1000000000) * f * m <= 6000000)%Q) by nra.
  pose proof (rounded_mul 2 after M ltac:(by left) ltac:(apply Qabs_Qle_condition; lra)) as R3.
  change ((1 # 2) / inject_Z (10 ^ 2))%Q with (1 # 200)%Q in R3. apply Qabs_Qle_condition in R3. apply Qabs_Qle_condition.
  change (az_totalAzm b) with (parseDec 2 (toFixedZ 2 (js_mul after M))). lra.
Qed.

(** ** A concrete vault

    User 1, who holds 100 USDC, opens a vault and deposits 10 USDC under a key;
    the vault is broken early in one continuation and completed in another. *)
Definition save_profiles : gmap Z profile := {[ 1 := Profile BAN_ACTIVE false 0; 2 := Profile BAN_ACTIVE false 0 ]}.
Definition save_open : vdb := VDB run_open ∅ ∅ save_profiles ∅ {[ 1 := RoundUpRow true (Some "v1"%string) 0 1 ]}.
Definition save_wire (v : vault_row) : string := v_name v.
Definition save_wire_b (b : azm_breakdown) : string := "{}".
Definition save_created : vdb := (transaction (createVault "v1" 1 (Some "Trip"%string) (Some 100%Q) (DateAt 1000) None 10) save_open).2.
Definition save_ids : deposit_ids := DepositIds "d1" "f1" "w1".
#[local] Abbreviation save_deposit amount key ids s0 s := (@depositManual Decimal20 ToFixedColumn run_sha save_wire_b true 1 "v1" amount key None (mret tt) ids 20 s0 s).
#[local] Abbreviation save_step := (@vstep true Decimal20 ToFixedColumn run_sha run_wire save_wire save_wire_b true).
Definition save_deposited : vdb := (save_deposit 10%Q (Some "run-1"%string) save_ids save_created save_created).2.
Definition save_broken : vdb := (@breakEarly Decimal20 run_sha save_wire 1 "v1" None 30 save_deposited).2.
Definition save_done : vdb := (@completeMatured Decimal20 ToFixedColumn run_sha true "v1" "w2" 2000 save_deposited).2.

Example save_balances :
  map (avail 1) (map bank [save_open; save_deposited; save_broken; save_done]) = [10000000000; 9000000000; 9950000000; 10000000000] /\
  map (saved "v1") [save_created; save_deposited; save_broken; save_done] = [0; 1000000000; 0; 0].
Proof. vm_compute. done. Qed.

Lemma save_open_vinv : vinv save_open.
Proof.
  split; [apply run_open_einv | | | | | | |]; try (intros *; unfold posted_key; cbn; rewrite ?lookup_empty; (done || by intros [])).
  intros u row Hu. change (users (bank save_open)) with (users run_open) in Hu. unfold run_open, run_db in Hu. cbn in Hu.
  repeat (apply lookup_insert_Some in Hu as [[_ <-] | [_ Hu]]; [reflexivity |]). by apply lookup_singleton_Some in Hu as [_ <-] || by rewrite lookup_empty in Hu.
Qed.

Lemma save_create_step half : @vstep half Decimal20 ToFixedColumn run_sha run_wire save_wire save_wire_b true save_open save_created.
Proof. eapply (vs_create (half:=half) _ _ _ _ _ _ _ "v1" 1 (Some "Trip"%string) (Some 100%Q) (DateAt 1000) None 10); [lia | apply surjective_pairing]. Qed.

Lemma save_created_vinv : vinv save_created.
Proof. exact (proj1 (step_vault _ _ _ _ _ _ _ save_open_vinv (save_create_step true))). Qed.

Lemma reads_nothing : only_reads (mret tt).
Proof. by intros s x s' [_ ->]%Mret_Ok. Qed.

Lemma any_amount q : @whole_units true q.
Proof. discriminate. Qed.
Lemma ten_no_tie : no_tie 10%Q.
Proof. unfold no_tie. vm_compute. discriminate. Qed.

Lemma save_reach_deposited : rtc save_step save_open save_deposited.
Proof.
  eapply rtc_l; [exact (save_create_step true) |].
  exact (manual_steps _ _ _ _ _ _ _ _ _ _ _ _ _ _ _ _ _ save_created_vinv reads_nothing (any_amount _) (surjective_pairing _)).
Qed.

Lemma save_vinv s : rtc save_step save_open s -> vinv s.
Proof. intros Hr. exact (proj1 (steps_vault _ _ _ _ _ _ _ save_open_vinv Hr)). Qed.

Lemma save_reach_broken : rtc save_step save_deposited save_broken.
Proof. apply rtc_once. eapply vs_break, surjective_pairing. Qed.

Lemma save_reach_end : rtc save_step save_open save_broken.
Proof. etransitivity; [exact save_reach_deposited | exact save_reach_broken]. Qed.

Lemma vault_calls_refine_witness :
  rtc save_step save_created save_deposited /\
  rtc save_step save_deposited (@_tick Decimal20 ToFixedColumn run_sha save_wire_b true false (fun _ => save_ids) (fun _ => "w2"%string) 2000 save_deposited).
Proof.
  split.
  - destruct (@vault_calls_refine true Decimal20 ToFixedColumn run_sha run_wire save_wire save_wire_b true save_created save_deposited save_created
      save_created_vinv save_created_vinv) as (Hd & _).
    exact (Hd _ _ _ _ _ _ _ _ _ reads_nothing (any_amount _) (surjective_pairing _)).
  - pose proof (save_vinv _ save_reach_deposited) as Hi.
    destruct (@vault_calls_refine true Decimal20 ToFixedColumn run_sha run_wire save_wire save_wire_b true save_deposited
      (@_tick Decimal20 ToFixedColumn run_sha save_wire_b true false (fun _ => save_ids) (fun _ => "w2"%string) 2000 save_deposited) save_deposited Hi Hi) as (_ & _ & Ht).
    exact (proj1 (Ht _ _ _ _ eq_refl)).
Defined.

Lemma break_pays_exactly_witness : avail 1 (bank save_broken) = 9950000000 /\ profitLog (bank save_broken) = [(50000000, "vault-break-v1"%string)].
Proof.
  assert (Hr : exists r, @breakEarly Decimal20 run_sha save_wire 1 "v1" None 30 save_deposited = (Ok r, save_broken)) by (eexists; vm_compute; reflexivity).
  destruct Hr as [r Hr]. assert (Hmax : saved "v1" save_deposited <= VAULT_MAX) by (vm_compute; discriminate).
  destruct (@break_pays_exactly Decimal20 run_sha save_wire save_deposited 1 "v1" None 30 r save_broken (save_vinv _ save_reach_deposited) Hmax Hr)
    as (v & rf & pn & Hv & _ & _ & Hp & Hf & _ & Hav & Hlog & _).
  assert (Hrow : v_current v = 1000000000 /\ v_penaltyPct v = 500).
  { assert (Hx : exists x, vaults save_deposited !! "v1"%string = Some x /\ v_current x = 1000000000 /\ v_penaltyPct x = 500) by (eexists; split; [vm_compute; reflexivity | split; reflexivity]).
    destruct Hx as (x & Hx & Hc). rewrite Hx in Hv. injection Hv as <-. exact Hc. }
  destruct Hrow as [Hc Hk]. rewrite Hc, Hk in Hp, Hf. split.
  - rewrite (Hav 1), Hf. vm_compute. reflexivity.
  - rewrite Hlog, Hp. vm_compute. reflexivity.
Defined.

Lemma completion_releases_all_witness : avail 1 (bank save_done) = 10000000000 /\ exists p, profiles save_done !! 1 = Some p /\ pf_azmBalance p = 2613000000.
Proof.
  assert (Hr : exists r, @completeMatured Decimal20 ToFixedColumn run_sha true "v1" "w2" 2000 save_deposited = (Ok r, save_done)) by (eexists; vm_compute; reflexivity).
  destruct Hr as [r Hr]. assert (Hmax : saved "v1" save_deposited <= VAULT_MAX) by (vm_compute; discriminate).
  destruct (@completion_releases_all Decimal20 ToFixedColumn run_sha true save_deposited "v1" "w2" 2000 r save_done (save_vinv _ save_reach_deposited) Hmax Hr)
    as (v & v' & p & p' & row & Hv & _ & _ & _ & _ & _ & Hav & _ & Hp & Hp' & Hb & _).
  assert (Hrow : v_current v = 1000000000 /\ v_userId v = 1).
  { assert (Hx : exists x, vaults save_deposited !! "v1"%string = Some x /\ v_current x = 1000000000 /\ v_userId x = 1) by (eexists; split; [vm_compute; reflexivity | split; reflexivity]).
    destruct Hx as (x & Hx & Hc). rewrite Hx in Hv. injection Hv as <-. exact Hc. }
  destruct Hrow as [Hc Hu]. rewrite Hc, Hu in *. split.
  - rewrite (Hav 1). vm_compute. reflexivity.
  - exists p'. split; [exact Hp' |].
    assert (Hx : exists x, profiles save_deposited !! 1 = Some x /\ pf_azmBalance x = 100000000) by (eexists; split; [vm_compute; reflexivity | reflexivity]).
    destruct Hx as (x & Hx & Hz). rewrite Hx in Hp. injection Hp as <-. rewrite Hz in Hb.
    assert (Hcents : 1000000 * bonus_cents 1000000000 = 2513000000) by (vm_compute; reflexivity). lia.
Defined.

(** The vault before its first deposit is empty and mature. *)
Lemma empty_vault_never_completes_witness :
  map fst (matured_vaults 2000 save_created) = ["v1"%string] /\ @_sweepMatured Decimal20 ToFixedColumn run_sha true (fun _ => "w2"%string) 2000 save_created = save_created.
Proof.
  split; [vm_compute; reflexivity |].
  refine (proj2 (@empty_vault_never_completes Decimal20 ToFixedColumn run_sha true (fun _ => "w2"%string) 2000 (matured_vaults 2000 save_created) save_created save_created_vinv _)).
  intros p Hp. assert (Hl : forallb (fun p : string * vault_row => saved p.1 save_created =? 0) (matured_vaults 2000 save_created) = true) by (vm_compute; reflexivity).
  rewrite forallb_forall in Hl. exact (proj1 (Z.eqb_eq _ _) (Hl p (proj1 (list_elem_of_In _ _) Hp))).
Defined.

(** Ten units in the vault: the penalty would be half a unit. *)
Definition save_ten_units : vdb := (save_deposit (10 # 100000000) None save_ids save_created save_created).2.

Lemma half_unit_break_refused_witness : exists e, @breakEarly Decimal20 run_sha save_wire 1 "v1" None 30 save_ten_units = (Err e, save_ten_units).
Proof.
  assert (Hi : vinv save_ten_units).
  { refine (proj1 (steps_vault _ run_wire save_wire _ _ _ _ save_created_vinv _)).
    exact (manual_steps _ _ _ _ _ _ _ _ _ _ _ _ _ _ _ _ _ save_created_vinv reads_nothing (any_amount _) (surjective_pairing _)). }
  assert (Hx : exists v, vaults save_ten_units !! "v1"%string = Some v /\ v_current v <= VAULT_MAX /\ (v_current v * v_penaltyPct v) mod 10000 = 5000)
    by (eexists; split; [vm_compute; reflexivity | split; vm_compute; [discriminate | reflexivity]]).
  destruct Hx as (v & Hv & Hmax & Hmod). exact (@half_unit_break_refused Decimal20 run_sha save_wire save_ten_units 1 "v1" None 30 v Hi Hv Hmax Hmod).
Defined.

(** A retry of the keyed deposit that has not seen the first. *)
Lemma deposit_key_once_witness : exists r s', save_deposit 10%Q (Some "run-1"%string) (DepositIds "d2" "f2" "w2") save_created save_deposited = (r, s') /\
  bank s' = bank save_deposited /\ saved "v1" s' = 1000000000.
Proof.
  destruct (save_deposit 10%Q (Some "run-1"%string) (DepositIds "d2" "f2" "w2") save_created save_deposited) as [r s'] eqn:Hr. exists r, s'. split; [reflexivity |].
  assert (Hd : exists d, deposits save_deposited !! "d1"%string = Some d /\ dp_idempotencyKey d = Some "run-1"%string) by (eexists; split; vm_compute; reflexivity).
  destruct Hd as (d & Hd & Hk).
  destruct (@deposit_key_once true Decimal20 ToFixedColumn run_sha run_wire save_wire save_wire_b true save_deposited save_deposited "d1" d "run-1" 1 "v1" 10%Q None (mret tt)
    (DepositIds "d2" "f2" "w2") 20 save_created r s' (save_vinv _ save_reach_deposited) (rtc_refl _ _) Hd Hk eq_refl reads_nothing Hr) as (Hb & Hv & _).
  split; [exact Hb |]. unfold saved. rewrite Hv. vm_compute. reflexivity.
Defined.

Lemma vault_deposit_blocks_escrow_witness :
  runDoubleCheck 1 (bank save_created) = Ok tt /\ runDoubleCheck 1 (bank save_deposited) = Err "[DoubleCheck] LEDGER INCONSISTENCY DETECTED"%string.
Proof.
  assert (Hck : runDoubleCheck 1 (bank save_created) = Ok tt) by (vm_compute; reflexivity). split; [exact Hck |].
  assert (Hr : exists b, save_deposit 10%Q (Some "run-1"%string) save_ids save_created save_created = (Ok (Deposited b), save_deposited)) by (eexists; vm_compute; reflexivity).
  destruct Hr as [b Hr]. assert (Ha : 300 <= toFixedZ 8 10) by (vm_compute; discriminate).
  assert (Hrow : exists row, users (bank save_created) !! 1 = Some row /\ availableBalance row <= SAFE_UNITS) by (eexists; split; [vm_compute; reflexivity | vm_compute; discriminate]).
  destruct Hrow as (row & Hrow & Hs).
  exact (proj1 (@vault_deposit_blocks_escrow Decimal20 ToFixedColumn run_sha run_wire save_wire_b true save_created 1 "v1" 10%Q (Some "run-1"%string) None (mret tt)
    save_ids 20 save_created b save_deposited row save_created_vinv reads_nothing ten_no_tie Ha Hck Hrow Hs Hr)).
Defined.

(** One and a half units: the vault receives two, the balance loses one. *)
Definition save_tie : vdb := (save_deposit (15 # 1000000000) None save_ids save_created save_created).2.

Lemma tie_deposit_mints_witness : customers (bank save_tie) + vault_total save_tie = 10500000001.
Proof.
  assert (Hr : exists b, save_deposit (15 # 1000000000) None save_ids save_created save_created = (Ok (Deposited b), save_tie)) by (eexists; vm_compute; reflexivity).
  destruct Hr as [b Hr]. assert (Ht : ~ no_tie (15 # 1000000000)) by (unfold no_tie; intros Hn; apply Hn; vm_compute; reflexivity).
  rewrite (proj1 (@tie_deposit_mints Decimal20 ToFixedColumn run_sha save_wire_b true save_created 1 "v1" (15 # 1000000000) None None (mret tt)
    save_ids 20 save_created b save_tie save_created_vinv reads_nothing Ht Hr)). vm_compute. reflexivity.
Defined.

Lemma azm_intensity_accurate_witness :
  az_streakMultiplier (computeAzmIntensity 10 DAILY 3 AUTO_RULE) = parseDec 4 11500 /\ (Qabs (az_totalAzm (computeAzmIntensity 10 DAILY 3 AUTO_RULE) - (1725 # 1000)) <= 6 # 1000)%Q.
Proof.
  assert (Ha : 0 <= toFixedZ 8 10 <= SAFE_UNITS) by (split; vm_compute; discriminate).
  destruct (azm_intensity_accurate 10 DAILY 3 AUTO_RULE Ha ltac:(lia)) as [Hm Hb]. split; [rewrite Hm; reflexivity |].
  eapply Qle_trans; [| exact Hb]. vm_compute. discriminate.
Defined.
