(* ===== verification/RoundUp.v ===== *)
(** * The other writers of vault rows

    Round-up savings (controllers/roundUpController.js) and simulated yield
    (controllers/vaultYieldController.js) on the database of the vault service.
    Both credit vaults outside the service: no balance is debited and nothing is
    posted.  Numbers in a request body are finite doubles; a handler's early
    reply is an error value or a reply that changes nothing.

    With them all writers of vaults are there: the books of vaults and smart
    escrow and the single end of a vault are theorems on their runs. *)

From stdpp Require Import base gmap strings list relations.
From Stdlib Require Import ZArith QArith Qround Lia Ascii.
From S2P Require Import Prelude JsNumber ExactDecimal Json Ledger LedgerFacts LedgerProps Idempotency Escrow EscrowFacts EscrowProps WalletProps EscrowTheorems Vault VaultProps VaultTheorems.

Local Open Scope Z_scope.

(** ** Round-up savings *)

Definition DEFAULT_ROUND_UP : roundup_row := RoundUpRow false None 0 1.

(** [getSettings]: the row is created on the first read. *)
Definition getSettings (userId : Z) (s : vdb) : roundup_row * vdb :=
  match roundUps s !! userId with
  | Some r => (r, s)
  | None => (DEFAULT_ROUND_UP, set_roundUps (<[userId := DEFAULT_ROUND_UP]> (roundUps s)) s)
  end.

(** What the client sends: [targetVaultId] is absent, falsy, or an identifier. *)
Inductive target_in : Type := KeepTarget | ClearTarget | TargetVault (id : string).

Definition target_free (userId : Z) (t : option string) (s : vdb) : bool :=
  match t with
  | None => true
  | Some id => forallb (fun p => (p.1 =? userId) || negb (bool_decide (ru_targetVaultId p.2 = Some id))) (map_to_list (roundUps s))
  end.

(** [updateSettings]; [before] is the database the vault was read from.  The
    target column is unique. *)
Definition updateSettings (userId : Z) (enabled : option bool) (target : target_in) (multiplier : option Q) (before : vdb) : M vdb roundup_row :=
  lift match target with
       | TargetVault id => own_vault userId id before;; mret tt
       | _ => Ok tt
       end;;
  s ← get;
  let old := default DEFAULT_ROUND_UP (roundUps s !! userId) in
  let tgt := match target with KeepTarget => ru_targetVaultId old | ClearTarget => None | TargetVault id => Some id end in
  let mult := match multiplier with Some m => if js_lt 0 m then m else ru_multiplier old | None => ru_multiplier old end in
  let row := RoundUpRow (default (ru_enabled old) enabled) tgt (ru_totalSaved old) mult in
  check (target_free userId tgt s) "P2002";;
  check (match tgt with Some id => match vaults s !! id with Some _ => true | None => false end | None => true end) "P2003";;
  put (set_roundUps (<[userId := row]> (roundUps s)) s);;
  mret row.

(** The contribution of a payment of [amountUsdc]. *)
Definition roundUpAmount_of (multiplier amountUsdc : Q) : Q :=
  let m := if Qeq_bool multiplier 0 then 1%Q else multiplier in
  let rounded := js_mul (inject_Z (Qceiling (js_div amountUsdc m))) m in
  js_div (inject_Z (Math_round (js_mul (js_sub rounded amountUsdc) 100))) 100.

Section Handlers.
Context `{PrismaNumber}.

Definition round_up_credit (r : Q) (v : vault_row) : vault_row :=
  let k := v_streaks v in
  with_current (v_current v + num_to_col r)
    (with_streaks (Streaks (sk_count k) (sk_longest k) (sk_missed k) (sk_consistency k) (sk_azm k + num_to_col (js_mul r (fl (1 # 100))))) v).

Definition add_saved (userId : Z) (r : Q) : M vdb unit :=
  s ← get;
  match roundUps s !! userId with
  | Some x => put (set_roundUps (<[userId := RoundUpRow (ru_enabled x) (ru_targetVaultId x) (js_add (ru_totalSaved x) r) (ru_multiplier x)]> (roundUps s)) s)
  | None => throw "P2025"
  end.

(** [processRoundUp]; the settings were read from [before].  The amount
    returned is the contribution. *)
Definition processRoundUp (userId : Z) (amountUsdc : Q) (newId : string) (before s : vdb) : res Q * vdb :=
  if Qle_bool amountUsdc 0 then (Err "Invalid amount", s)
  else match roundUps before !! userId with
  | None => (Ok 0%Q, s)
  | Some settings =>
      if negb (ru_enabled settings) then (Ok 0%Q, s)
      else
        let r := roundUpAmount_of (ru_multiplier settings) amountUsdc in
        if Qle_bool r 0 then (Ok 0%Q, s)
        else match ru_targetVaultId settings with
        | Some target =>
            transaction (
              vault_update target (round_up_credit r);;
              deposit_create newId (DepositRow target userId (num_to_col r) ROUND_UP DEP_COMPLETED 0 None None None);;
              add_saved userId r;;
              mret r) s
        | None => transaction (add_saved userId r;; mret r) s
        end
  end.

(** ** Simulated yield *)

Record strategy : Type := Strategy { st_name : string; st_apr : Z; st_minAmountUsdc : Q }.
Definition STRATEGIES : list strategy := [Strategy "AAVE" 450 10; Strategy "COMPOUND" 385 10; Strategy "INTERNAL_LP" 650 50].

(** The owner's vault, as a handler of this file reports it. *)
Definition yield_vault (userId : Z) (vaultId : string) (before : vdb) : res vault_row :=
  vault ← of_option (vaults before !! vaultId) "Vault not found";
  throw_if (negb (v_userId vault =? userId)) "Not your vault";;
  mret vault.

Definition enableYield (userId : Z) (vaultId : string) (name : option string) (now : Z) (before : vdb) : vdb -> res vault_row * vdb :=
  transaction (
    strat ← lift (
      n ← of_option (truthy name) "Strategy name required";
      vault ← yield_vault userId vaultId before;
      throw_if (negb (bool_decide (v_status vault = V_ACTIVE))) "Vault must be active";;
      strat ← of_option (List.find (fun x => String.eqb (st_name x) n) STRATEGIES) "Unknown strategy";
      throw_if (js_lt (Number_of_units (v_current vault)) (st_minAmountUsdc strat)) "Minimum required";;
      mret strat);
    vault_update vaultId (fun v => with_yield (YieldState true (Some (st_name strat)) (st_apr strat) (yd_earned (v_yield v)) (Some now) true) v)).

Definition disableYield (userId : Z) (vaultId : string) (before : vdb) : vdb -> res vault_row * vdb :=
  transaction (
    lift (yield_vault userId vaultId before);;
    vault_update vaultId (fun v => let y := v_yield v in with_yield (YieldState false None 0 (yd_earned y) (yd_lastCompoundAt y) (yd_autoCompound y)) v)).

(** What a vault has earned since the last compounding, from the row read. *)
Definition yield_earned (v : vault_row) (now : Z) : Q :=
  let lastCompound := default (v_startDate v) (yd_lastCompoundAt (v_yield v)) in
  let secondsElapsed := js_div (inject_Z (now - lastCompound)) 1000 in
  let daysElapsed := js_div secondsElapsed 86400 in
  js_mul (js_mul (Number_of_units (v_current v)) (parseDec 4 (yd_apr (v_yield v)))) (js_div daysElapsed 365).

Definition compounded (earned : Q) (now : Z) (v : vault_row) : vault_row :=
  let y := v_yield v in
  with_current (v_current v + num_to_col earned)
    (with_yield (YieldState (yd_enabled y) (yd_strategy y) (yd_apr y) (yd_earned y + num_to_col earned) (Some now) (yd_autoCompound y)) v).

Definition compound (userId : Z) (vaultId : string) (now : Z) (before s : vdb) : res Q * vdb :=
  match
    (vault ← yield_vault userId vaultId before;
     throw_if (negb (yd_enabled (v_yield vault))) "Yield not enabled";;
     mret vault)
  with
  | Err e => (Err e, s)
  | Ok vault =>
      let earned := yield_earned vault now in
      if Qle_bool earned 0 then (Ok 0%Q, s)
      else transaction (vault_update vaultId (compounded earned now);; mret earned) s
  end.

(** The flag is written from the row that was read. *)
Definition toggleAutoCompound (userId : Z) (vaultId : string) (before : vdb) : vdb -> res vault_row * vdb :=
  transaction (
    auto ← lift (
      vault ← yield_vault userId vaultId before;
      throw_if (negb (yd_enabled (v_yield vault))) "Yield not enabled";;
      mret (yd_autoCompound (v_yield vault)));
    vault_update vaultId (fun v => let y := v_yield v in
      with_yield (YieldState (yd_enabled y) (yd_strategy y) (yd_apr y) (yd_earned y) (yd_lastCompoundAt y) (negb auto)) v)).
End Handlers.

(** ** Money from nowhere *)

(** A credit of [x] units to the vault [id] that nobody pays. *)
Record unpaid_credit (id : string) (x : Z) (s s' : vdb) : Prop := {
  uc_row : exists v v', vaults s !! id = Some v /\ vaults s' = <[id := v']> (vaults s) /\ v_current v' = v_current v + x /\
             same_vault v v' /\ v_status v' = v_status v /\ v_auto v' = v_auto v /\ vault_ok v' = true;
  uc_bank : bank s' = bank s;
  uc_deposits : deposits_step s s';
  uc_rewards : rewards s' = rewards s;
}.

Lemma unpaid_vinv id x s s' : vinv s -> unpaid_credit id x s s' -> 0 <= x -> vinv s'.
Proof.
  intros Hi [(v & v' & Hid & Hv & Hc & Hsame & Hst & Hau & Hok) Hb Hd Hr] Hx.
  eapply (vinv_step s s' None nobody); try done; rewrite ?Hb; [| | by apply vi_core | by apply vi_columns | | by left].
  - eapply row_wf; [exact Hv | exact (vi_rows s Hi) |]. destruct (vi_rows s Hi id v Hid), Hsame. unfold vault_ok in Hok.
    repeat (apply andb_true_iff in Hok as [Hok ?]). assert (Hnum : numeric_ok (v_current v') = true) by done. unfold numeric_ok in Hnum. apply Z.ltb_lt in Hnum.
    split; [congruence | lia | lia | by rewrite Hau].
  - eapply row_states; [exact Hv |]. intros v0 Hv0 Hne. congruence.
  - intros k _. unfold posted_key. rewrite Hb. by right.
Qed.

Lemma unpaid_total id x s s' : unpaid_credit id x s s' -> vault_total s' = vault_total s + x.
Proof.
  intros [(v & v' & Hid & Hv & Hc & _) _ _ _]. rewrite (total_write _ _ _ _ Hv). unfold saved. rewrite Hid. simpl. lia.
Qed.

Section Credits.
Context `{PrismaNumber}.

Lemma add_saved_Ok userId r s x s' : add_saved userId r s = Ok (x, s') -> exists m, s' = set_roundUps m s.
Proof.
  unfold add_saved. intros Hr. apply Mbind_Ok in Hr as (s1 & s2 & Hg & Hr). apply get_Ok in Hg as [-> ->].
  destruct (roundUps s !! userId); [| by apply throw_Ok in Hr]. apply put_Ok in Hr as ->. by eexists.
Qed.

Lemma round_up_credits userId q newId before s r s' settings id : roundUps before !! userId = Some settings -> ru_targetVaultId settings = Some id ->
  processRoundUp userId q newId before s = (Ok r, s') -> Qle_bool r 0 = false -> r = roundUpAmount_of (ru_multiplier settings) q /\ unpaid_credit id (num_to_col r) s s'.
Proof.
  intros Hset Htgt Hr Hpos. unfold processRoundUp in Hr. destruct (Qle_bool q 0); [done |]. rewrite Hset, Htgt in Hr.
  destruct (negb _); [by injection Hr as <- _ |]. destruct (Qle_bool _ 0) eqn:Hz; [by injection Hr as <- _ |].
  apply transaction_Ok in Hr. apply Mbind_Ok in Hr as (v1 & s1 & Hv & Hr). apply vault_update_Ok in Hv as (v & Hv & Hok & -> & ->).
  apply Mbind_Ok in Hr as (y & s1 & Hd & Hr). pose proof (created_step _ _ _ _ _ Hd) as Hstep. apply deposit_create_Ok in Hd as (_ & _ & ->).
  apply Mbind_Ok in Hr as (y1 & s1 & Ha & Hr). apply add_saved_Ok in Ha as (m & ->). apply Mret_Ok in Hr as [-> ->]. split; [done |]. split; try done.
  exists v, (round_up_credit (roundUpAmount_of (ru_multiplier settings) q) v). by split_and!.
Qed.

Lemma compound_credits userId id now before s r s' : compound userId id now before s = (Ok r, s') -> Qle_bool r 0 = false -> unpaid_credit id (num_to_col r) s s'.
Proof.
  intros Hr Hpos. unfold compound in Hr. destruct (vault ← _; _) as [vault | e]; [| done]. destruct (Qle_bool _ 0) eqn:Hz; [by injection Hr as <- _ |].
  apply transaction_Ok in Hr. apply Mbind_Ok in Hr as (v1 & s1 & Hv & Hr). apply vault_update_Ok in Hv as (v & Hv & Hok & _ & ->). apply Mret_Ok in Hr as [-> ->].
  split; try done; [| by left]. exists v, (compounded (yield_earned vault now) now v). by split_and!.
Qed.
End Credits.

Section Theorems.
Context {half : HalfUnits} `{DecimalLib} `{PrismaNumber} (sha256 : string -> string) (wire : escrow_row -> string).
Context (wire_vault : vault_row -> string) (wire_breakdown : azm_breakdown -> string) (on : bool).

(** C33: a round-up is paid by nobody.  The handler credits the target vault with
    the contribution it computes from the amount in the request, debits no
    balance and posts nothing, and the same call can be repeated.  From then on,
    through every run of the vault and escrow services, an early break or a
    maturity release included, customers hold that much more than the revenue
    and the balances of before explain: exactly that where the deposits have no
    half units ([slack] is 0), and at most one unit more for each deposit
    otherwise.  The compounding of simulated yield does the same with the
    interest it computes. *)
Theorem round_up_mints s s' s'' id r : vinv s -> in_state id V_ACTIVE s -> 0 < num_to_col r -> Qle_bool r 0 = false ->
  ((exists userId q newId before settings, roundUps before !! userId = Some settings /\ ru_targetVaultId settings = Some id /\
      processRoundUp userId q newId before s = (Ok r, s')) \/
   (exists userId now before, compound userId id now before s = (Ok r, s'))) ->
  rtc (vstep sha256 wire wire_vault wire_breakdown on) s' s'' ->
  bank s' = bank s /\ saved id s' = saved id s + num_to_col r /\
  0 <= (customers (bank s'') + vault_total s'' - net REVENUE (ledger (bank s''))) -
    (customers (bank s) + vault_total s - net REVENUE (ledger (bank s)) + num_to_col r) <= slack * (charges s'' - charges s').
Proof.
  intros Hi Ha Hx Hpos Hcall Hr. assert (Hc : unpaid_credit id (num_to_col r) s s').
  { destruct Hcall as [(userId & q & newId & before & settings & Hset & Htgt & Hc) | (userId & now & before & Hc)].
    - by eapply round_up_credits.
    - by eapply compound_credits. }
  pose proof (unpaid_vinv _ _ _ _ Hi Hc ltac:(lia)) as Hi'. destruct (steps_vault _ _ _ _ _ _ _ Hi' Hr) as [_ [Hb _ _ _]].
  unfold within, with_vaults in Hb. rewrite (unpaid_total _ _ _ _ Hc), (uc_bank _ _ _ _ Hc) in Hb. rewrite (uc_bank _ _ _ _ Hc). destruct (uc_row _ _ _ _ Hc) as (v & v' & Hid & Hv & Hcur & _). split; [done |]. split; [| lia].
  rewrite (saved_write _ _ _ _ id Hv), String.eqb_refl. unfold saved. by rewrite Hid.
Qed.
End Theorems.

(** ** All writers of vaults together *)

Section Savings.
Context {half : HalfUnits} `{DecimalLib} `{PrismaNumber} (sha256 : string -> string) (wire : escrow_row -> string).
Context (wire_vault : vault_row -> string) (wire_breakdown : azm_breakdown -> string) (on : bool).

(** What a round-up or a compounding credits to which vault. *)
Definition credit_label (target : option string) (o : res Q) : list (string * Z) :=
  match target, o with Some id, Ok r => if Qle_bool r 0 then [] else [(id, num_to_col r)] | _, _ => [] end.
Definition round_up_target (userId : Z) (before : vdb) : option string := settings ← roundUps before !! userId; ru_targetVaultId settings.

(** A step of the vault service, of its worker or of smart escrow, or a call of
    one of the handlers above on whatever it read, with the credits nobody pays
    for. *)
Inductive savings_step (s s' : vdb) : list (string * Z) -> Prop :=
| sv_vault : vstep sha256 wire wire_vault wire_breakdown on s s' -> savings_step s s' []
| sv_settings_read userId : s' = (getSettings userId s).2 -> savings_step s s' []
| sv_settings userId enabled target multiplier before r : transaction (updateSettings userId enabled target multiplier before) s = (r, s') -> savings_step s s' []
| sv_round_up userId q newId before o : processRoundUp userId q newId before s = (o, s') -> savings_step s s' (credit_label (round_up_target userId before) o)
| sv_yield_on userId vaultId name now before r : enableYield userId vaultId name now before s = (r, s') -> savings_step s s' []
| sv_yield_off userId vaultId before r : disableYield userId vaultId before s = (r, s') -> savings_step s s' []
| sv_yield_auto userId vaultId before r : toggleAutoCompound userId vaultId before s = (r, s') -> savings_step s s' []
| sv_compound userId vaultId now before o : compound userId vaultId now before s = (o, s') -> savings_step s s' (credit_label (Some vaultId) o).

Inductive savings_run (s : vdb) : list (string * Z) -> vdb -> Prop :=
| run_nil : savings_run s [] s
| run_snoc l l' s1 s2 : savings_run s l s1 -> savings_step s1 s2 l' -> savings_run s (l ++ l') s2.

Definition credited (l : list (string * Z)) : Z := sumZ snd l.
Definition credited_to (id : string) (l : list (string * Z)) : Z := sumZ (fun p => if String.eqb p.1 id then p.2 else 0) l.

Lemma credited_app l l' : credited (l ++ l') = credited l + credited l'.
Proof. unfold credited. induction l as [| p l IH]; simpl; lia. Qed.
Lemma credited_to_app id l l' : credited_to id (l ++ l') = credited_to id l + credited_to id l'.
Proof. unfold credited_to. induction l as [| p l IH]; simpl; lia. Qed.

(** A credit the handlers report is not negative and is an unpaid one. *)
Lemma round_up_label userId q newId before s o s' : processRoundUp userId q newId before s = (o, s') ->
  credit_label (round_up_target userId before) o = [] /\ vaults s' = vaults s /\ bank s' = bank s /\ deposits s' = deposits s /\ rewards s' = rewards s \/
  exists id x, credit_label (round_up_target userId before) o = [(id, x)] /\ 0 <= x /\ unpaid_credit id x s s'.
Proof.
  intros Hr. destruct (credit_label _ o) as [| p l] eqn:Hl.
  - left. split; [done |]. unfold processRoundUp in Hr. destruct (Qle_bool q 0); [injection Hr as _ <-; done |].
    unfold credit_label, round_up_target in Hl. destruct (roundUps before !! userId) as [settings |]; [| injection Hr as _ <-; done].
    destruct (negb _); [injection Hr as _ <-; done |]. destruct (Qle_bool _ 0) eqn:Hz; [injection Hr as _ <-; done |]. cbn [mbind option_bind] in Hl.
    destruct (ru_targetVaultId settings) as [id |].
    + apply tx_cases in Hr as [(r & -> & Hr) | (e & _ & ->)]; [| done]. assert (Hr' := Hr).
      do 3 (apply Mbind_Ok in Hr' as (? & ? & _ & Hr')). apply Mret_Ok in Hr' as [-> _]. by rewrite Hz in Hl.
    + apply tx_cases in Hr as [(r & _ & Hr) | (e & _ & ->)]; [| done]. apply Mbind_Ok in Hr as (y & s1 & Ha & Hr). apply Mret_Ok in Hr as [_ ->].
      by apply add_saved_Ok in Ha as (m & ->).
  - right. unfold credit_label, round_up_target in Hl. destruct (roundUps before !! userId) as [settings |] eqn:Hset; [| done]. cbn [mbind option_bind] in Hl.
    destruct (ru_targetVaultId settings) as [id |] eqn:Htgt; [| done]. destruct o as [r | e]; [| done]. destruct (Qle_bool r 0) eqn:Hz; [done |]. injection Hl as <- <-.
    exists id, (num_to_col r). destruct (round_up_credits _ _ _ _ _ _ _ _ _ Hset Htgt Hr Hz) as [_ Hc]. split_and!; [done | | done].
    by apply num_to_col_nonneg, positive_units.
Qed.

Lemma compound_label userId id now before s o s' : compound userId id now before s = (o, s') ->
  credit_label (Some id) o = [] /\ s' = s \/ exists x, credit_label (Some id) o = [(id, x)] /\ 0 <= x /\ unpaid_credit id x s s'.
Proof.
  intros Hr. unfold credit_label. destruct o as [r | e].
  - destruct (Qle_bool r 0) eqn:Hz.
    + left. split; [done |]. unfold compound in Hr. destruct (vault ← _; _) as [vault | e]; [| done]. destruct (Qle_bool (yield_earned vault now) 0) eqn:Hz'; [by injection Hr |].
      apply transaction_Ok in Hr. apply Mbind_Ok in Hr as (v1 & s1 & _ & Hr). apply Mret_Ok in Hr as [-> _]. congruence.
    + right. exists (num_to_col r). split_and!; [done | by apply num_to_col_nonneg, positive_units | by eapply compound_credits].
  - left. split; [done |]. unfold compound in Hr. destruct (vault ← _; _) as [vault | e']; [| by injection Hr]. destruct (Qle_bool _ 0); [done |].
    apply tx_cases in Hr as [(r & [=] & _) | (e' & _ & ->)]; done.
Qed.

(** A change of the yield columns of a row. *)
Lemma yield_shape vaultId f s r s' : (forall v, exists y, f v = with_yield y v) -> vault_update vaultId f s = Ok (r, s') -> vault_shape sha256 s s'.
Proof.
  intros Hf Hr. apply vault_update_Ok in Hr as (v & Hv & _ & _ & ->). destruct (Hf v) as (y & Hy). eapply (vsh_row _ _ _ vaultId (f v)); [done | | done | by left | by left].
  unfold quiet_row. rewrite Hv, Hy. by repeat split.
Qed.

(** Every step keeps the books or is an unpaid credit. *)
Lemma savings_cases s s' l : savings_step s s' l ->
  l = [] /\ (vstep sha256 wire wire_vault wire_breakdown on s s' \/ vault_shape sha256 s s') \/ exists id x, l = [(id, x)] /\ 0 <= x /\ unpaid_credit id x s s'.
Proof.
  intros [Hs | userId -> | userId enabled target multiplier before r Hr | userId q newId before o Hr | userId vaultId name now before r Hr | userId vaultId before r Hr
    | userId vaultId before r Hr | userId vaultId now before o Hr].
  - auto.
  - left. split; [done |]. right. unfold getSettings. destruct (roundUps s !! userId); apply vsh_side; by try left.
  - left. split; [done |]. right. apply tx_cases in Hr as [(x & _ & Hr) | (e & _ & ->)]; [| apply side_refl]. unfold updateSettings in Hr.
    apply Mbind_Ok in Hr as (y & s1 & Hl & Hr). apply lift_Ok in Hl as [_ ->]. rewrite get_bind in Hr. cbv zeta in Hr.
    apply Mbind_Ok in Hr as (y1 & s1 & Hc & Hr). apply check_Ok in Hc as [_ ->]. apply Mbind_Ok in Hr as (y2 & s1 & Hc & Hr). apply check_Ok in Hc as [_ ->].
    apply Mbind_Ok in Hr as (y3 & s1 & Hp & Hr). apply put_Ok in Hp as ->. apply Mret_Ok in Hr as [_ ->]. apply vsh_side; by try left.
  - apply round_up_label in Hr as [(-> & Hv & Hb & Hd & Hw) | (id & x & -> & Hx & Hc)]; [left; split; [done |]; right; apply vsh_side; by try left | right; eauto].
  - left. split; [done |]. right. apply tx_cases in Hr as [(x & _ & Hr) | (e & _ & ->)]; [| apply side_refl]. apply Mbind_Ok in Hr as (st & s1 & Hl & Hr).
    apply lift_Ok in Hl as [_ ->]. eapply yield_shape; [| exact Hr]. intros v. by eexists.
  - left. split; [done |]. right. apply tx_cases in Hr as [(x & _ & Hr) | (e & _ & ->)]; [| apply side_refl]. apply Mbind_Ok in Hr as (st & s1 & Hl & Hr).
    apply lift_Ok in Hl as [_ ->]. eapply yield_shape; [| exact Hr]. intros v. by eexists.
  - left. split; [done |]. right. apply tx_cases in Hr as [(x & _ & Hr) | (e & _ & ->)]; [| apply side_refl]. apply Mbind_Ok in Hr as (st & s1 & Hl & Hr).
    apply lift_Ok in Hl as [_ ->]. eapply yield_shape; [| exact Hr]. intros v. by eexists.
  - apply compound_label in Hr as [(-> & ->) | (x & -> & Hx & Hc)]; [left; split; [done |]; right; apply side_refl | right; eauto].
Qed.

(** *** The books with the unpaid credits *)

Record credit_books (l : list (string * Z)) (s s' : vdb) : Prop := {
  cr_total : within (with_vaults s + credited l) (with_vaults s') (charges s' - charges s);
  cr_liability : forall u, 0 <= u -> within (backing u s) (backing u s') (charges s' - charges s);
  cr_vault : forall id, saved id s' + net (vault_code id) (ledger (bank s')) = saved id s + net (vault_code id) (ledger (bank s)) + credited_to id l;
  cr_ended : forall id st c, st <> V_ACTIVE -> ended_with id st c s -> ended_with id st (c + credited_to id l) s';
}.

Lemma savings_books s s' l : vinv s -> savings_step s s' l -> vinv s' /\ credit_books l s s'.
Proof.
  intros Hi Hs. apply savings_cases in Hs as [(-> & Hs) | (id & x & -> & Hx & Hc)].
  - assert (Hb : vinv s' /\ vault_books s s' /\ forall id st c, st <> V_ACTIVE -> ended_with id st c s -> ended_with id st c s').
    { destruct Hs as [Hs | Hs].
      - destruct (step_vault _ _ _ _ _ _ _ Hi Hs) as [Hi' Hb]. split_and!; [done | done |]. intros id st c. by apply (step_ended _ _ _ _ _ _ _ _ _ _ Hi Hs).
      - split_and!; [by eapply shape_vinv | by eapply shape_vault_books |]. intros id st c. by apply (shape_ended _ _ _ _ _ _ Hs). }
    destruct Hb as (Hi' & [B1 B2 B3 _] & He). split; [done |]. split; [unfold credited; simpl; by rewrite Z.add_0_r | done | intros id; rewrite B3; unfold credited_to; simpl; lia |].
    intros id st c Hst Hin. unfold credited_to. simpl. rewrite Z.add_0_r. by apply He.
  - split; [by eapply unpaid_vinv |]. pose proof (unpaid_total _ _ _ _ Hc) as Ht. destruct Hc as [(v & v' & Hid & Hv & Hcur & _ & Hst & _ & _) Hb Hdep _].
    pose proof (charges_step _ _ Hdep) as Hn.
    split; [| intros u Hu; unfold backing; rewrite Hb; by apply within_same | | ]; rewrite ?Hb.
    + unfold with_vaults. rewrite Hb, Ht. unfold credited. simpl. match goal with |- within ?a ?b _ => replace b with a by lia end. by apply within_same.
    + intros i. rewrite (saved_write _ _ _ _ i Hv). unfold credited_to. simpl. destruct (String.eqb_spec id i) as [-> | Hne]; [| lia]. unfold saved. rewrite Hid. simpl. lia.
    + intros i st c Hne (w & Hw & Hws & Hwc). unfold ended_with, credited_to. rewrite Hv. simpl. destruct (String.eqb_spec id i) as [-> | Hni].
      * exists v'. rewrite lookup_insert_eq. assert (w = v) as -> by congruence. split_and!; [done | congruence | lia].
      * exists w. rewrite lookup_insert_ne by done. split_and!; [done | done | lia].
Qed.

Lemma run_books s l s' : vinv s -> savings_run s l s' -> vinv s' /\ credit_books l s s'.
Proof.
  intros Hi Hr. induction Hr as [| l l' s1 s2 _ [Hi1 [A1 A2 A3 A4]] Hs].
  - split; [done |]. split; intros; rewrite ?Z.sub_diag; unfold credited, credited_to; simpl; rewrite ?Z.add_0_r; (apply within_refl || done || lia).
  - destruct (savings_books _ _ _ Hi1 Hs) as [Hi2 [B1 B2 B3 B4]]. split; [done |]. split.
    + rewrite credited_app, Z.add_assoc. eapply (within_trans _ (with_vaults s1 + credited l')); [| exact B1]. unfold within in *. lia.
    + intros u Hu. eapply within_trans; eauto.
    + intros id. rewrite B3, A3, credited_to_app. lia.
    + intros id st c Hst Hin. rewrite credited_to_app, Z.add_assoc. by apply B4, A4.
Qed.

Lemma run_vault s l s1 s2 : rtc (vstep sha256 wire wire_vault wire_breakdown on) s1 s2 -> savings_run s l s1 -> savings_run s l s2.
Proof.
  intros Hr. induction Hr as [| s1 s2 s3 Hs _ IH]; [done |]. intros Hrun. apply IH. rewrite <- (app_nil_r l). eapply run_snoc; [exact Hrun | by apply sv_vault].
Qed.

(** C8: vaults and smart escrow on the same balances and ledger keep one set of
    books, all writers of vaults included: along every interleaving of deposits
    of any amounts, misses, early breaks, completions, rewards, bans, round-ups,
    yield and escrow steps, whatever stale rows the calls read, what customers
    hold in their buckets and in vaults changes by the revenue the ledger
    recognizes and by the round-ups and the yield credited, which nobody pays;
    each user's liability account moves with the available balance; and the
    account of a vault holds the vault's balance less those credits.  The first
    two are exact in the runs without amounts half-way between two units
    ([half_units] false, [slack] 0); otherwise each recorded deposit may leave
    the customer one unit more, never less. *)
Theorem vault_books_kept s0 l s : vinv s0 -> savings_run s0 l s ->
  0 <= (customers (bank s) + vault_total s - (customers (bank s0) + vault_total s0)) - (net REVENUE (ledger (bank s)) - net REVENUE (ledger (bank s0)) + credited l)
    <= slack * (charges s - charges s0) /\
  (forall u, 0 <= u -> 0 <= (avail u (bank s) - avail u (bank s0)) - (net (liability_code u) (ledger (bank s0)) - net (liability_code u) (ledger (bank s)))
    <= slack * (charges s - charges s0)) /\
  (forall id, saved id s - saved id s0 = net (vault_code id) (ledger (bank s0)) - net (vault_code id) (ledger (bank s)) + credited_to id l).
Proof.
  intros Hi Hr. apply run_books in Hr as [_ [A1 A2 A3 _]]; [| done]. unfold within, with_vaults, backing in *. split_and!; [lia | lia | |].
  - intros u Hu. specialize (A2 u Hu). lia.
  - intros id. specialize (A3 id). lia.
Qed.

(** C19: a vault ends once.  Along every such interleaving a vault that was broken
    or completed keeps that status for ever, and its balance changes only by the
    round-ups and the yield credited to it: no deposit, auto rule, second break
    or later maturity sweep reaches it, and nothing leaves it; and the ledger
    never has both a break posting and a completion posting for one vault. *)
Theorem vault_ends_once s0 l s id v : vinv s0 -> savings_run s0 l s -> vaults s0 !! id = Some v -> v_status v <> V_ACTIVE ->
  (exists v', vaults s !! id = Some v' /\ v_status v' = v_status v /\ v_current v' = v_current v + credited_to id l) /\
  ~ (posted_key (break_key id) s /\ posted_key (complete_key id) s).
Proof.
  intros Hi Hr Hv Hst. apply run_books in Hr as [Hi' [_ _ _ A4]]; [| done]. split.
  - destruct (A4 id (v_status v) (v_current v) Hst) as (v' & Hv' & Hs' & Hc'); [by exists v |]. by exists v'.
  - intros [Hb Hc]. apply (vi_break_key s Hi') in Hb as (x & Hx & Hxs). apply (vi_complete_key s Hi') in Hc as (y & Hy & Hys). congruence.
Qed.
End Savings.

(** ** A concrete round-up

    The user of the concrete vault reports a payment of 10.25 USDC that nobody
    made; 0.75 USDC appear in the vault and leave it, less the penalty, with an
    early break. *)
Definition up_credited : vdb := (@processRoundUp ToFixedColumn 1 (41 # 4) "u1" save_created save_created).2.
Definition up_broken : vdb := (@breakEarly Decimal20 run_sha save_wire 1 "v1" None 30 up_credited).2.

Lemma round_up_mints_witness : avail 1 (bank up_broken) = 10071250000 /\ avail 1 (bank save_created) = 10000000000 /\
  customers (bank up_broken) + vault_total up_broken - net REVENUE (ledger (bank up_broken)) = 10575000000.
Proof.
  split; [vm_compute; reflexivity |]. split; [vm_compute; reflexivity |].
  assert (Hr : exists r, @processRoundUp ToFixedColumn 1 (41 # 4) "u1" save_created save_created = (Ok r, up_credited) /\ @num_to_col ToFixedColumn r = 75000000 /\ Qle_bool r 0 = false)
    by (eexists; split; [vm_compute; reflexivity | split; vm_compute; reflexivity]).
  destruct Hr as (r & Hr & Hx & Hpos). assert (Ha : in_state "v1" V_ACTIVE save_created) by (eexists; split; vm_compute; reflexivity).
  assert (Hset : roundUps save_created !! 1 = Some (RoundUpRow true (Some "v1"%string) 0 1)) by (vm_compute; reflexivity).
  assert (Hlt : 0 < @num_to_col ToFixedColumn r) by (rewrite Hx; lia).
  destruct (@round_up_mints false Decimal20 ToFixedColumn run_sha run_wire save_wire save_wire_b true save_created up_credited up_broken "v1" r save_created_vinv Ha Hlt Hpos) as (_ & _ & Ht).
  - left. exists 1, (41 # 4)%Q, "u1"%string, save_created, (RoundUpRow true (Some "v1"%string) 0 1). split; [exact Hset |]. split; [reflexivity | exact Hr].
  - apply rtc_once. eapply vs_break, surjective_pairing.
  - rewrite Hx in Ht. change (@slack false) with 0 in Ht. set (x := customers (bank up_broken) + _ - _) in *.
    assert (Hb : customers (bank save_created) + vault_total save_created - net REVENUE (ledger (bank save_created)) = 10500000000) by (vm_compute; reflexivity). lia.
Defined.

(** The same round-up is reported again for the broken vault. *)
Definition up_again : vdb := (@processRoundUp ToFixedColumn 1 (41 # 4) "u2" save_created up_broken).2.

#[local] Abbreviation up_run := (@savings_run false Decimal20 ToFixedColumn run_sha run_wire save_wire save_wire_b true).

Lemma up_reach_broken : up_run save_open [("v1"%string, 75000000)] up_broken.
Proof.
  assert (Hl : @credit_label ToFixedColumn (round_up_target 1 save_created) (@processRoundUp ToFixedColumn 1 (41 # 4) "u1" save_created save_created).1 = [("v1"%string, 75000000)])
    by (vm_compute; reflexivity).
  apply (run_vault (half:=false) _ _ _ _ _ _ _ up_credited); [apply rtc_once; eapply vs_break, surjective_pairing |].
  assert (Hs : @savings_step false Decimal20 ToFixedColumn run_sha run_wire save_wire save_wire_b true save_created up_credited [("v1"%string, 75000000)]).
  { rewrite <- Hl. eapply sv_round_up, surjective_pairing. }
  apply (run_snoc _ _ _ _ _ _ [] _ save_created); [| exact Hs]. apply (run_vault _ _ _ _ _ _ _ save_open); [apply rtc_once, (save_create_step false) | constructor].
Qed.

Lemma vault_books_kept_witness : customers (bank up_broken) + vault_total up_broken = 10571250000.
Proof.
  destruct (@vault_books_kept false Decimal20 ToFixedColumn run_sha run_wire save_wire save_wire_b true save_open _ up_broken save_open_vinv up_reach_broken) as (Ht & _).
  assert (H1 : net REVENUE (ledger (bank up_broken)) - net REVENUE (ledger (bank save_open)) = -3750000) by (vm_compute; reflexivity).
  assert (H2 : customers (bank save_open) + vault_total save_open = 10500000000) by (vm_compute; reflexivity).
  rewrite H1, H2 in Ht. change (@slack false) with 0 in Ht. change (credited [("v1"%string, 75000000)]) with 75000000 in Ht. lia.
Defined.

Lemma vault_ends_once_witness : exists v v', vaults up_broken !! "v1"%string = Some v /\ v_status v = V_BROKEN_EARLY /\ v_current v = 0 /\
  vaults up_again !! "v1"%string = Some v' /\ v_status v' = V_BROKEN_EARLY /\ v_current v' = 75000000.
Proof.
  assert (Hv : exists v, vaults up_broken !! "v1"%string = Some v /\ v_status v = V_BROKEN_EARLY /\ v_current v = 0) by (eexists; split; [vm_compute; reflexivity | split; vm_compute; reflexivity]).
  destruct Hv as (v & Hv & Hst & Hc). destruct (run_books _ _ _ _ _ _ _ _ save_open_vinv up_reach_broken) as [Hi _].
  assert (Hl : @credit_label ToFixedColumn (round_up_target 1 save_created) (@processRoundUp ToFixedColumn 1 (41 # 4) "u2" save_created up_broken).1 = [("v1"%string, 75000000)])
    by (vm_compute; reflexivity).
  assert (Hr : up_run up_broken ([] ++ [("v1"%string, 75000000)]) up_again).
  { apply (run_snoc _ _ _ _ _ _ [] _ up_broken); [constructor |]. rewrite <- Hl. eapply sv_round_up, surjective_pairing. }
  destruct (@vault_ends_once false Decimal20 ToFixedColumn run_sha run_wire save_wire save_wire_b true up_broken _ up_again "v1" v Hi Hr Hv) as [(v' & Hv' & Hs' & Hc') _];
    [rewrite Hst; discriminate |].
  exists v, v'. split; [exact Hv |]. split; [exact Hst |]. split; [exact Hc |]. split; [exact Hv' |]. split; [rewrite Hs'; exact Hst |]. rewrite Hc', Hc. vm_compute. reflexivity.
Defined.
