(* ===== verification/Susu.v ===== *)
(** * Savings groups (services/susuService.js)

    A susu is a rotating savings group on top of a group chat: every cycle each
    member contributes the same amount and one member receives the pool.  State
    ([sdb]): the vault database for balances, history, ledger, ban state and
    rewards; the groups, members, cycles and contributions; the chats and
    vouches they are built on; the columns of a user that rank and punish.
    Operations: the service, and the worker that collects due cycles
    (workers/susuWorker.js).

    A cycle is collected by a tick that owns it: the claim stamps the row, and
    every transaction of the tick repeats the stamp.  Each transaction is a
    definition ([claim_tx], [collect_tx], [payout_tx], ...), and [processCycle]
    runs them in the order of the code.  The contract is accepted in a
    transaction whose read is not repeated by its writes, so the database it
    read is an argument.  Amounts are units of 1e-8, trust scores of 1e-4.
    Identifiers and clocks are arguments; texts, notifications and sockets are
    left out. *)

From stdpp Require Import base gmap strings list.
From Stdlib Require Import ZArith QArith Lia Ascii.
From S2P Require Import Prelude JsNumber ExactDecimal Json Ledger Idempotency Escrow Vault.

Local Open Scope Z_scope.

(** ** Rows *)

Inductive susu_status : Type := CONFIGURING | SUSU_ACTIVE | SUSU_COMPLETED | SUSU_CANCELLED | FROZEN_DISPUTE.
Inductive cycle_status : Type := CY_PENDING | COLLECTING | COLLECTING_GRACE | PAID_OUT | CY_DEFAULTED.
Inductive member_status : Type := PENDING_VOUCH | PENDING_CONTRACT | MEMBER_ACTIVE | MEMBER_DEFAULTED | REMOVED.
Inductive contribution_status : Type := CB_PAID | CB_FAILED | CB_SEIZED.
Inductive vouch_status : Type := VOUCH_PENDING | VOUCH_COMPLETED | VOUCH_REJECTED | VOUCH_VOIDED.
Inductive loyalty_tier : Type := STANDARD | GOLD | PLATINUM.
Inductive role : Type := USER | VENDOR | ADMIN.

#[export] Instance susu_status_eq_dec : EqDecision susu_status.
Proof. solve_decision. Defined.
#[export] Instance cycle_status_eq_dec : EqDecision cycle_status.
Proof. solve_decision. Defined.
#[export] Instance member_status_eq_dec : EqDecision member_status.
Proof. solve_decision. Defined.
#[export] Instance contribution_status_eq_dec : EqDecision contribution_status.
Proof. solve_decision. Defined.
#[export] Instance vouch_status_eq_dec : EqDecision vouch_status.
Proof. solve_decision. Defined.
#[export] Instance role_eq_dec : EqDecision role.
Proof. solve_decision. Defined.

(** One entry of [rotationSnapshot]. *)
Record slot_row : Type := SlotRow { sl_slot : Z; sl_userId : Z; sl_trust : Z; sl_isAdmin : bool }.

Record susu_row : Type := SusuRow {
  sg_status : susu_status;
  sg_contribution : Z;
  sg_frequency : frequency;
  sg_totalCycles : Z;
  sg_startDate : Z;
  sg_accepted : Z;
  sg_required : Z;
  sg_rotation : list slot_row;
  sg_contractVersion : option string;
}.

Record member_row : Type := MemberRow {
  mb_group : string;
  mb_userId : Z;
  mb_slot : Z;
  mb_trust : Z;
  mb_status : member_status;
  mb_acceptedAt : option Z;
  mb_defaultedAt : option Z;
  mb_totalSeized : Z;
}.

Record cycle_row : Type := CycleRow {
  cy_group : string;
  cy_number : Z;
  cy_collectionDate : Z;
  cy_payoutAmount : Z;
  cy_payoutUserId : Z;
  cy_status : cycle_status;
  cy_startedAt : option Z;
  cy_paidOutAt : option Z;
  cy_defaultsCount : Z;
  cy_fee : option Z;
}.

Record contribution_row : Type := ContributionRow {
  cb_cycleId : string;
  cb_memberId : string;
  cb_userId : Z;
  cb_amount : Z;
  cb_status : contribution_status;
  cb_seized : Z;
  cb_shortfall : Z;
}.

Record chat_member : Type := ChatMember { cm_userId : Z; cm_isAdmin : bool; cm_removed : bool }.
Record chat_row : Type := ChatRow { ch_susuGroupId : option string; ch_members : list chat_member }.

Record vouch_row : Type := VouchRow {
  vr_inviteeId : option Z;
  vr_inviteePhone : option string;
  vr_voucherId : Z;
  vr_acknowledges : bool;
  vr_status : vouch_status;
  vr_submittedAt : option Z;
  vr_createdAt : Z;
}.

(** The columns of a user that rank and punish. *)
Record standing : Type := Standing { sd_vendorXp : Z; sd_loyaltyTier : loyalty_tier; sd_role : role; sd_strikeCount : Z }.

Record sdb : Type := SDB {
  vlt : vdb;
  susus : gmap string susu_row;
  smembers : gmap string member_row;
  cycles : gmap string cycle_row;
  contribs : gmap (string * string) contribution_row;
  chats : gmap string chat_row;
  vouches : gmap string vouch_row;
  standings : gmap Z standing;
  susuProfitPct : option Z;
}.

Definition set_vlt (x : vdb) (s : sdb) : sdb :=
  SDB x (susus s) (smembers s) (cycles s) (contribs s) (chats s) (vouches s) (standings s) (susuProfitPct s).
Definition set_susus (x : gmap string susu_row) (s : sdb) : sdb :=
  SDB (vlt s) x (smembers s) (cycles s) (contribs s) (chats s) (vouches s) (standings s) (susuProfitPct s).
Definition set_smembers (x : gmap string member_row) (s : sdb) : sdb :=
  SDB (vlt s) (susus s) x (cycles s) (contribs s) (chats s) (vouches s) (standings s) (susuProfitPct s).
Definition set_cycles (x : gmap string cycle_row) (s : sdb) : sdb :=
  SDB (vlt s) (susus s) (smembers s) x (contribs s) (chats s) (vouches s) (standings s) (susuProfitPct s).
Definition set_contribs (x : gmap (string * string) contribution_row) (s : sdb) : sdb :=
  SDB (vlt s) (susus s) (smembers s) (cycles s) x (chats s) (vouches s) (standings s) (susuProfitPct s).
Definition set_chats (x : gmap string chat_row) (s : sdb) : sdb :=
  SDB (vlt s) (susus s) (smembers s) (cycles s) (contribs s) x (vouches s) (standings s) (susuProfitPct s).
Definition set_vouches (x : gmap string vouch_row) (s : sdb) : sdb :=
  SDB (vlt s) (susus s) (smembers s) (cycles s) (contribs s) (chats s) x (standings s) (susuProfitPct s).
Definition set_standings (x : gmap Z standing) (s : sdb) : sdb :=
  SDB (vlt s) (susus s) (smembers s) (cycles s) (contribs s) (chats s) (vouches s) x (susuProfitPct s).

Definition with_susu_status (st : susu_status) (g : susu_row) : susu_row :=
  SusuRow st (sg_contribution g) (sg_frequency g) (sg_totalCycles g) (sg_startDate g) (sg_accepted g) (sg_required g) (sg_rotation g) (sg_contractVersion g).
Definition one_accepted (g : susu_row) : susu_row :=
  SusuRow (sg_status g) (sg_contribution g) (sg_frequency g) (sg_totalCycles g) (sg_startDate g) (sg_accepted g + 1) (sg_required g) (sg_rotation g)
    (sg_contractVersion g).
Definition signed (now : Z) (m : member_row) : member_row :=
  MemberRow (mb_group m) (mb_userId m) (mb_slot m) (mb_trust m) MEMBER_ACTIVE (Some now) (mb_defaultedAt m) (mb_totalSeized m).
Definition in_default (now seizable : Z) (m : member_row) : member_row :=
  MemberRow (mb_group m) (mb_userId m) (mb_slot m) (mb_trust m) MEMBER_DEFAULTED (mb_acceptedAt m) (Some now) (mb_totalSeized m + seizable).
Definition with_trust (t : Z) (m : member_row) : member_row :=
  MemberRow (mb_group m) (mb_userId m) (mb_slot m) t (mb_status m) (mb_acceptedAt m) (mb_defaultedAt m) (mb_totalSeized m).
Definition with_cycle_status (st : cycle_status) (c : cycle_row) : cycle_row :=
  CycleRow (cy_group c) (cy_number c) (cy_collectionDate c) (cy_payoutAmount c) (cy_payoutUserId c) st (cy_startedAt c) (cy_paidOutAt c)
    (cy_defaultsCount c) (cy_fee c).
Definition collecting (stamp : Z) (c : cycle_row) : cycle_row :=
  CycleRow (cy_group c) (cy_number c) (cy_collectionDate c) (cy_payoutAmount c) (cy_payoutUserId c) COLLECTING (Some stamp) (cy_paidOutAt c)
    (cy_defaultsCount c) (cy_fee c).
Definition paid_out (now defaults net fee : Z) (c : cycle_row) : cycle_row :=
  CycleRow (cy_group c) (cy_number c) (cy_collectionDate c) net (cy_payoutUserId c) PAID_OUT (cy_startedAt c) (Some now) defaults (Some fee).

(** ** Statements *)

Definition on_vlt {A} (m : M vdb A) : M sdb A := fun s =>
  match m (vlt s) with Ok (a, v) => Ok (a, set_vlt v s) | Err e => Err e end.
Definition on_money {A} (m : M edb A) : M sdb A := on_vlt (on_bank m).

Definition susu_update (id : string) (f : susu_row -> susu_row) : M sdb susu_row :=
  s ← get;
  match susus s !! id with
  | None => throw "P2025"
  | Some g => put (set_susus (<[id := f g]> (susus s)) s);; mret (f g)
  end.
Definition smember_update (id : string) (f : member_row -> member_row) : M sdb unit :=
  s ← get;
  match smembers s !! id with
  | None => throw "P2025"
  | Some m => check (numeric_ok (mb_totalSeized (f m))) "NUMERIC_OVERFLOW";; put (set_smembers (<[id := f m]> (smembers s)) s)
  end.
Definition cycle_updateMany (id : string) (cond : cycle_row -> bool) (f : cycle_row -> cycle_row) : M sdb nat :=
  s ← get;
  match cycles s !! id with
  | Some c =>
      if cond c then check (numeric_ok (cy_payoutAmount (f c))) "NUMERIC_OVERFLOW";; put (set_cycles (<[id := f c]> (cycles s)) s);; mret 1%nat
      else mret 0%nat
  | None => mret 0%nat
  end.

(** INSERT of a contribution: foreign keys and the unique pair. *)
Definition contribution_create (r : contribution_row) : M sdb unit :=
  s ← get;
  check (match cycles s !! cb_cycleId r, smembers s !! cb_memberId r, users (bank (vlt s)) !! cb_userId r with Some _, Some _, Some _ => true | _, _, _ => false end) "P2003";;
  check (match contribs s !! (cb_cycleId r, cb_memberId r) with None => true | Some _ => false end) "P2002";;
  check (numeric_ok (cb_amount r) && numeric_ok (cb_seized r) && numeric_ok (cb_shortfall r)) "NUMERIC_OVERFLOW";;
  put (set_contribs (<[(cb_cycleId r, cb_memberId r) := r]> (contribs s)) s).

Definition contribution_key (cycleId memberId : string) : string := ("ledger:susu:contribution:" +:+ cycleId +:+ ":" +:+ memberId)%string.
Definition seizure_key (cycleId memberId : string) : string := ("ledger:susu:seizure:" +:+ cycleId +:+ ":" +:+ memberId)%string.
Definition payout_key (cycleId : string) : string := ("ledger:susu:payout:" +:+ cycleId)%string.

(** ** Constants *)

Definition susu_ms (f : frequency) : option Z :=
  match f with DAILY => None | WEEKLY => Some (7 * DAY_MS) | BIWEEKLY => Some (14 * DAY_MS) | MONTHLY => Some (30 * DAY_MS) end.
Definition VOUCHER_TRUST_PENALTY : Z := 25.
Definition DEFAULT_TRUST_SCORE : Z := 100.
Definition STALL_RECOVERY_MS : Z := 5 * 60 * 1000.

(** ** Creation *)

(** The scores are whole numbers, so the rounding to two places is without
    effect. *)
Definition _initialTrustScore (u : standing) : Z :=
  let score := DEFAULT_TRUST_SCORE + Z.min 40 (sd_vendorXp u / 50) in
  let score := score + match sd_loyaltyTier u with GOLD => 15 | PLATINUM => 25 | STANDARD => 0 end in
  let score := score + (if bool_decide (sd_role u = ADMIN) then 50 else 0) in
  Z.max 0 (score - Z.min 40 (sd_strikeCount u * 5)).

(** A member with the score that orders the rotation, and the rotation. *)
Definition ranked (standings : gmap Z standing) (m : chat_member) : res (Z * (Z * bool)) :=
  u ← of_option (standings !! cm_userId m) "P2003";
  mret (_initialTrustScore u + (if cm_isAdmin m then 50 else 0), (cm_userId m, cm_isAdmin m)).
Fixpoint number_slots (i : Z) (l : list (Z * (Z * bool))) : list slot_row :=
  match l with [] => [] | r :: l' => SlotRow i r.2.1 r.1 r.2.2 :: number_slots (i + 1) l' end.
Definition rotation (l : list (Z * (Z * bool))) : list slot_row := number_slots 1 (js_sort (fun a b => b.1 <=? a.1) l).

Fixpoint mapM_res {A B} (f : A -> res B) (l : list A) : res (list B) :=
  match l with [] => mret [] | x :: l' => y ← f x; ys ← mapM_res f l'; mret (y :: ys) end.

(** The members of the new group, one for each slot. *)
Definition new_members (susuId : string) (ids : Z -> string) (rows : list slot_row) (m : gmap string member_row) : gmap string member_row :=
  foldl (fun m r => <[ids (sl_slot r) := MemberRow susuId (sl_userId r) (sl_slot r) (sl_trust r * 10 ^ 4) PENDING_CONTRACT None None 0]> m) m rows.

Definition createSusu (newId : string) (ids : Z -> string) (adminId : Z) (groupChatId : string) (contributionUsdc : Q) (freq : frequency) (startDate : date_in) (now : Z)
    (before : sdb) : M sdb unit :=
  '(start, rows) ← lift (
    group ← of_option (chats before !! groupChatId) "Group not found";
    throw_if (match ch_susuGroupId group with Some _ => true | None => false end) "Group already has a susu";;
    let members := List.filter (fun m => negb (cm_removed m)) (ch_members group) in
    throw_if (negb (existsb (fun m => (cm_userId m =? adminId) && cm_isAdmin m) members)) "Only group admins can configure a susu";;
    throw_if (match susu_ms freq with Some _ => false | None => true end) "frequency must be WEEKLY|BIWEEKLY|MONTHLY";;
    throw_if (Qle_bool contributionUsdc 0) "contributionUsdc must be > 0";;
    start ← match startDate with NoDate => mret now | DateAt t => mret t | BadDate => Err "Invalid startDate" end;
    throw_if (length members <? 3)%nat "Susu requires at least 3 members";;
    l ← mapM_res (ranked (standings before)) members;
    mret (start, rotation l));
  s ← get;
  check (match susus s !! newId with None => true | Some _ => false end) "P2002";;
  check (forallb (fun r => match smembers s !! ids (sl_slot r) with None => true | Some _ => false end) rows) "P2002";;
  let contribution := toFixedZ 8 contributionUsdc in
  check (numeric_ok contribution) "NUMERIC_OVERFLOW";;
  check (match chats s !! groupChatId with Some _ => true | None => false end) "P2025";;
  let n := Z.of_nat (length rows) in
  put (set_susus (<[newId := SusuRow CONFIGURING contribution freq n start 0 n rows None]> (susus s))
    (set_smembers (new_members newId ids rows (smembers s))
      (set_chats (alter (fun c => ChatRow (Some newId) (ch_members c)) groupChatId (chats s)) s))).

(** ** The contract *)

Definition group_members (susuId : string) (s : sdb) : list (string * member_row) :=
  List.filter (fun p => String.eqb (mb_group p.2) susuId) (map_to_list (smembers s)).

(** One cycle for every member, in the order of the slots. *)
Definition new_cycle (susuId : string) (g : susu_row) (interval pool : Z) (m : member_row) : cycle_row :=
  CycleRow susuId (mb_slot m) (sg_startDate g + (mb_slot m - 1) * interval) pool (mb_userId m) CY_PENDING None None 0 None.
Definition new_cycles (susuId : string) (g : susu_row) (interval pool : Z) (ids : Z -> string) (members : list member_row) (cs : gmap string cycle_row) : gmap string cycle_row :=
  foldl (fun cs m => <[ids (mb_slot m) := new_cycle susuId g interval pool m]> cs) cs members.
Definition _materializeCycles `{DecimalLib} (susuId : string) (g : susu_row) (ids : Z -> string) : M sdb unit :=
  s ← get;
  let members := js_sort (fun a b => mb_slot a <=? mb_slot b) (map snd (group_members susuId s)) in
  interval ← lift (of_option (susu_ms (sg_frequency g)) "INVALID_DATE");
  let totalPool := d_times (sg_contribution g) (sg_totalCycles g) in
  check (numeric_ok totalPool) "NUMERIC_OVERFLOW";;
  check (forallb (fun m => match cycles s !! ids (mb_slot m) with None => true | Some _ => false end) members &&
         forallb (fun p => negb (String.eqb (cy_group p.2) susuId && existsb (fun m => cy_number p.2 =? mb_slot m) members)) (map_to_list (cycles s))) "P2002";;
  put (set_cycles (new_cycles susuId g interval totalPool ids members (cycles s)) s).

Inductive accept_result : Type := ALREADY_ACCEPTED | STARTED | ACCEPTED_ (count required : Z).

Definition member_of (userId : Z) (susuId : string) (s : sdb) : option (string * member_row) :=
  List.find (fun p => mb_userId p.2 =? userId) (group_members susuId s).

(** The member row is read in [before]: the transaction's writes do not repeat
    its status, and another acceptance can commit between the two. *)
Definition acceptContract `{DecimalLib} (userId : Z) (susuGroupId : string) (ids : Z -> string) (now : Z) (before : sdb) : M sdb accept_result :=
  '(memberId, member) ← lift (of_option (member_of userId susuGroupId before) "Not a susu member");
  match mb_status member with
  | MEMBER_ACTIVE => mret ALREADY_ACCEPTED
  | MEMBER_DEFAULTED | REMOVED => throw "Member is not eligible to sign"
  | _ =>
      smember_update memberId (signed now);;
      susu ← susu_update susuGroupId one_accepted;
      if (sg_required susu <=? sg_accepted susu) && bool_decide (sg_status susu = CONFIGURING) then
        _materializeCycles susuGroupId susu ids;;
        susu_update susuGroupId (with_susu_status SUSU_ACTIVE);;
        mret STARTED
      else mret (ACCEPTED_ (sg_accepted susu) (sg_required susu))
  end.

(** The chat of a group is found by its column; its members include removed
    ones. *)
Definition cancel (adminId : Z) (susuGroupId : string) (before : sdb) : M sdb unit :=
  lift (
    susu ← of_option (susus before !! susuGroupId) "Susu not found";
    throw_if (negb (bool_decide (sg_status susu = CONFIGURING))) "Cannot cancel an active or completed susu";;
    let chat := List.find (fun p => bool_decide (ch_susuGroupId p.2 = Some susuGroupId)) (map_to_list (chats before)) in
    throw_if (match chat with Some p => negb (existsb (fun m => (cm_userId m =? adminId) && cm_isAdmin m) (ch_members p.2)) | None => true end) "Admin only");;
  susu_update susuGroupId (with_susu_status SUSU_CANCELLED);;
  modify (fun s => set_chats ((fun c => if bool_decide (ch_susuGroupId c = Some susuGroupId) then ChatRow None (ch_members c) else c) <$> chats s) s).

(** ** Collection *)

(** A tick's claim: a fresh cycle, or one whose tick stalled. *)
Definition claimable (stamp : Z) (c : cycle_row) : bool :=
  match cy_status c, cy_startedAt c with
  | CY_PENDING, _ => true
  | COLLECTING, Some t => t <=? stamp - STALL_RECOVERY_MS
  | COLLECTING, None => true
  | _, _ => false
  end.
Definition claim_tx (cycleId : string) (stamp : Z) : M sdb nat := cycle_updateMany cycleId (claimable stamp) (collecting stamp).

(** The claim is still this tick's. *)
Definition owned (stamp : Z) (c : cycle_row) : bool := bool_decide (cy_status c = COLLECTING) && bool_decide (cy_startedAt c = Some stamp).

Inductive collect_result : Type := LostClaim | Already | Paid | Defaulted (seizable shortfall : Z).

Section Cycles.
Context `{DecimalLib} `{PrismaNumber} (sha256 : string -> string).

Definition contribution_posting (cycleId memberId : string) (userId amount : Z) : post_params :=
  vault_posting (contribution_key cycleId memberId) "SUSU_CONTRIBUTION" "Susu cycle contribution - pooled into cycle restriction" userId "susuCycle" cycleId
    [debit_line (liability_code userId) (exact_dec amount); credit_line (susuEscrowCode cycleId memberId) (exact_dec amount)].
Definition seizure_posting (cycleId memberId : string) (userId amount : Z) : post_params :=
  vault_posting (seizure_key cycleId memberId) "SUSU_SEIZURE" "Susu default seizure - seized balance pooled into cycle restriction" userId "susuCycle" cycleId
    [debit_line (liability_code userId) (exact_dec amount); credit_line (susuEscrowCode cycleId memberId) (exact_dec amount)].

(** The transaction of one member; [member] is the row the tick read. *)
Definition collect_tx (cycleId memberId : string) (member : member_row) (contribution stamp now : Z) : M sdb collect_result :=
  let userId := mb_userId member in
  mine ← cycle_updateMany cycleId (owned stamp) (collecting stamp);
  if negb (mine =? 1)%nat then mret LostClaim else
  existing ← reads (fun s => contribs s !! (cycleId, memberId));
  match existing with
  | Some _ => mret Already
  | None =>
      paidNow ← on_money (user_updateMany userId (fun u => contribution <=? availableBalance u) (Delta (- contribution) contribution 0));
      if (paidNow =? 1)%nat then
        contribution_create (ContributionRow cycleId memberId userId contribution CB_PAID 0 0);;
        on_money (history_create (HistRow userId (OTHER_TYPE "SUSU_CONTRIBUTION") (- contribution) 0 None true));;
        (if 0 <? contribution then on_money (post_ledger sha256 (contribution_posting cycleId memberId userId contribution));; mret tt else mret tt);;
        mret Paid
      else
        wallet ← reads (fun s => users (bank (vlt s)) !! userId);
        let seizable := match wallet with Some u => availableBalance u | None => 0 end in
        let shortfall := d_minus contribution seizable in
        (if 0 <? seizable then
           on_money (user_update userId (Delta (- seizable) seizable 0));;
           on_money (history_create (HistRow userId (OTHER_TYPE "SUSU_SEIZURE") (- seizable) 0 None true));;
           on_money (post_ledger sha256 (seizure_posting cycleId memberId userId seizable));;
           mret tt
         else mret tt);;
        contribution_create (ContributionRow cycleId memberId userId contribution CB_SEIZED seizable shortfall);;
        smember_update memberId (in_default now seizable);;
        mret (Defaulted seizable shortfall)
  end.

(** The release of a claim after a failed transaction. *)
Definition release_tx (cycleId : string) (stamp : Z) : M sdb nat := cycle_updateMany cycleId (owned stamp) (with_cycle_status CY_PENDING).

(** ** Penalties *)

(** The vouches the penalty reads: the two latest completed ones. *)
Definition vouchers (userId : Z) (s : sdb) : list Z :=
  map vr_voucherId (firstn 2 (js_sort (fun a b => vr_createdAt b <=? vr_createdAt a)
    (List.filter (fun v => bool_decide (vr_inviteeId v = Some userId) && bool_decide (vr_status v = VOUCH_COMPLETED)) (map snd (map_to_list (vouches s)))))).

Definition freeze_user (userId : Z) : M sdb unit :=
  s ← get;
  match profiles (vlt s) !! userId, standings s !! userId with
  | Some p, Some d =>
      put (set_standings (<[userId := Standing (sd_vendorXp d) (sd_loyaltyTier d) (sd_role d) (sd_strikeCount d + 1)]> (standings s))
        (set_vlt (set_profiles (<[userId := Profile BANNED_INDEF (pf_isDeleted p) (pf_azmBalance p)]> (profiles (vlt s))) (vlt s)) s))
  | _, _ => throw "P2025"
  end.
Definition penalize (voucherId : Z) (s : sdb) : sdb :=
  set_smembers ((fun m => if mb_userId m =? voucherId then with_trust (Z.max 0 (mb_trust m - VOUCHER_TRUST_PENALTY * 10 ^ 4)) m else m) <$> smembers s) s.
Definition _handleDefault (userId : Z) (s : sdb) : sdb :=
  match transaction (freeze_user userId) s with
  | (Ok _, s1) => foldl (fun s v => penalize v s) s1 (vouchers userId s1)
  | (Err _, s1) => s1
  end.

(** ** Payout *)

(** What a contribution put into the pool. *)
Definition pooled (r : contribution_row) : Z := match cb_status r with CB_SEIZED => cb_seized r | _ => cb_amount r end.

(** [lockedByMember]: the map keeps the order of its first insertions. *)
Fixpoint locked_add (memberId : string) (amount : Z) (l : list (string * Z)) : list (string * Z) :=
  match l with
  | [] => [(memberId, d_plus 0 amount)]
  | (k, a) :: l' => if String.eqb k memberId then (k, d_plus a amount) :: l' else (k, a) :: locked_add memberId amount l'
  end.
Definition cycle_rows (cycleId : string) (s : sdb) : list contribution_row :=
  List.filter (fun r => String.eqb (cb_cycleId r) cycleId) (map snd (map_to_list (contribs s))).
Definition collected (rows : list contribution_row) : Z * list (string * Z) :=
  foldl (fun acc r => (d_plus acc.1 (pooled r), locked_add (cb_memberId r) (pooled r) acc.2)) (0, []) rows.

(** The fee is cut to whole cents. *)
Definition susu_fee (pct : option Z) (total : Z) : Z := d_times total (default 300 pct) / 10 ^ 10 * 10 ^ 6.

Fixpoint release_locks (cycleId : string) (l : list (string * Z)) : M sdb unit :=
  match l with
  | [] => mret tt
  | (memberId, amount) :: l' =>
      (if 0 <? amount then
         row ← reads (fun s => contribs s !! (cycleId, memberId));
         match row with Some r => on_money (user_update (cb_userId r) (Delta 0 (- amount) 0)) | None => mret tt end
       else mret tt);;
      release_locks cycleId l'
  end.

Definition payout_lines (cycleId : string) (l : list (string * Z)) (payoutUserId net fee : Z) : list line_in :=
  map (fun p => debit_line (susuEscrowCode cycleId p.1) (exact_dec p.2)) (List.filter (fun p => 0 <? p.2) l) ++
  (if net =? 0 then [] else [credit_line (liability_code payoutUserId) (exact_dec net)]) ++
  (if fee =? 0 then [] else [credit_line "revenue:fees" (exact_dec fee)]).

Definition payout_tx (cycleId : string) (payoutUserId : Z) (defaults : nat) (stamp now : Z) : M sdb (option (Z * Z * Z)) :=
  s ← get;
  let '(totalCollected, lockedByMember) := collected (cycle_rows cycleId s) in
  let feeUsdc := susu_fee (susuProfitPct s) totalCollected in
  let netPayout := d_minus totalCollected feeUsdc in
  claim ← cycle_updateMany cycleId (owned stamp) (paid_out now (Z.of_nat defaults) netPayout feeUsdc);
  if negb (claim =? 1)%nat then mret None else
  on_money (user_update payoutUserId (Delta netPayout 0 0));;
  release_locks cycleId lockedByMember;;
  (match payout_lines cycleId lockedByMember payoutUserId netPayout feeUsdc with
   | [] => mret tt
   | ls =>
       on_money (post_ledger sha256 (vault_posting (payout_key cycleId) "SUSU_PAYOUT" "Susu cycle payout - pool restriction released to recipient, profit realized"
         payoutUserId "susuCycle" cycleId ls));; mret tt
   end);;
  (if (0 <? defaults)%nat then cycle_updateMany cycleId (fun _ => true) (with_cycle_status CY_DEFAULTED);; mret tt else mret tt);;
  on_money (history_create (HistRow payoutUserId (OTHER_TYPE "SUSU_PAYOUT") netPayout 0 None true));;
  on_money (modify (add_profitLog (feeUsdc, ("susu_fee_" +:+ cycleId)%string)));;
  on_money (history_create (HistRow payoutUserId (OTHER_TYPE "SUSU_PROFIT") (- feeUsdc) 0 None true));;
  mret (Some (totalCollected, feeUsdc, netPayout)).

(** ** The tick *)

Definition remaining (susuGroupId : string) (s : sdb) : nat :=
  length (List.filter (fun p => String.eqb (cy_group p.2) susuGroupId && (bool_decide (cy_status p.2 = CY_PENDING) || bool_decide (cy_status p.2 = COLLECTING)))
    (map_to_list (cycles s))).

(** The members a tick reads. *)
Definition cycle_members (susuGroupId : string) (s : sdb) : list (string * member_row) :=
  List.filter (fun p => bool_decide (mb_status p.2 = MEMBER_ACTIVE) || bool_decide (mb_status p.2 = MEMBER_DEFAULTED)) (group_members susuGroupId s).

(** The collection of the members in turn.  The lists are the members who
    paid and the users in default. *)
Fixpoint collect_all (cycleId : string) (contribution stamp now : Z) (ms : list (string * member_row)) (paid defaulted : list Z) (s : sdb)
    : res (list Z * list Z) * sdb :=
  match ms with
  | [] => (Ok (paid, defaulted), s)
  | (memberId, member) :: ms' =>
      if bool_decide (mb_status member = MEMBER_DEFAULTED) then collect_all cycleId contribution stamp now ms' paid (defaulted ++ [mb_userId member]) s else
      match transaction (collect_tx cycleId memberId member contribution stamp now) s with
      | (Err e, s1) => (Err e, (transaction (release_tx cycleId stamp) s1).2)
      | (Ok LostClaim, s1) => (Err "claim lost mid-tick", s1)
      | (Ok Already, s1) => collect_all cycleId contribution stamp now ms' paid defaulted s1
      | (Ok Paid, s1) => collect_all cycleId contribution stamp now ms' (paid ++ [mb_userId member]) defaulted s1
      | (Ok (Defaulted _ _), s1) => collect_all cycleId contribution stamp now ms' paid (defaulted ++ [mb_userId member]) s1
      end
  end.

(** The end of the last cycle: the group is completed and its active members
    are rewarded. *)
Definition completion_key (susuGroupId : string) (userId : Z) : string := ("susu-complete-" +:+ susuGroupId +:+ "-" +:+ Z_digits userId)%string.
Definition reward_members (azmRewardService : bool) (newIds : string -> string) (susuGroupId : string) (s : sdb) : sdb :=
  if azmRewardService then
    foldl (fun s p => set_vlt (creditAzm (newIds p.1) (mb_userId p.2) 25 "SUSU_COMPLETION" (Some (completion_key susuGroupId (mb_userId p.2))) (vlt s)).2 s) s
      (List.filter (fun p => bool_decide (mb_status p.2 = MEMBER_ACTIVE)) (group_members susuGroupId s))
  else s.

Inductive cycle_result : Type := Skipped | Report (paid defaulted : nat) (total fee net : Z).

Definition processCycle (azmRewardService : bool) (newIds : string -> string) (cycleId : string) (now : Z) (before s : sdb) : res cycle_result * sdb :=
  match cycles before !! cycleId with
  | None => (Err "Cycle not found", s)
  | Some cycle =>
      match susus before !! cy_group cycle with
      | None => (Err "Cycle not found", s)
      | Some susu =>
          match transaction (claim_tx cycleId now) s with
          | (Err e, s1) => (Err e, s1)
          | (Ok n, s1) =>
              if negb (n =? 1)%nat then (Ok Skipped, s1) else
              match collect_all cycleId (sg_contribution susu) now now (cycle_members (cy_group cycle) before) [] [] s1 with
              | (Err e, s2) => (Err e, s2)
              | (Ok (paid, defaulted), s2) =>
                  let s3 := foldl (fun s u => _handleDefault u s) s2 defaulted in
                  match transaction (payout_tx cycleId (cy_payoutUserId cycle) (length defaulted) now now) s3 with
                  | (Err e, s4) => (Err e, s4)
                  | (Ok None, s4) => (Ok Skipped, s4)
                  | (Ok (Some (total, fee, net)), s4) =>
                      let report := Report (length paid) (length defaulted) total fee net in
                      if (remaining (cy_group cycle) s4 =? 0)%nat then
                        match transaction (susu_update (cy_group cycle) (with_susu_status SUSU_COMPLETED)) s4 with
                        | (Err e, s5) => (Err e, s5)
                        | (Ok _, s5) => (Ok report, reward_members azmRewardService newIds (cy_group cycle) s5)
                        end
                      else (Ok report, s4)
                  end
              end
          end
      end
  end.

(** ** The worker (workers/susuWorker.js) *)

Definition due_cycles (now : Z) (s : sdb) : list (string * cycle_row) :=
  firstn 25 (js_sort (fun a b => cy_collectionDate a.2 <=? cy_collectionDate b.2)
    (List.filter (fun p => (cy_collectionDate p.2 <=? now) &&
        match susus s !! cy_group p.2 with Some g => bool_decide (sg_contractVersion g = None) | None => false end && claimable now p.2) (map_to_list (cycles s)))).
Definition susu_tick (azmRewardService : bool) (newIds : string -> string) (now : Z) (s : sdb) : sdb :=
  foldl (fun s p => (processCycle azmRewardService newIds p.1 now s s).2) s (due_cycles now s).
End Cycles.

(** ** Vouches *)

Definition submitVouch (voucherId : Z) (vouchId : string) (acknowledges : bool) (now : Z) (before : sdb) : M sdb bool :=
  vouch ← lift (of_option (vouches before !! vouchId) "Vouch record not found");
  check (vr_voucherId vouch =? voucherId) "Not your vouch to submit";;
  if bool_decide (vr_status vouch = VOUCH_COMPLETED) then mret false else
  s ← get;
  match vouches s !! vouchId with
  | None => throw "P2025"
  | Some v =>
      put (set_vouches (<[vouchId := VouchRow (vr_inviteeId v) (vr_inviteePhone v) (vr_voucherId v) acknowledges VOUCH_COMPLETED (Some now) (vr_createdAt v)]> (vouches s)) s);;
      mret true
  end.

Definition linkPreRegistrationVouches (userId : Z) (phone : string) (s : sdb) : sdb :=
  if (String.length phone =? 0)%nat then s else
  set_vouches ((fun v => if bool_decide (vr_inviteePhone v = Some phone) && bool_decide (vr_inviteeId v = None)
     then VouchRow (Some userId) None (vr_voucherId v) (vr_acknowledges v) (vr_status v) (vr_submittedAt v) (vr_createdAt v) else v) <$> vouches s) s.
