(* ===== verification/SusuProps.v ===== *)
(** * Savings groups: what each operation does

    The statements; each transaction of a tick as a change of one cycle or
    contribution with an exact effect on balances, history and ledger
    ([pool_effect]); the invariant; the books; and the calls of the service and
    the transactions of its ticks as steps, interleaved with vaults and smart
    escrow. *)

From stdpp Require Import base gmap strings list relations.
From Stdlib Require Import ZArith QArith Lia Ascii.
From S2P Require Import Prelude JsNumber ExactDecimal Json Ledger LedgerFacts LedgerHash LedgerProps Idempotency Escrow EscrowFacts EscrowProps WalletProps Vault VaultProps Susu.

Local Open Scope Z_scope.

(** ** Statements *)

Definition money (s : sdb) : edb := bank (vlt s).
Definition set_money (w : edb) (s : sdb) : sdb := set_vlt (set_bank w (vlt s)) s.

Lemma on_money_Ok {A} (m : M edb A) s a s' : on_money m s = Ok (a, s') <-> exists w, m (money s) = Ok (a, w) /\ s' = set_money w s.
Proof.
  unfold on_money, on_vlt, on_bank, money, set_money. destruct (m (bank (vlt s))) as [[x w] | e]; split.
  - intros [= -> <-]. eauto.
  - by intros (w' & [= -> ->] & ->).
  - done.
  - by intros (w' & ? & _).
Qed.

Lemma susu_update_Ok id f s r s' : susu_update id f s = Ok (r, s') ->
  exists g, susus s !! id = Some g /\ r = f g /\ s' = set_susus (<[id := f g]> (susus s)) s.
Proof.
  unfold susu_update. intros Hr. apply Mbind_Ok in Hr as (s1 & s2 & Hg & Hr). apply get_Ok in Hg as [-> ->].
  destruct (susus s !! id) as [g |]; [| by apply throw_Ok in Hr]. run_inv Hr. eauto.
Qed.

Lemma smember_update_Ok id f s x s' : smember_update id f s = Ok (x, s') ->
  exists m, smembers s !! id = Some m /\ s' = set_smembers (<[id := f m]> (smembers s)) s.
Proof.
  unfold smember_update. intros Hr. apply Mbind_Ok in Hr as (s1 & s2 & Hg & Hr). apply get_Ok in Hg as [-> ->].
  destruct (smembers s !! id) as [m |]; [| by apply throw_Ok in Hr]. apply Mbind_Ok in Hr as (y & s1 & Hc & Hr). apply check_Ok in Hc as [_ ->].
  apply put_Ok in Hr as ->. eauto.
Qed.

Lemma cycle_updateMany_Ok id cond f s n s' : cycle_updateMany id cond f s = Ok (n, s') ->
  n = 0%nat /\ s' = s /\ (forall c, cycles s !! id = Some c -> cond c = false) \/
  n = 1%nat /\ exists c, cycles s !! id = Some c /\ cond c = true /\ numeric_ok (cy_payoutAmount (f c)) = true /\ s' = set_cycles (<[id := f c]> (cycles s)) s.
Proof.
  unfold cycle_updateMany. intros Hr. apply Mbind_Ok in Hr as (s1 & s2 & Hg & Hr). apply get_Ok in Hg as [-> ->].
  destruct (cycles s !! id) as [c |] eqn:Hc; [| run_inv Hr; left; split_and!; done]. destruct (cond c) eqn:Hd; [| run_inv Hr; left; split_and!; naive_solver].
  apply Mbind_Ok in Hr as (y & s1 & Hk & Hr). apply check_Ok in Hk as [Hk ->]. run_inv Hr. right. split; [done |]. by exists c.
Qed.

Lemma contribution_create_Ok r s x s' : contribution_create r s = Ok (x, s') ->
  is_Some (cycles s !! cb_cycleId r) /\ contribs s !! (cb_cycleId r, cb_memberId r) = None /\
  numeric_ok (cb_amount r) = true /\ numeric_ok (cb_seized r) = true /\
  s' = set_contribs (<[(cb_cycleId r, cb_memberId r) := r]> (contribs s)) s.
Proof.
  unfold contribution_create. intros Hr. apply Mbind_Ok in Hr as (s1 & s2 & Hg & Hr). apply get_Ok in Hg as [-> ->].
  apply Mbind_Ok in Hr as (y & s1 & Hc & Hr). apply check_Ok in Hc as [Hfk ->]. apply Mbind_Ok in Hr as (y1 & s1 & Hc & Hr). apply check_Ok in Hc as [Hpk ->].
  apply Mbind_Ok in Hr as (y2 & s1 & Hc & Hr). apply check_Ok in Hc as [Hn ->]. apply put_Ok in Hr as ->.
  apply andb_true_iff in Hn as [Hn _]. apply andb_true_iff in Hn as [Hn1 Hn2]. split_and!; try done.
  - by destruct (cycles s !! cb_cycleId r).
  - by destruct (contribs s !! _).
Qed.

Lemma owned_iff stamp c : owned stamp c = true <-> cy_status c = COLLECTING /\ cy_startedAt c = Some stamp.
Proof. unfold owned. by rewrite andb_true_iff, !bool_decide_eq_true. Qed.
Lemma owned_collecting stamp c : owned stamp c = true -> collecting stamp c = c.
Proof. intros [H1 H2]%owned_iff. destruct c. simpl in *. by subst. Qed.
Lemma set_cycles_id s : set_cycles (cycles s) s = s.
Proof. by destruct s. Qed.

(** The claim of a tick proved again changes nothing. *)
Lemma mine_Ok id stamp s n s' : cycle_updateMany id (owned stamp) (collecting stamp) s = Ok (n, s') ->
  s' = s /\ (n = 0%nat \/ n = 1%nat /\ exists c, cycles s !! id = Some c /\ owned stamp c = true).
Proof.
  intros Hr. apply cycle_updateMany_Ok in Hr as [(-> & -> & _) | (-> & c & Hc & Ho & _ & ->)]; [by auto |].
  rewrite owned_collecting, insert_id, set_cycles_id by done. split; [done | right; eauto].
Qed.

(** ** Keys and accounts *)

Inductive susu_key : string -> Prop :=
| sk_contribution c m : susu_key (contribution_key c m)
| sk_seizure c m : susu_key (seizure_key c m)
| sk_payout c : susu_key (payout_key c).
#[export] Hint Constructors susu_key : azm.

Ltac skey_neq := first [keys_apart "ledger:susu:contribution:"%string | keys_apart "ledger:susu:seizure:"%string | keys_apart "ledger:susu:payout:"%string].

#[export] Instance susu_own : OwnKeys susu_key.
Proof.
  split; [intros k i []; skey_neq | intros k i []; skey_neq |].
  intros k i Hc [Hk | [[st Hk] | [[st Hk] | Hk]]]; destruct Hc; revert Hk; skey_neq.
Qed.
Lemma susu_not_vault k j : susu_key k -> vault_key j -> k <> j.
Proof. intros [] []; skey_neq. Qed.

Lemma pair_key_inj p c m c' m' : uuid_like c -> uuid_like c' -> (p +:+ c +:+ ":" +:+ m = p +:+ c' +:+ ":" +:+ m')%string -> c = c' /\ m = m'.
Proof. intros H1 H2 He. apply (inj (String.append _)) in He. by apply (split_first ":"%char) in He. Qed.

Inductive susu_account : string -> Prop := susu_account_intro c m : susu_account (susuEscrowCode c m).
#[export] Hint Constructors susu_account : azm.
Lemma susu_account_own c : susu_account c -> OwnCode c.
Proof. by intros []. Qed.
Lemma susu_vault_account k i : susu_account k -> String.eqb (vault_code i) k = false.
Proof. by intros []. Qed.
Lemma susu_liability_eqb c m u : String.eqb (susuEscrowCode c m) (liability_code u) = false.
Proof. reflexivity. Qed.
Lemma susu_revenue_eqb c m : String.eqb (susuEscrowCode c m) "revenue:fees" = false.
Proof. reflexivity. Qed.
Lemma susu_vault_eqb c m i : String.eqb (susuEscrowCode c m) (vault_code i) = false.
Proof. reflexivity. Qed.
Lemma susu_locked_eqb c m i : String.eqb (susuEscrowCode c m) (locked_code i) = false.
Proof. reflexivity. Qed.
#[export] Hint Rewrite susu_liability_eqb susu_revenue_eqb susu_vault_eqb susu_locked_eqb : codes.

(** ** The effect on the wallet *)

Definition entry : Type := option (string * list nline).
Definition moved (c : string) (p : entry) : Z := match p with Some (_, ls) => line_movement c ls | None => 0 end.

Section Effects.
Context `{DecimalLib} (sha256 : string -> string).

(** As [wallet_effect], for a transaction that posts once or not at all. *)
Record pool_effect (ds : list (Z * delta)) (hs : list hist_row) (p : entry) (w w' : edb) : Prop := {
  pe_users : moves ds (users w) (users w');
  pe_hist : hist w' = hist w ++ hs;
  pe_fees : profitFees w' = profitFees w;
  pe_ledger : match p with Some (key, ls) => posted sha256 key ls (ledger w) (ledger w') | None => ledger w' = ledger w end;
  pe_escrows : escrows w' = escrows w;
  pe_disputes : disputes w' = disputes w;
}.

Lemma pool_wallet ds hs p w w' :
  pool_effect ds hs p w w' -> (forall key ls, p = Some (key, ls) -> find_key key (ledger w) = None) ->
  total_value w' = total_value w + sumZ (fun q => da q.2 + dl q.2 + dd q.2) ds /\
  (forall u, avail u w' = avail u w + delta_of da u ds) /\ (forall u, locked u w' = locked u w + delta_of dl u ds) /\
  (forall c, net c (ledger w') = net c (ledger w) + moved c p).
Proof.
  intros [Hmv Hh Hf Hp _ _] Hk. split_and!.
  - unfold total_value. rewrite Hf, (moves_total user_total (fun d => da d + dl d + dd d) ltac:(intros; unfold user_total; simpl; lia) _ _ _ Hmv). lia.
  - intros u. by apply moves_avail.
  - intros u. unfold locked. by rewrite (moves_bucket escrowLockedBalance dl ltac:(done) _ _ _ u Hmv).
  - intros c. destruct p as [[key ls] |]; simpl; [| by rewrite Hp; lia]. destruct (posted_cases _ _ _ _ _ Hp) as [_ Hnet]. apply Hnet. by eapply Hk.
Qed.

Lemma pool_keys ds hs p w w' k : pool_effect ds hs p w w' -> is_Some (find_key k (ledger w')) <-> (exists ls, p = Some (k, ls)) \/ is_Some (find_key k (ledger w)).
Proof.
  intros Hef. pose proof (pe_ledger _ _ _ _ _ Hef) as Hp. destruct p as [[key ls] |]; [| rewrite Hp; naive_solver].
  rewrite (posted_keys _ _ _ _ _ Hp). naive_solver.
Qed.

Lemma pool_columns ds hs p w w' : pool_effect ds hs p w w' -> columns_ok w -> columns_ok w'.
Proof. intros Hef Hc u row Hu. exact (moves_ok _ _ _ (pe_users _ _ _ _ _ Hef) Hc u row Hu). Qed.

Lemma pool_einv ds hs p w w' : (forall key ls, p = Some (key, ls) -> susu_key key) -> pool_effect ds hs p w w' -> einv w -> einv w'.
Proof.
  intros Hk Hef Hi. destruct p as [[key ls] |].
  - eapply (effect_einv sha256 susu_key ds hs key ls); [by eapply Hk | | exact Hi]. destruct Hef. by split.
  - destruct Hef as [_ _ _ Hl He Hd], Hi as [I1 I2 I3 I4 I5]. by split; rewrite ?Hl, ?He, ?Hd.
Qed.

(** The vaults do not notice. *)
Lemma pool_vinv ds hs p w s : (forall key ls, p = Some (key, ls) -> susu_key key) -> pool_effect ds hs p (bank s) w -> vinv s -> vinv (set_bank w s).
Proof.
  intros Hk Hef Hi. eapply (vinv_step s (set_bank w s) None nobody); try done;
    [exact (vi_rows s Hi) | eapply pool_einv; [exact Hk | exact Hef | by apply vi_core] | eapply pool_columns; [exact Hef | by apply vi_columns] | | by left | by left].
  intros k Hvk. unfold posted_key. simpl. rewrite (pool_keys _ _ _ _ _ k Hef). intros [[ls Hls] | ?]; [exfalso | by right].
  exact (susu_not_vault k k (Hk _ _ Hls) Hvk eq_refl).
Qed.

(** A posting between two codes. *)
Lemma two_lines key ty desc uid c a1 a2 x s r s' : 0 <= x -> ty <> "ASSET_CONVERSION"%string ->
  on_money (post_ledger sha256 (vault_posting key ty desc uid "susuCycle" c [debit_line a1 (exact_dec x); credit_line a2 (exact_dec x)])) s = Ok (r, s') ->
  exists l', s' = set_money (set_ledger l' (money s)) s /\ posted sha256 key [NLine a1 x 0; NLine a2 0 x] (ledger (money s)) l'.
Proof.
  intros Hx Hty Hr. apply on_money_Ok in Hr as (w & Hr & ->).
  apply (specs_posted sha256 _ [DebitOf a1 x; CreditOf a2 x]) in Hr as (l' & -> & Hp & _); [eauto | done | done | done | repeat constructor; done].
Qed.

(** ** Collection *)

(** A member's contribution of [a] units to the pool. *)
Definition share_lines (c m : string) (u a : Z) : list nline := [NLine (liability_code u) a 0; NLine (susuEscrowCode c m) 0 a].
Record collected_from (c m : string) (u : Z) (row : contribution_row) (s s' : sdb) : Prop := {
  cf_cycle : cb_cycleId row = c;
  cf_member : cb_memberId row = m;
  cf_user : cb_userId row = u;
  cf_range : 0 <= pooled row < DECIMAL_20_8_LIMIT;
  cf_fresh : contribs s !! (c, m) = None;
  cf_contribs : contribs s' = <[(c, m) := row]> (contribs s);
  cf_cycles : cycles s' = cycles s;
  cf_susus : susus s' = susus s;
  cf_pct : susuProfitPct s' = susuProfitPct s;
  cf_vlt : vlt s' = set_bank (money s') (vlt s);
  cf_effect : exists ds hs p, pool_effect ds hs p (money s) (money s') /\ (pooled row = 0 /\ ds = [] \/ ds = [(u, Delta (- pooled row) (pooled row) 0)]) /\
    (pooled row = 0 /\ p = None \/ exists key, (key = contribution_key c m \/ key = seizure_key c m) /\ p = Some (key, share_lines c m u (pooled row)));
  cf_chats : chats s' = chats s;
  cf_standings : standings s' = standings s;
}.
(** The two ends of a collection. *)
Definition paid_row (c m : string) (u a : Z) : contribution_row := ContributionRow c m u a CB_PAID 0 0.
Definition seized_row (c m : string) (u a z : Z) : contribution_row := ContributionRow c m u a CB_SEIZED z (d_minus a z).

Lemma numeric_lt z : numeric_ok z = true -> z < DECIMAL_20_8_LIMIT.
Proof. unfold numeric_ok. intros Hz%Z.ltb_lt. lia. Qed.

Lemma user_updateMany_none id cond d s s' : user_updateMany id cond d s = Ok (0%nat, s') -> forall u, users s !! id = Some u -> cond u = false.
Proof.
  unfold user_updateMany. intros Hr u Hu. apply Mbind_Ok in Hr as (s1 & s2 & Hg & Hr). apply get_Ok in Hg as [-> ->]. rewrite Hu in Hr.
  destruct (cond u); [| done]. apply Mbind_Ok in Hr as (x & s1 & _ & Hr). by run_inv Hr.
Qed.

Lemma wallet_avail u s : match users (bank (vlt s)) !! u with Some x => availableBalance x | None => 0 end = avail u (money s).
Proof. unfold avail, bucket, money. by destruct (users (bank (vlt s)) !! u). Qed.

Definition with_move (u : Z) (d : delta) (row : user_row) (s : sdb) : sdb := set_money (set_users (<[u := apply_delta d row]> (users (money s))) (money s)) s.

Lemma collected_paid c m u a row s x s' : 0 <= a -> contribs s !! (c, m) = None ->
  users (money s) !! u = Some row -> user_ok (apply_delta (Delta (- a) a 0) row) = true ->
  (contribution_create (paid_row c m u a);;
   on_money (history_create (HistRow u (OTHER_TYPE "SUSU_CONTRIBUTION") (- a) 0 None true));;
   (if 0 <? a then on_money (post_ledger sha256 (contribution_posting c m u a));; mret tt else mret tt);;
   mret Paid : M sdb collect_result) (with_move u (Delta (- a) a 0) row s) = Ok (x, s') ->
  x = Paid /\ smembers s' = smembers s /\ collected_from c m u (paid_row c m u a) s s'.
Proof.
  intros Ha Hf Hrow Hok Hr. apply Mbind_Ok in Hr as (y1 & s1 & Hcc & Hr). apply contribution_create_Ok in Hcc as (_ & _ & Hna & _ & ->).
  apply Mbind_Ok in Hr as (y2 & s1 & Hh & Hr). apply on_money_Ok in Hh as (w & Hh & ->). apply history_create_Ok in Hh as ->.
  apply numeric_lt in Hna. simpl in Hna. apply Mbind_Ok in Hr as (y3 & s2 & Hp & Hr). apply Mret_Ok in Hr as [-> ->]. split; [done |].
  destruct (Z.ltb_spec 0 a) as [Hpos | Hle].
  - apply Mbind_Ok in Hp as (y4 & s3 & Hp & Hr). apply two_lines in Hp as (l' & -> & Hp); [| done | done]. apply Mret_Ok in Hr as [_ ->].
    split; [done |]. split; try done. eexists _, _, _. split; [| split; [by right | right; exists (contribution_key c m); split; [by left | done]]].
    split; try done. by apply moves_one.
  - apply Mret_Ok in Hp as [_ ->]. split; [done |]. assert (a = 0) as -> by lia. split; try done.
    eexists _, _, None. split; [| split; [by right | by left]]. split; try done. by apply moves_one.
Qed.

Lemma collected_seized c m u a now s x s' (z := avail u (money s)) : columns_ok (money s) -> contribs s !! (c, m) = None ->
  (forall row, users (money s) !! u = Some row -> availableBalance row < a) ->
  ((if 0 <? z then
      on_money (user_update u (Delta (- z) z 0));;
      on_money (history_create (HistRow u (OTHER_TYPE "SUSU_SEIZURE") (- z) 0 None true));;
      on_money (post_ledger sha256 (seizure_posting c m u z));; mret tt
    else mret tt);;
   contribution_create (seized_row c m u a z);;
   smember_update m (in_default now z);;
   mret (Defaulted z (d_minus a z)) : M sdb collect_result) s = Ok (x, s') ->
  x = Defaulted z (d_minus a z) /\ z < a /\
  exists y, smembers s !! m = Some y /\ smembers s' = <[m := in_default now z y]> (smembers s) /\ collected_from c m u (seized_row c m u a z) s s'.
Proof.
  intros Hcol Hf Hlt Hr. apply Mbind_Ok in Hr as (y1 & s1 & Hz & Hr). apply Mbind_Ok in Hr as (y2 & s2 & Hcc & Hr).
  assert (Hrow : is_Some (users (money s1) !! u)).
  { unfold contribution_create in Hcc. apply Mbind_Ok in Hcc as (s3 & s4 & Hg & Hcc). apply get_Ok in Hg as [-> ->].
    apply Mbind_Ok in Hcc as (y3 & s4 & Hc & _). apply check_Ok in Hc as [Hc _]. simpl in Hc. unfold money. destruct (cycles s1 !! c), (smembers s1 !! m); try discriminate Hc. destruct (users (bank (vlt s1)) !! u); [by eexists | discriminate Hc]. }
  apply contribution_create_Ok in Hcc as (_ & _ & _ & Hnz & ->). simpl in Hnz. apply numeric_lt in Hnz.
  apply Mbind_Ok in Hr as (y3 & s2 & Hm & Hr). apply smember_update_Ok in Hm as (y & Hy & ->). apply Mret_Ok in Hr as [-> ->]. split; [done |].
  destruct (Z.ltb_spec 0 z) as [Hpos | Hle].
  - apply Mbind_Ok in Hz as (y4 & s3 & Hu & Hz). apply on_money_Ok in Hu as (w & Hu & ->). apply user_update_Ok in Hu as (row & -> & Hur & Hok).
    apply Mbind_Ok in Hz as (y5 & s3 & Hh & Hz). apply on_money_Ok in Hh as (w & Hh & ->). apply history_create_Ok in Hh as ->.
    apply Mbind_Ok in Hz as (y6 & s3 & Hp & Hz). apply two_lines in Hp as (l' & -> & Hp); [| lia | done]. apply Mret_Ok in Hz as [_ ->].
    split; [specialize (Hlt row Hur); unfold z, avail, bucket; by rewrite Hur |]. exists y. split_and!; [done | done |].
    split; try done; [unfold pooled; simpl; lia |]. eexists _, _, _. split; [| split; [by right | right; exists (seizure_key c m); split; [by right | done]]].
    split; try done. by apply moves_one.
  - apply Mret_Ok in Hz as [_ ->]. destruct Hrow as [row Hur]. assert (Hav : z = availableBalance row) by (unfold z, avail, bucket; by rewrite Hur).
    pose proof (columns_avail _ _ _ Hcol Hur). assert (Hz0 : z = 0) by lia. specialize (Hlt row Hur). split; [lia |]. exists y. split_and!; [done | done |].
    split; try done; [unfold pooled, DECIMAL_20_8_LIMIT; simpl; lia | by destruct s as [[]] |]. eexists [], [], None. split; [| split; left; done].
    split; try done; [constructor | by rewrite app_nil_r].
Qed.

Lemma collect_tx_Ok c m mem a stamp now s r s' : columns_ok (money s) -> 0 <= a -> collect_tx sha256 c m mem a stamp now s = Ok (r, s') ->
  (r = LostClaim \/ r = Already) /\ s' = s \/
  (exists cy, cycles s !! c = Some cy /\ owned stamp cy = true) /\
  let z := avail (mb_userId mem) (money s) in
  (r = Paid /\ a <= z /\ smembers s' = smembers s /\ collected_from c m (mb_userId mem) (paid_row c m (mb_userId mem) a) s s' \/
   r = Defaulted z (d_minus a z) /\ z < a /\ exists y, smembers s !! m = Some y /\ smembers s' = <[m := in_default now z y]> (smembers s) /\
      collected_from c m (mb_userId mem) (seized_row c m (mb_userId mem) a z) s s').
Proof.
  intros Hcol Ha Hr. unfold collect_tx in Hr. set (u := mb_userId mem) in *. apply Mbind_Ok in Hr as (n & s1 & Hm & Hr).
  apply mine_Ok in Hm as [-> [-> | (-> & Hown)]]; [apply Mret_Ok in Hr as [-> ->]; auto |]. cbn [negb Nat.eqb] in Hr.
  apply Mbind_Ok in Hr as (ex & s1 & Hf & Hr). apply reads_Ok in Hf as [Hex ->]. destruct ex; [apply Mret_Ok in Hr as [-> ->]; auto |].
  right. split; [exact Hown |]. apply Mbind_Ok in Hr as (k & s1 & Hu & Hr). apply on_money_Ok in Hu as (w & Hu & ->). pose proof Hu as Hu'.
  apply user_updateMany_Ok in Hu as [(-> & ->) | (-> & row & Hrow & Hc & Hok & ->)]; cbn [Nat.eqb] in Hr.
  - right. apply Mbind_Ok in Hr as (o & s1 & Ho & Hr). apply reads_Ok in Ho as [-> ->].
    replace (set_money (money s) s) with s in Hr by (by destruct s as [[]]). rewrite wallet_avail in Hr. eapply collected_seized; [done | done | | exact Hr].
    intros row Hrow. pose proof (user_updateMany_none _ _ _ _ _ Hu' row Hrow) as Hc. by apply Z.leb_gt in Hc.
  - left. apply collected_paid in Hr as (-> & Hsm & Hcf); [| done..]. split_and!; try done. apply Z.leb_le in Hc. unfold avail, bucket. by rewrite Hrow.
Qed.
(** ** Payout *)

(** A pool the arithmetic of a payout is exact for: ten million USDC. *)
Definition POOL_MAX : Z := 10 ^ 15.

Definition share (r : contribution_row) : string * Z := (cb_memberId r, pooled r).
Definition positive (r : contribution_row) : bool := 0 <? pooled r.
Definition pool_of (c : string) (s : sdb) : Z := sumZ pooled (cycle_rows c s).

Lemma locked_add_new k a l : ~ In k (map fst l) -> locked_add k a l = l ++ [(k, d_plus 0 a)].
Proof.
  induction l as [| [j b] l IH]; simpl; [done |]. intros Hn. destruct (String.eqb_spec j k) as [-> | _]; [tauto |]. rewrite IH by tauto. done.
Qed.

Lemma collected_acc rows t l : 0 <= t -> (forall r, In r rows -> 0 <= pooled r) -> t + sumZ pooled rows < 10 ^ 20 ->
  NoDup (map fst l ++ map cb_memberId rows) ->
  foldl (fun acc r => (d_plus acc.1 (pooled r), locked_add (cb_memberId r) (pooled r) acc.2)) (t, l) rows = (t + sumZ pooled rows, l ++ map share rows).
Proof.
  revert t l. induction rows as [| r rows IH]; intros t l Ht Hnn Hlt Hnd; [cbn; by rewrite Z.add_0_r, app_nil_r |].
  rewrite sumZ_cons in Hlt |- *. pose proof (Hnn r (or_introl eq_refl)) as Hr.
  assert (Hrest : 0 <= sumZ pooled rows) by (apply sumZ_nonneg; intros x Hx; apply Hnn; right; by apply list_elem_of_In).
  cbn [foldl fst snd]. rewrite locked_add_new.
  2: { apply NoDup_app in Hnd as (_ & Hd & _). intros Hin. apply (Hd (cb_memberId r)); [by apply list_elem_of_In | left]. }
  unfold d_plus. rewrite !dround_exact by lia. rewrite IH; [| lia | intros x Hx; apply Hnn; by right | lia |].
  - f_equal; [lia |]. rewrite <- app_assoc. done.
  - rewrite map_app. cbn [map fst]. by rewrite <- app_assoc.
Qed.

Lemma collected_exact rows : (forall r, In r rows -> 0 <= pooled r) -> sumZ pooled rows < 10 ^ 20 -> NoDup (map cb_memberId rows) ->
  collected rows = (sumZ pooled rows, map share rows).
Proof. intros Hnn Hlt Hnd. unfold collected. rewrite collected_acc by (done || lia). f_equal. Qed.

Lemma filter_share rows : List.filter (fun p => 0 <? p.2) (map share rows) = map share (List.filter positive rows).
Proof. induction rows as [| r rows IH]; [done |]. cbn [map List.filter]. unfold positive at 1. cbn [share snd]. destruct (0 <? pooled r); cbn [map]; by rewrite IH. Qed.

Definition unlocks (rows : list contribution_row) : list (Z * delta) := map (fun r => (cb_userId r, Delta 0 (- pooled r) 0)) (List.filter positive rows).

Lemma release_locks_Ok c rows s x s' : release_locks c (map share rows) s = Ok (x, s') ->
  (forall r, In r rows -> contribs s !! (c, cb_memberId r) = Some r) ->
  exists us, moves (unlocks rows) (users (money s)) us /\ s' = set_money (set_users us (money s)) s.
Proof.
  revert s x. induction rows as [| r rows IH]; intros s x Hr Hall.
  - apply Mret_Ok in Hr as [_ ->]. exists (users (money s)). split; [constructor | by destruct s as [[[]]]].
  - cbn [map release_locks share] in Hr. apply Mbind_Ok in Hr as (y & s1 & H1 & Hr). unfold unlocks, positive. cbn [List.filter].
    destruct (0 <? pooled r) eqn:Hp.
    + apply Mbind_Ok in H1 as (o & s2 & Ho & H1). apply reads_Ok in Ho as [-> ->]. rewrite (Hall r (or_introl eq_refl)) in H1.
      apply on_money_Ok in H1 as (w & Hu & ->). apply user_update_Ok in Hu as (row & -> & Hrow & Hok).
      apply IH in Hr as (us & Hmv & ->); [| intros q Hq; apply Hall; by right]. exists us. split; [| done]. cbn [map]. by econstructor.
    + apply Mret_Ok in H1 as [_ ->]. apply IH in Hr as (us & Hmv & ->); [| intros q Hq; apply Hall; by right]. by exists us.
Qed.

Definition pay_specs (c : string) (rows : list contribution_row) (u n f : Z) : list line_spec :=
  map (fun r => DebitOf (susuEscrowCode c (cb_memberId r)) (pooled r)) (List.filter positive rows) ++
  (if n =? 0 then [] else [CreditOf (liability_code u) n]) ++ (if f =? 0 then [] else [CreditOf "revenue:fees" f]).

Lemma payout_lines_specs c rows u n f : payout_lines c (map share rows) u n f = map to_line (pay_specs c rows u n f).
Proof. unfold payout_lines, pay_specs. rewrite filter_share, !map_app, !map_map. repeat f_equal; by destruct (_ =? 0). Qed.

Lemma pay_specs_nonneg c rows u n f : 0 <= n -> 0 <= f -> Forall (fun l => 0 <= spec_amount l) (pay_specs c rows u n f).
Proof.
  intros Hn Hf. unfold pay_specs. rewrite !Forall_app. split_and!; [| by destruct (_ =? 0); repeat constructor..].
  apply Forall_forall. intros l Hl. apply list_elem_of_In, in_map_iff in Hl as (r & <- & Hr). apply filter_In in Hr as [_ Hr]. unfold positive in Hr. simpl. lia.
Qed.
(** What the rows of a cycle are. *)
Record cycle_wf (c : string) (s : sdb) : Prop := {
  cw_nonneg : forall r, In r (cycle_rows c s) -> 0 <= pooled r;
  cw_row : forall r, In r (cycle_rows c s) -> contribs s !! (c, cb_memberId r) = Some r;
  cw_nodup : NoDup (map cb_memberId (cycle_rows c s));
}.

Lemma fee_exact pct t : 0 <= t <= POOL_MAX -> 0 <= default 300 pct <= 10000 ->
  susu_fee pct t = t * default 300 pct / 10 ^ 10 * 10 ^ 6 /\ 0 <= susu_fee pct t <= t.
Proof.
  unfold POOL_MAX. intros Ht Hk. set (k := default 300 pct) in *. unfold susu_fee, d_times. fold k. rewrite dround_exact by nia. split; [done |].
  assert (0 <= t * k / 10 ^ 10) by (apply Z.div_pos; nia). pose proof (Z.mul_div_le (t * k) (10 ^ 10) ltac:(lia)). nia.
Qed.

Definition pay_entry (c : string) (rows : list contribution_row) (u n f : Z) : entry :=
  match pay_specs c rows u n f with [] => None | sp => Some (payout_key c, map to_nline sp) end.
Definition final_cycle (now : Z) (defaults : nat) (n f : Z) (cy : cycle_row) : cycle_row :=
  let cy' := paid_out now (Z.of_nat defaults) n f cy in if (0 <? defaults)%nat then with_cycle_status CY_DEFAULTED cy' else cy'.

Record paid_from (c : string) (u : Z) (now : Z) (defaults : nat) (t f n : Z) (s s' : sdb) : Prop := {
  pf_cycles : exists cy, cycles s !! c = Some cy /\ cycles s' = <[c := final_cycle now defaults n f cy]> (cycles s);
  pf_contribs : contribs s' = contribs s;
  pf_susus : susus s' = susus s;
  pf_members : smembers s' = smembers s;
  pf_pct : susuProfitPct s' = susuProfitPct s;
  pf_vlt : vlt s' = set_bank (money s') (vlt s);
  pf_total : t = pool_of c s;
  pf_fee : f = t * default 300 (susuProfitPct s) / 10 ^ 10 * 10 ^ 6;
  pf_net : n = t - f;
  pf_log : profitLog (money s') = profitLog (money s) ++ [(f, ("susu_fee_" +:+ c)%string)];
  pf_effect : pool_effect ((u, Delta n 0 0) :: unlocks (cycle_rows c s))
    [HistRow u (OTHER_TYPE "SUSU_PAYOUT") n 0 None true; HistRow u (OTHER_TYPE "SUSU_PROFIT") (- f) 0 None true]
    (pay_entry c (cycle_rows c s) u n f) (money s) (money s');
  pf_chats : chats s' = chats s;
  pf_standings : standings s' = standings s;
  pf_numeric : numeric_ok n = true;
}.

Lemma pay_post_Ok c rows u n f s x s' : 0 <= n -> 0 <= f ->
  (match payout_lines c (map share rows) u n f with
   | [] => mret tt
   | ls => on_money (post_ledger sha256 (vault_posting (payout_key c) "SUSU_PAYOUT" "Susu cycle payout - pool restriction released to recipient, profit realized"
             u "susuCycle" c ls));; mret tt
   end : M sdb unit) s = Ok (x, s') ->
  exists l, s' = set_money (set_ledger l (money s)) s /\
    match pay_entry c rows u n f with Some (key, ls) => posted sha256 key ls (ledger (money s)) l | None => l = ledger (money s) end.
Proof.
  intros Hn Hf Hr. rewrite payout_lines_specs in Hr. pose proof (pay_specs_nonneg c rows u n f Hn Hf) as Hnn. unfold pay_entry.
  destruct (pay_specs c rows u n f) as [| sp sps]; [apply Mret_Ok in Hr as [_ ->]; exists (ledger (money s)); split; [by destruct s as [[[]]] | done] |].
  cbn [map] in Hr. apply Mbind_Ok in Hr as (y & s1 & Hp & Hr). apply Mret_Ok in Hr as [_ ->]. apply on_money_Ok in Hp as (w & Hp & ->).
  apply (specs_posted sha256 _ (sp :: sps)) in Hp as (l' & -> & Hp & _); [eauto | done | done | done | exact Hnn].
Qed.

Lemma payout_tx_Ok c u defaults stamp now s r s' : cycle_wf c s -> pool_of c s <= POOL_MAX -> 0 <= default 300 (susuProfitPct s) <= 10000 ->
  payout_tx sha256 c u defaults stamp now s = Ok (r, s') ->
  r = None /\ s' = s \/
  exists cy t f n, cycles s !! c = Some cy /\ owned stamp cy = true /\ r = Some (t, f, n) /\ 0 <= f <= t /\ paid_from c u now defaults t f n s s'.
Proof.
  intros [Hnn Hrow Hnd] Hmax Hpct Hr. unfold payout_tx in Hr. apply Mbind_Ok in Hr as (s1 & s2 & Hg & Hr). apply get_Ok in Hg as [-> ->].
  assert (Hpos : 0 <= pool_of c s) by (apply sumZ_nonneg; intros q Hq; by apply Hnn, list_elem_of_In).
  unfold pool_of in *. rewrite collected_exact in Hr by (done || (unfold POOL_MAX in *; lia)). set (rows := cycle_rows c s) in *. set (t := sumZ pooled rows) in *.
  destruct (fee_exact (susuProfitPct s) t ltac:(lia) Hpct) as [Hfee Hf]. set (f := susu_fee (susuProfitPct s) t) in *.
  unfold d_minus in Hr. rewrite dround_exact in Hr by (unfold POOL_MAX in *; lia). set (n := t - f) in *.
  apply Mbind_Ok in Hr as (k & s1 & Hc & Hr). apply cycle_updateMany_Ok in Hc as [(-> & -> & _) | (-> & cy & Hcy & Hown & Hnum & ->)]; cbn [negb Nat.eqb] in Hr;
    [apply Mret_Ok in Hr as [-> ->]; by left |].
  right. exists cy, t, f, n. apply Mbind_Ok in Hr as (y & s1 & Hu & Hr). apply on_money_Ok in Hu as (w & Hu & ->). apply user_update_Ok in Hu as (row & -> & Hur & Hok).
  apply Mbind_Ok in Hr as (y1 & s1 & Hl & Hr). apply release_locks_Ok in Hl as (us & Hmv & ->); [| done].
  apply Mbind_Ok in Hr as (y2 & s1 & Hp & Hr). apply pay_post_Ok in Hp as (l & -> & Hp); [| lia | lia].
  apply Mbind_Ok in Hr as (y3 & s1 & Hd & Hr).
  assert (Hs1 : s1 = set_cycles (<[c := final_cycle now defaults n f cy]> (cycles s)) (set_money (set_ledger l (set_users us (money s))) s)).
  { unfold final_cycle. destruct (0 <? defaults)%nat; [| by apply Mret_Ok in Hd as [_ ->]].
    apply Mbind_Ok in Hd as (k2 & s2 & Hd & Hr2). apply Mret_Ok in Hr2 as [_ ->].
    apply cycle_updateMany_Ok in Hd as [(_ & _ & Hno) | (_ & cy2 & Hcy2 & _ & _ & ->)]; cbn [set_money set_vlt set_cycles cycles] in *.
    - by specialize (Hno _ (lookup_insert_eq _ _ _)).
    - rewrite lookup_insert_eq in Hcy2. injection Hcy2 as <-. by rewrite insert_insert_eq. }
  subst s1. apply Mbind_Ok in Hr as (y4 & s1 & Hh & Hr). apply on_money_Ok in Hh as (w & Hh & ->). apply history_create_Ok in Hh as ->.
  apply Mbind_Ok in Hr as (y5 & s1 & Hm & Hr). apply on_money_Ok in Hm as (w & Hm & ->). apply modify_Ok in Hm as ->.
  apply Mbind_Ok in Hr as (y6 & s1 & Hh & Hr). apply on_money_Ok in Hh as (w & Hh & ->). apply history_create_Ok in Hh as ->.
  apply Mret_Ok in Hr as [-> ->]. split_and!; try done; try lia. split; try done; [by exists cy |].
  split; try done; [simpl; by econstructor |]. simpl. by rewrite <- app_assoc.
Qed.
End Effects.

(** ** The invariant *)

Definition settled (cy : cycle_row) : bool := bool_decide (cy_status cy = PAID_OUT) || bool_decide (cy_status cy = CY_DEFAULTED).
Definition is_settled (s : sdb) (c : string) : bool := match cycles s !! c with Some cy => settled cy | None => false end.

(** A cycle of this service: it never enters the grace window of the other
    one. *)
Record cycle_ok (c : string) (cy : cycle_row) : Prop := {
  co_id : uuid_like c;
  co_user : 0 <= cy_payoutUserId cy;
  co_legacy : cy_status cy <> COLLECTING_GRACE;
  co_amount : numeric_ok (cy_payoutAmount cy) = true;
}.

Record tables_wf (s : sdb) : Prop := {
  tw_cycles : forall c cy, cycles s !! c = Some cy -> cycle_ok c cy;
  tw_members : forall m x, smembers s !! m = Some x -> 0 <= mb_userId x;
  tw_groups : forall g x, susus s !! g = Some x -> 0 <= sg_contribution x;
  tw_chats : forall i x, chats s !! i = Some x -> forall y, In y (ch_members x) -> 0 <= cm_userId y;
}.

Record row_wf_of (c m : string) (r : contribution_row) (s : sdb) : Prop := {
  rw_cycle : cb_cycleId r = c;
  rw_member : cb_memberId r = m;
  rw_user : 0 <= cb_userId r;
  rw_pooled : 0 <= pooled r;
  rw_exists : is_Some (cycles s !! c);
}.

Record sinv (s : sdb) : Prop := {
  si_vault : vinv (vlt s);
  si_tables : tables_wf s;
  si_pct : 0 <= default 300 (susuProfitPct s) <= 10000;
  si_rows : forall c m r, contribs s !! (c, m) = Some r -> row_wf_of c m r s;
  si_share_key : forall c m, uuid_like c -> posted_key (contribution_key c m) (vlt s) \/ posted_key (seizure_key c m) (vlt s) -> is_Some (contribs s !! (c, m));
  si_payout_key : forall c, posted_key (payout_key c) (vlt s) -> is_settled s c = true;
}.

(** Settled cycles stay as they are, the others stay open. *)
Definition cycles_kept (s s' : sdb) : Prop :=
  forall c cy, cycles s !! c = Some cy -> exists cy', cycles s' !! c = Some cy' /\ settled cy' = settled cy /\ (settled cy = true -> cy' = cy).

Lemma kept_refl s s' : cycles s' = cycles s -> cycles_kept s s'.
Proof. intros He c cy Hc. exists cy. by rewrite He. Qed.

Lemma kept_settled s s' c : cycles_kept s s' -> is_settled s c = true -> is_settled s' c = true.
Proof. intros Hk. unfold is_settled. destruct (cycles s !! c) as [cy |] eqn:Hc; [| done]. destruct (Hk c cy Hc) as (cy' & -> & -> & _). done. Qed.

Lemma owned_open stamp cy : owned stamp cy = true -> settled cy = false.
Proof. intros [Hs _]%owned_iff. unfold settled. by rewrite Hs. Qed.

Section Shapes.
Context {half : HalfUnits} `{DecimalLib} `{PrismaNumber} (sha256 : string -> string) (wire : escrow_row -> string).
Context (wire_vault : vault_row -> string) (wire_breakdown : azm_breakdown -> string) (on : bool).

(** A step changes no money and settles no cycle, belongs to the vaults or
    smart escrow, collects from one member, or pays one cycle out. *)
Inductive susu_shape (s s' : sdb) : Prop :=
| sh_side : vlt s' = vlt s -> contribs s' = contribs s -> susuProfitPct s' = susuProfitPct s -> cycles_kept s s' -> tables_wf s' -> susu_shape s s'
| sh_vault : vstep sha256 wire wire_vault wire_breakdown on (vlt s) (vlt s') -> contribs s' = contribs s -> susuProfitPct s' = susuProfitPct s ->
    cycles s' = cycles s -> tables_wf s' -> susu_shape s s'
| sh_collect c m u row : 0 <= u -> is_Some (cycles s !! c) -> is_settled s c = false -> collected_from sha256 c m u row s s' -> tables_wf s' -> susu_shape s s'
| sh_payout c u now d t f n : 0 <= u -> is_settled s c = false -> 0 <= f <= t -> paid_from sha256 c u now d t f n s s' -> tables_wf s' -> susu_shape s s'.

Lemma share_entry_key c m u a (p : entry) key ls : (a = 0 /\ p = None \/ exists key, (key = contribution_key c m \/ key = seizure_key c m) /\ p = Some (key, share_lines c m u a)) ->
  p = Some (key, ls) -> susu_key key /\ (key = contribution_key c m \/ key = seizure_key c m) /\ ls = share_lines c m u a.
Proof. intros [[_ ->] | (k & Hk & ->)] He; [done |]. injection He as <- <-. split; [| done]. destruct Hk as [-> | ->]; constructor. Qed.

Lemma pay_entry_key c rows u n f key ls : pay_entry c rows u n f = Some (key, ls) -> key = payout_key c /\ ls = map to_nline (pay_specs c rows u n f).
Proof. unfold pay_entry. destruct (pay_specs c rows u n f); [done |]. by intros [= <- <-]. Qed.

Lemma final_settled now d n f cy : settled (final_cycle now d n f cy) = true.
Proof. unfold final_cycle. by destruct (0 <? d)%nat. Qed.

Lemma paid_kept c u now d t f n s s' : is_settled s c = false -> paid_from sha256 c u now d t f n s s' ->
  is_settled s' c = true /\ (forall i, i <> c -> cycles s' !! i = cycles s !! i).
Proof.
  intros Hop Hp. destruct (pf_cycles _ _ _ _ _ _ _ _ _ _ Hp) as (cy & Hcy & He). unfold is_settled. rewrite He, lookup_insert_eq. split; [apply final_settled |].
  intros i Hne. by rewrite lookup_insert_ne.
Qed.

(** ** Steps of the vaults and of smart escrow *)

Lemma wallet_foreign ds hs key ls w w' : wallet_effect sha256 ds hs key ls w w' -> vault_key key ->
  (forall c, susu_account c -> line_movement c ls = 0) -> (forall u, delta_of dl u ds = 0) ->
  keeps_own susu_key susu_account (ledger w) (ledger w') /\ forall u, locked u w' - held LIVE u w' = locked u w - held LIVE u w.
Proof.
  intros Hef Hk Hls Hds. split.
  - eapply foreign_posting; [exact (we_ledger _ _ _ _ _ _ _ Hef) | | done]. intros k Hs. by apply susu_not_vault.
  - intros u. unfold locked. rewrite (moves_bucket escrowLockedBalance dl ltac:(done) _ _ _ u (we_users _ _ _ _ _ _ _ Hef)), Hds.
    unfold held. rewrite (we_escrows _ _ _ _ _ _ _ Hef). lia.
Qed.

Ltac foreign_tac := intros; match goal with Hc : susu_account _ |- _ => destruct Hc | _ => idtac end; unfold line_movement, delta_of;
  rewrite ?sumZ_cons, ?sumZ_nil; simpl; repeat case_match; done || lia.

Lemma vault_foreign v v' : vinv v -> vstep sha256 wire wire_vault wire_breakdown on v v' ->
  keeps_own susu_key susu_account (ledger (bank v)) (ledger (bank v')) /\ forall u, locked u (bank v') - held LIVE u (bank v') = locked u (bank v) - held LIVE u (bank v).
Proof.
  intros Hi Hs. apply step_vault_shape in Hs as [Hs | (w & Hw & ->)]; [| | done].
  - destruct Hs as [_ Hb _ _ | id v1 _ _ Hb _ _ | id x x' newId u a paid _ _ _ _ _ _ _ _ _ _ _ _ Hef | id x x' r p _ _ _ _ _ _ _ _ _ _ _ _ Hef | id x x' _ _ _ _ _ _ _ _ _ _ Hef].
    + by rewrite Hb.
    + by rewrite Hb.
    + eapply wallet_foreign; [exact Hef | constructor | foreign_tac | foreign_tac].
    + eapply wallet_foreign; [exact Hef | constructor | foreign_tac | foreign_tac].
    + eapply wallet_foreign; [exact Hef | constructor | foreign_tac | foreign_tac].
  - apply step_shaped in Hw; [| by apply vi_core]. split; [exact (foreign_shape sha256 susu_key susu_account _ _ susu_account_own Hw) |].
    by destruct (shape_books _ _ _ (vi_core v Hi) Hw).
Qed.

(** ** The invariant is kept *)

Lemma row_kept c m r s s' : (is_Some (cycles s !! c) -> is_Some (cycles s' !! c)) -> row_wf_of c m r s -> row_wf_of c m r s'.
Proof. intros Hc [R1 R2 R3 R4 R5]. split; auto. Qed.

Lemma vault_sinv s s' : sinv s -> vstep sha256 wire wire_vault wire_breakdown on (vlt s) (vlt s') -> contribs s' = contribs s ->
  susuProfitPct s' = susuProfitPct s -> cycles s' = cycles s -> tables_wf s' -> sinv s'.
Proof.
  intros [Iv It Ip Ir Ik Ipk] Hv Hc Hp Hk Ht. destruct (step_vault _ _ _ _ _ _ _ Iv Hv) as [Iv' _]. destruct (vault_foreign _ _ Iv Hv) as [[Hfor _] _].
  split; rewrite ?Hp, ?Hc; try done.
  - intros c m r Hr. eapply row_kept; [| by apply Ir]. by rewrite Hk.
  - intros c m Huu [Hq | Hq]; apply Hfor in Hq; [by apply Ik; [| left] | constructor | by apply Ik; [| right] | constructor].
  - intros c Hq. unfold is_settled. rewrite Hk. apply Ipk, Hfor; [constructor | done].
Qed.

Lemma collect_sinv s s' c m u row : sinv s -> 0 <= u -> is_Some (cycles s !! c) -> collected_from sha256 c m u row s s' -> tables_wf s' -> sinv s'.
Proof.
  intros [Iv It Ip Ir Ik Ipk] Hu Hcy Hcf Ht. destruct (cf_effect _ _ _ _ _ _ _ Hcf) as (ds & hs & p & Hef & _ & Hent).
  assert (Hkeys : forall k, posted_key k (vlt s') -> (k = contribution_key c m \/ k = seizure_key c m) \/ posted_key k (vlt s)).
  { intros k. unfold posted_key. fold (money s') (money s). rewrite (pool_keys _ _ _ _ _ _ k Hef). intros [[ls Hls] | ?]; [| by right].
    apply (share_entry_key c m u _ _ _ _ Hent) in Hls as (_ & ? & _). by left. }
  split; rewrite ?(cf_pct _ _ _ _ _ _ _ Hcf); try done.
  - rewrite (cf_vlt _ _ _ _ _ _ _ Hcf). eapply pool_vinv; [| exact Hef | done]. intros key ls He. by apply (share_entry_key c m u _ _ _ _ Hent) in He as (? & _).
  - intros c' m' r. rewrite (cf_contribs _ _ _ _ _ _ _ Hcf). intros [[[= <- <-] <-] | [_ Hr]]%lookup_insert_Some.
    + destruct Hcf as [F1 F2 F3 F4]. split; [done | done | lia | lia | by rewrite cf_cycles0].
    + eapply row_kept; [| by apply Ir]. by rewrite (cf_cycles _ _ _ _ _ _ _ Hcf).
  - intros c' m' Huu Hq. rewrite (cf_contribs _ _ _ _ _ _ _ Hcf). destruct (decide ((c, m) = (c', m'))) as [[= <- <-] | Hne]; [by rewrite lookup_insert_eq |].
    rewrite lookup_insert_ne by done. destruct Hcy as [cy Hcy]. pose proof (co_id _ _ (tw_cycles s It c cy Hcy)) as Huc. apply Ik; [done |].
    destruct Hq as [Hq | Hq]; apply Hkeys in Hq as [[Hq | Hq] | Hq]; auto; (revert Hq; skey_neq) || by apply pair_key_inj in Hq as [-> ->].
  - intros c' Hq. unfold is_settled. rewrite (cf_cycles _ _ _ _ _ _ _ Hcf). apply Ipk. apply Hkeys in Hq as [[Hq | Hq] | Hq]; [revert Hq; skey_neq | revert Hq; skey_neq | done].
Qed.

Lemma payout_sinv s s' c u now d t f n : sinv s -> is_settled s c = false -> paid_from sha256 c u now d t f n s s' -> tables_wf s' -> sinv s'.
Proof.
  intros [Iv It Ip Ir Ik Ipk] Hop Hpf Ht. destruct (paid_kept _ _ _ _ _ _ _ _ _ Hop Hpf) as [Hset Hoth].
  assert (Hkeys : forall k, posted_key k (vlt s') -> k = payout_key c \/ posted_key k (vlt s)).
  { intros k. unfold posted_key. fold (money s') (money s). rewrite (pool_keys _ _ _ _ _ _ k (pf_effect _ _ _ _ _ _ _ _ _ _ Hpf)). intros [[ls Hls] | ?]; [| by right].
    apply pay_entry_key in Hls as [-> _]. by left. }
  split; rewrite ?(pf_pct _ _ _ _ _ _ _ _ _ _ Hpf), ?(pf_contribs _ _ _ _ _ _ _ _ _ _ Hpf); try done.
  - rewrite (pf_vlt _ _ _ _ _ _ _ _ _ _ Hpf). eapply pool_vinv; [| exact (pf_effect _ _ _ _ _ _ _ _ _ _ Hpf) | done].
    intros key ls He. apply pay_entry_key in He as [-> _]. constructor.
  - intros c' m' r Hr. eapply row_kept; [| by apply Ir]. destruct (decide (c' = c)) as [-> | Hne]; [| by rewrite Hoth].
    unfold is_settled in Hset. by destruct (cycles s' !! c).
  - intros c' m' Huu [Hq | Hq]; apply Hkeys in Hq as [Hq | Hq]; (revert Hq; skey_neq) || (apply Ik; auto).
  - intros c' Hq. destruct (decide (c' = c)) as [-> | Hne]; [done |]. unfold is_settled. rewrite Hoth by done. apply Ipk.
    apply Hkeys in Hq as [Hq | Hq]; [| done]. by apply (inj (String.append _)) in Hq.
Qed.

Lemma shape_sinv s s' : sinv s -> susu_shape s s' -> sinv s'.
Proof.
  intros Hi Hs. destruct Hs as [Hv Hc Hp Hk Ht | Hv Hc Hp Hk Ht | c m u row Hu Hcy Hop Hcf Ht | c u now d t f n Hu Hop Hf Hpf Ht].
  - destruct Hi as [Iv It Ip Ir Ik Ipk]. split; rewrite ?Hv, ?Hp, ?Hc; try done.
    + intros c m r Hr. eapply row_kept; [| by apply Ir]. intros [cy Hcy]. destruct (Hk c cy Hcy) as (cy' & -> & _). by eexists.
    + intros c Hpk. by eapply kept_settled, Ipk.
  - by eapply vault_sinv.
  - by eapply collect_sinv.
  - by eapply payout_sinv.
Qed.
End Shapes.

(** ** The books *)

(** What a contribution holds in a pool that is not paid out yet; the pools
    behind an account and of a user. *)
Definition open_part (s : sdb) (r : contribution_row) : Z := if is_settled s (cb_cycleId r) then 0 else pooled r.
Definition pool_sum (P : contribution_row -> bool) (s : sdb) : Z := sumM (fun r => if P r then open_part s r else 0) (contribs s).
Definition behind (k : string) (r : contribution_row) : bool := String.eqb (susuEscrowCode (cb_cycleId r) (cb_memberId r)) k.
Definition from_user (u : Z) (r : contribution_row) : bool := cb_userId r =? u.

Record susu_books `{HalfUnits} (s s' : sdb) : Prop := {
  kb_vault : vault_books (vlt s) (vlt s');
  kb_pool : forall k, susu_account k -> pool_sum (behind k) s' + net k (ledger (money s')) = pool_sum (behind k) s + net k (ledger (money s));
  kb_locked : forall u, locked u (money s') - held LIVE u (money s') - pool_sum (from_user u) s' = locked u (money s) - held LIVE u (money s) - pool_sum (from_user u) s;
}.

#[export] Instance susu_books_po `{HalfUnits} : PreOrder susu_books.
Proof.
  split; [intros s; split; [reflexivity | done..] |]. intros s1 s2 s3 [A1 A2 A3] [B1 B2 B3]. split; [by etransitivity | |]; intros; [rewrite B2 by done; auto | by rewrite B3].
Qed.

Lemma pool_sum_same P s s' : contribs s' = contribs s -> (forall c m r, contribs s !! (c, m) = Some r -> is_settled s' (cb_cycleId r) = is_settled s (cb_cycleId r)) ->
  pool_sum P s' = pool_sum P s.
Proof.
  intros Hc Hs. unfold pool_sum. rewrite Hc. apply sumM_ext. intros [c m] r Hr. unfold open_part. by rewrite (Hs c m r Hr).
Qed.

Lemma sum_positive (P : contribution_row -> bool) rows : (forall r, In r rows -> 0 <= pooled r) ->
  sumZ (fun r => if P r then pooled r else 0) (List.filter positive rows) = sumZ (fun r => if P r then pooled r else 0) rows.
Proof.
  induction rows as [| r rows IH]; intros Hnn; [done |]. cbn [List.filter]. rewrite sumZ_cons, <- IH by (intros x Hx; apply Hnn; by right).
  specialize (Hnn r (or_introl eq_refl)). unfold positive at 1. destruct (Z.ltb_spec 0 (pooled r)); [by rewrite sumZ_cons |]. destruct (P r); lia.
Qed.

(** Paying a cycle out empties its part of the pool. *)
Lemma pool_drop P c s s' : contribs s' = contribs s -> is_settled s c = false -> is_settled s' c = true ->
  (forall i, i <> c -> is_settled s' i = is_settled s i) ->
  pool_sum P s' = pool_sum P s - sumZ (fun r => if P r then pooled r else 0) (cycle_rows c s).
Proof.
  intros Hc H1 H2 H3. unfold pool_sum, cycle_rows. rewrite Hc. unfold sumM. rewrite <- !(sumZ_map snd (fun r => if P r then open_part _ r else 0)).
  induction (map snd (map_to_list (contribs s))) as [| r l IH]; [done |]. cbn [List.filter]. rewrite !sumZ_cons, IH. unfold open_part at 1 3.
  destruct (String.eqb_spec (cb_cycleId r) c) as [-> | Hne]; [rewrite H1, H2, sumZ_cons | rewrite H3 by done]; destruct (P r); lia.
Qed.

(** Collecting fills it. *)
Lemma pool_rise P c m r s s' : contribs s !! (c, m) = None -> contribs s' = <[(c, m) := r]> (contribs s) -> cycles s' = cycles s ->
  cb_cycleId r = c -> is_settled s c = false -> pool_sum P s' = pool_sum P s + if P r then pooled r else 0.
Proof.
  intros Hn Hc Hcy Hr Hop. assert (Hset : forall i, is_settled s' i = is_settled s i) by (intros i; unfold is_settled; by rewrite Hcy).
  unfold pool_sum. rewrite Hc, sumM_insert_new by done. rewrite (sumM_ext (fun r => if P r then open_part s r else 0)) by (intros; unfold open_part; by rewrite Hset).
  unfold open_part at 1. rewrite Hset, Hr, Hop. destruct (P r); lia.
Qed.

Section Books.
Context {half : HalfUnits} `{DecimalLib} `{PrismaNumber} (sha256 : string -> string) (wire : escrow_row -> string).
Context (wire_vault : vault_row -> string) (wire_breakdown : azm_breakdown -> string) (on : bool).

Lemma pool_vault_books ds hs p s s' : pool_effect sha256 ds hs p (money s) (money s') ->
  (forall key ls, p = Some (key, ls) -> find_key key (ledger (money s)) = None) -> vlt s' = set_bank (money s') (vlt s) ->
  sumZ (fun q => da q.2 + dl q.2 + dd q.2) ds - moved REVENUE p = 0 ->
  (forall u, 0 <= u -> delta_of da u ds + moved (liability_code u) p = 0) ->
  (forall i, moved (vault_code i) p = 0) -> (forall i, moved (locked_code i) p = 0) -> vault_books (vlt s) (vlt s').
Proof.
  intros Hef Hf Hv Ht Hl Hva Hlo. destruct (pool_wallet _ _ _ _ _ _ Hef Hf) as (H1 & H2 & _ & H4).
  assert (Hsv : forall id, saved id (vlt s') = saved id (vlt s)) by (intros id; rewrite Hv; done).
  assert (Htv : vault_total (vlt s') = vault_total (vlt s)) by (rewrite Hv; done).
  assert (Hch : charges (vlt s') - charges (vlt s) = 0) by (rewrite Hv; unfold charges; simpl; lia). fold (money s) (money s'). split; fold (money s) (money s').
  - unfold within, with_vaults, customers. fold (money s) (money s'). rewrite Hch, H1, (pe_fees _ _ _ _ _ _ Hef), Htv, H4. lia.
  - intros u Hu. unfold within, backing. fold (money s) (money s'). rewrite Hch, H2, H4. specialize (Hl u Hu). lia.
  - intros i. rewrite Hsv, H4, Hva. lia.
  - intros i. unfold live_principal. rewrite (pe_escrows _ _ _ _ _ _ Hef), H4, Hlo. lia.
Qed.

Ltac sbooks_tac := intros; unfold moved, share_lines, delta_of, line_movement, REVENUE; rewrite ?sumZ_cons, ?sumZ_nil; cbn [fst snd da dl dd n_account n_debit n_credit];
  autorewrite with codes; rewrite ?String.eqb_refl;
  repeat match goal with |- context [?a =? ?b] => destruct (a =? b) end;
  repeat match goal with |- context [String.eqb ?a ?b] => destruct (String.eqb a b) end; lia.

Lemma collect_books s s' c m u row : sinv s -> 0 <= u -> is_Some (cycles s !! c) -> is_settled s c = false -> collected_from sha256 c m u row s s' -> susu_books s s'.
Proof.
  intros Hi Hu [cy Hcy] Hop Hcf. destruct (cf_effect _ _ _ _ _ _ _ Hcf) as (ds & hs & p & Hef & Hds & Hent).
  assert (Huc : uuid_like c) by exact (co_id _ _ (tw_cycles s (si_tables s Hi) c cy Hcy)).
  assert (Hfresh : forall key ls, p = Some (key, ls) -> find_key key (ledger (money s)) = None).
  { intros key ls He. apply (share_entry_key c m u _ _ _ _ Hent) in He as (_ & Hk & _). apply vault_not_posted. intros Hq.
    assert (is_Some (contribs s !! (c, m))) as [x Hx] by (apply (si_share_key s Hi); [done |]; destruct Hk as [-> | ->]; auto).
    rewrite (cf_fresh _ _ _ _ _ _ _ Hcf) in Hx. done. }
  destruct (pool_wallet _ _ _ _ _ _ Hef Hfresh) as (_ & _ & H3 & H4). destruct Hcf as [F1 F2 F3 F4 F5 F6 F7 _ _ F10 _ _ _]. set (a := pooled row) in *.
  assert (Hmoved : forall k, moved k p = line_movement k (share_lines c m u a)).
  { intros k. destruct Hent as [[-> ->] | (key & _ & ->)]; [| done]. sbooks_tac. }
  assert (Hdelta : forall g v, g (Delta 0 0 0) = 0 -> delta_of g v ds = if u =? v then g (Delta (- a) a 0) else 0).
  { intros g v Hg. destruct Hds as [[-> ->] | ->]; unfold delta_of; rewrite ?sumZ_cons, sumZ_nil; cbn [fst snd]; [change (- 0) with 0; rewrite Hg; by destruct (u =? v) |].
    destruct (u =? v); lia. }
  split.
  - eapply pool_vault_books; [exact Hef | exact Hfresh | exact F10 | | | |]; intros; rewrite ?Hmoved, ?(Hdelta da) by auto; [| sbooks_tac..].
    destruct Hds as [[-> ->] | ->]; sbooks_tac.
  - intros k Hk. rewrite (pool_rise _ _ _ _ _ _ F5 F6 F7 F1 Hop), H4, Hmoved. unfold behind. rewrite F1, F2. fold a. destruct (susu_account_own k Hk) as [K1 _ _ _].
    unfold line_movement, share_lines. rewrite !sumZ_cons, sumZ_nil. cbn [n_account n_debit n_credit]. rewrite K1. destruct (String.eqb _ k); lia.
  - intros v. rewrite (pool_rise _ _ _ _ _ _ F5 F6 F7 F1 Hop), H3, (Hdelta dl) by auto. unfold held, from_user. rewrite (pe_escrows _ _ _ _ _ _ Hef), F3. fold a.
    simpl. destruct (u =? v); lia.
Qed.
Lemma pay_movement c rows u n f k :
  moved k (pay_entry c rows u n f) = sumZ (fun r => if String.eqb (susuEscrowCode c (cb_memberId r)) k then pooled r else 0) (List.filter positive rows)
    - (if String.eqb (liability_code u) k then n else 0) - (if String.eqb "revenue:fees" k then f else 0).
Proof.
  assert (He : moved k (pay_entry c rows u n f) = line_movement k (map to_nline (pay_specs c rows u n f))) by (unfold pay_entry; by destruct (pay_specs c rows u n f)).
  rewrite He. unfold pay_specs, line_movement. rewrite !map_app, !sumZ_app, map_map, sumZ_map. cbn [to_nline n_account n_debit n_credit].
  rewrite (sumZ_ext _ (fun r => if String.eqb (susuEscrowCode c (cb_memberId r)) k then pooled r else 0)) by (intros r _; destruct (String.eqb _ k); lia).
  assert (Hc : forall code x, sumZ (fun l => if String.eqb (n_account l) k then n_debit l - n_credit l else 0) (map to_nline (if x =? 0 then [] else [CreditOf code x])) =
    - if String.eqb code k then x else 0).
  { intros code x. destruct (Z.eqb_spec x 0) as [-> | Hx]; [by destruct (String.eqb code k) |]. cbn [map to_nline]. rewrite sumZ_cons, sumZ_nil. cbn [n_account n_debit n_credit].
    destruct (String.eqb code k); lia. }
  rewrite !Hc. lia.
Qed.

Lemma rows_nodup l : NoDup (map fst l) -> (forall p, In p l -> p.1 = (cb_cycleId p.2, cb_memberId p.2)) ->
  forall c, NoDup (map cb_memberId (List.filter (fun r => String.eqb (cb_cycleId r) c) (map snd l))).
Proof.
  induction l as [| [k r] l IH]; intros Hnd Hk c; [constructor |]. cbn [map fst snd List.filter] in *. apply NoDup_cons in Hnd as [Hn Hnd].
  specialize (IH Hnd (fun p Hp => Hk p (or_intror Hp)) c). destruct (String.eqb_spec (cb_cycleId r) c) as [Hc | _]; [| done]. cbn [map]. constructor; [| done].
  intros Hin. apply Hn. apply list_elem_of_In, in_map_iff in Hin as (r' & Hm & Hr'). apply filter_In in Hr' as [Hr' Hc']. apply String.eqb_eq in Hc'.
  apply in_map_iff in Hr' as (p & <- & Hp). apply list_elem_of_In, in_map_iff. exists p. split; [| done].
  rewrite (Hk p (or_intror Hp)), Hm, Hc', <- Hc. symmetry. exact (Hk (k, r) (or_introl eq_refl)).
Qed.

Lemma cycle_rows_in c s r : In r (cycle_rows c s) -> cb_cycleId r = c /\ exists k, contribs s !! k = Some r.
Proof.
  unfold cycle_rows. intros [Hr Hc]%filter_In. apply String.eqb_eq in Hc. split; [done |]. apply in_map_iff in Hr as ([k r'] & <- & Hk).
  exists k. by apply elem_of_map_to_list, list_elem_of_In.
Qed.

Lemma sinv_cycle_wf c s : sinv s -> cycle_wf c s.
Proof.
  intros Hi. assert (Hall : forall k r, contribs s !! k = Some r -> k = (cb_cycleId r, cb_memberId r) /\ 0 <= pooled r).
  { intros [c' m'] r Hr. by destruct (si_rows s Hi c' m' r Hr) as [<- <- _ ? _]. }
  split.
  - intros r [_ [k Hk]]%cycle_rows_in. by destruct (Hall k r Hk).
  - intros r [Hc [k Hk]]%cycle_rows_in. destruct (Hall k r Hk) as [-> _]. by rewrite <- Hc.
  - apply rows_nodup; [apply NoDup_fst_map_to_list |]. intros [k r] Hp. apply list_elem_of_In, elem_of_map_to_list in Hp. by destruct (Hall k r Hp).
Qed.

Lemma unlocks_sum g h rows : (forall r, g (cb_userId r, Delta 0 (- pooled r) 0) = - h r) -> sumZ g (unlocks rows) = - sumZ h (List.filter positive rows).
Proof. intros Hg. unfold unlocks. rewrite sumZ_map. induction (List.filter positive rows) as [| r l IH]; [done |]. rewrite !sumZ_cons, IH, Hg. lia. Qed.

Lemma payout_books s s' c u now d t f n : sinv s -> 0 <= u -> is_settled s c = false -> paid_from sha256 c u now d t f n s s' -> susu_books s s'.
Proof.
  intros Hi Hu Hop Hpf. destruct (paid_kept _ _ _ _ _ _ _ _ _ _ Hop Hpf) as [Hset Hoth]. pose proof (pf_effect _ _ _ _ _ _ _ _ _ _ Hpf) as Hef.
  destruct (sinv_cycle_wf c s Hi) as [Hnn _ _]. pose proof (fun r Hr => proj1 (cycle_rows_in c s r Hr)) as Hin. set (rows := cycle_rows c s) in *.
  assert (Hfresh : forall key ls, pay_entry c rows u n f = Some (key, ls) -> find_key key (ledger (money s)) = None).
  { intros key ls He. apply pay_entry_key in He as [-> _]. apply vault_not_posted. intros Hq. apply (si_payout_key s Hi) in Hq. congruence. }
  destruct (pool_wallet _ _ _ _ _ _ Hef Hfresh) as (_ & _ & H3 & H4).
  assert (Hst : forall i, i <> c -> is_settled s' i = is_settled s i) by (intros i Hne; unfold is_settled; by rewrite Hoth).
  pose proof (fun P => pool_drop P c s s' (pf_contribs _ _ _ _ _ _ _ _ _ _ Hpf) Hop Hset Hst) as Hdrop. fold rows in Hdrop.
  assert (Hsum : t = sumZ pooled rows) by exact (pf_total _ _ _ _ _ _ _ _ _ _ Hpf). pose proof (pf_net _ _ _ _ _ _ _ _ _ _ Hpf) as Hnet.
  assert (Hall : sumZ pooled (List.filter positive rows) = sumZ pooled rows) by exact (sum_positive (fun _ => true) rows Hnn).
  assert (Hzero : forall k, (forall m, String.eqb (susuEscrowCode c m) k = false) ->
    moved k (pay_entry c rows u n f) = - (if String.eqb (liability_code u) k then n else 0) - (if String.eqb "revenue:fees" k then f else 0)).
  { intros k Hk. rewrite pay_movement, (sumZ_ext _ (fun _ => 0)) by (intros r _; by rewrite Hk). rewrite sumZ_0. lia. }
  split.
  - eapply pool_vault_books; [exact Hef | exact Hfresh | exact (pf_vlt _ _ _ _ _ _ _ _ _ _ Hpf) | | | |].
    + rewrite sumZ_cons, (unlocks_sum _ pooled), Hzero by (done || (intros; cbn; lia)). cbn [fst snd da dl dd]. unfold REVENUE. autorewrite with codes. rewrite String.eqb_refl. lia.
    + intros v Hv. unfold delta_of. rewrite sumZ_cons, (unlocks_sum _ (fun _ => 0)), sumZ_0, Hzero by (done || (intros; cbn; by destruct (_ =? v))).
      cbn [fst snd da]. autorewrite with codes. destruct (u =? v); lia.
    + intros i. rewrite Hzero by done. autorewrite with codes. lia.
    + intros i. rewrite Hzero by done. autorewrite with codes. lia.
  - intros k Hk. rewrite Hdrop, H4, pay_movement. destruct (susu_account_own k Hk) as [K1 _ _ K4]. rewrite K1, K4.
    rewrite (sum_positive (fun r => String.eqb (susuEscrowCode c (cb_memberId r)) k)) by done.
    rewrite (sumZ_ext (fun r => if behind k r then pooled r else 0) (fun r => if String.eqb (susuEscrowCode c (cb_memberId r)) k then pooled r else 0)); [lia |].
    intros r Hr. unfold behind. by rewrite Hin by (by apply list_elem_of_In).
  - intros v. rewrite Hdrop, H3. unfold delta_of, held. rewrite sumZ_cons, (unlocks_sum _ (fun r => if from_user v r then pooled r else 0)), sum_positive, (pe_escrows _ _ _ _ _ _ Hef);
      [| done | intros r; unfold from_user; cbn [fst snd dl]; destruct (_ =? v); lia]. cbn [fst snd dl]. destruct (u =? v); lia.
Qed.

Lemma shape_susu_books s s' : sinv s -> susu_shape sha256 wire wire_vault wire_breakdown on s s' -> susu_books s s'.
Proof.
  intros Hi Hs. destruct Hs as [Hv Hc Hp Hk Ht | Hv Hc Hp Hk Ht | c m u row Hu Hcy Hop Hcf Ht | c u now d t f n Hu Hop Hf Hpf Ht].
  - assert (Hset : forall c m r, contribs s !! (c, m) = Some r -> is_settled s' (cb_cycleId r) = is_settled s (cb_cycleId r)).
    { intros c m r Hr. destruct (si_rows s Hi c m r Hr) as [-> _ _ _ [cy Hcy]]. unfold is_settled. destruct (Hk c cy Hcy) as (cy' & -> & -> & _). by rewrite Hcy. }
    unfold money. split; unfold money; intros; rewrite ?Hv, ?(pool_sum_same _ _ _ Hc Hset); (reflexivity || done).
  - destruct (step_vault _ _ _ _ _ _ _ (si_vault s Hi) Hv) as [_ Hb]. destruct (vault_foreign _ _ _ _ _ _ _ (si_vault s Hi) Hv) as [[_ Hn] Hl].
    assert (Hset : forall P, pool_sum P s' = pool_sum P s) by (intros P; apply pool_sum_same; [done |]; intros; unfold is_settled; by rewrite Hk).
    split; [done | |]; intros; rewrite !Hset; [unfold money; by rewrite Hn | unfold money; by rewrite Hl].
  - by eapply collect_books.
  - by eapply payout_books.
Qed.
End Books.

(** ** Steps *)

Section Steps.
Context {half : HalfUnits} `{DecimalLib} `{PrismaNumber} (sha256 : string -> string) (wire : escrow_row -> string).
Context (wire_vault : vault_row -> string) (wire_breakdown : azm_breakdown -> string) (on : bool).

(** One statement or transaction of the service, with whatever rows its caller
    read before, or a step of the vaults or of smart escrow ([vstep], with the
    amounts that [half_units] allows).  A transaction that fails is a step too. *)
Inductive sstep (s s' : sdb) : Prop :=
| ss_create newId ids adminId chat q freq date now before r : tables_wf before -> transaction (createSusu newId ids adminId chat q freq date now before) s = (r, s') -> sstep s s'
| ss_accept userId g ids now before r : (forall n, uuid_like (ids n)) -> transaction (acceptContract userId g ids now before) s = (r, s') -> sstep s s'
| ss_cancel adminId g before r : transaction (cancel adminId g before) s = (r, s') -> sstep s s'
| ss_claim c stamp r : transaction (claim_tx c stamp) s = (r, s') -> sstep s s'
| ss_collect c m mem a stamp now r : 0 <= mb_userId mem -> 0 <= a -> transaction (collect_tx sha256 c m mem a stamp now) s = (r, s') -> sstep s s'
| ss_release c stamp r : transaction (release_tx c stamp) s = (r, s') -> sstep s s'
| ss_freeze u r : transaction (freeze_user u) s = (r, s') -> sstep s s'
| ss_penalize v : s' = penalize v s -> sstep s s'
| ss_payout c u d stamp now r : 0 <= u -> pool_of c s <= POOL_MAX -> transaction (payout_tx sha256 c u d stamp now) s = (r, s') -> sstep s s'
| ss_complete g r : transaction (susu_update g (with_susu_status SUSU_COMPLETED)) s = (r, s') -> sstep s s'
| ss_vouch u v a now before r : transaction (submitVouch u v a now before) s = (r, s') -> sstep s s'
| ss_link u phone : s' = linkPreRegistrationVouches u phone s -> sstep s s'
| ss_vault v : vstep sha256 wire wire_vault wire_breakdown on (vlt s) v -> s' = set_vlt v s -> sstep s s'.

Notation shape := (susu_shape sha256 wire wire_vault wire_breakdown on).

Lemma susu_refl s : tables_wf s -> shape s s.
Proof. intros Ht. apply sh_side; try done. by apply kept_refl. Qed.

Lemma tx_susu {A} (m : M sdb A) s r s' : transaction m s = (r, s') -> tables_wf s -> (forall x s1, m s = Ok (x, s1) -> shape s s1) -> shape s s'.
Proof. unfold transaction. destruct (m s) as [[x s1] | e]; intros [= _ <-] Ht Hm; [by eapply Hm | by apply susu_refl]. Qed.

Lemma lookup_update {A} (P : A -> Prop) (m : gmap string A) id x : (forall i y, m !! i = Some y -> P y) -> P x -> forall i y, <[id := x]> m !! i = Some y -> P y.
Proof. intros Hm Hx i y [[_ <-] | [_ Hy]]%lookup_insert_Some; eauto. Qed.

(** One cycle changes and stays open. *)
Lemma cycle_update_kept s c cy cy' : cycles s !! c = Some cy -> settled cy = false -> settled cy' = false ->
  cycles_kept s (set_cycles (<[c := cy']> (cycles s)) s).
Proof.
  intros Hc Ho Ho' i x Hx. simpl. destruct (decide (c = i)) as [-> | Hne].
  - rewrite lookup_insert_eq. assert (x = cy) as -> by congruence. exists cy'. split_and!; [done | congruence | congruence].
  - rewrite lookup_insert_ne by done. by exists x.
Qed.

Lemma cycle_side s c cy cy' : tables_wf s -> cycles s !! c = Some cy -> settled cy = false -> settled cy' = false -> cycle_ok c cy' ->
  shape s (set_cycles (<[c := cy']> (cycles s)) s).
Proof.
  intros Ht Hc Ho Ho' Hu. apply sh_side; try done; [by eapply cycle_update_kept |]. destruct Ht as [T1 T2 T3 T4]. split; try done.
  cbn [cycles set_cycles]. intros i x [[<- <-] | [_ Hx]]%lookup_insert_Some; [exact Hu | by apply T1].
Qed.

Lemma claim_open stamp cy : claimable stamp cy = true -> settled cy = false.
Proof. unfold claimable, settled. by destruct (cy_status cy). Qed.

Lemma mapM_res_in {A B} (f : A -> res B) l ys : mapM_res f l = Ok ys -> forall y, In y ys -> exists x, In x l /\ f x = Ok y.
Proof.
  revert ys. induction l as [| x l IH]; intros ys Hr y Hy; [injection Hr as <-; done |].
  apply bind_Ok in Hr as (y0 & Hf & Hr). apply bind_Ok in Hr as (ys0 & Hm & Hr). injection Hr as <-. destruct Hy as [<- | Hy]; [exists x; split; [by left | done] |].
  destruct (IH ys0 Hm y Hy) as (x' & ? & ?). exists x'. split; [by right | done].
Qed.

Lemma number_slots_in i l r : In r (number_slots i l) -> exists x, In x l /\ sl_userId r = x.2.1 /\ sl_trust r = x.1 /\ sl_isAdmin r = x.2.2.
Proof.
  revert i. induction l as [| x l IH]; intros i Hr; [done |]. destruct Hr as [<- | Hr]; [exists x; split; [by left | done] |].
  destruct (IH _ Hr) as (y & Hy & He). exists y. split; [by right | done].
Qed.

Lemma rotation_in l r : In r (rotation l) -> exists x, In x l /\ sl_userId r = x.2.1 /\ sl_trust r = x.1 /\ sl_isAdmin r = x.2.2.
Proof.
  unfold rotation. intros Hr. apply number_slots_in in Hr as (x & Hx & He). exists x. split; [| done].
  apply list_elem_of_In in Hx. rewrite (js_sort_perm (fun a b : Z * (Z * bool) => b.1 <=? a.1) l) in Hx. by apply list_elem_of_In.
Qed.

Lemma new_members_wf g ids rows m0 : (forall r, In r rows -> 0 <= sl_userId r) -> (forall i x, m0 !! i = Some x -> 0 <= mb_userId x) ->
  forall i x, new_members g ids rows m0 !! i = Some x -> 0 <= mb_userId x.
Proof.
  unfold new_members. revert m0. induction rows as [| r rows IH]; intros m0 Hr Hm; [done |]. cbn [foldl]. apply IH; [intros q Hq; apply Hr; by right |].
  apply lookup_update; [done |]. simpl. apply Hr. by left.
Qed.

Lemma create_susu_shape newId ids adminId chat q freq date now before s x s' : tables_wf before -> tables_wf s ->
  createSusu newId ids adminId chat q freq date now before s = Ok (x, s') -> shape s s'.
Proof.
  intros Hb Ht Hr. unfold createSusu in Hr. apply Mbind_Ok in Hr as ([start rows] & s1 & Hl & Hr). apply lift_Ok in Hl as [Hl ->].
  assert (Hrows : (forall r, In r rows -> 0 <= sl_userId r) /\ Qle_bool q 0 = false).
  { res_inv Hl. split; [| done]. simplify_eq. intros r Hr'. apply rotation_in in Hr' as (y & Hy & -> & _).
    match goal with Hm : mapM_res _ _ = Ok _ |- _ => destruct (mapM_res_in _ _ _ Hm y Hy) as (z & Hz & Hrk) end.
    apply filter_In in Hz as [Hz _]. unfold ranked in Hrk. res_inv Hrk. simplify_eq. simpl.
    match goal with Hc : chats before !! _ = Some _ |- _ => exact (tw_chats before Hb _ _ Hc z Hz) end. }
  destruct Hrows as [Hrows Hq]. apply Mbind_Ok in Hr as (s1 & s2 & Hg & Hr). apply get_Ok in Hg as [-> ->].
  do 4 (apply Mbind_Ok in Hr as (? & ? & Hck & Hr); apply check_Ok in Hck as [_ ->]). apply put_Ok in Hr as ->.
  apply sh_side; try done; [by apply kept_refl |]. destruct Ht as [T1 T2 T3 T4]. split; try done; simpl.
  - by apply new_members_wf.
  - eapply lookup_update; [done |]. simpl. by apply positive_units.
  - intros i y Hy. apply lookup_alter_Some in Hy as [(<- & z & Hz & ->) | [_ Hy]]; [exact (T4 _ _ Hz) | exact (T4 _ _ Hy)].
Qed.
(** The new cycles. *)
Lemma fold_cycles g grp interval pool ids ms cs : (forall m, In m ms -> 0 <= mb_userId m) ->
  forall i y, new_cycles g grp interval pool ids ms cs !! i = Some y ->
  cs !! i = Some y \/ exists m, In m ms /\ i = ids (mb_slot m) /\ y = new_cycle g grp interval pool m.
Proof.
  unfold new_cycles. revert cs. induction ms as [| m ms IH]; intros cs Hm i y Hy; [by left |]. apply IH in Hy as [Hy | (m' & Hm' & -> & ->)]; [| right; exists m'; split; [by right | done] | intros q Hq; apply Hm; by right].
  apply lookup_insert_Some in Hy as [[<- <-] | [_ Hy]]; [right; exists m; split; [by left | done] | by left].
Qed.
Lemma fold_cycles_keep g grp interval pool ids ms cs i y : cs !! i = Some y -> (forall m, In m ms -> ids (mb_slot m) <> i) ->
  new_cycles g grp interval pool ids ms cs !! i = Some y.
Proof.
  unfold new_cycles. revert cs. induction ms as [| m ms IH]; intros cs Hy Hn; [done |]. cbn [foldl]. apply IH; [| intros q Hq; apply Hn; by right].
  rewrite lookup_insert_ne; [done |]. apply Hn. by left.
Qed.

Lemma group_members_in g s p : In p (group_members g s) -> smembers s !! p.1 = Some p.2 /\ mb_group p.2 = g.
Proof. unfold group_members. intros [Hp Hg]%filter_In. apply list_elem_of_In in Hp. destruct p as [i x]. by apply elem_of_map_to_list in Hp; apply String.eqb_eq in Hg. Qed.

(** The cycles a start creates: fresh identifiers, one for each member. *)
Definition started_cycles (g : string) (grp : susu_row) (ids : Z -> string) (s s' : sdb) : Prop :=
  exists interval, susu_ms (sg_frequency grp) = Some interval /\
  let ms := js_sort (fun a b => mb_slot a <=? mb_slot b) (map snd (group_members g s)) in let pool := d_times (sg_contribution grp) (sg_totalCycles grp) in numeric_ok pool = true /\
  (forall m, In m ms -> cycles s !! ids (mb_slot m) = None) /\
  s' = set_cycles (new_cycles g grp interval pool ids ms (cycles s)) s.

Lemma materialize_Ok g grp ids s x s' : _materializeCycles g grp ids s = Ok (x, s') -> started_cycles g grp ids s s'.
Proof.
  unfold _materializeCycles. intros Hr. apply Mbind_Ok in Hr as (s1 & s2 & Hg & Hr). apply get_Ok in Hg as [-> ->].
  apply Mbind_Ok in Hr as (iv & s1 & Hl & Hr). apply lift_Ok in Hl as [Hl ->]. apply of_option_Ok in Hl. exists iv. split; [done |].
  apply Mbind_Ok in Hr as (y1 & s1 & Hc & Hr). apply check_Ok in Hc as [Hn ->]. apply Mbind_Ok in Hr as (y2 & s1 & Hc & Hr). apply check_Ok in Hc as [Hc ->].
  apply put_Ok in Hr as ->. split; [done |]. split; [| done]. apply andb_true_iff in Hc as [Hc _]. rewrite forallb_forall in Hc. intros m Hm. specialize (Hc m Hm). by destruct (cycles s !! _).
Qed.

Lemma started_wf g grp ids s s' : tables_wf s -> (forall n, uuid_like (ids n)) -> started_cycles g grp ids s s' -> cycles_kept s s' /\ tables_wf s'.
Proof.
  intros Ht Hids (iv & _ & Hnum & Hfresh & ->).
  assert (Hms : forall m, In m (js_sort (fun a b => mb_slot a <=? mb_slot b) (map snd (group_members g s))) -> 0 <= mb_userId m).
  { intros m Hm. apply list_elem_of_In in Hm. rewrite js_sort_perm in Hm. apply list_elem_of_In, in_map_iff in Hm as (p & <- & Hp). apply group_members_in in Hp as [Hp _]. by eapply tw_members. }
  split.
  - intros c cy Hc. exists cy. split_and!; [| done | done]. apply fold_cycles_keep; [done |]. intros m Hm He. specialize (Hfresh m Hm). congruence.
  - destruct Ht as [T1 T2 T3 T4]. split; try done. cbn [cycles set_cycles]. intros c cy Hc. apply fold_cycles in Hc as [Hc | (m & Hm & -> & ->)]; [by apply T1 | | done].
    split; [done | by apply Hms | done | done].
Qed.

Lemma smember_wf s m f x : tables_wf s -> smembers s !! m = Some x -> mb_userId (f x) = mb_userId x -> tables_wf (set_smembers (<[m := f x]> (smembers s)) s).
Proof. intros [T1 T2 T3 T4] Hm Hf. split; try done. cbn [smembers set_smembers]. eapply lookup_update; [done |]. rewrite Hf. by eapply T2. Qed.
Lemma susu_wf s g f x : tables_wf s -> susus s !! g = Some x -> sg_contribution (f x) = sg_contribution x -> tables_wf (set_susus (<[g := f x]> (susus s)) s).
Proof. intros [T1 T2 T3 T4] Hm Hf. split; try done. cbn [susus set_susus]. eapply lookup_update; [done |]. rewrite Hf. by eapply T3. Qed.

Lemma accept_shape userId g ids now before s x s' : tables_wf s -> (forall n, uuid_like (ids n)) -> acceptContract userId g ids now before s = Ok (x, s') -> shape s s'.
Proof.
  intros Ht Hids Hr. unfold acceptContract in Hr. apply Mbind_Ok in Hr as ([mid mem] & s1 & Hl & Hr). apply lift_Ok in Hl as [_ ->].
  assert (Hgo : (smember_update mid (signed now);; susu ← susu_update g one_accepted;
      if (sg_required susu <=? sg_accepted susu) && bool_decide (sg_status susu = CONFIGURING) then
        _materializeCycles g susu ids;; susu_update g (with_susu_status SUSU_ACTIVE);; mret STARTED
      else mret (ACCEPTED_ (sg_accepted susu) (sg_required susu)) : M sdb accept_result) s = Ok (x, s') -> shape s s').
  2: { destruct (mb_status mem); try (by apply Hgo); [apply Mret_Ok in Hr as [_ ->]; by apply susu_refl | by apply throw_Ok in Hr..]. }
  clear Hr. intros Hr. apply Mbind_Ok in Hr as (y & s1 & Hm & Hr). apply smember_update_Ok in Hm as (m & Hm & ->).
  apply Mbind_Ok in Hr as (grp & s1 & Hs & Hr). apply susu_update_Ok in Hs as (g0 & Hg0 & -> & ->).
  pose proof (susu_wf _ g one_accepted g0 (smember_wf s mid (signed now) m Ht Hm eq_refl) Hg0 eq_refl) as Ht1.
  set (s1 := set_susus _ _) in *. destruct (_ && _).
  - apply Mbind_Ok in Hr as (y1 & s2 & Hmat & Hr). apply materialize_Ok in Hmat. destruct (started_wf _ _ _ _ _ Ht1 Hids Hmat) as [Hk Ht2].
    apply Mbind_Ok in Hr as (y2 & s3 & Hs & Hr). apply susu_update_Ok in Hs as (g1 & Hg1 & _ & ->). apply Mret_Ok in Hr as [_ ->].
    pose proof (susu_wf _ g (with_susu_status SUSU_ACTIVE) g1 Ht2 Hg1 eq_refl) as Ht3. destruct Hmat as (iv & _ & _ & _ & ->). by apply sh_side.
  - apply Mret_Ok in Hr as [_ ->]. by apply sh_side; [.. | apply kept_refl |].
Qed.

Lemma cancel_susu_shape adminId g before s x s' : tables_wf s -> cancel adminId g before s = Ok (x, s') -> shape s s'.
Proof.
  intros Ht Hr. unfold cancel in Hr. apply Mbind_Ok in Hr as (y & s1 & Hl & Hr). apply lift_Ok in Hl as [_ ->].
  apply Mbind_Ok in Hr as (y1 & s1 & Hs & Hr). apply susu_update_Ok in Hs as (g0 & Hg0 & _ & ->). apply modify_Ok in Hr as ->.
  pose proof (susu_wf s g (with_susu_status SUSU_CANCELLED) g0 Ht Hg0 eq_refl) as [T1 T2 T3 T4]. apply sh_side; try done; [by apply kept_refl |]. split; try done.
  simpl. intros i c Hc. rewrite lookup_fmap in Hc. apply fmap_Some in Hc as (c0 & Hc0 & ->). destruct (bool_decide _); exact (T4 _ _ Hc0).
Qed.
Lemma freeze_shape u s x s' : tables_wf s -> freeze_user u s = Ok (x, s') -> shape s s'.
Proof.
  intros [T1 T2 T3 T4] Hr. unfold freeze_user in Hr. apply Mbind_Ok in Hr as (s1 & s2 & Hg & Hr). apply get_Ok in Hg as [-> ->].
  destruct (profiles (vlt s) !! u) as [p |] eqn:Hp; [| by apply throw_Ok in Hr]. destruct (standings s !! u) as [d |]; [| by apply throw_Ok in Hr].
  apply put_Ok in Hr as ->. apply sh_vault; try done. by eapply vs_standing.
Qed.

Lemma penalize_shape v s : tables_wf s -> shape s (penalize v s).
Proof.
  intros [T1 T2 T3 T4]. apply sh_side; try done; [by apply kept_refl |]. split; try done. simpl. intros m x Hx. rewrite lookup_fmap in Hx.
  apply fmap_Some in Hx as (y & Hy & ->). destruct (_ =? v); exact (T2 _ _ Hy).
Qed.

Lemma collect_shape c m mem a stamp now s x s' : sinv s -> 0 <= mb_userId mem -> 0 <= a -> collect_tx sha256 c m mem a stamp now s = Ok (x, s') -> shape s s'.
Proof.
  intros Hi Hu Ha Hr. pose proof (si_tables s Hi) as Ht. apply collect_tx_Ok in Hr as [[_ ->] | [(cy & Hcy & Hown) Hr]]; [by apply susu_refl | | by apply vi_columns, si_vault | done].
  assert (Hop : is_settled s c = false) by (unfold is_settled; rewrite Hcy; by eapply owned_open).
  assert (Hgo : forall row, collected_from sha256 c m (mb_userId mem) row s s' -> (forall i y, smembers s' !! i = Some y -> 0 <= mb_userId y) -> shape s s').
  { intros row Hcf Hm. apply (sh_collect _ _ _ _ _ s s' c m (mb_userId mem) row); try done. destruct Ht as [T1 T2 T3 T4].
    split; rewrite ?(cf_cycles _ _ _ _ _ _ _ Hcf), ?(cf_susus _ _ _ _ _ _ _ Hcf), ?(cf_chats _ _ _ _ _ _ _ Hcf); done. }
  destruct Hr as [(_ & _ & Hsm & Hcf) | (_ & _ & y & Hy & Hsm & Hcf)]; (eapply Hgo; [exact Hcf | rewrite Hsm]).
  - exact (tw_members s Ht).
  - eapply lookup_update; [exact (tw_members s Ht) | exact (tw_members s Ht m y Hy)].
Qed.

Lemma payout_shape c u d stamp now s x s' : sinv s -> 0 <= u -> pool_of c s <= POOL_MAX -> payout_tx sha256 c u d stamp now s = Ok (x, s') -> shape s s'.
Proof.
  intros Hi Hu Hmax Hr. pose proof (si_tables s Hi) as Ht.
  apply payout_tx_Ok in Hr as [[_ ->] | (cy & t & f & n & Hcy & Hown & _ & Hf & Hpf)]; [by apply susu_refl | | by apply sinv_cycle_wf | done | by apply si_pct].
  eapply (sh_payout _ _ _ _ _ s s' c u); [done | unfold is_settled; rewrite Hcy; by eapply owned_open | exact Hf | exact Hpf |].
  destruct (pf_cycles _ _ _ _ _ _ _ _ _ _ Hpf) as (cy' & Hcy' & Hcs). assert (cy' = cy) as -> by congruence. destruct Ht as [T1 T2 T3 T4].
  split; rewrite ?(pf_members _ _ _ _ _ _ _ _ _ _ Hpf), ?(pf_susus _ _ _ _ _ _ _ _ _ _ Hpf), ?(pf_chats _ _ _ _ _ _ _ _ _ _ Hpf); try done.
  rewrite Hcs. intros i y [[<- <-] | [_ Hy]]%lookup_insert_Some; [| by apply T1]. destruct (T1 _ _ Hcy). unfold final_cycle. destruct (0 <? d)%nat; split; try done; exact (pf_numeric _ _ _ _ _ _ _ _ _ _ Hpf).
Qed.

Lemma step_susu_shape s s' : sinv s -> sstep s s' -> shape s s'.
Proof.
  intros Hi Hs. pose proof (si_tables s Hi) as Ht.
  destruct Hs as [newId ids adminId chat q freq date now before r Hb Hr | userId g ids now before r Hids Hr | adminId g before r Hr | c stamp r Hr
    | c m mem a stamp now r Hu Ha Hr | c stamp r Hr | u r Hr | v -> | c u d stamp now r Hu Hmax Hr | g r Hr | u v a now before r Hr | u phone -> | v Hv ->];
    try (eapply tx_susu; [exact Hr | exact Ht |]; intros x s1 Hm).
  - eapply create_susu_shape; [exact Hb | exact Ht | exact Hm].
  - eapply accept_shape; [exact Ht | exact Hids | exact Hm].
  - by eapply cancel_susu_shape.
  - apply cycle_updateMany_Ok in Hm as [(_ & -> & _) | (_ & cy & Hcy & Hcl & _ & ->)]; [by apply susu_refl |].
    eapply cycle_side; [done | exact Hcy | by eapply claim_open | done |]. destruct (tw_cycles s Ht _ _ Hcy). by split.
  - by eapply collect_shape.
  - apply cycle_updateMany_Ok in Hm as [(_ & -> & _) | (_ & cy & Hcy & Hcl & _ & ->)]; [by apply susu_refl |].
    eapply cycle_side; [done | exact Hcy | by eapply owned_open | done |]. destruct (tw_cycles s Ht _ _ Hcy). by split.
  - by eapply freeze_shape.
  - by apply penalize_shape.
  - by eapply payout_shape.
  - apply susu_update_Ok in Hm as (x0 & Hx & _ & ->). apply sh_side; try done; [by apply kept_refl | by apply susu_wf].
  - unfold submitVouch in Hm. apply Mbind_Ok in Hm as (y & s2 & Hl & Hm). apply lift_Ok in Hl as [_ ->]. apply Mbind_Ok in Hm as (y1 & s2 & Hc & Hm). apply check_Ok in Hc as [_ ->].
    destruct (bool_decide _); [apply Mret_Ok in Hm as [_ ->]; by apply susu_refl |]. apply Mbind_Ok in Hm as (s2 & s3 & Hg & Hm). apply get_Ok in Hg as [-> ->].
    destruct (vouches s !! v); [| by apply throw_Ok in Hm]. run_inv Hm. destruct Ht. apply sh_side; try done. by apply kept_refl.
  - unfold linkPreRegistrationVouches. destruct (_ =? 0)%nat; [by apply susu_refl |]. destruct Ht. apply sh_side; try done. by apply kept_refl.
  - destruct Ht. by apply sh_vault.
Qed.

Lemma step_susu s s' : sinv s -> sstep s s' -> sinv s' /\ susu_books s s'.
Proof. intros Hi Hs. apply step_susu_shape in Hs; [| done]. split; [by eapply shape_sinv | by eapply shape_susu_books]. Qed.

Lemma steps_susu s s' : sinv s -> rtc sstep s s' -> sinv s' /\ susu_books s s'.
Proof.
  intros Hi Hr. revert Hi. induction Hr as [s | s1 s2 s3 Hs _ IH]; intros Hi; [by split |].
  destruct (step_susu _ _ Hi Hs) as [Hi2 Hb]. destruct (IH Hi2) as [Hi3 Hb2]. split; [done | by etransitivity].
Qed.
End Steps.
