(* ===== verification/SusuTheorems.v ===== *)
(** * Savings groups: the theorems

    The books with vaults and smart escrow; calls and ticks as runs; the single
    collection and the single payout of a cycle; the ownership of a tick; the
    amounts; recovery; the rotation; and where the code falls short: signing
    twice at once, penalties for one default in every later cycle, and the
    history of a payout. *)

From stdpp Require Import base gmap strings list relations.
From Stdlib Require Import ZArith QArith Qabs Lqa Lia Ascii Sorted.
From S2P Require Import Prelude JsNumber ExactDecimal Json Ledger LedgerFacts LedgerHash LedgerProps Idempotency Escrow EscrowFacts EscrowProps WalletProps EscrowTheorems Vault VaultProps VaultTheorems Susu SusuProps.

Local Open Scope Z_scope.

Section Theorems.
Context {half : HalfUnits} `{DecimalLib} `{PrismaNumber} (sha256 : string -> string) (wire : escrow_row -> string).
Context (wire_vault : vault_row -> string) (wire_breakdown : azm_breakdown -> string) (on : bool).

Notation step := (sstep sha256 wire wire_vault wire_breakdown on).
Notation steps := (rtc step).
Notation shape := (susu_shape sha256 wire wire_vault wire_breakdown on).

(** C10: savings groups, vaults and smart escrow on the same balances and ledger
    keep one set of books under every interleaving of contracts, claims,
    collections, seizures, penalties, payouts, vault deposits of any amounts,
    breaks and escrow steps, whatever stale rows the calls read: what customers
    hold changes only by the revenue the ledger recognizes, each liability
    account moves with the available balance, the account of a member in a cycle
    holds exactly what the member has in the open pool, and a customer's locked
    balance is the principal of the live escrows and the share of the open
    pools.  The first two are exact in the runs without vault deposits half-way
    between two units ([half_units] false, [slack] 0); otherwise each recorded
    deposit may leave the customer one unit more, never less.  Pools paid out
    are at most ten million USDC; round-ups and yield, which change only vault
    rows, are not steps here. *)
Theorem susu_books_kept s0 s : sinv s0 -> steps s0 s ->
  0 <= (customers (money s) + vault_total (vlt s) - (customers (money s0) + vault_total (vlt s0))) - (net REVENUE (ledger (money s)) - net REVENUE (ledger (money s0)))
    <= slack * (charges (vlt s) - charges (vlt s0)) /\
  (forall u, 0 <= u -> 0 <= (avail u (money s) - avail u (money s0)) - (net (liability_code u) (ledger (money s0)) - net (liability_code u) (ledger (money s)))
    <= slack * (charges (vlt s) - charges (vlt s0))) /\
  (forall c m, pool_sum (behind (susuEscrowCode c m)) s - pool_sum (behind (susuEscrowCode c m)) s0 =
     net (susuEscrowCode c m) (ledger (money s0)) - net (susuEscrowCode c m) (ledger (money s))) /\
  (forall u, locked u (money s) - locked u (money s0) =
     held LIVE u (money s) - held LIVE u (money s0) + (pool_sum (from_user u) s - pool_sum (from_user u) s0)).
Proof.
  intros Hi Hr. apply steps_susu in Hr as [_ [[H1' H2' _ _] H3 H4]]; [| done]. unfold within, with_vaults, backing, money in *. split; [lia |]. split_and!.
  - intros u Hu. specialize (H2' u Hu). lia.
  - intros c m. specialize (H3 (susuEscrowCode c m) (susu_account_intro c m)). lia.
  - intros u. specialize (H4 u). lia.
Qed.

(** ** One collection, one payout *)

(** Contributions are permanent and a settled cycle keeps its row. *)
Lemma shape_permanent s s' : sinv s -> shape s s' ->
  (forall k r, contribs s !! k = Some r -> contribs s' !! k = Some r) /\
  (forall c cy, cycles s !! c = Some cy -> settled cy = true -> cycles s' !! c = Some cy /\ forall m, contribs s' !! (c, m) = contribs s !! (c, m)).
Proof.
  intros Hi Hs. destruct Hs as [Hv Hc Hp Hk Ht | Hv Hc Hp Hk Ht | c m u row Hu Hcy Hop Hcf Ht | c u now d t f n Hu Hop Hf Hpf Ht].
  - rewrite Hc. split; [done |]. intros c cy Hcy Hst. destruct (Hk c cy Hcy) as (cy' & Hcy' & _ & Hid). rewrite (Hid Hst) in Hcy'. done.
  - rewrite Hc, Hk. done.
  - rewrite (cf_contribs _ _ _ _ _ _ _ Hcf), (cf_cycles _ _ _ _ _ _ _ Hcf). split.
    + intros k r Hk. rewrite lookup_insert_ne; [done |]. intros <-. rewrite (cf_fresh _ _ _ _ _ _ _ Hcf) in Hk. done.
    + intros c' cy Hc' Hst. split; [done |]. intros m'. rewrite lookup_insert_ne; [done |]. intros [= <- <-]. unfold is_settled in Hop. rewrite Hc' in Hop. congruence.
  - rewrite (pf_contribs _ _ _ _ _ _ _ _ _ _ Hpf). split; [done |]. intros c' cy Hc' Hst. split; [| done].
    destruct (paid_kept _ _ _ _ _ _ _ _ _ _ Hop Hpf) as [_ Hoth]. rewrite Hoth; [done |]. intros ->. unfold is_settled in Hop. rewrite Hc' in Hop. congruence.
Qed.

Lemma steps_permanent s s' : sinv s -> steps s s' ->
  (forall k r, contribs s !! k = Some r -> contribs s' !! k = Some r) /\
  (forall c cy, cycles s !! c = Some cy -> settled cy = true -> cycles s' !! c = Some cy /\ forall m, contribs s' !! (c, m) = contribs s !! (c, m)).
Proof.
  intros Hi Hr. revert Hi. induction Hr as [s | s1 s2 s3 Hs _ IH]; intros Hi; [done |]. pose proof (step_susu_shape _ _ _ _ _ _ _ Hi Hs) as Hsh.
  destruct (shape_permanent _ _ Hi Hsh) as [P1 P2]. destruct (IH (shape_sinv _ _ _ _ _ _ _ Hi Hsh)) as [Q1 Q2]. split; [by eauto |].
  intros c cy Hc Hst. destruct (P2 c cy Hc Hst) as [Hc2 Hm2]. destruct (Q2 c cy Hc2 Hst) as [Hc3 Hm3]. split; [done |]. intros m. by rewrite Hm3.
Qed.

Lemma claim_lost c now s : (forall cy, cycles s !! c = Some cy -> claimable now cy = false) -> transaction (claim_tx c now) s = (Ok 0%nat, s).
Proof.
  intros Hc. unfold transaction, claim_tx, cycle_updateMany. rewrite get_bind. destruct (cycles s !! c) as [cy |]; [| done]. by rewrite Hc.
Qed.

(** C17: a cycle collects from each member once and pays out once.  A
    contribution, once recorded, is never changed or removed, and the
    transaction of a member who has one moves nothing; a cycle that was paid out
    keeps its row and its contributions for ever, and a tick on it, on whatever
    rows it read, changes nothing. *)
Theorem cycle_settles_once s0 s : sinv s0 -> steps s0 s ->
  (forall c m r, contribs s0 !! (c, m) = Some r ->
     contribs s !! (c, m) = Some r /\ forall mem a stamp now, (transaction (collect_tx sha256 c m mem a stamp now) s).2 = s) /\
  (forall c cy, cycles s0 !! c = Some cy -> settled cy = true ->
     cycles s !! c = Some cy /\ (forall m, contribs s !! (c, m) = contribs s0 !! (c, m)) /\
     forall newIds now before, (processCycle sha256 on newIds c now before s).2 = s).
Proof.
  intros Hi Hr. destruct (steps_permanent _ _ Hi Hr) as [H1 H2]. split.
  - intros c m r Hc. specialize (H1 _ _ Hc). split; [done |]. intros mem a stamp now. destruct (transaction _ s) as [o s'] eqn:Ht.
    apply tx_cases in Ht as [(x & -> & Ht) | (e & -> & ->)]; [| done]. unfold collect_tx in Ht. apply Mbind_Ok in Ht as (n & s1 & Hm & Ht).
    apply mine_Ok in Hm as [-> Hm]. destruct (negb _); [by apply Mret_Ok in Ht as [_ ->] |]. apply Mbind_Ok in Ht as (o & s1 & Ho & Ht). apply reads_Ok in Ho as [-> ->].
    rewrite H1 in Ht. by apply Mret_Ok in Ht as [_ ->].
  - intros c cy Hc Hst. destruct (H2 c cy Hc Hst) as [Hc' Hm]. split_and!; [done | done |]. intros newIds now before. unfold processCycle.
    destruct (cycles before !! c) as [cy0 |]; [| done]. destruct (susus before !! _) as [g |]; [| done]. rewrite claim_lost; [done |].
    intros cy1 Hcy1. assert (cy1 = cy) as -> by congruence. destruct (claimable now cy) eqn:Hcl; [| done]. apply claim_open in Hcl. congruence.
Qed.
(** ** Ownership *)

Lemma updateMany_none c cond f s : (forall cy, cycles s !! c = Some cy -> cond cy = false) -> cycle_updateMany c cond f s = Ok (0%nat, s).
Proof. intros Hc. unfold cycle_updateMany. rewrite get_bind. destruct (cycles s !! c) as [cy |]; [| done]. by rewrite Hc. Qed.

(** A tick owns the cycle it claimed.  While the row carries its stamp no
    other tick can claim the cycle within five minutes of it, and a transaction
    of a tick with another stamp, be it a collection, a payout or a release,
    answers that the claim is lost and changes nothing. *)
Theorem tick_owns_cycle s c cy t : cycles s !! c = Some cy -> owned t cy = true ->
  (forall now, now < t + STALL_RECOVERY_MS -> transaction (claim_tx c now) s = (Ok 0%nat, s)) /\
  (forall stamp, stamp <> t ->
     (forall m mem a now, transaction (collect_tx sha256 c m mem a stamp now) s = (Ok LostClaim, s)) /\
     (forall u d now, transaction (payout_tx sha256 c u d stamp now) s = (Ok None, s)) /\
     transaction (release_tx c stamp) s = (Ok 0%nat, s)).
Proof.
  intros Hc Ho. apply owned_iff in Ho as [Hst Hat]. split.
  - intros now Hnow. apply claim_lost. intros cy' Hc'. assert (cy' = cy) as -> by congruence. unfold claimable. rewrite Hst, Hat. apply Z.leb_gt. lia.
  - intros stamp Hne. assert (Hno : forall cy', cycles s !! c = Some cy' -> owned stamp cy' = false).
    { intros cy' Hc'. assert (cy' = cy) as -> by congruence. destruct (owned stamp cy) eqn:Hx; [| done]. apply owned_iff in Hx as [_ Hx]. congruence. }
    split_and!.
    + intros m mem a now. unfold transaction, collect_tx. by erewrite bind_run by (by apply updateMany_none).
    + intros u d now. unfold transaction, payout_tx. rewrite get_bind. destruct (collected _) as [x l]. by erewrite bind_run by (by apply updateMany_none).
    + unfold transaction, release_tx. by rewrite updateMany_none.
Qed.

(** *** The row of another cycle *)

Section Other.
Context (c c' : string) (Hne : c' <> c).

Definition spares {A} (m : M sdb A) : Prop := forall s x s', m s = Ok (x, s') -> cycles s' !! c = cycles s !! c.

Lemma spares_ret {A} (a : A) : spares (mret a).
Proof. intros s x s' Hr. by apply Mret_Ok in Hr as [_ ->]. Qed.
Lemma spares_bind {A B} (m : M sdb A) (k : A -> M sdb B) : spares m -> (forall a, spares (k a)) -> spares (m ≫= k).
Proof. intros Hm Hk s x s' Hr. apply Mbind_Ok in Hr as (y & s1 & H1' & H2'). rewrite (Hk _ _ _ _ H2'). by eapply Hm. Qed.
Lemma spares_money {A} (m : M edb A) : spares (on_money m).
Proof. intros s x s'. unfold on_money, on_vlt. destruct (on_bank m (vlt s)) as [[y v] |]; [| done]. by intros [= _ <-]. Qed.
Lemma spares_reads {A} (k : sdb -> A) : spares (reads k).
Proof. intros s x s' Hr. by apply reads_Ok in Hr as [_ ->]. Qed.
Lemma spares_update cond k : spares (cycle_updateMany c' cond k).
Proof.
  intros s x s' Hr. unfold cycle_updateMany in Hr. rewrite get_bind in Hr. destruct (cycles s !! c') as [cy |]; [| by apply Mret_Ok in Hr as [_ ->]].
  destruct (cond cy); [| by apply Mret_Ok in Hr as [_ ->]]. apply Mbind_Ok in Hr as (y & s1 & Hc & Hr). apply check_Ok in Hc as [_ ->].
  apply Mbind_Ok in Hr as (y2 & s1 & Hp & Hr). apply put_Ok in Hp as ->. apply Mret_Ok in Hr as [_ ->]. cbn. by rewrite lookup_insert_ne.
Qed.
Lemma spares_contribution r : spares (contribution_create r).
Proof.
  intros s x s' Hr. unfold contribution_create in Hr. rewrite get_bind in Hr. do 3 (apply Mbind_Ok in Hr as (? & ? & Hc & Hr); apply check_Ok in Hc as [_ ->]). by apply put_Ok in Hr as ->.
Qed.
Lemma spares_member id k : spares (smember_update id k).
Proof.
  intros s x s' Hr. unfold smember_update in Hr. rewrite get_bind in Hr. destruct (smembers s !! id); [| by apply throw_Ok in Hr].
  apply Mbind_Ok in Hr as (? & ? & Hc & Hr); apply check_Ok in Hc as [_ ->]. by apply put_Ok in Hr as ->.
Qed.
Lemma spares_group id k : spares (susu_update id k).
Proof.
  intros s x s' Hr. unfold susu_update in Hr. rewrite get_bind in Hr. destruct (susus s !! id); [| by apply throw_Ok in Hr].
  apply Mbind_Ok in Hr as (? & ? & Hp & Hr). apply put_Ok in Hp as ->. by apply Mret_Ok in Hr as [_ ->].
Qed.
Lemma spares_modify_money h : spares (on_money (modify h)).
Proof. apply spares_money. Qed.
Hint Resolve spares_ret spares_bind spares_money spares_reads spares_update spares_contribution spares_member : spares.
Ltac spare := repeat first [solve [eauto with spares] | apply spares_bind; [| intros ?] | case_match].

Lemma spares_locks l : spares (release_locks c' l).
Proof. induction l as [| [m a] l IH]; cbn [release_locks]; spare. Qed.
Lemma spares_collect m mem a stamp now : spares (collect_tx sha256 c' m mem a stamp now).
Proof. unfold collect_tx. spare. Qed.
Lemma spares_payout u d stamp now : spares (payout_tx sha256 c' u d stamp now).
Proof.
  intros s x s' Hr. unfold payout_tx in Hr. rewrite get_bind in Hr. destruct (collected (cycle_rows c' s)) as [t l].
  match type of Hr with ?m s = _ => assert (Hm : spares m) by (pose proof spares_locks; spare) end. by eapply Hm.
Qed.

Lemma spares_tx {A} (m : M sdb A) s : spares m -> cycles (transaction m s).2 !! c = cycles s !! c.
Proof. intros Hm. unfold transaction. destruct (m s) as [[x s'] | e] eqn:Hr; [by eapply Hm | done]. Qed.

Lemma foldl_cycles {A} (h : sdb -> A -> sdb) l s : (forall s a, cycles (h s a) = cycles s) -> cycles (foldl h s l) = cycles s.
Proof. intros Hh. revert s. induction l as [| a l IH]; intros s; [done |]. simpl. by rewrite IH. Qed.

Lemma default_cycles u s : cycles (_handleDefault u s) = cycles s.
Proof.
  unfold _handleDefault. destruct (transaction (freeze_user u) s) as [[x | e] s1] eqn:Ht.
  - rewrite (foldl_cycles (fun s v => penalize v s)) by done. apply transaction_Ok in Ht. unfold freeze_user in Ht. rewrite get_bind in Ht.
    repeat case_match; [| by apply throw_Ok in Ht..]. by apply put_Ok in Ht as ->.
  - by apply tx_cases in Ht as [(? & [=] & _) | (? & _ & ->)].
Qed.

Lemma reward_cycles newIds g s : cycles (reward_members on newIds g s) = cycles s.
Proof. unfold reward_members. destruct on; [| done]. by rewrite (foldl_cycles _ _ _). Qed.

Lemma collect_all_other a stamp now ms paid dft s : cycles (collect_all sha256 c' a stamp now ms paid dft s).2 !! c = cycles s !! c.
Proof.
  revert paid dft s. induction ms as [| [m mem] ms IH]; intros paid dft s; [done |]. cbn [collect_all]. destruct (bool_decide _); [apply IH |].
  pose proof (spares_tx (collect_tx sha256 c' m mem a stamp now) s (spares_collect _ _ _ _ _)) as Hc. destruct (transaction _ s) as [[[] | e] s1] eqn:Ht; cbn [snd] in Hc; rewrite <- Hc; try apply IH; [done |].
  cbn [snd]. apply spares_tx. unfold release_tx. apply spares_update.
Qed.

(** Processing a cycle leaves the row of every other one. *)
Lemma process_other newIds now before s : cycles (processCycle sha256 on newIds c' now before s).2 !! c = cycles s !! c.
Proof.
  unfold processCycle. destruct (cycles before !! c') as [cy |]; [| done]. destruct (susus before !! cy_group cy) as [g |]; [| done].
  pose proof (spares_tx (claim_tx c' now) s ltac:(apply spares_update)) as H1'. destruct (transaction (claim_tx c' now) s) as [[n | e] s1]; cbn [snd] in H1'; [| done].
  destruct (negb _); [done |]. rewrite <- H1'. pose proof (collect_all_other (sg_contribution g) now now (cycle_members (cy_group cy) before) [] [] s1) as H2'.
  destruct (collect_all _ _ _ _ _ _ _ _ s1) as [[[paid dft] | e] s2]; cbn [snd] in H2'; [| done]. rewrite <- H2'.
  set (s3 := foldl (fun s u => _handleDefault u s) s2 dft). assert (H3' : cycles s3 = cycles s2) by (apply foldl_cycles; intros; apply default_cycles). rewrite <- H3'.
  pose proof (spares_tx (payout_tx sha256 c' (cy_payoutUserId cy) (length dft) now now) s3 (spares_payout _ _ _ _)) as H4'.
  destruct (transaction (payout_tx _ _ _ _ _ _) s3) as [[[[[t f] n'] |] | e] s4]; cbn [snd] in H4'; [| done..]. rewrite <- H4'. destruct (remaining _ s4 =? 0)%nat; [| done].
  pose proof (spares_tx (susu_update (cy_group cy) (with_susu_status SUSU_COMPLETED)) s4 ltac:(apply spares_group)) as H5'.
  destruct (transaction (susu_update _ _) s4) as [[x | e] s5]; cbn [snd] in *; [| done]. by rewrite reward_cycles.
Qed.
End Other.

(** The state of a tick when it has treated the cycles [l]. *)
Definition tick_after (newIds : string -> string) (now : Z) (l : list (string * cycle_row)) (s : sdb) : sdb :=
  foldl (fun s p => (processCycle sha256 on newIds p.1 now s s).2) s l.

Lemma tick_after_other newIds now c l s : c ∉ l.*1 -> cycles (tick_after newIds now l s) !! c = cycles s !! c.
Proof.
  unfold tick_after. revert s. induction l as [| [k row] l IH]; intros s Hni; [done |]. cbn [foldl fmap list_fmap fst] in *. apply not_elem_of_cons in Hni as [Hk Hni].
  rewrite IH by done. by apply process_other.
Qed.

Lemma due_distinct now s : NoDup (due_cycles now s).*1.
Proof.
  unfold due_cycles. match goal with |- context [js_sort ?le ?l] => set (j := js_sort le l); assert (Hj : j ≡ₚ l) by apply js_sort_perm end.
  rewrite fmap_take. apply (NoDup_app _ (drop 25 j.*1)). rewrite take_drop, Hj. apply filter_NoDup_fst, NoDup_fst_map_to_list.
Qed.

(** A cycle that can be claimed is in the scan, or the scan is full of cycles
    that are due no later. *)
Definition scanned_or_full (now : Z) (c : string) (cy : cycle_row) (s : sdb) : Prop :=
  (c, cy) ∈ due_cycles now s \/ length (due_cycles now s) = 25%nat /\ Forall (fun p => cy_collectionDate p.2 <= cy_collectionDate cy) (due_cycles now s).

Lemma due_scanned now c cy g s : cycles s !! c = Some cy -> claimable now cy = true -> cy_collectionDate cy <= now -> susus s !! cy_group cy = Some g -> sg_contractVersion g = None ->
  scanned_or_full now c cy s.
Proof.
  intros Hc Hcl Hdue Hg Hv. unfold scanned_or_full, due_cycles. set (leb := fun a b : string * cycle_row => cy_collectionDate a.2 <=? cy_collectionDate b.2).
  set (rows := List.filter _ (map_to_list (cycles s))).
  assert (Hin : (c, cy) ∈ js_sort leb rows).
  { rewrite js_sort_perm. apply list_elem_of_In, filter_In. rewrite <- list_elem_of_In, elem_of_map_to_list. split; [done |]. cbn [fst snd].
    rewrite Hg, Hcl, bool_decide_true by done. apply Z.leb_le in Hdue. by rewrite Hdue. }
  rewrite <- (take_drop 25 (js_sort leb rows)) in Hin. apply elem_of_app in Hin as [Hin | Hin]; [by left | right]. split.
  - rewrite length_take. assert (length (drop 25 (js_sort leb rows)) <> 0%nat) by (intros Hz; apply nil_length_inv in Hz; rewrite Hz in Hin; by apply not_elem_of_nil in Hin).
    rewrite length_drop in *. lia.
  - apply Forall_forall. intros p Hp. apply Z.leb_le, (js_sort_split leb) with (3 := Hp) (4 := Hin); unfold leb; intros; rewrite ?Z.leb_le in *; lia.
Qed.

(** C22: no cycle strands.  In every state reached, a cycle that is not settled,
    of a group without a contract version, is found by the worker once it is due
    and five minutes have passed since the stamp it carries, unless the scan is
    full with 25 cycles due no later; and the tick that finds it, whatever it
    does with the cycles before it, comes to it with its row unchanged and claims
    it.  So whatever tick crashed, a later one collects and pays the cycle out. *)
Theorem no_cycle_strands s0 s c cy g newIds now : sinv s0 -> steps s0 s -> cycles s !! c = Some cy -> settled cy = false ->
  cy_collectionDate cy <= now -> susus s !! cy_group cy = Some g -> sg_contractVersion g = None -> (forall t, cy_startedAt cy = Some t -> t + STALL_RECOVERY_MS <= now) ->
  scanned_or_full now c cy s /\
  forall l l', due_cycles now s = l ++ (c, cy) :: l' -> let s1 := tick_after newIds now l s in
    susu_tick sha256 on newIds now s = tick_after newIds now l' (processCycle sha256 on newIds c now s1 s1).2 /\ cycles s1 !! c = Some cy /\
    exists s2, transaction (claim_tx c now) s1 = (Ok 1%nat, s2) /\ cycles s2 !! c = Some (collecting now cy) /\ owned now (collecting now cy) = true.
Proof.
  intros Hi Hr Hc Hop Hdue Hg Hv Hold. destruct (steps_susu _ _ _ _ _ _ _ Hi Hr) as [Hi' _]. destruct (tw_cycles s (si_tables s Hi') c cy Hc) as [_ _ Hleg Hnum].
  assert (Hcl : claimable now cy = true).
  { unfold claimable, settled in *. destruct (cy_status cy); try done. destruct (cy_startedAt cy) as [t |]; [| done]. apply Z.leb_le. specialize (Hold t eq_refl). lia. }
  split; [by eapply due_scanned |]. intros l l' Hl s1. assert (Hrow : cycles s1 !! c = Some cy).
  { unfold s1. rewrite tick_after_other; [done |]. pose proof (due_distinct now s) as Hnd. rewrite Hl, fmap_app, fmap_cons in Hnd. apply NoDup_app in Hnd as (_ & Hnd & _).
    intros Hin. by apply (Hnd c Hin); left. }
  split_and!; [| done |].
  - unfold susu_tick. rewrite Hl, foldl_app. done.
  - exists (set_cycles (<[c := collecting now cy]> (cycles s1)) s1). split_and!; [| apply lookup_insert_eq | by apply owned_iff].
    unfold transaction, claim_tx, cycle_updateMany. rewrite get_bind, Hrow, Hcl. cbn [collecting cy_payoutAmount]. unfold check. by rewrite Hnum.
Qed.

(** ** Amounts *)

Lemma pool_of_sum c s : pool_of c s = sumM (fun r => if String.eqb (cb_cycleId r) c then pooled r else 0) (contribs s).
Proof.
  unfold pool_of, cycle_rows, sumM. rewrite <- (sumZ_map snd (fun r => if String.eqb (cb_cycleId r) c then pooled r else 0)).
  induction (map snd (map_to_list (contribs s))) as [| r l IH]; [done |]. cbn [List.filter]. destruct (String.eqb (cb_cycleId r) c) eqn:He; rewrite !sumZ_cons, ?He, IH; lia.
Qed.

Lemma collected_pool c m u row s s' : collected_from sha256 c m u row s s' -> pool_of c s' = pool_of c s + pooled row.
Proof. intros [F1 _ _ _ F5 F6]. rewrite !pool_of_sum, F6, sumM_insert_new by done. rewrite F1, String.eqb_refl. lia. Qed.

(** What a collection does to every balance. *)
Lemma collected_balances c m u row s s' v : collected_from sha256 c m u row s s' ->
  avail v (money s') = avail v (money s) - (if u =? v then pooled row else 0) /\ locked v (money s') = locked v (money s) + (if u =? v then pooled row else 0).
Proof.
  intros Hcf. destruct (cf_effect _ _ _ _ _ _ _ Hcf) as (ds & hs & p & Hef & Hds & _). pose proof (pe_users _ _ _ _ _ _ Hef) as Hmv.
  rewrite (moves_avail _ _ _ v Hmv). unfold locked. rewrite (moves_bucket escrowLockedBalance dl ltac:(done) _ _ _ v Hmv).
  destruct Hds as [[-> ->] | ->]; unfold delta_of; rewrite ?sumZ_cons, ?sumZ_nil; cbn [fst snd da dl]; destruct (u =? v); lia.
Qed.

(** Collecting from a member moves exactly the contribution when the
    available balance covers it, and otherwise everything the member has, into
    the member's locked balance; nobody else's balances change, the
    contribution records what was taken and what is missing, and the member
    is in default exactly in the second case. *)
Theorem collection_exact s c m mem a stamp now r s' (u := mb_userId mem) (z := avail u (money s)) : sinv s -> 0 <= a < DECIMAL_20_8_LIMIT ->
  transaction (collect_tx sha256 c m mem a stamp now) s = (Ok r, s') ->
  s' = s \/
  (exists x row, x = (if a <=? z then a else z) /\ contribs s' = <[(c, m) := row]> (contribs s) /\ cb_userId row = u /\ pooled row = x /\
     (forall v, avail v (money s') = avail v (money s) - if u =? v then x else 0) /\ (forall v, locked v (money s') = locked v (money s) + if u =? v then x else 0) /\
     (if a <=? z then r = Paid /\ smembers s' = smembers s
      else r = Defaulted z (a - z) /\ cb_shortfall row = a - z /\ exists y, smembers s !! m = Some y /\ smembers s' = <[m := in_default now z y]> (smembers s))).
Proof.
  intros Hi Ha Hr. apply tx_cases in Hr as [(x & [= ->] & Hr) | (e & [=] & _)]. pose proof (vi_columns _ (si_vault s Hi)) as Hcol.
  apply collect_tx_Ok in Hr as [[_ ->] | [_ Hr]]; [by left | right | done | lia]. fold u in Hr. fold z in Hr.
  destruct Hr as [(-> & Hle & Hsm & Hcf) | (-> & Hlt & y & Hy & Hsm & Hcf)].
  - assert (Hleb : a <=? z = true) by (by apply Z.leb_le). rewrite Hleb. eexists a, _. split_and!; [done | exact (cf_contribs _ _ _ _ _ _ _ Hcf) | done | done | | | done | done];
      intros v; destruct (collected_balances _ _ _ _ _ _ v Hcf) as [H1 H2]; done.
  - assert (Hleb : a <=? z = false) by (by apply Z.leb_gt). rewrite Hleb.
    assert (Hz : 0 <= z) by (unfold z, avail, bucket; destruct (users _ !! u) eqn:Hu; [by eapply columns_avail | done]).
    assert (Hd : d_minus a z = a - z) by (unfold d_minus; apply dround_exact; unfold DECIMAL_20_8_LIMIT in *; lia).
    eexists z, _. split_and!; [done | exact (cf_contribs _ _ _ _ _ _ _ Hcf) | done | done | | | by rewrite Hd | exact Hd | by exists y];
      intros v; destruct (collected_balances _ _ _ _ _ _ v Hcf) as [H1 H2]; done.
Qed.

(** The effects of a payout. *)
Lemma payout_effects s c u d stamp now t f n s' : sinv s -> 0 <= u -> pool_of c s <= POOL_MAX ->
  transaction (payout_tx sha256 c u d stamp now) s = (Ok (Some (t, f, n)), s') ->
  t = pool_of c s /\ f = t * default 300 (susuProfitPct s) / 10 ^ 10 * 10 ^ 6 /\ n + f = t /\ 0 <= f <= t /\
  (forall v, avail v (money s') = avail v (money s) + if u =? v then n else 0) /\
  (forall v, locked v (money s') = locked v (money s) - sumZ (fun r => if from_user v r then pooled r else 0) (cycle_rows c s)) /\
  net REVENUE (ledger (money s)) - net REVENUE (ledger (money s')) = f /\
  profitLog (money s') = profitLog (money s) ++ [(f, ("susu_fee_" +:+ c)%string)] /\ is_settled s' c = true.
Proof.
  intros Hi Hu Hmax Hr. apply tx_cases in Hr as [(x & Hx & Hr) | (e & [=] & _)]. injection Hx as <-. pose proof (sinv_cycle_wf c s Hi) as Hwf.
  apply payout_tx_Ok in Hr as [[Hx _] | (cy & t' & f' & n' & Hcy & Hown & Hx & Hf & Hpf)]; [done | | done | done | by apply si_pct]. injection Hx as <- <- <-.
  assert (Hop : is_settled s c = false) by (unfold is_settled; rewrite Hcy; by eapply owned_open). pose proof (pf_effect _ _ _ _ _ _ _ _ _ _ Hpf) as Hef.
  pose proof (pe_users _ _ _ _ _ _ Hef) as Hmv. pose proof (pf_net _ _ _ _ _ _ _ _ _ _ Hpf) as Hn. pose proof (pf_total _ _ _ _ _ _ _ _ _ _ Hpf) as Ht.
  destruct Hwf as [Hnn _ _]. split_and!; [done | exact (pf_fee _ _ _ _ _ _ _ _ _ _ Hpf) | lia | lia | lia | | | | exact (pf_log _ _ _ _ _ _ _ _ _ _ Hpf) | by apply (paid_kept _ _ _ _ _ _ _ _ _ _ Hop Hpf)].
  - intros v. rewrite (moves_avail _ _ _ v Hmv). unfold delta_of. rewrite sumZ_cons, (unlocks_sum _ (fun _ => 0)), sumZ_0; [| intros r; cbn; by destruct (_ =? v)].
    cbn [fst snd da]. destruct (u =? v); lia.
  - intros v. unfold locked. rewrite (moves_bucket escrowLockedBalance dl ltac:(done) _ _ _ v Hmv). unfold delta_of.
    rewrite sumZ_cons, (unlocks_sum _ (fun r => if from_user v r then pooled r else 0)), sum_positive; [| done | intros r; unfold from_user; cbn [fst snd dl]; destruct (_ =? v); lia].
    cbn [fst snd dl]. destruct (u =? v); lia.
  - assert (Hfresh : forall key ls, pay_entry c (cycle_rows c s) u n f = Some (key, ls) -> find_key key (ledger (money s)) = None).
    { intros key ls He. apply pay_entry_key in He as [-> _]. apply vault_not_posted. intros Hq. apply (si_payout_key s Hi) in Hq. congruence. }
    destruct (pool_wallet _ _ _ _ _ _ Hef Hfresh) as (_ & _ & _ & Hnet). rewrite Hnet, pay_movement. unfold REVENUE.
    rewrite (sumZ_ext _ (fun _ => 0)), sumZ_0 by done. autorewrite with codes. rewrite String.eqb_refl. lia.
Qed.

(** C27: a payout pays exactly the pool.  The pool is what the members put in;
    the fee is the configured percentage of it cut to whole cents and the
    recipient's available balance grows by the rest; every member's locked
    balance falls by exactly what that member put in; fee and payout add up to
    the pool; the fee is recognized as revenue and logged; and the cycle is
    settled in the same transaction. *)
Theorem payout_exact s c u d stamp now t f n s' : sinv s -> 0 <= u -> pool_of c s <= POOL_MAX ->
  transaction (payout_tx sha256 c u d stamp now) s = (Ok (Some (t, f, n)), s') ->
  t = pool_of c s /\ f = t * default 300 (susuProfitPct s) / 10 ^ 10 * 10 ^ 6 /\ n + f = t /\ 0 <= f <= t /\
  (forall v, avail v (money s') = avail v (money s) + if u =? v then n else 0) /\
  (forall v, locked v (money s') = locked v (money s) - sumZ (fun r => if from_user v r then pooled r else 0) (cycle_rows c s)) /\
  net REVENUE (ledger (money s)) - net REVENUE (ledger (money s')) = f /\
  profitLog (money s') = profitLog (money s) ++ [(f, ("susu_fee_" +:+ c)%string)] /\ is_settled s' c = true.
Proof. apply payout_effects. Qed.

(** ** Calls as runs of transactions *)

Lemma collect_bound c m mem a stamp now s r s' : sinv s -> 0 <= a -> transaction (collect_tx sha256 c m mem a stamp now) s = (r, s') -> pool_of c s' <= pool_of c s + a.
Proof.
  intros Hi Ha Hr. apply tx_cases in Hr as [(x & _ & Hr) | (e & _ & ->)]; [| lia]. pose proof (vi_columns _ (si_vault s Hi)) as Hcol.
  apply collect_tx_Ok in Hr as [[_ ->] | [_ [(_ & _ & _ & Hcf) | (_ & Hlt & y & _ & _ & Hcf)]]]; [lia | | | done | done]; rewrite (collected_pool _ _ _ _ _ _ Hcf); cbn; lia.
Qed.

Lemma release_pool c stamp s : pool_of c (transaction (release_tx c stamp) s).2 = pool_of c s.
Proof.
  destruct (transaction _ s) as [o s1] eqn:Ht. apply tx_cases in Ht as [(x & _ & Hr) | (e & _ & ->)]; [| done].
  by apply cycle_updateMany_Ok in Hr as [(_ & -> & _) | (_ & cy & _ & _ & _ & ->)].
Qed.

Lemma collect_all_steps c a stamp now ms paid defaulted s r s' : sinv s -> 0 <= a -> (forall p, In p ms -> 0 <= mb_userId p.2) ->
  collect_all sha256 c a stamp now ms paid defaulted s = (r, s') -> steps s s' /\ pool_of c s' <= pool_of c s + a * Z.of_nat (length ms).
Proof.
  revert paid defaulted s. induction ms as [| [m mem] ms IH]; intros paid defaulted s Hi Ha Hu Hr; [injection Hr as _ <-; split; [done | cbn; lia] |].
  assert (Hu' : forall p, In p ms -> 0 <= mb_userId p.2) by (intros p Hp; apply Hu; by right). rewrite length_cons, Nat2Z.inj_succ. cbn [collect_all] in Hr.
  destruct (bool_decide _); [destruct (IH _ _ _ Hi Ha Hu' Hr); split; [done | lia] |].
  destruct (transaction _ s) as [o s1] eqn:Ht. assert (Hs : step s s1) by (eapply ss_collect; [exact (Hu _ (or_introl eq_refl)) | exact Ha | exact Ht]).
  pose proof (collect_bound _ _ _ _ _ _ _ _ _ Hi Ha Ht) as Hb. pose proof (proj1 (step_susu _ _ _ _ _ _ _ Hi Hs)) as Hi1.
  assert (Hgo : forall p d, collect_all sha256 c a stamp now ms p d s1 = (r, s') -> steps s s' /\ pool_of c s' <= pool_of c s + a * Z.succ (Z.of_nat (length ms))).
  { intros p d Hc. destruct (IH _ _ _ Hi1 Ha Hu' Hc). split; [by eapply rtc_l | lia]. }
  destruct o as [[| | | z sh] | e]; [| by eapply Hgo.. |].
  - injection Hr as _ <-. split; [by apply rtc_once | nia].
  - injection Hr as _ <-. rewrite release_pool. split; [| nia]. eapply rtc_l; [exact Hs |]. apply rtc_once. eapply ss_release, surjective_pairing.
Qed.

Lemma penalties_steps l s : steps s (foldl (fun s v => penalize v s) s l) /\ contribs (foldl (fun s v => penalize v s) s l) = contribs s.
Proof.
  revert s. induction l as [| v l IH]; intros s; [done |]. destruct (IH (penalize v s)) as [H1 H2]. split; [| exact H2].
  eapply rtc_l; [by apply (ss_penalize _ _ _ _ _ _ _ v) | exact H1].
Qed.

Lemma handle_steps u s : steps s (_handleDefault u s) /\ contribs (_handleDefault u s) = contribs s.
Proof.
  unfold _handleDefault. destruct (transaction (freeze_user u) s) as [o s1] eqn:Ht. assert (Hs : step s s1) by (by eapply ss_freeze).
  assert (Hc : contribs s1 = contribs s).
  { apply tx_cases in Ht as [(x & _ & Hr) | (e & _ & ->)]; [| done]. unfold freeze_user in Hr. rewrite get_bind in Hr.
    destruct (profiles _ !! u); [| by apply throw_Ok in Hr]. destruct (standings s !! u); [| by apply throw_Ok in Hr]. by apply put_Ok in Hr as ->. }
  destruct o; [| split; [by apply rtc_once | done]]. destruct (penalties_steps (vouchers u s1) s1) as [H1 H2]. split; [by eapply rtc_l | congruence].
Qed.

Lemma defaults_steps l s : steps s (foldl (fun s u => _handleDefault u s) s l) /\ contribs (foldl (fun s u => _handleDefault u s) s l) = contribs s.
Proof.
  revert s. induction l as [| u l IH]; intros s; [done |]. cbn [foldl]. destruct (handle_steps u s) as [H1 H2]. destruct (IH (_handleDefault u s)) as [H3 H4].
  split; [by etransitivity | congruence].
Qed.

Lemma reward_steps newIds g s : steps s (reward_members on newIds g s).
Proof.
  unfold reward_members. destruct on; [| done]. generalize (List.filter (fun p => bool_decide (mb_status p.2 = MEMBER_ACTIVE)) (group_members g s)) as l.
  intros l. revert s. induction l as [| p l IH]; intros s; [done |]. cbn [foldl]. eapply rtc_l; [| apply IH].
  destruct (creditAzm _ _ _ _ _ (vlt s)) as [r v] eqn:Hc. eapply ss_vault; [| done]. by eapply vs_reward; [| exact Hc].
Qed.

(** The pool of a cycle stays within the bound, with everything its members may
    still pay. *)
Definition fits (c : string) (before s : sdb) : Prop := forall cy g, cycles before !! c = Some cy -> susus before !! cy_group cy = Some g ->
  pool_of c s + sg_contribution g * Z.of_nat (length (cycle_members (cy_group cy) before)) <= POOL_MAX.

Lemma process_steps newIds c now before s r s' : sinv s -> tables_wf before -> fits c before s -> processCycle sha256 on newIds c now before s = (r, s') -> steps s s'.
Proof.
  intros Hi Hb Hfit Hr. unfold processCycle in Hr. destruct (cycles before !! c) as [cy |] eqn:Hcy; [| by injection Hr as _ <-].
  destruct (susus before !! cy_group cy) as [g |] eqn:Hg; [| by injection Hr as _ <-]. specialize (Hfit cy g Hcy Hg).
  destruct (transaction (claim_tx c now) s) as [o s1] eqn:Hcl. assert (Hs1 : step s s1) by (by eapply ss_claim).
  assert (Hp1 : pool_of c s1 = pool_of c s).
  { apply tx_cases in Hcl as [(x & _ & Hx) | (e & _ & ->)]; [| done]. by apply cycle_updateMany_Ok in Hx as [(_ & -> & _) | (_ & y & _ & _ & _ & ->)]. }
  destruct o as [k | e]; [| injection Hr as _ <-; by apply rtc_once]. destruct (negb _); [injection Hr as _ <-; by apply rtc_once |].
  pose proof (proj1 (step_susu _ _ _ _ _ _ _ Hi Hs1)) as Hi1. pose proof (tw_groups before Hb _ _ Hg) as Ha.
  destruct (collect_all _ _ _ _ _ _ _ _ s1) as [o2 s2] eqn:Hca.
  apply collect_all_steps in Hca as [Hs2 Hp2]; [| done | done |].
  2: { intros p Hp. apply filter_In in Hp as [Hp _]. apply group_members_in in Hp as [Hp _]. by eapply (tw_members before Hb). }
  assert (H12 : steps s s2) by (by eapply rtc_l). destruct o2 as [[paid defaulted] | e]; [| by injection Hr as _ <-].
  destruct (defaults_steps defaulted s2) as [Hs3 Hc3]. set (s3 := foldl _ s2 defaulted) in *. assert (H13 : steps s s3) by (by etransitivity).
  destruct (transaction (payout_tx _ _ _ _ _ _) s3) as [o4 s4] eqn:Hpay.
  assert (Hs4 : step s3 s4).
  { eapply ss_payout; [exact (co_user _ _ (tw_cycles before Hb _ _ Hcy)) | | exact Hpay]. rewrite pool_of_sum, Hc3, <- pool_of_sum. lia. }
  assert (H14 : steps s s4) by (by eapply rtc_r). destruct o4 as [[[[t f] n] |] | e]; [| by injection Hr as _ <-..].
  destruct (_ =? 0)%nat; [| by injection Hr as _ <-]. destruct (transaction (susu_update _ _) s4) as [o5 s5] eqn:Hcomp.
  assert (H15 : steps s s5) by (eapply rtc_r; [exact H14 | by eapply ss_complete]). destruct o5 as [y | e]; injection Hr as _ <-; [| done].
  etransitivity; [exact H15 | apply reward_steps].
Qed.

(** The same along the cycles of a tick. *)
Fixpoint tick_fits (newIds : string -> string) (now : Z) (l : list (string * cycle_row)) (s : sdb) : Prop :=
  match l with [] => True | p :: l' => fits p.1 s s /\ tick_fits newIds now l' (processCycle sha256 on newIds p.1 now s s).2 end.

(** C15: processing a cycle, on whatever rows it read, and a whole tick of the
    worker are runs of the transactions of the service, of the penalties and of
    the rewards, so their books, the single payout of a cycle and the other
    invariants hold for them in every state they meet. *)
Theorem susu_calls_refine s : sinv s ->
  (forall newIds c now before r s', tables_wf before -> fits c before s -> processCycle sha256 on newIds c now before s = (r, s') -> steps s s') /\
  (forall newIds now, tick_fits newIds now (due_cycles now s) s -> steps s (susu_tick sha256 on newIds now s) /\ sinv (susu_tick sha256 on newIds now s)).
Proof.
  intros Hi. split; [intros; by eapply process_steps |]. intros newIds now. unfold susu_tick. generalize (due_cycles now s) as l. intros l. revert s Hi.
  induction l as [| p l IH]; intros s Hi; [done |]. intros [Hf Hrest]. cbn [foldl].
  pose proof (process_steps newIds p.1 now s s _ _ Hi (si_tables s Hi) Hf (surjective_pairing _)) as Hs. destruct (IH _ (proj1 (steps_susu _ _ _ _ _ _ _ Hi Hs)) Hrest) as [H1 H2].
  split; [by etransitivity | done].
Qed.
(** ** The rotation *)

Lemma slots_users i l : map sl_userId (number_slots i l) = map (fun x => x.2.1) l.
Proof. revert i. induction l as [| x l IH]; intros i; [done |]. cbn [number_slots map sl_userId]. by rewrite IH. Qed.
Lemma slots_numbers i l : map sl_slot (number_slots i l) = map (fun k => i + Z.of_nat k) (seq 0 (length l)).
Proof.
  revert i. induction l as [| x l IH]; intros i; [done |]. cbn [number_slots map sl_slot length seq]. rewrite IH, <- seq_shift, map_map. f_equal; [lia |].
  apply map_ext. intros k. lia.
Qed.
Lemma slots_sorted i l : StronglySorted (fun a b => (b.1 <=? a.1) = true) l -> StronglySorted (fun a b => sl_trust b <= sl_trust a) (number_slots i l).
Proof.
  intros Hs. revert i. induction Hs as [| x l Hs IH Hall]; intros i; [constructor |]. constructor; [done |]. apply List.Forall_forall. intros r Hr.
  apply number_slots_in in Hr as (y & Hy & _ & -> & _). rewrite List.Forall_forall in Hall. apply Z.leb_le. by apply Hall.
Qed.

Lemma mapM_ranked std ms l : mapM_res (ranked std) ms = Ok l -> map (fun x => x.2.1) l = map cm_userId ms /\ length l = length ms.
Proof.
  revert l. induction ms as [| m ms IH]; intros l Hr; [injection Hr as <-; done |]. apply bind_Ok in Hr as (y & Hf & Hr). apply bind_Ok in Hr as (ys & Hm & Hr).
  injection Hr as <-. destruct (IH ys Hm) as [H1 H2]. unfold ranked in Hf. res_inv Hf. simplify_eq. cbn. by rewrite H1, H2.
Qed.

Lemma new_members_keep g ids rows m0 i x : m0 !! i = Some x -> (forall r, In r rows -> ids (sl_slot r) <> i) -> new_members g ids rows m0 !! i = Some x.
Proof.
  unfold new_members. revert m0. induction rows as [| r rows IH]; intros m0 Hm Hn; [done |]. cbn [foldl]. apply IH; [| intros q Hq; apply Hn; by right].
  rewrite lookup_insert_ne; [done |]. apply Hn. by left.
Qed.
Lemma new_members_lookup g (ids : Z -> string) rows m0 r : (forall i j, ids i = ids j -> i = j) -> NoDup (map sl_slot rows) -> In r rows ->
  new_members g ids rows m0 !! ids (sl_slot r) = Some (MemberRow g (sl_userId r) (sl_slot r) (sl_trust r * 10 ^ 4) PENDING_CONTRACT None None 0).
Proof.
  intros Hinj. revert m0. induction rows as [| r0 rows IH]; intros m0 Hnd Hr; [done |]. cbn [map] in Hnd. apply NoDup_cons in Hnd as [Hn Hnd].
  destruct Hr as [-> | Hr]; [| by apply IH]. unfold new_members. cbn [foldl]. apply new_members_keep; [apply lookup_insert_eq |].
  intros q Hq He. apply Hinj in He. apply Hn. rewrite <- He. by apply list_elem_of_In, in_map.
Qed.

(** A new group takes every present member of the chat exactly once, in
    slots 1 to n, ordered by trust: no member has a later slot than one with
    less trust.  Trust is the published score of the user, with 50 more for an
    admin of the chat; the member rows follow the rotation and wait for the
    contract. *)
Theorem rotation_ranks newId ids adminId chat q freq date now before s x s' : (forall i j, ids i = ids j -> i = j) ->
  transaction (createSusu newId ids adminId chat q freq date now before) s = (Ok x, s') ->
  exists ch grp, chats before !! chat = Some ch /\ susus s' !! newId = Some grp /\ sg_status grp = CONFIGURING /\
    let members := List.filter (fun m => negb (cm_removed m)) (ch_members ch) in let rows := sg_rotation grp in
    (3 <= length members)%nat /\ map sl_userId rows ≡ₚ map cm_userId members /\ map sl_slot rows = map (fun k => 1 + Z.of_nat k) (seq 0 (length members)) /\
    StronglySorted (fun a b => sl_trust b <= sl_trust a) rows /\
    forall r, In r rows -> (exists u, standings before !! sl_userId r = Some u /\ sl_trust r = _initialTrustScore u + if sl_isAdmin r then 50 else 0) /\
      smembers s' !! ids (sl_slot r) = Some (MemberRow newId (sl_userId r) (sl_slot r) (sl_trust r * 10 ^ 4) PENDING_CONTRACT None None 0).
Proof.
  intros Hinj Hr. apply tx_cases in Hr as [(y & _ & Hr) | (e & [=] & _)]. unfold createSusu in Hr.
  apply Mbind_Ok in Hr as ([start rows] & s1 & Hl & Hr). apply lift_Ok in Hl as [Hl ->]. rewrite get_bind in Hr.
  do 4 (apply Mbind_Ok in Hr as (? & ? & Hck & Hr); apply check_Ok in Hck as [_ ->]). apply put_Ok in Hr as ->.
  res_inv Hl. simplify_eq. match goal with Hm : mapM_res _ ?ms = Ok ?l |- _ => rename Hm into Hmap; set (members := ms) in *; rename l into ranks end.
  match goal with Hc : chats before !! chat = Some ?c |- _ => exists c end. eexists. split; [done |]. split; [apply lookup_insert_eq |]. split; [done |].
  cbn [sg_rotation]. fold members. destruct (mapM_ranked _ _ _ Hmap) as [Hus Hlen].
  set (sorted := js_sort (fun a b : Z * (Z * bool) => b.1 <=? a.1) ranks). pose proof (js_sort_perm (fun a b : Z * (Z * bool) => b.1 <=? a.1) ranks) as Hperm. fold sorted in Hperm.
  assert (Hslots : map sl_slot (rotation ranks) = map (fun k => 1 + Z.of_nat k) (seq 0 (length members))).
  { unfold rotation. fold sorted. rewrite slots_numbers, <- Hlen. by rewrite Hperm. }
  split_and!.
  - match goal with Hx : (_ <? 3)%nat = false |- _ => by apply Nat.ltb_ge in Hx end.
  - unfold rotation. fold sorted. rewrite slots_users, <- Hus. by apply Permutation_map.
  - exact Hslots.
  - apply slots_sorted. apply (js_sort_sorted (fun a b : Z * (Z * bool) => b.1 <=? a.1)); intros *; rewrite ?Z.leb_le; lia.
  - intros r Hr. split.
    + destruct (rotation_in _ _ Hr) as (z & Hz & -> & -> & ->). destruct (mapM_res_in _ _ _ Hmap z Hz) as (m & _ & Hrk). unfold ranked in Hrk. res_inv Hrk. simplify_eq. cbn. eauto.
    + apply new_members_lookup; [done | | done]. rewrite Hslots. apply (NoDup_fmap_2_strong (fun k => 1 + Z.of_nat k)); [intros; lia | apply NoDup_ListNoDup, seq_NoDup].
Qed.
(** ** The contract *)

Definition pending (m : member_row) : Prop := mb_status m = PENDING_CONTRACT \/ mb_status m = PENDING_VOUCH.

(** The tables after one more signature, and after the start. *)
Definition signed_state (mid g : string) (x : member_row) (grp : susu_row) (now : Z) (s : sdb) : sdb :=
  set_susus (<[g := one_accepted grp]> (susus s)) (set_smembers (<[mid := signed now x]> (smembers s)) s).
Definition group_list (g : string) (s : sdb) : list member_row := js_sort (fun a b => mb_slot a <=? mb_slot b) (map snd (group_members g s)).
Definition complete_now (grp : susu_row) : bool := (sg_required grp <=? sg_accepted grp + 1) && bool_decide (sg_status grp = CONFIGURING).

Lemma accept_contract_Ok userId g ids now before s r s' : acceptContract userId g ids now before s = Ok (r, s') ->
  exists mid mem, member_of userId g before = Some (mid, mem) /\
  (r = ALREADY_ACCEPTED /\ s' = s /\ mb_status mem = MEMBER_ACTIVE \/
   pending mem /\ exists x grp, smembers s !! mid = Some x /\ susus s !! g = Some grp /\
     (complete_now grp = false /\ r = ACCEPTED_ (sg_accepted grp + 1) (sg_required grp) /\ s' = signed_state mid g x grp now s \/
      complete_now grp = true /\ r = STARTED /\ exists iv, susu_ms (sg_frequency grp) = Some iv /\
        let s1 := signed_state mid g x grp now s in
        s' = set_susus (<[g := with_susu_status SUSU_ACTIVE (one_accepted grp)]> (susus s))
               (set_cycles (new_cycles g (one_accepted grp) iv (d_times (sg_contribution grp) (sg_totalCycles grp)) ids (group_list g s1) (cycles s)) s1))).
Proof.
  intros Hr. unfold acceptContract in Hr. apply Mbind_Ok in Hr as ([mid mem] & s1 & Hl & Hr). apply lift_Ok in Hl as [Hl ->]. apply of_option_Ok in Hl.
  exists mid, mem. split; [done |].
  destruct (mb_status mem) eqn:Hst; [| | apply Mret_Ok in Hr as [-> ->]; by left | by apply throw_Ok in Hr..]; right.
  all: split; [first [by left | by right] |]; apply Mbind_Ok in Hr as (y & s1 & Hm & Hr); apply smember_update_Ok in Hm as (x & Hx & ->);
    apply Mbind_Ok in Hr as (grp1 & s1 & Hs & Hr); apply susu_update_Ok in Hs as (grp & Hg & -> & ->); exists x, grp; split; [done |]; split; [done |];
    cbn [one_accepted sg_required sg_accepted sg_status] in Hr; fold (complete_now grp) in Hr; fold (signed_state mid g x grp now s) in Hr;
    destruct (complete_now grp); [right | left; by apply Mret_Ok in Hr as [-> ->]]; split; [done |];
    apply Mbind_Ok in Hr as (y1 & s2 & Hmat & Hr); apply materialize_Ok in Hmat as (iv & Hiv & _ & _ & ->);
    apply Mbind_Ok in Hr as (y2 & s3 & Hs & Hr); apply susu_update_Ok in Hs as (g1 & Hg1 & _ & ->); apply Mret_Ok in Hr as [-> ->]; split; [done |];
    cbn [signed_state set_cycles set_susus susus] in Hg1; rewrite lookup_insert_eq in Hg1; injection Hg1 as <-; exists iv; split; [done |];
    unfold signed_state; cbn [set_cycles set_susus set_smembers susus cycles]; by rewrite insert_insert_eq.
Qed.

Definition in_group (g : string) (m : member_row) : bool := String.eqb (mb_group m) g.
Definition has_signed (m : member_row) : bool := match mb_acceptedAt m with Some _ => true | None => false end.
Definition signed_count (g : string) (s : sdb) : Z := sumM (fun m => if in_group g m && has_signed m then 1 else 0) (smembers s).
Definition member_count (g : string) (s : sdb) : Z := sumM (fun m => if in_group g m then 1 else 0) (smembers s).

(** The counters of a group agree with its members. *)
Record contract_ok (g : string) (s : sdb) : Prop := {
  ct_count : forall grp, susus s !! g = Some grp -> sg_accepted grp = signed_count g s /\ sg_required grp = member_count g s;
  ct_pending : forall m x, smembers s !! m = Some x -> pending x -> mb_acceptedAt x = None;
}.

Lemma sumM_full {A} (f h : A -> Z) (m : gmap string A) : (forall k v, m !! k = Some v -> f v <= h v) -> sumM h m <= sumM f m -> forall k v, m !! k = Some v -> f v = h v.
Proof.
  intros Hle Hs k v Hk. rewrite <- (insert_delete_id m k v Hk), !sumM_insert_new in Hs by apply lookup_delete_eq. specialize (Hle k v Hk) as Hv.
  enough (sumM f (delete k m) <= sumM h (delete k m)) by lia. unfold sumM.
  assert (Hall : forall p, p ∈ map_to_list (delete k m) -> f p.2 <= h p.2).
  { intros [j y] Hp. apply elem_of_map_to_list, lookup_delete_Some in Hp as [_ Hp]. by apply (Hle j). }
  induction (map_to_list (delete k m)) as [| p l IH]; [done |]. rewrite !sumZ_cons. pose proof (Hall p (list_elem_of_here _ _)).
  enough (sumZ (fun q => f q.2) l <= sumZ (fun q => h q.2) l) by lia. apply IH. intros q Hq. apply Hall. by right.
Qed.

Lemma member_of_in userId g s mid mem : member_of userId g s = Some (mid, mem) -> smembers s !! mid = Some mem /\ mb_group mem = g.
Proof. unfold member_of. intros Hf. apply List.find_some in Hf as [Hin _]. by apply group_members_in in Hin. Qed.

Lemma new_cycles_lookup g grp iv pool (ids : Z -> string) ms cs m : NoDup (map (fun m => ids (mb_slot m)) ms) -> In m ms ->
  new_cycles g grp iv pool ids ms cs !! ids (mb_slot m) = Some (new_cycle g grp iv pool m).
Proof.
  revert cs. induction ms as [| m0 ms IH]; intros cs Hnd Hm; [done |]. cbn [map] in Hnd. apply NoDup_cons in Hnd as [Hn Hnd].
  destruct Hm as [-> | Hm]; [| by apply IH]. unfold new_cycles. cbn [foldl]. apply fold_cycles_keep; [apply lookup_insert_eq |].
  intros q Hq He. apply Hn. rewrite <- He. by apply list_elem_of_In, (in_map (fun m => ids (mb_slot m))).
Qed.

(** When a member signs on what the database says now, the counters keep
    agreeing with the members, and the group starts exactly when every member
    has signed. *)
Theorem contract_signed_by_all s g userId ids now r s' : contract_ok g s -> transaction (acceptContract userId g ids now s) s = (Ok r, s') ->
  contract_ok g s' /\ (r = STARTED -> forall m x, smembers s' !! m = Some x -> mb_group x = g -> has_signed x = true).
Proof.
  intros [Hc Hp] Hr. apply tx_cases in Hr as [(r0 & [= ->] & Hr) | (e & [=] & _)].
  apply accept_contract_Ok in Hr as (mid & mem & Hmem & [(-> & -> & _) | (Hpend & x & grp & Hx & Hg & Hcase)]); [by split |].
  apply member_of_in in Hmem as [Hmem Hgrp]. assert (x = mem) as -> by congruence. destruct (Hc grp Hg) as [Hacc Hreq]. specialize (Hp mid mem Hmem Hpend) as Hnone.
  assert (Hin : in_group g mem = true) by (unfold in_group; by rewrite Hgrp, String.eqb_refl).
  assert (Hok : contract_ok g s' /\ (complete_now grp = true -> forall m x, smembers s' !! m = Some x -> mb_group x = g -> has_signed x = true)); [| destruct Hok as [Hok Hall]; split; [done |]; destruct Hcase as [(_ & -> & _) | (Hcn & -> & _)]; [done |]; intros _; exact (Hall Hcn)].
  assert (Hs' : smembers s' = <[mid := signed now mem]> (smembers s) /\ exists grp', susus s' = <[g := grp']> (susus s) /\ sg_accepted grp' = sg_accepted grp + 1 /\ sg_required grp' = sg_required grp)
    by (destruct Hcase as [(_ & _ & ->) | (_ & _ & iv & _ & ->)]; split; [done | by eexists | done | by eexists]).
  destruct Hs' as [Hsm (grp' & Hgs & Hacc' & Hreq')].
  assert (Hsc : signed_count g s' = signed_count g s + 1).
  { unfold signed_count. rewrite Hsm, (sumM_insert _ _ _ mem) by done. unfold has_signed at 2 3. change (in_group g (signed now mem)) with (in_group g mem). rewrite Hin, Hnone. cbn. lia. }
  assert (Hmc : member_count g s' = member_count g s).
  { unfold member_count. rewrite Hsm, (sumM_insert _ _ _ mem) by done. change (in_group g (signed now mem)) with (in_group g mem). lia. }
  split; [split |].
  - intros grp2. rewrite Hgs, lookup_insert_eq. intros [= <-]. lia.
  - intros m y. rewrite Hsm. intros [[_ <-] | [_ Hy]]%lookup_insert_Some; [by intros [?|?] | by eapply Hp].
  - intros Hcn m y Hy Hyg. apply andb_true_iff in Hcn as [Hle _]. apply Z.leb_le in Hle.
    assert (Hfull := sumM_full (fun m => if in_group g m && has_signed m then 1 else 0) (fun m => if in_group g m then 1 else 0) (smembers s')).
    assert (Heq : (if in_group g y && has_signed y then 1 else 0) = (if in_group g y then 1 else 0)).
    { apply (Hfull) with (k := m); [intros k v _; by destruct (in_group g v), (has_signed v) | fold (signed_count g s') (member_count g s'); lia | done]. }
    unfold in_group in Heq. rewrite Hyg, String.eqb_refl in Heq. by destruct (has_signed y).
Qed.
(** The unique pair (susuGroupId, cycleSlot). *)
Definition distinct_slots (g : string) (s : sdb) : Prop := forall m x m' x', smembers s !! m = Some x -> smembers s !! m' = Some x' ->
  mb_group x = g -> mb_group x' = g -> mb_slot x = mb_slot x' -> m = m'.

Lemma group_list_in g s m x : smembers s !! m = Some x -> mb_group x = g -> In x (group_list g s).
Proof.
  intros Hx Hg. unfold group_list. apply list_elem_of_In. rewrite js_sort_perm. apply list_elem_of_In, in_map_iff. exists (m, x). split; [done |].
  apply filter_In. split; [by apply list_elem_of_In, elem_of_map_to_list | cbn; by rewrite Hg, String.eqb_refl].
Qed.

Lemma group_list_nodup g s (ids : Z -> string) : (forall i j, ids i = ids j -> i = j) -> distinct_slots g s -> NoDup (map (fun m => ids (mb_slot m)) (group_list g s)).
Proof.
  intros Hinj Hd. unfold group_list. rewrite (js_sort_perm (fun a b => mb_slot a <=? mb_slot b) (map snd (group_members g s))). rewrite map_map.
  apply (NoDup_fmap_2_strong (fun p : string * member_row => ids (mb_slot p.2))).
  - intros [m x] [m' x'] Hp Hq He. apply list_elem_of_In, group_members_in in Hp as [Hp Hpg], Hq as [Hq Hqg]. cbn in *. apply Hinj in He.
    assert (m = m') as -> by (by eapply Hd). congruence.
  - unfold group_members. apply NoDup_ListNoDup, List.NoDup_filter, NoDup_ListNoDup, NoDup_map_to_list.
Qed.

(** One member who signs twice at once starts the group for another.  The
    transaction reads the member's status and does not repeat it in its writes,
    so two calls that both read the unsigned row count twice: the group starts
    with one signature missing.  A member who has not signed is then never
    asked to contribute and still has a cycle that pays the pool out to them. *)
Theorem double_accept_starts_early s g grp userId mid mem ids now now' r1 s1 r2 s2 : (forall i j, ids i = ids j -> i = j) -> distinct_slots g s ->
  susus s !! g = Some grp -> sg_status grp = CONFIGURING -> sg_required grp = sg_accepted grp + 2 ->
  member_of userId g s = Some (mid, mem) -> mb_status mem = PENDING_CONTRACT ->
  transaction (acceptContract userId g ids now s) s = (Ok r1, s1) -> transaction (acceptContract userId g ids now' s) s1 = (Ok r2, s2) ->
  r2 = STARTED /\ forall m x, m <> mid -> smembers s !! m = Some x -> mb_group x = g -> mb_status x = PENDING_CONTRACT ->
    smembers s2 !! m = Some x /\ ~ In (m, x) (cycle_members g s2) /\ exists cy, cycles s2 !! ids (mb_slot x) = Some cy /\ cy_payoutUserId cy = mb_userId x.
Proof.
  intros Hinj Hd Hg Hconf Hreq Hmem Hpend Hr1 Hr2.
  apply tx_cases in Hr1 as [(y1 & [= ->] & Hr1) | (e & [=] & _)]. apply tx_cases in Hr2 as [(y2 & [= ->] & Hr2) | (e & [=] & _)].
  apply accept_contract_Ok in Hr1 as (mid1 & mem1 & Hm1 & Hcase). rewrite Hmem in Hm1. injection Hm1 as <- <-. destruct Hcase as [(_ & _ & Hx) | (_ & x1 & grp1 & Hx1 & Hg1 & Hcase)]; [congruence |].
  apply member_of_in in Hmem as Hmem'. destruct Hmem' as [Hlook Hgrp]. assert (x1 = mem) as -> by congruence. assert (grp1 = grp) as -> by congruence.
  assert (Hcn : complete_now grp = false) by (unfold complete_now; rewrite (proj2 (Z.leb_gt _ _)) by lia; done).
  destruct Hcase as [(_ & _ & ->) | (Hcn' & _)]; [| congruence].
  apply accept_contract_Ok in Hr2 as (mid2 & mem2 & Hm2 & Hcase). rewrite Hmem in Hm2. injection Hm2 as <- <-. destruct Hcase as [(_ & _ & Hx) | (_ & x2 & grp2 & Hx2 & Hg2 & Hcase)]; [congruence |].
  cbn [signed_state set_susus set_smembers smembers susus] in Hx2, Hg2. rewrite lookup_insert_eq in Hx2. rewrite lookup_insert_eq in Hg2. injection Hx2 as <-. injection Hg2 as <-.
  assert (Hcn2 : complete_now (one_accepted grp) = true) by (unfold complete_now; cbn; rewrite (proj2 (Z.leb_le _ _)), bool_decide_true by (done || lia); done).
  destruct Hcase as [(Hcn' & _) | (_ & -> & iv & _ & ->)]; [congruence |]. split; [done |]. intros m x Hne Hx Hxg Hxp.
  set (s1 := signed_state mid g (signed now mem) _ _ _). assert (Hsm : smembers s1 = <[mid := signed now' mem]> (smembers s)).
  { unfold s1. cbn. by rewrite insert_insert_eq. }
  assert (Hxs : smembers s1 !! m = Some x) by (by rewrite Hsm, lookup_insert_ne). split_and!; [exact Hxs | |].
  - unfold cycle_members. intros [_ Hst]%filter_In. cbn in Hst. rewrite Hxp in Hst. done.
  - assert (Hd1 : distinct_slots g s1).
    { assert (Hold : forall i z, smembers s1 !! i = Some z -> exists z0, smembers s !! i = Some z0 /\ mb_group z0 = mb_group z /\ mb_slot z0 = mb_slot z).
      { rewrite Hsm. intros i z [[<- <-] | [_ Hz]]%lookup_insert_Some; eauto. }
      intros i z j w Hi Hj Hzg Hwg Hs. apply Hold in Hi as (z0 & Hi & G1 & S1), Hj as (w0 & Hj & G2 & S2). eapply (Hd i z0 j w0); congruence. }
    pose proof (new_cycles_lookup g (one_accepted (one_accepted grp)) iv (d_times (sg_contribution grp) (sg_totalCycles grp)) ids (group_list g s1) (cycles s) x
      (group_list_nodup _ _ _ Hinj Hd1) (group_list_in _ _ _ _ Hxs Hxg)) as Hl.
    eexists. split; [exact Hl | done].
Qed.
(** ** Repeated penalties *)

Definition strikes (u : Z) (s : sdb) : option Z := sd_strikeCount <$> standings s !! u.
Definition known (u : Z) (s : sdb) : Prop := is_Some (profiles (vlt s) !! u).

Lemma penalties_standing l s : standings (foldl (fun s v => penalize v s) s l) = standings s /\ vlt (foldl (fun s v => penalize v s) s l) = vlt s.
Proof. revert s. induction l as [| v l IH]; intros s; [done |]. exact (IH (penalize v s)). Qed.

(** A penalty adds one strike, to its user only. *)
Lemma handle_strikes u v k s : strikes u s = Some k -> known u s ->
  strikes u (_handleDefault v s) = Some (if v =? u then k + 1 else k) /\ known u (_handleDefault v s).
Proof.
  unfold strikes, known, _handleDefault, transaction, freeze_user. intros Hk Hp. rewrite get_bind. destruct (standings s !! u) as [d |] eqn:Hd; [| done]. injection Hk as Hk.
  destruct (profiles (vlt s) !! v) as [p |] eqn:Hpv; [| destruct (Z.eqb_spec v u) as [-> |]; [rewrite Hpv in Hp; by destruct Hp | cbn; rewrite Hd; cbn; by rewrite Hk]].
  destruct (standings s !! v) as [d' |] eqn:Hdv; [| destruct (Z.eqb_spec v u) as [-> |]; [congruence | cbn; rewrite Hd; cbn; by rewrite Hk]].
  cbv [put]. destruct (penalties_standing (vouchers v (set_standings (<[v := Standing (sd_vendorXp d') (sd_loyaltyTier d') (sd_role d') (sd_strikeCount d' + 1)]> (standings s))
        (set_vlt (set_profiles (<[v := Profile BANNED_INDEF (pf_isDeleted p) (pf_azmBalance p)]> (profiles (vlt s))) (vlt s)) s)))
     (set_standings (<[v := Standing (sd_vendorXp d') (sd_loyaltyTier d') (sd_role d') (sd_strikeCount d' + 1)]> (standings s))
        (set_vlt (set_profiles (<[v := Profile BANNED_INDEF (pf_isDeleted p) (pf_azmBalance p)]> (profiles (vlt s))) (vlt s)) s))) as [Hst Hvl].
  rewrite Hst, Hvl. cbn. destruct (Z.eqb_spec v u) as [-> | Hne].
  - rewrite !lookup_insert_eq. rewrite Hd in Hdv. injection Hdv as <-. cbn. rewrite Hk. done.
  - rewrite !lookup_insert_ne by done. rewrite Hd. cbn. by rewrite Hk.
Qed.

Lemma defaults_strikes u l k s : strikes u s = Some k -> known u s ->
  strikes u (foldl (fun s v => _handleDefault v s) s l) = Some (k + Z.of_nat (length (List.filter (fun v => v =? u) l))).
Proof.
  revert k s. induction l as [| v l IH]; intros k s Hk Hp; [cbn; rewrite Hk; f_equal; lia |]. cbn [foldl List.filter].
  destruct (handle_strikes u v k s Hk Hp) as [Hk' Hp']. rewrite (IH _ _ Hk' Hp'). destruct (v =? u); f_equal; cbn [length]; lia.
Qed.

Lemma set_money_same s : set_vlt (set_bank (money s) (vlt s)) s = s.
Proof. by destruct s as [[]]. Qed.

Lemma collect_standing c m mem a stamp now s o s' : sinv s -> 0 <= a -> transaction (collect_tx sha256 c m mem a stamp now) s = (o, s') ->
  standings s' = standings s /\ profiles (vlt s') = profiles (vlt s).
Proof.
  intros Hi Ha Hr. apply tx_cases in Hr as [(x & _ & Hr) | (e & _ & ->)]; [| done]. pose proof (vi_columns _ (si_vault s Hi)) as Hcol.
  apply collect_tx_Ok in Hr as [[_ ->] | [_ [(_ & _ & _ & Hcf) | (_ & Hlt & y & _ & _ & Hcf)]]]; [done | | | done | done];
    rewrite (cf_standings _ _ _ _ _ _ _ Hcf), (cf_vlt _ _ _ _ _ _ _ Hcf); done.
Qed.

(** A collection that reached the end lists every member that was in default
    before it. *)
Lemma collect_all_defaulted c a stamp now ms paid defaulted s p d s' : sinv s -> 0 <= a -> (forall q, In q ms -> 0 <= mb_userId q.2) ->
  collect_all sha256 c a stamp now ms paid defaulted s = (Ok (p, d), s') ->
  standings s' = standings s /\ profiles (vlt s') = profiles (vlt s) /\
  (forall u, In u defaulted -> In u d) /\ forall q, In q ms -> mb_status q.2 = MEMBER_DEFAULTED -> In (mb_userId q.2) d.
Proof.
  revert paid defaulted s. induction ms as [| [m mem] ms IH]; intros paid defaulted s Hi Ha Hu Hr; [injection Hr as _ <- <-; by split_and! |].
  assert (Hu' : forall q, In q ms -> 0 <= mb_userId q.2) by (intros q Hq; apply Hu; by right). cbn [collect_all] in Hr. destruct (bool_decide_reflect (mb_status mem = MEMBER_DEFAULTED)) as [Hst | Hst].
  - destruct (IH _ _ _ Hi Ha Hu' Hr) as (H1 & H2 & H3 & H4). split_and!; [done | done | intros u Hin; apply H3, in_or_app; by left |].
    intros q [<- | Hq] Hs; [apply H3, in_or_app; right; by left | by apply H4].
  - destruct (transaction (collect_tx _ _ _ _ _ _ _) s) as [o s1] eqn:Ht. destruct (collect_standing _ _ _ _ _ _ _ _ _ Hi Ha Ht) as [E1 E2].
    assert (Hs : step s s1) by (eapply ss_collect; [exact (Hu _ (or_introl eq_refl)) | exact Ha | exact Ht]). pose proof (proj1 (step_susu _ _ _ _ _ _ _ Hi Hs)) as Hi1.
    destruct o as [[| | | z sh] | e]; try done; destruct (IH _ _ _ Hi1 Ha Hu' Hr) as (H1 & H2 & H3 & H4).
    all: split_and!; [congruence | congruence | intros u Hin; apply H3; try done; apply in_or_app; by left | intros q [<- | Hq] Hs'; [done | by apply H4]].
Qed.
Lemma reward_standing newIds g s : standings (reward_members on newIds g s) = standings s.
Proof.
  unfold reward_members. destruct on; [| done]. generalize (List.filter (fun p => bool_decide (mb_status p.2 = MEMBER_ACTIVE)) (group_members g s)) as l.
  intros l. revert s. induction l as [| p l IH]; intros s; [done |]. cbn [foldl]. by rewrite IH.
Qed.

(** The strikes of a reported tick: one for every entry of its list of users in
    default. *)
Lemma report_strikes newIds c now before s p d t f n s' u k cy : sinv s -> tables_wf before -> fits c before s ->
  processCycle sha256 on newIds c now before s = (Ok (Report p d t f n), s') -> cycles before !! c = Some cy -> strikes u s = Some k -> known u s ->
  exists l, length l = d /\ strikes u s' = Some (k + Z.of_nat (length (List.filter (fun v => v =? u) l))) /\
    forall q, In q (cycle_members (cy_group cy) before) -> mb_status q.2 = MEMBER_DEFAULTED -> In (mb_userId q.2) l.
Proof.
  intros Hi Hb Hfit Hr Hcy Hk Hp. unfold processCycle in Hr. rewrite Hcy in Hr. destruct (susus before !! cy_group cy) as [g |] eqn:Hg; [| done]. specialize (Hfit cy g Hcy Hg).
  destruct (transaction (claim_tx c now) s) as [o s1] eqn:Hcl. assert (Hs1 : step s s1) by (by eapply ss_claim). pose proof (proj1 (step_susu _ _ _ _ _ _ _ Hi Hs1)) as Hi1.
  assert (Hp1 : contribs s1 = contribs s /\ standings s1 = standings s /\ vlt s1 = vlt s).
  { apply tx_cases in Hcl as [(x & _ & Hx) | (e & _ & ->)]; [| done]. by apply cycle_updateMany_Ok in Hx as [(_ & -> & _) | (_ & y & _ & _ & _ & ->)]. }
  destruct Hp1 as (E1 & E2 & E3). destruct o as [j | e]; [| done]. destruct (negb _); [done |]. pose proof (tw_groups before Hb _ _ Hg) as Ha.
  assert (Hus : forall q, In q (cycle_members (cy_group cy) before) -> 0 <= mb_userId q.2).
  { intros q Hq. apply filter_In in Hq as [Hq _]. apply group_members_in in Hq as [Hq _]. by eapply (tw_members before Hb). }
  destruct (collect_all _ _ _ _ _ _ _ _ s1) as [[[paid l] | e] s2] eqn:Hca; [| done].
  destruct (collect_all_steps _ _ _ _ _ _ _ _ _ _ Hi1 Ha Hus Hca) as [Hs2 Hb2]. destruct (collect_all_defaulted _ _ _ _ _ _ _ _ _ _ _ Hi1 Ha Hus Hca) as (F1 & F2 & _ & Hall).
  exists l. assert (H3 : strikes u (foldl (fun s v => _handleDefault v s) s2 l) = Some (k + Z.of_nat (length (List.filter (fun v => v =? u) l)))).
  { apply defaults_strikes; unfold strikes, known in *; [by rewrite F1, E2 | by rewrite F2, E3]. }
  destruct (defaults_steps l s2) as [Hs3 Hc3]. set (s3 := foldl _ s2 l) in *. pose proof (proj1 (steps_susu _ _ _ _ _ _ _ (proj1 (steps_susu _ _ _ _ _ _ _ Hi1 Hs2)) Hs3)) as Hi3.
  assert (Hpool : pool_of c s3 <= POOL_MAX). { rewrite pool_of_sum, Hc3, <- pool_of_sum. rewrite (pool_of_sum c s1), E1, <- pool_of_sum in Hb2. lia. }
  destruct (transaction (payout_tx _ _ _ _ _ _) s3) as [o4 s4] eqn:Hpay. destruct o4 as [[[[t' f'] n'] |] | e]; [| done..].
  assert (H4 : standings s4 = standings s3).
  { apply transaction_Ok in Hpay. apply payout_tx_Ok in Hpay as [[Hx _] | (cy' & t1 & f1 & n1 & _ & _ & _ & _ & Hpf)]; [done | | by apply sinv_cycle_wf | done | by apply si_pct].
    exact (pf_standings _ _ _ _ _ _ _ _ _ _ Hpf). }
  assert (H5 : length l = d /\ standings s' = standings s4); [| destruct H5 as [Hd H5]; split_and!; [done | unfold strikes in *; by rewrite H5, H4 | exact Hall]].
  destruct (_ =? 0)%nat; [| injection Hr as _ <- _ _ _ <-; done]. destruct (transaction (susu_update _ _) s4) as [o5 s5] eqn:Hcomp. destruct o5 as [y | e]; [| done].
  injection Hr as _ <- _ _ _ <-. split; [done |]. rewrite reward_standing. apply transaction_Ok, susu_update_Ok in Hcomp as (g1 & _ & _ & ->). done.
Qed.

(** One default is punished again in every later cycle.  A tick counts every
    member who was already in default among the defaults of its own cycle: the
    member, who cannot be asked to contribute any more, gets another strike,
    and the cycle is recorded as one with defaults. *)
Theorem default_penalized_again newIds c now before s p d t f n s' cy m mem k : sinv s -> tables_wf before -> fits c before s ->
  processCycle sha256 on newIds c now before s = (Ok (Report p d t f n), s') -> cycles before !! c = Some cy ->
  In (m, mem) (cycle_members (cy_group cy) before) -> mb_status mem = MEMBER_DEFAULTED -> strikes (mb_userId mem) s = Some k -> known (mb_userId mem) s ->
  (0 < d)%nat /\ exists k', strikes (mb_userId mem) s' = Some k' /\ k + 1 <= k'.
Proof.
  intros Hi Hb Hfit Hr Hcy Hin Hst Hk Hp. destruct (report_strikes _ _ _ _ _ _ _ _ _ _ _ _ _ _ Hi Hb Hfit Hr Hcy Hk Hp) as (l & <- & Hs' & Hall).
  specialize (Hall _ Hin Hst). cbn [snd] in Hall. split; [destruct l; [done | cbn; lia] |]. eexists. split; [exact Hs' |].
  assert (Hf : In (mb_userId mem) (List.filter (fun v => v =? mb_userId mem) l)) by (apply filter_In; by rewrite Z.eqb_refl).
  destruct (List.filter _ l); [done | cbn [length]; lia].
Qed.
(** ** The audit of a recipient *)

Lemma moves_known ds m m' u : moves ds m m' -> is_Some (m !! u) -> is_Some (m' !! u).
Proof.
  induction 1 as [| id d r ds m m' Hr Hok _ IH]; intros Hu; [done |]. apply IH.
  destruct (decide (u = id)) as [-> | Hne]; [rewrite lookup_insert_eq; by eexists | by rewrite lookup_insert_ne].
Qed.


(** The two rows of a payout, against a balance that grew by the first. *)
Lemma audit_payout C a n f : 0 <= a -> 0 <= n -> a + n <= SAFE_UNITS -> 10 ^ 6 <= f <= SAFE_UNITS -> js_lt TOLERANCE (Qabs (js_sub C (Number_of_units a))) = false ->
  js_lt TOLERANCE (Qabs (js_sub (js_sub (js_add (js_sub (js_add C (Number_of_units n)) (Number_of_units 0)) (Number_of_units (- f))) (Number_of_units 0)) (Number_of_units (a + n)))) = true.
Proof.
  intros Ha Hn Hsum Hf Hb. pose proof (tolerated_close C a ltac:(lia) Hb) as Hc. revert Hb. apply gap_detected; [lia | lia |].
  pose proof (close_Number n ltac:(lia)) as Cn. pose proof (close_Number (- f) ltac:(lia)) as Cf. unfold close in Cn, Cf.
  assert (Hia : (0 <= inject_Z a <= 1000000000000000)%Q) by (change 1000000000000000%Q with (inject_Z 1000000000000000); change 0%Q with (inject_Z 0); rewrite <- !Zle_Qle; unfold SAFE_UNITS in Hsum; lia).
  assert (Hin : (0 <= inject_Z n <= 1000000000000000)%Q) by (change 1000000000000000%Q with (inject_Z 1000000000000000); change 0%Q with (inject_Z 0); rewrite <- !Zle_Qle; unfold SAFE_UNITS in Hsum; lia).
  assert (Hif : (1000000 <= inject_Z f <= 1000000000000000)%Q) by (change 1000000000000000%Q with (inject_Z 1000000000000000); change 1000000%Q with (inject_Z 1000000); rewrite <- !Zle_Qle; unfold SAFE_UNITS in Hf; lia).
  rewrite inject_Z_opp in Cf. rewrite inject_Z_plus. set (N := Number_of_units n) in *. set (F := Number_of_units (- f)) in *. change (Number_of_units 0) with 0%Q. unfold js_add, js_sub.
  apply Qabs_Qle_condition in Hc, Cn, Cf.
  assert (Hstep : forall x, (Qabs x <= 100000000)%Q -> (Qabs (fl x - x) <= 1 # 20000000)%Q).
  { intros x Hx. eapply Qle_trans; [apply fl_error' |]. lra. }
  assert (E1 : (Qabs (fl (C + N) - (C + N)) <= 1 # 20000000)%Q) by (apply Hstep, Qabs_Qle_condition; lra). set (X1 := fl (C + N)) in *. apply Qabs_Qle_condition in E1.
  assert (E2 : (Qabs (fl (X1 - 0) - (X1 - 0)) <= 1 # 20000000)%Q) by (apply Hstep, Qabs_Qle_condition; lra). set (X2 := fl (X1 - 0)) in *. apply Qabs_Qle_condition in E2.
  assert (E3 : (Qabs (fl (X2 + F) - (X2 + F)) <= 1 # 20000000)%Q) by (apply Hstep, Qabs_Qle_condition; lra). set (X3 := fl (X2 + F)) in *. apply Qabs_Qle_condition in E3.
  assert (E4 : (Qabs (fl (X3 - 0) - (X3 - 0)) <= 1 # 20000000)%Q) by (apply Hstep, Qabs_Qle_condition; lra). set (X4 := fl (X3 - 0)) in *. apply Qabs_Qle_condition in E4.
  rewrite Qabs_Qminus. eapply Qle_trans; [| apply Qle_Qabs]. lra.
Qed.

(** A payout shuts its recipient out of smart escrow.  The history records
    the net amount and, as an expense of the recipient, the fee, but the
    balance received the net amount only: whenever the fee is at least a cent,
    the audit before an escrow funding, if it passed before, reports an
    inconsistency afterwards and every funding by the recipient is refused. *)
Theorem susu_payout_blocks_escrow s c u d stamp now t f n s' : sinv s -> 0 <= u -> pool_of c s <= POOL_MAX -> avail u (money s) + n <= SAFE_UNITS -> 0 < f ->
  runDoubleCheck u (money s) = Ok tt -> transaction (payout_tx sha256 c u d stamp now) s = (Ok (Some (t, f, n)), s') ->
  runDoubleCheck u (money s') = Err "[DoubleCheck] LEDGER INCONSISTENCY DETECTED" /\
  forall id now ref op w, exists e, fundEscrow sha256 wire id u now ref op (money s') w = (Err e, w).
Proof.
  intros Hi Hu Hmax Hsafe Hpos Hck Hr.
  assert (Hcheck : runDoubleCheck u (money s') = Err "[DoubleCheck] LEDGER INCONSISTENCY DETECTED"); [| split; [exact Hcheck | by apply audit_refuses]].
  destruct (payout_effects _ _ _ _ _ _ _ _ _ _ Hi Hu Hmax Hr) as (Ht & Hfee & Hsum & Hfr & Hav & _). specialize (Hav u). rewrite Z.eqb_refl in Hav. apply transaction_Ok in Hr.
  apply payout_tx_Ok in Hr as [[Hx _] | (cy & t1 & f1 & n1 & _ & _ & Hx & _ & Hpf)]; [done | | by apply sinv_cycle_wf | done | by apply si_pct]. injection Hx as <- <- <-.
  pose proof (pf_effect _ _ _ _ _ _ _ _ _ _ Hpf) as Hef. pose proof (pe_hist _ _ _ _ _ _ Hef) as Hh. pose proof (pe_users _ _ _ _ _ _ Hef) as Hmv.
  unfold runDoubleCheck in *. destruct (users (money s) !! u) as [row |] eqn:Hrow; [| done]. apply throw_if_Ok in Hck.
  assert (Hrow' : is_Some (users (money s') !! u)) by (eapply moves_known; [exact Hmv | by eexists]). destruct Hrow' as [row' Hrow']. rewrite Hrow'.
  unfold avail, bucket in Hav, Hsafe. rewrite Hrow, Hrow' in Hav. rewrite Hrow in Hsafe. cbn in Hav, Hsafe. rewrite Hh, filter_app'. simpl. rewrite Z.eqb_refl. simpl. rewrite foldl_app. cbn [foldl].
  unfold audit_add at 1 2. cbn [hs_amountUsdc hs_feeUsdc hs_type].
  change (is_withdrawal (OTHER_TYPE "SUSU_PAYOUT")) with false. change (is_withdrawal (OTHER_TYPE "SUSU_PROFIT")) with false. cbv beta iota zeta.
  unfold throw_if. rewrite Hav, audit_payout; [done | | lia | lia | | exact Hck].
  - eapply columns_avail; [| exact Hrow]. by apply vi_columns, si_vault.
  - unfold SAFE_UNITS, POOL_MAX in *. rewrite Hfee in Hpos |- *. set (q := t * default 300 (susuProfitPct s) / 10 ^ 10) in *. lia.
Qed.
End Theorems.

(** ** A concrete group

    Users 1, 2 and 9 hold 100, 5 and 0 USDC and save 10 USDC a week.  User 1 is
    the admin of the chat and comes first; users 2 and 9 default in the first
    cycle.  In another run user 1 signs twice at once. *)
Definition circle_vault : vdb :=
  VDB run_open ∅ ∅ {[ 1 := Profile BAN_ACTIVE false 0; 2 := Profile BAN_ACTIVE false 0; 9 := Profile BAN_ACTIVE false 0 ]} ∅ ∅.
Definition circle_id (p q : ascii) (n : Z) : string := String (if n <? 0 then q else p) (Z_digits (Z.abs n)).
Definition circle_open : sdb :=
  SDB circle_vault ∅ ∅ ∅ ∅ {[ "chat"%string := ChatRow None [ChatMember 2 false false; ChatMember 1 true false; ChatMember 9 false false] ]} ∅
    {[ 1 := Standing 500 GOLD USER 0; 2 := Standing 100 STANDARD USER 0; 9 := Standing 0 STANDARD USER 3 ]} None.
Definition circle_created : sdb := (transaction (createSusu "g" (circle_id "m" "n") 1 "chat" 10 WEEKLY (DateAt 0) 5 circle_open) circle_open).2.
Definition circle_accept (u now : Z) (before s : sdb) : res accept_result * sdb := transaction (@acceptContract Decimal20 u "g" (circle_id "c" "d") now before) s.
Definition circle_one : sdb := (circle_accept 2 6 circle_created circle_created).2.
Definition circle_two : sdb := (circle_accept 1 7 circle_one circle_one).2.
Definition circle_started : sdb := (circle_accept 9 8 circle_two circle_two).2.
Definition circle_early : sdb := (circle_accept 1 8 circle_one circle_two).2.
Definition circle_run (c : string) (now : Z) (s : sdb) : res cycle_result * sdb := @processCycle Decimal20 ToFixedColumn run_sha true (fun x => x) c now s s.
Definition circle_claimed : sdb := (transaction (claim_tx "c1" 10) circle_started).2.
Definition circle_member (m : string) (s : sdb) : member_row := default (MemberRow "" 0 0 0 REMOVED None None 0) (smembers s !! m).
Definition circle_collect (m : string) (s : sdb) : res collect_result * sdb :=
  transaction (@collect_tx Decimal20 run_sha "c1" m (circle_member m circle_started) 1000000000 10 10) s.
Definition circle_full : sdb := (circle_collect "m3" (circle_collect "m2" (circle_collect "m1" circle_claimed).2).2).2.
Definition circle_paid : sdb := (circle_run "c1" 10 circle_started).2.
Definition circle_again : sdb := (circle_run "c2" 700000000 circle_paid).2.
#[local] Abbreviation circle_step := (@sstep false Decimal20 ToFixedColumn run_sha run_wire save_wire save_wire_b true).

Example circle_balances :
  map (fun s => map (fun u => (avail u (money s), locked u (money s), strikes u s)) [1; 2; 9]) [circle_open; circle_full; circle_paid; circle_again] =
  [[(10000000000, 0, Some 0); (500000000, 0, Some 0); (0, 0, Some 3)]; [(9000000000, 1000000000, Some 0); (0, 500000000, Some 0); (0, 0, Some 3)];
   [(10455000000, 0, Some 0); (0, 0, Some 1); (0, 0, Some 4)]; [(9455000000, 0, Some 0); (970000000, 0, Some 2); (0, 0, Some 5)]].
Proof. vm_compute. reflexivity. Qed.

Lemma circle_id_inj p q : p <> q -> forall i j, circle_id p q i = circle_id p q j -> i = j.
Proof.
  unfold circle_id. intros Hne i j He. injection He as Hc Hd. apply Z_digits_inj in Hd; [| lia..].
  destruct (Z.ltb_spec i 0), (Z.ltb_spec j 0); try (by subst); lia.
Qed.

Lemma circle_id_uuid p q n : p <> ":"%char -> q <> ":"%char -> uuid_like (circle_id p q n).
Proof.
  intros Hp Hq. unfold uuid_like, circle_id. apply no_char_cons. split; [by destruct (n <? 0) |]. by eapply no_char_class, Z_digits_digits.
Qed.

Lemma circle_ids_uuid n : uuid_like (circle_id "c" "d" n).
Proof. by apply circle_id_uuid. Qed.

Lemma circle_open_sinv : sinv circle_open.
Proof.
  split; try (intros *; unfold posted_key; cbn; rewrite ?lookup_empty; (done || (intros; naive_solver))).
  - split; [apply run_open_einv | | | | | | |]; try (intros *; unfold posted_key; cbn; rewrite ?lookup_empty; (done || by intros [])). exact (vi_columns _ save_open_vinv).
  - split; try (intros *; cbn; by rewrite lookup_empty). intros i x Hx. cbn [chats circle_open] in Hx. apply lookup_singleton_Some in Hx as [_ <-]. intros y Hy. cbn in Hy. destruct Hy as [<- | [<- | [<- | []]]]; cbn; lia.
Qed.

(** Every state of the runs is reached by steps. *)
Lemma circle_reach_two : rtc circle_step circle_open circle_one /\ rtc circle_step circle_one circle_two.
Proof.
  split.
  - eapply rtc_l; [eapply (ss_create _ _ _ _ _ _ _ "g" (circle_id "m" "n") 1 "chat" 10 WEEKLY (DateAt 0) 5 circle_open); [exact (si_tables _ circle_open_sinv) | apply surjective_pairing] |].
    apply rtc_once. eapply (ss_accept _ _ _ _ _ _ _ 2 "g" (circle_id "c" "d")); [exact circle_ids_uuid | apply surjective_pairing].
  - apply rtc_once. eapply (ss_accept _ _ _ _ _ _ _ 1 "g" (circle_id "c" "d")); [exact circle_ids_uuid | apply surjective_pairing].
Qed.

Lemma circle_reach_started : rtc circle_step circle_open circle_started.
Proof.
  destruct circle_reach_two as [H1 H2]. etransitivity; [exact H1 |]. eapply rtc_r; [exact H2 |].
  eapply (ss_accept _ _ _ _ _ _ _ 9 "g" (circle_id "c" "d")); [exact circle_ids_uuid | apply surjective_pairing].
Qed.

Lemma circle_sinv s : rtc circle_step circle_open s -> sinv s.
Proof. intros Hr. exact (proj1 (steps_susu _ _ _ _ _ _ _ circle_open_sinv Hr)). Qed.

Lemma circle_reach_full : rtc circle_step circle_open circle_claimed /\ rtc circle_step circle_claimed circle_full.
Proof.
  split; [eapply rtc_r; [exact circle_reach_started | eapply ss_claim, surjective_pairing] |].
  assert (Hc : forall m s, 0 <= mb_userId (circle_member m circle_started) -> circle_step s (circle_collect m s).2) by (intros m s Hm; eapply (ss_collect _ _ _ _ _ _ _ "c1" m (circle_member m circle_started) 1000000000 10 10); [exact Hm | lia | apply surjective_pairing]).
  eapply rtc_l; [apply (Hc "m1"%string); vm_compute; discriminate |]. eapply rtc_l; [apply (Hc "m2"%string); vm_compute; discriminate |].
  apply rtc_once, (Hc "m3"%string). vm_compute. discriminate.
Qed.

(** The hypothesis [fits] for a cycle whose rows are known. *)
Lemma circle_fits c s cy g : cycles s !! c = Some cy -> susus s !! cy_group cy = Some g ->
  pool_of c s + sg_contribution g * Z.of_nat (length (cycle_members (cy_group cy) s)) <= POOL_MAX -> fits c s s.
Proof. intros Hc Hg Hle cy' g' Hc' Hg'. assert (cy' = cy) as -> by congruence. assert (g' = g) as -> by congruence. exact Hle. Qed.

Lemma circle_first_fits : fits "c1" circle_started circle_started.
Proof. eapply circle_fits; [vm_compute; reflexivity | vm_compute; reflexivity | vm_compute; discriminate]. Qed.
Lemma circle_second_fits : fits "c2" circle_paid circle_paid.
Proof. eapply circle_fits; [vm_compute; reflexivity | vm_compute; reflexivity | vm_compute; discriminate]. Qed.

Lemma circle_reach_paid : rtc circle_step circle_open circle_paid /\ rtc circle_step circle_paid circle_again.
Proof.
  pose proof (circle_sinv _ circle_reach_started) as Hi. assert (H1 : rtc circle_step circle_open circle_paid).
  { etransitivity; [exact circle_reach_started |]. exact (process_steps _ _ _ _ _ _ _ _ _ _ _ _ Hi (si_tables _ Hi) circle_first_fits (surjective_pairing _)). }
  split; [exact H1 |]. pose proof (circle_sinv _ H1) as Hp. exact (process_steps _ _ _ _ _ _ _ _ _ _ _ _ Hp (si_tables _ Hp) circle_second_fits (surjective_pairing _)).
Qed.

Lemma circle_reach_again : rtc circle_step circle_open circle_again.
Proof. destruct circle_reach_paid as [H1 H2]. etransitivity; [exact H1 | exact H2]. Qed.
Lemma circle_reach_collected : rtc circle_step circle_open circle_full.
Proof. destruct circle_reach_full as [H1 H2]. etransitivity; [exact H1 | exact H2]. Qed.

Lemma susu_books_kept_witness : customers (money circle_again) = 10425000000 /\ locked 1 (money circle_full) = 1000000000.
Proof.
  destruct (@susu_books_kept false Decimal20 ToFixedColumn run_sha run_wire save_wire save_wire_b true circle_open circle_again circle_open_sinv circle_reach_again) as (Ht & _).
  destruct (@susu_books_kept false Decimal20 ToFixedColumn run_sha run_wire save_wire save_wire_b true circle_open circle_full circle_open_sinv circle_reach_collected) as (_ & _ & _ & Hl). specialize (Hl 1).
  assert (R : net REVENUE (ledger (money circle_again)) - net REVENUE (ledger (money circle_open)) = -75000000) by (vm_compute; reflexivity).
  assert (C : customers (money circle_open) + vault_total (vlt circle_open) = 10500000000 /\ vault_total (vlt circle_again) = 0) by (split; vm_compute; reflexivity).
  assert (L : held LIVE 1 (money circle_full) - held LIVE 1 (money circle_open) + (pool_sum (from_user 1) circle_full - pool_sum (from_user 1) circle_open) = 1000000000)
    by (vm_compute; reflexivity).
  assert (L0 : locked 1 (money circle_open) = 0) by (vm_compute; reflexivity). change (@slack false) with 0 in Ht. split; lia.
Defined.

Lemma cycle_settles_once_witness : (exists r, contribs circle_again !! ("c1", "m2")%string = Some r /\ cb_status r = CB_SEIZED) /\
  (circle_run "c1" 900000000 circle_again).2 = circle_again.
Proof.
  destruct circle_reach_paid as [H1 H2]. destruct (@cycle_settles_once false Decimal20 ToFixedColumn run_sha run_wire save_wire save_wire_b true circle_paid circle_again (circle_sinv _ H1) H2) as [Hm Hc]. split.
  - assert (Hr : exists r, contribs circle_paid !! ("c1", "m2")%string = Some r /\ cb_status r = CB_SEIZED) by (eexists; split; vm_compute; reflexivity).
    destruct Hr as (r & Hr & Hst). exists r. split; [exact (proj1 (Hm _ _ _ Hr)) | exact Hst].
  - assert (Hs : exists cy, cycles circle_paid !! "c1"%string = Some cy /\ settled cy = true) by (eexists; split; vm_compute; reflexivity).
    destruct Hs as (cy & Hcy & Hst). exact (proj2 (proj2 (Hc _ _ Hcy Hst)) (fun x => x) 900000000 circle_again).
Defined.

Lemma tick_owns_cycle_witness : transaction (claim_tx "c1" 300000) circle_claimed = (Ok 0%nat, circle_claimed) /\
  transaction (@payout_tx Decimal20 run_sha "c1" 1 0 11 11) circle_claimed = (Ok None, circle_claimed).
Proof.
  assert (Hs : exists cy, cycles circle_claimed !! "c1"%string = Some cy /\ owned 10 cy = true) by (eexists; split; vm_compute; reflexivity). destruct Hs as (cy & Hcy & Ho).
  destruct (@tick_owns_cycle Decimal20 run_sha circle_claimed "c1" cy 10 Hcy Ho) as [Hc Hlost]. split; [apply Hc; vm_compute; reflexivity |].
  exact (proj1 (proj2 (Hlost 11 ltac:(discriminate))) 1 0%nat 11).
Defined.

Lemma no_cycle_strands_witness : exists cy s2, due_cycles 300010 circle_full = [("c1"%string, cy)] /\ cy_status cy = COLLECTING /\
  transaction (claim_tx "c1" 300010) circle_full = (Ok 1%nat, s2) /\ cycles s2 !! "c1"%string = Some (collecting 300010 cy).
Proof.
  assert (Hs : exists cy g, due_cycles 300010 circle_full = [("c1"%string, cy)] /\ cycles circle_full !! "c1"%string = Some cy /\ settled cy = false /\ cy_status cy = COLLECTING /\ cy_startedAt cy = Some 10 /\
    (cy_collectionDate cy <=? 300010) = true /\ susus circle_full !! cy_group cy = Some g /\ sg_contractVersion g = None) by (do 2 eexists; split_and!; vm_compute; reflexivity).
  destruct Hs as (cy & g & Hd & Hcy & Ho & Hst & Hat & Hdue & Hg & Hv).
  destruct (@no_cycle_strands false Decimal20 ToFixedColumn run_sha run_wire save_wire save_wire_b true circle_open circle_full "c1" cy g (fun x => x) 300010
    circle_open_sinv circle_reach_collected Hcy Ho (proj1 (Z.leb_le _ _) Hdue) Hg Hv) as [_ Hall].
  { intros t Ht. rewrite Hat in Ht. injection Ht as <-. vm_compute. discriminate. }
  destruct (Hall [] [] Hd) as (_ & _ & s2 & Hcl & Hrow & _). exists cy, s2. split; [exact Hd |]. split; [exact Hst |]. split; [exact Hcl | exact Hrow].
Defined.

Lemma collection_exact_witness : avail 1 (money (circle_collect "m1" circle_claimed).2) = 9000000000.
Proof.
  assert (Hr : circle_collect "m1" circle_claimed = (Ok Paid, (circle_collect "m1" circle_claimed).2)) by (vm_compute; reflexivity).
  destruct (@collection_exact Decimal20 run_sha circle_claimed "c1" "m1" (circle_member "m1" circle_started) 1000000000 10 10 Paid _
    (circle_sinv _ (proj1 circle_reach_full)) ltac:(split; vm_compute; congruence) Hr) as [Hs | (x & row & Hx & _ & _ & _ & Ha & _)].
  - exfalso. assert (Hd : contribs (circle_collect "m1" circle_claimed).2 !! ("c1", "m1")%string = contribs circle_claimed !! ("c1", "m1")%string) by (rewrite Hs; reflexivity). vm_compute in Hd. discriminate.
  - rewrite Ha, Hx. vm_compute. reflexivity.
Defined.

Definition circle_payout : res (option (Z * Z * Z)) * sdb := transaction (@payout_tx Decimal20 run_sha "c1" 1 2 10 10) circle_full.
Lemma circle_payout_Ok : circle_payout = (Ok (Some (1500000000, 45000000, 1455000000)), circle_payout.2).
Proof. vm_compute. reflexivity. Qed.
Lemma circle_pool : pool_of "c1" circle_full <= POOL_MAX.
Proof. vm_compute. discriminate. Qed.

Lemma payout_exact_witness : avail 1 (money circle_payout.2) = 10455000000 /\ is_settled circle_payout.2 "c1" = true.
Proof.
  destruct (@payout_exact Decimal20 run_sha circle_full "c1" 1 2 10 10 1500000000 45000000 1455000000 circle_payout.2
    (circle_sinv _ circle_reach_collected) ltac:(lia) circle_pool circle_payout_Ok) as (_ & _ & _ & _ & Ha & _ & _ & _ & Hst).
  split; [rewrite (Ha 1); vm_compute; reflexivity | exact Hst].
Defined.

Lemma susu_payout_blocks_escrow_witness : runDoubleCheck 1 (money circle_full) = Ok tt /\
  runDoubleCheck 1 (money circle_payout.2) = Err "[DoubleCheck] LEDGER INCONSISTENCY DETECTED"%string.
Proof.
  assert (Hck : runDoubleCheck 1 (money circle_full) = Ok tt) by (vm_compute; reflexivity). split; [exact Hck |].
  refine (proj1 (@susu_payout_blocks_escrow Decimal20 ToFixedColumn run_sha run_wire circle_full "c1" 1 2 10 10 1500000000 45000000 1455000000 circle_payout.2
    (circle_sinv _ circle_reach_collected) ltac:(lia) circle_pool _ ltac:(lia) Hck circle_payout_Ok)). vm_compute. discriminate.
Defined.

Lemma susu_calls_refine_witness : rtc circle_step circle_started circle_paid /\
  rtc circle_step circle_started (@susu_tick Decimal20 ToFixedColumn run_sha true (fun x => x) 10 circle_started).
Proof.
  pose proof (circle_sinv _ circle_reach_started) as Hi.
  destruct (@susu_calls_refine false Decimal20 ToFixedColumn run_sha run_wire save_wire save_wire_b true circle_started Hi) as [Hp Ht]. split.
  - exact (Hp _ _ _ _ _ _ (si_tables _ Hi) circle_first_fits (surjective_pairing _)).
  - refine (proj1 (Ht (fun x => x) 10 _)). assert (Hd : exists cy, due_cycles 10 circle_started = [("c1"%string, cy)]) by (eexists; vm_compute; reflexivity).
    destruct Hd as [cy ->]. split; [exact circle_first_fits | exact I].
Defined.

Lemma rotation_ranks_witness : exists grp, susus circle_created !! "g"%string = Some grp /\ map sl_userId (sg_rotation grp) ≡ₚ [2; 1; 9] /\ map sl_slot (sg_rotation grp) = [1; 2; 3].
Proof.
  assert (Hr : transaction (createSusu "g" (circle_id "m" "n") 1 "chat" 10 WEEKLY (DateAt 0) 5 circle_open) circle_open = (Ok tt, circle_created)) by (vm_compute; reflexivity).
  destruct (rotation_ranks "g" (circle_id "m" "n") 1 "chat" 10 WEEKLY (DateAt 0) 5 circle_open circle_open tt circle_created
    (circle_id_inj "m" "n" ltac:(discriminate)) Hr) as (ch & grp & Hch & Hg & _ & _ & Hp & Hs & _).
  exists grp. vm_compute in Hch. injection Hch as <-. split; [exact Hg |]. split; [exact Hp | exact Hs].
Defined.

(** A check of every member row. *)
Lemma scan_members (P : string -> member_row -> bool) s : forallb (fun p => P p.1 p.2) (map_to_list (smembers s)) = true -> forall m x, smembers s !! m = Some x -> P m x = true.
Proof. rewrite forallb_forall. intros Hall m x Hx. apply (Hall (m, x)). by apply list_elem_of_In, elem_of_map_to_list. Qed.

Definition unsigned_ok (x : member_row) : bool := match mb_status x, mb_acceptedAt x with PENDING_CONTRACT, Some _ | PENDING_VOUCH, Some _ => false | _, _ => true end.
Lemma unsigned_pending x : unsigned_ok x = true -> pending x -> mb_acceptedAt x = None.
Proof. unfold unsigned_ok. intros Hu [Hp | Hp]; rewrite Hp in Hu; by destruct (mb_acceptedAt x). Qed.

Lemma circle_two_ok : contract_ok "g" circle_two.
Proof.
  assert (Hall : forallb (fun p => unsigned_ok p.2) (map_to_list (smembers circle_two)) = true) by (vm_compute; reflexivity).
  assert (Hg : exists grp, susus circle_two !! "g"%string = Some grp /\ sg_accepted grp = signed_count "g" circle_two /\ sg_required grp = member_count "g" circle_two)
    by (eexists; split; [vm_compute; reflexivity | split; vm_compute; reflexivity]).
  destruct Hg as (grp & Hg & Hc). split.
  - intros grp' Hg'. rewrite Hg in Hg'. injection Hg' as <-. exact Hc.
  - intros m x Hx. apply unsigned_pending, (scan_members (fun _ x => unsigned_ok x) _ Hall _ _ Hx).
Qed.

Lemma contract_signed_by_all_witness : has_signed (circle_member "m1" circle_started) = true /\ contract_ok "g" circle_started.
Proof.
  assert (Hr : transaction (@acceptContract Decimal20 9 "g" (circle_id "c" "d") 8 circle_two) circle_two = (Ok STARTED, circle_started)) by (vm_compute; reflexivity).
  destruct (@contract_signed_by_all Decimal20 circle_two "g" 9 (circle_id "c" "d") 8 STARTED circle_started circle_two_ok Hr) as [Hok Hall]. split; [| exact Hok].
  assert (Hm : exists x, smembers circle_started !! "m1"%string = Some x /\ mb_group x = "g"%string) by (eexists; split; vm_compute; reflexivity). destruct Hm as (x & Hx & Hg).
  unfold circle_member. rewrite Hx. exact (Hall eq_refl _ _ Hx Hg).
Defined.

Lemma circle_slots : distinct_slots "g" circle_one.
Proof.
  set (P := fun (m : string) (x : member_row) => forallb (fun q : string * member_row => negb (mb_slot x =? mb_slot q.2) || String.eqb m q.1) (map_to_list (smembers circle_one))).
  assert (Hall : forallb (fun p => P p.1 p.2) (map_to_list (smembers circle_one)) = true) by (vm_compute; reflexivity).
  intros m x m' x' Hx Hx' _ _ He. pose proof (scan_members P _ Hall _ _ Hx) as Hp. apply (scan_members (fun m' x' => negb (mb_slot x =? mb_slot x') || String.eqb m m') _ Hp) in Hx'.
  rewrite He, Z.eqb_refl in Hx'. exact (proj1 (String.eqb_eq _ _) Hx').
Qed.

Lemma double_accept_starts_early_witness : mb_status (circle_member "m3" circle_early) = PENDING_CONTRACT /\
  exists cy, cycles circle_early !! "c3"%string = Some cy /\ cy_payoutUserId cy = 9.
Proof.
  assert (Hr1 : exists r, transaction (@acceptContract Decimal20 1 "g" (circle_id "c" "d") 7 circle_one) circle_one = (Ok r, circle_two)) by (eexists; vm_compute; reflexivity).
  assert (Hr2 : exists r, transaction (@acceptContract Decimal20 1 "g" (circle_id "c" "d") 8 circle_one) circle_two = (Ok r, circle_early)) by (eexists; vm_compute; reflexivity).
  assert (Hg : exists grp, susus circle_one !! "g"%string = Some grp /\ sg_status grp = CONFIGURING /\ sg_required grp = sg_accepted grp + 2) by (eexists; split_and!; vm_compute; reflexivity).
  assert (Hm : exists mid mem, member_of 1 "g" circle_one = Some (mid, mem) /\ mb_status mem = PENDING_CONTRACT /\ mid = "m1"%string) by (do 2 eexists; split_and!; vm_compute; reflexivity).
  destruct Hr1 as [r1 Hr1], Hr2 as [r2 Hr2], Hg as (grp & Hg & Hst & Hreq), Hm as (mid & mem & Hm & Hp & Hid).
  destruct (@double_accept_starts_early Decimal20 circle_one "g" grp 1 mid mem (circle_id "c" "d") 7 8 r1 circle_two r2 circle_early
    (circle_id_inj "c" "d" ltac:(discriminate)) circle_slots Hg Hst Hreq Hm Hp Hr1 Hr2) as [_ Hall].
  assert (Hx : exists x, smembers circle_one !! "m3"%string = Some x /\ mb_group x = "g"%string /\ mb_status x = PENDING_CONTRACT /\ mb_slot x = 3 /\ mb_userId x = 9)
    by (eexists; split_and!; vm_compute; reflexivity). destruct Hx as (x & Hx & Hxg & Hxp & Hxs & Hxu).
  destruct (Hall "m3"%string x ltac:(rewrite Hid; discriminate) Hx Hxg Hxp) as (Hx2 & _ & cy & Hcy & Hu). split.
  - unfold circle_member. rewrite Hx2. exact Hxp.
  - exists cy. rewrite Hxs in Hcy. rewrite Hxu in Hu. split; [exact Hcy | exact Hu].
Defined.

Lemma default_penalized_again_witness : exists k, strikes 2 circle_again = Some k /\ 2 <= k.
Proof.
  pose proof (circle_sinv _ (proj1 circle_reach_paid)) as Hi.
  assert (Hr : exists p d t f n, circle_run "c2" 700000000 circle_paid = (Ok (Report p d t f n), circle_again)) by (do 5 eexists; vm_compute; reflexivity).
  destruct Hr as (p & d & t & f & n & Hr).
  assert (Hc : exists cy, cycles circle_paid !! "c2"%string = Some cy /\ cy_group cy = "g"%string) by (eexists; split; vm_compute; reflexivity). destruct Hc as (cy & Hc & Hg).
  assert (Hm : In ("m2"%string, circle_member "m2" circle_paid) (cycle_members (cy_group cy) circle_paid)) by (rewrite Hg; vm_compute; tauto).
  destruct (@default_penalized_again false Decimal20 ToFixedColumn run_sha run_wire save_wire save_wire_b true (fun x => x) "c2" 700000000 circle_paid circle_paid p d t f n circle_again cy
    "m2" (circle_member "m2" circle_paid) 1 Hi (si_tables _ Hi) circle_second_fits Hr Hc Hm) as (_ & k & Hk & Hle); [vm_compute; reflexivity.. | |].
  - unfold known. vm_compute. eexists. reflexivity.
  - exists k. split; [exact Hk | lia].
Defined.
