(* ===== verification/Azm.v ===== *)
(** * AZM points (services/azmRewardService.js, azmSpendService.js,
    azmStakeService.js, azmGiftService.js, azmAuctionService.js)

    AZM is the platform's loyalty point.  State ([adb]): the vault database for
    balances, ban state, reward log and claims; the spend log; stakes, gifts,
    auctions and bids; the ads that points promote; the card skins of users.
    Operations: the services, the tier policy (services/nitroPolicy.js) and the
    worker of the auctions (workers/azmAuctionWorker.js).

    A balance is a Decimal(20,8) column of 1e-8 units.  The amount of a spend,
    a stake or a gift is a double; the client sends its shortest decimal
    ([num_dec]) and the database compares and subtracts exactly before it rounds
    into the column.  A row locked FOR UPDATE, or serialized by the advisory
    lock, is read inside the transaction; what a function reads before it comes
    from an earlier database, an argument.  One call reads the clock once.
    Reasons, metadata except for the dedup identity, notifications and sockets
    are left out. *)

From stdpp Require Import base gmap strings list.
From Stdlib Require Import ZArith QArith Qabs Lia Ascii.
From S2P Require Import Prelude JsNumber ExactDecimal Json Ledger Idempotency Escrow Vault.

Local Open Scope Z_scope.

(** ** Numbers *)

(** The decimal of a double on the wire: the shortest decimal that reads back as
    that double, so the whole units of an amount in whole units and never more
    than half a step of the doubles away; and what the column makes of it. *)
Class PrismaSend `{PrismaNumber} : Type := {
  num_dec : Q -> Q;
  num_dec_units : forall u q, Z.abs u <= SAFE_UNITS -> Qeq q (usdc u) -> Qeq (num_dec (fl q)) q;
  num_dec_col : forall x, num_to_col x = toFixedZ 8 (num_dec x);
  num_dec_nonneg : forall x, 0 <= Qnum x -> 0 <= Qnum (num_dec x);
  num_dec_close : forall x, (Qabs (x - num_dec x) <= Qabs (num_dec x) * (1 # 9007199254740992))%Q;
}.

(** ** Rows *)

Inductive stake_status : Type := STAKE_ACTIVE | STAKE_UNSTAKING | STAKE_COMPLETED | STAKE_SLASHED.
Inductive auction_status : Type := AU_OPEN | AU_SETTLING | AU_SETTLED | AU_CANCELLED.
Inductive bid_status : Type := BID_ACTIVE | BID_WON | BID_LOST | BID_REFUNDED.
Inductive nitro_tier : Type := FREE | NITRO_BRONZE | NITRO_SILVER | NITRO_GOLD.

#[export] Instance stake_status_eq_dec : EqDecision stake_status.
Proof. solve_decision. Defined.
#[export] Instance auction_status_eq_dec : EqDecision auction_status.
Proof. solve_decision. Defined.
#[export] Instance bid_status_eq_dec : EqDecision bid_status.
Proof. solve_decision. Defined.
#[export] Instance nitro_tier_eq_dec : EqDecision nitro_tier.
Proof. solve_decision. Defined.

(** [sp_metadata] is the [dedupKey] field of the metadata. *)
Record spend_row : Type := SpendRow {
  sp_userId : Z; sp_amount : Z; sp_source : string; sp_dedupKey : option string; sp_metadata : option string; sp_balanceAfter : Z }.

Record stake_row : Type := StakeRow {
  st_userId : Z;
  st_amount : Z;
  st_status : stake_status;
  st_requestedAt : option Z;
  st_availableAt : option Z;
  st_completedAt : option Z;
  st_cooldownDays : Z;
  st_tierAtStake : nitro_tier;
}.

Record gift_row : Type := GiftRow { gf_senderId : Z; gf_receiverId : Z; gf_amount : Z; gf_type : string; gf_dedupKey : option string }.

(** One entry of the leaderboard of a settled auction. *)
Record place : Type := Place { pl_rank : Z; pl_vendorId : Z; pl_adId : Z; pl_amount : Q }.

Record auction_row : Type := AuctionRow {
  au_start : Z;
  au_end : Z;
  au_status : auction_status;
  au_winnerCount : Z;
  au_totalBurned : Z;
  au_settledAt : option Z;
  au_leaderboard : list place;
}.

Record bid_row : Type := BidRow {
  bd_auctionId : string;
  bd_vendorId : Z;
  bd_adId : Z;
  bd_amount : Z;
  bd_status : bid_status;
  bd_rank : option Z;
  bd_burned : Z;
  bd_boostedUntil : option Z;
  bd_createdAt : Z;
}.

Record ad_row : Type := AdRow { ad_vendorId : Z; ad_status : string; ad_isBoosted : bool; ad_boostExpiresAt : option Z }.
Record skin_row : Type := SkinRow { sk_owned : list string; sk_equipped : string }.

Record adb : Type := ADB {
  sav : vdb;
  spends : gmap string spend_row;
  stakes : gmap string stake_row;
  gifts : gmap string gift_row;
  auctions : gmap string auction_row;
  bids : gmap string bid_row;
  ads : gmap Z ad_row;
  skins : gmap Z skin_row;
}.

Definition set_sav (x : vdb) (s : adb) : adb := ADB x (spends s) (stakes s) (gifts s) (auctions s) (bids s) (ads s) (skins s).
Definition set_spends (x : gmap string spend_row) (s : adb) : adb := ADB (sav s) x (stakes s) (gifts s) (auctions s) (bids s) (ads s) (skins s).
Definition set_stakes (x : gmap string stake_row) (s : adb) : adb := ADB (sav s) (spends s) x (gifts s) (auctions s) (bids s) (ads s) (skins s).
Definition set_gifts (x : gmap string gift_row) (s : adb) : adb := ADB (sav s) (spends s) (stakes s) x (auctions s) (bids s) (ads s) (skins s).
Definition set_auctions (x : gmap string auction_row) (s : adb) : adb := ADB (sav s) (spends s) (stakes s) (gifts s) x (bids s) (ads s) (skins s).
Definition set_bids (x : gmap string bid_row) (s : adb) : adb := ADB (sav s) (spends s) (stakes s) (gifts s) (auctions s) x (ads s) (skins s).
Definition set_ads (x : gmap Z ad_row) (s : adb) : adb := ADB (sav s) (spends s) (stakes s) (gifts s) (auctions s) (bids s) x (skins s).
Definition set_skins (x : gmap Z skin_row) (s : adb) : adb := ADB (sav s) (spends s) (stakes s) (gifts s) (auctions s) (bids s) (ads s) x.

(** ** Statements *)

Definition on_sav {A} (m : M vdb A) : M adb A := fun s => match m (sav s) with Ok (a, v) => Ok (a, set_sav v s) | Err e => Err e end.

Definition azm_of (userId : Z) (s : adb) : option Z := pf_azmBalance <$> profiles (sav s) !! userId.
Definition set_azm (userId balance : Z) (s : adb) : adb :=
  set_sav (set_profiles (alter (fun p => Profile (pf_banStatus p) (pf_isDeleted p) balance) userId (profiles (sav s))) (sav s)) s.

(** A write to the balance, under the check constraint and the range of the
    column. *)
Definition azm_put (userId balance : Z) : M adb unit :=
  check (0 <=? balance) "User_azmBalance_nonneg";; check (numeric_ok balance) "NUMERIC_OVERFLOW";; modify (set_azm userId balance).

(** INSERT of a spend row; (userId, source, dedupKey) is unique where the key
    is set. *)
Definition spend_create (id : string) (r : spend_row) : M adb unit :=
  s ← get;
  check (match spends s !! id with None => true | Some _ => false end &&
         negb (existsb (fun p => bool_decide (is_Some (sp_dedupKey r)) && (sp_userId p.2 =? sp_userId r) && String.eqb (sp_source p.2) (sp_source r) &&
                                 bool_decide (sp_dedupKey p.2 = sp_dedupKey r)) (map_to_list (spends s)))) "P2002";;
  check (numeric_ok (sp_amount r)) "NUMERIC_OVERFLOW";;
  put (set_spends (<[id := r]> (spends s)) s).

(** The row that carries a dedup identity, in its own column or in the
    metadata. *)
Definition spend_of (userId : Z) (source key : string) (s : adb) : option (string * spend_row) :=
  List.find (fun p => (sp_userId p.2 =? userId) && String.eqb (sp_source p.2) source &&
                      (bool_decide (sp_dedupKey p.2 = Some key) || bool_decide (sp_metadata p.2 = Some key))) (map_to_list (spends s)).

Definition ad_update (id : Z) (f : ad_row -> ad_row) : M adb unit :=
  s ← get;
  match ads s !! id with None => throw "P2025" | Some a => put (set_ads (<[id := f a]> (ads s)) s) end.
Definition bid_update (id : string) (f : bid_row -> bid_row) : M adb unit :=
  s ← get;
  match bids s !! id with
  | None => throw "P2025"
  | Some b => check (numeric_ok (bd_amount (f b)) && numeric_ok (bd_burned (f b))) "NUMERIC_OVERFLOW";; put (set_bids (<[id := f b]> (bids s)) s)
  end.
Definition stake_updateMany (id : string) (cond : stake_row -> bool) (f : stake_row -> stake_row) : M adb nat :=
  s ← get;
  match stakes s !! id with
  | Some k => if cond k then put (set_stakes (<[id := f k]> (stakes s)) s);; mret 1%nat else mret 0%nat
  | None => mret 0%nat
  end.

Definition with_boost (until : Z) (a : ad_row) : ad_row := AdRow (ad_vendorId a) (ad_status a) true (Some until).

(** ** Costs *)

Record tier_option : Type := TierOption { to_id : string; to_discount : Q; to_cost : Q }.
Record boost_option : Type := BoostOption { bo_id : string; bo_durationMs : Z; bo_cost : Q }.
Definition FEE_DISCOUNT_TIERS : list tier_option :=
  [TierOption "tier_25" (fl (25 # 100)) (fl 10); TierOption "tier_50" (fl (50 # 100)) (fl 25); TierOption "tier_100" (fl 1) (fl 50)].
Definition AD_BOOST_OPTIONS : list boost_option :=
  [BoostOption "boost_24h" (24 * HOUR_MS) (fl 15); BoostOption "boost_72h" (72 * HOUR_MS) (fl 35); BoostOption "boost_7d" (7 * 24 * HOUR_MS) (fl 80)].
Definition CARD_SKIN_OPTIONS : list (string * Q) := [("gold"%string, fl 1); ("midnight"%string, fl 1); ("emerald"%string, fl 1); ("sunset"%string, fl 1)].
Definition FREE_CARD_SKIN : string := "classic".
Definition VALID_CARD_SKIN_IDS : list string := FREE_CARD_SKIN :: map fst CARD_SKIN_OPTIONS.

Section Services.
Context `{PrismaSend}.

(** ** Spending (services/azmSpendService.js) *)

(** [updateMany({ where: { azmBalance: { gte: amount } }, data: { decrement }})]. *)
Definition azm_claim (userId : Z) (amount : Q) : M adb nat :=
  s ← get;
  match azm_of userId s with
  | Some b => if Qle_bool (num_dec amount) (usdc b) then azm_put userId (col_add b (- num_dec amount));; mret 1%nat else mret 0%nat
  | None => mret 0%nat
  end.

Record debit_result : Type := DebitResult { dr_debited : bool; dr_newBalance : Z; dr_logId : string }.

Definition _debitAzmWithClient (newId : string) (userId : Z) (amount : Q) (source : string) (dedupKey : option string) : M adb debit_result :=
  check (negb ((userId =? 0) || Qle_bool amount 0 || (String.length source =? 0)%nat)) "Invalid spend parameters.";;
  s ← get;
  match truthy dedupKey ≫= (fun k => spend_of userId source k s) with
  | Some (id, r) => mret (DebitResult false (sp_balanceAfter r) id)
  | None =>
      count ← azm_claim userId amount;
      if (count =? 0)%nat then
        u ← reads (azm_of userId);
        match u with None => throw "User not found." | Some _ => throw "Insufficient AZM balance" end
      else
        balance ← reads (fun s => default 0 (azm_of userId s));
        spend_create newId (SpendRow userId (num_to_col amount) source dedupKey (truthy dedupKey) balance);;
        mret (DebitResult true balance newId)
  end.

(** A lost race converges to the winner's row. *)
Definition debitAzm (newId : string) (userId : Z) (amount : Q) (source : string) (dedupKey : option string) (s : adb) : res debit_result * adb :=
  match transaction (_debitAzmWithClient newId userId amount source dedupKey) s with
  | (Ok r, s') => (Ok r, s')
  | (Err e, s') =>
      (match truthy dedupKey with
       | Some k => if String.eqb e "P2002" then match spend_of userId source k s' with Some (id, r) => Ok (DebitResult false (sp_balanceAfter r) id) | None => Err e end else Err e
       | None => Err e
       end, s')
  end.

(** What a discount returns: the multiplier, the cost, the new balance. *)
Definition find_tier (tierId : string) : option tier_option := List.find (fun t => String.eqb (to_id t) tierId) FEE_DISCOUNT_TIERS.
Definition fee_discount_key (withdrawalRef : string) : string := ("fee_discount_" +:+ withdrawalRef)%string.

Definition applyFeeDiscount (newId : string) (userId : Z) (tierId : string) (withdrawalRef : option string) (s : adb) : res (Q * Q * Z) * adb :=
  match find_tier tierId with
  | None => (Err "Invalid fee discount tier", s)
  | Some tier =>
      match debitAzm newId userId (to_cost tier) "FEE_DISCOUNT" (fee_discount_key <$> truthy withdrawalRef) s with
      | (Ok r, s') => (Ok (to_discount tier, to_cost tier, dr_newBalance r), s')
      | (Err e, s') => (Err e, s')
      end
  end.

(** Inside the transaction of a withdrawal. *)
Definition applyFeeDiscountInTransaction (newId : string) (userId : Z) (tierId withdrawalRef : string) : M adb (Q * debit_result) :=
  check (negb (String.length withdrawalRef =? 0)%nat) "applyFeeDiscountInTransaction requires a withdrawal reference.";;
  tier ← lift (of_option (find_tier tierId) "Invalid fee discount tier");
  (fun s => match _debitAzmWithClient newId userId (to_cost tier) "FEE_DISCOUNT" (Some (fee_discount_key withdrawalRef)) s with
            | Ok (r, s') => Ok ((to_discount tier, r), s')
            | Err e => Err (if String.eqb e "Insufficient AZM balance" || String.eqb e "User not found." then "AZM_SPEND_FAILED"%string else e)
            end) : M adb (Q * debit_result).

(** *** Ad boosts *)

Definition boost_key (adId : Z) (boostId idempotencyKey : string) : string := ("ad_boost_" +:+ Z_digits adId +:+ "_" +:+ boostId +:+ "_" +:+ idempotencyKey)%string.

Definition boost_allowed (userId : Z) (a : option ad_row) : res ad_row :=
  ad ← of_option a "Ad not found.";
  throw_if (negb (ad_vendorId ad =? userId)) "You can only boost your own ads.";;
  throw_if (negb (String.eqb (ad_status ad) "ACTIVE")) "Only active ads can be boosted.";;
  mret ad.

(** A live boost is extended, otherwise the boost starts now. *)
Definition boost_start (now : Z) (a : ad_row) : Z :=
  match ad_isBoosted a, ad_boostExpiresAt a with true, Some t => if now <? t then t else now | _, _ => now end.

(** The result: whether it is a replay, the end of the boost, the balance; after
    a lost race no end stands for the time of the winner's row. *)
Definition boost_tx (newId : string) (userId adId : Z) (opt : boost_option) (dedupKey : option string) (now : Z) : M adb (bool * Z * Z) :=
  s ← get;
  ad ← lift (boost_allowed userId (ads s !! adId));
  let boostExpiresAt := boost_start now ad + bo_durationMs opt in
  debit ← _debitAzmWithClient newId userId (bo_cost opt) "AD_BOOST" dedupKey;
  if match dedupKey with Some _ => negb (dr_debited debit) | None => false end then
    t ← lift (of_option (ad_boostExpiresAt ad) "TypeError");
    mret (true, t, dr_newBalance debit)
  else
    ad_update adId (with_boost boostExpiresAt);;
    mret (false, boostExpiresAt, dr_newBalance debit).

Definition boostAd (newId : string) (userId adId : Z) (boostId : string) (idempotencyKey : option string) (now : Z) (before s : adb) : res (bool * option Z * Z) * adb :=
  match
    (opt ← of_option (List.find (fun o => String.eqb (bo_id o) boostId) AD_BOOST_OPTIONS) "Invalid boost option";
     boost_allowed userId (ads before !! adId);;
     mret opt)
  with
  | Err e => (Err e, s)
  | Ok opt =>
      let dedupKey := boost_key adId boostId <$> truthy idempotencyKey in
      match transaction (boost_tx newId userId adId opt dedupKey now) s with
      | (Ok (replayed, t, b), s') => (Ok (replayed, Some t, b), s')
      | (Err e, s') =>
          (match dedupKey with
           | Some k => if String.eqb e "P2002" then
               match spend_of userId "AD_BOOST" k s' with Some (_, r) => Ok (true, ads s' !! adId ≫= ad_boostExpiresAt, sp_balanceAfter r) | None => Err e end else Err e
           | None => Err e
           end, s')
      end
  end.

(** *** Card skins *)

Definition owns (userId : Z) (skinId : string) (s : adb) : bool := match skins s !! userId with Some k => str_mem skinId (sk_owned k) | None => false end.

Definition skin_tx (newId : string) (userId : Z) (skinId : string) (cost : Q) : M adb bool :=
  s ← get;
  balance ← lift (of_option (azm_of userId s) "User not found.");
  fresh ← lift (of_option (skins s !! userId) "User not found.");
  if str_mem skinId (sk_owned fresh) then mret false else
  check (negb (js_lt (Number_of_units balance) cost)) "Insufficient AZM balance";;
  azm_put userId (col_add balance (- num_dec cost));;
  modify (fun s => set_skins (<[userId := SkinRow (sk_owned fresh ++ [skinId]) (sk_equipped fresh)]> (skins s)) s);;
  after ← reads (fun s => default 0 (azm_of userId s));
  spend_create newId (SpendRow userId (num_to_col cost) "CARD_SKIN" None None after);;
  mret true.

Definition purchaseCardSkin (newId : string) (userId : Z) (skinId : string) (before s : adb) : res bool * adb :=
  match
    (opt ← of_option (List.find (fun o => String.eqb o.1 skinId) CARD_SKIN_OPTIONS) "Invalid card skin";
     of_option (azm_of userId before) "User not found.";;
     mret opt)
  with
  | Err e => (Err e, s)
  | Ok opt => if owns userId skinId before then (Ok false, s) else transaction (skin_tx newId userId skinId opt.2) s
  end.

Definition equipCardSkin (userId : Z) (skinId : string) (before : adb) : M adb unit :=
  lift (
    throw_if (negb (str_mem skinId VALID_CARD_SKIN_IDS)) "Invalid card skin";;
    if String.eqb skinId FREE_CARD_SKIN then mret tt else
    of_option (skins before !! userId) "User not found.";;
    throw_if (negb (owns userId skinId before)) "You do not own this card skin yet.");;
  s ← get;
  match skins s !! userId with
  | None => throw "P2025"
  | Some k => put (set_skins (<[userId := SkinRow (sk_owned k) skinId]> (skins s)) s)
  end.

(** ** Tiers (services/nitroPolicy.js) *)

Definition NITRO_THRESHOLDS (t : nitro_tier) : option Q :=
  match t with FREE => None | NITRO_BRONZE => Some 500%Q | NITRO_SILVER => Some 1500%Q | NITRO_GOLD => Some 5000%Q end.
Definition TIER_RANK (t : nitro_tier) : Z := match t with FREE => 0 | NITRO_BRONZE => 1 | NITRO_SILVER => 2 | NITRO_GOLD => 3 end.

Definition getTierForStake (balance : Q) : nitro_tier :=
  if js_lt balance 0 then FREE
  else if Qle_bool 5000 balance then NITRO_GOLD
  else if Qle_bool 1500 balance then NITRO_SILVER
  else if Qle_bool 500 balance then NITRO_BRONZE
  else FREE.
Definition meetsTier (current required : nitro_tier) : bool := TIER_RANK required <=? TIER_RANK current.
Definition shortageForTier (balance : Q) (required : nitro_tier) : Q :=
  match NITRO_THRESHOLDS required with None => 0%Q | Some threshold => js_max 0 (js_sub threshold balance) end.

(** ** Staking (services/azmStakeService.js) *)

Definition COOLDOWN_DAYS : Z := 7.
Definition BACKED_STAKE_STATUSES : list stake_status := [STAKE_ACTIVE; STAKE_UNSTAKING].
Definition backed (k : stake_row) : bool := existsb (fun x => bool_decide (st_status k = x)) BACKED_STAKE_STATUSES.

(** The sum is one of doubles, in the order of the rows. *)
Definition backed_stakes (userId : Z) (s : adb) : list stake_row :=
  List.filter (fun k => (st_userId k =? userId) && backed k) (map snd (map_to_list (stakes s))).
Definition getStakedBalance (userId : Z) (s : adb) : Q :=
  foldl (fun sum k => js_add sum (Number_of_units (st_amount k))) 0%Q (backed_stakes userId s).
Definition getUserTier (userId : Z) (s : adb) : nitro_tier := getTierForStake (getStakedBalance userId s).

Definition stake_lock_key (stakeId : string) : string := ("stake_lock_" +:+ stakeId)%string.
Definition stake_release_key (stakeId : string) : string := ("stake_release_" +:+ stakeId)%string.

Definition createStake (newStake newSpend : string) (userId : Z) (amountAzm : Num.num) : M adb (nitro_tier * Q) :=
  amount ← lift match amountAzm with Num.Fin a => if Qle_bool a 0 then Err "Stake amount must be positive." else Ok a | _ => Err "Stake amount must be positive." end;
  count ← azm_claim userId amount;
  check (negb (count =? 0)%nat) "Insufficient AZM balance.";;
  s ← get;
  check (match stakes s !! newStake with None => true | Some _ => false end) "P2002";;
  check (numeric_ok (num_to_col amount)) "NUMERIC_OVERFLOW";;
  put (set_stakes (<[newStake := StakeRow userId (num_to_col amount) STAKE_ACTIVE None None None COOLDOWN_DAYS (getUserTier userId s)]> (stakes s)) s);;
  balance ← reads (fun s => default 0 (azm_of userId s));
  spend_create newSpend (SpendRow userId (num_to_col amount) "STAKE_LOCK" (Some (stake_lock_key newStake)) None balance);;
  s ← get;
  mret (getUserTier userId s, getStakedBalance userId s).

Definition unstaking (now : Z) (available : Z) (k : stake_row) : stake_row :=
  StakeRow (st_userId k) (st_amount k) STAKE_UNSTAKING (Some now) (Some available) (st_completedAt k) (st_cooldownDays k) (st_tierAtStake k).
Definition unstaked (now : Z) (k : stake_row) : stake_row :=
  StakeRow (st_userId k) (st_amount k) STAKE_COMPLETED (st_requestedAt k) (st_availableAt k) (Some now) (st_cooldownDays k) (st_tierAtStake k).

Definition requestUnstake (userId : Z) (stakeId : string) (now : Z) (before : adb) : M adb unit :=
  stake ← lift (
    stake ← of_option (stakes before !! stakeId) "Stake not found.";
    throw_if (negb (st_userId stake =? userId)) "Stake not found.";;
    mret stake);
  count ← stake_updateMany stakeId (fun k => (st_userId k =? userId) && bool_decide (st_status k = STAKE_ACTIVE)) (unstaking now (now + st_cooldownDays stake * DAY_MS));
  check (negb (count =? 0)%nat) "Stake is not active.".

(** The cooldown has passed. *)
Definition releasable (now : Z) (k : stake_row) : bool :=
  bool_decide (st_status k = STAKE_UNSTAKING) && match st_availableAt k with Some t => t <=? now | None => false end.

Definition completeUnstake (newReward stakeId : string) (now : Z) : M adb bool :=
  s ← get;
  match stakes s !! stakeId with
  | None => mret false
  | Some stake =>
      if negb (releasable now stake) then mret false else
      count ← stake_updateMany stakeId (releasable now) (unstaked now);
      if (count =? 0)%nat then mret false else
      b ← lift (of_option (azm_of (st_userId stake) s) "P2025");
      azm_put (st_userId stake) (b + st_amount stake);;
      on_sav (reward_create newReward (RewardRow (st_userId stake) (st_amount stake) "STAKE_RELEASE" (Some (stake_release_key stakeId)) None (b + st_amount stake)));;
      mret true
  end.

(** The queue: one transaction for each stake that was due; an error ends the
    loop. *)
Fixpoint unstake_all (newIds : string -> string) (now : Z) (l : list string) (completed : nat) (s : adb) : res nat * adb :=
  match l with
  | [] => (Ok completed, s)
  | id :: l' =>
      match transaction (completeUnstake (newIds id) id now) s with
      | (Ok b, s') => unstake_all newIds now l' (if b then S completed else completed) s'
      | (Err e, s') => (Err e, s')
      end
  end.
Definition unstake_queue (now : Z) (s : adb) : list string := map fst (List.filter (fun p => releasable now p.2) (map_to_list (stakes s))).
Definition processUnstakeQueue (newIds : string -> string) (now : Z) (s : adb) : res (nat * nat) * adb :=
  match unstake_all newIds now (unstake_queue now s) 0 s with
  | (Ok n, s') => (Ok (n, length (unstake_queue now s)), s')
  | (Err e, s') => (Err e, s')
  end.

(** ** Gifts (services/azmGiftService.js) *)

Definition GIFT_TYPES : list string := ["GIFT"; "TIP"; "REWARD"]%string.
Definition TIP_CONTEXTS : list string := ["TRADE"; "CHAT"; "MARKETPLACE"; "SUSU"; "BUSINESS"; "GENERAL"]%string.

(** [IDEMPOTENCY_KEY_RE]. *)
Definition gift_key_char (c : ascii) : bool := is_alnum c || Ascii.eqb c "." || Ascii.eqb c "_" || Ascii.eqb c ":" || Ascii.eqb c "-".
Definition IDEMPOTENCY_KEY_RE (k : string) : bool :=
  match k with
  | EmptyString => false
  | String c rest => is_alnum c && str_forall gift_key_char rest && (7 <=? String.length rest)%nat && (String.length rest <=? 127)%nat
  end.

Definition gift_op (senderId : Z) (key : string) : string := ("gift_" +:+ Z_digits senderId +:+ "_" +:+ key)%string.
Definition gift_reward_key (senderId : Z) (key : string) : string := ("gift_received_" +:+ Z_digits senderId +:+ "_" +:+ key)%string.

(** A request: the receiver, if there is one, after [parseInt] ([None] for what
    is no number), the amount after [parseFloat]. *)
Record gift_request : Type := GiftRequest {
  gr_receiverId : option (option Z); gr_amount : Num.num; gr_type : string; gr_contextType : option string; gr_idempotencyKey : option string }.

Definition gift_checks (senderId : Z) (g : gift_request) : res (string * Z * Q) :=
  key ← of_option (gr_idempotencyKey g) "A valid Idempotency-Key header is required.";
  throw_if (negb (IDEMPOTENCY_KEY_RE key)) "A valid Idempotency-Key header is required.";;
  parsed ← of_option (gr_receiverId g) "Receiver is required.";
  receiver ← of_option parsed "Receiver is invalid.";
  throw_if (receiver <=? 0) "Receiver is invalid.";;
  throw_if (senderId =? receiver) "Cannot send AZM to yourself.";;
  amount ← match gr_amount g with Num.Fin a => if Qle_bool a 0 then Err "Amount must be positive." else Ok a | _ => Err "Amount must be positive." end;
  throw_if (negb (str_mem (gr_type g) GIFT_TYPES)) "Invalid gift type.";;
  throw_if (match truthy (gr_contextType g) with Some c => negb (str_mem c TIP_CONTEXTS) | None => false end) "Invalid tip context.";;
  mret (key, receiver, amount).

Definition gift_of (op : string) (s : adb) : option (string * gift_row) :=
  List.find (fun p => bool_decide (gf_dedupKey p.2 = Some op)) (map_to_list (gifts s)).

(** INSERT of a gift: foreign keys, primary key and unique [dedupKey]. *)
Definition gift_create (id : string) (g : gift_row) : M adb unit :=
  s ← get;
  check (match azm_of (gf_senderId g) s, azm_of (gf_receiverId g) s with Some _, Some _ => true | _, _ => false end) "P2003";;
  check (match gifts s !! id with None => true | Some _ => false end &&
         match gf_dedupKey g with Some k => match gift_of k s with None => true | Some _ => false end | None => true end) "P2002";;
  check (numeric_ok (gf_amount g)) "NUMERIC_OVERFLOW";;
  put (set_gifts (<[id := g]> (gifts s)) s).

Record gift_ids : Type := GiftIds { gi_gift : string; gi_spend : string; gi_reward : string }.
(** Whether the result is a replay, the gift, the sender's balance. *)
Record gift_outcome : Type := GiftOutcome { go_replay : bool; go_gift : string * gift_row; go_senderBalance : option Z }.

Section Gifts.
(** The text of the committed response. *)
Context (wire_gift : string * gift_row -> option Z -> string).

Definition gift_tx (ids : gift_ids) (senderId receiverId : Z) (amount : Q) (type key : string) (financialOperation : option nat) : M adb gift_outcome :=
  existing ← reads (gift_of (gift_op senderId key));
  match existing with
  | Some g =>
      on_sav (commit_claim_tx financialOperation (wire_gift g None));;
      mret (GiftOutcome true g None)
  | None =>
      receiver ← reads (fun s => profiles (sav s) !! receiverId);
      check (match receiver with Some p => negb (pf_isDeleted p) | None => false end) "Receiver not found.";;
      let gift := GiftRow senderId receiverId (num_to_col amount) type (Some (gift_op senderId key)) in
      gift_create (gi_gift ids) gift;;
      debit ← _debitAzmWithClient (gi_spend ids) senderId amount "GIFT_TIP" (Some (gift_op senderId key));
      on_sav (_creditAzmWithClient (gi_reward ids) receiverId amount "GIFT_TIP_RECEIVED" (Some (gift_reward_key senderId key)));;
      on_sav (commit_claim_tx financialOperation (wire_gift (gi_gift ids, gift) (Some (dr_newBalance debit))));;
      mret (GiftOutcome false (gi_gift ids, gift) (Some (dr_newBalance debit)))
  end.

Definition sendGiftTransfer (ids : gift_ids) (senderId : Z) (g : gift_request) (financialOperation : option nat) (s : adb) : res gift_outcome * adb :=
  match gift_checks senderId g with
  | Err e => (Err e, s)
  | Ok (key, receiverId, amount) =>
      match transaction (gift_tx ids senderId receiverId amount (gr_type g) key financialOperation) s with
      | (Ok r, s') => (Ok r, s')
      | (Err e, s') =>
          (if String.eqb e "P2002" then
             match gift_of (gift_op senderId key) s' with
             | Some winner => Ok (GiftOutcome true winner
                 (sp_balanceAfter ∘ snd <$> List.find (fun p => (sp_userId p.2 =? senderId) && String.eqb (sp_source p.2) "GIFT_TIP" &&
                    bool_decide (sp_dedupKey p.2 = Some (gift_op senderId key))) (map_to_list (spends s'))))
             | None => Err e
             end
           else Err e, s')
      end
  end.
End Gifts.

(** ** Rewards (services/azmRewardService.js) *)

(** The credit on this database. *)
Definition award (newId : string) (userId : Z) (amount : Q) (source key : string) (s : adb) : credit_result * adb :=
  let '(r, v) := creditAzm newId userId amount source (Some key) (sav s) in (r, set_sav v s).

Definition rewardTradeComplete (newId : string) (userId tradeId : Z) : adb -> credit_result * adb :=
  award newId userId (fl 5) "TRADE_COMPLETE" ("trade_" +:+ Z_digits tradeId).
Definition rewardReferralFirstTrade (newId : string) (referrerId referredUserId : Z) : adb -> credit_result * adb :=
  award newId referrerId (fl 10) "REFERRAL_BONUS" ("referral_first_trade_" +:+ Z_digits referredUserId).

Definition achievement_rate (tier : string) : Q :=
  if String.eqb tier "COMMON" then fl 2 else if String.eqb tier "RARE" then fl 5 else if String.eqb tier "EPIC" then fl 10
  else if String.eqb tier "LEGENDARY" then fl 25 else fl 2.
Definition rewardAchievementUnlock (newId : string) (userId : Z) (achievementId tier : string) : adb -> credit_result * adb :=
  award newId userId (achievement_rate tier) "ACHIEVEMENT_UNLOCK" ("achievement_" +:+ achievementId +:+ "_" +:+ Z_digits userId).

Definition milestone_rate (milestoneUsdc : Z) : option Q :=
  if milestoneUsdc =? 1000 then Some (fl 50) else if milestoneUsdc =? 10000 then Some (fl 100) else if milestoneUsdc =? 50000 then Some (fl 200)
  else if milestoneUsdc =? 100000 then Some (fl 500) else None.
Definition rewardVolumeMilestone (newId : string) (userId milestoneUsdc : Z) (s : adb) : credit_result * adb :=
  match milestone_rate milestoneUsdc with
  | None => (NOT_CREDITED, s)
  | Some amount => award newId userId amount "MILESTONE" ("volume_milestone_" +:+ Z_digits milestoneUsdc +:+ "_" +:+ Z_digits userId) s
  end.

(** *** Login streaks *)

(** A local date; months count from 0. *)
Record local_date : Type := LocalDate { ld_year : Z; ld_month : Z; ld_day : Z }.
Definition pad2 (z : Z) : string := if z <? 10 then ("0" +:+ Z_digits z)%string else Z_digits z.
Definition ceil_div (a b : Z) : Z := (a + b - 1) / b.
Definition _todayKey (d : local_date) : string := (Z_digits (ld_year d) +:+ "-" +:+ pad2 (ld_month d + 1) +:+ "-" +:+ pad2 (ld_day d))%string.
Definition _weekKey (d : local_date) : string := (Z_digits (ld_year d) +:+ "-W" +:+ pad2 (ld_month d + 1) +:+ "-" +:+ Z_digits (ceil_div (ld_day d) 7))%string.
Definition _monthKey (d : local_date) : string := (Z_digits (ld_year d) +:+ "-" +:+ pad2 (ld_month d + 1))%string.
Definition _quarterKey (d : local_date) : string := (Z_digits (ld_year d) +:+ "-Q" +:+ Z_digits (ceil_div (ld_month d + 1) 3))%string.

(** One award of a streak, added to the list of what was granted. *)
Definition streak_award (newId : string) (userId : Z) (amount : Q) (key : string) (acc : list Q * adb) : list Q * adb :=
  let '(r, s) := award newId userId amount "LOGIN_STREAK" key acc.2 in (if cd_credited r then acc.1 ++ [amount] else acc.1, s).
Definition rewardLoginStreak (newId : string -> string) (userId newStreak : Z) (d : local_date) (s : adb) : list Q * adb :=
  if newStreak <=? 0 then ([], s) else
  let u := Z_digits userId in
  let acc := streak_award (newId "daily") userId (fl 1) ("login_streak_" +:+ _todayKey d +:+ "_" +:+ u) ([], s) in
  let acc := if newStreak =? 7 then streak_award (newId "milestone_7") userId (fl 5) ("login_milestone_7_" +:+ u +:+ "_" +:+ _weekKey d) acc else acc in
  let acc := if newStreak =? 30 then streak_award (newId "milestone_30") userId (fl 20) ("login_milestone_30_" +:+ u +:+ "_" +:+ _monthKey d) acc else acc in
  if newStreak =? 90 then streak_award (newId "milestone_90") userId (fl 50) ("login_milestone_90_" +:+ u +:+ "_" +:+ _quarterKey d) acc else acc.
End Services.
