(* ===== verification/AzmProps.v ===== *)
(** * AZM points: lemmas

    What each transaction of the services does to balances, logs and rows, and
    the invariant they keep: every balance is a value of its column, the spend
    and reward identities belong to committed gifts, stakes and settlements. *)

From stdpp Require Import base gmap strings list relations.
From Stdlib Require Import ZArith QArith Qabs Lqa Lia Ascii.
From S2P Require Import Prelude JsNumber ExactDecimal Json Ledger LedgerFacts Idempotency Escrow EscrowFacts EscrowProps WalletProps Vault VaultProps Azm.

Local Open Scope Z_scope.

(** ** Numbers *)

Section Numbers.
Context `{PrismaSend}.

Lemma num_dec_Number u : Z.abs u <= SAFE_UNITS -> Qeq (num_dec (Number_of_units u)) (usdc u).
Proof. intros Hu. by apply (num_dec_units u (usdc u)). Qed.

Lemma num_col_Number u : Z.abs u <= SAFE_UNITS -> num_to_col (Number_of_units u) = u.
Proof. intros Hu. by apply (num_to_col_units u (usdc u)). Qed.

Lemma units_no_tie q u : Qeq q (usdc u) -> no_tie q.
Proof.
  unfold Qeq, usdc, no_tie. cbn [Qnum Qden]. intros He. change (Zpos 100000000) with (10 ^ 8) in He. rewrite He.
  replace (2 * (u * QDen q)) with (u * (2 * QDen q)) by lia. rewrite Z.mod_mul by lia. lia.
Qed.

Lemma fixed8_units q u : Qeq q (usdc u) -> toFixedZ 8 q = u.
Proof.
  unfold Qeq, usdc, toFixedZ, toFixed_pos. cbn [Qnum Qden]. change (Zpos 100000000) with (10 ^ 8). intros He.
  destruct (Qnum q <? 0); rewrite ?Z.mul_opp_l, He, <- ?Z.mul_opp_l, rhu_exact by lia; lia.
Qed.

Lemma col_sub_units b q u : Qeq q (usdc u) -> col_add b (- q) = b - u.
Proof. intros Hq. apply fixed8_units. rewrite Hq. unfold Qeq, usdc. cbn [Qnum Qden Qplus Qopp]. lia. Qed.

(** What a debit takes from a balance that has no half units in it. *)
Definition tie_free (amount : Q) : Prop := 0 <= Qnum amount /\ no_tie (num_dec amount).

Lemma exact_paid amount : tie_free amount -> paid_units (num_dec amount) = num_to_col amount.
Proof. intros [Ha Ht]. rewrite num_dec_col. apply paid_no_tie; [by apply num_dec_nonneg | done]. Qed.

Lemma exact_Number u : 0 <= u <= SAFE_UNITS -> tie_free (Number_of_units u).
Proof.
  intros Hu. split; [| apply (units_no_tie _ u), num_dec_Number; lia].
  unfold Number_of_units, parseDec. apply fl_nonneg. cbn [Qnum]. lia.
Qed.

(** The column of an amount, and what is paid of it, are within half a unit of
    its decimal, and within one of each other and of the double. *)
Lemma rhu_within_half a b : (Qabs ((a # b) - inject_Z (rhu a (Zpos b))) <= 1 # 2)%Q.
Proof.
  pose proof (rhu_spec a (Zpos b) ltac:(lia)). apply Qabs_Qle_condition. unfold Qle, Qminus, Qplus, Qopp, inject_Z. cbn [Qnum Qden]. lia.
Qed.
Lemma units_quotient q : (q * 100000000 == Qnum q * 10 ^ 8 # Qden q)%Q.
Proof. destruct q as [n d]. unfold Qeq, Qmult. cbn [Qnum Qden]. lia. Qed.

Lemma fixed8_near q : 0 <= Qnum q -> (Qabs (q * 100000000 - inject_Z (toFixedZ 8 q)) <= 1 # 2)%Q.
Proof. intros Hq. destruct (fixed8_nonneg q Hq) as [-> _]. rewrite units_quotient. apply rhu_within_half. Qed.
Lemma paid_near q : (Qabs (q * 100000000 - inject_Z (paid_units q)) <= 1 # 2)%Q.
Proof.
  rewrite units_quotient. unfold paid_units. pose proof (rhu_within_half (- (Qnum q * 10 ^ 8)) (Qden q)) as Hr.
  change (- (Qnum q * 10 ^ 8) # Qden q)%Q with (- (Qnum q * 10 ^ 8 # Qden q))%Q in Hr. rewrite inject_Z_opp. apply Qabs_Qle_condition in Hr. apply Qabs_Qle_condition.
  set (x := (_ # _)%Q) in *. set (y := inject_Z _) in *. lra.
Qed.

(** On the wire an amount of up to ten million changes by less than an eighth of
    a unit. *)
Lemma num_dec_near x : 0 <= Qnum x -> (x <= 10000000)%Q -> (Qabs (num_dec x * 100000000 - x * 100000000) <= 1 # 8)%Q.
Proof.
  intros Hn Hx. pose proof (num_dec_close x) as Hc. assert (H1' : (0 <= num_dec x)%Q) by (apply Qnum_nonneg; by apply num_dec_nonneg). rewrite (Qabs_pos (num_dec x) H1') in Hc.
  apply Qabs_Qle_condition in Hc. apply Qabs_Qle_condition. lra.
Qed.

Lemma posted_near x : 0 <= Qnum x -> (x <= 10000000)%Q -> Z.abs (toFixedZ 8 x - num_to_col x) <= 1.
Proof.
  intros Hn Hx. pose proof (num_dec_near x Hn Hx) as Hd. pose proof (fixed8_near x Hn) as H1'. pose proof (fixed8_near (num_dec x) (num_dec_nonneg x Hn)) as H2'.
  rewrite num_dec_col. apply Qabs_Qle_condition in Hd, H1', H2'. set (k := toFixedZ 8 x) in *. set (l := toFixedZ 8 (num_dec x)) in *.
  assert (Hlt : (inject_Z (k - l) < 2)%Q /\ (inject_Z (l - k) < 2)%Q) by (unfold Z.sub; rewrite !inject_Z_plus, !inject_Z_opp; lra).
  destruct Hlt as [G1 G2]. change 2%Q with (inject_Z 2) in G1, G2. rewrite <- Zlt_Qlt in G1, G2. lia.
Qed.

Lemma col_nonneg amount : 0 <= Qnum amount -> 0 <= num_to_col amount.
Proof. intros Ha. rewrite num_dec_col. apply fixed8_nonneg. by apply num_dec_nonneg. Qed.

Lemma positive_num q : Qle_bool q 0 = false -> 0 <= Qnum q.
Proof. intros Hq. destruct (positive_units q Hq) as [Hn _]. exact Hn. Qed.
End Numbers.

(** An amount that the runs allow, on the wire. *)
Definition whole `{PrismaSend} `{HalfUnits} (amount : Q) : Prop := whole_units (num_dec amount).

Lemma whole_paid `{PrismaSend} `{HalfUnits} amount : 0 <= Qnum amount -> whole amount ->
  num_to_col amount - slack <= paid_units (num_dec amount) <= num_to_col amount.
Proof. intros Ha Hw. rewrite num_dec_col. by apply whole_units_paid; [apply num_dec_nonneg |]. Qed.
Lemma tie_free_whole `{PrismaSend} `{HalfUnits} amount : tie_free amount -> whole amount.
Proof. by intros [_ Ht] _. Qed.

(** ** Balances and logs *)

Definition azm (u : Z) (s : adb) : Z := default 0 (azm_of u s).
Definition earned (P : string -> bool) (u : Z) (s : adb) : Z :=
  sumM (fun r => if (rw_userId r =? u) && P (rw_source r) then rw_amount r else 0) (rewards (sav s)).
Definition spent (P : string -> bool) (u : Z) (s : adb) : Z :=
  sumM (fun r => if (sp_userId r =? u) && P (sp_source r) then sp_amount r else 0) (spends s).
Definition staked (u : Z) (s : adb) : Z := sumM (fun k => if (st_userId k =? u) && backed k then st_amount k else 0) (stakes s).

Lemma azm_of_set u b s v : azm_of v (set_azm u b s) = if v =? u then (fun _ => b) <$> azm_of u s else azm_of v s.
Proof.
  unfold azm_of, set_azm. cbn. destruct (Z.eqb_spec v u) as [-> | Hne].
  - rewrite lookup_alter_eq. by destruct (profiles (sav s) !! u).
  - by rewrite lookup_alter_ne.
Qed.

Lemma azm_set u b s v b0 : azm_of u s = Some b0 -> azm v (set_azm u b s) = if v =? u then b else azm v s.
Proof. intros Hb. unfold azm. rewrite azm_of_set, Hb. by destruct (v =? u). Qed.

(** A state after a spend: the balance and the log row. *)
Definition spent_state (id : string) (r : spend_row) (b : Z) (s : adb) : adb := set_spends (<[id := r]> (spends s)) (set_azm (sp_userId r) b s).

Lemma spent_insert P u id r s : spends s !! id = None ->
  spent P u (set_spends (<[id := r]> (spends s)) s) = spent P u s + if (sp_userId r =? u) && P (sp_source r) then sp_amount r else 0.
Proof. intros Hn. unfold spent. cbn. rewrite sumM_insert_new by done. lia. Qed.

(** ** Statements *)

Lemma azm_put_Ok u b s x s' : azm_put u b s = Ok (x, s') -> 0 <= b < DECIMAL_20_8_LIMIT /\ s' = set_azm u b s.
Proof.
  intros Hr. unfold azm_put in Hr. apply Mbind_Ok in Hr as (y & s1 & Hc & Hr). apply check_Ok in Hc as [Hb ->].
  apply Mbind_Ok in Hr as (y1 & s1 & Hc & Hr). apply check_Ok in Hc as [Hn ->]. apply modify_Ok in Hr as ->. apply Z.leb_le in Hb.
  unfold numeric_ok in Hn. apply Z.ltb_lt in Hn. split; [lia | done].
Qed.

(** A dedup identity that no row of the log has in its column. *)
Definition key_free (u : Z) (source : string) (key : option string) (s : adb) : Prop :=
  forall id r k, key = Some k -> spends s !! id = Some r -> sp_userId r = u -> sp_source r = source -> sp_dedupKey r <> Some k.

Lemma spend_create_Ok id r s x s' : spend_create id r s = Ok (x, s') ->
  spends s !! id = None /\ key_free (sp_userId r) (sp_source r) (sp_dedupKey r) s /\ s' = set_spends (<[id := r]> (spends s)) s.
Proof.
  intros Hr. unfold spend_create in Hr. rewrite get_bind in Hr. apply Mbind_Ok in Hr as (y & s1 & Hc & Hr). apply check_Ok in Hc as [Hc ->].
  apply Mbind_Ok in Hr as (y1 & s1 & Hn & Hr). apply check_Ok in Hn as [_ ->]. apply put_Ok in Hr as ->. apply andb_true_iff in Hc as [Hf Hk].
  split_and!; [by destruct (spends s !! id) | | done]. intros j q k Hkey Hq Hu Hs Hd. apply negb_true_iff, not_true_iff_false in Hk. apply Hk, existsb_exists.
  exists (j, q). split; [by apply list_elem_of_In, elem_of_map_to_list |]. cbn. rewrite Hkey, Hu, Hs, Hd, Z.eqb_refl, String.eqb_refl, !bool_decide_true by (done || by eexists). done.
Qed.

Section Debits.
Context `{PrismaSend}.

Lemma azm_claim_Ok u amount s n s' : 0 <= Qnum amount -> azm_claim u amount s = Ok (n, s') ->
  n = 0%nat /\ s' = s \/
  n = 1%nat /\ exists b, azm_of u s = Some b /\ let b' := b - paid_units (num_dec amount) in 0 <= b' < DECIMAL_20_8_LIMIT /\ s' = set_azm u b' s.
Proof.
  intros Ha Hr. unfold azm_claim in Hr. rewrite get_bind in Hr. destruct (azm_of u s) as [b |] eqn:Hb; [| apply Mret_Ok in Hr as [-> ->]; by left].
  destruct (Qle_bool _ _) eqn:Hle; [| apply Mret_Ok in Hr as [-> ->]; by left]. right. apply Mbind_Ok in Hr as (y & s1 & Hp & Hr). apply Mret_Ok in Hr as [-> ->].
  rewrite col_add_debit in Hp by (done || by apply num_dec_nonneg). apply azm_put_Ok in Hp as [Hr ->]. split; [done |]. by exists b.
Qed.

(** A debit is the replay of a row, or one more row and the balance less what
    the amount is. *)
Definition debited_to (newId : string) (u : Z) (amount : Q) (source : string) (key : option string) (s s' : adb) : Prop :=
  exists b, azm_of u s = Some b /\ let b' := b - paid_units (num_dec amount) in 0 <= b' < DECIMAL_20_8_LIMIT /\ 0 <= Qnum amount /\
    (forall k, truthy key = Some k -> spend_of u source k s = None) /\ spends s !! newId = None /\
    s' = spent_state newId (SpendRow u (num_to_col amount) source key (truthy key) b') b' s.

Lemma debit_Ok newId u amount source key s r s' : _debitAzmWithClient newId u amount source key s = Ok (r, s') ->
  (dr_debited r = false /\ s' = s /\ exists k id row, truthy key = Some k /\ spend_of u source k s = Some (id, row)) \/
  (dr_debited r = true /\ dr_newBalance r = azm u s' /\ debited_to newId u amount source key s s').
Proof.
  intros Hr. unfold _debitAzmWithClient in Hr. apply Mbind_Ok in Hr as (y & s1 & Hc & Hr). apply check_Ok in Hc as [Hc ->]. rewrite get_bind in Hr.
  apply negb_true_iff, orb_false_iff in Hc as [Hc _]. apply orb_false_iff in Hc as [_ Hpos]. apply positive_num in Hpos.
  destruct (truthy key ≫= _) as [[id row] |] eqn:Hex.
  - apply Mret_Ok in Hr as [-> ->]. left. destruct (truthy key) as [k |]; [| done]. split_and!; try done. by exists k, id, row.
  - apply Mbind_Ok in Hr as (n & s1 & Hcl & Hr). apply azm_claim_Ok in Hcl as [[-> ->] | (-> & b & Hb & Hr' & ->)]; [| | done].
    + cbn in Hr. apply Mbind_Ok in Hr as (o & s1 & Ho & Hr). destruct o; by apply throw_Ok in Hr.
    + cbn [Nat.eqb] in Hr. apply Mbind_Ok in Hr as (z & s1 & Hz & Hr). apply reads_Ok in Hz as [-> ->]. rewrite azm_of_set, Z.eqb_refl, Hb in Hr. cbn in Hr.
      apply Mbind_Ok in Hr as (y1 & s1 & Hs & Hr). apply Mret_Ok in Hr as [-> ->]. apply spend_create_Ok in Hs as (Hn & _ & ->). right. cbn. split; [done |].
      split; [unfold azm, azm_of; cbn; rewrite lookup_alter_eq; unfold azm_of in Hb; by destruct (profiles (sav s) !! u) |].
      exists b. split; [done |]. cbn. split; [exact Hr' |]. split; [exact Hpos |]. split; [| by split]. intros k Hk. rewrite Hk in Hex. exact Hex.
Qed.
End Debits.

(** ** The books

    A balance is what the logs say: the rewards less the spends, and at most
    half-unit charges, one unit for each row of the spend log, more.  A stake is
    a spend that comes back as a reward, so that what a user holds, staked or
    not, moves with the other sources only. *)

Definition every (source : string) : bool := true.
Definition outside (source : string) : bool := negb (String.eqb source "STAKE_LOCK" || String.eqb source "STAKE_RELEASE").
Definition logged (u : Z) (s : adb) : Z := azm u s - earned every u s + spent every u s.
Definition holding (u : Z) (s : adb) : Z := azm u s + staked u s - earned outside u s + spent outside u s.
Definition typed (s : adb) : Prop := forall u b, azm_of u s = Some b -> 0 <= b < DECIMAL_20_8_LIMIT.

(** The rows of a user in the spend log. *)
Definition entries (u : Z) (s : adb) : Z := sumM (fun r => if sp_userId r =? u then 1 else 0) (spends s).

Section Books.
Context `{HalfUnits}.

Record keeps (s s' : adb) : Prop := {
  kp_logged u : within (logged u s) (logged u s') (entries u s' - entries u s);
  kp_holding u : within (holding u s) (holding u s') (entries u s' - entries u s);
  kp_typed : typed s -> typed s';
  kp_spends : spends s ⊆ spends s';
  kp_gifts : gifts s ⊆ gifts s';
}.

#[export] Instance keeps_preorder : PreOrder keeps.
Proof.
  split; [intros s; split; try done; intros u; rewrite Z.sub_diag; apply within_refl |]. intros s1 s2 s3 [A1 A2 A3 A4 A5] [B1 B2 B3 B4 B5].
  split; [intros u; by eapply within_trans.. | auto | |]; by etrans.
Qed.

(** The rows that the books read are the same. *)
Record same_books (s s' : adb) : Prop := {
  sb_azm u : azm_of u s' = azm_of u s;
  sb_rewards : rewards (sav s') = rewards (sav s);
  sb_spends : spends s' = spends s;
  sb_stakes : stakes s' = stakes s;
  sb_gifts : gifts s ⊆ gifts s';
}.

Lemma same_keeps s s' : same_books s s' -> keeps s s'.
Proof.
  intros [A B C D E]. split; unfold entries, logged, holding, azm, earned, spent, staked; rewrite ?B, ?C, ?D; intros; rewrite ?A; [rewrite Z.sub_diag; apply within_refl.. | | done | done].
  intros v b Hb. rewrite A in Hb. eauto.
Qed.

Definition earned_state (id : string) (r : reward_row) (b : Z) (s : adb) : adb :=
  let s1 := set_azm (rw_userId r) b s in set_sav (set_rewards (<[id := r]> (rewards (sav s))) (sav s1)) s1.

Lemma earned_insert P u id r b s : rewards (sav s) !! id = None ->
  earned P u (earned_state id r b s) = earned P u s + if (rw_userId r =? u) && P (rw_source r) then rw_amount r else 0.
Proof. intros Hn. unfold earned. cbn. rewrite sumM_insert_new by done. lia. Qed.

Lemma spent_state_spent P u id r b s : spends s !! id = None ->
  spent P u (spent_state id r b s) = spent P u s + if (sp_userId r =? u) && P (sp_source r) then sp_amount r else 0.
Proof. exact (spent_insert P u id r (set_azm (sp_userId r) b s)). Qed.

Lemma spent_state_entries u id r b s : spends s !! id = None -> entries u (spent_state id r b s) - entries u s = if sp_userId r =? u then 1 else 0.
Proof. intros Hn. unfold entries. cbn. rewrite sumM_insert_new by done. lia. Qed.

Lemma typed_set u b s : 0 <= b < DECIMAL_20_8_LIMIT -> typed s -> typed (set_azm u b s).
Proof.
  intros Hb Ht v c. rewrite azm_of_set. destruct (v =? u); [| apply Ht]. intros Hc. apply fmap_Some in Hc as (x & _ & ->). done.
Qed.

Ltac books_tac := unfold every, outside, within, slack in *; repeat match goal with |- context [?a =? ?b] => destruct (Z.eqb_spec a b); subst end; cbn; try (destruct half_units; lia).

(** The four movements. *)
Lemma spend_keeps id r b b' s : azm_of (sp_userId r) s = Some b -> spends s !! id = None -> 0 <= b' < DECIMAL_20_8_LIMIT -> within (b - sp_amount r) b' 1 ->
  outside (sp_source r) = true -> keeps s (spent_state id r b' s).
Proof.
  intros Hb Hn Hr Hw Ho. assert (Ha : azm (sp_userId r) s = b) by (unfold azm; by rewrite Hb).
  assert (Hz : forall u, azm u (spent_state id r b' s) = if u =? sp_userId r then b' else azm u s) by (intros u; exact (azm_set _ _ _ u _ Hb)).
  split; [intros u; rewrite spent_state_entries by done | intros u; rewrite spent_state_entries by done | | |].
  - unfold logged. rewrite Hz, spent_state_spent by done. change (earned every u (spent_state _ _ _ s)) with (earned every u s). books_tac.
  - unfold holding. rewrite Hz, spent_state_spent, Ho by done. change (earned outside u (spent_state _ _ _ s)) with (earned outside u s).
    change (staked u (spent_state _ _ _ s)) with (staked u s). books_tac.
  - by apply typed_set.
  - by apply insert_subseteq.
  - done.
Qed.

Lemma earn_keeps id r b s : azm_of (rw_userId r) s = Some b -> rewards (sav s) !! id = None -> 0 <= b + rw_amount r < DECIMAL_20_8_LIMIT ->
  outside (rw_source r) = true -> keeps s (earned_state id r (b + rw_amount r) s).
Proof.
  intros Hb Hn Hr Ho. assert (Ha : azm (rw_userId r) s = b) by (unfold azm; by rewrite Hb).
  assert (Hz : forall u, azm u (earned_state id r (b + rw_amount r) s) = if u =? rw_userId r then b + rw_amount r else azm u s) by (intros u; exact (azm_set _ _ _ u _ Hb)).
  split; [intros u; change (entries u (earned_state _ _ _ s)) with (entries u s); rewrite Z.sub_diag | intros u; change (entries u (earned_state _ _ _ s)) with (entries u s); rewrite Z.sub_diag | | |].
  - unfold logged. rewrite Hz, earned_insert by done. change (spent every u (earned_state _ _ _ s)) with (spent every u s). books_tac.
  - unfold holding. rewrite Hz, earned_insert, Ho by done. change (spent outside u (earned_state _ _ _ s)) with (spent outside u s).
    change (staked u (earned_state _ _ _ s)) with (staked u s). books_tac.
  - exact (typed_set (rw_userId r) _ s Hr).
  - done.
  - done.
Qed.

Lemma lock_keeps id r b b' kid k s : azm_of (sp_userId r) s = Some b -> spends s !! id = None -> 0 <= b' < DECIMAL_20_8_LIMIT -> within (b - sp_amount r) b' 1 ->
  sp_source r = "STAKE_LOCK"%string -> stakes s !! kid = None -> st_userId k = sp_userId r -> st_amount k = sp_amount r -> backed k = true ->
  keeps s (spent_state id r b' (set_stakes (<[kid := k]> (stakes s)) s)).
Proof.
  intros Hb Hn Hr Hw Hs Hk Hu Hka Hbk. set (s1 := set_stakes (<[kid := k]> (stakes s)) s). assert (Ha : azm (sp_userId r) s = b) by (unfold azm; by rewrite Hb).
  assert (Hz : forall u, azm u (spent_state id r b' s1) = if u =? sp_userId r then b' else azm u s) by (intros u; exact (azm_set _ _ s1 u _ Hb)).
  split; [intros u; change (entries u s) with (entries u s1); rewrite spent_state_entries by done | intros u; change (entries u s) with (entries u s1); rewrite spent_state_entries by done | | |].
  - unfold logged. rewrite Hz, spent_state_spent by done. change (earned every u (spent_state _ _ _ s1)) with (earned every u s). change (spent every u s1) with (spent every u s).
    books_tac.
  - unfold holding. rewrite Hz, spent_state_spent, Hs by done. change (earned outside u (spent_state _ _ _ s1)) with (earned outside u s).
    change (spent outside u s1) with (spent outside u s). unfold staked. cbn -[backed]. rewrite sumM_insert_new, Hu, Hka, Hbk by done.
    books_tac.
  - exact (typed_set (sp_userId r) _ s1 Hr).
  - by apply insert_subseteq.
  - done.
Qed.

Lemma release_keeps id r b kid k k' s : azm_of (rw_userId r) s = Some b -> rewards (sav s) !! id = None -> 0 <= b + rw_amount r < DECIMAL_20_8_LIMIT ->
  rw_source r = "STAKE_RELEASE"%string -> stakes s !! kid = Some k -> st_userId k = rw_userId r -> st_amount k = rw_amount r -> backed k = true -> backed k' = false ->
  keeps s (earned_state id r (b + rw_amount r) (set_stakes (<[kid := k']> (stakes s)) s)).
Proof.
  intros Hb Hn Hr Hs Hk Hu Hka Hbk Hbk'. set (s1 := set_stakes (<[kid := k']> (stakes s)) s). assert (Ha : azm (rw_userId r) s = b) by (unfold azm; by rewrite Hb).
  assert (Hz : forall u, azm u (earned_state id r (b + rw_amount r) s1) = if u =? rw_userId r then b + rw_amount r else azm u s) by (intros u; exact (azm_set _ _ s1 u _ Hb)).
  split; [intros u; change (entries u (earned_state _ _ _ s1)) with (entries u s); rewrite Z.sub_diag | intros u; change (entries u (earned_state _ _ _ s1)) with (entries u s); rewrite Z.sub_diag | | |].
  - unfold logged. rewrite Hz, earned_insert by done. change (spent every u (earned_state _ _ _ s1)) with (spent every u s). change (earned every u s1) with (earned every u s).
    books_tac.
  - unfold holding. rewrite Hz, earned_insert, Hs by done. change (spent outside u (earned_state _ _ _ s1)) with (spent outside u s).
    change (earned outside u s1) with (earned outside u s). unfold staked. cbn -[backed].
    rewrite (sumM_insert _ _ _ k) by done. rewrite Hu, Hka, Hbk, Hbk', andb_false_r. books_tac.
  - exact (typed_set (rw_userId r) _ s1 Hr).
  - done.
  - done.
Qed.

(** What no service but the auctions touches. *)
Record quiet (s s' : adb) : Prop := {
  qt_auctions : auctions s' = auctions s;
  qt_bids : bids s' = bids s;
  qt_burns id r : spends s' !! id = Some r -> sp_source r = "AD_AUCTION_BID"%string -> spends s !! id = Some r;
}.
#[export] Instance quiet_preorder : PreOrder quiet.
Proof. split; [by split |]. intros s1 s2 s3 [A1 A2 A3] [B1 B2 B3]. split; [congruence.. | eauto]. Qed.

(** What no service but the gifts touches. *)
Record silent (s s' : adb) : Prop := {
  sl_gifts : gifts s' = gifts s;
  sl_sent id r : spends s' !! id = Some r -> sp_source r = "GIFT_TIP"%string -> spends s !! id = Some r;
  sl_received id r : rewards (sav s') !! id = Some r -> rw_source r = "GIFT_TIP_RECEIVED"%string -> rewards (sav s) !! id = Some r;
}.
#[export] Instance silent_preorder : PreOrder silent.
Proof. split; [by split |]. intros s1 s2 s3 [A1 A2 A3] [B1 B2 B3]. split; [congruence | eauto..]. Qed.

Record calm (s s' : adb) : Prop := { cm_keeps : keeps s s'; cm_quiet : quiet s s'; cm_silent : silent s s' }.
#[export] Instance calm_preorder : PreOrder calm.
Proof. split; [by split |]. intros s1 s2 s3 [A1 A2 A3] [B1 B2 B3]. split; by etrans. Qed.

Lemma spent_quiet id r b s : spends s !! id = None -> sp_source r <> "AD_AUCTION_BID"%string -> quiet s (spent_state id r b s).
Proof.
  intros Hn Hs. split; [done.. |]. intros i q. cbn. rewrite lookup_insert. case_decide; [| done]. intros [= <-]. congruence.
Qed.

Lemma spent_silent id r b s : spends s !! id = None -> sp_source r <> "GIFT_TIP"%string -> silent s (spent_state id r b s).
Proof.
  intros Hn Hs. split; [done | | done]. intros i q. cbn. rewrite lookup_insert. case_decide; [| done]. intros [= <-]. congruence.
Qed.

Lemma earned_silent id r b s : rewards (sav s) !! id = None -> rw_source r <> "GIFT_TIP_RECEIVED"%string -> silent s (earned_state id r b s).
Proof.
  intros Hn Hs. split; [done.. |]. intros i q. cbn. rewrite lookup_insert. case_decide; [| done]. intros [= <-]. congruence.
Qed.

Lemma tx_calm {A} (m : M adb A) s r s' : transaction m s = (r, s') -> (forall x s1, m s = Ok (x, s1) -> calm s s1) -> calm s s'.
Proof. intros Ht Hm. apply tx_cases in Ht as [(x & _ & Hr) | (e & _ & ->)]; [by eapply Hm | done]. Qed.

Lemma on_sav_Ok {A} (m : M vdb A) s a s' : on_sav m s = Ok (a, s') -> exists v, m (sav s) = Ok (a, v) /\ s' = set_sav v s.
Proof. unfold on_sav. destruct (m (sav s)) as [[x v] |]; [| done]. intros [= -> <-]. by exists v. Qed.

Lemma put_same s s' : (forall u, azm_of u s' = azm_of u s) -> rewards (sav s') = rewards (sav s) -> spends s' = spends s -> stakes s' = stakes s ->
  gifts s' = gifts s -> auctions s' = auctions s -> bids s' = bids s -> calm s s'.
Proof.
  intros A B C D E F G. split; [apply same_keeps; split; try done; by rewrite E | split; [done.. |] | split; [done | |]]; intros id r Hi _; congruence.
Qed.

Section Operations.
Context `{PrismaSend}.

(** *** Debits *)

(** The sources of the log that other services rely on. *)
Definition plain (source : string) : Prop := outside source = true /\ source <> "AD_AUCTION_BID"%string /\ source <> "GIFT_TIP"%string /\ source <> "GIFT_TIP_RECEIVED"%string.

Lemma debited_keeps newId u amount source key s s' : whole amount -> outside source = true -> debited_to newId u amount source key s s' -> keeps s s'.
Proof.
  intros He Ho (b & Hb & Hr & Hq & _ & Hn & ->). pose proof (whole_paid _ Hq He). apply (spend_keeps newId _ b); try done. unfold within. cbn. lia.
Qed.

Lemma debit_calm newId u amount source key s r s' : whole amount -> plain source -> _debitAzmWithClient newId u amount source key s = Ok (r, s') -> calm s s'.
Proof.
  intros He (Ho & Ha & Hg & _) Hr. apply debit_Ok in Hr as [(_ & -> & _) | (_ & _ & Hd)]; [done |]. pose proof (debited_keeps _ _ _ _ _ _ _ He Ho Hd) as Hk.
  destruct Hd as (b & _ & _ & _ & _ & Hn & ->). split; [done | by apply spent_quiet | by apply spent_silent].
Qed.

Lemma debitAzm_calm newId u amount source key s r s' : whole amount -> plain source -> debitAzm newId u amount source key s = (r, s') -> calm s s'.
Proof.
  intros He Hp Hr. unfold debitAzm in Hr. destruct (transaction _ s) as [o s1] eqn:Ht. assert (s' = s1) as -> by (destruct o; by injection Hr as _ <-).
  eapply tx_calm; [exact Ht |]. intros x s2. by apply debit_calm.
Qed.

Lemma boost_costs opt : opt ∈ AD_BOOST_OPTIONS -> whole (bo_cost opt).
Proof.
  intros Ho. cbn in Ho. repeat (apply elem_of_cons in Ho as [-> | Ho]); [.. | by apply elem_of_nil in Ho]; cbn; apply tie_free_whole;
  [apply (exact_Number 1500000000) | apply (exact_Number 3500000000) | apply (exact_Number 8000000000)]; unfold SAFE_UNITS; lia.
Qed.

Lemma tier_costs t : t ∈ FEE_DISCOUNT_TIERS -> whole (to_cost t).
Proof.
  intros Ho. cbn in Ho. repeat (apply elem_of_cons in Ho as [-> | Ho]); [.. | by apply elem_of_nil in Ho]; cbn; apply tie_free_whole;
  [apply (exact_Number 1000000000) | apply (exact_Number 2500000000) | apply (exact_Number 5000000000)]; unfold SAFE_UNITS; lia.
Qed.

(** *** Boosts and skins *)

Lemma ad_update_Ok id f s x s' : ad_update id f s = Ok (x, s') -> exists a, ads s !! id = Some a /\ s' = set_ads (<[id := f a]> (ads s)) s.
Proof. intros Hr. unfold ad_update in Hr. rewrite get_bind in Hr. destruct (ads s !! id) as [a |]; [| by apply throw_Ok in Hr]. apply put_Ok in Hr as ->. by exists a. Qed.

Lemma ad_update_calm id f s x s' : ad_update id f s = Ok (x, s') -> calm s s'.
Proof. intros Hr. apply ad_update_Ok in Hr as (a & _ & ->). by apply put_same. Qed.

Lemma boost_calm newId u adId opt key now s x s' : opt ∈ AD_BOOST_OPTIONS -> boost_tx newId u adId opt key now s = Ok (x, s') -> calm s s'.
Proof.
  intros Ho Hr. unfold boost_tx in Hr. rewrite get_bind in Hr. apply Mbind_Ok in Hr as (ad & s1 & Hl & Hr). apply lift_Ok in Hl as [_ ->].
  apply Mbind_Ok in Hr as (d & s1 & Hd & Hr). apply debit_calm in Hd; [| by apply boost_costs | done]. destruct (match key with Some _ => _ | None => _ end).
  - apply Mbind_Ok in Hr as (t & s2 & Hl & Hr). apply lift_Ok in Hl as [_ ->]. by apply Mret_Ok in Hr as [_ ->].
  - apply Mbind_Ok in Hr as (y & s2 & Hu & Hr). apply Mret_Ok in Hr as [_ ->]. apply ad_update_calm in Hu. by etrans.
Qed.

Lemma skin_costs skin cost : (skin, cost) ∈ CARD_SKIN_OPTIONS -> num_to_col cost = 100000000 /\ Qeq (num_dec cost) (usdc 100000000).
Proof.
  intros Ho. assert (cost = Number_of_units 100000000) as -> by (cbn in Ho; repeat (apply elem_of_cons in Ho as [[= _ ->] | Ho]; [done |]); by apply elem_of_nil in Ho).
  split; [apply num_col_Number | apply num_dec_Number]; unfold SAFE_UNITS; lia.
Qed.

(** A skin is paid from a balance read in the transaction: the constraint of
    the column guards the write. *)
Lemma skin_calm newId u skin cost s x s' : (skin, cost) ∈ CARD_SKIN_OPTIONS -> skin_tx newId u skin cost s = Ok (x, s') -> calm s s'.
Proof.
  intros Ho Hr. destruct (skin_costs _ _ Ho) as [Hc1 Hc2]. unfold skin_tx in Hr. rewrite get_bind in Hr.
  apply Mbind_Ok in Hr as (b & s1 & Hl & Hr). apply lift_Ok in Hl as [Hb ->]. apply of_option_Ok in Hb.
  apply Mbind_Ok in Hr as (k & s1 & Hl & Hr). apply lift_Ok in Hl as [_ ->]. destruct (str_mem _ _); [by apply Mret_Ok in Hr as [_ ->] |].
  apply Mbind_Ok in Hr as (y & s1 & Hc & Hr). apply check_Ok in Hc as [_ ->]. apply Mbind_Ok in Hr as (y1 & s1 & Hput & Hr). apply azm_put_Ok in Hput as [Hrg ->].
  apply Mbind_Ok in Hr as (y2 & s1 & Hm & Hr). apply modify_Ok in Hm as ->. apply Mbind_Ok in Hr as (z & s1 & Hz & Hr). apply reads_Ok in Hz as [-> ->].
  apply Mbind_Ok in Hr as (y3 & s1 & Hs & Hr). apply Mret_Ok in Hr as [_ ->]. apply spend_create_Ok in Hs as (Hn & _ & ->).
  rewrite (col_sub_units _ _ _ Hc2) in *. rewrite Hc1. set (b' := default 0 _). set (r := SpendRow u 100000000 _ _ _ b').
  transitivity (spent_state newId r (b - 100000000) s).
  - split; [apply (spend_keeps newId r b); (done || unfold within, slack; cbn; destruct half_units; lia) | by apply spent_quiet | by apply spent_silent].
  - by apply put_same.
Qed.

Lemma equip_calm u skin before s x s' : equipCardSkin u skin before s = Ok (x, s') -> calm s s'.
Proof.
  intros Hr. unfold equipCardSkin in Hr. apply Mbind_Ok in Hr as (y & s1 & Hl & Hr). apply lift_Ok in Hl as [_ ->]. rewrite get_bind in Hr.
  destruct (skins s !! u); [| by apply throw_Ok in Hr]. apply put_Ok in Hr as ->. by apply put_same.
Qed.

(** *** Stakes *)

(** What a stake is: the row, the spend and the balance. *)
Definition stake_made (stakeId spendId : string) (u a : Z) (s s' : adb) : Prop :=
  exists b b' tier, azm_of u s = Some b /\ 0 <= b' < DECIMAL_20_8_LIMIT /\ within (b - a) b' 1 /\ stakes s !! stakeId = None /\ spends s !! spendId = None /\
    s' = spent_state spendId (SpendRow u a "STAKE_LOCK" (Some (stake_lock_key stakeId)) None b') b'
      (set_stakes (<[stakeId := StakeRow u a STAKE_ACTIVE None None None COOLDOWN_DAYS tier]> (stakes s)) s).

Lemma stake_Ok newStake newSpend u amount s r s' : whole amount -> createStake newStake newSpend u (Num.Fin amount) s = Ok (r, s') ->
  stake_made newStake newSpend u (num_to_col amount) s s' /\ r = (getUserTier u s', getStakedBalance u s').
Proof.
  intros He Hr. unfold createStake in Hr. apply Mbind_Ok in Hr as (q & s1 & Hl & Hr). apply lift_Ok in Hl as [Hq ->]. destruct (Qle_bool amount 0) eqn:Hle; [done |]. injection Hq as <-. pose proof (positive_num _ Hle) as Hpos.
  apply Mbind_Ok in Hr as (n & s1 & Hcl & Hr). apply azm_claim_Ok in Hcl as [[-> ->] | (-> & b & Hb & Hrg & ->)]; [| | done].
  { cbn in Hr. apply Mbind_Ok in Hr as (y & s1 & Hc & Hr). by apply check_Ok in Hc as [? _]. }
  pose proof (whole_paid _ Hpos He) as Hw. set (b' := b - paid_units (num_dec amount)) in *. cbn [Nat.eqb negb] in Hr. apply Mbind_Ok in Hr as (y & s1 & Hc & Hr). apply check_Ok in Hc as [_ ->]. rewrite get_bind in Hr.
  apply Mbind_Ok in Hr as (y1 & s1 & Hc & Hr). apply check_Ok in Hc as [Hk ->]. apply Mbind_Ok in Hr as (y2 & s1 & Hc & Hr). apply check_Ok in Hc as [_ ->].
  apply Mbind_Ok in Hr as (y3 & s1 & Hp & Hr). apply put_Ok in Hp as ->. apply Mbind_Ok in Hr as (z & s1 & Hz & Hr). apply reads_Ok in Hz as [-> ->].
  apply Mbind_Ok in Hr as (y4 & s1 & Hs & Hr). apply spend_create_Ok in Hs as (Hn & _ & ->). rewrite get_bind in Hr. apply Mret_Ok in Hr as [-> ->].
  split; [| done]. exists b, b', (getUserTier u (set_azm u b' s)). split_and!; try done; [lia.. | unfold within; lia | unfold within; lia | by cbn in Hk; destruct (stakes s !! newStake) |].
  match goal with |- context [default 0 ?o] => assert (o = Some b') as -> end; [| done].
  change (azm_of u (set_azm u b' s) = Some b'). by rewrite azm_of_set, Z.eqb_refl, Hb.
Qed.

Lemma stake_calm stakeId spendId u a s s' : stake_made stakeId spendId u a s s' -> calm s s'.
Proof.
  intros (b & b' & tier & Hb & Hr & Hw & Hk & Hn & ->). split.
  - by apply (lock_keeps spendId (SpendRow u a "STAKE_LOCK" (Some (stake_lock_key stakeId)) None b') b).
  - transitivity (set_stakes (<[stakeId := StakeRow u a STAKE_ACTIVE None None None COOLDOWN_DAYS tier]> (stakes s)) s); [by split | by apply spent_quiet].
  - transitivity (set_stakes (<[stakeId := StakeRow u a STAKE_ACTIVE None None None COOLDOWN_DAYS tier]> (stakes s)) s); [by split | by apply spent_silent].
Qed.

Lemma stake_updateMany_Ok id cond f s n s' : stake_updateMany id cond f s = Ok (n, s') ->
  n = 0%nat /\ s' = s \/ n = 1%nat /\ exists k, stakes s !! id = Some k /\ cond k = true /\ s' = set_stakes (<[id := f k]> (stakes s)) s.
Proof.
  intros Hr. unfold stake_updateMany in Hr. rewrite get_bind in Hr. destruct (stakes s !! id) as [k |] eqn:Hk; [| apply Mret_Ok in Hr as [-> ->]; by left].
  destruct (cond k) eqn:Hc; [| apply Mret_Ok in Hr as [-> ->]; by left]. right. apply Mbind_Ok in Hr as (y & s1 & Hp & Hr). apply put_Ok in Hp as ->.
  apply Mret_Ok in Hr as [-> ->]. split; [done |]. by exists k.
Qed.

Lemma request_Ok u id now before s x s' : requestUnstake u id now before s = Ok (x, s') ->
  exists k days, stakes s !! id = Some k /\ st_userId k = u /\ st_status k = STAKE_ACTIVE /\ (st_cooldownDays <$> stakes before !! id) = Some days /\
    s' = set_stakes (<[id := unstaking now (now + days * DAY_MS) k]> (stakes s)) s.
Proof.
  intros Hr. unfold requestUnstake in Hr. apply Mbind_Ok in Hr as (k0 & s1 & Hl & Hr). apply lift_Ok in Hl as [Hl ->]. res_inv Hl.
  apply Mbind_Ok in Hr as (n & s1 & Hu & Hr). apply stake_updateMany_Ok in Hu as [[-> ->] | (-> & k & Hk & Hc & ->)]; [by apply check_Ok in Hr as [? _] |].
  apply check_Ok in Hr as [_ ->]. apply andb_true_iff in Hc as [Hu Hs]. apply Z.eqb_eq in Hu. apply bool_decide_eq_true in Hs. exists k, (st_cooldownDays k0).
  split_and!; try done. match goal with He : stakes before !! id = Some _ |- _ => by rewrite He end.
Qed.

Lemma request_calm u id now before s x s' : requestUnstake u id now before s = Ok (x, s') -> calm s s'.
Proof.
  intros Hr. apply request_Ok in Hr as (k & days & Hk & _ & Hst & _ & ->). split; [| by split | by split]. split; try done.
  all: intros v; change (entries v (set_stakes _ s)) with (entries v s); rewrite Z.sub_diag.
  { apply within_refl. }
  set (k' := unstaking _ _ k). assert (Hs : staked v (set_stakes (<[id := k']> (stakes s)) s) = staked v s).
  { unfold staked. cbn -[backed]. rewrite (sumM_insert _ _ _ k) by done. assert (backed k = true) as -> by (unfold backed; by rewrite Hst).
    assert (backed k' = true) as -> by done. change (st_userId k') with (st_userId k). change (st_amount k') with (st_amount k). lia. }
  unfold holding. rewrite Hs. apply within_refl.
Qed.

(** A release: the row is final, the user has the stake back. *)
Definition stake_released (rewardId stakeId : string) (now : Z) (s s' : adb) : Prop :=
  exists k b, stakes s !! stakeId = Some k /\ releasable now k = true /\ azm_of (st_userId k) s = Some b /\ 0 <= b + st_amount k < DECIMAL_20_8_LIMIT /\
    rewards (sav s) !! rewardId = None /\
    s' = earned_state rewardId (RewardRow (st_userId k) (st_amount k) "STAKE_RELEASE" (Some (stake_release_key stakeId)) None (b + st_amount k)) (b + st_amount k)
      (set_stakes (<[stakeId := unstaked now k]> (stakes s)) s).

Lemma reward_create_Ok id r s x s' : reward_create id r s = Ok (x, s') -> rewards s !! id = None /\ s' = set_rewards (<[id := r]> (rewards s)) s.
Proof.
  intros Hr. unfold reward_create in Hr. rewrite get_bind in Hr. apply Mbind_Ok in Hr as (y & s1 & Hc & Hr). apply check_Ok in Hc as [Hc ->]. apply put_Ok in Hr as ->.
  apply andb_true_iff in Hc as [Hn _]. by destruct (rewards s !! id).
Qed.

Lemma unstake_Ok newReward id now s x s' : completeUnstake newReward id now s = Ok (x, s') ->
  x = false /\ s' = s \/ x = true /\ stake_released newReward id now s s'.
Proof.
  intros Hr. unfold completeUnstake in Hr. rewrite get_bind in Hr. destruct (stakes s !! id) as [k |] eqn:Hk; [| apply Mret_Ok in Hr as [-> ->]; by left].
  destruct (releasable now k) eqn:Hrel; cbn [negb] in Hr; [| apply Mret_Ok in Hr as [-> ->]; by left].
  apply Mbind_Ok in Hr as (n & s1 & Hu & Hr). apply stake_updateMany_Ok in Hu as [[-> ->] | (-> & k1 & Hk1 & _ & ->)]; [apply Mret_Ok in Hr as [-> ->]; by left |].
  assert (k1 = k) as -> by congruence. cbn [Nat.eqb] in Hr. apply Mbind_Ok in Hr as (b & s1 & Hl & Hr). apply lift_Ok in Hl as [Hb ->]. apply of_option_Ok in Hb.
  apply Mbind_Ok in Hr as (y & s1 & Hp & Hr). apply azm_put_Ok in Hp as [Hrg ->]. apply Mbind_Ok in Hr as (y1 & s1 & Hc & Hr). apply Mret_Ok in Hr as [-> ->].
  apply on_sav_Ok in Hc as (v & Hc & ->). apply reward_create_Ok in Hc as [Hn ->]. right. split; [done |]. by exists k, b.
Qed.

Lemma unstake_calm rewardId id now s s' : stake_released rewardId id now s s' -> calm s s'.
Proof.
  intros (k & b & Hk & Hrel & Hb & Hr & Hn & ->). split; [| by split | transitivity (set_stakes (<[id := unstaked now k]> (stakes s)) s); [by split | by apply earned_silent]].
  apply (release_keeps rewardId (RewardRow (st_userId k) (st_amount k) "STAKE_RELEASE" (Some (stake_release_key id)) None (b + st_amount k)) b id k); try done.
  unfold releasable in Hrel. apply andb_true_iff in Hrel as [Hs _]. apply bool_decide_eq_true in Hs. unfold backed. by rewrite Hs.
Qed.

(** *** Rewards *)

Lemma credit_bound newId u amount source key s r s' : _creditAzmWithClient newId u amount source key s = Ok (r, s') -> cd_credited r = true ->
  0 <= Qnum amount /\ forall p, profiles s !! u = Some p -> numeric_ok (pf_azmBalance p + num_to_col amount) = true.
Proof.
  intros Hr Hc. unfold _creditAzmWithClient in Hr. apply Mbind_Ok in Hr as (y & s1 & Hk & Hr). apply check_Ok in Hk as [Hk ->]. rewrite get_bind in Hr.
  apply negb_true_iff, orb_false_iff in Hk as [Hk _]. apply orb_false_iff in Hk as [_ Hk]. apply positive_num in Hk. split; [done |].
  destruct (truthy key ≫= _) as [[id row] |]; [apply Mret_Ok in Hr as [-> _]; done |]. intros p Hp. rewrite Hp in Hr.
  apply Mbind_Ok in Hr as (y1 & s1 & Hn & Hr). by apply check_Ok in Hn as [? _].
Qed.

Lemma alter_insert_Some {K V} `{Countable K} (f : V -> V) (m : gmap K V) k v : m !! k = Some v -> alter f k m = <[k := f v]> m.
Proof.
  intros Hv. apply map_eq. intros i. destruct (decide (k = i)) as [<- | Hne]; [by rewrite lookup_insert_eq, lookup_alter_eq, Hv | by rewrite lookup_insert_ne, lookup_alter_ne].
Qed.

Definition credited_to (newId : string) (u a : Z) (source : string) (key : option string) (s s' : adb) : Prop :=
  exists b, azm_of u s = Some b /\ b + a < DECIMAL_20_8_LIMIT /\ 0 <= a /\ (forall k, truthy key = Some k -> reward_of u source k (sav s) = None) /\
    rewards (sav s) !! newId = None /\ s' = earned_state newId (RewardRow u a source key (truthy key) (b + a)) (b + a) s.

Lemma credit_sav newId u amount source key s r s' : on_sav (_creditAzmWithClient newId u amount source key) s = Ok (r, s') ->
  (s' = s /\ exists k x, truthy key = Some k /\ reward_of u source k (sav s) = Some x) \/ credited_to newId u (num_to_col amount) source key s s'.
Proof.
  intros Hr. apply on_sav_Ok in Hr as (v & Hr & ->). pose proof (credit_bound _ _ _ _ _ _ _ _ Hr) as Hbd.
  apply credit_Ok in Hr as [(-> & _ & k & id & row & Hk & Hrow) | (Hc & p & Hp & Hf & Hn & ->)].
  - left. split; [by destruct s |]. by exists k, (id, row).
  - right. destruct (Hbd Hc) as [Hq Hb]. specialize (Hb p Hp). unfold numeric_ok in Hb. apply Z.ltb_lt in Hb. pose proof (col_nonneg _ Hq) as Ha.
    exists (pf_azmBalance p). split_and!; try done; [unfold azm_of; by rewrite Hp | lia |]. unfold earned_state, set_azm. cbn [rw_userId].
    by rewrite (alter_insert_Some _ _ _ _ Hp).
Qed.

Lemma credited_keeps newId u a source key s s' : typed s -> outside source = true -> credited_to newId u a source key s s' -> keeps s s'.
Proof.
  intros Ht Ho (b & Hb & Hl & Ha & _ & Hn & ->). pose proof (Ht u b Hb). by apply (earn_keeps newId (RewardRow u a source key (truthy key) (b + a))); cbn; try lia.
Qed.

Lemma award_calm newId u amount source key s r s' : typed s -> plain source -> award newId u amount source key s = (r, s') -> calm s s'.
Proof.
  intros Ht (Ho & Ha & _ & Hg) Hr. unfold award in Hr. destruct (creditAzm _ _ _ _ _ _) as [c v] eqn:Hc. injection Hr as _ <-. unfold creditAzm in Hc.
  assert (Hid : calm s (set_sav (sav s) s)) by by destruct s. destruct (bad_reward _ _ _); [by injection Hc as _ <- |].
  destruct (transaction _ (sav s)) as [o v1] eqn:Htx. assert (v = v1) as -> by (destruct o; by injection Hc as _ <-).
  apply tx_cases in Htx as [(x & _ & Hx) | (e & _ & ->)]; [| done].
  assert (Hs : on_sav (_creditAzmWithClient newId u amount source (Some key)) s = Ok (x, set_sav v1 s)) by (unfold on_sav; by rewrite Hx).
  apply credit_sav in Hs as [[-> _] | Hcr]; [done |]. split; [by eapply credited_keeps | |]; destruct Hcr as (b & _ & _ & _ & _ & Hn & ->); [by split | by apply earned_silent].
Qed.

(** *** Gifts *)

Lemma commit_calm op body s x s' : on_sav (commit_claim_tx op body) s = Ok (x, s') -> calm s s' /\ exists ops, s' = set_sav (set_bank (set_operations ops (bank (sav s))) (sav s)) s.
Proof.
  intros Hr. apply on_sav_Ok in Hr as (v & Hr & ->). apply commit_claim_tx_Ok in Hr as [ops ->]. split; [by apply put_same | by exists ops].
Qed.

(** Every gift identity in the logs is the identity of a gift. *)
Record ginv (s : adb) : Prop := {
  gv_sent id r k : spends s !! id = Some r -> sp_source r = "GIFT_TIP"%string -> sp_dedupKey r = Some k \/ sp_metadata r = Some k ->
    exists gid g, gifts s !! gid = Some g /\ gf_dedupKey g = Some k;
  gv_received id r k : rewards (sav s) !! id = Some r -> rw_source r = "GIFT_TIP_RECEIVED"%string -> rw_dedupKey r = Some k \/ rw_metadata r = Some k ->
    exists sender key gid g, k = gift_reward_key sender key /\ gifts s !! gid = Some g /\ gf_dedupKey g = Some (gift_op sender key);
}.

Lemma silent_ginv s s' : silent s s' -> ginv s -> ginv s'.
Proof.
  intros [Hg Hs Hr] [A B]. split; rewrite Hg; [intros id r k Hi Hsrc; exact (A id r k (Hs _ _ Hi Hsrc) Hsrc) | intros id r k Hi Hsrc; exact (B id r k (Hr _ _ Hi Hsrc) Hsrc)].
Qed.

Lemma gift_of_Some op s id g : gift_of op s = Some (id, g) -> gifts s !! id = Some g /\ gf_dedupKey g = Some op.
Proof.
  intros Hf. apply List.find_some in Hf as [Hi Hk]. apply list_elem_of_In, elem_of_map_to_list in Hi. by apply bool_decide_eq_true in Hk.
Qed.
Lemma gift_of_None op s id g : gift_of op s = None -> gifts s !! id = Some g -> gf_dedupKey g <> Some op.
Proof.
  intros Hf Hi Hk. assert (Hin : In (id, g) (map_to_list (gifts s))) by by apply list_elem_of_In, elem_of_map_to_list.
  apply (List.find_none _ _ Hf), bool_decide_eq_false in Hin. done.
Qed.
Lemma spend_of_Some u source k s id r : spend_of u source k s = Some (id, r) ->
  spends s !! id = Some r /\ sp_userId r = u /\ sp_source r = source /\ (sp_dedupKey r = Some k \/ sp_metadata r = Some k).
Proof.
  intros Hf. apply List.find_some in Hf as [Hi Hk]. apply list_elem_of_In, elem_of_map_to_list in Hi. cbn in Hk.
  apply andb_true_iff in Hk as [Hk Ho]. apply andb_true_iff in Hk as [Hu Hs]. apply Z.eqb_eq in Hu. apply String.eqb_eq in Hs.
  apply orb_true_iff in Ho. rewrite !bool_decide_eq_true in Ho. done.
Qed.

Lemma reward_key_op i k j l : gift_reward_key i k = gift_reward_key j l -> gift_op i k = gift_op j l.
Proof. unfold gift_reward_key, gift_op. intros He. apply (inj (String.append _)) in He. by rewrite He. Qed.

(** What a gift that is not a replay does, where [paid] is what the sender's
    column loses. *)
Record gift_sent (id : string) (g : gift_row) (paid : Z) (s s' : adb) : Prop := {
  gs_new : gifts s !! id = None /\ gifts s' = <[id := g]> (gifts s);
  gs_azm u : azm u s' = azm u s - (if u =? gf_senderId g then paid else 0) + (if u =? gf_receiverId g then gf_amount g else 0);
  gs_keeps : keeps s s';
  gs_quiet : quiet s s';
  gs_ginv : ginv s';
}.

Lemma gift_create_Ok id g s x s' : gift_create id g s = Ok (x, s') -> gifts s !! id = None /\ s' = set_gifts (<[id := g]> (gifts s)) s.
Proof.
  intros Hr. unfold gift_create in Hr. rewrite get_bind in Hr. apply Mbind_Ok in Hr as (y & s1 & Hc & Hr). apply check_Ok in Hc as [_ ->].
  apply Mbind_Ok in Hr as (y1 & s1 & Hc & Hr). apply check_Ok in Hc as [Hc ->]. apply Mbind_Ok in Hr as (y2 & s1 & Hn & Hr). apply check_Ok in Hn as [_ ->].
  apply put_Ok in Hr as ->. apply andb_true_iff in Hc as [Hc _]. by destruct (gifts s !! id).
Qed.

Lemma sent_once u k gid g s : ginv s -> gift_of k s = None -> spend_of u "GIFT_TIP" k (set_gifts (<[gid := g]> (gifts s)) s) = None.
Proof.
  intros Hg Hn. destruct (spend_of _ _ _ _) as [[id r] |] eqn:Hs; [| done]. apply spend_of_Some in Hs as (Hi & _ & Hsrc & Hk).
  destruct (gv_sent s Hg id r k Hi Hsrc Hk) as (i & h & Hh & Hd). by destruct (gift_of_None _ _ _ _ Hn Hh).
Qed.
Lemma received_once u sender key s : ginv s -> gift_of (gift_op sender key) s = None -> reward_of u "GIFT_TIP_RECEIVED" (gift_reward_key sender key) (sav s) = None.
Proof.
  intros Hg Hn. destruct (reward_of _ _ _ _) as [[id r] |] eqn:Hs; [| done]. apply reward_of_Some in Hs as (Hi & _ & Hsrc & Hk).
  destruct (gv_received s Hg id r _ Hi Hsrc Hk) as (sd & ky & i & h & Hop & Hh & Hd). apply reward_key_op in Hop. rewrite <- Hop in Hd.
  by destruct (gift_of_None _ _ _ _ Hn Hh).
Qed.

(** The two log rows of a gift. *)
Lemma gift_logs gid g sid sp bs rid rw br sender key s : ginv s -> gifts s !! gid = None -> gf_dedupKey g = Some (gift_op sender key) ->
  sp_dedupKey sp = Some (gift_op sender key) -> sp_metadata sp = Some (gift_op sender key) ->
  rw_dedupKey rw = Some (gift_reward_key sender key) -> rw_metadata rw = Some (gift_reward_key sender key) ->
  ginv (earned_state rid rw br (spent_state sid sp bs (set_gifts (<[gid := g]> (gifts s)) s))).
Proof.
  intros [A B] Hn Hg S1 S2 R1 R2.
  assert (Hsub : forall i h, gifts s !! i = Some h -> <[gid := g]> (gifts s) !! i = Some h) by (intros i h Hi; rewrite lookup_insert_ne; congruence).
  split; intros id r k; cbn; rewrite lookup_insert; case_decide; subst.
  - intros [= <-] _ Hk. exists gid, g. rewrite lookup_insert_eq. split; [done |]. destruct Hk; congruence.
  - intros Hi Hs Hk. destruct (A id r k Hi Hs Hk) as (i & h & Hh & Hd). eauto.
  - intros [= <-] _ Hk. exists sender, key, gid, g. rewrite lookup_insert_eq. split_and!; try done. destruct Hk; congruence.
  - intros Hi Hs Hk. destruct (B id r k Hi Hs Hk) as (sd & ky & i & h & Ho & Hh & Hd). exists sd, ky, i, h. eauto.
Qed.

Section Gift.
Context (wire_gift : string * gift_row -> option Z -> string).

Lemma gift_Ok ids sender receiver amount type key op s o s' : typed s -> ginv s -> whole amount -> sender <> receiver ->
  gift_tx wire_gift ids sender receiver amount type key op s = Ok (o, s') ->
  (go_replay o = true /\ gift_of (gift_op sender key) s = Some (go_gift o) /\ calm s s' /\ forall u, azm u s' = azm u s) \/
  (go_replay o = false /\ gift_of (gift_op sender key) s = None /\ go_senderBalance o = Some (azm sender s') /\
   go_gift o = (gi_gift ids, GiftRow sender receiver (num_to_col amount) type (Some (gift_op sender key))) /\
   gift_sent (gi_gift ids) (GiftRow sender receiver (num_to_col amount) type (Some (gift_op sender key))) (paid_units (num_dec amount)) s s').
Proof.
  intros Ht Hg He Hne Hr. unfold gift_tx in Hr. apply Mbind_Ok in Hr as (ex & s1 & Hx & Hr). apply reads_Ok in Hx as [-> ->].
  destruct (gift_of _ s) as [g |] eqn:Hgo; apply Mbind_Ok in Hr as (y & s1 & Hc & Hr).
  { apply Mret_Ok in Hr as [-> ->]. apply commit_calm in Hc as (Hc & ops & ->). left. by split_and!. }
  right. apply reads_Ok in Hc as [-> ->]. apply Mbind_Ok in Hr as (y1 & s1 & Hc & Hr). apply check_Ok in Hc as [_ ->].
  apply Mbind_Ok in Hr as (y2 & s1 & Hc & Hr). apply gift_create_Ok in Hc as [Hn ->]. set (g := GiftRow _ _ _ _ _) in *. set (s1 := set_gifts _ s) in *.
  apply Mbind_Ok in Hr as (d & s2 & Hd & Hr). apply debit_Ok in Hd as [(_ & _ & k & id & row & Hk & Hf) | (_ & Hbal & Hd)].
  { injection Hk as <-. unfold s1 in Hf. rewrite sent_once in Hf; done. }
  apply Mbind_Ok in Hr as (c & s3 & Hc & Hr). apply Mbind_Ok in Hr as (y3 & s4 & Hw & Hr). apply Mret_Ok in Hr as [-> ->].
  assert (K1 : keeps s s1) by (apply same_keeps; split; try done; by apply insert_subseteq). pose proof (debited_keeps _ _ _ "GIFT_TIP" _ _ _ He eq_refl Hd) as K2.
  destruct Hd as (b & Hb & Hrg & _ & _ & Hns & Hs2). set (paid := paid_units (num_dec amount)) in *.
  apply credit_sav in Hc as [(_ & k & x & Hk & Hf) | Hc].
  { injection Hk as <-. rewrite Hs2 in Hf. change (sav (spent_state _ _ _ s1)) with (sav (set_azm sender (b - paid) s)) in Hf.
    change (reward_of receiver "GIFT_TIP_RECEIVED" (gift_reward_key sender key) (sav s) = Some x) in Hf. rewrite received_once in Hf; done. }
  pose proof (credited_keeps _ _ _ "GIFT_TIP_RECEIVED" _ _ _ (kp_typed _ _ K2 (kp_typed _ _ K1 Ht)) eq_refl Hc) as K3. destruct Hc as (c0 & Hc0 & _ & _ & _ & Hnr & Hs3).
  apply commit_calm in Hw as ([K4 Q4 S4] & ops & Hs4). cbn [go_replay go_senderBalance go_gift].
  assert (Hz2 : forall u, azm u s2 = if u =? sender then b - paid else azm u s) by (intros u; rewrite Hs2; exact (azm_set _ _ s1 u _ Hb)).
  assert (Hz3 : forall u, azm u s4 = if u =? receiver then c0 + num_to_col amount else azm u s2) by (intros u; rewrite Hs4, Hs3; exact (azm_set _ _ s2 u _ Hc0)).
  assert (Hb' : azm sender s = b) by (unfold azm; change (azm_of sender s) with (azm_of sender s1); by rewrite Hb). assert (Hc' : azm receiver s2 = c0) by (unfold azm; by rewrite Hc0).
  split_and!; [done.. | rewrite Hbal, Hz3; by destruct (Z.eqb_spec sender receiver) | done |]. split.
  - split; [done |]. rewrite Hs4, Hs3, Hs2. done.
  - intros u. rewrite Hz3, Hz2. rewrite Hz2 in Hc'. cbn. destruct (Z.eqb_spec receiver sender), (Z.eqb_spec u sender), (Z.eqb_spec u receiver); subst; try done; lia.
  - by rewrite K1, K2, K3.
  - rewrite <- Q4. rewrite Hs3. transitivity s2; [| by split]. rewrite Hs2. transitivity s1; [by split | by apply spent_quiet].
  - eapply silent_ginv; [exact S4 |]. rewrite Hs3, Hs2. by apply gift_logs with (sender := sender) (key := key).
Qed.
End Gift.
End Operations.
End Books.
