(* ===== verification/Auction.v ===== *)
(** * AZM auctions (services/azmAuctionService.js)

    Vendors bid points for a promotion of their ads.  An auction is open for a
    day; at its settlement the highest bids are debited, their ads are promoted
    for a day and the other bids are lost.  Settlement is one transaction; a
    settlement that an older version of the code left half done keeps its
    committed winners.  The worker (workers/azmAuctionWorker.js) opens the next
    auction and settles the ones whose window has passed. *)

From stdpp Require Import base gmap strings list.
From Stdlib Require Import ZArith QArith Lia Ascii.
From S2P Require Import Prelude JsNumber ExactDecimal Json Ledger Idempotency Escrow Vault Azm.

Local Open Scope Z_scope.

Definition WINDOW_MS : Z := 24 * 60 * 60 * 1000.
Definition DEFAULT_WINNER_COUNT : Z := 3.

Definition with_auction_status (st : auction_status) (a : auction_row) : auction_row :=
  AuctionRow (au_start a) (au_end a) st (au_winnerCount a) (au_totalBurned a) (au_settledAt a) (au_leaderboard a).
Definition with_bid_status (st : bid_status) (b : bid_row) : bid_row :=
  BidRow (bd_auctionId b) (bd_vendorId b) (bd_adId b) (bd_amount b) st (bd_rank b) (bd_burned b) (bd_boostedUntil b) (bd_createdAt b).
Definition placed (adId amount : Z) (b : bid_row) : bid_row :=
  BidRow (bd_auctionId b) (bd_vendorId b) adId amount BID_ACTIVE (bd_rank b) (bd_burned b) (bd_boostedUntil b) (bd_createdAt b).
Definition won (rank until : Z) (b : bid_row) : bid_row :=
  BidRow (bd_auctionId b) (bd_vendorId b) (bd_adId b) (bd_amount b) BID_WON (Some rank) (bd_amount b) (Some until) (bd_createdAt b).
Definition settled_auction (now burned : Z) (board : list place) (a : auction_row) : auction_row :=
  AuctionRow (au_start a) (au_end a) AU_SETTLED (au_winnerCount a) burned (Some now) board.

(** ** The open auction *)

Definition is_open (now : Z) (a : auction_row) : bool := bool_decide (au_status a = AU_OPEN) && (now <? au_end a).
Definition open_auction (now : Z) (s : adb) : option (string * auction_row) := List.find (fun p => is_open now p.2) (map_to_list (auctions s)).

(** INSERT of an auction: primary key and unique window. *)
Definition auction_create (id : string) (a : auction_row) : M adb unit :=
  s ← get;
  check (match auctions s !! id with None => true | Some _ => false end &&
         negb (existsb (fun p => (au_start p.2 =? au_start a) && (au_end p.2 =? au_end a)) (map_to_list (auctions s)))) "P2002";;
  put (set_auctions (<[id := a]> (auctions s)) s).

Definition _ensureOpenTx (newId : string) (now : Z) : M adb (string * auction_row) :=
  existing ← reads (open_auction now);
  match existing with
  | Some p => mret p
  | None =>
      let a := AuctionRow now (now + WINDOW_MS) AU_OPEN DEFAULT_WINNER_COUNT 0 None [] in
      auction_create newId a;;
      mret (newId, a)
  end.
Definition ensureOpen (newId : string) (now : Z) : adb -> res (string * auction_row) * adb := transaction (_ensureOpenTx newId now).

(** ** Bids *)

Definition bid_of (auctionId : string) (vendorId : Z) (s : adb) : option (string * bid_row) :=
  List.find (fun p => String.eqb (bd_auctionId p.2) auctionId && (bd_vendorId p.2 =? vendorId)) (map_to_list (bids s)).

(** The auction row is locked and read again; [later] is the clock of that
    test. *)
Definition locked_open (auctionId : string) (later : Z) : M adb unit :=
  locked ← reads (fun s => auctions s !! auctionId);
  check (match locked with Some a => is_open later a | None => false end) "Auction is settling".

Definition bid_tx (newAuction newBid : string) (vendorId adId amount now later : Z) : M adb unit :=
  auction ← _ensureOpenTx newAuction now;
  locked_open auction.1 later;;
  existing ← reads (bid_of auction.1 vendorId);
  match existing with
  | Some (id, b) =>
      check (bool_decide (bd_status b = BID_ACTIVE)) "Bids are final after settlement";;
      bid_update id (placed adId amount)
  | None =>
      s ← get;
      check (match azm_of vendorId s, ads s !! adId with Some _, Some _ => true | _, _ => false end) "P2003";;
      check (match bids s !! newBid with None => true | Some _ => false end) "P2002";;
      check (numeric_ok amount) "NUMERIC_OVERFLOW";;
      put (set_bids (<[newBid := BidRow auction.1 vendorId adId amount BID_ACTIVE None 0 None now]> (bids s)) s)
  end.

Definition placeBid (newAuction newBid : string) (vendorId adId : Z) (amountAzm : Q) (now later : Z) (before s : adb) : res unit * adb :=
  match
    (throw_if (Qle_bool amountAzm 0) "amountAzm must be > 0";;
     ad ← of_option (ads before !! adId) "Ad not found";
     throw_if (negb (ad_vendorId ad =? vendorId)) "Not your ad";;
     throw_if (negb (String.eqb (ad_status ad) "ACTIVE")) "Ad must be active to bid";;
     throw_if (match azm_of vendorId before with Some b => negb (Qle_bool amountAzm (usdc b)) | None => true end) "Insufficient AZM balance")
  with
  | Err e => (Err e, s)
  | Ok _ => transaction (bid_tx newAuction newBid vendorId adId (toFixedZ 8 amountAzm) now later) s
  end.

Definition withdrawn (auctionId : string) (vendorId : Z) (b : bid_row) : bool :=
  String.eqb (bd_auctionId b) auctionId && (bd_vendorId b =? vendorId) && bool_decide (bd_status b = BID_ACTIVE).
Definition withdrawBid (newAuction : string) (vendorId now later : Z) : adb -> res unit * adb :=
  transaction (
    auction ← _ensureOpenTx newAuction now;
    locked_open auction.1 later;;
    modify (fun s => set_bids (base.filter (fun p => withdrawn auction.1 vendorId p.2 = false) (bids s)) s)).

(** ** Settlement *)

Definition auction_win_key (auctionId : string) (vendorId : Z) : string := ("auction-win-" +:+ auctionId +:+ "-" +:+ Z_digits vendorId)%string.

Definition auction_bids (auctionId : string) (st : bid_status) (s : adb) : list (string * bid_row) :=
  List.filter (fun p => String.eqb (bd_auctionId p.2) auctionId && bool_decide (bd_status p.2 = st)) (map_to_list (bids s)).

(** A winner that an older settlement committed: its bid, the amount of its
    spend, its rank. *)
Record committed_bid : Type := CommittedBid { cb_bid : bid_row; cb_burned : Z; cb_rank : Z }.
Fixpoint committed_winners (auctionId : string) (winnerCount : Z) (l : list (string * bid_row)) (ranks : list Z) (s : adb) : res (list committed_bid) :=
  match l with
  | [] => mret []
  | (_, bid) :: l' =>
      '(_, log) ← of_option (spend_of (bd_vendorId bid) "AD_AUCTION_BID" (auction_win_key auctionId (bd_vendorId bid)) s) "refusing to invent a burn";
      rank ← of_option (bd_rank bid) "refusing to invent a ranking";
      throw_if ((rank <? 1) || (winnerCount <? rank) || existsb (Z.eqb rank) ranks) "refusing to invent a ranking";;
      rest ← committed_winners auctionId winnerCount l' (rank :: ranks) s;
      mret (CommittedBid bid (sp_amount log) rank :: rest)
  end.

(** The order of the candidates: the higher bid, then the earlier. *)
Definition bid_leb (p q : string * bid_row) : bool :=
  (bd_amount q.2 <? bd_amount p.2) || (bd_amount q.2 =? bd_amount p.2) && (bd_createdAt p.2 <=? bd_createdAt q.2).
Definition candidates (auctionId : string) (s : adb) : list (string * bid_row) := js_sort bid_leb (auction_bids auctionId BID_ACTIVE s).

(** The ranks from 1 that no committed winner has. *)
Definition free_ranks (winnerCount : Z) (taken : list Z) : list Z :=
  List.filter (fun r => negb (existsb (Z.eqb r) taken)) (map (fun k => 1 + Z.of_nat k) (seq 0 (Z.to_nat winnerCount))).

Section Settlement.
Context `{DecimalLib} `{PrismaSend}.

(** The debit of a winner, its bid and its ad. *)
Definition settle_winner (newIds : string -> string) (auctionId : string) (until : Z) (rank : Z) (id : string) (bid : bid_row) : M adb unit :=
  _debitAzmWithClient (newIds id) (bd_vendorId bid) (Number_of_units (bd_amount bid)) "AD_AUCTION_BID" (Some (auction_win_key auctionId (bd_vendorId bid)));;
  bid_update id (won rank until);;
  ad_update (bd_adId bid) (with_boost until).
Fixpoint settle_winners (newIds : string -> string) (auctionId : string) (until : Z) (l : list (string * bid_row)) (ranks : list Z) (burned : Z) : M adb (Z * list place) :=
  match l, ranks with
  | (id, bid) :: l', rank :: ranks' =>
      settle_winner newIds auctionId until rank id bid;;
      '(total, rest) ← settle_winners newIds auctionId until l' ranks' (d_plus burned (bd_amount bid));
      mret (total, Place rank (bd_vendorId bid) (bd_adId bid) (Number_of_units (bd_amount bid)) :: rest)
  | _, _ => mret (burned, [])
  end.

Inductive settle_result : Type := NotOpen | WindowOpen | Settled (board : list place) (losers : list Z) (burned : Z).

Definition burned_loser (auctionId : string) (losers : list (string * bid_row)) (s : adb) : bool :=
  existsb (fun p => String.eqb (sp_source p.2) "AD_AUCTION_BID" &&
    existsb (fun q => bool_decide (sp_dedupKey p.2 = Some (auction_win_key auctionId (bd_vendorId q.2)))) losers) (map_to_list (spends s)).

Definition mark_lost (losers : list (string * bid_row)) (s : adb) : adb :=
  set_bids (map_imap (fun id b => Some (if existsb (fun q => String.eqb q.1 id) losers then with_bid_status BID_LOST b else b)) (bids s)) s.

Definition settle_tx (newIds : string -> string) (auctionId : string) (now : Z) : M adb settle_result :=
  s ← get;
  match auctions s !! auctionId with
  | None => mret NotOpen
  | Some a =>
      if negb ((bool_decide (au_status a = AU_OPEN) || bool_decide (au_status a = AU_SETTLING)) && (au_end a <=? now)) then mret NotOpen else
      put (set_auctions (<[auctionId := with_auction_status AU_SETTLING a]> (auctions s)) s);;
      let winnerCount := if au_winnerCount a =? 0 then DEFAULT_WINNER_COUNT else au_winnerCount a in
      let committedBids := auction_bids auctionId BID_WON s in
      check (Z.of_nat (length committedBids) <=? winnerCount) "refusing to invent a settlement";;
      committed ← lift (committed_winners auctionId winnerCount committedBids [] s);
      let freeRanks := free_ranks winnerCount (map cb_rank committed) in
      let selected := firstn (length freeRanks) (candidates auctionId s) in
      let losers := skipn (length freeRanks) (candidates auctionId s) in
      check (negb (burned_loser auctionId losers s)) "refusing to settle inconsistently";;
      let until := now + WINDOW_MS in
      let committedBurned := foldl (fun t c => d_plus t (cb_burned c)) 0 committed in
      '(totalBurned, newWinners) ← settle_winners newIds auctionId until selected freeRanks committedBurned;
      modify (mark_lost losers);;
      let leaderboard := js_sort (fun p q => pl_rank p <=? pl_rank q)
        (map (fun c => Place (cb_rank c) (bd_vendorId (cb_bid c)) (bd_adId (cb_bid c)) (Number_of_units (bd_amount (cb_bid c)))) committed ++ newWinners) in
      check (numeric_ok totalBurned) "NUMERIC_OVERFLOW";;
      modify (fun s => set_auctions (<[auctionId := settled_auction now totalBurned leaderboard a]> (auctions s)) s);;
      mret (Settled leaderboard (map (fun q => bd_vendorId q.2) losers) totalBurned)
  end.

Definition settle (newIds : string -> string) (auctionId : string) (now : Z) (before s : adb) : res settle_result * adb :=
  match auctions before !! auctionId with
  | None => (Err "Auction not found", s)
  | Some a =>
      if bool_decide (au_status a = AU_SETTLED) then (Ok NotOpen, s)
      else if now <? au_end a then (Ok WindowOpen, s)
      else transaction (settle_tx newIds auctionId now) s
  end.

(** ** The worker (workers/azmAuctionWorker.js) *)

Definition due_auctions (now : Z) (s : adb) : list string :=
  firstn 5 (map fst (List.filter (fun p => bool_decide (au_status p.2 = AU_OPEN) && (au_end p.2 <=? now)) (map_to_list (auctions s)))).
Definition auction_tick (newAuction : string) (newIds : string -> string) (now : Z) (s : adb) : adb :=
  match ensureOpen newAuction now s with
  | (Err _, s1) => s1
  | (Ok _, s1) => foldl (fun s id => (settle newIds id now s s).2) s1 (due_auctions now s1)
  end.
End Settlement.
