(* ===== verification/AuctionProps.v ===== *)
(** * AZM auctions: lemmas

    The invariant of auctions and bids, what each transaction on them does, and
    the exact effect of a settlement. *)

From stdpp Require Import base gmap strings list relations sorting.
From Stdlib Require Import ZArith QArith Lia Ascii.
From S2P Require Import Prelude JsNumber ExactDecimal Json Ledger LedgerFacts Idempotency Escrow EscrowFacts EscrowProps WalletProps Vault VaultProps Azm AzmProps Auction.

Local Open Scope Z_scope.

(** ** Identities *)

Lemma dash_split (a b d e : string) : str_forall is_digit d = true -> str_forall is_digit e = true -> (a +:+ "-" +:+ d = b +:+ "-" +:+ e)%string -> a = b /\ d = e.
Proof.
  intros Hd He. revert b. induction a as [| c a IH]; intros [| c' b] Heq; rewrite ?str_app_cons, ?str_app_nil_l in Heq.
  - by injection Heq as ->.
  - exfalso. injection Heq as _ Hb. rewrite Hb, str_forall_app in Hd. apply andb_true_iff in Hd as [_ Hd]. done.
  - exfalso. injection Heq as _ Hb. rewrite <- Hb, str_forall_app in He. apply andb_true_iff in He as [_ He]. done.
  - injection Heq as -> Hb. destruct (IH b Hb) as [-> ->]. done.
Qed.

Lemma win_key_inj a v b w : auction_win_key a v = auction_win_key b w -> a = b.
Proof.
  unfold auction_win_key. intros He. apply (inj (String.append _)) in He. by apply dash_split in He as [-> _]; [| apply Z_digits_digits..].
Qed.

(** ** The invariant *)

Definition settled (id : string) (s : adb) : Prop := exists a, auctions s !! id = Some a /\ au_status a = AU_SETTLED.

Record auinv (s : adb) : Prop := {
  ui_bids id b : bids s !! id = Some b -> 0 <= bd_amount b <= SAFE_UNITS;
  ui_unique i j b c : bids s !! i = Some b -> bids s !! j = Some c -> bd_auctionId b = bd_auctionId c -> bd_vendorId b = bd_vendorId c -> i = j;
  ui_won id b : bids s !! id = Some b -> bd_status b = BID_WON -> settled (bd_auctionId b) s;
  ui_burns id r k : spends s !! id = Some r -> sp_source r = "AD_AUCTION_BID"%string -> sp_dedupKey r = Some k \/ sp_metadata r = Some k ->
    exists a v, k = auction_win_key a v /\ settled a s;
  ui_count id a : auctions s !! id = Some a -> au_winnerCount a = DEFAULT_WINNER_COUNT;
  ui_windows i j a b : auctions s !! i = Some a -> auctions s !! j = Some b -> i <> j -> au_status a = AU_OPEN -> au_status b = AU_OPEN ->
    au_end a <= au_start b \/ au_end b <= au_start a;
}.

Lemma quiet_auinv s s' : quiet s s' -> auinv s -> auinv s'.
Proof.
  intros [Ha Hb Hs] [A B C D E F]. unfold settled in *.
  split; unfold settled; rewrite ?Ha, ?Hb; try done. intros id r k Hi Hsrc. exact (D id r k (Hs _ _ Hi Hsrc) Hsrc).
Qed.

(** A settled auction and its bids are final. *)
Record final (s s' : adb) : Prop := {
  fn_auctions i a : auctions s !! i = Some a -> au_status a = AU_SETTLED -> auctions s' !! i = Some a;
  fn_bids i b : settled (bd_auctionId b) s -> bids s !! i = Some b <-> bids s' !! i = Some b;
}.
Lemma stays_settled i s s' : final s s' -> settled i s -> settled i s'.
Proof. intros [Ha _] (a & Hi & Hs). exists a. split; [by apply Ha | done]. Qed.
#[export] Instance final_preorder : PreOrder final.
Proof.
  split; [by split |]. intros s1 s2 s3 F1 F2. split; [intros i a Hi Hs; apply F2; [by apply F1 | done] |].
  intros i b Hs. rewrite (fn_bids _ _ F1 i b Hs). apply (fn_bids _ _ F2). by apply (stays_settled _ _ _ F1).
Qed.
Lemma quiet_final s s' : quiet s s' -> final s s'.
Proof. intros [Ha Hb _]. split; rewrite ?Ha, ?Hb; done. Qed.

(** ** Opening and bidding *)

Lemma is_open_spec now a : is_open now a = true <-> au_status a = AU_OPEN /\ now < au_end a.
Proof. unfold is_open. by rewrite andb_true_iff, bool_decide_eq_true, Z.ltb_lt. Qed.

Lemma ensure_Ok newId now s p s' : _ensureOpenTx newId now s = Ok (p, s') ->
  auctions s' !! p.1 = Some p.2 /\ is_open now p.2 = true /\
  (s' = s \/ auctions s !! newId = None /\ (forall i a, auctions s !! i = Some a -> is_open now a = false) /\
             s' = set_auctions (<[newId := AuctionRow now (now + WINDOW_MS) AU_OPEN DEFAULT_WINNER_COUNT 0 None []]> (auctions s)) s).
Proof.
  intros Hr. unfold _ensureOpenTx in Hr. apply Mbind_Ok in Hr as (o & s1 & Ho & Hr). apply reads_Ok in Ho as [-> ->]. destruct (open_auction now s) as [[i a] |] eqn:Hf.
  - apply Mret_Ok in Hr as [-> ->]. apply List.find_some in Hf as [Hi Hk]. apply list_elem_of_In, elem_of_map_to_list in Hi. split_and!; [done.. | by left].
  - apply Mbind_Ok in Hr as (y & s1 & Hc & Hr). apply Mret_Ok in Hr as [-> ->]. unfold auction_create in Hc. rewrite get_bind in Hc.
    apply Mbind_Ok in Hc as (y1 & s2 & Hk & Hc). apply check_Ok in Hk as [Hk ->]. apply put_Ok in Hc as ->. apply andb_true_iff in Hk as [Hk _]. cbn [fst snd].
    split_and!; [apply lookup_insert_eq | apply is_open_spec; split; [done | cbn; unfold WINDOW_MS; lia] |]. right. split_and!; [by destruct (auctions s !! newId) | | done].
    intros i a Hi. apply (List.find_none _ _ Hf (i, a)), list_elem_of_In, elem_of_map_to_list, Hi.
Qed.

Section Runs.
Context {half : HalfUnits}.

Lemma ensure_step newId now s p s' : auinv s -> _ensureOpenTx newId now s = Ok (p, s') -> auinv s' /\ final s s' /\ keeps s s' /\ silent s s' /\ bids s' = bids s.
Proof.
  intros [A B C D E F] Hr. apply ensure_Ok in Hr as (_ & _ & [-> | (Hn & Ho & ->)]); [by split_and! |].
  set (a0 := AuctionRow _ _ _ _ _ _ _). set (s1 := set_auctions _ s). assert (Hset : forall i, settled i s -> settled i s1).
  { intros i (a & Hi & Hs). exists a. split; [| done]. cbn. rewrite lookup_insert_ne; [done | congruence]. }
  assert (Hend : forall i a, auctions s !! i = Some a -> au_status a = AU_OPEN -> au_end a <= now).
  { intros i a Hi Hs. specialize (Ho i a Hi). apply not_true_iff_false in Ho. rewrite is_open_spec in Ho. destruct (Z.le_gt_cases (au_end a) now); [done |]. by destruct Ho. }
  split_and!; [| | by apply same_keeps | by split | done].
  - split; try done.
    + intros id b Hb Hw. apply Hset. eauto.
    + intros id r k Hi Hs Hk. destruct (D id r k Hi Hs Hk) as (a & v & -> & Ha). exists a, v. eauto.
    + intros id a. cbn. rewrite lookup_insert. case_decide; [by intros [= <-] | apply E].
    + intros i j a b. cbn. rewrite !lookup_insert. repeat case_decide; subst; intros Hi Hj Hij Hoa Hob; try done; [injection Hi as <- | injection Hj as <- |]; [| | by eapply F].
      * right. cbn. by eapply Hend.
      * left. cbn. by eapply Hend.
  - split; [| done]. intros i a Hi Hs. cbn. rewrite lookup_insert_ne; [done | congruence].
Qed.

(** What a step on auctions and bids keeps. *)
Record auction_step (s s' : adb) : Prop := { as_inv : auinv s -> auinv s'; as_final : final s s'; as_keeps : keeps s s'; as_silent : silent s s' }.
#[export] Instance auction_step_preorder : PreOrder auction_step.
Proof. split; [by split |]. intros s1 s2 s3 [A1 A2 A3 A4] [B1 B2 B3 B4]. split; [auto | by etrans..]. Qed.

Lemma bid_write s id b' : 0 <= bd_amount b' <= SAFE_UNITS -> bd_status b' <> BID_WON -> ~ settled (bd_auctionId b') s ->
  (forall j c, bids s !! j = Some c -> bd_auctionId c = bd_auctionId b' -> bd_vendorId c = bd_vendorId b' -> j = id) ->
  (forall b, bids s !! id = Some b -> ~ settled (bd_auctionId b) s) -> auction_step s (set_bids (<[id := b']> (bids s)) s).
Proof.
  intros Hr Hw Hset Hu Hold. split; [| | by apply same_keeps | by split].
  - intros [A B C D E F]. split; try done.
    + intros i b. cbn. rewrite lookup_insert. case_decide; [by intros [= <-] | apply A].
    + intros i j b c. cbn. rewrite !lookup_insert. repeat case_decide; subst; intros Hi Hj Ha Hv; try done; [injection Hi as <- | injection Hj as <- | by eapply B].
      * symmetry. by eapply Hu.
      * by eapply Hu.
    + intros i b. cbn. rewrite lookup_insert. case_decide; [by intros [= <-] ? | apply C].
  - split; [done |]. intros i b Hs. cbn. rewrite lookup_insert. case_decide; [subst | done]. split; [intros Hi; by destruct (Hold b Hi) | by intros [= <-]].
Qed.

Lemma locked_Ok id later s x s' : locked_open id later s = Ok (x, s') -> s' = s /\ ~ settled id s.
Proof.
  intros Hr. unfold locked_open in Hr. apply Mbind_Ok in Hr as (o & s1 & Ho & Hr). apply reads_Ok in Ho as [-> ->]. apply check_Ok in Hr as [Hc ->]. split; [done |].
  intros (a & Ha & Hs). rewrite Ha in Hc. apply is_open_spec in Hc as [Hc _]. congruence.
Qed.

Lemma bid_of_Some A v s id b : bid_of A v s = Some (id, b) -> bids s !! id = Some b /\ bd_auctionId b = A /\ bd_vendorId b = v.
Proof.
  intros Hf. apply List.find_some in Hf as [Hi Hk]. apply list_elem_of_In, elem_of_map_to_list in Hi. cbn in Hk. apply andb_true_iff in Hk as [Ha Hv].
  apply String.eqb_eq in Ha. by apply Z.eqb_eq in Hv.
Qed.
Lemma bid_of_None A v s id b : bid_of A v s = None -> bids s !! id = Some b -> bd_auctionId b = A -> bd_vendorId b = v -> False.
Proof.
  intros Hf Hi <- <-. assert (Hin : In (id, b) (map_to_list (bids s))) by by apply list_elem_of_In, elem_of_map_to_list.
  apply (List.find_none _ _ Hf) in Hin. cbn in Hin. by rewrite String.eqb_refl, Z.eqb_refl in Hin.
Qed.

Lemma bid_update_Ok id f s x s' : bid_update id f s = Ok (x, s') -> exists b, bids s !! id = Some b /\ s' = set_bids (<[id := f b]> (bids s)) s.
Proof.
  intros Hr. unfold bid_update in Hr. rewrite get_bind in Hr. destruct (bids s !! id) as [b |]; [| by apply throw_Ok in Hr].
  apply Mbind_Ok in Hr as (y & s1 & Hc & Hr). apply check_Ok in Hc as [_ ->]. apply put_Ok in Hr as ->. by exists b.
Qed.

Lemma bid_step newAuction newBid v adId amount now later s x s' : auinv s -> 0 <= amount <= SAFE_UNITS ->
  bid_tx newAuction newBid v adId amount now later s = Ok (x, s') -> auction_step s s'.
Proof.
  intros Hi Ha Hr. unfold bid_tx in Hr. apply Mbind_Ok in Hr as (p & s1 & He & Hr). pose proof (ensure_step _ _ _ _ _ Hi He) as (I1 & F1 & K1 & S1 & _).
  transitivity s1; [by split |]. clear s He Hi F1 K1 S1. apply Mbind_Ok in Hr as (y & s2 & Hl & Hr). apply locked_Ok in Hl as [-> Hns].
  apply Mbind_Ok in Hr as (o & s2 & Ho & Hr). apply reads_Ok in Ho as [-> ->]. destruct (bid_of p.1 v s1) as [[id b] |] eqn:Hb.
  - apply Mbind_Ok in Hr as (y1 & s2 & Hc & Hr). apply check_Ok in Hc as [_ ->]. apply bid_of_Some in Hb as (Hb & Hba & Hbv).
    apply bid_update_Ok in Hr as (b1 & Hb1 & ->). assert (b1 = b) as -> by congruence. apply bid_write; cbn; try done; [by rewrite Hba | | intros c Hc; rewrite Hb in Hc; injection Hc as <-; by rewrite Hba].
    intros j c Hj Hca Hcv. eapply (ui_unique s1 I1); [exact Hj | exact Hb | congruence..].
  - rewrite get_bind in Hr. apply Mbind_Ok in Hr as (y1 & s2 & Hc & Hr). apply check_Ok in Hc as [_ ->]. apply Mbind_Ok in Hr as (y2 & s2 & Hc & Hr). apply check_Ok in Hc as [Hn ->].
    apply Mbind_Ok in Hr as (y3 & s2 & Hc & Hr). apply check_Ok in Hc as [_ ->]. apply put_Ok in Hr as ->. apply bid_write; cbn; try done.
    + intros j c Hj Hca Hcv. by destruct (bid_of_None _ _ _ _ _ Hb Hj Hca Hcv).
    + intros b Hb1. by rewrite Hb1 in Hn.
Qed.

Lemma withdraw_step newAuction v now later s r s' : auinv s -> withdrawBid newAuction v now later s = (r, s') -> auction_step s s'.
Proof.
  intros Hi Hr. unfold withdrawBid in Hr. apply tx_cases in Hr as [(x & _ & Hr) | (e & _ & ->)]; [| done].
  apply Mbind_Ok in Hr as (p & s1 & He & Hr). pose proof (ensure_step _ _ _ _ _ Hi He) as (I1 & F1 & K1 & S1 & _).
  transitivity s1; [by split |]. clear s He Hi F1 K1 S1. apply Mbind_Ok in Hr as (y & s2 & Hl & Hr). apply locked_Ok in Hl as [-> Hns]. apply modify_Ok in Hr as ->.
  split; [| | by apply same_keeps | by split].
  - intros [A B C D E F]. split; try done; cbn.
    + intros id b Hb. apply map_lookup_filter_Some in Hb as [Hb _]. eauto.
    + intros i j b c Hb Hc. apply map_lookup_filter_Some in Hb as [Hb _]. apply map_lookup_filter_Some in Hc as [Hc _]. eauto.
    + intros id b Hb. apply map_lookup_filter_Some in Hb as [Hb _]. eauto.
  - split; [done |]. intros i b Hs. cbn. rewrite map_lookup_filter_Some. split; [| by intros [? _]]. intros Hb. split; [done |]. cbn.
    apply not_true_iff_false. intros Hw. apply Hns. unfold withdrawn in Hw. apply andb_true_iff in Hw as [Hw _]. apply andb_true_iff in Hw as [Hw _]. apply String.eqb_eq in Hw. by rewrite <- Hw.
Qed.

(** ** Settlement *)

Section Settlement.
Context `{DecimalLib} `{PrismaSend}.

(** The burn rows of an auction, for the vendors of a list. *)
Definition burns_of (A : string) (vs : list Z) (s s' : adb) : Prop :=
  forall i r, spends s' !! i = Some r -> spends s !! i = Some r \/
    sp_source r = "AD_AUCTION_BID"%string /\ exists v, v ∈ vs /\ sp_userId r = v /\ sp_dedupKey r = Some (auction_win_key A v) /\ sp_metadata r = Some (auction_win_key A v).

Definition unburned (A : string) (v : Z) (s : adb) : Prop := spend_of v "AD_AUCTION_BID" (auction_win_key A v) s = None.

Lemma unburned_after A v vs s s' : burns_of A vs s s' -> v ∉ vs -> unburned A v s -> unburned A v s'.
Proof.
  intros Hb Hv Hn. unfold unburned in *. destruct (spend_of v _ _ s') as [[i r] |] eqn:Hs; [| done]. apply spend_of_Some in Hs as (Hi & Hu & Hsrc & Hk).
  destruct (Hb i r Hi) as [Hold | (_ & w & Hw & Hw' & _)]; [| congruence]. exfalso.
  assert (Hin : In (i, r) (map_to_list (spends s))) by by apply list_elem_of_In, elem_of_map_to_list. apply (List.find_none _ _ Hn) in Hin. cbn in Hin.
  rewrite Hu, Hsrc, Z.eqb_refl, String.eqb_refl in Hin. apply orb_false_iff in Hin as [E1 E2]. apply bool_decide_eq_false in E1, E2. by destruct Hk.
Qed.

(** An ad is promoted until an instant. *)
Definition promoted (adId until : Z) (s : adb) : Prop := exists a, ads s !! adId = Some a /\ ad_isBoosted a = true /\ ad_boostExpiresAt a = Some until.

(** The effect of the debits of a list of winners. *)
Record winners_paid (A : string) (until : Z) (l : list (string * bid_row)) (s s' : adb) : Prop := {
  wp_positive : Forall (fun p => 0 < bd_amount p.2) l;
  wp_azm u : azm u s' = azm u s - sumZ (fun p => if u =? bd_vendorId p.2 then bd_amount p.2 else 0) l;
  wp_auctions : auctions s' = auctions s;
  wp_keeps : keeps s s';
  wp_silent : silent s s';
  wp_burns : burns_of A (map (fun p => bd_vendorId p.2) l) s s';
  wp_ads : Forall (fun p => promoted (bd_adId p.2) until s') l;
  wp_promoted i : promoted i until s -> promoted i until s';
  wp_others i : i ∉ map fst l -> bids s' !! i = bids s !! i;
}.

Lemma Number_positive u : 0 <= u -> Qle_bool (Number_of_units u) 0 = false -> 0 < u.
Proof.
  intros Hu Hn. destruct (Z.eq_dec u 0) as [-> |]; [| lia]. exfalso. vm_compute in Hn. done.
Qed.

Lemma winner_Ok newIds A until rank id bid s x s' : 0 <= bd_amount bid <= SAFE_UNITS -> bids s !! id = Some bid -> unburned A (bd_vendorId bid) s ->
  settle_winner newIds A until rank id bid s = Ok (x, s') -> winners_paid A until [(id, bid)] s s' /\ bids s' = <[id := won rank until bid]> (bids s).
Proof.
  intros Ha Hid Hun Hr. unfold settle_winner in Hr. apply Mbind_Ok in Hr as (d & s1 & Hd & Hr).
  assert (Hpos : 0 < bd_amount bid).
  { apply Mbind_Ok in Hd as (y & s2 & Hc & _). apply check_Ok in Hc as [Hc _]. apply negb_true_iff, orb_false_iff in Hc as [Hc _].
    apply orb_false_iff in Hc as [_ Hc]. apply Number_positive in Hc; lia. }
  assert (He : tie_free (Number_of_units (bd_amount bid))) by by apply exact_Number. assert (Hcol : num_to_col (Number_of_units (bd_amount bid)) = bd_amount bid) by (apply num_col_Number; lia).
  apply debit_Ok in Hd as [(_ & _ & k & i & row & Hk & Hf) | (_ & _ & Hd)]; [injection Hk as <-; unfold unburned in Hun; congruence |].
  pose proof (debited_keeps _ _ _ "AD_AUCTION_BID" _ _ _ (tie_free_whole _ He) eq_refl Hd) as K1. destruct Hd as (b & Hb & Hrg & _ & _ & Hns & Hs1). rewrite (exact_paid _ He), Hcol in *.
  apply Mbind_Ok in Hr as (y & s2 & Hu & Hr). apply bid_update_Ok in Hu as (b1 & Hb1 & Hs2). assert (b1 = bid) as -> by (rewrite Hs1 in Hb1; cbn in Hb1; congruence).
  apply ad_update_Ok in Hr as (ad & Had & Hs'). split; [| by rewrite Hs', Hs2, Hs1]. split.
  - by repeat constructor.
  - intros u. rewrite Hs', Hs2, Hs1. cbn [sumZ]. rewrite sumZ_cons, sumZ_nil. cbn [fst snd]. assert (azm (bd_vendorId bid) s = b) by (unfold azm; by rewrite Hb).
    etransitivity; [exact (azm_set _ _ s u _ Hb) |]. destruct (Z.eqb_spec u (bd_vendorId bid)); subst; lia.
  - by rewrite Hs', Hs2, Hs1.
  - rewrite K1. rewrite Hs', Hs2. by apply same_keeps.
  - rewrite Hs', Hs2, Hs1. transitivity (spent_state (newIds id) (SpendRow (bd_vendorId bid) (bd_amount bid) "AD_AUCTION_BID" (Some (auction_win_key A (bd_vendorId bid)))
      (Some (auction_win_key A (bd_vendorId bid))) (b - bd_amount bid)) (b - bd_amount bid) s); [by apply spent_silent | by split].
  - intros i r Hi. rewrite Hs', Hs2, Hs1 in Hi. cbn in Hi. rewrite lookup_insert in Hi. case_decide; [right | by left]. injection Hi as <-. split; [done |].
    exists (bd_vendorId bid). split; [apply list_elem_of_singleton; done | done].
  - repeat constructor. cbn. exists (with_boost until ad). rewrite Hs'. cbn. by rewrite lookup_insert_eq.
  - intros i (a & Hi & Hba). rewrite Hs'. unfold promoted. cbn. rewrite lookup_insert. case_decide; [by exists (with_boost until ad) |].
    exists a. split; [| done]. by rewrite Hs2, Hs1.
  - intros i Hi. rewrite Hs', Hs2, Hs1. cbn. rewrite lookup_insert_ne; [done |]. intros <-. apply Hi. cbn. apply list_elem_of_singleton. done.
Qed.

Lemma paid_cons A until p l s s1 s' : winners_paid A until [p] s s1 -> winners_paid A until l s1 s' -> winners_paid A until (p :: l) s s'.
Proof.
  intros [A1 A2 A3 A4 A5 A6 A7 A8 A9] [B1 B2 B3 B4 B5 B6 B7 B8 B9]. split.
  - by apply Forall_cons; split; [inversion A1 |].
  - intros u. rewrite B2, A2, !sumZ_cons, sumZ_nil. lia.
  - congruence.
  - by etrans.
  - by etrans.
  - intros i r Hi. apply B6 in Hi as [Hi | (Hsrc & v & Hv & Hrow)].
    + apply A6 in Hi as [Hi | (Hsrc & v & Hv & Hrow)]; [by left | right]. split; [done |]. exists v. split; [| done]. apply list_elem_of_singleton in Hv as ->. apply elem_of_cons. by left.
    + right. split; [done |]. exists v. split; [| done]. apply elem_of_cons. by right.
  - apply Forall_cons. split; [| done]. apply B8. by inversion A7.
  - auto.
  - intros i Hi. cbn in Hi. apply not_elem_of_cons in Hi as [Hi1 Hi2]. rewrite B9 by done. apply A9. cbn. by intros Hi%list_elem_of_singleton.
Qed.

Lemma paid_nil A until s : winners_paid A until [] s s.
Proof. split; try done. - intros u. rewrite sumZ_nil. lia. - by left. Qed.

(** The entry of a winner on the leaderboard. *)
Definition place_of (p : string * bid_row) (rank : Z) : place := Place rank (bd_vendorId p.2) (bd_adId p.2) (Number_of_units (bd_amount p.2)).

Lemma winners_Ok newIds A until l ranks burned s total board s' : (length l <= length ranks)%nat -> NoDup (map fst l) -> NoDup (map (fun p => bd_vendorId p.2) l) ->
  Forall (fun p => 0 <= bd_amount p.2 <= SAFE_UNITS /\ bids s !! p.1 = Some p.2 /\ unburned A (bd_vendorId p.2) s) l ->
  0 <= burned -> burned + Z.of_nat (length l) * SAFE_UNITS < 10 ^ 20 ->
  settle_winners newIds A until l ranks burned s = Ok ((total, board), s') ->
  winners_paid A until l s s' /\ total = burned + sumZ (fun p => bd_amount p.2) l /\ board = zip_with place_of l ranks /\
  (forall k p r, l !! k = Some p -> ranks !! k = Some r -> bids s' !! p.1 = Some (won r until p.2)).
Proof.
  revert ranks burned s total board s'. induction l as [| [id bid] l IH]; intros ranks burned s total board s' Hlen Hnd Hv Hall Hb0 Hb Hr.
  { cbn in Hr. apply Mret_Ok in Hr as [[= -> ->] ->]. split; [apply paid_nil |]. rewrite sumZ_nil. split_and!; [lia | done..]. }
  destruct ranks as [| rank ranks]; [cbn in Hlen; lia |]. cbn [settle_winners] in Hr. apply Mbind_Ok in Hr as (y & s1 & Hw & Hr).
  apply Mbind_Ok in Hr as ([tot rest] & s2 & Hrec & Hr). apply Mret_Ok in Hr as [[= -> ->] ->]. cbn [map fst snd] in Hnd, Hv.
  apply NoDup_cons in Hnd as [Hid Hnd]. apply NoDup_cons in Hv as [Hvn Hv]. apply Forall_cons in Hall as [(Ha & Hbid & Hun) Hall]. cbn [fst snd] in *.
  apply winner_Ok in Hw as [W Hbids]; [| done..]. cbn [length] in Hlen, Hb.
  assert (Hplus : d_plus burned (bd_amount bid) = burned + bd_amount bid) by (unfold d_plus; apply dround_exact; unfold SAFE_UNITS in *; lia). rewrite Hplus in Hrec.
  apply IH in Hrec as (W2 & Htot & Hbd & Hwon); [| lia | done | done | | lia | unfold SAFE_UNITS in *; lia].
  - split; [by eapply paid_cons |]. rewrite sumZ_cons, Htot. split; [cbn; lia |]. split; [by rewrite Hbd |]. intros [| k] p r Hp Hk; cbn in Hp, Hk; [| by eapply Hwon].
    injection Hp as <-. injection Hk as <-. cbn. rewrite (wp_others _ _ _ _ _ W2) by done. by rewrite Hbids, lookup_insert_eq.
  - apply Forall_forall. intros p Hp. rewrite Forall_forall in Hall. destruct (Hall p Hp) as (Pa & Pb & Pu). split_and!; [lia.. | |].
    + rewrite (wp_others _ _ _ _ _ W); [done |]. cbn. intros Hi%list_elem_of_singleton. apply Hid. rewrite <- Hi. by apply list_elem_of_fmap_2.
    + eapply unburned_after; [exact (wp_burns _ _ _ _ _ W) | | done]. cbn. intros Hi%list_elem_of_singleton. apply Hvn. rewrite <- Hi. by apply (list_elem_of_fmap_2 (fun p => bd_vendorId p.2)).
Qed.

(** *** The candidates *)

Lemma candidate A s p : p ∈ candidates A s <-> bids s !! p.1 = Some p.2 /\ bd_auctionId p.2 = A /\ bd_status p.2 = BID_ACTIVE.
Proof.
  unfold candidates. rewrite js_sort_perm. unfold auction_bids. rewrite list_elem_of_In, filter_In, <- list_elem_of_In.
  destruct p as [i b]. rewrite elem_of_map_to_list. cbn. by rewrite andb_true_iff, String.eqb_eq, bool_decide_eq_true.
Qed.

Lemma candidates_ids A s : NoDup (map fst (candidates A s)).
Proof. unfold candidates. rewrite js_sort_perm. apply filter_NoDup_fst, NoDup_fst_map_to_list. Qed.

Lemma candidates_vendors A s : auinv s -> NoDup (map (fun p => bd_vendorId p.2) (candidates A s)).
Proof.
  intros Hi. apply NoDup_fmap_2_strong; [| by apply NoDup_fmap_1 with (f := fst), candidates_ids]. intros [i b] [j c] Hb Hc Hv.
  apply candidate in Hb as (Hb & Hba & _). apply candidate in Hc as (Hc & Hca & _). cbn in *. assert (i = j) as <- by (eapply (ui_unique s Hi); eauto; congruence). congruence.
Qed.

Lemma bid_leb_total p q : bid_leb p q = true \/ bid_leb q p = true.
Proof. unfold bid_leb. destruct (Z.ltb_spec (bd_amount q.2) (bd_amount p.2)), (Z.ltb_spec (bd_amount p.2) (bd_amount q.2)), (Z.eqb_spec (bd_amount q.2) (bd_amount p.2)),
  (Z.eqb_spec (bd_amount p.2) (bd_amount q.2)), (Z.leb_spec (bd_createdAt p.2) (bd_createdAt q.2)), (Z.leb_spec (bd_createdAt q.2) (bd_createdAt p.2)); cbn; auto; lia. Qed.

Lemma bid_leb_spec p q : bid_leb p q = true <-> bd_amount q.2 < bd_amount p.2 \/ bd_amount q.2 = bd_amount p.2 /\ bd_createdAt p.2 <= bd_createdAt q.2.
Proof. unfold bid_leb. by rewrite orb_true_iff, andb_true_iff, Z.ltb_lt, Z.eqb_eq, Z.leb_le. Qed.

(** No bid that loses is ahead of one that wins. *)
Lemma candidates_order A s k p q : p ∈ take k (candidates A s) -> q ∈ drop k (candidates A s) -> bid_leb p q = true.
Proof.
  apply js_sort_split; [apply bid_leb_total |]. intros x y z. rewrite !bid_leb_spec. lia.
Qed.

Lemma unburned_open A v s : auinv s -> ~ settled A s -> unburned A v s.
Proof.
  intros Hi Hn. unfold unburned. destruct (spend_of _ _ _ _) as [[i r] |] eqn:Hs; [| done]. apply spend_of_Some in Hs as (Hr & _ & Hsrc & Hk).
  destruct (ui_burns s Hi i r _ Hr Hsrc Hk) as (a & w & Hkey & Ha). apply win_key_inj in Hkey as <-. done.
Qed.

Lemma no_committed A s : auinv s -> ~ settled A s -> auction_bids A BID_WON s = [].
Proof.
  intros Hi Hn. destruct (auction_bids A BID_WON s) as [| [i b] l] eqn:Hl; [done |]. exfalso.
  assert (Hin : In (i, b) (auction_bids A BID_WON s)) by (rewrite Hl; by left). apply filter_In in Hin as [Hin Hc]. apply list_elem_of_In, elem_of_map_to_list in Hin.
  cbn in Hc. apply andb_true_iff in Hc as [Ha Hw]. apply String.eqb_eq in Ha. apply bool_decide_eq_true in Hw. apply Hn. rewrite <- Ha. by eapply (ui_won s Hi).
Qed.

(** *** The effect of a settlement *)

Definition WINNERS : nat := 3.
Definition winners_of (A : string) (s : adb) : list (string * bid_row) := take WINNERS (candidates A s).
Definition losers_of (A : string) (s : adb) : list (string * bid_row) := drop WINNERS (candidates A s).
Definition burn_of (A : string) (s : adb) : Z := sumZ (fun p => bd_amount p.2) (winners_of A s).
Definition board_of (A : string) (s : adb) : list place := zip_with place_of (winners_of A s) [1; 2; 3].

Record settlement (A : string) (now : Z) (a : auction_row) (s s' : adb) : Prop := {
  se_positive : Forall (fun p => 0 < bd_amount p.2) (winners_of A s);
  se_azm u : azm u s' = azm u s - sumZ (fun p => if u =? bd_vendorId p.2 then bd_amount p.2 else 0) (winners_of A s);
  se_auctions : auctions s' = <[A := settled_auction now (burn_of A s) (board_of A s) a]> (auctions s);
  se_keeps : keeps s s';
  se_silent : silent s s';
  se_burns : burns_of A (map (fun p => bd_vendorId p.2) (winners_of A s)) s s';
  se_ads : Forall (fun p => promoted (bd_adId p.2) (now + WINDOW_MS) s') (winners_of A s);
  se_won k p : winners_of A s !! k = Some p -> bids s' !! p.1 = Some (won (1 + Z.of_nat k) (now + WINDOW_MS) p.2);
  se_lost p : p ∈ losers_of A s -> bids s' !! p.1 = Some (with_bid_status BID_LOST p.2);
  se_others i : i ∉ map fst (candidates A s) -> bids s' !! i = bids s !! i;
}.

Lemma NoDup_map_take {X Y} (f : X -> Y) k l : NoDup (map f l) -> NoDup (map f (take k l)).
Proof. rewrite <- (take_drop k l) at 1. rewrite map_app, NoDup_app. tauto. Qed.

Lemma sorted_board l : js_sort (fun p q => pl_rank p <=? pl_rank q) (zip_with place_of (take WINNERS l) [1; 2; 3]) = zip_with place_of (take WINNERS l) [1; 2; 3].
Proof. by destruct l as [| p1 [| p2 [| p3 l]]]. Qed.

Lemma ids_apart A s i : i ∈ map fst (winners_of A s) -> i ∈ map fst (losers_of A s) -> False.
Proof.
  intros Hw Hl. pose proof (candidates_ids A s) as Hn. rewrite <- (take_drop WINNERS (candidates A s)), map_app in Hn. apply NoDup_app in Hn as (_ & Hn & _). by apply (Hn i).
Qed.

Lemma mark_lookup losers s i : bids (mark_lost losers s) !! i = (fun b => if existsb (fun q => String.eqb q.1 i) losers then with_bid_status BID_LOST b else b) <$> bids s !! i.
Proof. unfold mark_lost. cbn. rewrite map_lookup_imap. by destruct (bids s !! i). Qed.

Lemma existsb_id (l : list (string * bid_row)) i : existsb (fun q => String.eqb q.1 i) l = true <-> i ∈ map fst l.
Proof.
  rewrite existsb_exists, list_elem_of_fmap. split.
  - intros (q & Hq & He). exists q. apply String.eqb_eq in He. by rewrite <- list_elem_of_In in Hq.
  - intros (q & -> & Hq). exists q. by rewrite <- list_elem_of_In, String.eqb_refl.
Qed.

Lemma winners_sub A s p : p ∈ winners_of A s -> p ∈ candidates A s.
Proof. intros Hp. rewrite <- (take_drop WINNERS (candidates A s)). apply elem_of_app. by left. Qed.
Lemma losers_sub A s p : p ∈ losers_of A s -> p ∈ candidates A s.
Proof. intros Hp. rewrite <- (take_drop WINNERS (candidates A s)). apply elem_of_app. by right. Qed.

(** What is paid, written to the bids and recorded is a settlement. *)
Lemma settlement_intro A now a s s1 s2 : winners_paid A (now + WINDOW_MS) (winners_of A s) s1 s2 -> bids s1 = bids s -> spends s1 = spends s -> ads s1 = ads s ->
  (forall u, azm u s1 = azm u s) -> auctions s1 = <[A := with_auction_status AU_SETTLING a]> (auctions s) -> keeps s s1 -> silent s s1 ->
  (forall k p r, winners_of A s !! k = Some p -> [1; 2; 3] !! k = Some r -> bids s2 !! p.1 = Some (won r (now + WINDOW_MS) p.2)) ->
  settlement A now a s (set_auctions (<[A := settled_auction now (burn_of A s) (board_of A s) a]> (auctions s2)) (mark_lost (losers_of A s) s2)).
Proof.
  intros [W1 W2 W3 W4 W5 W6 W7 W8 W9] Hb1 Hs1 Had Hz Hau K1 S1 Hwon. set (s3 := mark_lost _ s2). split; try done.
  - intros u. change (azm u (set_auctions _ s3)) with (azm u s2). by rewrite W2, Hz.
  - cbn. change (auctions s3) with (auctions s2). by rewrite W3, Hau, insert_insert_eq.
  - transitivity s2; [by transitivity s1 | by apply same_keeps].
  - transitivity s2; [by transitivity s1 | by split].
  - intros i r Hi. cbn in Hi. apply W6 in Hi. by rewrite Hs1 in Hi.
  - intros k p Hp. change (bids (set_auctions _ s3)) with (bids s3). unfold s3. rewrite mark_lookup. assert (Hin : p ∈ winners_of A s) by by eapply list_elem_of_lookup_2.
    assert (Hlen : (k < 3)%nat). { apply lookup_lt_Some in Hp. unfold winners_of, WINNERS in Hp. rewrite length_take in Hp. lia. }
    rewrite (Hwon k p (1 + Z.of_nat k) Hp) by (destruct k as [| [| [| k]]]; [done.. | lia]). cbn [fmap option_fmap option_map].
    destruct (existsb _ _) eqn:He; [| done]. apply existsb_id in He. exfalso. apply (ids_apart A s p.1); [by apply list_elem_of_fmap_2 | done].
  - intros p Hp. change (bids (set_auctions _ s3)) with (bids s3). unfold s3. rewrite mark_lookup. assert (Hin : p.1 ∈ map fst (losers_of A s)) by by apply list_elem_of_fmap_2. pose proof (losers_sub _ _ _ Hp) as Hc.
    apply candidate in Hc as (Hc & _ & _). apply existsb_id in Hin as He. rewrite He, W9, Hb1, Hc; [done |]. intros Hw. by apply (ids_apart A s p.1).
  - intros i Hi. change (bids (set_auctions _ s3)) with (bids s3). unfold s3. rewrite mark_lookup. rewrite <- (take_drop WINNERS (candidates A s)), map_app, not_elem_of_app in Hi. destruct Hi as [Hiw Hil].
    rewrite W9, Hb1 by done. destruct (existsb _ _) eqn:He; [by apply existsb_id in He |]. by destruct (bids s !! i).
Qed.

Definition unsettled (a : auction_row) : Prop := au_status a = AU_OPEN \/ au_status a = AU_SETTLING.
Lemma unsettled_not A a s : auctions s !! A = Some a -> unsettled a -> ~ settled A s.
Proof. intros Ha Hu (b & Hb & Hs). rewrite Ha in Hb. injection Hb as <-. destruct Hu; congruence. Qed.

Lemma settle_Ok newIds A now s r s' : auinv s -> settle_tx newIds A now s = Ok (r, s') ->
  r = NotOpen /\ s' = s \/
  exists a, auctions s !! A = Some a /\ unsettled a /\ au_end a <= now /\
    r = Settled (board_of A s) (map (fun q => bd_vendorId q.2) (losers_of A s)) (burn_of A s) /\ settlement A now a s s'.
Proof.
  intros Hi Hr. unfold settle_tx in Hr. rewrite get_bind in Hr. destruct (auctions s !! A) as [a |] eqn:Ha; [| apply Mret_Ok in Hr as [-> ->]; by left].
  destruct (negb _) eqn:Hg; [apply Mret_Ok in Hr as [-> ->]; by left |]. right. apply negb_false_iff, andb_true_iff in Hg as [Hst Hend]. apply Z.leb_le in Hend.
  assert (Hu : unsettled a) by (apply orb_true_iff in Hst; by rewrite !bool_decide_eq_true in Hst). clear Hst. pose proof (unsettled_not _ _ _ Ha Hu) as Hns.
  apply Mbind_Ok in Hr as (y & s1 & Hp & Hr). apply put_Ok in Hp as Hs1. rewrite (no_committed A s Hi Hns), (ui_count s Hi _ _ Ha) in Hr. cbn [length map foldl committed_winners] in Hr.
  apply Mbind_Ok in Hr as (y1 & s2 & Hc & Hr). apply check_Ok in Hc as [_ ->]. apply Mbind_Ok in Hr as (cm & s2 & Hl & Hr). apply lift_Ok in Hl as [[= <-] ->]. cbn [map foldl] in Hr.
  change (free_ranks (if DEFAULT_WINNER_COUNT =? 0 then DEFAULT_WINNER_COUNT else DEFAULT_WINNER_COUNT) []) with [1; 2; 3] in Hr. cbn [length] in Hr.
  apply Mbind_Ok in Hr as (y2 & s2 & Hc & Hr). apply check_Ok in Hc as [_ ->]. apply Mbind_Ok in Hr as ([total board] & s2 & Hw & Hr).
  change (firstn 3 (candidates A s)) with (winners_of A s) in Hw. change (skipn 3 (candidates A s)) with (losers_of A s) in Hr.
  assert (Hlen : (length (winners_of A s) <= 3)%nat) by (unfold winners_of, WINNERS; rewrite length_take; lia).
  apply winners_Ok in Hw as (W & -> & -> & Hwon); [| done | | | | done | unfold SAFE_UNITS; lia].
  - apply Mbind_Ok in Hr as (y3 & s3 & Hm & Hr). apply modify_Ok in Hm as ->. apply Mbind_Ok in Hr as (y4 & s3 & Hc & Hr). apply check_Ok in Hc as [_ ->].
    apply Mbind_Ok in Hr as (y5 & s3 & Hm & Hr). apply modify_Ok in Hm as ->. apply Mret_Ok in Hr as [-> ->]. exists a. cbn [app]. unfold winners_of. rewrite sorted_board.
    rewrite Z.add_0_l. split_and!; [done.. |].
    apply (settlement_intro A now a s s1 s2); [exact W | by rewrite Hs1.. | intros u; by rewrite Hs1 | by rewrite Hs1 | rewrite Hs1; by apply same_keeps | rewrite Hs1; by split | exact Hwon].
  - apply NoDup_map_take, candidates_ids.
  - by apply NoDup_map_take, candidates_vendors.
  - apply Forall_forall. intros p Hpw. apply winners_sub, candidate in Hpw as (Hb & _ & _). split_and!; [by eapply (ui_bids s Hi).. | by rewrite Hs1 |].
    rewrite Hs1. by apply (unburned_open A _ s).
Qed.

Lemma settlement_step A now a s s' : auctions s !! A = Some a -> unsettled a -> settlement A now a s s' -> auction_step s s'.
Proof.
  intros Ha Hu Hset. pose proof (unsettled_not _ _ _ Ha Hu) as Hns. destruct Hset as [E1 E2 E3 E4 E5 E6 E7 E8 E9 E10].
  assert (Hold : forall i b', bids s' !! i = Some b' -> exists b, bids s !! i = Some b /\ bd_auctionId b' = bd_auctionId b /\ bd_vendorId b' = bd_vendorId b /\ bd_amount b' = bd_amount b /\
    (b' = b \/ bd_auctionId b = A)).
  { intros i b' Hb. destruct (decide (i ∈ map fst (candidates A s))) as [Hin | Hout]; [| rewrite E10 in Hb by done; exists b'; by split_and!; [.. | left]].
    apply list_elem_of_fmap in Hin as (p & -> & Hp). pose proof Hp as Hc. apply candidate in Hc as (Hc & HA & _). exists p.2. split; [done |].
    rewrite <- (take_drop WINNERS (candidates A s)) in Hp. apply elem_of_app in Hp as [Hp | Hp].
    - apply list_elem_of_lookup in Hp as [k Hk]. rewrite (E8 k p Hk) in Hb. injection Hb as <-. split_and!; [done.. | by right].
    - rewrite (E9 p Hp) in Hb. injection Hb as <-. split_and!; [done.. | by right]. }
  assert (HA : settled A s') by (eexists; rewrite E3, lookup_insert_eq; done).
  assert (Hf : forall i, settled i s -> settled i s') by (intros i (b & Hb & Hs); exists b; rewrite E3, lookup_insert_ne; [done |]; intros <-; apply Hns; by exists b).
  split; [| | done | done].
  - intros [A1 B1 C1 D1 F1 G1]. split.
    + intros i b' Hb. apply Hold in Hb as (b & Hb & _ & _ & -> & _). eauto.
    + intros i j b' c' Hb Hc Hba Hbv. apply Hold in Hb as (b & Hb & Eb1 & Eb2 & _). apply Hold in Hc as (c & Hc & Ec1 & Ec2 & _). eapply B1; [exact Hb | exact Hc | congruence..].
    + intros i b' Hb Hw. apply Hold in Hb as (b & Hb & -> & _ & _ & [-> | ->]); eauto.
    + intros i r k Hr Hs Hk. apply E6 in Hr as [Hr | (_ & v & _ & _ & Hd & Hm)]; [destruct (D1 i r k Hr Hs Hk) as (x & v & -> & Hx); exists x, v; eauto |].
      exists A, v. split; [destruct Hk; congruence | done].
    + intros i b. rewrite E3, lookup_insert. case_decide; [intros [= <-]; cbn; by eapply F1 | apply F1].
    + intros i j b c. rewrite E3, !lookup_insert. repeat case_decide; subst; intros Hb Hc Hij Hob Hoc; [done | injection Hb as <-; done | injection Hc as <-; done | by eapply G1].
  - split; [intros i b Hb Hs; rewrite E3, lookup_insert_ne; [done |]; intros <-; apply Hns; by exists b |]. intros i b Hs.
    destruct (decide (i ∈ map fst (candidates A s))) as [Hin | Hout]; [| by rewrite E10]. split; intros Hb; exfalso; apply Hns.
    + apply list_elem_of_fmap in Hin as (p & -> & Hp). apply candidate in Hp as (Hp & <- & _). rewrite Hp in Hb. by injection Hb as <-.
    + apply list_elem_of_fmap in Hin as (p & -> & Hp). apply Hold in Hb as (b0 & Hb0 & Heq & _). apply candidate in Hp as (Hp & <- & _). rewrite Hp in Hb0. injection Hb0 as <-. by rewrite <- Heq.
Qed.
End Settlement.
End Runs.
