(* ===== verification/AzmTheorems.v ===== *)
(** * AZM points: theorems

    Runs of the services of AZM points and of the auctions: a gift moves its
    points once, a settlement burns the highest bids and is final, a due stake
    is returned.  That the balances agree with the logs is in ConvertTheorems,
    with the conversions as steps. *)

From stdpp Require Import base gmap strings list relations.
From Stdlib Require Import ZArith QArith Qabs Lqa Lia Ascii.
From S2P Require Import Prelude JsNumber ExactDecimal Json Ledger LedgerFacts Idempotency Escrow EscrowFacts EscrowProps EscrowTheorems WalletProps Vault VaultProps Azm AzmProps Auction AuctionProps.

Local Open Scope Z_scope.

(** ** Steps *)

Section Steps.
Context {half : HalfUnits} `{DecimalLib} `{PrismaSend} (wire_gift : string * gift_row -> option Z -> string).

(** One call of a service, with whatever rows it read before.  The amounts are
    any, or, where [half_units] is false, any that are not half-way between two
    units; the rest of the platform leaves points alone.  A call that fails is a
    step too. *)
Inductive astep (s s' : adb) : Prop :=
| ax_debit newId u amount source key r : whole amount -> plain source -> debitAzm newId u amount source key s = (r, s') -> astep s s'
| ax_discount newId u tierId ref r : applyFeeDiscount newId u tierId ref s = (r, s') -> astep s s'
| ax_discount_tx newId u tierId ref r : transaction (applyFeeDiscountInTransaction newId u tierId ref) s = (r, s') -> astep s s'
| ax_boost newId u adId boostId key now before r : boostAd newId u adId boostId key now before s = (r, s') -> astep s s'
| ax_skin newId u skinId before r : purchaseCardSkin newId u skinId before s = (r, s') -> astep s s'
| ax_equip u skinId before r : transaction (equipCardSkin u skinId before) s = (r, s') -> astep s s'
| ax_stake newStake newSpend u amount r : whole amount -> transaction (createStake newStake newSpend u (Num.Fin amount)) s = (r, s') -> astep s s'
| ax_request u id now before r : transaction (requestUnstake u id now before) s = (r, s') -> astep s s'
| ax_unstake newReward id now r : transaction (completeUnstake newReward id now) s = (r, s') -> astep s s'
| ax_gift ids sender g op r : (forall a, gr_amount g = Num.Fin a -> whole a) -> sendGiftTransfer wire_gift ids sender g op s = (r, s') -> astep s s'
| ax_award newId u amount source key r : plain source -> award newId u amount source key s = (r, s') -> astep s s'
| ax_ensure newId now r : ensureOpen newId now s = (r, s') -> astep s s'
| ax_bid newAuction newBid v adId amount now later before r : toFixedZ 8 amount <= SAFE_UNITS -> placeBid newAuction newBid v adId amount now later before s = (r, s') -> astep s s'
| ax_withdraw newAuction v now later r : withdrawBid newAuction v now later s = (r, s') -> astep s s'
| ax_settle newIds A now before r : settle newIds A now before s = (r, s') -> astep s s'
| ax_other v : (forall u, pf_azmBalance <$> profiles v !! u = pf_azmBalance <$> profiles (sav s) !! u) -> rewards v = rewards (sav s) -> s' = set_sav v s -> astep s s'.

Record ainv (s : adb) : Prop := { ai_typed : typed s; ai_gifts : ginv s; ai_auctions : auinv s }.

(** What a step keeps. *)
Record kept (s s' : adb) : Prop := { ke_inv : ainv s'; ke_keeps : keeps s s'; ke_final : final s s' }.

Lemma calm_kept s s' : ainv s -> calm s s' -> kept s s'.
Proof.
  intros [T G U] [K Q S]. split; [| done | by apply quiet_final]. split; [by apply K | by eapply silent_ginv | by eapply quiet_auinv].
Qed.
Lemma auction_kept s s' : ainv s -> auction_step s s' -> kept s s'.
Proof. intros [T G U] [I F K S]. split; [| done | done]. split; [by apply K | by eapply silent_ginv | auto]. Qed.
Lemma tx_kept {A} (m : M adb A) s r s' : ainv s -> transaction m s = (r, s') -> (forall x s1, m s = Ok (x, s1) -> kept s s1) -> kept s s'.
Proof. intros Hi Ht Hm. apply tx_cases in Ht as [(x & _ & Hr) | (e & _ & ->)]; [by eapply Hm | by apply calm_kept]. Qed.

(** *** Gifts *)

Lemma checks_Ok sender g key receiver amount : gift_checks sender g = Ok (key, receiver, amount) -> gr_amount g = Num.Fin amount /\ sender <> receiver /\ gr_idempotencyKey g = Some key /\ 0 <= Qnum amount.
Proof.
  unfold gift_checks. intros Hr. res_inv Hr. destruct (gr_amount g) as [q | b |]; try done. destruct (Qle_bool q 0) eqn:Hq; [done |]. simplify_eq. split_and!; try done;
    [by apply Z.eqb_neq | by apply positive_num].
Qed.

Lemma send_cases ids sender g op s r s' : sendGiftTransfer wire_gift ids sender g op s = (r, s') ->
  (s' = s /\ forall o, r = Ok o -> go_replay o = true) \/
  exists key receiver amount o, gift_checks sender g = Ok (key, receiver, amount) /\ r = Ok o /\ gift_tx wire_gift ids sender receiver amount (gr_type g) key op s = Ok (o, s').
Proof.
  intros Hr. unfold sendGiftTransfer in Hr. destruct (gift_checks sender g) as [[[key receiver] amount] | e]; [| injection Hr as <- <-; by left].
  destruct (transaction _ s) as [o s1] eqn:Ht. apply tx_cases in Ht as [(x & -> & Hx) | (e & -> & ->)].
  - injection Hr as <- <-. right. by exists key, receiver, amount, x.
  - injection Hr as <- <-. left. split; [done |]. intros o. destruct (String.eqb e "P2002"); [| done]. destruct (gift_of _ s); [| done]. by intros [= <-].
Qed.

Lemma gift_kept ids sender g op s r s' : ainv s -> (forall a, gr_amount g = Num.Fin a -> whole a) -> sendGiftTransfer wire_gift ids sender g op s = (r, s') -> kept s s'.
Proof.
  intros Hi He Hr. apply send_cases in Hr as [[-> _] | (key & receiver & amount & o & Hc & _ & Hx)]; [by apply calm_kept |].
  apply checks_Ok in Hc as (Ha & Hne & _ & _). destruct Hi as [T G U].
  apply gift_Ok in Hx as [(_ & _ & Hc & _) | (_ & _ & _ & _ & [_ _ K Q G'])]; [by apply calm_kept | | done | done | by apply He | done].
  split; [| done | by apply quiet_final]. split; [by apply K | done | by eapply quiet_auinv].
Qed.

Lemma find_tier_In t id : find_tier id = Some t -> t ∈ FEE_DISCOUNT_TIERS.
Proof. intros Hf. apply List.find_some in Hf as [Hf _]. by apply list_elem_of_In. Qed.

Lemma settle_kept newIds A now before s r s' : ainv s -> settle newIds A now before s = (r, s') -> kept s s'.
Proof.
  intros Hi Hr. assert (Hid : kept s s) by by apply calm_kept. unfold settle in Hr. destruct (auctions before !! A) as [a0 |]; [| by injection Hr as _ <-].
  destruct (bool_decide _); [by injection Hr as _ <- |]. destruct (now <? _); [by injection Hr as _ <- |]. eapply tx_kept; [done | exact Hr |].
  intros x s1 Hx. apply settle_Ok in Hx as [[_ ->] | (a & Ha & Hu & _ & _ & Hs)]; [done | | by apply Hi]. apply auction_kept; [done |]. by eapply settlement_step.
Qed.

Lemma bid_kept newAuction newBid v adId amount now later before s r s' : ainv s -> toFixedZ 8 amount <= SAFE_UNITS ->
  placeBid newAuction newBid v adId amount now later before s = (r, s') -> kept s s'.
Proof.
  intros Hi Ha Hr. unfold placeBid in Hr. match type of Hr with context [match ?c with Ok _ => _ | Err _ => _ end] => destruct c as [u |] eqn:Hc end;
    [| injection Hr as _ <-; by apply calm_kept]. eapply tx_kept; [done | exact Hr |]. intros x s1 Hx. apply auction_kept; [done |].
  res_inv Hc. eapply bid_step; [by apply Hi | | exact Hx]. split; [| done]. match goal with Hq : Qle_bool amount 0 = false |- _ => by apply positive_units end.
Qed.

Lemma boost_kept newId u adId boostId key now before s r s' : ainv s -> boostAd newId u adId boostId key now before s = (r, s') -> kept s s'.
Proof.
  intros Hi Hr. unfold boostAd in Hr. match type of Hr with context [match ?c with Ok _ => _ | Err _ => _ end] => destruct c as [opt |] eqn:Hc end;
    [| injection Hr as _ <-; by apply calm_kept]. destruct (transaction _ s) as [o s1] eqn:Ht.
  assert (s' = s1) as -> by (destruct o as [[[? ?] ?] |]; by injection Hr as _ <-). eapply tx_kept; [done | exact Ht |]. intros x s2 Hx. apply calm_kept; [done |].
  eapply boost_calm; [| exact Hx]. apply bind_Ok in Hc as (o1 & Ho & Hc). apply of_option_Ok, List.find_some in Ho as [Ho _]. res_inv Hc. by apply list_elem_of_In.
Qed.

Lemma step_kept s s' : ainv s -> astep s s' -> kept s s'.
Proof.
  intros Hi Hs. pose proof Hi as [T G U]. destruct Hs as [newId u amount source key r He Hp Hr | newId u tierId ref r Hr | newId u tierId ref r Hr | newId u adId boostId key now before r Hr
    | newId u skinId before r Hr | u skinId before r Hr | newStake newSpend u amount r He Hr | u id now before r Hr | newReward id now r Hr | ids sender g op r He Hr
    | newId u amount source key r Hp Hr | newId now r Hr | newAuction newBid v adId amount now later before r Ha Hr | newAuction v now later r Hr | newIds A now before r Hr | v Hv Hrw ->].
  - apply calm_kept; [done |]. by eapply debitAzm_calm.
  - apply calm_kept; [done |]. unfold applyFeeDiscount in Hr. destruct (find_tier tierId) as [t |] eqn:Ht; [| by injection Hr as _ <-].
    destruct (debitAzm _ _ _ _ _ s) as [o s1] eqn:Hd. assert (s' = s1) as -> by (destruct o; by injection Hr as _ <-).
    eapply debitAzm_calm; [| | exact Hd]; [by eapply tier_costs, find_tier_In | done].
  - eapply tx_kept; [done | exact Hr |]. intros x s1 Hx. apply calm_kept; [done |]. unfold applyFeeDiscountInTransaction in Hx.
    apply Mbind_Ok in Hx as (y & s2 & Hc & Hx). apply check_Ok in Hc as [_ ->]. apply Mbind_Ok in Hx as (t & s2 & Hl & Hx). apply lift_Ok in Hl as [Ht ->]. apply of_option_Ok in Ht.
    destruct (_debitAzmWithClient _ _ _ _ _ s) as [[d s2] |] eqn:Hd; [| done]. injection Hx as _ <-. eapply debit_calm; [| | exact Hd]; [by eapply tier_costs, find_tier_In | done].
  - by eapply boost_kept.
  - unfold purchaseCardSkin in Hr. match type of Hr with context [match ?c with Ok _ => _ | Err _ => _ end] => destruct c as [opt |] eqn:Hc end;
      [| injection Hr as _ <-; by apply calm_kept]. destruct (owns u skinId before); [injection Hr as _ <-; by apply calm_kept |].
    eapply tx_kept; [done | exact Hr |]. intros x s1 Hx. apply calm_kept; [done |]. apply bind_Ok in Hc as (o1 & Ho & Hc). apply of_option_Ok, List.find_some in Ho as [Ho Heq].
    apply String.eqb_eq in Heq. res_inv Hc. eapply (skin_calm newId u opt.1 opt.2); [destruct opt; by apply list_elem_of_In | exact Hx].
  - eapply tx_kept; [done | exact Hr |]. intros x s1 Hx. apply calm_kept; [done |]. by eapply equip_calm.
  - eapply tx_kept; [done | exact Hr |]. intros x s1 Hx. apply calm_kept; [done |]. apply stake_Ok in Hx as [Hx _]; [| done]. by eapply stake_calm.
  - eapply tx_kept; [done | exact Hr |]. intros x s1 Hx. apply calm_kept; [done |]. by eapply request_calm.
  - eapply tx_kept; [done | exact Hr |]. intros x s1 Hx. apply calm_kept; [done |]. apply unstake_Ok in Hx as [[_ ->] | [_ Hx]]; [done | by eapply unstake_calm].
  - by eapply gift_kept.
  - apply calm_kept; [done |]. by eapply award_calm.
  - eapply tx_kept; [done | exact Hr |]. intros x s1 Hx. apply auction_kept; [done |]. destruct (ensure_step _ _ _ _ _ U Hx) as (I1 & F1 & K1 & S1 & _). by split.
  - by eapply bid_kept.
  - apply auction_kept; [done |]. by eapply withdraw_step.
  - by eapply settle_kept.
  - apply calm_kept; [done |]. apply put_same; try done.
Qed.

Lemma run_kept s s' : ainv s -> rtc astep s s' -> kept s s'.
Proof.
  intros Hi Hr. revert Hi. induction Hr as [s | s1 s2 s3 Hs _ IH]; intros Hi; [by apply calm_kept |].
  destruct (step_kept _ _ Hi Hs) as [I1 K1 F1]. destruct (IH I1) as [I2 K2 F2]. split; [done | by etrans..].
Qed.
End Steps.

(** ** Theorems *)

Section Theorems.
Context `{DecimalLib} `{PrismaSend} (wire_gift : string * gift_row -> option Z -> string).

(** Where the run does not matter, any amounts. *)
#[local] Instance any_amounts : HalfUnits := true.
Lemma any_whole amount : whole amount.
Proof. done. Qed.

(** C24: A gift is a transfer: when it is not a replay the receiver has exactly
    the gift's column amount more and the sender the same less, or one unit less
    than that when the gift is half-way between two units; nobody else moves,
    the gift is recorded under its identity and the answer carries the sender's
    new balance; a replay moves nothing. *)
Theorem gift_moves_points ids sender g op s o s' : ainv s -> sendGiftTransfer wire_gift ids sender g op s = (Ok o, s') ->
  if go_replay o then (forall u, azm u s' = azm u s) /\ gifts s' = gifts s
  else exists key receiver amount paid, gift_checks sender g = Ok (key, receiver, amount) /\ go_senderBalance o = Some (azm sender s') /\ gift_of (gift_op sender key) s = None /\
    gifts s' = <[gi_gift ids := GiftRow sender receiver (num_to_col amount) (gr_type g) (Some (gift_op sender key))]> (gifts s) /\
    (forall u, azm u s' = azm u s - (if u =? sender then paid else 0) + (if u =? receiver then num_to_col amount else 0)) /\
    num_to_col amount - 1 <= paid <= num_to_col amount /\ (no_tie (num_dec amount) -> paid = num_to_col amount).
Proof.
  intros [T G U] Hr. apply send_cases in Hr as [[-> Hrep] | (key & receiver & amount & o1 & Hc & [= <-] & Hx)]; [by rewrite (Hrep o eq_refl) |].
  pose proof (checks_Ok _ _ _ _ _ Hc) as (Ha & Hne & _ & Hpos). apply gift_Ok in Hx as [(-> & _ & [_ _ S] & Hz) | (-> & Hn & Hb & _ & [[_ Hg] Hz _ _ _])]; [| | done..].
  - split; [done | apply S].
  - exists key, receiver, amount, (paid_units (num_dec amount)). split_and!; try done; [apply (whole_paid amount Hpos (any_whole _)).. |].
    intros Ht. by apply exact_paid.
Qed.

(** C20: An idempotency key sends one gift: after a gift, and whatever runs next, a
    second request of the sender under the key, for any receiver and amount, is
    answered as a replay or refused, and moves no points. *)
Theorem gift_sent_once {half : HalfUnits} ids sender g op s o s1 s2 ids' g' op' r s3 : ainv s ->
  sendGiftTransfer wire_gift ids sender g op s = (Ok o, s1) -> go_replay o = false -> rtc (astep wire_gift) s1 s2 ->
  gr_idempotencyKey g' = gr_idempotencyKey g ->
  sendGiftTransfer wire_gift ids' sender g' op' s2 = (r, s3) ->
  (forall o', r = Ok o' -> go_replay o' = true) /\ forall u, azm u s3 = azm u s2.
Proof.
  intros Hi Hr Ho Hrun Hk Hr'. pose proof (gift_kept (half := true) _ _ _ _ _ _ _ _ Hi (fun a _ => any_whole a) Hr) as [I1 _ _].
  destruct (run_kept _ _ _ I1 Hrun) as [[T2 G2 _] K2 _].
  apply send_cases in Hr as [[-> Hrep] | (key & receiver & amount & o1 & Hc & [= <-] & Hx)]; [specialize (Hrep o eq_refl); congruence |].
  destruct Hi as [T G U]. pose proof (checks_Ok _ _ _ _ _ Hc) as (Ha & Hne & Hkey & _).
  apply (gift_Ok (H := true)) in Hx as [(Hx & _) | (_ & _ & _ & _ & [[_ Hg] _ _ _ _])]; [congruence | | done..].
  apply send_cases in Hr' as [[-> Hrep] | (key' & receiver' & amount' & o2 & Hc' & -> & Hx)]; [by split |].
  pose proof (checks_Ok _ _ _ _ _ Hc') as (Ha' & Hne' & Hkey' & _). assert (key' = key) as -> by congruence.
  apply (gift_Ok (H := true)) in Hx as [(Hrep & _ & _ & Hz) | (_ & Hn & _)]; [split; [by intros o' [= <-] | done] | | done..].
  exfalso. eapply (gift_of_None _ _ (gi_gift ids) _ Hn); [eapply lookup_weaken; [| apply (kp_gifts _ _ K2)]; rewrite Hg; apply lookup_insert_eq | done].
Qed.

Lemma settle_Settled newIds A now before s board losers burned s' : auinv s -> settle newIds A now before s = (Ok (Settled board losers burned), s') ->
  exists a, auctions s !! A = Some a /\ unsettled a /\ au_end a <= now /\ board = board_of A s /\ losers = map (fun q => bd_vendorId q.2) (losers_of A s) /\ burned = burn_of A s /\
    settlement A now a s s'.
Proof.
  intros Hi Hr. unfold settle in Hr. destruct (auctions before !! A) as [a0 |]; [| done]. destruct (bool_decide _); [done |]. destruct (now <? _); [done |].
  apply tx_cases in Hr as [(x & [= <-] & Hx) | (e & [=] & _)]. apply settle_Ok in Hx as [[[=] _] | (a & Ha & Hu & He & [= -> -> ->] & Hs)]; [| done]. by exists a.
Qed.

(** C23: A settlement burns the three highest bids, the earlier first among equals,
    and nothing else: each winner pays exactly its bid, nobody else's balance
    moves, the total and the leaderboard are those of the winners, every
    winning bid has its rank, every other active bid is lost, and no lost bid is
    ahead of a winner. *)
Theorem settlement_exact newIds A now before s board losers burned s' : ainv s -> settle newIds A now before s = (Ok (Settled board losers burned), s') ->
  board = board_of A s /\ losers = map (fun q => bd_vendorId q.2) (losers_of A s) /\ burned = sumZ (fun p => bd_amount p.2) (winners_of A s) /\ settled A s' /\
  (forall u, azm u s' = azm u s - sumZ (fun p => if u =? bd_vendorId p.2 then bd_amount p.2 else 0) (winners_of A s)) /\
  (forall k p, winners_of A s !! k = Some p -> bids s' !! p.1 = Some (won (1 + Z.of_nat k) (now + WINDOW_MS) p.2) /\ promoted (bd_adId p.2) (now + WINDOW_MS) s') /\
  (forall p, p ∈ losers_of A s -> bids s' !! p.1 = Some (with_bid_status BID_LOST p.2)) /\
  (forall p q, p ∈ winners_of A s -> q ∈ losers_of A s -> bid_leb p q = true).
Proof.
  intros [_ _ U] Hr. apply settle_Settled in Hr as (a & Ha & Hu & Hend & -> & -> & -> & [E1 E2 E3 E4 E5 E6 E7 E8 E9 E10]); [| done].
  split_and!; try done.
  - exists (settled_auction now (burn_of A s) (board_of A s) a). by rewrite E3, lookup_insert_eq.
  - intros k p Hp. split; [by apply E8 |]. rewrite Forall_forall in E7. apply E7. by eapply list_elem_of_lookup_2.
  - intros p q. apply candidates_order.
Qed.

Lemma settle_done newIds A now before s a : auctions s !! A = Some a -> au_status a = AU_SETTLED -> (settle newIds A now before s).2 = s.
Proof.
  intros Ha Hs. unfold settle. destruct (auctions before !! A) as [a0 |]; [| done]. destruct (bool_decide (au_status a0 = _)); [done |]. destruct (now <? _); [done |].
  unfold transaction, settle_tx. rewrite get_bind, Ha, Hs. done.
Qed.

(** C18: A settled auction is final: whatever runs next, its row and the bids on it
    stay as the settlement left them, no bid is added to it, and a settlement
    that comes again changes nothing. *)
Theorem auction_settled_once {half : HalfUnits} s s' A a : ainv s -> rtc (astep wire_gift) s s' -> auctions s !! A = Some a -> au_status a = AU_SETTLED ->
  auctions s' !! A = Some a /\ (forall id b, bd_auctionId b = A -> bids s !! id = Some b <-> bids s' !! id = Some b) /\
  forall newIds now before, (settle newIds A now before s').2 = s'.
Proof.
  intros Hi Hr Ha Hs. destruct (run_kept _ _ _ Hi Hr) as [_ _ [F1 F2]]. pose proof (F1 A a Ha Hs) as Ha'. split_and!; [done | |].
  - intros id b <-. apply F2. by exists a.
  - intros newIds now before. by eapply settle_done.
Qed.

(** At no instant are two auctions open: in every state of a run, two open
    auctions whose windows contain the same instant are one. *)
Theorem one_open_auction {half : HalfUnits} s s' i j a b t : ainv s -> rtc (astep wire_gift) s s' -> auctions s' !! i = Some a -> auctions s' !! j = Some b ->
  au_status a = AU_OPEN -> au_status b = AU_OPEN -> au_start a <= t < au_end a -> au_start b <= t < au_end b -> i = j.
Proof.
  intros Hi Hr Ha Hb Hoa Hob Hta Htb. destruct (run_kept _ _ _ Hi Hr) as [[_ _ U] _ _]. destruct (decide (i = j)) as [? | Hij]; [done |].
  destruct (ui_windows _ U i j a b Ha Hb Hij Hoa Hob); lia.
Qed.

(** C32: One of the highest bids that is zero units, or more than its vendor still
    has, blocks the settlement: the transaction fails, nothing changes, and
    the other winners get nothing, as long as the bid stands. *)
Theorem bad_winner_blocks newIds A now before s r s' p : ainv s -> p ∈ winners_of A s ->
  bd_amount p.2 = 0 \/ azm (bd_vendorId p.2) s < bd_amount p.2 -> settle newIds A now before s = (r, s') -> (forall b l z, r <> Ok (Settled b l z)) /\ s' = s.
Proof.
  intros [T G U] Hp Hbad Hr. assert (Hno : forall b l z, r <> Ok (Settled b l z)).
  { intros b l z ->. apply settle_Settled in Hr as (a & _ & _ & _ & _ & _ & _ & [E1 E2 _ E4 _ _ _ _ _ _]); [| done].
    rewrite Forall_forall in E1. pose proof (E1 p Hp) as Hpos. destruct Hbad as [? | Hlt]; [lia |]. specialize (E2 (bd_vendorId p.2)).
    assert (Hge : bd_amount p.2 <= sumZ (fun q => if bd_vendorId p.2 =? bd_vendorId q.2 then bd_amount q.2 else 0) (winners_of A s)).
    { apply elem_of_Permutation in Hp as [l' Hl]. rewrite (sumZ_perm _ _ _ Hl), sumZ_cons, Z.eqb_refl.
      assert (0 <= sumZ (fun q => if bd_vendorId p.2 =? bd_vendorId q.2 then bd_amount q.2 else 0) l'); [| lia]. apply sumZ_nonneg. intros q Hq.
      assert (Hqw : q ∈ winners_of A s) by (rewrite Hl; by right). pose proof (E1 q Hqw) as Hq0. cbn in Hq0. destruct (_ =? _); lia. }
    assert (Hnn : 0 <= azm (bd_vendorId p.2) s'); [| lia]. unfold azm. destruct (azm_of _ s') as [b' |] eqn:Hb; [| done]. pose proof (kp_typed _ _ E4 T _ _ Hb). cbn. lia. }
  split; [done |]. unfold settle in Hr. destruct (auctions before !! A) as [a0 |]; [| by injection Hr as _ Hs]. destruct (bool_decide _); [by injection Hr as _ Hs |].
  destruct (now <? _); [by injection Hr as _ Hs |]. apply tx_cases in Hr as [(x & -> & Hx) | (e & _ & ->)]; [| done].
  apply settle_Ok in Hx as [[_ ->] | (a & _ & _ & _ & -> & _)]; [done | | done]. by destruct (Hno (board_of A s) (map (fun q => bd_vendorId q.2) (losers_of A s)) (burn_of A s)).
Qed.
(** *** The worker *)

Lemma settle_other newIds A B now before s : auinv s -> A <> B -> auctions (settle newIds B now before s).2 !! A = auctions s !! A.
Proof.
  intros Hi Hne. destruct (settle _ _ _ _ _) as [r s'] eqn:Hr. unfold settle in Hr. destruct (auctions before !! B) as [a0 |]; [| by injection Hr as _ <-].
  destruct (bool_decide _); [by injection Hr as _ <- |]. destruct (now <? _); [by injection Hr as _ <- |]. apply tx_cases in Hr as [(x & -> & Hx) | (e & _ & ->)]; [| done].
  apply settle_Ok in Hx as [[_ ->] | (a & _ & _ & _ & -> & Hs)]; [done | | done]. cbn. by rewrite (se_auctions _ _ _ _ _ Hs), lookup_insert_ne.
Qed.

Lemma settle_all_other newIds A now l s : ainv s -> A ∉ l -> auctions (foldl (fun s id => (settle newIds id now s s).2) s l) !! A = auctions s !! A.
Proof.
  revert s. induction l as [| B l IH]; intros s Hi Hn; [done |]. apply not_elem_of_cons in Hn as [Hne Hn]. cbn. rewrite IH; [| | done].
  - apply settle_other; [apply Hi | done].
  - destruct (settle newIds B now s s) as [r s'] eqn:Hr. by eapply settle_kept.
Qed.

Lemma due_open now s A : A ∈ due_auctions now s -> exists a, auctions s !! A = Some a /\ au_status a = AU_OPEN.
Proof.
  intros Hd. assert (Hd' : A ∈ map fst (List.filter (fun p => bool_decide (au_status p.2 = AU_OPEN) && (au_end p.2 <=? now)) (map_to_list (auctions s)))).
  { unfold due_auctions in Hd. rewrite <- (take_drop 5 (map fst _)). apply elem_of_app. by left. }
  apply list_elem_of_fmap in Hd' as ([i a] & -> & Hp). rewrite list_elem_of_In, filter_In, <- list_elem_of_In, elem_of_map_to_list in Hp. destruct Hp as [Ha Hc].
  apply andb_true_iff in Hc as [Hc _]. apply bool_decide_eq_true in Hc. by exists a.
Qed.

(** The worker never retries: an auction that is left in SETTLING stays as it is
    through every tick, since the scan takes OPEN auctions only. *)
Theorem settling_left_behind newAuction newIds now s A a : ainv s -> auctions s !! A = Some a -> au_status a = AU_SETTLING ->
  auctions (auction_tick newAuction newIds now s) !! A = Some a.
Proof.
  intros Hi Ha Hs. unfold auction_tick. destruct (ensureOpen newAuction now s) as [r s1] eqn:He.
  assert (Hs1 : ainv s1 /\ auctions s1 !! A = Some a).
  { unfold ensureOpen in He. apply tx_cases in He as [(x & _ & Hx) | (e & _ & ->)]; [| done]. destruct (ensure_step _ _ _ _ _ (ai_auctions _ Hi) Hx) as (I1 & F1 & K1 & S1 & _).
    split; [by apply (auction_kept _ _ Hi) |]. apply ensure_Ok in Hx as (_ & _ & [-> | (Hn & _ & ->)]); [done |]. cbn. rewrite lookup_insert_ne; [done | congruence]. }
  destruct Hs1 as [I1 A1]. destruct r as [p |]; [| done]. rewrite settle_all_other; [done | done |]. intros Hd. apply due_open in Hd as (b & Hb & Ho). congruence.
Qed.

(** A win can shorten a promotion: the ad of a winner is promoted until a day
    after the settlement, also when a boost it had paid for ran longer. *)
Theorem win_shortens_boost newIds A now before s board losers burned s' p ad t : ainv s -> settle newIds A now before s = (Ok (Settled board losers burned), s') ->
  p ∈ winners_of A s -> ads s !! bd_adId p.2 = Some ad -> ad_boostExpiresAt ad = Some t -> now + WINDOW_MS < t ->
  exists ad' t', ads s' !! bd_adId p.2 = Some ad' /\ ad_boostExpiresAt ad' = Some t' /\ t' = now + WINDOW_MS /\ t' < t.
Proof.
  intros [_ _ U] Hr Hp _ _ Ht. apply settle_Settled in Hr as (a & _ & _ & _ & _ & _ & _ & Hs); [| done]. pose proof (se_ads _ _ _ _ _ Hs) as Hall. rewrite Forall_forall in Hall.
  destruct (Hall p Hp) as (ad' & Had & _ & Hb). by exists ad', (now + WINDOW_MS).
Qed.

(** *** Stakes *)

End Theorems.

(** ** A concrete run *)

(** Doubles that are whole units, up to the rounding of a double, go out as
    those units. *)
Definition sent_dec (x : Q) : Q := let d := usdc (toFixedZ 8 x) in if Qle_bool (Qabs (x - d)) (Qabs d * (1 # 9007199254740992)) then d else x.

Definition ToFixedSend : @PrismaSend ToFixedColumn.
Proof.
  refine (@Build_PrismaSend ToFixedColumn sent_dec _ _ _ _).
  - intros u q Hu Hq. unfold sent_dec. change (toFixedZ 8 (fl q)) with (@num_to_col ToFixedColumn (fl q)). rewrite (@num_to_col_units ToFixedColumn u q Hu Hq).
    destruct (Qle_bool _ _) eqn:Hle; [by symmetry |]. exfalso. apply not_true_iff_false in Hle. apply Hle, Qle_bool_iff. fold (usdc u) in Hq. rewrite <- Hq. apply fl_error'.
  - intros x. unfold sent_dec. destruct (Qle_bool _ _); [| done]. by rewrite fixed8_usdc.
  - intros x Hx. unfold sent_dec. destruct (Qle_bool _ _); [| done]. apply usdc_num. by apply fixed8_nonneg.
  - intros x. unfold sent_dec. destruct (Qle_bool _ _) eqn:Hle; [by apply Qle_bool_iff |]. assert (Hx : (x - x == 0)%Q) by ring. rewrite Hx. pose proof (Qabs_nonneg x). change (Qabs 0) with 0%Q. lra.
Defined.

#[local] Abbreviation az_settle := (@settle Decimal20 ToFixedColumn ToFixedSend (fun id => ("sp-" +:+ id)%string)).
#[local] Abbreviation az_step := (@astep true Decimal20 ToFixedColumn ToFixedSend (fun g _ => g.1)).
#[local] Abbreviation az_send := (@sendGiftTransfer ToFixedColumn ToFixedSend (fun g _ => g.1)).

Definition az_points (u : Z) : Q := Number_of_units u.
Definition az_open : adb :=
  ADB (VDB run_open ∅ ∅ {[ 1 := Profile BAN_ACTIVE false 10000000000; 2 := Profile BAN_ACTIVE false 5000000000;
                           3 := Profile BAN_ACTIVE false 4000000000; 4 := Profile BAN_ACTIVE false 3000000000 ]} ∅ ∅) ∅ ∅ ∅ ∅ ∅
    {[ 11 := AdRow 1 "ACTIVE" true (Some (10 * WINDOW_MS)); 12 := AdRow 2 "ACTIVE" false None; 13 := AdRow 3 "ACTIVE" false None; 14 := AdRow 4 "ACTIVE" false None ]} ∅.

Lemma az_open_ainv : ainv az_open.
Proof.
  split; [| by split | by split]. intros u b Hb. unfold azm_of in Hb. cbn in Hb. rewrite !lookup_insert, lookup_singleton in Hb.
  repeat case_decide; (discriminate Hb || injection Hb as <-); unfold DECIMAL_20_8_LIMIT; lia.
Qed.

Definition az_request (receiver : Z) (units : Z) : gift_request :=
  GiftRequest (Some (Some receiver)) (Num.Fin (az_points units)) "GIFT" None (Some "gift-key-1"%string).
Definition az_given : adb := (az_send (GiftIds "g1" "s1" "r1") 1 (az_request 2 500000000) None az_open).2.

Definition az_auction : adb := (ensureOpen "a1" 0 az_open).2.
Definition az_bid (id : string) (v adId : Z) (amount : Q) (s : adb) : adb := (placeBid "a9" id v adId amount 10 11 s s).2.
Definition az_bids : adb := az_bid "b4" 4 14 12 (az_bid "b3" 3 13 10 (az_bid "b2" 2 12 15 (az_bid "b1" 1 11 20 az_auction))).
Definition az_settled : adb := (az_settle "a1" (WINDOW_MS + 1) az_bids az_bids).2.
Definition az_dust : adb := az_bid "b2" 2 12 (1 # 1000000000) (az_bid "b1" 1 11 20 az_auction).

Example az_balances :
  map (fun s => map (fun u => azm u s) [1; 2; 3; 4]) [az_open; az_given; az_bids; az_settled] =
    [[10000000000; 5000000000; 4000000000; 3000000000]; [9500000000; 5500000000; 4000000000; 3000000000];
     [10000000000; 5000000000; 4000000000; 3000000000]; [8000000000; 3500000000; 4000000000; 1800000000]].
Proof. vm_compute. reflexivity. Qed.

Lemma az_given_run : exists o, az_send (GiftIds "g1" "s1" "r1") 1 (az_request 2 500000000) None az_open = (Ok o, az_given) /\ go_replay o = false.
Proof. eexists. split; vm_compute; reflexivity. Qed.

Lemma az_bid_run id v adId amount s : ainv s -> toFixedZ 8 amount <= SAFE_UNITS -> rtc az_step s (az_bid id v adId amount s) /\ ainv (az_bid id v adId amount s).
Proof.
  intros Hi Ha. destruct (placeBid "a9" id v adId amount 10 11 s s) as [r s'] eqn:Hr. unfold az_bid. rewrite Hr. cbn. split; [apply rtc_once; by eapply ax_bid |].
  by eapply (@bid_kept true).
Qed.
Lemma az_auction_ainv : rtc az_step az_open az_auction /\ ainv az_auction.
Proof.
  assert (Hs : az_step az_open az_auction) by (eapply ax_ensure; apply surjective_pairing). split; [by apply rtc_once |].
  by eapply (step_kept (half:=true) (H:=Decimal20) (H0:=ToFixedColumn) (H1:=ToFixedSend)) in Hs as [Hs _ _]; [| apply az_open_ainv].
Qed.
Lemma az_bids_run : rtc az_step az_open az_bids /\ ainv az_bids.
Proof.
  destruct az_auction_ainv as [R0 I0]. unfold az_bids.
  destruct (az_bid_run "b1" 1 11 20 _ I0 ltac:(done)) as [R1 I1]. destruct (az_bid_run "b2" 2 12 15 _ I1 ltac:(done)) as [R2 I2].
  destruct (az_bid_run "b3" 3 13 10 _ I2 ltac:(done)) as [R3 I3]. destruct (az_bid_run "b4" 4 14 12 _ I3 ltac:(done)) as [R4 I4].
  split; [| done]. by repeat (etrans; [eassumption |]).
Qed.
Lemma az_dust_ainv : ainv az_dust.
Proof.
  destruct az_auction_ainv as [_ I0]. destruct (az_bid_run "b1" 1 11 20 _ I0 ltac:(done)) as [_ I1]. by destruct (az_bid_run "b2" 2 12 (1 # 1000000000) _ I1 ltac:(done)) as [_ I2].
Qed.

Lemma gift_moves_points_witness : azm 1 az_given = azm 1 az_open - 500000000 /\ azm 2 az_given = azm 2 az_open + 500000000.
Proof.
  destruct az_given_run as (o & Hr & Ho).
  pose proof (@gift_moves_points ToFixedColumn ToFixedSend (fun g _ => g.1) _ _ _ _ _ o az_given az_open_ainv Hr) as Hx.
  rewrite Ho in Hx. destruct Hx as (key & receiver & amount & paid & Hc & _ & _ & _ & Hz & _ & Hex).
  assert (Hk : gift_checks 1 (az_request 2 500000000) = Ok ("gift-key-1"%string, 2, az_points 500000000)) by (vm_compute; reflexivity). rewrite Hk in Hc. injection Hc as <- <- <-.
  assert (Ha : @num_to_col ToFixedColumn (az_points 500000000) = 500000000) by (vm_compute; reflexivity). clear Hr Hk.
  rewrite (Hz 1), (Hz 2), Hex, Ha; [cbn [Z.eqb Pos.eqb]; lia |]. eapply units_no_tie, (@num_dec_Number ToFixedColumn ToFixedSend). vm_compute. discriminate.
Defined.

Lemma gift_sent_once_witness : azm 1 (az_send (GiftIds "g2" "s2" "r2") 1 (az_request 3 700000000) None az_given).2 = azm 1 az_given.
Proof.
  destruct az_given_run as (o & Hr & Ho). set (next := az_send _ _ _ _ _).
  pose proof (@gift_sent_once Decimal20 ToFixedColumn ToFixedSend (fun g _ => g.1) true _ 1 (az_request 2 500000000) _ _ o az_given az_given (GiftIds "g2" "s2" "r2") (az_request 3 700000000) None
    next.1 next.2 az_open_ainv Hr Ho (rtc_refl _ _) eq_refl (surjective_pairing _)) as [_ Hx].
  exact (Hx 1).
Defined.

Lemma az_settled_run : exists board losers burned, az_settle "a1" (WINDOW_MS + 1) az_bids az_bids = (Ok (Settled board losers burned), az_settled) /\ burned = 4700000000 /\ losers = [3].
Proof. eexists _, _, _. split_and!; vm_compute; reflexivity. Qed.

Lemma settlement_exact_witness : exists board losers burned, az_settle "a1" (WINDOW_MS + 1) az_bids az_bids = (Ok (Settled board losers burned), az_settled) /\
  azm 2 az_settled = azm 2 az_bids - 1500000000 /\ settled "a1" az_settled.
Proof.
  destruct az_settled_run as (board & losers & burned & Hr & _). exists board, losers, burned. split; [exact Hr |].
  destruct (@settlement_exact Decimal20 ToFixedColumn ToFixedSend _ "a1" _ _ az_bids board losers burned az_settled (proj2 az_bids_run) Hr) as (_ & _ & _ & Hs & Hz & _).
  clear Hr. split; [| exact Hs]. rewrite (Hz 2). vm_compute. reflexivity.
Defined.

Lemma auction_settled_once_witness : (az_settle "a1" (2 * WINDOW_MS) az_bids az_settled).2 = az_settled.
Proof.
  assert (Ha : exists a, auctions az_settled !! "a1"%string = Some a /\ au_status a = AU_SETTLED) by (eexists; split; vm_compute; reflexivity). destruct Ha as (a & Ha & Hs).
  assert (Hi : ainv az_settled) by (eapply (settle_kept (half:=true)); [apply az_bids_run | apply surjective_pairing]).
  destruct (@auction_settled_once Decimal20 ToFixedColumn ToFixedSend (fun g _ => g.1) true az_settled az_settled "a1" a Hi (rtc_refl _ _) Ha Hs) as (_ & _ & Hx). apply Hx.
Defined.

Lemma one_open_auction_witness : forall j b, auctions az_bids !! j = Some b -> au_status b = AU_OPEN -> au_start b <= 5 < au_end b -> "a1"%string = j.
Proof.
  assert (Ha : exists a, auctions az_bids !! "a1"%string = Some a /\ au_status a = AU_OPEN /\ au_start a <= 5 < au_end a)
    by (eexists; split; [vm_compute; reflexivity | split; [reflexivity | vm_compute; split; congruence]]).
  destruct Ha as (a & Ha & Hs & Ht). intros j b Hb Hbs Hbt.
  exact (@one_open_auction Decimal20 ToFixedColumn ToFixedSend (fun g _ => g.1) true az_open az_bids "a1" j a b 5 az_open_ainv (proj1 az_bids_run) Ha Hb Hs Hbs Ht Hbt).
Defined.

Lemma bad_winner_blocks_witness : exists b, ("b2"%string, b) ∈ winners_of "a1" az_dust /\ bd_amount b = 0 /\ (az_settle "a1" (WINDOW_MS + 1) az_dust az_dust).2 = az_dust.
Proof.
  set (b := BidRow "a1" 2 12 0 BID_ACTIVE None 0 None 10). assert (Hw : ("b2"%string, b) ∈ winners_of "a1" az_dust).
  { assert (Hl : winners_of "a1" az_dust !! 1%nat = Some ("b2"%string, b)) by (vm_compute; reflexivity). by eapply list_elem_of_lookup_2. }
  exists b. split_and!; [exact Hw | reflexivity |].
  exact (proj2 (@bad_winner_blocks Decimal20 ToFixedColumn ToFixedSend (fun id => ("sp-" +:+ id)%string) "a1" (WINDOW_MS + 1) az_dust az_dust _ _ ("b2"%string, b) az_dust_ainv Hw (or_introl eq_refl)
    (surjective_pairing _))).
Defined.

Definition az_halted : adb := set_auctions (with_auction_status AU_SETTLING <$> auctions az_auction) az_auction.

Lemma settling_left_behind_witness : exists a, auctions (@auction_tick Decimal20 ToFixedColumn ToFixedSend "a2" (fun id => ("sp-" +:+ id)%string) (2 * WINDOW_MS) az_halted) !! "a1"%string = Some a /\
  au_status a = AU_SETTLING.
Proof.
  assert (Ha : exists a, auctions az_halted !! "a1"%string = Some a /\ au_status a = AU_SETTLING) by (eexists; split; vm_compute; reflexivity). destruct Ha as (a & Ha & Hs).
  exists a. split; [| exact Hs]. apply (@settling_left_behind Decimal20 ToFixedColumn ToFixedSend); [| exact Ha | exact Hs].
  split; [apply az_auction_ainv | by split |]. assert (Hn : auctions az_auction = {[ "a1"%string := AuctionRow 0 WINDOW_MS AU_OPEN DEFAULT_WINNER_COUNT 0 None [] ]}) by (vm_compute; reflexivity).
  assert (Hh : auctions az_halted = {[ "a1"%string := AuctionRow 0 WINDOW_MS AU_SETTLING DEFAULT_WINNER_COUNT 0 None [] ]}) by (vm_compute; reflexivity).
  split; try done; rewrite Hh.
  - intros id b Hb. apply lookup_singleton_Some in Hb as [_ <-]. reflexivity.
  - intros i j b c Hb Hc Hij. apply lookup_singleton_Some in Hb as [<- _]. apply lookup_singleton_Some in Hc as [<- _]. done.
Defined.

Lemma win_shortens_boost_witness : exists ad t, ads az_settled !! 11 = Some ad /\ ad_boostExpiresAt ad = Some t /\ t < 10 * WINDOW_MS.
Proof.
  destruct az_settled_run as (board & losers & burned & Hr & _). set (b := BidRow "a1" 1 11 2000000000 BID_ACTIVE None 0 None 10).
  assert (Hw : ("b1"%string, b) ∈ winners_of "a1" az_bids).
  { assert (Hl : winners_of "a1" az_bids !! 0%nat = Some ("b1"%string, b)) by (vm_compute; reflexivity). by eapply list_elem_of_lookup_2. }
  assert (Ha : ads az_bids !! 11 = Some (AdRow 1 "ACTIVE" true (Some (10 * WINDOW_MS)))) by (vm_compute; reflexivity).
  destruct (@win_shortens_boost Decimal20 ToFixedColumn ToFixedSend (fun id => ("sp-" +:+ id)%string) "a1" (WINDOW_MS + 1) az_bids az_bids board losers burned az_settled ("b1"%string, b)
    (AdRow 1 "ACTIVE" true (Some (10 * WINDOW_MS))) (10 * WINDOW_MS) (proj2 az_bids_run) Hr Hw Ha eq_refl eq_refl) as (ad & t & Had & Ht & _ & Hlt).
  exists ad, t. split; [exact Had |]. split; [exact Ht | exact Hlt].
Defined.



(** ** Boundary cases *)

(** A gift of an odd number of half units takes the units below it from the
    sender and gives the units above it to the receiver. *)
Example half_unit_gift_mints :
  let s := (az_send (GiftIds "g1" "s1" "r1") 1 (GiftRequest (Some (Some 2)) (Num.Fin (1 # 512)) "GIFT" None (Some "gift-key-1"%string)) None az_open).2 in
  (azm 1 s, azm 2 s) = (azm 1 az_open - 195312, azm 2 az_open + 195313).
Proof. vm_compute. reflexivity. Qed.

(** Stakes of 188.1, 145.2 and 166.7 points are 500 points, and the sum of the
    doubles is less than the threshold. *)
Definition az_stake_row (units : Z) : stake_row := StakeRow 1 units STAKE_ACTIVE None None None COOLDOWN_DAYS FREE.
Example float_stakes_lose_tier :
  let s := set_stakes {[ "k1"%string := az_stake_row 18810000000; "k2"%string := az_stake_row 14520000000; "k3"%string := az_stake_row 16670000000 ]} az_open in
  staked 1 s = 50000000000 /\ (getUserTier 1 s, getTierForStake 500) = (FREE, NITRO_BRONZE).
Proof. vm_compute. split; reflexivity. Qed.
