(* ===== verification/Convert.v ===== *)
(** * Sale of AZM points (controllers/azmConversionController.js)

    A user sells points for USDC of the platform's fee pool.  State ([kdb]): the
    AZM database, the conversion log and the date each account was created.
    The rate falls with the pool and rises with the age of the account; a user
    may sell 5000 points in 24 hours.  The quota, the rate and the first look at
    the pool are read before the transaction, from an earlier database. *)

From stdpp Require Import base gmap strings list.
From Stdlib Require Import ZArith QArith Lia.
From S2P Require Import Prelude JsNumber ExactDecimal Json Ledger Idempotency Escrow EscrowProps Vault Azm.

Local Open Scope Z_scope.

(** [cv_rate] and [cv_baseRate] are Decimal(10,6) columns. *)
Record conversion_row : Type := ConversionRow {
  cv_userId : Z;
  cv_azm : Z;
  cv_usdc : Z;
  cv_rate : Z;
  cv_baseRate : Z;
  cv_holderBonus : bool;
  cv_newAzm : Z;
  cv_newUsdc : Z;
  cv_createdAt : Z;
}.

Record kdb : Type := KDB { points : adb; conversions : gmap Z conversion_row; joined : gmap Z Z }.

Definition on_points {A} (m : M adb A) : M kdb A :=
  fun s => match m (points s) with Ok (a, p) => Ok (a, KDB p (conversions s) (joined s)) | Err e => Err e end.
Definition on_funds {A} (m : M edb A) : M kdb A := on_points (on_sav (on_bank m)).
Definition wallet_of (s : kdb) : edb := bank (sav (points s)).

Definition conversion_create (id : Z) (r : conversion_row) : M kdb unit :=
  s ← get;
  check (match conversions s !! id with None => true | Some _ => false end) "P2002";;
  check (numeric_ok (cv_azm r) && numeric_ok (cv_usdc r)) "NUMERIC_OVERFLOW";;
  put (KDB (points s) (<[id := r]> (conversions s)) (joined s)).

(** ** Parameters *)

Definition BASE_RATE : Q := fl (1 # 1000).
Definition DAILY_AZM_LIMIT : Q := 5000.
Definition MIN_CONVERT : Q := 10.
Definition HOLDER_BONUS_THRESHOLD_DAYS : Q := 90.
Definition HOLDER_BONUS_MULTIPLIER : Q := fl (115 # 100).

(** ** The rate *)

Record rate_info : Type := RateInfo { ri_rate : Q; ri_baseRate : Q; ri_healthFactor : Q }.

Definition pool_balance (s : kdb) : Q := Number_of_units (profitFees (wallet_of s)).
Definition health_factor (s : kdb) : Q := js_max (fl (1 # 2)) (js_min 1 (js_div (pool_balance s) 10000)).
Definition long_holder (userId now : Z) (s : kdb) : bool :=
  match (if userId =? 0 then None else joined s !! userId) with
  | Some created => Qle_bool HOLDER_BONUS_THRESHOLD_DAYS (js_div (inject_Z (now - created)) (inject_Z DAY_MS))
  | None => false
  end.
Definition getConversionRate (userId now : Z) (s : kdb) : rate_info :=
  let healthFactor := health_factor s in
  let rate := js_mul BASE_RATE healthFactor in
  let rate := if long_holder userId now s then js_mul rate HOLDER_BONUS_MULTIPLIER else rate in
  RateInfo (round6 rate) BASE_RATE (parseDec 4 (toFixedZ 4 healthFactor)).

(** ** The quota *)

Definition recent (userId now : Z) (r : conversion_row) : bool := (cv_userId r =? userId) && (now - DAY_MS <=? cv_createdAt r).
Definition converted (userId now : Z) (s : kdb) : Z := sumM (fun r => if recent userId now r then cv_azm r else 0) (conversions s).
Definition getDailyQuotaRemaining (userId now : Z) (s : kdb) : Q := js_max 0 (js_sub DAILY_AZM_LIMIT (Number_of_units (converted userId now s))).

(** ** The conversion *)

Definition conversion_key (id : Z) : string := ("azm_conversion_" +:+ Z_digits id)%string.
Definition conversion_ledger_key (id : Z) : string := ("ledger:azm:conversion:" +:+ Z_digits id)%string.

Section Conversion.
Context `{DecimalLib} `{PrismaSend} (sha256 : string -> string).
(** The text of the committed response: the two amounts, the rate and the two
    balances. *)
Context (wire_conversion : Q -> Q -> Q -> Z -> Z -> string).

(** [updateMany({ where: { balance: { gte } }, data: { decrement } })] on the
    pool. *)
Definition pool_claim (amount : Q) : M edb nat :=
  s ← get;
  if Qle_bool (num_dec amount) (usdc (profitFees s)) then
    check (column_ok (col_add (profitFees s) (- num_dec amount))) "CHECK_VIOLATION";;
    put (set_profitFees (col_add (profitFees s) (- num_dec amount)) s);;
    mret 1%nat
  else mret 0%nat.

Definition conversion_posting (id userId : Z) (usdcAmount : Q) : post_params :=
  vault_posting (conversion_ledger_key id) "REWARD" "AZM redemption" userId "azmConversionLog" (Z_digits id)
    [debit_line "equity:treasury" (exact_num usdcAmount); credit_line (liability_code userId) (exact_num usdcAmount)].

Definition convert_tx (newId : Z) (newSpend : string) (userId : Z) (amount usdcAmount : Q) (info : rate_info) (op : option nat) (now : Z) : M kdb unit :=
  count ← on_points (azm_claim userId amount);
  if (count =? 0)%nat then
    u ← reads (fun s => azm_of userId (points s));
    match u with None => throw "User not found." | Some _ => throw "Insufficient AZM balance." end
  else
    on_points (on_sav (balance_update userId (num_dec usdcAmount)));;
    drained ← on_funds (pool_claim usdcAmount);
    check (negb (drained =? 0)%nat) "Conversion pool temporarily insufficient.";;
    s ← get;
    let newAzm := default 0 (azm_of userId (points s)) in
    let newUsdc := avail userId (wallet_of s) in
    conversion_create newId (ConversionRow userId (num_to_col amount) (num_to_col usdcAmount) (toFixedZ 6 (ri_rate info)) (toFixedZ 6 (ri_baseRate info))
      (negb (Qeq_bool (ri_rate info) (js_mul (ri_baseRate info) (ri_healthFactor info)))) (num_to_col (Number_of_units newAzm)) (num_to_col (Number_of_units newUsdc)) now);;
    on_points (spend_create newSpend (SpendRow userId (num_to_col amount) "AZM_CONVERSION" (Some (conversion_key newId)) None (num_to_col (Number_of_units newAzm))));;
    on_funds (post_ledger sha256 (conversion_posting newId userId usdcAmount));;
    on_funds (history_create (HistRow userId (OTHER_TYPE "AZM_CONVERSION_TO_USDC") (num_to_col usdcAmount) 0 None true));;
    on_points (on_sav (commit_claim_tx op (wire_conversion amount usdcAmount (ri_rate info) newAzm newUsdc))).

(** The handler.  [azmAmount] is the field after [parseFloat], absent when it is
    falsy; a NaN passes both comparisons and fails in the database client. *)
Definition convertAzmToUsdc (newId : Z) (newSpend : string) (userId : Z) (azmAmount : option Num.num) (op : option nat) (now : Z) (before s : kdb) : res (Q * Q) * kdb :=
  match azmAmount with
  | None | Some (Num.Inf true) => (Err "Minimum conversion", s)
  | Some (Num.Inf false) => (Err "Daily limit exceeded", s)
  | Some Num.NaN => (Err "Conversion failed.", s)
  | Some (Num.Fin amount) =>
      if js_lt amount MIN_CONVERT then (Err "Minimum conversion", s)
      else if js_lt (getDailyQuotaRemaining userId now before) amount then (Err "Daily limit exceeded", s)
      else
        let info := getConversionRate userId now before in
        let usdcAmount := js_mul amount (ri_rate info) in
        if js_lt (pool_balance before) usdcAmount then (Err "Conversion pool temporarily insufficient.", s)
        else match transaction (convert_tx newId newSpend userId amount usdcAmount info op now) s with
        | (Ok _, s') => (Ok (usdcAmount, ri_rate info), s')
        | (Err e, s') =>
            (Err (if String.eqb e "Conversion pool temporarily insufficient." || String.eqb e "Insufficient AZM balance." then e else "Conversion failed."), s')
        end
  end.
End Conversion.
