(* ===== verification/ConvertTheorems.v ===== *)
(** * Sale of AZM points: theorems

    What a conversion moves, how far the daily limit holds, and the agreement of
    the balances with the logs along runs of conversions and of the AZM
    services. *)

From stdpp Require Import base gmap strings list relations.
From Stdlib Require Import ZArith QArith Qabs Lqa Lia.
From S2P Require Import Prelude JsNumber ExactDecimal Json Ledger LedgerFacts LedgerProps Idempotency Escrow EscrowFacts EscrowProps EscrowTheorems WalletProps Vault VaultProps VaultTheorems Azm AzmProps Auction AuctionProps AzmTheorems Convert.

Local Open Scope Z_scope.

(** ** Statements *)

Definition with_points (p : adb) (s : kdb) : kdb := KDB p (conversions s) (joined s).
Definition with_wallet (w : edb) (p : adb) : adb := set_sav (set_bank w (sav p)) p.

Lemma on_points_Ok {A} (m : M adb A) s a s' : on_points m s = Ok (a, s') -> exists p, m (points s) = Ok (a, p) /\ s' = with_points p s.
Proof. unfold on_points. destruct (m (points s)) as [[x p] |]; [| done]. intros [= -> <-]. by exists p. Qed.

Lemma on_funds_Ok {A} (m : M edb A) s a s' : on_funds m s = Ok (a, s') -> exists w, m (wallet_of s) = Ok (a, w) /\ s' = with_points (with_wallet w (points s)) s.
Proof.
  intros Hr. apply on_points_Ok in Hr as (p & Hp & ->). apply on_sav_Ok in Hp as (v & Hv & ->). apply on_bank_Ok in Hv as (w & Hw & ->). by exists w.
Qed.

Lemma conversion_create_Ok id r s x s' : conversion_create id r s = Ok (x, s') -> conversions s !! id = None /\ s' = KDB (points s) (<[id := r]> (conversions s)) (joined s).
Proof.
  intros Hr. unfold conversion_create in Hr. rewrite get_bind in Hr. apply Mbind_Ok in Hr as (y & s1 & Hc & Hr). apply check_Ok in Hc as [Hc ->].
  apply Mbind_Ok in Hr as (y1 & s1 & Hn & Hr). apply check_Ok in Hn as [_ ->]. apply put_Ok in Hr as ->. by destruct (conversions s !! id).
Qed.

Section Conversion.
Context `{DecimalLib} `{PrismaSend} (sha256 : string -> string) (wire_conversion : Q -> Q -> Q -> Z -> Z -> string).

Lemma pool_claim_Ok amount w n w' : 0 <= Qnum amount -> pool_claim amount w = Ok (n, w') ->
  n = 0%nat /\ w' = w \/ n = 1%nat /\ 0 <= profitFees w - paid_units (num_dec amount) /\ w' = set_profitFees (profitFees w - paid_units (num_dec amount)) w.
Proof.
  intros Ht Hr. unfold pool_claim in Hr. rewrite get_bind in Hr. destruct (Qle_bool _ _) eqn:Hle; [| apply Mret_Ok in Hr as [-> ->]; by left]. right.
  apply Mbind_Ok in Hr as (y & w1 & Hc & Hr). apply check_Ok in Hc as [Hc ->]. apply Mbind_Ok in Hr as (y1 & w1 & Hp & Hr). apply put_Ok in Hp as ->. apply Mret_Ok in Hr as [-> ->].
  rewrite col_add_debit in * by (done || by apply num_dec_nonneg). unfold column_ok in Hc. apply andb_true_iff in Hc as [Hc _]. apply Z.leb_le in Hc. done.
Qed.

(** The credit of the user's balance. *)
Lemma credit_wallet u amount p x p' : 0 <= Qnum amount -> on_sav (balance_update u (num_dec amount)) p = Ok (x, p') ->
  exists w c, p' = with_wallet w p /\ moves [(u, Delta c 0 0)] (users (bank (sav p))) (users w) /\ w = set_users (users w) (bank (sav p)) /\
    (columns_ok (bank (sav p)) -> c = num_to_col amount).
Proof.
  intros Hn Hr. apply on_sav_Ok in Hr as (v & Hr & ->). apply balance_update_Ok in Hr as (row & Hu & Hok & ->).
  eexists _, (col_add (availableBalance row) (num_dec amount) - availableBalance row). split; [reflexivity |]. split; [by apply moves_one |]. split; [done |]. intros Hc.
  rewrite col_add_credit, num_dec_col by (apply num_dec_nonneg || eapply columns_avail; done). lia.
Qed.

(** What a sale of [amount] points for [q] USDC does. *)
Record sold (id : Z) (sp : string) (u : Z) (amount q : Q) (row : conversion_row) (s s' : kdb) : Prop := {
  so_azm v : azm v (points s') = azm v (points s) - if v =? u then paid_units (num_dec amount) else 0;
  so_avail : columns_ok (wallet_of s) -> forall v, avail v (wallet_of s') = avail v (wallet_of s) + if v =? u then num_to_col q else 0;
  so_fees : profitFees (wallet_of s') = profitFees (wallet_of s) - paid_units (num_dec q);
  so_backed : 0 <= profitFees (wallet_of s');
  so_total : columns_ok (wallet_of s) -> total_value (wallet_of s') = total_value (wallet_of s) + (num_to_col q - paid_units (num_dec q));
  so_posted : posted sha256 (conversion_ledger_key id) [NLine "equity:treasury" (toFixedZ 8 q) 0; NLine (liability_code u) 0 (toFixedZ 8 q)] (ledger (wallet_of s)) (ledger (wallet_of s'));
  so_log : conversions s !! id = None /\ conversions s' = <[id := row]> (conversions s) /\ cv_userId row = u /\ cv_azm row = num_to_col amount /\ cv_usdc row = num_to_col q;
  so_spend : exists r, spends (points s) !! sp = None /\ spends (points s') = <[sp := r]> (spends (points s)) /\ sp_userId r = u /\ sp_amount r = num_to_col amount /\ sp_source r = "AZM_CONVERSION"%string;
  so_calm {half : HalfUnits} : whole amount -> calm (points s) (points s');
}.

Lemma convert_Ok newId newSpend u amount usdcAmount info op now s x s' : 0 <= Qnum amount -> 0 <= Qnum usdcAmount ->
  convert_tx sha256 wire_conversion newId newSpend u amount usdcAmount info op now s = Ok (x, s') ->
  exists row, cv_createdAt row = now /\ sold newId newSpend u amount usdcAmount row s s'.
Proof.
  intros Ha Hc Hr. unfold convert_tx in Hr. apply Mbind_Ok in Hr as (n & s1 & Hcl & Hr). apply on_points_Ok in Hcl as (p1 & Hcl & ->).
  apply azm_claim_Ok in Hcl as [[-> ->] | (-> & b & Hb & Hrg & ->)]; [| | done].
  { cbn in Hr. apply Mbind_Ok in Hr as (o & s1 & Ho & Hr). destruct o; by apply throw_Ok in Hr. }
  cbn [Nat.eqb] in Hr. set (a := paid_units (num_dec amount)) in *. set (c := paid_units (num_dec usdcAmount)) in *.
  apply Mbind_Ok in Hr as (y1 & s2 & Hw & Hr). apply on_points_Ok in Hw as (p2 & Hw & ->). apply credit_wallet in Hw as (w1 & d & -> & Hmv & Hw1 & Hd); [| done].
  apply Mbind_Ok in Hr as (m & s3 & Hp & Hr). apply on_funds_Ok in Hp as (w2 & Hp & ->). apply pool_claim_Ok in Hp as [[-> ->] | (-> & Hnn & Hw2)]; [| | done].
  { cbn in Hr. apply Mbind_Ok in Hr as (y & s3 & Hk & Hr). by apply check_Ok in Hk as [? _]. }
  fold c in Hnn, Hw2. apply Mbind_Ok in Hr as (y2 & s3 & Hk & Hr). apply check_Ok in Hk as [_ ->]. rewrite get_bind in Hr.
  apply Mbind_Ok in Hr as (y3 & s3 & Hlog & Hr). apply conversion_create_Ok in Hlog as [Hnew ->]. set (row := ConversionRow _ _ _ _ _ _ _ _ _) in Hr.
  apply Mbind_Ok in Hr as (y4 & s4 & Hsp & Hr). apply on_points_Ok in Hsp as (p4 & Hsp & ->). apply spend_create_Ok in Hsp as (Hns & _ & ->). set (srow := SpendRow _ _ _ _ _ _) in Hr, Hns.
  apply Mbind_Ok in Hr as (y5 & s5 & Hpost & Hr). apply on_funds_Ok in Hpost as (w5 & Hpost & ->).
  unfold conversion_posting in Hpost. rewrite exact_num_exact_dec in Hpost by done. set (z := toFixedZ 8 usdcAmount) in *.
  apply (specs_posted sha256 _ [DebitOf "equity:treasury" z; CreditOf (liability_code u) z]) in Hpost as (l' & Hw5 & Hpost & Hpos);
    [| done.. | assert (0 <= z) by (by apply fixed8_nonneg); repeat constructor; cbn; lia].
  apply Mbind_Ok in Hr as (y6 & s6 & Hh & Hr). apply on_funds_Ok in Hh as (w6 & Hh & ->). apply history_create_Ok in Hh as Hw6.
  apply on_points_Ok in Hr as (p7 & Hr & ->). apply on_sav_Ok in Hr as (v7 & Hr & Hp7). apply commit_claim_tx_Ok in Hr as [ops Hv7].
  assert (Hab : azm u (points s) = b) by (unfold azm; by rewrite Hb). subst p7 v7 w6 w5 w2.
  exists row. split; [done |]. split.
  - intros v. etransitivity; [exact (azm_set _ _ (points s) v _ Hb) |]. destruct (Z.eqb_spec v u); subst; lia.
  - intros Hcol v. etransitivity; [exact (moves_avail _ (wallet_of s) w1 v Hmv) |]. unfold delta_of. rewrite sumZ_cons, sumZ_nil. cbn. rewrite (Z.eqb_sym u v), (Hd Hcol). destruct (v =? u); lia.
  - cbn. by rewrite Hw1.
  - cbn. cbn in Hnn. lia.
  - intros Hcol. unfold total_value. cbn. rewrite (moves_total user_total (fun d => da d + dl d + dd d) ltac:(intros; unfold user_total; simpl; lia) _ _ _ Hmv). rewrite sumZ_cons, sumZ_nil. cbn.
    rewrite (Hd Hcol), Hw1. cbn. change (users (wallet_of s)) with (users (bank (sav (points s)))). change (profitFees (wallet_of s)) with (profitFees (bank (sav (points s)))). lia.
  - cbn. cbn in Hpost. rewrite Hw1 in Hpost. exact Hpost.
  - done.
  - by exists srow.
  - intros half Hwh. pose proof (whole_paid amount Ha Hwh) as Hpd. fold a in Hpd. transitivity (spent_state newSpend srow (b - a) (points s)); [| by apply put_same].
    split; [apply (spend_keeps newSpend srow b); try done; unfold within; cbn; lia | by apply spent_quiet | by apply spent_silent].
Qed.
End Conversion.

(** ** Theorems *)

Section Theorems.
Context `{DecimalLib} `{PrismaSend} (sha256 : string -> string) (wire_conversion : Q -> Q -> Q -> Z -> Z -> string).

Lemma handler_Ok newId newSpend u azmAmount op now before s q rate s' : convertAzmToUsdc sha256 wire_conversion newId newSpend u azmAmount op now before s = (Ok (q, rate), s') ->
  exists amount x, azmAmount = Some (Num.Fin amount) /\ js_lt amount MIN_CONVERT = false /\ js_lt (getDailyQuotaRemaining u now before) amount = false /\
    q = js_mul amount rate /\ rate = ri_rate (getConversionRate u now before) /\
    convert_tx sha256 wire_conversion newId newSpend u amount q (getConversionRate u now before) op now s = Ok (x, s').
Proof.
  intros Hr. unfold convertAzmToUsdc in Hr. destruct azmAmount as [[amount | [] |] |]; try done. destruct (js_lt amount MIN_CONVERT) eqn:H1'; [done |].
  destruct (js_lt _ amount) eqn:H2'; [done |]. destruct (js_lt (pool_balance before) _); [done |]. destruct (transaction _ s) as [o s1] eqn:Ht.
  apply tx_cases in Ht as [(x & -> & Hx) | (e & -> & ->)]; [| done]. injection Hr as <- <- <-. by exists amount, x.
Qed.

(** The rate and the amount of a sale are not negative. *)
Lemma js_mul_nonneg x y : (0 <= x)%Q -> (0 <= y)%Q -> (0 <= js_mul x y)%Q.
Proof. intros Hx Hy. apply Qnum_nonneg, fl_nonneg, Qnum_nonneg. by apply Qmult_le_0_compat. Qed.
Lemma rate_nonneg u now s : (0 <= ri_rate (getConversionRate u now s))%Q.
Proof.
  assert (Hh : (0 <= health_factor s)%Q).
  { unfold health_factor, js_max. destruct (Qle_bool _ _) eqn:Hle; [apply Qle_bool_iff in Hle; eapply Qle_trans; [| exact Hle] |]; vm_compute; discriminate. }
  assert (Hb : (0 <= BASE_RATE)%Q /\ (0 <= HOLDER_BONUS_MULTIPLIER)%Q) by (split; vm_compute; discriminate). destruct Hb as [Hb Hm].
  unfold getConversionRate. cbn [ri_rate]. apply Qnum_nonneg, fl_nonneg. cbn [Qnum]. apply toFixedZ_nonneg; [done |]. apply Qnum_nonneg. destruct (long_holder _ _ _); by repeat apply js_mul_nonneg.
Qed.
Lemma sale_nonneg u now before amount : js_lt amount MIN_CONVERT = false -> 0 <= Qnum amount /\ 0 <= Qnum (js_mul amount (ri_rate (getConversionRate u now before))).
Proof.
  intros Hmin. unfold js_lt, MIN_CONVERT in Hmin. apply negb_false_iff, Qle_bool_iff in Hmin. assert (Ha : (0 <= amount)%Q) by lra.
  split; apply Qnum_nonneg; [done |]. apply js_mul_nonneg; [done | apply rate_nonneg].
Qed.

(** C25: a conversion of points is an exchange, for every amount.  The user's
    points fall by [out] and the user's USDC rises by the column amount of the
    price; the fee pool pays [pay] and had it; nobody else moves; the treasury
    and the user's liability account move by the price as the posting formats
    it; the spend and the conversion are logged with the column amounts.  The
    three roundings agree to one unit, and what is charged is what is logged
    and what is paid is what is credited, so that no value is created, unless
    the points, or the price, are half-way between two units. *)
Theorem conversion_exact newId newSpend u amount op now before s q rate s' :
  columns_ok (wallet_of s) -> find_key (conversion_ledger_key newId) (ledger (wallet_of s)) = None ->
  convertAzmToUsdc sha256 wire_conversion newId newSpend u (Some (Num.Fin amount)) op now before s = (Ok (q, rate), s') ->
  q = js_mul amount (ri_rate (getConversionRate u now before)) /\
  exists out pay,
    (forall v, azm v (points s') = azm v (points s) - if v =? u then out else 0) /\
    (forall v, avail v (wallet_of s') = avail v (wallet_of s) + if v =? u then num_to_col q else 0) /\
    profitFees (wallet_of s') = profitFees (wallet_of s) - pay /\ 0 <= profitFees (wallet_of s') /\
    total_value (wallet_of s') = total_value (wallet_of s) + (num_to_col q - pay) /\
    (forall c, net c (ledger (wallet_of s')) = net c (ledger (wallet_of s)) +
      if String.eqb "equity:treasury" c then toFixedZ 8 q else if String.eqb (liability_code u) c then - toFixedZ 8 q else 0) /\
    spent every u (points s') = spent every u (points s) + num_to_col amount /\
    (exists row, conversions s' = <[newId := row]> (conversions s) /\ cv_userId row = u /\ cv_azm row = num_to_col amount /\ cv_usdc row = num_to_col q) /\
    num_to_col amount - 1 <= out <= num_to_col amount /\ (no_tie (num_dec amount) -> out = num_to_col amount) /\
    num_to_col q - 1 <= pay <= num_to_col q /\ (no_tie (num_dec q) -> pay = num_to_col q) /\
    ((q <= 10000000)%Q -> Z.abs (toFixedZ 8 q - num_to_col q) <= 1).
Proof.
  intros Hcol Hkey Hr. apply handler_Ok in Hr as (a & x & [= <-] & Hmin & _ & -> & -> & Hx). split; [done |].
  destruct (sale_nonneg u now before amount Hmin) as [Ha Hq]. set (q := js_mul _ _) in *.
  apply convert_Ok in Hx as (row & _ & [S1 S2 S3 S4 S5 S6 (S7 & S8 & S9) (r & Hnew & S10 & S11 & S12 & _) _]); [| done..].
  exists (paid_units (num_dec amount)), (paid_units (num_dec q)). pose proof (paid_bounds _ (num_dec_nonneg _ Ha)) as Hout. pose proof (paid_bounds _ (num_dec_nonneg _ Hq)) as Hpay.
  rewrite <- num_dec_col in Hout, Hpay.
  split_and!; try done; try lia; [by apply S2 | by apply S5 | | | by exists row | by intros Ht; apply exact_paid | by intros Ht; apply exact_paid | by apply posted_near].
  - intros c. destruct (posted_cases _ _ _ _ _ S6) as [_ Hnet]. rewrite Hnet by done. unfold line_movement. rewrite !sumZ_cons, sumZ_nil. cbn [n_account n_debit n_credit].
    destruct (String.eqb_spec "equity:treasury" c) as [<- | ?]; [| destruct (String.eqb (liability_code u) c); lia].
    assert (String.eqb (liability_code u) "equity:treasury" = false) as -> by done. lia.
  - unfold spent. rewrite S10. rewrite sumM_insert_new, S11, S12, Z.eqb_refl; [cbn; lia | done].
Qed.

Lemma convert_log newId newSpend u amount q info op now s x s' : convert_tx sha256 wire_conversion newId newSpend u amount q info op now s = Ok (x, s') ->
  exists row, conversions s !! newId = None /\ conversions s' = <[newId := row]> (conversions s) /\ cv_userId row = u /\ cv_azm row = num_to_col amount /\ cv_createdAt row = now.
Proof.
  intros Hr. unfold convert_tx in Hr. apply Mbind_Ok in Hr as (n & s1 & Hcl & Hr). apply on_points_Ok in Hcl as (p1 & _ & ->). destruct (n =? 0)%nat.
  { apply Mbind_Ok in Hr as (o & s1 & Ho & Hr). destruct o; by apply throw_Ok in Hr. }
  apply Mbind_Ok in Hr as (y1 & s2 & Hw & Hr). apply on_points_Ok in Hw as (p2 & _ & ->). apply Mbind_Ok in Hr as (m & s3 & Hp & Hr). apply on_funds_Ok in Hp as (w2 & _ & ->).
  apply Mbind_Ok in Hr as (y2 & s3 & Hk & Hr). apply check_Ok in Hk as [_ ->]. rewrite get_bind in Hr. apply Mbind_Ok in Hr as (y3 & s3 & Hlog & Hr).
  apply conversion_create_Ok in Hlog as [Hnew ->]. apply Mbind_Ok in Hr as (y4 & s4 & Hsp & Hr). apply on_points_Ok in Hsp as (p4 & _ & ->).
  apply Mbind_Ok in Hr as (y5 & s5 & Hpost & Hr). apply on_funds_Ok in Hpost as (w5 & _ & ->). apply Mbind_Ok in Hr as (y6 & s6 & Hh & Hr). apply on_funds_Ok in Hh as (w6 & _ & ->).
  apply on_points_Ok in Hr as (p7 & _ & ->). eexists. split_and!; [exact Hnew | reflexivity | done..].
Qed.

Definition LIMIT_UNITS : Z := 5000 * 10 ^ 8.

(** The quota, a difference of doubles, leaves at most what is left. *)
Lemma quota_units a c : 0 < a <= SAFE_UNITS -> 0 <= c <= SAFE_UNITS -> js_lt (js_max 0 (js_sub DAILY_AZM_LIMIT (Number_of_units c))) (Number_of_units a) = false ->
  js_lt (Number_of_units a) MIN_CONVERT = false -> a + c <= LIMIT_UNITS.
Proof.
  intros Ha Hc Hlt Hmin. assert (Hca : close (1 # 8) (Number_of_units a) a) by (apply close_Number; lia).
  assert (Hq : close (1 # 4) (js_sub DAILY_AZM_LIMIT (Number_of_units c)) (LIMIT_UNITS - c)).
  { apply close_weaken with (0 + (1 # 8) + (1 # 8))%Q; [| lra]. apply close_sub; [by apply close_exact | apply close_Number; lia | lra | unfold LIMIT_UNITS, SAFE_UNITS in *; lia]. }
  unfold js_lt in Hlt, Hmin. apply negb_false_iff, Qle_bool_iff in Hlt, Hmin. unfold js_max in Hlt. destruct (Qle_bool 0 _) eqn:H0'.
  - unfold close in *. apply Qabs_Qle_condition in Hca, Hq. destruct Hca as [Hca _], Hq as [_ Hq].
    assert (Hz : (inject_Z (a + c - LIMIT_UNITS) < 1)%Q) by (unfold Z.sub in *; rewrite !inject_Z_plus, !inject_Z_opp in *; lra).
    change 1%Q with (inject_Z 1) in Hz. rewrite <- Zlt_Qlt in Hz. lia.
  - exfalso. unfold MIN_CONVERT in Hmin. lra.
Qed.

(** The daily limit holds for a conversion that is decided on the current state:
    what a user sold in the last 24 hours, this conversion included, is at most
    5000 points. *)
Theorem quota_kept newId newSpend u a op now s q rate s' : 0 < a <= SAFE_UNITS -> 0 <= converted u now s <= SAFE_UNITS ->
  convertAzmToUsdc sha256 wire_conversion newId newSpend u (Some (Num.Fin (Number_of_units a))) op now s s = (Ok (q, rate), s') ->
  converted u now s' = converted u now s + a /\ converted u now s' <= LIMIT_UNITS.
Proof.
  intros Ha Hc Hr. apply handler_Ok in Hr as (amount & x & [= <-] & Hmin & Hquota & _ & _ & Hx). apply convert_log in Hx as (row & Hn & Hs & Hu & Hrow & Hat).
  assert (He : converted u now s' = converted u now s + a).
  { unfold converted. rewrite Hs, sumM_insert_new by done. unfold recent at 1. rewrite Hu, Z.eqb_refl, Hat, Hrow, num_col_Number by lia.
    assert (now - DAY_MS <=? now = true) as -> by (apply Z.leb_le; assert (0 <= DAY_MS) by done; lia). cbn [andb]. lia. }
  split; [done |]. rewrite He. pose proof (quota_units a (converted u now s) Ha Hc Hquota Hmin). lia.
Qed.
End Theorems.

(** ** The books of the points *)

Section Books.
Context {half : HalfUnits} `{DecimalLib} `{PrismaSend} (sha256 : string -> string) (wire_conversion : Q -> Q -> Q -> Z -> Z -> string).
Context (wire_gift : string * gift_row -> option Z -> string).

(** A call of one of the AZM services, or a conversion on whatever the handler
    read before; the account ages may change. *)
Inductive kstep (s s' : kdb) : Prop :=
| kx_points p : astep wire_gift (points s) p -> s' = with_points p s -> kstep s s'
| kx_ages j : s' = KDB (points s) (conversions s) j -> kstep s s'
| kx_convert newId newSpend u azmAmount op now before r : (forall a, azmAmount = Some (Num.Fin a) -> whole a) ->
    convertAzmToUsdc sha256 wire_conversion newId newSpend u azmAmount op now before s = (r, s') -> kstep s s'.

Lemma convert_kept newId newSpend u azmAmount op now before s r s' : ainv (points s) -> (forall a, azmAmount = Some (Num.Fin a) -> whole a) ->
  convertAzmToUsdc sha256 wire_conversion newId newSpend u azmAmount op now before s = (r, s') -> kept (points s) (points s').
Proof.
  intros Hi Hw Hr. apply calm_kept; [done |]. destruct r as [[q rate] | e].
  - apply handler_Ok in Hr as (amount & x & -> & Hmin & _ & -> & -> & Hx). destruct (sale_nonneg u now before amount Hmin) as [Ha Hq].
    apply convert_Ok in Hx as (row & _ & Hs); [| done..]. apply (so_calm _ _ _ _ _ _ _ _ _ Hs). by apply Hw.
  - assert (s' = s) as ->; [| done]. unfold convertAzmToUsdc in Hr. destruct azmAmount as [[amount | [] |] |]; try (by injection Hr as _ <-).
    destruct (js_lt amount MIN_CONVERT); [by injection Hr as _ <- |]. destruct (js_lt _ amount); [by injection Hr as _ <- |]. destruct (js_lt (pool_balance before) _); [by injection Hr as _ <- |].
    destruct (transaction _ s) as [o s1] eqn:Ht. apply tx_cases in Ht as [(x & -> & _) | (e' & -> & ->)]; [done | by injection Hr as _ <-].
Qed.

Lemma kstep_kept s s' : ainv (points s) -> kstep s s' -> kept (points s) (points s').
Proof.
  intros Hi [p Hp -> | j -> | newId newSpend u azmAmount op now before r Hw Hr]; [by eapply step_kept | by apply calm_kept | by eapply convert_kept].
Qed.

Lemma ksteps_kept s s' : ainv (points s) -> rtc kstep s s' -> kept (points s) (points s').
Proof.
  intros Hi Hr. revert Hi. induction Hr as [s | s1 s2 s3 Hs _ IH]; intros Hi; [by apply calm_kept |].
  destruct (kstep_kept _ _ Hi Hs) as [I1 K1 F1]. destruct (IH I1) as [I2 K2 F2]. split; [done | by etrans..].
Qed.

(** C11: along every run of the AZM services and of conversions to USDC, on any
    amounts and any stale reads, a user's balance moves by the logged rewards
    less the logged spends, and never against the user: it is at most one unit
    higher for each spend row of the user, where the amount was half-way between
    two units, and exact in the runs without such amounts ([slack] is then 0).
    The same holds of what the user holds, staked points included, and the
    sources other than stakes; and the balance is a value of its column, never
    negative.  The order book moves points without a log row and is not a step
    here. *)
Theorem azm_books_kept s s' u (p := points s) (p' := points s') : ainv p -> rtc kstep s s' ->
  0 <= (azm u p' - azm u p) - ((earned every u p' - earned every u p) - (spent every u p' - spent every u p)) <= slack * (entries u p' - entries u p) /\
  0 <= (azm u p' + staked u p' - (azm u p + staked u p)) - ((earned outside u p' - earned outside u p) - (spent outside u p' - spent outside u p)) <= slack * (entries u p' - entries u p) /\
  (forall b, azm_of u p' = Some b -> 0 <= b < DECIMAL_20_8_LIMIT).
Proof.
  intros Hi Hr. destruct (ksteps_kept _ _ Hi Hr) as [[T _ _] [K1 K2 _ _ _] _]. specialize (K1 u). specialize (K2 u). subst p p'. unfold within, logged, holding in *. split_and!; [lia.. | apply T].
Qed.
End Books.

(** ** A concrete run

    A user of 200 days with 12000 points sells 5000 of them, at the holder's
    rate, from a pool of 20000 USDC. *)

#[local] Abbreviation kz_convert := (@convertAzmToUsdc Decimal20 ToFixedColumn ToFixedSend run_sha (fun _ _ _ _ _ => "sold"%string)).

Definition kz_now : Z := 200 * DAY_MS.
Definition kz_open : kdb :=
  KDB (ADB (VDB (set_profitFees 2000000000000 run_open) ∅ ∅ {[ 1 := Profile BAN_ACTIVE false 1200000000000 ]} ∅ ∅) ∅ ∅ ∅ ∅ ∅ ∅ ∅) ∅ {[ 1 := 0 ]}.
Definition kz_sale (id : Z) (sp : string) : kdb -> kdb -> res (Q * Q) * kdb := kz_convert id sp 1 (Some (Num.Fin (Number_of_units 500000000000))) None kz_now.
Definition kz_sold : kdb := (kz_sale 1 "s1" kz_open kz_open).2.

Lemma kz_sold_run : exists q rate, kz_sale 1 "s1" kz_open kz_open = (Ok (q, rate), kz_sold) /\ @num_to_col ToFixedColumn q = 575000000.
Proof. eexists _, _. split; vm_compute; reflexivity. Qed.

Lemma conversion_exact_witness : azm 1 (points kz_sold) = 700000000000 /\ profitFees (wallet_of kz_sold) = 1999425000000.
Proof.
  assert (Hr : exists q rate, kz_sale 1 "s1" kz_open kz_open = (Ok (q, rate), kz_sold) /\ @num_to_col ToFixedColumn q = 575000000 /\ Qeq (@num_dec ToFixedColumn ToFixedSend q) (usdc 575000000) /\ 0 <= Qnum q)
    by (eexists _, _; split_and!; vm_compute; (reflexivity || discriminate)).
  destruct Hr as (q & rate & Hr & Hq & Hd & Hn).
  assert (Hcol : columns_ok (wallet_of kz_open)).
  { intros u row Hu. exact (vi_columns save_open save_open_vinv u row Hu). }
  destruct (@conversion_exact Decimal20 ToFixedColumn ToFixedSend run_sha (fun _ _ _ _ _ => "sold"%string) 1 "s1" 1 (Number_of_units 500000000000) None kz_now kz_open kz_open q rate kz_sold)
    as (_ & out & pay & Hz & _ & Hf & _ & _ & _ & _ & _ & _ & Hout & _ & Hpay & _); [exact Hcol | vm_compute; reflexivity | exact Hr |].
  clear Hr. rewrite (Hz 1), Hf, Hout, Hpay, Hq; [split; vm_compute; reflexivity | by eapply units_no_tie |].
  eapply units_no_tie, (@num_dec_Number ToFixedColumn ToFixedSend). vm_compute. discriminate.
Defined.

(** A charge of 0.001953125 points takes 195312 units and is logged as 195313. *)
Definition kz_charged : adb := (@debitAzm ToFixedColumn ToFixedSend "s0" 1 (1 # 512) "AD_BOOST" None (points kz_open)).2.
#[local] Abbreviation kz_step half := (@kstep half Decimal20 ToFixedColumn ToFixedSend run_sha (fun _ _ _ _ _ => "sold"%string) (fun g _ => g.1)).

Lemma kz_open_ainv : ainv (points kz_open).
Proof.
  split; [| by split | by split]. intros u b Hb. unfold azm_of in Hb. cbn in Hb. rewrite lookup_singleton in Hb. case_decide; [| discriminate Hb]. injection Hb as <-.
  unfold DECIMAL_20_8_LIMIT. lia.
Qed.

Lemma azm_books_kept_witness : spent every 1 (points kz_sold) - spent every 1 (points kz_open) = 500000000000 /\
  0 <= (azm 1 kz_charged - azm 1 (points kz_open)) + (spent every 1 kz_charged - spent every 1 (points kz_open)) <= 1.
Proof.
  split.
  - assert (Hrun : rtc (kz_step false) kz_open kz_sold).
    { apply rtc_once. eapply (@kx_convert false _ _ _ _ _ _ _ _ 1 "s1" 1 (Some (Num.Fin (Number_of_units 500000000000))) None kz_now kz_open); [| apply surjective_pairing].
      intros a [= <-]. apply tie_free_whole, (@exact_Number ToFixedColumn ToFixedSend). unfold SAFE_UNITS. lia. }
    destruct (@azm_books_kept false Decimal20 ToFixedColumn ToFixedSend run_sha (fun _ _ _ _ _ => "sold"%string) (fun g _ => g.1) kz_open kz_sold 1 kz_open_ainv Hrun) as (Hb & _ & _). clear Hrun.
    assert (He : earned every 1 (points kz_sold) - earned every 1 (points kz_open) = 0) by (vm_compute; reflexivity).
    assert (Hz : azm 1 (points kz_sold) - azm 1 (points kz_open) = -500000000000) by (vm_compute; reflexivity). rewrite He, Hz in Hb. change (@slack false) with 0 in Hb. lia.
  - assert (Hrun : rtc (kz_step true) kz_open (with_points kz_charged kz_open)).
    { apply rtc_once. eapply (@kx_points true); [| reflexivity]. eapply (@ax_debit true _ _ _ _ _ _ "s0" 1 (1 # 512) "AD_BOOST" None); [done | done | apply surjective_pairing]. }
    destruct (@azm_books_kept true Decimal20 ToFixedColumn ToFixedSend run_sha (fun _ _ _ _ _ => "sold"%string) (fun g _ => g.1) _ _ 1 kz_open_ainv Hrun) as (Hb & _ & _). clear Hrun.
    change (points (with_points kz_charged kz_open)) with kz_charged in Hb.
    assert (He : earned every 1 kz_charged - earned every 1 (points kz_open) = 0) by (vm_compute; reflexivity).
    assert (Hn : entries 1 kz_charged - entries 1 (points kz_open) = 1) by (vm_compute; reflexivity). rewrite He, Hn in Hb. change (@slack true) with 1 in Hb. lia.
Defined.
Example kz_half_unit : (azm 1 kz_charged - azm 1 (points kz_open), spent every 1 kz_charged) = (-195312, 195313).
Proof. vm_compute. reflexivity. Qed.

Lemma quota_kept_witness : converted 1 kz_now kz_sold <= LIMIT_UNITS.
Proof.
  destruct kz_sold_run as (q & rate & Hr & _). assert (Hc : converted 1 kz_now kz_open = 0) by (vm_compute; reflexivity).
  refine (proj2 (@quota_kept Decimal20 ToFixedColumn ToFixedSend run_sha (fun _ _ _ _ _ => "sold"%string) 1 "s1" 1 500000000000 None kz_now kz_open q rate kz_sold _ _ Hr)); [unfold SAFE_UNITS; lia |].
  rewrite Hc. unfold SAFE_UNITS. lia.
Defined.

(** Two conversions that read the quota before either commits sell 10000 points
    in a day. *)
Example quota_race : converted 1 kz_now (kz_sale 2 "s2" kz_open kz_sold).2 = 2 * LIMIT_UNITS.
Proof. vm_compute. reflexivity. Qed.

(** ** Half units

    The product of an amount and the rate can end in half a unit.  10.0001
    points at the holder's rate are the double that prints as 0.011500115: the
    column rounds this decimal up, and the posting formats the double, which is
    below it. *)

Definition tie_product : Q := js_mul (Number_of_units 1000010000) (round6 (fl (115 # 100000))).
Definition tie_dec (x : Q) : Q :=
  let d := usdc (toFixedZ 8 x) in
  if Qle_bool (Qabs (x - d)) (Qabs d * (1 # 9007199254740992)) then d else if Qeq_bool x tie_product then (11500115 # 1000000000) else x.

Lemma tie_dec_units u q : Z.abs u <= SAFE_UNITS -> Qeq q (usdc u) -> tie_dec (fl q) = usdc u.
Proof.
  intros Hu Hq. unfold tie_dec. change (toFixedZ 8 (fl q)) with (@num_to_col ToFixedColumn (fl q)). rewrite (@num_to_col_units ToFixedColumn u q Hu Hq).
  destruct (Qle_bool _ _) eqn:Hle; [done |]. exfalso. apply not_true_iff_false in Hle. apply Hle, Qle_bool_iff. rewrite <- Hq. apply fl_error'.
Qed.

Lemma tie_dec_nonneg x : 0 <= Qnum x -> 0 <= Qnum (tie_dec x).
Proof. intros Hx. unfold tie_dec. destruct (Qle_bool _ _); [apply usdc_num; by apply fixed8_nonneg |]. by destruct (Qeq_bool x tie_product). Qed.

Definition TieColumn : PrismaNumber.
Proof.
  refine {| num_to_col := fun x => toFixedZ 8 (tie_dec x) |}.
  - intros u q Hu Hq. rewrite (tie_dec_units u q Hu Hq). apply fixed8_usdc.
  - intros x Hx. apply toFixedZ_nonneg; [done |]. by apply tie_dec_nonneg.
Defined.

Definition TieSend : @PrismaSend TieColumn.
Proof.
  refine (@Build_PrismaSend TieColumn tie_dec _ _ _ _).
  - intros u q Hu Hq. rewrite (tie_dec_units u q Hu Hq). by symmetry.
  - done.
  - exact tie_dec_nonneg.
  - intros x. unfold tie_dec. destruct (Qle_bool _ _) eqn:Hle; [by apply Qle_bool_iff |]. destruct (Qeq_bool x tie_product) eqn:He.
    + apply Qeq_bool_iff in He. rewrite He. vm_compute. discriminate.
    + assert (Hx : (x - x == 0)%Q) by ring. rewrite Hx. pose proof (Qabs_nonneg x). change (Qabs 0) with 0%Q. lra.
Defined.

Lemma tie_product_decimal : Qeq (fl (11500115 # 1000000000)) tie_product.
Proof. vm_compute. reflexivity. Qed.

(** The user gets 1150012 units, the pool pays and the ledger books 1150011. *)
Example half_unit_conversion_diverges :
  let s := (@convertAzmToUsdc Decimal20 TieColumn TieSend run_sha (fun _ _ _ _ _ => "sold"%string) 1 "s1" 1 (Some (Num.Fin (Number_of_units 1000010000))) None kz_now kz_open kz_open).2 in
  (avail 1 (wallet_of s) - avail 1 (wallet_of kz_open), profitFees (wallet_of kz_open) - profitFees (wallet_of s), net "equity:treasury" (ledger (wallet_of s))) = (1150012, 1150011, 1150011).
Proof. vm_compute. reflexivity. Qed.
