(* ===== verification/OrderBook.v ===== *)
(** * The AZM order book (controllers/orderBookController.js)

    Users trade AZM points for USDC with limit and market orders.  State
    ([odb]): orders and trades beside the AZM database.  A SELL takes its points
    from the balance when it is placed, a BUY takes its price in USDC, which the
    ledger holds on a clearing account; a match pays both sides and the fees, a
    cancellation returns what is left.

    A placement is one transaction.  The balances it looks at first, the best
    ask it quotes and the resting orders it finds may each come from an earlier
    database ([before], [quoted], [seen]); what it changes it claims with a
    condition.  Quantities and prices are doubles between columns of 1e-8
    units. *)

From stdpp Require Import base gmap strings list.
From Stdlib Require Import ZArith QArith Lia.
From S2P Require Import Prelude JsNumber ExactDecimal Json Ledger Idempotency Escrow EscrowProps Vault Azm.

Local Open Scope Z_scope.

Inductive order_side : Type := BUY | SELL.
Inductive order_type : Type := LIMIT | MARKET.
Inductive order_status : Type := O_OPEN | O_PARTIALLY_FILLED | O_FILLED | O_CANCELLED.

#[export] Instance order_side_eq_dec : EqDecision order_side.
Proof. solve_decision. Defined.
#[export] Instance order_type_eq_dec : EqDecision order_type.
Proof. solve_decision. Defined.
#[export] Instance order_status_eq_dec : EqDecision order_status.
Proof. solve_decision. Defined.

Record order_row : Type := OrderRow {
  or_userId : Z;
  or_side : order_side;
  or_type : order_type;
  or_price : option Z;
  or_quantity : Z;
  or_remaining : Z;
  or_status : order_status;
  or_createdAt : Z;
}.
Record trade_row : Type := TradeRow {
  tr_maker : string; tr_taker : string; tr_price : Z; tr_quantity : Z; tr_makerFee : Z; tr_takerFee : Z; tr_makerUser : Z; tr_takerUser : Z }.

Record odb : Type := ODB { account : adb; orders : gmap string order_row; trades : gmap string trade_row }.

Definition set_orders (x : gmap string order_row) (s : odb) : odb := ODB (account s) x (trades s).
Definition with_left (rem : Z) (st : order_status) (o : order_row) : order_row :=
  OrderRow (or_userId o) (or_side o) (or_type o) (or_price o) (or_quantity o) rem st (or_createdAt o).

Definition MAKER_FEE : Q := fl (2 # 1000).
Definition TAKER_FEE : Q := fl (5 # 1000).
Definition MIN_ORDER_SIZE : Q := 1.
Definition RESTING_STATUSES : list order_status := [O_OPEN; O_PARTIALLY_FILLED].
Definition resting (o : order_row) : bool := existsb (fun x => bool_decide (or_status o = x)) RESTING_STATUSES.

(** ** Statements *)

Definition on_account {A} (m : M adb A) : M odb A :=
  fun s => match m (account s) with Ok (a, p) => Ok (a, ODB p (orders s) (trades s)) | Err e => Err e end.
Definition on_cash {A} (m : M vdb A) : M odb A := on_account (on_sav m).
Definition cash_of (s : odb) : edb := bank (sav (account s)).

(** Columns: Decimal(18,8) for prices, Decimal(20,8) for quantities. *)
Definition price_ok (p : Z) : bool := Z.abs p <? 10 ^ 18.
Definition order_create (id : string) (o : order_row) : M odb unit :=
  s ← get;
  check (match azm_of (or_userId o) (account s) with Some _ => true | None => false end) "P2003";;
  check (match orders s !! id with None => true | Some _ => false end) "P2002";;
  check (match or_price o with Some p => price_ok p | None => true end && numeric_ok (or_quantity o)) "NUMERIC_OVERFLOW";;
  put (set_orders (<[id := o]> (orders s)) s).
Definition order_update (id : string) (f : order_row -> order_row) : M odb unit :=
  s ← get;
  match orders s !! id with
  | None => throw "P2025"
  | Some o => check (numeric_ok (or_remaining (f o))) "NUMERIC_OVERFLOW";; put (set_orders (<[id := f o]> (orders s)) s)
  end.
Definition trade_create (id : string) (t : trade_row) : M odb unit :=
  s ← get;
  check (match trades s !! id with None => true | Some _ => false end) "P2002";;
  check (price_ok (tr_price t) && numeric_ok (tr_quantity t) && numeric_ok (tr_makerFee t) && numeric_ok (tr_takerFee t)) "NUMERIC_OVERFLOW";;
  put (ODB (account s) (orders s) (<[id := t]> (trades s))).

Definition reserve_key (orderId : string) : string := ("ledger:orderbook:reserve:" +:+ orderId)%string.
Definition match_key (tradeId : string) : string := ("ledger:orderbook:match:" +:+ tradeId)%string.
Definition improvement_key (tradeId : string) : string := ("ledger:orderbook:improvement:" +:+ tradeId)%string.
Definition place_refund_key (orderId : string) : string := ("ledger:orderbook:place-refund:" +:+ orderId)%string.
Definition cancel_order_key (orderId : string) : string := ("ledger:orderbook:cancel:" +:+ orderId)%string.
Definition BOOK_CLEARING : string := "clearing:orderbook:usdc".

(** ** The book *)

Definition opposite (x : order_side) : order_side := match x with BUY => SELL | SELL => BUY end.
Definition price_of (o : order_row) : Z := default 0 (or_price o).

(** The order of the book: the better price, then the earlier. *)
Definition ask_leb (p q : string * order_row) : bool :=
  (price_of p.2 <? price_of q.2) || (price_of p.2 =? price_of q.2) && (or_createdAt p.2 <=? or_createdAt q.2).
Definition bid_order_leb (p q : string * order_row) : bool :=
  (price_of q.2 <? price_of p.2) || (price_of q.2 =? price_of p.2) && (or_createdAt p.2 <=? or_createdAt q.2).
Definition on_book (x : order_side) (o : order_row) : bool :=
  bool_decide (or_side o = x) && resting o && bool_decide (or_type o = LIMIT) && (0 <? or_remaining o).
(** The best ask; an order of the asking user counts too. *)
Definition getBestAskPrice (s : odb) : option Q :=
  match js_sort ask_leb (List.filter (fun p => on_book SELL p.2) (map_to_list (orders s))) with [] => None | p :: _ => Some (Number_of_units (price_of p.2)) end.

Section Engine.
Context `{DecimalLib} `{PrismaSend} (sha256 : string -> string).
(** The text of the committed response. *)
Context (wire_placed : string -> order_row -> string).

Definition book_posting (key : string) (uid : Z) (entity id : string) (ls : list line_in) : post_params :=
  vault_posting key "TRADE" "Order book" uid entity id ls.
Definition book_post (p : post_params) : M odb unit := on_cash (on_bank (post_ledger sha256 p));; mret tt.

(** [increment] of one of the two balances of a user. *)
Definition azm_increment (userId : Z) (q : Q) : M odb unit :=
  on_account (
    s ← get;
    b ← lift (of_option (azm_of userId s) "P2025");
    azm_put userId (col_add b (num_dec q))).
Definition usdc_increment (userId : Z) (q : Q) : M odb unit := on_cash (balance_update userId (num_dec q)).
Definition fees_increment (q : Q) : M odb unit :=
  on_cash (on_bank (
    s ← get;
    check (column_ok (col_add (profitFees s) (num_dec q))) "CHECK_VIOLATION";;
    put (set_profitFees (col_add (profitFees s) (num_dec q)) s))).

(** A single-winner decrement of a resting order. *)
Definition claimCandidateQuantity (id : string) (matchQty : Q) : M odb nat :=
  s ← get;
  match orders s !! id with
  | Some o =>
      if resting o && Qle_bool (num_dec matchQty) (usdc (or_remaining o)) then
        put (set_orders (<[id := with_left (col_add (or_remaining o) (- num_dec matchQty)) (or_status o) o]> (orders s)) s);; mret 1%nat
      else mret 0%nat
  | None => mret 0%nat
  end.

(** The claim of a candidate that was read before, with one retry on the row as
    it is now; the quantity that was claimed. *)
Definition claim_match (remainingQty : Q) (id : string) (candidate : order_row) : M odb (option Q) :=
  let matchQty := js_min remainingQty (Number_of_units (or_remaining candidate)) in
  count ← claimCandidateQuantity id matchQty;
  if (count =? 1)%nat then mret (Some matchQty) else
  fresh ← reads (fun s => orders s !! id);
  match fresh with
  | Some o =>
      if negb (resting o) || (or_remaining o <=? 0) then mret None else
      let matchQty := js_min remainingQty (Number_of_units (or_remaining o)) in
      count ← claimCandidateQuantity id matchQty;
      mret (if (count =? 1)%nat then Some matchQty else None)
  | None => mret None
  end.

(** The unit price that the reserve of a BUY covers. *)
Definition reserved_unit_price (order : order_row) (reserveUsdc : option Q) : option Q :=
  match or_side order, reserveUsdc with
  | BUY, Some r => if Qle_bool r 0 then None else Some (js_div r (Number_of_units (or_quantity order)))
  | _, _ => None
  end.

Definition price_matches (order : order_row) (rup : option Q) (c : order_row) : bool :=
  match or_price c with
  | None => false
  | Some p =>
      match or_type order with
      | MARKET => match or_side order, rup with BUY, Some r => Qle_bool (usdc p) (num_dec r) | _, _ => true end
      | LIMIT => match or_side order with BUY => p <=? price_of order | SELL => price_of order <=? p end
      end
  end.

(** The candidates in price-time order. *)
Definition match_candidates (order : order_row) (rup : option Q) (seen : odb) : list (string * order_row) :=
  js_sort (match or_side order with BUY => ask_leb | SELL => bid_order_leb end)
    (List.filter (fun p => on_book (opposite (or_side order)) p.2 && price_matches order rup p.2 && negb (or_userId p.2 =? or_userId order)) (map_to_list (orders seen))).

(** One trade of [matchQty] against the candidate. *)
Definition settle_match (orderId : string) (order : order_row) (rup : option Q) (tradeId id : string) (candidate : order_row) (matchQty : Q) : M odb unit :=
  let matchPrice := Number_of_units (price_of candidate) in
  let gross := js_mul matchQty matchPrice in
  let makerFee := js_mul gross MAKER_FEE in
  let takerFee := js_mul gross TAKER_FEE in
  let totalFees := js_add makerFee takerFee in
  let usdcToRecipient := js_sub gross totalFees in
  trade_create tradeId (TradeRow id orderId (num_to_col matchPrice) (num_to_col matchQty) (num_to_col makerFee) (num_to_col takerFee) (or_userId candidate) (or_userId order));;
  match or_side order with
  | BUY => azm_increment (or_userId order) matchQty;; usdc_increment (or_userId candidate) usdcToRecipient
  | SELL => usdc_increment (or_userId order) usdcToRecipient;; azm_increment (or_userId candidate) matchQty
  end;;
  fees_increment totalFees;;
  let recipient := match or_side order with BUY => or_userId candidate | SELL => or_userId order end in
  book_post (book_posting (match_key tradeId) (or_userId order) "orderBookTrade" tradeId
    [debit_line BOOK_CLEARING (exact_num gross); credit_line (liability_code recipient) (exact_num usdcToRecipient); credit_line "equity:treasury" (exact_num totalFees)]);;
  match or_side order, rup with
  | BUY, Some r =>
      if negb (js_lt matchPrice r) then mret tt else
      let improvement := js_mul (js_sub r matchPrice) matchQty in
      if Qle_bool improvement 0 then mret tt else
      usdc_increment (or_userId order) improvement;;
      book_post (book_posting (improvement_key tradeId) (or_userId order) "orderBookTrade" tradeId
        [debit_line BOOK_CLEARING (exact_num improvement); credit_line (liability_code (or_userId order)) (exact_num improvement)])
  | _, _ => mret tt
  end;;
  after ← reads (fun s => orders s !! id);
  left ← lift (of_option (or_remaining <$> after) "TypeError");
  order_update id (fun o => with_left (or_remaining o) (if left <=? 0 then O_FILLED else O_PARTIALLY_FILLED) o).

(** The quantity that is left: the order's own column until the first trade, a
    double from then on. *)
Definition left_qty (order : order_row) (left : option Q) : Q := default (Number_of_units (or_remaining order)) left.
Fixpoint match_all (newTrade : string -> string) (orderId : string) (order : order_row) (rup : option Q) (l : list (string * order_row)) (left : option Q) : M odb (option Q) :=
  match l with
  | [] => mret left
  | (id, candidate) :: l' =>
      if Qle_bool (left_qty order left) 0 then mret left else
      claimed ← claim_match (left_qty order left) id candidate;
      match claimed with
      | None => match_all newTrade orderId order rup l' left
      | Some matchQty =>
          settle_match orderId order rup (newTrade id) id candidate matchQty;;
          match_all newTrade orderId order rup l' (Some (js_sub (left_qty order left) matchQty))
      end
  end.

Definition matchOrder (newTrade : string -> string) (orderId : string) (order : order_row) (reserveUsdc : option Q) (seen : odb) : M odb unit :=
  let rup := reserved_unit_price order reserveUsdc in
  left ← match_all newTrade orderId order rup (match_candidates order rup seen) None;
  let remainingQty := left_qty order left in
  let filledQty := js_sub (Number_of_units (or_remaining order)) remainingQty in
  let newStatus := if Qle_bool remainingQty 0 then O_FILLED else if js_lt 0 filledQty then O_PARTIALLY_FILLED else O_OPEN in
  order_update orderId (with_left (match left with Some q => num_to_col q | None => or_remaining order end) newStatus);;
  match or_type order, or_side order, rup with
  | MARKET, BUY, Some r =>
      if Qle_bool remainingQty 0 then mret tt else
      let refundAmount := js_mul remainingQty r in
      if Qle_bool refundAmount 0 then mret tt else
      usdc_increment (or_userId order) refundAmount;;
      book_post (book_posting (place_refund_key orderId) (or_userId order) "orderBookOrder" orderId
        [debit_line BOOK_CLEARING (exact_num refundAmount); credit_line (liability_code (or_userId order)) (exact_num refundAmount)])
  | _, _, _ => mret tt
  end.

(** ** Placement *)

(** [qty * bestAsk], where no ask counts as zero. *)
Definition buy_reserve (type : order_type) (qty : Q) (price : option Q) (s : odb) : Q :=
  match type with
  | MARKET => match getBestAskPrice s with Some p => js_mul qty p | None => 0%Q end
  | LIMIT => js_mul qty (default 0%Q price)
  end.

Definition reserve_funds (userId : Z) (side : order_side) (type : order_type) (price : option Q) (qty : Q) (quoted : odb) : M odb (option Q) :=
  match side with
  | SELL =>
      count ← on_account (azm_claim userId qty);
      check (count =? 1)%nat "Insufficient AZM balance.";;
      mret None
  | BUY =>
      let r := buy_reserve type qty price quoted in
      if Qle_bool r 0 then mret (Some 0%Q) else
      count ← on_cash (balance_updateMany userId (fun u _ => Qle_bool (num_dec r) (usdc (availableBalance u))) (- num_dec r));
      check (count =? 1)%nat "Insufficient USDC balance.";;
      mret (Some r)
  end.

Definition place_tx (orderId : string) (newTrade : string -> string) (userId : Z) (side : order_side) (type : order_type) (price : option Q) (qty : Q)
    (op : option nat) (now : Z) (quoted seen : odb) : M odb unit :=
  reserveUsdc ← reserve_funds userId side type price qty quoted;
  let order := OrderRow userId side type (num_to_col <$> price) (num_to_col qty) (num_to_col qty) O_OPEN now in
  order_create orderId order;;
  match side, reserveUsdc with
  | BUY, Some r =>
      if Qle_bool r 0 then mret tt else
      book_post (book_posting (reserve_key orderId) userId "orderBookOrder" orderId
        [debit_line (liability_code userId) (exact_num r); credit_line BOOK_CLEARING (exact_num r)])
  | _, _ => mret tt
  end;;
  matchOrder newTrade orderId order reserveUsdc seen;;
  on_cash (commit_claim_tx op (wire_placed orderId order)).

(** The tests before the transaction.  The request has its side and its type,
    [None] for another word, and its numbers after [parseFloat]; a number that is
    not finite is refused by a balance test or by the database client. *)
Definition check_placement (userId : Z) (side : option order_side) (type : option order_type) (price quantity : option Num.num) (before : odb) :
    res (order_side * order_type * Q * option Q) :=
  side ← of_option side "Side must be BUY or SELL.";
  type ← of_option type "Type must be LIMIT or MARKET.";
  qty ← of_option quantity "Minimum order size";
  qty ← match qty with Num.Fin q => if js_lt q MIN_ORDER_SIZE then Err "Minimum order size" else Ok q | Num.Inf true => Err "Minimum order size" | _ => Err "Failed to place order." end;
  orderPrice ← match type with
    | MARKET => Ok None
    | LIMIT => match price with
        | Some (Num.Fin p) => if Qle_bool p 0 then Err "Limit orders require a positive price." else Ok (Some p)
        | Some (Num.Inf false) => Err "Failed to place order."
        | _ => Err "Limit orders require a positive price."
        end
    end;
  azm ← of_option (azm_of userId (account before)) "User not found.";
  match side with
  | SELL => throw_if (js_lt (Number_of_units azm) qty) "Insufficient AZM balance."
  | BUY => throw_if (js_lt (Number_of_units (avail userId (cash_of before))) (buy_reserve type qty orderPrice before)) "Insufficient USDC balance."
  end;;
  mret (side, type, qty, orderPrice).

(** The handler. *)
Definition placeOrder (orderId : string) (newTrade : string -> string) (userId : Z) (side : option order_side) (type : option order_type) (price quantity : option Num.num)
    (op : option nat) (now : Z) (before quoted seen s : odb) : res unit * odb :=
  match check_placement userId side type price quantity before with
  | Err e => (Err e, s)
  | Ok (side, type, qty, orderPrice) => transaction (place_tx orderId newTrade userId side type orderPrice qty op now quoted seen) s
  end.

(** ** Cancellation *)

Definition cancel_order_tx (orderId : string) (userId : Z) (side : order_side) : M odb unit :=
  s ← get;
  match orders s !! orderId with
  | None => throw "ORDER_ALREADY_FINALIZED"
  | Some o =>
      check (resting o) "ORDER_ALREADY_FINALIZED";;
      put (set_orders (<[orderId := with_left 0 O_CANCELLED o]> (orders s)) s);;
      if or_remaining o <=? 0 then mret tt else
      let remaining := Number_of_units (or_remaining o) in
      match side with
      | SELL => azm_increment userId remaining
      | BUY =>
          p ← lift (of_option (or_price o) "TypeError");
          let refundUsdc := js_mul remaining (Number_of_units p) in
          usdc_increment userId refundUsdc;;
          book_post (book_posting (cancel_order_key orderId) userId "orderBookOrder" orderId
            [debit_line BOOK_CLEARING (exact_num refundUsdc); credit_line (liability_code userId) (exact_num refundUsdc)])
      end
  end.

Definition cancelOrder (orderId : string) (userId : Z) (before s : odb) : res unit * odb :=
  match
    (order ← of_option (orders before !! orderId) "Order not found.";
     throw_if (negb (or_userId order =? userId)) "Not your order.";;
     throw_if (bool_decide (or_status order = O_FILLED) || bool_decide (or_status order = O_CANCELLED)) "Order cannot be cancelled.";;
     mret order)
  with
  | Err e => (Err e, s)
  | Ok order => transaction (cancel_order_tx orderId userId (or_side order)) s
  end.
End Engine.
