(* ===== verification/OrderBookTheorems.v ===== *)
(** * The AZM order book: theorems

    An order keeps its terms, only shrinks and is final when it is filled or
    cancelled; what a cancellation pays when the price was rounded up; and what
    the quote of a market order and a missing price make of it. *)

From stdpp Require Import base gmap strings list relations.
From Stdlib Require Import ZArith QArith Qabs Lia Lqa.
From S2P Require Import Prelude JsNumber ExactDecimal Json Ledger LedgerFacts LedgerProps Idempotency Escrow EscrowFacts EscrowProps EscrowTheorems WalletProps Vault VaultProps VaultTheorems Azm AzmProps Auction AuctionProps AzmTheorems OrderBook.

Local Open Scope Z_scope.

(** ** What leaves the book alone *)

Definition off_book {A} (m : M odb A) : Prop := forall s x s', m s = Ok (x, s') -> orders s' = orders s.

Create HintDb book.

Lemma off_ret {A} (a : A) : off_book (mret a).
Proof. intros s x s' Hr. by apply Mret_Ok in Hr as [_ ->]. Qed.
Lemma off_bind {A B} (m : M odb A) (f : A -> M odb B) : off_book m -> (forall a, off_book (f a)) -> off_book (m ≫= f).
Proof. intros Hm Hf s x s' Hr. apply Mbind_Ok in Hr as (y & s1 & H1 & H2). rewrite (Hf _ _ _ _ H2). by eapply Hm. Qed.
Lemma off_account {A} (m : M adb A) : off_book (on_account m).
Proof. intros s x s'. unfold on_account. destruct (m (account s)) as [[y p] |]; [| done]. by intros [= _ <-]. Qed.
Lemma off_cash {A} (m : M vdb A) : off_book (on_cash m).
Proof. apply off_account. Qed.
Lemma off_check b e : off_book (check b e).
Proof. intros s x s' Hr. by apply check_Ok in Hr as [_ ->]. Qed.
Lemma off_lift {A} (r : res A) : off_book (lift r).
Proof. intros s x s' Hr. by apply lift_Ok in Hr as [_ ->]. Qed.
Lemma off_trade id t : off_book (trade_create id t).
Proof.
  intros s x s' Hr. unfold trade_create in Hr. rewrite get_bind in Hr. apply Mbind_Ok in Hr as (y & s1 & Hc & Hr). apply check_Ok in Hc as [_ ->].
  apply Mbind_Ok in Hr as (y1 & s1 & Hc & Hr). apply check_Ok in Hc as [_ ->]. by apply put_Ok in Hr as ->.
Qed.
#[export] Hint Resolve off_ret off_bind off_account off_cash off_check off_lift off_trade : book.

(** ** Rows *)

Definition same_terms (o o' : order_row) : Prop :=
  or_userId o' = or_userId o /\ or_side o' = or_side o /\ or_type o' = or_type o /\ or_price o' = or_price o /\ or_quantity o' = or_quantity o /\ or_createdAt o' = or_createdAt o.

(** How the row of an order may change. *)
Record order_step (o o' : order_row) : Prop := {
  os_terms : same_terms o o';
  os_final : resting o = false -> o' = o;
  os_shrinks : 0 <= or_remaining o -> 0 <= or_remaining o' <= or_remaining o;
}.
#[export] Instance order_step_preorder : PreOrder order_step.
Proof.
  split; [intros o; by repeat split |]. intros o1 o2 o3 [A1 A2 A3] [B1 B2 B3]. split; [unfold same_terms in *; intuition congruence | | lia].
  intros Hr. rewrite B2; [auto |]. by rewrite A2.
Qed.

(** Of every row but one: it is there when it was, and has changed as a row
    may. *)
Definition frozen (skip : string) (s s' : odb) : Prop := forall id, id <> skip -> option_Forall2 order_step (orders s !! id) (orders s' !! id).
#[export] Instance frozen_preorder skip : PreOrder (frozen skip).
Proof. split; [intros s id _; reflexivity |]. intros s1 s2 s3 A B id Hid. etrans; [by apply A | by apply B]. Qed.

Lemma off_frozen skip s s' : orders s' = orders s -> frozen skip s s'.
Proof. intros He id _. by rewrite He. Qed.

Lemma write_frozen skip s id o' : (id <> skip -> exists o, orders s !! id = Some o /\ order_step o o') -> frozen skip s (set_orders (<[id := o']> (orders s)) s).
Proof.
  intros Hw i Hi. cbn. rewrite lookup_insert. case_decide; [| done]. subst. destruct (Hw Hi) as (o & -> & Hs). by constructor.
Qed.

Lemma order_update_Ok id f s x s' : order_update id f s = Ok (x, s') -> exists o, orders s !! id = Some o /\ s' = set_orders (<[id := f o]> (orders s)) s.
Proof.
  intros Hr. unfold order_update in Hr. rewrite get_bind in Hr. destruct (orders s !! id) as [o |]; [| by apply throw_Ok in Hr].
  apply Mbind_Ok in Hr as (y & s1 & Hc & Hr). apply check_Ok in Hc as [_ ->]. apply put_Ok in Hr as ->. by exists o.
Qed.

Lemma left_step rem st o : resting o = true -> (0 <= or_remaining o -> 0 <= rem <= or_remaining o) -> order_step o (with_left rem st o).
Proof. intros Hr Hle. split; [by repeat split | congruence | done]. Qed.

Lemma Number_pos u : 0 <= u -> 0 <= Qnum (Number_of_units u).
Proof. intros Hu. unfold Number_of_units, parseDec. by apply fl_nonneg. Qed.

Section Book.
Context `{DecimalLib} `{PrismaSend} (sha256 : string -> string) (wire_placed : string -> order_row -> string).

Lemma col_sub_range u q : 0 <= Qnum q -> Qle_bool (num_dec q) (usdc u) = true -> 0 <= col_add u (- num_dec q) <= u.
Proof.
  intros Hq Hle. pose proof (num_dec_nonneg q Hq) as Hn. split.
  - apply Qle_bool_iff in Hle. apply fixed8_nonneg. unfold Qle, usdc in *. cbn [Qnum Qden Qplus Qopp] in *. rewrite Z.mul_opp_l. lia.
  - rewrite col_add_debit by done. unfold paid_units. assert (rhu (- (Qnum (num_dec q) * 10 ^ 8)) (QDen (num_dec q)) <= 0); [| lia].
    assert (rhu (- (Qnum (num_dec q) * 10 ^ 8)) (QDen (num_dec q)) < 1); [| lia]. unfold rhu. apply Z.div_lt_upper_bound; lia.
Qed.

(** ** Claims *)

Lemma order_claim_Ok skip id q s n s' : 0 <= Qnum q -> claimCandidateQuantity id q s = Ok (n, s') ->
  n = 0%nat /\ s' = s \/ n = 1%nat /\ frozen skip s s' /\ exists o, orders s' !! id = Some o /\ resting o = true.
Proof.
  intros Hq Hr. unfold claimCandidateQuantity in Hr. rewrite get_bind in Hr. destruct (orders s !! id) as [o |] eqn:Ho; [| apply Mret_Ok in Hr as [-> ->]; by left].
  destruct (resting o && _) eqn:Hc; [| apply Mret_Ok in Hr as [-> ->]; by left]. right. apply andb_true_iff in Hc as [Hres Hle].
  apply Mbind_Ok in Hr as (y & s1 & Hp & Hr). apply put_Ok in Hp as ->. apply Mret_Ok in Hr as [-> ->]. pose proof (col_sub_range _ _ Hq Hle). split_and!; [done | |].
  - apply write_frozen. intros _. exists o. split; [done |]. apply left_step; [done | lia].
  - eexists. cbn. rewrite lookup_insert_eq. split; [done |]. exact Hres.
Qed.

Lemma js_min_nonneg x y : 0 <= Qnum x -> 0 <= Qnum y -> 0 <= Qnum (js_min x y).
Proof. intros Hx Hy. unfold js_min. by destruct (Qle_bool x y). Qed.

Lemma js_min_l x y : (js_min x y <= x)%Q.
Proof. unfold js_min. destruct (Qle_bool x y) eqn:Hxy; [apply Qle_refl |]. apply not_true_iff_false in Hxy. rewrite Qle_bool_iff in Hxy. by apply Qlt_le_weak, Qnot_le_lt. Qed.

Lemma claim_match_Ok skip r id c s o s' : 0 <= Qnum r -> 0 <= or_remaining c -> claim_match r id c s = Ok (o, s') ->
  frozen skip s s' /\ match o with Some q => (q <= r)%Q /\ exists row, orders s' !! id = Some row /\ resting row = true | None => True end.
Proof.
  intros Hq Hc Hr. unfold claim_match in Hr. apply Mbind_Ok in Hr as (n & s1 & Hcl & Hr).
  apply (order_claim_Ok skip) in Hcl as [[-> ->] | (-> & Hf & Hrow)]; [| | apply js_min_nonneg; [done | by apply Number_pos]].
  - cbn [Nat.eqb] in Hr. apply Mbind_Ok in Hr as (fr & s1 & Hx & Hr). apply reads_Ok in Hx as [-> ->]. destruct (orders s !! id) as [row |] eqn:Hrow; [| apply Mret_Ok in Hr as [-> ->]; done].
    destruct (negb (resting row) || _) eqn:Hg; [apply Mret_Ok in Hr as [-> ->]; done |]. apply orb_false_iff in Hg as [_ Hg]. apply Z.leb_gt in Hg.
    apply Mbind_Ok in Hr as (n & s1 & Hcl & Hr). apply Mret_Ok in Hr as [-> ->].
    apply (order_claim_Ok skip) in Hcl as [[-> ->] | (-> & Hf & Hrow')]; [done | | apply js_min_nonneg; [done | apply Number_pos; lia]]. split; [done |]. split; [apply js_min_l | done].
  - cbn [Nat.eqb] in Hr. apply Mret_Ok in Hr as [-> ->]. split; [done |]. split; [apply js_min_l | done].
Qed.

(** ** Trades *)

Lemma off_azm u q : off_book (azm_increment u q).
Proof. apply off_account. Qed.
Lemma off_usdc u q : off_book (usdc_increment u q).
Proof. apply off_cash. Qed.
Lemma off_fees q : off_book (fees_increment q).
Proof. apply off_cash. Qed.
Lemma off_post p : off_book (book_post sha256 p).
Proof. apply off_bind; [apply off_cash | intros; apply off_ret]. Qed.
Hint Resolve off_azm off_usdc off_fees off_post : book.

Lemma off_then {A B} (m : M odb A) (f : A -> M odb B) s x s' : off_book m -> (m ≫= f) s = Ok (x, s') -> exists y s1, orders s1 = orders s /\ f y s1 = Ok (x, s').
Proof. intros Hm Hr. apply Mbind_Ok in Hr as (y & s1 & Hy & Hr). exists y, s1. split; [by eapply Hm | done]. Qed.

Ltac off_case := repeat first [case_match | progress (eauto with book)].

Lemma settle_frozen skip oid o rup tid id c q s x s' : (exists row, orders s !! id = Some row /\ resting row = true) ->
  settle_match sha256 oid o rup tid id c q s = Ok (x, s') -> frozen skip s s'.
Proof.
  intros (row & Hrow & Hres) Hr. unfold settle_match in Hr.
  apply off_then in Hr as (? & s1 & E1 & Hr); [| apply off_trade]. apply off_then in Hr as (? & s2 & E2 & Hr); [| off_case].
  apply off_then in Hr as (? & s3 & E3 & Hr); [| off_case]. apply off_then in Hr as (? & s4 & E4 & Hr); [| off_case].
  apply off_then in Hr as (? & s5 & E5 & Hr); [| off_case]. assert (E : orders s5 = orders s) by congruence. clear - E Hrow Hres Hr.
  apply Mbind_Ok in Hr as (af & s6 & Ha & Hr). apply reads_Ok in Ha as [-> ->]. apply Mbind_Ok in Hr as (lf & s6 & Hl & Hr). apply lift_Ok in Hl as [_ ->].
  apply order_update_Ok in Hr as (o1 & Ho1 & ->). etrans; [by apply off_frozen | apply write_frozen]. intros _. exists o1.
  split; [done |]. assert (o1 = row) as -> by congruence. apply left_step; [done | lia].
Qed.

Lemma js_sub_nonneg x y : (y <= x)%Q -> 0 <= Qnum (js_sub x y).
Proof. intros Hle. unfold js_sub. apply fl_nonneg, Qnum_nonneg. lra. Qed.

(** Nor does the matching take more than the incoming order has. *)
Lemma match_all_frozen skip newTrade oid o rup l : Forall (fun p => 0 <= or_remaining p.2) l -> forall left s x s', 0 <= Qnum (left_qty o left) ->
  match_all sha256 newTrade oid o rup l left s = Ok (x, s') -> frozen skip s s' /\ 0 <= Qnum (left_qty o x).
Proof.
  induction 1 as [| [id c] l Hc _ IH]; intros left s x s' Hleft Hr; cbn [match_all] in Hr; [by apply Mret_Ok in Hr as [-> ->] |].
  destruct (Qle_bool (left_qty o left) 0) eqn:Hq; [by apply Mret_Ok in Hr as [-> ->] |]. apply Mbind_Ok in Hr as (cl & s1 & Hcl & Hr).
  apply (claim_match_Ok skip) in Hcl as [Hf Hrow]; [| done | done]. destruct cl as [q |].
  - destruct Hrow as [Hqle Hrow]. apply Mbind_Ok in Hr as (y & s2 & Hs & Hr). apply (settle_frozen skip) in Hs; [| done].
    apply IH in Hr as [Hr Hx]; [| by apply js_sub_nonneg]. split; [| done]. etrans; [exact Hf | by etrans].
  - apply IH in Hr as [Hr Hx]; [| done]. split; [by etrans | done].
Qed.

Lemma candidates_nonneg o rup seen : Forall (fun p => 0 <= or_remaining p.2) (match_candidates o rup seen).
Proof.
  unfold match_candidates. rewrite js_sort_perm. apply List.Forall_forall. intros [id c] Hin. apply filter_In in Hin as [_ Hp]. cbn in *.
  unfold on_book in Hp. rewrite !andb_true_iff in Hp. destruct Hp as [[[_ Hp] _] _]. apply Z.ltb_lt in Hp. lia.
Qed.

Lemma matchOrder_frozen newTrade oid o r seen s x s' : 0 <= or_remaining o -> matchOrder sha256 newTrade oid o r seen s = Ok (x, s') ->
  frozen oid s s' /\ forall row, orders s' !! oid = Some row -> 0 <= or_remaining row.
Proof.
  intros Hnn Hr. unfold matchOrder in Hr. apply Mbind_Ok in Hr as (left & s1 & Hm & Hr).
  apply (match_all_frozen oid) in Hm as [Hm Hleft]; [| apply candidates_nonneg | by apply Number_pos]. apply Mbind_Ok in Hr as (y & s2 & Hu & Hr).
  apply order_update_Ok in Hu as (o1 & _ & Hs2). match type of Hr with ?m s2 = _ => assert (Hoff : off_book m) by (clear; off_case) end. apply Hoff in Hr. clear Hoff. split.
  - etrans; [exact Hm |]. etrans; [| by apply off_frozen]. rewrite Hs2. by apply write_frozen.
  - intros row. rewrite Hr, Hs2. cbn. rewrite lookup_insert_eq. intros [= <-]. cbn. destruct left as [q |]; [by apply num_to_col_nonneg | done].
Qed.

(** ** Placement and cancellation *)

Definition book_ok (s : odb) : Prop := forall id o, orders s !! id = Some o -> 0 <= or_remaining o.
(** What a request leaves of the book. *)
Definition book_step (s s' : odb) : Prop := (forall id o, orders s !! id = Some o -> exists o', orders s' !! id = Some o' /\ order_step o o') /\ (book_ok s -> book_ok s').
#[export] Instance book_step_preorder : PreOrder book_step.
Proof.
  split; [split; eauto |]. { intros id o Ho. exists o. split; [done | reflexivity]. }
  intros s1 s2 s3 [A1 A2] [B1 B2]. split; [| auto]. intros id o Ho. destruct (A1 id o Ho) as (o2 & Ho2 & S1). destruct (B1 id o2 Ho2) as (o3 & Ho3 & S2).
  exists o3. split; [done | by etrans].
Qed.

Lemma frozen_step oid s s' : frozen oid s s' -> (orders s !! oid = None \/ exists o o', orders s !! oid = Some o /\ orders s' !! oid = Some o' /\ order_step o o') ->
  (book_ok s -> forall row, orders s' !! oid = Some row -> 0 <= or_remaining row) -> book_step s s'.
Proof.
  intros Hf Ho Hnn. split.
  - intros id o Hid. destruct (decide (id = oid)) as [-> | Hne].
    + destruct Ho as [Ho | (o1 & o2 & H1' & H2' & Hs)]; [congruence |]. exists o2. split; [done |]. by assert (o = o1) as -> by congruence.
    + specialize (Hf id Hne). rewrite Hid in Hf. inversion Hf as [o1 o2 Hs |]; subst. eauto.
  - intros Hk id o Hid. destruct (decide (id = oid)) as [-> | Hne]; [by eapply Hnn |]. specialize (Hf id Hne). rewrite Hid in Hf.
    inversion Hf as [o1 o2 Hs Ha |]; subst. apply (os_shrinks _ _ Hs). by eapply (Hk id).
Qed.

Lemma order_create_Ok id o s x s' : order_create id o s = Ok (x, s') -> orders s !! id = None /\ s' = set_orders (<[id := o]> (orders s)) s.
Proof.
  intros Hr. unfold order_create in Hr. rewrite get_bind in Hr. apply Mbind_Ok in Hr as (y & s1 & Hc & Hr). apply check_Ok in Hc as [_ ->].
  apply Mbind_Ok in Hr as (y2 & s1 & Hc & Hr). apply check_Ok in Hc as [Hn ->]. apply Mbind_Ok in Hr as (y3 & s1 & Hc & Hr). apply check_Ok in Hc as [_ ->].
  apply put_Ok in Hr as ->. split; [by destruct (orders s !! id) | done].
Qed.

Lemma place_step oid newTrade u side type price qty op now quoted seen s x s' : 0 <= Qnum qty ->
  place_tx sha256 wire_placed oid newTrade u side type price qty op now quoted seen s = Ok (x, s') -> book_step s s'.
Proof.
  intros Hq Hr. unfold place_tx in Hr. apply off_then in Hr as (r & s1 & E1 & Hr); [| unfold reserve_funds; off_case]. apply Mbind_Ok in Hr as (y & s2 & Hc & Hr).
  apply order_create_Ok in Hc as [Hn Hs2]. apply off_then in Hr as (y2 & s3 & E3 & Hr); [| off_case]. apply Mbind_Ok in Hr as (y3 & s4 & Hm & Hr).
  apply matchOrder_frozen in Hm as [Hf Hrow]; [| by apply num_to_col_nonneg]. apply off_cash in Hr. apply (frozen_step oid).
  - etrans; [by apply off_frozen |]. etrans; [| by apply off_frozen]. etrans; [| exact Hf]. etrans; [| by apply off_frozen]. rewrite Hs2. by apply write_frozen.
  - left. by rewrite <- E1.
  - intros _ row. rewrite Hr. apply Hrow.
Qed.

Lemma cancel_step oid u side s x s' : book_ok s -> cancel_order_tx sha256 oid u side s = Ok (x, s') -> book_step s s'.
Proof.
  intros Hk Hr. unfold cancel_order_tx in Hr. rewrite get_bind in Hr. destruct (orders s !! oid) as [o |] eqn:Ho; [| by apply throw_Ok in Hr].
  apply Mbind_Ok in Hr as (y & s1 & Hc & Hr). apply check_Ok in Hc as [Hres ->]. apply Mbind_Ok in Hr as (y2 & s1 & Hp & Hr). apply put_Ok in Hp as Hs1.
  assert (Hs : order_step o (with_left 0 O_CANCELLED o)) by (apply left_step; [done | lia]).
  match type of Hr with ?m s1 = _ => assert (Hoff : off_book m) by (clear; off_case) end. apply Hoff in Hr. clear Hoff.
  assert (He : orders s' !! oid = Some (with_left 0 O_CANCELLED o)) by (rewrite Hr, Hs1; apply lookup_insert_eq). apply (frozen_step oid).
  - etrans; [| by apply off_frozen]. rewrite Hs1. by apply write_frozen.
  - right. eauto.
  - intros _ row Hrow. rewrite He in Hrow. injection Hrow as <-. done.
Qed.

(** A request to the book: a placement of a positive quantity, or a
    cancellation, whatever it read before its transaction. *)
Inductive ostep (s s' : odb) : Prop :=
| ob_place oid newTrade u side type price q op now before quoted seen r :
    placeOrder sha256 wire_placed oid newTrade u side type price q op now before quoted seen s = (r, s') -> ostep s s'
| ob_cancel oid u before r : cancelOrder sha256 oid u before s = (r, s') -> ostep s s'.

Lemma placed_size u side type price q before sd ty z pr : check_placement u side type price q before = Ok (sd, ty, z, pr) -> 0 <= Qnum z.
Proof.
  intros Hc. unfold check_placement in Hc. apply bind_Ok in Hc as (sd' & _ & Hc). apply bind_Ok in Hc as (ty' & _ & Hc). apply bind_Ok in Hc as (n & _ & Hc).
  apply bind_Ok in Hc as (z' & Hz & Hc). apply bind_Ok in Hc as (pr' & _ & Hc). apply bind_Ok in Hc as (b & _ & Hc). apply bind_Ok in Hc as (y & _ & Hc). injection Hc as -> -> -> ->.
  destruct n as [q' | neg |]; [| by destruct neg | done]. destruct (js_lt q' MIN_ORDER_SIZE) eqn:Hlt; [done |]. injection Hz as ->.
  unfold js_lt in Hlt. apply negb_false_iff, Qle_bool_iff in Hlt. apply Qnum_nonneg. unfold MIN_ORDER_SIZE in Hlt. lra.
Qed.

Lemma ostep_book s s' : book_ok s -> ostep s s' -> book_step s s'.
Proof.
  intros Hk [oid newTrade u side type price q op now before quoted seen r Hr | oid u before r Hr].
  - unfold placeOrder in Hr. destruct (check_placement _ _ _ _ _ _) as [[[[sd ty] z] pr] |] eqn:Hv; [| by injection Hr as _ <-].
    apply tx_cases in Hr as [(x & _ & Hr) | (e & _ & ->)]; [| done]. eapply place_step; [by eapply placed_size | exact Hr].
  - unfold cancelOrder in Hr. match type of Hr with match ?v with _ => _ end = _ => destruct v as [o |] end; [| by injection Hr as _ <-].
    apply tx_cases in Hr as [(x & _ & Hr) | (e & _ & ->)]; [by eapply cancel_step | done].
Qed.

(** C26: along any placements and cancellations, in any order and whatever each
    of them read before its own transaction, every order on the book keeps its
    owner, side, price and quantity; what is left of it never grows and never
    falls below zero; and once it is filled or cancelled its row never changes
    again, so its reserve is not paid out a second time. *)
Theorem order_final s s' : book_ok s -> rtc ostep s s' -> book_ok s' /\
  forall id o, orders s !! id = Some o -> exists o', orders s' !! id = Some o' /\ same_terms o o' /\ 0 <= or_remaining o' <= or_remaining o /\ (resting o = false -> o' = o).
Proof.
  intros Hk Hs. assert (Hb : book_step s s').
  { induction Hs as [| s s1 s2 Hs _ IH]; [done |]. pose proof (ostep_book _ _ Hk Hs) as Hb. etrans; [exact Hb |]. apply IH. by apply Hb. }
  split; [by apply Hb |]. intros id o Ho. destruct (proj1 Hb id o Ho) as (o' & Ho' & [Ht Hfin Hsh]). exists o'. exact (conj Ho' (conj Ht (conj (Hsh (Hk id o Ho)) Hfin))).
Qed.
End Book.

(** ** Concrete runs *)

#[local] Abbreviation ob_place_order := (@placeOrder Decimal20 ToFixedColumn ToFixedSend run_sha (fun _ _ => "placed"%string)).
#[local] Abbreviation ob_cancel_order := (@cancelOrder Decimal20 ToFixedColumn ToFixedSend run_sha).
#[local] Abbreviation ob_step := (@ostep Decimal20 ToFixedColumn ToFixedSend run_sha (fun _ _ => "placed"%string)).

(** Users 1 and 2 have 100 and 5 USDC and 50 and 40 points. *)
Definition ob_open : odb :=
  ODB (ADB (VDB run_open ∅ ∅ {[ 1 := Profile BAN_ACTIVE false 5000000000; 2 := Profile BAN_ACTIVE false 4000000000 ]} ∅ ∅) ∅ ∅ ∅ ∅ ∅ ∅ ∅) ∅ ∅.
Definition ob_fin (q : Q) : option Num.num := Some (Num.Fin q).
Definition ob_trade (id : string) : string := ("t-" +:+ id)%string.

(** User 2 offers 40 points at 0.5 USDC; user 1 buys 10 at up to 0.75. *)
Definition ob_ask : odb := (ob_place_order "o1"%string ob_trade 2 (Some SELL) (Some LIMIT) (ob_fin (1 # 2)) (ob_fin 40) None 10 ob_open ob_open ob_open ob_open).2.
Definition ob_bid : odb := (ob_place_order "o2"%string ob_trade 1 (Some BUY) (Some LIMIT) (ob_fin (3 # 4)) (ob_fin 10) None 11 ob_ask ob_ask ob_ask ob_ask).2.
Definition ob_cancelled : odb := (ob_cancel_order "o1"%string 2 ob_bid ob_bid).2.

(** The taker pays the price of the ask, the maker gets it less both fees, and
    the cancellation returns the rest of the ask. *)
Example ob_run :
  (avail 1 (cash_of ob_bid), avail 2 (cash_of ob_bid), azm 1 (account ob_bid), azm 2 (account ob_bid), net BOOK_CLEARING (ledger (cash_of ob_bid)), azm 2 (account ob_cancelled))
  = (9500000000, 996500000, 6000000000, 0, 0, 3000000000).
Proof. vm_compute. reflexivity. Qed.

Lemma order_final_witness : exists o', orders ob_cancelled !! "o2"%string = Some o' /\ or_status o' = O_FILLED.
Proof.
  assert (Hs : rtc ob_step ob_bid ob_cancelled).
  { apply rtc_once. eapply (@ob_cancel Decimal20 ToFixedColumn ToFixedSend run_sha (fun _ _ => "placed"%string) _ _ "o1"%string 2 ob_bid). apply surjective_pairing. }
  assert (Hk : book_ok ob_bid).
  { apply map_Forall_to_list. assert (Hl : forallb (fun p => 0 <=? or_remaining p.2) (map_to_list (orders ob_bid)) = true) by (vm_compute; reflexivity).
    apply List.Forall_forall. intros [id o] Hin. apply Z.leb_le. exact (proj1 (List.forallb_forall _ _) Hl (id, o) Hin). }
  assert (Ho : exists o, orders ob_bid !! "o2"%string = Some o /\ resting o = false /\ or_status o = O_FILLED) by (eexists; split_and!; vm_compute; reflexivity).
  destruct Ho as (o & Ho & Hres & Hst). destruct (@order_final Decimal20 ToFixedColumn ToFixedSend run_sha (fun _ _ => "placed"%string) ob_bid ob_cancelled Hk Hs) as [_ Hf].
  destruct (Hf _ _ Ho) as (o' & Ho' & _ & _ & Hfin). exists o'. split; [exact Ho' |]. rewrite (Hfin Hres). exact Hst.
Defined.

(** ** What the rounding of a price gives away

    The reserve is the product of the doubles of the request, the refund of a
    cancellation is computed with the price column, which has eight decimals. *)

Section Refund.
Context `{DecimalLib} `{PrismaSend} (sha256 : string -> string) (wire_placed : string -> order_row -> string).

Definition with_cash (w : edb) (s : odb) : odb := ODB (set_sav (set_bank w (sav (account s))) (account s)) (orders s) (trades s).

Lemma on_cash_Ok {A} (m : M vdb A) s a s' : on_cash m s = Ok (a, s') -> exists v, m (sav (account s)) = Ok (a, v) /\ s' = ODB (set_sav v (account s)) (orders s) (trades s).
Proof.
  unfold on_cash, on_account. destruct (on_sav m (account s)) as [[x p] |] eqn:Hp; [| done]. intros [= -> <-]. apply on_sav_Ok in Hp as (v & Hv & ->). by exists v.
Qed.

Lemma book_post_Ok key u entity id a b x s y s' : 0 <= x ->
  book_post sha256 (book_posting key u entity id [debit_line a (exact_dec x); credit_line b (exact_dec x)]) s = Ok (y, s') ->
  exists l', s' = with_cash (set_ledger l' (cash_of s)) s /\ posted sha256 key [NLine a x 0; NLine b 0 x] (ledger (cash_of s)) l'.
Proof.
  intros Hx Hr. unfold book_post in Hr. apply Mbind_Ok in Hr as (r & s1 & Hp & Hr). apply Mret_Ok in Hr as [_ ->]. apply on_cash_Ok in Hp as (v & Hp & ->).
  apply (vault_posted sha256 _ _ _ _ _ _ [DebitOf a x; CreditOf b x]) in Hp as (l' & -> & Hp & _); [by exists l' | by repeat constructor | done].
Qed.

Lemma fl_pos q : (0 < q)%Q -> (0 < fl q)%Q.
Proof. intros Hq. pose proof (fl_error' q) as He. rewrite (Qabs_pos q) in He by lra. apply Qabs_Qle_condition in He. lra. Qed.
Lemma not_le_0 q : (0 < q)%Q -> Qle_bool q 0 = false.
Proof. intros Hq. apply not_true_iff_false. intros Hle. apply Qle_bool_iff in Hle. lra. Qed.
Lemma usdc_pos n : 0 < n -> (0 < usdc n)%Q.
Proof. intros Hn. unfold usdc, Qlt. cbn [Qnum Qden]. lia. Qed.

(** A limit BUY that finds no seller: what it took and what it left. *)
Record bid_rests (oid : string) (u n P : Z) (r : Q) (s s1 : odb) : Prop := {
  br_order : exists o, orders s1 !! oid = Some o /\ or_userId o = u /\ or_side o = BUY /\ or_price o = Some P /\ or_remaining o = n /\ resting o = true;
  br_user : exists row, users (cash_of s1) !! u = Some row /\ user_ok row = true /\ availableBalance row = avail u (cash_of s) - paid_units (num_dec r);
  br_posted : posted sha256 (reserve_key oid) [NLine (liability_code u) (toFixedZ 8 r) 0; NLine BOOK_CLEARING 0 (toFixedZ 8 r)] (ledger (cash_of s)) (ledger (cash_of s1));
}.

Lemma bid_placed oid newTrade u p n op now quoted seen s x s1 (P := num_to_col p) : 0 < n <= SAFE_UNITS -> (0 < p)%Q ->
  (forall id c q, orders seen !! id = Some c -> or_side c = SELL -> or_price c = Some q -> P < q) ->
  place_tx sha256 wire_placed oid newTrade u BUY LIMIT (Some p) (Number_of_units n) op now quoted seen s = Ok (x, s1) ->
  bid_rests oid u n P (js_mul (Number_of_units n) p) s s1.
Proof.
  intros Hn Hp Hno Hr. unfold place_tx in Hr. unfold reserve_funds in Hr. set (r := js_mul (Number_of_units n) p) in *.
  change (buy_reserve LIMIT (Number_of_units n) (Some p) quoted) with r in Hr. cbv zeta in Hr.
  assert (Hq : (0 < Number_of_units n)%Q) by (apply fl_pos, usdc_pos; lia). assert (Hr0 : (0 < r)%Q) by (apply fl_pos; by apply Qmult_lt_0_compat).
  assert (Hrn : 0 <= Qnum r) by (apply Qnum_nonneg; lra). rewrite num_col_Number in Hr by lia. fold P in Hr. cbn [fmap option_fmap option_map] in Hr.
  change (num_to_col <$> Some p) with (Some P) in Hr. set (order := OrderRow _ _ _ _ _ _ _ _) in *.
  apply Mbind_Ok in Hr as (o & s2 & Hf & Hr). rewrite (not_le_0 r Hr0) in Hf. apply Mbind_Ok in Hf as (k & s3 & Hf & Hc). apply Mbind_Ok in Hc as (y & s4 & Hc & Hm).
  apply check_Ok in Hc as [Hc ->]. apply Mret_Ok in Hm as [-> ->]. apply on_cash_Ok in Hf as (v & Hf & ->).
  apply balance_updateMany_Ok in Hf as [[-> _] | (_ & row & pf & Hu & _ & Hle & Hok & ->)]; [done |].
  assert (Hd : balance_delta (- num_dec r) row = Delta (- paid_units (num_dec r)) 0 0).
  { unfold balance_delta. rewrite col_add_debit by (done || by apply num_dec_nonneg). f_equal. lia. }
  rewrite Hd in *. apply Mbind_Ok in Hr as (y1 & s2 & Hc' & Hr). apply order_create_Ok in Hc' as [_ ->]. rewrite (not_le_0 r Hr0) in Hr.
  apply Mbind_Ok in Hr as (y2 & s2 & Hpost & Hr). rewrite !exact_num_exact_dec in Hpost by done. apply book_post_Ok in Hpost as (l' & -> & Hpost); [| by apply fixed8_nonneg].
  apply Mbind_Ok in Hr as (y3 & s2 & Hm & Hr). apply on_cash_Ok in Hr as (v & Hr & ->). apply commit_claim_tx_Ok in Hr as [ops ->].
  assert (Hnil : forall rup, match_candidates order rup seen = []).
  { intros rup. unfold match_candidates. assert (Hl : List.filter (fun q : string * order_row => on_book (opposite (or_side order)) q.2 && price_matches order rup q.2 && negb (or_userId q.2 =? or_userId order))
      (map_to_list (orders seen)) = []); [| by rewrite Hl]. apply filter_none. intros [id c] Hin. apply elem_of_map_to_list in Hin. cbn [snd].
    destruct (on_book _ c) eqn:Hob; [| done]. unfold on_book in Hob. rewrite !andb_true_iff in Hob. destruct Hob as [[[Hsd _] _] _]. apply bool_decide_eq_true in Hsd.
    unfold price_matches. cbn [or_type or_side order]. destruct (or_price c) as [q |] eqn:Hpr; [| done]. specialize (Hno id c q Hin Hsd Hpr).
    assert (Hgt : q <=? price_of order = false) by (apply Z.leb_gt; exact Hno). by rewrite Hgt. }
  unfold matchOrder in Hm. rewrite Hnil in Hm. cbn [match_all] in Hm. apply Mbind_Ok in Hm as (left & s3 & Hl & Hm). apply Mret_Ok in Hl as [-> ->].
  apply Mbind_Ok in Hm as (y4 & s4 & Hup & Hm). apply order_update_Ok in Hup as (o1 & Ho1 & ->). cbn [or_type order] in Hm. apply Mret_Ok in Hm as [_ ->].
  cbn [with_cash set_orders orders] in Ho1. rewrite lookup_insert_eq in Ho1. injection Ho1 as <-.
  assert (Hav : avail u (cash_of s) = availableBalance row) by (unfold avail, bucket, cash_of; by rewrite Hu). split.
  - eexists. cbn. rewrite lookup_insert_eq. split; [reflexivity |]. split_and!; try done. cbn [left_qty default or_remaining order]. rewrite (not_le_0 _ Hq). by destruct (js_lt 0 _).
  - eexists. cbn. rewrite lookup_insert_eq. split; [reflexivity |]. split; [done |]. cbn. lia.
  - exact Hpost.
Qed.

(** The cancellation pays the column price of what is left. *)
Lemma bid_cancelled oid u n P s1 s2 row : 0 < n -> 0 <= P ->
  (exists o, orders s1 !! oid = Some o /\ or_userId o = u /\ or_side o = BUY /\ or_price o = Some P /\ or_remaining o = n /\ resting o = true) ->
  users (cash_of s1) !! u = Some row -> user_ok row = true -> cancelOrder sha256 oid u s1 s1 = (Ok tt, s2) ->
  let c := js_mul (Number_of_units n) (Number_of_units P) in
  avail u (cash_of s2) = availableBalance row + num_to_col c /\
  posted sha256 (cancel_order_key oid) [NLine BOOK_CLEARING (toFixedZ 8 c) 0; NLine (liability_code u) 0 (toFixedZ 8 c)] (ledger (cash_of s1)) (ledger (cash_of s2)).
Proof.
  intros Hn HP (o & Ho & Hou & Hos & Hop & Hor & Hres) Hu Hok Hr c. unfold cancelOrder in Hr. rewrite Ho in Hr.
  match type of Hr with match ?v with _ => _ end = _ => destruct v as [o' |] eqn:Hv end; [| done].
  assert (o' = o) as ->. { apply bind_Ok in Hv as (o1 & Ho1 & Hv). injection Ho1 as <-. do 2 (apply bind_Ok in Hv as (? & _ & Hv)). by injection Hv. }
  rewrite Hos in Hr. apply tx_cases in Hr as [(x & _ & Hr) | (e & [=] & _)].
  unfold cancel_order_tx in Hr. rewrite get_bind, Ho, Hres, Hop, Hor in Hr. apply Mbind_Ok in Hr as (y & s3 & Hc & Hr). apply check_Ok in Hc as [_ ->].
  apply Mbind_Ok in Hr as (y2 & s3 & Hp & Hr). apply put_Ok in Hp as ->. destruct (Z.leb_spec n 0); [lia |]. apply Mbind_Ok in Hr as (q & s3 & Hl & Hr).
  apply lift_Ok in Hl as [[= <-] ->]. fold c in Hr.
  assert (Hc0 : 0 <= Qnum c) by (apply fl_nonneg; apply Qnum_nonneg, Qmult_le_0_compat; apply Qnum_nonneg, fl_nonneg; cbn [Qnum]; lia).
  apply Mbind_Ok in Hr as (y3 & s3 & Hi & Hr). apply on_cash_Ok in Hi as (v & Hi & ->). apply balance_update_Ok in Hi as (row' & Hu' & _ & ->).
  assert (row' = row) as -> by (unfold cash_of in Hu; cbn in Hu'; congruence). rewrite !exact_num_exact_dec in Hr by done.
  apply book_post_Ok in Hr as (l' & -> & Hpost); [| by apply fixed8_nonneg]. split; [| exact Hpost].
  assert (Hnn : 0 <= availableBalance row) by (unfold user_ok, column_ok in Hok; rewrite !andb_true_iff in Hok; destruct Hok as [[[Hok _] _] _]; by apply Z.leb_le).
  unfold avail, bucket. cbn. rewrite lookup_insert_eq. cbn. rewrite col_add_credit, num_dec_col by (done || by apply num_dec_nonneg). lia.
Qed.

(** The two products, in units. *)
Lemma refund_gap n p (P := num_to_col p) (r := js_mul (Number_of_units n) p) (c := js_mul (Number_of_units n) (Number_of_units P)) :
  0 < n <= SAFE_UNITS -> (0 < p <= usdc P)%Q -> n * P <= 10 ^ 8 * SAFE_UNITS ->
  let gap := (usdc n * (usdc P - p) * 100000000)%Q in
  (gap - 2 <= inject_Z (num_to_col c - paid_units (num_dec r)))%Q /\ (gap - 2 <= inject_Z (toFixedZ 8 c - toFixedZ 8 r))%Q.
Proof.
  intros Hn [Hp Hup] Hmax gap. set (N := usdc n). set (V := usdc P) in *. set (x := Number_of_units n) in *. set (y := Number_of_units P) in *.
  assert (HN : (0 < N)%Q) by (apply usdc_pos; lia). assert (HV : (0 < V)%Q) by lra.
  assert (Hx : (N * (9007199254740991 # 9007199254740992) <= x <= N * (9007199254740993 # 9007199254740992))%Q).
  { pose proof (fl_error' N) as He. change (fl N) with x in He. rewrite (Qabs_pos N) in He by lra. apply Qabs_Qle_condition in He. lra. }
  assert (Hy : (V * (9007199254740991 # 9007199254740992) <= y <= V * (9007199254740993 # 9007199254740992))%Q).
  { pose proof (fl_error' V) as He. change (fl V) with y in He. rewrite (Qabs_pos V) in He by lra. apply Qabs_Qle_condition in He. lra. }
  set (T := (N * V)%Q). set (U := (N * p)%Q). assert (HT : (0 < U <= T)%Q) by (split; [by apply Qmult_lt_0_compat | apply Qmult_le_l; done]).
  assert (HTm : (T <= 10000000)%Q) by (unfold T, N, V, usdc, Qle, Qmult; cbn [Qnum Qden]; unfold SAFE_UNITS in Hmax; lia).
  assert (Hxy : (T * (9007199254740991 # 9007199254740992) * (9007199254740991 # 9007199254740992) <= x * y)%Q).
  { assert (Hm : (N * (9007199254740991 # 9007199254740992) * (V * (9007199254740991 # 9007199254740992)) <= x * y)%Q) by (apply Qmult_le_compat_nonneg; lra). unfold T. lra. }
  assert (Hxy' : (x * y <= T * (9007199254740993 # 9007199254740992) * (9007199254740993 # 9007199254740992))%Q).
  { assert (Hm : (x * y <= N * (9007199254740993 # 9007199254740992) * (V * (9007199254740993 # 9007199254740992)))%Q) by (apply Qmult_le_compat_nonneg; lra). unfold T. lra. }
  assert (Hxp : (0 <= x * p <= U * (9007199254740993 # 9007199254740992))%Q).
  { split; [apply Qmult_le_0_compat; lra |]. assert (Hm : (x * p <= N * (9007199254740993 # 9007199254740992) * p)%Q) by (apply Qmult_le_compat_nonneg; lra). unfold U. lra. }
  assert (Hc : (Qabs (c - x * y) <= x * y * (1 # 9007199254740992))%Q) by (pose proof (fl_error' (x * y)) as He; rewrite (Qabs_pos (x * y)) in He by lra; exact He).
  assert (Hr : (Qabs (r - x * p) <= x * p * (1 # 9007199254740992))%Q) by (pose proof (fl_error' (x * p)) as He; rewrite (Qabs_pos (x * p)) in He by lra; exact He).
  apply Qabs_Qle_condition in Hc, Hr. assert (Hc0 : 0 <= Qnum c) by (apply Qnum_nonneg; lra). assert (Hr0 : 0 <= Qnum r) by (apply Qnum_nonneg; lra).
  assert (Hg : (gap == T * 100000000 - U * 100000000)%Q) by (unfold gap, T, U, N, V; ring). rewrite Hg. clear Hg gap.
  pose proof (fixed8_near (num_dec c) (num_dec_nonneg c Hc0)) as C1. rewrite <- num_dec_col in C1. pose proof (paid_near (num_dec r)) as R1.
  pose proof (fixed8_near c Hc0) as C2. pose proof (fixed8_near r Hr0) as R2.
  pose proof (num_dec_close c) as Dc. pose proof (num_dec_close r) as Dr.
  rewrite (Qabs_pos (num_dec c)) in Dc by (apply Qnum_nonneg; by apply num_dec_nonneg). rewrite (Qabs_pos (num_dec r)) in Dr by (apply Qnum_nonneg; by apply num_dec_nonneg).
  apply Qabs_Qle_condition in C1, R1, C2, R2, Dc, Dr. unfold Z.sub. rewrite !inject_Z_plus, !inject_Z_opp.
  set (xy := (x * y)%Q) in *. set (xp := (x * p)%Q) in *. clearbody T U xy xp. split; lra.
Qed.

(** C35: the rounding of a price pays.  For every quantity and every price whose
    column rounds it up, a limit BUY that finds no seller and is cancelled gives
    the buyer the quantity times the rounding of the price, up to two units: the
    reserve was taken at the price of the request and is returned at the price
    of the column.  The ledger takes the difference from the clearing account of
    all orders.  So the buyer gains as soon as that product is three units.
    Amounts are below ten million. *)
Theorem cancel_pays_more oid newTrade u p n op now before quoted seen s s1 s2 (P := num_to_col p) (gap := (usdc n * (usdc P - p) * 100000000)%Q) :
  0 < n <= SAFE_UNITS -> (0 < p <= usdc P)%Q -> n * P <= 10 ^ 8 * SAFE_UNITS ->
  (forall id c q, orders seen !! id = Some c -> or_side c = SELL -> or_price c = Some q -> P < q) ->
  find_key (reserve_key oid) (ledger (cash_of s)) = None -> find_key (cancel_order_key oid) (ledger (cash_of s)) = None ->
  placeOrder sha256 wire_placed oid newTrade u (Some BUY) (Some LIMIT) (Some (Num.Fin p)) (Some (Num.Fin (Number_of_units n))) op now before quoted seen s = (Ok tt, s1) ->
  cancelOrder sha256 oid u s1 s1 = (Ok tt, s2) ->
  (gap - 2 <= inject_Z (avail u (cash_of s2) - avail u (cash_of s)))%Q /\
  (gap - 2 <= inject_Z (net BOOK_CLEARING (ledger (cash_of s2)) - net BOOK_CLEARING (ledger (cash_of s))))%Q /\
  ((3 <= gap)%Q -> avail u (cash_of s) < avail u (cash_of s2) /\ net BOOK_CLEARING (ledger (cash_of s)) < net BOOK_CLEARING (ledger (cash_of s2))).
Proof.
  intros Hn Hp Hmax Hno Hk1 Hk2 Hpl Hcn. unfold placeOrder in Hpl. destruct (check_placement _ _ _ _ _ _) as [[[[sd ty] z] pr] |] eqn:Hv; [| done].
  assert (Hz : sd = BUY /\ ty = LIMIT /\ z = Number_of_units n /\ pr = Some p).
  { unfold check_placement in Hv. cbn in Hv. destruct (js_lt _ MIN_ORDER_SIZE); [done |]. cbn in Hv. destruct (Qle_bool p 0); [done |]. cbn in Hv.
    destruct (azm_of u (account before)); [| done]. cbn in Hv. destruct (js_lt _ _); [done |]. by injection Hv. }
  destruct Hz as (-> & -> & -> & ->). apply tx_cases in Hpl as [(x & _ & Hpl) | (e & [=] & _)].
  apply bid_placed in Hpl as [Ho (row & Hu & Hok & Hav) Hpost]; [| done | by destruct Hp | exact Hno]. fold P in Ho.
  assert (HP : 0 <= P) by (apply num_to_col_nonneg, Qnum_nonneg; lra).
  destruct (bid_cancelled oid u n P s1 s2 row ltac:(lia) HP Ho Hu Hok Hcn) as [Hav2 Hpost2]. destruct (refund_gap n p Hn Hp Hmax) as [G1 G2]. fold P gap in G1, G2.
  destruct (posted_cases _ _ _ _ _ Hpost) as [Hkeys N1]. specialize (N1 Hk1 BOOK_CLEARING). destruct (posted_cases _ _ _ _ _ Hpost2) as [_ N2].
  assert (Hk3 : find_key (cancel_order_key oid) (ledger (cash_of s1)) = None).
  { destruct (find_key (cancel_order_key oid) (ledger (cash_of s1))) as [t |] eqn:Hf; [| done]. apply Hkeys in Hf as [Hf | Hf]; [done | congruence]. }
  specialize (N2 Hk3 BOOK_CLEARING). unfold line_movement in N1, N2. rewrite !sumZ_cons, sumZ_nil in N1, N2. cbn [n_account n_debit n_credit] in N1, N2.
  rewrite !String.eqb_refl in N1, N2. assert (Hcode : String.eqb (liability_code u) BOOK_CLEARING = false) by done. rewrite Hcode in N1, N2.
  assert (E1 : avail u (cash_of s2) - avail u (cash_of s) = num_to_col (js_mul (Number_of_units n) (Number_of_units P)) - paid_units (num_dec (js_mul (Number_of_units n) p))) by lia.
  assert (E2 : net BOOK_CLEARING (ledger (cash_of s2)) - net BOOK_CLEARING (ledger (cash_of s)) = toFixedZ 8 (js_mul (Number_of_units n) (Number_of_units P)) - toFixedZ 8 (js_mul (Number_of_units n) p)) by lia.
  rewrite <- E1 in G1. rewrite <- E2 in G2. split; [exact G1 |]. split; [exact G2 |]. intros H3.
  split; [assert (Hlt : 0 < avail u (cash_of s2) - avail u (cash_of s)) | assert (Hlt : 0 < net BOOK_CLEARING (ledger (cash_of s2)) - net BOOK_CLEARING (ledger (cash_of s)))]; try lia;
    apply Z.lt_le_trans with 1; try lia; rewrite Zle_Qle; change (inject_Z 1) with 1%Q; lra.
Qed.
End Refund.

(** A limit BUY of 10^7 points at 0.000000006 USDC reserves 0.06 USDC; the price
    column stores 0.00000001, and its cancellation refunds 0.1 USDC. *)
Definition dust_price : Q := fl (6 # 1000000000).
Definition dust_bid : res unit * odb :=
  ob_place_order "o1"%string ob_trade 1 (Some BUY) (Some LIMIT) (ob_fin dust_price) (ob_fin (Number_of_units (10 ^ 15))) None 10 ob_open ob_open ob_open ob_open.
Definition dust_cancelled : res unit * odb := ob_cancel_order "o1"%string 1 dust_bid.2 dust_bid.2.

Example dust_run : (avail 1 (cash_of dust_bid.2) - avail 1 (cash_of ob_open), avail 1 (cash_of dust_cancelled.2) - avail 1 (cash_of ob_open), net BOOK_CLEARING (ledger (cash_of dust_cancelled.2)))
  = (-6000000, 4000000, 4000000).
Proof. vm_compute. reflexivity. Qed.

Lemma cancel_pays_more_witness : avail 1 (cash_of ob_open) < avail 1 (cash_of dust_cancelled.2) /\ net BOOK_CLEARING (ledger (cash_of ob_open)) < net BOOK_CLEARING (ledger (cash_of dust_cancelled.2)).
Proof.
  assert (Hp : dust_bid = (Ok tt, dust_bid.2)) by (vm_compute; reflexivity). assert (Hc : dust_cancelled = (Ok tt, dust_cancelled.2)) by (vm_compute; reflexivity).
  assert (HP : @num_to_col ToFixedColumn dust_price = 1) by (vm_compute; reflexivity).
  refine (proj2 (proj2 (@cancel_pays_more Decimal20 ToFixedColumn ToFixedSend run_sha (fun _ _ => "placed"%string) "o1"%string ob_trade 1 dust_price (10 ^ 15) None 10 ob_open ob_open ob_open ob_open
    dust_bid.2 dust_cancelled.2 _ _ _ _ _ _ Hp Hc)) _); rewrite ?HP.
  - unfold SAFE_UNITS. lia.
  - split; vm_compute; [reflexivity | discriminate].
  - unfold SAFE_UNITS. lia.
  - intros id c q Hid. cbn in Hid. discriminate Hid.
  - vm_compute. reflexivity.
  - vm_compute. reflexivity.
  - vm_compute. discriminate.
Defined.

(** ** Market orders *)

Section Market.
Context `{DecimalLib} `{PrismaSend} (sha256 : string -> string).

(** A BUY without a price, which is a market order, cannot be cancelled while
    anything of it is left: its price is read from a null column. *)
Theorem market_buy_uncancellable oid u o s : orders s !! oid = Some o -> or_side o = BUY -> or_userId o = u -> or_price o = None -> resting o = true -> 0 < or_remaining o ->
  cancelOrder sha256 oid u s s = (Err "TypeError", s).
Proof.
  intros Ho Hs Hu Hp Hres Hpos. assert (Hst : bool_decide (or_status o = O_FILLED) || bool_decide (or_status o = O_CANCELLED) = false).
  { destruct o as [? ? ? ? ? ? st ?]. by destruct st. }
  assert (Hx : cancel_order_tx sha256 oid u BUY s = Err "TypeError").
  { unfold cancel_order_tx. rewrite get_bind, Ho, Hres, Hp. apply Z.leb_gt in Hpos. rewrite Hpos. reflexivity. }
  unfold cancelOrder. rewrite Ho. change (of_option (Some o) ?e ≫= ?k) with (k o). cbv beta. rewrite Hu, Z.eqb_refl, Hst. cbn [negb].
  cbn. rewrite Hs. unfold transaction. by rewrite Hx.
Qed.
End Market.

(** A market BUY that is quoted an empty book, and then finds an ask, reserves
    nothing, has no bound on its price and takes the points for nothing: the
    clearing account pays the maker. *)
Definition free_buy : res unit * odb :=
  ob_place_order "o2"%string ob_trade 1 (Some BUY) (Some MARKET) None (ob_fin 10) None 11 ob_ask ob_open ob_ask ob_ask.
Example market_buy_unpaid : (free_buy.1, avail 1 (cash_of free_buy.2), avail 2 (cash_of free_buy.2), azm 1 (account free_buy.2), net BOOK_CLEARING (ledger (cash_of free_buy.2)))
  = (Ok tt, 10000000000, 996500000, 6000000000, 500000000).
Proof. vm_compute. reflexivity. Qed.

(** ** Amounts that do not add up

    The three lines of a match are rounded one by one.  1.08000001 points at 0.5
    USDC are 54000001 units, of which the seller gets 53622000 and the platform
    378000: the ledger refuses the posting, and the order that would have been
    matched is refused. *)
Example unbalanced_match_refused :
  let r := ob_place_order "o2"%string ob_trade 1 (Some BUY) (Some LIMIT) (ob_fin (1 # 2)) (ob_fin (Number_of_units 108000001)) None 11 ob_ask ob_ask ob_ask ob_ask in
  r = (Err "LEDGER_UNBALANCED", ob_ask).
Proof. vm_compute. reflexivity. Qed.
